(* ===== verification/_CoqProject ===== *)
-Q . S2P
Prelude.v
CMem.v
Strlib.v
Lines.v
IniFile.v
ConfigFile.v
Connect.v
HostapdConf.v
Utils.v
GlobalVar.v
MsgCommon.v
BufferHandler.v
CFloat.v
MemInfo.v
Scanf.v
World.v
TimeStamp.v
IwDump.v
IwStation.v
GetRoute.v
StationLink.v
IwBitrates.v
Acs.v
NetStatistics.v
Collector.v
Rpc.v
Linked.v
MsgConfig.v
SnrLists.v
SnrInformation.v
Devices.v
MsgTraffic.v
Counters.v
MsgRadio.v
MsgSystem.v
MsgAssoc.v
MsgSession.v
MsgLists.v
MsgTos.v
MsgAp.v
MsgWiphy.v
MsgChannel.v
MsgBitrate.v
MsgStats.v
MsgHost.v
MsgScan.v
MsgMean.v
MeanService.v
Handover.v
Decoding.v
RoundTrips.v
Ledger.v
Servlet.v
Agent.v
SendLedger.v
Routing.v
HandoverProps.v
Registration.v
StationRound.v
ServletProps.v
EndToEnd.v
ChannelControl.v
MessageFaults.v
Acceptor.v
Elements.v
ApTable.v
Beacons.v
Admission.v
ServerStart.v
LinkDump.v
RadioTools.v
Interfaces.v
Ethtool.v
DlList.v
Eloop.v
Base64.v
Cipher.v
TextCodec.v
