(* ===== verification/Prelude.v ===== *)
(** * The Ethanol agent of hostapd: messages, servlet and exchanges

    Ethanol is a software-defined wireless network in which a controller talks
    to an agent inside each access point and each station.  The agent is the
    program's own code, under [src/hostapd-2.6/src/]: [messaging/] defines the
    messages, the client side of each exchange ([send_] functions), the server
    side ([process_] functions) and the TLS server that dispatches requests
    ([ssl-server.c]); [ini/] reads the agent's configuration;
    [ethanol_functions/] queries and changes the host; [ap/global_var.c] gives
    the agent access to the access point's own state; [ap/ap_list.c] and
    [ap/ieee802_11.c], the table of neighbours and the treatment of management
    frames, are changed so that the controller is told and asked.  This library
    models the messaging layer, the configuration, most of
    [ethanol_functions/], the commands of [iw-4.9/] that the agent runs, the
    interface to hostapd, the parts of hostapd that were changed, and of hostapd's
    own utilities the event loop that the agent lives in, its lists, its texts for
    bytes and the wrapping of keys; and it proves what they do.

    ** How the parts interact

    A [send_] function fills a message structure, sizes and encodes it, opens
    a TLS connection, writes the request and, for a query, reads and decodes
    the reply.  The server accepts connections in a loop and starts a thread
    per connection; the thread runs [servlet]: it reads one request, checks
    the version, dispatches on the type to a [process_] function and writes
    the reply.  A [process_] function decodes the request, answers from the
    host or, when the request names a station, relays it with the matching
    [send_] function, and encodes the reply.  On an access point the channel
    and the frequency come from hostapd, whose [main] registers the functions
    of [global_var.c] as hooks of the agent.  Host measurements come from files
    of the kernel and from the dumps of a modified [iw], which prints one line
    per station, channel or band for the agent to scan.  hostapd tells the
    controller about beacons and asks it before it accepts a station.  In the handover
    experiment a station that measures a weak signal asks the controller for
    an access point; the controller asks the station for the access points in
    range and those for their traffic.

    ** Files

    - [Prelude] (this file): undefined behaviours [ub], results [res], state
      passing [ST], loops, machine integers, the tactics shared by all files.
    - [CMem]: bytes, C strings, the allocator as a class, object
      representations; [ethanol_functions/utils_str.c].
    - [Strlib], [Utils], [Connect], [HostapdConf], [MemInfo],
      [SnrInformation]: [strlib.c], [utils.c], [connect.c],
      [config_hostapd.c], [get_meminfo.c] and [set_snr_information.c] of
      [ethanol_functions/]; files, processes and the shell are interfaces.
    - [Lines], [IniFile], [ConfigFile]: reading a file line by line,
      [ini/ini.c] and [ini/ethanol_config_file.c].
    - [GlobalVar]: [ap/global_var.c] on hostapd's structures, with
      [hostapd_reload_config] of [ap/hostapd.c]; what hostapd and its driver do
      is the interface [Hostapd].
    - [MsgCommon]: [messaging/msg_common.h]: message and error types.
    - [BufferHandler]: [messaging/buffer_handler_fun.c]: the encoders (on the
      block they fill), the decoders (on the bytes received) and the header;
      the byte-level specifications [writes] and [reads]; the classes
      [Message] and [MessageOk], the codec contract every message satisfies,
      and [Entry] and [EntryOk], the same for the entries of arrays; the
      tactics that prove them.
    - [CFloat]: the IEEE arithmetic the handlers use.
    - [Scanf]: the conversions of [sscanf], with the lemma that reads back
      the fields of a printed line.
    - [World]: the interfaces [Net] (OpenSSL and sockets), [Device] and [Host]
      (host queries), [Clock] and [Build] (access point or station, handover
      or not); [messaging/ssl_common.c].
    - [TimeStamp], [IwDump], [IwStation], [GetRoute], [StationLink],
      [IwBitrates], [Acs]: readers of host measurements in
      [ethanol_functions/] -- [time_stamp.c], the survey, station and bit rate
      dumps with the code of [iw-4.9/] that prints them ([survey.c],
      [station.c], [info.c]), [get_route.c] and [get_dns.c], [iw_link.c],
      [getmac.c] and [change_ap.c], [get_acs.c].
    - [NetStatistics], [Collector]: [ethanol_functions/net_statistics.c], the
      list of monitored interfaces and their means, and its collecting thread
      as a step relation.
    - [Rpc]: the part common to all [send_] functions.
    - [Linked]: a world made of a caller and of a peer that answers requests.
    - [MsgConfig], [MsgTraffic], [MsgRadio], [MsgSystem], [MsgAssoc],
      [MsgSession], [MsgLists], [MsgTos], [MsgAp], [MsgWiphy], [MsgChannel],
      [MsgBitrate], [MsgStats], [MsgHost], [MsgScan], [MsgMean]: the message
      files, one [Module] per message: its structure as a [Record], its size,
      encode and decode functions, [send_] and [process_].  In each, [wf] is the well-formed
      values, [normal] the value a receiver rebuilds and [resize] the update
      of [m_size].
    - [SnrLists]: the two lists of [msg_set_snr_threshold.c] and
      [msg_set_snr_interval.c] as finite maps.
    - [Devices]: the linked lists of access points and stations
      ([messaging/list_devices.c], [list_aps.c], [list_stations.c]) on a heap
      of nodes, as finite maps.
    - [Counters]: the protocol the five traffic counters share, proved once
      against the class [Counter].
    - [RoundTrips], [Decoding]: round trips of all the codecs; what the decoders
      make of arbitrary bytes.
    - [Ledger], [SendLedger]: the handles that a connection takes and gives back,
      for each [send_] function; missing replies.
    - [MeanService]: the messages of [msg_mean_sta_stats.c] together with the
      list of [NetStatistics], as a service on a set of interfaces.
    - [Handover], [HandoverProps], [Registration], [StationRound]: the
      handover experiment -- [msg_snr_threshold_reached.c], the hello event of
      [run-server.c] and the loop of [run-station.c].
    - [Servlet], [Agent], [Routing], [ServletProps]: [servlet] with the whole
      switch; complete agents; the handler that each request reaches; the requests
      it refuses and crashes on.
    - [EndToEnd]: caller, network, servlet, handler and device together, and
      relays from a controller through an access point to a station.
    - [ChannelControl]: the channel of an access point, from the controller's
      request to hostapd's structures: the class [HostapdHooks] is what
      hostapd promises to the agent.
    - [MessageFaults]: handlers without a local function, senders that read
      unassigned fields, blocks that are too small.
    - [Acceptor]: the accept loop and its threads as a step relation, with the
      failures of [accept] and [pthread_create] that the loop does not check.
    - [Elements]: the parser of information elements,
      [common/ieee802_11_common.c].
    - [ApTable], [Beacons]: [ap/ap_list.c], the table of neighbouring access
      points as a doubly linked list and hash chains on a heap of nodes; the
      beacons and the timer that change it.
    - [Admission]: [ieee802_11_mgmt] of [ap/ieee802_11.c] with authentication
      and association up to the refusal by the controller; the rest of hostapd
      is the interface [Mlme].
    - [ServerStart]: the set-up of the server, the hello thread and the start
      and stop of the agent, in [messaging/ssl-server.c] and
      [hostapd/main.c].
    - [LinkDump]: [iw link] ([iw-4.9/link.c], with [print_ies] of [scan.c]) and
      its two readers, [iw_link.c] and [sta_link_information.c].
    - [RadioTools]: [80211e.c], [iw_powersave.c], [ap_txpower.c],
      [wapi_txpower.c] and [get_snr_ap.c], with the handlers of
      [iw-4.9/ps.c] and [phy.c] on the other side of the command.
    - [Interfaces], [Ethtool]: [get_interfaces.c], [is_wireless.c] and
      [getnetlink.c]; the kernel is the interface [IfHost].
    - [DlList]: [utils/list.h], circular lists on a heap of nodes.
    - [Eloop]: [utils/eloop.c] built for [select]: sockets, timeouts, signals and
      the loop; the kernel and the handlers are the classes [Kernel] and
      [Handlers], and a handler is a program over the operations of the loop.
    - [Base64], [TextCodec]: [utils/base64.c]; hardware addresses, hexadecimal
      and escaped strings, strings of configuration files and lists of
      frequencies of [utils/common.c].
    - [Cipher]: key wrap, CBC, CTR and RC4 of [crypto/]; the block cipher is the
      class [Aes].

    ** What the theorems show

    - Codecs: each encoder stays inside the block it allocates, announces its
      size in [m_size] and is inverted by its decoder, for every well-formed
      value (usable strings, fields in the range of their C types, the
      current version in the header, a total below 2^31).  Five fields of the
      structures are not sent; the decoder leaves them unassigned ([None]).
    - Exchanges: a counter query returns the device's value, directly or
      through a relay; settings reach the device; pings come back verified;
      version mismatches and unknown types get an error reply; every request
      with a structure reaches the handler of its type; a [send_] function that
      returns has given back the handles it took.
    - The access point: a controller gets the channel and frequency hostapd
      has for an interface, and a channel that is set is the one reported (its
      low eight bits);
      SSIDs are escaped within their array and found by their bytes.
    - Configuration: files are read completely and in lines that fit; a
      document is parsed into its meaning, stated without the parser's functions;
      every field of the agent's configuration comes from the last line for its
      key; a hostapd setting survives being written and read.
    - Measurements: what [iw] prints for stations, for channels and for the bit
      rates of a band, and the kernel for routes, is read back; the mean interference of a channel
      is the mean of its surveys; the monitored interfaces are a set, directly
      and through the messages.
    - Decoding: arbitrary bytes decode to well-formed messages, or to ones with
      a string that has no end.
    - Handover: a device that says hello is registered and configured by its
      type; the choice among known access points is the one with the least
      traffic; and yet no station is told to change in any execution that C
      defines, because the question for the traffic reads a field that was never
      assigned.
    - Neighbours: beacons and timer events keep the table a list in the order of
      the last beacon, of bounded size, whatever their order, and leave a newcomer out only
      when there is no memory for it; elements of a frame are found, and those
      stored are inside it.
    - Admission: an access point accepts or refuses a station as the controller
      decides, and accepts it when the controller is silent; the controller of
      the repository accepts everybody.
    - Tools: what [iw link], [iw get power_save] and [ethtool -S] print is read
      back; the commands the agent gives to [iw] are understood; the addresses
      of the host are gathered by interface.
    - The event loop: its timeouts stay in the order of their times whatever the
      handlers do, and each of them is served once, in order and not too early
      while the clock goes on;
      the circular lists it keeps them in are sequences.
    - Texts: hardware addresses, strings of configuration files, escaped strings
      and Base64 are read back as they were printed, in buffers that are large
      enough; an array of frequencies is sorted in place without repetitions.
    - Keys: unwrapping accepts exactly what wrapping makes; CBC, CTR and RC4 are
      undone.
    - Strings: [strcpytrim] and [trim_string] compute their references.
    - State: the SNR lists, the lists of devices and the list of 802.11e
      settings implement maps; the hello thread numbers its messages and runs
      the controller's event once for each; the accept
      loop keeps one thread per connection that it could start.
    - Faults: [copy_string] under-allocates; [process_msg_bye] decodes from
      NULL; [process_msg_delay] frees twice; an empty version or ping payload
      crashes the server;
      long or combined TOS rules overrun or garble the command; the accept
      loop races on its parameters; missing replies are read as if received;
      fifteen settings are accepted and ignored; the guards of
      [global_var.c] let one interface number too many through; scans are not
      limited; [/proc/meminfo] overruns its array; noise messages overrun
      their block; four [send_] functions read unassigned pointers; a survey
      of one channel overruns the heap; the noise floor of the interference
      factor is never the measured one; of several bands of bit rates only the
      last is reported, without its number; a collection can be left without its thread; packet means
      are never computed; [roam_change_ap] never reports a failure; the name of an
      access point can overrun the stack of both readers of [iw link]; beacons are
      reported whatever the configuration says; the blanks at the end of a
      counter are never removed, and signal and noise change their sign.

    ** Modelling choices

    - The target is LP64, little-endian, with IEEE floats.  An execution that
      C leaves undefined is a value [Err e], so every theorem that gives
      [Ok] also says that the execution is defined.
    - A pointer to a string is [None] (NULL) or the bytes it points to.  A
      buffer of which only a part was received is that part: reading further
      is [ReadOutOfBounds].
    - [malloc] succeeds, except in the event loop and in the table of access
      points, where the answer of the allocator is part of the world; what a block holds beyond the request is the
      parameter [usable] of the class [Allocator], with the C standard's and
      glibc's instances.  Releasing memory is modelled only where it makes the
      execution undefined; leaks are not modelled.
    - Structure fields that are sent without having been assigned are
      arguments named [junk_...].  A pointer that was never assigned is another
      matter: using it is undefined in C, and is [Err ReadIndeterminate].
    - [DEBUG] output and the [printf_] functions are not modelled.
    - The accept loop's [params], a local of the loop body, is one object
      that every iteration reuses, as compilers place it.
    - Loops are structural recursions on their bound.  Fuel is used where the
      bound is not an argument, and the theorems show that it is enough:
      [read_lines] runs with the length of the file (each line takes at least
      a byte, [file_lines_complete]), the searches of [Devices] with the number
      of nodes on the heap (running out is [Diverges], excluded by
      [devices_refine_maps]), and the decimal printer with ten digits, which
      are enough for an [int] (twenty for a [long long]).  The loops over
      elements run with the length of the frame, of which each turn takes at
      least two bytes; the loops over the table of neighbours with the number of
      nodes on the heap; the walk of a circular list likewise.  [eloop_run] is given
      the number of its turns and tells whether it has returned; the loop over the
      signals, to which handlers may add, is given its own.  Escaped text, lists
      of frequencies and data in CTR mode run with their length, of which each
      turn takes at least one.  The copy of the
      survey list runs with more turns than its array has entries, so that it
      ends by returning or by overrunning the array.
    - [sscanf("%f")] is modelled for decimal numbers; the bit rate of a station
      is left out of [IwStation], and [pow] is a parameter of [Acs].
    - hostapd's structures are records with the fields the agent reads.

    ** Not modelled

    Message files that the servlet never dispatches (their bodies are empty, and
    [msg_preamble.c] does not compile); the device functions that are a single
    question to the kernel through netlink or [ioctl] ([wapi_scan.c],
    [wapi_frequency.c], [wlan_info.c] and the like), which are the fields of
    [Device] and [Host]; the rest of hostapd and of [iw], which is upstream code
    that the agent does not change, and the command-line programs.  Of the event
    loop the builds for [poll], [epoll] and [kqueue]; the block cipher, which is
    OpenSSL's. *)
From stdpp Require Import prelude list list_numbers strings.

(** ** Scope and notations *)

Declare Scope ethanol_scope.
Delimit Scope ethanol_scope with eth.
#[global] Open Scope Z_scope.

(** ** Undefined behaviour and fallible computations *)

(** Why an execution of the C code has no defined continuation. *)
Inductive ub :=
| NullDeref          (* a NULL pointer is read or written *)
| ReadOutOfBounds    (* a byte is read that was never received or allocated *)
| ReadIndeterminate  (* a byte is read that was never written *)
| HeapOverflow       (* a write runs past the end of a heap block *)
| StackOverflow      (* a write runs past the end of a local array *)
| SignedOverflow     (* signed arithmetic leaves its type *)
| TrapValue          (* a bool object holds neither 0 nor 1 *)
| DoubleFree         (* a block is released twice *)
| UseAfterFree       (* a released block is read or written *)
| FloatRange         (* a floating value is converted to an integer it does not fit *)
| Diverges           (* a loop without effect never ends *)
| Aborted.           (* an assertion failed *)

#[global] Instance ub_eq_dec : EqDecision ub.
Proof. solve_decision. Defined.

Inductive res (A : Type) : Type :=
| Ok (a : A)
| Err (e : ub).
Arguments Ok {A} a.
Arguments Err {A} e.

#[global] Instance res_ret : MRet res := @Ok.
#[global] Instance res_bind : MBind res := λ A B f m,
  match m with Ok a => f a | Err e => Err e end.
#[global] Instance res_fmap : FMap res := λ A B f m,
  match m with Ok a => Ok (f a) | Err e => Err e end.

(** State passing over [res]: the encoders, the decoders and the program
    itself are [ST] computations over their respective states. *)
Definition ST (S A : Type) : Type := S → res (A * S).

#[global] Instance ST_ret S : MRet (ST S) := λ A a s, Ok (a, s).
#[global] Instance ST_bind S : MBind (ST S) := λ A B f m s,
  match m s with Ok (a, s') => f a s' | Err e => Err e end.

Definition lift {S A} (r : res A) : ST S A := λ s,
  match r with Ok a => Ok (a, s) | Err e => Err e end.
Definition fail {S A} (e : ub) : ST S A := λ _, Err e.

(** [ensure b e] continues when [b] holds and is undefined otherwise. *)
Definition ensure (b : bool) (e : ub) : res unit := if b then Ok tt else Err e.

(** Reading through a possibly NULL pointer. *)
Definition deref {A} (p : option A) : res A :=
  match p with Some a => Ok a | None => Err NullDeref end.

(** [for (i = 0; i < n; i++) body(i)] for a body without early exit. *)
Fixpoint for_from {S} (n : nat) (i : nat) (body : nat → ST S unit) : ST S unit :=
  match n with
  | O => mret tt
  | Datatypes.S n' => body i;; for_from n' (Datatypes.S i) body
  end.
Definition for_upto {S} (n : Z) (body : nat → ST S unit) : ST S unit :=
  for_from (Z.to_nat n) 0 body.

(** The same loop filling the [n] entries of a freshly allocated array. *)
Fixpoint collect {S A} (n : nat) (m : ST S A) : ST S (list A) :=
  match n with
  | O => mret []
  | Datatypes.S n' => a ← m; l ← collect n' m; mret (a :: l)
  end.

(** [a[i]] for an array object holding the values [l]. *)
Definition index {A} (l : list A) (i : nat) : res A :=
  match l !! i with Some a => Ok a | None => Err ReadOutOfBounds end.

(** ** Machine integers (LP64: int 32, long and long long 64 bits) *)

Definition to_u (w z : Z) : Z := z `mod` 2 ^ w.
Definition to_s (w z : Z) : Z :=
  let u := z `mod` 2 ^ w in if u <? 2 ^ (w - 1) then u else u - 2 ^ w.

Abbreviation to_u32 := (to_u 32).
Abbreviation to_u64 := (to_u 64).
Abbreviation to_i32 := (to_s 32).
Abbreviation to_i64 := (to_s 64).

Definition s_ok (w z : Z) : bool := (- 2 ^ (w - 1) <=? z) && (z <? 2 ^ (w - 1)).
Definition u_ok (w z : Z) : bool := (0 <=? z) && (z <? 2 ^ w).
Abbreviation i32_ok := (s_ok 32).
Abbreviation i64_ok := (s_ok 64).
Abbreviation u32_ok := (u_ok 32).

(** Post-increment of an [int] object. *)
Definition incr_int (i : Z) : res Z :=
  if i =? 2 ^ 31 - 1 then Err SignedOverflow else Ok (i + 1).

(** Signed 64-bit addition. *)
Definition add_i64 (a b : Z) : res Z :=
  if i64_ok (a + b) then Ok (a + b) else Err SignedOverflow.

(** ** Generic lemmas *)

Lemma to_u_id w z : 0 ≤ w → u_ok w z = true → to_u w z = z.
Proof. unfold u_ok, to_u. intros. apply Z.mod_small. lia. Qed.

Lemma pow_half w : 0 < w → 2 ^ w = 2 * 2 ^ (w - 1).
Proof. intros. rewrite <- Z.pow_succ_r by lia. f_equal. lia. Qed.

Lemma to_s_id w z : 0 < w → s_ok w z = true → to_s w z = z.
Proof.
  unfold s_ok, to_s. intros Hw H. pose proof (pow_half w Hw).
  assert (z < 0 ∨ 0 ≤ z) as [Hz|Hz] by lia.
  - assert (z `mod` 2 ^ w = z + 2 ^ w) as ->.
    { rewrite <- (Z_mod_plus_full z 1). rewrite Z.mod_small; lia. }
    destruct (Z.ltb_spec (z + 2 ^ w) (2 ^ (w - 1))); lia.
  - rewrite Z.mod_small by lia.
    destruct (Z.ltb_spec z (2 ^ (w - 1))); lia.
Qed.

Lemma to_s_range w z : 0 < w → s_ok w (to_s w z) = true.
Proof.
  unfold s_ok, to_s. intros Hw. pose proof (pow_half w Hw).
  pose proof (Z.mod_pos_bound z (2 ^ w) ltac:(apply Z.pow_pos_nonneg; lia)).
  destruct (Z.ltb_spec (z `mod` 2 ^ w) (2 ^ (w - 1))); lia.
Qed.

Lemma to_s_to_u w z : 0 < w → to_s w (to_u w z) = to_s w z.
Proof. intros. unfold to_s, to_u. by rewrite Z.mod_mod by (apply Z.pow_nonzero; lia). Qed.

Lemma st_bind_Ok {S A B} (m : ST S A) (k : A → ST S B) s a s' :
  m s = Ok (a, s') → (m ≫= k) s = k a s'.
Proof. intros H. unfold mbind, ST_bind. by rewrite H. Qed.

(** A computation that succeeds succeeded in each of its steps. *)
Lemma st_bind_inv {S A B} (m : ST S A) (k : A → ST S B) s r :
  (m ≫= k) s = Ok r → ∃ a s', m s = Ok (a, s') ∧ k a s' = Ok r.
Proof. unfold mbind, ST_bind. destruct (m s) as [[a s']|]; [by eauto|done]. Qed.

(** Continuations that agree on what a step gives. *)
Lemma st_bind_ext {S A B} (m m' : ST S A) (k k' : A → ST S B) s :
  m s = m' s → (∀ a s', m s = Ok (a, s') → k a s' = k' a s') → (m ≫= k) s = (m' ≫= k') s.
Proof. unfold mbind, ST_bind. intros <-. destruct (m s) as [[a s']|]; [by auto|done]. Qed.

Lemma lift_inv {S A} (x : res A) (s : S) a s' : lift x s = Ok (a, s') → x = Ok a ∧ s' = s.
Proof. unfold lift. destruct x; [by intros [= <- <-]|done]. Qed.

Lemma res_bind_Ok {A B} (m : res A) (k : A → res B) a :
  m = Ok a → (m ≫= k) = k a.
Proof. by intros ->. Qed.

Lemma lift_Ok {S A} (r : res A) (s : S) a : r = Ok a → lift r s = Ok (a, s).
Proof. by intros ->. Qed.

Lemma ensure_Ok b e : b = true → ensure b e = Ok tt.
Proof. by intros ->. Qed.

(** ** Automation *)

(** Lemmas that evaluate a monadic step whose result is known. *)
Create HintDb ethanol.
#[export] Hint Resolve lift_Ok ensure_Ok : ethanol.

(** Splits boolean conjunctions assumed true into their conjuncts. *)
Ltac split_andb :=
  repeat match goal with
  | H : _ && _ = true |- _ => apply andb_prop in H; destruct H
  | |- _ && _ = true => apply andb_true_intro; split
  end.

(** Runs the next statement of a monadic program with lemma [H]. *)
Ltac run_inv H :=
  let a := fresh "a" in let s := fresh "s" in let E := fresh "E" in
  apply st_bind_inv in H as (a & s & E & H).
Ltac run H := first [ rewrite (st_bind_Ok _ _ _ _ _ H) | rewrite (res_bind_Ok _ _ _ H) ].

(** Turns comparisons on [Z] that are assumed or claimed [true] into
    propositions. *)
Ltac to_prop :=
  repeat match goal with
  | H : (_ <? _) = true |- _ => apply Z.ltb_lt in H
  | H : (_ <=? _) = true |- _ => apply Z.leb_le in H
  | H : (_ =? _) = true |- _ => apply Z.eqb_eq in H
  | |- (_ <? _) = true => apply Z.ltb_lt
  | |- (_ <=? _) = true => apply Z.leb_le
  | |- (_ =? _) = true => apply Z.eqb_eq
  end.

(** Range side conditions. *)
Ltac in_range :=
  first [ assumption | reflexivity
        | unfold s_ok, u_ok in *; split_andb; to_prop; lia ].
