(* ===== verification/CMem.v ===== *)
(** C memory as the messaging code uses it: byte cells, NUL-terminated
    strings, the allocator, little-endian object representations, and the
    string helpers of [ethanol_functions/utils_str.c]. *)
From stdpp Require Import prelude list list_numbers strings.
From S2P Require Import Prelude.

(** ** Cells and strings *)

(** A byte of storage; [None] is a byte that was never written. *)
Definition cell := option Z.

(** A [char *]: NULL, or the bytes from the pointer to the end of what was
    written into its block. *)
Definition charp := option (list cell).

(** [p != NULL]. *)
Definition nonnull (p : charp) : bool := match p with Some _ => true | None => false end.

Definition lit_bytes (s : string) : list Z :=
  (λ a, Z.of_N (Ascii.N_of_ascii a)) <$> String.list_ascii_of_string s.

Definition cells (bs : list Z) : list cell := Some <$> bs.

(** The pointer to a fresh copy of the bytes [s] and a terminating NUL. *)
Definition mk_str (s : list Z) : charp := Some (cells (s ++ [0])).
Definition lit (s : string) : charp := mk_str (lit_bytes s).

Fixpoint strlen_cells (l : list cell) : res Z :=
  match l with
  | [] => Err ReadOutOfBounds
  | None :: _ => Err ReadIndeterminate
  | Some c :: l' => if c =? 0 then Ok 0 else n ← strlen_cells l'; Ok (n + 1)
  end.
Definition strlen (p : charp) : res Z := l ← deref p; strlen_cells l.

(** The characters of a string, without the NUL. *)
Fixpoint chars_of (l : list cell) : res (list Z) :=
  match l with
  | [] => Err ReadOutOfBounds
  | None :: _ => Err ReadIndeterminate
  | Some c :: l' => if c =? 0 then Ok [] else s ← chars_of l'; Ok (c :: s)
  end.
Definition chars (p : charp) : res (list Z) := l ← deref p; chars_of l.

(** [strcmp(a, b) == 0]; the comparison stops at the first difference. *)
Fixpoint streq_cells (a b : list cell) : res bool :=
  match a, b with
  | Some x :: a', Some y :: b' =>
      if x =? y then (if x =? 0 then Ok true else streq_cells a' b') else Ok false
  | None :: _, _ => Err ReadIndeterminate
  | _ :: _, None :: _ => Err ReadIndeterminate
  | _, _ => Err ReadOutOfBounds
  end.
Definition streq (p q : charp) : res bool :=
  a ← deref p; b ← deref q; streq_cells a b.

(** [strncpy(dst, src, n)]: the [n] bytes stored at [dst]. *)
Fixpoint strncpy (src : list cell) (n : Z) : res (list cell) :=
  if n <=? 0 then Ok [] else
  match src with
  | [] => Err ReadOutOfBounds
  | None :: _ => Err ReadIndeterminate
  | Some c :: src' =>
      if c =? 0 then Ok (replicate (Z.to_nat n) (Some 0))
      else r ← strncpy src' (n - 1); Ok (Some c :: r)
  end.

(** Pointer advance by [n] bytes. *)
Fixpoint advance (l : list cell) (n : Z) : list cell :=
  if n <=? 0 then l else match l with [] => [] | _ :: l' => advance l' (n - 1) end.

(** ** The allocator *)

(** [usable n] is the number of bytes the block returned by [malloc(n)] can
    hold ([malloc_usable_size]); the C standard only promises [n]. *)
Class Allocator := {
  usable : Z → Z;
  usable_ge : ∀ n, 0 ≤ n → n ≤ usable n
}.

(** The allocator of the C standard: nothing beyond the request. *)
Definition exact_alloc : Allocator.
Proof. refine {| usable := λ n, n |}. lia. Defined.

(** glibc on x86_64: 8 bytes of header, chunks of at least 32 bytes, rounded
    to 16. *)
Definition glibc_alloc : Allocator.
Proof.
  refine {| usable := λ n, Z.max 32 ((n + 8 + 15) / 16 * 16) - 8 |}.
  intros n Hn. pose proof (Z_div_mod_eq_full (n + 8 + 15) 16).
  pose proof (Z.mod_pos_bound (n + 8 + 15) 16). lia.
Defined.

(** Copying [strcpy(malloc(n), src)]. *)
Definition malloc_strcpy `{Allocator} (n : Z) (src : charp) : res charp :=
  s ← chars src;
  ensure (Z.of_nat (length s) + 1 <=? usable n) HeapOverflow;;
  Ok (mk_str s).

(** ** utils_str.c *)

(** [copy_string]: the new value of [*dest]; the old block, if any, is
    released.  The request is [strlen(orig + 1)] bytes. *)
Definition copy_string `{Allocator} (orig : charp) : res charp :=
  match orig with
  | None => Ok None
  | Some l => n ← strlen_cells (drop 1 l); malloc_strcpy n orig
  end.

Definition is_blank (c : Z) : bool := (c =? 32) || (c =? 9).
Definition is_blank_nl (c : Z) : bool := (c =? 32) || (c =? 9) || (c =? 10).

(** [trim_string], for strings whose length fits an [int]: [i] skips leading blanks, [f] trailing blanks and newlines
    down to [i]; an empty remainder gives NULL. *)
Fixpoint skip_lead (s : list Z) : list Z :=
  match s with
  | c :: s' => if is_blank c then skip_lead s' else s
  | [] => []
  end.
Fixpoint skip_trail (s : list Z) : list Z :=
  match s with
  | [] => []
  | c :: s' => let r := skip_trail s' in
               if is_blank_nl c && bool_decide (r = []) then [] else c :: r
  end.
Definition trim_string (s : charp) : res charp :=
  match s with
  | None => Ok None
  | Some l => cs ← chars_of l;
      let r := skip_trail (skip_lead cs) in
      Ok (if bool_decide (r = []) then None else mk_str r)
  end.

(** ** Well-formed strings and their normal form *)

Definition is_char (c : Z) : bool := (1 <=? c) && (c <=? 255).

(** A pointer is a usable string when it is NULL or NUL-terminated, with
    byte-valued characters and a length whose message encoding fits an int. *)
Definition cstr_ok (p : charp) : bool :=
  match p with
  | None => true
  | Some l => match chars_of l with
      | Ok s => forallb is_char s && (Z.of_nat (length s) <? 2 ^ 31 - 8)
      | Err _ => false
      end
  end.

(** The characters a pointer stands for; NULL stands for the empty string. *)
Definition text (p : charp) : list Z :=
  match p with
  | None => []
  | Some l => match chars_of l with Ok s => s | Err _ => [] end
  end.

(** The pointer a decoder builds for the characters [s]. *)
Definition norm (s : list Z) : charp :=
  match s with [] => None | _ => mk_str s end.
Definition canon (p : charp) : charp := norm (text p).

(** ** Object representations *)

Definition le (n : Z) (z : Z) : list Z := Z_to_little_endian n 8 z.
Definition of_le (bs : list Z) : Z := little_endian_to_Z 8 bs.

(** ** Lemmas: strings *)

#[global] Arguments cells : simpl never.

Lemma cells_cons c s : cells (c :: s) = Some c :: cells s.
Proof. done. Qed.

Lemma cells_app s t : cells (s ++ t) = cells s ++ cells t.
Proof. apply fmap_app. Qed.

Lemma strlen_chars l : strlen_cells l = (λ s, Z.of_nat (length s)) <$> chars_of l.
Proof.
  induction l as [|[c|] l IH]; simpl; try done.
  destruct (c =? 0); [done|]. rewrite IH.
  destruct (chars_of l); simpl; [|done]. f_equal. lia.
Qed.

Lemma chars_of_Ok l s : chars_of l = Ok s →
  Forall (λ c, c ≠ 0) s ∧ ∃ junk, l = cells s ++ Some 0 :: junk.
Proof.
  revert s. induction l as [|[c|] l IH]; intros s; simpl; try done.
  destruct (Z.eqb_spec c 0) as [->|Hc].
  - intros [= <-]. split; [constructor|]. by exists l.
  - destruct (chars_of l) as [s'|] eqn:E; simpl; [|done].
    intros [= <-]. destruct (IH s' eq_refl) as [Hs [junk ->]].
    split; [by constructor|]. by exists junk.
Qed.

Lemma chars_of_cells s junk :
  Forall (λ c, c ≠ 0) s → chars_of (cells s ++ Some 0 :: junk) = Ok s.
Proof.
  induction 1 as [|c s Hc Hs IH]; [done|].
  rewrite cells_cons. simpl. destruct (Z.eqb_spec c 0); [done|]. by rewrite IH.
Qed.

Lemma is_char_nonzero s : forallb is_char s = true → Forall (λ c, c ≠ 0) s.
Proof.
  induction s as [|c s IH]; simpl; intros H; constructor; split_andb; [|auto].
  unfold is_char in *. lia.
Qed.

Lemma chars_of_mk s :
  Forall (λ c, c ≠ 0) s → chars (mk_str s) = Ok s.
Proof.
  intros H. unfold chars, mk_str. simpl. rewrite cells_app.
  by apply chars_of_cells.
Qed.

Lemma strlen_mk s : Forall (λ c, c ≠ 0) s → strlen (mk_str s) = Ok (Z.of_nat (length s)).
Proof.
  intros H. change (strlen_cells (cells (s ++ [0])) = Ok (Z.of_nat (length s))). rewrite strlen_chars.
  pose proof (chars_of_mk s H) as Hc. change (chars_of (cells (s ++ [0])) = Ok s) in Hc. by rewrite Hc.
Qed.

(** A string copied into a block of its size. *)
Lemma malloc_strcpy_mk `{Allocator} s : Forall (λ c, c ≠ 0) s →
  malloc_strcpy (Z.of_nat (length s) + 1) (mk_str s) = Ok (mk_str s).
Proof.
  intros H0. unfold malloc_strcpy. rewrite chars_of_mk by done. cbn [mbind res_bind].
  pose proof (usable_ge (Z.of_nat (length s) + 1)). by rewrite ensure_Ok by (apply Z.leb_le; lia).
Qed.

(** A usable string: its characters, their number and its layout. *)
Lemma cstr_ok_Some l : cstr_ok (Some l) = true → ∃ s junk,
  chars_of l = Ok s ∧ text (Some l) = s ∧ l = cells s ++ Some 0 :: junk ∧
  forallb is_char s = true ∧ Z.of_nat (length s) < 2 ^ 31 - 8.
Proof.
  simpl. destruct (chars_of l) as [s|] eqn:E; [|done].
  intros H. apply andb_prop in H as [H1 H2].
  destruct (chars_of_Ok _ _ E) as [_ [junk ->]].
  exists s, junk. repeat split; auto. lia.
Qed.

Lemma text_ok p : cstr_ok p = true →
  forallb is_char (text p) = true ∧ Z.of_nat (length (text p)) < 2 ^ 31 - 8.
Proof.
  destruct p as [l|]; [|done]. intros H.
  by destruct (cstr_ok_Some l H) as (s & junk & ? & -> & _ & ?).
Qed.

Lemma text_mk s : forallb is_char s = true → text (mk_str s) = s.
Proof.
  intros H. apply is_char_nonzero, chars_of_mk in H.
  unfold text, mk_str, chars in *. simpl in H. by rewrite H.
Qed.

Lemma cstr_ok_mk s :
  forallb is_char s = true → Z.of_nat (length s) < 2 ^ 31 - 8 → cstr_ok (mk_str s) = true.
Proof.
  intros H ?. pose proof (chars_of_mk s (is_char_nonzero _ H)) as E.
  unfold cstr_ok, mk_str, chars in *. simpl in E. rewrite E, H. lia.
Qed.

Lemma text_norm s : forallb is_char s = true → text (norm s) = s.
Proof. destruct s; [done|]. apply text_mk. Qed.

Lemma cstr_ok_canon p : cstr_ok p = true → cstr_ok (canon p) = true.
Proof.
  intros [H1 H2]%text_ok. unfold canon, norm.
  destruct (text p) eqn:E; [done|]. rewrite <- E in *. by apply cstr_ok_mk.
Qed.

Lemma text_canon p : cstr_ok p = true → text (canon p) = text p.
Proof. intros [H _]%text_ok. by apply text_norm. Qed.

Lemma canon_idemp p : cstr_ok p = true → canon (canon p) = canon p.
Proof. intros H. unfold canon at 1. by rewrite text_canon. Qed.

Lemma strlen_ok l : cstr_ok (Some l) = true →
  strlen (Some l) = Ok (Z.of_nat (length (text (Some l)))).
Proof.
  intros (s & junk & E & Ht & _)%cstr_ok_Some. unfold strlen. simpl in *.
  rewrite strlen_chars, E. simpl. by rewrite E in Ht.
Qed.

Lemma streq_cells_mk s t junk junk' :
  Forall (λ c, c ≠ 0) s → Forall (λ c, c ≠ 0) t →
  streq_cells (cells s ++ Some 0 :: junk) (cells t ++ Some 0 :: junk')
  = Ok (bool_decide (s = t)).
Proof.
  intros Hs. revert t. induction Hs as [|c s Hc Hs IH]; intros t Ht.
  - destruct Ht as [|d t Hd Ht]; [done|]. rewrite cells_cons. simpl. by destruct d.
  - rewrite cells_cons. destruct Ht as [|d t Hd Ht]; rewrite ?cells_cons; simpl.
    + destruct (Z.eqb_spec c 0); [done|]. by rewrite ?bool_decide_false.
    + destruct (Z.eqb_spec c d) as [->|Hcd].
      * destruct (Z.eqb_spec d 0); [done|]. rewrite IH by done.
        f_equal. apply bool_decide_ext. naive_solver.
      * rewrite bool_decide_false; naive_solver.
Qed.

Lemma streq_ok l l' : cstr_ok (Some l) = true → cstr_ok (Some l') = true →
  streq (Some l) (Some l') = Ok (bool_decide (text (Some l) = text (Some l'))).
Proof.
  intros (s & j & _ & Ht & -> & Hs & _)%cstr_ok_Some
         (s' & j' & _ & Ht' & -> & Hs' & _)%cstr_ok_Some.
  rewrite Ht, Ht'. unfold streq. simpl.
  apply streq_cells_mk; by apply is_char_nonzero.
Qed.

Lemma strncpy_full s junk :
  Forall (λ c, c ≠ 0) s →
  strncpy (cells s ++ Some 0 :: junk) (Z.of_nat (length s) + 1) = Ok (cells (s ++ [0])).
Proof.
  induction 1 as [|c s Hc Hs IH]; [done|].
  rewrite cells_cons. simpl.
  destruct (Z.leb_spec (Z.of_nat (S (length s)) + 1) 0); [lia|].
  destruct (Z.eqb_spec c 0); [done|].
  replace (Z.of_nat (S (length s)) + 1 - 1) with (Z.of_nat (length s) + 1) by lia.
  by rewrite IH.
Qed.

Lemma advance_app l r : advance (l ++ r) (Z.of_nat (length l)) = r.
Proof.
  induction l as [|c l IH]; simpl; [by destruct r|].
  destruct (Z.leb_spec (Z.of_nat (S (length l))) 0); [lia|].
  replace (Z.of_nat (S (length l)) - 1) with (Z.of_nat (length l)) by lia. done.
Qed.

(** ** Lemmas: object representations *)

Lemma length_le n z : 0 ≤ n → Z.of_nat (length (le n z)) = n.
Proof. intros. apply length_Z_to_little_endian. lia. Qed.

Lemma of_le_le n z : 0 ≤ n → of_le (le n z) = to_u (8 * n) z.
Proof.
  intros. unfold of_le, le, to_u.
  rewrite little_endian_to_Z_to_little_endian by lia. f_equal. f_equal. lia.
Qed.

Lemma length_cells bs : length (cells bs) = length bs.
Proof. apply length_fmap. Qed.

#[global] Arguments text : simpl never.
#[global] Arguments cstr_ok : simpl never.
#[global] Arguments mk_str : simpl never.
#[global] Arguments le : simpl never.

(** A usable string that is not NULL. *)
Definition named (p : charp) : bool := nonnull p && cstr_ok p.

Lemma chars_named p : named p = true → chars p = Ok (text p).
Proof.
  unfold named. destruct p as [l|]; [|done]. simpl. intros Hp.
  destruct (cstr_ok_Some l Hp) as (s & _ & E & -> & _). unfold chars. simpl. exact E.
Qed.

Lemma streq_spec p q : named p = true → named q = true →
  streq p q = Ok (bool_decide (text p = text q)).
Proof.
  unfold named. destruct p as [l|], q as [k|]; simpl; try done. apply streq_ok.
Qed.

(** ** copy_string and trim_string *)

(** The allocator leaves enough slack for [copy_string] on this argument. *)
Definition copyable `{Allocator} (p : charp) : bool :=
  match p with
  | None => true
  | Some _ => cstr_ok p && bool_decide (text p ≠ []) &&
      (Z.of_nat (length (text p)) + 1 <=? usable (Z.of_nat (length (text p)) - 1))
  end.

(** What [copy_string] does on a non-empty string: a request two bytes short
    of the copy. *)
Lemma copy_string_cases `{Allocator} l :
  cstr_ok (Some l) = true → text (Some l) ≠ [] →
  copy_string (Some l) =
    (ensure (Z.of_nat (length (text (Some l))) + 1
             <=? usable (Z.of_nat (length (text (Some l))) - 1)) HeapOverflow;;
     Ok (mk_str (text (Some l)))).
Proof.
  intros (s & junk & E & Ht & -> & Hs & _)%cstr_ok_Some Hne.
  rewrite Ht in *. apply is_char_nonzero in Hs.
  destruct Hs as [|c s Hc Hs]; [done|].
  unfold copy_string. rewrite cells_cons. simpl drop. rewrite drop_0, strlen_chars.
  rewrite chars_of_cells by done. unfold malloc_strcpy, chars. simpl mbind.
  rewrite cells_cons in E. simpl in *. rewrite E. simpl mbind.
  by replace (Z.of_nat (S (length s)) - 1) with (Z.of_nat (length s)) by lia.
Qed.

Lemma copy_string_canon `{Allocator} p :
  copyable p = true → copy_string p = Ok (canon p).
Proof.
  destruct p as [l|]; [|done]. unfold copyable.
  intros ((Hok & Hne%bool_decide_eq_true)%andb_prop & Hu)%andb_prop.
  rewrite copy_string_cases by done. rewrite Hu. simpl. f_equal.
  unfold canon. by destruct (text (Some l)).
Qed.
#[export] Hint Resolve copy_string_canon : ethanol.

(** Whatever the allocator, a copy that succeeds is faithful. *)
Lemma copy_string_inv `{Allocator} p q : cstr_ok p = true → p = None ∨ text p ≠ [] →
  copy_string p = Ok q → q = canon p.
Proof.
  intros Hp [->|Hne] E; [by injection E|]. destruct p as [l|]; [|done].
  rewrite copy_string_cases in E by done. destruct (_ <=? _) in E; [|done]. injection E as <-.
  unfold canon. by destruct (text (Some l)).
Qed.

Lemma copyable_ok `{Allocator} p : copyable p = true → cstr_ok p = true.
Proof. destruct p; [|done]. simpl. intros H'. by split_andb. Qed.

(** Under the C standard's allocator guarantee, [copy_string] on every
    non-empty string overruns the block it has just allocated. *)
Theorem copy_string_standard_overflow (s : list Z) :
  forallb is_char s = true → Z.of_nat (length s) < 2 ^ 31 - 8 → s ≠ [] →
  @copy_string exact_alloc (mk_str s) = Err HeapOverflow.
Proof.
  intros Hs Hl Hne. pose proof (cstr_ok_mk s Hs Hl) as Hok. unfold mk_str in *.
  rewrite copy_string_cases; fold (mk_str s); rewrite ?text_mk by done; try done.
  simpl usable. by destruct (Z.leb_spec (Z.of_nat (length s) + 1) (Z.of_nat (length s) - 1)); [lia|].
Qed.

Lemma copy_string_standard_overflow_witness :
  @copy_string exact_alloc (lit "1.0.3") = Err HeapOverflow.
Proof. apply (copy_string_standard_overflow (lit_bytes "1.0.3")); [reflexivity|reflexivity|discriminate]. Defined.

(** With glibc's rounding on x86_64, [copy_string] makes a faithful copy of
    a non-empty string exactly when its length is below 24 or not congruent to
    8 or 9 modulo 16; at the other lengths it overruns its block. *)
Theorem copy_string_glibc (s : list Z) :
  forallb is_char s = true → Z.of_nat (length s) < 2 ^ 31 - 8 → s ≠ [] →
  @copy_string glibc_alloc (mk_str s) =
    let n := Z.of_nat (length s) in
    if (24 <=? n) && ((n `mod` 16 =? 8) || (n `mod` 16 =? 9))
    then Err HeapOverflow else Ok (mk_str s).
Proof.
  intros Hs Hl Hne. pose proof (cstr_ok_mk s Hs Hl) as Hok. unfold mk_str in *.
  rewrite copy_string_cases; fold (mk_str s); rewrite ?text_mk by done; try done.
  assert (1 ≤ Z.of_nat (length s)) as H1 by (destruct s; [done|simpl; lia]).
  cbv zeta. simpl usable. set (n := Z.of_nat (length s)) in *. clearbody n.
  replace (n - 1 + 8 + 15) with (n + 22) by lia.
  pose proof (Z_div_mod_eq_full n 16). pose proof (Z.mod_pos_bound n 16).
  pose proof (Z_div_mod_eq_full (n + 22) 16). pose proof (Z.mod_pos_bound (n + 22) 16).
  unfold ensure.
  destruct (Z.leb_spec (n + 1) (Z.max 32 ((n + 22) / 16 * 16) - 8)),
    (Z.leb_spec 24 n), (Z.eqb_spec (n `mod` 16) 8), (Z.eqb_spec (n `mod` 16) 9);
    simpl; try done; exfalso; lia.
Qed.

Lemma copy_string_glibc_witness :
  @copy_string glibc_alloc (lit "wlan0") = Ok (lit "wlan0") ∧
  @copy_string glibc_alloc (lit "aa:bb:cc:dd:ee:ff/123456") = Err HeapOverflow.
Proof.
  split.
  - apply (copy_string_glibc (lit_bytes "wlan0")); [reflexivity|reflexivity|discriminate].
  - apply (copy_string_glibc (lit_bytes "aa:bb:cc:dd:ee:ff/123456"));
      [reflexivity|reflexivity|discriminate].
Defined.

Lemma skip_lead_spec s : ∃ pre,
  s = pre ++ skip_lead s ∧ Forall (λ c, is_blank c = true) pre ∧
  ∀ c, head (skip_lead s) = Some c → is_blank c = false.
Proof.
  induction s as [|c s (pre & IH & Hp & Hh)]; simpl.
  - by exists [].
  - destruct (is_blank c) eqn:E.
    + exists (c :: pre). simpl. rewrite <- IH. auto.
    + exists []. simpl. repeat split; [constructor|]. by intros ? [= <-].
Qed.

Lemma skip_trail_spec s : ∃ post,
  s = skip_trail s ++ post ∧ Forall (λ c, is_blank_nl c = true) post ∧
  ∀ c, last (skip_trail s) = Some c → is_blank_nl c = false.
Proof.
  induction s as [|c s (post & IH & Hp & Hl)]; simpl.
  - by exists [].
  - destruct (is_blank_nl c) eqn:E, (skip_trail s) as [|d r] eqn:Er; simpl in *.
    + exists (c :: post). rewrite IH in *. repeat split; [by constructor|done].
    + exists post. by rewrite IH at 1.
    + exists post. rewrite IH at 1. repeat split; [done|]. by intros ? [= <-].
    + exists post. by rewrite IH at 1.
Qed.

(** [trim_string] returns the part of its argument between the leading
    blanks and the trailing blanks and newlines, as a fresh string, or NULL
    when nothing is left; neither end of the result can be trimmed further. *)
Theorem trim_string_spec (s : list Z) : forallb is_char s = true →
  ∃ pre r post,
    trim_string (mk_str s) = Ok (norm r) ∧ s = pre ++ r ++ post ∧
    Forall (λ c, is_blank c = true) pre ∧ Forall (λ c, is_blank_nl c = true) post ∧
    (∀ c, head r = Some c → is_blank c = false) ∧
    (∀ c, last r = Some c → is_blank_nl c = false).
Proof.
  intros Hs. destruct (skip_lead_spec s) as (pre & E1 & Hpre & Hh).
  destruct (skip_trail_spec (skip_lead s)) as (post & E2 & Hpost & Hl).
  set (r := skip_trail (skip_lead s)) in *.
  exists pre, r, post. rewrite <- E2. repeat split; try done.
  - pose proof (chars_of_mk s (is_char_nonzero s Hs)) as E.
    unfold trim_string, chars, mk_str in *. simpl in E. rewrite E. simpl. fold r.
    by destruct r.
  - intros c Hc. apply Hh. rewrite E2. by destruct r.
Qed.

Lemma trim_string_spec_witness :
  forallb is_char (lit_bytes " 	wlan0 ") = true ∧ ∃ pre r post,
    trim_string (mk_str (lit_bytes " 	wlan0 ")) = Ok (norm r) ∧
    lit_bytes " 	wlan0 " = pre ++ r ++ post ∧
    Forall (λ c, is_blank c = true) pre ∧ Forall (λ c, is_blank_nl c = true) post ∧
    (∀ c, head r = Some c → is_blank c = false) ∧
    (∀ c, last r = Some c → is_blank_nl c = false).
Proof. split; [reflexivity|]. by apply (trim_string_spec (lit_bytes " 	wlan0 ")). Defined.
