(* ===== verification/Strlib.v ===== *)
(** The trimming functions of [ethanol_functions/strlib.c].

    [strcpytrim] copies a string while dropping delimiters; [triml], [trimr],
    [trim] and [kill] call it with the same source and destination.  The model
    runs on one memory that holds both strings, so that the aliasing calls and
    the copies are the same definition.  It is proved equal to a reference on
    lists in two steps: the loop computes a fold over the source, whatever the
    overlap, and the fold computes the reference. *)
From stdpp Require Import prelude list.
From S2P Require Import Prelude CMem.

(** ** The code *)

(** [char *] values are addresses of one memory. *)
Definition peek (m : list cell) (a : nat) : res Z :=
  match m !! a with
  | Some (Some c) => Ok c
  | Some None => Err ReadIndeterminate
  | None => Err ReadOutOfBounds
  end.
Definition poke (m : list cell) (a : nat) (c : Z) : res (list cell) :=
  if bool_decide (a < length m)%nat then Ok (<[a := Some c]> m) else Err HeapOverflow.

(** [enum strtrim_mode_t]. *)
Inductive strtrim_mode_t :=
| STRLIB_MODE_ALL | STRLIB_MODE_RIGHT | STRLIB_MODE_LEFT | STRLIB_MODE_BOTH.

#[global] Instance strtrim_mode_eq_dec : EqDecision strtrim_mode_t.
Proof. solve_decision. Defined.

(** The default delimiters: space, tab, newline and form feed. *)
Definition default_delim : list Z := [32; 9; 10; 12].

(** [dtab[(int) *delim++] = 1]: [char] is signed, so a character above 127
    indexes before the table. *)
Fixpoint fill_dtab (delim : list Z) (dtab : list bool) : res (list bool) :=
  match delim with
  | [] => Ok dtab
  | c :: delim =>
      if c <? 128 then fill_dtab delim (<[Z.to_nat c := true]> dtab) else Err StackOverflow
  end.

Definition in_dtab (dtab : list bool) (c : Z) : bool :=
  nth (Z.to_nat (Z.land 255 c)) dtab false.

(** Whether the loop goes on without advancing [d] after a delimiter. *)
Definition drops (mode : strtrim_mode_t) (at_start : bool) : bool :=
  bool_decide (mode = STRLIB_MODE_ALL) ||
  (negb (bool_decide (mode = STRLIB_MODE_RIGHT)) && at_start).

(** The [while] loop: [o] is the destination, [d] and [s] the moving pointers,
    [e] the end pointer.  It returns the memory and [e]. *)
Fixpoint trim_loop (fuel : nat) (mode : strtrim_mode_t) (dtab : list bool) (o : nat)
    (m : list cell) (d s : nat) (e : option nat) : res (list cell * option nat) :=
  match fuel with
  | O => Err ReadOutOfBounds
  | S fuel =>
      c ← peek m s;
      m ← poke m d c;
      if c =? 0 then Ok (m, e)
      else if in_dtab dtab c then
        let e := Some (default d e) in
        if drops mode (bool_decide (d = o)) then trim_loop fuel mode dtab o m d (S s) e
        else trim_loop fuel mode dtab o m (S d) (S s) e
      else trim_loop fuel mode dtab o m (S d) (S s) None
  end.

(** A source of [n] characters is read by at most [n + 1] iterations, and the
    source lies inside the memory. *)
Definition strcpytrim (m : list cell) (d s : option nat) (mode : strtrim_mode_t)
    (delim : option (list Z)) : res (option nat * list cell) :=
  match s, d with
  | Some s, Some o =>
      dtab ← fill_dtab (default default_delim delim) (replicate 256 false);
      '(m, e) ← trim_loop (S (length m)) mode dtab o m o s None;
      match e with
      | Some e =>
          if bool_decide (mode = STRLIB_MODE_LEFT) then Ok (Some o, m)
          else m ← poke m e 0; Ok (Some o, m)
      | None => Ok (Some o, m)
      end
  | _, _ => Ok (None, m)
  end.

Definition strtriml (m : list cell) (d s : option nat) := strcpytrim m d s STRLIB_MODE_LEFT None.
Definition strtrimr (m : list cell) (d s : option nat) := strcpytrim m d s STRLIB_MODE_RIGHT None.
Definition strtrim (m : list cell) (d s : option nat) := strcpytrim m d s STRLIB_MODE_BOTH None.
Definition strkill (m : list cell) (d s : option nat) := strcpytrim m d s STRLIB_MODE_ALL None.
Definition triml (m : list cell) (s : option nat) := strcpytrim m s s STRLIB_MODE_LEFT None.
Definition trimr (m : list cell) (s : option nat) := strcpytrim m s s STRLIB_MODE_RIGHT None.
Definition trim (m : list cell) (s : option nat) := strcpytrim m s s STRLIB_MODE_BOTH None.
Definition kill (m : list cell) (s : option nat) := strcpytrim m s s STRLIB_MODE_ALL None.

(** ** The reference *)

Fixpoint drop_while {A} (p : A → bool) (l : list A) : list A :=
  match l with
  | [] => []
  | x :: l' => if p x then drop_while p l' else l
  end.
Definition drop_trailing {A} (p : A → bool) (l : list A) : list A :=
  reverse (drop_while p (reverse l)).

(** What each mode keeps of the source. *)
Definition keeps (mode : strtrim_mode_t) (p : Z → bool) (t : list Z) : list Z :=
  match mode with
  | STRLIB_MODE_ALL => List.filter (λ c, negb (p c)) t
  | STRLIB_MODE_RIGHT => drop_trailing p t
  | STRLIB_MODE_LEFT => drop_while p t
  | STRLIB_MODE_BOTH => drop_trailing p (drop_while p t)
  end.

(** The characters [t] are stored from [a] on, and the string [t] is. *)
Definition stored (m : list cell) (a : nat) (t : list Z) : Prop :=
  ∀ i c, t !! i = Some c → m !! (a + i)%nat = Some (Some c).
Definition holds (m : list cell) (a : nat) (t : list Z) : Prop := stored m a (t ++ [0]).

(** ** The loop as a fold over the source *)

(** [w] is what was copied so far, [e] the offset of the end pointer. *)
Fixpoint trim_fold (mode : strtrim_mode_t) (p : Z → bool) (t w : list Z) (e : option nat) :
    list Z * option nat :=
  match t with
  | [] => (w, e)
  | c :: t =>
      if p c then
        let e := Some (default (length w) e) in
        if drops mode (bool_decide (w = [])) then trim_fold mode p t w e
        else trim_fold mode p t (w ++ [c]) e
      else trim_fold mode p t (w ++ [c]) None
  end.

Lemma stored_cons m a c t : stored m a (c :: t) →
  m !! a = Some (Some c) ∧ stored m (S a) t.
Proof.
  intros H. split; [by rewrite <- (H 0%nat c eq_refl), Nat.add_0_r|].
  intros i c' Hc. rewrite Nat.add_succ_comm. by apply H.
Qed.

Lemma peek_stored m a c t : stored m a (c :: t) → peek m a = Ok c.
Proof. intros [H _]%stored_cons. unfold peek. by rewrite H. Qed.

Lemma poke_ok m a c : (a < length m)%nat → poke m a c = Ok (<[a := Some c]> m).
Proof. intros. unfold poke. by rewrite bool_decide_true. Qed.

Lemma stored_app m a t t' : stored m a (t ++ t') ↔ stored m a t ∧ stored m (a + length t) t'.
Proof.
  unfold stored. split.
  - intros H. split; intros i c Hi.
    + apply H. by apply lookup_app_l_Some.
    + rewrite <- Nat.add_assoc. apply H. by rewrite lookup_app_r, Nat.add_comm, Nat.add_sub by lia.
  - intros [H1 H2] i c [Hi|[Hl Hi]]%lookup_app_Some; [by apply H1|].
    rewrite <- (H2 _ _ Hi). f_equal. lia.
Qed.

(** A write outside a stored string keeps it. *)
Lemma stored_insert m a t i c : (i < a)%nat ∨ (a + length t ≤ i)%nat →
  stored m a t → stored (<[i := Some c]> m) a t.
Proof.
  intros Hi H j c' Hj. rewrite list_lookup_insert_ne; [by apply H|].
  apply lookup_lt_Some in Hj. lia.
Qed.

Lemma stored_snoc m a t c : (a + length t < length m)%nat → stored m a t →
  stored (<[(a + length t)%nat := Some c]> m) a (t ++ [c]).
Proof.
  intros Hl H. apply stored_app. split; [apply stored_insert; [lia|done]|].
  intros [|i] c' Hc; [|done]. simplify_eq/=. rewrite Nat.add_0_r. by apply list_lookup_insert_eq.
Qed.

Section simulation.
Context (mode : strtrim_mode_t) (dtab : list bool) (o : nat).

(** What the loop does in a memory where the unread source [t] is at [s], the
    copied part [w] at the destination [o], and the write pointer does not
    enter the unread source. *)
Lemma trim_loop_fold t : ∀ fuel m w s e w' e',
  (length t < fuel)%nat → Forall (λ c, c ≠ 0) t →
  holds m s t → stored m o w →
  (o + length w ≤ s ∨ s + length t < o + length w)%nat →
  (o + length w + length t < length m)%nat →
  trim_fold mode (in_dtab dtab) t w e = (w', e') →
  ∃ m', trim_loop fuel mode dtab o m (o + length w) s (Nat.add o <$> e) =
          Ok (m', Nat.add o <$> e') ∧
    holds m' o w' ∧ length m' = length m ∧
    (∀ i, (i < o ∨ o + length w + length t < i)%nat → m' !! i = m !! i).
Proof.
  induction t as [|c t IH]; intros fuel m w s e w' e' Hf Hnz Hs Hw Hov Hl Hfold;
    (destruct fuel as [|fuel]; [simpl in Hf; lia|]); cbn [trim_loop app length] in *.
  - simplify_eq/=. rewrite (peek_stored _ _ _ _ Hs). cbn [mbind res_bind].
    rewrite poke_ok by lia. cbn [mbind res_bind]. eexists. split; [done|].
    split; [apply stored_snoc; [lia|done]|]. split; [apply length_insert|].
    intros i Hi. apply list_lookup_insert_ne. lia.
  - inversion Hnz as [|? ? Hc0 Hnz']; subst.
    unfold holds in Hs. simpl in Hs. rewrite (peek_stored _ _ _ _ Hs). cbn [mbind res_bind].
    rewrite poke_ok by lia. cbn [mbind res_bind].
    destruct (Z.eqb_spec c 0); [done|].
    apply stored_cons in Hs as [_ Hs]. simpl in Hf.
    assert (holds (<[(o + length w)%nat := Some c]> m) (S s) t) as Hs'.
    { apply stored_insert; [rewrite length_app; simpl; lia|done]. }
    assert (∀ k e0, k = S (length w) →
      trim_fold mode (in_dtab dtab) t (w ++ [c]) e0 = (w', e') →
      ∃ m', trim_loop fuel mode dtab o (<[(o + length w)%nat := Some c]> m) (o + k) (S s)
              (Nat.add o <$> e0) = Ok (m', Nat.add o <$> e') ∧
        holds m' o w' ∧ length m' = length m ∧
        (∀ i, (i < o ∨ o + length w + S (length t) < i)%nat → m' !! i = m !! i)) as Hnext.
    { intros k e0 -> Hf0. destruct (IH fuel (<[(o + length w)%nat := Some c]> m)
        (w ++ [c]) (S s) e0 w' e') as (m' & Hm & Hh & Hlen & Hfr);
        rewrite ?length_app, ?length_insert in *; simpl in *; try done; try lia.
      { apply stored_snoc; [lia|done]. }
      rewrite Nat.add_1_r in Hm. exists m'. split_and!; [done..|].
      intros i Hi. rewrite Hfr by lia. apply list_lookup_insert_ne. lia. }
    simpl in Hfold. destruct (in_dtab dtab c) eqn:Hd.
    + cbv zeta. replace (default (o + length w)%nat (Nat.add o <$> e))
        with (o + default (length w) e)%nat by (by destruct e).
      assert (bool_decide (o + length w = o)%nat = bool_decide (w = [])) as ->.
      { apply bool_decide_ext. destruct w; simpl; split; try done; lia. }
      destruct (drops mode (bool_decide (w = []))) eqn:Hdr; [|].
      * destruct (IH fuel (<[(o + length w)%nat := Some c]> m) w (S s)
          (Some (default (length w) e)) w' e') as (m' & Hm & Hh & Hlen & Hfr);
          rewrite ?length_insert in *; try done; try lia.
        { apply stored_insert; [lia|done]. }
        exists m'. split_and!; [done..|]. intros i Hi. rewrite Hfr by lia.
        apply list_lookup_insert_ne. lia.
      * rewrite <- Nat.add_succ_r. by apply (Hnext _ (Some (default (length w) e))).
    + rewrite <- Nat.add_succ_r. by apply (Hnext _ None).
Qed.
End simulation.

(** ** The fold computes the reference *)

Section reference.
Context (p : Z → bool).

Lemma drop_while_app l l' : drop_while p (l ++ l') =
  match drop_while p l with [] => drop_while p l' | r => r ++ l' end.
Proof. induction l as [|x l IH]; [done|]. simpl. by destruct (p x). Qed.

Lemma drop_trailing_snoc l c :
  drop_trailing p (l ++ [c]) = if p c then drop_trailing p l else l ++ [c].
Proof.
  unfold drop_trailing. rewrite reverse_snoc. simpl. destruct (p c); [done|].
  by rewrite reverse_cons, reverse_involutive.
Qed.

(** What has been copied of the characters read so far. *)
Definition copied (mode : strtrim_mode_t) (t : list Z) : list Z :=
  match mode with
  | STRLIB_MODE_ALL => List.filter (λ c, negb (p c)) t
  | STRLIB_MODE_RIGHT => t
  | STRLIB_MODE_LEFT | STRLIB_MODE_BOTH => drop_while p t
  end.

Lemma copied_snoc mode t c : copied mode (t ++ [c]) =
  if p c && drops mode (bool_decide (copied mode t = [])) then copied mode t
  else copied mode t ++ [c].
Proof.
  destruct mode; simpl.
  - rewrite List.filter_app. simpl. destruct (p c); simpl; by rewrite ?app_nil_r.
  - by rewrite andb_false_r.
  - rewrite drop_while_app. destruct (drop_while p t); simpl; [|by rewrite andb_false_r].
    by destruct (p c).
  - rewrite drop_while_app. destruct (drop_while p t); simpl; [|by rewrite andb_false_r].
    by destruct (p c).
Qed.

Lemma drop_while_last l c : p c = false → ∃ l', drop_while p (l ++ [c]) = l' ++ [c].
Proof.
  intros Hc. rewrite drop_while_app. destruct (drop_while p l) as [|x r]; simpl.
  - rewrite Hc. by exists [].
  - by exists (x :: r).
Qed.

(** The end pointer marks the trailing delimiters of what was copied. *)
Definition marks (w : list Z) (e : option nat) : Prop :=
  match e with
  | None => drop_trailing p w = w
  | Some k => (k ≤ length w)%nat ∧ drop_trailing p w = take k w
  end.

Lemma trim_fold_spec mode t : ∀ t0 e w' e',
  marks (copied mode t0) e → trim_fold mode p t (copied mode t0) e = (w', e') →
  w' = copied mode (t0 ++ t) ∧ marks w' e'.
Proof.
  induction t as [|c t IH]; intros t0 e w' e' He Hf; simpl in Hf.
  { simplify_eq. by rewrite app_nil_r. }
  rewrite cons_middle, app_assoc.
  pose proof (copied_snoc mode t0 c) as Hc. destruct (p c) eqn:Hp; simpl in Hc.
  - destruct (drops _ _) eqn:Hd.
    + rewrite <- Hc in Hf, He. eapply IH; [|exact Hf]. rewrite Hc in *.
      destruct e as [k|]; simpl in *; [done|]. by rewrite firstn_all.
    + rewrite <- Hc in Hf. eapply IH; [|exact Hf]. rewrite Hc.
      destruct e as [k|]; simpl in *; rewrite drop_trailing_snoc, Hp, length_app; simpl.
      * destruct He as [? ->]. rewrite take_app_le by lia. split; [lia|done].
      * rewrite take_app_length. split; [lia|done].
  - rewrite <- Hc in Hf. eapply IH; [|exact Hf]. rewrite Hc. simpl.
    by rewrite drop_trailing_snoc, Hp.
Qed.

Lemma drop_trailing_filter t : let l := List.filter (λ c, negb (p c)) t in drop_trailing p l = l.
Proof.
  cbv zeta. induction t as [|c t IH] using rev_ind; [done|].
  rewrite List.filter_app. simpl. destruct (p c) eqn:Hp; simpl; [by rewrite app_nil_r|].
  by rewrite drop_trailing_snoc, Hp.
Qed.

(** The result once the end pointer has been used. *)
Lemma trim_fold_keeps mode t w e : trim_fold mode p t [] None = (w, e) →
  marks w e ∧
  keeps mode p t = (if bool_decide (mode = STRLIB_MODE_LEFT) then w
                    else match e with Some k => take k w | None => w end).
Proof.
  intros Hf. assert (copied mode [] = []) as H0 by (by destruct mode).
  destruct (trim_fold_spec mode t [] None w e) as [-> Hm]; [by rewrite H0|by rewrite H0|].
  split; [done|]. simpl in Hm |- *.
  assert (∀ l, marks l e → drop_trailing p l = match e with Some k => take k l | None => l end)
    as Hmark by (intros l; destruct e; simpl; [by intros [_ ?]|done]).
  rewrite <- (Hmark _ Hm). destruct mode; simpl; [|done..].
  symmetry. apply drop_trailing_filter.
Qed.
End reference.

(** ** The delimiter table *)

Definition delimiter (delim : list Z) (c : Z) : bool := existsb (Z.eqb c) delim.

Lemma fill_dtab_spec delim dtab :
  Forall (λ c, 0 < c < 128) delim → length dtab = 256%nat →
  ∃ dtab', fill_dtab delim dtab = Ok dtab' ∧ length dtab' = 256%nat ∧
    ∀ c, 0 ≤ c < 256 → in_dtab dtab' c = delimiter delim c || in_dtab dtab c.
Proof.
  revert dtab. induction delim as [|x delim IH]; intros dtab Hd Hl; [by exists dtab|].
  inversion Hd as [|? ? Hx Hd']; subst. simpl.
  destruct (Z.ltb_spec x 128); [|lia].
  destruct (IH (<[Z.to_nat x := true]> dtab) Hd') as (dtab' & -> & Hl' & Hs);
    [by rewrite length_insert|].
  exists dtab'. split_and!; [done..|]. intros c Hc. rewrite (Hs c Hc).
  assert (in_dtab (<[Z.to_nat x:=true]> dtab) c = (c =? x) || in_dtab dtab c) as ->.
  { unfold in_dtab. rewrite (Z.land_comm 255 c). change 255 with (Z.ones 8).
    rewrite Z.land_ones, Z.mod_small by lia. rewrite !nth_lookup.
    destruct (Z.eqb_spec c x) as [->|]; simpl.
    - by rewrite list_lookup_insert_eq by lia.
    - by rewrite list_lookup_insert_ne by lia. }
  by destruct (c =? x), (delimiter delim c).
Qed.

Lemma in_empty_dtab c : in_dtab (replicate 256 false) c = false.
Proof.
  unfold in_dtab. rewrite nth_lookup.
  destruct (replicate 256 false !! _) eqn:E; [|done]. by apply lookup_replicate in E as [-> _].
Qed.

Lemma keeps_ext mode p q t : Forall (λ c, p c = q c) t → keeps mode p t = keeps mode q t.
Proof.
  assert (∀ l, Forall (λ c, p c = q c) l → drop_while p l = drop_while q l ∧
    Forall (λ c, p c = q c) (drop_while q l)) as Hw.
  { induction 1 as [|x l Hx Hl IH]; [done|]. simpl. rewrite Hx. destruct (q x) eqn:Hq; [done|].
    split; [done|]. constructor; [congruence|done]. }
  assert (∀ l, Forall (λ c, p c = q c) l → drop_trailing p l = drop_trailing q l) as Ht.
  { intros l Hl. unfold drop_trailing. f_equal. apply Hw. by apply Forall_reverse. }
  intros Hl. destruct mode; simpl.
  - induction Hl as [|x l Hx Hl IH]; [done|]. simpl. by rewrite Hx, IH.
  - by apply Ht.
  - by apply Hw.
  - rewrite (proj1 (Hw t Hl)). by apply Ht, Hw.
Qed.

Lemma trim_fold_length mode p t w e w' e' :
  trim_fold mode p t w e = (w', e') → (length w' ≤ length w + length t)%nat.
Proof.
  revert w e. induction t as [|c t IH]; intros w e Hf; simpl in Hf; [simplify_eq; lia|].
  assert (∀ l e0, (length l ≤ length w + 1)%nat → trim_fold mode p t l e0 = (w', e') →
    (length w' ≤ length w + length (c :: t))%nat) as Hn.
  { intros l e0 Hl Hf0. apply IH in Hf0. simpl. lia. }
  repeat case_match; eapply Hn; try exact Hf; rewrite ?length_app; simpl; lia.
Qed.

(** Cutting a stored string with a NUL. *)
Lemma holds_cut m a w k : (k ≤ length w)%nat → holds m a w →
  ∃ m', poke m (a + k) 0 = Ok m' ∧ holds m' a (take k w) ∧ length m' = length m ∧
    (∀ i, i ≠ (a + k)%nat → m' !! i = m !! i).
Proof.
  intros Hk H. unfold holds in H.
  assert (a + length w < length m)%nat.
  { apply stored_app in H as [_ H]. specialize (H 0%nat 0 eq_refl).
    rewrite Nat.add_0_r in H. by apply lookup_lt_Some in H. }
  rewrite poke_ok by lia. eexists. split; [done|]. split_and!.
  - rewrite <- (take_drop k w), <- app_assoc in H. apply stored_app in H as [H _].
    assert (length (take k w) = k) as Hlen by (rewrite length_take; lia).
    rewrite <- Hlen at 1. apply stored_snoc; [lia|done].
  - apply length_insert.
  - intros i Hi. by apply list_lookup_insert_ne.
Qed.

(** ** Correctness *)

(** C37: [strcpytrim] computes its reference: for every mode (all, right, left,
    both) and every table of plain ASCII delimiters, applied to a string that
    the destination does not overlap from above -- the in-place calls [triml],
    [trimr], [trim] and [kill] included -- it returns the destination, which
    then holds the source without the delimiters that the mode removes, and
    changes nothing outside the destination's span. *)
Theorem strcpytrim_reference (mode : strtrim_mode_t) (delim : option (list Z))
    (m : list cell) (d s : nat) (t : list Z) :
  Forall (λ c, 0 < c < 128) (default default_delim delim) →
  forallb is_char t = true → holds m s t →
  (d ≤ s ∨ s + length t < d)%nat → (d + length t < length m)%nat →
  ∃ m', strcpytrim m (Some d) (Some s) mode delim = Ok (Some d, m') ∧
    holds m' d (keeps mode (delimiter (default default_delim delim)) t) ∧
    length m' = length m ∧
    (∀ i, (i < d ∨ d + length t < i)%nat → m' !! i = m !! i).
Proof.
  intros Hdel Ht Hs Hov Hl. unfold strcpytrim.
  destruct (fill_dtab_spec (default default_delim delim) (replicate 256 false) Hdel eq_refl)
    as (dtab & -> & _ & Hdtab). cbn [mbind res_bind].
  destruct (trim_fold mode (in_dtab dtab) t [] None) as [w e] eqn:Hf.
  pose proof (is_char_nonzero t Ht) as Hnz.
  destruct (trim_loop_fold mode dtab d t (S (length m)) m [] s None w e)
    as (m' & Hm & Hh & Hlen & Hfr); simpl; rewrite ?Nat.add_0_r; try done; try lia.
  simpl in Hm. rewrite Nat.add_0_r in Hm. rewrite Hm. clear Hm. cbn [mbind res_bind].
  simpl in Hfr. rewrite Nat.add_0_r in Hfr.
  destruct (trim_fold_keeps _ _ _ _ _ Hf) as [Hmark Hk].
  rewrite (keeps_ext mode _ (in_dtab dtab)), Hk.
  2: { rewrite Forall_forall. intros c Hc%list_elem_of_In.
       rewrite forallb_forall in Ht. specialize (Ht c Hc). unfold is_char in Ht. split_andb. to_prop.
       by rewrite Hdtab, in_empty_dtab, orb_false_r by lia. }
  apply trim_fold_length in Hf. simpl in Hf.
  destruct e as [k|]; cbn [fmap option_fmap option_map].
  2: { exists m'. by destruct (bool_decide _). }
  destruct (bool_decide _); [by exists m'|]. destruct Hmark as [Hkl _].
  destruct (holds_cut m' d w k Hkl Hh) as (m2 & -> & Hh2 & Hlen2 & Hfr2).
  exists m2. split_and!; [done..|lia|]. intros i Hi. rewrite Hfr2 by lia. by apply Hfr.
Qed.

(** [trim] in place on "  a b " in a block with room to spare. *)
Lemma strcpytrim_reference_witness :
  let m := cells [32; 32; 97; 32; 98; 32; 0; 7] in
  ∃ m', trim m (Some 0%nat) = Ok (Some 0%nat, m') ∧
    holds m' 0 (keeps STRLIB_MODE_BOTH (delimiter default_delim) [32; 32; 97; 32; 98; 32]) ∧
    length m' = length m ∧ (∀ i, (i < 0 ∨ 0 + 6 < i)%nat → m' !! i = m !! i).
Proof.
  cbv zeta.
  apply (strcpytrim_reference STRLIB_MODE_BOTH None (cells [32; 32; 97; 32; 98; 32; 0; 7])
           0 0 [32; 32; 97; 32; 98; 32]).
  - repeat constructor.
  - reflexivity.
  - intros i c Hi. do 8 (destruct i as [|i]; [simpl in Hi; by simplify_eq|]). done.
  - left. lia.
  - simpl. lia.
Defined.

(** The reference on that string is "a b". *)
Example keeps_both :
  keeps STRLIB_MODE_BOTH (delimiter default_delim) [32; 32; 97; 32; 98; 32] = [97; 32; 98].
Proof. reflexivity. Qed.
