(* ===== verification/Lines.v ===== *)
(** Reading a text file line by line with [fgets]. *)
From stdpp Require Import prelude list strings.
From S2P Require Import Prelude CMem.

(** [fgets(line, n + 1, file)] on a file that is not at its end: the bytes up
    to a newline or [n] of them, and what remains of the file. *)
Fixpoint fgets (n : nat) (file : list Z) : list Z * list Z :=
  match n, file with
  | S n, c :: file =>
      if c =? 10 then ([c], file) else let '(l, r) := fgets n file in (c :: l, r)
  | _, _ => ([], file)
  end.

(** [while (fgets(line, n + 1, file) != NULL)]: every call takes at least one
    byte, so that the length of the file bounds the calls. *)
Fixpoint read_lines (n fuel : nat) (file : list Z) : list (list Z) :=
  match fuel, file with
  | S fuel, _ :: _ => let '(l, r) := fgets n file in l :: read_lines n fuel r
  | _, _ => []
  end.
Definition lines_of (n : nat) (file : list Z) : list (list Z) := read_lines n (length file) file.

(** ** Lemmas *)

Lemma forallb_Forall {A} (f : A → bool) l : forallb f l = true → Forall (λ x, f x = true) l.
Proof.
  rewrite forallb_forall, Forall_forall. intros H x Hx%list_elem_of_In. auto.
Qed.

Lemma fgets_spec n file : fgets n file = (λ l, (l, drop (length l) file)) (fgets n file).1 ∧
  (fgets n file).1 ++ (fgets n file).2 = file ∧ (length (fgets n file).1 ≤ n)%nat.
Proof.
  revert file. induction n as [|n IH]; intros [|c file]; simpl; try (split_and!; done || lia).
  destruct (c =? 10); simpl; [split_and!; [by rewrite drop_0|done|lia]|].
  specialize (IH file). destruct (fgets n file) as [l r]. simpl in *.
  destruct IH as ([= ->] & Happ & Hl). split_and!; [done|by rewrite Happ|lia].
Qed.

Lemma fgets_app n file l r : fgets n file = (l, r) → l ++ r = file ∧ (length l ≤ n)%nat.
Proof. intros E. destruct (fgets_spec n file) as (_ & H1 & H2). by rewrite E in H1, H2. Qed.

Lemma fgets_nonempty n c file : (fgets (S n) (c :: file)).1 ≠ [].
Proof. simpl. destruct (c =? 10); [done|]. by destruct (fgets n file). Qed.

(** A line ends with its only newline, or is full, or is the last one. *)
Lemma fgets_newline n file l r : fgets n file = (l, r) →
  (∃ b, l = b ++ [10] ∧ Forall (λ c, c ≠ 10) b) ∨
  (Forall (λ c, c ≠ 10) l ∧ (length l = n ∨ r = [])).
Proof.
  revert file l r. induction n as [|n IH]; intros [|c file] l r; simpl; intros E; simplify_eq.
  - by right; eauto.
  - by right; eauto.
  - by right; eauto.
  - destruct (Z.eqb_spec c 10) as [->|Hc]; simplify_eq; [left; by exists []|].
    destruct (fgets n file) as [l1 r1] eqn:E1. simplify_eq.
    destruct (IH _ _ _ E1) as [(b & -> & Hb)|[Hl Hr]]; [left|right].
    + exists (c :: b). split; [done|]. by constructor.
    + split; [by constructor|]. destruct Hr; simpl; [left; lia|by right].
Qed.

Lemma read_lines_nil n fuel : read_lines n fuel [] = [].
Proof. by destruct fuel. Qed.

Lemma fgets_line n b rest : (length b < n)%nat → Forall (λ c, c ≠ 10) b →
  fgets n (b ++ 10 :: rest) = (b ++ [10], rest).
Proof.
  intros Hn Hb. revert n Hn. induction Hb as [|c b Hc Hb IH]; intros [|n] Hn; simpl in *; try lia.
  - done.
  - destruct (Z.eqb_spec c 10); [done|]. by rewrite IH by lia.
Qed.

Lemma read_lines_cut n bs : Forall (λ b, Forall (λ c, c ≠ 10) b ∧ (length b < n)%nat) bs →
  ∀ fuel, (length bs ≤ fuel)%nat →
  read_lines n fuel (concat ((λ b, b ++ [10]) <$> bs)) = (λ b, b ++ [10]) <$> bs.
Proof.
  induction 1 as [|b bs [Hb Hl] Hbs IH]; intros fuel Hf; [apply read_lines_nil|].
  destruct fuel as [|fuel]; [simpl in Hf; lia|]. rewrite fmap_cons. cbn [concat].
  assert (∃ c l, (b ++ [10]) ++ concat ((λ b, b ++ [10]) <$> bs) = c :: l) as (c & l & E).
  { destruct b; simpl; eauto. }
  rewrite E. cbn [read_lines]. rewrite <- E, <- app_assoc. cbn [app].
  rewrite fgets_line by done. rewrite IH; [done|]. simpl in Hf. lia.
Qed.

Lemma concat_lines_length (bs : list (list Z)) :
  (length bs ≤ length (concat ((λ b, b ++ [10%Z]) <$> bs)))%nat.
Proof.
  induction bs as [|b bs IH]; [done|]. rewrite fmap_cons. cbn [concat length].
  rewrite !length_app. simpl. lia.
Qed.

Lemma fgets_full l rest : Forall (λ c, c ≠ 10) l → fgets (length l) (l ++ rest) = (l, rest).
Proof.
  induction 1 as [|c l Hc Hl IH]; [done|]. simpl. destruct (Z.eqb_spec c 10); [done|].
  by rewrite IH.
Qed.


(** Fuel beyond the length of the file changes nothing. *)
Lemma read_lines_fuel n fuel fuel' file : (length file ≤ fuel)%nat → (length file ≤ fuel')%nat →
  read_lines (S n) fuel file = read_lines (S n) fuel' file.
Proof.
  revert fuel' file. induction fuel as [|fuel IH]; intros fuel' [|c file] H H';
    [by rewrite !read_lines_nil|simpl in H; lia|by rewrite !read_lines_nil|].
  destruct fuel' as [|fuel']; [simpl in H'; lia|]. cbn [read_lines].
  pose proof (fgets_nonempty n c file) as Hne.
  destruct (fgets (S n) (c :: file)) as [l r] eqn:E. f_equal.
  destruct (fgets_app _ _ _ _ E) as [Happ _]. apply (f_equal length) in Happ.
  rewrite length_app in Happ. simpl in *. destruct l; [done|]. simpl in *.
  apply IH; lia.
Qed.

(** A line that fits the buffer is read whole. *)
Lemma lines_of_cons n b file : Forall (λ c, c ≠ 10) b → (length b < S n)%nat →
  lines_of (S n) (b ++ 10 :: file) = (b ++ [10]) :: lines_of (S n) file.
Proof.
  intros Hb Hl. unfold lines_of.
  assert (∃ c l, b ++ 10 :: file = c :: l) as (c & l & E) by (destruct b; simpl; eauto).
  rewrite E. cbn [length read_lines]. rewrite <- E, fgets_line by done. f_equal.
  apply (f_equal length) in E. rewrite length_app in E. simpl in E. apply read_lines_fuel; lia.
Qed.
