(* ===== verification/IniFile.v ===== *)
(** The configuration-file parser [ini/ini.c], as compiled here: multi-line
    values and a byte order mark allowed, lines of at most [INI_MAX_LINE - 1]
    bytes, no stop at the first error.

    A file is its list of bytes.  The parser edits its line buffer in place
    through pointers into it; the model keeps the string each pointer stands
    for.  The handler is a parameter, as in the C code. *)
From stdpp Require Import prelude list strings.
From S2P Require Import Prelude CMem Strlib Lines.

(** ** Reading lines *)

Definition INI_MAX_LINE : nat := 200.
Definition MAX_SECTION : nat := 50.
Definition MAX_NAME : nat := 50.

Definition file_lines (file : list Z) : list (list Z) := lines_of (INI_MAX_LINE - 1) file.

(** ** Character classes and scanning *)

Definition isspace (c : Z) : bool := (c =? 32) || ((9 <=? c) && (c <=? 13)).
Definition rstrip (s : list Z) : list Z := drop_trailing isspace s.
Definition lskip (s : list Z) : list Z := drop_while isspace s.

(** The text before the first [c] or comment, and the text from there on. *)
Fixpoint find_from (s : list Z) (c : Z) (was_whitespace : bool) : list Z * list Z :=
  match s with
  | [] => ([], [])
  | x :: s' =>
      if (x =? c) || (was_whitespace && (x =? 59)) then ([], s)
      else let '(a, b) := find_from s' c (isspace x) in (x :: a, b)
  end.
Definition find_char_or_comment (s : list Z) (c : Z) : list Z * list Z := find_from s c false.

(** [*s]: the first character, NUL at the end. *)
Definition first (s : list Z) : Z := hd 0 s.
Definition strncpy0 (src : list Z) (size : nat) : list Z := take (size - 1) src.

(** What a buffer holds as a string. *)
Fixpoint upto_nul (l : list Z) : list Z :=
  match l with
  | [] => []
  | c :: l => if c =? 0 then [] else c :: upto_nul l
  end.

(** ** The parser *)

Section parser.
Context {U : Type}.

(** [handler(user, section, name, value)]: the updated user data and whether
    the pair was accepted. *)
Context (handler : U → list Z → list Z → list Z → res (U * bool)).

Record parser := Parser { section : list Z; prev_name : list Z; error : Z; user : U }.

(** [if (!ok && !error) error = lineno]. *)
Definition report (lineno : Z) (ok : bool) (error : Z) : Z :=
  if negb ok && (error =? 0) then lineno else error.

(** A [name = value] pair for the handler. *)
Definition offer (lineno : Z) (name value prev : list Z) (st : parser) : res parser :=
  '(u, ok) ← handler (user st) (section st) name value;
  Ok (Parser (section st) prev (report lineno ok (error st)) u).

Definition complain (lineno : Z) (st : parser) : parser :=
  Parser (section st) (prev_name st) (report lineno false (error st)) (user st).

Definition has_bom (lineno : Z) (line : list Z) : bool :=
  (lineno =? 1) && bool_decide (take 3 line = [239; 187; 191]).

(** [[section]]. *)
Definition section_line (lineno : Z) (start : list Z) (st : parser) : parser :=
  let '(name, rest) := find_char_or_comment (tail start) 93 in
  if first rest =? 93 then
    Parser (strncpy0 name MAX_SECTION) [] (error st) (user st)
  else complain lineno st.

(** [name = value] or [name : value]. *)
Definition pair_line (lineno : Z) (start : list Z) (st : parser) : res parser :=
  let '(n, rest) := find_char_or_comment start 61 in
  let '(n, rest) := if first rest =? 61 then (n, rest) else find_char_or_comment start 58 in
  if (first rest =? 61) || (first rest =? 58) then
    let name := rstrip n in
    let '(v, _) := find_char_or_comment (lskip (tail rest)) 0 in
    offer lineno name (rstrip v) (strncpy0 name MAX_NAME) st
  else Ok (complain lineno st).

(** The cases on the first character of a line; [indented] is
    [start > line]. *)
Definition parse_start (lineno : Z) (indented : bool) (start : list Z) (st : parser) : res parser :=
  if (first start =? 59) || (first start =? 35) then Ok st
  else if negb (bool_decide (prev_name st = [])) && negb (bool_decide (start = [])) && indented then
    offer lineno (prev_name st) start (prev_name st) st
  else if first start =? 91 then Ok (section_line lineno start st)
  else if negb (bool_decide (start = [])) && negb (first start =? 59) then pair_line lineno start st
  else Ok st.

(** The body of the loop on one line. *)
Definition parse_line (lineno : Z) (buffer : list Z) (st : parser) : res parser :=
  let line := upto_nul buffer in
  let bom := has_bom lineno line in
  let s := rstrip (if bom then drop 3 line else line) in
  let start := lskip s in
  parse_start lineno (bom || negb (bool_decide (start = s))) start st.

Fixpoint parse_lines (lines : list (list Z)) (lineno : Z) (st : parser) : res parser :=
  match lines with
  | [] => Ok st
  | l :: lines => st ← parse_line lineno l st; parse_lines lines (lineno + 1) st
  end.

(** The returned error is 0 or the number of the first faulty line. *)
Definition ini_parse_file (file : list Z) (u : U) : res (U * Z) :=
  st ← parse_lines (file_lines file) 1 (Parser [] [] 0 u);
  Ok (user st, error st).

(** [None] is a file that cannot be opened. *)
Definition ini_parse (file : option (list Z)) (u : U) : res (U * Z) :=
  match file with
  | None => Ok (u, -1)
  | Some f => ini_parse_file f u
  end.
End parser.
Arguments parser U : clear implicits.

(** ** Every byte is read once *)

(** Non-empty lines that fit the buffer with its terminator; each ends at its
    only newline, or fills the buffer, or is the last one. *)
Fixpoint well_cut (lines : list (list Z)) : Prop :=
  match lines with
  | [] => True
  | l :: lines =>
      l ≠ [] ∧ (length l < INI_MAX_LINE)%nat ∧
      ((∃ b, l = b ++ [10] ∧ Forall (λ c, c ≠ 10) b) ∨
       (Forall (λ c, c ≠ 10) l ∧ (length l = INI_MAX_LINE - 1 ∨ lines = [])%nat)) ∧
      well_cut lines
  end.

(** Reading a configuration file line by line terminates and loses
    nothing: the lines handed to the parser, in order, are exactly the bytes of
    the file, each is non-empty and fits the line buffer with its terminator,
    and each but possibly the last either ends at its only newline or fills
    the buffer. *)
Theorem file_lines_complete (file : list Z) :
  concat (file_lines file) = file ∧ well_cut (file_lines file).
Proof.
  unfold file_lines, lines_of. enough (∀ fuel, (length file ≤ fuel)%nat →
    concat (read_lines (INI_MAX_LINE - 1) fuel file) = file ∧
    well_cut (read_lines (INI_MAX_LINE - 1) fuel file)) as Hf by (by apply Hf).
  intros fuel. revert file. induction fuel as [|fuel IH]; intros [|c file] Hl; cbn [read_lines];
    try done; [simpl in Hl; lia|].
  destruct (fgets (INI_MAX_LINE - 1) (c :: file)) as [l r] eqn:E.
  pose proof (fgets_app _ _ _ _ E) as [Happ Hlen].
  assert (l ≠ []) as Hne.
  { pose proof (fgets_nonempty 198 c file) as H. change (S 198) with (INI_MAX_LINE - 1)%nat in H.
    by rewrite E in H. }
  destruct (IH r) as [IH1 IH2].
  { apply (f_equal length) in Happ. rewrite length_app in Happ. simpl in *.
    destruct l; simpl in *; [done|lia]. }
  split; [cbn [concat]; by rewrite IH1|]. cbn [well_cut]. split_and!; [done|unfold INI_MAX_LINE in *; lia| |done].
  destruct (fgets_newline _ _ _ _ E) as [?|[? [?| ->]]]; [by left|right..]; split; try done; [by left|].
  right. apply read_lines_nil.
Qed.

(** ** What well-formed files mean *)

(** The lines of a document: a section, a pair, a comment line, or a line that
    is none of them. *)
Inductive item :=
| Sec (name : list Z)
| Pair (name value : list Z)
| Remark (text : list Z)
| Bad (text : list Z).

Definition render_item (i : item) : list Z :=
  match i with
  | Sec n => 91 :: n ++ [93]
  | Pair n v => n ++ 61 :: v
  | Remark t => 59 :: t
  | Bad t => t
  end.
Definition render (doc : list item) : list Z := concat ((λ i, render_item i ++ [10]) <$> doc).

(** A word has no blank and no character with a meaning for the parser. *)
Definition word_char (c : Z) : bool :=
  is_char c && negb (isspace c) &&
  negb (existsb (Z.eqb c) [59; 35; 91; 93; 61; 58]).
Definition word (n : list Z) : bool := negb (bool_decide (n = [])) && forallb word_char n.

(** No [;] after a blank, [ws] telling whether the text follows one. *)
Fixpoint no_comment (ws : bool) (s : list Z) : bool :=
  match s with
  | [] => true
  | x :: s => negb (ws && (x =? 59)) && no_comment (isspace x) s
  end.

(** A value has no line break, no blank at its ends and starts no comment. *)
Definition line_char (c : Z) : bool := is_char c && negb (c =? 10).
Definition value_ok (v : list Z) : bool :=
  forallb line_char v && no_comment false v &&
  bool_decide (lskip v = v) && bool_decide (rstrip v = v).

Definition item_ok (i : item) : bool :=
  bool_decide (length (render_item i) < INI_MAX_LINE - 1)%nat &&
  negb (bool_decide (take 3 (render_item i) = [239; 187; 191])) &&
  match i with
  | Sec n => word n && bool_decide (length n < MAX_SECTION)%nat
  | Pair n v => word n && value_ok v
  | Remark t => forallb line_char t
  | Bad t => word t
  end.

(** What a document means, without the parser: the calls of the handler, with
    the line number, the section the line is in, the name and the value; and the
    lines that cannot be read. *)
Inductive call := Call (lineno : Z) (section name value : list Z) | Fault (lineno : Z).

Fixpoint calls_of (section : list Z) (lineno : Z) (doc : list item) : list call :=
  match doc with
  | [] => []
  | Sec n :: doc => calls_of n (lineno + 1) doc
  | Pair n v :: doc => Call lineno section n v :: calls_of section (lineno + 1) doc
  | Remark _ :: doc => calls_of section (lineno + 1) doc
  | Bad _ :: doc => Fault lineno :: calls_of section (lineno + 1) doc
  end.

(** The calls one after the other: the handler's data at the end, and the
    numbers of the lines that were refused or could not be read. *)
Fixpoint run_calls {U} (handler : U → list Z → list Z → list Z → res (U * bool)) (cs : list call) (u : U) : res (U * list Z) :=
  match cs with
  | [] => Ok (u, [])
  | Fault n :: cs => '(u, bad) ← run_calls handler cs u; Ok (u, n :: bad)
  | Call n section name value :: cs =>
      '(u, accepted) ← handler u section name value;
      '(u, bad) ← run_calls handler cs u;
      Ok (u, if accepted : bool then bad else n :: bad)
  end.

(** The result of the parser: 0, or the first line with an error. *)
Definition meaning {U} (handler : U → list Z → list Z → list Z → res (U * bool)) (lineno : Z) (doc : list item) (u : U) : res (U * Z) :=
  '(u, bad) ← run_calls handler (calls_of [] lineno doc) u;
  Ok (u, default 0 (head bad)).

(** What a line does to the parser's state. *)
Definition spec_item {U} (handler : U → list Z → list Z → list Z → res (U * bool)) (lineno : Z)
    (i : item) (st : parser U) : res (parser U) :=
  match i with
  | Sec n => Ok (Parser n [] (error st) (user st))
  | Pair n v => offer handler lineno n v (strncpy0 n MAX_NAME) st
  | Remark _ => Ok st
  | Bad _ => Ok (complain lineno st)
  end.
Fixpoint spec_items {U} (handler : U → list Z → list Z → list Z → res (U * bool))
    (doc : list item) (lineno : Z) (st : parser U) : res (parser U) :=
  match doc with
  | [] => Ok st
  | i :: doc => st ← spec_item handler lineno i st; spec_items handler doc (lineno + 1) st
  end.

(** *** Lines of a rendered document *)

Lemma word_char_facts c : word_char c = true →
  is_char c = true ∧ isspace c = false ∧ c ≠ 59 ∧ c ≠ 35 ∧ c ≠ 91 ∧ c ≠ 93 ∧ c ≠ 61 ∧ c ≠ 58 ∧ c ≠ 10.
Proof.
  unfold word_char. simpl. rewrite !andb_true_iff, !negb_true_iff, !orb_false_iff, !Z.eqb_neq.
  intros [[Hc Hs] H]. split_and!; try tauto. intros ->. done.
Qed.

Lemma item_lines i : item_ok i = true → Forall (λ c, line_char c = true) (render_item i).
Proof.
  assert (∀ n, forallb word_char n = true → Forall (λ c, line_char c = true) n) as Hw.
  { intros n Hn. rewrite Forall_forall. intros c Hc%list_elem_of_In.
    rewrite forallb_forall in Hn. apply Hn, word_char_facts in Hc. unfold line_char.
    destruct Hc as (-> & _ & _ & _ & _ & _ & _ & _ & Hc). simpl. by destruct (Z.eqb_spec c 10). }
  pose proof (forallb_Forall line_char) as Hl.
  unfold item_ok, word, value_ok. destruct i as [n|n v|t|t]; simpl; intros H; split_andb; [constructor| |constructor|].
  - done.
  - apply Forall_app. split; [auto|]. by repeat constructor.
  - apply Forall_app. split; [auto|]. constructor; [done|auto].
  - done.
  - auto.
  - auto.
Qed.

Lemma line_char_facts c : line_char c = true → c ≠ 0 ∧ c ≠ 10.
Proof. unfold line_char, is_char. intros. split_andb. to_prop. split; [lia|]. intros ->. done. Qed.

Lemma lines_cut doc : forallb item_ok doc = true →
  Forall (λ b, Forall (λ c, c ≠ 10) b ∧ (length b < INI_MAX_LINE - 1)%nat) (render_item <$> doc).
Proof.
  intros Hok. rewrite Forall_fmap, Forall_forall. intros i Hi%list_elem_of_In.
  rewrite forallb_forall in Hok. specialize (Hok i Hi). simpl. split.
  - eapply Forall_impl; [by apply item_lines|]. intros c Hc. by apply line_char_facts.
  - unfold item_ok in Hok. split_andb. by eapply bool_decide_eq_true.
Qed.

Lemma file_lines_render doc : forallb item_ok doc = true →
  file_lines (render doc) = (λ i, render_item i ++ [10]) <$> doc.
Proof.
  intros Hok. unfold file_lines, lines_of, render.
  assert ((λ i, render_item i ++ [10]) <$> doc = (λ b, b ++ [10]) <$> (render_item <$> doc)) as ->
    by by rewrite <- list_fmap_compose.
  rewrite read_lines_cut; [done|by apply lines_cut|apply concat_lines_length].
Qed.

(** *** One line *)

(** Decided facts as propositions. *)
Ltac undecide :=
  repeat match goal with
  | H : bool_decide _ = true |- _ => apply bool_decide_eq_true in H
  | H : negb _ = true |- _ => apply negb_true_iff in H
  | H : bool_decide _ = false |- _ => apply bool_decide_eq_false in H
  end.

Lemma drop_trailing_cons (p : Z → bool) x l : p x = false →
  drop_trailing p (x :: l) = x :: drop_trailing p l.
Proof.
  intros Hx. unfold drop_trailing. rewrite reverse_cons, drop_while_app. simpl. rewrite Hx.
  destruct (drop_while p (reverse l)) as [|y r]; [done|].
  exact (reverse_snoc (y :: r) x).
Qed.

Lemma drop_trailing_app (p : Z → bool) n l : Forall (λ c, p c = false) n →
  drop_trailing p (n ++ l) = n ++ drop_trailing p l.
Proof.
  induction 1 as [|c n Hc Hn IH]; [done|]. cbn [app]. by rewrite drop_trailing_cons, IH.
Qed.

Lemma upto_nul_id l : Forall (λ c, c ≠ 0) l → upto_nul l = l.
Proof.
  induction 1 as [|c l Hc Hl IH]; [done|]. simpl. destruct (Z.eqb_spec c 0); [done|]. by rewrite IH.
Qed.

Lemma find_from_hit n c rest ws : c ≠ 59 → Forall (λ x, x ≠ c ∧ x ≠ 59) n →
  find_from (n ++ c :: rest) c ws = (n, c :: rest).
Proof.
  intros Hc Hn. revert ws. induction Hn as [|x n [Hx Hx'] Hn IH]; intros ws; simpl.
  - by rewrite Z.eqb_refl.
  - destruct (Z.eqb_spec x c), (Z.eqb_spec x 59); try done. by rewrite andb_false_r, IH.
Qed.

Lemma find_from_miss n c ws : Forall (λ x, x ≠ c ∧ x ≠ 59) n → find_from n c ws = (n, []).
Proof.
  intros Hn. revert ws. induction Hn as [|x n [Hx Hx'] Hn IH]; intros ws; simpl; [done|].
  destruct (Z.eqb_spec x c), (Z.eqb_spec x 59); try done. by rewrite andb_false_r, IH.
Qed.

Lemma find_from_end s ws : Forall (λ c, c ≠ 0) s → no_comment ws s = true →
  find_from s 0 ws = (s, []).
Proof.
  intros Hs. revert ws. induction Hs as [|c s Hc Hs IH]; intros ws Hn; [done|]. simpl in *.
  split_andb. destruct (Z.eqb_spec c 0); [done|]. apply negb_true_iff in H. rewrite H. simpl.
  by rewrite IH.
Qed.

Lemma word_blanks n : word n = true → Forall (λ c, isspace c = false) n.
Proof.
  unfold word. intros [_ Hn]%andb_prop. rewrite forallb_forall in Hn. rewrite Forall_forall.
  intros c Hc%list_elem_of_In. by apply Hn, word_char_facts in Hc as (_ & ? & _).
Qed.

Lemma word_free n c : word n = true → In c [59; 35; 91; 93; 61; 58] → Forall (λ x, x ≠ c ∧ x ≠ 59) n.
Proof.
  unfold word. intros [_ Hn]%andb_prop Hc. rewrite forallb_forall in Hn. rewrite Forall_forall.
  intros x Hx%list_elem_of_In. apply Hn, word_char_facts in Hx. simpl in Hc.
  destruct_or? Hc; subst; tauto.
Qed.

Lemma word_first n : word n = true → ∃ c n', n = c :: n' ∧ isspace c = false ∧
  (c =? 59) = false ∧ (c =? 35) = false ∧ (c =? 91) = false.
Proof.
  unfold word. destruct n as [|c n]; [done|]. simpl. intros [Hc _]%andb_prop. exists c, n.
  apply word_char_facts in Hc. rewrite !Z.eqb_neq. tauto.
Qed.

(** The string the parser starts from. *)
Lemma start_of l : Forall (λ c, line_char c = true) l →
  rstrip (upto_nul (l ++ [10])) = rstrip l.
Proof.
  intros Hl. rewrite upto_nul_id.
  - unfold rstrip. by rewrite drop_trailing_snoc.
  - apply Forall_app. split; [|by constructor]. eapply Forall_impl; [exact Hl|].
    intros c Hc. by apply line_char_facts.
Qed.

Lemma no_bom lineno i : item_ok i = true → has_bom lineno (upto_nul (render_item i ++ [10])) = false.
Proof.
  intros Hok. pose proof (item_lines i Hok) as Hl. unfold has_bom. rewrite upto_nul_id.
  2: { apply Forall_app. split; [|by constructor]. eapply Forall_impl; [exact Hl|].
       intros c Hc. by apply line_char_facts. }
  apply andb_false_iff. right. apply bool_decide_false. intros E.
  unfold item_ok in Hok. split_andb. apply negb_true_iff, bool_decide_eq_false in H1.
  apply H1. destruct (render_item i) as [|a [|b [|c r]]]; simpl in *; simplify_eq; try done.
Qed.

(** A line that starts with a character that is not a blank. *)
Lemma parse_plain {U} (handler : U → list Z → list Z → list Z → res (U * bool)) lineno i c s st :
  item_ok i = true → rstrip (render_item i) = c :: s → isspace c = false →
  parse_line handler lineno (render_item i ++ [10]) st =
    if (c =? 59) || (c =? 35) then Ok st
    else if c =? 91 then Ok (section_line lineno (c :: s) st)
    else pair_line handler lineno (c :: s) st.
Proof.
  intros Hok Hs Hc. unfold parse_line. cbv zeta. rewrite no_bom, start_of, Hs by (by try apply item_lines).
  assert (lskip (c :: s) = c :: s) as -> by (unfold lskip; simpl; by rewrite Hc).
  rewrite bool_decide_true by done. unfold parse_start. cbn [first hd negb orb].
  rewrite andb_false_r, (bool_decide_false (c :: s = [])) by done. cbn [negb andb].
  destruct (c =? 59); [done|]. destruct (c =? 35), (c =? 91); done.
Qed.

Lemma parse_rendered {U} (handler : U → list Z → list Z → list Z → res (U * bool)) lineno i st :
  item_ok i = true → parse_line handler lineno (render_item i ++ [10]) st = spec_item handler lineno i st.
Proof.
  intros Hok. pose proof Hok as Hi. unfold item_ok in Hi.
  destruct i as [n|n v|t|t]; simpl in Hi; split_andb; cbn [render_item spec_item].
  - rewrite (parse_plain handler lineno (Sec n) 91 (n ++ [93])); [|done| |done].
    2: { unfold rstrip. simpl. rewrite drop_trailing_cons by done.
         by rewrite drop_trailing_app by (by apply word_blanks). }
    simpl. unfold section_line, find_char_or_comment. simpl.
    rewrite find_from_hit; [|done|apply word_free; [done|simpl; tauto]]. simpl.
    f_equal. f_equal. unfold strncpy0. apply take_ge.
    undecide. unfold MAX_SECTION in *. lia.
  - destruct (word_first n) as (c & n' & En & Hc & H59 & H35 & H91); [done|].
    unfold value_ok in *. split_andb. undecide.
    rewrite (parse_plain handler lineno (Pair n v) c (n' ++ 61 :: v)); [|done| |done].
    2: { unfold rstrip in *. simpl. rewrite drop_trailing_app by (by apply word_blanks).
         rewrite drop_trailing_cons by done. rewrite En. cbn [app]. by f_equal; congruence. }
    rewrite H59, H35, H91. simpl. change (c :: n' ++ 61 :: v) with ((c :: n') ++ 61 :: v).
    rewrite <- En. unfold pair_line, find_char_or_comment.
    rewrite find_from_hit; [|done|apply word_free; [done|simpl; tauto]]. simpl.
    replace (lskip v) with v by done. rewrite find_from_end; [| |done].
    2: { eapply Forall_impl; [by apply (forallb_Forall line_char)|]. intros x Hx.
         by apply line_char_facts. }
    assert (rstrip n = n) as ->; [|by f_equal]. unfold rstrip. rewrite <- (app_nil_r n) at 1.
    rewrite drop_trailing_app by (by apply word_blanks). apply app_nil_r.
  - assert (∃ t', rstrip (59 :: t) = 59 :: t') as [t' Ht].
    { unfold rstrip. rewrite drop_trailing_cons by done. eauto. }
    by rewrite (parse_plain handler lineno (Remark t) 59 t').
  - destruct (word_first t) as (c & t' & En & Hc & H59 & H35 & H91); [done|].
    rewrite (parse_plain handler lineno (Bad t) c t'); [|done| |done].
    2: { cbn [render_item]. rewrite <- En. unfold rstrip. rewrite <- (app_nil_r t) at 1.
         rewrite drop_trailing_app by (by apply word_blanks). apply app_nil_r. }
    rewrite H59, H35, H91. rewrite <- En. cbn [orb]. unfold pair_line, find_char_or_comment.
    by rewrite !find_from_miss by (apply word_free; [done|simpl; tauto]).
Qed.

Lemma parse_doc {U} (handler : U → list Z → list Z → list Z → res (U * bool)) doc lineno st :
  forallb item_ok doc = true →
  parse_lines handler (file_lines (render doc)) lineno st = spec_items handler doc lineno st.
Proof.
  intros Hok. rewrite file_lines_render by done. revert lineno st.
  induction doc as [|i doc IH]; intros lineno st; [done|].
  simpl in Hok. split_andb. simpl. rewrite parse_rendered by done.
  destruct (spec_item handler lineno i st); simpl; [|done]. by apply IH.
Qed.

Lemma ini_parse_spec {U} (handler : U → list Z → list Z → list Z → res (U * bool))
    (doc : list item) (u : U) : forallb item_ok doc = true →
  ini_parse handler (Some (render doc)) u =
    (st ← spec_items handler doc 1 (Parser [] [] 0 u); Ok (user st, error st)).
Proof. intros Hok. simpl. unfold ini_parse_file. by rewrite parse_doc. Qed.

(** The parser keeps the first error. *)
Lemma spec_items_meaning {U} (handler : U → list Z → list Z → list Z → res (U * bool)) doc lineno st : 0 < lineno →
  (st ← spec_items handler doc lineno st; Ok (user st, error st)) =
  ('(u, bad) ← run_calls handler (calls_of (section st) lineno doc) (user st);
   Ok (u, if error st =? 0 then default 0 (head bad) else error st)).
Proof.
  revert lineno st. induction doc as [|i doc IH]; intros lineno [sec prev err u] Hl; cbn [spec_items calls_of run_calls mbind res_bind].
  { cbn. by destruct (Z.eqb_spec err 0) as [->|]. }
  destruct i as [n|n v|t|t]; cbn [spec_item mbind res_bind calls_of run_calls section user error].
  - by rewrite IH by lia.
  - unfold offer. cbn [user section]. destruct (handler u sec n v) as [[u' ok]|]; [|done]. cbn [mbind res_bind error].
    rewrite IH by lia. cbn [section user error]. destruct (run_calls handler _ u') as [[u2 bad]|]; [|done]. cbn [mbind res_bind].
    unfold report. destruct ok, (Z.eqb_spec err 0); cbn [negb andb head default]; try done.
    + by subst.
    + by rewrite (proj2 (Z.eqb_neq err 0)) by done.
    + by rewrite (proj2 (Z.eqb_neq lineno 0)) by lia.
    + by rewrite (proj2 (Z.eqb_neq err 0)) by done.
  - by rewrite IH by lia.
  - rewrite IH by lia. unfold complain. cbn [section user error prev_name]. destruct (run_calls handler _ u) as [[u2 bad]|]; [|done].
    cbn [mbind res_bind]. unfold report. destruct (Z.eqb_spec err 0); cbn [negb andb head default].
    + by rewrite (proj2 (Z.eqb_neq _ _)) by lia.
    + by rewrite (proj2 (Z.eqb_neq _ _)) by done.
Qed.

(** C35: a document of sections, [name=value] pairs, comment lines and lines that
    are none of these, each shorter than the line buffer, is parsed into exactly
    its meaning: the handler is called once for each pair, in order, with the
    section the pair is in, its name and its value, and the result is the number
    of the first line that the handler refuses or that has neither [=] nor [:],
    or 0.  Sections (under 50 bytes), names and unreadable lines are words,
    without blanks and the characters that the parser gives a meaning; values
    have no blank at their ends and no [;] after a blank. *)
Theorem ini_parse_document {U} (handler : U → list Z → list Z → list Z → res (U * bool))
    (doc : list item) (u : U) : forallb item_ok doc = true →
  ini_parse handler (Some (render doc)) u = meaning handler 1 doc u.
Proof.
  intros Hok. rewrite ini_parse_spec by done. unfold meaning. by rewrite spec_items_meaning by lia.
Qed.

(** A handler that records the pairs it gets, and a document. *)
Definition record_pair (u : list (list Z * list Z)) (section name value : list Z) :
    res (list (list Z * list Z) * bool) := Ok ((name, value) :: u, true).
Definition sample_doc : list item :=
  [Remark (lit_bytes " settings"); Sec (lit_bytes "log"); Pair (lit_bytes "file") (lit_bytes "a b;c"); Bad (lit_bytes "stray")].

Lemma ini_parse_document_witness :
  forallb item_ok sample_doc = true ∧
  meaning record_pair 1 sample_doc [] = Ok ([(lit_bytes "file", lit_bytes "a b;c")], 4) ∧
  ini_parse record_pair (Some (render sample_doc)) [] = meaning record_pair 1 sample_doc [].
Proof. split; [vm_compute; reflexivity|]. split; [vm_compute; reflexivity|]. apply ini_parse_document; vm_compute; reflexivity. Defined.

(** ** Long lines *)

(** A comment line that fills the line buffer does not extend to the end
    of its line: what follows its 199th byte is read as a new line and parsed,
    so a directive at the end of a long comment takes effect. *)
Theorem long_comment_resumes {U} (handler : U → list Z → list Z → list Z → res (U * bool))
    (t : list Z) (doc : list item) (u : U) :
  forallb line_char t = true → length t = 198%nat → forallb item_ok doc = true →
  ini_parse handler (Some (59 :: t ++ render doc)) u =
    meaning handler 2 doc u.
Proof.
  intros Ht Hl Hok. simpl. unfold ini_parse_file.
  assert (file_lines (59 :: t ++ render doc) = (59 :: t) :: file_lines (render doc)) as ->.
  { unfold file_lines, lines_of. cbn [length read_lines].
    change (59 :: t ++ render doc) with ((59 :: t) ++ render doc).
    replace (INI_MAX_LINE - 1)%nat with (length (59 :: t)) by (simpl; by rewrite Hl).
    rewrite fgets_full.
    2: { constructor; [done|]. eapply Forall_impl; [by apply (forallb_Forall line_char)|].
         intros c Hc. by apply line_char_facts. }
    replace (length (59 :: t)) with (INI_MAX_LINE - 1)%nat by (simpl; by rewrite Hl).
    f_equal. rewrite length_app. unfold render.
    assert ((λ i, render_item i ++ [10]) <$> doc = (λ b, b ++ [10]) <$> (render_item <$> doc)) as ->
      by by rewrite <- list_fmap_compose.
    assert (Forall (λ b, Forall (λ c, c ≠ 10) b ∧ (length b < INI_MAX_LINE - 1)%nat) (render_item <$> doc))
      by by apply lines_cut.
    pose proof (concat_lines_length (render_item <$> doc)).
    rewrite !read_lines_cut; [done|done|lia|done|lia]. }
  cbn [parse_lines].
  assert (parse_line handler 1 (59 :: t) (Parser [] [] 0 u) = Ok (Parser [] [] 0 u)) as ->.
  { assert (Forall (λ c, c ≠ 0) (59 :: t)).
    { constructor; [done|]. eapply Forall_impl; [by apply (forallb_Forall line_char)|].
      intros c Hc. by apply line_char_facts. }
    unfold parse_line. cbv zeta. rewrite upto_nul_id by done. unfold has_bom.
    rewrite bool_decide_false by (by destruct t as [|? []]). rewrite andb_false_r.
    unfold rstrip. rewrite drop_trailing_cons by done. done. }
  cbn [mbind res_bind]. rewrite parse_doc by done. unfold meaning. by rewrite spec_items_meaning by lia.
Qed.

(** A comment of 199 bytes in front of a section header and a directive. *)
Lemma long_comment_resumes_witness :
  let doc := [Sec (lit_bytes "protocol"); Pair (lit_bytes "enable") [49]] in
  ini_parse record_pair (Some (59 :: replicate 198 120 ++ render doc)) [] =
    meaning record_pair 2 doc [].
Proof. cbv zeta. apply long_comment_resumes; vm_compute; reflexivity. Defined.
