(* ===== verification/ConfigFile.v ===== *)
(** The configuration file of the agent: [ini/ethanol_config_file.c] on top of
    the parser of [IniFile]. *)
From stdpp Require Import prelude list strings.
From S2P Require Import Prelude CMem Strlib IniFile.

(** ** The code *)

Record ethanol_configuration := Config {
  ethanol_enable : Z;
  server_addr : charp;
  remote_server_port : Z;
  local_server_port : Z;
  log_filename : charp;
  forward_beacon : Z;
  hello_frequency : Z;
  enabled_msg_association : bool;
  enabled_msg_disassociation : bool;
  enabled_msg_reassociation : bool;
  enabled_msg_authorization : bool;
  enabled_msg_user_disconnecting : bool;
  enabled_msg_user_connecting : bool
}.

Definition set_ethanol_enable (c : ethanol_configuration) (x : Z) : ethanol_configuration :=
  Config x (server_addr c) (remote_server_port c) (local_server_port c) (log_filename c)
    (forward_beacon c) (hello_frequency c) (enabled_msg_association c)
    (enabled_msg_disassociation c) (enabled_msg_reassociation c) (enabled_msg_authorization
    c) (enabled_msg_user_disconnecting c) (enabled_msg_user_connecting c).
Definition set_server_addr (c : ethanol_configuration) (x : charp) : ethanol_configuration :=
  Config (ethanol_enable c) x (remote_server_port c) (local_server_port c) (log_filename c)
    (forward_beacon c) (hello_frequency c) (enabled_msg_association c)
    (enabled_msg_disassociation c) (enabled_msg_reassociation c) (enabled_msg_authorization
    c) (enabled_msg_user_disconnecting c) (enabled_msg_user_connecting c).
Definition set_remote_server_port (c : ethanol_configuration) (x : Z) : ethanol_configuration :=
  Config (ethanol_enable c) (server_addr c) x (local_server_port c) (log_filename c)
    (forward_beacon c) (hello_frequency c) (enabled_msg_association c)
    (enabled_msg_disassociation c) (enabled_msg_reassociation c) (enabled_msg_authorization
    c) (enabled_msg_user_disconnecting c) (enabled_msg_user_connecting c).
Definition set_local_server_port (c : ethanol_configuration) (x : Z) : ethanol_configuration :=
  Config (ethanol_enable c) (server_addr c) (remote_server_port c) x (log_filename c)
    (forward_beacon c) (hello_frequency c) (enabled_msg_association c)
    (enabled_msg_disassociation c) (enabled_msg_reassociation c) (enabled_msg_authorization
    c) (enabled_msg_user_disconnecting c) (enabled_msg_user_connecting c).
Definition set_log_filename (c : ethanol_configuration) (x : charp) : ethanol_configuration :=
  Config (ethanol_enable c) (server_addr c) (remote_server_port c) (local_server_port c) x
    (forward_beacon c) (hello_frequency c) (enabled_msg_association c)
    (enabled_msg_disassociation c) (enabled_msg_reassociation c) (enabled_msg_authorization
    c) (enabled_msg_user_disconnecting c) (enabled_msg_user_connecting c).
Definition set_forward_beacon (c : ethanol_configuration) (x : Z) : ethanol_configuration :=
  Config (ethanol_enable c) (server_addr c) (remote_server_port c) (local_server_port c)
    (log_filename c) x (hello_frequency c) (enabled_msg_association c)
    (enabled_msg_disassociation c) (enabled_msg_reassociation c) (enabled_msg_authorization
    c) (enabled_msg_user_disconnecting c) (enabled_msg_user_connecting c).
Definition set_hello_frequency (c : ethanol_configuration) (x : Z) : ethanol_configuration :=
  Config (ethanol_enable c) (server_addr c) (remote_server_port c) (local_server_port c)
    (log_filename c) (forward_beacon c) x (enabled_msg_association c)
    (enabled_msg_disassociation c) (enabled_msg_reassociation c) (enabled_msg_authorization
    c) (enabled_msg_user_disconnecting c) (enabled_msg_user_connecting c).
Definition set_enabled_msg_association (c : ethanol_configuration) (x : bool) : ethanol_configuration :=
  Config (ethanol_enable c) (server_addr c) (remote_server_port c) (local_server_port c)
    (log_filename c) (forward_beacon c) (hello_frequency c) x (enabled_msg_disassociation c)
    (enabled_msg_reassociation c) (enabled_msg_authorization c)
    (enabled_msg_user_disconnecting c) (enabled_msg_user_connecting c).
Definition set_enabled_msg_disassociation (c : ethanol_configuration) (x : bool) : ethanol_configuration :=
  Config (ethanol_enable c) (server_addr c) (remote_server_port c) (local_server_port c)
    (log_filename c) (forward_beacon c) (hello_frequency c) (enabled_msg_association c) x
    (enabled_msg_reassociation c) (enabled_msg_authorization c)
    (enabled_msg_user_disconnecting c) (enabled_msg_user_connecting c).
Definition set_enabled_msg_reassociation (c : ethanol_configuration) (x : bool) : ethanol_configuration :=
  Config (ethanol_enable c) (server_addr c) (remote_server_port c) (local_server_port c)
    (log_filename c) (forward_beacon c) (hello_frequency c) (enabled_msg_association c)
    (enabled_msg_disassociation c) x (enabled_msg_authorization c)
    (enabled_msg_user_disconnecting c) (enabled_msg_user_connecting c).
Definition set_enabled_msg_authorization (c : ethanol_configuration) (x : bool) : ethanol_configuration :=
  Config (ethanol_enable c) (server_addr c) (remote_server_port c) (local_server_port c)
    (log_filename c) (forward_beacon c) (hello_frequency c) (enabled_msg_association c)
    (enabled_msg_disassociation c) (enabled_msg_reassociation c) x
    (enabled_msg_user_disconnecting c) (enabled_msg_user_connecting c).
Definition set_enabled_msg_user_disconnecting (c : ethanol_configuration) (x : bool) : ethanol_configuration :=
  Config (ethanol_enable c) (server_addr c) (remote_server_port c) (local_server_port c)
    (log_filename c) (forward_beacon c) (hello_frequency c) (enabled_msg_association c)
    (enabled_msg_disassociation c) (enabled_msg_reassociation c) (enabled_msg_authorization
    c) x (enabled_msg_user_connecting c).
Definition set_enabled_msg_user_connecting (c : ethanol_configuration) (x : bool) : ethanol_configuration :=
  Config (ethanol_enable c) (server_addr c) (remote_server_port c) (local_server_port c)
    (log_filename c) (forward_beacon c) (hello_frequency c) (enabled_msg_association c)
    (enabled_msg_disassociation c) (enabled_msg_reassociation c) (enabled_msg_authorization
    c) (enabled_msg_user_disconnecting c) x.

Definition HELLO_FREQUENCY : Z := 20.

(** [set_defaults] leaves the server address as it is. *)
Definition set_defaults (c : ethanol_configuration) : ethanol_configuration :=
  Config 0 (server_addr c) 22222 22224 None (-1) HELLO_FREQUENCY
    false false false false false false.

(** [atoi]: blanks, a sign, digits; a number that does not fit an [int] has
    no defined result. *)
Definition isdigit (x : Z) : bool := (48 <=? x) && (x <=? 57).
Fixpoint digits (acc : Z) (s : list Z) : Z :=
  match s with
  | [] => acc
  | x :: s => if isdigit x then digits (acc * 10 + (x - 48)) s else acc
  end.
Definition atoi (s : list Z) : res Z :=
  let s := lskip s in
  let z := if first s =? 45 then - digits 0 (tail s)
           else if first s =? 43 then digits 0 (tail s) else digits 0 s in
  ensure (i32_ok z) SignedOverflow;; Ok z.

Definition MATCH (section name : list Z) (s n : string) : bool :=
  bool_decide (section = lit_bytes s) && bool_decide (name = lit_bytes n).

(** [atoi(value) == 1]. *)
Definition is_one (value : list Z) : res bool := z ← atoi value; Ok (z =? 1).

(** The period is an [unsigned int]; only zero is replaced. *)
Definition hello_period (z : Z) : Z := if to_u32 z <=? 0 then 60 else to_u32 z.

Definition handler (c : ethanol_configuration) (section name value : list Z) :
    res (ethanol_configuration * bool) :=
  let MATCH := MATCH section name in
  if MATCH "protocol" "enable" then z ← atoi value; Ok (set_ethanol_enable c z, true)
  else if MATCH "protocol" "address" then Ok (set_server_addr c (mk_str value), true)
  else if MATCH "protocol" "port_local" then z ← atoi value; Ok (set_local_server_port c z, true)
  else if MATCH "protocol" "port_remote" then z ← atoi value; Ok (set_remote_server_port c z, true)
  else if MATCH "protocol" "forward_beacon" then z ← atoi value; Ok (set_forward_beacon c z, true)
  else if MATCH "protocol" "hello_frequency" then
    z ← atoi value; Ok (set_hello_frequency c (hello_period z), true)
  else if MATCH "log" "logfile" then Ok (set_log_filename c (mk_str value), true)
  else if MATCH "association" "msg_association" then
    b ← is_one value; Ok (set_enabled_msg_association c b, true)
  else if MATCH "association" "msg_disassociation" then
    b ← is_one value; Ok (set_enabled_msg_disassociation c b, true)
  else if MATCH "association" "msg_reassociation" then
    b ← is_one value; Ok (set_enabled_msg_reassociation c b, true)
  else if MATCH "association" "msg_authorization" then
    b ← is_one value; Ok (set_enabled_msg_authorization c b, true)
  else if MATCH "association" "msg_user_disconnecting" then
    b ← is_one value; Ok (set_enabled_msg_user_disconnecting c b, true)
  else if MATCH "association" "msg_user_connecting" then
    b ← is_one value; Ok (set_enabled_msg_user_connecting c b, true)
  else Ok (c, false).

(** The file that is read, [None] when it cannot be opened. *)
Definition read_configfile (file : option (list Z)) (c : ethanol_configuration) :
    res (bool * ethanol_configuration) :=
  '(c, error) ← ini_parse handler file (set_defaults c);
  if error <? 0 then Ok (false, set_forward_beacon (set_ethanol_enable c 0) (-1))
  else Ok (true, c).

(** [check_if_file_exits] returns a [bool], which is never negative. *)
Definition check_if_file_exits (file : option (list Z)) : bool :=
  match file with Some _ => true | None => false end.
Definition set_ethanol_config_file `{Allocator} (file : option (list Z)) (filename : charp) :
    res (bool * charp) :=
  if (if check_if_file_exits file then 1 else 0) <? 0 then Ok (false, None)
  else
    n ← strlen filename;
    p ← malloc_strcpy n filename;
    Ok (true, p).

(** ** Printing a configuration *)

Fixpoint dec_nat (fuel : nat) (n : Z) : list Z :=
  match fuel with
  | O => []
  | S fuel => (if n <? 10 then [] else dec_nat fuel (n / 10)) ++ [48 + n `mod` 10]
  end.
Definition dec (z : Z) : list Z := if z <? 0 then 45 :: dec_nat 10 (- z) else dec_nat 10 z.
Definition dec_bool (b : bool) : list Z := if b then [49] else [48].

Definition config_doc (c : ethanol_configuration) : list item :=
  [ Sec (lit_bytes "protocol");
    Pair (lit_bytes "enable") (dec (ethanol_enable c));
    Pair (lit_bytes "address") (text (server_addr c));
    Pair (lit_bytes "port_local") (dec (local_server_port c));
    Pair (lit_bytes "port_remote") (dec (remote_server_port c));
    Pair (lit_bytes "forward_beacon") (dec (forward_beacon c));
    Pair (lit_bytes "hello_frequency") (dec (hello_frequency c));
    Sec (lit_bytes "log");
    Pair (lit_bytes "logfile") (text (log_filename c));
    Sec (lit_bytes "association");
    Pair (lit_bytes "msg_association") (dec_bool (enabled_msg_association c));
    Pair (lit_bytes "msg_disassociation") (dec_bool (enabled_msg_disassociation c));
    Pair (lit_bytes "msg_reassociation") (dec_bool (enabled_msg_reassociation c));
    Pair (lit_bytes "msg_authorization") (dec_bool (enabled_msg_authorization c));
    Pair (lit_bytes "msg_user_disconnecting") (dec_bool (enabled_msg_user_disconnecting c));
    Pair (lit_bytes "msg_user_connecting") (dec_bool (enabled_msg_user_connecting c)) ].

(** A string as the parser stores it: a short value. *)
Definition short_value (p : charp) : bool :=
  bool_decide (p = mk_str (text p)) && value_ok (text p) && bool_decide (length (text p) < 150)%nat.

Definition config_ok (c : ethanol_configuration) : bool :=
  i32_ok (ethanol_enable c) && short_value (server_addr c) && i32_ok (remote_server_port c) &&
  i32_ok (local_server_port c) && short_value (log_filename c) && i32_ok (forward_beacon c) &&
  i32_ok (hello_frequency c) && (0 <? hello_frequency c).

(** *** Numbers *)

Lemma digits_app acc l l' : Forall (λ x, isdigit x = true) l →
  digits acc (l ++ l') = digits (digits acc l) l'.
Proof.
  intros Hl. revert acc. induction Hl as [|x l Hx Hl IH]; intros acc; [done|]. simpl. by rewrite Hx.
Qed.

Lemma isdigit_mod n : 0 ≤ n → isdigit (48 + n `mod` 10) = true.
Proof. intros. unfold isdigit. pose proof (Z.mod_pos_bound n 10). lia. Qed.

Lemma dec_nat_spec fuel n : 0 ≤ n < 10 ^ Z.of_nat fuel →
  digits 0 (dec_nat fuel n) = n ∧ Forall (λ x, isdigit x = true) (dec_nat fuel n) ∧
  (length (dec_nat fuel n) ≤ fuel)%nat.
Proof.
  revert n. induction fuel as [|fuel IH]; intros n Hn; [simpl in *; split_and!; [lia|constructor|lia]|].
  assert (10 ^ Z.of_nat (S fuel) = 10 * 10 ^ Z.of_nat fuel) as Hp.
  { rewrite Nat2Z.inj_succ, Z.pow_succ_r; lia. }
  pose proof (isdigit_mod n) as Hd. simpl dec_nat.
  destruct (Z.ltb_spec n 10) as [Hlt|Hge].
  { rewrite Z.mod_small in * by lia. simpl in *. rewrite Hd by lia.
    split_and!; [lia|by constructor; [apply Hd; lia|]|lia]. }
  destruct (IH (n / 10)) as (IH1 & IH2 & IH3).
  { split; [by apply Z.div_pos; lia|]. apply Z.div_lt_upper_bound; lia. }
  split_and!.
  - rewrite digits_app, IH1 by done. simpl. rewrite Hd by lia.
    pose proof (Z.div_mod n 10). lia.
  - apply Forall_app. split; [done|]. constructor; [apply Hd; lia|constructor].
  - rewrite length_app. simpl. lia.
Qed.

(** Characters that never mean anything to the parser. *)
Definition plain_char (x : Z) : bool :=
  is_char x && negb (isspace x) && negb (x =? 59).

Lemma plain_value v : Forall (λ x, plain_char x = true) v → value_ok v = true.
Proof.
  intros Hv. assert (Forall (λ x, isspace x = false) v) as Hs.
  { eapply Forall_impl; [exact Hv|]. intros x Hx. unfold plain_char in Hx. by split_andb; apply negb_true_iff. }
  unfold value_ok. split_andb.
  - apply forallb_forall. intros x Hx%list_elem_of_In. rewrite Forall_forall in Hv.
    specialize (Hv x Hx). unfold plain_char, line_char in *. split_andb; [done|].
    destruct (Z.eqb_spec x 10); by subst.
  - generalize false. induction Hv as [|x v Hx Hv IH]; intros ws; [done|]. simpl.
    inversion Hs; subst. rewrite IH, andb_true_r by done. unfold plain_char in Hx. split_andb.
    destruct (x =? 59); [done|]. by rewrite andb_false_r.
  - apply bool_decide_true. destruct Hs as [|x v Hx Hs]; [done|]. unfold lskip. simpl. by rewrite Hx.
  - apply bool_decide_true. unfold rstrip. rewrite <- (app_nil_r v) at 1.
    rewrite drop_trailing_app by done. apply app_nil_r.
Qed.

Lemma isdigit_plain x : isdigit x = true → plain_char x = true.
Proof.
  unfold isdigit. intros. split_andb. to_prop.
  assert (x = 48 ∨ x = 49 ∨ x = 50 ∨ x = 51 ∨ x = 52 ∨ x = 53 ∨ x = 54 ∨ x = 55 ∨ x = 56 ∨ x = 57)
    by lia. by destruct_or!; subst.
Qed.

Lemma i32_range z : i32_ok z = true → - 2 ^ 31 ≤ z < 2 ^ 31.
Proof. unfold s_ok. change (32 - 1) with 31. intros. split_andb. to_prop. lia. Qed.

Lemma dec_value z : i32_ok z = true → value_ok (dec z) = true ∧ (length (dec z) ≤ 11)%nat.
Proof.
  intros Hz. assert (- 2 ^ 31 ≤ z < 2 ^ 31) by (by apply i32_range).
  unfold dec. destruct (Z.ltb_spec z 0).
  - destruct (dec_nat_spec 10 (- z)) as (_ & Hd & Hl); [lia|]. split; [|cbn [length]; lia].
    apply plain_value. constructor; [done|]. eapply Forall_impl; [exact Hd|]. apply isdigit_plain.
  - destruct (dec_nat_spec 10 z) as (_ & Hd & Hl); [lia|]. split; [|lia].
    apply plain_value. eapply Forall_impl; [exact Hd|]. apply isdigit_plain.
Qed.

Lemma atoi_dec z : i32_ok z = true → atoi (dec z) = Ok z.
Proof.
  intros Hz. assert (- 2 ^ 31 ≤ z < 2 ^ 31) by (by apply i32_range).
  destruct (dec_value z Hz) as [Hv _]. unfold value_ok in Hv.
  apply andb_prop in Hv as [Hv _]. apply andb_prop in Hv as [_ Hv%bool_decide_eq_true].
  unfold atoi. rewrite Hv. cbv zeta. unfold dec in *. destruct (Z.ltb_spec z 0).
  - destruct (dec_nat_spec 10 (- z)) as (Hd & _); [lia|]. cbn [first hd]. rewrite Z.eqb_refl.
    change (tail (45 :: dec_nat 10 (- z))) with (dec_nat 10 (- z)). rewrite Hd, Z.opp_involutive.
    by rewrite Hz.
  - destruct (dec_nat_spec 10 z) as (Hd & Hdig & _); [lia|].
    assert ((first (dec_nat 10 z) =? 45) = false ∧ (first (dec_nat 10 z) =? 43) = false) as [-> ->].
    { destruct (dec_nat 10 z) as [|x l]; [done|]. inversion Hdig; subst. simpl.
      unfold isdigit in *. split_andb. to_prop. rewrite !Z.eqb_neq. lia. }
    rewrite Hd. by rewrite Hz.
Qed.

Lemma dec_bool_value b : value_ok (dec_bool b) = true ∧ (length (dec_bool b) ≤ 11)%nat ∧
  is_one (dec_bool b) = Ok b.
Proof. destruct b; split_and!; try reflexivity; simpl; lia. Qed.

(** *** The document *)

(** The keys of the configuration: short words that start with a letter. *)
Definition key (n : list Z) : bool :=
  word n && bool_decide (length n < 40)%nat && (first n <? 128).

Lemma pair_ok n v : key n = true → value_ok v = true → (length v < 150)%nat →
  item_ok (Pair n v) = true.
Proof.
  unfold key. intros Hn Hv Hl. split_andb. undecide. unfold item_ok. cbn [render_item].
  rewrite H, Hv, andb_true_r. apply andb_true_intro. split.
  - apply bool_decide_true. rewrite length_app. simpl. unfold INI_MAX_LINE. lia.
  - apply negb_true_iff, bool_decide_false. destruct n as [|x n]; [done|]. simpl in *. to_prop.
    intros [= -> _]. lia.
Qed.

Lemma config_doc_ok c : config_ok c = true → forallb item_ok (config_doc c) = true.
Proof.
  unfold config_ok, short_value. intros. split_andb. undecide. cbn [forallb config_doc].
  split_andb; try reflexivity; apply pair_ok; try reflexivity; try done;
    try (by apply dec_value); try (by apply dec_bool_value);
    match goal with
    | |- (length (dec ?z) < 150)%nat => pose proof (proj2 (dec_value z ltac:(done))); lia
    | |- (length (dec_bool ?b) < 150)%nat => pose proof (proj1 (proj2 (dec_bool_value b))); lia
    end.
Qed.

(** *** Reading it back *)

(** An accepted pair leaves the error as it was. *)
Lemma spec_pair {U} (hd : U → list Z → list Z → list Z → res (U * bool)) doc lineno n v s p e u u' :
  hd u s n v = Ok (u', true) →
  spec_items hd (Pair n v :: doc) lineno (Parser s p e u) =
    spec_items hd doc (lineno + 1) (Parser s (strncpy0 n MAX_NAME) e u').
Proof. intros H. simpl. unfold offer. simpl. by rewrite H. Qed.

Lemma spec_sec {U} (hd : U → list Z → list Z → list Z → res (U * bool)) doc lineno n s p e u :
  spec_items hd (Sec n :: doc) lineno (Parser s p e u) =
    spec_items hd doc (lineno + 1) (Parser n [] e u).
Proof. done. Qed.

(** Decides which key a closed section and name select. *)
Ltac match_key :=
  unfold handler; cbv zeta;
  repeat match goal with
  | |- context [MATCH ?s ?n ?a ?b] =>
      let r := eval vm_compute in (MATCH s n a b) in
      replace (MATCH s n a b) with r by (vm_compute; reflexivity)
  end; cbv iota.

Lemma read_hello z : i32_ok z = true → 0 < z → hello_period z = z.
Proof.
  intros Hz Hpos. unfold hello_period. apply i32_range in Hz.
  rewrite to_u_id; [|lia|unfold u_ok; split_andb; to_prop; lia].
  by destruct (Z.leb_spec z 0); [lia|].
Qed.

Lemma is_one_dec b : is_one (dec_bool b) = Ok b.
Proof. by destruct b. Qed.

(** Runs the handler on a printed setting. *)
Ltac read_setting :=
  match_key; cbn [user section];
  first [ rewrite atoi_dec by done | rewrite is_one_dec | idtac ];
  cbn [mbind res_bind]; cbv zeta; rewrite ?read_hello by done; reflexivity.

(** What the handler does with each printed setting. *)
Lemma read_ethanol_enable c z : i32_ok z = true →
  handler c (lit_bytes "protocol") (lit_bytes "enable") (dec z) = Ok (set_ethanol_enable c z, true).
Proof. intros. read_setting. Qed.

Lemma read_local_server_port c z : i32_ok z = true →
  handler c (lit_bytes "protocol") (lit_bytes "port_local") (dec z) = Ok (set_local_server_port c z, true).
Proof. intros. read_setting. Qed.

Lemma read_remote_server_port c z : i32_ok z = true →
  handler c (lit_bytes "protocol") (lit_bytes "port_remote") (dec z) = Ok (set_remote_server_port c z, true).
Proof. intros. read_setting. Qed.

Lemma read_forward_beacon c z : i32_ok z = true →
  handler c (lit_bytes "protocol") (lit_bytes "forward_beacon") (dec z) = Ok (set_forward_beacon c z, true).
Proof. intros. read_setting. Qed.

Lemma read_hello_frequency c z : i32_ok z = true → 0 < z →
  handler c (lit_bytes "protocol") (lit_bytes "hello_frequency") (dec z) = Ok (set_hello_frequency c z, true).
Proof. intros. read_setting. Qed.

Lemma read_server_addr c v :
  handler c (lit_bytes "protocol") (lit_bytes "address") v = Ok (set_server_addr c (mk_str v), true).
Proof. intros. read_setting. Qed.

Lemma read_log_filename c v :
  handler c (lit_bytes "log") (lit_bytes "logfile") v = Ok (set_log_filename c (mk_str v), true).
Proof. intros. read_setting. Qed.

Lemma read_msg_association c b :
  handler c (lit_bytes "association") (lit_bytes "msg_association") (dec_bool b) =
    Ok (set_enabled_msg_association c b, true).
Proof. intros. read_setting. Qed.

Lemma read_msg_disassociation c b :
  handler c (lit_bytes "association") (lit_bytes "msg_disassociation") (dec_bool b) =
    Ok (set_enabled_msg_disassociation c b, true).
Proof. intros. read_setting. Qed.

Lemma read_msg_reassociation c b :
  handler c (lit_bytes "association") (lit_bytes "msg_reassociation") (dec_bool b) =
    Ok (set_enabled_msg_reassociation c b, true).
Proof. intros. read_setting. Qed.

Lemma read_msg_authorization c b :
  handler c (lit_bytes "association") (lit_bytes "msg_authorization") (dec_bool b) =
    Ok (set_enabled_msg_authorization c b, true).
Proof. intros. read_setting. Qed.

Lemma read_msg_user_disconnecting c b :
  handler c (lit_bytes "association") (lit_bytes "msg_user_disconnecting") (dec_bool b) =
    Ok (set_enabled_msg_user_disconnecting c b, true).
Proof. intros. read_setting. Qed.

Lemma read_msg_user_connecting c b :
  handler c (lit_bytes "association") (lit_bytes "msg_user_connecting") (dec_bool b) =
    Ok (set_enabled_msg_user_connecting c b, true).
Proof. intros. read_setting. Qed.

(** A configuration survives being written and read back: for every
    configuration with [int] settings, a positive hello period and short
    server and log names, reading the printed file succeeds and yields exactly
    that configuration, whatever the structure held before. *)
Theorem read_configfile_roundtrip (c c0 : ethanol_configuration) : config_ok c = true →
  read_configfile (Some (render (config_doc c))) c0 = Ok (true, c).
Proof.
  intros Hok. unfold read_configfile. rewrite ini_parse_spec by (by apply config_doc_ok).
  unfold config_ok, short_value in Hok. split_andb. undecide. to_prop.
  unfold config_doc.
  rewrite spec_sec.
  erewrite spec_pair by (apply read_ethanol_enable; done).
  erewrite spec_pair by (apply read_server_addr; done).
  erewrite spec_pair by (apply read_local_server_port; done).
  erewrite spec_pair by (apply read_remote_server_port; done).
  erewrite spec_pair by (apply read_forward_beacon; done).
  erewrite spec_pair by (apply read_hello_frequency; done).
  rewrite spec_sec.
  erewrite spec_pair by (apply read_log_filename; done).
  rewrite spec_sec.
  erewrite spec_pair by (apply read_msg_association; done).
  erewrite spec_pair by (apply read_msg_disassociation; done).
  erewrite spec_pair by (apply read_msg_reassociation; done).
  erewrite spec_pair by (apply read_msg_authorization; done).
  erewrite spec_pair by (apply read_msg_user_disconnecting; done).
  erewrite spec_pair by (apply read_msg_user_connecting; done).
  cbn [spec_items mbind res_bind user error section]. rewrite Z.ltb_irrefl. f_equal. f_equal.
  repeat match goal with H : ?p = mk_str (text ?p) |- _ => rewrite <- H; clear H end.
  by destruct c.
Qed.

(** A configuration that is not the default one. *)
Definition sample_config : ethanol_configuration :=
  Config 1 (lit "controller.example") 22222 22223 (lit "/tmp/ethanol.log") (-1) 45
    true false true false false true.

Lemma read_configfile_roundtrip_witness : config_ok sample_config = true ∧
  read_configfile (Some (render (config_doc sample_config)))
    (Config 7 None 0 0 None 0 0 true true true true true true) = Ok (true, sample_config).
Proof. split; [|apply read_configfile_roundtrip]; vm_compute; reflexivity. Defined.

(** ** What the lines of a file set *)

(** The pairs of a document with their sections, in order. *)
Definition pairs_of (cs : list call) : list (list Z * list Z * list Z) :=
  omap (λ c, match c with Call _ s n v => Some (s, n, v) | Fault _ => None end) cs.

(** The last value that a key is given in a section. *)
Definition is_key (s n : string) (p : list Z * list Z * list Z) : bool :=
  bool_decide (p.1 = (lit_bytes s, lit_bytes n)).
Definition setting (ps : list (list Z * list Z * list Z)) (s n : string) : option (list Z) :=
  last (omap (λ p, if is_key s n p then Some p.2 else None) ps).

Definition number (v : list Z) : Z := match atoi v with Ok z => z | Err _ => 0 end.
Definition flag (v : list Z) : bool := number v =? 1.

(** The keys whose values are numbers, and that these fit an [int]. *)
Definition numeric_keys : list (string * string) :=
  [("protocol", "enable"); ("protocol", "port_local"); ("protocol", "port_remote"); ("protocol", "forward_beacon");
   ("protocol", "hello_frequency"); ("association", "msg_association"); ("association", "msg_disassociation");
   ("association", "msg_reassociation"); ("association", "msg_authorization");
   ("association", "msg_user_disconnecting"); ("association", "msg_user_connecting")]%string.
Definition number_fits (p : list Z * list Z * list Z) : bool :=
  negb (existsb (λ '(s, n), is_key s n p) numeric_keys) || match atoi p.2 with Ok _ => true | Err _ => false end.

(** The configuration that the pairs describe, over the values of [c]. *)
Definition configured (ps : list (list Z * list Z * list Z)) (c : ethanol_configuration) : ethanol_configuration :=
  let get {A} (s n : string) (f : list Z → A) (d : A) : A := match setting ps s n with Some v => f v | None => d end in
  Config
    (get "protocol" "enable" number (ethanol_enable c))
    (get "protocol" "address" mk_str (server_addr c))
    (get "protocol" "port_remote" number (remote_server_port c))
    (get "protocol" "port_local" number (local_server_port c))
    (get "log" "logfile" mk_str (log_filename c))
    (get "protocol" "forward_beacon" number (forward_beacon c))
    (get "protocol" "hello_frequency" (λ v, hello_period (number v)) (hello_frequency c))
    (get "association" "msg_association" flag (enabled_msg_association c))
    (get "association" "msg_disassociation" flag (enabled_msg_disassociation c))
    (get "association" "msg_reassociation" flag (enabled_msg_reassociation c))
    (get "association" "msg_authorization" flag (enabled_msg_authorization c))
    (get "association" "msg_user_disconnecting" flag (enabled_msg_user_disconnecting c))
    (get "association" "msg_user_connecting" flag (enabled_msg_user_connecting c))%string.

Lemma setting_snoc ps p s n : setting (ps ++ [p]) s n = if is_key s n p then Some p.2 else setting ps s n.
Proof.
  unfold setting. rewrite omap_app. cbn [omap list_omap]. destruct (is_key s n p); [by rewrite last_snoc|by rewrite app_nil_r].
Qed.

Lemma MATCH_key p s n : MATCH p.1.1 p.1.2 s n = is_key s n p.
Proof.
  destruct p as [[a b] v]. unfold MATCH, is_key. cbn [fst snd]. repeat case_bool_decide; naive_solver.
Qed.

(** A pair has one key. *)
Lemma is_key_other s n s' n' p : is_key s n p = true →
  is_key s' n' p = bool_decide ((lit_bytes s, lit_bytes n) = (lit_bytes s', lit_bytes n')).
Proof. unfold is_key. by intros ->%bool_decide_eq_true. Qed.

Ltac one_key p K :=
  match type of K with is_key ?s ?n p = true =>
    repeat match goal with
    | |- context [is_key ?s' ?n' p] =>
        rewrite (is_key_other s n s' n' p K);
        let b := eval vm_compute in (bool_decide ((lit_bytes s, lit_bytes n) = (lit_bytes s', lit_bytes n'))) in
        replace (bool_decide ((lit_bytes s, lit_bytes n) = (lit_bytes s', lit_bytes n'))) with b by (vm_compute; reflexivity)
    end
  end.

(** The handler is one more pair; an unknown key changes nothing. *)
Lemma handler_configured ps p c : number_fits p = true →
  ∃ known, handler (configured ps c) p.1.1 p.1.2 p.2 = Ok (configured (ps ++ [p]) c, known).
Proof.
  intros Hfit. unfold handler. cbv zeta. rewrite !MATCH_key.
  assert (∀ s n, existsb (λ '(s', n'), bool_decide (s' = s) && bool_decide (n' = n)) numeric_keys = true → is_key s n p = true →
    atoi p.2 = Ok (number p.2)) as Hnum.
  { intros s n Hin Hk. unfold number_fits in Hfit. unfold number. destruct (atoi p.2); [done|]. rewrite orb_false_r in Hfit.
    apply negb_true_iff in Hfit. rewrite <- not_true_iff_false in Hfit. contradict Hfit. apply existsb_exists.
    apply existsb_exists in Hin as ([s' n'] & Hin & Hb). exists (s', n'). split; [done|].
    apply andb_prop in Hb as [->%bool_decide_eq_true ->%bool_decide_eq_true]. done. }
  unfold configured, is_one. cbv zeta. rewrite !setting_snoc.
  repeat match goal with
  | |- context [if is_key ?s ?n p then _ else _] =>
      let K := fresh "K" in destruct (is_key s n p) eqn:K;
      [one_key p K; cbv iota; rewrite ?(Hnum s n) by (vm_compute; reflexivity || exact K); cbn [mbind res_bind]; by eexists|cbv iota]
  end.
  by exists false.
Qed.

Lemma run_calls_app {U} (hd : U → list Z → list Z → list Z → res (U * bool)) cs c u u1 bad1 :
  run_calls hd cs u = Ok (u1, bad1) → ∀ u2 bad2, run_calls hd [c] u1 = Ok (u2, bad2) → run_calls hd (cs ++ [c]) u = Ok (u2, bad1 ++ bad2).
Proof.
  revert u bad1. induction cs as [|[n s k v|n] cs IH]; intros u bad1; cbn [app run_calls]; [by intros [= <- <-]|..]; intros E1 u2 bad2 E2.
  - destruct (hd u s k v) as [[u' ok]|]; [|done]. cbn [mbind res_bind] in *.
    destruct (run_calls hd cs u') as [[u'' bad]|] eqn:E; [|done]. cbn [mbind res_bind] in E1. injection E1 as <- <-.
    rewrite (IH _ _ E _ _ E2). cbn [mbind res_bind]. by destruct ok.
  - destruct (run_calls hd cs u) as [[u'' bad]|] eqn:E; [|done]. cbn [mbind res_bind] in E1. injection E1 as <- <-.
    by rewrite (IH _ _ E _ _ E2).
Qed.

Lemma run_calls_positive {U} (hd : U → list Z → list Z → list Z → res (U * bool)) doc lineno sec u u' bad : 0 < lineno →
  run_calls hd (calls_of sec lineno doc) u = Ok (u', bad) → 0 ≤ default 0 (head bad).
Proof.
  assert (∀ x, default 0 (Some x) = x) as Hd by done.
  revert lineno sec u bad. induction doc as [|[n|n v|t|t] doc IH]; intros lineno sec u bad Hl; cbn [calls_of run_calls]; [by intros [= <- <-]| | | |].
  - apply IH. lia.
  - destruct (hd u sec n v) as [[u1 ok]|]; [|done]. cbn [mbind res_bind]. destruct (run_calls hd _ u1) as [[u2 b]|] eqn:E; [|done].
    cbn [mbind res_bind]. intros [= <- <-]. apply IH in E; [|lia]. destruct ok; [done|]. cbn [head]. rewrite Hd. lia.
  - apply IH. lia.
  - destruct (run_calls hd _ u) as [[u2 b]|] eqn:E; [|done]. cbn [mbind res_bind]. intros [= <- <-]. cbn [head]. rewrite Hd. lia.
Qed.

Lemma calls_configured cs c : forallb number_fits (pairs_of cs) = true →
  ∃ bad, run_calls handler cs c = Ok (configured (pairs_of cs) c, bad).
Proof.
  induction cs as [|x cs IH] using rev_ind; intros Hf; [exists []; by destruct c|].
  unfold pairs_of in *. rewrite omap_app in *. rewrite forallb_app in Hf. apply andb_prop in Hf as [Hf Hx].
  destruct (IH Hf) as (bad & E). destruct x as [l s n v|l]; cbn [omap list_omap] in *.
  - cbn [forallb] in Hx. split_andb. destruct (handler_configured (pairs_of cs) (s, n, v) c ltac:(done)) as (known & Eh).
    eexists. eapply run_calls_app; [exact E|]. cbn [run_calls]. cbn [fst snd] in Eh. unfold pairs_of in Eh. by rewrite Eh.
  - eexists. eapply run_calls_app; [exact E|]. cbn [run_calls mbind res_bind]. by rewrite app_nil_r.
Qed.


(** A file in which a key is given twice, one is misspelt, one line has no
    value and the period is 0. *)
Definition sample_lines : list item :=
  [Sec (lit_bytes "protocol"); Pair (lit_bytes "enable") (lit_bytes "1"); Pair (lit_bytes "addres") (lit_bytes "x");
   Bad (lit_bytes "port_local"); Pair (lit_bytes "hello_frequency") (lit_bytes "0"); Pair (lit_bytes "enable") (lit_bytes "0");
   Sec (lit_bytes "association"); Pair (lit_bytes "msg_association") (lit_bytes "1")].


(** ** What is read from other files *)

(** The file shipped with the agent. *)
Definition shipped_file : list Z :=
  lit_bytes ";" ++ [10] ++
  lit_bytes "[protocol]" ++ [10] ++
  lit_bytes "enable=1          ; 1=protocolo habilitado" ++ [10] ++
  lit_bytes "address=localhost ; endereço do servidor" ++ [10] ++
  lit_bytes "port_local=22223  ; porto de acesso para ativacao do servidor local" ++ [10] ++
  lit_bytes "port_remote=22222 ; porto de acesso ao servidor (REMOTO)" ++ [10] ++
  lit_bytes "forward_beacon=-1 ; 0 indica que ao receber um beacon, ele será enviado ao controlador" ++ [10] ++
  lit_bytes "[log]" ++ [10] ++
  lit_bytes "logfile=/tmp/ethanol.log" ++ [10] ++
  lit_bytes "".

(** The configuration file shipped with the agent enables the protocol
    with the controller on localhost, ports 22223 and 22222, no beacon
    forwarding and the log in /tmp; its comments and blanks are ignored, and
    everything else keeps its default. *)
Theorem shipped_configuration (c : ethanol_configuration) :
  read_configfile (Some shipped_file) c =
    Ok (true, Config 1 (lit "localhost") 22222 22223 (lit "/tmp/ethanol.log") (-1) HELLO_FREQUENCY
                false false false false false false).
Proof. destruct c. vm_compute. reflexivity. Qed.

(** An error code is 0 or a line number. *)
Lemma parse_lines_error {U} (hd : U → list Z → list Z → list Z → res (U * bool)) lines lineno st st' :
  0 < lineno → 0 ≤ error st → parse_lines hd lines lineno st = Ok st' → 0 ≤ error st'.
Proof.
  assert (∀ k ok e, 0 < k → 0 ≤ e → 0 ≤ report k ok e) as Hr.
  { intros k ok e Hk He. unfold report. destruct (negb ok && (e =? 0)); lia. }
  assert (∀ k n v p x y, 0 < k → 0 ≤ error x → offer hd k n v p x = Ok y → 0 ≤ error y) as Ho.
  { intros k n v p x y Hk He. unfold offer. destruct (hd _ _ _ _) as [[u ok]|]; [|done].
    simpl. intros [= <-]. by apply Hr. }
  revert lineno st. induction lines as [|l lines IH]; intros lineno st Hk He; simpl; [congruence|].
  destruct (parse_line hd lineno l st) as [st1|] eqn:E; [|done]. simpl.
  apply IH; [lia|]. unfold parse_line, parse_start, section_line, pair_line, complain in E.
  repeat case_match; simplify_eq/=; eauto.
Qed.

Lemma read_error (f : list Z) c b c' : read_configfile (Some f) c = Ok (b, c') → b = true.
Proof.
  unfold read_configfile. simpl. unfold ini_parse_file.
  destruct (parse_lines _ _ _ _) as [st|] eqn:E; [|done]. simpl.
  apply parse_lines_error in E; [|done..]. destruct (Z.ltb_spec (error st) 0); [lia|congruence].
Qed.

(** Reading the configuration reports failure exactly when the file cannot
    be opened: then the agent is disabled and forwards no beacon, with every
    other setting at its default.  A file that can be opened is reported as a
    success whatever it contains -- an unknown key or a malformed line sets an
    error number that is not looked at. *)
Theorem read_configfile_failure (f : option (list Z)) (c : ethanol_configuration) (b : bool)
    (c' : ethanol_configuration) : read_configfile f c = Ok (b, c') →
  (b = false ↔ f = None) ∧
  (f = None → c' = set_forward_beacon (set_ethanol_enable (set_defaults c) 0) (-1)).
Proof.
  destruct f as [f|].
  - intros ->%read_error. done.
  - simpl. intros [= <- <-]. done.
Qed.

(** An unknown key in the only section. *)
Lemma read_configfile_failure_witness :
  let f := lit_bytes "[protocol]" ++ [10] ++ lit_bytes "enabled=1" in
  (true = false ↔ Some f = None) ∧
  (Some f = None → set_defaults sample_config =
     set_forward_beacon (set_ethanol_enable (set_defaults sample_config) 0) (-1)).
Proof.
  cbv zeta. apply (read_configfile_failure (Some (lit_bytes "[protocol]" ++ [10] ++ lit_bytes "enabled=1"))
    sample_config true (set_defaults sample_config)). vm_compute. reflexivity.
Defined.

(** A negative hello period in the configuration file is not replaced by
    60 seconds: the period is unsigned, so the test for a value that is not
    positive only catches zero, and [-n] becomes [2^32 - n] seconds. *)
Theorem negative_hello_period (c : ethanol_configuration) (z : Z) : - 2 ^ 31 ≤ z < 0 →
  handler c (lit_bytes "protocol") (lit_bytes "hello_frequency") (dec z) =
    Ok (set_hello_frequency c (2 ^ 32 + z), true).
Proof.
  intros Hz. transitivity (z ← atoi (dec z); Ok (set_hello_frequency c (hello_period z), true)).
  { match_key. reflexivity. }
  rewrite atoi_dec by (unfold s_ok; change (32 - 1) with 31; split_andb; to_prop; lia).
  cbn [mbind res_bind]. unfold hello_period, to_u.
  replace (z `mod` 2 ^ 32) with (2 ^ 32 + z).
  2: { rewrite <- (Z_mod_plus_full z 1). rewrite Z.mod_small; lia. }
  destruct (Z.leb_spec (2 ^ 32 + z) 0); [lia|done].
Qed.

Lemma negative_hello_period_witness :
  handler sample_config (lit_bytes "protocol") (lit_bytes "hello_frequency") (dec (-5)) =
    Ok (set_hello_frequency sample_config (2 ^ 32 + -5), true).
Proof. apply (negative_hello_period sample_config (-5)). lia. Defined.

(** Choosing the configuration file never fails: the missing-file test
    compares a [bool] with zero, so the answer is true for a file that does not
    exist, and on an allocator that gives no more than it is asked for the name
    is copied past the end of its block. *)
Theorem set_config_file_unchecked (file : option (list Z)) (filename : charp) :
  named filename = true →
  @set_ethanol_config_file exact_alloc file filename = Err HeapOverflow ∧
  (∀ (A : Allocator) b p, @set_ethanol_config_file A file filename = Ok (b, p) →
     b = true ∧ text p = text filename).
Proof.
  intros Hn. pose proof (chars_named _ Hn) as Hc. unfold set_ethanol_config_file.
  replace ((if check_if_file_exits file then 1 else 0) <? 0) with false by (by destruct file).
  assert (strlen filename = Ok (Z.of_nat (length (text filename)))) as ->.
  { unfold strlen, chars in *. destruct filename as [l|]; [|done]. simpl in *.
    by rewrite strlen_chars, Hc. }
  cbn [mbind res_bind]. unfold malloc_strcpy. rewrite Hc. cbn [mbind res_bind]. split.
  - cbn [usable exact_alloc]. unfold ensure.
    destruct (Z.leb_spec (Z.of_nat (length (text filename)) + 1) (Z.of_nat (length (text filename)))); [lia|done].
  - intros A b p. unfold ensure. destruct (_ <=? _); [|done]. simpl. intros [= <- <-].
    split; [done|]. apply text_mk. unfold named in Hn. split_andb.
    destruct filename as [l|]; [|done]. by apply cstr_ok_Some in H0 as (s & ? & ? & -> & ? & ? & ?).
Qed.

Lemma set_config_file_unchecked_witness :
  @set_ethanol_config_file exact_alloc None (lit "/etc/ethanol.ini") = Err HeapOverflow ∧
  (∀ (A : Allocator) b p, @set_ethanol_config_file A None (lit "/etc/ethanol.ini") = Ok (b, p) →
     b = true ∧ text p = text (lit "/etc/ethanol.ini")).
Proof. apply set_config_file_unchecked. vm_compute. reflexivity. Defined.
