(* ===== verification/Connect.v ===== *)
(** Running commands of the host: [ethanol_functions/connect.c].

    A command is its text; what the shell does with it is the interface
    [Shell].  The texts are composed in local arrays, and a text that does not
    fit is an overflow.  The module keeps two paths and the time of the last
    scan in static variables, the record [connect_state]. *)
From stdpp Require Import prelude list strings.
From S2P Require Import Prelude CMem Lines IniFile ConfigFile.

(** ** The shell and the static variables *)

Class Shell (W : Type) := {
  popen : list Z → ST W (option (list Z));  (* all the command prints *)
  system : list Z → ST W Z;
  time : ST W Z                             (* seconds *)
}.

Record connect_state := ConnectState {
  path_to_iw : charp;
  path_to_iwconfig : charp;
  last_call_trigger_scan : Z
}.
Definition connect_init : connect_state := ConnectState (lit "./iw") None 0.

Definition set_path_to_iw (p : charp) (c : connect_state) : connect_state :=
  ConnectState p (path_to_iwconfig c) (last_call_trigger_scan c).
Definition set_path_to_iwconfig (p : charp) (c : connect_state) : connect_state :=
  ConnectState (path_to_iw c) p (last_call_trigger_scan c).
Definition set_last_call (t : Z) (c : connect_state) : connect_state :=
  ConnectState (path_to_iw c) (path_to_iwconfig c) t.

(** [sprintf] of the text [s] into a local array of [n] bytes. *)
Definition sprintf_local (n : nat) (s : list Z) : res (list Z) :=
  ensure (bool_decide (length s < n)%nat) StackOverflow;; Ok s.

(** [strstr(s, t) != NULL]. *)
Fixpoint strstr (s t : list Z) : bool :=
  bool_decide (take (length t) s = t) || match s with [] => false | _ :: s => strstr s t end.

Definition PREVENT_CONSOLE_MSG : string := " 1> /dev/null 2> /dev/null".
Definition MIN_TIME_BETWEEN_CALLS : Z := 1.

Section connect.
Context {W : Type} `{Shell W} `{Allocator}.

(** The last line of the output that contains the command, without its last
    character. *)
Fixpoint which_lines (lines : list (list Z)) (command : list Z) (path_found : charp) : charp :=
  match lines with
  | [] => path_found
  | buf :: lines =>
      let line := upto_nul buf in
      which_lines lines command
        (if strstr line command then mk_str (take (length line - 1) line) else path_found)
  end.
Definition which_path (command : charp) : ST W charp :=
  c ← lift (chars command);
  cmd ← lift (sprintf_local 2000 (lit_bytes "/usr/bin/which " ++ c));
  pp ← popen cmd;
  match pp with
  | None => mret None
  | Some out => mret (which_lines (lines_of 999 out) c None)
  end.

(** [system(cmd)] for the texts below. *)
Definition connect_to_ap (intf_name : charp) (wait : bool) (ssid : charp) (freq : Z)
    (mac_ap : charp) (c : connect_state) : ST W Z :=
  if negb (nonnull intf_name) then mret (-1) else
  freq_str ← lift (if 0 <? freq then sprintf_local 10 (lit_bytes " " ++ dec freq ++ lit_bytes " ")
                   else Ok []);
  iw ← lift (chars (path_to_iw c));
  intf ← lift (chars intf_name);
  s ← lift (chars ssid);
  mac ← lift (if nonnull mac_ap then chars mac_ap else Ok []);
  cmd ← lift (sprintf_local 150
    (lit_bytes "sudo " ++ iw ++ lit_bytes " dev " ++ intf ++ lit_bytes " connect " ++
     (if wait then lit_bytes "-w" else []) ++ lit_bytes " " ++ s ++ lit_bytes " " ++ freq_str ++
     lit_bytes " " ++ mac));
  system cmd.

Definition disconnect_from_ap (intf_name : charp) (c : connect_state) : ST W Z :=
  if negb (nonnull intf_name) then mret (-1) else
  iw ← lift (chars (path_to_iw c));
  intf ← lift (chars intf_name);
  cmd ← lift (sprintf_local 150 (lit_bytes "sudo " ++ iw ++ lit_bytes " dev " ++ intf ++
                                 lit_bytes " disconnect"));
  system cmd.

(** [station] is the [PROCESS_STATION] of the build. *)
Definition scan_command (station : bool) (iw intf : list Z) : list Z :=
  lit_bytes "sudo " ++ iw ++ lit_bytes " dev " ++ intf ++
  lit_bytes (if station then " scan trigger" else " scan trigger ap-force") ++
  lit_bytes PREVENT_CONSOLE_MSG.

Definition trigger_scan_intf (station : bool) (intf_name : charp) : ST (connect_state * W) Z := λ '(c, w),
  if negb (nonnull intf_name) then Ok (-1, (c, w)) else
  '(now, w) ← time w;
  let early := negb (last_call_trigger_scan c =? 0) &&
               (now - last_call_trigger_scan c <? MIN_TIME_BETWEEN_CALLS) in
  let c := if negb (last_call_trigger_scan c =? 0) then set_last_call now c else c in
  if early then Ok (-2, (c, w)) else
  '(iw, w) ← (if nonnull (path_to_iw c) then Ok (path_to_iw c, w) else which_path (lit "iwconfig") w);
  iw ← chars iw;
  intf ← chars intf_name;
  cmd ← sprintf_local 1000 (scan_command station iw intf);
  '(err, w) ← system cmd w;
  Ok (err, (c, w)).

(** The new value of [*dest]. *)
Definition fill_string (orig : charp) : res charp :=
  len ← strlen orig;
  if 0 <? len then malloc_strcpy (len + 1) orig else Ok None.
End connect.

(** ** Scans *)

Section scans.
Context {W : Type} `{Shell W} `{Allocator}.

(** Two scan commands of the same static state, whatever the time. *)
Fixpoint scans (station : bool) (names : list charp) : ST (connect_state * W) (list Z) :=
  match names with
  | [] => mret []
  | n :: names =>
      r ← trigger_scan_intf station n; l ← scans station names; mret (r :: l)
  end.

(** The same calls without a limit on their rate. *)
Fixpoint unlimited (station : bool) (names : list charp) (c : connect_state) : ST W (list Z) :=
  match names with
  | [] => mret []
  | n :: names =>
      r ← (time;; iw ← lift (chars (path_to_iw c)); i ← lift (chars n);
           cmd ← lift (sprintf_local 1000 (scan_command station iw i)); system cmd);
      l ← unlimited station names c; mret (r :: l)
  end.

Lemma ST_bind_eq {S A B} (m : ST S A) (k : A → ST S B) s :
  (m ≫= k) s = match m s with Ok (a, s') => k a s' | Err e => Err e end.
Proof. done. Qed.

Lemma trigger_scan_first station n c w : nonnull n = true → nonnull (path_to_iw c) = true →
  last_call_trigger_scan c = 0 →
  trigger_scan_intf station n (c, w) =
    match (time;; iw ← lift (chars (path_to_iw c)); i ← lift (chars n);
           cmd ← lift (sprintf_local 1000 (scan_command station iw i)); system cmd) w with
    | Ok (r, w) => Ok (r, (c, w))
    | Err e => Err e
    end.
Proof.
  intros Hn Hp Hl. unfold trigger_scan_intf, mbind, ST_bind, res_bind, lift. rewrite Hn. cbn [negb].
  destruct (time w) as [[now w1]|]; [|done]. rewrite Hl, Z.eqb_refl. cbn [negb andb]. rewrite Hp.
  destruct (chars (path_to_iw c)); [|done]. destruct (chars n); [|done].
  destruct (sprintf_local _ _); [|done]. by destruct (system _ _) as [[??]|].
Qed.

(** The limit on the rate of scans is never applied: the time of the last
    call starts at zero and is only recorded when it is not zero, so that any
    sequence of calls, however close in time, runs every one of its scan
    commands and none returns -2 on its own account. *)
Theorem scans_never_limited (station : bool) (names : list charp) (c : connect_state) (w : W) :
  Forall (λ n, nonnull n = true) names → nonnull (path_to_iw c) = true →
  last_call_trigger_scan c = 0 →
  scans station names (c, w) =
    match unlimited station names c w with
    | Ok (l, w) => Ok (l, (c, w))
    | Err e => Err e
    end.
Proof.
  intros Hn Hp Hl. revert w. induction Hn as [|n names Hn _ IH]; intros w; [done|].
  cbn [scans unlimited]. rewrite ST_bind_eq, (trigger_scan_first _ _ _ _ Hn Hp Hl).
  rewrite (ST_bind_eq (time;; _)).
  destruct ((time;; _) w) as [[r w1]|]; [|done]. rewrite !ST_bind_eq, IH.
  by destruct (unlimited station names c w1) as [[??]|].
Qed.
End scans.

(** A shell that records the commands it runs, at a fixed time. *)
Definition recorder : Shell (list (list Z)) := {|
  popen cmd := λ w, Ok (Some (lit_bytes "/sbin/iwconfig" ++ [10]), cmd :: w);
  system cmd := λ w, Ok (0, cmd :: w);
  time := λ w, Ok (1000, w)
|}.

Lemma scans_never_limited_witness :
  @scans _ recorder false [lit "wlan0"; lit "wlan0"] (connect_init, []) =
    match @unlimited _ recorder false [lit "wlan0"; lit "wlan0"] connect_init [] with
    | Ok (l, w) => Ok (l, (connect_init, w))
    | Err e => Err e
    end ∧
  (∃ c, @unlimited _ recorder false [lit "wlan0"; lit "wlan0"] connect_init [] = Ok ([0; 0], [c; c])).
Proof.
  split; [apply (@scans_never_limited _ recorder); [repeat constructor|reflexivity..]|].
  eexists. vm_compute. reflexivity.
Defined.

(** ** The command that joins a network *)

Lemma length_dec_nat fuel k z : 0 ≤ z < 10 ^ Z.of_nat (S k) → (length (dec_nat fuel z) ≤ S k)%nat.
Proof.
  revert k z. induction fuel as [|fuel IH]; intros k z Hz; [simpl; lia|]. cbn [dec_nat].
  rewrite length_app. cbn [length]. destruct (Z.ltb_spec z 10); [simpl; lia|].
  destruct k as [|k]; [change (10 ^ Z.of_nat 1) with 10 in Hz; lia|].
  enough (length (dec_nat fuel (z / 10)) ≤ S k)%nat by lia. apply IH.
  rewrite (Nat2Z.inj_succ (S k)), Z.pow_succ_r in Hz by lia.
  pose proof (Z.div_pos z 10). split; [lia|]. apply Z.div_lt_upper_bound; lia.
Qed.

Lemma length_dec k z : 0 ≤ z < 10 ^ Z.of_nat (S k) → (length (dec z) ≤ S k)%nat.
Proof. intros Hz. unfold dec. destruct (Z.ltb_spec z 0); [lia|]. by apply length_dec_nat. Qed.

Lemma sprintf_local_Ok n s : (length s < n)%nat → sprintf_local n s = Ok s.
Proof. intros Hs. unfold sprintf_local. by rewrite bool_decide_true. Qed.

Lemma sprintf_local_Err n s : (n ≤ length s)%nat → sprintf_local n s = Err StackOverflow.
Proof. intros Hs. unfold sprintf_local. by rewrite bool_decide_false by lia. Qed.

(** What follows the network's name on the command line. *)
Definition connect_tail (freq : Z) (mac : list Z) : list Z :=
  lit_bytes " " ++ (if 0 <? freq then lit_bytes " " ++ dec freq ++ lit_bytes " " else []) ++
  lit_bytes " " ++ mac.
Definition connect_head (iw intf : list Z) (wait : bool) : list Z :=
  lit_bytes "sudo " ++ iw ++ lit_bytes " dev " ++ intf ++ lit_bytes " connect " ++
  (if wait then lit_bytes "-w" else []) ++ lit_bytes " ".

Section connecting.
Context {W : Type} `{Shell W}.

Lemma connect_to_ap_eq intf wait ssid freq mac c iw i s m : 0 ≤ freq < 10 ^ 7 →
  nonnull intf = true → chars (path_to_iw c) = Ok iw → chars intf = Ok i → chars ssid = Ok s →
  (if nonnull mac then chars mac else Ok []) = Ok m → ∀ w : W,
  connect_to_ap intf wait ssid freq mac c w =
    match sprintf_local 150 (connect_head iw i wait ++ s ++ connect_tail freq m) with
    | Ok cmd => system cmd w
    | Err e => Err e
    end.
Proof.
  intros Hf Hn Hiw Hi Hs Hm w. unfold connect_to_ap. rewrite Hn. cbn [negb].
  assert ((if 0 <? freq then sprintf_local 10 (lit_bytes " " ++ dec freq ++ lit_bytes " ") else Ok [])
    = Ok (if 0 <? freq then lit_bytes " " ++ dec freq ++ lit_bytes " " else [])) as ->.
  { destruct (0 <? freq); [|done]. apply sprintf_local_Ok. rewrite !length_app.
    pose proof (length_dec 6 freq Hf). simpl. lia. }
  rewrite Hiw, Hi, Hs, Hm. unfold mbind, ST_bind, lift, connect_head, connect_tail.
  rewrite <- !app_assoc. by destruct (sprintf_local _ _).
Qed.

(** With interface names of at most 15 characters, names of networks of at
    most 32, a MAC address of at most 17, a frequency of at most seven digits
    and a path to iw of at most 40 characters, the command fits its 150 bytes
    and is run as composed; a network name long enough to fill the 150 bytes
    runs over the local array. *)
Theorem connect_to_ap_bounds (intf ssid mac : charp) (wait : bool) (freq : Z) (c : connect_state)
    (iw i s m : list Z) : 0 ≤ freq < 10 ^ 7 →
  nonnull intf = true → chars (path_to_iw c) = Ok iw → chars intf = Ok i → chars ssid = Ok s →
  (if nonnull mac then chars mac else Ok []) = Ok m → ∀ w : W,
  ((length iw ≤ 40)%nat → (length i ≤ 15)%nat → (length s ≤ 32)%nat → (length m ≤ 17)%nat →
    connect_to_ap intf wait ssid freq mac c w =
      system (connect_head iw i wait ++ s ++ connect_tail freq m) w) ∧
  ((150 ≤ length s)%nat → connect_to_ap intf wait ssid freq mac c w = Err StackOverflow).
Proof.
  intros Hf Hn Hiw Hi Hs Hm w. rewrite (connect_to_ap_eq _ _ _ _ _ _ _ _ _ _ Hf Hn Hiw Hi Hs Hm).
  split.
  - intros. rewrite sprintf_local_Ok; [done|]. pose proof (length_dec 6 freq Hf).
    unfold connect_head, connect_tail. rewrite !length_app.
    destruct wait, (0 <? freq); rewrite ?length_app; simpl; lia.
  - intros. rewrite sprintf_local_Err; [done|]. rewrite !length_app. lia.
Qed.
End connecting.

Lemma connect_to_ap_bounds_witness :
  @connect_to_ap _ recorder (lit "wlan0") true (lit "winet") 2412 None connect_init [] =
    @system _ recorder (connect_head (lit_bytes "./iw") (lit_bytes "wlan0") true ++ lit_bytes "winet" ++
      connect_tail 2412 []) [] ∧
  @connect_to_ap _ recorder (lit "wlan0") true (mk_str (replicate 150 65)) 0 None connect_init [] =
    Err StackOverflow.
Proof.
  split.
  - eapply (@connect_to_ap_bounds _ recorder); try reflexivity; simpl; lia.
  - eapply (@connect_to_ap_bounds _ recorder); try reflexivity; simpl; lia.
Defined.
