(* ===== verification/HostapdConf.v ===== *)
(** Editing hostapd's configuration file from outside:
    [ethanol_functions/config_hostapd.c].

    The file is read into a list of variables and values, an entry is changed,
    the list is written back and hostapd is told to read it again.  Strings
    are lists of characters; [limpa_string] edits its argument in place, and
    the model follows its index arithmetic, including the comparison of a
    negative [int] with a [size_t]. *)
From stdpp Require Import prelude list strings.
From S2P Require Import Prelude CMem Strlib Lines IniFile ConfigFile Connect.

(** ** limpa_string *)

(** The first loop. *)
Definition nl_to_space (s : list Z) : list Z := (λ c, if c =? 10 then 32 else c) <$> s.

(** [j]: the number of leading blanks; [k]: down from the last character to
    one that is no blank, or to 0. *)
Fixpoint leading (s : list Z) : nat :=
  match s with c :: s => if c =? 32 then S (leading s) else O | [] => O end.
Fixpoint last_nonblank (s : list Z) (k : nat) : nat :=
  match k with
  | O => O
  | S k' => if bool_decide (s !! k = Some 32) then last_nonblank s k' else k
  end.

Definition limpa_string (s : list Z) : list Z :=
  let s := nl_to_space s in
  let j := leading s in
  let k := if bool_decide (s = []) then -1 else Z.of_nat (last_nonblank s (length s - 1)) in
  let d := Z.to_nat (k - Z.of_nat j) in
  let s := take d (drop j s) ++ drop d s in
  let i := k - Z.of_nat j + 1 in
  if i <? 0 then s else take (Z.to_nat i) s.

(** ** Lines of the file *)

(** A token of [strtok(_, "=")] and what follows its delimiter. *)
Definition is_eq (c : Z) : bool := c =? 61.
Fixpoint upto_eq (s : list Z) : list Z * list Z :=
  match s with
  | [] => ([], [])
  | c :: s => if is_eq c then ([], s) else let '(t, r) := upto_eq s in (c :: t, r)
  end.
Definition strtok_eq (s : list Z) : option (list Z * list Z) :=
  match drop_while is_eq s with [] => None | s => Some (upto_eq s) end.

Record type_pair := TypePair { var : option (list Z); val : option (list Z) }.

Definition hostapd_split_conf (entry : list Z) : type_pair :=
  match strtok_eq entry with
  | None => TypePair None None
  | Some (t, r) =>
      TypePair (Some (limpa_string t))
        (match strtok_eq r with Some (t, _) => Some (limpa_string t) | None => None end)
  end.

Definition LINE_SIZE : nat := 2048.
Definition hostapd_read_conf (file : option (list Z)) : list type_pair :=
  match file with
  | None => []
  | Some file => (λ l, hostapd_split_conf (upto_nul l)) <$> lines_of (LINE_SIZE - 1) file
  end.

(** The first entry of the variable gets the value; the result is [true]
    whether there is one or not. *)
Fixpoint change_entry (conf : list type_pair) (v x : list Z) : res (list type_pair) :=
  match conf with
  | [] => Ok []
  | p :: conf =>
      n ← deref (var p);
      if bool_decide (n = v) then Ok (TypePair (var p) (Some x) :: conf)
      else l ← change_entry conf v x; Ok (p :: l)
  end.

(** [fprintf] of a NULL variable is undefined. *)
Fixpoint hostapd_write_conf (conf : list type_pair) : res (list Z) :=
  match conf with
  | [] => Ok []
  | p :: conf =>
      n ← deref (var p);
      l ← hostapd_write_conf conf;
      Ok (match val p with None => n | Some x => n ++ 61 :: x end ++ 10 :: l)
  end.

(** ** The commands *)

(** The files of the host. *)
Class Files (W : Type) := {
  fread : list Z → ST W (option (list Z));  (* None when it cannot be opened *)
  fopen_w : list Z → ST W bool;             (* opens and empties the file *)
  fwrite : list Z → list Z → ST W unit
}.

Section commands.
Context {W : Type} `{Shell W} `{Files W}.

(** [sscanf(line, "%d", &pid)]: blanks, a sign, digits. *)
Definition scan_int (s : list Z) : option (res Z) :=
  let t := lskip s in
  let d := if (first t =? 45) || (first t =? 43) then first (tail t) else first t in
  if isdigit d then Some (atoi t) else None.

(** The smallest process number; a line without a number leaves [pid] unset. *)
Fixpoint pid_lines (lines : list (list Z)) (hostapd_pid : Z) : res Z :=
  match lines with
  | [] => Ok hostapd_pid
  | l :: lines =>
      match scan_int (upto_nul l) with
      | None => Err ReadIndeterminate
      | Some r =>
          pid ← r;
          pid_lines lines (if (hostapd_pid =? -1) || (pid <? hostapd_pid) then pid else hostapd_pid)
      end
  end.
(** The text of the number fits its block: [log10] gives its digits; it has
    none for zero. *)
Definition get_pid : ST W (option (list Z)) :=
  pp ← popen (lit_bytes "ps axf | grep -w " ++ [34] ++ lit_bytes "hostapd " ++ [34] ++
              lit_bytes " | grep -v grep | awk '{print $1}'");
  pid ← lift (match pp with None => Ok (-1) | Some out => pid_lines (lines_of 999 out) (-1) end);
  if pid <? 0 then mret None else
  lift (ensure (0 <? pid) FloatRange);;
  mret (Some (dec pid)).

Definition hostapd_reload (pidfile : list Z) : ST W unit :=
  cmd ← lift (sprintf_local 20 (lit_bytes "kill -1 " ++ pidfile));
  popen cmd;; mret tt.

Definition change_hostapd_entry (conffile v new_val : list Z) : ST W Z :=
  pidfile ← get_pid;
  match pidfile with
  | None => mret (-1)
  | Some pidfile =>
      file ← fread conffile;
      conf ← lift (change_entry (hostapd_read_conf file) v new_val);
      fp ← fopen_w conffile;
      (if (fp : bool) then out ← lift (hostapd_write_conf conf); fwrite conffile out else mret tt);;
      hostapd_reload pidfile;;
      mret 0
  end.

(** [log10] of a number that is not positive has no integer digits. *)
Definition change_ap_channel (conffile : list Z) (new_val : Z) : ST W Z :=
  lift (ensure (0 <? new_val) FloatRange);;
  change_hostapd_entry conffile (lit_bytes "channel") (dec new_val).
End commands.

(** ** What limpa_string does *)

Definition blank (c : Z) : Prop := c = 32 ∨ c = 10.

Lemma nl_blanks pad : Forall blank pad → nl_to_space pad = replicate (length pad) 32.
Proof.
  induction 1 as [|c pad [-> | ->] _ IH]; [done|..];
  unfold nl_to_space in *; rewrite fmap_cons, IH; done.
Qed.

Lemma nl_id t : Forall (λ c, c ≠ 10) t → nl_to_space t = t.
Proof.
  induction 1 as [|c t Hc _ IH]; [done|]. unfold nl_to_space in *. rewrite fmap_cons, IH.
  by destruct (Z.eqb_spec c 10).
Qed.

Lemma leading_blanks j s : (∀ c l, s = c :: l → c ≠ 32) → leading (replicate j 32 ++ s) = j.
Proof.
  intros Hs. induction j as [|j IH]; [|simpl; by rewrite IH]. destruct s as [|c s]; [done|].
  simpl. destruct (Z.eqb_spec c 32) as [->|]; [|done]. by destruct (Hs 32 s).
Qed.

Lemma last_nonblank_at a c n k : c ≠ 32 → (length a ≤ k < length a + 1 + n)%nat →
  last_nonblank (a ++ c :: replicate n 32) k = length a.
Proof.
  intros Hc. induction k as [|k IH]; intros Hk; cbn [last_nonblank]; [lia|].
  destruct (decide (length a = S k)) as [E|E].
  - rewrite bool_decide_false; [done|]. rewrite <- E, list_lookup_middle by done. congruence.
  - rewrite bool_decide_true; [apply IH; lia|].
    rewrite lookup_app_r, lookup_cons_ne_0 by lia. apply lookup_replicate. split; [done|]. lia.
Qed.

Lemma blanks_nonblank n k : (k < n)%nat → last_nonblank (replicate n 32) k = O.
Proof.
  induction k as [|k IH]; intros Hk; [done|]. cbn [last_nonblank].
  rewrite bool_decide_true by (apply lookup_replicate; split; [done|lia]). apply IH. lia.
Qed.

(** [j] blanks, a text that ends in [c], blanks again. *)
Lemma limpa_blanks j t c pad : Forall (λ x, x ≠ 10) (t ++ [c]) → c ≠ 32 →
  (∀ x l, t ++ [c] = x :: l → x ≠ 32) → Forall blank pad →
  limpa_string (replicate j 32 ++ t ++ c :: pad) =
    t ++ take 1 (drop (length t) (replicate j 32 ++ t ++ [c])).
Proof.
  intros Ht Hc Hx Hp. apply Forall_app in Ht as [Ht Hcn]. rewrite Forall_singleton in Hcn.
  unfold limpa_string.
  assert (nl_to_space (replicate j 32 ++ t ++ c :: pad) =
    (replicate j 32 ++ t) ++ c :: replicate (length pad) 32) as ->.
  { unfold nl_to_space. rewrite !fmap_app, fmap_cons. fold (nl_to_space t) (nl_to_space pad)
      (nl_to_space (replicate j 32)). rewrite (nl_id t Ht), (nl_blanks pad Hp).
    rewrite nl_blanks by (apply Forall_replicate; by left). rewrite length_replicate.
    destruct (Z.eqb_spec c 10); [done|]. by rewrite <- app_assoc. }
  rewrite bool_decide_false by (by destruct j, t).
  rewrite last_nonblank_at by (done || (rewrite !length_app; simpl; rewrite !length_replicate; lia)).
  rewrite <- !app_assoc. rewrite !leading_blanks.
  2: { intros x l E. destruct t as [|y t]; simpl in E; injection E as <- _; [done|]. by apply (Hx y (t ++ [c])). }
  rewrite length_app, length_replicate.
  replace (Z.to_nat (Z.of_nat (j + length t) - Z.of_nat j)) with (length t) by lia.
  replace (Z.of_nat (j + length t) - Z.of_nat j + 1 <? 0) with false by (symmetry; apply Z.ltb_ge; lia).
  replace (Z.to_nat (Z.of_nat (j + length t) - Z.of_nat j + 1)) with (length t + 1)%nat by lia.
  rewrite drop_app_length' by by rewrite length_replicate. rewrite take_app_length.
  rewrite take_app_add. f_equal.
  replace (replicate j 32 ++ t ++ c :: replicate (length pad) 32)
    with ((replicate j 32 ++ t ++ [c]) ++ replicate (length pad) 32) by by rewrite <- !app_assoc.
  rewrite drop_app_le, take_app_le; [done|rewrite length_drop|]; rewrite !length_app; simpl; lia.
Qed.

Lemma limpa_text t c pad : Forall (λ x, x ≠ 10) (t ++ [c]) → c ≠ 32 →
  (∀ x l, t ++ [c] = x :: l → x ≠ 32) → Forall blank pad → limpa_string (t ++ c :: pad) = t ++ [c].
Proof.
  intros Ht Hc Hx Hp. pose proof (limpa_blanks 0 t c pad Ht Hc Hx Hp) as E. simpl in E.
  by rewrite E, drop_app_length.
Qed.

(** A text without line ends that neither starts nor ends with a blank. *)
Definition trimmed (s : list Z) : bool :=
  forallb (λ c, negb (c =? 10)) s && negb (first s =? 32) && negb (first (reverse s) =? 32).

Lemma trimmed_split s : trimmed s = true → s ≠ [] → ∃ t c,
  s = t ++ [c] ∧ c ≠ 32 ∧ Forall (λ x, x ≠ 10) s ∧ ∀ x l, s = x :: l → x ≠ 32.
Proof.
  unfold trimmed. intros H Hne. split_andb.
  destruct s as [|c t _] using rev_ind; [done|]. exists t, c. split_and!; [done|..].
  - rewrite reverse_snoc in *. simpl in *. by destruct (Z.eqb_spec c 32).
  - eapply Forall_impl; [by apply (forallb_Forall (λ c, negb (c =? 10)))|].
    intros x Hx. simpl in Hx. by destruct (Z.eqb_spec x 10).
  - intros x l E. rewrite E in *. simpl in *. by destruct (Z.eqb_spec x 32).
Qed.

(** [limpa_string] removes the blanks and line ends after a text; with
    blanks in front it shifts the text to the start but leaves the last
    character behind, which becomes whatever the string had at that place --
    a blank for a text of one character after a blank --, and a string of two
    blanks or more is not changed at all. *)
Theorem limpa_string_spec (s pad : list Z) : trimmed s = true → s ≠ [] → Forall blank pad →
  limpa_string (s ++ pad) = s ∧
  (∀ j, limpa_string (replicate j 32 ++ s ++ pad) =
    take (length s - 1) s ++ take 1 (drop (length s - 1) (replicate j 32 ++ s))) ∧
  (∀ n, (2 ≤ n)%nat → limpa_string (replicate n 32) = replicate n 32).
Proof.
  intros Hs Hne Hp. destruct (trimmed_split s Hs Hne) as (t & c & -> & Hc & Hn & Hx).
  rewrite length_app. simpl. replace (length t + 1 - 1)%nat with (length t) by lia.
  rewrite take_app_length, <- app_assoc. simpl. split_and!.
  - by apply limpa_text.
  - intros j. by apply limpa_blanks.
  - intros n Hn2. unfold limpa_string.
    rewrite nl_blanks by (apply Forall_replicate; by left). rewrite !length_replicate.
    rewrite bool_decide_false by (destruct n; [lia|done]). rewrite blanks_nonblank by lia.
    assert (leading (replicate n 32) = n) as ->.
    { rewrite <- (app_nil_r (replicate n 32)). by apply leading_blanks. }
    replace (Z.to_nat (Z.of_nat 0 - Z.of_nat n)) with O by lia.
    replace (Z.of_nat 0 - Z.of_nat n + 1 <? 0) with true by (symmetry; apply Z.ltb_lt; lia). done.
Qed.

Lemma limpa_string_spec_witness :
  limpa_string (lit_bytes "winet" ++ [10]) = lit_bytes "winet" ∧
  limpa_string (lit_bytes " 6" ++ [10]) = [32] ∧ limpa_string [32; 32] = [32; 32].
Proof.
  destruct (limpa_string_spec (lit_bytes "winet") [10]) as (E & _ & F);
    [reflexivity|discriminate|by repeat constructor; right|].
  split; [exact E|]. split; [|apply (F 2%nat); lia].
  destruct (limpa_string_spec (lit_bytes "6") [10]) as (_ & G & _);
    [reflexivity|discriminate|by repeat constructor; right|]. exact (G 1%nat).
Defined.

(** ** Reading back what is written *)

Definition plain (s : list Z) : bool := forallb (λ c, is_char c && negb (c =? 61)) s && trimmed s.

(** An entry that survives: a trimmed line without an equals sign, or a
    variable and a trimmed value with one between them; it fits the buffer. *)
Definition line_of (p : type_pair) : list Z :=
  match var p, val p with
  | Some n, None => n
  | Some n, Some x => n ++ 61 :: x
  | None, _ => []
  end.
Definition entry_ok (p : type_pair) : bool :=
  match var p, val p with
  | Some n, None => plain n
  | Some n, Some x => plain n && bool_decide (n ≠ []) && plain x
  | None, _ => false
  end && bool_decide (length (line_of p) < LINE_SIZE - 1)%nat.

Lemma plain_facts s : plain s = true →
  trimmed s = true ∧ Forall (λ c, c ≠ 0) s ∧ Forall (λ c, c ≠ 10) s ∧ Forall (λ c, is_eq c = false) s.
Proof.
  unfold plain. intros H. split_andb. apply forallb_Forall in H. split_and!; [done|..].
  - eapply Forall_impl; [exact H|]. simpl. intros c Hc. unfold is_char in Hc. split_andb. lia.
  - unfold trimmed in H0. split_andb. eapply Forall_impl; [by apply forallb_Forall|]. simpl.
    intros c Hc. by destruct (Z.eqb_spec c 10).
  - eapply Forall_impl; [exact H|]. simpl. intros c Hc. split_andb. unfold is_eq.
    by destruct (c =? 61).
Qed.

Lemma limpa_nl s : trimmed s = true → limpa_string (s ++ [10]) = s.
Proof.
  intros Hs. destruct (decide (s = [])) as [->|Hne]; [done|].
  destruct (trimmed_split s Hs Hne) as (t & c & -> & Hc & Hn & Hx). rewrite <- app_assoc.
  cbn [app]. apply limpa_text; try done. constructor; [by right|constructor].
Qed.

Lemma limpa_plain s : trimmed s = true → limpa_string s = s.
Proof.
  intros Hs. destruct (decide (s = [])) as [->|Hne]; [done|].
  destruct (trimmed_split s Hs Hne) as (t & c & -> & Hc & Hn & Hx).
  by apply limpa_text.
Qed.

Lemma upto_eq_end s : Forall (λ c, is_eq c = false) s → upto_eq s = (s, []).
Proof. induction 1 as [|c s Hc _ IH]; [done|]. simpl. by rewrite Hc, IH. Qed.

Lemma upto_eq_at s r : Forall (λ c, is_eq c = false) s → upto_eq (s ++ 61 :: r) = (s, r).
Proof. induction 1 as [|c s Hc _ IH]; [done|]. simpl. by rewrite Hc, IH. Qed.

Lemma drop_eq s r : Forall (λ c, is_eq c = false) s → s ≠ [] → drop_while is_eq (s ++ r) = s ++ r.
Proof. intros [|c l Hc Hl] Hne; [done|]. simpl. by rewrite Hc. Qed.

Lemma no_eq_nl s : Forall (λ c, is_eq c = false) s → Forall (λ c, is_eq c = false) (s ++ [10]).
Proof. intros Hs. apply Forall_app. split; [done|]. by repeat constructor. Qed.

(** The last line of a file may come without its newline. *)
Lemma strtok_end s : Forall (λ c, is_eq c = false) s → s ≠ [] → strtok_eq s = Some (s, []).
Proof.
  intros Hs Hne. unfold strtok_eq. rewrite <- (app_nil_r s) at 1. rewrite drop_eq by done.
  rewrite app_nil_r, <- upto_eq_end by done. by destruct s.
Qed.

Lemma strtok_at s r : Forall (λ c, is_eq c = false) s → s ≠ [] → strtok_eq (s ++ 61 :: r) = Some (s, r).
Proof.
  intros Hs Hne. unfold strtok_eq. rewrite drop_eq, <- upto_eq_at by done. by destruct s.
Qed.

Lemma split_line p : entry_ok p = true → hostapd_split_conf (line_of p ++ [10]) = p.
Proof.
  destruct p as [[n|] [x|]]; unfold entry_ok; cbn [var val line_of]; intros H; split_andb; try done.
  - undecide.
    destruct (plain_facts n) as (Hn & _ & _ & Hne); [done|].
    destruct (plain_facts x) as (Hx & _ & _ & Hxe); [done|].
    unfold hostapd_split_conf. rewrite <- app_assoc. cbn [app]. rewrite strtok_at by done.
    rewrite strtok_end; [|by apply no_eq_nl|by destruct x]. by rewrite limpa_plain, limpa_nl.
  - destruct (plain_facts n) as (Hn & _ & _ & Hne); [done|].
    unfold hostapd_split_conf. rewrite strtok_end; [|by apply no_eq_nl|by destruct n].
    cbn. by rewrite limpa_nl.
Qed.

Definition conf_ok (conf : list type_pair) : Prop := Forall (λ p, entry_ok p = true) conf.
Definition render_conf (conf : list type_pair) : list Z :=
  concat ((λ b, b ++ [10]) <$> (line_of <$> conf)).

Lemma entry_line p : entry_ok p = true →
  Forall (λ c, c ≠ 0) (line_of p) ∧ Forall (λ c, c ≠ 10) (line_of p) ∧
  (length (line_of p) < LINE_SIZE - 1)%nat.
Proof.
  unfold entry_ok. intros H. split_andb. apply bool_decide_eq_true in H0.
  split_and!; [..|done]; clear H0; destruct p as [[n|] [x|]]; cbn [var val line_of] in *; split_andb;
    try done; repeat match goal with H : plain ?s = true |- _ =>
      apply plain_facts in H as (_ & ? & ? & _) end; try done;
    (apply Forall_app; split; [done|]; by constructor).
Qed.

Lemma read_render conf : conf_ok conf → hostapd_read_conf (Some (render_conf conf)) = conf.
Proof.
  intros Hc. unfold hostapd_read_conf, lines_of, render_conf.
  rewrite read_lines_cut; [|..|apply concat_lines_length].
  - rewrite <- !list_fmap_compose. induction Hc as [|p conf Hp Hc IH]; [done|].
    rewrite fmap_cons, IH. f_equal. simpl. destruct (entry_line p Hp) as (H0 & _ & _).
    rewrite upto_nul_id by (apply Forall_app; split; [done|]; by repeat constructor).
    by apply split_line.
  - rewrite Forall_fmap. eapply Forall_impl; [exact Hc|]. intros p Hp.
    by destruct (entry_line p Hp) as (_ & ? & ?).
Qed.

Lemma write_render conf : conf_ok conf → hostapd_write_conf conf = Ok (render_conf conf).
Proof.
  induction 1 as [|p conf Hp Hc IH]; [done|]. cbn [hostapd_write_conf]. unfold entry_ok in Hp.
  unfold render_conf in *. rewrite !fmap_cons. cbn [concat].
  destruct p as [[n|] x]; [|by destruct x]. cbn. rewrite IH. cbn. f_equal.
  destruct x; cbn [line_of var val]; by rewrite <- !app_assoc.
Qed.

(** The abstract change: the first entry of the variable. *)
Fixpoint set_first (v x : list Z) (conf : list type_pair) : list type_pair :=
  match conf with
  | [] => []
  | p :: conf => if bool_decide (var p = Some v) then TypePair (Some v) (Some x) :: conf
                 else p :: set_first v x conf
  end.

Lemma change_set_first v x conf : conf_ok conf → change_entry conf v x = Ok (set_first v x conf).
Proof.
  induction 1 as [|p conf Hp Hc IH]; [done|]. cbn [change_entry set_first].
  destruct p as [[n|] y]; [|by destruct y]. cbn [deref var]. cbn. rewrite IH.
  destruct (decide (n = v)) as [->|Hn].
  - by rewrite !bool_decide_true.
  - by rewrite !bool_decide_false by congruence.
Qed.

Lemma set_first_ok v x conf : conf_ok conf → entry_ok (TypePair (Some v) (Some x)) = true →
  conf_ok (set_first v x conf).
Proof.
  intros Hc Hx. induction Hc as [|p conf Hp Hc IH]; [constructor|]. cbn [set_first].
  case_bool_decide; by constructor.
Qed.

Section change.
Context {W : Type} `{Shell W} `{Files W}.

(** What remains once the new text of the file is known. *)
Definition rewrite_file (conffile out pidfile : list Z) : ST W Z :=
  fwrite conffile out;; hostapd_reload pidfile;; mret 0.

(** On a file of well-formed entries the change replaces the value of the
    first entry of the variable and nothing else: the file written is the old
    one with that value, reading it gives exactly the changed entries, and
    hostapd is told to reload; an unknown variable leaves the text as it was
    and reports success all the same. *)
Theorem change_entry_rewrites (conffile v x pid : list Z) (conf : list type_pair) (w w1 w2 w3 : W) :
  conf_ok conf → entry_ok (TypePair (Some v) (Some x)) = true →
  get_pid w = Ok (Some pid, w1) → fread conffile w1 = Ok (Some (render_conf conf), w2) →
  fopen_w conffile w2 = Ok (true, w3) →
  change_hostapd_entry conffile v x w = rewrite_file conffile (render_conf (set_first v x conf)) pid w3 ∧
  hostapd_read_conf (Some (render_conf (set_first v x conf))) = set_first v x conf ∧
  (Some v ∉ var <$> conf → render_conf (set_first v x conf) = render_conf conf).
Proof.
  intros Hc Hx Hpid Hr Ho. split_and!.
  - unfold change_hostapd_entry, rewrite_file. run Hpid. run Hr.
    rewrite read_render, change_set_first by done.
    rewrite (st_bind_Ok _ _ w2 _ w2 eq_refl). run Ho.
    rewrite write_render by by apply set_first_ok. done.
  - by apply read_render, set_first_ok.
  - intros Hv. f_equal. clear -Hv. induction conf as [|p conf IH]; [done|]. cbn [set_first].
    rewrite fmap_cons, not_elem_of_cons in Hv. destruct Hv as [Hp Hv].
    rewrite bool_decide_false by congruence. by rewrite IH.
Qed.
End change.

(** A host with one hostapd and one file. *)
Definition one_file : Shell (list Z) := {|
  popen cmd := λ w, Ok (Some (lit_bytes "1234" ++ [10]), w);
  system cmd := λ w, Ok (0, w);
  time := λ w, Ok (0, w)
|}.
Definition one_file_files : Files (list Z) := {|
  fread _ := λ w, Ok (Some w, w);
  fopen_w _ := λ _, Ok (true, []);
  fwrite _ out := λ _, Ok (tt, out)
|}.
Definition sample_entries (channel : string) : list type_pair :=
  [TypePair (Some (lit_bytes "# the radio")) None; TypePair (Some []) None;
   TypePair (Some (lit_bytes "ssid")) (Some (lit_bytes "win et"));
   TypePair (Some (lit_bytes "channel")) (Some (lit_bytes channel))].

Lemma change_entry_rewrites_witness :
  @change_hostapd_entry _ one_file one_file_files [] (lit_bytes "channel") (lit_bytes "11")
    (render_conf (sample_entries "6")) = Ok (0, render_conf (sample_entries "11")).
Proof.
  destruct (@change_entry_rewrites _ one_file one_file_files [] (lit_bytes "channel") (lit_bytes "11")
    (lit_bytes "1234") (sample_entries "6") (render_conf (sample_entries "6"))
    (render_conf (sample_entries "6")) (render_conf (sample_entries "6")) []) as [E _];
    [repeat constructor|reflexivity..|].
  rewrite E. reflexivity.
Defined.

Lemma read_conf_cons l file : Forall (λ c, c ≠ 0) l → Forall (λ c, c ≠ 10) l →
  (length l < LINE_SIZE - 1)%nat →
  hostapd_read_conf (Some (l ++ 10 :: file)) = hostapd_split_conf (l ++ [10]) :: hostapd_read_conf (Some file).
Proof.
  intros H0 Hn Hl. unfold hostapd_read_conf. change (LINE_SIZE - 1)%nat with (S 2046) in *.
  rewrite lines_of_cons by done. rewrite fmap_cons. f_equal. rewrite upto_nul_id; [done|].
  apply Forall_app. split; [done|]. by repeat constructor.
Qed.

Lemma Forall_eqs (P : Z → Prop) n x y : P 61 → Forall P n → Forall P x → Forall P y →
  Forall P (n ++ 61 :: x ++ 61 :: y).
Proof. rewrite !Forall_app, !Forall_cons, Forall_app, Forall_cons. tauto. Qed.

(** A value that contains an equals sign -- a passphrase, for instance --
    is cut at the sign when the file is written back, whatever entry is
    changed. *)
Theorem equals_sign_lost (n x y : list Z) (conf : list type_pair) :
  plain n = true → n ≠ [] → plain x = true → x ≠ [] → plain y = true →
  (length (n ++ 61%Z :: x ++ 61%Z :: y) < LINE_SIZE - 1)%nat → conf_ok conf →
  hostapd_read_conf (Some ((n ++ 61 :: x ++ 61 :: y) ++ 10 :: render_conf conf)) =
    TypePair (Some n) (Some x) :: conf ∧
  hostapd_write_conf (TypePair (Some n) (Some x) :: conf) =
    Ok ((n ++ 61 :: x) ++ 10 :: render_conf conf).
Proof.
  intros Hn Hne Hx Hxe Hy Hl Hc.
  destruct (plain_facts n Hn) as (Hn1 & Hn2 & Hn3 & Hn4).
  destruct (plain_facts x Hx) as (Hx1 & Hx2 & Hx3 & Hx4).
  destruct (plain_facts y Hy) as (_ & Hy2 & Hy3 & _). split; [|cbn; by rewrite write_render].
  rewrite read_conf_cons; [|by apply Forall_eqs|by apply Forall_eqs|done].
  rewrite read_render by done. f_equal. rewrite <- !app_assoc. cbn [app]. rewrite <- app_assoc.
  unfold hostapd_split_conf. rewrite strtok_at by done. cbn [app]. rewrite strtok_at by done.
  by rewrite !limpa_plain.
Qed.

Lemma equals_sign_lost_witness :
  hostapd_read_conf (Some ((lit_bytes "wpa_passphrase" ++ 61 :: lit_bytes "a" ++ 61 :: lit_bytes "b") ++
    10 :: render_conf (sample_entries "6"))) =
    TypePair (Some (lit_bytes "wpa_passphrase")) (Some (lit_bytes "a")) :: sample_entries "6".
Proof.
  apply (equals_sign_lost (lit_bytes "wpa_passphrase") (lit_bytes "a") (lit_bytes "b"));
    [reflexivity|discriminate|reflexivity|discriminate|reflexivity|simpl; unfold LINE_SIZE; lia|].
  repeat constructor.
Defined.
