(* ===== verification/Utils.v ===== *)
(** Formatting helpers of [ethanol_functions/utils.c]: addresses as text, the
    channel number of a frequency, the names of the nl80211 constants.

    A [sprintf] into a heap block is the text it produces together with the
    size of the block; the text and its NUL have to fit. *)
From stdpp Require Import prelude list strings.
From S2P Require Import Prelude CMem IniFile ConfigFile.

(** ** Hexadecimal text *)

(** The digit of [%x] and the two digits of [%02x] for a byte. *)
Definition hexdigit (d : Z) : Z := if d <? 10 then 48 + d else 87 + d.
Definition hex2 (b : Z) : list Z := [hexdigit (b / 16); hexdigit (b `mod` 16)].

(** Bytes in [%02x] joined by colons. *)
Fixpoint colon_hex (l : list Z) : list Z :=
  match l with
  | [] => []
  | [b] => hex2 b
  | b :: l => hex2 b ++ 58 :: colon_hex l
  end.

(** [sprintf] of the text [s] into a fresh block of [n] bytes. *)
Definition sprintf_heap `{Allocator} (n : Z) (s : list Z) : res charp :=
  ensure (Z.of_nat (length s) + 1 <=? usable n) HeapOverflow;; Ok (mk_str s).

(** ** utils.c *)

Definition ETH_ALEN : nat := 6.
Definition IPV4_ALEN : nat := 4.

(** The loop of [mac_addr_n2a]: each step writes at the NUL of the previous. *)
Fixpoint n2a_loop (arg : list Z) (n i : nat) (mac_addr : list Z) : res (list Z) :=
  match n with
  | O => Ok mac_addr
  | S n =>
      b ← index arg i;
      n2a_loop arg n (S i)
        (if bool_decide (i = O) then mac_addr ++ hex2 b else mac_addr ++ 58 :: hex2 b)
  end.
Definition mac_addr_n2a (arg : list Z) : res (list Z) := n2a_loop arg ETH_ALEN 0 [].

Definition format_mac `{Allocator} (addr : list Z) : res charp :=
  s ← mac_addr_n2a addr; sprintf_heap 17 s.

Definition format_ipv4 `{Allocator} (addr : list Z) : res charp :=
  a ← index addr 0; b ← index addr 1; c ← index addr 2; d ← index addr 3;
  sprintf_heap (Z.of_nat IPV4_ALEN * 3) (colon_hex [a; b; c; d]).

(** C division truncates toward zero. *)
Definition ieee80211_frequency_to_channel (freq : Z) : Z :=
  if freq =? 2484 then 14
  else if freq <? 2484 then (freq - 2407) ÷ 5
  else if (4910 <=? freq) && (freq <=? 4980) then (freq - 4000) ÷ 5
  else if freq <=? 45000 then (freq - 5000) ÷ 5
  else if (58320 <=? freq) && (freq <=? 64800) then (freq - 56160) ÷ 2160
  else 0.

(** The index of a physical interface, from a file under /sys: [fs path] is
    [None] when the file cannot be opened, [Some None] when it cannot be read. *)
Definition phy_lookup (fs : list Z → option (option (list Z))) (name : list Z) : res Z :=
  let path := take 199 (lit_bytes "/sys/class/ieee80211/" ++ name ++ lit_bytes "/index") in
  match fs path with
  | None => Ok (-1)
  | Some None => Ok (-1)
  | Some (Some bs) => atoi (upto_nul (take 199 bs))
  end.

Definition wiphy_type (iftype : Z) : string :=
  match iftype with
  | 0 => "unspecified" | 1 => "Ad-hoc" | 2 => "Station" | 3 => "AP" | 4 => "AP/VLAN"
  | 5 => "WDS" | 6 => "Monitor" | 7 => "Mesh" | 8 => "P2P client" | 9 => "P2P Go"
  | 10 => "P2P Device" | _ => "unknown"
  end.
Definition channel_type_name (channel_type : Z) : string :=
  match channel_type with
  | 0 => "NO HT" | 1 => "HT20" | 2 => "HT40-" | 3 => "HT40+" | _ => "unknown"
  end.
Definition channel_width_name (width : Z) : string :=
  match width with
  | 0 => "20 MHz (no HT)" | 1 => "20 MHz" | 2 => "40 MHz" | 3 => "80 MHz"
  | 4 => "80+80 MHz" | 5 => "160 MHz" | _ => "unknown"
  end.

(** ** Reading the text back *)

Definition unhex (c : Z) : Z := if c <? 58 then c - 48 else c - 87.

(** The inverse of [colon_hex], the specification of the address texts. *)
Fixpoint of_colon_hex (s : list Z) : list Z :=
  match s with
  | a :: b :: 58 :: s => unhex a * 16 + unhex b :: of_colon_hex s
  | [a; b] => [unhex a * 16 + unhex b]
  | _ => []
  end.

Definition is_byte (b : Z) : bool := (0 <=? b) && (b <? 256).

Lemma unhex_hexdigit d : 0 ≤ d < 16 → unhex (hexdigit d) = d.
Proof. intros H. unfold unhex, hexdigit. repeat case_match; lia. Qed.

Lemma byte_digits b : is_byte b = true → 0 ≤ b / 16 < 16 ∧ 0 ≤ b `mod` 16 < 16.
Proof.
  unfold is_byte. intros H. split_andb. pose proof (Z.mod_pos_bound b 16).
  pose proof (Z_div_mod_eq_full b 16). lia.
Qed.

Lemma unhex_hex2 b : is_byte b = true →
  unhex (hexdigit (b / 16)) * 16 + unhex (hexdigit (b `mod` 16)) = b.
Proof.
  intros H. destruct (byte_digits b H). rewrite !unhex_hexdigit by done.
  pose proof (Z_div_mod_eq_full b 16). lia.
Qed.

Lemma hexdigit_char d : 0 ≤ d < 16 → 48 ≤ hexdigit d ≤ 102 ∧ hexdigit d ≠ 58.
Proof. intros H. unfold hexdigit. case_match; lia. Qed.

Lemma colon_hex_cons b c l : colon_hex (b :: c :: l) = hex2 b ++ 58 :: colon_hex (c :: l).
Proof. done. Qed.

Lemma of_colon_hex_hex l : forallb is_byte l = true → of_colon_hex (colon_hex l) = l.
Proof.
  induction l as [|b [|c l] IH]; intros H; [done| |]; cbn [forallb] in H; split_andb.
  - simpl. by rewrite unhex_hex2.
  - rewrite colon_hex_cons. cbn [hex2 app of_colon_hex].
    rewrite unhex_hex2 by done. f_equal. apply IH. cbn [forallb]. by rewrite H0, H1.
Qed.

Lemma colon_hex_chars l : forallb is_byte l = true →
  Forall (λ c, c ≠ 0) (colon_hex l).
Proof.
  induction l as [|b [|c l] IH]; intros H; [by apply Forall_nil_2|..]; cbn [forallb] in H; split_andb;
    match goal with Hb : is_byte b = true |- _ => destruct (byte_digits b Hb) as [Hq Hr] end;
    apply hexdigit_char in Hq as [? _]; apply hexdigit_char in Hr as [? _].
  - repeat constructor; lia.
  - rewrite colon_hex_cons. repeat (constructor; [lia|]). apply IH. cbn [forallb].
    by apply andb_true_intro.
Qed.

Lemma mac_addr_n2a_text a b c d e f :
  mac_addr_n2a [a; b; c; d; e; f] = Ok (colon_hex [a; b; c; d; e; f]).
Proof. done. Qed.

(** [format_mac] writes the 17 characters of a MAC address and their NUL
    into a block of 17 bytes: an overflow by the C standard for every address;
    with glibc's allocator the text fits, it has 17 characters and the six
    bytes can be read back from it. *)
Theorem format_mac_text (addr : list Z) : length addr = 6%nat → forallb is_byte addr = true →
  @format_mac exact_alloc addr = Err HeapOverflow ∧
  ∃ s, @format_mac glibc_alloc addr = Ok (mk_str s) ∧ length s = 17%nat ∧
    chars (mk_str s) = Ok s ∧ of_colon_hex s = addr.
Proof.
  intros Hl Hb. destruct addr as [|a [|b [|c [|d [|e [|f [|? ?]]]]]]]; try done.
  unfold format_mac. rewrite mac_addr_n2a_text. split; [done|].
  exists (colon_hex [a; b; c; d; e; f]). split_and!; [done|done| |].
  - by apply chars_of_mk, colon_hex_chars.
  - by apply of_colon_hex_hex.
Qed.

Lemma format_mac_text_witness :
  @format_mac exact_alloc [188; 174; 197; 75; 14; 189] = Err HeapOverflow ∧
  ∃ s, @format_mac glibc_alloc [188; 174; 197; 75; 14; 189] = Ok (mk_str s) ∧
    length s = 17%nat ∧ chars (mk_str s) = Ok s ∧ of_colon_hex s = [188; 174; 197; 75; 14; 189].
Proof. apply format_mac_text; reflexivity. Defined.

(** The channel numbers of the bands [ieee80211_frequency_to_channel] knows:
    the centre frequency of every channel is mapped back to the channel. *)
Definition centre (band channel : Z) : Z :=
  if band =? 2 then (if channel =? 14 then 2484 else 2407 + 5 * channel)
  else if band =? 4 then 4000 + 5 * channel
  else if band =? 5 then 5000 + 5 * channel
  else 56160 + 2160 * channel.
Definition in_band (band channel : Z) : bool :=
  if band =? 2 then (1 <=? channel) && (channel <=? 14)
  else if band =? 4 then (182 <=? channel) && (channel <=? 196)
  else if band =? 5 then (0 <=? channel) && (channel <=? 181)
  else (band =? 60) && (1 <=? channel) && (channel <=? 4).

Lemma quot_exact a b c : 0 < b → a = b * c → a ÷ b = c.
Proof. intros H ->. rewrite Z.mul_comm. apply Z.quot_mul. lia. Qed.

(** [ieee80211_frequency_to_channel] gives the channel number back from
    the centre frequency of every channel of the 2.4, 4.9, 5 and 60 GHz bands. *)
Theorem frequency_to_channel_centre (band channel : Z) : in_band band channel = true →
  ieee80211_frequency_to_channel (centre band channel) = channel.
Proof.
  unfold in_band, centre, ieee80211_frequency_to_channel. intros H.
  repeat (case_match; split_andb; to_prop; try lia); try (apply quot_exact; lia).
Qed.

Lemma frequency_to_channel_centre_witness :
  ieee80211_frequency_to_channel (centre 2 13) = 13 ∧
  ieee80211_frequency_to_channel (centre 60 4) = 4.
Proof. split; apply frequency_to_channel_centre; reflexivity. Defined.
