(* ===== verification/GlobalVar.v ===== *)
(** The access point's own view of its interfaces: [ap/global_var.c], whose
    functions hostapd registers as the hooks of the agent.

    The hostapd structures are records with the fields these functions read;
    the arrays are lists, so that an index past the end is a fault.  What
    hostapd and the driver do to a running interface -- announcing a channel
    switch, reading a configuration file, restarting a BSS, scanning -- is the
    interface [Hostapd]; [hostapd_reload_config] of [ap/hostapd.c], which the
    functions call through [reload_config], is part of the model. *)
From stdpp Require Import prelude list strings.
From S2P Require Import Prelude CMem IniFile ConfigFile Utils.

(** ** hostapd's structures *)

(** [struct hostapd_ssid]: [ssid] is an array of 32 bytes. *)
Record hostapd_ssid := Ssid { ssid_len : Z; ssid : list Z }.

(** [struct hostapd_bss_config]. *)
Record hostapd_bss_config := BssConfig { iface : charp; bss_ssid : hostapd_ssid }.

(** [struct hostapd_config]; [num_bss] is the length of [bss]. *)
Record hostapd_config := HConfig {
  bss : list hostapd_bss_config;
  channel : Z;
  vht_oper_chwidth : Z;
  vht_oper_centr_freq_seg0_idx : Z;
  vht_oper_centr_freq_seg1_idx : Z;
  acs_ch_list : list (Z * Z);
  ieee80211d : Z; ieee80211h : Z; ieee80211n : Z; ieee80211ac : Z;
  rts_threshold : Z;
  beacon_int : Z
}.

(** [struct hostapd_channel_data] and the channels of [struct hostapd_hw_modes]. *)
Record hostapd_channel_data := Chan { chan : Z; freq : Z; max_tx_power : Z }.

(** [struct hostapd_data]: one BSS at run time; the stations are the nodes of
    [sta_list]. *)
Record hostapd_data := HData { own_addr : list Z; num_sta : Z; sta_list : list (list Z) }.

(** [struct hostapd_iface]. *)
Record hostapd_iface := HIface {
  conf : hostapd_config;
  if_freq : Z;
  secondary_ch : Z;
  phy : charp;
  config_fname : charp;
  current_mode : option (list hostapd_channel_data);
  if_bss : list hostapd_data
}.

(** [struct hapd_interfaces]: [count] entries of the array [ifaces];
    [has_read_cb] says whether [config_read_cb] is set. *)
Record hapd_interfaces := Interfaces {
  count : Z; ifaces : list hostapd_iface; has_read_cb : bool
}.

(** [conf->channel = chan], a [u8]. *)
Definition set_channel (c : hostapd_config) (ch : Z) : hostapd_config :=
  HConfig (bss c) (to_u 8 ch) (vht_oper_chwidth c) (vht_oper_centr_freq_seg0_idx c)
    (vht_oper_centr_freq_seg1_idx c) (acs_ch_list c) (ieee80211d c) (ieee80211h c)
    (ieee80211n c) (ieee80211ac c) (rts_threshold c) (beacon_int c).
Definition set_conf (i : hostapd_iface) (c : hostapd_config) : hostapd_iface :=
  HIface c (if_freq i) (secondary_ch i) (phy i) (config_fname i) (current_mode i) (if_bss i).

(** ** Reading the interfaces *)

Section interfaces.
(** [ethanol_had_interfaces]. *)
Context (had : option hapd_interfaces).

Definition return_number_of_bss : Z :=
  match had with None => -1 | Some h => count h end.

(** The guard of all the functions, and the interface it lets through:
    [wiphy] may be as large as [count]. *)
Definition with_iface {A} (wiphy : Z) (fail : A) (f : hostapd_iface → res A) : res A :=
  match had with
  | None => Ok fail
  | Some h =>
      if (wiphy <? 0) || (count h <? wiphy) then Ok fail
      else i ← index (ifaces h) (Z.to_nat wiphy); f i
  end.

Definition get_intfname (wiphy : Z) : res charp :=
  with_iface wiphy None (λ i, b ← index (bss (conf i)) 0; Ok (iface b)).

(** The inner and the outer loop of [get_wiphy]. *)
Fixpoint has_name (l : list hostapd_bss_config) (intfname : charp) : res bool :=
  match l with
  | [] => Ok false
  | b :: l => e ← streq (iface b) intfname; if (e : bool) then Ok true else has_name l intfname
  end.
Fixpoint wiphy_from (l : list hostapd_iface) (n i : nat) (intfname : charp) : res Z :=
  match n with
  | O => Ok (-1)
  | S n =>
      x ← index l i;
      b ← has_name (bss (conf x)) intfname;
      if (b : bool) then Ok (Z.of_nat i) else wiphy_from l n (S i) intfname
  end.
Definition get_wiphy (intfname : charp) : res Z :=
  match had with
  | None => Ok (-1)
  | Some h =>
      if nonnull intfname then wiphy_from (ifaces h) (Z.to_nat (count h)) 0 intfname else Ok (-1)
  end.

Definition get_current_frequency (wiphy : Z) : res Z := with_iface wiphy (-1) (λ i, Ok (if_freq i)).
Definition get_secondary_ch (wiphy : Z) : res Z := with_iface wiphy (-1) (λ i, Ok (secondary_ch i)).
Definition get_vht_channel_width (wiphy : Z) : res Z :=
  with_iface wiphy (-1) (λ i, Ok (vht_oper_chwidth (conf i))).
Definition get_vht_centr_freq_seg1 (wiphy : Z) : res Z :=
  with_iface wiphy (-1) (λ i, Ok (vht_oper_centr_freq_seg0_idx (conf i))).
Definition get_vht_centr_freq_seg2 (wiphy : Z) : res Z :=
  with_iface wiphy (-1) (λ i, Ok (vht_oper_centr_freq_seg1_idx (conf i))).
Definition get_current_channel (wiphy : Z) : res Z := with_iface wiphy (-1) (λ i, Ok (channel (conf i))).
Definition get_rts_threshold (wiphy : Z) : res Z :=
  with_iface wiphy (-1) (λ i, Ok (rts_threshold (conf i))).
Definition get_beacon_int (wiphy : Z) : res Z := with_iface wiphy (-1) (λ i, Ok (beacon_int (conf i))).

Definition is_in_chanlist (wiphy ch : Z) : res bool :=
  with_iface wiphy true (λ i, Ok (existsb (λ r, (r.1 <=? ch) && (ch <=? r.2)) (acs_ch_list (conf i)))).

(** The four capability tests look at the first interface. *)
Definition first_iface (wiphy : Z) (f : hostapd_config → Z) : res bool :=
  match had with
  | None => Ok false
  | Some h =>
      if (wiphy <? 0) || (count h <? wiphy) then Ok false
      else i ← index (ifaces h) 0; Ok (negb (f (conf i) =? 0))
  end.
Definition is_80211d (wiphy : Z) : res bool := first_iface wiphy ieee80211d.
Definition is_80211h (wiphy : Z) : res bool := first_iface wiphy ieee80211h.
Definition is_80211n (wiphy : Z) : res bool := first_iface wiphy ieee80211n.
Definition is_80211ac (wiphy : Z) : res bool := first_iface wiphy ieee80211ac.

Definition get_number_of_channels_available (wiphy : Z) : res Z :=
  with_iface wiphy (-1) (λ i, m ← deref (current_mode i); Ok (Z.of_nat (length m))).

(** [ethanol_had_interfaces->iface[wiphy]->current_mode->channels], after the
    guard of [get_number_of_channels_available]. *)
Definition channels_of (wiphy : Z) : res (list hostapd_channel_data) :=
  h ← deref had;
  i ← index (ifaces h) (Z.to_nat wiphy);
  deref (current_mode i).

Definition convert_freq_to_chan (wiphy fr : Z) : res Z :=
  n ← get_number_of_channels_available wiphy;
  if n <=? 0 then Ok (-1) else
  l ← channels_of wiphy;
  Ok (match List.find (λ c, freq c =? fr) l with Some c => chan c | None => -2 end).
Definition convert_chan_to_freq (wiphy ch : Z) : res Z :=
  n ← get_number_of_channels_available wiphy;
  if n <=? 0 then Ok (-1) else
  l ← channels_of wiphy;
  Ok (match List.find (λ c, chan c =? ch) l with Some c => freq c | None => -2 end).

(** [channels[chan]] is indexed with the channel number. *)
Definition get_max_tx_power (wiphy ch : Z) : res Z :=
  n ← get_number_of_channels_available wiphy;
  if (n <=? 0) || (n <? ch) then Ok (-1) else
  l ← channels_of wiphy;
  if ch <? 0 then Err ReadOutOfBounds else
  c ← index l (Z.to_nat ch);
  Ok (max_tx_power c).
End interfaces.

(** ** SSIDs and addresses as text *)

Definition SSID_MAX_LEN : Z := 32.
Definition SSID_SIZE : Z := SSID_MAX_LEN * 4 + 1.

Definition isprint (c : Z) : bool := (32 <=? c) && (c <=? 126).

(** What [ssid_escaped] appends for byte [i] of [len]: a backslash and blanks
    at either end are escaped like the unprintable bytes. *)
Definition escape (len i : nat) (c : Z) : list Z :=
  if isprint c && negb (c =? 32) && negb (c =? 92) then [c]
  else if (c =? 32) && negb (bool_decide (i = O)) && negb (bool_decide (i = (len - 1)%nat)) then [32]
  else [92; 120] ++ hex2 c.

(** The loop fills the local array [ssid], cleared before. *)
Fixpoint escape_loop (len : nat) (data : list Z) (n i : nat) (buf : list Z) : res (list Z) :=
  match n with
  | O => Ok buf
  | S n =>
      c ← index data i;
      let buf := buf ++ escape len i c in
      ensure (Z.of_nat (length buf) <=? SSID_SIZE) StackOverflow;;
      escape_loop len data n (S i) buf
  end.
Definition ssid_escaped `{Allocator} (len : Z) (data : list Z) : res charp :=
  let len := Z.to_nat (to_u 8 len) in
  buf ← escape_loop len data len 0 [];
  let ssid := Some (cells (buf ++ replicate (Z.to_nat SSID_SIZE - length buf) 0)) in
  n ← strlen ssid;
  malloc_strcpy (n + 1) ssid.

Section texts.
Context `{Allocator} (had : option hapd_interfaces).

Definition get_ssid (wiphy bss_id : Z) : res charp :=
  with_iface had wiphy None (λ i,
    if (bss_id <? 0) || (Z.of_nat (length (bss (conf i))) <=? bss_id) then Ok None else
    b ← index (bss (conf i)) (Z.to_nat bss_id);
    ssid_escaped (ssid_len (bss_ssid b)) (ssid (bss_ssid b))).

Definition get_mac (wiphy : Z) : res charp :=
  with_iface had wiphy None (λ i,
    b ← index (if_bss i) 0;
    sprintf_heap 18 (colon_hex (own_addr b))).

(** [sscanf(phy, "phy%d", &phy)]: without a number the result is never
    assigned. *)
Definition scan_phy (s : list Z) : res Z :=
  let t := lskip (drop 3 s) in
  let d := if (first t =? 45) || (first t =? 43) then first (tail t) else first t in
  if bool_decide (take 3 s = lit_bytes "phy") && isdigit d then atoi t else Err ReadIndeterminate.
Definition get_phy (wiphy : Z) : res Z :=
  with_iface had wiphy (-1) (λ i, s ← chars (phy i); scan_phy s).

(** The stations of a BSS, with the loop as it is written: [sta_list] never
    advances, so that the loop writes entry after entry of [macs]. *)
Record sta_info_list := StaInfoList { l_num_sta : Z; macs : list (list Z) }.

Fixpoint sta_loop (room : nat) (l : list (list Z)) (macs : list (list Z)) : res (list (list Z)) :=
  match l with
  | [] => Ok macs
  | addr :: _ =>
      match room with
      | O => Err HeapOverflow
      | S room => sta_loop room l (macs ++ [colon_hex addr])
      end
  end.
Definition return_connected_sta (wiphy bss_id : Z) : res (option sta_info_list) :=
  with_iface had wiphy None (λ i,
    if (bss_id <? 0) || (Z.of_nat (length (if_bss i)) <? bss_id) then Ok None else
    b ← index (if_bss i) (Z.to_nat bss_id);
    if 0 <? num_sta b then
      l ← sta_loop (Z.to_nat (usable (num_sta b * 8) / 8)) (sta_list b) [];
      Ok (Some (StaInfoList (num_sta b) l))
    else Ok (Some (StaInfoList (num_sta b) []))).

(** The pairs whose escaped SSID is [s]; each match goes to the front. *)
Fixpoint ssid_bss (s : charp) (wiphy : Z) (l : list hostapd_bss_config) (bss_id : Z)
    (ssids : list (Z * Z)) : res (list (Z * Z)) :=
  match l with
  | [] => Ok ssids
  | b :: l =>
      e ← ssid_escaped (ssid_len (bss_ssid b)) (ssid (bss_ssid b));
      q ← streq s e;
      ssid_bss s wiphy l (bss_id + 1) (if (q : bool) then (wiphy, bss_id) :: ssids else ssids)
  end.
Fixpoint ssid_wiphys (s : charp) (l : list hostapd_iface) (n i : nat) (ssids : list (Z * Z)) :
    res (list (Z * Z)) :=
  match n with
  | O => Ok ssids
  | S n =>
      x ← index l i;
      ssids ← ssid_bss s (Z.of_nat i) (bss (conf x)) 0 ssids;
      ssid_wiphys s l n (S i) ssids
  end.
Definition get_ssid_config (s : charp) : res (list (Z * Z)) :=
  match had with
  | None => Ok []
  | Some h => ssid_wiphys s (ifaces h) (Z.to_nat (count h)) 0 []
  end.
End texts.

(** ** Changing the channel *)

(** [struct wpa_scan_res]: the fields [survey_with_hostapd] copies. *)
Record wpa_scan_res := ScanRes {
  sr_bssid : list Z; sr_freq : Z; sr_beacon_int : Z; sr_caps : Z; sr_qual : Z;
  sr_noise : Z; sr_level : Z; sr_tsf : Z; sr_age : Z
}.

Class Hostapd (W : Type) := {
  (* the CSA request of [hostapd_switch_channel] for the first BSS *)
  hostapd_switch_channel : hostapd_iface → Z → ST W Z;
  config_read_cb : charp → ST W (option hostapd_config);
  hostapd_clear_bss : hostapd_data → ST W hostapd_data;
  hostapd_reload_bss : hostapd_data → ST W unit;
  trigger_scan_intf : charp → ST W Z;
  hostapd_driver_get_scan_results : hostapd_iface → ST W (option (list wpa_scan_res))
}.

Section running.
Context {W : Type} `{Hostapd W}.

(** [hostapd_clear_old]: every BSS in turn. *)
Fixpoint hostapd_clear_old (l : list hostapd_data) : ST W (list hostapd_data) :=
  match l with
  | [] => mret []
  | b :: l => b' ← hostapd_clear_bss b; l' ← hostapd_clear_old l; mret (b' :: l')
  end.

Fixpoint reload_all (l : list hostapd_data) : ST W unit :=
  match l with [] => mret tt | b :: l => hostapd_reload_bss b;; reload_all l end.

(** The values the new configuration takes over from the old one. *)
Definition keep_running (new old : hostapd_config) : hostapd_config :=
  HConfig (bss new) (channel old) (vht_oper_chwidth old) (vht_oper_centr_freq_seg0_idx old)
    (vht_oper_centr_freq_seg1_idx old) (acs_ch_list new) (ieee80211d new) (ieee80211h new)
    (ieee80211n old) (ieee80211ac old) (rts_threshold new) (beacon_int new).

(** The loop over the BSSs of [hostapd_reload_config]: BSS [j] takes entry [j]
    of the new configuration. *)
Fixpoint reload_each (new : hostapd_config) (l : list hostapd_data) (j : nat) : ST W unit :=
  match l with
  | [] => mret tt
  | b :: l => lift (index (bss new) j);; hostapd_reload_bss b;; reload_each new l (S j)
  end.

Definition hostapd_reload_config (read_cb : bool) (i : hostapd_iface) : ST W (Z * hostapd_iface) :=
  lift (index (if_bss i) 0);;
  let with_bss c l :=
    HIface c (if_freq i) (secondary_ch i) (phy i) (config_fname i) (current_mode i) l in
  match config_fname i with
  | None => l ← hostapd_clear_old (if_bss i); reload_all l;; mret (0, with_bss (conf i) l)
  | Some _ =>
      if negb read_cb then mret (-1, i) else
      new ← config_read_cb (config_fname i);
      match new with
      | None => mret (-1, i)
      | Some new =>
          l ← hostapd_clear_old (if_bss i);
          let c := keep_running new (conf i) in
          reload_each c l 0;; mret (0, with_bss c l)
      end
  end.

Definition put_iface (h : hapd_interfaces) (wiphy : Z) (i : hostapd_iface) : hapd_interfaces :=
  Interfaces (count h) (<[Z.to_nat wiphy := i]> (ifaces h)) (has_read_cb h).

Abbreviation state := (option hapd_interfaces * W)%type.

(** A channel switch is announced; when hostapd refuses it the channel is
    written into the configuration, which is loaded again. *)
Definition set_current_frequency (wiphy fr : Z) : ST state Z := λ '(had, w),
  match had with
  | None => Ok (0, (had, w))
  | Some h =>
      if (wiphy <? 0) || (count h <? wiphy) then Ok (0, (had, w)) else
      i ← index (ifaces h) (Z.to_nat wiphy);
      index (if_bss i) 0;;
      '(ret, w) ← hostapd_switch_channel i fr w;
      if 0 <=? ret then Ok (ret, (had, w)) else
      ch ← convert_freq_to_chan had wiphy fr;
      if ch <? 0 then Ok (-1, (had, w)) else
      '(r, w) ← hostapd_reload_config (has_read_cb h) (set_conf i (set_channel (conf i) ch)) w;
      Ok (r.1, (Some (put_iface h wiphy r.2), w))
  end.

Definition set_current_channel (wiphy ch : Z) : ST state Z := λ '(had, w),
  match had with
  | None => Ok (0, (had, w))
  | Some h =>
      if (wiphy <? 0) || (count h <? wiphy) then Ok (0, (had, w)) else
      fr ← convert_chan_to_freq had wiphy ch;
      if fr <? 0 then Ok (-1, (had, w)) else set_current_frequency wiphy fr (had, w)
  end.

(** ** Scanning *)

(** The members of [scan_info_t] that [survey_with_hostapd] takes from the scan;
    [intf_name] stays unset when the interface has no name. *)
Record scan_info_t := ScanInfo {
  ap_num : Z; si_wiphy : Z; si_intf_name : charp; si_mac_addr : charp; si_signal : Z;
  si_noise : Z; si_frequency : Z; si_channel : Z; si_capability : Z; si_beacon_interval : Z;
  si_link_margin : Z; si_tsf : Z; si_age : Z
}.

Definition trigger_scan (wiphy : Z) : ST state Z := λ '(had, w),
  devname ← get_intfname had wiphy;
  if nonnull devname then '(r, w) ← trigger_scan_intf devname w; Ok (r, (had, w))
  else Ok (-1, (had, w)).

(** The copies are as long as the texts without their NUL. *)
Fixpoint scan_list `{Allocator} (had : option hapd_interfaces) (wiphy : Z) (l : list wpa_scan_res)
    (i : Z) (r : list scan_info_t) : res (list scan_info_t) :=
  match l with
  | [] => Ok r
  | s :: l =>
      name ← get_intfname had wiphy;
      intf ← (if nonnull name then n ← strlen name; malloc_strcpy n name else Ok None);
      let mac := mk_str (colon_hex (sr_bssid s)) in
      n ← strlen mac;
      mac ← malloc_strcpy n mac;
      scan_list had wiphy l (i + 1)
        (ScanInfo i wiphy intf mac (sr_level s) (sr_noise s) (sr_freq s) (-1) (sr_caps s)
           (sr_beacon_int s) (sr_qual s) (sr_tsf s) (sr_age s) :: r)
  end.

Definition survey_with_hostapd `{Allocator} (wiphy : Z) : ST state (list scan_info_t) := λ s,
  '(_, (had, w)) ← trigger_scan wiphy s;
  match had with
  | None => Ok ([], (had, w))
  | Some h =>
      if (wiphy <? 0) || (count h <? wiphy) then Ok ([], (had, w)) else
      i ← index (ifaces h) (Z.to_nat wiphy);
      index (if_bss i) 0;;
      '(scan, w) ← hostapd_driver_get_scan_results i w;
      match scan with
      | None => Ok ([], (had, w))
      | Some l => r ← scan_list had wiphy l 0 []; Ok (r, (had, w))
      end
  end.
End running.

(** ** The guard of the interface functions *)

(** The array of interfaces has exactly [count] entries. *)
Definition had_ok (h : hapd_interfaces) : bool := count h =? Z.of_nat (length (ifaces h)).

Lemma index_Ok {A} (l : list A) i x : l !! i = Some x → index l i = Ok x.
Proof. unfold index. by intros ->. Qed.

Lemma with_iface_in {A} h wiphy (fail : A) f i : had_ok h = true → 0 ≤ wiphy →
  ifaces h !! Z.to_nat wiphy = Some i → with_iface (Some h) wiphy fail f = f i.
Proof.
  unfold had_ok, with_iface. intros Hh Hw Hi. pose proof (lookup_lt_Some _ _ _ Hi).
  replace ((wiphy <? 0) || (count h <? wiphy)) with false by lia. by run (index_Ok _ _ _ Hi).
Qed.

Lemma with_iface_out {A} h wiphy (fail : A) f : wiphy < 0 ∨ count h < wiphy →
  with_iface (Some h) wiphy fail f = Ok fail.
Proof.
  unfold with_iface. intros H. by replace ((wiphy <? 0) || (count h <? wiphy)) with true by lia.
Qed.

Lemma with_iface_count {A} h (fail : A) f : had_ok h = true →
  with_iface (Some h) (count h) fail f = Err ReadOutOfBounds.
Proof.
  unfold had_ok, with_iface. intros Hh. to_prop.
  replace ((count h <? 0) || (count h <? count h)) with false by lia. unfold index.
  by rewrite lookup_ge_None_2 by lia.
Qed.

(** The interface functions answer for every interface of the array and
    return their error value for a negative number and for one above [count];
    the number [count] itself passes the guard [wiphy > count], and the read
    past the array faults. *)
Theorem interface_guard (h : hapd_interfaces) : had_ok h = true → ∀ wiphy,
  (wiphy < 0 ∨ count h < wiphy →
    get_current_channel (Some h) wiphy = Ok (-1) ∧ get_current_frequency (Some h) wiphy = Ok (-1) ∧
    get_intfname (Some h) wiphy = Ok None ∧ is_in_chanlist (Some h) wiphy 1 = Ok true) ∧
  (wiphy = count h →
    get_current_channel (Some h) wiphy = Err ReadOutOfBounds ∧
    get_current_frequency (Some h) wiphy = Err ReadOutOfBounds ∧
    get_intfname (Some h) wiphy = Err ReadOutOfBounds ∧
    is_in_chanlist (Some h) wiphy 1 = Err ReadOutOfBounds) ∧
  (0 ≤ wiphy < count h → ∃ i, ifaces h !! Z.to_nat wiphy = Some i ∧
    get_current_channel (Some h) wiphy = Ok (channel (conf i)) ∧
    get_current_frequency (Some h) wiphy = Ok (if_freq i)).
Proof.
  intros Hh wiphy. split_and!.
  - intros H. split_and!; by apply with_iface_out.
  - intros ->. split_and!; by apply with_iface_count.
  - intros Hw. destruct (lookup_lt_is_Some_2 (ifaces h) (Z.to_nat wiphy)) as [i Hi].
    { unfold had_ok in Hh. lia. }
    exists i. split_and!; [done|..]; unfold get_current_channel, get_current_frequency;
      by rewrite (with_iface_in _ _ _ _ i) by (done || lia).
Qed.

(** Two access points on channels 1 and 36. *)
Definition sample_conf (name : string) (ch : Z) (ss : list Z) : hostapd_config :=
  HConfig [BssConfig (lit name) (Ssid (Z.of_nat (length ss)) ss)] ch 0 0 0 [(1, 13)] 1 0 1 0 2347 100.
Definition sample_iface (name : string) (ch fr : Z) (ss : list Z) (m : list hostapd_channel_data) :
    hostapd_iface :=
  HIface (sample_conf name ch ss) fr 0 (lit "phy0") None (Some m)
    [HData [2; 0; 0; 0; 0; 255] 1 [[2; 0; 0; 0; 0; 7]]].
Definition sample_had : hapd_interfaces := Interfaces 2
  [sample_iface "wlan0" 1 2412 (lit_bytes "winet") [Chan 1 2412 20; Chan 6 2437 20];
   sample_iface "wlan1" 36 5180 (lit_bytes " a\") [Chan 36 5180 17]] false.

Lemma interface_guard_witness :
  get_current_channel (Some sample_had) 2 = Err ReadOutOfBounds ∧
  get_current_channel (Some sample_had) 3 = Ok (-1) ∧
  ∃ i, ifaces sample_had !! 1%nat = Some i ∧
    get_current_channel (Some sample_had) 1 = Ok (channel (conf i)) ∧
    get_current_frequency (Some sample_had) 1 = Ok (if_freq i).
Proof.
  split_and!.
  - by apply (interface_guard sample_had eq_refl 2).
  - apply (interface_guard sample_had eq_refl 3). right. reflexivity.
  - apply (interface_guard sample_had eq_refl 1). split; [discriminate|reflexivity].
Defined.

(** ** Finding an interface by name *)

(** The interfaces' names are strings. *)
Definition names (i : hostapd_iface) : list (list Z) := (text ∘ iface) <$> bss (conf i).
Definition named_ifaces (h : hapd_interfaces) : bool :=
  forallb (λ i, forallb (λ b, named (iface b)) (bss (conf i))) (ifaces h).

Lemma has_name_spec l p : forallb (λ b, named (iface b)) l = true → named p = true →
  has_name l p = Ok (bool_decide (text p ∈ (text ∘ iface) <$> l)).
Proof.
  intros Hl Hp. induction l as [|b l IH]; cbn [forallb] in Hl; [done|]. split_andb.
  cbn [has_name]. rewrite (streq_spec _ _ H Hp). cbn. rewrite IH by done. clear IH.
  destruct (decide (text (iface b) = text p)) as [E|E].
  - rewrite bool_decide_true by done. f_equal. symmetry. apply bool_decide_true. rewrite E. left.
  - rewrite bool_decide_false by done. f_equal. apply bool_decide_ext. rewrite elem_of_cons.
    naive_solver.
Qed.

(** The first interface that has the name. *)
Fixpoint first_named (n : list Z) (l : list hostapd_iface) (i : Z) : Z :=
  match l with
  | [] => -1
  | x :: l => if bool_decide (n ∈ names x) then i else first_named n l (i + 1)
  end.

Lemma wiphy_from_spec p pre l : forallb (λ i, forallb (λ b, named (iface b)) (bss (conf i))) l = true →
  named p = true →
  wiphy_from (pre ++ l) (length l) (length pre) p =
    Ok (first_named (text p) l (Z.of_nat (length pre))).
Proof.
  intros Hl Hp. revert pre Hl. induction l as [|x l IH]; intros pre Hl; [done|].
  cbn [forallb] in Hl. split_andb. cbn [wiphy_from length].
  rewrite (res_bind_Ok _ _ x) by (apply index_Ok, list_lookup_middle; done).
  rewrite has_name_spec by done. cbn. unfold names.
  case_bool_decide; [done|].
  specialize (IH (pre ++ [x])). rewrite length_app, <- app_assoc in IH. simpl in IH.
  replace (length pre + 1)%nat with (S (length pre)) in IH by lia.
  rewrite IH by done. do 2 f_equal. lia.
Qed.

Lemma get_wiphy_spec h p : had_ok h = true → named_ifaces h = true → named p = true →
  get_wiphy (Some h) p = Ok (first_named (text p) (ifaces h) 0).
Proof.
  intros Hh Hn Hp. unfold get_wiphy, had_ok in *.
  replace (nonnull p) with true by (unfold named in Hp; by split_andb).
  replace (Z.to_nat (count h)) with (length (ifaces h)) by lia.
  by apply (wiphy_from_spec p []).
Qed.

Lemma first_named_cases n l k : 0 ≤ k →
  first_named n l k = -1 ∧ (∀ x, x ∈ l → n ∉ names x) ∨
  ∃ j x, first_named n l k = k + Z.of_nat j ∧ l !! j = Some x ∧ n ∈ names x ∧
    ∀ j' y, (j' < j)%nat → l !! j' = Some y → n ∉ names y.
Proof.
  revert k. induction l as [|x l IH]; intros k Hk; cbn [first_named].
  { left. split; [done|]. intros x. by rewrite elem_of_nil. }
  case_bool_decide as E.
  - right. exists O, x. split_and!; [lia|done|done|lia].
  - destruct (IH (k + 1)) as [[-> H]|(j & y & -> & Hj & Hy & Hmin)]; [lia|left|right].
    + split; [done|]. intros y. rewrite elem_of_cons. naive_solver.
    + exists (S j), y. split_and!; [lia|done|done|]. intros [|j'] z ? [= ?]; [by subst|].
      by eapply (Hmin j'); [lia|].
Qed.

(** [get_wiphy] returns the number of the first interface that carries the
    name, for which every getter then answers without a fault, and -1 exactly
    when no interface carries it. *)
Theorem get_wiphy_finds (h : hapd_interfaces) (p : charp) :
  had_ok h = true → named_ifaces h = true → named p = true →
  (get_wiphy (Some h) p = Ok (-1) ∧ ∀ x, x ∈ ifaces h → text p ∉ names x) ∨
  ∃ j x, get_wiphy (Some h) p = Ok (Z.of_nat j) ∧ ifaces h !! j = Some x ∧ text p ∈ names x ∧
    (∀ j' y, (j' < j)%nat → ifaces h !! j' = Some y → text p ∉ names y) ∧
    get_current_channel (Some h) (Z.of_nat j) = Ok (channel (conf x)) ∧
    get_current_frequency (Some h) (Z.of_nat j) = Ok (if_freq x).
Proof.
  intros Hh Hn Hp. rewrite get_wiphy_spec by done.
  destruct (first_named_cases (text p) (ifaces h) 0) as [[-> H]|(j & x & -> & Hj & Hx & Hmin)];
    [lia|by left|right].
  exists j, x. rewrite Z.add_0_l. split_and!; try done;
    unfold get_current_channel, get_current_frequency;
    rewrite (with_iface_in _ _ _ _ x) by (done || lia || by rewrite Nat2Z.id); done.
Qed.

Lemma get_wiphy_finds_witness :
  ∃ j x, get_wiphy (Some sample_had) (lit "wlan1") = Ok (Z.of_nat j) ∧
    ifaces sample_had !! j = Some x.
Proof.
  destruct (get_wiphy_finds sample_had (lit "wlan1") eq_refl eq_refl eq_refl)
    as [[H _]|(j & x & H & Hj & _)]; [discriminate H|]. by exists j, x.
Defined.

(** ** Escaped SSIDs *)

(** The inverse of the escaping. *)
Fixpoint unescape (s : list Z) : list Z :=
  match s with
  | [] => []
  | 92 :: 120 :: a :: b :: s => unhex a * 16 + unhex b :: unescape s
  | c :: s => c :: unescape s
  end.

Fixpoint escaped_from (len i : nat) (data : list Z) : list Z :=
  match data with [] => [] | c :: data => escape len i c ++ escaped_from len (S i) data end.

Lemma escape_cases len i c :
  escape len i c = [c] ∧ c ≠ 92 ∧ 32 ≤ c ≤ 126 ∨ escape len i c = [92; 120] ++ hex2 c.
Proof.
  unfold escape. destruct (isprint c && _ && _) eqn:E.
  { left. split; [done|]. unfold isprint in E. split_andb. lia. }
  clear E. destruct (_ && _ && _) eqn:E'; [left|by right].
  split_andb. assert (c = 32) as -> by lia. split; [done|lia].
Qed.

Lemma unescape_plain c s : c ≠ 92 → unescape (c :: s) = c :: unescape s.
Proof.
  intros H. cbn [unescape]. repeat (done || case_match).
Qed.

Lemma unescape_escaped len i data : forallb is_byte data = true →
  unescape (escaped_from len i data) = data.
Proof.
  revert i. induction data as [|c data IH]; intros i H; [done|]. cbn [forallb] in H. split_andb.
  cbn [escaped_from]. destruct (escape_cases len i c) as [(-> & Hc & _) | ->].
  - cbn [app]. rewrite unescape_plain by done. by rewrite IH.
  - cbn [app hex2 unescape]. by rewrite unhex_hex2, IH.
Qed.

Lemma length_escape len i c : (length (escape len i c) ≤ 4)%nat.
Proof. destruct (escape_cases len i c) as [(-> & _) | ->]; simpl; lia. Qed.

Lemma length_escaped len i data : (length (escaped_from len i data) ≤ 4 * length data)%nat.
Proof.
  revert i. induction data as [|c data IH]; intros i; simpl; [lia|]. rewrite length_app.
  pose proof (length_escape len i c). specialize (IH (S i)). lia.
Qed.

Lemma escaped_printable len i data : forallb is_byte data = true →
  Forall (λ c, 32 ≤ c ≤ 126) (escaped_from len i data).
Proof.
  revert i. induction data as [|c data IH]; intros i H; [constructor|]. cbn [forallb] in H.
  split_andb. cbn [escaped_from]. apply Forall_app. split; [|by apply IH].
  destruct (escape_cases len i c) as [(-> & ? & ?) | ->]; [by apply Forall_singleton|].
  destruct (byte_digits c H) as [Hq Hr]. apply hexdigit_char in Hq as [? _], Hr as [? _].
  simpl. repeat constructor; lia.
Qed.

Lemma escaped_chars len i data : forallb is_byte data = true →
  Forall (λ c, c ≠ 0) (escaped_from len i data).
Proof. intros H. eapply Forall_impl; [by apply escaped_printable|]. simpl. lia. Qed.

Lemma escape_loop_spec len pre data buf :
  Z.of_nat (length buf) + 4 * Z.of_nat (length data) ≤ SSID_SIZE - 1 →
  escape_loop len (pre ++ data) (length data) (length pre) buf =
    Ok (buf ++ escaped_from len (length pre) data).
Proof.
  revert pre buf. induction data as [|c data IH]; intros pre buf H; simpl.
  { by rewrite app_nil_r. }
  rewrite (res_bind_Ok _ _ c) by (apply index_Ok, list_lookup_middle; done).
  pose proof (length_escape len (length pre) c). simpl in H.
  rewrite (res_bind_Ok _ _ tt) by (apply ensure_Ok; to_prop; rewrite length_app; lia).
  specialize (IH (pre ++ [c]) (buf ++ escape len (length pre) c)).
  rewrite <- !app_assoc in IH. simpl in IH. rewrite !length_app in IH. simpl in IH.
  replace (length pre + 1)%nat with (S (length pre)) in IH by lia. apply IH. lia.
Qed.

(** An SSID of a configuration: at most 32 bytes in its array. *)
Definition ssid_ok (s : hostapd_ssid) : bool :=
  (ssid_len s =? Z.of_nat (length (ssid s))) && (ssid_len s <=? SSID_MAX_LEN) &&
  forallb is_byte (ssid s).
Definition escaped (s : hostapd_ssid) : list Z := escaped_from (length (ssid s)) 0 (ssid s).

Lemma ssid_escaped_Ok `{Allocator} s : ssid_ok s = true →
  ssid_escaped (ssid_len s) (ssid s) = Ok (mk_str (escaped s)).
Proof.
  unfold ssid_ok, ssid_escaped, escaped. intros Hs. split_andb. to_prop. unfold SSID_MAX_LEN in *.
  rewrite to_u_id by (done || in_range).
  replace (Z.to_nat (ssid_len s)) with (length (ssid s)) by lia.
  rewrite (res_bind_Ok _ _ _ (escape_loop_spec _ [] (ssid s) [] ltac:(unfold SSID_SIZE, SSID_MAX_LEN; simpl; lia))).
  cbn [app length]. set (e := escaped_from _ _ _).
  assert (He : (length e ≤ 128)%nat).
  { pose proof (length_escaped (length (ssid s)) 0 (ssid s)). subst e. lia. }
  assert (Hc : Forall (λ c, c ≠ 0) e) by by apply escaped_chars.
  destruct (Z.to_nat SSID_SIZE - length e)%nat as [|k] eqn:Ek.
  { unfold SSID_SIZE, SSID_MAX_LEN in Ek. lia. }
  cbn [replicate]. rewrite cells_app, cells_cons.
  unfold strlen, malloc_strcpy, chars, deref. cbn [mbind res_bind].
  rewrite strlen_chars, (chars_of_cells _ _ Hc). cbn.
  rewrite (res_bind_Ok _ _ tt); [done|]. apply ensure_Ok. to_prop. apply usable_ge. lia.
Qed.

(** Every SSID of up to 32 bytes is escaped without overflowing the local
    array, into at most 128 characters that determine the SSID: undoing the
    escapes gives back its bytes, so that different SSIDs have different texts. *)
Theorem ssid_escaped_roundtrip `{Allocator} (s : hostapd_ssid) : ssid_ok s = true →
  ∃ t, ssid_escaped (ssid_len s) (ssid s) = Ok (mk_str t) ∧ chars (mk_str t) = Ok t ∧
    (length t ≤ 128)%nat ∧ unescape t = ssid s.
Proof.
  intros Hs. exists (escaped s). rewrite ssid_escaped_Ok by done. split; [done|].
  unfold ssid_ok, escaped in *. split_andb. to_prop. unfold SSID_MAX_LEN in *. split_and!.
  - by apply chars_of_mk, escaped_chars.
  - pose proof (length_escaped (length (ssid s)) 0 (ssid s)). lia.
  - by apply unescape_escaped.
Qed.

Lemma ssid_escaped_roundtrip_witness :
  ∃ t, @ssid_escaped exact_alloc 3 (lit_bytes " a\") = Ok (mk_str t) ∧
    chars (mk_str t) = Ok t ∧ (length t ≤ 128)%nat ∧ unescape t = lit_bytes " a\".
Proof. apply (@ssid_escaped_roundtrip exact_alloc (Ssid 3 (lit_bytes " a\"))). reflexivity. Defined.

(** ** The networks that provide an SSID *)

Definition ssids_ok (h : hapd_interfaces) : bool :=
  forallb (λ i, forallb (λ b, ssid_ok (bss_ssid b)) (bss (conf i))) (ifaces h).

(** The pairs (interface, BSS) whose SSID has the bytes [d], in order. *)
Fixpoint providers_bss (d : list Z) (wiphy : Z) (l : list hostapd_bss_config) (j : Z) : list (Z * Z) :=
  match l with
  | [] => []
  | b :: l => (if bool_decide (ssid (bss_ssid b) = d) then [(wiphy, j)] else []) ++
              providers_bss d wiphy l (j + 1)
  end.
Fixpoint providers (d : list Z) (l : list hostapd_iface) (i : Z) : list (Z * Z) :=
  match l with [] => [] | x :: l => providers_bss d i (bss (conf x)) 0 ++ providers d l (i + 1) end.

Lemma named_escaped s : ssid_ok s = true → named (mk_str (escaped s)) = true.
Proof.
  unfold ssid_ok, named, SSID_MAX_LEN. intros H. split_andb; [done|]. to_prop.
  apply cstr_ok_mk.
  - apply Is_true_true, forallb_True, Forall_forall. intros c Hc.
    pose proof (escaped_printable (length (ssid s)) 0 (ssid s) H0) as Hp. rewrite Forall_forall in Hp.
    specialize (Hp c Hc). unfold is_char. simpl in Hp. apply Is_true_true. lia.
  - pose proof (length_escaped (length (ssid s)) 0 (ssid s)). unfold escaped. lia.
Qed.

Lemma text_escaped s : ssid_ok s = true → text (mk_str (escaped s)) = escaped s.
Proof.
  intros H. pose proof (chars_named _ (named_escaped s H)) as E.
  unfold ssid_ok in H. split_andb. unfold escaped in *. rewrite chars_of_mk in E; [congruence|].
  by apply escaped_chars.
Qed.

Lemma streq_escaped s t : ssid_ok s = true → ssid_ok t = true →
  streq (mk_str (escaped s)) (mk_str (escaped t)) = Ok (bool_decide (ssid t = ssid s)).
Proof.
  intros Hs Ht. rewrite streq_spec by by apply named_escaped. rewrite !text_escaped by done.
  f_equal. apply bool_decide_ext. unfold escaped. split; [|by intros ->].
  intros E. apply (f_equal unescape) in E. unfold ssid_ok in *. split_andb.
  by rewrite !unescape_escaped in E by done.
Qed.

Lemma ssid_bss_spec `{Allocator} s wiphy l j acc : ssid_ok s = true →
  forallb (λ b, ssid_ok (bss_ssid b)) l = true →
  ssid_bss (mk_str (escaped s)) wiphy l j acc = Ok (reverse (providers_bss (ssid s) wiphy l j) ++ acc).
Proof.
  intros Hs. revert j acc. induction l as [|b l IH]; intros j acc Hl; [done|].
  cbn [forallb] in Hl. split_andb. cbn [ssid_bss providers_bss]. rewrite ssid_escaped_Ok by done.
  cbn. rewrite streq_escaped by done. cbn. rewrite IH by done. f_equal.
  rewrite reverse_app, <- app_assoc. f_equal. by case_bool_decide.
Qed.

Lemma ssid_wiphys_spec `{Allocator} s pre l acc : ssid_ok s = true →
  forallb (λ i, forallb (λ b, ssid_ok (bss_ssid b)) (bss (conf i))) l = true →
  ssid_wiphys (mk_str (escaped s)) (pre ++ l) (length l) (length pre) acc =
    Ok (reverse (providers (ssid s) l (Z.of_nat (length pre))) ++ acc).
Proof.
  intros Hs. revert pre acc. induction l as [|x l IH]; intros pre acc Hl; [done|].
  cbn [forallb] in Hl. split_andb. cbn [ssid_wiphys length providers].
  rewrite (res_bind_Ok _ _ x) by (apply index_Ok, list_lookup_middle; done).
  rewrite ssid_bss_spec by done. cbn.
  specialize (IH (pre ++ [x]) (reverse (providers_bss (ssid s) (Z.of_nat (length pre)) (bss (conf x)) 0) ++ acc)).
  rewrite length_app, <- app_assoc in IH. simpl in IH.
  replace (length pre + 1)%nat with (S (length pre)) in IH by lia.
  rewrite IH by done. f_equal. rewrite reverse_app, <- app_assoc. do 2 f_equal. f_equal. lia.
Qed.

Lemma elem_of_providers_bss d wiphy l j p : 0 ≤ j →
  p ∈ providers_bss d wiphy l j ↔
  p.1 = wiphy ∧ j ≤ p.2 ∧ ∃ b, l !! Z.to_nat (p.2 - j) = Some b ∧ ssid (bss_ssid b) = d.
Proof.
  revert j. induction l as [|b l IH]; intros j Hj; cbn [providers_bss].
  { rewrite elem_of_nil. split; [done|]. by intros (_ & _ & b & [=] & _). }
  rewrite elem_of_app, IH by lia. destruct p as [w k]. cbn [fst snd]. split.
  - intros [H|(-> & ? & c & Hc & Hd)].
    + case_bool_decide; [|by apply elem_of_nil in H]. apply list_elem_of_singleton in H as [= -> ->].
      split_and!; [done|lia|]. exists b. by replace (Z.to_nat (j - j)) with O by lia.
    + split_and!; [done|lia|]. exists c.
      by replace (Z.to_nat (k - j)) with (S (Z.to_nat (k - (j + 1)))) by lia.
  - intros (-> & ? & c & Hc & Hd). destruct (decide (k = j)) as [->|].
    + left. replace (Z.to_nat (j - j)) with O in Hc by lia. injection Hc as ->.
      rewrite bool_decide_true by done. by apply list_elem_of_singleton.
    + right. split_and!; [done|lia|]. exists c. split; [|done].
      by replace (Z.to_nat (k - j)) with (S (Z.to_nat (k - (j + 1)))) in Hc by lia.
Qed.

Lemma elem_of_providers d l i p : 0 ≤ i →
  p ∈ providers d l i ↔ i ≤ p.1 ∧ 0 ≤ p.2 ∧ ∃ x b, l !! Z.to_nat (p.1 - i) = Some x ∧
    bss (conf x) !! Z.to_nat p.2 = Some b ∧ ssid (bss_ssid b) = d.
Proof.
  revert i. induction l as [|x l IH]; intros i Hi; cbn [providers].
  { rewrite elem_of_nil. split; [done|]. by intros (_ & _ & x & b & [=] & _). }
  rewrite elem_of_app, IH, elem_of_providers_bss by lia. destruct p as [w k]. cbn [fst snd].
  rewrite Z.sub_0_r. split.
  - intros [(-> & ? & b & Hb & Hd)|(? & ? & y & b & Hy & Hb & Hd)]; (split_and!; [lia|lia|]).
    + exists x, b. by replace (Z.to_nat (i - i)) with O by lia.
    + exists y, b. by replace (Z.to_nat (w - i)) with (S (Z.to_nat (w - (i + 1)))) by lia.
  - intros (? & ? & y & b & Hy & Hb & Hd). destruct (decide (w = i)) as [->|].
    + left. replace (Z.to_nat (i - i)) with O in Hy by lia. injection Hy as ->. eauto.
    + right. split_and!; [lia|done|]. exists y, b. split; [|done].
      by replace (Z.to_nat (w - i)) with (S (Z.to_nat (w - (i + 1)))) in Hy by lia.
Qed.

(** Asked for the escaped text of an SSID, [get_ssid_config] returns
    exactly the pairs (interface, BSS) that provide an SSID with the same bytes. *)
Theorem get_ssid_config_exact `{Allocator} (h : hapd_interfaces) (s : hostapd_ssid) :
  had_ok h = true → ssids_ok h = true → ssid_ok s = true →
  ∃ l, get_ssid_config (Some h) (mk_str (escaped s)) = Ok l ∧
    ∀ w k, (w, k) ∈ l ↔ 0 ≤ w ∧ 0 ≤ k ∧ ∃ x b, ifaces h !! Z.to_nat w = Some x ∧
      bss (conf x) !! Z.to_nat k = Some b ∧ ssid (bss_ssid b) = ssid s.
Proof.
  intros Hh Hb Hs. exists (reverse (providers (ssid s) (ifaces h) 0)). split.
  - unfold get_ssid_config, had_ok in *.
    replace (Z.to_nat (count h)) with (length (ifaces h)) by lia.
    rewrite (ssid_wiphys_spec s [] (ifaces h) []) by done. by rewrite app_nil_r.
  - intros w k. rewrite elem_of_reverse, elem_of_providers by lia. cbn [fst snd].
    by rewrite Z.sub_0_r.
Qed.

Lemma get_ssid_config_exact_witness :
  ∃ l, @get_ssid_config exact_alloc (Some sample_had) (mk_str (escaped (Ssid 3 (lit_bytes " a\")))) = Ok l ∧
    (1, 0) ∈ l.
Proof.
  destruct (@get_ssid_config_exact exact_alloc sample_had (Ssid 3 (lit_bytes " a\")) eq_refl eq_refl eq_refl)
    as (l & E & H). exists l. split; [exact E|]. apply H.
  split; [lia|]. split; [lia|]. eexists _, _. split; [reflexivity|]. split; reflexivity.
Defined.

(** ** Connected stations *)

Lemma sta_loop_overflow room addr l macs : sta_loop room (addr :: l) macs = Err HeapOverflow.
Proof. revert macs. induction room as [|room IH]; intros macs; simpl; auto. Qed.

(** [return_connected_sta] works for a BSS without stations only: its loop
    never moves to the next station, and with one station or more it writes
    past the array of addresses, whatever the allocator. *)
Theorem connected_sta_overflow `{Allocator} (h : hapd_interfaces) (i : hostapd_iface)
    (b : hostapd_data) (wiphy bss_id : Z) :
  had_ok h = true → 0 ≤ wiphy → ifaces h !! Z.to_nat wiphy = Some i →
  0 ≤ bss_id → if_bss i !! Z.to_nat bss_id = Some b → num_sta b = Z.of_nat (length (sta_list b)) →
  return_connected_sta (Some h) wiphy bss_id =
    if bool_decide (sta_list b = []) then Ok (Some (StaInfoList 0 [])) else Err HeapOverflow.
Proof.
  intros Hh Hw Hi Hb Hj Hn. unfold return_connected_sta. rewrite (with_iface_in _ _ _ _ i) by done.
  pose proof (lookup_lt_Some _ _ _ Hj).
  replace ((bss_id <? 0) || (Z.of_nat (length (if_bss i)) <? bss_id)) with false by lia. run (index_Ok _ _ _ Hj). rewrite Hn.
  destruct (sta_list b) as [|a l]; [done|]. rewrite bool_decide_false by done.
  replace (0 <? Z.of_nat (length (a :: l))) with true by done. by rewrite sta_loop_overflow.
Qed.

Lemma connected_sta_overflow_witness :
  @return_connected_sta glibc_alloc (Some sample_had) 0 0 = Err HeapOverflow.
Proof.
  apply (@connected_sta_overflow glibc_alloc sample_had
    (sample_iface "wlan0" 1 2412 (lit_bytes "winet") [Chan 1 2412 20; Chan 6 2437 20])
    (HData [2; 0; 0; 0; 0; 255] 1 [[2; 0; 0; 0; 0; 7]])); (reflexivity || lia).
Defined.

(** ** Channels and frequencies *)

(** The channel table of an interface: numbers and frequencies are positive
    and no two entries share either. *)
Definition table_ok (m : list hostapd_channel_data) : Prop :=
  NoDup (chan <$> m) ∧ NoDup (freq <$> m) ∧ Forall (λ c, 0 < chan c ∧ 0 < freq c) m.

Lemma find_unique {A} (key : A → Z) l c : NoDup (key <$> l) → c ∈ l →
  List.find (λ x, key x =? key c) l = Some c.
Proof.
  induction l as [|x l IH]; intros Hd Hc; [by apply elem_of_nil in Hc|]. simpl in *.
  apply NoDup_cons in Hd as [Hx Hd]. apply elem_of_cons in Hc as [<-|Hc].
  { by rewrite Z.eqb_refl. }
  destruct (Z.eqb_spec (key x) (key c)) as [E|E]; [|auto].
  destruct Hx. rewrite E. by apply list_elem_of_fmap_2.
Qed.

Section tables.
Context (h : hapd_interfaces) (i : hostapd_iface) (m : list hostapd_channel_data) (wiphy : Z).
Hypotheses (Hh : had_ok h = true) (Hw : 0 ≤ wiphy) (Hi : ifaces h !! Z.to_nat wiphy = Some i)
  (Hm : current_mode i = Some m).

Lemma channels_available : get_number_of_channels_available (Some h) wiphy = Ok (Z.of_nat (length m)).
Proof.
  unfold get_number_of_channels_available. rewrite (with_iface_in _ _ _ _ i) by done. by rewrite Hm.
Qed.

Lemma channels_of_Ok : channels_of (Some h) wiphy = Ok m.
Proof. unfold channels_of. cbn. unfold index. rewrite Hi. cbn. by rewrite Hm. Qed.

Lemma available c : c ∈ m → (Z.of_nat (length m) <=? 0) = false.
Proof. intros [k Hk]%list_elem_of_lookup_1. apply lookup_lt_Some in Hk. lia. Qed.

Lemma convert_chan_Ok c : table_ok m → c ∈ m → convert_chan_to_freq (Some h) wiphy (chan c) = Ok (freq c).
Proof.
  intros (Hc & _ & _) Hin. unfold convert_chan_to_freq. run channels_available.
  rewrite (available _ Hin). run channels_of_Ok.
  by rewrite (find_unique chan) by done.
Qed.

Lemma convert_freq_Ok c : table_ok m → c ∈ m → convert_freq_to_chan (Some h) wiphy (freq c) = Ok (chan c).
Proof.
  intros (_ & Hf & _) Hin. unfold convert_freq_to_chan. run channels_available.
  rewrite (available _ Hin). run channels_of_Ok.
  by rewrite (find_unique freq) by done.
Qed.
End tables.

Section switching.
Context {W : Type} `{Hostapd W}.
Context (h : hapd_interfaces) (i : hostapd_iface) (m : list hostapd_channel_data) (wiphy : Z).
Hypotheses (Hh : had_ok h = true) (Hw : 0 ≤ wiphy) (Hi : ifaces h !! Z.to_nat wiphy = Some i)
  (Hm : current_mode i = Some m) (Ht : table_ok m).

Lemma in_guard : (wiphy <? 0) || (count h <? wiphy) = false.
Proof. pose proof (lookup_lt_Some _ _ _ Hi). unfold had_ok in Hh. lia. Qed.

(** Whatever the reload does, it leaves the channel of the configuration. *)
Lemma reload_channel cb x (w : W) r x' w' :
  hostapd_reload_config cb x w = Ok ((r, x'), w') → channel (conf x') = channel (conf x).
Proof.
  unfold hostapd_reload_config, mbind, ST_bind, lift, mret, ST_ret.
  repeat (case_match; try done); intros [= <- <- <-]; done.
Qed.

Lemma put_iface_lookup x : ifaces (put_iface h wiphy x) !! Z.to_nat wiphy = Some x.
Proof. simpl. apply list_lookup_insert_eq. by eapply lookup_lt_Some. Qed.

Lemma put_iface_ok x : had_ok (put_iface h wiphy x) = true.
Proof. unfold had_ok in *. simpl. by rewrite length_insert. Qed.

Lemma set_channel_frequency c w : c ∈ m →
  set_current_channel wiphy (chan c) (Some h, w) = set_current_frequency wiphy (freq c) (Some h, w).
Proof.
  intros Hc. unfold set_current_channel. rewrite in_guard.
  run (convert_chan_Ok h i m wiphy Hh Hw Hi Hm c Ht Hc).
  destruct Ht as (_ & _ & Hpos). rewrite Forall_forall in Hpos. specialize (Hpos c Hc). simpl in Hpos.
  by replace (freq c <? 0) with false by lia.
Qed.

Lemma set_frequency_fallback c w ret w1 r x w2 b l : c ∈ m → if_bss i = b :: l →
  hostapd_switch_channel i (freq c) w = Ok (ret, w1) → ret < 0 →
  hostapd_reload_config (has_read_cb h) (set_conf i (set_channel (conf i) (chan c))) w1 =
    Ok ((r, x), w2) →
  set_current_frequency wiphy (freq c) (Some h, w) = Ok (r, (Some (put_iface h wiphy x), w2)).
Proof.
  intros Hc Hb Hs Hret Hr. unfold set_current_frequency. rewrite in_guard.
  run (index_Ok _ _ _ Hi). rewrite (res_bind_Ok _ _ b) by by rewrite Hb. run Hs. cbn beta iota.
  replace (0 <=? ret) with false by lia.
  run (convert_freq_Ok h i m wiphy Hh Hw Hi Hm c Ht Hc).
  destruct Ht as (_ & _ & Hpos). rewrite Forall_forall in Hpos. specialize (Hpos c Hc). simpl in Hpos.
  replace (chan c <? 0) with false by lia. by rewrite Hr.
Qed.

(** Setting a channel of the interface's table either announces a switch
    to the channel's frequency, which hostapd accepted, and leaves the
    configuration alone; or, refused, it goes through the configuration: after
    the reload -- also one that fails -- the interface reports the new channel,
    and no other interface has changed. *)
Theorem set_current_channel_recorded (c : hostapd_channel_data) (w w1 : W) (ret : Z)
    (b : hostapd_data) (l : list hostapd_data) :
  c ∈ m → if_bss i = b :: l → hostapd_switch_channel i (freq c) w = Ok (ret, w1) →
  (0 ≤ ret → set_current_channel wiphy (chan c) (Some h, w) = Ok (ret, (Some h, w1))) ∧
  (∀ r x w2, ret < 0 →
    hostapd_reload_config (has_read_cb h) (set_conf i (set_channel (conf i) (chan c))) w1 =
      Ok ((r, x), w2) →
    set_current_channel wiphy (chan c) (Some h, w) = Ok (r, (Some (put_iface h wiphy x), w2)) ∧
    get_current_channel (Some (put_iface h wiphy x)) wiphy = Ok (to_u 8 (chan c)) ∧
    ∀ j, j ≠ Z.to_nat wiphy → ifaces (put_iface h wiphy x) !! j = ifaces h !! j).
Proof.
  intros Hc Hb Hs. rewrite set_channel_frequency by done. split.
  - intros Hret. unfold set_current_frequency. rewrite in_guard. run (index_Ok _ _ _ Hi).
    rewrite (res_bind_Ok _ _ b) by by rewrite Hb. run Hs. cbn beta iota.
    by replace (0 <=? ret) with true by lia.
  - intros r x w2 Hret Hr. split_and!; [by eapply set_frequency_fallback| |].
    + unfold get_current_channel. rewrite (with_iface_in _ _ _ _ x);
        [|apply put_iface_ok|done|apply put_iface_lookup].
      by rewrite (reload_channel _ _ _ _ _ _ Hr).
    + intros j Hj. simpl. by rewrite list_lookup_insert_ne.
Qed.
End switching.

(** A hostapd whose driver knows no channel switch. *)
Definition no_csa : Hostapd unit := {|
  hostapd_switch_channel _ _ := mret (-1);
  config_read_cb _ := mret None;
  hostapd_clear_bss b := mret b;
  hostapd_reload_bss _ := mret tt;
  trigger_scan_intf _ := mret 0;
  hostapd_driver_get_scan_results _ := mret None
|}.

Lemma set_current_channel_recorded_witness : ∃ h',
  @set_current_channel unit no_csa 0 6 (Some sample_had, tt) = Ok (0, (Some h', tt)) ∧
  get_current_channel (Some h') 0 = Ok 6.
Proof.
  eexists. assert (Ht : table_ok [Chan 1 2412 20; Chan 6 2437 20]).
  { split_and!; [apply (bool_decide_unpack _); reflexivity..|]. repeat constructor. }
  destruct (@set_current_channel_recorded unit no_csa sample_had
    (sample_iface "wlan0" 1 2412 (lit_bytes "winet") [Chan 1 2412 20; Chan 6 2437 20])
    [Chan 1 2412 20; Chan 6 2437 20] 0 eq_refl (Z.le_refl 0) eq_refl eq_refl Ht
    (Chan 6 2437 20) tt tt (-1) (HData [2; 0; 0; 0; 0; 255] 1 [[2; 0; 0; 0; 0; 7]]) [])
    as [_ E]; [right; left|reflexivity|reflexivity|].
  destruct (E 0 _ tt (ltac:(lia)) eq_refl) as (E1 & E2 & _). split; [exact E1|exact E2].
Defined.
