(* ===== verification/MsgCommon.v ===== *)
(** The constants and enumerations of [messaging/msg_common.h]. *)
From stdpp Require Import prelude list strings.
From S2P Require Import Prelude CMem.

Definition ETHANOL_VERSION : charp := lit "1.0.3".
Definition SSL_BUFFER_SIZE : Z := 2048000.

(** [enum Enum_msg_type]; the enumerators are numbered from 0 in this order. *)
Inductive Enum_msg_type :=
| MSG_HELLO_TYPE | MSG_BYE_TYPE | MSG_ERR_TYPE | MSG_PING | MSG_PONG
| MSG_GET_MAC | MSG_GET_ONE_INTF | MSG_GET_ALL_INTF
| MSG_GET_AP_IN_RANGE_TYPE | MSG_ENABLE_ASSOC_MSG | MSG_ASSOCIATION
| MSG_DISASSOCIATION | MSG_REASSOCIATION | MSG_AUTHORIZATION
| MSG_USER_DISCONNECTING | MSG_USER_CONNECTING | MSG_QUEUE_CREATE
| MSG_QUEUE_CLEAR | MSG_QUEUE_DESTROY | MSG_QUEUE_DESTROY_ALL
| MSG_QUEUE_CONFIG | MSG_SHOW_PORTS | MSG_INFORM_BEACON
| MSG_REQUEST_BEACON | MSG_GET_PREAMBLE | MSG_SET_PREAMBLE
| MSG_GET_QUEUEDISCIPLINE | MSG_SET_QUEUEDISCIPLINE
| MSG_GET_SUPPORTEDINTERFACE | MSG_GET_INTERFERENCEMAP | MSG_GET_AP_SSID
| MSG_GET_AP_BROADCASTSSID | MSG_SET_AP_BROADCASTSSID | MSG_GET_AP_CAC
| MSG_SET_AP_CAC | MSG_GET_AP_FRAMEBURSTENABLED
| MSG_SET_AP_FRAMEBURSTENABLED | MSG_GET_AP_GUARDINTERVAL
| MSG_SET_AP_GUARDINTERVAL | MSG_GET_AP_DTIMINTERVAL
| MSG_SET_AP_DTIMINTERVAL | MSG_GET_AP_CTSPROTECTION_ENABLED
| MSG_SET_AP_CTSPROTECTION_ENABLED | MSG_GET_AP_RTSTHRESHOLD
| MSG_SET_AP_RTSTHRESHOLD | MSG_SET_AP_SSID | MSG_GET_AP_ENABLED
| MSG_SET_AP_ENABLED | MSG_VAP_CREATE | MSG_SET_CONF_SSID_RADIO
| MSG_DISCONNECT_USER | MSG_DEAUTHENTICATE_USER | MSG_PROGRAM_PROBE_REQUEST
| MSG_PROBERECEIVED | MSG_MGMTFRAME_REGISTER | MSG_MGMTFRAME_UNREGISTER
| MSG_MGMTFRAME | MSG_REQUEST_BEGIN_ASSOCIATION
| MSG_REQUEST_STATION_REASSOCIATE | MSG_GET_ROUTES | MSG_GET_VALIDCHANNELS
| MSG_SET_CURRENTCHANNEL | MSG_GET_CURRENTCHANNEL | MSG_GET_FREQUENCY
| MSG_SET_FREQUENCY | MSG_GET_BEACON_INTERVAL | MSG_SET_BEACON_INTERVAL
| MSG_GET_TX_BITRATES | MSG_SET_TX_BITRATES | MSG_GET_TX_BITRATE
| MSG_GET_POWERSAVEMODE | MSG_SET_POWERSAVEMODE
| MSG_GET_FRAGMENTATIONTHRESHOLD | MSG_SET_FRAGMENTATIONTHRESHOLD
| MSG_GET_CHANNELBANDWITDH | MSG_SET_CHANNELBANDWITDH | MSG_GET_CHANNELINFO
| MSG_WLAN_INFO | MSG_GET_RADIO_WLANS | MSG_GET_RADIO_LINKSTATISTICS
| MSG_GET_IPV4_ADDRESS | MSG_SET_IPV4_ADDRESS | MSG_GET_IPV6_ADDRESS
| MSG_SET_IPV6_ADDRESS | MSG_GET_802_11E_ENABLED
| MSG_GET_FASTBSSTRANSITION_COMPATIBLE | MSG_GET_BYTESRECEIVED
| MSG_GET_BYTESSENT | MSG_GET_PACKETSRECEIVED | MSG_GET_PACKETSSENT
| MSG_GET_PACKETSLOST | MSG_GET_JITTER | MSG_GET_DELAY | MSG_GET_TXPOWER
| MSG_SET_TXPOWER | MSG_GET_SNR | MSG_GET_QUALITY | MSG_GET_UPTIME
| MSG_GET_RETRIES | MSG_GET_FAILED | MSG_GET_APSINRANGE
| MSG_GET_BEACONINFO | MSG_GET_NOISEINFO | MSG_GET_LINKMEASUREMENT
| MSG_GET_STATISTICS | MSG_GET_LOCATION | MSG_TRIGGER_TRANSITION
| MSG_GET_CPU | MSG_GET_MEMORY | MSG_SCAN | MSG_GET_LINK_INFO
| MSG_SET_SNR_THRESHOLD | MSG_SET_SNR_INTERVAL | MSG_GET_ACS
| MSG_SET_SNR_THRESHOLD_REACHED | MSG_GET_STA_STATISTICS
| MSG_MEAN_STA_STATISTICS_GET | MSG_MEAN_STA_STATISTICS_SET_INTERFACE
| MSG_MEAN_STA_STATISTICS_REMOVE_INTERFACE
| MSG_MEAN_STA_STATISTICS_SET_ALPHA | MSG_MEAN_STA_STATISTICS_SET_TIME
| MSG_CHANGED_AP | MSG_TOS_CLEANALL | MSG_TOS_ADD | MSG_TOS_REPLACE
| MSG_SET_MTU | MSG_SET_TXQUEUELEN.

(** The [int] an enumerator is converted to. *)
Definition msg_code (t : Enum_msg_type) : Z :=
  match t with
  | MSG_HELLO_TYPE => 0 | MSG_BYE_TYPE => 1 | MSG_ERR_TYPE => 2
  | MSG_PING => 3 | MSG_PONG => 4 | MSG_GET_MAC => 5 | MSG_GET_ONE_INTF => 6
  | MSG_GET_ALL_INTF => 7 | MSG_GET_AP_IN_RANGE_TYPE => 8
  | MSG_ENABLE_ASSOC_MSG => 9 | MSG_ASSOCIATION => 10
  | MSG_DISASSOCIATION => 11 | MSG_REASSOCIATION => 12
  | MSG_AUTHORIZATION => 13 | MSG_USER_DISCONNECTING => 14
  | MSG_USER_CONNECTING => 15 | MSG_QUEUE_CREATE => 16
  | MSG_QUEUE_CLEAR => 17 | MSG_QUEUE_DESTROY => 18
  | MSG_QUEUE_DESTROY_ALL => 19 | MSG_QUEUE_CONFIG => 20
  | MSG_SHOW_PORTS => 21 | MSG_INFORM_BEACON => 22 | MSG_REQUEST_BEACON => 23
  | MSG_GET_PREAMBLE => 24 | MSG_SET_PREAMBLE => 25
  | MSG_GET_QUEUEDISCIPLINE => 26 | MSG_SET_QUEUEDISCIPLINE => 27
  | MSG_GET_SUPPORTEDINTERFACE => 28 | MSG_GET_INTERFERENCEMAP => 29
  | MSG_GET_AP_SSID => 30 | MSG_GET_AP_BROADCASTSSID => 31
  | MSG_SET_AP_BROADCASTSSID => 32 | MSG_GET_AP_CAC => 33
  | MSG_SET_AP_CAC => 34 | MSG_GET_AP_FRAMEBURSTENABLED => 35
  | MSG_SET_AP_FRAMEBURSTENABLED => 36 | MSG_GET_AP_GUARDINTERVAL => 37
  | MSG_SET_AP_GUARDINTERVAL => 38 | MSG_GET_AP_DTIMINTERVAL => 39
  | MSG_SET_AP_DTIMINTERVAL => 40 | MSG_GET_AP_CTSPROTECTION_ENABLED => 41
  | MSG_SET_AP_CTSPROTECTION_ENABLED => 42 | MSG_GET_AP_RTSTHRESHOLD => 43
  | MSG_SET_AP_RTSTHRESHOLD => 44 | MSG_SET_AP_SSID => 45
  | MSG_GET_AP_ENABLED => 46 | MSG_SET_AP_ENABLED => 47
  | MSG_VAP_CREATE => 48 | MSG_SET_CONF_SSID_RADIO => 49
  | MSG_DISCONNECT_USER => 50 | MSG_DEAUTHENTICATE_USER => 51
  | MSG_PROGRAM_PROBE_REQUEST => 52 | MSG_PROBERECEIVED => 53
  | MSG_MGMTFRAME_REGISTER => 54 | MSG_MGMTFRAME_UNREGISTER => 55
  | MSG_MGMTFRAME => 56 | MSG_REQUEST_BEGIN_ASSOCIATION => 57
  | MSG_REQUEST_STATION_REASSOCIATE => 58 | MSG_GET_ROUTES => 59
  | MSG_GET_VALIDCHANNELS => 60 | MSG_SET_CURRENTCHANNEL => 61
  | MSG_GET_CURRENTCHANNEL => 62 | MSG_GET_FREQUENCY => 63
  | MSG_SET_FREQUENCY => 64 | MSG_GET_BEACON_INTERVAL => 65
  | MSG_SET_BEACON_INTERVAL => 66 | MSG_GET_TX_BITRATES => 67
  | MSG_SET_TX_BITRATES => 68 | MSG_GET_TX_BITRATE => 69
  | MSG_GET_POWERSAVEMODE => 70 | MSG_SET_POWERSAVEMODE => 71
  | MSG_GET_FRAGMENTATIONTHRESHOLD => 72
  | MSG_SET_FRAGMENTATIONTHRESHOLD => 73 | MSG_GET_CHANNELBANDWITDH => 74
  | MSG_SET_CHANNELBANDWITDH => 75 | MSG_GET_CHANNELINFO => 76
  | MSG_WLAN_INFO => 77 | MSG_GET_RADIO_WLANS => 78
  | MSG_GET_RADIO_LINKSTATISTICS => 79 | MSG_GET_IPV4_ADDRESS => 80
  | MSG_SET_IPV4_ADDRESS => 81 | MSG_GET_IPV6_ADDRESS => 82
  | MSG_SET_IPV6_ADDRESS => 83 | MSG_GET_802_11E_ENABLED => 84
  | MSG_GET_FASTBSSTRANSITION_COMPATIBLE => 85 | MSG_GET_BYTESRECEIVED => 86
  | MSG_GET_BYTESSENT => 87 | MSG_GET_PACKETSRECEIVED => 88
  | MSG_GET_PACKETSSENT => 89 | MSG_GET_PACKETSLOST => 90
  | MSG_GET_JITTER => 91 | MSG_GET_DELAY => 92 | MSG_GET_TXPOWER => 93
  | MSG_SET_TXPOWER => 94 | MSG_GET_SNR => 95 | MSG_GET_QUALITY => 96
  | MSG_GET_UPTIME => 97 | MSG_GET_RETRIES => 98 | MSG_GET_FAILED => 99
  | MSG_GET_APSINRANGE => 100 | MSG_GET_BEACONINFO => 101
  | MSG_GET_NOISEINFO => 102 | MSG_GET_LINKMEASUREMENT => 103
  | MSG_GET_STATISTICS => 104 | MSG_GET_LOCATION => 105
  | MSG_TRIGGER_TRANSITION => 106 | MSG_GET_CPU => 107
  | MSG_GET_MEMORY => 108 | MSG_SCAN => 109 | MSG_GET_LINK_INFO => 110
  | MSG_SET_SNR_THRESHOLD => 111 | MSG_SET_SNR_INTERVAL => 112
  | MSG_GET_ACS => 113 | MSG_SET_SNR_THRESHOLD_REACHED => 114
  | MSG_GET_STA_STATISTICS => 115 | MSG_MEAN_STA_STATISTICS_GET => 116
  | MSG_MEAN_STA_STATISTICS_SET_INTERFACE => 117
  | MSG_MEAN_STA_STATISTICS_REMOVE_INTERFACE => 118
  | MSG_MEAN_STA_STATISTICS_SET_ALPHA => 119
  | MSG_MEAN_STA_STATISTICS_SET_TIME => 120 | MSG_CHANGED_AP => 121
  | MSG_TOS_CLEANALL => 122 | MSG_TOS_ADD => 123 | MSG_TOS_REPLACE => 124
  | MSG_SET_MTU => 125 | MSG_SET_TXQUEUELEN => 126
  end.
Coercion msg_code : Enum_msg_type >-> Z.

(** The enumerators in declaration order. *)
Definition all_msg_types : list Enum_msg_type :=
  [ MSG_HELLO_TYPE; MSG_BYE_TYPE; MSG_ERR_TYPE; MSG_PING; MSG_PONG;
    MSG_GET_MAC; MSG_GET_ONE_INTF; MSG_GET_ALL_INTF;
    MSG_GET_AP_IN_RANGE_TYPE; MSG_ENABLE_ASSOC_MSG; MSG_ASSOCIATION;
    MSG_DISASSOCIATION; MSG_REASSOCIATION; MSG_AUTHORIZATION;
    MSG_USER_DISCONNECTING; MSG_USER_CONNECTING; MSG_QUEUE_CREATE;
    MSG_QUEUE_CLEAR; MSG_QUEUE_DESTROY; MSG_QUEUE_DESTROY_ALL;
    MSG_QUEUE_CONFIG; MSG_SHOW_PORTS; MSG_INFORM_BEACON; MSG_REQUEST_BEACON;
    MSG_GET_PREAMBLE; MSG_SET_PREAMBLE; MSG_GET_QUEUEDISCIPLINE;
    MSG_SET_QUEUEDISCIPLINE; MSG_GET_SUPPORTEDINTERFACE;
    MSG_GET_INTERFERENCEMAP; MSG_GET_AP_SSID; MSG_GET_AP_BROADCASTSSID;
    MSG_SET_AP_BROADCASTSSID; MSG_GET_AP_CAC; MSG_SET_AP_CAC;
    MSG_GET_AP_FRAMEBURSTENABLED; MSG_SET_AP_FRAMEBURSTENABLED;
    MSG_GET_AP_GUARDINTERVAL; MSG_SET_AP_GUARDINTERVAL;
    MSG_GET_AP_DTIMINTERVAL; MSG_SET_AP_DTIMINTERVAL;
    MSG_GET_AP_CTSPROTECTION_ENABLED; MSG_SET_AP_CTSPROTECTION_ENABLED;
    MSG_GET_AP_RTSTHRESHOLD; MSG_SET_AP_RTSTHRESHOLD; MSG_SET_AP_SSID;
    MSG_GET_AP_ENABLED; MSG_SET_AP_ENABLED; MSG_VAP_CREATE;
    MSG_SET_CONF_SSID_RADIO; MSG_DISCONNECT_USER; MSG_DEAUTHENTICATE_USER;
    MSG_PROGRAM_PROBE_REQUEST; MSG_PROBERECEIVED; MSG_MGMTFRAME_REGISTER;
    MSG_MGMTFRAME_UNREGISTER; MSG_MGMTFRAME; MSG_REQUEST_BEGIN_ASSOCIATION;
    MSG_REQUEST_STATION_REASSOCIATE; MSG_GET_ROUTES; MSG_GET_VALIDCHANNELS;
    MSG_SET_CURRENTCHANNEL; MSG_GET_CURRENTCHANNEL; MSG_GET_FREQUENCY;
    MSG_SET_FREQUENCY; MSG_GET_BEACON_INTERVAL; MSG_SET_BEACON_INTERVAL;
    MSG_GET_TX_BITRATES; MSG_SET_TX_BITRATES; MSG_GET_TX_BITRATE;
    MSG_GET_POWERSAVEMODE; MSG_SET_POWERSAVEMODE;
    MSG_GET_FRAGMENTATIONTHRESHOLD; MSG_SET_FRAGMENTATIONTHRESHOLD;
    MSG_GET_CHANNELBANDWITDH; MSG_SET_CHANNELBANDWITDH; MSG_GET_CHANNELINFO;
    MSG_WLAN_INFO; MSG_GET_RADIO_WLANS; MSG_GET_RADIO_LINKSTATISTICS;
    MSG_GET_IPV4_ADDRESS; MSG_SET_IPV4_ADDRESS; MSG_GET_IPV6_ADDRESS;
    MSG_SET_IPV6_ADDRESS; MSG_GET_802_11E_ENABLED;
    MSG_GET_FASTBSSTRANSITION_COMPATIBLE; MSG_GET_BYTESRECEIVED;
    MSG_GET_BYTESSENT; MSG_GET_PACKETSRECEIVED; MSG_GET_PACKETSSENT;
    MSG_GET_PACKETSLOST; MSG_GET_JITTER; MSG_GET_DELAY; MSG_GET_TXPOWER;
    MSG_SET_TXPOWER; MSG_GET_SNR; MSG_GET_QUALITY; MSG_GET_UPTIME;
    MSG_GET_RETRIES; MSG_GET_FAILED; MSG_GET_APSINRANGE; MSG_GET_BEACONINFO;
    MSG_GET_NOISEINFO; MSG_GET_LINKMEASUREMENT; MSG_GET_STATISTICS;
    MSG_GET_LOCATION; MSG_TRIGGER_TRANSITION; MSG_GET_CPU; MSG_GET_MEMORY;
    MSG_SCAN; MSG_GET_LINK_INFO; MSG_SET_SNR_THRESHOLD; MSG_SET_SNR_INTERVAL;
    MSG_GET_ACS; MSG_SET_SNR_THRESHOLD_REACHED; MSG_GET_STA_STATISTICS;
    MSG_MEAN_STA_STATISTICS_GET; MSG_MEAN_STA_STATISTICS_SET_INTERFACE;
    MSG_MEAN_STA_STATISTICS_REMOVE_INTERFACE;
    MSG_MEAN_STA_STATISTICS_SET_ALPHA; MSG_MEAN_STA_STATISTICS_SET_TIME;
    MSG_CHANGED_AP; MSG_TOS_CLEANALL; MSG_TOS_ADD; MSG_TOS_REPLACE;
    MSG_SET_MTU; MSG_SET_TXQUEUELEN ].

(** The conversion of an [int] to the enumeration; values outside it have no
    enumerator. *)
Definition msg_of_code (z : Z) : option Enum_msg_type :=
  if z <? 0 then None else all_msg_types !! Z.to_nat z.

(** [enum Enum_msg_error_type]. *)
Inductive Enum_msg_error_type :=
| ERROR_UNKNOWN | ERROR_VERSION_MISMATCH
| ERROR_PROCESS_NOT_IMPLEMENTED_FOR_THIS_MESSAGE | ERROR_MSG_WITHOUT_TYPE
| ERROR_FIELD_NOT_FOUND | ERROR_INTERFACE_NOT_FOUND.

Definition error_code (e : Enum_msg_error_type) : Z :=
  match e with
  | ERROR_UNKNOWN => 0 | ERROR_VERSION_MISMATCH => 1
  | ERROR_PROCESS_NOT_IMPLEMENTED_FOR_THIS_MESSAGE => 2
  | ERROR_MSG_WITHOUT_TYPE => 3 | ERROR_FIELD_NOT_FOUND => 4
  | ERROR_INTERFACE_NOT_FOUND => 5
  end.

(** [enum type_association]. *)
Inductive type_association :=
| ASSOCIATION | DISASSOCIATION | REASSOCIATION | AUTHORIZATION
| USER_DISCONNECTING | USER_CONNECTING.

Lemma msg_of_code_spec (t : Enum_msg_type) : msg_of_code t = Some t.
Proof. by destruct t. Qed.

Lemma msg_of_code_Some z t : msg_of_code z = Some t → z = msg_code t.
Proof.
  unfold msg_of_code. destruct (Z.ltb_spec z 0) as [|Hz]; [done|]. intros Ht.
  rewrite <- (Z2Nat.id z Hz). clear Hz. revert Ht.
  generalize (Z.to_nat z) as n. intros n.
  do 127 (destruct n as [|n]; [by intros [= <-]|]).
  done.
Qed.

Lemma msg_code_i32 t : i32_ok (msg_code t) = true.
Proof. by destruct t. Qed.
