(* ===== verification/BufferHandler.v ===== *)
(** [messaging/buffer_handler_fun.c]: the primitives that append values to a
    message buffer and read them back, and the message header.

    An encoder runs on the block it fills ([wbuf]): the bytes stored so far
    and the room left; the C code only moves its cursor forward.  A decoder
    runs on the bytes from its cursor on.  Writing past the room and reading
    past the bytes are undefined. *)
From stdpp Require Import prelude list list_numbers strings.
From S2P Require Import Prelude CMem MsgCommon.

(** ** Cursors *)

Record wbuf := WBuf { wb_done : list cell; wb_room : Z }.

Definition encoder := ST wbuf unit.
Definition decoder (A : Type) := ST (list cell) A.

(** [memcpy] of an object representation to the cursor, which then moves. *)
Definition store (cs : list cell) : encoder := λ b,
  if Z.of_nat (length cs) <=? wb_room b
  then Ok (tt, WBuf (wb_done b ++ cs) (wb_room b - Z.of_nat (length cs)))
  else Err HeapOverflow.

(** [memcpy] of [n] bytes from the cursor, which then moves; the bytes become
    an object that is used, so they must have been written. *)
Fixpoint load (n : nat) : decoder (list Z) := λ l,
  match n, l with
  | O, _ => Ok ([], l)
  | S _, [] => Err ReadOutOfBounds
  | S _, None :: _ => Err ReadIndeterminate
  | S n', Some c :: l' =>
      match load n' l' with Ok (r, l'') => Ok (c :: r, l'') | Err e => Err e end
  end.

(** [n] bytes that are copied but not interpreted. *)
Definition skip (n : nat) : decoder unit := λ l,
  if (n <=? length l)%nat then Ok (tt, drop n l) else Err ReadOutOfBounds.

(** ** Sizes *)

Definition strlen_ethanol (s : charp) : res Z :=
  n ← match s with None => Ok 0 | Some _ => strlen s end;
  n1 ← incr_int (to_i32 n);
  Ok (to_i32 (4 + n1)).

Definition bool_len_ethanol : Z := 4.

(** ** Encoders *)

Definition encode_byte (i : Z) : encoder := store (cells (le 1 i)).
Definition encode_int (i : Z) : encoder := store (cells (le 4 i)).
Definition encode_uint (i : Z) : encoder := store (cells (le 4 i)).
Definition encode_ushort (i : Z) : encoder := store (cells (le 2 i)).
Definition encode_short (i : Z) : encoder := store (cells (le 2 i)).
Definition encode_long (i : Z) : encoder := store (cells (le 8 i)).
Definition encode_ulong (i : Z) : encoder := store (cells (le 8 i)).
Definition encode_2long (i : Z) : encoder := store (cells (le 8 i)).
Definition encode_u2long (i : Z) : encoder := store (cells (le 8 i)).
Definition encode_bool (b : bool) : encoder := store (cells [if b then 1 else 0]).

(** Floating values are their IEEE bit patterns; a [long double] is an 80-bit
    pattern followed by six padding bytes. *)
Definition encode_float (f : Z) : encoder := store (cells (le 4 f)).
Definition encode_double (d : Z) : encoder := store (cells (le 8 d)).
Definition encode_longdouble (d : Z) : encoder :=
  store (cells (le 10 d) ++ replicate 6 None).

(** [strcpy] to the cursor: the characters and the NUL. *)
Definition encode_char (s : charp) : encoder :=
  n ← lift (match s with None => Ok 0 | Some _ => strlen s end);
  let s_len := to_i32 n in
  encode_int s_len;;
  if 0 <? s_len then cs ← lift (chars s); store (cells (cs ++ [0])) else mret tt.

Definition encode_char2 (s : charp) (s_len : Z) : encoder :=
  l ← lift (deref s);
  lift (ensure ((0 <=? s_len) && (s_len <=? Z.of_nat (length l))) ReadOutOfBounds);;
  store (take (Z.to_nat s_len) l).

Definition encode_header (m_type m_id m_size : Z) : encoder :=
  encode_int m_type;;
  encode_int m_id;;
  encode_char ETHANOL_VERSION;;
  encode_int m_size.

(** ** Decoders *)

Definition decode_byte : decoder Z := bs ← load 1; mret (of_le bs).
Definition decode_int : decoder Z := bs ← load 4; mret (to_i32 (of_le bs)).
Definition decode_uint : decoder Z := bs ← load 4; mret (of_le bs).
Definition decode_ushort : decoder Z := bs ← load 2; mret (of_le bs).
Definition decode_short : decoder Z := bs ← load 2; mret (to_s 16 (of_le bs)).
Definition decode_long : decoder Z := bs ← load 8; mret (to_i64 (of_le bs)).
Definition decode_ulong : decoder Z := bs ← load 8; mret (of_le bs).
Definition decode_2long : decoder Z := bs ← load 8; mret (to_i64 (of_le bs)).
Definition decode_u2long : decoder Z := bs ← load 8; mret (of_le bs).
Definition decode_bool : decoder bool :=
  bs ← load 1;
  if of_le bs =? 0 then mret false
  else if of_le bs =? 1 then mret true else fail TrapValue.
Definition decode_float : decoder Z := bs ← load 4; mret (of_le bs).
Definition decode_double : decoder Z := bs ← load 8; mret (of_le bs).
Definition decode_longdouble : decoder Z :=
  bs ← load 10; skip 6;; mret (of_le bs).

(** [strncpy] into a block of [s_len + 1] bytes (32-bit arithmetic); the
    cursor moves by that amount even when the string ends earlier. *)
Definition decode_char : decoder charp :=
  s_len ← decode_uint;
  if s_len =? 0 then mret None else
  let p_version_len := to_u32 (s_len + 1) in
  λ l, match strncpy l p_version_len with
       | Ok blk => Ok (Some blk, advance l p_version_len)
       | Err e => Err e
       end.

Definition decode_char2 (s_len : Z) : decoder charp := λ l,
  let p_version_len := to_u32 s_len in
  if p_version_len <=? Z.of_nat (length l)
  then Ok (Some (take (Z.to_nat p_version_len) l), advance l p_version_len)
  else Err ReadOutOfBounds.

(** The four fields every message structure starts with. *)
Record msg_header := Header {
  m_type : Z;
  m_id : Z;
  p_version : charp;
  m_size : Z
}.

Definition decode_header : decoder msg_header :=
  m_type ← decode_int;
  m_id ← decode_int;
  m_version ← decode_char;
  m_size ← decode_int;
  mret (Header m_type m_id m_version m_size).

Definition return_message_type (buf : list cell) : res Z := fst <$> decode_int buf.

Definition set_m_size (h : msg_header) (n : Z) : msg_header :=
  Header (m_type h) (m_id h) (p_version h) n.
Definition set_m_id (h : msg_header) (i : Z) : msg_header :=
  Header (m_type h) i (p_version h) (m_size h).

(** ** Running an encoder on a fresh block *)

(** [*buf = malloc( *buf_len ); aux = *buf; ...]: the [buf_len] bytes the
    caller gets.  A negative length makes [malloc] fail and the first store
    go through NULL. *)
Definition fill_buffer `{Allocator} (buf_len : Z) (w : encoder) : res (list cell) :=
  ensure (0 <=? buf_len) NullDeref;;
  '(_, b) ← w (WBuf [] (usable buf_len));
  Ok (take (Z.to_nat buf_len) (wb_done b ++ replicate (Z.to_nat buf_len) None)).

(** A decoder called on a received block. *)
Definition decode_buffer {A} (d : decoder A) (buf : list cell) : res A := fst <$> d buf.

(** ** The wire format *)

(** [writes w cs]: [w] stores exactly [cs] -- it appends them where there is
    room and overflows the block where there is not. *)
Definition writes (w : encoder) (cs : list cell) : Prop := ∀ b,
  0 ≤ wb_room b → w b = store cs b.

(** [reads d cs a]: [d] consumes exactly [cs] and produces [a], whatever
    follows. *)
Definition reads {A} (d : decoder A) (cs : list cell) (a : A) : Prop := ∀ rest,
  d (cs ++ rest) = Ok (a, rest).

(** A string on the wire: its length, then its characters and the NUL; the
    empty string and NULL are a bare zero length. *)
Definition wire_str (s : list Z) : list cell :=
  match s with
  | [] => cells (le 4 0)
  | _ => cells (le 4 (Z.of_nat (length s)) ++ s ++ [0])
  end.

Definition wire_header (t i n : Z) : list cell :=
  cells (le 4 t) ++ cells (le 4 i) ++ wire_str (lit_bytes "1.0.3") ++ cells (le 4 n).

Section combinators.
Context {A B : Type}.

Lemma store_fits cs b : Z.of_nat (length cs) ≤ wb_room b →
  store cs b = Ok (tt, WBuf (wb_done b ++ cs) (wb_room b - Z.of_nat (length cs))).
Proof. intros Hb. unfold store. by rewrite (proj2 (Z.leb_le _ _) Hb). Qed.

Lemma store_overflows cs b : wb_room b < Z.of_nat (length cs) → store cs b = Err HeapOverflow.
Proof. intros Hb. unfold store. by rewrite (proj2 (Z.leb_gt _ _) Hb). Qed.

Lemma writes_store cs : writes (store cs) cs.
Proof. by intros b Hb. Qed.

Lemma writes_nil : writes (mret tt) [].
Proof. intros [d r] Hr. rewrite store_fits by done. simpl. by rewrite app_nil_r, Z.sub_0_r. Qed.

Lemma writes_seq w1 w2 c1 c2 :
  writes w1 c1 → writes w2 c2 → writes (w1;; w2) (c1 ++ c2).
Proof.
  intros H1 H2 b Hb. unfold mbind, ST_bind. rewrite (H1 b Hb).
  destruct (Z.le_gt_cases (Z.of_nat (length c1)) (wb_room b)) as [L|L].
  - rewrite store_fits, H2 by (simpl; lia).
    destruct (Z.le_gt_cases (Z.of_nat (length (c1 ++ c2))) (wb_room b)) as [L'|L'];
      rewrite length_app in L'.
    + rewrite !store_fits by (rewrite ?length_app; simpl; lia). simpl.
      rewrite app_assoc, length_app. do 3 f_equal. lia.
    + by rewrite !store_overflows by (rewrite ?length_app; simpl; lia).
  - by rewrite !store_overflows by (rewrite ?length_app; lia).
Qed.

Lemma writes_lift (r : res A) a (k : A → encoder) cs :
  r = Ok a → writes (k a) cs → writes (lift r ≫= k) cs.
Proof. intros -> H b Hb. by apply H. Qed.

Lemma reads_ret (a : A) : reads (mret a) [] a.
Proof. by intros rest. Qed.

Lemma reads_bind (d : decoder A) (k : A → decoder B) c1 c2 a b :
  reads d c1 a → reads (k a) c2 b → reads (d ≫= k) (c1 ++ c2) b.
Proof.
  intros H1 H2 rest. rewrite <- app_assoc.
  rewrite (st_bind_Ok _ _ _ _ _ (H1 _)). apply H2.
Qed.

Lemma reads_map (d : decoder A) (f : A → B) c a :
  reads d c a → reads (x ← d; mret (f x)) c (f a).
Proof. intros H rest. by rewrite (st_bind_Ok _ _ _ _ _ (H _)). Qed.

(** The rest of a decoder that reads nothing more. *)
Lemma reads_finish (d : decoder A) (k : A → decoder B) c a b :
  reads d c a → (∀ rest, k a rest = Ok (b, rest)) → reads (d ≫= k) c b.
Proof. intros H Hk rest. by rewrite (st_bind_Ok _ _ _ _ _ (H _)). Qed.
End combinators.

Lemma reads_load bs : reads (load (length bs)) (cells bs) bs.
Proof.
  intros rest. induction bs as [|c bs IH]; [by destruct rest|].
  rewrite cells_cons. simpl. by rewrite IH.
Qed.

(** Reading back the [n]-byte representation of [z]. *)
Lemma reads_le {A} n (z : Z) (f : list Z → A) :
  reads (bs ← load n; mret (f bs)) (cells (le (Z.of_nat n) z)) (f (le (Z.of_nat n) z)).
Proof.
  apply reads_map.
  assert (n = length (le (Z.of_nat n) z)) as En.
  { apply Nat2Z.inj. by rewrite length_le by lia. }
  rewrite En at 1. apply reads_load.
Qed.

(** ** Primitive round trips *)

Section primitives.
Lemma reads_int z : i32_ok z = true → reads decode_int (cells (le 4 z)) z.
Proof.
  intros H. pose proof (reads_le 4 z (λ bs, to_i32 (of_le bs))) as R.
  cbv beta in R. rewrite of_le_le, to_s_to_u, to_s_id in R by (done || lia). exact R.
Qed.

Lemma reads_long z : i64_ok z = true → reads decode_long (cells (le 8 z)) z.
Proof.
  intros H. pose proof (reads_le 8 z (λ bs, to_i64 (of_le bs))) as R.
  cbv beta in R. rewrite of_le_le, to_s_to_u, to_s_id in R by (done || lia). exact R.
Qed.

Lemma reads_2long z : i64_ok z = true → reads decode_2long (cells (le 8 z)) z.
Proof. apply reads_long. Qed.

Lemma reads_short z : s_ok 16 z = true → reads decode_short (cells (le 2 z)) z.
Proof.
  intros H. pose proof (reads_le 2 z (λ bs, to_s 16 (of_le bs))) as R.
  cbv beta in R. rewrite of_le_le, to_s_to_u, to_s_id in R by (done || lia). exact R.
Qed.

Lemma reads_unsigned n z :
  u_ok (8 * Z.of_nat n) z = true →
  reads (bs ← load n; mret (of_le bs)) (cells (le (Z.of_nat n) z)) z.
Proof.
  intros H. pose proof (reads_le n z of_le) as R.
  rewrite of_le_le, to_u_id in R by (done || lia). exact R.
Qed.

Lemma reads_uint z : u32_ok z = true → reads decode_uint (cells (le 4 z)) z.
Proof. apply (reads_unsigned 4). Qed.
Lemma reads_ushort z : u_ok 16 z = true → reads decode_ushort (cells (le 2 z)) z.
Proof. apply (reads_unsigned 2). Qed.
Lemma reads_byte z : u_ok 8 z = true → reads decode_byte (cells (le 1 z)) z.
Proof. apply (reads_unsigned 1). Qed.
Lemma reads_u2long z : u_ok 64 z = true → reads decode_u2long (cells (le 8 z)) z.
Proof. apply (reads_unsigned 8). Qed.
Lemma reads_ulong z : u_ok 64 z = true → reads decode_ulong (cells (le 8 z)) z.
Proof. apply (reads_unsigned 8). Qed.
Lemma reads_float z : u32_ok z = true → reads decode_float (cells (le 4 z)) z.
Proof. apply (reads_unsigned 4). Qed.
Lemma reads_double z : u_ok 64 z = true → reads decode_double (cells (le 8 z)) z.
Proof. apply (reads_unsigned 8). Qed.

Lemma reads_longdouble z :
  u_ok 80 z = true → reads decode_longdouble (cells (le 10 z) ++ replicate 6 None) z.
Proof.
  intros H rest. rewrite <- app_assoc. unfold decode_longdouble.
  pose proof (reads_unsigned 10 z H) as R.
  unfold reads, mbind, ST_bind, mret, ST_ret in R. specialize (R (replicate 6 (@None Z) ++ rest)).
  unfold mbind, ST_bind. change (Z.of_nat 10) with 10 in R.
  destruct (load 10 _) as [[bs l]|]; [|done]. by injection R as -> ->.
Qed.

Lemma reads_bool (b : bool) : reads decode_bool (cells [if b then 1 else 0]) b.
Proof. intros rest. by destruct b. Qed.

Lemma writes_char p : cstr_ok p = true → writes (encode_char p) (wire_str (text p)).
Proof.
  destruct p as [l|]; intros Hok; unfold encode_char.
  - eapply writes_lift; [by apply strlen_ok|]. cbv zeta.
    destruct (text_ok _ Hok) as [Hc Hl]. rewrite to_s_id by (unfold s_ok; lia).
    destruct (cstr_ok_Some l Hok) as (s & junk & E & Ht & _). rewrite Ht in *.
    destruct s as [|c s]; simpl Z.of_nat.
    + rewrite <- (app_nil_r (wire_str [])). apply writes_seq; [apply writes_store|apply writes_nil].
    + unfold wire_str. rewrite cells_app. apply writes_seq; [apply writes_store|].
      simpl. eapply writes_lift; [exact E|]. apply writes_store.
  - rewrite <- (app_nil_r (wire_str _)). eapply writes_lift; [done|].
    apply writes_seq; [apply writes_store|apply writes_nil].
Qed.

Lemma reads_char s :
  forallb is_char s = true → Z.of_nat (length s) < 2 ^ 31 - 8 →
  reads decode_char (wire_str s) (norm s).
Proof.
  intros Hs Hl. unfold decode_char, wire_str, norm.
  destruct s as [|c s'] eqn:Es.
  - rewrite <- (app_nil_r (cells _)). eapply reads_bind; [by apply reads_uint|].
    apply reads_ret.
  - rewrite <- Es in *. rewrite cells_app.
    assert (0 < Z.of_nat (length s)) by (subst; simpl; lia).
    eapply reads_bind; [apply reads_uint; unfold u_ok; lia|].
    destruct (Z.eqb_spec (Z.of_nat (length s)) 0); [lia|]. cbv zeta.
    rewrite to_u_id by (unfold u_ok; lia). intros rest.
    rewrite cells_app, <- app_assoc. simpl.
    rewrite strncpy_full by (by apply is_char_nonzero).
    replace (Z.of_nat (length s) + 1) with (Z.of_nat (length (cells s ++ [Some 0])))
      by (rewrite length_app, length_cells; simpl; lia).
    pose proof (advance_app (cells s ++ [Some 0]) rest) as E.
    rewrite <- app_assoc in E. simpl in E. by rewrite E.
Qed.

Lemma reads_str p : cstr_ok p = true → reads decode_char (wire_str (text p)) (canon p).
Proof. intros [H1 H2]%text_ok. by apply reads_char. Qed.

Lemma writes_header t i n : writes (encode_header t i n) (wire_header t i n).
Proof.
  unfold encode_header, wire_header. repeat apply writes_seq; try apply writes_store.
  by apply (writes_char ETHANOL_VERSION).
Qed.

Lemma reads_header t i n :
  i32_ok t = true → i32_ok i = true → i32_ok n = true →
  reads decode_header (wire_header t i n) (Header t i ETHANOL_VERSION n).
Proof.
  intros. unfold decode_header, wire_header.
  eapply reads_bind; [by apply reads_int|]. eapply reads_bind; [by apply reads_int|].
  eapply reads_bind; [by apply reads_char|].
  rewrite <- (app_nil_r (cells _)). eapply reads_bind; [by apply reads_int|].
  apply reads_ret.
Qed.
End primitives.

(** ** Sizes of wire data *)

Lemma strlen_ethanol_ok p : cstr_ok p = true →
  strlen_ethanol p = Ok (5 + Z.of_nat (length (text p))).
Proof.
  intros Hok. destruct (text_ok p Hok) as [_ Hl]. unfold strlen_ethanol.
  assert (match p with None => Ok 0 | Some _ => strlen p end
          = Ok (Z.of_nat (length (text p)))) as ->.
  { destruct p; [by apply strlen_ok|done]. }
  simpl mbind. rewrite to_s_id by (unfold s_ok; lia). unfold incr_int.
  destruct (Z.eqb_spec (Z.of_nat (length (text p))) (2 ^ 31 - 1)); [lia|].
  simpl mbind. rewrite to_s_id by (unfold s_ok; lia). f_equal. lia.
Qed.

Lemma length_wire_str s :
  Z.of_nat (length (wire_str s)) ≤ 5 + Z.of_nat (length s).
Proof.
  unfold wire_str. destruct s as [|c s]; [done|].
  rewrite length_cells, !length_app, !Nat2Z.inj_add, length_le by lia. simpl. lia.
Qed.

Lemma length_wire_header t i n : length (wire_header t i n) = 22%nat.
Proof.
  apply Nat2Z.inj. unfold wire_header.
  rewrite !length_app, !length_cells, !Nat2Z.inj_add, !length_le by lia. done.
Qed.

(** ** Messages *)

(** The block an encoder fills holds what it wrote, then bytes that were
    never written. *)
Lemma fill_buffer_ok `{Allocator} n w cs :
  writes w cs → Z.of_nat (length cs) ≤ n →
  fill_buffer n w = Ok (cs ++ replicate (Z.to_nat n - length cs) None).
Proof.
  intros Hw Hn. unfold fill_buffer.
  rewrite (ensure_Ok _ _ (proj2 (Z.leb_le 0 n) ltac:(lia))). simpl mbind.
  pose proof (usable_ge n ltac:(lia)).
  rewrite Hw, store_fits by (simpl; lia). simpl. f_equal.
  rewrite take_app_ge by lia. by rewrite take_replicate, Nat.min_l by lia.
Qed.

(** ... and overflows when it is too small for what is written. *)
Lemma fill_buffer_overflow `{Allocator} n w cs : 0 ≤ n →
  writes w cs → usable n < Z.of_nat (length cs) → fill_buffer n w = Err HeapOverflow.
Proof.
  intros Hn Hw Hl. unfold fill_buffer.
  rewrite (ensure_Ok _ _ (proj2 (Z.leb_le 0 n) Hn)). simpl mbind.
  pose proof (usable_ge n Hn). by rewrite Hw, store_overflows by (simpl; lia).
Qed.

(** The header fields a sender must have filled for the size computation,
    which uses [p_version], to cover the version that is really sent. *)
Definition header_ok (h : msg_header) : bool :=
  i32_ok (m_type h) && i32_ok (m_id h) && cstr_ok (p_version h) &&
  (5 <=? Z.of_nat (length (text (p_version h)))).

(** The header a receiver rebuilds: [encode_header] sends [ETHANOL_VERSION]
    whatever the structure's [p_version] is. *)
Definition normal_header (h : msg_header) : msg_header :=
  Header (m_type h) (m_id h) ETHANOL_VERSION (m_size h).

(** What a message type offers to the code that exchanges it: its size,
    encode and decode functions, the header of a value, the update of its
    [m_size] field, the well-formed values, and the value a receiver rebuilds
    from a sent one (strings in normal form, the current version). *)
Class Message (T : Type) := {
  msg_head : T → msg_header;
  msg_resize : T → Z → T;
  msg_size : T → res Z;
  msg_encode : T → res (T * list cell);
  msg_decode : list cell → res T;
  msg_normal : T → T;
  msg_wf : T → bool
}.

(** The codec contract on one value: encoding succeeds inside its block, the
    block starts with the header and has the announced size, and decoding it
    rebuilds the message. *)
Definition codec_ok {T} `{Message T} (h : T) : Prop := ∃ n body,
  let buf := wire_header (m_type (msg_head h)) (m_id (msg_head h)) n ++ body in
  msg_size h = Ok n ∧ 0 ≤ n < 2 ^ 31 ∧
  msg_encode h = Ok (msg_resize h n, buf) ∧
  Z.of_nat (length buf) = n ∧
  msg_decode buf = Ok (msg_normal (msg_resize h n)).

(** The laws a message type must satisfy: the codec contract on well-formed
    values, and [m_size] being irrelevant to everything but the header. *)
Class MessageOk (T : Type) `{Message T} : Prop := {
  msg_codec : ∀ h : T, msg_wf h = true → codec_ok h;
  msg_wf_header : ∀ h : T, msg_wf h = true → header_ok (msg_head h) = true;
  msg_resize_wf : ∀ (h : T) n, msg_wf (msg_resize h n) = msg_wf h;
  msg_resize_head : ∀ (h : T) n, msg_head (msg_resize h n) = set_m_size (msg_head h) n;
  msg_resize_encode : ∀ (h : T) n, msg_encode (msg_resize h n) = msg_encode h;
  msg_resize_size : ∀ (h : T) n, msg_size (msg_resize h n) = msg_size h;
  msg_normal_head : ∀ h : T, msg_head (msg_normal h) = normal_header (msg_head h)
}.

(** The encoders all compute the size, allocate, store [m_size] and write. *)
Definition encode_with `{Allocator} {T} (size : T → res Z) (resize : T → Z → T)
    (body : T → encoder) (h : T) : res (T * list cell) :=
  n ← size h;
  let buf_len := to_i32 n in
  let h := resize h buf_len in
  buf ← fill_buffer buf_len (body h);
  Ok (h, buf).

(** One value's contract from the byte-level specifications of its parts. *)
Lemma codec_intro `{Allocator} {T} `{Message T} (h : T) body d n cs :
  msg_encode h = encode_with msg_size msg_resize body h →
  (∀ b, msg_decode b = decode_buffer d b) →
  msg_size h = Ok n → 0 ≤ n < 2 ^ 31 →
  writes (body (msg_resize h n)) (wire_header (m_type (msg_head h)) (m_id (msg_head h)) n ++ cs) →
  reads d (wire_header (m_type (msg_head h)) (m_id (msg_head h)) n ++ cs) (msg_normal (msg_resize h n)) →
  22 + Z.of_nat (length cs) ≤ n →
  codec_ok h.
Proof.
  intros He Hd Hs Hn Hw Hr Hl. unfold codec_ok. cbv zeta.
  exists n, (cs ++ replicate (Z.to_nat n - (22 + length cs)) None).
  rewrite app_assoc. split_and!; try done; try lia.
  - rewrite He. unfold encode_with. rewrite Hs. cbn [mbind res_bind]. cbv zeta.
    rewrite to_s_id by (unfold s_ok; lia).
    rewrite (fill_buffer_ok n _ _ Hw) by (rewrite length_app, length_wire_header; lia).
    by rewrite length_app, length_wire_header.
  - rewrite !length_app, length_replicate, length_wire_header. lia.
  - rewrite Hd. unfold decode_buffer. by rewrite Hr.
Qed.

Lemma header_type t i n body :
  i32_ok t = true → return_message_type (wire_header t i n ++ body) = Ok t.
Proof.
  intros Ht. unfold return_message_type, wire_header.
  rewrite <- !app_assoc. by rewrite (reads_int t Ht).
Qed.

Lemma header_decode t i n body :
  i32_ok t = true → i32_ok i = true → i32_ok n = true →
  decode_buffer decode_header (wire_header t i n ++ body) = Ok (Header t i ETHANOL_VERSION n).
Proof. intros. unfold decode_buffer. by rewrite reads_header. Qed.

(** ** Arrays *)

(** The loop that encodes the entries of an array of [length l] elements. *)
Lemma writes_for {A} (l1 l2 : list A) (f : A → encoder) (g : A → list cell) :
  (∀ x, x ∈ l2 → writes (f x) (g x)) →
  writes (for_from (length l2) (length l1) (λ i, e ← lift (index (l1 ++ l2) i); f e))
    (concat (g <$> l2)).
Proof.
  revert l1. induction l2 as [|x l2 IH]; intros l1 Hf; [apply writes_nil|].
  simpl. apply writes_seq.
  - eapply writes_lift; [|apply Hf; by left]. unfold index.
    by rewrite lookup_app_r, Nat.sub_diag by lia.
  - specialize (IH (l1 ++ [x])). rewrite <- app_assoc, length_app, Nat.add_1_r in IH.
    apply IH. intros y Hy. apply Hf. by right.
Qed.

Lemma writes_array {A} (l : list A) (f : A → encoder) (g : A → list cell) :
  (∀ x, x ∈ l → writes (f x) (g x)) →
  writes (for_upto (Z.of_nat (length l)) (λ i, e ← lift (index l i); f e)) (concat (g <$> l)).
Proof. unfold for_upto. rewrite Nat2Z.id. apply (writes_for []). Qed.

(** The loop that decodes them. *)
Lemma reads_collect {A B} (l : list A) (d : decoder B) (g : A → list cell) (v : A → B) :
  (∀ x, x ∈ l → reads d (g x) (v x)) →
  reads (collect (length l) d) (concat (g <$> l)) (v <$> l).
Proof.
  induction l as [|x l IH]; intros Hd; [apply reads_ret|]. simpl.
  eapply reads_bind; [apply Hd; by left|].
  apply (reads_map _ (cons (v x))). apply IH. intros y Hy. apply Hd. by right.
Qed.

(** The array behind a pointer [p] with a count: NULL or an array object. *)
Definition array_at {E} (p : option (list E)) (i : nat) : res E := l ← deref p; index l i.
Definition elems {E} (p : option (list E)) : list E := match p with Some l => l | None => [] end.

(** What the type of an array's entries offers to the loops over the array:
    the size, the encoder and the decoder of one entry, the well-formed
    entries, the entry a receiver rebuilds, its size and its bytes. *)
Class Entry (E : Type) := {
  e_size : E → res Z;
  e_encode : E → encoder;
  e_decode : decoder E;
  e_ok : E → bool;
  e_normal : E → E;
  e_len : E → Z;
  e_wire : E → list cell
}.
Class EntryOk (E : Type) `{Entry E} : Prop := {
  e_size_ok : ∀ e : E, e_ok e = true → e_size e = Ok (e_len e);
  e_writes : ∀ e : E, e_ok e = true → writes (e_encode e) (e_wire e);
  e_reads : ∀ e : E, e_ok e = true → reads e_decode (e_wire e) (e_normal e);
  e_wire_len : ∀ e : E, e_ok e = true → Z.of_nat (length (e_wire e)) ≤ e_len e
}.

Section arrays.
Context {E : Type} `{Entry E}.

(** [for (i = 0; i < n; i++) size += ...;] *)
Fixpoint array_size_from (p : option (list E)) (k i : nat) : res Z :=
  match k with
  | O => Ok 0
  | S k => e ← array_at p i; a ← e_size e; r ← array_size_from p k (S i); Ok (a + r)
  end.
Definition array_size (p : option (list E)) (n : Z) : res Z := array_size_from p (Z.to_nat n) 0.

Definition array_encode (p : option (list E)) (n : Z) : encoder :=
  for_upto n (λ i, e ← lift (array_at p i); e_encode e).

(** A count that is not positive makes the pointer NULL. *)
Definition array_decode (n : Z) : decoder (option (list E)) :=
  if n <=? 0 then mret None else l ← collect (Z.to_nat n) e_decode; mret (Some l).

Definition array_len (p : option (list E)) : Z := foldr (λ e k, e_len e + k) 0 (elems p).
Definition array_wire (p : option (list E)) : list cell := concat (e_wire <$> elems p).
Definition normal_array (p : option (list E)) : option (list E) :=
  match p with Some (e :: l) => Some (e_normal <$> e :: l) | _ => None end.

Definition array_wf (n : Z) (p : option (list E)) : bool :=
  (n =? Z.of_nat (length (elems p))) && (n <? 2 ^ 26) && forallb e_ok (elems p) &&
  (array_len p <? 2 ^ 29).

Context `{!EntryOk E}.

Lemma array_wf_facts n p : array_wf n p = true →
  n = Z.of_nat (length (elems p)) ∧ 0 ≤ n < 2 ^ 26 ∧ (∀ e, e ∈ elems p → e_ok e = true) ∧
  Z.of_nat (length (array_wire p)) ≤ array_len p < 2 ^ 29.
Proof.
  unfold array_wf. intros Hwf. split_andb. to_prop.
  assert (∀ e, e ∈ elems p → e_ok e = true) as Hok.
  { intros e He. rewrite forallb_forall in *. by apply H2, list_elem_of_In. }
  split_and!; [done|lia|lia|done| |done]. unfold array_wire, array_len. clear -Hok EntryOk0.
  induction (elems p) as [|e l IH]; [done|]. rewrite fmap_cons. cbn [concat foldr].
  rewrite length_app. pose proof (e_wire_len e (Hok e ltac:(by left))).
  enough (Z.of_nat (length (concat (e_wire <$> l))) ≤ foldr (λ e k, e_len e + k) 0 l) by lia.
  apply IH. intros x Hx. apply Hok. by right.
Qed.

Lemma array_wire_zero p : array_wf 0 p = true → array_wire p = [].
Proof. intros (H0 & _)%array_wf_facts. unfold array_wire. by destruct (elems p). Qed.

Lemma array_size_from_ok l1 l2 : (∀ e, e ∈ l2 → e_ok e = true) →
  array_size_from (Some (l1 ++ l2)) (length l2) (length l1) = Ok (foldr (λ e k, e_len e + k) 0 l2).
Proof.
  revert l1. induction l2 as [|e l2 IH]; intros l1 Hok; [done|]. cbn [length array_size_from foldr].
  rewrite (res_bind_Ok _ _ e) by (unfold array_at, index; cbn; by rewrite list_lookup_middle).
  rewrite (res_bind_Ok _ _ _ (e_size_ok e (Hok e ltac:(by left)))).
  specialize (IH (l1 ++ [e])). rewrite <- app_assoc, length_app, Nat.add_1_r in IH. cbn [app] in IH.
  rewrite (res_bind_Ok _ _ _ (IH ltac:(intros x Hx; apply Hok; by right))). done.
Qed.

Lemma array_size_ok n p : array_wf n p = true → array_size p n = Ok (array_len p).
Proof.
  intros (-> & _ & Hok & _)%array_wf_facts. unfold array_size. rewrite Nat2Z.id.
  destruct p as [l|]; [by apply (array_size_from_ok [] l)|done].
Qed.

Lemma writes_array_encode n p : array_wf n p = true → writes (array_encode p n) (array_wire p).
Proof.
  intros (-> & _ & Hok & _)%array_wf_facts. unfold array_encode.
  destruct p as [l|]; [|apply writes_nil].
  apply (writes_array l e_encode e_wire). intros e He. apply e_writes, Hok, He.
Qed.

Lemma reads_array n p : array_wf n p = true → reads (array_decode n) (array_wire p) (normal_array p).
Proof.
  intros (-> & _ & Hok & _)%array_wf_facts. unfold array_decode, array_wire.
  destruct p as [[|e l]|]; [apply reads_ret| |apply reads_ret]. rewrite Nat2Z.id.
  replace (_ <=? 0) with false by done. cbn [elems].
  apply (reads_map _ Some). apply reads_collect. intros x Hx. apply e_reads, Hok, Hx.
Qed.
End arrays.

(** A structure inside a message, with the same contract as the entry of an
    array. *)
Section parts.
Context {E : Type} `{Entry E}.

Definition part_size (e : E) : res Z := e_size e.
Definition part_encode (e : E) : encoder := e_encode e.
Definition part_decode : decoder E := e_decode.
Definition part_normal (e : E) : E := e_normal e.
Definition part_len (e : E) : Z := e_len e.
Definition part_wire (e : E) : list cell := e_wire e.
Definition part_wf (e : E) : bool := e_ok e && (part_len e <? 2 ^ 29).

Context `{!EntryOk E}.

Lemma part_wf_facts e : part_wf e = true →
  e_ok e = true ∧ Z.of_nat (length (part_wire e)) ≤ part_len e < 2 ^ 29.
Proof. unfold part_wf. intros Hwf. split_andb. to_prop. pose proof (e_wire_len e H0). auto. Qed.

Lemma part_size_ok e : part_wf e = true → part_size e = Ok (part_len e).
Proof. intros [Hok _]%part_wf_facts. by apply e_size_ok. Qed.

Lemma writes_part e : part_wf e = true → writes (part_encode e) (part_wire e).
Proof. intros [Hok _]%part_wf_facts. by apply e_writes. Qed.

Lemma reads_part e : part_wf e = true → reads part_decode (part_wire e) (part_normal e).
Proof. intros [Hok _]%part_wf_facts. by apply e_reads. Qed.
End parts.
#[global] Arguments part_size : simpl never.
#[global] Arguments part_encode : simpl never.
#[global] Arguments part_decode : simpl never.
#[global] Arguments part_normal : simpl never.
#[global] Arguments part_len : simpl never.
#[global] Arguments part_wire : simpl never.

(** Entries that all take the same room. *)
Class FixedEntry (E : Type) `{Entry E} (k : Z) : Prop := fixed_len : ∀ e : E, e_len e = k.

Lemma array_len_fixed {E} `{FixedEntry E k} p : array_len p = k * Z.of_nat (length (elems p)).
Proof.
  unfold array_len. induction (elems p) as [|e l IH]; [simpl; lia|]. cbn [foldr length].
  rewrite fixed_len, IH. lia.
Qed.

(** The size of such an array, computed from the count. *)
Lemma array_len_count {E} `{EntryOk E, !FixedEntry E k} n p :
  array_wf n p = true → array_len p = n * k.
Proof. intros (-> & _)%array_wf_facts. rewrite array_len_fixed. lia. Qed.

(** A fixed array of [n] bytes, written and read byte by byte. *)
Record bytes (n : nat) := Bytes { bytes_of : list Z }.
#[global] Arguments Bytes {n} _.
#[global] Arguments bytes_of {n} _.

Definition encode_bytes {n} (b : bytes n) : encoder :=
  for_upto (Z.of_nat n) (λ i, e ← lift (index (bytes_of b) i); encode_byte e).
Definition decode_bytes n : decoder (bytes n) := l ← collect n decode_byte; mret (Bytes l).

#[global] Instance bytes_entry n : Entry (bytes n) := {|
  e_size _ := Ok (Z.of_nat n);
  e_encode := encode_bytes;
  e_decode := decode_bytes n;
  e_ok b := (length (bytes_of b) =? n)%nat && forallb (u_ok 8) (bytes_of b);
  e_normal b := b;
  e_len _ := Z.of_nat n;
  e_wire b := concat ((λ x, cells (le 1 x)) <$> bytes_of b)
|}.

Lemma bytes_ok_facts {n} (b : bytes n) : e_ok b = true →
  n = length (bytes_of b) ∧ (∀ x, x ∈ bytes_of b → u_ok 8 x = true).
Proof.
  cbn [e_ok bytes_entry]. intros Hok. split_andb. to_prop.
  split; [by apply Nat.eqb_eq in H|]. intros x Hx. rewrite forallb_forall in H0.
  by apply H0, list_elem_of_In.
Qed.

#[global] Instance bytes_entry_ok n : EntryOk (bytes n).
Proof.
  split; intros b Hb; [done|..]; destruct (bytes_ok_facts b Hb) as [Hn Hx]; destruct b as [l];
    cbn [bytes_of] in *; subst n.
  - apply (writes_array l). intros x _. apply writes_store.
  - apply (reads_map _ Bytes).
    pose proof (reads_collect l decode_byte (λ x, cells (le 1 x)) id
      (λ x Hin, reads_byte x (Hx x Hin))) as R. by rewrite list_fmap_id in R.
  - cbn [e_wire e_len bytes_entry bytes_of]. clear. induction l as [|x l IH]; [done|].
    rewrite fmap_cons. cbn [concat length]. rewrite length_app, length_cells, Nat2Z.inj_add, length_le; lia.
Qed.

#[global] Instance bytes_fixed n : FixedEntry (bytes n) (Z.of_nat n).
Proof. done. Qed.

(** The strings of an array of strings. *)
#[global] Instance charp_entry : Entry charp := {|
  e_size := strlen_ethanol; e_encode := encode_char; e_decode := decode_char;
  e_ok := cstr_ok; e_normal := canon; e_len p := 5 + Z.of_nat (length (text p));
  e_wire p := wire_str (text p)
|}.

#[global] Instance charp_entry_ok : EntryOk charp.
Proof.
  split; intros p Hp; [by apply strlen_ethanol_ok|by apply writes_char|by apply reads_str|].
  cbn [e_wire e_len charp_entry]. pose proof (length_wire_str (text p)). lia.
Qed.

(** ** Automation for message codecs *)

(** The strings of a message are usable and short enough for its size to fit
    an [int]. *)
Definition strs_ok (ps : list charp) : bool :=
  forallb cstr_ok ps &&
  (foldr (λ p n, Z.of_nat (length (text p)) + n) 0 ps <? 2 ^ 30).

Lemma reads_eq {A} (d : decoder A) cs a b : reads d cs a → a = b → reads d cs b.
Proof. by intros ? <-. Qed.

(** Well-formedness hypotheses as separate facts. *)
Ltac array_facts :=
  repeat match goal with
  | H : array_wf ?n ?p = true |- _ =>
      lazymatch goal with
      | _ : Z.of_nat (length (array_wire p)) ≤ array_len p < _ |- _ => fail
      | _ => let F := fresh in
             pose proof (array_wf_facts n p H) as F; destruct F as (_ & ? & _ & ?)
      end
  | H : part_wf ?e = true |- _ =>
      lazymatch goal with
      | _ : Z.of_nat (length (part_wire e)) ≤ part_len e < _ |- _ => fail
      | _ => let F := fresh in pose proof (part_wf_facts e H) as F; destruct F as (_ & ?)
      end
  end.
Ltac wf_facts :=
  unfold header_ok, strs_ok in *; cbn [forallb foldr] in *; split_andb; to_prop; array_facts.

Ltac writes_leaf :=
  lazymatch goal with
  | |- writes (encode_header _ _ _) _ => apply writes_header
  | |- writes (encode_char _) _ => apply writes_char; assumption
  | |- writes (array_encode _ _) _ => apply writes_array_encode; assumption
  | |- writes (part_encode _) _ => apply writes_part; assumption
  | |- writes (mbind _ _) _ => fail
  | _ => apply writes_store
  end.
Ltac solve_writes := repeat first [ writes_leaf | eapply writes_seq ].

Ltac reads_leaf :=
  lazymatch goal with
  | |- reads decode_header _ _ => apply reads_header; in_range
  | |- reads decode_char _ _ => apply reads_str; assumption
  | |- reads decode_int _ _ => apply reads_int; in_range
  | |- reads decode_uint _ _ => apply reads_uint; in_range
  | |- reads decode_2long _ _ => apply reads_2long; in_range
  | |- reads decode_long _ _ => apply reads_long; in_range
  | |- reads decode_short _ _ => apply reads_short; in_range
  | |- reads decode_ushort _ _ => apply reads_ushort; in_range
  | |- reads decode_ulong _ _ => apply reads_ulong; in_range
  | |- reads decode_double _ _ => apply reads_double; in_range
  | |- reads (array_decode _) _ _ => apply reads_array; assumption
  | |- reads part_decode _ _ => apply reads_part; assumption
  | |- reads decode_byte _ _ => apply reads_byte; in_range
  | |- reads decode_u2long _ _ => apply reads_u2long; in_range
  | |- reads decode_bool _ _ => apply reads_bool
  | |- reads decode_float _ _ => apply reads_float; in_range
  | |- reads decode_longdouble _ _ => apply reads_longdouble; in_range
  end.
Ltac solve_reads :=
  cbv beta;
  lazymatch goal with
  | |- reads (mbind (λ x, mret _) _) _ _ => eapply reads_map; reads_leaf
  | |- reads (mbind _ _) _ _ => eapply reads_bind; [reads_leaf | solve_reads]
  end.

(** Evaluates a size function on usable strings. *)
Ltac solve_size :=
  unfold bool_len_ethanol;
  rewrite ?strlen_ethanol_ok, ?array_size_ok, ?part_size_ok by assumption; cbn [mbind res_bind];
  first [ rewrite to_u_id by (first [lia | in_range])
        | rewrite to_s_id by (first [lia | in_range]) ];
  reflexivity.

(** Bounds the length of what was written. *)
Ltac solve_wire_length :=
  rewrite ?length_app, ?length_cells, ?length_replicate, ?Nat2Z.inj_add,
    ?length_le by lia;
  repeat match goal with
  | |- context [length (wire_str ?s)] =>
      let H := fresh in pose proof (length_wire_str s) as H;
      generalize dependent (length (wire_str s)); intros
  end; cbn [length]; lia.

(** The whole contract of a message made of strings and numbers. *)
Ltac solve_codec wf size :=
  let h := fresh "h" in let Hwf := fresh "Hwf" in
  split;
  [ | intros h Hwf; change (wf h = true) in Hwf; unfold wf in Hwf; split_andb; assumption
    | intros []; reflexivity .. ];
  intros h Hwf; change (wf h = true) in Hwf; unfold wf in Hwf; wf_facts;
  eapply codec_intro;
  [ reflexivity | reflexivity
  | change (msg_size h) with (size h); unfold size; solve_size
  | lia
  | cbn -[mbind mret]; solve_writes
  | eapply reads_eq; [cbn -[mbind mret]; solve_reads | reflexivity]
  | solve_wire_length ].

(** The room of arrays of entries of a fixed size. *)
Ltac array_counts :=
  repeat match goal with
  | H : array_wf ?n ?p = true |- context [array_len ?p] => rewrite (array_len_count n p H)
  end.

(** The whole contract of an entry made of strings, numbers, arrays and
    structures. *)
Ltac solve_entry entry :=
  split; intros e He; cbn [entry e_ok e_size e_len e_encode e_decode e_wire e_normal] in *; wf_facts;
  [ rewrite ?strlen_ethanol_ok, ?array_size_ok, ?part_size_ok by assumption; cbn [mbind res_bind];
    array_counts; first [reflexivity | f_equal; lia]
  | solve_writes
  | eapply reads_eq; [solve_reads | reflexivity]
  | solve_wire_length ].

(** ** Short messages *)

(** A usable string short enough for a message to fit one buffer of
    [servlet]. *)
Definition brief (p : charp) : bool := cstr_ok p && (Z.of_nat (length (text p)) <? 900).

Lemma brief_canon p : brief p = true → brief (canon p) = true.
Proof.
  unfold brief. intros [H1 H2]%andb_prop. by rewrite cstr_ok_canon, text_canon by done.
Qed.

Lemma brief_None : brief None = true.
Proof. done. Qed.

Lemma brief_version : brief ETHANOL_VERSION = true.
Proof. done. Qed.

(** A few brief strings fit any message. *)
Lemma strs_ok_brief ps : forallb brief ps = true → (length ps ≤ 100)%nat → strs_ok ps = true.
Proof.
  intros Hps Hl. unfold strs_ok.
  assert (forallb cstr_ok ps = true ∧
    foldr (λ p n, Z.of_nat (length (text p)) + n) 0 ps ≤ 900 * Z.of_nat (length ps)) as [-> Hsum].
  { clear Hl. induction ps as [|p ps IH]; [done|]. simpl in Hps. split_andb.
    destruct IH as [IH1 IH2]; [done|]. unfold brief in *. split_andb. to_prop.
    cbn [forallb foldr length]. split; [by split_andb|lia]. }
  simpl. to_prop. lia.
Qed.

Lemma header_current (t : Enum_msg_type) id n :
  i32_ok id = true → header_ok (Header t id ETHANOL_VERSION n) = true.
Proof. intros Hid. unfold header_ok. cbn [m_type m_id p_version]. by rewrite msg_code_i32, Hid. Qed.

(** Side conditions of [strs_ok_brief]. *)
Ltac all_brief :=
  first [ done | solve [simpl; lia]
        | solve [cbn [forallb]; split_andb; auto using brief_version, brief_None, brief_canon] ].
