(* ===== verification/CFloat.v ===== *)
(** The floating-point arithmetic the handlers use, on the IEEE values of
    [SpecFloat]: [float] (24, 128), [double] (53, 1024) and the x87
    [long double] (64, 16384). *)
From stdpp Require Import prelude.
From Stdlib Require Import SpecFloat.
From S2P Require Import Prelude.

(** Conversions from integers and between formats (round to nearest even). *)
Definition f32_of_Z (z : Z) : spec_float := binary_normalize 24 128 z 0 false.
Definition f64_of_Z (z : Z) : spec_float := binary_normalize 53 1024 z 0 false.
Definition f80_of_Z (z : Z) : spec_float := binary_normalize 64 16384 z 0 false.

Definition to_f64 (f : spec_float) : spec_float :=
  match f with
  | S754_finite s m e => binary_normalize 53 1024 (if s then Z.neg m else Z.pos m) e s
  | _ => f
  end.

(** The integral part towards zero, when there is one. *)
Definition sf_trunc (f : spec_float) : option Z :=
  match f with
  | S754_zero _ => Some 0
  | S754_finite s m e =>
      let a := if 0 <=? e then Z.pos m * 2 ^ e else Z.pos m / 2 ^ (- e) in
      Some (if s then - a else a)
  | _ => None
  end.

(** [(long long) f] and [(int) f]: undefined when the value does not fit. *)
Definition sf_to_int (w : Z) (f : spec_float) : res Z :=
  match sf_trunc f with
  | Some z => if s_ok w z then Ok z else Err FloatRange
  | None => Err FloatRange
  end.

(** [(unsigned int) f]. *)
Definition sf_to_uint (w : Z) (f : spec_float) : res Z :=
  match sf_trunc f with
  | Some z => if u_ok w z then Ok z else Err FloatRange
  | None => Err FloatRange
  end.

Definition f64_add : spec_float → spec_float → spec_float := SFadd 53 1024.
Definition f64_mul : spec_float → spec_float → spec_float := SFmul 53 1024.
Definition f80_mul : spec_float → spec_float → spec_float := SFmul 64 16384.
Definition f80_add : spec_float → spec_float → spec_float := SFadd 64 16384.
Definition f80_sub : spec_float → spec_float → spec_float := SFsub 64 16384.
Definition f80_div : spec_float → spec_float → spec_float := SFdiv 64 16384.
Definition f64_div : spec_float → spec_float → spec_float := SFdiv 53 1024.
Definition f32_div : spec_float → spec_float → spec_float := SFdiv 24 128.

(** [(float) d]. *)
Definition to_f32 (f : spec_float) : spec_float :=
  match f with
  | S754_finite s m e => binary_normalize 24 128 (if s then Z.neg m else Z.pos m) e s
  | _ => f
  end.

(** The 32-bit pattern of a [float]. *)
Definition f32_bits (f : spec_float) : Z :=
  match f with
  | S754_zero s => if s then 2 ^ 31 else 0
  | S754_infinity s => (if s then 2 ^ 31 else 0) + 255 * 2 ^ 23
  | S754_nan => 255 * 2 ^ 23 + 2 ^ 22
  | S754_finite s m e =>
      (if s then 2 ^ 31 else 0) +
      (if Z.pos m <? 2 ^ 23 then Z.pos m else (e + 150) * 2 ^ 23 + (Z.pos m - 2 ^ 23))
  end.

(** The value of the 32-bit pattern of a [float]. *)
Definition f32_of_bits (z : Z) : spec_float :=
  let s := Z.testbit z 31 in
  let e := (z / 2 ^ 23) `mod` 2 ^ 8 in
  let m := z `mod` 2 ^ 23 in
  if e =? 255 then if m =? 0 then S754_infinity s else S754_nan
  else if e =? 0 then match m with Z.pos p => S754_finite s p (-149) | _ => S754_zero s end
  else S754_finite s (Z.to_pos (m + 2 ^ 23)) (e - 150).

(** [(long double) d]. *)
Definition to_f80 (f : spec_float) : spec_float :=
  match f with
  | S754_finite s m e => binary_normalize 64 16384 (if s then Z.neg m else Z.pos m) e s
  | _ => f
  end.

(** The 80-bit pattern of a [long double]: sign, exponent, and a significand
    with its leading bit. *)
Definition f80_bits (f : spec_float) : Z := to_u 80
  match f with
  | S754_zero s => if s then 2 ^ 79 else 0
  | S754_infinity s => (if s then 2 ^ 79 else 0) + 32767 * 2 ^ 64 + 2 ^ 63
  | S754_nan => 32767 * 2 ^ 64 + 3 * 2 ^ 62
  | S754_finite s m e =>
      (if s then 2 ^ 79 else 0) +
      (if Z.pos m <? 2 ^ 63 then Z.pos m else (e + 16446) * 2 ^ 64 + Z.pos m)
  end.

(** The value of a pattern; one without its leading bit is not a number. *)
Definition f80_of_bits (z : Z) : spec_float :=
  let s := Z.testbit z 79 in
  let e := (z / 2 ^ 64) `mod` 2 ^ 15 in
  let m := z `mod` 2 ^ 64 in
  if e =? 32767 then if m =? 2 ^ 63 then S754_infinity s else S754_nan
  else if e =? 0 then match m with Z.pos p => S754_finite s p (-16445) | _ => S754_zero s end
  else match m with
       | Z.pos p => if 2 ^ 63 <=? m then S754_finite s p (e - 16446) else S754_nan
       | _ => S754_nan
       end.

(** [1.5f] is [0x3fc00000], [-2.0f] is [0xc0000000], and three quarters of
    a second in microseconds over 1000 is [750.0f]. *)
Example f32_bits_1_5 : f32_bits (f32_div (f32_of_Z 3) (f32_of_Z 2)) = 1069547520.
Proof. reflexivity. Qed.
Example f32_bits_minus2 : f32_bits (f32_of_Z (-2)) = 3221225472.
Proof. reflexivity. Qed.
Example f32_bits_750 : f32_bits (f32_div (f32_of_Z 750000) (f32_of_Z 1000)) = 1144750080.
Proof. reflexivity. Qed.


Example f32_of_bits_minus2 : f32_of_bits 3221225472 = f32_of_Z (-2).
Proof. reflexivity. Qed.
Example f32_of_bits_1_5 : f32_of_bits 1069547520 = f32_div (f32_of_Z 3) (f32_of_Z 2).
Proof. reflexivity. Qed.

(** ** The pattern of a [long double] *)

Lemma f80_bits_ok f : u_ok 80 (f80_bits f) = true.
Proof. unfold f80_bits, to_u.
  match goal with |- context [?z `mod` _] => pose proof (Z.mod_pos_bound z (2 ^ 80)); in_range end.
Qed.

Lemma digits2_bounds m : 2 ^ (Z.pos (digits2_pos m) - 1) ≤ Z.pos m < 2 ^ Z.pos (digits2_pos m).
Proof.
  induction m as [m IH|m IH|]; cbn [digits2_pos]; [| |done];
    replace (Z.pos (Pos.succ (digits2_pos m)) - 1) with (Z.succ (Z.pos (digits2_pos m) - 1)) by lia;
    rewrite Pos2Z.inj_succ, !Z.pow_succ_r by lia; lia.
Qed.

(** A finite value of the format: a full significand, or the least exponent. *)
Lemma f80_valid_finite s m e : valid_binary 64 16384 (S754_finite s m e) = true →
  0 < Z.pos m < 2 ^ 64 ∧ -16445 ≤ e ≤ 16320 ∧ (Z.pos m < 2 ^ 63 → e = -16445).
Proof.
  unfold valid_binary, bounded, canonical_mantissa, fexp, SpecFloat.emin. intros [Hc He]%andb_prop.
  apply Z.eqb_eq in Hc. apply Z.leb_le in He. pose proof (digits2_bounds m) as [Hl Hu].
  set (d := Z.pos (digits2_pos m)) in *. assert (d ≤ 64) as Hd by lia.
  split_and!; [lia| |lia|lia|].
  - pose proof (Z.pow_le_mono_r 2 d 64). lia.
  - intros Hm. assert (d - 1 < 63); [|lia]. apply (Z.pow_lt_mono_r_iff 2); lia.
Qed.

Lemma f80_split (s : bool) x m : 0 ≤ x < 2 ^ 15 → 0 ≤ m < 2 ^ 64 →
  let z := (if s then 2 ^ 79 else 0) + x * 2 ^ 64 + m in
  to_u 80 z = z ∧ Z.testbit z 79 = s ∧ (z / 2 ^ 64) `mod` 2 ^ 15 = x ∧ z `mod` 2 ^ 64 = m.
Proof.
  intros Hx Hm z. pose (b := if s then 1 else 0).
  assert (z = (b * 2 ^ 15 + x) * 2 ^ 64 + m) as E by (unfold z, b; destruct s; lia).
  assert (z / 2 ^ 64 = b * 2 ^ 15 + x) as Eq by (rewrite E, Z.div_add_l, Z.div_small by lia; lia).
  split_and!.
  - unfold to_u. apply Z.mod_small. unfold b in E. destruct s; lia.
  - apply Z.b2z_inj. change 79 with (15 + 64). rewrite <- Z.shiftr_spec, Z.shiftr_div_pow2, Eq by lia.
    rewrite Z.testbit_spec', Z.div_add_l, Z.div_small by lia. unfold b. by destruct s.
  - rewrite Eq, Z.add_comm, Z.mod_add, Z.mod_small by lia. done.
  - rewrite E, Z.add_comm, Z.mod_add, Z.mod_small by lia. done.
Qed.

(** The pattern of a value of the format gives the value back. *)
Lemma f80_of_bits_bits f : valid_binary 64 16384 f = true → f80_of_bits (f80_bits f) = f.
Proof.
  destruct f as [s|s| |s m e]; intros Hv; [by destruct s|by destruct s|done|].
  apply f80_valid_finite in Hv as (Hm & He & Hs). unfold f80_bits, f80_of_bits.
  destruct (Z.ltb_spec (Z.pos m) (2 ^ 63)) as [Hlt|Hge].
  - replace (_ + Z.pos m) with ((if s then 2 ^ 79 else 0) + 0 * 2 ^ 64 + Z.pos m) by lia.
    destruct (f80_split s 0 (Z.pos m)) as (-> & -> & -> & ->); [lia..|]. by rewrite (Hs Hlt).
  - rewrite Z.add_assoc. destruct (f80_split s (e + 16446) (Z.pos m)) as (-> & -> & -> & ->); [lia..|].
    destruct (Z.eqb_spec (e + 16446) 32767); [lia|]. destruct (Z.eqb_spec (e + 16446) 0); [lia|].
    rewrite (proj2 (Z.leb_le _ _) Hge). f_equal. lia.
Qed.
