(* ===== verification/MemInfo.v ===== *)
(** The use of memory from /proc/meminfo: [ethanol_functions/get_meminfo.c].

    Every line's second word goes through [atoi] into an array of fifty
    numbers on the heap; the first two are the total and the free memory. *)
From stdpp Require Import prelude list strings.
From Stdlib Require Import SpecFloat.
From S2P Require Import Prelude CMem Strlib Lines IniFile ConfigFile CFloat.

Definition MAX : nat := 50.

Record mem_info := MemInfo { memtotal : Z; memfree : Z }.

(** A word of [sscanf]'s [%s], and what follows it. *)
Fixpoint word_split (s : list Z) : list Z * list Z :=
  match s with
  | [] => ([], [])
  | c :: s' => if isspace c then ([], s) else let '(w, r) := word_split s' in (c :: w, r)
  end.
Definition scan_word (s : list Z) : option (list Z * list Z) :=
  match lskip s with [] => None | s => Some (word_split s) end.

(** [sscanf(buffer, "%s %s", column1, column2)]: the new [column2], which keeps
    its contents -- none before the first line -- when there is no second word. *)
Definition scan_columns (buffer : list Z) (column2 : option (list Z)) : option (list Z) :=
  match scan_word buffer with
  | None => column2
  | Some (_, r) => match scan_word r with None => column2 | Some (w, _) => Some w end
  end.

Fixpoint fill_values (room : nat) (lines : list (list Z)) (column2 : option (list Z))
    (values : list Z) {struct lines} : res (list Z) :=
  match lines with
  | [] => Ok values
  | l :: lines =>
      let column2 := scan_columns (upto_nul l) column2 in
      w ← (match column2 with Some w => Ok w | None => Err ReadIndeterminate end);
      v ← atoi w;
      match room with
      | O => Err HeapOverflow
      | S room => fill_values room lines column2 (values ++ [v])
      end
  end.

(** [file] is the text of /proc/meminfo, when it can be opened. *)
Definition get_mem_info `{Allocator} (file : option (list Z)) : res mem_info :=
  values ← (match file with
            | None => Ok []
            | Some file =>
                fill_values (Z.to_nat (usable (8 * Z.of_nat MAX) / 8)) (lines_of (MAX - 1) file) None []
            end);
  match values with
  | a :: b :: _ => Ok (MemInfo a b)
  | _ => Err ReadIndeterminate
  end.

Definition get_mem_porcentage `{Allocator} (file : option (list Z)) : res spec_float :=
  q ← get_mem_info file;
  let mem_used := memtotal q - memfree q in
  ensure (i64_ok mem_used) SignedOverflow;;
  Ok (to_f32 (f64_div (f64_mul (f64_of_Z mem_used) (f64_of_Z 100)) (f64_of_Z (memtotal q)))).

(** ** Files of the kernel's form *)

(** [name:    number kB], as the kernel prints it. *)
Definition mem_line (n : list Z) (z : Z) : list Z := n ++ lit_bytes ":  " ++ dec z ++ lit_bytes " kB".
Definition mem_line_ok (e : list Z * Z) : bool :=
  forallb word_char e.1 && i32_ok e.2 && bool_decide (length e.1 < 25)%nat.
Definition mem_file (l : list (list Z * Z)) : list Z :=
  concat ((λ b, b ++ [10]) <$> ((λ e, mem_line e.1 e.2) <$> l)).

Lemma word_split_app w r : Forall (λ c, isspace c = false) w → (∀ c l, r = c :: l → isspace c = true) →
  word_split (w ++ r) = (w, r).
Proof.
  intros Hw Hr. induction Hw as [|c w Hc _ IH].
  - destruct r as [|c r]; [done|]. simpl. by rewrite (Hr c r).
  - simpl. by rewrite Hc, IH.
Qed.

Lemma scan_word_app w r : Forall (λ c, isspace c = false) w → w ≠ [] →
  (∀ c l, r = c :: l → isspace c = true) → scan_word (w ++ r) = Some (w, r).
Proof.
  intros Hw Hne Hr. unfold scan_word, lskip. destruct Hw as [|c w Hc Hw]; [done|].
  change ((c :: w) ++ r) with (c :: (w ++ r)). cbn [drop_while]. rewrite Hc.
  change (c :: w ++ r) with ((c :: w) ++ r). f_equal. apply word_split_app; [by constructor|done].
Qed.

Lemma scan_word_blank c s : isspace c = true → scan_word (c :: s) = scan_word s.
Proof. intros Hc. unfold scan_word, lskip. cbn [drop_while]. by rewrite Hc. Qed.

Lemma dec_chars z : i32_ok z = true →
  Forall (λ c, isspace c = false) (dec z) ∧ Forall (λ c, c ≠ 0) (dec z) ∧ Forall (λ c, c ≠ 10) (dec z) ∧
  dec z ≠ [] ∧ (length (dec z) ≤ 11)%nat.
Proof.
  intros Hz. pose proof (i32_range z Hz). destruct (dec_value z Hz) as [_ Hl].
  assert (Hd : Forall (λ x, plain_char x = true) (dec z)).
  { unfold dec. destruct (Z.ltb_spec z 0).
    - destruct (dec_nat_spec 10 (- z)) as (_ & Hd & _); [lia|]. constructor; [done|].
      eapply Forall_impl; [exact Hd|apply isdigit_plain].
    - destruct (dec_nat_spec 10 z) as (_ & Hd & _); [lia|].
      eapply Forall_impl; [exact Hd|apply isdigit_plain]. }
  split_and!; [..|done]; try (eapply Forall_impl; [exact Hd|]; intros c Hc; unfold plain_char, is_char in Hc; split_andb).
  - by apply negb_true_iff.
  - lia.
  - intros ->. done.
  - unfold dec. destruct (z <? 0); [done|]. cbn [dec_nat]. by destruct (if z <? 10 then _ else _).
Qed.

Lemma scan_mem_line n z o : forallb word_char n = true → i32_ok z = true →
  scan_columns (mem_line n z ++ [10]) o = Some (dec z).
Proof.
  intros Hn Hz. destruct (dec_chars z Hz) as (Hs & _ & _ & Hne & _).
  unfold scan_columns, mem_line. rewrite <- !app_assoc. change (lit_bytes ":  ") with ([58] ++ [32; 32]).
  rewrite <- app_assoc, app_assoc. rewrite scan_word_app.
  - cbn [app]. rewrite !scan_word_blank by done. rewrite scan_word_app; [done|done|done|].
    intros c l [= <- _]. done.
  - apply Forall_app. split; [|by repeat constructor]. apply forallb_Forall in Hn.
    eapply Forall_impl; [exact Hn|]. intros c Hc. by apply word_char_facts in Hc as (_ & ? & _).
  - by destruct n.
  - intros c l [= <- _]. done.
Qed.

Lemma mem_line_chars n z : forallb word_char n = true → i32_ok z = true →
  Forall (λ c, c ≠ 0) (mem_line n z) ∧ Forall (λ c, c ≠ 10) (mem_line n z).
Proof.
  intros Hn Hz. destruct (dec_chars z Hz) as (_ & H0 & H1 & _). apply forallb_Forall in Hn.
  split; unfold mem_line; repeat (apply Forall_app; split); try done;
    try (by repeat constructor); (eapply Forall_impl; [exact Hn|]); intros c Hc;
    apply word_char_facts in Hc as (Hc & _ & _ & _ & _ & _ & _ & _ & ?); [|done].
  unfold is_char in Hc. split_andb. lia.
Qed.

Lemma fill_mem_lines room l o vs : Forall (λ e, mem_line_ok e = true) l →
  fill_values room ((λ b, b ++ [10]) <$> ((λ e, mem_line e.1 e.2) <$> l)) o vs =
    if bool_decide (length l ≤ room)%nat then Ok (vs ++ (snd <$> l)) else Err HeapOverflow.
Proof.
  intros Hl. revert room o vs. induction Hl as [|[n z] l Hok Hl IH]; intros room o vs.
  { rewrite bool_decide_true by (simpl; lia).
    cbn. by rewrite app_nil_r. }
  rewrite !fmap_cons. cbn [fill_values]. unfold mem_line_ok in Hok. cbn [fst snd] in *. split_andb.
  destruct (mem_line_chars n z) as [H0' _]; [done..|].
  rewrite upto_nul_id by (apply Forall_app; split; [done|by repeat constructor]).
  rewrite scan_mem_line by done. cbn [mbind res_bind]. rewrite atoi_dec by done. cbn [mbind res_bind].
  destruct room as [|room]; [by rewrite bool_decide_false by (simpl; lia)|].
  rewrite IH, <- app_assoc. cbn [length app].
  by rewrite (bool_decide_ext (S (length l) ≤ S room)%nat (length l ≤ room)%nat) by lia.
Qed.

(** On a file of the kernel's form the total and the free memory are the
    numbers of its first two lines, as long as the array holds a number for
    every line of the file: with one line more the array on the heap overflows
    -- after 51 lines with glibc, after 50 by the C standard. *)
Theorem mem_info_lines `{Allocator} (a b : list Z * Z) (l : list (list Z * Z)) :
  Forall (λ e, mem_line_ok e = true) (a :: b :: l) →
  get_mem_info (Some (mem_file (a :: b :: l))) =
    if bool_decide (Z.of_nat (length (a :: b :: l)) ≤ usable 400 / 8) then Ok (MemInfo a.2 b.2)
    else Err HeapOverflow.
Proof.
  intros Hl. unfold get_mem_info, lines_of, mem_file.
  rewrite read_lines_cut; [|..|apply concat_lines_length].
  - rewrite fill_mem_lines by done. change (8 * Z.of_nat MAX) with 400.
    assert (0 ≤ usable 400 / 8) by (apply Z.div_pos; [pose proof (usable_ge 400); lia|lia]).
    destruct (decide (Z.of_nat (length (a :: b :: l)) ≤ usable 400 / 8)).
    + by rewrite !bool_decide_true by lia.
    + by rewrite !bool_decide_false by lia.
  - rewrite Forall_fmap. eapply Forall_impl; [exact Hl|]. intros [n z] Hok.
    unfold mem_line_ok in Hok. cbn [fst snd] in *. split_andb. undecide. simpl. split.
    + by apply mem_line_chars.
    + unfold mem_line. rewrite !length_app. destruct (dec_chars z) as (_ & _ & _ & _ & ?); [done|].
      simpl. unfold MAX. lia.
Qed.

(** Fifty-two lines. *)
Definition long_file : list (list Z * Z) :=
  (lit_bytes "MemTotal", 16000) :: (lit_bytes "MemFree", 4000) ::
  replicate 50 (lit_bytes "HugePages", 0).

Lemma mem_info_lines_witness :
  @get_mem_info glibc_alloc (Some (mem_file [(lit_bytes "MemTotal", 16000); (lit_bytes "MemFree", 4000)]))
    = Ok (MemInfo 16000 4000) ∧
  @get_mem_info glibc_alloc (Some (mem_file long_file)) = Err HeapOverflow.
Proof.
  split.
  - apply (@mem_info_lines glibc_alloc (_, 16000) (_, 4000) []). repeat constructor.
  - apply (@mem_info_lines glibc_alloc (_, 16000) (_, 4000) (replicate 50 _)). repeat constructor.
Defined.
