(* ===== verification/Scanf.v ===== *)
(** The conversions of [sscanf] that the device functions use: words, decimal
    and hexadecimal numbers, and numbers of any base.

    The items of a format are applied in order until one does not match; the
    values assigned so far are the result.  A number that does not fit the
    object it is stored in, and a word that does not fit its array, are
    undefined. *)
From stdpp Require Import prelude list strings.
From S2P Require Import Prelude CMem IniFile ConfigFile MemInfo.

(** ** Numbers *)

Definition digit_of (base c : Z) : option Z :=
  let d := if (48 <=? c) && (c <=? 57) then c - 48
           else if (97 <=? c) && (c <=? 102) then c - 87
           else if (65 <=? c) && (c <=? 70) then c - 55 else 99 in
  if d <? base then Some d else None.

(** The digits at the start of a text, and what follows. *)
Fixpoint span_digits (base : Z) (s : list Z) : list Z * list Z :=
  match s with
  | [] => ([], [])
  | c :: s' =>
      match digit_of base c with
      | Some d => let '(ds, r) := span_digits base s' in (d :: ds, r)
      | None => ([], s)
      end
  end.

Definition value_of (base : Z) (ds : list Z) : Z := foldl (λ a d, a * base + d) 0 ds.

Definition scan_sign (s : list Z) : bool * list Z :=
  match s with
  | c :: s' => if c =? 45 then (true, s') else if c =? 43 then (false, s') else (false, s)
  | [] => (false, [])
  end.

(** [0x] or [0X]. *)
Definition hex_prefix (s : list Z) : option (list Z) :=
  match s with
  | 48 :: x :: s => if (x =? 120) || (x =? 88) then Some s else None
  | _ => None
  end.

(** At least one digit must follow. *)
Definition scan_digits (base : Z) (s : list Z) : option (Z * list Z) :=
  match span_digits base s with ([], _) => None | (ds, r) => Some (value_of base ds, r) end.

Definition scan_number (any_base hex : bool) (s : list Z) : option (Z * list Z) :=
  let '(neg, s) := scan_sign s in
  let n := match (if any_base || hex then hex_prefix s else None) with
           | Some s => scan_digits 16 s
           | None => if hex then scan_digits 16 s
                     else if any_base && (first s =? 48) then scan_digits 8 s else scan_digits 10 s
           end in
  match n with Some (z, r) => Some (if neg then - z else z, r) | None => None end.

(** ** Formats *)

(** [%s] into an array of [room] bytes; [%d], [%ld] and [%lld] of [w] bits;
    [%lli]; [%x]. *)
Inductive conv := Word (room : nat) | Dec (w : Z) | Any (w : Z) | Hex (w : Z).
Inductive item := Blank | Lit (c : Z) | Conv (c : conv).
Inductive value := Str (s : list Z) | Num (z : Z).

#[global] Instance value_eq_dec : EqDecision value.
Proof. solve_decision. Defined.

(** One conversion, which first skips blanks. *)
Definition convert (c : conv) (s : list Z) : res (option (value * list Z)) :=
  match c with
  | Word room =>
      match scan_word s with
      | Some (w, r) => ensure (bool_decide (length w < room)%nat) StackOverflow;; Ok (Some (Str w, r))
      | None => Ok None
      end
  | Dec w | Any w =>
      match scan_number (match c with Any _ => true | _ => false end) false (lskip s) with
      | Some (z, r) => ensure (s_ok w z) SignedOverflow;; Ok (Some (Num z, r))
      | None => Ok None
      end
  | Hex w =>
      match scan_number false true (lskip s) with
      | Some (z, r) => ensure (Z.abs z <? 2 ^ w) SignedOverflow;; Ok (Some (Num (to_u w z), r))
      | None => Ok None
      end
  end.

Fixpoint sscanf (fmt : list item) (s : list Z) : res (list value) :=
  match fmt with
  | [] => Ok []
  | Blank :: fmt => sscanf fmt (lskip s)
  | Lit c :: fmt =>
      match s with d :: s => if c =? d then sscanf fmt s else Ok [] | [] => Ok [] end
  | Conv c :: fmt =>
      r ← convert c s;
      match r with
      | Some (v, s) => vs ← sscanf fmt s; Ok (v :: vs)
      | None => Ok []
      end
  end.

(** The number behind the [i]-th conversion, or what the object held. *)
Definition num_at (vs : list value) (i : nat) (old : Z) : Z :=
  match vs !! i with Some (Num z) => z | _ => old end.
Definition str_at (vs : list value) (i : nat) : option (list Z) :=
  match vs !! i with Some (Str s) => Some s | _ => None end.

(** ** Reading back printed values *)

(** A text that does not go on with a digit or a letter that could be one. *)
Definition ends_number (r : list Z) : Prop := ∀ c l, r = c :: l → isspace c = true.

Lemma digit_of_blank base c : isspace c = true → base ≤ 16 → digit_of base c = None.
Proof.
  unfold isspace, digit_of. intros Hc Hb. destruct ((48 <=? c) && (c <=? 57)) eqn:E1; [lia|].
  destruct ((97 <=? c) && (c <=? 102)) eqn:E2; [lia|]. destruct ((65 <=? c) && (c <=? 70)) eqn:E3; [lia|].
  by destruct (Z.ltb_spec 99 base); [lia|].
Qed.

Lemma span_digits_app base ds cs r : base ≤ 16 → ends_number r →
  Forall2 (λ c d, digit_of base c = Some d) cs ds → span_digits base (cs ++ r) = (ds, r).
Proof.
  intros Hb Hr Hcs. induction Hcs as [|c d cs ds Hc _ IH].
  - destruct r as [|c r]; [done|]. simpl. by rewrite (digit_of_blank base c (Hr c r eq_refl) Hb).
  - simpl. by rewrite Hc, IH.
Qed.

Lemma digit_of_dec x : isdigit x = true → digit_of 10 x = Some (x - 48).
Proof.
  unfold isdigit, digit_of. intros Hx. rewrite Hx. destruct (Z.ltb_spec (x - 48) 10); [done|lia].
Qed.

Lemma value_of_digits s acc : Forall (λ x, isdigit x = true) s →
  foldl (λ a d, a * 10 + d) acc ((λ x, x - 48) <$> s) = digits acc s.
Proof.
  intros Hs. revert acc. induction Hs as [|x s Hx Hs IH]; intros acc; [done|].
  rewrite fmap_cons. cbn [foldl digits]. by rewrite Hx, IH.
Qed.

Lemma scan_digits_dec s r : Forall (λ x, isdigit x = true) s → s ≠ [] → ends_number r →
  scan_digits 10 (s ++ r) = Some (digits 0 s, r).
Proof.
  intros Hs Hne Hr. unfold scan_digits.
  rewrite (span_digits_app 10 ((λ x, x - 48) <$> s)); [|done|done|].
  - rewrite <- (value_of_digits s 0) by done. by destruct s.
  - apply Forall2_fmap_r. clear -Hs. induction Hs; constructor; [by apply digit_of_dec|done].
Qed.

(** Decimal numbers of any width: [fuel] digits are enough. *)
Definition decimal (fuel : nat) (z : Z) : list Z :=
  if z <? 0 then 45 :: dec_nat fuel (- z) else dec_nat fuel z.

Lemma dec_nat_nonempty fuel z : dec_nat (S fuel) z ≠ [].
Proof. simpl. by destruct (if z <? 10 then _ else _). Qed.

Lemma dec_nat_head fuel z : 0 ≤ z < 10 ^ Z.of_nat (S fuel) →
  ∃ c l, dec_nat (S fuel) z = c :: l ∧ isdigit c = true.
Proof.
  intros Hz. destruct (dec_nat_spec (S fuel) z Hz) as (_ & Hd & _).
  pose proof (dec_nat_nonempty fuel z). destruct (dec_nat (S fuel) z) as [|c l]; [done|].
  exists c, l. split; [done|]. by inversion Hd.
Qed.

Lemma scan_decimal fuel z r : Z.abs z < 10 ^ Z.of_nat (S fuel) → ends_number r →
  scan_number false false (decimal (S fuel) z ++ r) = Some (z, r).
Proof.
  intros Hz Hr. unfold scan_number, decimal. destruct (Z.ltb_spec z 0).
  - destruct (dec_nat_spec (S fuel) (- z)) as (Hv & Hd & _); [lia|].
    change ((45 :: dec_nat (S fuel) (- z)) ++ r) with (45 :: (dec_nat (S fuel) (- z) ++ r)).
    cbn [scan_sign Z.eqb Pos.eqb orb].
    rewrite scan_digits_dec by (done || apply dec_nat_nonempty). rewrite Hv. do 2 f_equal. lia.
  - destruct (dec_nat_spec (S fuel) z) as (Hv & Hd & _); [lia|].
    destruct (dec_nat_head fuel z) as (c & l & E & Hc); [lia|].
    assert (scan_sign (dec_nat (S fuel) z ++ r) = (false, dec_nat (S fuel) z ++ r)) as ->.
    { rewrite E. simpl. unfold isdigit in Hc. destruct (Z.eqb_spec c 45); [lia|].
      by destruct (Z.eqb_spec c 43); [lia|]. }
    cbn [orb]. rewrite scan_digits_dec by (done || apply dec_nat_nonempty). by rewrite Hv.
Qed.

Lemma decimal_head fuel z : Z.abs z < 10 ^ Z.of_nat (S fuel) →
  ∃ c l, decimal (S fuel) z = c :: l ∧ isspace c = false.
Proof.
  intros Hz. unfold decimal. destruct (Z.ltb_spec z 0); [by eexists _, _|].
  destruct (dec_nat_head fuel z) as (c & l & E & Hc); [lia|]. exists c, l. split; [done|].
  unfold isdigit in Hc. unfold isspace. lia.
Qed.

Lemma lskip_head c s : isspace c = false → lskip (c :: s) = c :: s.
Proof. intros Hc. unfold lskip. simpl. by rewrite Hc. Qed.

(** [%d], [%ld] and [%lld] on a printed number that fits. *)
Lemma convert_dec w fuel z r : Z.abs z < 10 ^ Z.of_nat (S fuel) → s_ok w z = true → ends_number r →
  convert (Dec w) (decimal (S fuel) z ++ r) = Ok (Some (Num z, r)).
Proof.
  intros Hz Hw Hr. unfold convert. destruct (decimal_head fuel z Hz) as (c & l & E & Hc).
  assert (lskip (decimal (S fuel) z ++ r) = decimal (S fuel) z ++ r) as ->.
  { rewrite E. by apply lskip_head. }
  rewrite scan_decimal by done. by rewrite Hw.
Qed.

(** [%s] on a word that fits. *)
Lemma convert_word room w r : Forall (λ c, isspace c = false) w → w ≠ [] → (length w < room)%nat →
  ends_number r → convert (Word room) (w ++ r) = Ok (Some (Str w, r)).
Proof.
  intros Hw Hne Hl Hr. unfold convert. rewrite scan_word_app by done. by rewrite bool_decide_true.
Qed.

Lemma convert_blank c x s : isspace x = true → convert c (x :: s) = convert c s.
Proof.
  intros Hx. assert (lskip (x :: s) = lskip s) as E by (unfold lskip; simpl; by rewrite Hx).
  destruct c; unfold convert; rewrite ?E, ?scan_word_blank by done; done.
Qed.

(** [%lli] on a printed number: without a leading zero there is no other
    base. *)
Lemma dec_nat_leading fuel z : 0 < z < 10 ^ Z.of_nat (S fuel) →
  ∃ c l, dec_nat (S fuel) z = c :: l ∧ 49 ≤ c ≤ 57.
Proof.
  revert z. induction fuel as [|fuel IH]; intros z Hz.
  { exists (48 + z), []. simpl. change (10 ^ 1) with 10 in Hz. rewrite Z.mod_small by lia.
    destruct (Z.ltb_spec z 10); [split; [done|lia]|lia]. }
  cbn [dec_nat]. destruct (Z.ltb_spec z 10) as [Hlt|Hge].
  - exists (48 + z `mod` 10), []. rewrite Z.mod_small by lia. split; [done|lia].
  - destruct (IH (z / 10)) as (c & l & E & Hc).
    { split; [apply Z.div_str_pos; lia|]. apply Z.div_lt_upper_bound; [lia|].
      replace (Z.of_nat (S (S fuel))) with (Z.succ (Z.of_nat (S fuel))) in Hz by lia.
      rewrite Z.pow_succ_r in Hz by lia. lia. }
    cbn [dec_nat] in E. rewrite E. by exists c, (l ++ [48 + z `mod` 10]).
Qed.

Lemma hex_prefix_none c s : c ≠ 48 → hex_prefix (c :: s) = None.
Proof. intros Hc. unfold hex_prefix. repeat case_match; try done; by simplify_eq. Qed.

Lemma scan_any_dec s r c l : s = c :: l → 49 ≤ c ≤ 57 → Forall (λ x, isdigit x = true) s → ends_number r →
  hex_prefix (s ++ r) = None ∧ (first (s ++ r) =? 48) = false ∧ scan_digits 10 (s ++ r) = Some (digits 0 s, r).
Proof.
  intros -> Hc Hs Hr. split_and!.
  - apply hex_prefix_none. lia.
  - simpl. destruct (Z.eqb_spec c 48); [lia|done].
  - by apply scan_digits_dec.
Qed.

Lemma scan_zero r : ends_number r → scan_number true false (48 :: r) = Some (0, r).
Proof.
  intros Hr. unfold scan_number. cbn [scan_sign Z.eqb Pos.eqb orb].
  assert (hex_prefix (48 :: r) = None) as ->.
  { destruct r as [|x r]; [done|]. specialize (Hr x r eq_refl). unfold hex_prefix, isspace in *.
    destruct (Z.eqb_spec x 120); [lia|]. by destruct (Z.eqb_spec x 88); [lia|]. }
  cbn [first andb Z.eqb Pos.eqb]. unfold scan_digits.
  change (48 :: r) with ([48] ++ r). rewrite (span_digits_app 8 [0] [48] r); [done|lia|done|].
  by repeat constructor.
Qed.

Lemma scan_any fuel z r : Z.abs z < 10 ^ Z.of_nat (S fuel) → ends_number r →
  scan_number true false (decimal (S fuel) z ++ r) = Some (z, r).
Proof.
  intros Hz Hr. unfold decimal. destruct (Z.ltb_spec z 0).
  - destruct (dec_nat_leading fuel (- z)) as (c & l & E & Hc); [lia|].
    destruct (dec_nat_spec (S fuel) (- z)) as (Hv & Hd & _); [lia|].
    destruct (scan_any_dec _ r c l E Hc Hd Hr) as (H1 & H2 & H3). unfold scan_number.
    change ((45 :: dec_nat (S fuel) (- z)) ++ r) with (45 :: (dec_nat (S fuel) (- z) ++ r)).
    cbn [scan_sign Z.eqb Pos.eqb orb]. rewrite H1, H2, H3, Hv. cbn [andb]. do 2 f_equal. lia.
  - destruct (Z.eq_dec z 0) as [->|Hne].
    { cbn [dec_nat]. change (0 <? 10) with true. cbn [app]. change (48 + 0 `mod` 10) with 48. by apply scan_zero. }
    destruct (dec_nat_leading fuel z) as (c & l & E & Hc); [lia|].
    destruct (dec_nat_spec (S fuel) z) as (Hv & Hd & _); [lia|].
    destruct (scan_any_dec _ r c l E Hc Hd Hr) as (H1 & H2 & H3). unfold scan_number.
    assert (scan_sign (dec_nat (S fuel) z ++ r) = (false, dec_nat (S fuel) z ++ r)) as ->.
    { rewrite E. simpl. destruct (Z.eqb_spec c 45); [lia|]. by destruct (Z.eqb_spec c 43); [lia|]. }
    cbn [orb]. rewrite H1, H2, H3, Hv. done.
Qed.

Lemma convert_any w fuel z r : Z.abs z < 10 ^ Z.of_nat (S fuel) → s_ok w z = true → ends_number r →
  convert (Any w) (decimal (S fuel) z ++ r) = Ok (Some (Num z, r)).
Proof.
  intros Hz Hw Hr. unfold convert. destruct (decimal_head fuel z Hz) as (c & l & E & Hc).
  assert (lskip (decimal (S fuel) z ++ r) = decimal (S fuel) z ++ r) as ->.
  { rewrite E. by apply lskip_head. }
  rewrite scan_any by done. by rewrite Hw.
Qed.

(** ** Lines of fields *)

(** The format of fields separated by blanks, and the texts so separated. *)
Fixpoint fields_fmt (cs : list conv) : list item :=
  match cs with
  | [] => []
  | [c] => [Conv c]
  | c :: cs => Conv c :: Blank :: fields_fmt cs
  end.
Fixpoint join_sep (sep : Z) (ts : list (list Z)) : list Z :=
  match ts with
  | [] => []
  | [t] => t
  | t :: ts => t ++ sep :: join_sep sep ts
  end.
Abbreviation join_blank := (join_sep 32).

(** A text that a conversion reads as a value, whatever follows it. *)
Definition field_of (c : conv) (t : list Z) (v : value) : Prop :=
  ∀ r, ends_number r → convert c (t ++ r) = Ok (Some (v, r)).

Lemma lskip_idemp s : lskip (lskip s) = lskip s.
Proof.
  unfold lskip. induction s as [|c s IH]; [done|]. simpl. destruct (isspace c) eqn:E; [done|].
  simpl. by rewrite E.
Qed.

Lemma convert_lskip c s : convert c (lskip s) = convert c s.
Proof. destruct c; unfold convert, scan_word; by rewrite ?lskip_idemp. Qed.

Lemma sscanf_lskip c fmt s : sscanf (Conv c :: fmt) (lskip s) = sscanf (Conv c :: fmt) s.
Proof. cbn [sscanf]. by rewrite convert_lskip. Qed.

Lemma ends_sep sep s : isspace sep = true → ends_number (sep :: s).
Proof. by intros Hs c l [= <- _]. Qed.
Lemma ends_blank s : ends_number (32 :: s).
Proof. by apply ends_sep. Qed.

(** [sscanf] of the fields of a line. *)
Lemma scan_fields sep cs ts vs r : isspace sep = true → ends_number r →
  Forall2 (λ '(c, t) v, field_of c t v) (zip cs ts) vs → length cs = length ts →
  sscanf (fields_fmt cs) (join_sep sep ts ++ r) = Ok vs.
Proof.
  intros Hsep Hr. revert ts vs. induction cs as [|c cs IH]; intros [|t ts] vs Hf Hl; try done.
  { by inversion Hf. }
  inversion Hf as [|? v ? vs' Hv Hvs]; subst. destruct cs as [|c' cs], ts as [|t' ts]; try done.
  - inversion Hvs; subst. cbn [fields_fmt join_sep sscanf]. by rewrite (Hv r Hr).
  - specialize (IH (t' :: ts) vs' Hvs ltac:(simpl in *; lia)).
    change (fields_fmt (c :: c' :: cs)) with (Conv c :: Blank :: fields_fmt (c' :: cs)).
    change (join_sep sep (t :: t' :: ts)) with (t ++ sep :: join_sep sep (t' :: ts)).
    cbn [sscanf]. rewrite <- app_assoc. cbn [app]. rewrite (Hv _ (ends_sep _ _ Hsep)). cbn [mbind res_bind].
    assert (∃ fmt, fields_fmt (c' :: cs) = Conv c' :: fmt) as [fmt Ef] by (destruct cs; by eexists).
    assert (lskip (sep :: (join_sep sep (t' :: ts) ++ r)) = lskip (join_sep sep (t' :: ts) ++ r)) as El
      by (unfold lskip; simpl; by rewrite Hsep).
    rewrite Ef in *. by rewrite El, sscanf_lskip, IH.
Qed.

Lemma field_dec w fuel z : Z.abs z < 10 ^ Z.of_nat (S fuel) → s_ok w z = true →
  field_of (Dec w) (decimal (S fuel) z) (Num z).
Proof. intros Hz Hw r Hr. by apply convert_dec. Qed.
Lemma field_any w fuel z : Z.abs z < 10 ^ Z.of_nat (S fuel) → s_ok w z = true →
  field_of (Any w) (decimal (S fuel) z) (Num z).
Proof. intros Hz Hw r Hr. by apply convert_any. Qed.
Lemma field_word room t : Forall (λ c, isspace c = false) t → t ≠ [] → (length t < room)%nat →
  field_of (Word room) t (Str t).
Proof. intros Ht Hne Hl r Hr. by apply convert_word. Qed.

(** ** Hexadecimal numbers *)

(** [%08X] and the like: [n] digits. *)
Definition hex_upper (d : Z) : Z := if d <? 10 then 48 + d else 55 + d.
Fixpoint hex_fixed (n : nat) (z : Z) : list Z :=
  match n with O => [] | S n => hex_fixed n (z / 16) ++ [hex_upper (z `mod` 16)] end.

Lemma digit_of_hex d : 0 ≤ d < 16 → digit_of 16 (hex_upper d) = Some d.
Proof.
  intros Hd. unfold digit_of, hex_upper. destruct (Z.ltb_spec d 10) as [Hlt|Hge].
  - replace ((48 <=? 48 + d) && (48 + d <=? 57)) with true by (symmetry; lia).
    replace (48 + d - 48) with d by lia. by rewrite (proj2 (Z.ltb_lt d 16)) by lia.
  - replace ((48 <=? 55 + d) && (55 + d <=? 57)) with false by (symmetry; lia).
    replace ((97 <=? 55 + d) && (55 + d <=? 102)) with false by (symmetry; lia).
    replace ((65 <=? 55 + d) && (55 + d <=? 70)) with true by (symmetry; lia).
    replace (55 + d - 55) with d by lia. by rewrite (proj2 (Z.ltb_lt d 16)) by lia.
Qed.

Lemma hex_fixed_spec n z : 0 ≤ z < 16 ^ Z.of_nat n → ∃ ds,
  Forall2 (λ c d, digit_of 16 c = Some d) (hex_fixed n z) ds ∧ value_of 16 ds = z ∧
  length (hex_fixed n z) = n ∧ Forall (λ c, 48 ≤ c ≤ 70) (hex_fixed n z).
Proof.
  revert z. induction n as [|n IH]; intros z Hz.
  { exists []. change (16 ^ Z.of_nat 0) with 1 in Hz. split_and!; [constructor|cbn; lia|done|constructor]. }
  rewrite Nat2Z.inj_succ, Z.pow_succ_r in Hz by lia.
  destruct (IH (z / 16)) as (ds & Hd & Hv & Hl & Hc).
  { split; [apply Z.div_pos; lia|apply Z.div_lt_upper_bound; lia]. }
  pose proof (Z.mod_pos_bound z 16). pose proof (Z_div_mod_eq_full z 16).
  exists (ds ++ [z `mod` 16]). cbn [hex_fixed]. split_and!.
  - apply Forall2_app; [done|]. constructor; [apply digit_of_hex; lia|constructor].
  - unfold value_of in *. rewrite foldl_app. cbn [foldl]. lia.
  - rewrite length_app, Hl. cbn. lia.
  - apply Forall_app_2; [done|]. repeat constructor; unfold hex_upper; case_match; lia.
Qed.

Lemma field_hex w n z : (0 < n)%nat → 0 ≤ z < 16 ^ Z.of_nat n → z < 2 ^ w → 0 ≤ w →
  field_of (Hex w) (hex_fixed n z) (Num z).
Proof.
  intros Hn Hz Hw Hw0 r Hr. destruct (hex_fixed_spec n z Hz) as (ds & Hd & Hv & Hl & Hc).
  destruct (hex_fixed n z) as [|c l] eqn:E; [simpl in Hl; lia|]. rewrite Forall_cons in Hc. destruct Hc as [Hc Hcl].
  unfold convert. cbn [app]. rewrite lskip_head by (unfold isspace; lia). unfold scan_number.
  assert (scan_sign (c :: l ++ r) = (false, c :: l ++ r)) as ->.
  { simpl. destruct (Z.eqb_spec c 45); [lia|]. by destruct (Z.eqb_spec c 43); [lia|]. }
  cbn [orb].
  assert (hex_prefix (c :: l ++ r) = None) as ->.
  { unfold hex_prefix. destruct (decide (c = 48)) as [->|Hne]; [|by apply hex_prefix_none].
    destruct l as [|x l]; cbn [app].
    - destruct r as [|x r]; [done|]. specialize (Hr x r eq_refl). unfold isspace in Hr.
      destruct (Z.eqb_spec x 120); [lia|]. by destruct (Z.eqb_spec x 88); [lia|].
    - rewrite Forall_cons in Hcl. destruct (Z.eqb_spec x 120); [lia|]. by destruct (Z.eqb_spec x 88); [lia|]. }
  unfold scan_digits. change (c :: l ++ r) with ((c :: l) ++ r).
  rewrite (span_digits_app 16 ds (c :: l) r) by (done || lia).
  destruct ds as [|d ds]; [inversion Hd|]. rewrite Hv. unfold to_u. rewrite Z.mod_small by lia.
  by rewrite ensure_Ok by (to_prop; lia).
Qed.

(** ** The characters of a line *)

(** A printed number holds neither a NUL nor a newline. *)
Lemma decimal_chars fuel z : Z.abs z < 10 ^ Z.of_nat fuel →
  Forall (λ c, c ≠ 0 ∧ c ≠ 10) (decimal fuel z) ∧ (length (decimal fuel z) ≤ S fuel)%nat.
Proof.
  intros Hz.
  assert (∀ s, Forall (λ x, isdigit x = true) s → Forall (λ c, c ≠ 0 ∧ c ≠ 10) s) as Hd.
  { intros s Hs. eapply Forall_impl; [exact Hs|]. unfold isdigit. intros x Hx. lia. }
  unfold decimal. destruct (Z.ltb_spec z 0).
  - destruct (dec_nat_spec fuel (- z)) as (_ & Hs & Hl); [lia|]. split; [|cbn [length]; lia].
    constructor; [lia|by apply Hd].
  - destruct (dec_nat_spec fuel z) as (_ & Hs & Hl); [lia|]. split; [by apply Hd|lia].
Qed.

Lemma hex_chars n z : 0 ≤ z < 16 ^ Z.of_nat n →
  Forall (λ c, c ≠ 0 ∧ c ≠ 10) (hex_fixed n z) ∧ (length (hex_fixed n z) ≤ n)%nat.
Proof.
  intros Hz. destruct (hex_fixed_spec n z Hz) as (ds & _ & _ & Hl & Hc). split; [|lia].
  eapply Forall_impl; [exact Hc|]. intros c Hcc. cbn in Hcc. lia.
Qed.

(** Nor does a line of such texts. *)
Lemma joined_chars sep n ts : sep ≠ 0 → sep ≠ 10 →
  Forall (λ t, Forall (λ c, c ≠ 0 ∧ c ≠ 10) t ∧ (length t ≤ n)%nat) ts →
  Forall (λ c, c ≠ 0 ∧ c ≠ 10) (join_sep sep ts) ∧ (length (join_sep sep ts) ≤ length ts * S n)%nat.
Proof.
  intros Hs Hs'. induction 1 as [|t ts [Ht Hl] Hts [IHc IHl]]; [split; [constructor|done]|].
  destruct ts as [|t' ts]; [split; [done|simpl; lia]|].
  change (join_sep sep (t :: t' :: ts)) with (t ++ sep :: join_sep sep (t' :: ts)).
  split; [apply Forall_app_2; [done|by constructor]|]. rewrite length_app. simpl in *. lia.
Qed.
