(* ===== verification/World.v ===== *)
(** The environment of the program: the TLS client connection of
    [messaging/ssl_common.c] over the sockets and OpenSSL, and the device
    queries and commands of [ethanol_functions/] that the message handlers
    call.  Both are interfaces over an abstract world state [W]. *)
From stdpp Require Import prelude list strings.
From Stdlib Require Import SpecFloat.
From S2P Require Import Prelude CMem MsgCommon BufferHandler.

(** ** Network interface *)

(** The library calls behind a client connection. *)
Class Net (W : Type) := {
  net_ctx_new : ST W bool;                     (* SSL_CTX_new <> NULL *)
  net_gethostbyname : charp → ST W (option Z); (* resolved address *)
  net_socket : ST W Z;                         (* socket: a descriptor or -1 *)
  net_connect : Z → Z → Z → ST W bool;         (* connect == 0: descriptor, address, port *)
  net_ssl_new : ST W bool;                     (* SSL_new <> NULL *)
  net_ssl_connect : ST W bool;                 (* SSL_connect <> FAIL *)
  net_ssl_write : list cell → ST W unit;       (* SSL_write *)
  net_ssl_read : ST W (list cell);             (* the record SSL_read gets *)
  net_ssl_free : ST W unit;
  net_close : Z → ST W unit;
  net_ctx_free : ST W unit
}.

Definition FAIL : Z := -1.

(** [struct ssl_connection]: which of the handles are not NULL, and the
    descriptor or [FAIL]. *)
Record ssl_connection := Conn { c_ssl : bool; c_ctx : bool; c_server : Z }.

Section ssl_common.
Context {W : Type} `{Net W}.

Definition InitCTX : ST W bool := net_ctx_new.

(** [htons] keeps 16 bits of the port. *)
Definition OpenConnection (hostname : charp) (port : Z) : ST W Z :=
  host ← net_gethostbyname hostname;
  match host with
  | None => mret FAIL
  | Some addr =>
      sd ← net_socket;
      connected ← net_connect sd addr (to_u 16 port);
      if (connected : bool) then mret sd else net_close sd;; mret FAIL
  end.

Definition get_ssl_connection (hostname : charp) (portnum : Z) :
    ST W (Z * ssl_connection) :=
  ctx ← InitCTX;
  if negb ctx then mret (-1, Conn false false FAIL) else
  server ← OpenConnection hostname portnum;
  if server =? FAIL then mret (-2, Conn false true server) else
  ssl ← net_ssl_new;
  lift (ensure ssl NullDeref);;
  net_ssl_connect;;
  mret (0, Conn true true server).

Definition close_ssl_connection (h : ssl_connection) : ST W unit :=
  (if c_ssl h then net_ssl_free else mret tt);;
  (if negb (c_server h =? FAIL) then net_close (c_server h) else mret tt);;
  (if c_ctx h then net_ctx_free else mret tt).

(** The frame of every [send_] function: connect, run the exchange when the
    connection was made, close. *)
Definition with_ssl {A} (hostname : charp) (portnum : Z) (none : A)
    (exchange : ST W A) : ST W A :=
  '(err, h) ← get_ssl_connection hostname portnum;
  a ← (if (err =? 0) && c_ssl h then exchange else mret none);
  close_ssl_connection h;;
  mret a.

(** The variant that ignores the error code. *)
Definition with_ssl_noerr {A} (hostname : charp) (portnum : Z) (none : A)
    (exchange : ST W A) : ST W A :=
  '(_, h) ← get_ssl_connection hostname portnum;
  a ← (if c_ssl h then exchange else mret none);
  close_ssl_connection h;;
  mret a.

(** [SSL_read] into a buffer of [n] bytes. *)
Definition ssl_read (n : Z) : ST W (list cell) :=
  l ← net_ssl_read;
  mret (if Z.of_nat (length l) <=? n then l else take (Z.to_nat n) l).
End ssl_common.

(** ** Build configuration *)

(** [PROCESS_STATION]: the same sources build the agent of an access point and
    the agent of a station. *)
Class Build := { process_station : bool; handover : bool }.

(** ** Device interface *)

(** [net_statistics] and [mean_net_statistics] of
    [ethanol_functions/net_statistics.h]: the counters of an interface, as
    numbers or as means. *)
Record stats (A : Type) := Stats {
  ns_collisions : A; ns_multicast : A; ns_rx_bytes : A; ns_rx_compressed : A;
  ns_rx_crc_errors : A; ns_rx_dropped : A; ns_rx_errors : A; ns_rx_fifo_errors : A;
  ns_rx_frame_errors : A; ns_rx_length_errors : A; ns_rx_missed_errors : A;
  ns_rx_over_errors : A; ns_rx_packets : A; ns_tx_aborted_errors : A; ns_tx_bytes : A;
  ns_tx_carrier_errors : A; ns_tx_compressed : A; ns_tx_dropped : A; ns_tx_errors : A;
  ns_tx_fifo_errors : A; ns_tx_heartbeat_errors : A; ns_tx_packets : A;
  ns_tx_window_errors : A
}.
#[global] Arguments Stats {A}.
#[global] Arguments ns_collisions {A} _.
#[global] Arguments ns_multicast {A} _.
#[global] Arguments ns_rx_bytes {A} _.
#[global] Arguments ns_rx_compressed {A} _.
#[global] Arguments ns_rx_crc_errors {A} _.
#[global] Arguments ns_rx_dropped {A} _.
#[global] Arguments ns_rx_errors {A} _.
#[global] Arguments ns_rx_fifo_errors {A} _.
#[global] Arguments ns_rx_frame_errors {A} _.
#[global] Arguments ns_rx_length_errors {A} _.
#[global] Arguments ns_rx_missed_errors {A} _.
#[global] Arguments ns_rx_over_errors {A} _.
#[global] Arguments ns_rx_packets {A} _.
#[global] Arguments ns_tx_aborted_errors {A} _.
#[global] Arguments ns_tx_bytes {A} _.
#[global] Arguments ns_tx_carrier_errors {A} _.
#[global] Arguments ns_tx_compressed {A} _.
#[global] Arguments ns_tx_dropped {A} _.
#[global] Arguments ns_tx_errors {A} _.
#[global] Arguments ns_tx_fifo_errors {A} _.
#[global] Arguments ns_tx_heartbeat_errors {A} _.
#[global] Arguments ns_tx_packets {A} _.
#[global] Arguments ns_tx_window_errors {A} _.

Abbreviation net_statistics := (stats Z).

Definition all_stats {A} (x : A) : stats A :=
  Stats x x x x x x x x x x x x x x x x x x x x x x x.

(** [struct netlink_stats] of [ethanol_functions/getnetlink.h]: the fields the
    handlers use. *)
Record netlink_stats := NetlinkStats {
  nl_rx_packets : Z; nl_rx_bytes : Z; nl_rx_errors : Z; nl_rx_dropped : Z;
  nl_tx_packets : Z; nl_tx_bytes : Z; nl_tx_errors : Z; nl_tx_dropped : Z;
  nl_collisions : Z; nl_signal : Z; nl_noise : Z
}.

(** One entry of [get_all_interfaces] and the result of [get_interface]: the
    fields the handlers use. *)
Record interface_fields := InterfaceFields {
  if_ifindex : Z; if_name : charp; if_mac : charp; if_type : Z; if_is_wifi : bool
}.

(** [interference_index] of [ethanol_functions/get_acs.h]; the factors are
    [long double] values. *)
Record interference_index := InterferenceIndex {
  ii_num_chan : Z; ii_freq : option (list Z); ii_factor : list spec_float
}.

(** One node of the list [noise_with_hostapd] builds ([struct channel_noise]). *)
Record channel_noise := ChannelNoise {
  cn_chan : Z; cn_freq : Z; cn_nf : Z; cn_channel_time : Z; cn_channel_time_busy : Z;
  cn_channel_time_rx : Z; cn_channel_time_tx : Z
}.

(** [struct survey_info] of [ethanol_functions/global_typedef.h]. *)
Record survey_info := SurveyInfo {
  si_freq : Z; si_in_use : Z; si_noise : Z; si_chan_active_t : Z; si_chan_busy_t : Z;
  si_chan_ext_busy_t : Z; si_chan_t_rx : Z; si_chan_t_tx : Z
}.

(** [struct sta_link_information]. *)
Record sta_link_information := StaLink { sl_mac_address : charp; sl_ssid : charp; sl_freq : Z }.

(** [struct iw_bitrates]: the rates of one band, as [float] patterns with the
    preamble flag. *)
Record iw_bitrates := IwBitrates { iw_wiphy : charp; iw_band : Z; iw_rates : list (Z * bool) }.

(** [gettimeofday]: seconds and microseconds. *)
Class Clock (W : Type) := { gettimeofday : ST W (Z * Z) }.

(** The queries and commands the handlers run on the host; a NULL result is
    [None], floating results are IEEE values.  The [f_] operations are the
    functions hostapd registers in [ethanol_functions/hostapd_hooks.c], when
    it does. *)
Class Device (W : Type) := {
  get_statistics : charp → ST W net_statistics;
  get_interface_stats : charp → ST W (option netlink_stats);
  get_snr_ap : charp → ST W spec_float;
  get_cpu_info : ST W spec_float;
  get_mem_porcentage : ST W spec_float;
  get_tx_power_iwconfig : charp → ST W spec_float;
  ap_set_txpower : charp → spec_float → Z → ST W unit;
  system_set_txpower : charp → Z → ST W unit;
  wapi_get_txpower : charp → ST W (option Z);
  get_powersave_mode : charp → ST W bool;
  set_powersave_mode : charp → bool → ST W unit;
  is_80211e_enabled : charp → ST W bool;
  set_mtu : charp → Z → ST W unit;
  set_txqueuelen : charp → Z → ST W unit;
  read_proc_uptime : ST W (option Z * option Z);  (* what fscanf assigned *)
  roam_change_ap : charp → charp → ST W Z;
  get_all_interfaces : ST W (option (list interface_fields));
  get_interface : charp → ST W (option interface_fields);
  get_acs : charp → Z → ST W (option interference_index);
  which_path : charp → ST W charp;
  run_system : list Z → ST W unit;
  device_clock :: Clock W;
  f_get_wiphy : option (charp → ST W Z);
  f_get_current_frequency : option (Z → ST W Z);
  f_set_current_frequency : option (Z → Z → ST W Z);
  f_get_current_channel : option (Z → ST W Z);
  f_set_current_channel : option (Z → Z → ST W Z);
  f_get_noise : option (Z → ST W (list channel_noise));
  wapi_get_freq : charp → ST W (option spec_float);      (* a result that is not negative *)
  wapi_set_freq : charp → spec_float → Z → ST W unit;
  wapi_chan2freq : charp → Z → ST W (option spec_float); (* what it assigned *)
  get_wlan_frequency : charp → ST W (option (Z * option Z * bool));  (* what it assigned *)
  get_sta_link_information : charp → ST W (option sta_link_information);
  get_survey_info : charp → ST W (option (list survey_info));
  get_channels : charp → ST W (option (list (Z * Z)));   (* [double] patterns and numbers *)
  get_bitrate : charp → charp → ST W Z;                  (* a [float] pattern *)
  return_phy_from_intf_name : charp → ST W charp;
  get_bitrates : charp → ST W (option (list iw_bitrates));
  set_iw_bitrates : charp → Z → list Z → ST W unit
}.

(** ** Host interface *)

(** [struct entrada_rotas] of [ethanol_functions/get_route.h]. *)
Record entrada_rotas := Rota {
  rt_ifname : charp; rt_dest : charp; rt_gw : charp; rt_mask : charp;
  rt_flags : Z; rt_refcnt : Z; rt_use : Z; rt_metric : Z; rt_mtu : Z; rt_window : Z; rt_irtt : Z
}.

(** [sta_stat_data] of [ethanol_functions/sta_statistics.h].  No message carries
    the bit rate, a [float] pattern: [None] is a field that was not assigned. *)
Record sta_stat_data := StaStat {
  sd_mac_addr : charp; sd_intf_name : charp; sd_inactive_time : Z;
  sd_rx_bytes : Z; sd_tx_bytes : Z; sd_rx_packets : Z; sd_rx_duration : Z;
  sd_tx_packets : Z; sd_tx_retries : Z; sd_tx_failed : Z;
  sd_beacon_loss : Z; sd_beacon_rx : Z; sd_rx_drop_misc : Z;
  sd_signal : Z; sd_signal_avg : Z; sd_beacon_signal_avg : Z;
  sd_time_offset : Z; sd_connected_time : Z; sd_tx_bitrate : option Z
}.

(** [struct wlan_ssid] of [ethanol_functions/wapi_getssid.h]. *)
Record wlan_ssid := WlanSsid { ws_intf_name : charp; ws_ssid : charp; ws_channel : Z; ws_frequency : Z }.

(** [wlan_entry] of [ethanol_functions/global_typedef.h]. *)
Record wlan_entry := WlanEntry {
  we_ifindex : Z; we_intf_name : charp; we_wlan_indx : Z; we_phy_indx : Z; we_dev : Z;
  we_mac_addr : charp; we_ssid : charp; we_channel_type : Z; we_width : Z;
  we_freq : Z; we_freq1 : Z; we_freq2 : Z; we_iftype : Z
}.

(** [country_type]: the part [chans], which the messages carry, and the part
    [ext], which they do not; [None] is a part that was not assigned. *)
Record country_type := Country {
  starting_channel : Z; number_of_channels : Z; max_tx_power : Z;
  ext : option (Z * Z * Z)  (* reg_extension_id, reg_class, coverage_class *)
}.

(** [scan_info_t] of [ethanol_functions/global_typedef.h]; [signal], [last_seen]
    and the rates are [float] patterns.  The messages do not carry [noise] and
    [last_seen]: [None] is a field that was not assigned. *)
Record scan_info_t := ScanInfo {
  sc_ap_num : Z; sc_wiphy : Z; sc_intf_name : charp; sc_mac_addr : charp; sc_SSID : charp;
  sc_status : Z; sc_beacon_interval : Z; sc_tsf : Z; sc_capability : Z; sc_frequency : Z;
  sc_channel : Z; sc_is_dBm : bool; sc_signal : Z; sc_powerconstraint : Z; sc_tx_power : Z;
  sc_link_margin : Z; sc_noise : option Z; sc_last_seen : option Z; sc_age : Z; sc_num_rates : Z; sc_rates : option (list Z);
  sc_is_ht : bool; sc_is_vht : bool; sc_has_dtim : bool; sc_dtim_count : Z; sc_dtim_period : Z;
  sc_has_country : bool; sc_country_code : bytes 3; sc_country_environment : Z;
  sc_num_country_triplets : Z; sc_country_triplets : option (list country_type);
  sc_has_rsn : bool; sc_rsn_version : Z; sc_rsn_group_cipher_oui : bytes 3;
  sc_rsn_group_cipher_type : Z; sc_pairwise_cipher_count : Z;
  sc_pairwise_cipher : option (list (bytes 4)); sc_authkey_mngmt_count : Z;
  sc_authkey_mngmt : option (list (bytes 4)); sc_rsn_capabilities : Z;
  sc_has_erp : bool; sc_nonERP_Present : bool; sc_use_Protection : bool;
  sc_barker_Preamble_Mode : bool; sc_has_bss_load : bool; sc_station_count : Z;
  sc_channel_utilization : Z; sc_avail_admission_capacity : Z; sc_ibss_ps : bool;
  sc_ATIM_Window : Z
}.

(** The queries and commands about interfaces, routes, stations and scans; a
    linked list is a list, a NULL result is [None] or, for a string, NULL. *)
Class Host (W : Type) := {
  get_routes : ST W (option (list entrada_rotas));
  get_sta_statistics : charp → ST W (list sta_stat_data);
  get_wlan_ssid : charp → ST W (option wlan_ssid);
  get_wlan_info : charp → ST W (option wlan_entry);
  get_list_wlans : ST W (list charp);                    (* the names *)
  trigger_scann : charp → ST W unit;
  get_scanning_info : charp → ST W (list scan_info_t);
  trigger_scan_intf : charp → ST W unit;
  return_ap_in_range : charp → ST W (list scan_info_t);
  get_interface_info : charp → ST W (option (charp * charp));  (* ip4 and netmask4 *)
  get_default_gateway : ST W charp;
  find_dns : ST W (option (list charp));
  start_dhcp : charp → ST W unit;
  set_ip : charp → charp → ST W unit;
  add_route : charp → charp → ST W unit;
  f_get_ssid : option (Z → Z → ST W charp);
  f_get_phy : option (Z → ST W Z);
  f_get_secondary_ch : option (Z → ST W Z);
  f_get_mac : option (Z → ST W charp);
  f_get_vht_channel_width : option (Z → ST W Z);
  f_survey : option (Z → ST W (list scan_info_t))
}.
