(* ===== verification/TimeStamp.v ===== *)
(** [ethanol_functions/time_stamp.c]: the time of day as a text of seconds.

    [sprintf("%lf")] is written out on the IEEE value: six decimals, rounded to
    the nearest, ties to the even digit. *)
From stdpp Require Import prelude list strings.
From Stdlib Require Import SpecFloat.
From S2P Require Import Prelude CMem ConfigFile BufferHandler CFloat World.

(** The integer nearest to [n / d], the even one of two. *)
Definition div_even (n d : Z) : Z :=
  let q := n / d in
  let r := n `mod` d in
  if 2 * r <? d then q else if d <? 2 * r then q + 1 else if Z.even q then q else q + 1.

(** [n] in [k] digits. *)
Fixpoint pad (k : nat) (n : Z) : list Z :=
  match k with O => [] | S k => pad k (n / 10) ++ [48 + n `mod` 10] end.

(** A number of millionths. *)
Definition fixed6 (z : Z) : list Z := dec_nat 320 (z / 10 ^ 6) ++ lit_bytes "." ++ pad 6 (z `mod` 10 ^ 6).

Definition fmt_lf (x : spec_float) : list Z :=
  let sign (s : bool) := if s then lit_bytes "-" else [] in
  match x with
  | S754_zero s => sign s ++ fixed6 0
  | S754_infinity s => sign s ++ lit_bytes "inf"
  | S754_nan => lit_bytes "nan"
  | S754_finite s m e =>
      sign s ++ fixed6 (if 0 <=? e then Z.pos m * 10 ^ 6 * 2 ^ e
                        else div_even (Z.pos m * 10 ^ 6) (2 ^ (- e)))
  end.

Definition TO_MICROSECONDS : Z := 1000000.

(** [timeCom = tv_sec; timeCom += tv_usec / (double) TO_MICROSECONDS]. *)
Definition seconds (sec usec : Z) : spec_float :=
  f64_add (f64_of_Z sec) (f64_div (f64_of_Z usec) (f64_of_Z TO_MICROSECONDS)).

(** The block has 30 bytes. *)
Definition time_stamp {W} `{Clock W, Allocator} : ST W charp :=
  '(sec, usec) ← gettimeofday;
  lift (malloc_strcpy 30 (mk_str (fmt_lf (seconds sec usec)))).

Example seconds_1970 : fmt_lf (seconds 0 0) = lit_bytes "0.000000".
Proof. reflexivity. Qed.
Example seconds_2017 : fmt_lf (seconds 1491955200 7) = lit_bytes "1491955200.000007".
Proof. reflexivity. Qed.
Example seconds_last : fmt_lf (seconds (2 ^ 32 - 1) 999999) = lit_bytes "4294967295.999999".
Proof. reflexivity. Qed.

Definition TO_NANOSECONDS : Z := 1000000000.

(** [diff_timeofday]: the difference of two times in seconds. *)
Definition diff_timeofday (t1 t2 : Z * Z) : spec_float :=
  f80_sub (to_f80 (seconds t1.1 t1.2)) (to_f80 (seconds t2.1 t2.2)).

(** [convert_double_to_timeofday]: [trunc] takes a [double]. *)
Definition convert_double_to_timeofday (d : spec_float) : res (Z * Z) :=
  sec ← sf_to_int 64 (to_f64 d);
  nsec ← sf_to_int 64 (to_f64 (f80_mul (f80_sub d (f80_of_Z sec)) (f80_of_Z TO_NANOSECONDS)));
  Ok (sec, nsec).

Example convert_quarter :
  convert_double_to_timeofday (f80_div (f80_of_Z 5) (f80_of_Z 4)) = Ok (1, 250000000).
Proof. reflexivity. Qed.
