(* ===== verification/IwDump.v ===== *)
(** The dumps of the modified [iw] and their readers in the agent:
    [iw-4.9/survey.c] with [get_survey_info] of
    [ethanol_functions/global_typedef.c], and [iw-4.9/station.c] with
    [ethanol_functions/sta_statistics.c].

    [iw] prints one line per netlink message; the attributes of a message that
    are present are the [Some] fields of a record.  The agent runs [iw] and
    scans the lines. *)
From stdpp Require Import prelude list strings.
From S2P Require Import Prelude CMem Lines IniFile ConfigFile Connect Utils MemInfo Scanf CFloat.
From S2P Require Import BufferHandler World.

(** The digits of any 64-bit number. *)
Abbreviation number := (decimal 20).

Lemma number_field w z : 0 < w ≤ 64 → s_ok w z = true → field_of (Dec w) (number z) (Num z).
Proof.
  intros Hw Hz. apply field_dec; [|done]. unfold s_ok in Hz. split_andb. to_prop.
  assert (2 ^ (w - 1) ≤ 2 ^ 63) by (apply Z.pow_le_mono_r; lia). change (10 ^ Z.of_nat 20) with (10 ^ 20). lia.
Qed.
Lemma number_field_any w z : 0 < w ≤ 64 → s_ok w z = true → field_of (Any w) (number z) (Num z).
Proof.
  intros Hw Hz. apply field_any; [|done]. unfold s_ok in Hz. split_andb. to_prop.
  assert (2 ^ (w - 1) ≤ 2 ^ 63) by (apply Z.pow_le_mono_r; lia). change (10 ^ Z.of_nat 20) with (10 ^ 20). lia.
Qed.

Lemma number_fields w zs : 0 < w ≤ 64 → Forall (λ z, s_ok w z = true) zs →
  Forall2 (λ '(c, t) v, field_of c t v) (zip (replicate (length zs) (Dec w)) (number <$> zs)) (Num <$> zs).
Proof.
  intros Hw. induction 1 as [|z zs Hz _ IH]; [constructor|]. cbn [length replicate].
  rewrite !fmap_cons. constructor; [by apply number_field|done].
Qed.

(** The characters of a printed number. *)
Lemma number_chars z : s_ok 64 z = true →
  Forall (λ c, c ≠ 0 ∧ c ≠ 10) (number z) ∧ (length (number z) ≤ 21)%nat.
Proof.
  intros Hz. apply decimal_chars. unfold s_ok in Hz. split_andb. to_prop.
  change (10 ^ Z.of_nat 20) with (10 ^ 20). lia.
Qed.

(** ** The channel survey *)

(** The attributes NL80211_SURVEY_INFO of a message. *)
Record survey_attrs := SurveyAttrs {
  sv_frequency : option Z;      (* 32 bits *)
  sv_in_use : bool;
  sv_noise : option Z;          (* 8 bits *)
  sv_time : option Z;           (* 64 bits, as the next ones *)
  sv_busy : option Z;
  sv_ext_busy : option Z;
  sv_rx : option Z;
  sv_tx : option Z
}.

(** The eight numbers of a line. *)
Definition survey_values (a : survey_attrs) : list Z :=
  [ match sv_frequency a with Some f => to_i32 f | None => -1 end;
    match sv_frequency a with Some _ => if sv_in_use a then 1 else 0 | None => 0 end;
    match sv_noise a with Some n => to_s 8 n | None => 0 end;
    default 0 (sv_time a); default 0 (sv_busy a); default 0 (sv_ext_busy a);
    default 0 (sv_rx a); default 0 (sv_tx a) ].

Definition print_survey_handler (a : survey_attrs) : list Z :=
  join_blank (number <$> survey_values a) ++ [10].

(** What a reader should find. *)
Definition survey_of (vs : list Z) : survey_info :=
  SurveyInfo (nth 0 vs 0) (nth 1 vs 0) (nth 2 vs 0) (nth 3 vs 0) (nth 4 vs 0) (nth 5 vs 0)
             (nth 6 vs 0) (nth 7 vs 0).

(** One line; [junk] is what the fields that no number was read for hold. *)
Definition scan_survey (junk : nat → Z) (line : list Z) : res survey_info :=
  vs ← sscanf (fields_fmt (replicate 8 (Dec 64))) (upto_nul line);
  let n i := num_at vs i (junk i) in
  Ok (SurveyInfo (n 0%nat) (n 1%nat) (n 2%nat) (n 3%nat) (n 4%nat) (n 5%nat) (n 6%nat) (n 7%nat)).

(** [list_survey]: a node and the index of the next one, in the order of the
    allocations. *)
Record list_survey := SurveyNode { ls_i : survey_info; ls_next : option nat }.
Record survey_list := SurveyList {
  sl_nodes : list list_survey; new_survey : option nat; ultimo : option nat
}.

(** The end of the loop's body: the first node is both the head and the last
    one when it is appended to the last one. *)
Definition append_survey (l : survey_list) (i : survey_info) : survey_list :=
  let p := length (sl_nodes l) in
  let '(head, last) := match new_survey l with
                       | None => (Some p, Some p)
                       | Some _ => (new_survey l, ultimo l)
                       end in
  let nodes := sl_nodes l ++ [SurveyNode i None] in
  match last with
  | Some u => SurveyList (alter (λ n, SurveyNode (ls_i n) (Some p)) u nodes) head (Some p)
  | None => SurveyList nodes head last
  end.

(** [while (p) { memcpy(&result->info[i], ...); i++; p = p->next; }], with room
    for [room] bytes. *)
Fixpoint copy_survey (fuel : nat) (nodes : list list_survey) (room : Z) (p : option nat) (i : nat) :
    res (list survey_info) :=
  match p with
  | None => Ok []
  | Some k =>
      match fuel with
      | O => Err Diverges
      | S fuel =>
          ensure (64 * Z.of_nat (S i) <=? room) HeapOverflow;;
          n ← index nodes k;
          l ← copy_survey fuel nodes room (ls_next n) (S i);
          Ok (ls_i n :: l)
      end
  end.

Fixpoint scan_surveys (junk : nat → Z) (lines : list (list Z)) (l : survey_list) : res survey_list :=
  match lines with
  | [] => Ok l
  | line :: lines => i ← scan_survey junk line; scan_surveys junk lines (append_survey l i)
  end.

Section survey.
Context {W : Type} `{Shell W, Allocator}.

(** Each copy needs 64 more bytes, so that the room bounds the steps. *)
Definition survey_result (l : survey_list) : res (option (list survey_info)) :=
  match length (sl_nodes l) with
  | O => Ok None
  | n =>
      let room := usable (64 * Z.of_nat n) in
      i ← copy_survey (S (Z.to_nat (room / 64))) (sl_nodes l) room (new_survey l) 0;
      Ok (Some i)
  end.

Definition get_survey_info (junk : nat → Z) (iw_path intf_name : charp) :
    ST W (option (list survey_info)) :=
  iw ← lift (chars iw_path);
  intf ← lift (chars intf_name);
  cmd ← lift (sprintf_local 2000 (lit_bytes "sudo " ++ iw ++ lit_bytes " dev " ++ intf ++
                                  lit_bytes " survey dump"));
  pp ← popen cmd;
  match pp with
  | None => mret None
  | Some out =>
      l ← lift (scan_surveys junk (lines_of 999 out) (SurveyList [] None None));
      lift (survey_result l)
  end.
End survey.

(** ** Lemmas on the survey *)

Definition survey_ok (a : survey_attrs) : bool :=
  forallb (λ o, match o with Some z => u_ok 63 z | None => true end)
    [sv_time a; sv_busy a; sv_ext_busy a; sv_rx a; sv_tx a].

Lemma survey_values_ok a : survey_ok a = true → Forall (λ z, s_ok 64 z = true) (survey_values a).
Proof.
  unfold survey_ok, survey_values. cbn [forallb]. intros Ha. split_andb.
  assert (∀ o, match o with Some z => u_ok 63 z | None => true end = true → s_ok 64 (default 0 o) = true) as Hd.
  { intros [z|]; [|done]. cbn. intros. in_range. }
  repeat constructor; auto.
  - destruct (sv_frequency a) as [f|]; [|done]. pose proof (to_s_range 32 f). unfold s_ok in *. in_range.
  - by destruct (sv_frequency a), (sv_in_use a).
  - destruct (sv_noise a) as [n|]; [|done]. pose proof (to_s_range 8 n). in_range.
Qed.

Lemma scan_survey_line junk a : survey_ok a = true →
  scan_survey junk (print_survey_handler a) = Ok (survey_of (survey_values a)).
Proof.
  intros Ha. pose proof (survey_values_ok a Ha) as Hv. unfold scan_survey, print_survey_handler.
  assert (upto_nul (join_blank (number <$> survey_values a) ++ [10]) =
          join_blank (number <$> survey_values a) ++ [10]) as ->.
  { apply upto_nul_id, Forall_app_2; [|by constructor].
    destruct (joined_chars 32 21 (number <$> survey_values a)) as [Hc _]; [done|done|..].
    { apply Forall_fmap. eapply Forall_impl; [exact Hv|]. apply number_chars. }
    eapply Forall_impl; [exact Hc|]. by intros c []. }
  erewrite scan_fields with (vs := Num <$> survey_values a); [done|done|by intros c l [= <- _]| |done].
  by apply (number_fields 64 (survey_values a)).
Qed.

Lemma survey_line_cut a : survey_ok a = true →
  Forall (λ c, c ≠ 10) (join_blank (number <$> survey_values a)) ∧
  (length (join_blank (number <$> survey_values a)) < 999)%nat.
Proof.
  intros Ha. destruct (joined_chars 32 21 (number <$> survey_values a)) as [Hc Hl]; [done|done|..].
  { apply Forall_fmap. eapply Forall_impl; [by apply survey_values_ok|]. apply number_chars. }
  split; [eapply Forall_impl; [exact Hc|]; by intros c []|]. rewrite length_fmap in Hl. simpl in *. lia.
Qed.

(** The nodes of a list that was built line by line. *)
Definition survey_node (l : list survey_info) (k : nat) (x : survey_info) : list_survey :=
  SurveyNode x (if decide (length l = 1%nat) then Some 0%nat
                else if decide (S k < length l)%nat then Some (S k) else None).
Definition survey_chain (l : list survey_info) : survey_list :=
  SurveyList (imap (survey_node l) l)
    (match l with [] => None | _ => Some 0%nat end)
    (match l with [] => None | _ => Some (pred (length l)) end).

Lemma survey_chain_lookup l k : sl_nodes (survey_chain l) !! k = survey_node l k <$> l !! k.
Proof. apply list_lookup_imap. Qed.

Lemma append_chain l i : append_survey (survey_chain l) i = survey_chain (l ++ [i]).
Proof.
  unfold append_survey. cbn [survey_chain sl_nodes new_survey ultimo]. rewrite length_imap.
  destruct l as [|x l]; [done|]. unfold survey_chain. cbn [pred length]. f_equal.
  - apply list_eq. intros k. rewrite list_lookup_imap. set (L := x :: l) in *.
    assert (length L = S (length l)) as HL by done. rewrite list_lookup_alter.
    destruct (decide (k < length L)%nat) as [Hlt|Hge].
    + destruct (lookup_lt_is_Some_2 L k Hlt) as [y E]. rewrite (lookup_app_l L) by lia. rewrite E.
      assert ((imap (survey_node L) L ++ [SurveyNode i None]) !! k = Some (survey_node L k y)) as En.
      { rewrite lookup_app_l by (rewrite length_imap; lia). by rewrite list_lookup_imap, E. }
      case_decide as Hk; [rewrite <- Hk in *|]; rewrite En; cbn [fmap option_fmap option_map];
        f_equal; unfold survey_node; rewrite length_app; cbn [length ls_i];
        repeat case_decide; try done; try lia; repeat f_equal; lia.
    + rewrite decide_False by lia. rewrite !(lookup_app_r _ _ k) by (rewrite ?length_imap; lia).
      rewrite length_imap. destruct (decide (k = length L)) as [->|Hk].
      * rewrite Nat.sub_diag. cbn [lookup list_lookup fmap option_fmap option_map]. f_equal.
        unfold survey_node. rewrite length_app. cbn [length]. repeat case_decide; try done; lia.
      * by destruct (k - length L)%nat as [|j] eqn:Ej; [lia|].
  - by rewrite length_app, Nat.add_comm.
Qed.

Lemma scan_chain junk l l0 : forallb survey_ok l = true →
  scan_surveys junk (print_survey_handler <$> l) (survey_chain l0) =
  Ok (survey_chain (l0 ++ ((λ a, survey_of (survey_values a)) <$> l))).
Proof.
  revert l0. induction l as [|a l IH]; intros l0 Hl; [by rewrite app_nil_r|]. cbn [forallb] in Hl.
  split_andb. rewrite !fmap_cons. cbn [scan_surveys]. rewrite scan_survey_line by done.
  cbn [mbind res_bind]. rewrite append_chain, IH by done. by rewrite <- app_assoc.
Qed.

(** The walk from the [k]-th node on. *)
Lemma copy_chain l k fuel room : length l ≠ 1%nat → 64 * Z.of_nat (length l) ≤ room →
  (length l - k < fuel)%nat → (k ≤ length l)%nat →
  copy_survey fuel (sl_nodes (survey_chain l)) room
    (if decide (k < length l)%nat then Some k else None) k = Ok (drop k l).
Proof.
  intros Hn Hr. revert k. induction fuel as [|fuel IH]; intros k Hf Hk; [lia|]. case_decide as Hlt.
  - destruct (lookup_lt_is_Some_2 l k Hlt) as [y E]. cbn [copy_survey].
    rewrite ensure_Ok by (to_prop; lia). cbn [mbind res_bind]. unfold index.
    rewrite survey_chain_lookup, E. cbn [fmap option_fmap option_map mbind res_bind survey_node ls_next].
    rewrite decide_False by done. rewrite IH by lia. cbn [mbind res_bind ls_i].
    by rewrite (drop_S l y k E).
  - by rewrite drop_ge by lia.
Qed.

(** A list of one node leads back to it: every step writes behind the last. *)
Lemma copy_cycle x fuel room i : 64 * Z.of_nat i ≤ room < 64 * Z.of_nat (i + fuel) →
  copy_survey fuel (sl_nodes (survey_chain [x])) room (Some 0%nat) i = Err HeapOverflow.
Proof.
  revert i. induction fuel as [|fuel IH]; intros i Hr; [lia|]. cbn [copy_survey].
  destruct (Z.leb_spec (64 * Z.of_nat (S i)) room) as [Hle|Hgt]; [|done]. cbn [ensure mbind res_bind].
  unfold index. rewrite survey_chain_lookup. cbn [lookup list_lookup fmap option_fmap option_map mbind res_bind].
  cbn [survey_node ls_next length]. rewrite decide_True by done. by rewrite IH by lia.
Qed.

Lemma survey_lines l : forallb survey_ok l = true →
  lines_of 999 (concat (print_survey_handler <$> l)) = print_survey_handler <$> l.
Proof.
  intros Hl. unfold lines_of.
  assert (print_survey_handler <$> l =
          (λ b, b ++ [10]) <$> ((λ a, join_blank (number <$> survey_values a)) <$> l)) as ->
    by (by rewrite <- list_fmap_compose).
  apply read_lines_cut; [|apply concat_lines_length]. apply Forall_fmap, Forall_forall. intros a Ha.
  apply survey_line_cut. rewrite forallb_forall in Hl. by apply Hl, list_elem_of_In.
Qed.

Section survey_props.
Context {W : Type} `{Shell W, Allocator}.

(** The command, and a host that answers it with these messages. *)
Definition survey_command (iw intf : list Z) : list Z :=
  lit_bytes "sudo " ++ iw ++ lit_bytes " dev " ++ intf ++ lit_bytes " survey dump".

Definition dumps (cmd : list Z) (out : list Z) (w w' : W) : Prop :=
  (length cmd < 2000)%nat ∧ popen cmd w = Ok (Some out, w').

Lemma survey_info_lines junk iw intf l w w' : named iw = true → named intf = true →
  forallb survey_ok l = true →
  dumps (survey_command (text iw) (text intf)) (concat (print_survey_handler <$> l)) w w' →
  get_survey_info junk iw intf w =
    (r ← survey_result (survey_chain ((λ a, survey_of (survey_values a)) <$> l)); Ok (r, w')).
Proof.
  intros Hiw Hintf Hl [Hc Hp]. unfold get_survey_info.
  run (lift_Ok _ w _ (chars_named iw Hiw)). run (lift_Ok _ w _ (chars_named intf Hintf)).
  fold (survey_command (text iw) (text intf)). rewrite sprintf_local_Ok by done.
  run (lift_Ok (Ok (survey_command (text iw) (text intf))) w _ eq_refl). run Hp.
  rewrite survey_lines by done. change (SurveyList [] None None) with (survey_chain []).
  rewrite scan_chain by done. run (lift_Ok (Ok (survey_chain ([] ++ ((λ a, survey_of (survey_values a)) <$> l)))) w' _ eq_refl).
  unfold lift. by destruct (survey_result _).
Qed.

(** What [iw survey dump] prints for any number of channels other than one,
    the agent reads back: one entry per channel in the same order, with the
    frequency, the use, the noise and the five times, and the values [iw] puts
    for the attributes that are missing. *)
Theorem survey_dump_roundtrip junk iw intf l w w' : named iw = true → named intf = true →
  forallb survey_ok l = true → length l ≠ 1%nat →
  dumps (survey_command (text iw) (text intf)) (concat (print_survey_handler <$> l)) w w' →
  get_survey_info junk iw intf w =
    Ok (match l with [] => None | _ => Some ((λ a, survey_of (survey_values a)) <$> l) end, w').
Proof.
  intros Hiw Hintf Hl Hn Hd. rewrite (survey_info_lines junk iw intf l w w') by done.
  unfold survey_result. set (m := (λ a, survey_of (survey_values a)) <$> l).
  assert (length m = length l) as Hm by apply length_fmap.
  cbn [survey_chain sl_nodes]. rewrite length_imap.
  destruct l as [|a l]; [done|]. rewrite Hm in *. cbn [length].
  pose proof (usable_ge (64 * Z.of_nat (S (length l))) ltac:(lia)) as Hu.
  pose proof (copy_chain m 0 (S (Z.to_nat (usable (64 * Z.of_nat (S (length l))) / 64)))
    (usable (64 * Z.of_nat (S (length l))))) as Hcp.
  rewrite Hm in Hcp. rewrite decide_True in Hcp by (simpl; lia). cbn [survey_chain sl_nodes] in Hcp.
  assert (new_survey (survey_chain m) = Some 0%nat) as -> by done.
  rewrite Hcp; [by rewrite drop_0|done|done| |lia]. cbn [length] in *.
  assert (Z.of_nat (S (length l)) ≤ usable (64 * Z.of_nat (S (length l))) / 64); [|lia].
  apply Z.div_le_lower_bound; lia.
Qed.

(** With a single channel the agent's list is a cycle of one node, and the
    copy of the list writes behind its array for ever: it overflows the heap
    with every allocator. *)
Theorem survey_single_channel_overflows junk iw intf a w w' : named iw = true → named intf = true →
  survey_ok a = true →
  dumps (survey_command (text iw) (text intf)) (print_survey_handler a) w w' →
  get_survey_info junk iw intf w = Err HeapOverflow.
Proof.
  intros Hiw Hintf Ha Hd. rewrite (survey_info_lines junk iw intf [a] w w'); [|done|done| |].
  - set (x := survey_of (survey_values a)). pose proof (usable_ge 64 ltac:(lia)).
    change (survey_result (survey_chain ((λ a, survey_of (survey_values a)) <$> [a]))) with
      (i ← copy_survey (S (Z.to_nat (usable 64 / 64))) (sl_nodes (survey_chain [x])) (usable 64) (Some 0%nat) 0;
       Ok (Some i)).
    rewrite copy_cycle; [done|]. pose proof (Z.mod_pos_bound (usable 64) 64).
    pose proof (Z.div_mod (usable 64) 64). assert (0 ≤ usable 64 / 64) by (apply Z.div_pos; lia). lia.
  - cbn [forallb]. by rewrite Ha.
  - cbn [fmap list_fmap concat]. by rewrite app_nil_r.
Qed.
End survey_props.

(** ** Samples *)

(** A host whose shell prints the same text for every command. *)
#[local] Instance echo_shell : Shell (list Z) := {|
  popen _ w := Ok (Some w, w); system _ := mret 0; time := mret 0
|}.

Definition busy_channel : survey_attrs :=
  SurveyAttrs (Some 2412) true (Some 161) (Some 1500) (Some 700) None (Some 300) (Some 50).
Definition idle_channel : survey_attrs := SurveyAttrs (Some 2417) false None None None None None None.

Lemma survey_dump_roundtrip_witness :
  let w := concat (print_survey_handler <$> [busy_channel; idle_channel]) in
  @get_survey_info _ echo_shell exact_alloc (λ _, 0) (lit "./iw") (lit "wlan0") w =
  Ok (Some [SurveyInfo 2412 1 (-95) 1500 700 0 300 50; SurveyInfo 2417 0 0 0 0 0 0 0], w).
Proof.
  intros w. apply (@survey_dump_roundtrip _ echo_shell exact_alloc (λ _, 0) (lit "./iw") (lit "wlan0")
    [busy_channel; idle_channel] w w); try reflexivity; [done|].
  split; [vm_compute; lia|reflexivity].
Defined.

Lemma survey_single_channel_overflows_witness :
  @get_survey_info _ echo_shell glibc_alloc (λ _, 0) (lit "./iw") (lit "wlan0")
    (print_survey_handler busy_channel) = Err HeapOverflow.
Proof.
  apply (@survey_single_channel_overflows _ echo_shell glibc_alloc (λ _, 0) (lit "./iw") (lit "wlan0")
    busy_channel (print_survey_handler busy_channel) (print_survey_handler busy_channel));
    [reflexivity..|]. split; [vm_compute; lia|reflexivity].
Defined.
