(* ===== verification/IwStation.v ===== *)
(** The station dump of the modified [iw] ([iw-4.9/station.c]) and its reader
    in the agent, [ethanol_functions/sta_statistics.c]. *)
From stdpp Require Import prelude list strings.
From S2P Require Import Prelude CMem Lines IniFile ConfigFile Connect Utils MemInfo Scanf CFloat.
From S2P Require Import BufferHandler World IwDump.

(** ** iw *)

(** The attributes of one station that [print_sta_handler] uses; the last field
    is the printed bit rate. *)
Record sta_attrs := StaAttrs {
  sa_mac : list Z; sa_dev : list Z;
  sa_inactive_time : option Z;                          (* 32 bits *)
  sa_rx_bytes64 : option Z; sa_rx_bytes : option Z; sa_rx_packets : option Z;
  sa_rx_duration : option Z;                            (* 64 bits *)
  sa_tx_bytes64 : option Z; sa_tx_bytes : option Z; sa_tx_packets : option Z;
  sa_tx_retries : option Z; sa_tx_failed : option Z; sa_beacon_loss : option Z;
  sa_beacon_rx : option Z; sa_rx_drop_misc : option Z;  (* 64 bits *)
  sa_signal : option Z; sa_signal_avg : option Z; sa_beacon_signal_avg : option Z;  (* 8 bits *)
  sa_t_offset : option Z;                               (* 64 bits *)
  sa_connected_time : option Z;
  sa_tx_bitrate : list Z
}.

(** A 64-bit attribute as a [long long], and the preference for it. *)
Definition attr64 (o : option Z) : Z := match o with Some z => to_s 64 z | None => -1 end.
Definition attr32 (o : option Z) : Z := default (-1) o.
Definition attr8 (o : option Z) : Z := match o with Some z => to_s 8 z | None => -1 end.
Definition attr64_32 (o64 o32 : option Z) : Z :=
  match o64 with Some z => to_s 64 z | None => attr32 o32 end.

(** The numbers of a line, in the order of the format. *)
Definition sta_values (a : sta_attrs) : list Z :=
  [ attr32 (sa_inactive_time a);
    attr64_32 (sa_rx_bytes64 a) (sa_rx_bytes a); attr32 (sa_rx_packets a); attr64 (sa_rx_duration a);
    attr64_32 (sa_tx_bytes64 a) (sa_tx_bytes a); attr32 (sa_tx_packets a); attr32 (sa_tx_retries a);
    attr32 (sa_tx_failed a); attr32 (sa_beacon_loss a); attr64 (sa_beacon_rx a);
    attr64 (sa_rx_drop_misc a);
    attr8 (sa_signal a); attr8 (sa_signal_avg a); attr32 (sa_beacon_signal_avg a);
    attr64 (sa_t_offset a); attr32 (sa_connected_time a) ].

Definition sta_fields (a : sta_attrs) : list (list Z) :=
  colon_hex (sa_mac a) :: sa_dev a :: (number <$> sta_values a).

Definition sta_text (a : sta_attrs) : list Z := join_blank (sta_fields a) ++ 32 :: sa_tx_bitrate a.

Definition print_sta_handler (a : sta_attrs) : list Z := sta_text a ++ [10].

(** ** The agent *)

(** ["%s %s %ld %lli ... %d %d %d %lli %lli"]; what the last conversion, [%f],
    makes of the line is the parameter [rate]. *)
Definition sta_convs : list conv :=
  [Word 20; Word 20; Dec 64] ++ replicate 10 (Any 64) ++ replicate 3 (Dec 32) ++ replicate 2 (Any 64).

Definition sta_data (mac intf : charp) (n : nat → Z) (rate : option Z) : sta_stat_data :=
  StaStat mac intf (n 0%nat) (n 1%nat) (n 4%nat) (n 2%nat) (n 3%nat) (n 5%nat) (n 6%nat) (n 7%nat)
    (n 8%nat) (n 9%nat) (n 10%nat) (n 11%nat) (n 12%nat) (n 13%nat) (n 14%nat) (n 15%nat) rate.

Section station.
Context {W : Type} `{Shell W, Allocator}.
Context (rate : list Z → option Z).

(** A line counts when more than two conversions succeeded; [junk] is what the
    fields that no number was read for hold. *)
Definition scan_station (junk : nat → Z) (line : list Z) : res (option sta_stat_data) :=
  vs ← sscanf (fields_fmt sta_convs) (upto_nul line);
  match str_at vs 0, str_at vs 1 with
  | Some mac, Some intf =>
      if bool_decide (2 < length vs)%nat then
        mac ← fill_string (mk_str mac);
        intf ← fill_string (mk_str intf);
        Ok (Some (sta_data mac intf (λ i, num_at vs (2 + i) (junk i)) (rate (upto_nul line))))
      else Ok None
  | _, _ => Ok None
  end.

Fixpoint scan_stations (junk : nat → Z) (lines : list (list Z)) : res (list sta_stat_data) :=
  match lines with
  | [] => Ok []
  | line :: lines =>
      d ← scan_station junk line;
      l ← scan_stations junk lines;
      Ok (match d with Some d => d :: l | None => l end)
  end.

Definition station_command (iw intf : list Z) : list Z :=
  lit_bytes "sudo " ++ iw ++ lit_bytes " dev " ++ intf ++ lit_bytes " station dump".

Definition get_sta_statistics (junk : nat → Z) (iw_path intf_name : charp) : ST W (list sta_stat_data) :=
  iw ← lift (chars iw_path);
  intf ← lift (chars intf_name);
  cmd ← lift (sprintf_local 2000 (station_command iw intf));
  pp ← popen cmd;
  match pp with
  | None => mret []
  | Some out => lift (scan_stations junk (lines_of 999 out))
  end.

(** ** Reading back *)

(** What the kernel gives: six bytes, a device name, numbers of their width,
    and a short printed rate. *)
Definition name_char (c : Z) : bool := is_char c && negb (isspace c).
Definition attr_ok (w : Z) (o : option Z) : bool := match o with Some z => u_ok w z | None => true end.
Definition sta_ok (a : sta_attrs) : bool :=
  (length (sa_mac a) =? 6)%nat && forallb is_byte (sa_mac a) &&
  (0 <? Z.of_nat (length (sa_dev a))) && (Z.of_nat (length (sa_dev a)) <? 16) && forallb name_char (sa_dev a) &&
  forallb (attr_ok 32) [sa_inactive_time a; sa_rx_bytes a; sa_rx_packets a; sa_tx_bytes a;
    sa_tx_packets a; sa_tx_retries a; sa_tx_failed a; sa_beacon_loss a; sa_connected_time a] &&
  attr_ok 8 (sa_beacon_signal_avg a) &&
  forallb (λ c, is_char c && negb (c =? 10)) (sa_tx_bitrate a) && (Z.of_nat (length (sa_tx_bitrate a)) <? 100).

Definition sta_read (a : sta_attrs) : sta_stat_data :=
  sta_data (mk_str (colon_hex (sa_mac a))) (mk_str (sa_dev a)) (λ i, nth i (sta_values a) 0)
    (rate (print_sta_handler a)).

Lemma attr32_ok w o : 32 < w → attr_ok 32 o = true → s_ok w (attr32 o) = true.
Proof.
  intros Hw Ho. assert (2 ^ 32 ≤ 2 ^ (w - 1)) by (apply Z.pow_le_mono_r; lia).
  destruct o as [z|]; cbn in *; unfold u_ok, s_ok in *; split_andb; to_prop; lia.
Qed.
Lemma attr8_ok o : s_ok 32 (attr8 o) = true.
Proof. destruct o as [z|]; [|done]. pose proof (to_s_range 8 z). cbn. in_range. Qed.
Lemma attr_byte_ok o : attr_ok 8 o = true → s_ok 32 (attr32 o) = true.
Proof. destruct o as [z|]; [|done]. cbn. intros. in_range. Qed.
Lemma attr64_ok o : s_ok 64 (attr64 o) = true.
Proof. destruct o as [z|]; [|done]. by apply to_s_range. Qed.
Lemma attr64_32_ok o64 o32 : attr_ok 32 o32 = true → s_ok 64 (attr64_32 o64 o32) = true.
Proof. destruct o64 as [z|]; [intros; by apply to_s_range|]. by apply attr32_ok. Qed.

Lemma mac_chars m : length m = 6%nat → forallb is_byte m = true →
  Forall (λ c, isspace c = false ∧ c ≠ 0 ∧ c ≠ 10) (colon_hex m) ∧ length (colon_hex m) = 17%nat.
Proof.
  intros Hl Hb. destruct m as [|a [|b [|c [|d [|e [|f [|? ?]]]]]]]; try done.
  cbn [forallb] in Hb. split_andb. split; [|done].
  assert (∀ x, is_byte x = true → Forall (λ c, isspace c = false ∧ c ≠ 0 ∧ c ≠ 10) (hex2 x)) as Hx.
  { intros x Hx. destruct (byte_digits x Hx) as [Hq Hr]. apply hexdigit_char in Hq as [? _], Hr as [? _].
    repeat constructor; unfold isspace; lia. }
  cbn [colon_hex]. repeat first [apply Forall_app_2; [by apply Hx|] | constructor; [done|] | by apply Hx].
Qed.

Lemma sta_ok_facts a : sta_ok a = true →
  length (sa_mac a) = 6%nat ∧ forallb is_byte (sa_mac a) = true ∧
  (0 < length (sa_dev a) < 16)%nat ∧ Forall (λ c, isspace c = false ∧ c ≠ 0 ∧ c ≠ 10) (sa_dev a) ∧
  Forall (λ z, s_ok 64 z = true) (take 11 (sta_values a)) ∧
  Forall (λ z, s_ok 32 z = true) (take 3 (drop 11 (sta_values a))) ∧
  Forall (λ z, s_ok 64 z = true) (drop 14 (sta_values a)) ∧
  Forall (λ c, c ≠ 0 ∧ c ≠ 10) (sa_tx_bitrate a) ∧ (length (sa_tx_bitrate a) < 100)%nat.
Proof.
  unfold sta_ok. intros Ha. split_andb. to_prop.
  match goal with H : (_ =? 6)%nat = true |- _ => apply Nat.eqb_eq in H end.
  match goal with H : forallb (attr_ok 32) _ = true |- _ => cbn [forallb] in H end. split_andb.
  match goal with H : forallb name_char _ = true |- _ => apply forallb_Forall in H end.
  match goal with H : forallb (λ c, _) _ = true |- _ => apply forallb_Forall in H end.
  split_and!; [done|done|lia|lia| | | | | |lia].
  - eapply Forall_impl; [eassumption|]. unfold name_char, is_char, isspace. intros c Hc. cbn in Hc. lia.
  - cbn [take sta_values]. repeat constructor; auto using attr32_ok, attr64_ok, attr64_32_ok with lia.
  - cbn [take drop sta_values]. repeat constructor; auto using attr8_ok, attr_byte_ok.
  - cbn [drop sta_values]. repeat constructor; auto using attr32_ok, attr64_ok with lia.
  - eapply Forall_impl; [eassumption|]. unfold is_char. intros c Hc. cbn in Hc. lia.
Qed.

Lemma fill_string_mk t : Forall (λ c, c ≠ 0) t → t ≠ [] → fill_string (mk_str t) = Ok (mk_str t).
Proof.
  intros Ht Hne. unfold fill_string. rewrite strlen_mk by done. cbn [mbind res_bind].
  rewrite (proj2 (Z.ltb_lt _ _)) by (destruct t; [done|simpl; lia]). by apply malloc_strcpy_mk.
Qed.

(** The fields of a line and what the conversions make of them. *)
Lemma sta_line_fields a : sta_ok a = true →
  Forall2 (λ '(c, t) v, field_of c t v) (zip sta_convs (sta_fields a))
    (Str (colon_hex (sa_mac a)) :: Str (sa_dev a) :: (Num <$> sta_values a)).
Proof.
  intros Ha. destruct (sta_ok_facts a Ha) as (Hm & Hb & Hdl & Hd & H1' & H2' & H3' & _).
  destruct (mac_chars _ Hm Hb) as [Hmc Hml]. unfold sta_fields, sta_convs.
  constructor; [|constructor].
  - apply field_word; [|by destruct (colon_hex _)|lia]. eapply Forall_impl; [exact Hmc|]. by intros c [].
  - apply field_word; [|by destruct (sa_dev a); [simpl in *; lia|]|lia].
    eapply Forall_impl; [exact Hd|]. by intros c [].
  - cbn [take drop sta_values] in *. rewrite !Forall_cons in H1'. rewrite !Forall_cons in H2'.
    rewrite !Forall_cons in H3'. destruct_and!.
    unfold sta_values. cbn [fmap list_fmap zip zip_with app replicate].
    repeat (constructor; [first [apply number_field; [lia|done] | apply number_field_any; [lia|done]]|]).
    constructor.
Qed.

Lemma sta_line_chars a : sta_ok a = true →
  Forall (λ c, c ≠ 0 ∧ c ≠ 10) (sta_text a) ∧ (length (sta_text a) < 999)%nat.
Proof.
  intros Ha. destruct (sta_ok_facts a Ha) as (Hm & Hb & Hdl & Hd & H1' & H2' & H3' & Hr & Hrl).
  destruct (mac_chars _ Hm Hb) as [Hmc Hml].
  destruct (joined_chars 32 21 (sta_fields a)) as [Hc Hl]; [done|done|..].
  { constructor; [|constructor].
    - split; [|lia]. eapply Forall_impl; [exact Hmc|]. by intros c (_ & ?).
    - split; [|lia]. eapply Forall_impl; [exact Hd|]. by intros c (_ & ?).
    - apply Forall_fmap. eapply Forall_impl; [|by apply number_chars].
      rewrite <- (take_drop 11 (sta_values a)), <- (take_drop 3 (drop 11 (sta_values a))).
      repeat apply Forall_app_2; [done| |by rewrite drop_drop].
      eapply Forall_impl; [exact H2'|]. intros z Hz. in_range. }
  unfold sta_text. split; [apply Forall_app_2; [done|by constructor]|].
  rewrite length_app. cbn [length]. change (length (sta_fields a)) with 18%nat in Hl. lia.
Qed.

Lemma scan_station_line junk a : sta_ok a = true →
  scan_station junk (print_sta_handler a) = Ok (Some (sta_read a)).
Proof.
  intros Ha. destruct (sta_line_chars a Ha) as [Hc _].
  destruct (sta_ok_facts a Ha) as (Hm & Hb & Hdl & Hd & _). destruct (mac_chars _ Hm Hb) as [Hmc Hml].
  unfold scan_station, print_sta_handler.
  assert (upto_nul (sta_text a ++ [10]) = sta_text a ++ [10]) as ->.
  { apply upto_nul_id, Forall_app_2; [|by constructor]. eapply Forall_impl; [exact Hc|]. by intros c []. }
  unfold sta_text. rewrite <- app_assoc. cbn [app]. rewrite (scan_fields 32 _ _ _ _ eq_refl (ends_blank _) (sta_line_fields a Ha)) by done.
  cbn [mbind res_bind str_at lookup list_lookup]. rewrite bool_decide_true by (cbn [length]; rewrite length_fmap; simpl; lia).
  assert (fill_string (mk_str (colon_hex (sa_mac a))) = Ok (mk_str (colon_hex (sa_mac a)))) as ->.
  { apply fill_string_mk; [|by destruct (colon_hex (sa_mac a))].
    eapply Forall_impl; [exact Hmc|]. by intros c (_ & ? & _). }
  assert (fill_string (mk_str (sa_dev a)) = Ok (mk_str (sa_dev a))) as ->.
  2: { unfold sta_read, print_sta_handler, sta_text. by rewrite <- app_assoc. }
  apply fill_string_mk; [|by destruct (sa_dev a); [simpl in *; lia|]].
  eapply Forall_impl; [exact Hd|]. by intros c (_ & ? & _).
Qed.

Lemma scan_stations_lines junk l : forallb sta_ok l = true →
  scan_stations junk (print_sta_handler <$> l) = Ok (sta_read <$> l).
Proof.
  induction l as [|a l IH]; [done|]. cbn [forallb]. intros Hl. split_andb. rewrite !fmap_cons.
  cbn [scan_stations]. rewrite scan_station_line by done. cbn [mbind res_bind]. by rewrite IH.
Qed.

Lemma station_lines l : forallb sta_ok l = true →
  lines_of 999 (concat (print_sta_handler <$> l)) = print_sta_handler <$> l.
Proof.
  intros Hl. unfold lines_of.
  assert (print_sta_handler <$> l = (λ b, b ++ [10]) <$> (sta_text <$> l)) as ->
    by (by rewrite <- list_fmap_compose).
  apply read_lines_cut; [|apply concat_lines_length]. apply Forall_fmap, Forall_forall. intros a Ha.
  rewrite forallb_forall in Hl. destruct (sta_line_chars a) as [Hc Hs]; [by apply Hl, list_elem_of_In|].
  split; [eapply Forall_impl; [exact Hc|]; by intros c []|done].
Qed.

End station.

(** ** Samples *)

#[local] Existing Instance echo_shell.

Definition near_station : sta_attrs :=
  StaAttrs [0; 17; 34; 51; 68; 85] (lit_bytes "wlan0") (Some 40) (Some 123456) None (Some 900) None
    None (Some 5555) (Some 70) (Some 3) (Some 0) None None (Some 2) (Some 200) (Some 201) None None
    (Some 3600) (lit_bytes "54.0").

