(* ===== verification/GetRoute.v ===== *)
(** The routing table: [ethanol_functions/get_route.c], which reads
    /proc/net/route, and the addresses of the resolver of [get_dns.c]. *)
From stdpp Require Import prelude list strings.
From S2P Require Import Prelude CMem Lines IniFile ConfigFile Connect HostapdConf MemInfo Scanf.
From S2P Require Import CFloat BufferHandler World.

(** ** Code *)

Definition WAPI_PROC_NET_ROUTE : list Z := lit_bytes "/proc/net/route".
Definition WAPI_PROC_LINE_SIZE : nat := 1024.
Definition ROUTE_FLAGS_GATEWAY : Z := 2.

(** [inet_ntoa] of an address in network order, read on a little-endian host. *)
Definition inet_ntoa (v : Z) : list Z :=
  dec_nat 3 (v `mod` 256) ++ [46] ++ dec_nat 3 ((v / 256) `mod` 256) ++ [46] ++
  dec_nat 3 ((v / 256 / 256) `mod` 256) ++ [46] ++ dec_nat 3 ((v / 256 / 256 / 256) `mod` 256).

Definition convert_s_addr `{Allocator} (v : Z) : res charp :=
  let aux := inet_ntoa v in malloc_strcpy (Z.of_nat (length aux) + 1) (mk_str aux).

(** The conversions of a line; the white space that ends the format is left
    out. *)
Definition route_convs : list conv :=
  [Word WAPI_PROC_LINE_SIZE; Hex 32; Hex 32; Hex 32; Dec 32; Dec 32; Dec 32; Hex 32; Dec 32; Dec 32; Dec 32].

Section routes.
Context {W : Type} `{Files W, Allocator}.

(** One line; [junk] is what the numbers that were not read hold. *)
Definition scan_route (junk : nat → Z) (line : list Z) : res entrada_rotas :=
  vs ← sscanf (fields_fmt route_convs) (upto_nul line);
  let n i := num_at vs i (junk i) in
  name ← match str_at vs 0 with Some s => Ok s | None => Err ReadIndeterminate end;
  ifname ← malloc_strcpy (Z.of_nat (length name) + 1) (mk_str name);
  dest ← convert_s_addr (n 1%nat);
  gw ← convert_s_addr (n 2%nat);
  mask ← convert_s_addr (n 7%nat);
  Ok (Rota ifname dest gw mask (n 3%nat) (n 4%nat) (n 5%nat) (n 6%nat) (n 8%nat) (n 9%nat) (n 10%nat)).

(** Each route is put at the head of the list. *)
Fixpoint scan_routes (junk : nat → Z) (lines : list (list Z)) (lista : list entrada_rotas) :
    res (list entrada_rotas) :=
  match lines with
  | [] => Ok lista
  | line :: lines => r ← scan_route junk line; scan_routes junk lines (r :: lista)
  end.

Definition get_routes (junk : nat → Z) : ST W (option (list entrada_rotas)) :=
  fp ← fread WAPI_PROC_NET_ROUTE;
  match fp with
  | None => mret None
  | Some file =>
      match lines_of (WAPI_PROC_LINE_SIZE - 1) file with
      | [] => mret None
      | _ :: lines =>
          l ← lift (scan_routes junk lines []);
          mret (match l with [] => None | _ => Some l end)
      end
  end.

(** The first route of the list that leads to a gateway from everywhere. *)
Fixpoint find_default (l : list entrada_rotas) : res charp :=
  match l with
  | [] => Ok None
  | ri :: l =>
      if 0 <? Z.land (rt_flags ri) ROUTE_FLAGS_GATEWAY then
        d ← streq (rt_dest ri) (lit "0.0.0.0");
        m ← (if (d : bool) then streq (rt_mask ri) (lit "0.0.0.0") else Ok false);
        if (m : bool) then n ← strlen (rt_gw ri); malloc_strcpy (n + 1) (rt_gw ri)
        else find_default l
      else find_default l
  end.

Definition get_default_gateway (junk : nat → Z) : ST W charp :=
  lista ← get_routes junk;
  match lista with
  | Some l => lift (find_default l)
  | None => mret None
  end.

(** The first route with this destination and mask. *)
Fixpoint find_gateway (net mask : charp) (l : list entrada_rotas) : res charp :=
  match l with
  | [] => Ok None
  | ri :: l =>
      d ← streq (rt_dest ri) net;
      m ← (if (d : bool) then streq (rt_mask ri) mask else Ok false);
      if (m : bool) then n ← strlen (rt_gw ri); malloc_strcpy (n + 1) (rt_gw ri)
      else find_gateway net mask l
  end.

Definition get_gateway (junk : nat → Z) (net mask : charp) : ST W charp :=
  lista ← get_routes junk;
  match lista with
  | Some l => lift (find_gateway net mask l)
  | None => mret None
  end.

(** [find_dns] of [get_dns.c]: [nsaddr_list[0]] is copied once per server. *)
Definition find_dns (nsaddr_list : list Z) : res (list charp) :=
  mapM (λ _, a ← index nsaddr_list 0; convert_s_addr a) nsaddr_list.
End routes.

(** ** What the kernel writes *)

(** A route, and its line: fields separated by tabs and blanks up to the
    newline. *)
Record kroute := KRoute {
  kr_name : list Z; kr_dest : Z; kr_gw : Z; kr_flags : Z; kr_refcnt : Z; kr_use : Z; kr_metric : Z;
  kr_mask : Z; kr_mtu : Z; kr_window : Z; kr_irtt : Z; kr_padding : nat
}.

Definition route_fields (r : kroute) : list (list Z) :=
  [kr_name r; hex_fixed 8 (kr_dest r); hex_fixed 8 (kr_gw r); hex_fixed 4 (kr_flags r);
   decimal 10 (kr_refcnt r); decimal 10 (kr_use r); decimal 10 (kr_metric r); hex_fixed 8 (kr_mask r);
   decimal 10 (kr_mtu r); decimal 10 (kr_window r); decimal 10 (kr_irtt r)].
Definition route_text (r : kroute) : list Z :=
  join_sep 9 (route_fields r) ++ replicate (kr_padding r) 32.
Definition route_line (r : kroute) : list Z := route_text r ++ [10].

Definition route_ok (r : kroute) : bool :=
  (0 <? Z.of_nat (length (kr_name r))) && (Z.of_nat (length (kr_name r)) <? 16) &&
  forallb (λ c, is_char c && negb (isspace c)) (kr_name r) &&
  u32_ok (kr_dest r) && u32_ok (kr_gw r) && u32_ok (kr_mask r) && u_ok 16 (kr_flags r) &&
  i32_ok (kr_refcnt r) && i32_ok (kr_use r) && i32_ok (kr_metric r) &&
  i32_ok (kr_mtu r) && i32_ok (kr_window r) && i32_ok (kr_irtt r) && (Z.of_nat (kr_padding r) <? 128).

Definition rota_of (r : kroute) : entrada_rotas :=
  Rota (mk_str (kr_name r)) (mk_str (inet_ntoa (kr_dest r))) (mk_str (inet_ntoa (kr_gw r)))
    (mk_str (inet_ntoa (kr_mask r))) (kr_flags r) (kr_refcnt r) (kr_use r) (kr_metric r) (kr_mtu r)
    (kr_window r) (kr_irtt r).

(** A route to a gateway from everywhere. *)
Definition default_route (r : kroute) : bool :=
  Z.testbit (kr_flags r) 1 && (kr_dest r =? 0) && (kr_mask r =? 0).

Lemma dec_byte b : 0 ≤ b < 256 →
  Forall (λ c, isdigit c = true) (dec_nat 3 b) ∧ (0 < length (dec_nat 3 b) ≤ 3)%nat.
Proof.
  intros Hb. destruct (dec_nat_spec 3 b) as (_ & Hd & Hl); [change (10 ^ Z.of_nat 3) with 1000; lia|].
  split; [done|]. pose proof (dec_nat_nonempty 2 b). destruct (dec_nat 3 b); [done|simpl in *; lia].
Qed.

Lemma ntoa_chars v : Forall (λ c, 46 ≤ c ≤ 57) (inet_ntoa v) ∧ (length (inet_ntoa v) ≤ 15)%nat.
Proof.
  assert (∀ x, Forall (λ c, 46 ≤ c ≤ 57) (dec_nat 3 (x `mod` 256)) ∧ (length (dec_nat 3 (x `mod` 256)) ≤ 3)%nat) as Hx.
  { intros x. destruct (dec_byte (x `mod` 256)) as [Hd Hl]; [apply Z.mod_pos_bound; lia|]. split; [|lia].
    eapply Forall_impl; [exact Hd|]. unfold isdigit. intros c Hc. lia. }
  unfold inet_ntoa. rewrite !length_app. pose proof (Hx v). pose proof (Hx (v / 256)).
  pose proof (Hx (v / 256 / 256)). pose proof (Hx (v / 256 / 256 / 256)). destruct_and!.
  split; [|cbn [length]; lia]. repeat (apply Forall_app_2; [done|]). by repeat (apply Forall_app_2; [done || by repeat constructor|]).
Qed.

Lemma ntoa_nonzero v : Forall (λ c, c ≠ 0) (inet_ntoa v).
Proof. eapply Forall_impl; [apply ntoa_chars|]. intros c Hc. cbn in Hc. lia. Qed.

Lemma ntoa_named v : named (mk_str (inet_ntoa v)) = true ∧ text (mk_str (inet_ntoa v)) = inet_ntoa v.
Proof.
  destruct (ntoa_chars v) as [Hc Hl].
  assert (forallb is_char (inet_ntoa v) = true) as Hic.
  { apply forallb_forall. intros c Hin%list_elem_of_In. eapply Forall_forall in Hin; [|exact Hc].
    cbn in Hin. unfold is_char. lia. }
  split; [unfold named; cbn [mk_str nonnull]; apply cstr_ok_mk; [done|lia]|by apply text_mk].
Qed.

(** The byte behind a [0] followed by a dot, or at the end. *)
Lemma zero_byte b r1 r2 : 0 ≤ b < 256 → dec_nat 3 b ++ 46 :: r1 = 48 :: 46 :: r2 → b = 0 ∧ r1 = r2.
Proof.
  intros Hb E. cbn [dec_nat] in E. destruct (Z.ltb_spec b 10) as [H1|H1].
  - rewrite Z.mod_small in E by lia. cbn [app] in E. simplify_eq. split; [lia|done].
  - exfalso. destruct (Z.ltb_spec (b / 10) 10) as [H2|H2].
    + injection E as _ E _. pose proof (Z.mod_pos_bound b 10 ltac:(lia)). lia.
    + destruct (Z.ltb_spec (b / 10 / 10) 10) as [H3|H3]; injection E as _ E _;
        pose proof (Z.mod_pos_bound (b / 10) 10 ltac:(lia)); lia.
Qed.

Lemma zero_byte_end b : 0 ≤ b < 256 → dec_nat 3 b = [48] → b = 0.
Proof.
  intros Hb E. destruct (zero_byte b [] [] Hb) as [-> _]; [by rewrite E|done].
Qed.

Lemma ntoa_zero v : u32_ok v = true → inet_ntoa v = lit_bytes "0.0.0.0" ↔ v = 0.
Proof.
  intros Hv. split; [|by intros ->]. unfold inet_ntoa. intros E.
  pose proof (Z.mod_pos_bound v 256 ltac:(lia)). pose proof (Z.mod_pos_bound (v / 256) 256 ltac:(lia)).
  pose proof (Z.mod_pos_bound (v / 256 / 256) 256 ltac:(lia)).
  pose proof (Z.mod_pos_bound (v / 256 / 256 / 256) 256 ltac:(lia)).
  apply zero_byte in E as [E1 E]; [|lia]. apply zero_byte in E as [E2 E]; [|lia].
  apply zero_byte in E as [E3 E]; [|lia]. apply zero_byte_end in E; [|lia].
  pose proof (Z_div_mod_eq_full v 256). pose proof (Z_div_mod_eq_full (v / 256) 256).
  pose proof (Z_div_mod_eq_full (v / 256 / 256) 256). pose proof (Z_div_mod_eq_full (v / 256 / 256 / 256) 256).
  assert (v / 256 / 256 / 256 / 256 = 0); [|lia].
  rewrite !Z.div_div by lia. apply Z.div_small. unfold u_ok in Hv. split_andb. to_prop. lia.
Qed.

Lemma gateway_flag z : 0 ≤ z → (0 <? Z.land z ROUTE_FLAGS_GATEWAY) = Z.testbit z 1.
Proof.
  intros Hz. unfold ROUTE_FLAGS_GATEWAY. destruct (Z.testbit z 1) eqn:E.
  - apply Z.ltb_lt. assert (Z.land z 2 ≠ 0); [|pose proof (Z.land_nonneg z 2); lia].
    intros H0. assert (Z.testbit (Z.land z 2) 1 = false) as H1 by (by rewrite H0).
    rewrite Z.land_spec, E in H1. done.
  - assert (Z.land z 2 = 0) as ->; [|done]. apply Z.bits_inj'. intros n Hn.
    rewrite Z.land_spec, Z.bits_0. destruct (decide (n = 1)) as [->|Hne]; [by rewrite E|].
    change 2 with (2 ^ 1). rewrite Z.pow2_bits_false by done. apply andb_false_r.
Qed.

Section route_props.
Context {W : Type} `{Files W, Allocator}.

Lemma find_default_spec l : Forall (λ r, route_ok r = true) l →
  find_default (rota_of <$> l) =
    Ok (match list_find (λ r, default_route r = true) l with
        | Some (_, r) => mk_str (inet_ntoa (kr_gw r)) | None => None end).
Proof.
  induction 1 as [|r l Hr Hl IH]; [done|]. rewrite fmap_cons. cbn [find_default list_find rota_of rt_flags rt_dest rt_mask rt_gw].
  unfold route_ok in Hr. split_andb. to_prop.
  rewrite gateway_flag by (unfold u_ok in *; split_andb; to_prop; lia).
  assert (∀ v, u32_ok v = true → streq (mk_str (inet_ntoa v)) (lit "0.0.0.0") = Ok (v =? 0)) as Hz.
  { intros v Hv. destruct (ntoa_named v) as [Hn Ht]. rewrite streq_spec by done. rewrite Ht.
    change (text (lit "0.0.0.0")) with (lit_bytes "0.0.0.0"). f_equal.
    destruct (Z.eqb_spec v 0) as [->|Hne]; [done|]. apply bool_decide_eq_false. by rewrite ntoa_zero. }
  rewrite !Hz by done. cbn [mbind res_bind].
  destruct (decide (default_route r = true)) as [Hd|Hd].
  - unfold default_route in Hd. apply andb_prop in Hd as [[-> ->]%andb_prop ->]. cbn [mbind res_bind].
    rewrite strlen_mk by apply ntoa_nonzero. cbn [mbind res_bind].
    by rewrite malloc_strcpy_mk by apply ntoa_nonzero.
  - assert (∀ (b c d : bool) (x y : res charp), b && c && d = false →
      (if b then (m ← (if c then Ok d else Ok false); if (m : bool) then x else y) else y) = y) as Hif.
    { by intros [] [] []. }
    rewrite Hif by (by apply not_true_is_false). rewrite IH. by destruct (list_find _ l) as [[]|].
Qed.

Lemma route_name_chars r : route_ok r = true →
  Forall (λ c, isspace c = false ∧ c ≠ 0 ∧ c ≠ 10) (kr_name r) ∧ (0 < length (kr_name r) < 16)%nat.
Proof.
  unfold route_ok. intros Hr. split_andb. to_prop. split; [|lia].
  match goal with H : forallb _ (kr_name r) = true |- _ => apply forallb_Forall in H; eapply Forall_impl; [exact H|] end.
  unfold is_char, isspace. intros c Hc. cbn in Hc. lia.
Qed.

Lemma route_line_fields r : route_ok r = true →
  Forall2 (λ '(c, t) v, field_of c t v) (zip route_convs (route_fields r))
    [Str (kr_name r); Num (kr_dest r); Num (kr_gw r); Num (kr_flags r); Num (kr_refcnt r); Num (kr_use r);
     Num (kr_metric r); Num (kr_mask r); Num (kr_mtu r); Num (kr_window r); Num (kr_irtt r)].
Proof.
  intros Hok. pose proof Hok as Hr. unfold route_ok in Hr. split_andb. to_prop.
  assert (∀ z, i32_ok z = true → field_of (Dec 32) (decimal 10 z) (Num z)) as Hd.
  { intros z Hz. apply field_dec; [|done]. unfold s_ok in Hz. split_andb. to_prop.
    change (10 ^ Z.of_nat 10) with 10000000000. lia. }
  assert (∀ z, u32_ok z = true → field_of (Hex 32) (hex_fixed 8 z) (Num z)) as Hh.
  { intros z Hz. unfold u_ok in Hz. split_andb. to_prop. apply field_hex; [lia| |lia|lia].
    change (16 ^ Z.of_nat 8) with (2 ^ 32). lia. }
  assert (field_of (Hex 32) (hex_fixed 4 (kr_flags r)) (Num (kr_flags r))) as Hf.
  { unfold u_ok in *. split_andb. to_prop. apply field_hex; [lia| |lia|lia].
    change (16 ^ Z.of_nat 4) with (2 ^ 16). lia. }
  constructor; [|repeat (constructor; [by auto|]); constructor].
  apply field_word; [|by destruct (kr_name r)|unfold WAPI_PROC_LINE_SIZE; lia].
  eapply Forall_impl; [by apply (proj1 (route_name_chars r Hok))|]. by intros c [].
Qed.

Lemma route_text_chars r : route_ok r = true →
  Forall (λ c, c ≠ 0 ∧ c ≠ 10) (route_text r) ∧ (length (route_text r) < 1023)%nat.
Proof.
  intros Hok. destruct (route_name_chars r Hok) as [Hn Hnl].
  assert (∀ z, i32_ok z = true → Forall (λ c, c ≠ 0 ∧ c ≠ 10) (decimal 10 z) ∧ (length (decimal 10 z) ≤ 15)%nat) as Hd.
  { intros z Hz. unfold s_ok in Hz. split_andb. to_prop.
    destruct (decimal_chars 10 z) as [Hc Hl]; [change (10 ^ Z.of_nat 10) with 10000000000; lia|]. split; [done|lia]. }
  assert (∀ n z, (n ≤ 8)%nat → 0 ≤ z < 16 ^ Z.of_nat n →
    Forall (λ c, c ≠ 0 ∧ c ≠ 10) (hex_fixed n z) ∧ (length (hex_fixed n z) ≤ 15)%nat) as Hh.
  { intros n z Hn' Hz. destruct (hex_chars n z Hz). split; [done|lia]. }
  unfold route_ok in Hok. split_andb. unfold u_ok in *. split_andb. to_prop.
  destruct (joined_chars 9 15 (route_fields r)) as [Hc Hl]; [done|done| |].
  { unfold route_fields. constructor; [split; [|lia]|].
    { eapply Forall_impl; [exact Hn|]. intros c Hcc. cbn in Hcc. tauto. }
    change (16 ^ Z.of_nat 8) with (2 ^ 32) in *. 
    repeat (constructor; [first [by apply Hd | apply Hh; [lia|]; change (16 ^ Z.of_nat 8) with (2 ^ 32);
      change (16 ^ Z.of_nat 4) with (2 ^ 16); lia]|]). constructor. }
  unfold route_text. split.
  - apply Forall_app_2; [done|]. apply Forall_replicate. lia.
  - rewrite length_app, length_replicate. change (length (route_fields r)) with 11%nat in Hl. lia.
Qed.

Lemma scan_route_line junk r : route_ok r = true → scan_route junk (route_line r) = Ok (rota_of r).
Proof.
  intros Hok. destruct (route_text_chars r Hok) as [Hc _]. destruct (route_name_chars r Hok) as [Hn _].
  unfold scan_route, route_line.
  assert (upto_nul (route_text r ++ [10]) = route_text r ++ [10]) as ->.
  { apply upto_nul_id, Forall_app_2; [|by constructor]. eapply Forall_impl; [exact Hc|]. by intros c []. }
  unfold route_text. rewrite <- app_assoc.
  assert (ends_number (replicate (kr_padding r) 32 ++ [10])) as He
    by (by destruct (kr_padding r); intros c l [= <- _]).
  rewrite (scan_fields 9 _ _ _ _ eq_refl He (route_line_fields r Hok)) by done.
  cbn [mbind res_bind str_at lookup list_lookup num_at]. unfold convert_s_addr.
  rewrite (malloc_strcpy_mk (kr_name r))
    by (eapply Forall_impl; [exact Hn|]; intros c Hcc; cbn in Hcc; tauto).
  by rewrite !malloc_strcpy_mk by apply ntoa_nonzero.
Qed.

Lemma scan_routes_lines junk l l0 : forallb route_ok l = true →
  scan_routes junk (route_line <$> l) l0 = Ok (reverse (rota_of <$> l) ++ l0).
Proof.
  revert l0. induction l as [|r l IH]; intros l0 Hl; [done|]. cbn [forallb] in Hl. split_andb.
  rewrite !fmap_cons. cbn [scan_routes]. rewrite scan_route_line by done. cbn [mbind res_bind].
  rewrite IH by done. rewrite reverse_cons. by rewrite <- app_assoc.
Qed.

(** The table as the kernel prints it: a line of titles and the routes. *)
Definition route_file (title : list Z) (l : list kroute) : list Z :=
  (title ++ [10]) ++ concat (route_line <$> l).

Lemma route_file_lines title l : Forall (λ c, c ≠ 10) title → (length title < 1023)%nat →
  forallb route_ok l = true →
  lines_of (WAPI_PROC_LINE_SIZE - 1) (route_file title l) = (title ++ [10]) :: (route_line <$> l).
Proof.
  intros Ht Htl Hl. unfold route_file, lines_of.
  assert (route_line <$> l = (λ b, b ++ [10]) <$> (route_text <$> l)) as E by (by rewrite <- list_fmap_compose).
  rewrite E. change ((title ++ [10]) ++ concat ((λ b, b ++ [10]) <$> (route_text <$> l))) with
    (concat ((λ b, b ++ [10]) <$> (title :: (route_text <$> l)))).
  rewrite read_lines_cut; [done| |apply concat_lines_length].
  constructor; [split; [done|exact Htl]|]. apply Forall_fmap, Forall_forall. intros r Hr.
  rewrite forallb_forall in Hl. destruct (route_text_chars r) as [Hc Hs]; [by apply Hl, list_elem_of_In|].
  split; [eapply Forall_impl; [exact Hc|]; by intros c []|exact Hs].
Qed.

(** The agent reads the routes the kernel lists, in the opposite order, so
    that the default gateway is that of the last route of the table that leads
    everywhere through a gateway, and NULL when there is none. *)
Theorem default_gateway_is_last junk title l w w' :
  Forall (λ c, c ≠ 10) title → (length title < 1023)%nat → forallb route_ok l = true →
  fread WAPI_PROC_NET_ROUTE w = Ok (Some (route_file title l), w') →
  get_routes junk w = Ok (match l with [] => None | _ => Some (reverse (rota_of <$> l)) end, w') ∧
  get_default_gateway junk w =
    Ok (match list_find (λ r, default_route r = true) (reverse l) with
        | Some (_, r) => mk_str (inet_ntoa (kr_gw r)) | None => None end, w').
Proof.
  intros Ht Htl Hl Hf.
  assert (get_routes junk w = Ok (match l with [] => None | _ => Some (reverse (rota_of <$> l)) end, w')) as Hg.
  { unfold get_routes. run Hf. rewrite route_file_lines by done.
    run (lift_Ok _ w' _ (scan_routes_lines junk l [] Hl)). rewrite app_nil_r.
    destruct l as [|r l]; [done|]. rewrite fmap_cons, reverse_cons. by destruct (reverse _). }
  split; [done|]. unfold get_default_gateway. run Hg. destruct l as [|r l]; [done|].
  rewrite <- fmap_reverse, find_default_spec; [done|].
  apply Forall_reverse, forallb_Forall, Hl.
Qed.
End route_props.

(** ** A sample *)

#[local] Instance route_world : Files (list Z) := {|
  fread _ w := Ok (Some w, w); fopen_w _ := mret false; fwrite _ _ := mret tt
|}.

(** Two default routes: through 192.168.1.1 with metric 100 and through
    10.0.0.1 with metric 600, and a network. *)
Definition two_gateways : list kroute :=
  [KRoute (lit_bytes "eth0") 0 16885952 3 0 0 100 0 0 0 0 40;
   KRoute (lit_bytes "wlan0") 0 16777226 3 0 0 600 0 0 0 0 40;
   KRoute (lit_bytes "eth0") 108736 0 1 0 0 100 16777215 0 0 0 40].

Lemma default_gateway_is_last_witness :
  let w := route_file (lit_bytes "Iface Destination Gateway") two_gateways in
  @get_default_gateway _ route_world exact_alloc (λ _, 0) w = Ok (lit "10.0.0.1", w).
Proof.
  intros w. refine (proj2 (@default_gateway_is_last _ route_world exact_alloc (λ _, 0)
    (lit_bytes "Iface Destination Gateway") two_gateways w w _ _ _ _)).
  - by repeat constructor.
  - vm_compute. lia.
  - reflexivity.
  - reflexivity.
Defined.
