(* ===== verification/StationLink.v ===== *)
(** How a station sees and changes its access point: [iw_link.c], [getmac.c]
    and [change_ap.c] of [ethanol_functions/]. *)
From stdpp Require Import prelude list strings.
From S2P Require Import Prelude CMem Lines IniFile ConfigFile Connect HostapdConf MemInfo Scanf.

(** [strstr(s, t)]: the text from the first occurrence on. *)
Fixpoint strstr_at (s t : list Z) : option (list Z) :=
  if bool_decide (take (length t) s = t) then Some s
  else match s with [] => None | _ :: s => strstr_at s t end.

(** The text of a format. *)
Definition fmt_text (s : string) : list item :=
  (λ c, if isspace c then Blank else Lit c) <$> lit_bytes s.

Definition assigned {A} (o : option A) : res A := match o with Some a => Ok a | None => Err ReadIndeterminate end.

(** ** iw_link.c *)

(** [iw_link_info_t], without the bit rate. *)
Record iw_link_info_t := IwLink {
  il_connected : bool; il_intf_name : charp; il_SSID : charp; il_mac_address : charp;
  il_freq : Z; il_rx_bytes : Z; il_rx_packets : Z; il_tx_bytes : Z; il_tx_packets : Z;
  il_signal : Z; il_dtim_period : Z; il_beacon_interval : Z
}.

Definition iw_link_init : iw_link_info_t := IwLink false None None None 0 0 0 0 0 0 0 0.

Section tools.
Context {W : Type} `{Shell W, Files W, Allocator}.

(** The tests of one line, in their order; [of p fmt] are the values assigned
    when the line contains [p]. *)
Definition link_line (l : iw_link_info_t) (buf : list Z) : res iw_link_info_t :=
  let line := upto_nul buf in
  let on (key : string) (fmt : list item) (k : list value → iw_link_info_t → res iw_link_info_t)
      (l : iw_link_info_t) : res iw_link_info_t :=
    match strstr_at line (lit_bytes key) with
    | Some p => vs ← sscanf (fmt_text key ++ fmt) p; k vs l
    | None => Ok l
    end in
  l ← on "Connected"%string [Blank; Conv (Word 50); Blank; Conv (Word 50)] (λ vs l,
        mac ← assigned (str_at vs 0); intf ← assigned (str_at vs 1);
        intf ← copy_string (mk_str intf); mac ← copy_string (mk_str mac);
        Ok (IwLink true intf (il_SSID l) mac (il_freq l) (il_rx_bytes l) (il_rx_packets l)
              (il_tx_bytes l) (il_tx_packets l) (il_signal l) (il_dtim_period l) (il_beacon_interval l))) l;
  l ← on "SSID:"%string [Blank; Conv (Word 50)] (λ vs l,
        ssid ← assigned (str_at vs 0); ssid ← copy_string (mk_str ssid);
        Ok (IwLink (il_connected l) (il_intf_name l) ssid (il_mac_address l) (il_freq l) (il_rx_bytes l)
              (il_rx_packets l) (il_tx_bytes l) (il_tx_packets l) (il_signal l) (il_dtim_period l)
              (il_beacon_interval l))) l;
  l ← on "Freq:"%string [Blank; Conv (Dec 32)] (λ vs l,
        Ok (IwLink (il_connected l) (il_intf_name l) (il_SSID l) (il_mac_address l)
              (num_at vs 0 (il_freq l)) (il_rx_bytes l) (il_rx_packets l) (il_tx_bytes l)
              (il_tx_packets l) (il_signal l) (il_dtim_period l) (il_beacon_interval l))) l;
  l ← on "RX:"%string ([Blank; Conv (Dec 64)] ++ fmt_text " bytes " ++ [Conv (Dec 64)] ++ fmt_text " packets")
        (λ vs l,
        Ok (IwLink (il_connected l) (il_intf_name l) (il_SSID l) (il_mac_address l) (il_freq l)
              (num_at vs 0 (il_rx_bytes l)) (num_at vs 1 (il_rx_packets l)) (il_tx_bytes l)
              (il_tx_packets l) (il_signal l) (il_dtim_period l) (il_beacon_interval l))) l;
  l ← on "TX:"%string ([Blank; Conv (Dec 64)] ++ fmt_text " bytes " ++ [Conv (Dec 64)] ++ fmt_text " packets")
        (λ vs l,
        Ok (IwLink (il_connected l) (il_intf_name l) (il_SSID l) (il_mac_address l) (il_freq l)
              (il_rx_bytes l) (il_rx_packets l) (num_at vs 0 (il_tx_bytes l))
              (num_at vs 1 (il_tx_packets l)) (il_signal l) (il_dtim_period l) (il_beacon_interval l))) l;
  l ← on "Signal:"%string [Blank; Conv (Dec 64)] (λ vs l,
        Ok (IwLink (il_connected l) (il_intf_name l) (il_SSID l) (il_mac_address l) (il_freq l)
              (il_rx_bytes l) (il_rx_packets l) (il_tx_bytes l) (il_tx_packets l)
              (num_at vs 0 (il_signal l)) (il_dtim_period l) (il_beacon_interval l))) l;
  on "dtim period:"%string ([Blank; Conv (Dec 32)] ++ fmt_text " beacon int: " ++ [Conv (Dec 32)]) (λ vs l,
        Ok (IwLink (il_connected l) (il_intf_name l) (il_SSID l) (il_mac_address l) (il_freq l)
              (il_rx_bytes l) (il_rx_packets l) (il_tx_bytes l) (il_tx_packets l) (il_signal l)
              (num_at vs 0 (il_dtim_period l)) (num_at vs 1 (il_beacon_interval l)))) l.

Fixpoint link_lines (l : iw_link_info_t) (lines : list (list Z)) : res iw_link_info_t :=
  match lines with [] => Ok l | buf :: lines => l ← link_line l buf; link_lines l lines end.

Definition get_iw_link (iw_path intf_name : charp) : ST W (option iw_link_info_t) :=
  if negb (nonnull intf_name) then mret None else
  iw ← lift (chars iw_path);
  intf ← lift (chars intf_name);
  cmd ← lift (sprintf_local 2000 (lit_bytes "sudo " ++ iw ++ lit_bytes " dev " ++ intf ++ lit_bytes " link"));
  pp ← popen cmd;
  match pp with
  | None => mret None
  | Some out => l ← lift (link_lines iw_link_init (lines_of 999 out)); mret (Some l)
  end.

(** ** getmac.c *)

(** The interface and its address; [getline] reads a line of any length. *)
Definition getmacaddress (intf : charp) : ST W (option (charp * charp)) :=
  if negb (nonnull intf) then mret None else
  i ← lift (chars intf);
  path ← lift (sprintf_local 1024 (lit_bytes "/sys/class/net/" ++ i ++ lit_bytes "/address"));
  fp ← fread path;
  match fp with
  | None => mret None
  | Some file =>
      match lines_of (length file) file with
      | [] => mret None
      | line :: _ =>
          s ← lift (trim_string (mk_str (upto_nul line)));
          if nonnull s then
            n ← lift (copy_string intf);
            m ← lift (copy_string s);
            mret (Some (n, m))
          else mret None
      end
  end.

(** ** change_ap.c *)

Definition status_command (cli intf : list Z) : list Z :=
  lit_bytes "sudo " ++ cli ++ lit_bytes " -i " ++ intf ++ lit_bytes " status".
Definition roam_command (cli intf mac : list Z) : list Z :=
  lit_bytes "sudo " ++ cli ++ lit_bytes " -i " ++ intf ++ lit_bytes " roam " ++ mac.

(** The loop over the lines of the status, up to the first with [bssid]: what
    the array holds after it. *)
Fixpoint bssid_of (lines : list (list Z)) (old : option (list Z)) : res (option (list Z)) :=
  match lines with
  | [] => Ok old
  | buf :: lines =>
      match strstr_at (upto_nul buf) (lit_bytes "bssid") with
      | Some p =>
          vs ← sscanf (fmt_text "bssid=" ++ [Conv (Word 20)]) p;
          Ok (match str_at vs 0 with Some s => Some s | None => old end)
      | None => bssid_of lines old
      end
  end.

Definition read_status (cli intf : list Z) (old : option (list Z)) : ST W (option (list Z)) :=
  cmd ← lift (sprintf_local 2000 (status_command cli intf));
  pp ← popen cmd;
  match pp with Some out => lift (bssid_of (lines_of 999 out) old) | None => mret old end.

(** [for (tries = 0; tries < max_tries; tries++)], from the arrays
    [actual_ap] and [new_intf]. *)
Fixpoint roam_tries (tries : nat) (cli intf : list Z) (mac : charp) (actual_ap new_intf : option (list Z)) :
    ST W unit :=
  match tries with
  | O => mret tt
  | S tries =>
      actual_ap ← read_status cli intf actual_ap;
      m ← lift (chars mac);
      cmd ← lift (sprintf_local 2000 (roam_command cli intf m));
      popen cmd;;
      new_intf ← read_status cli intf new_intf;
      bssid ← lift (assigned new_intf);
      same ← lift (streq (mk_str bssid) mac);
      if (same : bool) then mret tt else roam_tries tries cli intf mac actual_ap (Some bssid)
  end.

Definition roam_change_ap (max_tries : Z) (intf_name new_ap_macaddress : charp) : ST W Z :=
  path ← which_path (lit "wpa_cli");
  if negb (nonnull path) then mret (-1) else
  cli ← lift (chars path);
  (if 0 <? max_tries then
     intf ← lift (chars intf_name);
     roam_tries (Z.to_nat max_tries) cli intf new_ap_macaddress None None
   else mret tt);;
  mret 0.

(** [roam_change_ap] never reports a failure to roam: whatever access point
    the supplicant ends up with, a run that finds wpa_cli and returns returns
    0; -1 only means that wpa_cli was not found. *)
Theorem roam_result_is_constant max_tries intf mac w r w' :
  roam_change_ap max_tries intf mac w = Ok (r, w') →
  ∃ path w1, which_path (lit "wpa_cli") w = Ok (path, w1) ∧ r = if nonnull path then 0 else -1.
Proof.
  unfold roam_change_ap. intros E. run_inv E. exists a, s. split; [done|].
  destruct (nonnull a); cbn [negb] in E; [|by injection E]. do 2 run_inv E. by injection E.
Qed.
End tools.

(** ** Samples *)

(** A shell that prints the path of every command, and for the others the same
    status. *)
#[local] Instance cli_shell : Shell (list Z) := {|
  popen cmd w := Ok (Some (if strstr cmd (lit_bytes "which") then lit_bytes "/sbin/wpa_cli" ++ [10] else w), w);
  system _ := mret 0; time := mret 0
|}.

Definition stays : list Z := lit_bytes "bssid=66:77:88:99:aa:bb" ++ [10] ++ lit_bytes "freq=2412" ++ [10].

(** The supplicant stays where it is, and the result is 0. *)
Lemma roam_result_is_constant_witness :
  roam_change_ap 1 (lit "wlan0") (lit "00:11:22:33:44:55") stays = Ok (0, stays) ∧
  ∃ path w1, which_path (lit "wpa_cli") stays = Ok (path, w1) ∧ 0 = if nonnull path then 0 else -1.
Proof.
  assert (roam_change_ap 1 (lit "wlan0") (lit "00:11:22:33:44:55") stays = Ok (0, stays)) as E
    by (vm_compute; reflexivity).
  split; [exact E|]. exact (roam_result_is_constant 1 (lit "wlan0") (lit "00:11:22:33:44:55") stays 0 stays E).
Defined.

(** The report of [iw] in the comment of [iw_link.c]. *)
Definition link_report : list Z :=
  concat ((λ s, lit_bytes s ++ [10]) <$>
    ["Connected b8:a3:86:50:67:2e wlan0"; "  SSID: winet"; "  Freq: 2417";
     "RX: 6290 bytes 53 packets"; "TX: 471 bytes 5 packets"; "Signal: -36 dBm";
     "Tx bitrate: 1.0 MBit/s"; "bss flags: short-preamble short-slot-time";
     "dtim period: 0 beacon int:100 "]%string).

Example get_iw_link_sample :
  @get_iw_link _ cli_shell glibc_alloc (lit "./iw") (lit "wlan0") link_report =
  Ok (Some (IwLink true (lit "wlan0") (lit "winet") (lit "b8:a3:86:50:67:2e") 2417 6290 53 471 5 (-36) 0 100),
      link_report).
Proof. vm_compute. reflexivity. Qed.
