(* ===== verification/IwBitrates.v ===== *)
(** The bit rates of a radio: the lines the modified [iw] prints
    ([iw-4.9/info.c]) and their reader [get_bitrates] in
    [ethanol_functions/iw_bitrates.c], with the other commands of that file.

    [printf("%2.1f")] and [sscanf("%f")] are written out on IEEE values; the
    conversion of [sscanf] is modelled for decimal numbers. *)
From stdpp Require Import prelude list strings.
From Stdlib Require Import SpecFloat.
From S2P Require Import Prelude CMem Lines IniFile ConfigFile Connect HostapdConf MemInfo Scanf CFloat.
From S2P Require Import BufferHandler World TimeStamp IwDump StationLink.

(** ** Decimal fractions *)

(** One decimal, rounded to the nearest; two columns are always filled. *)
Definition fixed1 (z : Z) : list Z := dec_nat 320 (z / 10) ++ lit_bytes "." ++ pad 1 (z `mod` 10).
Definition fmt_f1 (x : spec_float) : list Z :=
  let sign (s : bool) := if s then lit_bytes "-" else [] in
  match x with
  | S754_zero s => sign s ++ fixed1 0
  | S754_infinity s => sign s ++ lit_bytes "inf"
  | S754_nan => lit_bytes "nan"
  | S754_finite s m e =>
      sign s ++ fixed1 (if 0 <=? e then Z.pos m * 10 * 2 ^ e else div_even (Z.pos m * 10) (2 ^ (- e)))
  end.

(** The [float] nearest to [m * 10 ^ k]. *)
Definition f32_decimal (neg : bool) (m k : Z) : spec_float :=
  match m with
  | Z.pos p =>
      if 0 <=? k then binary_normalize 24 128 ((if neg then -1 else 1) * m * 10 ^ k) 0 neg
      else SFdiv 24 128 (S754_finite neg p 0) (S754_finite false (Z.to_pos (10 ^ (- k))) 0)
  | _ => S754_zero neg
  end.

(** The exponent at the start of a text, if there is one; an [e] without digits
    makes the conversion fail. *)
Definition scan_exponent (s : list Z) : option Z :=
  match s with
  | c :: s =>
      if (c =? 101) || (c =? 69) then
        let '(neg, s) := scan_sign s in
        match scan_digits 10 s with Some (e, _) => Some (if neg then - e else e) | None => None end
      else Some 0
  | [] => Some 0
  end.

(** [sscanf(s, "%f", &x)]: what it assigns. *)
Definition scan_float (s : list Z) : option spec_float :=
  let '(neg, s) := scan_sign (lskip s) in
  let '(ip, r) := span_digits 10 s in
  let '(fp, r) := match r with c :: r' => if c =? 46 then span_digits 10 r' else ([], r) | [] => ([], r) end in
  match ip ++ fp with
  | [] => None
  | ds => e ← scan_exponent r; Some (f32_decimal neg (value_of 10 ds) (e - Z.of_nat (length fp)))
  end.

(** ** iw: print_phy_handler_bitrates *)

(** NL80211_ATTR_WIPHY_BANDS of a message: per band its type and its rates in
    units of 100 kbit/s (a rate may lack its value) with the flag of the short
    preamble. *)
Record band_attrs := BandAttrs { ba_type : Z; ba_rates : list (option Z * bool) }.
Record phy_attrs := PhyAttrs { pa_wiphy : option Z; pa_name : option (list Z); pa_bands : list band_attrs }.

(** The static variables. *)
Record bitrate_statics := Statics { bs_phy_id : Z; bs_last_band : Z; bs_wiphy : option (list Z) }.
Definition statics_init : bitrate_statics := Statics (-1) (-1) None.

Definition print_rate (r : option Z * bool) : list Z :=
  match r.1 with
  | Some rate =>
      fmt_f1 (f64_mul (f64_div (f64_of_Z 1) (f64_of_Z 10)) (f64_of_Z rate)) ++ lit_bytes "," ++
      lit_bytes (if r.2 then "S," else "L,")
  | None => []
  end.

(** A line without its newline. *)
Definition band_text (name : list Z) (band : Z) (rates : list (option Z * bool)) : list Z :=
  lit_bytes "Wiphy " ++ name ++ [9] ++ lit_bytes "Band " ++ number band ++ lit_bytes " :" ++
  concat (print_rate <$> rates).

(** The loop over the bands: the last band and what is printed. *)
Fixpoint print_bands (wiphy : option (list Z)) (last_band band : Z) (bands : list band_attrs) : Z * list Z :=
  match bands with
  | [] => (last_band, [])
  | b :: bands =>
      let band := if last_band =? ba_type b then band else ba_type b + 1 in
      let '(last, out) := print_bands wiphy (ba_type b) band bands in
      (last,
       (if band =? 0 then []
        else band_text (default (lit_bytes "(null)") wiphy) band (ba_rates b) ++ [10]) ++ out)
  end.

Definition print_phy_handler_bitrates (m : phy_attrs) (st : bitrate_statics) : bitrate_statics * list Z :=
  let print_name := match pa_wiphy m with Some i => negb (i =? bs_phy_id st) | None => true end in
  let last_band := match pa_wiphy m with
                   | Some _ => if print_name then -1 else bs_last_band st
                   | None => bs_last_band st
                   end in
  let wiphy := match pa_name m with
               | Some w => if print_name then Some w else bs_wiphy st
               | None => bs_wiphy st
               end in
  let '(last, out) := print_bands wiphy last_band 0 (pa_bands m) in
  (Statics (default (bs_phy_id st) (pa_wiphy m)) last wiphy, out).

(** What a dump of several messages prints. *)
Fixpoint print_phys (ms : list phy_attrs) (st : bitrate_statics) : list Z :=
  match ms with
  | [] => []
  | m :: ms => let '(st, out) := print_phy_handler_bitrates m st in out ++ print_phys ms st
  end.

(** ** The agent: get_bitrates *)

(** The tokens of [strtok(_, d)]: the longest runs without the delimiter. *)
Fixpoint tokens_from (d : Z) (cur s : list Z) : list (list Z) :=
  match s with
  | [] => match cur with [] => [] | _ => [cur] end
  | c :: s =>
      if c =? d then match cur with [] => tokens_from d [] s | _ => cur :: tokens_from d [] s end
      else tokens_from d (cur ++ [c]) s
  end.
Definition tokens (d : Z) (s : list Z) : list (list Z) := tokens_from d [] s.

(** What is left after the first token of [strtok(line, ":")]. *)
Fixpoint after_colon (s : list Z) : list Z :=
  match s with [] => [] | c :: s => if c =? 58 then s else after_colon s end.

(** [l_bitrates]: a band as it is collected; [None] is a field that was not
    assigned. *)
Record l_bitrates := LBitrates { lb_wiphy : list Z; lb_band : option Z; lb_b : list (Z * bool) }.

Definition bitrates_fmt : list item :=
  fmt_text "Wiphy " ++ [Conv (Word 50)] ++ fmt_text " Band " ++ [Conv (Dec 32)].

Section bitrates.
Context {W : Type} `{Shell W, Allocator}.

(** What the blocks hold before they are assigned: the [band] of the bands by
    their position, and the pattern of a rate. *)
Context (junk_band : nat → Z) (junk_rate : Z).

(** The tokens after the colon, two per entry, up to the newline. *)
Fixpoint read_rates (toks : list (list Z)) : res (list (Z * bool)) :=
  match toks with
  | [] => Ok []
  | t :: toks =>
      if bool_decide (t = [10]) then Ok [] else
      let bitrate := match scan_float t with Some f => f32_bits f | None => junk_rate end in
      match toks with
      | [] => Err NullDeref
      | k :: toks => r ← read_rates toks; Ok ((bitrate, negb (bool_decide (k = lit_bytes "L"))) :: r)
      end
  end.

(** One line.  [ls] are the bands so far, the last one first.  [b_tail] starts
    as NULL for each line, so that a band that has entries cannot get more. *)
Definition bitrate_line (wiphy : list Z) (ls : list l_bitrates) (line : list Z) : res (list l_bitrates) :=
  vs ← sscanf bitrates_fmt (upto_nul line);
  match vs with
  | [Str name; Num band] =>
      let ls := match ls with
                | [] => [LBitrates name (Some band) []]
                | tail :: ls' =>
                    if negb (default (junk_band (length ls')) (lb_band tail) =? band) || negb (bool_decide (lb_wiphy tail = wiphy))
                    then LBitrates name None [] :: ls else ls
                end in
      rates ← read_rates (tokens 44 (after_colon (upto_nul line)));
      match ls, rates with
      | tail :: ls', _ :: _ =>
          match lb_b tail with
          | [] => Ok (LBitrates (lb_wiphy tail) (lb_band tail) rates :: ls')
          | _ => Err NullDeref
          end
      | _, _ => Ok ls
      end
  | _ => Ok ls
  end.

Fixpoint bitrate_lines (wiphy : list Z) (ls : list l_bitrates) (lines : list (list Z)) : res (list l_bitrates) :=
  match lines with
  | [] => Ok ls
  | line :: lines => ls ← bitrate_line wiphy ls line; bitrate_lines wiphy ls lines
  end.

(** The bands are copied to an array of as many entries, but the index stays 0:
    every band is stored in the first entry and the other ones, [None], are
    never assigned. *)
Fixpoint copy_bands (k : nat) (ls : list l_bitrates) (b : list (option iw_bitrates)) : list (option iw_bitrates) :=
  match ls with
  | [] => b
  | l :: ls =>
      copy_bands (S k) ls
        (<[0%nat := Some (IwBitrates (mk_str (lb_wiphy l)) (default (junk_band k) (lb_band l)) (lb_b l))]> b)
  end.

Definition bitrates_result (ls : list l_bitrates) : option (list (option iw_bitrates)) :=
  match ls with
  | [] => None
  | _ => Some (copy_bands 0 (rev ls) (replicate (length ls) None))
  end.

Definition bitrates_command (iw wiphy : list Z) : list Z :=
  lit_bytes "sudo " ++ iw ++ lit_bytes " phy " ++ wiphy ++ lit_bytes " bitrates".

Definition get_bitrates (iw_path wiphy : charp) : ST W (option (list (option iw_bitrates))) :=
  iw ← lift (chars iw_path);
  phy ← lift (chars wiphy);
  cmd ← lift (sprintf_local 2000 (bitrates_command iw phy));
  pp ← popen cmd;
  match pp with
  | None => mret None
  | Some out => ls ← lift (bitrate_lines phy [] (lines_of 999 out)); mret (bitrates_result ls)
  end.
End bitrates.

(** The example of the comment in [get_bitrates]. *)
Definition sample_rates : list (option Z * bool) :=
  [(Some 10, false); (Some 20, true); (Some 55, true); (Some 110, true); (Some 60, false); (Some 540, false)].
Example sample_line : band_text (lit_bytes "phy0") 1 sample_rates =
  lit_bytes "Wiphy phy0" ++ [9] ++ lit_bytes "Band 1 :1.0,L,2.0,S,5.5,S,11.0,S,6.0,L,54.0,L,".
Proof. vm_compute. reflexivity. Qed.

(** ** Reading back *)

#[global] Instance spec_float_eq_dec : EqDecision spec_float.
Proof. solve_decision. Defined.

(** A rate of less than 200 Mbit/s (the legacy rates end at 54), what the agent
    makes of it, and the characters it is printed with. *)
Definition rate_value (r : Z) : Z := f32_bits (f32_decimal false r (-1)).
Definition rate_char (c : Z) : bool := ((48 <=? c) && (c <=? 57)) || (c =? 46).

Lemma rate_text r : 0 ≤ r < 2000 →
  fmt_f1 (f64_mul (f64_div (f64_of_Z 1) (f64_of_Z 10)) (f64_of_Z r)) = fixed1 r ∧
  scan_float (fixed1 r) = Some (f32_decimal false r (-1)) ∧ forallb rate_char (fixed1 r) = true ∧
  (0 < length (fixed1 r) ≤ 5)%nat.
Proof.
  intros Hr. set (ok := λ r : Z,
    bool_decide (fmt_f1 (f64_mul (f64_div (f64_of_Z 1) (f64_of_Z 10)) (f64_of_Z r)) = fixed1 r) &&
    bool_decide (scan_float (fixed1 r) = Some (f32_decimal false r (-1))) && forallb rate_char (fixed1 r) &&
    bool_decide (0 < length (fixed1 r) ≤ 5)%nat).
  assert (forallb ok (seqZ 0 2000) = true) as Hall by (vm_compute; reflexivity).
  apply forallb_Forall in Hall. rewrite Forall_forall in Hall.
  assert (ok r = true) as Hok by (apply Hall, elem_of_seqZ; lia).
  unfold ok in Hok. split_andb. repeat match goal with H : bool_decide _ = true |- _ => apply bool_decide_eq_true in H end.
  destruct_and?. by split_and!.
Qed.

Definition rate_ok (r : option Z * bool) : bool :=
  match r.1 with Some z => (0 <=? z) && (z <? 2000) | None => true end.

(** The rates of a band that have a value. *)
Definition rates_read (rates : list (option Z * bool)) : list (Z * bool) :=
  omap (λ r, (λ z, (rate_value z, r.2)) <$> r.1) rates.

Lemma print_rate_text z (s : bool) : 0 ≤ z < 2000 →
  print_rate (Some z, s) = fixed1 z ++ [44] ++ [if s then 83 else 76] ++ [44].
Proof.
  intros Hz. unfold print_rate. cbn [fst snd]. destruct (rate_text z Hz) as (-> & _). by destruct s.
Qed.

Lemma tokens_step d cur t s : cur ++ t ≠ [] → Forall (λ c, c ≠ d) t →
  tokens_from d cur (t ++ d :: s) = (cur ++ t) :: tokens_from d [] s.
Proof.
  revert cur. induction t as [|c t IH]; intros cur Hne Ht; cbn [app tokens_from].
  - rewrite Z.eqb_refl. rewrite app_nil_r in *. by destruct cur.
  - inversion Ht; subst. rewrite (proj2 (Z.eqb_neq c d)) by done. rewrite IH; [|by destruct cur|done].
    by rewrite <- app_assoc.
Qed.

Lemma rate_char_facts l : forallb rate_char l = true → Forall (λ c, c ≠ 44 ∧ c ≠ 0 ∧ c ≠ 10 ∧ c ≠ 58) l.
Proof.
  intros Hl%forallb_Forall. eapply Forall_impl; [exact Hl|]. unfold rate_char. intros c Hc. lia.
Qed.

Lemma tokens_rates rates : forallb rate_ok rates = true →
  tokens 44 (concat (print_rate <$> rates) ++ [10]) =
    concat (omap (λ r : option Z * bool, (λ z, [fixed1 z; [if r.2 then 83 else 76]]) <$> r.1) rates) ++ [[10]].
Proof.
  unfold tokens. induction rates as [|[[z|] s] rates IH]; [done| |].
  - intros [Hz Hr]%andb_prop. unfold rate_ok in Hz. cbn [fst] in Hz. split_andb. to_prop.
    rewrite fmap_cons. cbn [concat]. rewrite print_rate_text by lia.
    destruct (rate_text z) as (_ & _ & Hc & Hl); [lia|]. apply rate_char_facts in Hc.
    rewrite <- !app_assoc. cbn [app].
    rewrite tokens_step; [|by destruct (fixed1 z); [simpl in Hl; lia|]|by eapply Forall_impl; [exact Hc|]; intros c []].
    change ((if s then 83 else 76) :: 44 :: ?l) with ([if s then 83 else 76] ++ 44 :: l).
    rewrite tokens_step; [|done|by repeat constructor; destruct s]. rewrite IH by done. done.
  - intros Hr. rewrite fmap_cons. cbn [concat print_rate fst app]. by apply IH.
Qed.

Lemma read_rates_back junk_rate rates : forallb rate_ok rates = true →
  read_rates junk_rate (concat (omap (λ r : option Z * bool, (λ z, [fixed1 z; [if r.2 then 83 else 76]]) <$> r.1) rates)
    ++ [[10]]) = Ok (rates_read rates).
Proof.
  induction rates as [|[[z|] s] rates IH]; [done| |done].
  intros [Hz Hr]%andb_prop. unfold rate_ok in Hz. cbn [fst] in Hz. split_andb. to_prop.
  destruct (rate_text z) as (_ & Hs & Hc & Hl); [lia|]. cbn [omap list_omap fmap option_fmap option_map fst snd concat app read_rates].
  rewrite bool_decide_false.
  - rewrite Hs. cbn [app] in IH. rewrite IH by done. cbn [mbind res_bind]. unfold rates_read.
    cbn [omap list_omap fmap option_fmap option_map fst snd]. unfold rate_value. by destruct s.
  - intros E. apply rate_char_facts in Hc. rewrite E, Forall_cons in Hc. by destruct Hc as [(_ & _ & ? & _) _].
Qed.

(** ** Lines and dumps *)

(** A name of a radio as the kernel gives it. *)
Definition phy_name (name : list Z) : bool :=
  forallb (λ c, is_char c && negb (isspace c) && negb (c =? 58)) name &&
  (0 <? Z.of_nat (length name)) && (Z.of_nat (length name) <? 50).

Definition band_ok (name : list Z) (b : band_attrs) : bool :=
  (0 <=? ba_type b) && (ba_type b <? 2 ^ 31 - 1) && forallb rate_ok (ba_rates b) &&
  (Z.of_nat (length (band_text name (ba_type b + 1) (ba_rates b))) <? 999).

(** No band follows itself. *)
Fixpoint no_repeat (last : Z) (bands : list band_attrs) : bool :=
  match bands with [] => true | b :: bands => negb (last =? ba_type b) && no_repeat (ba_type b) bands end.

Fixpoint last_band (last : Z) (bands : list band_attrs) : Z :=
  match bands with [] => last | b :: bands => last_band (ba_type b) bands end.

Definition band_line (name : list Z) (b : band_attrs) : list Z := band_text name (ba_type b + 1) (ba_rates b) ++ [10].

Lemma print_bands_lines name last band bands : no_repeat last bands = true →
  Forall (λ b, 0 ≤ ba_type b) bands →
  print_bands (Some name) last band bands =
    (last_band last bands, concat (band_line name <$> bands)).
Proof.
  revert last band. induction bands as [|b bands IH]; intros last band Hr Hb; [done|].
  cbn [no_repeat] in Hr. split_andb. inversion Hb; subst. cbn [print_bands].
  destruct (last =? ba_type b) eqn:E; [done|]. rewrite IH by done.
  destruct (Z.eqb_spec (ba_type b + 1) 0); [lia|]. rewrite !fmap_cons. cbn [concat default]. unfold band_line at 2.
  done.
Qed.

Lemma no_repeat_app last l1 l2 : no_repeat last (l1 ++ l2) = true →
  no_repeat last l1 = true ∧ no_repeat (last_band last l1) l2 = true.
Proof.
  revert last. induction l1 as [|b l1 IH]; intros last Hr; [done|]. cbn [no_repeat app] in *. split_andb.
  destruct (IH (ba_type b)) as [H1' H2']; [done|]. split; [by split_andb|done].
Qed.

(** The messages of one radio: the first one names it, and the bands may be
    spread over any number of messages. *)
Definition phy_dump (id : Z) (name : list Z) (bs : list band_attrs) (ls : list (list band_attrs)) : list phy_attrs :=
  PhyAttrs (Some id) (Some name) bs :: ((λ l, PhyAttrs (Some id) None l) <$> ls).

Lemma print_phys_more id name last ls : no_repeat last (concat ls) = true →
  Forall (λ b, 0 ≤ ba_type b) (concat ls) →
  print_phys ((λ l, PhyAttrs (Some id) None l) <$> ls) (Statics id last (Some name)) =
    concat (band_line name <$> concat ls).
Proof.
  revert last. induction ls as [|l ls IH]; intros last Hr Hb; [done|]. cbn [concat] in *.
  apply no_repeat_app in Hr as [Hr1 Hr2]. apply Forall_app in Hb as [Hb1 Hb2].
  rewrite fmap_cons. cbn [print_phys]. unfold print_phy_handler_bitrates.
  cbn [pa_wiphy pa_name pa_bands bs_phy_id bs_last_band bs_wiphy]. rewrite Z.eqb_refl. cbn [negb].
  rewrite print_bands_lines by done. cbn [default]. rewrite IH by done. by rewrite fmap_app, concat_app.
Qed.

Lemma print_phys_lines id name bs ls : 0 ≤ id → no_repeat (-1) (bs ++ concat ls) = true →
  Forall (λ b, 0 ≤ ba_type b) (bs ++ concat ls) →
  print_phys (phy_dump id name bs ls) statics_init = concat (band_line name <$> (bs ++ concat ls)).
Proof.
  intros Hid Hr Hb. apply no_repeat_app in Hr as [Hr1 Hr2]. apply Forall_app in Hb as [Hb1 Hb2].
  unfold phy_dump. cbn [print_phys]. unfold print_phy_handler_bitrates.
  cbn [pa_wiphy pa_name pa_bands bs_phy_id bs_last_band bs_wiphy statics_init].
  destruct (Z.eqb_spec id (-1)); [lia|]. cbn [negb]. rewrite print_bands_lines by done. cbn [default].
  rewrite print_phys_more by done. by rewrite fmap_app, concat_app.
Qed.

(** What a line starts with. *)
Lemma phy_name_facts name : phy_name name = true →
  Forall (λ c, isspace c = false ∧ c ≠ 0 ∧ c ≠ 10 ∧ c ≠ 58) name ∧ name ≠ [] ∧ (length name < 50)%nat.
Proof.
  unfold phy_name. intros Hn. split_andb. to_prop. split_and!; [|by destruct name|lia].
  match goal with H : forallb _ name = true |- _ => apply forallb_Forall in H; eapply Forall_impl; [exact H|] end.
  intros c Hc. cbn in Hc. unfold is_char, isspace in *. lia.
Qed.

Lemma band_number_chars z : 0 ≤ z < 2 ^ 31 → Forall (λ c, c ≠ 0 ∧ c ≠ 10 ∧ c ≠ 58) (number z).
Proof.
  intros Hz. unfold decimal. rewrite (proj2 (Z.ltb_ge z 0)) by lia.
  destruct (dec_nat_spec 20 z) as (_ & Hd & _); [change (10 ^ Z.of_nat 20) with (10 ^ 20); lia|].
  eapply Forall_impl; [exact Hd|]. unfold isdigit. intros c Hc. lia.
Qed.

Lemma rates_chars rates : forallb rate_ok rates = true →
  Forall (λ c, c ≠ 0 ∧ c ≠ 10 ∧ c ≠ 58) (concat (print_rate <$> rates)).
Proof.
  induction rates as [|[[z|] s] rates IH]; [done| |done].
  intros [Hz Hr]%andb_prop. unfold rate_ok in Hz. cbn [fst] in Hz. split_andb. to_prop.
  rewrite fmap_cons. cbn [concat]. rewrite print_rate_text by lia.
  destruct (rate_text z) as (_ & _ & Hc & _); [lia|]. apply rate_char_facts in Hc.
  rewrite !Forall_app. split_and!; [|by repeat constructor|by repeat constructor; destruct s|by repeat constructor|by apply IH].
  eapply Forall_impl; [exact Hc|]. by intros c (_ & ? & ? & ?).
Qed.

(** The two halves of a line: up to the colon, and the rates. *)
Definition band_head (name : list Z) (band : Z) : list Z :=
  lit_bytes "Wiphy " ++ name ++ [9] ++ lit_bytes "Band " ++ number band ++ [32].

Lemma band_text_split name band rates :
  band_text name band rates = band_head name band ++ 58 :: concat (print_rate <$> rates).
Proof. unfold band_text, band_head. rewrite <- !app_assoc. done. Qed.

Lemma band_head_chars name z : phy_name name = true → 0 ≤ z < 2 ^ 31 →
  Forall (λ c, c ≠ 0 ∧ c ≠ 10 ∧ c ≠ 58) (band_head name z).
Proof.
  intros (Hn & _)%phy_name_facts Hz. unfold band_head.
  rewrite !Forall_app. split_and!; try (by repeat constructor).
  - eapply Forall_impl; [exact Hn|]. by intros c (_ & ? & ? & ?).
  - by apply band_number_chars.
Qed.

Lemma after_colon_at s r : Forall (λ c, c ≠ 58) s → after_colon (s ++ 58 :: r) = r.
Proof.
  induction 1 as [|c s Hc _ IH]; [done|]. cbn [app after_colon]. by rewrite (proj2 (Z.eqb_neq c 58)).
Qed.

Lemma sscanf_band name z r : phy_name name = true → 0 ≤ z < 2 ^ 31 →
  sscanf bitrates_fmt (band_head name z ++ r) = Ok [Str name; Num z].
Proof.
  intros (Hn & Hne & Hl)%phy_name_facts Hz. unfold band_head, bitrates_fmt. rewrite <- !app_assoc.
  set (rest := [9] ++ lit_bytes "Band " ++ number z ++ [32] ++ r).
  set (fmt := fmt_text " Band " ++ [Conv (Dec 32)]).
  change (sscanf (Conv (Word 50) :: fmt) (lskip (32 :: name ++ rest)) = Ok [Str name; Num z]).
  change (lskip (32 :: name ++ rest)) with (lskip (name ++ rest)). rewrite sscanf_lskip. cbn [sscanf].
  rewrite (field_word 50 name); [|eapply Forall_impl; [exact Hn|]; by intros c (? & _)|done|done|by apply ends_sep].
  cbn [mbind res_bind]. unfold fmt, rest.
  assert (sscanf (fmt_text " Band " ++ [Conv (Dec 32)]) ([9] ++ lit_bytes "Band " ++ number z ++ [32] ++ r) =
    sscanf [Conv (Dec 32)] (number z ++ [32] ++ r)) as ->.
  { change (lit_bytes "Band ") with [66; 97; 110; 100; 32].
    change (fmt_text " Band ") with [Blank; Lit 66; Lit 97; Lit 110; Lit 100; Blank].
    change (sscanf [Conv (Dec 32)] (lskip (32 :: number z ++ [32] ++ r)) =
      sscanf [Conv (Dec 32)] (number z ++ [32] ++ r)).
    change (lskip (32 :: ?l)) with (lskip l). by rewrite sscanf_lskip. }
  cbn [sscanf]. rewrite (number_field 32 z); [done|lia|in_range|by apply ends_blank].
Qed.

Lemma band_ok_facts name b : band_ok name b = true →
  0 ≤ ba_type b < 2 ^ 31 - 1 ∧ forallb rate_ok (ba_rates b) = true ∧
  (length (band_text name (ba_type b + 1) (ba_rates b)) < 999)%nat.
Proof. unfold band_ok. intros Hb. split_andb. to_prop. split_and!; [lia|lia|done|lia]. Qed.

Lemma band_line_cut name b : phy_name name = true → band_ok name b = true →
  Forall (λ c, c ≠ 0 ∧ c ≠ 10) (band_text name (ba_type b + 1) (ba_rates b)).
Proof.
  intros Hn (Ht & Hr & _)%band_ok_facts. rewrite band_text_split. apply Forall_app_2; [|constructor; [done|]].
  - eapply Forall_impl; [apply band_head_chars; [done|lia]|]. by intros c (? & ? & _).
  - eapply Forall_impl; [by apply rates_chars|]. by intros c (? & ? & _).
Qed.

(** A line that does not continue the last band starts a new one; only the
    first one of all gets its number. *)
Lemma bitrate_line_new junk_band junk_rate wiphy name ls b : phy_name name = true → band_ok name b = true →
  (∀ l ls', ls = l :: ls' → default (junk_band (length ls')) (lb_band l) ≠ ba_type b + 1) →
  bitrate_line junk_band junk_rate wiphy ls (band_line name b) =
    Ok (LBitrates name (match ls with [] => Some (ba_type b + 1) | _ => None end) (rates_read (ba_rates b)) :: ls).
Proof.
  intros Hn Hb Hls. pose proof (band_line_cut name b Hn Hb) as Hc. destruct (band_ok_facts name b Hb) as (Ht & Hr & _).
  unfold bitrate_line, band_line.
  assert (Forall (λ c, c ≠ 0) (band_text name (ba_type b + 1) (ba_rates b) ++ [10])) as Hnul.
  { apply Forall_app_2; [eapply Forall_impl; [exact Hc|]; by intros c []|by repeat constructor]. }
  rewrite upto_nul_id by done. rewrite band_text_split, <- app_assoc. cbn [app].
  rewrite sscanf_band by (done || lia). cbn [mbind res_bind].
  rewrite after_colon_at by (eapply Forall_impl; [apply band_head_chars; [done|lia]|]; by intros c (_ & _ & ?)).
  rewrite tokens_rates, read_rates_back by done. cbn [mbind res_bind].
  destruct ls as [|l ls]; [by destruct (rates_read (ba_rates b))|].
  rewrite (proj2 (Z.eqb_neq _ _) (Hls l ls eq_refl)). cbn [negb orb]. by destruct (rates_read (ba_rates b)).
Qed.

Lemma bitrate_lines_new junk_band junk_rate wiphy name bands ls l : phy_name name = true →
  forallb (band_ok name) bands = true → lb_band l = None →
  (∀ i b, bands !! i = Some b → ba_type b + 1 ≠ junk_band (length ls + i)%nat) →
  bitrate_lines junk_band junk_rate wiphy (l :: ls) (band_line name <$> bands) =
    Ok (rev ((λ b, LBitrates name None (rates_read (ba_rates b))) <$> bands) ++ l :: ls).
Proof.
  intros Hn. revert l ls. induction bands as [|b bands IH]; intros l ls Hb Hl Hj; [done|].
  cbn [forallb] in Hb. split_andb. rewrite !fmap_cons. cbn [bitrate_lines].
  rewrite bitrate_line_new; [|done|done|].
  - cbn [mbind res_bind]. rewrite IH; [cbn [rev]; by rewrite <- app_assoc|done|done|].
    intros i b' Hi. cbn [length]. rewrite Nat.add_succ_comm. by apply Hj.
  - intros ? ? [= <- <-]. rewrite Hl. cbn [default]. intros E. apply (Hj 0%nat b); [done|]. rewrite Nat.add_0_r.
    unfold id in E. lia.
Qed.

(** The array the agent reports: the last band in the first entry, with its
    number when it is the only band. *)
Definition reported_bands (junk_band : nat → Z) (name : list Z) (bands : list band_attrs) :
  option (list (option iw_bitrates)) :=
  match rev bands with
  | [] => None
  | b :: rest =>
      let band := match rest with [] => ba_type b + 1 | _ => junk_band (length rest) end in
      Some (Some (IwBitrates (mk_str name) band (rates_read (ba_rates b))) :: replicate (length rest) None)
  end.

Lemma copy_bands_last junk_band k ls l b :
  copy_bands junk_band k (ls ++ [l]) b =
    <[0%nat := Some (IwBitrates (mk_str (lb_wiphy l)) (default (junk_band (k + length ls)%nat) (lb_band l)) (lb_b l))]> b.
Proof.
  revert k b. induction ls as [|m ls IH]; intros k b; cbn [copy_bands app length]; [by rewrite Nat.add_0_r|].
  rewrite IH, Nat.add_succ_comm. by destruct b.
Qed.

Lemma bitrates_result_cons junk_band l ls :
  bitrates_result junk_band (l :: ls) =
    Some (Some (IwBitrates (mk_str (lb_wiphy l)) (default (junk_band (length ls)) (lb_band l)) (lb_b l)) ::
          replicate (length ls) None).
Proof.
  unfold bitrates_result. cbn [rev length replicate]. rewrite copy_bands_last, length_rev. done.
Qed.

Lemma bitrate_lines_all junk_band junk_rate wiphy name bands : phy_name name = true →
  forallb (band_ok name) bands = true → no_repeat (-1) bands = true →
  (∀ i b, bands !! S (S i) = Some b → ba_type b + 1 ≠ junk_band (S i)) →
  bitrates_result junk_band <$> bitrate_lines junk_band junk_rate wiphy [] (band_line name <$> bands) =
    Ok (reported_bands junk_band name bands).
Proof.
  intros Hn Hb Hr Hj. destruct bands as [|b bands]; [done|]. cbn [forallb no_repeat] in *. split_andb.
  rewrite fmap_cons. cbn [bitrate_lines]. rewrite bitrate_line_new by done. cbn [mbind res_bind].
  destruct bands as [|b' bands]; [done|]. cbn [forallb no_repeat] in *. split_andb.
  rewrite fmap_cons. cbn [bitrate_lines]. rewrite bitrate_line_new; [|done|done|].
  - cbn [mbind res_bind]. rewrite bitrate_lines_new; [|done|done|done|by intros i c Hi; apply (Hj i)].
    cbn [fmap res_fmap]. f_equal. unfold reported_bands. destruct bands as [|c bands _] using rev_ind; [done|].
    cbn [rev]. rewrite fmap_app, !rev_app_distr. cbn [rev app fmap list_fmap]. rewrite bitrates_result_cons.
    cbn [lb_wiphy lb_band lb_b default]. rewrite !length_app, !length_rev, length_fmap. cbn [length].
    destruct (rev bands ++ [b']) eqn:E; [by destruct (rev bands)|]. cbn [app].
    replace (length bands + 2)%nat with (length bands + 1 + 1)%nat by lia. done.
  - intros ? ? [= <- <-]. cbn [lb_band default]. repeat match goal with H : negb _ = true |- _ => apply negb_true_iff, Z.eqb_neq in H end. unfold id. lia.
Qed.

Section bitrates_props.
Context {W : Type} `{Shell W, Allocator}.

(** What [iw phy bitrates] prints, in however many messages the kernel
    splits the radio's bands, the agent reads back as the last band: for a
    radio with one band exactly its name, its number and its rates in order,
    each the [float] nearest to the rate in Mbit/s with its preamble flag.
    With more bands the array has an entry for each, but [get_bitrates] stores
    them all in the first, so that the other entries are never assigned, and
    the number of the band is what was in memory. *)
Theorem bitrates_roundtrip junk_band junk_rate iw wiphy id name bs ls w w' :
  named iw = true → named wiphy = true → 0 ≤ id → phy_name name = true →
  forallb (band_ok name) (bs ++ concat ls) = true → no_repeat (-1) (bs ++ concat ls) = true →
  (∀ i b, (bs ++ concat ls) !! S (S i) = Some b → ba_type b + 1 ≠ junk_band (S i)) →
  dumps (bitrates_command (text iw) (text wiphy)) (print_phys (phy_dump id name bs ls) statics_init) w w' →
  get_bitrates junk_band junk_rate iw wiphy w = Ok (reported_bands junk_band name (bs ++ concat ls), w').
Proof.
  intros Hiw Hwi Hid Hn Hb Hr Hj [Hc Hp]. rewrite print_phys_lines in Hp; [|done|done|].
  - set (bands := bs ++ concat ls) in *. unfold get_bitrates.
    run (lift_Ok _ w _ (chars_named iw Hiw)). run (lift_Ok _ w _ (chars_named wiphy Hwi)).
    rewrite sprintf_local_Ok by done.
    run (lift_Ok (Ok (bitrates_command (text iw) (text wiphy))) w _ eq_refl). run Hp.
    assert (lines_of 999 (concat (band_line name <$> bands)) = band_line name <$> bands) as ->.
    { unfold lines_of. replace (band_line name <$> bands) with
        ((λ t, t ++ [10]) <$> ((λ b, band_text name (ba_type b + 1) (ba_rates b)) <$> bands))
        by (by rewrite <- list_fmap_compose).
      apply read_lines_cut; [|apply concat_lines_length]. apply Forall_fmap, Forall_forall. intros b Hbb.
      apply forallb_Forall in Hb. rewrite Forall_forall in Hb. specialize (Hb b Hbb).
      split; [|by destruct (band_ok_facts name b Hb) as (_ & _ & ?)]. eapply Forall_impl; [by apply band_line_cut|]. by intros c []. }
    pose proof (bitrate_lines_all junk_band junk_rate (text wiphy) name bands Hn Hb Hr Hj) as E.
    destruct (bitrate_lines _ _ _ _ _) as [l|] eqn:El; [|done]. injection E as E. rewrite <- E.
    by run (lift_Ok (Ok l) w' _ eq_refl).
  - apply forallb_Forall in Hb. eapply Forall_impl; [exact Hb|]. intros b (Ht & _)%band_ok_facts. lia.
Qed.
End bitrates_props.

(** A radio with two bands, the second one in a message of its own. *)
Definition two_bands : list phy_attrs :=
  phy_dump 0 (lit_bytes "phy0") [BandAttrs 0 [(Some 10, false); (Some 55, true)]]
    [[]; [BandAttrs 1 [(Some 60, false); (None, true); (Some 540, false)]]].

Lemma bitrates_roundtrip_witness :
  let out := print_phys two_bands statics_init in
  @get_bitrates _ echo_shell (λ _, 77) 0 (lit "/usr/sbin/iw") (lit "phy0") out =
  Ok (Some [Some (IwBitrates (lit "phy0") 77 [(1086324736, false); (1113063424, false)]); None], out).
Proof.
  intros out.
  apply (@bitrates_roundtrip _ echo_shell (λ _, 77) 0 (lit "/usr/sbin/iw") (lit "phy0") 0 (lit_bytes "phy0")
    [BandAttrs 0 [(Some 10, false); (Some 55, true)]]
    [[]; [BandAttrs 1 [(Some 60, false); (None, true); (Some 540, false)]]] out out);
    [reflexivity|reflexivity|lia|reflexivity|vm_compute; reflexivity|reflexivity|by intros i b|].
  split; [vm_compute; lia|reflexivity].
Defined.

(** ** The other commands of iw_bitrates.c *)

(** [enum bitrate_band]. *)
Inductive bitrate_band := legacy_2_4 | legacy_5 | ht_mcs_2_4 | ht_mcs_5 | vht_mcs_2_4 | vht_mcs_5.
Definition band_of_code (z : Z) : option bitrate_band :=
  match z with
  | 0 => Some legacy_2_4 | 1 => Some legacy_5 | 2 => Some ht_mcs_2_4
  | 3 => Some ht_mcs_5 | 4 => Some vht_mcs_2_4 | 5 => Some vht_mcs_5 | _ => None
  end.
Definition type_bitrate (b : option bitrate_band) : list Z :=
  lit_bytes match b with
  | Some legacy_2_4 => "legacy-2.4"
  | Some legacy_5 => "legacy-5"
  | Some ht_mcs_2_4 => "ht-mcs-2.4"
  | Some ht_mcs_5 => "ht-mcs-5"
  | Some vht_mcs_2_4 => "vht-mcs-2.4"
  | _ => "vht-mcs-5"
  end.

(** [sprintf] into [num[20]] and [strcat] onto [values[2000]]. *)
Fixpoint cat_rates (values : list Z) (bitrates : list Z) : res (list Z) :=
  match bitrates with
  | [] => Ok values
  | b :: bitrates =>
      num ← sprintf_local 20 (decimal 10 b ++ [32]);
      values ← sprintf_local 2000 (values ++ num);
      cat_rates values bitrates
  end.

Definition set_bitrates_command (iw intf : list Z) (band : Z) (values : list Z) : list Z :=
  lit_bytes "sudo " ++ iw ++ lit_bytes " dev " ++ intf ++ lit_bytes " set bitrates " ++
  type_bitrate (band_of_code band) ++ [32] ++ values.

Section commands.
Context {W : Type} `{Shell W, Allocator}.

(** [bitrates] are the [b->n] values. *)
Definition set_iw_bitrates (iw_path intf_name : charp) (band : Z) (bitrates : list Z) : ST W Z :=
  if negb (nonnull intf_name) then mret (-1) else
  values ← lift (cat_rates [] bitrates);
  iw ← lift (chars iw_path);
  intf ← lift (chars intf_name);
  cmd ← lift (sprintf_local 2000 (set_bitrates_command iw intf band values));
  system cmd.

(** The name of the radio: the first line with [wiphy]; the number is what
    memory held when none follows. *)
Fixpoint phy_of_lines (junk : Z) (lines : list (list Z)) : res charp :=
  match lines with
  | [] => Ok None
  | line :: lines =>
      match strstr_at (upto_nul line) (lit_bytes "wiphy") with
      | None => phy_of_lines junk lines
      | Some p =>
          vs ← sscanf (fmt_text "wiphy " ++ [Conv (Dec 32)]) p;
          let cmd := lit_bytes "phy" ++ number (num_at vs 0 junk) in
          malloc_strcpy (1 + Z.of_nat (length cmd)) (mk_str cmd)
      end
  end.

Definition return_phy_from_intf_name (junk : Z) (iw_path intf_name : charp) : ST W charp :=
  if negb (nonnull intf_name) then mret None else
  iw ← lift (chars iw_path);
  intf ← lift (chars intf_name);
  cmd ← lift (sprintf_local 2000 (lit_bytes "sudo " ++ iw ++ lit_bytes " dev " ++ intf ++ lit_bytes " info"));
  pp ← popen cmd;
  match pp with
  | None => mret None
  | Some out => lift (phy_of_lines junk (lines_of 999 out))
  end.
End commands.

(** The values of a command, one after the other. *)
Definition rate_values (bitrates : list Z) : list Z := concat ((λ b, decimal 10 b ++ [32]) <$> bitrates).

Lemma cat_rates_spec values bitrates : Forall (λ b, i32_ok b = true) bitrates → (length values < 2000)%nat →
  cat_rates values bitrates =
    if bool_decide (length (values ++ rate_values bitrates) < 2000)%nat
    then Ok (values ++ rate_values bitrates) else Err StackOverflow.
Proof.
  intros Hb. revert values. induction Hb as [|b bs Hb _ IH]; intros values Hv; cbn [cat_rates].
  { unfold rate_values. cbn. rewrite app_nil_r. by rewrite bool_decide_true. }
  assert (length (decimal 10 b) ≤ 11)%nat as Hl.
  { destruct (decimal_chars 10 b) as [_ Hl]; [unfold i32_ok, s_ok in Hb; split_andb; to_prop; change (10 ^ Z.of_nat 10) with (10 ^ 10); lia|].
    done. }
  rewrite sprintf_local_Ok by (rewrite length_app; simpl; lia). cbn [mbind res_bind].
  unfold rate_values. rewrite fmap_cons. cbn [concat]. fold (rate_values bs).
  set (num := decimal 10 b ++ [32]). rewrite (app_assoc values num).
  destruct (decide (length (values ++ num) < 2000)%nat) as [Hlt|Hge].
  - rewrite sprintf_local_Ok by done. cbn [mbind res_bind]. by rewrite IH.
  - rewrite sprintf_local_Err by lia. cbn [mbind res_bind].
    rewrite bool_decide_false; [done|]. rewrite length_app. lia.
Qed.

(** What [set_iw_bitrates] does: it runs the command with all the values when
    they and the command fit their arrays, and overruns the stack otherwise. *)
Theorem set_iw_bitrates_spec {W} `{Shell W} iw intf band bitrates (w : W) :
  named iw = true → named intf = true → Forall (λ b, i32_ok b = true) bitrates →
  set_iw_bitrates iw intf band bitrates w =
    let cmd := set_bitrates_command (text iw) (text intf) band (rate_values bitrates) in
    if bool_decide (length (rate_values bitrates) < 2000)%nat && bool_decide (length cmd < 2000)%nat
    then system cmd w else Err StackOverflow.
Proof.
  intros Hiw Hi Hb. unfold set_iw_bitrates. destruct intf as [intf|]; [|done]. cbn [nonnull negb].
  unfold mbind at 1, ST_bind at 1, lift at 1. rewrite cat_rates_spec by (done || simpl; lia). cbn [app].
  destruct (bool_decide (length (rate_values bitrates) < 2000)%nat); [|done]. cbn [andb].
  run (lift_Ok _ w _ (chars_named iw Hiw)). run (lift_Ok _ w _ (chars_named _ Hi)).
  unfold mbind, ST_bind, lift, sprintf_local.
  by destruct (bool_decide (length (set_bitrates_command _ _ _ _) < 2000)%nat).
Qed.
