(* ===== verification/Acs.v ===== *)
(** The interference of the channels, [ethanol_functions/get_acs.c]: surveys of
    the channels, a factor for each channel and survey, and their mean.

    [pow] of the mathematical library is a parameter: its results are not
    specified to the last bit.  [trigger_scan_intf] is the function of
    [connect.c] and [get_survey_info] that of [global_typedef.c]. *)
From stdpp Require Import prelude list strings.
From Stdlib Require Import SpecFloat.
From S2P Require Import Prelude CMem CFloat World.

Section acs.
Context {W : Type}.
Context (pow : spec_float → spec_float → spec_float).
Context (trigger_scan_intf : charp → ST W unit) (get_survey_info : charp → ST W (option (list survey_info))).
Context (sleep : Z → ST W unit).

(** ** The factor of a channel *)

(** [pow] of two [long double] arguments, which are converted to [double]. *)
Definition pow80 (x y : spec_float) : spec_float := pow (to_f64 x) (to_f64 y).

Definition calc_factor (survey : survey_info) (min_nf : spec_float) : spec_float :=
  let noise := f80_of_Z (si_noise survey) in
  let ten := f80_of_Z 10 in
  let busy := if 0 <? si_chan_busy_t survey then Some (f80_of_Z (si_chan_busy_t survey))
              else if 0 <? si_chan_t_rx survey then Some (f80_of_Z (si_chan_t_rx survey)) else None in
  match busy with
  | None => S754_zero false
  | Some busy =>
      let total := f80_of_Z (si_chan_active_t survey) in
      let tx := f80_of_Z (si_chan_t_tx survey) in
      let '(busy, total) := if 0 <? si_chan_t_tx survey then (f80_sub busy tx, f80_sub total tx)
                            else (busy, total) in
      f80_add (pow80 ten (f80_div noise (f80_of_Z 5)))
        (f80_mul (f80_div busy total)
           (pow (f64_of_Z 2)
              (SFsub 53 1024 (pow80 ten (f80_div noise ten)) (pow80 ten (f80_div min_nf ten)))))
  end.

(** ** One survey *)

(** One channel of [interference_index]: frequency, factor and noise floor. *)
Record acs_channel := AcsChannel { ac_freq : Z; ac_factor : spec_float; ac_min_nf : Z }.

(** [get_min_nf_for_freq] while channel [i] is filled: [done] are the channels
    before it, whose three entries are assigned; of channel [i] itself only the
    frequency is, so that its own noise floor is what the block holds. *)
Fixpoint get_min_nf_for_freq (done : list acs_channel) (freq junk : Z) : Z :=
  match done with
  | [] => junk
  | c :: done => if ac_freq c =? freq then ac_min_nf c else get_min_nf_for_freq done freq junk
  end.

Fixpoint fill_channels (junk : nat → Z) (done : list acs_channel) (infos : list survey_info) : list acs_channel :=
  match infos with
  | [] => done
  | info :: infos =>
      let freq := to_i32 (si_freq info) in
      let min_nf := get_min_nf_for_freq done freq (junk (length done)) in
      fill_channels junk
        (done ++ [AcsChannel freq (calc_factor info (f80_of_Z min_nf)) (si_noise info)]) infos
  end.

(** [junk] is what the block of the noise floors holds. *)
Definition survey_dump (junk : nat → Z) (intf_name : charp) : ST W (list acs_channel) :=
  new_survey ← get_survey_info intf_name;
  mret (fill_channels junk [] (default [] new_survey)).

(** ** All surveys *)

Definition NUM_TRIES_FIRST_SURVEY_DUMP : nat := 5.
Definition SLEEP_SECONDS_FIRST_SURVEY_DUMP : Z := 1.

(** [for (i = 1; i < NUM_TRIES_FIRST_SURVEY_DUMP; i++)], [n] turns left. *)
Fixpoint first_survey (junk : nat → nat → Z) (intf_name : charp) (n : nat) : ST W (list acs_channel) :=
  match n with
  | O => mret []
  | S n =>
      idx ← survey_dump (junk (S n)) intf_name;
      match idx with
      | [] => sleep SLEEP_SECONDS_FIRST_SURVEY_DUMP;; first_survey junk intf_name n
      | _ => mret idx
      end
  end.

(** The channels of [l_val] are added to those of [interf_idx], by position. *)
Fixpoint add_survey (interf_idx l_val : list acs_channel) : res (list acs_channel) :=
  match interf_idx, l_val with
  | [], _ => Ok []
  | _ :: _, [] => Err ReadOutOfBounds
  | c :: cs, d :: ds =>
      r ← add_survey cs ds;
      Ok (AcsChannel (ac_freq c) (f80_add (ac_factor c) (ac_factor d))
            (if ac_min_nf d <? ac_min_nf c then ac_min_nf d else ac_min_nf c) :: r)
  end.

(** Arrays of zeros, when the first survey had no channel. *)
Definition update_index (interf_idx l_val : list acs_channel) : res (list acs_channel) :=
  match l_val with
  | [] => Ok interf_idx
  | _ => add_survey (match interf_idx with
                     | [] => (λ _, AcsChannel 0 (S754_zero false) 0) <$> l_val
                     | _ => interf_idx
                     end) l_val
  end.

Fixpoint more_surveys (junk : nat → nat → Z) (intf_name : charp) (n : nat) (interf_idx : list acs_channel) :
    ST W (list acs_channel) :=
  match n with
  | O => mret interf_idx
  | S n =>
      trigger_scan_intf intf_name;;
      l_val ← survey_dump (junk (NUM_TRIES_FIRST_SURVEY_DUMP + n)%nat) intf_name;
      interf_idx ← lift (update_index interf_idx l_val);
      more_surveys junk intf_name n interf_idx
  end.

(** The result is never NULL; [junk k] is the block of the [k]-th survey from
    the end. *)
Definition get_acs (junk : nat → nat → Z) (intf_name : charp) (num_tests : Z) : ST W (list acs_channel) :=
  if num_tests <=? 0 then mret [] else
  trigger_scan_intf intf_name;;
  idx ← first_survey junk intf_name (NUM_TRIES_FIRST_SURVEY_DUMP - 1);
  idx ← more_surveys junk intf_name (Z.to_nat (num_tests - 1)) idx;
  mret ((λ c, AcsChannel (ac_freq c) (f80_div (ac_factor c) (to_f80 (f32_of_Z num_tests))) (ac_min_nf c)) <$> idx).

(** ** What is computed *)

Abbreviation freqs := (fmap (λ x, to_i32 (si_freq x))).

(** The channels of a survey when each noise floor is what memory held. *)
Definition unmeasured (junk : nat → Z) (infos : list survey_info) : list acs_channel :=
  imap (λ i x, AcsChannel (to_i32 (si_freq x)) (calc_factor x (f80_of_Z (junk i))) (si_noise x)) infos.

Lemma min_nf_new done freq junk : freq ∉ (ac_freq <$> done) → get_min_nf_for_freq done freq junk = junk.
Proof.
  induction done as [|c done IH]; [done|]. rewrite fmap_cons, not_elem_of_cons. intros [Hne Hd].
  cbn [get_min_nf_for_freq]. rewrite (proj2 (Z.eqb_neq _ _)) by done. by apply IH.
Qed.

Lemma fill_channels_new junk done infos : NoDup ((ac_freq <$> done) ++ freqs infos) →
  fill_channels junk done infos = done ++ unmeasured (λ i, junk (length done + i)%nat) infos.
Proof.
  revert done. induction infos as [|x infos IH]; intros done Hd; [by rewrite app_nil_r|].
  cbn [fill_channels]. rewrite min_nf_new.
  - rewrite IH.
    + rewrite <- app_assoc. cbn [app]. unfold unmeasured. rewrite imap_cons. do 2 f_equal.
      * by rewrite Nat.add_0_r.
      * rewrite length_app. cbn [length]. apply imap_ext. intros i y _. cbn. do 4 f_equal. lia.
    + rewrite fmap_app. cbn [fmap list_fmap ac_freq]. by rewrite <- app_assoc.
  - intros Hin. rewrite fmap_cons in Hd. apply NoDup_app in Hd as (_ & Hd & _). by destruct (Hd _ Hin); left.
Qed.

(** The noise floor that the interference factor is relative to is never the
    one that was measured: in a survey of distinct channels [survey_dump] looks
    up the floor of each channel before it stores it, and takes what the
    memory of the new array held. *)
Theorem noise_floor_unmeasured junk intf infos w w' :
  get_survey_info intf w = Ok (Some infos, w') → NoDup (freqs infos) →
  survey_dump junk intf w = Ok (unmeasured junk infos, w').
Proof.
  intros E Hd. unfold survey_dump. run E. cbn [default]. unfold mret, ST_ret. unfold id.
  by rewrite fill_channels_new.
Qed.

(** ** The mean *)

(** Surveys triggered one after the other, and the channels they give; the
    block of a survey is numbered from the end. *)
Inductive scans (intf : charp) (junk : nat → nat → Z) : W → list (list acs_channel) → W → Prop :=
  | scans_nil w : scans intf junk w [] w
  | scans_cons w w1 w2 w3 l ls : trigger_scan_intf intf w = Ok (tt, w1) →
      survey_dump (junk (NUM_TRIES_FIRST_SURVEY_DUMP + length ls)%nat) intf w1 = Ok (l, w2) →
      scans intf junk w2 ls w3 → scans intf junk w (l :: ls) w3.

Definition add_channel (c d : acs_channel) : acs_channel :=
  AcsChannel (ac_freq c) (f80_add (ac_factor c) (ac_factor d)) (ac_min_nf d `min` ac_min_nf c).

Definition fits (n : nat) (l : list acs_channel) : Prop := l = [] ∨ (n ≤ length l)%nat.

(** The sum over the surveys that found channels. *)
Definition sum_surveys (x : list acs_channel) (ls : list (list acs_channel)) : list acs_channel :=
  foldl (zip_with add_channel) x (filter (λ l, l ≠ []) ls).

Lemma add_survey_zip x l : (length x ≤ length l)%nat → add_survey x l = Ok (zip_with add_channel x l).
Proof.
  revert l. induction x as [|c x IH]; intros [|d l] Hl; simpl in Hl; try (done || lia).
  cbn [add_survey zip_with]. rewrite IH by lia. cbn [mbind res_bind].
  do 2 f_equal. unfold add_channel. f_equal. destruct (Z.ltb_spec (ac_min_nf d) (ac_min_nf c)); lia.
Qed.

Lemma add_survey_short x l : (length l < length x)%nat → add_survey x l = Err ReadOutOfBounds.
Proof.
  revert l. induction x as [|c x IH]; intros [|d l] Hl; simpl in Hl; try (done || lia).
  cbn [add_survey]. by rewrite IH by lia.
Qed.

(** Surveys of which [r] more follow. *)
Lemma more_surveys_sum intf junk x ls r w w' : x ≠ [] → Forall (fits (length x)) ls →
  scans intf (λ k, junk (r + k)%nat) w ls w' →
  more_surveys junk intf (length ls + r) x w = more_surveys junk intf r (sum_surveys x ls) w'.
Proof.
  intros Hx Hf Hs. revert x Hx Hf. induction Hs as [|w w1 w2 w3 l ls Ht Hd _ IH]; intros x Hx Hf; [done|].
  inversion Hf as [|? ? Hl Hls]; subst. cbn [length Nat.add more_surveys]. run Ht.
  replace (r + (NUM_TRIES_FIRST_SURVEY_DUMP + length ls))%nat
    with (NUM_TRIES_FIRST_SURVEY_DUMP + (length ls + r))%nat in Hd by lia. run Hd.
  destruct l as [|d l].
  - cbn [update_index]. run (lift_Ok (Ok x) w2 _ eq_refl). by rewrite IH.
  - destruct Hl as [?|Hl]; [done|]. destruct x as [|c x]; [done|].
    unfold update_index. rewrite add_survey_zip by done.
    run (lift_Ok (Ok (zip_with add_channel (c :: x) (d :: l))) w2 _ eq_refl).
    assert (length (zip_with add_channel (c :: x) (d :: l)) = length (c :: x)) as El
      by (rewrite length_zip_with; lia).
    rewrite IH; [done|done|by rewrite El].
Qed.

(** The first survey finds the channels [x]. *)
Definition first_finds (junk : nat → nat → Z) (intf : charp) (x : list acs_channel) (w w' : W) : Prop :=
  ∃ w1, trigger_scan_intf intf w = Ok (tt, w1) ∧
    survey_dump (junk (NUM_TRIES_FIRST_SURVEY_DUMP - 1)%nat) intf w1 = Ok (x, w').

Lemma get_acs_first junk intf n x w w' : 0 < n → x ≠ [] → first_finds junk intf x w w' →
  get_acs junk intf n w =
    (idx ← more_surveys junk intf (Z.to_nat (n - 1)) x;
     mret ((λ c, AcsChannel (ac_freq c) (f80_div (ac_factor c) (to_f80 (f32_of_Z n))) (ac_min_nf c)) <$> idx)) w'.
Proof.
  intros Hn Hx (w1 & Ht & Hd). unfold get_acs. rewrite (proj2 (Z.leb_gt n 0)) by lia. run Ht.
  change (first_survey junk intf (NUM_TRIES_FIRST_SURVEY_DUMP - 1)) with
    (idx ← survey_dump (junk (NUM_TRIES_FIRST_SURVEY_DUMP - 1)%nat) intf;
     match idx with
     | [] => sleep SLEEP_SECONDS_FIRST_SURVEY_DUMP;; first_survey junk intf 3
     | _ => mret idx
     end).
  assert ((idx ← survey_dump (junk (NUM_TRIES_FIRST_SURVEY_DUMP - 1)%nat) intf;
     match idx with
     | [] => sleep SLEEP_SECONDS_FIRST_SURVEY_DUMP;; first_survey junk intf 3
     | _ => mret idx
     end) w1 = Ok (x, w')) as E by (run Hd; by destruct x).
  by run E.
Qed.

(** The result of [get_acs] is the mean of the surveys: when the first survey
    finds channels and each later one finds none or at least as many, the
    channels are those of the first survey, with the sum of the factors of
    the surveys by position divided by the number of tests -- which counts
    the surveys that found nothing too. *)
Theorem acs_is_mean junk intf x ls w w' w'' : x ≠ [] → first_finds junk intf x w w' →
  Forall (fits (length x)) ls → scans intf junk w' ls w'' →
  get_acs junk intf (1 + Z.of_nat (length ls)) w =
    Ok ((λ c, AcsChannel (ac_freq c)
           (f80_div (ac_factor c) (to_f80 (f32_of_Z (1 + Z.of_nat (length ls))))) (ac_min_nf c)) <$>
        sum_surveys x ls, w'').
Proof.
  intros Hx Hf Hl Hs. rewrite (get_acs_first junk intf _ x w w') by (done || lia).
  replace (Z.to_nat (1 + Z.of_nat (length ls) - 1)) with (length ls + 0)%nat by lia.
  pose proof (more_surveys_sum intf junk x ls 0 w' w'' Hx Hl Hs) as E. cbn [more_surveys] in E. by run E.
Qed.

(** When a later survey finds some channels but fewer than the first one,
    [get_acs] reads past the arrays of that survey. *)
Theorem acs_shrinking_survey junk intf x ls l n w w1 w2 w3 w4 : first_finds junk intf x w w1 →
  Forall (fits (length x)) ls → scans intf (λ k, junk (S n + k)%nat) w1 ls w2 →
  trigger_scan_intf intf w2 = Ok (tt, w3) →
  survey_dump (junk (NUM_TRIES_FIRST_SURVEY_DUMP + n)%nat) intf w3 = Ok (l, w4) →
  (0 < length l < length x)%nat →
  get_acs junk intf (2 + Z.of_nat (length ls + n)) w = Err ReadOutOfBounds.
Proof.
  intros Hf Hl Hs Ht Hd Hn. assert (x ≠ []) as Hx by (by destruct x; [simpl in Hn; lia|]).
  rewrite (get_acs_first junk intf _ x w w1) by (done || lia).
  replace (Z.to_nat (2 + Z.of_nat (length ls + n) - 1)) with (length ls + S n)%nat by lia.
  unfold mbind at 1, ST_bind at 1. rewrite (more_surveys_sum intf junk x ls (S n) w1 w2) by done.
  cbn [more_surveys]. unfold mbind, ST_bind, lift. rewrite Ht, Hd.
  assert (length (sum_surveys x ls) = length x) as El.
  { unfold sum_surveys. clear -Hl. revert x Hl. induction ls as [|k ls IH]; intros x Hl; [done|].
    inversion Hl as [|? ? Hk Hls]; subst. rewrite filter_cons. case_decide as Hne; [|by apply IH].
    destruct Hk as [?|Hk]; [done|]. cbn [foldl]. rewrite IH; rewrite length_zip_with; [lia|].
    by replace (length x `min` length k)%nat with (length x) by lia. }
  destruct l as [|d l]; [simpl in Hn; lia|]. cbn [update_index].
  destruct (sum_surveys x ls) as [|c y]; [simpl in El; lia|]. by rewrite add_survey_short by lia.
Qed.
End acs.

(** ** Samples *)

(** A host that gives prepared surveys; any function serves as [pow]. *)
Definition next_survey (_ : charp) : ST (list (list survey_info)) (option (list survey_info)) := λ w,
  match w with [] => Ok (None, []) | l :: w => Ok (Some l, w) end.
Definition any_pow (x y : spec_float) : spec_float := SFadd 53 1024 x y.
Definition channel_1 : survey_info := SurveyInfo 2412 1 (-95) 1500 700 0 300 50.
Definition channel_6 : survey_info := SurveyInfo 2437 0 (-90) 1000 200 0 100 0.
Abbreviation sample_dump := (survey_dump any_pow next_survey).
Abbreviation sample_acs := (get_acs any_pow (λ _, mret tt) next_survey (λ _, mret tt)).

Lemma noise_floor_unmeasured_witness :
  sample_dump (λ _, 123) None [[channel_1; channel_6]] =
    Ok (unmeasured any_pow (λ _, 123) [channel_1; channel_6], []).
Proof.
  apply (noise_floor_unmeasured any_pow next_survey (λ _, 123) None [channel_1; channel_6]
    [[channel_1; channel_6]] []); [reflexivity|].
  apply NoDup_cons. split; [|apply NoDup_singleton]. rewrite list_elem_of_singleton. done.
Defined.

Lemma acs_is_mean_witness :
  let x := unmeasured any_pow (λ _, 0) [channel_1; channel_6] in
  ∃ r, sample_acs (λ _ _, 0) None 2 [[channel_1; channel_6]; [channel_1; channel_6]] = Ok (r, []) ∧
    r = (λ c, AcsChannel (ac_freq c) (f80_div (ac_factor c) (to_f80 (f32_of_Z 2))) (ac_min_nf c)) <$>
        sum_surveys x [x].
Proof.
  intros x. eexists. split; [|reflexivity].
  apply (acs_is_mean any_pow (λ _, mret tt) next_survey (λ _, mret tt) (λ _ _, 0) None x [x]
    [[channel_1; channel_6]; [channel_1; channel_6]] [[channel_1; channel_6]] []).
  - done.
  - eexists. split; [reflexivity|vm_compute; reflexivity].
  - constructor; [right; done|constructor].
  - eapply scans_cons; [reflexivity|vm_compute; reflexivity|constructor].
Defined.

Lemma acs_shrinking_survey_witness :
  sample_acs (λ _ _, 0) None 2 [[channel_1; channel_6]; [channel_1]] = Err ReadOutOfBounds.
Proof.
  apply (acs_shrinking_survey any_pow (λ _, mret tt) next_survey (λ _, mret tt) (λ _ _, 0) None
    (unmeasured any_pow (λ _, 0) [channel_1; channel_6]) [] (unmeasured any_pow (λ _, 0) [channel_1]) 0
    [[channel_1; channel_6]; [channel_1]] [[channel_1]] [[channel_1]] [[channel_1]] []).
  - eexists. split; [reflexivity|vm_compute; reflexivity].
  - constructor.
  - constructor.
  - reflexivity.
  - vm_compute. reflexivity.
  - simpl. lia.
Defined.
