(* ===== verification/NetStatistics.v ===== *)
(** The statistics of the interfaces: [ethanol_functions/net_statistics.c].

    The counters of an interface are read from its files under /sys.  For the
    interfaces added to a list, the means of the counters per second are kept
    as exponentially weighted moving averages, in [long double] arithmetic.  The
    list, the interval and the weight are static variables, the record
    [net_state].  A thread collects while [running_thread] is true; how it is
    started and stopped is the subject of [Collector]. *)
From stdpp Require Import prelude list strings gmap.
From Stdlib Require Import SpecFloat.
From S2P Require Import Prelude CMem IniFile ConfigFile Connect HostapdConf Scanf CFloat.
From S2P Require Import BufferHandler World TimeStamp.

(** ** State *)

(** [struct t_list_net_statistics]. *)
Record net_entry := NetEntry {
  n_intf_name : list Z; current_value : net_statistics; last_t : Z * Z; mean : stats spec_float
}.

Record net_state := NetState {
  list_net_statistics : list net_entry;
  collect_usec : Z;
  running_thread : bool;
  ewma_alpha : spec_float
}.

(** [long double ewma_alpha = 0.1]: the [double] nearest to 0.1. *)
Definition net_init : net_state := NetState [] (-1) true (f64_div (f64_of_Z 1) (f64_of_Z 10)).

Definition put_list (l : list net_entry) (s : net_state) : net_state :=
  NetState l (collect_usec s) (running_thread s) (ewma_alpha s).

(** Where a world keeps the static variables, and [pthread_create]. *)
Class NetGlobals (W : Type) := {
  net_of : W → net_state;
  put_net : net_state → W → W;
  start_thread : ST W unit
}.

(** [all_mean_net_statistics]. *)
Record all_mean_net_statistics := AllMean {
  am_num : Z; am_intfs : option (list charp); am_ns : option (list (stats spec_float))
}.

(** ** Reading the counters *)

Section reading.
Context {W : Type} `{Files W}.

Definition file_exists (filename : list Z) : ST W bool :=
  f ← fread filename; mret (match f with Some _ => true | None => false end).

(** [PATH_TEMPLATE]. *)
Definition stat_path (intf_name metric : list Z) : list Z :=
  lit_bytes "/sys/class/net/" ++ intf_name ++ lit_bytes "/statistics/" ++ metric.

(** [valor] stays -1 when the file cannot be opened or holds no number. *)
Definition read_value_in_file (metric : string) (intf_name : list Z) : ST W Z :=
  filename ← lift (sprintf_local 200 (stat_path intf_name (lit_bytes metric)));
  b ← file_exists filename;
  if (b : bool) then
    file ← fread filename;
    match file with
    | Some t => vs ← lift (sscanf [Conv (Dec 64)] t); mret (num_at vs 0 (-1))
    | None => mret (-1)
    end
  else mret (-1).

Definition get_statistics_local (intf_name : list Z) : ST W net_statistics :=
  collisions ← read_value_in_file "collisions" intf_name;
  multicast ← read_value_in_file "multicast" intf_name;
  rx_bytes ← read_value_in_file "rx_bytes" intf_name;
  rx_compressed ← read_value_in_file "rx_compressed" intf_name;
  rx_crc_errors ← read_value_in_file "rx_crc_errors" intf_name;
  rx_dropped ← read_value_in_file "rx_dropped" intf_name;
  rx_errors ← read_value_in_file "rx_errors" intf_name;
  rx_fifo_errors ← read_value_in_file "rx_fifo_errors" intf_name;
  rx_frame_errors ← read_value_in_file "rx_frame_errors" intf_name;
  rx_length_errors ← read_value_in_file "rx_length_errors" intf_name;
  rx_missed_errors ← read_value_in_file "rx_missed_errors" intf_name;
  rx_over_errors ← read_value_in_file "rx_over_errors" intf_name;
  rx_packets ← read_value_in_file "rx_packets" intf_name;
  tx_aborted_errors ← read_value_in_file "tx_aborted_errors" intf_name;
  tx_bytes ← read_value_in_file "tx_bytes" intf_name;
  tx_carrier_errors ← read_value_in_file "tx_carrier_errors" intf_name;
  tx_compressed ← read_value_in_file "tx_compressed" intf_name;
  tx_dropped ← read_value_in_file "tx_dropped" intf_name;
  tx_errors ← read_value_in_file "tx_errors" intf_name;
  tx_fifo_errors ← read_value_in_file "tx_fifo_errors" intf_name;
  tx_heartbeat_errors ← read_value_in_file "tx_heartbeat_errors" intf_name;
  tx_packets ← read_value_in_file "tx_packets" intf_name;
  tx_window_errors ← read_value_in_file "tx_window_errors" intf_name;
  mret (Stats collisions multicast rx_bytes rx_compressed rx_crc_errors rx_dropped rx_errors
          rx_fifo_errors rx_frame_errors rx_length_errors rx_missed_errors
          rx_over_errors rx_packets tx_aborted_errors tx_bytes tx_carrier_errors
          tx_compressed tx_dropped tx_errors tx_fifo_errors tx_heartbeat_errors
          tx_packets tx_window_errors).

Definition get_statistics (intf_name : charp) : ST W net_statistics :=
  i ← lift (chars intf_name); get_statistics_local i.
End reading.

(** ** The means *)

Definition calculate_ewma (alpha : spec_float) (v vl : Z) (diff_t m : spec_float) : res spec_float :=
  ensure (i64_ok (v - vl)) SignedOverflow;;
  let x := f80_div (f80_of_Z (v - vl)) diff_t in
  Ok (f80_add (f80_mul m alpha) (f80_mul x (f80_sub (f80_of_Z 1) alpha))).

(** Every mean but those of [rx_packets] and [tx_packets] is computed anew. *)
Definition ewma_stats (alpha : spec_float) (now old : net_statistics) (diff_t : spec_float)
    (m : stats spec_float) : res (stats spec_float) :=
  let new (f : net_statistics → Z) (g : stats spec_float → spec_float) :=
    calculate_ewma alpha (f now) (f old) diff_t (g m) in
  collisions ← new ns_collisions ns_collisions;
  multicast ← new ns_multicast ns_multicast;
  rx_bytes ← new ns_rx_bytes ns_rx_bytes;
  rx_compressed ← new ns_rx_compressed ns_rx_compressed;
  rx_crc_errors ← new ns_rx_crc_errors ns_rx_crc_errors;
  rx_dropped ← new ns_rx_dropped ns_rx_dropped;
  rx_errors ← new ns_rx_errors ns_rx_errors;
  rx_fifo_errors ← new ns_rx_fifo_errors ns_rx_fifo_errors;
  rx_frame_errors ← new ns_rx_frame_errors ns_rx_frame_errors;
  rx_length_errors ← new ns_rx_length_errors ns_rx_length_errors;
  rx_missed_errors ← new ns_rx_missed_errors ns_rx_missed_errors;
  rx_over_errors ← new ns_rx_over_errors ns_rx_over_errors;
  tx_aborted_errors ← new ns_tx_aborted_errors ns_tx_aborted_errors;
  tx_bytes ← new ns_tx_bytes ns_tx_bytes;
  tx_carrier_errors ← new ns_tx_carrier_errors ns_tx_carrier_errors;
  tx_compressed ← new ns_tx_compressed ns_tx_compressed;
  tx_dropped ← new ns_tx_dropped ns_tx_dropped;
  tx_errors ← new ns_tx_errors ns_tx_errors;
  tx_fifo_errors ← new ns_tx_fifo_errors ns_tx_fifo_errors;
  tx_heartbeat_errors ← new ns_tx_heartbeat_errors ns_tx_heartbeat_errors;
  tx_window_errors ← new ns_tx_window_errors ns_tx_window_errors;
  Ok (Stats collisions multicast rx_bytes rx_compressed rx_crc_errors rx_dropped rx_errors
        rx_fifo_errors rx_frame_errors rx_length_errors rx_missed_errors
        rx_over_errors (ns_rx_packets m) tx_aborted_errors tx_bytes tx_carrier_errors
        tx_compressed tx_dropped tx_errors tx_fifo_errors tx_heartbeat_errors
        (ns_tx_packets m) tx_window_errors).

Definition update_entry (alpha : spec_float) (t_now : Z * Z) (now : net_statistics) (p : net_entry) :
    res net_entry :=
  let diff_t := diff_timeofday t_now (last_t p) in
  if SFltb (S754_zero false) diff_t then
    m ← ewma_stats alpha now (current_value p) diff_t (mean p);
    Ok (NetEntry (n_intf_name p) now t_now m)
  else Ok p.

Section operations.
Context {W : Type} `{Files W, Clock W, NetGlobals W}.

Definition get_net : ST W net_state := λ w, Ok (net_of w, w).
Definition modify (f : net_state → net_state) : ST W unit := λ w, Ok (tt, put_net (f (net_of w)) w).

Fixpoint update_list (alpha : spec_float) (l : list net_entry) : ST W (list net_entry) :=
  match l with
  | [] => mret []
  | p :: l =>
      t_now ← gettimeofday;
      now ← get_statistics_local (n_intf_name p);
      p ← lift (update_entry alpha t_now now p);
      l ← update_list alpha l;
      mret (p :: l)
  end.

Definition update_means : ST W unit :=
  s ← get_net;
  l ← update_list (ewma_alpha s) (list_net_statistics s);
  modify (put_list l).

Definition set_ewma_alpha (alpha : spec_float) : ST W unit :=
  modify (λ s, NetState (list_net_statistics s) (collect_usec s) (running_thread s) alpha).

(** The thread is started before the interval is stored. *)
Definition set_timed_net_statistics (usec : Z) : ST W unit :=
  if usec <=? 0 then
    modify (λ s, NetState (list_net_statistics s) (-1) false (ewma_alpha s))
  else
    s ← get_net;
    (if collect_usec s <=? 0 then
       modify (λ s, NetState (list_net_statistics s) (collect_usec s) true (ewma_alpha s));;
       start_thread
     else mret tt);;
    modify (λ s, NetState (list_net_statistics s) usec (running_thread s) (ewma_alpha s)).

(** [while (p && strcmp(p->intf_name, intf_name) != 0) p = p->next]. *)
Fixpoint find_entry (l : list net_entry) (intf_name : charp) : res (option net_entry) :=
  match l with
  | [] => Ok None
  | p :: l =>
      b ← streq (mk_str (n_intf_name p)) intf_name;
      if (b : bool) then Ok (Some p) else find_entry l intf_name
  end.

Definition add_intf_net_statistics (intf_name : charp) : ST W unit :=
  s ← get_net;
  p ← lift (find_entry (list_net_statistics s) intf_name);
  match p with
  | Some _ => mret tt
  | None =>
      i ← lift (chars intf_name);
      t ← gettimeofday;
      now ← get_statistics_local i;
      modify (λ s, put_list (NetEntry i now t (all_stats (S754_zero false)) :: list_net_statistics s) s)
  end.

Fixpoint remove_entry (l : list net_entry) (intf_name : charp) : res (list net_entry) :=
  match l with
  | [] => Ok []
  | p :: l =>
      b ← streq (mk_str (n_intf_name p)) intf_name;
      if (b : bool) then Ok l else l ← remove_entry l intf_name; Ok (p :: l)
  end.

Definition remove_intf_net_statistics (intf_name : charp) : ST W unit :=
  s ← get_net;
  l ← lift (remove_entry (list_net_statistics s) intf_name);
  modify (put_list l).

(** After the search [p] is read even when it is NULL. *)
Definition get_mean_net_statistics (intf_name : charp) : ST W (stats spec_float) :=
  s ← get_net;
  p ← lift (find_entry (list_net_statistics s) intf_name);
  p ← lift (deref p);
  mret (mean p).

Definition get_all_mean_net_statistics : ST W (option all_mean_net_statistics) :=
  s ← get_net;
  match list_net_statistics s with
  | [] => mret None
  | l => mret (Some (AllMean (Z.of_nat (length l)) (Some ((λ p, mk_str (n_intf_name p)) <$> l))
                             (Some (mean <$> l))))
  end.
End operations.

(** ** The list as a set of interfaces *)

(** The counters as a list, to quantify over them. *)
Definition stats_list {A} (s : stats A) : list A :=
  [ns_collisions s; ns_multicast s; ns_rx_bytes s; ns_rx_compressed s; ns_rx_crc_errors s;
   ns_rx_dropped s; ns_rx_errors s; ns_rx_fifo_errors s; ns_rx_frame_errors s;
   ns_rx_length_errors s; ns_rx_missed_errors s; ns_rx_over_errors s; ns_rx_packets s;
   ns_tx_aborted_errors s; ns_tx_bytes s; ns_tx_carrier_errors s; ns_tx_compressed s;
   ns_tx_dropped s; ns_tx_errors s; ns_tx_fifo_errors s; ns_tx_heartbeat_errors s;
   ns_tx_packets s; ns_tx_window_errors s].

(** A counter as the kernel gives it, or -1. *)
Definition counter_ok (z : Z) : Prop := -1 ≤ z < 2 ^ 62.

(** What the operations need of a world: the static variables are one object,
    reading a file or the clock leaves them as they are, and the files of the
    counters hold a number and a newline. *)
Class NetWorld (W : Type) `{Files W, Clock W, NetGlobals W} : Prop := {
  net_put : ∀ s w, net_of (put_net s w) = s;
  net_fread : ∀ p w, ∃ f, fread p w = Ok (f, w);
  net_counter : ∀ i m w t, fread (stat_path i m) w = Ok (Some t, w) →
    ∃ z, 0 ≤ z < 2 ^ 62 ∧ t = decimal 20 z ++ [10];
  net_clock : ∀ w, ∃ t w', gettimeofday w = Ok (t, w') ∧ net_of w' = net_of w;
  net_thread : ∀ w, ∃ w', start_thread w = Ok (tt, w') ∧ net_of w' = net_of w
}.

(** The names of interfaces that fit the path. *)
Definition short_name (i : list Z) : bool :=
  forallb is_char i && (Z.of_nat (length i) <? 128).

Definition entry_ok (p : net_entry) : Prop :=
  short_name (n_intf_name p) = true ∧ Forall counter_ok (stats_list (current_value p)) ∧
  ns_rx_packets (mean p) = S754_zero false ∧ ns_tx_packets (mean p) = S754_zero false.

Definition net_ok (s : net_state) : Prop :=
  Forall entry_ok (list_net_statistics s) ∧ NoDup (n_intf_name <$> list_net_statistics s).

Definition monitored (s : net_state) : gset (list Z) :=
  list_to_set (n_intf_name <$> list_net_statistics s).

Inductive net_op :=
| OpAdd (i : charp) | OpRemove (i : charp) | OpUpdate | OpAlpha (a : spec_float) | OpTime (usec : Z).

Definition op_ok (op : net_op) : bool :=
  match op with OpAdd i | OpRemove i => named i && short_name (text i) | _ => true end.

(** What an operation does to the set of interfaces. *)
Definition abs_op (m : gset (list Z)) (op : net_op) : gset (list Z) :=
  match op with
  | OpAdd i => {[text i]} ∪ m
  | OpRemove i => m ∖ {[text i]}
  | OpUpdate | OpAlpha _ | OpTime _ => m
  end.

Section refinement.
Context {W : Type} `{NetWorld W}.

Definition run_op (op : net_op) : ST W unit :=
  match op with
  | OpAdd i => add_intf_net_statistics i
  | OpRemove i => remove_intf_net_statistics i
  | OpUpdate => update_means
  | OpAlpha a => set_ewma_alpha a
  | OpTime u => set_timed_net_statistics u
  end.

Fixpoint run_ops (ops : list net_op) : ST W unit :=
  match ops with [] => mret tt | op :: ops => run_op op;; run_ops ops end.

Lemma read_value_total m i w : short_name i = true → (String.length m ≤ 20)%nat →
  ∃ z, read_value_in_file m i w = Ok (z, w) ∧ counter_ok z.
Proof.
  unfold short_name. intros Hi Hm. split_andb. to_prop. unfold read_value_in_file.
  assert (length (lit_bytes m) = String.length m) as Hlm.
  { clear. unfold lit_bytes. rewrite length_fmap. induction m; simpl; congruence. }
  rewrite sprintf_local_Ok by (unfold stat_path; rewrite !length_app, Hlm; simpl; lia).
  run (lift_Ok (Ok (stat_path i (lit_bytes m))) w _ eq_refl). unfold file_exists.
  destruct (net_fread (stat_path i (lit_bytes m)) w) as [f Hf].
  rewrite (st_bind_Ok _ _ w (match f with Some _ => true | None => false end) w)
    by (unfold mbind, ST_bind; by rewrite Hf).
  destruct f as [t|]; [|exists (-1); split; [done|unfold counter_ok; lia]].
  run Hf. destruct (net_counter _ _ _ _ Hf) as (z & Hz & ->).
  assert (sscanf [Conv (Dec 64)] (decimal 20 z ++ [10]) = Ok [Num z]) as E.
  { cbn [sscanf]. rewrite (convert_dec 64 19 z [10]); [done|lia|in_range|].
    by intros c l [= <- <-]. }
  rewrite E. exists z. split; [done|]. unfold counter_ok. lia.
Qed.

Lemma statistics_total i w : short_name i = true →
  ∃ s, get_statistics_local i w = Ok (s, w) ∧ Forall counter_ok (stats_list s).
Proof.
  intros Hi. unfold get_statistics_local.
  repeat match goal with
  | |- context [(mbind _ (read_value_in_file ?m i)) w] =>
      let z := fresh "z" in let E := fresh "E" in let Hz := fresh "Hz" in
      destruct (read_value_total m i w Hi ltac:(simpl; lia)) as (z & E & Hz);
      rewrite (st_bind_Ok _ _ w z w E); clear E
  end.
  eexists. split; [reflexivity|]. unfold stats_list. cbn.
  repeat first [apply Forall_nil_2 | apply Forall_cons_2; [assumption|]].
Qed.

Lemma ewma_total alpha v vl d m : counter_ok v → counter_ok vl →
  ∃ x, calculate_ewma alpha v vl d m = Ok x.
Proof.
  unfold counter_ok, calculate_ewma. intros Hv Hl.
  rewrite (ensure_Ok (i64_ok (v - vl))) by in_range. by eexists.
Qed.

Lemma ewma_stats_total alpha now old d m :
  Forall counter_ok (stats_list now) → Forall counter_ok (stats_list old) →
  ∃ r, ewma_stats alpha now old d m = Ok r ∧
    ns_rx_packets r = ns_rx_packets m ∧ ns_tx_packets r = ns_tx_packets m.
Proof.
  unfold stats_list. rewrite !Forall_cons. intros Hn Ho. destruct_and!. unfold ewma_stats.
  repeat match goal with
  | |- context [calculate_ewma alpha (?f now) (?f old) d (?g m)] =>
      let x := fresh "x" in let E := fresh "E" in
      destruct (ewma_total alpha (f now) (f old) d (g m)) as [x E]; [assumption..|];
      rewrite (res_bind_Ok _ _ x E); clear E
  end.
  by eexists.
Qed.

Lemma update_entry_total alpha t now p :
  entry_ok p → Forall counter_ok (stats_list now) →
  ∃ q, update_entry alpha t now p = Ok q ∧ entry_ok q ∧ n_intf_name q = n_intf_name p.
Proof.
  intros Hp Hnow. unfold update_entry. destruct (SFltb _ _); [|by eauto].
  destruct Hp as (Hi & Hc & Hr & Ht).
  destruct (ewma_stats_total alpha now (current_value p) (diff_timeofday t (last_t p)) (mean p) Hnow Hc)
    as (r & Er & Hr' & Ht').
  run Er. eexists. split; [done|]. split; [|done]. by rewrite <- Hr', <- Ht' in *.
Qed.

Lemma update_list_total alpha l w : Forall entry_ok l →
  ∃ l' w', update_list alpha l w = Ok (l', w') ∧ Forall entry_ok l' ∧
    n_intf_name <$> l' = n_intf_name <$> l ∧ net_of w' = net_of w.
Proof.
  intros Hl. revert w. induction Hl as [|p l Hp Hl IH]; intros w; [by eauto 10|].
  cbn [update_list]. destruct (net_clock w) as (t & w1 & Et & Hw1). run Et.
  destruct (statistics_total (n_intf_name p) w1 (proj1 Hp)) as (now & En & Hnow). run En.
  destruct (update_entry_total alpha t now p Hp Hnow) as (q & Eq & Hq & Hn).
  run (lift_Ok _ w1 _ Eq). destruct (IH w1) as (l' & w2 & El & Hl' & Hns & Hw2). run El.
  eexists _, _. split; [reflexivity|]. split; [by constructor|].
  rewrite !fmap_cons. split; [congruence|congruence].
Qed.

Lemma find_entry_spec l i : named i = true → Forall entry_ok l →
  ∃ r, find_entry l i = Ok r ∧
    match r with
    | Some p => p ∈ l ∧ n_intf_name p = text i
    | None => text i ∉ n_intf_name <$> l
    end.
Proof.
  intros Hi Hl. induction Hl as [|p l Hp Hl IH]; [exists None; split; [done|set_solver]|].
  cbn [find_entry]. destruct Hp as (Hs & _). unfold short_name in Hs. split_andb. to_prop.
  assert (named (mk_str (n_intf_name p)) = true) as Hn.
  { unfold named. cbn [mk_str nonnull]. apply cstr_ok_mk; [done|lia]. }
  rewrite (streq_spec _ i Hn Hi), text_mk by done. cbn [mbind res_bind].
  destruct (decide (n_intf_name p = text i)) as [E|E].
  - rewrite bool_decide_true by done. exists (Some p). split; [done|]. split; [by left|done].
  - rewrite bool_decide_false by done. destruct IH as (r & -> & Hr). exists r. split; [done|].
    destruct r as [q|]; [destruct Hr; split; [by right|done]|].
    rewrite fmap_cons, not_elem_of_cons. done.
Qed.

Lemma remove_entry_spec l i : named i = true → Forall entry_ok l →
  remove_entry l i = Ok (match list_find (λ p, n_intf_name p = text i) l with
                         | Some (k, _) => delete k l | None => l end).
Proof.
  intros Hi Hl. induction Hl as [|p l Hp Hl IH]; [done|]. cbn [remove_entry list_find].
  destruct Hp as (Hs & _). unfold short_name in Hs. split_andb. to_prop.
  assert (named (mk_str (n_intf_name p)) = true) as Hn.
  { unfold named. cbn [mk_str nonnull]. apply cstr_ok_mk; [done|lia]. }
  rewrite (streq_spec _ i Hn Hi), text_mk by done. cbn [mbind res_bind].
  destruct (decide (n_intf_name p = text i)) as [E|E].
  - by rewrite bool_decide_true.
  - rewrite bool_decide_false, IH by done. cbn [mbind res_bind].
    by destruct (list_find _ l) as [[k q]|].
Qed.

Lemma add_refines i w : named i = true → short_name (text i) = true → net_ok (net_of w) →
  ∃ w', add_intf_net_statistics i w = Ok (tt, w') ∧ net_ok (net_of w') ∧
    monitored (net_of w') = {[text i]} ∪ monitored (net_of w).
Proof.
  intros Hi Hs [Hl Hnd]. unfold add_intf_net_statistics. run (eq_refl : get_net w = Ok (net_of w, w)).
  destruct (find_entry_spec _ i Hi Hl) as (r & Er & Hr). run (lift_Ok _ w _ Er). destruct r as [p|].
  - exists w. split_and!; [done|done|]. destruct Hr as [Hp <-]. unfold monitored.
    assert (n_intf_name p ∈ n_intf_name <$> list_net_statistics (net_of w)) by set_solver. set_solver.
  - run (lift_Ok _ w _ (chars_named i Hi)). destruct (net_clock w) as (t & w1 & Et & Hw1). run Et.
    destruct (statistics_total (text i) w1 Hs) as (now & En & Hnow). run En.
    eexists. split; [reflexivity|]. rewrite net_put, Hw1. unfold net_ok, monitored.
    cbn [put_list list_net_statistics]. rewrite fmap_cons. cbn [n_intf_name].
    split; [split; [by constructor|by constructor]|done].
Qed.

Lemma remove_refines i w : named i = true → net_ok (net_of w) →
  ∃ w', remove_intf_net_statistics i w = Ok (tt, w') ∧ net_ok (net_of w') ∧
    monitored (net_of w') = monitored (net_of w) ∖ {[text i]}.
Proof.
  intros Hi [Hl Hnd]. unfold remove_intf_net_statistics. run (eq_refl : get_net w = Ok (net_of w, w)).
  run (lift_Ok _ w _ (remove_entry_spec _ i Hi Hl)). eexists. split; [reflexivity|].
  rewrite net_put. unfold net_ok, monitored. cbn [put_list list_net_statistics].
  destruct (list_find _ _) as [[k p]|] eqn:E.
  - apply list_find_Some in E as (Hk & Hp & _). rewrite delete_take_drop.
    set (l := list_net_statistics (net_of w)) in *. rewrite <- (take_drop_middle _ _ _ Hk) in Hl, Hnd.
    replace (n_intf_name <$> l) with (n_intf_name <$> (take k l ++ p :: drop (S k) l))
      by (by rewrite (take_drop_middle _ _ _ Hk)).
    rewrite !fmap_app, fmap_cons in *. rewrite Forall_app, Forall_cons in Hl.
    apply NoDup_app in Hnd as (Hn1 & Hn12 & Hn). apply NoDup_cons in Hn as [Hn2 Hn3].
    rewrite Forall_app, NoDup_app, !list_to_set_app_L. cbn [list_to_set]. rewrite Hp in *.
    split; [split; [tauto|split_and!; [done|set_solver|done]]|]. set_solver.
  - apply list_find_None in E. split; [done|]. rewrite Forall_forall in E.
    assert (text i ∉ n_intf_name <$> list_net_statistics (net_of w)).
    { intros (p & Hp & Hin)%list_elem_of_fmap. by apply (E p Hin). }
    set_solver.
Qed.

Lemma op_refines op w : op_ok op = true → net_ok (net_of w) →
  ∃ w', run_op op w = Ok (tt, w') ∧ net_ok (net_of w') ∧
    monitored (net_of w') = abs_op (monitored (net_of w)) op.
Proof.
  destruct op as [i|i| |a|u]; cbn [op_ok run_op abs_op]; intros Hop Hok.
  - split_andb. by apply add_refines.
  - split_andb. by apply remove_refines.
  - destruct Hok as [Hl Hnd]. unfold update_means. run (eq_refl : get_net w = Ok (net_of w, w)).
    destruct (update_list_total (ewma_alpha (net_of w)) _ w Hl) as (l' & w1 & El & Hl' & Hn & Hw1).
    run El. eexists. split; [reflexivity|]. rewrite net_put. unfold net_ok, monitored.
    cbn [put_list list_net_statistics]. by rewrite Hn.
  - eexists. split; [reflexivity|]. rewrite net_put. done.
  - unfold set_timed_net_statistics. destruct (u <=? 0).
    { eexists. split; [reflexivity|]. by rewrite net_put. }
    run (eq_refl : get_net w = Ok (net_of w, w)). destruct (collect_usec (net_of w) <=? 0).
    + destruct (net_thread (put_net (NetState (list_net_statistics (net_of w)) (collect_usec (net_of w))
        true (ewma_alpha (net_of w))) w)) as (w1 & E1 & Hw1).
      rewrite (st_bind_Ok _ _ w tt w1) by (rewrite (st_bind_Ok _ _ _ _ _ eq_refl); exact E1).
      eexists. split; [reflexivity|]. by rewrite net_put, Hw1, net_put.
    + rewrite (st_bind_Ok _ _ w tt w eq_refl). eexists. split; [reflexivity|]. by rewrite net_put.
Qed.

Lemma ops_refine ops w : forallb op_ok ops = true → net_ok (net_of w) →
  ∃ w', run_ops ops w = Ok (tt, w') ∧ net_ok (net_of w') ∧
    monitored (net_of w') = foldl abs_op (monitored (net_of w)) ops.
Proof.
  revert w. induction ops as [|op ops IH]; intros w Hops Hok; [by exists w|]. cbn [forallb] in Hops.
  split_andb. destruct (op_refines op w) as (w1 & E1 & Hok1 & Hm1); [done..|]. cbn [run_ops]. run E1.
  destruct (IH w1) as (w2 & E2 & Hok2 & Hm2); [done..|]. exists w2. cbn [foldl]. by rewrite <- Hm1.
Qed.

(** C11: the interfaces whose statistics are collected are a set: starting from
    the initial state, any sequence of adding, removing, collecting and setting
    the weight or the interval succeeds, and the report that follows names each
    interface of the resulting set once, with one mean each; without interfaces
    there is no report. *)
Theorem net_statistics_refine_set ops w :
  net_of w = net_init → forallb op_ok ops = true →
  ∃ w' r, run_ops ops w = Ok (tt, w') ∧ get_all_mean_net_statistics w' = Ok (r, w') ∧
    match r with
    | None => foldl abs_op ∅ ops = ∅
    | Some a => ∃ names ms, am_intfs a = Some (mk_str <$> names) ∧ am_ns a = Some ms ∧
        am_num a = Z.of_nat (length names) ∧ length ms = length names ∧
        NoDup names ∧ list_to_set names = foldl abs_op ∅ ops
    end.
Proof.
  intros Hw Hops. destruct (ops_refine ops w Hops) as (w' & E & [Hl Hnd] & Hm).
  { rewrite Hw. split; constructor. }
  rewrite Hw in Hm. change (monitored net_init) with (∅ : gset (list Z)) in Hm.
  unfold get_all_mean_net_statistics. exists w'. rewrite <- Hm. unfold monitored in *.
  destruct (list_net_statistics (net_of w')) as [|p l] eqn:El.
  - exists None. split_and!; [done| |done]. run (eq_refl : get_net w' = Ok (net_of w', w')). by rewrite El.
  - eexists. split; [done|]. split.
    { run (eq_refl : get_net w' = Ok (net_of w', w')). rewrite El. reflexivity. }
    exists (n_intf_name <$> p :: l), (mean <$> p :: l). cbn [am_intfs am_ns am_num].
    rewrite <- list_fmap_compose, !length_fmap. done.
Qed.

(** The means of the packets are never computed: whatever the traffic and
    the sequence of operations, every interface is reported with 0 packets
    received and sent per second. *)
Theorem packet_means_stay_zero ops w w' :
  net_of w = net_init → forallb op_ok ops = true → run_ops ops w = Ok (tt, w') →
  Forall (λ p, ns_rx_packets (mean p) = S754_zero false ∧ ns_tx_packets (mean p) = S754_zero false)
    (list_net_statistics (net_of w')).
Proof.
  intros Hw Hops E. destruct (ops_refine ops w Hops) as (w1 & E1 & [Hl _] & _).
  { rewrite Hw. split; constructor. }
  rewrite E in E1. simplify_eq. eapply Forall_impl; [exact Hl|]. by intros p (_ & _ & ?).
Qed.
End refinement.

(** ** A sample world *)

(** Every counter is the time, which advances by a second at each reading. *)
Record meter := Meter { meter_net : net_state; meter_time : Z }.

Definition meter_value (w : meter) : Z := meter_time w `mod` 2 ^ 31.

#[local] Instance meter_files : Files meter := {|
  fread p w := Ok (Some (decimal 20 (meter_value w) ++ [10]), w);
  fopen_w _ := mret false;
  fwrite _ _ := mret tt
|}.
#[local] Instance meter_clock : Clock meter := {|
  gettimeofday w := Ok ((meter_value w, 0), Meter (meter_net w) (meter_time w + 1))
|}.
#[local] Instance meter_globals : NetGlobals meter := {|
  net_of := meter_net; put_net s w := Meter s (meter_time w); start_thread := mret tt
|}.
#[local] Instance meter_world : NetWorld meter.
Proof.
  split.
  - done.
  - by eauto.
  - intros i m w t [= <-]. exists (meter_value w). split; [|done]. unfold meter_value.
    pose proof (Z.mod_pos_bound (meter_time w) (2 ^ 31)). lia.
  - intros w. by eexists _, _.
  - intros w. by eexists.
Defined.

Definition meter_ops : list net_op :=
  [OpAdd (lit "eth0"); OpTime 500000; OpAdd (lit "wlan0"); OpUpdate; OpAdd (lit "eth0");
   OpAlpha (f64_of_Z 0); OpUpdate; OpRemove (lit "wlan0")].

Lemma net_statistics_refine_set_witness :
  forallb op_ok meter_ops = true ∧
  ∃ w' r, run_ops meter_ops (Meter net_init 100) = Ok (tt, w') ∧
    get_all_mean_net_statistics w' = Ok (r, w') ∧
    match r with
    | None => foldl abs_op ∅ meter_ops = ∅
    | Some a => ∃ names ms, am_intfs a = Some (mk_str <$> names) ∧ am_ns a = Some ms ∧
        am_num a = Z.of_nat (length names) ∧ length ms = length names ∧
        NoDup names ∧ list_to_set names = foldl abs_op ∅ meter_ops
    end.
Proof.
  assert (forallb op_ok meter_ops = true) as Hops by (vm_compute; reflexivity).
  split; [exact Hops|]. exact (net_statistics_refine_set meter_ops (Meter net_init 100) eq_refl Hops).
Defined.

Lemma packet_means_stay_zero_witness :
  ∃ w', run_ops meter_ops (Meter net_init 100) = Ok (tt, w') ∧
  Forall (λ p, ns_rx_packets (mean p) = S754_zero false ∧ ns_tx_packets (mean p) = S754_zero false)
    (list_net_statistics (net_of w')).
Proof.
  eexists. split; [vm_compute; reflexivity|].
  apply (packet_means_stay_zero meter_ops (Meter net_init 100)); vm_compute; reflexivity.
Defined.

(** The mean of the other counters is computed: the counter advances by one
    per second, and with the weight 0.5 the mean of the received bytes is
    0.5 after the first collection. *)
Example meter_mean :
  (ns ← (run_ops [OpAlpha (f64_div (f64_of_Z 1) (f64_of_Z 2)); OpAdd (lit "eth0"); OpUpdate];;
         get_mean_net_statistics (lit "eth0")) (Meter net_init 0);
   Ok (f80_bits (ns_rx_bytes ns.1))) = Ok (f80_bits (f80_div (f80_of_Z 1) (f80_of_Z 2))).
Proof. vm_compute. reflexivity. Qed.
