(* ===== verification/Collector.v ===== *)
(** The thread of [ethanol_functions/net_statistics.c] that collects the
    statistics, and the calls that start and stop it.

    [set_timed_net_statistics] and [thread_get_net_statistics] share
    [collect_usec] and [running_thread] without a lock.  The steps below are
    the loads and stores of the two functions, interleaved in any order; what
    a collection computes is in [NetStatistics]. *)
From stdpp Require Import prelude list.
From S2P Require Import Prelude.

(** Where a collecting thread is: created, before it has read [collect_usec];
    or at the head of its loop. *)
Inductive thread_pc := Created | Looping.

(** Where a call of [set_timed_net_statistics] is: none is under way; before
    [collect_usec = -1]; before [collect_usec = usec]. *)
Inductive caller_pc := Idle | Stopping | Storing (usec : Z).

Record collector := Collector {
  usec : Z;
  running : bool;
  threads : list thread_pc;
  caller : caller_pc
}.

Definition collector_init : collector := Collector (-1) true [] Idle.

(** The caller's steps, with the interval it asks for. *)
Inductive caller_step : Z → collector → collector → Prop :=
| call_stop u c r ts : u ≤ 0 →
    caller_step u (Collector c r ts Idle) (Collector c false ts Stopping)
| call_stopped u c r ts :
    caller_step u (Collector c r ts Stopping) (Collector (-1) r ts Idle)
| call_start u c r ts : 0 < u → c ≤ 0 →
    caller_step u (Collector c r ts Idle) (Collector c true (ts ++ [Created]) (Storing u))
| call_change u c r ts : 0 < u → 0 < c →
    caller_step u (Collector c r ts Idle) (Collector c r ts (Storing u))
| call_stored u v c r ts :
    caller_step u (Collector c r ts (Storing v)) (Collector v r ts Idle).

(** The threads' steps: a new thread returns when the interval is not
    positive and otherwise enters its loop; the loop goes on, or ends, with
    [running_thread]. *)
Inductive thread_step : collector → collector → Prop :=
| thread_leaves c r ts1 ts2 p : c ≤ 0 →
    thread_step (Collector c r (ts1 ++ Created :: ts2) p) (Collector c r (ts1 ++ ts2) p)
| thread_enters c r ts1 ts2 p : 0 < c →
    thread_step (Collector c r (ts1 ++ Created :: ts2) p) (Collector c r (ts1 ++ Looping :: ts2) p)
| thread_collects c ts1 ts2 p :
    thread_step (Collector c true (ts1 ++ Looping :: ts2) p) (Collector c true (ts1 ++ Looping :: ts2) p)
| thread_ends c ts1 ts2 p :
    thread_step (Collector c false (ts1 ++ Looping :: ts2) p) (Collector c false (ts1 ++ ts2) p).

Inductive collector_step (s s' : collector) : Prop :=
| by_caller u : caller_step u s s' → collector_step s s'
| by_thread : thread_step s s' → collector_step s s'.

Create HintDb collector.
#[export] Hint Constructors caller_step thread_step collector_step : collector.

(** ** What holds in every state *)

(** While no call is under way, a positive interval means that the loops are
    allowed to run, and without an interval there is a loop only when it was
    not stopped. *)
Definition collector_inv (s : collector) : Prop :=
  match caller s with
  | Idle => usec s = -1 ∨ (0 < usec s ∧ running s = true)
  | Stopping => running s = false
  | Storing v => 0 < v ∧ running s = true
  end.

Lemma collector_inv_step s s' : collector_inv s → collector_step s s' → collector_inv s'.
Proof.
  unfold collector_inv. intros Hs [u Hu|Ht].
  - destruct Hu; simpl in *; naive_solver lia.
  - destruct Ht; simpl in *; done.
Qed.

Lemma collector_inv_reachable s : rtc collector_step collector_init s → collector_inv s.
Proof.
  intros H. assert (collector_inv collector_init) as H0 by (by left).
  induction H as [|s1 s2 s3 H12 _ IH]; eauto using collector_inv_step.
Qed.

(** Whatever the calls and the interleaving, when no call is under way the
    interval is either the -1 of a stopped collection, or positive with the
    loops of the threads enabled: no schedule leaves the collection configured
    and disabled. *)
Theorem collector_interval_enabled s : rtc collector_step collector_init s → caller s = Idle →
  usec s = -1 ∨ (0 < usec s ∧ running s = true).
Proof. intros H Hi. apply collector_inv_reachable in H. unfold collector_inv in H. by rewrite Hi in H. Qed.

(** ** A collection without a thread *)

(** Steps of a caller that never stops the collection, and of the threads. *)
Inductive keeps_collecting (s s' : collector) : Prop :=
| keeps_caller u : 0 < u → caller_step u s s' → keeps_collecting s s'
| keeps_thread : thread_step s s' → keeps_collecting s s'.

(** The interval is set and no thread is there to use it. *)
Definition orphaned (s : collector) : Prop :=
  0 < usec s ∧ threads s = [] ∧
  match caller s with Idle => True | Storing v => 0 < v | Stopping => False end.

Lemma orphaned_step s s' : orphaned s → keeps_collecting s s' → orphaned s'.
Proof.
  unfold orphaned. intros Hs [u Hu Hc|Ht].
  - destruct Hc; naive_solver lia.
  - destruct Ht; simpl in *; destruct Hs as (_ & Hl & _); by destruct ts1.
Qed.

Lemma orphaned_forever s s' : orphaned s → rtc keeps_collecting s s' → orphaned s'.
Proof. intros Hs H. induction H; eauto using orphaned_step. Qed.

(** The new thread reads the interval before the caller has stored it. *)
Lemma orphan_reachable v : 0 < v →
  rtc collector_step collector_init (Collector v true [] Idle).
Proof.
  intros Hv. eapply rtc_l; [apply (by_caller _ _ v), call_start; lia|]. simpl.
  eapply rtc_l; [apply by_thread, (thread_leaves (-1) true [] []); lia|]. simpl.
  eapply rtc_l; [apply (by_caller _ _ v), call_stored|]. apply rtc_refl.
Qed.

(** The thread is created before its interval is stored, so it may find the
    old interval and return.  Then the collection is configured and enabled but
    has no thread, and no sequence of further calls with positive intervals
    ever creates one. *)
Theorem collection_can_be_lost v : 0 < v →
  ∃ s, rtc collector_step collector_init s ∧
    usec s = v ∧ running s = true ∧ caller s = Idle ∧ threads s = [] ∧
    ∀ s', rtc keeps_collecting s s' → threads s' = [].
Proof.
  intros Hv. eexists. split; [by apply orphan_reachable|]. split_and!; [done..|].
  intros s' H. eapply orphaned_forever in H; [apply H|done].
Qed.

Lemma collection_can_be_lost_witness : 0 < 500000 ∧ ∃ s, rtc collector_step collector_init s ∧
    usec s = 500000 ∧ running s = true ∧ caller s = Idle ∧ threads s = [] ∧
    ∀ s', rtc keeps_collecting s s' → threads s' = [].
Proof. split; [lia|]. apply (collection_can_be_lost 500000). lia. Defined.

(** ** With the stores in order *)

(** The same calls when a created thread waits for the interval, and a call
    for the threads of the previous collection to end. *)
Inductive ordered_step : collector → collector → Prop :=
| ordered_caller u s s' : (caller s = Idle → usec s ≤ 0 → threads s = []) →
    caller_step u s s' → ordered_step s s'
| ordered_thread s s' : (∀ v, caller s ≠ Storing v) → thread_step s s' → ordered_step s s'.

(** One thread while an interval is set. *)
Definition single (s : collector) : Prop :=
  collector_inv s ∧
  match caller s with
  | Idle => if decide (0 < usec s) then length (threads s) = 1%nat
            else (length (threads s) ≤ 1)%nat
  | Stopping => (length (threads s) ≤ 1)%nat
  | Storing _ => length (threads s) = 1%nat
  end.

Lemma single_caller u s s' : single s → (caller s = Idle → usec s ≤ 0 → threads s = []) →
  caller_step u s s' → single s'.
Proof.
  intros [Hi Hs] Hw Hc. split; [by eapply collector_inv_step; eauto with collector|].
  destruct Hc; unfold collector_inv in *; simpl in *; try case_decide; try (by naive_solver lia).
Qed.

Lemma single_thread s s' : single s → (∀ v, caller s ≠ Storing v) → thread_step s s' → single s'.
Proof.
  intros [Hi Hs] Hw Ht. split; [by eapply collector_inv_step; eauto with collector|].
  destruct Ht; destruct p as [| |v]; unfold collector_inv in *; simpl in *; try case_decide;
    try (by destruct (Hw v)); try done; rewrite ?length_app in *; simpl in *;
    try (by naive_solver lia).
Qed.

(** Were the interval stored before the thread runs, and a stopped thread
    awaited before the next call, there would be exactly one thread whenever an
    interval is set and no call is under way, whatever the calls. *)
Theorem ordered_collection_single s : rtc ordered_step collector_init s →
  caller s = Idle → 0 < usec s → length (threads s) = 1%nat ∧ running s = true.
Proof.
  intros H Hc Hu. assert (single s) as [Hi Hs].
  { assert (single collector_init) as H0 by (split; [by left|simpl; lia]).
    clear Hc Hu. induction H as [|s1 s2 s3 H12 _ IH]; [done|]. apply IH.
    destruct H12; eauto using single_caller, single_thread. }
  unfold collector_inv in Hi. rewrite Hc in *. rewrite decide_True in Hs by done. split; [done|].
  naive_solver lia.
Qed.

Lemma collector_interval_enabled_witness :
  usec (Collector 7 true [] Idle) = -1 ∨ (0 < 7 ∧ true = true).
Proof. apply (collector_interval_enabled (Collector 7 true [] Idle)); [by apply orphan_reachable|done]. Defined.

(** A collection that is started in order. *)
Lemma ordered_start v : 0 < v → rtc ordered_step collector_init (Collector v true [Looping] Idle).
Proof.
  intros Hv. eapply rtc_l; [apply (ordered_caller v); [done|apply call_start; lia]|]. simpl.
  eapply rtc_l; [apply (ordered_caller v); [done|apply call_stored]|].
  eapply rtc_l; [apply ordered_thread; [done|apply (thread_enters v true [] []); lia]|]. apply rtc_refl.
Qed.

Lemma ordered_collection_single_witness :
  rtc ordered_step collector_init (Collector 7 true [Looping] Idle) ∧
  length (threads (Collector 7 true [Looping] Idle)) = 1%nat ∧ true = true.
Proof.
  split; [by apply ordered_start|].
  by apply (ordered_collection_single (Collector 7 true [Looping] Idle)); [apply ordered_start|..].
Defined.

(** A call that stops the collection and one that starts it again, before the
    thread has looked at [running_thread], leave two threads collecting. *)
Lemma two_threads_collect v : 0 < v →
  rtc collector_step collector_init (Collector v true [Looping; Looping] Idle).
Proof.
  intros Hv. eapply rtc_l; [apply (by_caller _ _ v), call_start; lia|]. simpl.
  eapply rtc_l; [apply (by_caller _ _ v), call_stored|].
  eapply rtc_l; [apply by_thread, (thread_enters v true [] []); lia|]. simpl.
  eapply rtc_l; [apply (by_caller _ _ 0), call_stop; lia|].
  eapply rtc_l; [apply (by_caller _ _ 0), call_stopped|].
  eapply rtc_l; [apply (by_caller _ _ v), call_start; lia|]. simpl.
  eapply rtc_l; [apply (by_caller _ _ v), call_stored|].
  eapply rtc_l; [apply by_thread, (thread_enters v true [Looping] []); lia|]. apply rtc_refl.
Qed.
