(* ===== verification/Rpc.v ===== *)
(** The client side of an exchange: the part shared by all the [send_]
    functions of [messaging/msg_*.c], between filling the structure and
    closing the connection. *)
From stdpp Require Import prelude list strings.
From S2P Require Import Prelude CMem MsgCommon BufferHandler World.

(** The value of a variable that was not assigned: reading it is undefined. *)
Definition unassigned {A} : res A := Err ReadIndeterminate.

Section rpc.
Context {W : Type} `{Net W} {T : Type} `{Message T}.

(** What the caller gets from the bytes received: the decoded message when
    the type is an expected one, NULL otherwise. *)
Definition reply_of (accept : Z → bool) (buf : list cell) : res (option T) :=
  t ← return_message_type buf;
  if accept t then h1 ← msg_decode buf; Ok (Some h1) else Ok None.

(** [h.m_size = size(&h); encode(&h, &buffer, &bytes); SSL_write(...);
    bytes = SSL_read(...); if (return_message_type(...) == ...) decode(...)]. *)
Definition exchange (h : T) (accept : Z → bool) : ST W (option T) :=
  n ← lift (msg_size h);
  '(_, buffer) ← lift (msg_encode (msg_resize h (to_i32 n)));
  net_ssl_write buffer;;
  buf ← ssl_read SSL_BUFFER_SIZE;
  lift (reply_of accept buf).

(** The same without an answer: [h.m_size = ...; encode; SSL_write]. *)
Definition notify (h : T) : ST W unit :=
  n ← lift (msg_size h);
  '(_, buffer) ← lift (msg_encode (msg_resize h (to_i32 n)));
  net_ssl_write buffer.

(** ... and without the first size computation: [encode; SSL_write]. *)
Definition notify_nosize (h : T) : ST W unit :=
  '(_, buffer) ← lift (msg_encode h);
  net_ssl_write buffer.

(** ... and with the first size computed on the structure [h0], before all
    the fields are set. *)
Definition notify_sized (h0 h : T) : ST W unit :=
  n ← lift (msg_size h0);
  '(_, buffer) ← lift (msg_encode (msg_resize h (to_i32 n)));
  net_ssl_write buffer.

(** The exchange without the first size computation. *)
Definition exchange_nosize (h : T) (accept : Z → bool) : ST W (option T) :=
  '(_, buffer) ← lift (msg_encode h);
  net_ssl_write buffer;;
  buf ← ssl_read SSL_BUFFER_SIZE;
  lift (reply_of accept buf).

(** ** What an exchange does to the world *)

(** The bytes of an encoded message. *)
Definition wire_of (h : T) : list cell :=
  match msg_encode h with Ok (_, buf) => buf | Err _ => [] end.

(** The message the receiver of [wire_of h] works with. *)
Definition received (h : T) : T :=
  match msg_size h with Ok n => msg_normal (msg_resize h n) | Err _ => h end.

Context `{!MessageOk T}.

(** Encoding a well-formed message, with the size stored in it beforehand. *)
Lemma encode_wf (h : T) : msg_wf h = true → ∃ n,
  msg_size h = Ok n ∧ msg_encode (msg_resize h (to_i32 n)) = Ok (msg_resize h n, wire_of h) ∧
  (∃ body, wire_of h = wire_header (m_type (msg_head h)) (m_id (msg_head h)) n ++ body) ∧
  0 ≤ n < 2 ^ 31 ∧ Z.of_nat (length (wire_of h)) = n ∧
  msg_decode (wire_of h) = Ok (msg_normal (msg_resize h n)).
Proof.
  intros Hwf. destruct (msg_codec h Hwf) as (n & body & Hs & Hn & He & Hl & Hd).
  assert (wire_of h = wire_header (m_type (msg_head h)) (m_id (msg_head h)) n ++ body) as Hw.
  { unfold wire_of. by rewrite He. }
  exists n. split; [done|]. rewrite to_s_id by in_range.
  rewrite msg_resize_encode, Hw. eauto 10.
Qed.

Lemma wire_received (h : T) : msg_wf h = true → msg_decode (wire_of h) = Ok (received h).
Proof.
  intros (n & Hs & _ & _ & _ & _ & Hd)%encode_wf. unfold received. by rewrite Hs.
Qed.

Lemma wire_encode (h : T) : msg_wf h = true → ∃ h', msg_encode h = Ok (h', wire_of h).
Proof.
  intros (n & Hs & He & _)%encode_wf. rewrite msg_resize_encode in He. eauto.
Qed.

Lemma wire_length (h : T) n : msg_wf h = true → msg_size h = Ok n →
  Z.of_nat (length (wire_of h)) = n.
Proof. intros (k & Hs & _ & _ & _ & Hl & _)%encode_wf Hn. congruence. Qed.

(** A handler that reads the header on its own finds the type. *)
Lemma wire_type (h : T) : msg_wf h = true → ∃ hd,
  decode_buffer decode_header (wire_of h) = Ok hd ∧ m_type hd = m_type (msg_head h).
Proof.
  intros Hwf. destruct (encode_wf h Hwf) as (n & _ & _ & [body ->] & Hn & _).
  pose proof (msg_wf_header h Hwf) as Hh. unfold header_ok in Hh. split_andb.
  rewrite header_decode by (done || in_range). eauto.
Qed.

(** The receiver of a reply of an accepted type gets the message that was
    sent. *)
Lemma reply_received accept (h : T) : msg_wf h = true → accept (m_type (msg_head h)) = true →
  reply_of accept (wire_of h) = Ok (Some (received h)).
Proof.
  intros Hwf Ha. unfold reply_of. rewrite (wire_received h Hwf).
  destruct (encode_wf h Hwf) as (n & _ & _ & [body ->] & _).
  pose proof (msg_wf_header h Hwf) as Hh. unfold header_ok in Hh. split_andb.
  rewrite header_type by done. cbn [mbind res_bind]. by rewrite Ha.
Qed.

(** What a request puts on the wire and what it answers, in any world. *)
Lemma exchange_wf (h : T) accept w : msg_wf h = true →
  exchange h accept w =
    (net_ssl_write (wire_of h);; buf ← ssl_read SSL_BUFFER_SIZE;
     lift (reply_of accept buf)) w.
Proof.
  intros (n & Hs & He & _)%encode_wf. unfold exchange. rewrite Hs.
  rewrite (st_bind_Ok _ _ w n w eq_refl), He. reflexivity.
Qed.

Lemma notify_wf (h : T) w : msg_wf h = true → notify h w = net_ssl_write (wire_of h) w.
Proof.
  intros (n & Hs & He & _)%encode_wf. unfold notify. rewrite Hs.
  rewrite (st_bind_Ok _ _ w n w eq_refl), He. reflexivity.
Qed.

Lemma notify_sized_wf (h0 h : T) n w : msg_size h0 = Ok n → msg_wf h = true →
  notify_sized h0 h w = net_ssl_write (wire_of h) w.
Proof.
  intros Hn (k & Hs & He & _)%encode_wf. unfold notify_sized. rewrite Hn.
  rewrite (st_bind_Ok _ _ w n w eq_refl). rewrite msg_resize_encode in *. rewrite He. reflexivity.
Qed.

Lemma notify_nosize_wf (h : T) w : msg_wf h = true →
  notify_nosize h w = net_ssl_write (wire_of h) w.
Proof.
  intros (n & Hs & He & _)%encode_wf. unfold notify_nosize.
  rewrite msg_resize_encode in He. rewrite He. reflexivity.
Qed.
End rpc.

Section frames.
Context {W : Type} `{Net W}.

Lemma with_ssl_ext {A} host port (none : A) m m' :
  (∀ w, m w = m' w) → ∀ w, with_ssl host port none m w = with_ssl host port none m' w.
Proof.
  intros E w. unfold with_ssl, mbind, ST_bind.
  destruct (get_ssl_connection host port w) as [[[err c] w1]|]; [|done].
  destruct ((err =? 0) && c_ssl c); [by rewrite E|done].
Qed.

End frames.
