(* ===== verification/Linked.v ===== *)
(** Two agents connected by the network: a world made of the caller's own
    state and of a peer that runs [servlet]'s [answer] on each request it
    receives.  The caller's [send_] functions and the peer's [process_]
    functions then compose, and because the peer's world may itself be such a
    pair, so do relays through an access point. *)
From stdpp Require Import prelude list strings.
From S2P Require Import Prelude CMem MsgCommon BufferHandler World Rpc.

(** The caller's state, the peer's state, and the bytes of the peer's reply
    that have not been read yet. *)
Record link (L P : Type) := Link { here : L; peer : P; inbox : list cell }.
Arguments Link {L P} here peer inbox.
Arguments here {L P} l.
Arguments peer {L P} l.
Arguments inbox {L P} l.

Section link.
Context {L P : Type}.

Definition on_here {A} (m : ST L A) : ST (link L P) A := λ s,
  match m (here s) with
  | Ok (a, l) => Ok (a, Link l (peer s) (inbox s))
  | Err e => Err e
  end.
Definition on_peer {A} (m : ST P A) : ST (link L P) A := λ s,
  match m (peer s) with
  | Ok (a, p) => Ok (a, Link (here s) p (inbox s))
  | Err e => Err e
  end.
Definition put_inbox (l : list cell) : ST (link L P) unit := λ s, Ok (tt, Link (here s) (peer s) l).
Definition get_inbox : ST (link L P) (list cell) := λ s, Ok (inbox s, s).

(** The peer listens at [host]:[port]; each record written to it is answered
    by [serve]. *)
Context (host : list Z) (port : Z) (serve : list cell → ST P (option (list cell))).

Definition resolves (h : charp) : bool := nonnull h && bool_decide (text h = host).

Definition deliver (buf : list cell) : ST (link L P) unit :=
  reply ← on_peer (serve buf);
  put_inbox (match reply with Some r => r | None => [] end).

#[local] Instance linked_net : Net (link L P) := {|
  net_ctx_new := mret true;
  net_gethostbyname h := mret (if resolves h then Some 0 else None);
  net_socket := mret 3;
  net_connect _ _ p := mret (p =? port);
  net_ssl_new := mret true;
  net_ssl_connect := mret true;
  net_ssl_write := deliver;
  net_ssl_read := l ← get_inbox; put_inbox [];; mret l;
  net_ssl_free := mret tt;
  net_close _ := mret tt;
  net_ctx_free := mret tt
|}.

(** The caller's own device. *)
#[local] Instance linked_device `{Device L} : Device (link L P) := {|
  get_statistics i := on_here (get_statistics i);
  get_interface_stats i := on_here (get_interface_stats i);
  get_snr_ap i := on_here (get_snr_ap i);
  get_cpu_info := on_here get_cpu_info;
  get_mem_porcentage := on_here get_mem_porcentage;
  get_tx_power_iwconfig i := on_here (get_tx_power_iwconfig i);
  ap_set_txpower i x b := on_here (ap_set_txpower i x b);
  system_set_txpower i x := on_here (system_set_txpower i x);
  wapi_get_txpower i := on_here (wapi_get_txpower i);
  get_powersave_mode i := on_here (get_powersave_mode i);
  set_powersave_mode i b := on_here (set_powersave_mode i b);
  is_80211e_enabled i := on_here (is_80211e_enabled i);
  set_mtu i x := on_here (set_mtu i x);
  set_txqueuelen i x := on_here (set_txqueuelen i x);
  read_proc_uptime := on_here read_proc_uptime;
  roam_change_ap i a := on_here (roam_change_ap i a);
  get_all_interfaces := on_here get_all_interfaces;
  get_interface i := on_here (get_interface i);
  get_acs i k := on_here (get_acs i k);
  which_path p := on_here (which_path p);
  run_system c := on_here (run_system c);
  device_clock := {| gettimeofday := on_here gettimeofday |};
  f_get_wiphy := (λ f i, on_here (f i)) <$> f_get_wiphy;
  f_get_current_frequency := (λ f i, on_here (f i)) <$> f_get_current_frequency;
  f_set_current_frequency := (λ f i x, on_here (f i x)) <$> f_set_current_frequency;
  f_get_current_channel := (λ f i, on_here (f i)) <$> f_get_current_channel;
  f_set_current_channel := (λ f i x, on_here (f i x)) <$> f_set_current_channel;
  f_get_noise := (λ f i, on_here (f i)) <$> f_get_noise;
  wapi_get_freq i := on_here (wapi_get_freq i);
  wapi_set_freq i x b := on_here (wapi_set_freq i x b);
  wapi_chan2freq i c := on_here (wapi_chan2freq i c);
  get_wlan_frequency i := on_here (get_wlan_frequency i);
  get_sta_link_information i := on_here (get_sta_link_information i);
  get_survey_info i := on_here (get_survey_info i);
  get_channels i := on_here (get_channels i);
  get_bitrate i m := on_here (get_bitrate i m);
  return_phy_from_intf_name i := on_here (return_phy_from_intf_name i);
  get_bitrates i := on_here (get_bitrates i);
  set_iw_bitrates i b l := on_here (set_iw_bitrates i b l)
|}.

Definition reachable (h : charp) (p : Z) : bool := resolves h && (to_u 16 p =? port).

Lemma linked_connect h p s : reachable h p = true →
  get_ssl_connection h p s = Ok ((0, Conn true true 3), s).
Proof.
  unfold reachable. intros [Hh Hp]%andb_prop.
  unfold get_ssl_connection, InitCTX, OpenConnection. cbn. unfold mbind, ST_bind, mret, ST_ret.
  by rewrite Hh, Hp.
Qed.

Lemma linked_refused h p s {A} (none : A) m : reachable h p = false →
  with_ssl h p none m s = Ok (none, s).
Proof.
  unfold reachable, with_ssl, get_ssl_connection, InitCTX, OpenConnection. intros Hr.
  cbn. unfold mbind, ST_bind, mret, ST_ret.
  destruct (resolves h); simpl in Hr; [|done]. by rewrite Hr.
Qed.

Lemma linked_read n s : Z.of_nat (length (inbox s)) ≤ n →
  ssl_read n s = Ok (inbox s, Link (here s) (peer s) []).
Proof.
  intros Hn. unfold ssl_read. cbn. unfold mbind, ST_bind, mret, ST_ret. cbn.
  by rewrite (proj2 (Z.leb_le _ _) Hn).
Qed.

Lemma linked_write buf s rep p' : serve buf (peer s) = Ok (rep, p') →
  net_ssl_write buf s = Ok (tt, Link (here s) p' (match rep with Some r => r | None => [] end)).
Proof. intros Hs. cbn. unfold deliver, on_peer, mbind, ST_bind. by rewrite Hs. Qed.

(** A request, its answer by the peer and the reading of the reply. *)
Lemma linked_exchange {T} `{MessageOk T} (h : T) accept s rep p' :
  msg_wf h = true → serve (wire_of h) (peer s) = Ok (Some rep, p') →
  Z.of_nat (length rep) ≤ SSL_BUFFER_SIZE →
  exchange h accept s = (r ← reply_of accept rep; Ok (r, Link (here s) p' [])).
Proof.
  intros Hwf Hs Hl. rewrite exchange_wf by done.
  run (linked_write _ _ _ _ Hs). run (linked_read SSL_BUFFER_SIZE (Link (here s) p' rep) Hl).
  unfold lift. cbn [here peer inbox]. by destruct (reply_of accept rep).
Qed.

(** The frame around an exchange that is reached. *)
Lemma linked_with_ssl {A} hostname portnum (none : A) body s :
  reachable hostname portnum = true → with_ssl hostname portnum none body s = body s.
Proof.
  intros Hr. unfold with_ssl. run (linked_connect _ _ s Hr). cbn [Z.eqb andb c_ssl].
  unfold mbind, ST_bind, mret, ST_ret. by destruct (body s) as [[a s']|].
Qed.

Lemma linked_with_ssl_noerr {A} hostname portnum (none : A) body s :
  reachable hostname portnum = true → with_ssl_noerr hostname portnum none body s = body s.
Proof.
  intros Hr. unfold with_ssl_noerr. run (linked_connect _ _ s Hr). cbn [c_ssl].
  unfold mbind, ST_bind, mret, ST_ret. by destruct (body s) as [[a s']|].
Qed.

Lemma linked_rpc {T A} `{MessageOk T} (h : T) accept hostname portnum (none : A) f s rep p' :
  msg_wf h = true → reachable hostname portnum = true →
  serve (wire_of h) (peer s) = Ok (Some rep, p') →
  Z.of_nat (length rep) ≤ SSL_BUFFER_SIZE →
  with_ssl hostname portnum none (r ← exchange h accept; mret (f r)) s =
    (r ← reply_of accept rep; Ok (f r, Link (here s) p' [])).
Proof.
  intros Hwf Hr Hs Hl. rewrite linked_with_ssl by done. unfold mbind at 1, ST_bind.
  rewrite (linked_exchange h accept s rep p') by done. by destruct (reply_of accept rep).
Qed.

(** A message without an answer. *)
Lemma linked_notify {T A} `{MessageOk T} (h : T) hostname portnum (none : A) a s rep p' :
  msg_wf h = true → reachable hostname portnum = true →
  serve (wire_of h) (peer s) = Ok (rep, p') →
  with_ssl hostname portnum none (notify h;; mret a) s =
    Ok (a, Link (here s) p' (match rep with Some r => r | None => [] end)).
Proof.
  intros Hwf Hr Hs. rewrite linked_with_ssl by done. unfold mbind, ST_bind.
  rewrite notify_wf by done. by rewrite (linked_write _ _ _ _ Hs).
Qed.
End link.
