(* ===== verification/MsgConfig.v ===== *)
(** The configuration messages a controller sends without waiting for an
    answer: [msg_mtu.c], [msg_txqueuelen.c], [msg_set_snr_threshold.c] and
    [msg_set_snr_interval.c].  A message with a [sta_ip] is relayed to that
    station; otherwise the receiver applies it itself. *)
From stdpp Require Import prelude list gmap strings.
From S2P Require Import Prelude CMem MsgCommon BufferHandler CFloat World Rpc.

(** ** Interface to the per-interface SNR settings kept by the agent *)

(** The list cells of [list_threshold] and [list_snr_interval]: the name and
    the value, most recently created first. *)
Definition snr_entry : Type := charp * Z.

(** The two global lists in the program state. *)
Class Globals (W : Type) := {
  list_threshold : W → list snr_entry;
  put_threshold : list snr_entry → W → W;
  list_snr_interval : W → list snr_entry;
  put_snr_interval : list snr_entry → W → W
}.

Module Mtu.

(** [struct msg_mtu] (msg_mtu.h): the common header, then
    its own fields. *)
Record msg_mtu := Msg {
  hd : msg_header;
  sta_ip : charp;
  sta_port : Z;
  intf_name : charp;
  mtu : Z
}.

Definition resize (h : msg_mtu) (n : Z) : msg_mtu :=
  Msg (set_m_size (hd h) n) (sta_ip h) (sta_port h) (intf_name h) (mtu h).

Section codec.
Context `{Allocator}.

Definition size_msg_set_mtu (h : msg_mtu) : res Z :=
  v ← strlen_ethanol (p_version (hd h));
  n1 ← strlen_ethanol (sta_ip h);
  n2 ← strlen_ethanol (intf_name h);
  Ok (to_u64 (4 + 4 + v + 4 + n1 + 4 + n2 + 4)).

Definition encode_msg_set_mtu : msg_mtu → res (msg_mtu * list cell) :=
  encode_with size_msg_set_mtu resize (λ h,
    encode_header (m_type (hd h)) (m_id (hd h)) (m_size (hd h));;
    encode_char (sta_ip h);;
    encode_int (sta_port h);;
    encode_char (intf_name h);;
    encode_int (mtu h)).

Definition decode_msg_set_mtu : list cell → res msg_mtu := decode_buffer (
  hd ← decode_header;
  sta_ip ← decode_char;
  sta_port ← decode_int;
  intf_name ← decode_char;
  mtu ← decode_int;
  mret (Msg hd sta_ip sta_port intf_name mtu)).

Definition wf (h : msg_mtu) : bool :=
  header_ok (hd h) && strs_ok [p_version (hd h); sta_ip h; intf_name h] &&
  i32_ok (sta_port h) && i32_ok (mtu h).

Definition normal (h : msg_mtu) : msg_mtu :=
  Msg (normal_header (hd h)) (canon (sta_ip h)) (sta_port h)
  (canon (intf_name h)) (mtu h).

#[global] Instance msg_mtu_message : Message msg_mtu := {|
  msg_head := hd; msg_resize := resize; msg_size := size_msg_set_mtu;
  msg_encode := encode_msg_set_mtu; msg_decode := decode_msg_set_mtu;
  msg_normal := normal; msg_wf := wf
|}.

#[global] Instance msg_mtu_ok : MessageOk msg_mtu.
Proof. solve_codec wf size_msg_set_mtu. Qed.
End codec.

Section agent.
Context {W : Type} `{Net W, Device W, Build, Allocator}.

Definition send_msg_set_mtu (hostname : charp) (portnum id : Z)
    (intf_name sta_ip : charp) (sta_port mtu : Z) : ST W Z :=
  with_ssl hostname portnum id (
    id' ← lift (incr_int id);
    version ← lift (copy_string ETHANOL_VERSION);
    ip ← lift (copy_string sta_ip);
    intf ← lift (copy_string intf_name);
    notify (Msg (Header MSG_SET_MTU id version 0) ip sta_port intf mtu);;
    mret id').

(** Nothing is written to [output]: the request has no answer. *)
Definition process_msg_set_mtu (input : list cell) : ST W (option (list cell)) :=
  h ← lift (decode_msg_set_mtu input);
  (if nonnull (sta_ip h) then
     send_msg_set_mtu (sta_ip h) (sta_port h) (m_id (hd h)) (intf_name h) None 0 (mtu h);;
     mret tt
   else set_mtu (intf_name h) (mtu h));;
  mret None.
End agent.

End Mtu.

Module Txqueuelen.

(** [struct msg_txqueuelen] (msg_txqueuelen.h): the common header, then
    its own fields. *)
Record msg_txqueuelen := Msg {
  hd : msg_header;
  sta_ip : charp;
  sta_port : Z;
  intf_name : charp;
  txqueuelen : Z
}.

Definition resize (h : msg_txqueuelen) (n : Z) : msg_txqueuelen :=
  Msg (set_m_size (hd h) n) (sta_ip h) (sta_port h) (intf_name h)
  (txqueuelen h).

Section codec.
Context `{Allocator}.

Definition size_msg_set_txqueuelen (h : msg_txqueuelen) : res Z :=
  v ← strlen_ethanol (p_version (hd h));
  n1 ← strlen_ethanol (sta_ip h);
  n2 ← strlen_ethanol (intf_name h);
  Ok (to_u64 (4 + 4 + v + 4 + n1 + 4 + n2 + 4)).

Definition encode_msg_set_txqueuelen : msg_txqueuelen → res (msg_txqueuelen * list cell) :=
  encode_with size_msg_set_txqueuelen resize (λ h,
    encode_header (m_type (hd h)) (m_id (hd h)) (m_size (hd h));;
    encode_char (sta_ip h);;
    encode_int (sta_port h);;
    encode_char (intf_name h);;
    encode_int (txqueuelen h)).

Definition decode_msg_set_txqueuelen : list cell → res msg_txqueuelen := decode_buffer (
  hd ← decode_header;
  sta_ip ← decode_char;
  sta_port ← decode_int;
  intf_name ← decode_char;
  txqueuelen ← decode_int;
  mret (Msg hd sta_ip sta_port intf_name txqueuelen)).

Definition wf (h : msg_txqueuelen) : bool :=
  header_ok (hd h) && strs_ok [p_version (hd h); sta_ip h; intf_name h] &&
  i32_ok (sta_port h) && i32_ok (txqueuelen h).

Definition normal (h : msg_txqueuelen) : msg_txqueuelen :=
  Msg (normal_header (hd h)) (canon (sta_ip h)) (sta_port h)
  (canon (intf_name h)) (txqueuelen h).

#[global] Instance msg_txqueuelen_message : Message msg_txqueuelen := {|
  msg_head := hd; msg_resize := resize; msg_size := size_msg_set_txqueuelen;
  msg_encode := encode_msg_set_txqueuelen; msg_decode := decode_msg_set_txqueuelen;
  msg_normal := normal; msg_wf := wf
|}.

#[global] Instance msg_txqueuelen_ok : MessageOk msg_txqueuelen.
Proof. solve_codec wf size_msg_set_txqueuelen. Qed.
End codec.

Section agent.
Context {W : Type} `{Net W, Device W, Build, Allocator}.

Definition send_msg_set_txqueuelen (hostname : charp) (portnum id : Z)
    (intf_name sta_ip : charp) (sta_port txqueuelen : Z) : ST W Z :=
  with_ssl hostname portnum id (
    id' ← lift (incr_int id);
    version ← lift (copy_string ETHANOL_VERSION);
    ip ← lift (copy_string sta_ip);
    intf ← lift (copy_string intf_name);
    notify (Msg (Header MSG_SET_TXQUEUELEN id version 0) ip sta_port intf txqueuelen);;
    mret id').

(** Nothing is written to [output]: the request has no answer. *)
Definition process_msg_set_txqueuelen (input : list cell) : ST W (option (list cell)) :=
  h ← lift (decode_msg_set_txqueuelen input);
  (if nonnull (sta_ip h) then
     send_msg_set_txqueuelen (sta_ip h) (sta_port h) (m_id (hd h)) (intf_name h) None 0 (txqueuelen h);;
     mret tt
   else set_txqueuelen (intf_name h) (txqueuelen h));;
  mret None.
End agent.

End Txqueuelen.

(** ** The settings list of msg_set_snr_threshold.c and msg_set_snr_interval.c *)

(** The loop [while ((p != NULL) && (strcmp(p->intf_name, intf_name) != 0))]
    followed by the update of the entry it stops at; [None] when it runs off
    the list. *)
Fixpoint snr_update (l : list snr_entry) (intf_name : charp) (t : Z) :
    res (option (list snr_entry)) :=
  match l with
  | [] => Ok None
  | (n, v) :: l' =>
      b ← streq n intf_name;
      if b : bool then Ok (Some ((n, t) :: l'))
      else r ← snr_update l' intf_name t; Ok (option_map (cons (n, v)) r)
  end.

Definition snr_set (l : list snr_entry) (intf_name : charp) (t : Z) :
    res (list snr_entry) :=
  r ← snr_update l intf_name t;
  match r with
  | Some l' => Ok l'
  | None => s ← chars intf_name; Ok ((mk_str s, t) :: l)
  end.

Fixpoint snr_get (l : list snr_entry) (intf_name : charp) (default : Z) : res Z :=
  match l with
  | [] => Ok default
  | (n, v) :: l' =>
      b ← streq n intf_name;
      if b : bool then Ok v else snr_get l' intf_name default
  end.

Module SnrThreshold.

(** [struct msg_snr_threshold] (msg_set_snr_threshold.h): the common header, then
    its own fields. *)
Record msg_snr_threshold := Msg {
  hd : msg_header;
  intf_name : charp;
  sta_ip : charp;
  sta_port : Z;
  threshold : Z
}.

Definition resize (h : msg_snr_threshold) (n : Z) : msg_snr_threshold :=
  Msg (set_m_size (hd h) n) (intf_name h) (sta_ip h) (sta_port h)
  (threshold h).

Section codec.
Context `{Allocator}.

Definition message_size_snr_threshold (h : msg_snr_threshold) : res Z :=
  v ← strlen_ethanol (p_version (hd h));
  n1 ← strlen_ethanol (intf_name h);
  n2 ← strlen_ethanol (sta_ip h);
  Ok (to_u64 (v + 4 + 4 + 4 + n1 + n2 + 4 + 8)).

Definition encode_msg_snr_threshold : msg_snr_threshold → res (msg_snr_threshold * list cell) :=
  encode_with message_size_snr_threshold resize (λ h,
    encode_header (m_type (hd h)) (m_id (hd h)) (m_size (hd h));;
    encode_char (intf_name h);;
    encode_char (sta_ip h);;
    encode_int (sta_port h);;
    encode_2long (threshold h)).

Definition decode_msg_snr_threshold : list cell → res msg_snr_threshold := decode_buffer (
  hd ← decode_header;
  intf_name ← decode_char;
  sta_ip ← decode_char;
  sta_port ← decode_int;
  threshold ← decode_2long;
  mret (Msg hd intf_name sta_ip sta_port threshold)).

Definition wf (h : msg_snr_threshold) : bool :=
  header_ok (hd h) && strs_ok [p_version (hd h); intf_name h; sta_ip h] &&
  i32_ok (sta_port h) && i64_ok (threshold h).

Definition normal (h : msg_snr_threshold) : msg_snr_threshold :=
  Msg (normal_header (hd h)) (canon (intf_name h)) (canon (sta_ip h))
  (sta_port h) (threshold h).

#[global] Instance msg_snr_threshold_message : Message msg_snr_threshold := {|
  msg_head := hd; msg_resize := resize; msg_size := message_size_snr_threshold;
  msg_encode := encode_msg_snr_threshold; msg_decode := decode_msg_snr_threshold;
  msg_normal := normal; msg_wf := wf
|}.

#[global] Instance msg_snr_threshold_ok : MessageOk msg_snr_threshold.
Proof. solve_codec wf message_size_snr_threshold. Qed.
End codec.

Section agent.
Context {W : Type} `{Net W, Device W, Build, Allocator}.
Context `{Globals W}.

Definition DEFAULT_SNR_THRESHOLD : Z := -50.

(** Assignment to the entry of an interface, found by [strcmp] along the list
    or inserted at its head. *)
Definition set_snr_threshold (intf_name : charp) (t : Z) : ST W unit := λ w,
  match snr_set (list_threshold w) intf_name t with
  | Ok l => Ok (tt, put_threshold l w)
  | Err e => Err e
  end.

Definition get_snr_threshold (intf_name : charp) : ST W Z := λ w,
  match snr_get (list_threshold w) intf_name DEFAULT_SNR_THRESHOLD with
  | Ok v => Ok (v, w)
  | Err e => Err e
  end.

Definition send_msg_set_snr_threshold (hostname : charp) (portnum id : Z)
    (intf_name sta_ip : charp) (sta_port threshold : Z) : ST W Z :=
  with_ssl hostname portnum id (
    id' ← lift (incr_int id);
    version ← lift (copy_string ETHANOL_VERSION);
    intf ← lift (copy_string intf_name);
    ip ← lift (copy_string sta_ip);
    notify (Msg (Header MSG_SET_SNR_THRESHOLD id version 0) intf ip sta_port threshold);;
    mret id').

Definition process_msg_snr_threshold (input : list cell) : ST W (option (list cell)) :=
  h ← lift (decode_msg_snr_threshold input);
  (if nonnull (sta_ip h) then
     send_msg_set_snr_threshold (sta_ip h) (sta_port h) (m_id (hd h)) (intf_name h) None 0 (threshold h);;
     mret tt
   else set_snr_threshold (intf_name h) (threshold h));;
  mret None.
End agent.

End SnrThreshold.

Module SnrInterval.

(** [struct msg_snr_interval] (msg_set_snr_interval.h): the common header, then
    its own fields. *)
Record msg_snr_interval := Msg {
  hd : msg_header;
  intf_name : charp;
  sta_ip : charp;
  sta_port : Z;
  interval : Z
}.

Definition resize (h : msg_snr_interval) (n : Z) : msg_snr_interval :=
  Msg (set_m_size (hd h) n) (intf_name h) (sta_ip h) (sta_port h)
  (interval h).

Section codec.
Context `{Allocator}.

Definition message_size_snr_interval (h : msg_snr_interval) : res Z :=
  v ← strlen_ethanol (p_version (hd h));
  n1 ← strlen_ethanol (intf_name h);
  n2 ← strlen_ethanol (sta_ip h);
  Ok (to_u64 (v + 4 + 4 + 4 + n1 + n2 + 4 + 8)).

Definition encode_msg_snr_interval : msg_snr_interval → res (msg_snr_interval * list cell) :=
  encode_with message_size_snr_interval resize (λ h,
    encode_header (m_type (hd h)) (m_id (hd h)) (m_size (hd h));;
    encode_char (intf_name h);;
    encode_char (sta_ip h);;
    encode_int (sta_port h);;
    encode_2long (interval h)).

Definition decode_msg_snr_interval : list cell → res msg_snr_interval := decode_buffer (
  hd ← decode_header;
  intf_name ← decode_char;
  sta_ip ← decode_char;
  sta_port ← decode_int;
  interval ← decode_2long;
  mret (Msg hd intf_name sta_ip sta_port interval)).

Definition wf (h : msg_snr_interval) : bool :=
  header_ok (hd h) && strs_ok [p_version (hd h); intf_name h; sta_ip h] &&
  i32_ok (sta_port h) && i64_ok (interval h).

Definition normal (h : msg_snr_interval) : msg_snr_interval :=
  Msg (normal_header (hd h)) (canon (intf_name h)) (canon (sta_ip h))
  (sta_port h) (interval h).

#[global] Instance msg_snr_interval_message : Message msg_snr_interval := {|
  msg_head := hd; msg_resize := resize; msg_size := message_size_snr_interval;
  msg_encode := encode_msg_snr_interval; msg_decode := decode_msg_snr_interval;
  msg_normal := normal; msg_wf := wf
|}.

#[global] Instance msg_snr_interval_ok : MessageOk msg_snr_interval.
Proof. solve_codec wf message_size_snr_interval. Qed.
End codec.

Section agent.
Context {W : Type} `{Net W, Device W, Build, Allocator}.
Context `{Globals W}.

Definition DEFAULT_SNR_INTERVAL : Z := 1000.

(** Assignment to the entry of an interface, found by [strcmp] along the list
    or inserted at its head. *)
Definition set_snr_interval (intf_name : charp) (t : Z) : ST W unit := λ w,
  match snr_set (list_snr_interval w) intf_name t with
  | Ok l => Ok (tt, put_snr_interval l w)
  | Err e => Err e
  end.

Definition get_snr_interval (intf_name : charp) : ST W Z := λ w,
  match snr_get (list_snr_interval w) intf_name DEFAULT_SNR_INTERVAL with
  | Ok v => Ok (v, w)
  | Err e => Err e
  end.

Definition send_msg_set_snr_interval (hostname : charp) (portnum id : Z)
    (intf_name sta_ip : charp) (sta_port interval : Z) : ST W Z :=
  with_ssl hostname portnum id (
    id' ← lift (incr_int id);
    version ← lift (copy_string ETHANOL_VERSION);
    intf ← lift (copy_string intf_name);
    ip ← lift (copy_string sta_ip);
    notify (Msg (Header MSG_SET_SNR_INTERVAL id version 0) intf ip sta_port interval);;
    mret id').

Definition process_msg_snr_interval (input : list cell) : ST W (option (list cell)) :=
  h ← lift (decode_msg_snr_interval input);
  (if nonnull (sta_ip h) then
     send_msg_set_snr_interval (sta_ip h) (sta_port h) (m_id (hd h)) (intf_name h) None 0 (interval h);;
     mret tt
   else set_snr_interval (intf_name h) (interval h));;
  mret None.
End agent.

End SnrInterval.
