(* ===== verification/SnrLists.v ===== *)
(** The per-interface SNR settings of [msg_set_snr_threshold.c] and
    [msg_set_snr_interval.c]: the global linked lists refine finite maps from
    interface names to values. *)
From stdpp Require Import prelude list gmap strings.
From S2P Require Import Prelude CMem MsgConfig.

(** ** The abstraction *)

Definition entry_name (e : snr_entry) : list Z := text e.1.

(** The settings a list stands for: the text of each name to its value. *)
Definition snr_map (l : list snr_entry) : gmap (list Z) Z :=
  list_to_map ((λ e, (text e.1, e.2)) <$> l).

(** Every entry has a usable name and no two entries the same. *)
Definition snr_inv (l : list snr_entry) : Prop :=
  Forall (λ e, named e.1 = true) l ∧ NoDup (entry_name <$> l).

Lemma snr_inv_cons e l : snr_inv (e :: l) ↔
  named e.1 = true ∧ (text e.1 ∉ entry_name <$> l) ∧ snr_inv l.
Proof. unfold snr_inv. rewrite fmap_cons, Forall_cons, NoDup_cons. tauto. Qed.

Lemma snr_map_cons e l : snr_map (e :: l) = <[text e.1 := e.2]> (snr_map l).
Proof. done. Qed.

Lemma snr_map_None l n : n ∉ (entry_name <$> l) ↔ snr_map l !! n = None.
Proof.
  unfold snr_map. rewrite <- not_elem_of_list_to_map. by rewrite <- list_fmap_compose.
Qed.

Lemma snr_update_spec l p t : snr_inv l → named p = true →
  ∃ r, snr_update l p t = Ok r ∧
  match r with
  | Some l' => snr_inv l' ∧ snr_map l' = <[text p := t]> (snr_map l) ∧
      (entry_name <$> l') = (entry_name <$> l)
  | None => snr_map l !! text p = None
  end.
Proof.
  intros Hinv Hp. induction l as [|[n v] l IH]; [by exists None|].
  apply snr_inv_cons in Hinv as (Hn & Hni & Hinv). simpl in Hn, Hni. simpl snr_update.
  rewrite (streq_spec n p) by done. cbn [mbind res_bind].
  destruct (bool_decide_reflect (text n = text p)) as [Heq|Hne].
  - eexists. split; [done|]. split_and!; [| |done].
    + by apply snr_inv_cons.
    + rewrite !snr_map_cons. simpl. rewrite Heq. by rewrite insert_insert_eq.
  - destruct (IH Hinv) as (r & -> & Hr). cbn [mbind res_bind]. eexists. split; [done|].
    destruct r as [l'|]; simpl.
    + destruct Hr as (Hinv' & Hm & Hf). split_and!.
      * apply snr_inv_cons. simpl. by rewrite Hf.
      * rewrite !snr_map_cons, Hm. by rewrite insert_insert_ne.
      * by f_equal.
    + rewrite snr_map_cons. by rewrite lookup_insert_ne.
Qed.

(** Assigning a setting never fails on a usable name, keeps the list free of
    duplicates and is the map update. *)
Lemma snr_set_spec l p t : snr_inv l → named p = true →
  ∃ l', snr_set l p t = Ok l' ∧ snr_inv l' ∧ snr_map l' = <[text p := t]> (snr_map l).
Proof.
  intros Hinv Hp. destruct (snr_update_spec l p t Hinv Hp) as (r & Hu & Hr).
  unfold snr_set. rewrite Hu. cbn [mbind res_bind]. destruct r as [l'|].
  { destruct Hr as (? & ? & _). by exists l'. }
  assert (∃ k, p = Some k) as [k ->] by (destruct p; [eauto|done]).
  unfold named in Hp. simpl in Hp.
  destruct (cstr_ok_Some k Hp) as (s & j & Ec & Et & _ & Hs & Hl).
  unfold chars. cbn [deref mbind res_bind]. rewrite Ec. cbn [mbind res_bind].
  eexists. split; [done|]. rewrite Et in *. rewrite snr_map_cons. simpl.
  rewrite text_mk by done. split; [|done].
  apply snr_inv_cons. simpl. rewrite text_mk by done. split_and!; [|by apply snr_map_None|done].
  unfold named. by rewrite cstr_ok_mk.
Qed.

Lemma snr_get_spec l p d : snr_inv l → named p = true →
  snr_get l p d = Ok (default d (snr_map l !! text p)).
Proof.
  intros Hinv Hp. induction l as [|[n v] l IH]; [done|].
  apply snr_inv_cons in Hinv as (Hn & Hni & Hinv). simpl in Hn. simpl snr_get.
  rewrite (streq_spec n p) by done. cbn [mbind res_bind]. rewrite snr_map_cons. simpl.
  destruct (bool_decide_reflect (text n = text p)) as [->|Hne].
  - by rewrite lookup_insert_eq.
  - rewrite IH by done. by rewrite lookup_insert_ne.
Qed.

(** ** The agent's settings *)

(** The two lists are separate global variables. *)
Class GlobalsOk (W : Type) `{Globals W} : Prop := {
  threshold_put : ∀ l w, list_threshold (put_threshold l w) = l;
  interval_put : ∀ l w, list_snr_interval (put_snr_interval l w) = l;
  threshold_frame : ∀ l w, list_snr_interval (put_threshold l w) = list_snr_interval w;
  interval_frame : ∀ l w, list_threshold (put_snr_interval l w) = list_threshold w
}.

Definition settings_inv {W} `{Globals W} (w : W) : Prop :=
  snr_inv (list_threshold w) ∧ snr_inv (list_snr_interval w).

#[local] Instance pair_globals : Globals (list snr_entry * list snr_entry) := {|
  list_threshold := fst; put_threshold l w := (l, w.2);
  list_snr_interval := snd; put_snr_interval l w := (w.1, l)
|}.

#[local] Instance pair_globals_ok : GlobalsOk (list snr_entry * list snr_entry).
Proof. by split. Qed.

Definition sample_settings : list snr_entry * list snr_entry :=
  ([(lit "wlan1", -60)], [(lit "wlan0", 100)]).

Lemma sample_settings_inv : settings_inv sample_settings.
Proof. split; split; repeat constructor; set_solver. Qed.

(** C8: the SNR thresholds behave as a map from interface names to values:
    setting a threshold always succeeds on a usable name, preserves the
    invariant of both lists and leaves the intervals alone; afterwards the
    interface has the new threshold and every other interface what it had
    (the default when it was never set). *)
Theorem set_snr_threshold_refines {W} `{GlobalsOk W} (w : W) (p : charp) (t : Z) :
  settings_inv w → named p = true → ∃ w',
    SnrThreshold.set_snr_threshold p t w = Ok (tt, w') ∧ settings_inv w' ∧
    list_snr_interval w' = list_snr_interval w ∧
    ∀ q, named q = true →
      SnrThreshold.get_snr_threshold q w' =
        if bool_decide (text q = text p) then Ok (t, w')
        else Ok (default SnrThreshold.DEFAULT_SNR_THRESHOLD (snr_map (list_threshold w) !! text q), w').
Proof.
  intros [Ht Hi] Hp. destruct (snr_set_spec _ p t Ht Hp) as (l & Hs & Hinv & Hm).
  exists (put_threshold l w). unfold SnrThreshold.set_snr_threshold, SnrThreshold.get_snr_threshold, settings_inv.
  rewrite Hs, threshold_put, threshold_frame. split_and!; try done. intros q Hq.
  rewrite snr_get_spec, Hm by done. case_bool_decide as E.
  - by rewrite E, lookup_insert_eq.
  - by rewrite lookup_insert_ne.
Qed.

Lemma set_snr_threshold_refines_witness : ∃ w',
  SnrThreshold.set_snr_threshold (lit "wlan0") (-40) sample_settings = Ok (tt, w') ∧
  settings_inv w' ∧ list_snr_interval w' = list_snr_interval sample_settings ∧
  ∀ q, named q = true →
    SnrThreshold.get_snr_threshold q w' =
      if bool_decide (text q = text (lit "wlan0")) then Ok (-40, w')
      else Ok (default SnrThreshold.DEFAULT_SNR_THRESHOLD
                 (snr_map (list_threshold sample_settings) !! text q), w').
Proof.
  apply (set_snr_threshold_refines sample_settings (lit "wlan0") (-40));
    [apply sample_settings_inv|reflexivity].
Defined.

(** The SNR measurement intervals, kept in a list of their own, behave the
    same way. *)
Theorem set_snr_interval_refines {W} `{GlobalsOk W} (w : W) (p : charp) (t : Z) :
  settings_inv w → named p = true → ∃ w',
    SnrInterval.set_snr_interval p t w = Ok (tt, w') ∧ settings_inv w' ∧
    list_threshold w' = list_threshold w ∧
    ∀ q, named q = true →
      SnrInterval.get_snr_interval q w' =
        if bool_decide (text q = text p) then Ok (t, w')
        else Ok (default SnrInterval.DEFAULT_SNR_INTERVAL (snr_map (list_snr_interval w) !! text q), w').
Proof.
  intros [Ht Hi] Hp. destruct (snr_set_spec _ p t Hi Hp) as (l & Hs & Hinv & Hm).
  exists (put_snr_interval l w). unfold SnrInterval.set_snr_interval, SnrInterval.get_snr_interval, settings_inv.
  rewrite Hs, interval_put, interval_frame. split_and!; try done. intros q Hq.
  rewrite snr_get_spec, Hm by done. case_bool_decide as E.
  - by rewrite E, lookup_insert_eq.
  - by rewrite lookup_insert_ne.
Qed.

Lemma set_snr_interval_refines_witness : ∃ w',
  SnrInterval.set_snr_interval (lit "wlan0") 500 sample_settings = Ok (tt, w') ∧
  settings_inv w' ∧ list_threshold w' = list_threshold sample_settings ∧
  ∀ q, named q = true →
    SnrInterval.get_snr_interval q w' =
      if bool_decide (text q = text (lit "wlan0")) then Ok (500, w')
      else Ok (default SnrInterval.DEFAULT_SNR_INTERVAL
                 (snr_map (list_snr_interval sample_settings) !! text q), w').
Proof.
  apply (set_snr_interval_refines sample_settings (lit "wlan0") 500);
    [apply sample_settings_inv|reflexivity].
Defined.
