(* ===== verification/SnrInformation.v ===== *)
(** The thresholds and intervals kept by
    [ethanol_functions/set_snr_information.c]: one linked list of interfaces
    with their two settings.

    The list is kept as the sequence of its nodes from [First] to [Last];
    [copy_string] reads the pointer it replaces, which [createinterface] sets
    in the first node only. *)
From stdpp Require Import prelude list strings.
From S2P Require Import Prelude CMem.

Definition VAL1 : Z := 500.
Definition VAL2 : Z := 100.

Record snr_information := SnrInformation { intf_name : charp; threshold : Z; interval : Z }.

(** [struct interfaces]: [num_interfaces] and the nodes. *)
Record interfaces := SnrInterfaces { num_interfaces : Z; nodes : list snr_information }.
Definition intfs_init : interfaces := SnrInterfaces 0 [].

Definition emptyinterfaces (s : interfaces) : bool := bool_decide (nodes s = []).

Definition set_threshold_of (t : Z) (x : snr_information) : snr_information :=
  SnrInformation (intf_name x) t (interval x).
Definition set_interval_of (t : Z) (x : snr_information) : snr_information :=
  SnrInformation (intf_name x) (threshold x) t.

(** The value read through [*dest] before it is written, in a fresh node. *)
Definition fresh_name (first_node : bool) : res charp :=
  if first_node then Ok None else Err ReadIndeterminate.

Definition createinterface `{Allocator} (name : charp) (s : interfaces) : res interfaces :=
  fresh_name (emptyinterfaces s);;
  p ← copy_string name;
  n ← incr_int (num_interfaces s);
  Ok (SnrInterfaces n (nodes s ++ [SnrInformation p VAL2 VAL1])).

(** The position of the node [searchinterfaces] returns. *)
Fixpoint search_nodes (l : list snr_information) (name : charp) (i : nat) : res (option nat) :=
  match l with
  | [] => Ok None
  | x :: l =>
      b ← streq (intf_name x) name;
      if (b : bool) then Ok (Some i) else search_nodes l name (S i)
  end.
Definition searchinterfaces (name : charp) (s : interfaces) : res (option nat) :=
  if num_interfaces s =? 0 then Ok None else search_nodes (nodes s) name 0.

Definition update (i : nat) (f : snr_information → snr_information) (s : interfaces) : interfaces :=
  SnrInterfaces (num_interfaces s) (alter f i (nodes s)).

(** A new interface gets the interval as its threshold. *)
Definition set_interval `{Allocator} (t : Z) (name : charp) (s : interfaces) : res interfaces :=
  p ← searchinterfaces name s;
  match p with
  | None => s ← createinterface name s; Ok (update (length (nodes s) - 1) (set_threshold_of t) s)
  | Some i => Ok (update i (set_interval_of t) s)
  end.
Definition set_threshold `{Allocator} (t : Z) (name : charp) (s : interfaces) : res interfaces :=
  p ← searchinterfaces name s;
  match p with
  | None => s ← createinterface name s; Ok (update (length (nodes s) - 1) (set_threshold_of t) s)
  | Some i => Ok (update i (set_threshold_of t) s)
  end.

Definition return_interval (name : charp) (s : interfaces) : res Z :=
  p ← searchinterfaces name s;
  match p with
  | None => Ok VAL2
  | Some i => x ← index (nodes s) i; Ok (interval x)
  end.
Definition return_threshold (name : charp) (s : interfaces) : res Z :=
  p ← searchinterfaces name s;
  match p with
  | None => Ok VAL1
  | Some i => x ← index (nodes s) i; Ok (threshold x)
  end.

(** ** One interface *)

Section one_interface.
Context `{Allocator} (name : charp).
Hypotheses (Hn : named name = true) (Hc : copyable name = true) (Ht : text name ≠ []).

(** The list with the only interface [name]. *)
Definition only (th iv : Z) : interfaces := SnrInterfaces 1 [SnrInformation (canon name) th iv].

Lemma streq_self : streq (canon name) name = Ok true.
Proof.
  assert (cstr_ok name = true) by (unfold named in Hn; by split_andb).
  rewrite streq_spec; [|unfold named, canon|done].
  - by rewrite text_canon, bool_decide_true.
  - apply andb_true_intro. split; [|by apply cstr_ok_canon]. unfold norm. by destruct (text name).
Qed.

Lemma search_only th iv : searchinterfaces name (only th iv) = Ok (Some O).
Proof. unfold searchinterfaces, only. cbn. by rewrite streq_self. Qed.

Lemma search_init : searchinterfaces name intfs_init = Ok None.
Proof. done. Qed.

Lemma create_first : createinterface name intfs_init = Ok (only VAL2 VAL1).
Proof. unfold createinterface. cbn. by rewrite copy_string_canon. Qed.
End one_interface.

(** On one interface the settings work only when the threshold is set
    first: then both values are kept and returned.  An interval set first is
    stored as the threshold and the interval keeps its default; an unknown
    interface is answered with the other setting's default; and a second
    interface cannot be added, because its node's name is read before it is
    set. *)
Theorem snr_information_spec `{Allocator} (name other : charp) (t i : Z) :
  named name = true → copyable name = true → named other = true → text other ≠ text name →
  (∃ s s', set_threshold t name intfs_init = Ok s ∧ set_interval i name s = Ok s' ∧
    return_threshold name s' = Ok t ∧ return_interval name s' = Ok i ∧
    set_threshold t other s' = Err ReadIndeterminate) ∧
  (∃ s, set_interval i name intfs_init = Ok s ∧
    return_threshold name s = Ok i ∧ return_interval name s = Ok VAL1) ∧
  return_interval name intfs_init = Ok VAL2 ∧ return_threshold name intfs_init = Ok VAL1.
Proof.
  intros Hn Hc Ho Hd.
  assert (Ht : text name ≠ []).
  { unfold copyable in Hc. destruct name; [|done]. split_andb. by apply bool_decide_eq_true in H2. }
  pose proof (search_only name Hn Ht) as Hs. pose proof (create_first name Hc) as Hf.
  split_and!; [| |done|done].
  - exists (only name t VAL1), (only name t i). unfold set_threshold, set_interval.
    rewrite search_init. cbn [mbind res_bind]. rewrite Hf. split_and!; [done|..].
    + by rewrite Hs.
    + unfold return_threshold. by rewrite Hs.
    + unfold return_interval. by rewrite Hs.
    + unfold searchinterfaces, only. cbn. rewrite streq_spec; [|..|done].
      * rewrite text_canon by (unfold named in Hn; by split_andb).
        by rewrite bool_decide_false by congruence.
      * unfold named, canon, norm in *. split_andb; [by destruct (text name)|].
        by apply (cstr_ok_canon name).
  - exists (only name i VAL1). unfold set_interval. rewrite search_init. cbn [mbind res_bind]. rewrite Hf.
    split_and!; [done|..]; unfold return_threshold, return_interval; by rewrite Hs.
Qed.

Lemma snr_information_spec_witness :
  ∃ s, @set_interval glibc_alloc 2000 (lit "wlan0") intfs_init = Ok s ∧
    return_threshold (lit "wlan0") s = Ok 2000 ∧ return_interval (lit "wlan0") s = Ok 500.
Proof.
  destruct (@snr_information_spec glibc_alloc (lit "wlan0") (lit "wlan1") 0 2000) as (_ & E & _);
    [reflexivity|vm_compute; reflexivity|reflexivity|discriminate|exact E].
Defined.
