(* ===== verification/Devices.v ===== *)
(** The lists of known access points and stations: [messaging/list_devices.c],
    [list_aps.c] and [list_stations.c].

    The lists are linked nodes in one store, and the functions return pointers
    into them.  [seg] relates a pointer to the devices reachable from it, and
    the two global lists together refine a pair of finite maps from MAC
    addresses to host names and ports. *)
From stdpp Require Import prelude list gmap strings.
From S2P Require Import Prelude CMem.

(** ** The code *)

Abbreviation loc := positive.

Record list_devices_t := Node {
  mac_address : charp;
  hostname : charp;
  port_num : Z;
  next : option loc
}.

Abbreviation store := (gmap loc list_devices_t).

Definition node_at (h : store) (l : loc) : res list_devices_t :=
  match h !! l with Some nd => Ok nd | None => Err ReadOutOfBounds end.
Definition set_next (nd : list_devices_t) (q : option loc) : list_devices_t :=
  Node (mac_address nd) (hostname nd) (port_num nd) q.

(** [while (p && strcmp(p->mac_address, mac_address) != 0)]: a walk of more
    steps than there are nodes repeats itself for ever. *)
Fixpoint find_loop (fuel : nat) (h : store) (p : option loc) (mac : charp) : res (option loc) :=
  match p with
  | None => Ok None
  | Some l =>
      match fuel with
      | O => Err Diverges
      | S fuel =>
          nd ← node_at h l;
          b ← streq (mac_address nd) mac;
          if (b : bool) then Ok (Some l) else find_loop fuel h (next nd) mac
      end
  end.
Definition find_device (mac : charp) (list : option loc) (h : store) : res (option loc) :=
  find_loop (size h) h list mac.

(** The new list head and store are returned with the result. *)
Definition insert_device `{Allocator} (mac host : charp) (port : Z) (list : option loc)
    (h : store) : res (loc * (option loc * store)) :=
  r ← find_device mac list h;
  match r with
  | Some p => Ok (p, (list, h))
  | None =>
      let p := fresh (dom h) in
      mac' ← copy_string mac;
      host' ← copy_string host;
      Ok (p, (Some p, <[p := Node mac' host' port list]> h))
  end.

(** The same walk with the predecessor [p2]. *)
Fixpoint remove_loop (fuel : nat) (h : store) (p1 p2 : option loc) (mac : charp) :
    res (option loc * option loc) :=
  match p1 with
  | None => Ok (None, p2)
  | Some l =>
      match fuel with
      | O => Err Diverges
      | S fuel =>
          nd ← node_at h l;
          b ← streq (mac_address nd) mac;
          if (b : bool) then Ok (Some l, p2) else remove_loop fuel h (next nd) (Some l) mac
      end
  end.
(** The pointer updates once the node [l] is found after [p2]. *)
Definition unlink (l : loc) (p2 list : option loc) (h : store) :
    res (option loc * (option loc * store)) :=
  nd ← node_at h l;
  h ← match p2 with
      | Some k => nd2 ← node_at h k; Ok (<[k := set_next nd2 (next nd)]> h)
      | None => Ok h
      end;
  nd ← node_at h l;
  let list := if bool_decide (Some l = list) then next nd else list in
  Ok (Some l, (list, <[l := set_next nd None]> h)).

Definition remove_device (mac : charp) (list : option loc) (h : store) :
    res (option loc * (option loc * store)) :=
  '(p1, p2) ← remove_loop (size h) h list None mac;
  match p1 with
  | None => Ok (None, (list, h))
  | Some l => unlink l p2 list h
  end.

(** The two global lists. *)
Record devices := Devices {
  nodes : store;
  list_of_aps : option loc;
  list_of_stations : option loc
}.

Section lists.
Context `{Allocator}.

Definition find_ap (mac : charp) : ST devices (option loc) := λ s,
  r ← find_device mac (list_of_aps s) (nodes s); Ok (r, s).
Definition insert_ap (mac host : charp) (port : Z) : ST devices loc := λ s,
  '(p, (l, h)) ← insert_device mac host port (list_of_aps s) (nodes s);
  Ok (p, Devices h l (list_of_stations s)).
Definition remove_ap (mac : charp) : ST devices (option loc) := λ s,
  '(p, (l, h)) ← remove_device mac (list_of_aps s) (nodes s);
  Ok (p, Devices h l (list_of_stations s)).

Definition find_station (mac : charp) : ST devices (option loc) := λ s,
  r ← find_device mac (list_of_stations s) (nodes s); Ok (r, s).
Definition insert_station (mac host : charp) (port : Z) : ST devices loc := λ s,
  '(p, (l, h)) ← insert_device mac host port (list_of_stations s) (nodes s);
  Ok (p, Devices h (list_of_aps s) l).
Definition remove_station (mac : charp) : ST devices (option loc) := λ s,
  '(p, (l, h)) ← remove_device mac (list_of_stations s) (nodes s);
  Ok (p, Devices h (list_of_aps s) l).
End lists.

(** ** List segments *)

(** What a node says about a device. *)
Definition device : Type := charp * charp * Z.
Definition node_of (d : device) (q : option loc) : list_devices_t := Node d.1.1 d.1.2 d.2 q.

(** The nodes [ds] lead from [p] to [q]. *)
Fixpoint seg (h : store) (p : option loc) (ds : list (loc * device)) (q : option loc) : Prop :=
  match ds with
  | [] => p = q
  | (l, d) :: ds => p = Some l ∧ ∃ r, h !! l = Some (node_of d r) ∧ seg h r ds q
  end.

Lemma seg_app h p a b q : seg h p (a ++ b) q ↔ ∃ r, seg h p a r ∧ seg h r b q.
Proof.
  revert p. induction a as [|[l d] a IH]; intros p; simpl.
  { split; [eauto|]. by intros (r & -> & ?). }
  split.
  - intros (-> & r & Hl & (r' & Ha & Hb)%IH). eauto 10.
  - intros (r' & (-> & r & Hl & Ha) & Hb). split; [done|]. exists r. rewrite IH. eauto.
Qed.

Lemma node_of_inj d e q r : node_of d q = node_of e r → d = e ∧ q = r.
Proof. destruct d as [[??]?], e as [[??]?]. unfold node_of. simpl. by intros [=-> -> -> ->]. Qed.

Lemma seg_det h p a b : seg h p a None → seg h p b None → a = b.
Proof.
  revert p b. induction a as [|[l d] a IH]; intros p [|[k e] b]; simpl; [done|..].
  - by intros -> [? _].
  - by intros [-> _] ?.
  - intros (-> & r & Hl & Ha) ([= <-] & r' & Hl' & Hb). rewrite Hl in Hl'.
    apply (inj Some), node_of_inj in Hl' as [-> ->]. f_equal. by eapply IH.
Qed.

(** A list that ends has no node twice. *)
Lemma seg_NoDup h p ds : seg h p ds None → NoDup ds.*1.
Proof.
  revert p. induction ds as [|[l d] ds IH]; intros p Hs; [constructor|].
  pose proof Hs as Hall. simpl in Hs. destruct Hs as (-> & r & Hl & Hs).
  rewrite fmap_cons. apply NoDup_cons. split; [|by eapply IH].
  intros ((l' & e) & El & Hin)%list_elem_of_fmap. simpl in El. subst l'.
  apply list_elem_of_split in Hin as (a & b & ->).
  apply seg_app in Hs as (r' & _ & Hb). pose proof Hb as [-> _].
  pose proof (seg_det _ _ _ _ Hall Hb) as Heq.
  apply (f_equal length) in Heq. simpl in Heq. rewrite length_app in Heq. simpl in Heq. lia.
Qed.

Lemma seg_dom h p ds q : seg h p ds q → Forall (λ l, l ∈ dom h) ds.*1.
Proof.
  revert p. induction ds as [|[l d] ds IH]; intros p; simpl; [constructor|].
  intros (_ & r & Hl & Hs). constructor; [|by eapply IH]. by eapply elem_of_dom_2.
Qed.

(** The walk bound is enough for every list that ends. *)
Lemma seg_length h p ds : seg h p ds None → (length ds ≤ size h)%nat.
Proof.
  intros Hs. rewrite <- (length_fmap fst ds), <- (size_dom h).
  rewrite <- (size_list_to_set (C := gset loc) ds.*1) by (by eapply seg_NoDup).
  apply subseteq_size. intros l Hl%elem_of_list_to_set.
  pose proof (seg_dom _ _ _ _ Hs) as Hd. rewrite Forall_forall in Hd. by apply Hd.
Qed.

(** Updating a node that is not in a segment keeps it. *)
Lemma seg_insert h p ds q l nd : l ∉ ds.*1 → seg h p ds q → seg (<[l := nd]> h) p ds q.
Proof.
  revert p. induction ds as [|[k d] ds IH]; intros p; simpl; [done|].
  intros Hl (-> & r & Hk & Hs). apply not_elem_of_cons in Hl as [Hne Hl].
  split; [done|]. exists r. rewrite lookup_insert_ne by done. auto.
Qed.

(** ** Walking a list *)

Definition dev_mac (ld : loc * device) : list Z := text ld.2.1.1.
Definition macs_ok (ds : list (loc * device)) : Prop :=
  Forall (λ ld, named ld.2.1.1 = true) ds ∧ NoDup (dev_mac <$> ds).

(** The registrations a list stands for. *)
Abbreviation registry := (gmap (list Z) (charp * Z)).
Definition dev_map (ds : list (loc * device)) : registry :=
  list_to_map ((λ ld, (dev_mac ld, (ld.2.1.2, ld.2.2))) <$> ds).

(** [find_device] is the first component of the other walk. *)
Lemma find_loop_remove fuel h p p2 mac :
  find_loop fuel h p mac = fst <$> remove_loop fuel h p p2 mac.
Proof.
  revert p p2. induction fuel as [|fuel IH]; intros [l|] p2; simpl; try done.
  destruct (node_at h l) as [nd|]; simpl; [|done].
  destruct (streq (mac_address nd) mac) as [[]|]; simpl; [done| |done]. apply IH.
Qed.

(** The predecessor after the nodes [a], starting with [p2]. *)
Definition prev (p2 : option loc) (a : list (loc * device)) : option loc :=
  match last a with Some ld => Some ld.1 | None => p2 end.

Lemma prev_cons p2 ld a : prev p2 (ld :: a) = prev (Some ld.1) a.
Proof. unfold prev. rewrite last_cons. by destruct (last a). Qed.

Lemma remove_loop_spec mac h ds : named mac = true → Forall (λ ld, named ld.2.1.1 = true) ds →
  ∀ fuel p p2, (length ds ≤ fuel)%nat → seg h p ds None →
  (∃ a l d b, ds = a ++ (l, d) :: b ∧ text d.1.1 = text mac ∧
     remove_loop fuel h p p2 mac = Ok (Some l, prev p2 a)) ∨
  ((text mac ∉ dev_mac <$> ds) ∧ ∃ q, remove_loop fuel h p p2 mac = Ok (None, q)).
Proof.
  intros Hmac Hds. induction Hds as [|[l d] ds Hd Hds IH]; intros fuel p p2 Hf Hs; simpl in Hs.
  { subst p. right. split; [set_solver|]. exists p2. by destruct fuel. }
  destruct Hs as (-> & r & Hl & Hs). destruct fuel as [|fuel]; [simpl in Hf; lia|]. simpl.
  unfold node_at. rewrite Hl. cbn [mbind res_bind]. simpl in Hd.
  unfold node_of. cbn [mac_address next].
  rewrite (streq_spec _ _ Hd Hmac). cbn [mbind res_bind].
  destruct (bool_decide_reflect (text d.1.1 = text mac)) as [E|E].
  { left. by exists [], l, d, ds. }
  destruct (IH fuel r (Some l)) as [(a & k & e & b & -> & He & Hr)|[Hni Hr]];
    [simpl in Hf; lia|done|left|right].
  - exists ((l, d) :: a), k, e, b. split_and!; [done..|]. by rewrite prev_cons.
  - split; [|done]. simpl. apply not_elem_of_cons. split; [intros E2; by apply E|done].
Qed.

Lemma dev_map_None ds x : (x ∉ dev_mac <$> ds) ↔ dev_map ds !! x = None.
Proof. unfold dev_map. rewrite <- not_elem_of_list_to_map. by rewrite <- list_fmap_compose. Qed.

Lemma dev_map_mid a l d b : NoDup (dev_mac <$> a ++ (l, d) :: b) →
  dev_map (a ++ (l, d) :: b) !! text d.1.1 = Some (d.1.2, d.2) ∧
  dev_map (a ++ b) = delete (text d.1.1) (dev_map (a ++ (l, d) :: b)).
Proof.
  intros Hnd. assert (dev_map (a ++ (l, d) :: b) = <[text d.1.1 := (d.1.2, d.2)]> (dev_map (a ++ b))) as ->.
  { unfold dev_map. rewrite <- list_to_map_cons.
    apply list_to_map_proper; [|by rewrite !fmap_app, !fmap_cons, <- Permutation_middle].
    rewrite <- list_fmap_compose. exact Hnd. }
  split; [by rewrite lookup_insert_eq|]. rewrite delete_insert_id; [done|].
  apply dev_map_None. rewrite fmap_app in *. rewrite fmap_cons in Hnd.
  apply NoDup_app in Hnd as (_ & Hd & [Hb _]%NoDup_cons). rewrite not_elem_of_app. split; [|done].
  intros Hx. apply (Hd _ Hx). by left.
Qed.

Lemma macs_ok_mid a ld b : macs_ok (a ++ ld :: b) → macs_ok (a ++ b).
Proof.
  unfold macs_ok. rewrite !fmap_app, fmap_cons, !Forall_app, Forall_cons.
  intros [(? & _ & ?) Hnd]. split; [done|].
  apply NoDup_app in Hnd as (Ha & Hd & [_ Hb]%NoDup_cons). apply NoDup_app.
  split_and!; [done| |done]. intros x Hx Hx'. apply (Hd x Hx). by right.
Qed.

Lemma named_copy `{Allocator} m :
  named m = true → copyable m = true → named (canon m) = true.
Proof.
  destruct m as [k|]; [|done]. unfold named, copyable. intros _ Hc.
  apply andb_prop in Hc as [[Hk Hne%bool_decide_eq_true]%andb_prop _].
  rewrite cstr_ok_canon by done. unfold canon, norm. by destruct (text (Some k)).
Qed.

(** ** The operations on one list *)

(** What an operation on the list [ds] must leave to the other lists of the
    same store. *)
Definition leaves (h : store) (ds : list (loc * device)) (h' : store)
    (ds' : list (loc * device)) : Prop :=
  ∀ q o, seg h q o None → ds.*1 ## o.*1 → seg h' q o None ∧ ds'.*1 ## o.*1.

Lemma seg_agree h h' q o e : (∀ l, l ∈ o.*1 → h' !! l = h !! l) → seg h q o e → seg h' q o e.
Proof.
  revert q. induction o as [|[l d] o IH]; intros q Hag; simpl; [done|].
  intros (-> & r & Hl & Ho). split; [done|]. exists r. rewrite Hag by (by left). split; [done|].
  apply IH; [|done]. intros k Hk. apply Hag. by right.
Qed.

Lemma leaves_intro h ds h' ds' :
  (∀ l, l ∉ ds.*1 → h' !! l = h !! l) → ds'.*1 ⊆ ds.*1 → leaves h ds h' ds'.
Proof.
  intros Hag Hsub q o Ho Hdis. split.
  - eapply seg_agree; [|exact Ho]. intros l Hl. apply Hag. intros Hl'. by eapply Hdis.
  - intros x Hx Hx'. eapply Hdis; [|exact Hx']. by apply Hsub.
Qed.

Lemma unlink_spec h p ds (Hs : seg h p ds None) a l d b : ds = a ++ (l, d) :: b →
  ∃ p' h', unlink l (prev None a) p h = Ok (Some l, (p', h')) ∧
    seg h' p' (a ++ b) None ∧ leaves h ds h' (a ++ b) ∧ h' !! l = Some (node_of d None).
Proof.
  intros ->. pose proof (seg_NoDup _ _ _ Hs) as Hnd. rewrite fmap_app, fmap_cons in Hnd. simpl in Hnd.
  apply NoDup_app in Hnd as (Hna & Hab & [Hlb Hnb]%NoDup_cons).
  assert (l ∉ a.*1) as Hla by (intros Hl; apply (Hab _ Hl); by left).
  apply seg_app in Hs as (? & Ha & (-> & r & Hl & Hb)).
  unfold unlink, node_at. rewrite Hl. cbn [mbind res_bind].
  assert ((a ++ b).*1 ⊆ (a ++ (l, d) :: b).*1) as Hsub.
  { rewrite !fmap_app, fmap_cons. intros x. rewrite !elem_of_app, elem_of_cons. tauto. }
  destruct a as [|[k e] a _] using rev_ind.
  - simpl in Ha. subst p. cbn [prev last mbind res_bind]. rewrite Hl. cbn [mbind res_bind].
    rewrite bool_decide_true by done. cbv zeta. eexists _, _. split; [done|]. simpl.
    split_and!; [by apply seg_insert| |by rewrite lookup_insert_eq].
    apply leaves_intro; [|done]. intros x Hx. apply lookup_insert_ne.
    intros ->. apply Hx. by left.
  - unfold prev. rewrite last_snoc. cbn [fst]. apply seg_app in Ha as (? & Ha & (-> & r1 & Hk & Hr1)).
    simpl in Hr1. subst r1.
    rewrite Hk. cbn [mbind res_bind]. rewrite fmap_app in Hla, Hna.
    apply NoDup_app in Hna as (Hna & Hka & _).
    assert (k ∉ a.*1) as Hk' by (intros Hin; apply (Hka _ Hin); by left).
    rewrite not_elem_of_app in Hla. destruct Hla as [Hla Hlk]. simpl in Hlk.
    assert (l ≠ k) as Hne by (intros ->; apply Hlk; by left).
    rewrite lookup_insert_ne by done. rewrite Hl. cbn [mbind res_bind].
    assert (bool_decide (Some l = p) = false) as ->.
    { apply bool_decide_false. intros <-. destruct a as [|[x y] a]; simpl in Ha; [by simplify_eq|].
      destruct Ha as [[= <-] _]. apply Hla. by left. }
    cbv zeta. eexists _, _. split; [done|]. split_and!; [| |by rewrite lookup_insert_eq].
    + apply seg_insert.
      { rewrite !fmap_app, !not_elem_of_app. simpl. split_and!; [done|set_solver|done]. }
      rewrite <- app_assoc. apply seg_app. exists (Some k). split; [by apply seg_insert|].
      simpl. split; [done|]. exists r. split; [by rewrite lookup_insert_eq|].
      apply seg_insert; [|done]. intros Hin. apply (Hab k); [|by right].
      rewrite fmap_app. apply elem_of_app. right. by left.
    + apply leaves_intro; [|done]. intros x. rewrite !fmap_app, fmap_cons, !not_elem_of_app, not_elem_of_cons.
      simpl. rewrite not_elem_of_cons. intros [(_ & Hx & _) [Hx' _]]. by rewrite !lookup_insert_ne by done.
Qed.

Section operations.
Context (mac : charp) (h : store) (p : option loc) (ds : list (loc * device)).
Context (Hmac : named mac = true) (Hs : seg h p ds None) (Hok : macs_ok ds).

Lemma find_device_spec :
  (∃ l d q, find_device mac p h = Ok (Some l) ∧ h !! l = Some (node_of d q) ∧
     text d.1.1 = text mac ∧ dev_map ds !! text mac = Some (d.1.2, d.2)) ∨
  (find_device mac p h = Ok None ∧ dev_map ds !! text mac = None).
Proof.
  unfold find_device. rewrite (find_loop_remove _ _ _ None).
  destruct Hok as [Hn Hnd].
  destruct (remove_loop_spec mac h ds Hmac Hn (size h) p None) as
    [(a & l & d & b & -> & He & ->)|[Hni [q ->]]]; [by eapply seg_length|done|left|right].
  - apply seg_app in Hs as (r & _ & (-> & q & Hl & _)). exists l, d, q.
    split_and!; [done..|]. rewrite <- He. by apply dev_map_mid.
  - split; [done|]. by apply dev_map_None.
Qed.

Lemma insert_device_spec `{Allocator} host port :
  copyable mac = true → copyable host = true →
  ∃ l p' h' ds' nd, insert_device mac host port p h = Ok (l, (p', h')) ∧
    seg h' p' ds' None ∧ macs_ok ds' ∧ leaves h ds h' ds' ∧
    dev_map ds' = match dev_map ds !! text mac with
                  | Some _ => dev_map ds
                  | None => <[text mac := (canon host, port)]> (dev_map ds)
                  end ∧
    h' !! l = Some nd ∧ text (mac_address nd) = text mac ∧
    (hostname nd, port_num nd) = default (canon host, port) (dev_map ds !! text mac).
Proof.
  intros Hcm Hch. unfold insert_device.
  destruct find_device_spec as [(l & d & q & -> & Hl & He & ->)|[-> Hmap]]; cbn [mbind res_bind].
  { exists l, p, h, ds, (node_of d q). split_and!; try done. }
  rewrite (copy_string_canon mac), (copy_string_canon host) by done. cbn [mbind res_bind].
  assert (fresh (dom h) ∉ dom h) as Hf by apply is_fresh.
  assert (∀ q o, seg h q o None → fresh (dom h) ∉ o.*1) as Hfo.
  { intros q o Ho Hin. apply seg_dom in Ho. rewrite Forall_forall in Ho. by apply Hf, Ho. }
  assert (text (canon mac) = text mac) as Htc by (apply text_canon; by apply copyable_ok).
  rewrite Hmap. eexists _, _, _, ((fresh (dom h), (canon mac, canon host, port)) :: ds), _.
  split; [done|]. split_and!.
  - simpl. split; [done|]. exists p. rewrite lookup_insert_eq. split; [done|].
    apply seg_insert; [by eapply Hfo|done].
  - destruct Hok as [Hn Hnd]. split; [constructor; [|done]|].
    + by apply named_copy.
    + rewrite fmap_cons. apply NoDup_cons. split; [|done]. unfold dev_mac at 1. simpl.
      rewrite Htc. by apply dev_map_None.
  - intros q o Ho Hdis. split; [apply seg_insert; [by eapply Hfo|done]|].
    rewrite fmap_cons. simpl. intros x [->|Hx]%elem_of_cons Hx'; [by eapply Hfo|by eapply Hdis].
  - unfold dev_map. rewrite fmap_cons, list_to_map_cons. unfold dev_mac at 1. simpl. by rewrite Htc.
  - by rewrite lookup_insert_eq.
  - done.
  - done.
Qed.

Lemma remove_device_spec :
  (∃ l p' h' a d b, ds = a ++ (l, d) :: b ∧ text d.1.1 = text mac ∧
     remove_device mac p h = Ok (Some l, (p', h')) ∧ seg h' p' (a ++ b) None ∧
     leaves h ds h' (a ++ b) ∧ h' !! l = Some (node_of d None)) ∨
  (remove_device mac p h = Ok (None, (p, h)) ∧ dev_map ds !! text mac = None).
Proof.
  unfold remove_device. destruct Hok as [Hn _].
  destruct (remove_loop_spec mac h ds Hmac Hn (size h) p None) as
    [(a & l & d & b & E & He & ->)|[Hni [q ->]]]; [by eapply seg_length|done|left|right].
  2: { split; [done|]. by apply dev_map_None. }
  destruct (unlink_spec h p ds Hs a l d b E) as (p' & h' & Hu & Hs' & Hl & Hd).
  cbn [mbind res_bind]. rewrite Hu. by exists l, p', h', a, d, b.
Qed.
End operations.

(** ** The two lists refine two maps *)

Inductive side := Aps | Stations.
Inductive dev_op :=
| Find (x : side) (mac : charp)
| Insert (x : side) (mac host : charp) (port : Z)
| Remove (x : side) (mac : charp).

Section refinement.
Context `{Allocator}.

Definition run_op (op : dev_op) : ST devices (option loc) :=
  match op with
  | Find Aps mac => find_ap mac
  | Find Stations mac => find_station mac
  | Insert Aps mac host port => l ← insert_ap mac host port; mret (Some l)
  | Insert Stations mac host port => l ← insert_station mac host port; mret (Some l)
  | Remove Aps mac => remove_ap mac
  | Remove Stations mac => remove_station mac
  end.

(** The device behind the returned pointer, read after the call. *)
Definition observe (op : dev_op) : ST devices (option (list Z * (charp * Z))) := λ s,
  '(r, s) ← run_op op s;
  match r with
  | None => Ok (None, s)
  | Some l =>
      nd ← node_at (nodes s) l;
      Ok (Some (text (mac_address nd), (hostname nd, port_num nd)), s)
  end.

Fixpoint run_ops (ops : list dev_op) : ST devices (list (option (list Z * (charp * Z)))) :=
  match ops with
  | [] => mret []
  | op :: ops => a ← observe op; l ← run_ops ops; mret (a :: l)
  end.

(** The specification: each operation on one registry. *)
Definition spec_one (op : dev_op) (m : registry) : option (list Z * (charp * Z)) * registry :=
  match op with
  | Find _ mac => (pair (text mac) <$> m !! text mac, m)
  | Insert _ mac host port =>
      match m !! text mac with
      | Some v => (Some (text mac, v), m)
      | None => (Some (text mac, (canon host, port)), <[text mac := (canon host, port)]> m)
      end
  | Remove _ mac => (pair (text mac) <$> m !! text mac, delete (text mac) m)
  end.
Definition op_side (op : dev_op) : side :=
  match op with Find x _ | Insert x _ _ _ | Remove x _ => x end.

Definition spec_op (op : dev_op) (ab : registry * registry) :
    option (list Z * (charp * Z)) * (registry * registry) :=
  match op_side op with
  | Aps => let '(r, a) := spec_one op ab.1 in (r, (a, ab.2))
  | Stations => let '(r, b) := spec_one op ab.2 in (r, (ab.1, b))
  end.
Fixpoint spec_ops (ops : list dev_op) (ab : registry * registry) :
    list (option (list Z * (charp * Z))) * (registry * registry) :=
  match ops with
  | [] => ([], ab)
  | op :: ops =>
      let '(r, ab) := spec_op op ab in
      let '(l, ab) := spec_ops ops ab in (r :: l, ab)
  end.

(** Arguments the C code accepts: a MAC address, and strings that the
    allocator leaves room to copy. *)
Definition op_ok (op : dev_op) : bool :=
  match op with
  | Find _ mac | Remove _ mac => named mac
  | Insert _ mac host _ => named mac && copyable mac && copyable host
  end.

(** The state stands for two registries: both lists end, share no node, and
    register no address twice. *)
Definition represents (s : devices) (ab : registry * registry) : Prop :=
  ∃ ap st, seg (nodes s) (list_of_aps s) ap None ∧ seg (nodes s) (list_of_stations s) st None ∧
    ap.*1 ## st.*1 ∧ macs_ok ap ∧ macs_ok st ∧ dev_map ap = ab.1 ∧ dev_map st = ab.2.

(** One operation on one list: the result, seen through the final store. *)
Definition run_one (op : dev_op) (p : option loc) (h : store) :
    res (option loc * (option loc * store)) :=
  match op with
  | Find _ mac => r ← find_device mac p h; Ok (r, (p, h))
  | Insert _ mac host port =>
      '(l, (p, h)) ← insert_device mac host port p h; Ok (Some l, (p, h))
  | Remove _ mac => remove_device mac p h
  end.

Lemma run_one_spec op h p ds : op_ok op = true → seg h p ds None → macs_ok ds →
  ∃ r p' h' ds', run_one op p h = Ok (r, (p', h')) ∧ seg h' p' ds' None ∧ macs_ok ds' ∧
    leaves h ds h' ds' ∧ dev_map ds' = (spec_one op (dev_map ds)).2 ∧
    match r with
    | None => (spec_one op (dev_map ds)).1 = None
    | Some l => ∃ nd, h' !! l = Some nd ∧ (spec_one op (dev_map ds)).1 =
        Some (text (mac_address nd), (hostname nd, port_num nd))
    end.
Proof.
  intros Hop Hs Hok. destruct op as [x mac|x mac host port|x mac]; simpl in *.
  - destruct (find_device_spec mac h p ds Hop Hs Hok) as [(l & d & q & -> & Hl & He & Hm)|[-> Hm]];
      cbn [mbind res_bind]; rewrite Hm.
    + exists (Some l), p, h, ds. split_and!; try done. exists (node_of d q). by rewrite <- He.
    + exists None, p, h, ds. by split_and!.
  - split_andb.
    destruct (insert_device_spec mac h p ds ltac:(done) Hs Hok host port) as
      (l & p' & h' & ds' & nd & -> & Hs' & Hok' & Hlv & Hm & Hl & Ht & Hv); [done..|].
    exists (Some l), p', h', ds'. cbn [mbind res_bind].
    destruct (dev_map ds !! text mac) as [v|]; simpl in *; split_and!; try done;
      exists nd; by rewrite Hl, Ht, Hv.
  - destruct (remove_device_spec mac h p ds Hop Hs Hok) as
      [(l & p' & h' & a & d & b & E & He & -> & Hs' & Hlv & Hl)|[-> Hm]].
    + exists (Some l), p', h', (a ++ b). subst ds. destruct Hok as [Hn Hnd].
      destruct (dev_map_mid a l d b Hnd) as [Hlk Hdel]. rewrite He in *. split_and!; try done.
      * by eapply macs_ok_mid.
      * exists (node_of d None). split; [done|].
        transitivity (pair (text mac) <$> Some (d.1.2, d.2)); [by f_equal|].
        simpl. by rewrite He.
    + exists None, p, h, ds. rewrite Hm. split_and!; try done. by rewrite delete_id.
Qed.

Lemma disjoint_sym (a b : list loc) : a ## b → b ## a.
Proof. intros Hd x Hb Ha. by eapply Hd. Qed.

(** One call on the state: the observed device and the new registries are the
    specified ones. *)
Lemma observe_refines op s ab : op_ok op = true → represents s ab →
  ∃ s', observe op s = Ok ((spec_op op ab).1, s') ∧ represents s' (spec_op op ab).2.
Proof.
  intros Hop (ap & st & Ha & Hst & Hdis & Hoa & Hos & Ea & Es).
  unfold observe. destruct s as [h pa ps], ab as [a b]. simpl in *. subst a b.
  assert (∀ x, op_side op = x → run_op op (Devices h pa ps) =
    '(r, (p', h')) ← run_one op (match x with Aps => pa | Stations => ps end) h;
     Ok (r, match x with Aps => Devices h' p' ps | Stations => Devices h' pa p' end)) as Hrun.
  { intros x <-. destruct op as [[]|[]|[]]; simpl;
      unfold find_ap, find_station, insert_ap, insert_station, remove_ap, remove_station;
      unfold mbind, ST_bind, res_bind; cbn [nodes list_of_aps list_of_stations];
      repeat (case_match; simplify_eq/=; try done). }
  unfold spec_op. destruct (op_side op) eqn:Hx; rewrite (Hrun _ eq_refl); simpl.
  - destruct (run_one_spec op h pa ap Hop Ha Hoa) as (r & p' & h' & ds' & -> & Hs' & Hok' & Hlv & Hm & Hr).
    destruct (Hlv _ _ Hst Hdis) as [Hst' Hdis']. cbn [mbind res_bind].
    destruct (spec_one op (dev_map ap)) as [q m]. simpl in *. subst m.
    exists (Devices h' p' ps). split; [|by exists ds', st].
    destruct r as [l|]; [|by subst q]. destruct Hr as (nd & Hl & ->).
    unfold node_at. simpl. by rewrite Hl.
  - destruct (run_one_spec op h ps st Hop Hst Hos) as (r & p' & h' & ds' & -> & Hs' & Hok' & Hlv & Hm & Hr).
    destruct (Hlv _ _ Ha (disjoint_sym _ _ Hdis)) as [Ha' Hdis'%disjoint_sym]. cbn [mbind res_bind].
    destruct (spec_one op (dev_map st)) as [q m]. simpl in *. subst m.
    exists (Devices h' pa p'). split; [|by exists ap, ds'].
    destruct r as [l|]; [|by subst q]. destruct Hr as (nd & Hl & ->).
    unfold node_at. simpl. by rewrite Hl.
Qed.

Lemma represents_init : represents (Devices ∅ None None) (∅, ∅).
Proof. exists [], []. split_and!; try done; try (split; constructor). set_solver. Qed.

(** C9: the lists of access points and of stations refine two maps from MAC
    addresses to host names and ports.  From the empty lists, any sequence of
    insertions, removals and searches with usable arguments runs without
    fault and without looping, each call returns a node that describes the
    device the map specification answers (or NULL when it answers none), and
    the final lists stand for the specified maps: the two lists never share a
    node and never register an address twice. *)
Theorem devices_refine_maps (ops : list dev_op) : forallb op_ok ops = true →
  ∃ s, run_ops ops (Devices ∅ None None) = Ok ((spec_ops ops (∅, ∅)).1, s) ∧
    represents s (spec_ops ops (∅, ∅)).2.
Proof.
  generalize represents_init. generalize (Devices ∅ None None) (∅ : registry, ∅ : registry).
  induction ops as [|op ops IH]; intros s ab Hs Hok; simpl in *; [by exists s|].
  split_andb. destruct (observe_refines op s ab) as (s1 & Ho & Hs1); [done..|].
  destruct (spec_op op ab) as [r ab1]. simpl in *.
  destruct (IH s1 ab1) as (s2 & Hr & Hs2); [done..|].
  exists s2. unfold mbind, ST_bind. rewrite Ho, Hr.
  by destruct (spec_ops ops ab1) as [l ab2].
Qed.

(** A node found in the acyclic lists is found within the walk bound; on a
    list whose node points to itself the search for another address never
    ends. *)
Lemma find_device_cycle mac m host port l : named mac = true → named m = true →
  text m ≠ text mac → find_device mac (Some l) {[ l := Node m host port (Some l) ]} = Err Diverges.
Proof.
  intros Hmac Hm Hne. unfold find_device. rewrite map_size_singleton. simpl.
  unfold node_at. rewrite lookup_singleton_eq. cbn [mbind res_bind mac_address next].
  rewrite streq_spec by done. cbn [mbind res_bind]. by rewrite bool_decide_false.
Qed.
End refinement.

Definition sample_ops : list dev_op :=
  [Insert Aps (lit "aa:00") (lit "ap1") 22223; Insert Stations (lit "aa:00") (lit "sta1") 80;
   Insert Aps (lit "bb:00") (lit "ap2") 22224; Insert Aps (lit "aa:00") (lit "other") 1;
   Remove Aps (lit "aa:00"); Find Aps (lit "aa:00"); Find Stations (lit "aa:00")].

Lemma devices_refine_maps_witness :
  forallb (@op_ok glibc_alloc) sample_ops = true ∧
  ∃ s, @run_ops glibc_alloc sample_ops (Devices ∅ None None) =
    Ok ((spec_ops sample_ops (∅, ∅)).1, s) ∧ represents s (spec_ops sample_ops (∅, ∅)).2.
Proof.
  split; [vm_compute; reflexivity|]. apply (@devices_refine_maps glibc_alloc). vm_compute; reflexivity.
Defined.
