(* ===== verification/MsgTraffic.v ===== *)
(** The traffic counters of an interface: [msg_bytesreceived.c],
    [msg_bytessent.c], [msg_packetsreceived.c], [msg_packetssent.c] and
    [msg_packetslost.c].  A request with a [sta_ip] is forwarded to that
    station and its answer copied; otherwise the receiver reads its own
    counters, with netlink on a station and [get_statistics] on an access
    point. *)
From stdpp Require Import prelude list strings.
From S2P Require Import Prelude CMem MsgCommon BufferHandler CFloat World Rpc.

Module BytesReceived.

(** [struct msg_bytesreceived] (msg_bytesreceived.h): the common header, then
    its own fields. *)
Record msg_bytesreceived := Msg {
  hd : msg_header;
  intf_name : charp;
  sta_ip : charp;
  sta_port : Z;
  bytes_received : Z
}.

Definition resize (h : msg_bytesreceived) (n : Z) : msg_bytesreceived :=
  Msg (set_m_size (hd h) n) (intf_name h) (sta_ip h) (sta_port h)
  (bytes_received h).
Definition set_bytes_received (h : msg_bytesreceived) (x : Z) : msg_bytesreceived :=
  Msg (hd h) (intf_name h) (sta_ip h) (sta_port h) x.

Section codec.
Context `{Allocator}.

Definition message_size_bytesreceived (h : msg_bytesreceived) : res Z :=
  v ← strlen_ethanol (p_version (hd h));
  n1 ← strlen_ethanol (intf_name h);
  n2 ← strlen_ethanol (sta_ip h);
  Ok (to_u64 (v + 4 + 4 + 4 + n1 + n2 + 4 + 8)).

Definition encode_msg_bytesreceived : msg_bytesreceived → res (msg_bytesreceived * list cell) :=
  encode_with message_size_bytesreceived resize (λ h,
    encode_header (m_type (hd h)) (m_id (hd h)) (m_size (hd h));;
    encode_char (intf_name h);;
    encode_char (sta_ip h);;
    encode_int (sta_port h);;
    encode_2long (bytes_received h)).

Definition decode_msg_bytesreceived : list cell → res msg_bytesreceived := decode_buffer (
  hd ← decode_header;
  intf_name ← decode_char;
  sta_ip ← decode_char;
  sta_port ← decode_int;
  bytes_received ← decode_2long;
  mret (Msg hd intf_name sta_ip sta_port bytes_received)).

Definition wf (h : msg_bytesreceived) : bool :=
  header_ok (hd h) && strs_ok [p_version (hd h); intf_name h; sta_ip h] &&
  i32_ok (sta_port h) && i64_ok (bytes_received h).

Definition normal (h : msg_bytesreceived) : msg_bytesreceived :=
  Msg (normal_header (hd h)) (canon (intf_name h)) (canon (sta_ip h))
  (sta_port h) (bytes_received h).

#[global] Instance msg_bytesreceived_message : Message msg_bytesreceived := {|
  msg_head := hd; msg_resize := resize; msg_size := message_size_bytesreceived;
  msg_encode := encode_msg_bytesreceived; msg_decode := decode_msg_bytesreceived;
  msg_normal := normal; msg_wf := wf
|}.

#[global] Instance msg_bytesreceived_ok : MessageOk msg_bytesreceived.
Proof. solve_codec wf message_size_bytesreceived. Qed.
End codec.

Section agent.
Context {W : Type} `{Net W, Device W, Build, Allocator}.

Definition send_msg_bytesreceived (hostname : charp) (portnum id : Z)
    (intf_name sta_ip : charp) (sta_port : Z) : ST W (option msg_bytesreceived * Z) :=
  with_ssl hostname portnum (None, id) (
    id' ← lift (incr_int id);
    version ← lift (copy_string ETHANOL_VERSION);
    intf ← lift (copy_string intf_name);
    ip ← lift (copy_string sta_ip);
    h1 ← exchange (Msg (Header MSG_GET_BYTESRECEIVED id version 0) intf ip sta_port 0)
                  (λ t, t =? MSG_GET_BYTESRECEIVED);
    mret (h1, id')).

(** The local counter. *)
Definition bytes_received_local (intf_name : charp) : ST W Z :=
  if process_station then
    stats ← get_interface_stats intf_name;
    match stats with Some s => mret (nl_rx_bytes s) | None => mret 0 end
  else
    s ← get_statistics intf_name;
    mret (ns_rx_bytes s).

Definition process_msg_bytesreceived (input : list cell) : ST W (option (list cell)) :=
  h ← lift (decode_msg_bytesreceived input);
  h ← (if nonnull (sta_ip h) then
         '(h1, _) ← send_msg_bytesreceived (sta_ip h) (sta_port h) (m_id (hd h)) (intf_name h) None 0;
         match h1 with
         | Some h1 => mret (set_bytes_received h (bytes_received h1))
         | None => mret h
         end
       else
         x ← bytes_received_local (intf_name h);
         mret (set_bytes_received h x));
  '(_, output) ← lift (encode_msg_bytesreceived h);
  mret (Some output).
End agent.

End BytesReceived.

Module BytesSent.

(** [struct msg_bytessent] (msg_bytessent.h): the common header, then
    its own fields. *)
Record msg_bytessent := Msg {
  hd : msg_header;
  intf_name : charp;
  sta_ip : charp;
  sta_port : Z;
  bytes_sent : Z
}.

Definition resize (h : msg_bytessent) (n : Z) : msg_bytessent :=
  Msg (set_m_size (hd h) n) (intf_name h) (sta_ip h) (sta_port h)
  (bytes_sent h).
Definition set_bytes_sent (h : msg_bytessent) (x : Z) : msg_bytessent :=
  Msg (hd h) (intf_name h) (sta_ip h) (sta_port h) x.

Section codec.
Context `{Allocator}.

Definition message_size_bytessent (h : msg_bytessent) : res Z :=
  v ← strlen_ethanol (p_version (hd h));
  n1 ← strlen_ethanol (intf_name h);
  n2 ← strlen_ethanol (sta_ip h);
  Ok (to_u64 (v + 4 + 4 + 4 + n1 + n2 + 4 + 8)).

Definition encode_msg_bytessent : msg_bytessent → res (msg_bytessent * list cell) :=
  encode_with message_size_bytessent resize (λ h,
    encode_header (m_type (hd h)) (m_id (hd h)) (m_size (hd h));;
    encode_char (intf_name h);;
    encode_char (sta_ip h);;
    encode_int (sta_port h);;
    encode_2long (bytes_sent h)).

Definition decode_msg_bytessent : list cell → res msg_bytessent := decode_buffer (
  hd ← decode_header;
  intf_name ← decode_char;
  sta_ip ← decode_char;
  sta_port ← decode_int;
  bytes_sent ← decode_2long;
  mret (Msg hd intf_name sta_ip sta_port bytes_sent)).

Definition wf (h : msg_bytessent) : bool :=
  header_ok (hd h) && strs_ok [p_version (hd h); intf_name h; sta_ip h] &&
  i32_ok (sta_port h) && i64_ok (bytes_sent h).

Definition normal (h : msg_bytessent) : msg_bytessent :=
  Msg (normal_header (hd h)) (canon (intf_name h)) (canon (sta_ip h))
  (sta_port h) (bytes_sent h).

#[global] Instance msg_bytessent_message : Message msg_bytessent := {|
  msg_head := hd; msg_resize := resize; msg_size := message_size_bytessent;
  msg_encode := encode_msg_bytessent; msg_decode := decode_msg_bytessent;
  msg_normal := normal; msg_wf := wf
|}.

#[global] Instance msg_bytessent_ok : MessageOk msg_bytessent.
Proof. solve_codec wf message_size_bytessent. Qed.
End codec.

Section agent.
Context {W : Type} `{Net W, Device W, Build, Allocator}.

Definition send_msg_bytessent (hostname : charp) (portnum id : Z)
    (intf_name sta_ip : charp) (sta_port : Z) : ST W (option msg_bytessent * Z) :=
  with_ssl hostname portnum (None, id) (
    id' ← lift (incr_int id);
    version ← lift (copy_string ETHANOL_VERSION);
    intf ← lift (copy_string intf_name);
    ip ← lift (copy_string sta_ip);
    h1 ← exchange (Msg (Header MSG_GET_BYTESSENT id version 0) intf ip sta_port 0)
                  (λ t, t =? MSG_GET_BYTESSENT);
    mret (h1, id')).

(** The local counter. *)
Definition bytes_sent_local (intf_name : charp) : ST W Z :=
  if process_station then
    stats ← get_interface_stats intf_name;
    match stats with Some s => mret (nl_tx_bytes s) | None => mret 0 end
  else
    s ← get_statistics intf_name;
    mret (ns_tx_bytes s).

Definition process_msg_bytessent (input : list cell) : ST W (option (list cell)) :=
  h ← lift (decode_msg_bytessent input);
  h ← (if nonnull (sta_ip h) then
         '(h1, _) ← send_msg_bytessent (sta_ip h) (sta_port h) (m_id (hd h)) (intf_name h) None 0;
         match h1 with
         | Some h1 => mret (set_bytes_sent h (bytes_sent h1))
         | None => mret h
         end
       else
         x ← bytes_sent_local (intf_name h);
         mret (set_bytes_sent h x));
  '(_, output) ← lift (encode_msg_bytessent h);
  mret (Some output).
End agent.

End BytesSent.

Module PacketsReceived.

(** [struct msg_packetsreceived] (msg_packetsreceived.h): the common header, then
    its own fields. *)
Record msg_packetsreceived := Msg {
  hd : msg_header;
  intf_name : charp;
  sta_ip : charp;
  sta_port : Z;
  packet_received : Z
}.

Definition resize (h : msg_packetsreceived) (n : Z) : msg_packetsreceived :=
  Msg (set_m_size (hd h) n) (intf_name h) (sta_ip h) (sta_port h)
  (packet_received h).
Definition set_packet_received (h : msg_packetsreceived) (x : Z) : msg_packetsreceived :=
  Msg (hd h) (intf_name h) (sta_ip h) (sta_port h) x.

Section codec.
Context `{Allocator}.

Definition message_size_packetsreceived (h : msg_packetsreceived) : res Z :=
  v ← strlen_ethanol (p_version (hd h));
  n1 ← strlen_ethanol (intf_name h);
  n2 ← strlen_ethanol (sta_ip h);
  Ok (to_u64 (v + 4 + 4 + 4 + n1 + n2 + 4 + 8)).

Definition encode_msg_packetsreceived : msg_packetsreceived → res (msg_packetsreceived * list cell) :=
  encode_with message_size_packetsreceived resize (λ h,
    encode_header (m_type (hd h)) (m_id (hd h)) (m_size (hd h));;
    encode_char (intf_name h);;
    encode_char (sta_ip h);;
    encode_int (sta_port h);;
    encode_2long (packet_received h)).

Definition decode_msg_packetsreceived : list cell → res msg_packetsreceived := decode_buffer (
  hd ← decode_header;
  intf_name ← decode_char;
  sta_ip ← decode_char;
  sta_port ← decode_int;
  packet_received ← decode_2long;
  mret (Msg hd intf_name sta_ip sta_port packet_received)).

Definition wf (h : msg_packetsreceived) : bool :=
  header_ok (hd h) && strs_ok [p_version (hd h); intf_name h; sta_ip h] &&
  i32_ok (sta_port h) && i64_ok (packet_received h).

Definition normal (h : msg_packetsreceived) : msg_packetsreceived :=
  Msg (normal_header (hd h)) (canon (intf_name h)) (canon (sta_ip h))
  (sta_port h) (packet_received h).

#[global] Instance msg_packetsreceived_message : Message msg_packetsreceived := {|
  msg_head := hd; msg_resize := resize; msg_size := message_size_packetsreceived;
  msg_encode := encode_msg_packetsreceived; msg_decode := decode_msg_packetsreceived;
  msg_normal := normal; msg_wf := wf
|}.

#[global] Instance msg_packetsreceived_ok : MessageOk msg_packetsreceived.
Proof. solve_codec wf message_size_packetsreceived. Qed.
End codec.

Section agent.
Context {W : Type} `{Net W, Device W, Build, Allocator}.

Definition send_msg_get_packetsreceived (hostname : charp) (portnum id : Z)
    (intf_name sta_ip : charp) (sta_port : Z) : ST W (option msg_packetsreceived * Z) :=
  with_ssl hostname portnum (None, id) (
    id' ← lift (incr_int id);
    version ← lift (copy_string ETHANOL_VERSION);
    intf ← lift (copy_string intf_name);
    ip ← lift (copy_string sta_ip);
    h1 ← exchange (Msg (Header MSG_GET_PACKETSRECEIVED id version 0) intf ip sta_port 0)
                  (λ t, t =? MSG_GET_PACKETSRECEIVED);
    mret (h1, id')).

(** The local counter. *)
Definition packet_received_local (intf_name : charp) : ST W Z :=
  if process_station then
    stats ← get_interface_stats intf_name;
    match stats with Some s => mret (nl_rx_packets s) | None => mret 0 end
  else
    s ← get_statistics intf_name;
    mret (ns_rx_packets s).

Definition process_msg_packetsreceived (input : list cell) : ST W (option (list cell)) :=
  h ← lift (decode_msg_packetsreceived input);
  h ← (if nonnull (sta_ip h) then
         '(h1, _) ← send_msg_get_packetsreceived (sta_ip h) (sta_port h) (m_id (hd h)) (intf_name h) None 0;
         match h1 with
         | Some h1 => mret (set_packet_received h (packet_received h1))
         | None => mret h
         end
       else
         x ← packet_received_local (intf_name h);
         mret (set_packet_received h x));
  '(_, output) ← lift (encode_msg_packetsreceived h);
  mret (Some output).
End agent.

End PacketsReceived.

Module PacketsSent.

(** [struct msg_packetssent] (msg_packetssent.h): the common header, then
    its own fields. *)
Record msg_packetssent := Msg {
  hd : msg_header;
  intf_name : charp;
  sta_ip : charp;
  sta_port : Z;
  packet_sent : Z
}.

Definition resize (h : msg_packetssent) (n : Z) : msg_packetssent :=
  Msg (set_m_size (hd h) n) (intf_name h) (sta_ip h) (sta_port h)
  (packet_sent h).
Definition set_packet_sent (h : msg_packetssent) (x : Z) : msg_packetssent :=
  Msg (hd h) (intf_name h) (sta_ip h) (sta_port h) x.

Section codec.
Context `{Allocator}.

Definition message_size_packetssent (h : msg_packetssent) : res Z :=
  v ← strlen_ethanol (p_version (hd h));
  n1 ← strlen_ethanol (intf_name h);
  n2 ← strlen_ethanol (sta_ip h);
  Ok (to_u64 (v + 4 + 4 + 4 + n1 + n2 + 4 + 8)).

Definition encode_msg_packetssent : msg_packetssent → res (msg_packetssent * list cell) :=
  encode_with message_size_packetssent resize (λ h,
    encode_header (m_type (hd h)) (m_id (hd h)) (m_size (hd h));;
    encode_char (intf_name h);;
    encode_char (sta_ip h);;
    encode_int (sta_port h);;
    encode_2long (packet_sent h)).

Definition decode_msg_packetssent : list cell → res msg_packetssent := decode_buffer (
  hd ← decode_header;
  intf_name ← decode_char;
  sta_ip ← decode_char;
  sta_port ← decode_int;
  packet_sent ← decode_2long;
  mret (Msg hd intf_name sta_ip sta_port packet_sent)).

Definition wf (h : msg_packetssent) : bool :=
  header_ok (hd h) && strs_ok [p_version (hd h); intf_name h; sta_ip h] &&
  i32_ok (sta_port h) && i64_ok (packet_sent h).

Definition normal (h : msg_packetssent) : msg_packetssent :=
  Msg (normal_header (hd h)) (canon (intf_name h)) (canon (sta_ip h))
  (sta_port h) (packet_sent h).

#[global] Instance msg_packetssent_message : Message msg_packetssent := {|
  msg_head := hd; msg_resize := resize; msg_size := message_size_packetssent;
  msg_encode := encode_msg_packetssent; msg_decode := decode_msg_packetssent;
  msg_normal := normal; msg_wf := wf
|}.

#[global] Instance msg_packetssent_ok : MessageOk msg_packetssent.
Proof. solve_codec wf message_size_packetssent. Qed.
End codec.

Section agent.
Context {W : Type} `{Net W, Device W, Build, Allocator}.

Definition send_msg_get_packetssent (hostname : charp) (portnum id : Z)
    (intf_name sta_ip : charp) (sta_port : Z) : ST W (option msg_packetssent * Z) :=
  if negb (nonnull intf_name) then mret (None, id) else
  with_ssl hostname portnum (None, id) (
    id' ← lift (incr_int id);
    version ← lift (copy_string ETHANOL_VERSION);
    intf ← lift (copy_string intf_name);
    ip ← lift (copy_string sta_ip);
    h1 ← exchange (Msg (Header MSG_GET_PACKETSSENT id version 0) intf ip sta_port 0)
                  (λ t, t =? MSG_GET_PACKETSSENT);
    mret (h1, id')).

(** The local counter. *)
Definition packet_sent_local (intf_name : charp) : ST W Z :=
  if process_station then
    stats ← get_interface_stats intf_name;
    match stats with Some s => mret (nl_tx_packets s) | None => mret 0 end
  else
    s ← get_statistics intf_name;
    mret (ns_tx_packets s).

Definition process_msg_packetssent (input : list cell) : ST W (option (list cell)) :=
  h ← lift (decode_msg_packetssent input);
  h ← (if nonnull (sta_ip h) then
         '(h1, _) ← send_msg_get_packetssent (sta_ip h) (sta_port h) (m_id (hd h)) (intf_name h) None 0;
         match h1 with
         | Some h1 => mret (set_packet_sent h (packet_sent h1))
         | None => mret h
         end
       else
         x ← packet_sent_local (intf_name h);
         mret (set_packet_sent h x));
  '(_, output) ← lift (encode_msg_packetssent h);
  mret (Some output).
End agent.

End PacketsSent.

Module PacketsLost.

(** [struct msg_packetslost] (msg_packetslost.h): the common header, then
    its own fields. *)
Record msg_packetslost := Msg {
  hd : msg_header;
  intf_name : charp;
  sta_ip : charp;
  sta_port : Z;
  packet_lost : Z
}.

Definition resize (h : msg_packetslost) (n : Z) : msg_packetslost :=
  Msg (set_m_size (hd h) n) (intf_name h) (sta_ip h) (sta_port h)
  (packet_lost h).
Definition set_packet_lost (h : msg_packetslost) (x : Z) : msg_packetslost :=
  Msg (hd h) (intf_name h) (sta_ip h) (sta_port h) x.

Section codec.
Context `{Allocator}.

Definition message_size_packetslost (h : msg_packetslost) : res Z :=
  v ← strlen_ethanol (p_version (hd h));
  n1 ← strlen_ethanol (intf_name h);
  n2 ← strlen_ethanol (sta_ip h);
  Ok (to_u64 (v + 4 + 4 + 4 + n1 + n2 + 4 + 8)).

Definition encode_msg_packetslost : msg_packetslost → res (msg_packetslost * list cell) :=
  encode_with message_size_packetslost resize (λ h,
    encode_header (m_type (hd h)) (m_id (hd h)) (m_size (hd h));;
    encode_char (intf_name h);;
    encode_char (sta_ip h);;
    encode_int (sta_port h);;
    encode_2long (packet_lost h)).

Definition decode_msg_packetslost : list cell → res msg_packetslost := decode_buffer (
  hd ← decode_header;
  intf_name ← decode_char;
  sta_ip ← decode_char;
  sta_port ← decode_int;
  packet_lost ← decode_2long;
  mret (Msg hd intf_name sta_ip sta_port packet_lost)).

Definition wf (h : msg_packetslost) : bool :=
  header_ok (hd h) && strs_ok [p_version (hd h); intf_name h; sta_ip h] &&
  i32_ok (sta_port h) && i64_ok (packet_lost h).

Definition normal (h : msg_packetslost) : msg_packetslost :=
  Msg (normal_header (hd h)) (canon (intf_name h)) (canon (sta_ip h))
  (sta_port h) (packet_lost h).

#[global] Instance msg_packetslost_message : Message msg_packetslost := {|
  msg_head := hd; msg_resize := resize; msg_size := message_size_packetslost;
  msg_encode := encode_msg_packetslost; msg_decode := decode_msg_packetslost;
  msg_normal := normal; msg_wf := wf
|}.

#[global] Instance msg_packetslost_ok : MessageOk msg_packetslost.
Proof. solve_codec wf message_size_packetslost. Qed.
End codec.

Section agent.
Context {W : Type} `{Net W, Device W, Build, Allocator}.

(** [rx_errors + rx_dropped + tx_errors + tx_dropped + collisions] in
    [long long]. *)
Definition lost_sum (rx_errors rx_dropped tx_errors tx_dropped collisions : Z) : res Z :=
  a ← add_i64 rx_errors rx_dropped;
  b ← add_i64 a tx_errors;
  c ← add_i64 b tx_dropped;
  add_i64 c collisions.

Definition send_msg_get_packetslost (hostname : charp) (portnum id : Z)
    (intf_name sta_ip : charp) (sta_port : Z) : ST W (option msg_packetslost * Z) :=
  if negb (nonnull intf_name) then mret (None, id) else
  with_ssl hostname portnum (None, id) (
    id' ← lift (incr_int id);
    version ← lift (copy_string ETHANOL_VERSION);
    intf ← lift (copy_string intf_name);
    ip ← lift (copy_string sta_ip);
    h1 ← exchange (Msg (Header MSG_GET_PACKETSLOST id version 0) intf ip sta_port 0)
                  (λ t, t =? MSG_GET_PACKETSLOST);
    mret (h1, id')).

(** The local counter. *)
Definition packet_lost_local (intf_name : charp) : ST W Z :=
  if process_station then
    stats ← get_interface_stats intf_name;
    match stats with Some s => lift (lost_sum (nl_rx_errors s) (nl_rx_dropped s)
                             (nl_tx_errors s) (nl_tx_dropped s) (nl_collisions s)) | None => mret 0 end
  else
    s ← get_statistics intf_name;
    lift (lost_sum (ns_rx_errors s) (ns_rx_dropped s) (ns_tx_errors s)
                   (ns_tx_dropped s) (ns_collisions s)).

Definition process_msg_packetslost (input : list cell) : ST W (option (list cell)) :=
  h ← lift (decode_msg_packetslost input);
  h ← (if nonnull (sta_ip h) then
         '(h1, _) ← send_msg_get_packetslost (sta_ip h) (sta_port h) (m_id (hd h)) (intf_name h) None 0;
         match h1 with
         | Some h1 => mret (set_packet_lost h (packet_lost h1))
         | None => mret h
         end
       else
         x ← packet_lost_local (intf_name h);
         mret (set_packet_lost h x));
  '(_, output) ← lift (encode_msg_packetslost h);
  mret (Some output).
End agent.

End PacketsLost.
