(* ===== verification/Counters.v ===== *)
(** The five traffic counters share one protocol: a request names an
    interface and possibly a station; the agent answers with its own counter,
    or asks the station and answers with the station's.  [Counter] is that
    protocol over any of the five message types, the lemmas here are proved
    once against it, and the instances say that each message file implements
    it. *)
From stdpp Require Import prelude list strings.
From S2P Require Import Prelude CMem MsgCommon BufferHandler World Rpc Linked MsgTraffic.

(** ** The protocol *)

Class Counter (T : Type) `{Message T} := {
  ctr_make : msg_header → charp → charp → Z → Z → T;
  ctr_intf : T → charp;
  ctr_sta : T → charp;
  ctr_port : T → Z;
  ctr_value : T → Z;
  ctr_type : Enum_msg_type
}.

Class CounterOk (T : Type) `{Counter T} : Prop := {
  ctr_msg_ok :: MessageOk T;
  ctr_wf : ∀ hd i s p v, msg_wf (ctr_make hd i s p v) =
    header_ok hd && strs_ok [p_version hd; i; s] && i32_ok p && i64_ok v;
  ctr_normal : ∀ hd i s p v, msg_normal (ctr_make hd i s p v) =
    ctr_make (normal_header hd) (canon i) (canon s) p v;
  ctr_resize : ∀ hd i s p v n,
    msg_resize (ctr_make hd i s p v) n = ctr_make (set_m_size hd n) i s p v;
  ctr_size : ∀ hd i s p v, msg_size (ctr_make hd i s p v) =
    (a ← strlen_ethanol (p_version hd); b ← strlen_ethanol i; c ← strlen_ethanol s;
     Ok (to_u64 (a + 4 + 4 + 4 + b + c + 4 + 8)));
  ctr_proj : ∀ hd i s p v, let h := ctr_make hd i s p v in
    msg_head h = hd ∧ ctr_intf h = i ∧ ctr_sta h = s ∧ ctr_port h = p ∧ ctr_value h = v;
  ctr_eta : ∀ h : T, h = ctr_make (msg_head h) (ctr_intf h) (ctr_sta h) (ctr_port h) (ctr_value h)
}.

Section protocol.
Context {W : Type} `{Net W, Allocator} {T : Type} `{Counter T}.

Definition counter_send (hostname : charp) (portnum id : Z) (intf_name sta_ip : charp)
    (sta_port : Z) : ST W (option T * Z) :=
  with_ssl hostname portnum (None, id) (
    id' ← lift (incr_int id);
    version ← lift (copy_string ETHANOL_VERSION);
    intf ← lift (copy_string intf_name);
    ip ← lift (copy_string sta_ip);
    h1 ← exchange (ctr_make (Header ctr_type id version 0) intf ip sta_port 0)
                  (λ t, t =? ctr_type);
    mret (h1, id')).

Definition with_value (h : T) (x : Z) : T :=
  ctr_make (msg_head h) (ctr_intf h) (ctr_sta h) (ctr_port h) x.

Definition counter_process
    (send : charp → Z → Z → charp → charp → Z → ST W (option T * Z))
    (local : charp → ST W Z) (input : list cell) : ST W (option (list cell)) :=
  h ← lift (msg_decode input);
  h ← (if nonnull (ctr_sta h) then
         '(h1, _) ← send (ctr_sta h) (ctr_port h) (m_id (msg_head h)) (ctr_intf h) None 0;
         match h1 with
         | Some h1 => mret (with_value h (ctr_value h1))
         | None => mret h
         end
       else
         x ← local (ctr_intf h);
         mret (with_value h x));
  '(_, output) ← lift (msg_encode h);
  mret (Some output).
End protocol.

(** ** The message files implement it *)

Section instances.
Context `{Allocator}.

#[global] Instance bytesreceived_counter : Counter BytesReceived.msg_bytesreceived := {|
  ctr_make := BytesReceived.Msg; ctr_intf := BytesReceived.intf_name;
  ctr_sta := BytesReceived.sta_ip; ctr_port := BytesReceived.sta_port;
  ctr_value := BytesReceived.bytes_received; ctr_type := MSG_GET_BYTESRECEIVED |}.
#[global] Instance bytessent_counter : Counter BytesSent.msg_bytessent := {|
  ctr_make := BytesSent.Msg; ctr_intf := BytesSent.intf_name;
  ctr_sta := BytesSent.sta_ip; ctr_port := BytesSent.sta_port;
  ctr_value := BytesSent.bytes_sent; ctr_type := MSG_GET_BYTESSENT |}.
#[global] Instance packetsreceived_counter : Counter PacketsReceived.msg_packetsreceived := {|
  ctr_make := PacketsReceived.Msg; ctr_intf := PacketsReceived.intf_name;
  ctr_sta := PacketsReceived.sta_ip; ctr_port := PacketsReceived.sta_port;
  ctr_value := PacketsReceived.packet_received; ctr_type := MSG_GET_PACKETSRECEIVED |}.
#[global] Instance packetssent_counter : Counter PacketsSent.msg_packetssent := {|
  ctr_make := PacketsSent.Msg; ctr_intf := PacketsSent.intf_name;
  ctr_sta := PacketsSent.sta_ip; ctr_port := PacketsSent.sta_port;
  ctr_value := PacketsSent.packet_sent; ctr_type := MSG_GET_PACKETSSENT |}.
#[global] Instance packetslost_counter : Counter PacketsLost.msg_packetslost := {|
  ctr_make := PacketsLost.Msg; ctr_intf := PacketsLost.intf_name;
  ctr_sta := PacketsLost.sta_ip; ctr_port := PacketsLost.sta_port;
  ctr_value := PacketsLost.packet_lost; ctr_type := MSG_GET_PACKETSLOST |}.

Ltac counter_ok := split; [typeclasses eauto|try reflexivity..|intros []; reflexivity]; done.

#[global] Instance bytesreceived_counter_ok : CounterOk BytesReceived.msg_bytesreceived.
Proof. counter_ok. Qed.
#[global] Instance bytessent_counter_ok : CounterOk BytesSent.msg_bytessent.
Proof. counter_ok. Qed.
#[global] Instance packetsreceived_counter_ok : CounterOk PacketsReceived.msg_packetsreceived.
Proof. counter_ok. Qed.
#[global] Instance packetssent_counter_ok : CounterOk PacketsSent.msg_packetssent.
Proof. counter_ok. Qed.
#[global] Instance packetslost_counter_ok : CounterOk PacketsLost.msg_packetslost.
Proof. counter_ok. Qed.
End instances.

(** ** Correctness of the protocol *)

Section correctness.
Context `{Allocator} {T : Type} `{CounterOk T}.

(** A message with the current version in its header. *)
Abbreviation current id n := (Header ctr_type id ETHANOL_VERSION n).

Lemma current_wf id n i s p v :
  i32_ok id = true → brief i = true → brief s = true → i32_ok p = true → i64_ok v = true →
  msg_wf (ctr_make (current id n) i s p v) = true.
Proof.
  intros. rewrite ctr_wf, header_current by done. cbn [p_version].
  rewrite strs_ok_brief by all_brief. by split_andb.
Qed.

Lemma current_size id n i s p v : cstr_ok i = true → cstr_ok s = true →
  Z.of_nat (length (text i)) < 900 → Z.of_nat (length (text s)) < 900 →
  msg_size (ctr_make (current id n) i s p v) =
    Ok (44 + Z.of_nat (length (text i)) + Z.of_nat (length (text s))).
Proof.
  intros. rewrite ctr_size. cbn [p_version].
  rewrite (strlen_ethanol_ok ETHANOL_VERSION), !strlen_ethanol_ok by done.
  change (length (text ETHANOL_VERSION)) with 5%nat. cbn [mbind res_bind].
  rewrite to_u_id by (lia || in_range). f_equal. lia.
Qed.

(** What the receiver of such a message works with; it fits the buffers. *)
Lemma current_received id n i s p v : brief i = true → brief s = true → ∃ k,
  0 ≤ k ≤ 2048 ∧ i32_ok k = true ∧ msg_size (ctr_make (current id n) i s p v) = Ok k ∧
  received (ctr_make (current id n) i s p v) = ctr_make (current id k) (canon i) (canon s) p v.
Proof.
  unfold brief. intros. split_andb. to_prop.
  exists (44 + Z.of_nat (length (text i)) + Z.of_nat (length (text s))).
  split_and!; [lia|lia|in_range|by apply current_size|].
  unfold received. rewrite current_size by done. by rewrite ctr_resize, ctr_normal.
Qed.

(** A client's call to a peer that answers the request with a message. *)
Lemma counter_call {L P} host port (serve : list cell → ST P (option (list cell)))
    hostname portnum id intf sta sta_port (s : link L P) (rep : T) p' :
  reachable host port hostname portnum = true →
  i32_ok id = true → id ≠ 2 ^ 31 - 1 → i32_ok sta_port = true →
  copyable ETHANOL_VERSION = true →
  copyable intf = true → brief intf = true → copyable sta = true → brief sta = true →
  serve (wire_of (ctr_make (current id 0) (canon intf) (canon sta) sta_port 0)) (peer s) =
    Ok (Some (wire_of rep), p') →
  msg_wf rep = true → m_type (msg_head rep) = ctr_type →
  Z.of_nat (length (wire_of rep)) ≤ SSL_BUFFER_SIZE →
  @counter_send _ (linked_net host port serve) _ T _ _ hostname portnum id intf sta sta_port s =
    Ok ((Some (received rep), id + 1), Link (here s) p' []).
Proof.
  intros Hr Hid Hmax Hp Hv Hi Hbi Hs Hbs Hserve Hwf Ht Hlen. unfold counter_send.
  pose (N := linked_net (L:=L) host port serve). fold N.
  rewrite (with_ssl_ext _ _ _ _
    (r ← exchange (ctr_make (current id 0) (canon intf) (canon sta) sta_port 0) (λ t, t =? ctr_type);
     mret (r, id + 1))).
  - rewrite (linked_rpc host port serve _ _ _ _ _ (λ r, (r, id + 1)) s (wire_of rep) p')
      by auto using current_wf, brief_canon.
    by rewrite (reply_received _ rep Hwf) by (rewrite Ht; apply Z.eqb_refl).
  - intros w. unfold incr_int. rewrite (proj2 (Z.eqb_neq _ _) Hmax).
    by rewrite !copy_string_canon by done.
Qed.

(** The handler on a request for the agent itself. *)
Lemma counter_process_local {W} send (local : charp → ST W Z) id n i p v w x w' :
  i32_ok id = true → brief i = true → i32_ok p = true → i64_ok v = true →
  local (canon i) w = Ok (x, w') → i64_ok x = true →
  ∃ k, i32_ok k = true ∧
  counter_process send local (wire_of (ctr_make (current id n) i None p v)) w =
    Ok (Some (wire_of (ctr_make (current id k) (canon i) None p x)), w').
Proof.
  intros Hid Hi Hp Hv Hl Hx.
  destruct (current_received id n i None p v Hi eq_refl) as (k & _ & Hk & _ & Hrec).
  exists k. split; [done|]. unfold counter_process.
  rewrite wire_received by (apply current_wf; done). rewrite Hrec.
  rewrite (st_bind_Ok _ _ w _ w eq_refl).
  destruct (ctr_proj (current id k) (canon i) (canon None) p v) as (E1 & E2 & E3 & E4 & E5).
  unfold with_value. rewrite E1, E2, E3, E4. change (canon None) with (@None (list cell)). cbn [nonnull].
  unfold mbind at 1, ST_bind at 1. unfold mbind at 1, ST_bind at 1. rewrite Hl.
  destruct (wire_encode (ctr_make (current id k) (canon i) None p x)) as [h' He].
  { apply current_wf; auto using brief_canon. }
  cbn [mret ST_ret]. by rewrite He.
Qed.

(** The handler on a request for a station, which may or may not answer. *)
Lemma counter_process_station {W} send (local : charp → ST W Z) id n i s p v w o id' w' x :
  i32_ok id = true → brief i = true → brief s = true → text s ≠ [] → i32_ok p = true →
  i64_ok v = true → send (canon s) p id (canon i) None 0 w = Ok ((o, id'), w') →
  x = match o with Some h1 => ctr_value h1 | None => v end → i64_ok x = true →
  ∃ k, i32_ok k = true ∧
  counter_process (T:=T) send local (wire_of (ctr_make (current id n) i s p v)) w =
    Ok (Some (wire_of (ctr_make (current id k) (canon i) (canon s) p x)), w').
Proof.
  intros Hid Hi Hs Hne Hp Hv Hsend Ex Hx.
  destruct (current_received id n i s p v Hi Hs) as (k & _ & Hk & _ & Hrec).
  exists k. split; [done|]. unfold counter_process.
  rewrite wire_received by (apply current_wf; done). rewrite Hrec.
  rewrite (st_bind_Ok _ _ w _ w eq_refl).
  destruct (ctr_proj (current id k) (canon i) (canon s) p v) as (E1 & E2 & E3 & E4 & E5).
  unfold with_value. rewrite E1, E2, E3, E4. cbn [m_id].
  assert (nonnull (canon s) = true) as ->. { unfold canon. by destruct (text s). }
  unfold mbind at 1, ST_bind at 1. unfold mbind at 1, ST_bind at 1. rewrite Hsend.
  destruct (wire_encode (ctr_make (current id k) (canon i) (canon s) p x)) as [h' He].
  { apply current_wf; auto using brief_canon. }
  subst x. destruct o; cbn [mret ST_ret]; by rewrite He.
Qed.
End correctness.
