(* ===== verification/MsgRadio.v ===== *)
(** Radio properties of an interface: [msg_snr.c], [msg_txpower.c],
    [msg_powersavemode.c] and [msg_802_11e_enabled.c], relayed to a station
    when the request carries a [sta_ip].

    An argument named [junk_...] is the indeterminate content of a structure
    field that the C function sends without having assigned it. *)
From stdpp Require Import prelude list strings.
From Stdlib Require Import SpecFloat.
From S2P Require Import Prelude CMem MsgCommon BufferHandler CFloat World Rpc.

Module Snr.

(** [struct msg_snr] (msg_snr.h): the common header, then
    its own fields. *)
Record msg_snr := Msg {
  hd : msg_header;
  intf_name : charp;
  sta_ip : charp;
  sta_port : Z;
  snr : Z
}.

Definition resize (h : msg_snr) (n : Z) : msg_snr :=
  Msg (set_m_size (hd h) n) (intf_name h) (sta_ip h) (sta_port h) (snr h).
Definition set_snr (h : msg_snr) (x : Z) : msg_snr :=
  Msg (hd h) (intf_name h) (sta_ip h) (sta_port h) x.

Section codec.
Context `{Allocator}.

Definition message_size_snr (h : msg_snr) : res Z :=
  v ← strlen_ethanol (p_version (hd h));
  n1 ← strlen_ethanol (intf_name h);
  n2 ← strlen_ethanol (sta_ip h);
  Ok (to_u64 (v + 4 + 4 + 4 + n1 + n2 + 4 + 8)).

Definition encode_msg_snr : msg_snr → res (msg_snr * list cell) :=
  encode_with message_size_snr resize (λ h,
    encode_header (m_type (hd h)) (m_id (hd h)) (m_size (hd h));;
    encode_char (intf_name h);;
    encode_char (sta_ip h);;
    encode_int (sta_port h);;
    encode_2long (snr h)).

Definition decode_msg_snr : list cell → res msg_snr := decode_buffer (
  hd ← decode_header;
  intf_name ← decode_char;
  sta_ip ← decode_char;
  sta_port ← decode_int;
  snr ← decode_2long;
  mret (Msg hd intf_name sta_ip sta_port snr)).

Definition wf (h : msg_snr) : bool :=
  header_ok (hd h) && strs_ok [p_version (hd h); intf_name h; sta_ip h] &&
  i32_ok (sta_port h) && i64_ok (snr h).

Definition normal (h : msg_snr) : msg_snr :=
  Msg (normal_header (hd h)) (canon (intf_name h)) (canon (sta_ip h))
  (sta_port h) (snr h).

#[global] Instance msg_snr_message : Message msg_snr := {|
  msg_head := hd; msg_resize := resize; msg_size := message_size_snr;
  msg_encode := encode_msg_snr; msg_decode := decode_msg_snr;
  msg_normal := normal; msg_wf := wf
|}.

#[global] Instance msg_snr_ok : MessageOk msg_snr.
Proof. solve_codec wf message_size_snr. Qed.
End codec.

Section agent.
Context {W : Type} `{Net W, Device W, Build, Allocator}.

Definition send_msg_snr (junk_snr : Z) (hostname : charp) (portnum id : Z)
    (intf_name sta_ip : charp) (sta_port : Z) : ST W (option msg_snr * Z) :=
  with_ssl hostname portnum (None, id) (
    id' ← lift (incr_int id);
    version ← lift (copy_string ETHANOL_VERSION);
    intf ← lift (copy_string intf_name);
    ip ← lift (copy_string sta_ip);
    h1 ← exchange (Msg (Header MSG_GET_SNR id version 0) intf ip sta_port junk_snr)
                  (λ t, t =? MSG_GET_SNR);
    mret (h1, id')).

(** [stats->noise - stats->signal] in [int] on a station, [-1] without
    statistics; the [double] of [get_snr_ap] converted to [long long] on an
    access point. *)
Definition snr_local (intf_name : charp) : ST W Z :=
  if process_station then
    stats ← get_interface_stats intf_name;
    match stats with
    | Some s => lift (ensure (i32_ok (nl_noise s - nl_signal s)) SignedOverflow);;
                mret (nl_noise s - nl_signal s)
    | None => mret (-1)
    end
  else
    d ← get_snr_ap intf_name;
    lift (sf_to_int 64 d).

Definition process_msg_snr (junk_snr : Z) (input : list cell) : ST W (option (list cell)) :=
  h ← lift (decode_msg_snr input);
  h ← (if nonnull (sta_ip h) then
         '(h1, _) ← send_msg_snr junk_snr (sta_ip h) (sta_port h) (m_id (hd h)) (intf_name h) None 0;
         match h1 with
         | Some h1 => mret (set_snr h (snr h1))
         | None => mret h
         end
       else
         x ← snr_local (intf_name h);
         mret (set_snr h x));
  '(_, output) ← lift (encode_msg_snr h);
  mret (Some output).
End agent.

End Snr.

Module Txpower.

(** [struct msg_txpower] (msg_txpower.h): the common header, then
    its own fields. *)
Record msg_txpower := Msg {
  hd : msg_header;
  intf_name : charp;
  sta_ip : charp;
  sta_port : Z;
  txpower : Z;
  auto_power : bool
}.

Definition resize (h : msg_txpower) (n : Z) : msg_txpower :=
  Msg (set_m_size (hd h) n) (intf_name h) (sta_ip h) (sta_port h) (txpower h)
  (auto_power h).
Definition with_id (h : msg_txpower) (i : Z) : msg_txpower :=
  Msg (set_m_id (hd h) i) (intf_name h) (sta_ip h) (sta_port h) (txpower h)
  (auto_power h).
Definition set_txpower (h : msg_txpower) (x : Z) : msg_txpower :=
  Msg (hd h) (intf_name h) (sta_ip h) (sta_port h) x (auto_power h).

Section codec.
Context `{Allocator}.

Definition size_msg_txpower (h : msg_txpower) : res Z :=
  v ← strlen_ethanol (p_version (hd h));
  n1 ← strlen_ethanol (intf_name h);
  n2 ← strlen_ethanol (sta_ip h);
  Ok (to_i32 (4 + 4 + v + 4 + n1 + n2 + 4 + 8 + bool_len_ethanol)).

Definition encode_msg_txpower : msg_txpower → res (msg_txpower * list cell) :=
  encode_with size_msg_txpower resize (λ h,
    encode_header (m_type (hd h)) (m_id (hd h)) (m_size (hd h));;
    encode_char (intf_name h);;
    encode_char (sta_ip h);;
    encode_int (sta_port h);;
    encode_2long (txpower h);;
    encode_bool (auto_power h)).

Definition decode_msg_txpower : list cell → res msg_txpower := decode_buffer (
  hd ← decode_header;
  intf_name ← decode_char;
  sta_ip ← decode_char;
  sta_port ← decode_int;
  txpower ← decode_2long;
  auto_power ← decode_bool;
  mret (Msg hd intf_name sta_ip sta_port txpower auto_power)).

Definition wf (h : msg_txpower) : bool :=
  header_ok (hd h) && strs_ok [p_version (hd h); intf_name h; sta_ip h] &&
  i32_ok (sta_port h) && i64_ok (txpower h).

Definition normal (h : msg_txpower) : msg_txpower :=
  Msg (normal_header (hd h)) (canon (intf_name h)) (canon (sta_ip h))
  (sta_port h) (txpower h) (auto_power h).

#[global] Instance msg_txpower_message : Message msg_txpower := {|
  msg_head := hd; msg_resize := resize; msg_size := size_msg_txpower;
  msg_encode := encode_msg_txpower; msg_decode := decode_msg_txpower;
  msg_normal := normal; msg_wf := wf
|}.

#[global] Instance msg_txpower_ok : MessageOk msg_txpower.
Proof. solve_codec wf size_msg_txpower. Qed.
End codec.

Section agent.
Context {W : Type} `{Net W, Device W, Build, Allocator}.

Definition send_msg_set_txpower (hostname : charp) (portnum id : Z)
    (intf_name sta_ip : charp) (sta_port txpower : Z) (auto_power : bool) : ST W Z :=
  with_ssl hostname portnum id (
    id' ← lift (incr_int id);
    version ← lift (copy_string ETHANOL_VERSION);
    intf ← lift (copy_string intf_name);
    ip ← lift (copy_string sta_ip);
    notify (Msg (Header MSG_SET_TXPOWER id version 0) intf ip sta_port txpower auto_power);;
    mret id').

Definition send_msg_get_txpower (junk_txpower : Z) (junk_auto : bool) (hostname : charp)
    (portnum id : Z) (intf_name sta_ip : charp) (sta_port : Z) :
    ST W (option msg_txpower * Z) :=
  with_ssl_noerr hostname portnum (None, id) (
    id' ← lift (incr_int id);
    version ← lift (copy_string ETHANOL_VERSION);
    intf ← lift (copy_string intf_name);
    ip ← lift (copy_string sta_ip);
    h1 ← exchange (Msg (Header MSG_GET_TXPOWER id version 0) intf ip sta_port
                       junk_txpower junk_auto)
                  (λ t, t =? MSG_GET_TXPOWER);
    mret (h1, id')).

Definition txpower_set_local (h : msg_txpower) : ST W unit :=
  if process_station then system_set_txpower (intf_name h) (to_i32 (txpower h))
  else ap_set_txpower (intf_name h) (f32_of_Z (txpower h)) (if auto_power h then 0 else 1).

(** [wapi_get_txpower] assigns only when it succeeds. *)
Definition txpower_get_local (h : msg_txpower) : ST W msg_txpower :=
  if process_station then
    r ← wapi_get_txpower (intf_name h);
    match r with Some p => mret (set_txpower h p) | None => mret h end
  else
    f ← get_tx_power_iwconfig (intf_name h);
    p ← lift (sf_to_int 32 f);
    mret (set_txpower h p).

(** The relayed calls take [&h->m_id], so the answer carries the incremented
    identifier. *)
Definition process_msg_txpower (junk_txpower : Z) (junk_auto : bool)
    (input : list cell) : ST W (option (list cell)) :=
  h ← lift (decode_msg_txpower input);
  h ← (if m_type (hd h) =? MSG_SET_TXPOWER then
         if negb (nonnull (sta_ip h)) then txpower_set_local h;; mret h
         else
           id' ← send_msg_set_txpower (sta_ip h) (sta_port h) (m_id (hd h)) (intf_name h)
                                      None 0 (txpower h) (auto_power h);
           mret (with_id h id')
       else
         if negb (nonnull (sta_ip h)) then txpower_get_local h
         else
           '(h1, id') ← send_msg_get_txpower junk_txpower junk_auto (sta_ip h) (sta_port h)
                                             (m_id (hd h)) (intf_name h) None 0;
           let h := with_id h id' in
           match h1 with
           | Some h1 => mret (set_txpower h (txpower h1))
           | None => mret h
           end);
  '(_, output) ← lift (encode_msg_txpower h);
  mret (Some output).
End agent.

End Txpower.

Module Powersave.

(** [struct msg_powersavemode] (msg_powersavemode.h): the common header, then
    its own fields. *)
Record msg_powersavemode := Msg {
  hd : msg_header;
  intf_name : charp;
  sta_ip : charp;
  sta_port : Z;
  enabled : bool
}.

Definition resize (h : msg_powersavemode) (n : Z) : msg_powersavemode :=
  Msg (set_m_size (hd h) n) (intf_name h) (sta_ip h) (sta_port h)
  (enabled h).
Definition with_id (h : msg_powersavemode) (i : Z) : msg_powersavemode :=
  Msg (set_m_id (hd h) i) (intf_name h) (sta_ip h) (sta_port h) (enabled h).
Definition set_enabled (h : msg_powersavemode) (x : bool) : msg_powersavemode :=
  Msg (hd h) (intf_name h) (sta_ip h) (sta_port h) x.

Section codec.
Context `{Allocator}.

Definition message_size_powersavemode (h : msg_powersavemode) : res Z :=
  v ← strlen_ethanol (p_version (hd h));
  n1 ← strlen_ethanol (intf_name h);
  n2 ← strlen_ethanol (sta_ip h);
  Ok (to_u64 (v + 4 + 4 + 4 + n1 + n2 + 4 + bool_len_ethanol)).

Definition encode_msg_powersavemode : msg_powersavemode → res (msg_powersavemode * list cell) :=
  encode_with message_size_powersavemode resize (λ h,
    encode_header (m_type (hd h)) (m_id (hd h)) (m_size (hd h));;
    encode_char (intf_name h);;
    encode_char (sta_ip h);;
    encode_int (sta_port h);;
    encode_bool (enabled h)).

Definition decode_msg_powersavemode : list cell → res msg_powersavemode := decode_buffer (
  hd ← decode_header;
  intf_name ← decode_char;
  sta_ip ← decode_char;
  sta_port ← decode_int;
  enabled ← decode_bool;
  mret (Msg hd intf_name sta_ip sta_port enabled)).

Definition wf (h : msg_powersavemode) : bool :=
  header_ok (hd h) && strs_ok [p_version (hd h); intf_name h; sta_ip h] &&
  i32_ok (sta_port h).

Definition normal (h : msg_powersavemode) : msg_powersavemode :=
  Msg (normal_header (hd h)) (canon (intf_name h)) (canon (sta_ip h))
  (sta_port h) (enabled h).

#[global] Instance msg_powersavemode_message : Message msg_powersavemode := {|
  msg_head := hd; msg_resize := resize; msg_size := message_size_powersavemode;
  msg_encode := encode_msg_powersavemode; msg_decode := decode_msg_powersavemode;
  msg_normal := normal; msg_wf := wf
|}.

#[global] Instance msg_powersavemode_ok : MessageOk msg_powersavemode.
Proof. solve_codec wf message_size_powersavemode. Qed.
End codec.

Section agent.
Context {W : Type} `{Net W, Device W, Build, Allocator}.

Definition send_msg_get_powersavemode (hostname : charp) (portnum id : Z)
    (intf_name sta_ip : charp) (sta_port : Z) : ST W (option msg_powersavemode * Z) :=
  with_ssl hostname portnum (None, id) (
    id' ← lift (incr_int id);
    version ← lift (copy_string ETHANOL_VERSION);
    intf ← lift (copy_string intf_name);
    ip ← lift (copy_string sta_ip);
    h1 ← exchange (Msg (Header MSG_GET_POWERSAVEMODE id version 0) intf ip sta_port false)
                  (λ t, t =? MSG_GET_POWERSAVEMODE);
    mret (h1, id')).

Definition send_msg_set_powersavemode (hostname : charp) (portnum id : Z)
    (enable : bool) (intf_name sta_ip : charp) (sta_port : Z) : ST W Z :=
  with_ssl_noerr hostname portnum id (
    id' ← lift (incr_int id);
    version ← lift (copy_string ETHANOL_VERSION);
    intf ← lift (copy_string intf_name);
    ip ← lift (copy_string sta_ip);
    notify (Msg (Header MSG_SET_POWERSAVEMODE id version 0) intf ip sta_port enable);;
    mret id').

(** Only a GET is answered. *)
Definition process_msg_powersavemode (input : list cell) : ST W (option (list cell)) :=
  h ← lift (decode_msg_powersavemode input);
  if m_type (hd h) =? MSG_GET_POWERSAVEMODE then
    h ← (if nonnull (sta_ip h) then
           '(h1, id') ← send_msg_get_powersavemode (sta_ip h) (sta_port h) (m_id (hd h))
                                                   (intf_name h) None 0;
           let h := with_id h id' in
           match h1 with
           | Some h1 => mret (set_enabled h (enabled h1))
           | None => mret h
           end
         else
           b ← get_powersave_mode (intf_name h);
           mret (set_enabled h b));
    '(_, output) ← lift (encode_msg_powersavemode h);
    mret (Some output)
  else
    (if nonnull (sta_ip h) then
       send_msg_set_powersavemode (sta_ip h) (sta_port h) (m_id (hd h)) (enabled h)
                                  (intf_name h) None 0;;
       mret tt
     else set_powersave_mode (intf_name h) (enabled h));;
    mret None.
End agent.

End Powersave.

Module Wmm80211e.

(** [struct msg_802_11e_enabled] (msg_802_11e_enabled.h): the common header, then
    its own fields. *)
Record msg_802_11e_enabled := Msg {
  hd : msg_header;
  intf_name : charp;
  sta_ip : charp;
  sta_port : Z;
  enabled : bool
}.

Definition resize (h : msg_802_11e_enabled) (n : Z) : msg_802_11e_enabled :=
  Msg (set_m_size (hd h) n) (intf_name h) (sta_ip h) (sta_port h)
  (enabled h).
Definition with_id (h : msg_802_11e_enabled) (i : Z) : msg_802_11e_enabled :=
  Msg (set_m_id (hd h) i) (intf_name h) (sta_ip h) (sta_port h) (enabled h).
Definition set_enabled (h : msg_802_11e_enabled) (x : bool) : msg_802_11e_enabled :=
  Msg (hd h) (intf_name h) (sta_ip h) (sta_port h) x.

Section codec.
Context `{Allocator}.

Definition size_msg_802_11e_enabled (h : msg_802_11e_enabled) : res Z :=
  v ← strlen_ethanol (p_version (hd h));
  n1 ← strlen_ethanol (intf_name h);
  n2 ← strlen_ethanol (sta_ip h);
  Ok (to_u64 (v + 4 + 4 + 4 + n1 + n2 + 4 + bool_len_ethanol)).

Definition encode_msg_802_11e_enabled : msg_802_11e_enabled → res (msg_802_11e_enabled * list cell) :=
  encode_with size_msg_802_11e_enabled resize (λ h,
    encode_header (m_type (hd h)) (m_id (hd h)) (m_size (hd h));;
    encode_char (intf_name h);;
    encode_char (sta_ip h);;
    encode_int (sta_port h);;
    encode_bool (enabled h)).

Definition decode_msg_802_11e_enabled : list cell → res msg_802_11e_enabled := decode_buffer (
  hd ← decode_header;
  intf_name ← decode_char;
  sta_ip ← decode_char;
  sta_port ← decode_int;
  enabled ← decode_bool;
  mret (Msg hd intf_name sta_ip sta_port enabled)).

Definition wf (h : msg_802_11e_enabled) : bool :=
  header_ok (hd h) && strs_ok [p_version (hd h); intf_name h; sta_ip h] &&
  i32_ok (sta_port h).

Definition normal (h : msg_802_11e_enabled) : msg_802_11e_enabled :=
  Msg (normal_header (hd h)) (canon (intf_name h)) (canon (sta_ip h))
  (sta_port h) (enabled h).

#[global] Instance msg_802_11e_enabled_message : Message msg_802_11e_enabled := {|
  msg_head := hd; msg_resize := resize; msg_size := size_msg_802_11e_enabled;
  msg_encode := encode_msg_802_11e_enabled; msg_decode := decode_msg_802_11e_enabled;
  msg_normal := normal; msg_wf := wf
|}.

#[global] Instance msg_802_11e_enabled_ok : MessageOk msg_802_11e_enabled.
Proof. solve_codec wf size_msg_802_11e_enabled. Qed.
End codec.

Section agent.
Context {W : Type} `{Net W, Device W, Build, Allocator}.

Definition send_msg_802_11e_enabled (hostname : charp) (portnum id : Z)
    (intf_name sta_ip : charp) (sta_port : Z) : ST W (option msg_802_11e_enabled * Z) :=
  with_ssl hostname portnum (None, id) (
    id' ← lift (incr_int id);
    version ← lift (copy_string ETHANOL_VERSION);
    intf ← lift (copy_string intf_name);
    ip ← lift (copy_string sta_ip);
    h1 ← exchange (Msg (Header MSG_GET_802_11E_ENABLED id version 0) intf ip sta_port false)
                  (λ t, t =? MSG_GET_802_11E_ENABLED);
    mret (h1, id')).

Definition process_msg_802_11e_enabled (input : list cell) : ST W (option (list cell)) :=
  h ← lift (decode_msg_802_11e_enabled input);
  h ← (if negb (nonnull (sta_ip h)) then
         b ← is_80211e_enabled (intf_name h);
         mret (set_enabled h b)
       else
         '(h1, id') ← send_msg_802_11e_enabled (sta_ip h) (sta_port h) (m_id (hd h))
                                               (intf_name h) None 0;
         let h := with_id h id' in
         match h1 with
         | Some h1 => mret (set_enabled h (enabled h1))
         | None => mret h
         end);
  '(_, output) ← lift (encode_msg_802_11e_enabled h);
  mret (Some output).
End agent.

End Wmm80211e.
