(* ===== verification/MsgSystem.v ===== *)
(** Host and station measurements: [msg_cpu.c], [msg_memory.c],
    [msg_uptime.c], [msg_retries.c], [msg_failed.c], [msg_jitter.c] and
    [msg_delay.c].

    An argument named [junk_...] is the indeterminate content of a structure
    field that the C function sends without having assigned it. *)
From stdpp Require Import prelude list strings.
From Stdlib Require Import SpecFloat.
From S2P Require Import Prelude CMem MsgCommon BufferHandler CFloat World Rpc.

Module Cpu.

(** [struct msg_cpu] (msg_cpu.h): the common header, then
    its own fields. *)
Record msg_cpu := Msg {
  hd : msg_header;
  sta_ip : charp;
  sta_port : Z;
  cpu_usage : Z
}.

Definition resize (h : msg_cpu) (n : Z) : msg_cpu :=
  Msg (set_m_size (hd h) n) (sta_ip h) (sta_port h) (cpu_usage h).
Definition set_cpu_usage (h : msg_cpu) (x : Z) : msg_cpu :=
  Msg (hd h) (sta_ip h) (sta_port h) x.

Section codec.
Context `{Allocator}.

Definition message_size_cpu (h : msg_cpu) : res Z :=
  v ← strlen_ethanol (p_version (hd h));
  n1 ← strlen_ethanol (sta_ip h);
  Ok (to_u64 (4 + 4 + v + 4 + n1 + 4 + 8)).

Definition encode_msg_cpu : msg_cpu → res (msg_cpu * list cell) :=
  encode_with message_size_cpu resize (λ h,
    encode_header (m_type (hd h)) (m_id (hd h)) (m_size (hd h));;
    encode_char (sta_ip h);;
    encode_int (sta_port h);;
    encode_2long (cpu_usage h)).

Definition decode_msg_cpu : list cell → res msg_cpu := decode_buffer (
  hd ← decode_header;
  sta_ip ← decode_char;
  sta_port ← decode_int;
  cpu_usage ← decode_2long;
  mret (Msg hd sta_ip sta_port cpu_usage)).

Definition wf (h : msg_cpu) : bool :=
  header_ok (hd h) && strs_ok [p_version (hd h); sta_ip h] &&
  i32_ok (sta_port h) && i64_ok (cpu_usage h).

Definition normal (h : msg_cpu) : msg_cpu :=
  Msg (normal_header (hd h)) (canon (sta_ip h)) (sta_port h) (cpu_usage h).

#[global] Instance msg_cpu_message : Message msg_cpu := {|
  msg_head := hd; msg_resize := resize; msg_size := message_size_cpu;
  msg_encode := encode_msg_cpu; msg_decode := decode_msg_cpu;
  msg_normal := normal; msg_wf := wf
|}.

#[global] Instance msg_cpu_ok : MessageOk msg_cpu.
Proof. solve_codec wf message_size_cpu. Qed.
End codec.

Section agent.
Context {W : Type} `{Net W, Device W, Build, Allocator}.

Definition CPU_SCALE_FACTOR : spec_float := f64_of_Z 1000000.

Definition send_msg_get_cpu (hostname : charp) (portnum id : Z)
    (sta_ip : charp) (sta_port : Z) : ST W (option msg_cpu * Z) :=
  with_ssl hostname portnum (None, id) (
    id' ← lift (incr_int id);
    version ← lift (copy_string ETHANOL_VERSION);
    ip ← lift (copy_string sta_ip);
    h1 ← exchange (Msg (Header MSG_GET_CPU id version 0) ip sta_port 0) (λ t, t =? MSG_GET_CPU);
    mret (h1, id')).

Definition process_msg_cpu (input : list cell) : ST W (option (list cell)) :=
  h ← lift (decode_msg_cpu input);
  h ← (if nonnull (sta_ip h) then
         '(h1, _) ← send_msg_get_cpu (sta_ip h) (sta_port h) (m_id (hd h)) None 0;
         match h1 with
         | Some h1 => mret (set_cpu_usage h (cpu_usage h1))
         | None => mret h
         end
       else
         x ← get_cpu_info;
         u ← lift (sf_to_int 64 (f64_mul CPU_SCALE_FACTOR x));
         mret (Msg (hd h) None 0 u));
  '(_, output) ← lift (encode_msg_cpu h);
  mret (Some output).
End agent.

End Cpu.

Module Memory.

(** [struct msg_memory] (msg_memory.h): the common header, then
    its own fields. *)
Record msg_memory := Msg {
  hd : msg_header;
  sta_ip : charp;
  sta_port : Z;
  memory_usage : Z
}.

Definition resize (h : msg_memory) (n : Z) : msg_memory :=
  Msg (set_m_size (hd h) n) (sta_ip h) (sta_port h) (memory_usage h).
Definition set_memory_usage (h : msg_memory) (x : Z) : msg_memory :=
  Msg (hd h) (sta_ip h) (sta_port h) x.

Section codec.
Context `{Allocator}.

Definition message_size_memory (h : msg_memory) : res Z :=
  v ← strlen_ethanol (p_version (hd h));
  n1 ← strlen_ethanol (sta_ip h);
  Ok (to_u64 (4 + 4 + v + 4 + n1 + 4 + 8)).

Definition encode_msg_memory : msg_memory → res (msg_memory * list cell) :=
  encode_with message_size_memory resize (λ h,
    encode_header (m_type (hd h)) (m_id (hd h)) (m_size (hd h));;
    encode_char (sta_ip h);;
    encode_int (sta_port h);;
    encode_2long (memory_usage h)).

Definition decode_msg_memory : list cell → res msg_memory := decode_buffer (
  hd ← decode_header;
  sta_ip ← decode_char;
  sta_port ← decode_int;
  memory_usage ← decode_2long;
  mret (Msg hd sta_ip sta_port memory_usage)).

Definition wf (h : msg_memory) : bool :=
  header_ok (hd h) && strs_ok [p_version (hd h); sta_ip h] &&
  i32_ok (sta_port h) && i64_ok (memory_usage h).

Definition normal (h : msg_memory) : msg_memory :=
  Msg (normal_header (hd h)) (canon (sta_ip h)) (sta_port h)
  (memory_usage h).

#[global] Instance msg_memory_message : Message msg_memory := {|
  msg_head := hd; msg_resize := resize; msg_size := message_size_memory;
  msg_encode := encode_msg_memory; msg_decode := decode_msg_memory;
  msg_normal := normal; msg_wf := wf
|}.

#[global] Instance msg_memory_ok : MessageOk msg_memory.
Proof. solve_codec wf message_size_memory. Qed.
End codec.

Section agent.
Context {W : Type} `{Net W, Device W, Build, Allocator}.

Definition MEMORY_SCALE_FACTOR : spec_float := f64_of_Z 1000000.

Definition send_msg_get_memory (hostname : charp) (portnum id : Z)
    (sta_ip : charp) (sta_port : Z) : ST W (option msg_memory * Z) :=
  with_ssl hostname portnum (None, id) (
    id' ← lift (incr_int id);
    version ← lift (copy_string ETHANOL_VERSION);
    ip ← lift (copy_string sta_ip);
    h1 ← exchange (Msg (Header MSG_GET_MEMORY id version 0) ip sta_port 0) (λ t, t =? MSG_GET_MEMORY);
    mret (h1, id')).

Definition process_msg_memory (input : list cell) : ST W (option (list cell)) :=
  h ← lift (decode_msg_memory input);
  h ← (if nonnull (sta_ip h) then
         '(h1, _) ← send_msg_get_memory (sta_ip h) (sta_port h) (m_id (hd h)) None 0;
         match h1 with
         | Some h1 => mret (set_memory_usage h (memory_usage h1))
         | None => mret h
         end
       else
         x ← get_mem_porcentage;
         u ← lift (sf_to_int 64 (f64_mul MEMORY_SCALE_FACTOR (to_f64 x)));
         mret (Msg (hd h) None 0 u));
  '(_, output) ← lift (encode_msg_memory h);
  mret (Some output).
End agent.

End Memory.

Module Uptime.

(** [struct msg_uptime] (msg_uptime.h): the common header, then
    its own fields. *)
Record msg_uptime := Msg {
  hd : msg_header;
  uptime : Z;
  idle : Z
}.

Definition resize (h : msg_uptime) (n : Z) : msg_uptime :=
  Msg (set_m_size (hd h) n) (uptime h) (idle h).

Section codec.
Context `{Allocator}.

Definition message_size_uptime (h : msg_uptime) : res Z :=
  v ← strlen_ethanol (p_version (hd h));
  Ok (to_i32 (4 + 4 + v + 4 + 16 + 16)).

Definition encode_msg_uptime : msg_uptime → res (msg_uptime * list cell) :=
  encode_with message_size_uptime resize (λ h,
    encode_header (m_type (hd h)) (m_id (hd h)) (m_size (hd h));;
    encode_longdouble (uptime h);;
    encode_longdouble (idle h)).

Definition decode_msg_uptime : list cell → res msg_uptime := decode_buffer (
  hd ← decode_header;
  uptime ← decode_longdouble;
  idle ← decode_longdouble;
  mret (Msg hd uptime idle)).

Definition wf (h : msg_uptime) : bool :=
  header_ok (hd h) && strs_ok [p_version (hd h)] && u_ok 80 (uptime h) &&
  u_ok 80 (idle h).

Definition normal (h : msg_uptime) : msg_uptime :=
  Msg (normal_header (hd h)) (uptime h) (idle h).

#[global] Instance msg_uptime_message : Message msg_uptime := {|
  msg_head := hd; msg_resize := resize; msg_size := message_size_uptime;
  msg_encode := encode_msg_uptime; msg_decode := decode_msg_uptime;
  msg_normal := normal; msg_wf := wf
|}.

#[global] Instance msg_uptime_ok : MessageOk msg_uptime.
Proof. solve_codec wf message_size_uptime. Qed.
End codec.

Section agent.
Context {W : Type} `{Net W, Device W, Build, Allocator}.

Definition send_msg_uptime (hostname : charp) (portnum id : Z) : ST W (option msg_uptime * Z) :=
  with_ssl hostname portnum (None, id) (
    id' ← lift (incr_int id);
    version ← lift (copy_string ETHANOL_VERSION);
    h1 ← exchange (Msg (Header MSG_GET_UPTIME id version 0) 0 0) (λ t, t =? MSG_GET_UPTIME);
    mret (h1, id')).

(** [fscanf] overwrites the fields it converts. *)
Definition process_msg_uptime (input : list cell) : ST W (option (list cell)) :=
  h ← lift (decode_msg_uptime input);
  '(up, idl) ← read_proc_uptime;
  let h := Msg (hd h) (default (uptime h) up) (default (idle h) idl) in
  '(_, output) ← lift (encode_msg_uptime h);
  mret (Some output).
End agent.

End Uptime.

Module Retries.

(** [struct msg_retries] (msg_retries.h): the common header, then
    its own fields. *)
Record msg_retries := Msg {
  hd : msg_header;
  wiphy : Z;
  retries : Z
}.

Definition resize (h : msg_retries) (n : Z) : msg_retries :=
  Msg (set_m_size (hd h) n) (wiphy h) (retries h).

Section codec.
Context `{Allocator}.

Definition message_size_retries (h : msg_retries) : res Z :=
  v ← strlen_ethanol (p_version (hd h));
  Ok (to_i32 (4 + 4 + v + 4 + 8 + 8)).

Definition encode_msg_retries : msg_retries → res (msg_retries * list cell) :=
  encode_with message_size_retries resize (λ h,
    encode_header (m_type (hd h)) (m_id (hd h)) (m_size (hd h));;
    encode_2long (wiphy h);;
    encode_2long (retries h)).

Definition decode_msg_retries : list cell → res msg_retries := decode_buffer (
  hd ← decode_header;
  wiphy ← decode_2long;
  retries ← decode_2long;
  mret (Msg hd wiphy retries)).

Definition wf (h : msg_retries) : bool :=
  header_ok (hd h) && strs_ok [p_version (hd h)] && i64_ok (wiphy h) &&
  i64_ok (retries h).

Definition normal (h : msg_retries) : msg_retries :=
  Msg (normal_header (hd h)) (wiphy h) (retries h).

#[global] Instance msg_retries_message : Message msg_retries := {|
  msg_head := hd; msg_resize := resize; msg_size := message_size_retries;
  msg_encode := encode_msg_retries; msg_decode := decode_msg_retries;
  msg_normal := normal; msg_wf := wf
|}.

#[global] Instance msg_retries_ok : MessageOk msg_retries.
Proof. solve_codec wf message_size_retries. Qed.
End codec.

Section agent.
Context {W : Type} `{Net W, Device W, Build, Allocator}.

Definition send_msg_retries (junk_retries : Z) (hostname : charp) (portnum id wiphy : Z) :
    ST W (option msg_retries * Z) :=
  with_ssl hostname portnum (None, id) (
    id' ← lift (incr_int id);
    h1 ← exchange (Msg (Header MSG_GET_RETRIES id ETHANOL_VERSION 0) wiphy junk_retries)
                  (λ t, t =? MSG_GET_RETRIES);
    mret (h1, id')).

Definition process_msg_retries (input : list cell) : ST W (option (list cell)) :=
  h ← lift (decode_msg_retries input);
  '(_, output) ← lift (encode_msg_retries (Msg (hd h) 10 2555));
  mret (Some output).
End agent.

End Retries.

Module Failed.

(** [struct msg_failed] (msg_failed.h): the common header, then
    its own fields. *)
Record msg_failed := Msg {
  hd : msg_header;
  mac_sta : charp;
  num_failed : Z
}.

Definition resize (h : msg_failed) (n : Z) : msg_failed :=
  Msg (set_m_size (hd h) n) (mac_sta h) (num_failed h).

Section codec.
Context `{Allocator}.

Definition message_size_failed (h : msg_failed) : res Z :=
  v ← strlen_ethanol (p_version (hd h));
  n1 ← strlen_ethanol (mac_sta h);
  Ok (to_u64 (v + 4 + 4 + 4 + n1 + 8)).

Definition encode_msg_failed : msg_failed → res (msg_failed * list cell) :=
  encode_with message_size_failed resize (λ h,
    encode_header (m_type (hd h)) (m_id (hd h)) (m_size (hd h));;
    encode_char (mac_sta h);;
    encode_2long (num_failed h)).

Definition decode_msg_failed : list cell → res msg_failed := decode_buffer (
  hd ← decode_header;
  mac_sta ← decode_char;
  num_failed ← decode_2long;
  mret (Msg hd mac_sta num_failed)).

Definition wf (h : msg_failed) : bool :=
  header_ok (hd h) && strs_ok [p_version (hd h); mac_sta h] &&
  i64_ok (num_failed h).

Definition normal (h : msg_failed) : msg_failed :=
  Msg (normal_header (hd h)) (canon (mac_sta h)) (num_failed h).

#[global] Instance msg_failed_message : Message msg_failed := {|
  msg_head := hd; msg_resize := resize; msg_size := message_size_failed;
  msg_encode := encode_msg_failed; msg_decode := decode_msg_failed;
  msg_normal := normal; msg_wf := wf
|}.

#[global] Instance msg_failed_ok : MessageOk msg_failed.
Proof. solve_codec wf message_size_failed. Qed.
End codec.

Section agent.
Context {W : Type} `{Net W, Device W, Build, Allocator}.

Definition send_msg_failed (hostname : charp) (portnum id : Z) (mac_sta : charp) :
    ST W (option msg_failed * Z) :=
  with_ssl hostname portnum (None, id) (
    id' ← lift (incr_int id);
    version ← lift (copy_string ETHANOL_VERSION);
    mac ← lift (copy_string mac_sta);
    h1 ← exchange (Msg (Header MSG_GET_FAILED id version 0) mac 0)
                  (λ t, t =? MSG_GET_FAILED);
    mret (h1, id')).

Definition process_msg_failed (input : list cell) : ST W (option (list cell)) :=
  h ← lift (decode_msg_failed input);
  '(_, output) ← lift (encode_msg_failed (Msg (hd h) (mac_sta h) 0));
  mret (Some output).
End agent.

End Failed.

Module Jitter.

(** [struct msg_jitter] (msg_jitter.h): the common header, then
    its own fields. *)
Record msg_jitter := Msg {
  hd : msg_header;
  mac_sta : charp;
  jitter : Z;
  var_jitter : Z
}.

Definition resize (h : msg_jitter) (n : Z) : msg_jitter :=
  Msg (set_m_size (hd h) n) (mac_sta h) (jitter h) (var_jitter h).

Section codec.
Context `{Allocator}.

Definition message_size_jitter (h : msg_jitter) : res Z :=
  v ← strlen_ethanol (p_version (hd h));
  n1 ← strlen_ethanol (mac_sta h);
  Ok (to_u64 (v + 4 + 4 + 4 + n1 + 4 + 4)).

Definition encode_msg_jitter : msg_jitter → res (msg_jitter * list cell) :=
  encode_with message_size_jitter resize (λ h,
    encode_header (m_type (hd h)) (m_id (hd h)) (m_size (hd h));;
    encode_char (mac_sta h);;
    encode_float (jitter h);;
    encode_float (var_jitter h)).

Definition decode_msg_jitter : list cell → res msg_jitter := decode_buffer (
  hd ← decode_header;
  mac_sta ← decode_char;
  jitter ← decode_float;
  var_jitter ← decode_float;
  mret (Msg hd mac_sta jitter var_jitter)).

Definition wf (h : msg_jitter) : bool :=
  header_ok (hd h) && strs_ok [p_version (hd h); mac_sta h] &&
  u32_ok (jitter h) && u32_ok (var_jitter h).

Definition normal (h : msg_jitter) : msg_jitter :=
  Msg (normal_header (hd h)) (canon (mac_sta h)) (jitter h) (var_jitter h).

#[global] Instance msg_jitter_message : Message msg_jitter := {|
  msg_head := hd; msg_resize := resize; msg_size := message_size_jitter;
  msg_encode := encode_msg_jitter; msg_decode := decode_msg_jitter;
  msg_normal := normal; msg_wf := wf
|}.

#[global] Instance msg_jitter_ok : MessageOk msg_jitter.
Proof. solve_codec wf message_size_jitter. Qed.
End codec.

Section agent.
Context {W : Type} `{Net W, Device W, Build, Allocator}.

Definition send_msg_jitter (hostname : charp) (portnum id : Z) (mac_sta : charp) :
    ST W (option msg_jitter * Z) :=
  with_ssl hostname portnum (None, id) (
    id' ← lift (incr_int id);
    version ← lift (copy_string ETHANOL_VERSION);
    mac ← lift (copy_string mac_sta);
    h1 ← exchange (Msg (Header MSG_GET_JITTER id version 0) mac 0 0)
                  (λ t, t =? MSG_GET_JITTER);
    mret (h1, id')).

Definition process_msg_jitter (input : list cell) : ST W (option (list cell)) :=
  h ← lift (decode_msg_jitter input);
  '(_, output) ← lift (encode_msg_jitter (Msg (hd h) (mac_sta h) 0 0));
  mret (Some output).
End agent.

End Jitter.

Module Delay.

(** [struct msg_delay] (msg_delay.h): the common header, then
    its own fields. *)
Record msg_delay := Msg {
  hd : msg_header;
  intf_name : charp;
  sta_ip : charp;
  sta_port : Z;
  delay : Z;
  var_delay : Z
}.

Definition resize (h : msg_delay) (n : Z) : msg_delay :=
  Msg (set_m_size (hd h) n) (intf_name h) (sta_ip h) (sta_port h) (delay h)
  (var_delay h).

Section codec.
Context `{Allocator}.

Definition message_size_delay (h : msg_delay) : res Z :=
  v ← strlen_ethanol (p_version (hd h));
  n1 ← strlen_ethanol (intf_name h);
  n2 ← strlen_ethanol (sta_ip h);
  Ok (to_u64 (v + 4 + 4 + 4 + n1 + n2 + 4 + 4 + 4)).

Definition encode_msg_delay : msg_delay → res (msg_delay * list cell) :=
  encode_with message_size_delay resize (λ h,
    encode_header (m_type (hd h)) (m_id (hd h)) (m_size (hd h));;
    encode_char (intf_name h);;
    encode_char (sta_ip h);;
    encode_int (sta_port h);;
    encode_float (delay h);;
    encode_float (var_delay h)).

Definition decode_msg_delay : list cell → res msg_delay := decode_buffer (
  hd ← decode_header;
  intf_name ← decode_char;
  sta_ip ← decode_char;
  sta_port ← decode_int;
  delay ← decode_float;
  var_delay ← decode_float;
  mret (Msg hd intf_name sta_ip sta_port delay var_delay)).

Definition wf (h : msg_delay) : bool :=
  header_ok (hd h) && strs_ok [p_version (hd h); intf_name h; sta_ip h] &&
  i32_ok (sta_port h) && u32_ok (delay h) && u32_ok (var_delay h).

Definition normal (h : msg_delay) : msg_delay :=
  Msg (normal_header (hd h)) (canon (intf_name h)) (canon (sta_ip h))
  (sta_port h) (delay h) (var_delay h).

#[global] Instance msg_delay_message : Message msg_delay := {|
  msg_head := hd; msg_resize := resize; msg_size := message_size_delay;
  msg_encode := encode_msg_delay; msg_decode := decode_msg_delay;
  msg_normal := normal; msg_wf := wf
|}.

#[global] Instance msg_delay_ok : MessageOk msg_delay.
Proof. solve_codec wf message_size_delay. Qed.
End codec.

Section agent.
Context {W : Type} `{Net W, Device W, Build, Allocator}.

Definition send_msg_delay (junk_port junk_delay junk_var : Z) (hostname : charp)
    (portnum id : Z) (intf_name sta_ip : charp) (sta_port : Z) :
    ST W (option msg_delay * Z) :=
  with_ssl hostname portnum (None, id) (
    id' ← lift (incr_int id);
    version ← lift (copy_string ETHANOL_VERSION);
    intf ← lift (copy_string intf_name);
    ip ← lift (copy_string sta_ip);
    h1 ← exchange (Msg (Header MSG_GET_DELAY id version 0) intf ip junk_port
                       junk_delay junk_var)
                  (λ t, t =? MSG_GET_DELAY);
    mret (h1, id')).

(** Releasing [h->intf_name] and [h->sta_ip], then the same fields again in
    [free_msg_delay]. *)
Definition release_delay (h : msg_delay) : res unit :=
  ensure (negb (nonnull (intf_name h)) && negb (nonnull (sta_ip h))) DoubleFree.

Definition process_msg_delay (input : list cell) : ST W (option (list cell)) :=
  h ← lift (decode_msg_delay input);
  intf ← lift (copy_string (lit "wlan0"));
  ip ← lift (copy_string (lit "192.168.10.15"));
  let h := Msg (hd h) intf ip (sta_port h) 0 0 in
  '(h, output) ← lift (encode_msg_delay h);
  lift (release_delay h);;
  mret (Some output).
End agent.

End Delay.
