(* ===== verification/MsgAssoc.v ===== *)
(** Association events and station control: [msg_association_process.c],
    [msg_disconnect_user.c], [msg_deauthenticate_user.c],
    [msg_changed_ap.c] and [msg_station_trigger_transition.c].

    An argument named [junk_...] is the indeterminate content of a structure
    field that the C function uses without having assigned it. *)
From stdpp Require Import prelude list strings.
From S2P Require Import Prelude CMem MsgCommon BufferHandler CFloat World Rpc.

Module Association.

(** [struct msg_association_process] (msg_association_process.h): the common header, then
    its own fields. *)
Record msg_association_process := Msg {
  hd : msg_header;
  mac_ap : charp;
  mac_sta : charp;
  allowed : bool;
  response : Z
}.

Definition resize (h : msg_association_process) (n : Z) : msg_association_process :=
  Msg (set_m_size (hd h) n) (mac_ap h) (mac_sta h) (allowed h) (response h).

Section codec.
Context `{Allocator}.

Definition message_size_association_process (h : msg_association_process) : res Z :=
  v ← strlen_ethanol (p_version (hd h));
  n1 ← strlen_ethanol (mac_ap h);
  n2 ← strlen_ethanol (mac_sta h);
  Ok (to_u64 (4 + 4 + v + 4 + n1 + n2 + bool_len_ethanol + 4)).

Definition encode_msg_association_process : msg_association_process → res (msg_association_process * list cell) :=
  encode_with message_size_association_process resize (λ h,
    encode_header (m_type (hd h)) (m_id (hd h)) (m_size (hd h));;
    encode_char (mac_ap h);;
    encode_char (mac_sta h);;
    encode_bool (allowed h);;
    encode_int (response h)).

Definition decode_msg_association_process : list cell → res msg_association_process := decode_buffer (
  hd ← decode_header;
  mac_ap ← decode_char;
  mac_sta ← decode_char;
  allowed ← decode_bool;
  response ← decode_int;
  mret (Msg hd mac_ap mac_sta allowed response)).

Definition wf (h : msg_association_process) : bool :=
  header_ok (hd h) && strs_ok [p_version (hd h); mac_ap h; mac_sta h] &&
  i32_ok (response h).

Definition normal (h : msg_association_process) : msg_association_process :=
  Msg (normal_header (hd h)) (canon (mac_ap h)) (canon (mac_sta h))
  (allowed h) (response h).

#[global] Instance msg_association_process_message : Message msg_association_process := {|
  msg_head := hd; msg_resize := resize; msg_size := message_size_association_process;
  msg_encode := encode_msg_association_process; msg_decode := decode_msg_association_process;
  msg_normal := normal; msg_wf := wf
|}.

#[global] Instance msg_association_process_ok : MessageOk msg_association_process.
Proof. solve_codec wf message_size_association_process. Qed.
End codec.

Section agent.
Context {W : Type} `{Net W, Device W, Build, Allocator}.

(** The [switch (state)] that selects the message type. *)
Definition association_type (state : type_association) : Enum_msg_type :=
  match state with
  | ASSOCIATION => MSG_ASSOCIATION
  | DISASSOCIATION => MSG_DISASSOCIATION
  | REASSOCIATION => MSG_REASSOCIATION
  | AUTHORIZATION => MSG_AUTHORIZATION
  | USER_DISCONNECTING => MSG_USER_DISCONNECTING
  | USER_CONNECTING => MSG_USER_CONNECTING
  end.

Definition is_association_type (t : Z) : bool :=
  (t =? MSG_ASSOCIATION) || (t =? MSG_DISASSOCIATION) || (t =? MSG_REASSOCIATION) ||
  (t =? MSG_AUTHORIZATION) || (t =? MSG_USER_DISCONNECTING) || (t =? MSG_USER_CONNECTING).

Definition send_msg_association_process (junk_response : Z) (hostname : charp)
    (portnum id : Z) (mac_ap mac_sta : charp) (state : type_association) :
    ST W (option msg_association_process * Z) :=
  if negb (nonnull mac_sta) || negb (nonnull mac_ap) then mret (None, id) else
  with_ssl hostname portnum (None, id) (
    id' ← lift (incr_int id);
    version ← lift (copy_string ETHANOL_VERSION);
    ap ← lift (copy_string mac_ap);
    sta ← lift (copy_string mac_sta);
    h1 ← exchange (Msg (Header (association_type state) id version 0) ap sta false
                       junk_response) is_association_type;
    mret (h1, id')).

(** The stand-alone server accepts every association. *)
Definition process_msg_association_process (input : list cell) : ST W (option (list cell)) :=
  h ← lift (decode_msg_association_process input);
  '(_, output) ← lift (encode_msg_association_process (Msg (hd h) (mac_ap h) (mac_sta h) true 0));
  mret (Some output).
End agent.

End Association.

Module Disconnect.

(** [struct msg_disconnect_user] (msg_disconnect_user.h): the common header, then
    its own fields. *)
Record msg_disconnect_user := Msg {
  hd : msg_header;
  mac_sta : charp
}.

Definition resize (h : msg_disconnect_user) (n : Z) : msg_disconnect_user :=
  Msg (set_m_size (hd h) n) (mac_sta h).

Section codec.
Context `{Allocator}.

Definition message_size_disconnect_user (h : msg_disconnect_user) : res Z :=
  v ← strlen_ethanol (p_version (hd h));
  n1 ← strlen_ethanol (mac_sta h);
  Ok (to_u64 (v + 4 + 4 + 4 + n1)).

Definition encode_msg_disconnect_user : msg_disconnect_user → res (msg_disconnect_user * list cell) :=
  encode_with message_size_disconnect_user resize (λ h,
    encode_header (m_type (hd h)) (m_id (hd h)) (m_size (hd h));;
    encode_char (mac_sta h)).

Definition decode_msg_disconnect_user : list cell → res msg_disconnect_user := decode_buffer (
  hd ← decode_header;
  mac_sta ← decode_char;
  mret (Msg hd mac_sta)).

Definition wf (h : msg_disconnect_user) : bool :=
  header_ok (hd h) && strs_ok [p_version (hd h); mac_sta h].

Definition normal (h : msg_disconnect_user) : msg_disconnect_user :=
  Msg (normal_header (hd h)) (canon (mac_sta h)).

#[global] Instance msg_disconnect_user_message : Message msg_disconnect_user := {|
  msg_head := hd; msg_resize := resize; msg_size := message_size_disconnect_user;
  msg_encode := encode_msg_disconnect_user; msg_decode := decode_msg_disconnect_user;
  msg_normal := normal; msg_wf := wf
|}.

#[global] Instance msg_disconnect_user_ok : MessageOk msg_disconnect_user.
Proof. solve_codec wf message_size_disconnect_user. Qed.
End codec.

Section agent.
Context {W : Type} `{Net W, Device W, Build, Allocator}.

Definition send_msg_disconnect_user (hostname : charp) (portnum id : Z) (mac_sta : charp) :
    ST W Z :=
  with_ssl hostname portnum id (
    id' ← lift (incr_int id);
    version ← lift (copy_string ETHANOL_VERSION);
    mac ← lift (copy_string mac_sta);
    notify (Msg (Header MSG_DISCONNECT_USER id version 0) mac);;
    mret id').

(** The disconnection itself is a TODO of the source: the request is echoed. *)
Definition process_msg_disconnect_user (input : list cell) : ST W (option (list cell)) :=
  h ← lift (decode_msg_disconnect_user input);
  '(_, output) ← lift (encode_msg_disconnect_user h);
  mret (Some output).
End agent.

End Disconnect.

Module Deauthenticate.

(** [struct msg_deauthenticate_user] (msg_deauthenticate_user.h): the common header, then
    its own fields. *)
Record msg_deauthenticate_user := Msg {
  hd : msg_header;
  mac_sta : charp
}.

Definition resize (h : msg_deauthenticate_user) (n : Z) : msg_deauthenticate_user :=
  Msg (set_m_size (hd h) n) (mac_sta h).

Section codec.
Context `{Allocator}.

Definition message_size_deauthenticate_user (h : msg_deauthenticate_user) : res Z :=
  v ← strlen_ethanol (p_version (hd h));
  n1 ← strlen_ethanol (mac_sta h);
  Ok (to_u64 (v + 4 + 4 + 4 + n1)).

Definition encode_msg_deauthenticate_user : msg_deauthenticate_user → res (msg_deauthenticate_user * list cell) :=
  encode_with message_size_deauthenticate_user resize (λ h,
    encode_header (m_type (hd h)) (m_id (hd h)) (m_size (hd h));;
    encode_char (mac_sta h)).

Definition decode_msg_deauthenticate_user : list cell → res msg_deauthenticate_user := decode_buffer (
  hd ← decode_header;
  mac_sta ← decode_char;
  mret (Msg hd mac_sta)).

Definition wf (h : msg_deauthenticate_user) : bool :=
  header_ok (hd h) && strs_ok [p_version (hd h); mac_sta h].

Definition normal (h : msg_deauthenticate_user) : msg_deauthenticate_user :=
  Msg (normal_header (hd h)) (canon (mac_sta h)).

#[global] Instance msg_deauthenticate_user_message : Message msg_deauthenticate_user := {|
  msg_head := hd; msg_resize := resize; msg_size := message_size_deauthenticate_user;
  msg_encode := encode_msg_deauthenticate_user; msg_decode := decode_msg_deauthenticate_user;
  msg_normal := normal; msg_wf := wf
|}.

#[global] Instance msg_deauthenticate_user_ok : MessageOk msg_deauthenticate_user.
Proof. solve_codec wf message_size_deauthenticate_user. Qed.
End codec.

Section agent.
Context {W : Type} `{Net W, Device W, Build, Allocator}.

(** The size is computed before [h.mac_sta] is assigned; the copy that follows
    allocates [strlen(mac_sta) + 1] bytes. *)
Definition send_msg_deauthenticate_user (junk_mac : charp) (hostname : charp)
    (portnum id : Z) (mac_sta : charp) : ST W Z :=
  with_ssl hostname portnum id (
    id' ← lift (incr_int id);
    version ← lift (copy_string ETHANOL_VERSION);
    let hd := Header MSG_DEAUTHENTICATE_USER id version 0 in
    n ← lift (message_size_deauthenticate_user (Msg hd junk_mac));
    mac ← (if nonnull mac_sta
           then k ← lift (strlen mac_sta); lift (malloc_strcpy (k + 1) mac_sta)
           else mret None);
    notify_nosize (Msg (set_m_size hd (to_i32 n)) mac);;
    mret id').

Definition process_msg_deauthenticate_user (input : list cell) : ST W (option (list cell)) :=
  h ← lift (decode_msg_deauthenticate_user input);
  '(_, output) ← lift (encode_msg_deauthenticate_user h);
  mret (Some output).
End agent.

End Deauthenticate.

Module ChangedAp.

(** [struct msg_changed_ap] (msg_changed_ap.h): the common header, then
    its own fields. *)
Record msg_changed_ap := Msg {
  hd : msg_header;
  intf_name : charp;
  current_ap : charp;
  status : Z
}.

Definition resize (h : msg_changed_ap) (n : Z) : msg_changed_ap :=
  Msg (set_m_size (hd h) n) (intf_name h) (current_ap h) (status h).

Section codec.
Context `{Allocator}.

Definition size_msg_changed_ap (h : msg_changed_ap) : res Z :=
  v ← strlen_ethanol (p_version (hd h));
  n1 ← strlen_ethanol (current_ap h);
  n2 ← strlen_ethanol (intf_name h);
  Ok (to_i32 (4 + 4 + v + 4 + 4 + n1 + n2)).

Definition encode_msg_changed_ap : msg_changed_ap → res (msg_changed_ap * list cell) :=
  encode_with size_msg_changed_ap resize (λ h,
    encode_header (m_type (hd h)) (m_id (hd h)) (m_size (hd h));;
    encode_char (intf_name h);;
    encode_char (current_ap h);;
    encode_int (status h)).

Definition decode_msg_changed_ap : list cell → res msg_changed_ap := decode_buffer (
  hd ← decode_header;
  intf_name ← decode_char;
  current_ap ← decode_char;
  status ← decode_int;
  mret (Msg hd intf_name current_ap status)).

Definition wf (h : msg_changed_ap) : bool :=
  header_ok (hd h) &&
  strs_ok [p_version (hd h); intf_name h; current_ap h] && i32_ok (status h).

Definition normal (h : msg_changed_ap) : msg_changed_ap :=
  Msg (normal_header (hd h)) (canon (intf_name h)) (canon (current_ap h))
  (status h).

#[global] Instance msg_changed_ap_message : Message msg_changed_ap := {|
  msg_head := hd; msg_resize := resize; msg_size := size_msg_changed_ap;
  msg_encode := encode_msg_changed_ap; msg_decode := decode_msg_changed_ap;
  msg_normal := normal; msg_wf := wf
|}.

#[global] Instance msg_changed_ap_ok : MessageOk msg_changed_ap.
Proof. solve_codec wf size_msg_changed_ap. Qed.
End codec.

Section agent.
Context {W : Type} `{Net W, Device W, Build, Allocator}.

Definition send_msg_changed_ap (hostname : charp) (portnum id status : Z)
    (current_ap intf_name : charp) : ST W Z :=
  with_ssl hostname portnum id (
    id' ← lift (incr_int id);
    ap ← lift (copy_string current_ap);
    intf ← lift (copy_string intf_name);
    notify (Msg (Header MSG_CHANGED_AP id ETHANOL_VERSION 0) intf ap status);;
    mret id').

(** The event is only logged and echoed. *)
Definition process_msg_changed_ap (input : list cell) : ST W (option (list cell)) :=
  h ← lift (decode_msg_changed_ap input);
  '(_, output) ← lift (encode_msg_changed_ap h);
  mret (Some output).
End agent.

End ChangedAp.

Module TriggerTransition.

(** [struct msg_station_trigger_transition] (msg_station_trigger_transition.h): the common header, then
    its own fields. *)
Record msg_station_trigger_transition := Msg {
  hd : msg_header;
  sta_ip : charp;
  sta_port : Z;
  mac_sta : charp;
  intf_name : charp;
  mac_new_ap : charp
}.

Definition resize (h : msg_station_trigger_transition) (n : Z) : msg_station_trigger_transition :=
  Msg (set_m_size (hd h) n) (sta_ip h) (sta_port h) (mac_sta h) (intf_name h)
  (mac_new_ap h).

Section codec.
Context `{Allocator}.

Definition size_msg_station_trigger_transition (h : msg_station_trigger_transition) : res Z :=
  v ← strlen_ethanol (p_version (hd h));
  n1 ← strlen_ethanol (sta_ip h);
  n2 ← strlen_ethanol (mac_sta h);
  n3 ← strlen_ethanol (intf_name h);
  n4 ← strlen_ethanol (mac_new_ap h);
  Ok (to_u64 (v + 4 + 4 + 4 + n1 + 4 + n2 + n3 + n4)).

Definition encode_msg_station_trigger_transition : msg_station_trigger_transition → res (msg_station_trigger_transition * list cell) :=
  encode_with size_msg_station_trigger_transition resize (λ h,
    encode_header (m_type (hd h)) (m_id (hd h)) (m_size (hd h));;
    encode_char (sta_ip h);;
    encode_int (sta_port h);;
    encode_char (mac_sta h);;
    encode_char (intf_name h);;
    encode_char (mac_new_ap h)).

Definition decode_msg_station_trigger_transition : list cell → res msg_station_trigger_transition := decode_buffer (
  hd ← decode_header;
  sta_ip ← decode_char;
  sta_port ← decode_int;
  mac_sta ← decode_char;
  intf_name ← decode_char;
  mac_new_ap ← decode_char;
  mret (Msg hd sta_ip sta_port mac_sta intf_name mac_new_ap)).

Definition wf (h : msg_station_trigger_transition) : bool :=
  header_ok (hd h) &&
  strs_ok [p_version (hd h); sta_ip h; mac_sta h; intf_name h; mac_new_ap h] &&
  i32_ok (sta_port h).

Definition normal (h : msg_station_trigger_transition) : msg_station_trigger_transition :=
  Msg (normal_header (hd h)) (canon (sta_ip h)) (sta_port h)
  (canon (mac_sta h)) (canon (intf_name h)) (canon (mac_new_ap h)).

#[global] Instance msg_station_trigger_transition_message : Message msg_station_trigger_transition := {|
  msg_head := hd; msg_resize := resize; msg_size := size_msg_station_trigger_transition;
  msg_encode := encode_msg_station_trigger_transition; msg_decode := decode_msg_station_trigger_transition;
  msg_normal := normal; msg_wf := wf
|}.

#[global] Instance msg_station_trigger_transition_ok : MessageOk msg_station_trigger_transition.
Proof. solve_codec wf size_msg_station_trigger_transition. Qed.
End codec.

Section agent.
Context {W : Type} `{Net W, Device W, Build, Allocator}.

Definition send_msg_station_trigger_transition (hostname : charp) (port_num id : Z)
    (sta_ip : charp) (sta_port : Z) (mac_sta intf_name mac_new_ap : charp) : ST W Z :=
  with_ssl hostname port_num id (
    id' ← lift (incr_int id);
    version ← lift (copy_string ETHANOL_VERSION);
    ip ← lift (copy_string sta_ip);
    mac ← lift (copy_string mac_sta);
    intf ← lift (copy_string intf_name);
    ap ← lift (copy_string mac_new_ap);
    notify (Msg (Header MSG_TRIGGER_TRANSITION id version 0) ip sta_port mac intf ap);;
    mret id').

(** The station roams by itself; nothing is relayed or answered. *)
Definition process_msg_station_trigger_transition (input : list cell) :
    ST W (option (list cell)) :=
  h ← lift (decode_msg_station_trigger_transition input);
  roam_change_ap (intf_name h) (mac_new_ap h);;
  mret None.
End agent.

End TriggerTransition.
