(* ===== verification/MsgSession.v ===== *)
(** Session messages: [msg_error.c], [msg_hello.c], [msg_bye.c] and
    [msg_ping.c], with [timeval_subtract] of [msg_common.c]. *)
From stdpp Require Import prelude list strings.
From Stdlib Require Import SpecFloat.
From S2P Require Import Prelude CMem MsgCommon BufferHandler CFloat World Rpc.

(** The callbacks [p_hello_event] and [p_bye_event]; NULL until set. *)
Class Events (W : Type) := {
  p_hello_event : option (Z → charp → Z → ST W Z);
  p_bye_event : option (charp → Z → ST W Z)
}.

(** [timeval_subtract]: the difference of two times in milliseconds, as the
    bit pattern of a [float]; the microseconds are computed in [long]. *)
Definition timeval_subtract (final inicio : Z * Z) : res Z :=
  let us t := t.2 + 1000000 * t.1 in
  ensure (i64_ok (us final) && i64_ok (us inicio) && i64_ok (us final - us inicio))
    SignedOverflow;;
  Ok (f32_bits (f32_div (f32_of_Z (us final - us inicio)) (f32_of_Z 1000))).

(** ** msg_error.c *)

(** The reply to an unknown message or version. *)
Definition return_error_msg_struct `{Allocator} (msg_type : Z)
    (error_type : Enum_msg_error_type) (m_id : Z) : res (list cell) :=
  p_version_len ← strlen ETHANOL_VERSION;
  let buf_len := to_i32 (4 + (p_version_len + 1) + 4 + 4 + 4 + 4) in
  fill_buffer buf_len (
    encode_int MSG_ERR_TYPE;;
    encode_int m_id;;
    encode_char ETHANOL_VERSION;;
    encode_int buf_len;;
    encode_int (error_code error_type)).

(** What the receiver of an error reply can decode from it. *)
Definition decode_error : decoder (msg_header * Z) :=
  hd ← decode_header; e ← decode_int; mret (hd, e).

Definition ERROR_SIZE : Z := 26.

(** The bytes of an error reply. *)
Definition wire_error (e : Enum_msg_error_type) (m_id : Z) : list cell :=
  wire_header MSG_ERR_TYPE m_id ERROR_SIZE ++ cells (le 4 (error_code e)).

Lemma error_reply `{Allocator} t e i : return_error_msg_struct t e i = Ok (wire_error e i).
Proof.
  unfold return_error_msg_struct. cbn [strlen ETHANOL_VERSION].
  change (strlen ETHANOL_VERSION) with (@Ok Z 5). cbn [mbind res_bind]. cbv zeta.
  change (to_i32 (4 + (5 + 1) + 4 + 4 + 4 + 4)) with ERROR_SIZE.
  assert (length (wire_error e i) = 26%nat) as L.
  { unfold wire_error. rewrite length_app, length_wire_header, length_cells.
    apply Nat2Z.inj. rewrite Nat2Z.inj_add, length_le by lia. done. }
  erewrite (fill_buffer_ok ERROR_SIZE _ (wire_error e i)).
  - rewrite L. cbn. by rewrite app_nil_r.
  - unfold wire_error, wire_header. rewrite <- !app_assoc. solve_writes.
    by apply (writes_char ETHANOL_VERSION).
  - rewrite L. done.
Qed.

Lemma error_code_i32 e : i32_ok (error_code e) = true.
Proof. by destruct e. Qed.

Lemma error_decode e i : i32_ok i = true →
  decode_buffer decode_error (wire_error e i) =
    Ok (Header MSG_ERR_TYPE i ETHANOL_VERSION ERROR_SIZE, error_code e).
Proof.
  intros Hi. unfold decode_buffer, decode_error.
  pose proof (reads_header MSG_ERR_TYPE i ERROR_SIZE eq_refl Hi eq_refl) as Hh.
  unfold wire_error. rewrite (st_bind_Ok _ _ _ _ _ (Hh _)).
  pose proof (reads_int _ (error_code_i32 e) []) as Hc. rewrite app_nil_r in Hc.
  by rewrite (st_bind_Ok _ _ _ _ _ Hc).
Qed.

(** A client that expects a reply of another type returns NULL. *)
Lemma error_reply_of {T} `{Message T} accept e i :
  accept (msg_code MSG_ERR_TYPE) = false → reply_of accept (wire_error e i) = Ok None.
Proof.
  intros Ha. unfold reply_of, wire_error. rewrite header_type by done. cbn [mbind res_bind]. by rewrite Ha.
Qed.

Module Hello.

(** [struct msg_hello] (msg_hello.h): the common header, then
    its own fields. *)
Record msg_hello := Msg {
  hd : msg_header;
  device_type : Z;
  tcp_port : Z;
  rtt : Z
}.

Definition resize (h : msg_hello) (n : Z) : msg_hello :=
  Msg (set_m_size (hd h) n) (device_type h) (tcp_port h) (rtt h).
Definition set_rtt (h : msg_hello) (x : Z) : msg_hello :=
  Msg (hd h) (device_type h) (tcp_port h) x.

Section codec.
Context `{Allocator}.

Definition message_size_hello (h : msg_hello) : res Z :=
  v ← strlen_ethanol (p_version (hd h));
  Ok (to_i32 (4 + 4 + v + 4 + 4 + 4 + 4)).

Definition encode_msg_hello : msg_hello → res (msg_hello * list cell) :=
  encode_with message_size_hello resize (λ h,
    encode_header (m_type (hd h)) (m_id (hd h)) (m_size (hd h));;
    encode_int (device_type h);;
    encode_int (tcp_port h);;
    encode_float (rtt h)).

Definition decode_msg_hello : list cell → res msg_hello := decode_buffer (
  hd ← decode_header;
  device_type ← decode_int;
  tcp_port ← decode_int;
  rtt ← decode_float;
  mret (Msg hd device_type tcp_port rtt)).

Definition wf (h : msg_hello) : bool :=
  header_ok (hd h) && strs_ok [p_version (hd h)] && i32_ok (device_type h) &&
  i32_ok (tcp_port h) && u32_ok (rtt h).

Definition normal (h : msg_hello) : msg_hello :=
  Msg (normal_header (hd h)) (device_type h) (tcp_port h) (rtt h).

#[global] Instance msg_hello_message : Message msg_hello := {|
  msg_head := hd; msg_resize := resize; msg_size := message_size_hello;
  msg_encode := encode_msg_hello; msg_decode := decode_msg_hello;
  msg_normal := normal; msg_wf := wf
|}.

#[global] Instance msg_hello_ok : MessageOk msg_hello.
Proof. solve_codec wf message_size_hello. Qed.
End codec.

Section agent.
Context {W : Type} `{Net W, Device W, Build, Allocator}.
Context `{Events W}.

(** The reply is the request itself; the registered event, if any, is called
    with the decoded fields. *)
Definition process_msg_hello (hostname : charp) (input : list cell) : ST W (option (list cell)) :=
  h ← lift (decode_msg_hello input);
  match p_hello_event with
  | Some f => f (device_type h) hostname (tcp_port h);; mret tt
  | None => mret tt
  end;;
  mret (Some input).

Definition send_msg_hello (hostname : charp) (portnum id local_portnum : Z) :
    ST W (option msg_hello * Z) :=
  with_ssl hostname portnum (None, id) (
    id' ← lift (incr_int id);
    version ← lift (copy_string ETHANOL_VERSION);
    let h := Msg (Header MSG_HELLO_TYPE id version 0)
                 (if process_station then 2 else 1) local_portnum 0 in
    n ← lift (message_size_hello h);
    '(_, buffer) ← lift (encode_msg_hello (resize h (to_i32 n)));
    begin ← gettimeofday;
    net_ssl_write buffer;;
    buf ← ssl_read SSL_BUFFER_SIZE;
    end_ ← gettimeofday;
    t ← lift (return_message_type buf);
    if t =? MSG_HELLO_TYPE then
      h1 ← lift (decode_msg_hello buf);
      r ← lift (timeval_subtract end_ begin);
      mret (Some (set_rtt h1 r), id')
    else mret (None, id')).
End agent.

End Hello.

Module Bye.

(** [struct msg_bye] (msg_bye.h): the common header, then
    its own fields. *)
Record msg_bye := Msg {
  hd : msg_header;
  tcp_port : Z
}.

Definition resize (h : msg_bye) (n : Z) : msg_bye :=
  Msg (set_m_size (hd h) n) (tcp_port h).

Section codec.
Context `{Allocator}.

Definition message_size_bye (h : msg_bye) : res Z :=
  v ← strlen_ethanol (p_version (hd h));
  Ok (to_i32 (4 + 4 + v + 4 + 4)).

Definition encode_msg_bye : msg_bye → res (msg_bye * list cell) :=
  encode_with message_size_bye resize (λ h,
    encode_header (m_type (hd h)) (m_id (hd h)) (m_size (hd h));;
    encode_int (tcp_port h)).

Definition decode_msg_bye : list cell → res msg_bye := decode_buffer (
  hd ← decode_header;
  tcp_port ← decode_int;
  mret (Msg hd tcp_port)).

Definition wf (h : msg_bye) : bool :=
  header_ok (hd h) && strs_ok [p_version (hd h)] && i32_ok (tcp_port h).

Definition normal (h : msg_bye) : msg_bye :=
  Msg (normal_header (hd h)) (tcp_port h).

#[global] Instance msg_bye_message : Message msg_bye := {|
  msg_head := hd; msg_resize := resize; msg_size := message_size_bye;
  msg_encode := encode_msg_bye; msg_decode := decode_msg_bye;
  msg_normal := normal; msg_wf := wf
|}.

#[global] Instance msg_bye_ok : MessageOk msg_bye.
Proof. solve_codec wf message_size_bye. Qed.
End codec.

Section agent.
Context {W : Type} `{Net W, Device W, Build, Allocator}.
Context `{Events W}.

(** [*output] is set to NULL first, and the message is then decoded from
    [*output]. *)
Definition process_msg_bye (hostname : charp) (input : list cell) : ST W (option (list cell)) :=
  let output : option (list cell) := None in
  buf ← lift (deref output);
  h ← lift (decode_msg_bye buf);
  match p_bye_event with
  | Some f => f hostname (tcp_port h);; mret tt
  | None => mret tt
  end;;
  mret output.

Definition send_msg_bye (hostname : charp) (portnum id local_portnum : Z) : ST W Z :=
  with_ssl hostname portnum id (
    id' ← lift (incr_int id);
    version ← lift (copy_string ETHANOL_VERSION);
    notify (Msg (Header MSG_BYE_TYPE id version 0) local_portnum);;
    mret id').
End agent.

End Bye.

(** ** msg_ping.c: payload *)

Definition BYTE_INICIAL : Z := 48.

(** [(char) (BYTE_INICIAL + i) % 128], as a signed [char]. *)
Definition ping_char (i : Z) : Z := Z.rem (to_s 8 (BYTE_INICIAL + i)) 128.

(** [generate_ping_data]: [p_size - 1] characters and a NUL.  With
    [p_size == 0] the loop runs past the block; [BYTE_INICIAL + i] is an [int],
    which overflows in the last turns for sizes above [2^31 - 47]. *)
Definition generate_ping_data (p_size : Z) : res charp :=
  ensure (1 <=? p_size) HeapOverflow;;
  ensure (i32_ok (BYTE_INICIAL + (p_size - 2))) SignedOverflow;;
  Ok (Some (cells (((λ i, to_u 8 (ping_char (Z.of_nat i))) <$> seq 0 (Z.to_nat (p_size - 1))) ++ [0]))).

(** The loop of [verify_data] with [n] iterations left, at index [i]. *)
Fixpoint verify_cells (l : list cell) (n i : Z) : res bool :=
  if n <=? 0 then Ok true else
  match l with
  | [] => Err ReadOutOfBounds
  | None :: _ => Err ReadIndeterminate
  | Some c :: l' =>
      if to_s 8 c =? ping_char i then verify_cells l' (n - 1) (i + 1) else Ok false
  end.
Definition verify_data (data : charp) (p_size : Z) : res bool :=
  l ← deref data; verify_cells l (to_u32 (p_size - 1)) 0.

Module Ping.

(** [struct msg_ping] (msg_ping.h): the common header, then
    its own fields. *)
Record msg_ping := Msg {
  hd : msg_header;
  data : charp
}.

Definition resize (h : msg_ping) (n : Z) : msg_ping :=
  Msg (set_m_size (hd h) n) (data h).
Definition with_id (h : msg_ping) (i : Z) : msg_ping :=
  Msg (set_m_id (hd h) i) (data h).

Section codec.
Context `{Allocator}.

Definition message_size_ping (h : msg_ping) : res Z :=
  v ← strlen_ethanol (p_version (hd h));
  n1 ← strlen_ethanol (data h);
  Ok (to_i32 (4 + 4 + v + 4 + n1)).

Definition encode_msg_ping : msg_ping → res (msg_ping * list cell) :=
  encode_with message_size_ping resize (λ h,
    encode_header (m_type (hd h)) (m_id (hd h)) (m_size (hd h));;
    encode_char (data h)).

Definition decode_msg_ping : list cell → res msg_ping := decode_buffer (
  hd ← decode_header;
  data ← decode_char;
  mret (Msg hd data)).

Definition wf (h : msg_ping) : bool :=
  header_ok (hd h) && strs_ok [p_version (hd h); data h].

Definition normal (h : msg_ping) : msg_ping :=
  Msg (normal_header (hd h)) (canon (data h)).

#[global] Instance msg_ping_message : Message msg_ping := {|
  msg_head := hd; msg_resize := resize; msg_size := message_size_ping;
  msg_encode := encode_msg_ping; msg_decode := decode_msg_ping;
  msg_normal := normal; msg_wf := wf
|}.

#[global] Instance msg_ping_ok : MessageOk msg_ping.
Proof. solve_codec wf message_size_ping. Qed.
End codec.

End Ping.

Module Pong.

(** [struct msg_pong] (msg_ping.h): the common header, then
    its own fields. *)
Record msg_pong := Msg {
  hd : msg_header;
  rtt : Z;
  verify_data : bool
}.

Definition resize (h : msg_pong) (n : Z) : msg_pong :=
  Msg (set_m_size (hd h) n) (rtt h) (verify_data h).
Definition set_rtt (h : msg_pong) (x : Z) : msg_pong :=
  Msg (hd h) x (verify_data h).

Section codec.
Context `{Allocator}.

Definition message_size_pong (h : msg_pong) : res Z :=
  v ← strlen_ethanol (p_version (hd h));
  Ok (to_i32 (4 + 4 + v + 4 + 4 + bool_len_ethanol)).

Definition encode_msg_pong : msg_pong → res (msg_pong * list cell) :=
  encode_with message_size_pong resize (λ h,
    encode_header (m_type (hd h)) (m_id (hd h)) (m_size (hd h));;
    encode_float (rtt h);;
    encode_bool (verify_data h)).

Definition decode_msg_pong : list cell → res msg_pong := decode_buffer (
  hd ← decode_header;
  rtt ← decode_float;
  verify_data ← decode_bool;
  mret (Msg hd rtt verify_data)).

Definition wf (h : msg_pong) : bool :=
  header_ok (hd h) && strs_ok [p_version (hd h)] && u32_ok (rtt h).

Definition normal (h : msg_pong) : msg_pong :=
  Msg (normal_header (hd h)) (rtt h) (verify_data h).

#[global] Instance msg_pong_message : Message msg_pong := {|
  msg_head := hd; msg_resize := resize; msg_size := message_size_pong;
  msg_encode := encode_msg_pong; msg_decode := decode_msg_pong;
  msg_normal := normal; msg_wf := wf
|}.

#[global] Instance msg_pong_ok : MessageOk msg_pong.
Proof. solve_codec wf message_size_pong. Qed.
End codec.

End Pong.

Section ping.
Context {W : Type} `{Net W, Device W, Build, Allocator}.

(** [strlen(ping->data)] is an argument of [verify_data]. *)
Definition process_msg_ping (input : list cell) : ST W (option (list cell)) :=
  ping ← lift (Ping.decode_msg_ping input);
  n ← lift (strlen (Ping.data ping));
  v ← lift (verify_data (Ping.data ping) (to_u32 n));
  let pong := Pong.Msg (Header MSG_PONG (m_id (Ping.hd ping)) ETHANOL_VERSION 0) 0 v in
  size ← lift (Pong.message_size_pong pong);
  '(_, output) ← lift (Pong.encode_msg_pong (Pong.resize pong size));
  mret (Some output).

(** One iteration of [send_msg_ping]: [None] is an entry of [resp->r] left
    unassigned because there was no connection. *)
Definition ping_once (hostname : charp) (portnum : Z) (ping : Ping.msg_ping) :
    ST W (option (option Pong.msg_pong)) :=
  with_ssl hostname portnum None (
    '(_, buffer) ← lift (Ping.encode_msg_ping ping);
    begin ← gettimeofday;
    net_ssl_write buffer;;
    buf ← ssl_read SSL_BUFFER_SIZE;
    end_ ← gettimeofday;
    t ← lift (return_message_type buf);
    if t =? MSG_PONG then
      r ← lift (Pong.decode_msg_pong buf);
      x ← lift (timeval_subtract end_ begin);
      mret (Some (Some (Pong.set_rtt r x)))
    else mret (Some None)).

(** The [num_tries] iterations; the identifier is incremented after each. *)
Fixpoint ping_loop (hostname : charp) (portnum : Z) (num_tries : nat)
    (ping : Ping.msg_ping) : ST W (list (option (option Pong.msg_pong)) * Z) :=
  match num_tries with
  | O => mret ([], m_id (Ping.hd ping))
  | S k =>
      r ← ping_once hostname portnum ping;
      id' ← lift (incr_int (m_id (Ping.hd ping)));
      '(rs, id'') ← ping_loop hostname portnum k (Ping.with_id ping id');
      mret (r :: rs, id'')
  end.

Definition send_msg_ping (hostname : charp) (portnum id num_tries p_size : Z) :
    ST W (list (option (option Pong.msg_pong)) * Z) :=
  data ← lift (generate_ping_data p_size);
  let ping := Ping.Msg (Header MSG_PING id ETHANOL_VERSION 0) data in
  size ← lift (Ping.message_size_ping ping);
  ping_loop hostname portnum (Z.to_nat num_tries) (Ping.resize ping size).
End ping.

(** ** The payload of a ping *)

Definition ping_bytes (n : nat) : list Z := (λ i, to_u 8 (ping_char (Z.of_nat i))) <$> seq 0 n.

(** The index at which [(char) (48 + i) % 128] is first 0. *)
Definition PING_CAP : nat := 80.

Lemma ping_bytes_take n m : (n ≤ m)%nat → ping_bytes n = take n (ping_bytes m).
Proof.
  intros Hnm. unfold ping_bytes. rewrite <- fmap_take. f_equal.
  replace m with (n + (m - n))%nat by lia. rewrite seq_app, take_app_length'; [done|].
  by rewrite length_seq.
Qed.

Lemma ping_bytes_char n : (n ≤ PING_CAP)%nat → forallb is_char (ping_bytes n) = true.
Proof.
  intros Hn. rewrite (ping_bytes_take n PING_CAP Hn).
  assert (forallb is_char (ping_bytes PING_CAP) = true) as H by (vm_compute; done).
  rewrite <- (take_drop n (ping_bytes PING_CAP)), forallb_app in H. by split_andb.
Qed.

Lemma length_ping_bytes n : length (ping_bytes n) = n.
Proof. unfold ping_bytes. by rewrite length_fmap, length_seq. Qed.

Lemma ping_bytes_cap n : (PING_CAP < n)%nat → ∃ rest, ping_bytes n = ping_bytes PING_CAP ++ 0 :: rest.
Proof.
  intros Hn. unfold ping_bytes.
  replace n with (PING_CAP + S (n - PING_CAP - 1))%nat by lia.
  rewrite seq_app, fmap_app. by eexists.
Qed.

Lemma ping_data_bound p data : generate_ping_data p = Ok data → 1 ≤ p ≤ 2 ^ 31 - 47.
Proof.
  unfold generate_ping_data, ensure. destruct (Z.leb_spec 1 p); [|done]. cbn [mbind res_bind].
  destruct (i32_ok _) eqn:E; [|done]. unfold BYTE_INICIAL in E. intros _. in_range.
Qed.

(** The string a ping carries. *)
Lemma ping_data_text p : 1 ≤ p ≤ 2 ^ 31 - 47 → ∃ data, generate_ping_data p = Ok data ∧
  chars data = Ok (ping_bytes (Nat.min (Z.to_nat (p - 1)) PING_CAP)).
Proof.
  intros Hp. unfold generate_ping_data. rewrite (proj2 (Z.leb_le 1 p)) by lia.
  rewrite (ensure_Ok (i32_ok _)) by (unfold BYTE_INICIAL; in_range). cbn [ensure mbind res_bind]. eexists. split; [done|]. unfold chars. cbn [deref mbind res_bind].
  fold (ping_bytes (Z.to_nat (p - 1))). set (n := Z.to_nat (p - 1)).
  destruct (decide (n ≤ PING_CAP)%nat).
  - rewrite Nat.min_l by done. rewrite cells_app.
    apply chars_of_cells, is_char_nonzero, ping_bytes_char; lia.
  - rewrite Nat.min_r by lia. destruct (ping_bytes_cap n ltac:(lia)) as [rest ->].
    rewrite <- app_assoc, cells_app, <- app_comm_cons, cells_cons.
    by apply chars_of_cells, is_char_nonzero, ping_bytes_char.
Qed.

Lemma ping_char_range i : s_ok 8 (ping_char i) = true.
Proof.
  unfold ping_char, s_ok. pose proof (Z.rem_bound_abs (to_s 8 (BYTE_INICIAL + i)) 128).
  split_andb; to_prop; lia.
Qed.

(** The check accepts what the generator produces. *)
Lemma verify_ping n m k rest : (k + m ≤ n)%nat →
  verify_cells (cells (drop k (ping_bytes n)) ++ rest) (Z.of_nat m) (Z.of_nat k) = Ok true.
Proof.
  revert k. induction m as [|m IH]; intros k Hk.
  { destruct (cells (drop k (ping_bytes n)) ++ rest); done. }
  assert (ping_bytes n !! k = Some (to_u 8 (ping_char (Z.of_nat k)))) as E.
  { unfold ping_bytes. rewrite list_lookup_fmap, lookup_seq_lt by lia. done. }
  rewrite (drop_S _ _ _ E), cells_cons. cbn [app verify_cells].
  destruct (Z.leb_spec (Z.of_nat (S m)) 0); [lia|].
  rewrite to_s_to_u, to_s_id, Z.eqb_refl by (lia || apply ping_char_range).
  replace (Z.of_nat (S m) - 1) with (Z.of_nat m) by lia.
  replace (Z.of_nat k + 1) with (Z.of_nat (S k)) by lia. apply IH. lia.
Qed.

Section ping_correct.
Context {W : Type} `{Allocator}.

Definition ping_request (id : Z) (data : charp) : Ping.msg_ping :=
  Ping.Msg (Header MSG_PING id ETHANOL_VERSION 0) data.
Definition pong_reply (id : Z) (v : bool) : Pong.msg_pong :=
  Pong.Msg (Header MSG_PONG id ETHANOL_VERSION 0) 0 v.

Lemma pong_wf id v : i32_ok id = true → msg_wf (pong_reply id v) = true.
Proof. intros Hid. cbn. unfold Pong.wf, header_ok. cbn. by rewrite Hid. Qed.

Lemma ping_wf id data s : i32_ok id = true → chars data = Ok s → forallb is_char s = true →
  Z.of_nat (length s) < 2 ^ 29 →
  msg_wf (ping_request id data) = true ∧ text data = s ∧
  ∃ n, received (ping_request id data) = Ping.Msg (Header MSG_PING id ETHANOL_VERSION n) (norm s).
Proof.
  intros Hid Hc Hs Hl.
  assert (cstr_ok data = true ∧ text data = s) as [Hok Ht].
  { destruct data as [l|]; [|done]. unfold chars in Hc. cbn in Hc.
    unfold cstr_ok, text. rewrite Hc, Hs. split; [|done]. simpl. to_prop. lia. }
  assert (msg_wf (ping_request id data) = true) as Hwf.
  { change (Ping.wf (ping_request id data) = true). unfold Ping.wf, ping_request.
    cbn [Ping.hd Ping.data p_version]. rewrite header_current by done.
    unfold strs_ok. cbn [forallb foldr andb]. rewrite Hok, Ht. cbn [andb].
    change (length (text ETHANOL_VERSION)) with 5%nat. split_andb; try done. to_prop. lia. }
  split_and!; [done..|]. destruct (encode_wf _ Hwf) as (n & Hs' & _).
  exists n. unfold received. rewrite Hs'. cbn. unfold Ping.normal, canon. cbn. by rewrite Ht.
Qed.

(** The handler on a request whose payload is the string [s]. *)
Lemma process_ping_reply id data s v w :
  i32_ok id = true → chars data = Ok s → forallb is_char s = true →
  Z.of_nat (length s) < 2 ^ 29 → s ≠ [] → verify_data (mk_str s) (Z.of_nat (length s)) = Ok v →
  process_msg_ping (W:=W) (wire_of (ping_request id data)) w =
    Ok (Some (wire_of (pong_reply id v)), w).
Proof.
  intros Hid Hc Hs Hl Hne Hv. destruct (ping_wf id data s Hid Hc Hs Hl) as (Hwf & _ & n & Hr).
  unfold process_msg_ping. pose proof (wire_received _ Hwf) as Hd. rewrite Hr in Hd.
  cbn [msg_decode Ping.msg_ping_message] in Hd. rewrite Hd.
  rewrite (st_bind_Ok _ _ w _ w eq_refl). cbn [Ping.data Ping.hd m_id].
  assert (norm s = mk_str s) as -> by (by destruct s).
  assert (strlen (mk_str s) = Ok (Z.of_nat (length s))) as ->.
  { pose proof (chars_of_mk s (is_char_nonzero s Hs)) as E. unfold strlen, chars, mk_str in *.
    cbn in *. rewrite strlen_chars, E. done. }
  rewrite (st_bind_Ok _ _ w _ w eq_refl). rewrite to_u_id by (lia || in_range). rewrite Hv.
  rewrite (st_bind_Ok _ _ w _ w eq_refl). cbv zeta.
  destruct (encode_wf _ (pong_wf id v Hid)) as (k & Hk & He & _ & Hb & _).
  fold (pong_reply id v). cbn [msg_size Pong.msg_pong_message] in Hk. rewrite Hk.
  rewrite (st_bind_Ok _ _ w _ w eq_refl). rewrite to_s_id in He by (lia || in_range).
  cbn [msg_encode msg_resize Pong.msg_pong_message] in He. by rewrite He.
Qed.
End ping_correct.

(** The handler on a payload made by [generate_ping_data]. *)
Lemma process_ping_generated `{Allocator} {W} (w : W) (id p_size : Z) (data : charp) :
  i32_ok id = true → 2 ≤ p_size → generate_ping_data p_size = Ok data →
  process_msg_ping (wire_of (ping_request id data)) w =
    Ok (Some (wire_of (pong_reply id true)), w).
Proof.
  intros Hid Hp Hg. destruct (ping_data_text p_size (ping_data_bound _ _ Hg)) as (d & Hg' & Hc).
  rewrite Hg in Hg'. injection Hg' as <-. set (n := Nat.min (Z.to_nat (p_size - 1)) PING_CAP) in *.
  assert (1 ≤ n ≤ 80)%nat as Hn by (unfold n, PING_CAP; lia).
  assert (forallb is_char (ping_bytes n) = true) as Hs by (apply ping_bytes_char; unfold PING_CAP; lia).
  eapply process_ping_reply; try done; rewrite ?length_ping_bytes; [lia| |].
  - intros E. pose proof (length_ping_bytes n) as L. rewrite E in L. simpl in L. lia.
  - unfold verify_data, mk_str. cbn [deref mbind res_bind].
    rewrite to_u_id by (lia || in_range). rewrite cells_app.
    replace (Z.of_nat n - 1) with (Z.of_nat (n - 1)) by lia.
    apply (verify_ping n (n - 1) 0). lia.
Qed.

(** Generated pings are well formed. *)
Lemma generated_ping_wf `{Allocator} id n p_size data :
  i32_ok id = true → 1 ≤ p_size → generate_ping_data p_size = Ok data →
  msg_wf (Ping.Msg (Header MSG_PING id ETHANOL_VERSION n) data) = true.
Proof.
  intros Hid Hp Hg. destruct (ping_data_text p_size (ping_data_bound _ _ Hg)) as (d & Hg' & Hc).
  rewrite Hg in Hg'. injection Hg' as <-.
  assert (∀ m, (Nat.min m PING_CAP ≤ 80)%nat) by (unfold PING_CAP; lia).
  apply (ping_wf id data _ Hid Hc); rewrite ?length_ping_bytes; [apply ping_bytes_char; unfold PING_CAP; lia|].
  specialize (H0 (Z.to_nat (p_size - 1))). lia.
Qed.

(** A generated ping fits one buffer of [servlet]. *)
Lemma ping_size `{Allocator} id n p_size data : 1 ≤ p_size → generate_ping_data p_size = Ok data →
  ∃ k, msg_size (Ping.Msg (Header MSG_PING id ETHANOL_VERSION n) data) = Ok k ∧ k ≤ 2048.
Proof.
  intros Hp Hg. destruct (ping_data_text p_size (ping_data_bound _ _ Hg)) as (d & Hg' & Hc).
  rewrite Hg in Hg'. injection Hg' as <-. set (m := Nat.min _ _) in Hc.
  assert (m ≤ 80)%nat by (unfold m, PING_CAP; lia).
  assert (forallb is_char (ping_bytes m) = true) as Hs by (apply ping_bytes_char; done).
  assert (cstr_ok data = true ∧ text data = ping_bytes m) as [Hok Ht].
  { destruct data as [l|]; [|done]. unfold chars in Hc. cbn in Hc.
    unfold cstr_ok, text. rewrite Hc, Hs, length_ping_bytes. split; [|done]. simpl. to_prop. lia. }
  exists (27 + Z.of_nat m). split.
  - change (Ping.message_size_ping (Ping.Msg (Header MSG_PING id ETHANOL_VERSION n) data) =
      Ok (27 + Z.of_nat m)).
    unfold Ping.message_size_ping. cbn [Ping.hd Ping.data p_version].
    rewrite (strlen_ethanol_ok ETHANOL_VERSION), strlen_ethanol_ok, Ht, length_ping_bytes by done.
    change (length (text ETHANOL_VERSION)) with 5%nat. cbn [mbind res_bind].
    rewrite to_s_id by (lia || in_range). f_equal. lia.
  - lia.
Qed.

(** ** Properties *)

(** The payload of a ping is a string of [p_size - 1] characters only up
    to 80 of them: the character at index 80 is NUL, so longer pings carry 80
    characters, and the payload is never longer. *)
Theorem ping_payload_cap (p_size : Z) : 1 ≤ p_size ≤ 2 ^ 31 - 47 → ∃ data,
  generate_ping_data p_size = Ok data ∧ strlen data = Ok (Z.min (p_size - 1) 80).
Proof.
  intros Hp. destruct (ping_data_text p_size Hp) as (data & Hg & Hc).
  exists data. split; [done|]. destruct data as [l|]; [|done].
  unfold strlen, chars in *. cbn [deref mbind res_bind] in *. rewrite strlen_chars, Hc. cbn.
  rewrite length_ping_bytes. f_equal. unfold PING_CAP. lia.
Qed.

Lemma ping_payload_cap_witness : 1 ≤ 1000 ∧ ∃ data,
  generate_ping_data 1000 = Ok data ∧ strlen data = Ok 80.
Proof. split; [lia|]. apply (ping_payload_cap 1000). lia. Defined.

(** The server answers a ping made by [generate_ping_data] with a pong
    that has the ping's identifier and reports the payload as intact, for
    every payload size from 2 on. *)
Theorem ping_verified `{Allocator} {W} (w : W) (id p_size : Z) (data : charp) :
  i32_ok id = true → 2 ≤ p_size → generate_ping_data p_size = Ok data →
  process_msg_ping (wire_of (ping_request id data)) w =
    Ok (Some (wire_of (pong_reply id true)), w).
Proof. apply process_ping_generated. Qed.

Lemma ping_verified_witness : ∃ data, generate_ping_data 56 = Ok data ∧
  @process_msg_ping unit glibc_alloc (@wire_of _ (@Ping.msg_ping_message glibc_alloc) (ping_request 3 data)) tt =
    Ok (Some (@wire_of _ (@Pong.msg_pong_message glibc_alloc) (pong_reply 3 true)), tt).
Proof.
  eexists. split; [reflexivity|].
  apply (@ping_verified glibc_alloc unit tt 3 56); [reflexivity|lia|reflexivity].
Defined.

(** A ping with an empty or NULL payload, such as [send_msg_ping] builds
    for [p_size == 1], makes the server read through a NULL pointer. *)
Theorem ping_empty_crash `{Allocator} {W} (w : W) (id : Z) (data : charp) :
  i32_ok id = true → data = None ∨ generate_ping_data 1 = Ok data →
  process_msg_ping (wire_of (ping_request id data)) w = Err NullDeref.
Proof.
  intros Hid Hd.
  assert (cstr_ok data = true ∧ text data = []) as [Hok Ht].
  { destruct Hd as [->|[= <-]]; done. }
  assert (msg_wf (ping_request id data) = true) as Hwf.
  { change (Ping.wf (ping_request id data) = true). unfold Ping.wf, ping_request.
    cbn [Ping.hd Ping.data p_version]. rewrite header_current by done.
    apply strs_ok_brief; [|simpl; lia]. cbn [forallb]. unfold brief at 2. by rewrite Hok, Ht. }
  unfold process_msg_ping. pose proof (wire_received _ Hwf) as Hr.
  cbn [msg_decode Ping.msg_ping_message] in Hr. rewrite Hr.
  rewrite (st_bind_Ok _ _ w _ w eq_refl).
  destruct (encode_wf _ Hwf) as (n & Hs & _). unfold received. rewrite Hs. cbn.
  unfold Ping.normal, canon. cbn. rewrite Ht. done.
Qed.

Lemma ping_empty_crash_witness :
  @process_msg_ping unit glibc_alloc (@wire_of _ (@Ping.msg_ping_message glibc_alloc) (ping_request 3 None)) tt =
    Err NullDeref.
Proof. apply (@ping_empty_crash glibc_alloc unit tt 3 None); [reflexivity|by left]. Defined.

(** An error reply is 26 bytes long; its receiver decodes from it the type
    [MSG_ERR_TYPE], the identifier of the request, the current version, its
    size and the error code; and a [send_] function that waits for any other
    type returns NULL on it. *)
Theorem error_reply_decodes `{Allocator} (t : Z) (e : Enum_msg_error_type) (i : Z) :
  i32_ok i = true → ∃ buf,
    return_error_msg_struct t e i = Ok buf ∧ length buf = 26%nat ∧
    decode_buffer decode_error buf =
      Ok (Header MSG_ERR_TYPE i ETHANOL_VERSION 26, error_code e) ∧
    ∀ accept, accept (msg_code MSG_ERR_TYPE) = false →
      reply_of (T:=Hello.msg_hello) accept buf = Ok None.
Proof.
  intros Hi. exists (wire_error e i).
  split_and!; [apply error_reply| |by apply error_decode|intros; by apply error_reply_of].
  unfold wire_error. rewrite length_app, length_wire_header, length_cells.
  apply Nat2Z.inj. rewrite Nat2Z.inj_add, length_le by lia. done.
Qed.

Lemma error_reply_decodes_witness : ∃ buf,
  @return_error_msg_struct exact_alloc 99 ERROR_UNKNOWN 12 = Ok buf ∧ length buf = 26%nat ∧
  decode_buffer decode_error buf = Ok (Header MSG_ERR_TYPE 12 ETHANOL_VERSION 26, error_code ERROR_UNKNOWN) ∧
  ∀ accept, accept (msg_code MSG_ERR_TYPE) = false →
    @reply_of _ (@Hello.msg_hello_message exact_alloc) accept buf = Ok None.
Proof. apply (@error_reply_decodes exact_alloc 99 ERROR_UNKNOWN 12). reflexivity. Defined.
