(* ===== verification/MsgLists.v ===== *)
(** Messages that carry arrays: [msg_mac.c] and [msg_acs.c]. *)
From stdpp Require Import prelude list strings.
From Stdlib Require Import SpecFloat.
From S2P Require Import Prelude CMem MsgCommon BufferHandler CFloat World Rpc.

Module Mac.

(** [struct interface_mac] and [struct msg_mac] (msg_mac.h); the array pointer
    is NULL or an array object. *)
Record interface_mac := Imac { wiphy : Z; intf_name : charp; mac_address : charp }.

Record msg_mac := Msg {
  hd : msg_header;
  n : Z;
  m : option (list interface_mac)
}.

Definition resize (h : msg_mac) (k : Z) : msg_mac := Msg (set_m_size (hd h) k) (n h) (m h).

Section codec.
Context `{Allocator}.

(** The entry [h->m[i]]. *)
Definition entry (m : option (list interface_mac)) (i : nat) : res interface_mac :=
  l ← deref m; index l i.

(** The loop over the entries, [k] iterations from index [i]. *)
Fixpoint entries_size (m : option (list interface_mac)) (k i : nat) : res Z :=
  match k with
  | O => Ok 0
  | S k' =>
      e ← entry m i;
      a ← strlen_ethanol (intf_name e);
      b ← strlen_ethanol (mac_address e);
      r ← entries_size m k' (S i);
      Ok (8 + a + b + r)
  end.

Definition message_size_mac (h : msg_mac) : res Z :=
  v ← strlen_ethanol (p_version (hd h));
  r ← entries_size (m h) (Z.to_nat (n h)) 0;
  Ok (to_u64 (4 + 4 + v + 4 + 4 + r)).

Definition encode_entry (e : interface_mac) : encoder :=
  encode_long (wiphy e);;
  encode_char (intf_name e);;
  encode_char (mac_address e).

Definition encode_msg_mac : msg_mac → res (msg_mac * list cell) :=
  encode_with message_size_mac resize (λ h,
    encode_header (m_type (hd h)) (m_id (hd h)) (m_size (hd h));;
    encode_uint (n h);;
    for_upto (n h) (λ i, e ← lift (entry (m h) i); encode_entry e)).

Definition decode_entry : decoder interface_mac :=
  wiphy ← decode_long;
  intf_name ← decode_char;
  mac_address ← decode_char;
  mret (Imac wiphy intf_name mac_address).

Definition decode_msg_mac : list cell → res msg_mac := decode_buffer (
  hd ← decode_header;
  n ← decode_uint;
  if n =? 0 then mret (Msg hd n None)
  else l ← collect (Z.to_nat n) decode_entry; mret (Msg hd n (Some l))).

(** ** Codec *)

Definition entry_ok (e : interface_mac) : bool :=
  i64_ok (wiphy e) && cstr_ok (intf_name e) && cstr_ok (mac_address e).
Definition entry_len (e : interface_mac) : Z :=
  18 + Z.of_nat (length (text (intf_name e))) + Z.of_nat (length (text (mac_address e))).
Definition entries_len (l : list interface_mac) : Z := foldr (λ e k, entry_len e + k) 0 l.

Definition wf (h : msg_mac) : bool :=
  header_ok (hd h) && strs_ok [p_version (hd h)] &&
  match m h with
  | None => n h =? 0
  | Some l => (n h =? Z.of_nat (length l)) && forallb entry_ok l && (entries_len l <? 2 ^ 29)
  end.

Definition normal_entry (e : interface_mac) : interface_mac :=
  Imac (wiphy e) (canon (intf_name e)) (canon (mac_address e)).
Definition normal (h : msg_mac) : msg_mac :=
  Msg (normal_header (hd h)) (n h)
    (if n h =? 0 then None else option_map (map normal_entry) (m h)).

#[global] Instance msg_mac_message : Message msg_mac := {|
  msg_head := hd; msg_resize := resize; msg_size := message_size_mac;
  msg_encode := encode_msg_mac; msg_decode := decode_msg_mac;
  msg_normal := normal; msg_wf := wf
|}.

Definition wire_entry (e : interface_mac) : list cell :=
  cells (le 8 (wiphy e)) ++ wire_str (text (intf_name e)) ++ wire_str (text (mac_address e)).

Lemma entries_len_cons e l : entries_len (e :: l) = entry_len e + entries_len l.
Proof. reflexivity. Qed.

Lemma entry_writes e : entry_ok e = true → writes (encode_entry e) (wire_entry e).
Proof. unfold entry_ok. intros. split_andb. unfold encode_entry, wire_entry. solve_writes. Qed.

Lemma entry_reads e : entry_ok e = true → reads decode_entry (wire_entry e) (normal_entry e).
Proof. unfold entry_ok. intros. split_andb. unfold decode_entry, wire_entry.
  eapply reads_eq; [solve_reads|reflexivity].
Qed.

Lemma wire_entry_len e : Z.of_nat (length (wire_entry e)) ≤ entry_len e.
Proof. unfold wire_entry, entry_len. solve_wire_length. Qed.

Lemma wire_entries_len l : Z.of_nat (length (concat (wire_entry <$> l))) ≤ entries_len l.
Proof.
  induction l as [|e l IH]; [done|]. rewrite fmap_cons, entries_len_cons.
  cbn [concat]. rewrite length_app. pose proof (wire_entry_len e). lia.
Qed.

Lemma entries_size_ok l1 l2 : forallb entry_ok l2 = true →
  entries_size (Some (l1 ++ l2)) (length l2) (length l1) = Ok (entries_len l2).
Proof.
  revert l1. induction l2 as [|e l2 IH]; intros l1 Hok; [done|]. simpl in *.
  split_andb. unfold entry_ok in *. split_andb.
  unfold entry. cbn [deref mbind res_bind]. unfold index.
  rewrite lookup_app_r, Nat.sub_diag by lia. simpl.
  rewrite !strlen_ethanol_ok by done. simpl.
  specialize (IH (l1 ++ [e])). rewrite <- app_assoc, length_app, Nat.add_1_r in IH.
  cbn [app] in IH. rewrite IH by done. simpl. f_equal. unfold entry_len, entries_len. lia.
Qed.

Lemma entries_len_nonneg l : 18 * Z.of_nat (length l) ≤ entries_len l.
Proof.
  induction l as [|e l IH]; [done|]. rewrite entries_len_cons. simpl length. unfold entry_len. lia.
Qed.

Lemma msg_mac_codec h : wf h = true → codec_ok h.
Proof.
  unfold wf. intros Hwf. split_andb.
  destruct h as [hd0 n0 m0]. cbn in *.
  assert (∃ l, (m0 = Some l ∨ m0 = None ∧ l = []) ∧ n0 = Z.of_nat (length l) ∧
     forallb entry_ok l = true ∧ entries_len l < 2 ^ 29) as (l & Hm & -> & Hok & Hlen).
  { destruct m0 as [l|]; split_andb; to_prop; [|exists []; naive_solver lia].
    exists l. naive_solver. }
  pose proof (entries_len_nonneg l). wf_facts.
  eapply codec_intro with (n := 21 + Z.of_nat (length (text (p_version hd0))) + entries_len l)
    (cs := cells (le 4 (Z.of_nat (length l))) ++ concat (wire_entry <$> l)).
  - reflexivity.
  - reflexivity.
  - cbn -[mbind mret strlen_ethanol]. unfold message_size_mac. cbn [BufferHandler.p_version Mac.hd Mac.n Mac.m].
    rewrite strlen_ethanol_ok by done. rewrite Nat2Z.id. cbn [mbind res_bind].
    assert (entries_size m0 (length l) 0 = Ok (entries_len l)) as ->.
    { destruct Hm as [->|[-> ->]]; [by apply (entries_size_ok [] l)|done]. }
    cbn [mbind res_bind]. rewrite to_u_id by (lia || in_range). f_equal. lia.
  - lia.
  - cbn -[mbind mret]. apply writes_seq; [apply writes_header|].
    apply writes_seq; [apply writes_store|].
    destruct Hm as [->|[-> ->]]; [|apply writes_nil].
    apply (writes_array l encode_entry wire_entry). intros e He.
    apply entry_writes. rewrite forallb_forall in Hok. apply Hok. by apply list_elem_of_In.
  - cbn -[mbind mret]. eapply reads_bind; [reads_leaf|].
    eapply reads_bind; [reads_leaf|].
    unfold normal. cbn -[mbind mret].
    destruct (Z.eqb_spec (Z.of_nat (length l)) 0).
    + destruct l; [|done]. apply reads_ret.
    + destruct Hm as [->|[-> ->]]; [|done]. rewrite Nat2Z.id.
      apply (reads_map _ (λ l, Msg _ _ (Some l))).
      apply reads_collect. intros e He. apply entry_reads.
      rewrite forallb_forall in Hok. apply Hok. by apply list_elem_of_In.
  - pose proof (wire_entries_len l). rewrite length_app, length_cells, Nat2Z.inj_add, length_le by lia. lia.
Qed.

#[global] Instance msg_mac_ok : MessageOk msg_mac.
Proof.
  split; [apply msg_mac_codec| |intros []; reflexivity..].
  intros h Hwf. change (wf h = true) in Hwf. unfold wf in Hwf. by split_andb.
Qed.
End codec.

Section agent.
Context {W : Type} `{Net W, Device W, Allocator}.

(** [intf_name] may be NULL, then all the interfaces are asked for.  The
    clean-up reads [h.m[0].intf_name] even then. *)
Definition send_msg_get_mac (hostname : charp) (portnum id : Z) (intf_name : charp) :
    ST W (option msg_mac * Z) :=
  with_ssl hostname portnum (None, id) (
    id' ← lift (incr_int id);
    version ← lift (copy_string ETHANOL_VERSION);
    '(n, m) ← (if nonnull intf_name then
                 intf ← lift (copy_string intf_name);
                 mret (1, Some [Imac 0 intf None])
               else mret (0, None));
    h1 ← exchange (Msg (Header MSG_GET_MAC id version 0) n m) (λ t, t =? MSG_GET_MAC);
    lift (deref m);;
    mret (h1, id')).

(** The request names no interface: all of them. *)
Definition entry_of (d : interface_fields) : interface_mac :=
  Imac (if_ifindex d) (if_name d) (if_mac d).

(** The request names interfaces: each one is looked up. *)
Definition fill_entry (e : interface_mac) : ST W interface_mac :=
  if nonnull (intf_name e) then
    f ← get_interface (intf_name e);
    f ← lift (deref f);
    mret (Imac (if_ifindex f) (intf_name e) (if_mac f))
  else mret e.

Fixpoint fill_entries (l : list interface_mac) : ST W (list interface_mac) :=
  match l with
  | [] => mret []
  | e :: l => e' ← fill_entry e; l' ← fill_entries l; mret (e' :: l')
  end.

Definition process_msg_mac (input : list cell) : ST W (option (list cell)) :=
  h ← lift (decode_msg_mac input);
  h ← (if n h =? 0 then
         p ← get_all_interfaces;
         match p with
         | Some d => mret (Msg (hd h) (to_u32 (Z.of_nat (length d))) (Some (map entry_of d)))
         | None => mret (Msg (hd h) 0 None)
         end
       else
         l ← lift (deref (m h));
         l' ← fill_entries l;
         mret (Msg (hd h) (n h) (Some l')));
  '(_, output) ← lift (encode_msg_mac h);
  mret (Some output).
End agent.
End Mac.

Module Acs.

(** [struct msg_acs] (msg_acs.h): the common header, then its own fields. *)
Record msg_acs := Msg {
  hd : msg_header;
  intf_name : charp;
  sta_ip : charp;
  sta_port : Z;
  num_tests : Z;
  num_chan : Z;
  freq : option (list Z);
  factor : option (list Z)
}.

Definition resize (h : msg_acs) (k : Z) : msg_acs :=
  Msg (set_m_size (hd h) k) (intf_name h) (sta_ip h) (sta_port h) (num_tests h)
    (num_chan h) (freq h) (factor h).
Definition with_id (h : msg_acs) (i : Z) : msg_acs :=
  Msg (set_m_id (hd h) i) (intf_name h) (sta_ip h) (sta_port h) (num_tests h)
    (num_chan h) (freq h) (factor h).
Definition set_num_tests (h : msg_acs) (x : Z) : msg_acs :=
  Msg (hd h) (intf_name h) (sta_ip h) (sta_port h) x (num_chan h) (freq h) (factor h).
Definition set_index (h : msg_acs) (k : Z) (fr fa : option (list Z)) : msg_acs :=
  Msg (hd h) (intf_name h) (sta_ip h) (sta_port h) (num_tests h) k fr fa.

Section codec.
Context `{Allocator}.

Definition size_msg_acs (h : msg_acs) : res Z :=
  v ← strlen_ethanol (p_version (hd h));
  n1 ← strlen_ethanol (intf_name h);
  n2 ← strlen_ethanol (sta_ip h);
  Ok (to_u64 (4 + 4 + v + 4 + n1 + n2 + 4 + 4 + 4 + num_chan h * (4 + 8))).

(** [p[i]] for an array pointer. *)
Definition at_ (p : option (list Z)) (i : nat) : res Z := l ← deref p; index l i.

Definition encode_msg_acs : msg_acs → res (msg_acs * list cell) :=
  encode_with size_msg_acs resize (λ h,
    encode_header (m_type (hd h)) (m_id (hd h)) (m_size (hd h));;
    encode_char (intf_name h);;
    encode_char (sta_ip h);;
    encode_int (sta_port h);;
    encode_int (num_tests h);;
    encode_int (num_chan h);;
    for_upto (num_chan h) (λ i, x ← lift (at_ (freq h) i); encode_int x);;
    for_upto (num_chan h) (λ i, x ← lift (at_ (factor h) i); encode_2long x)).

Definition decode_msg_acs : list cell → res msg_acs := decode_buffer (
  hd ← decode_header;
  intf_name ← decode_char;
  sta_ip ← decode_char;
  sta_port ← decode_int;
  num_tests ← decode_int;
  num_chan ← decode_int;
  if 0 <? num_chan then
    freq ← collect (Z.to_nat num_chan) decode_int;
    factor ← collect (Z.to_nat num_chan) decode_2long;
    mret (Msg hd intf_name sta_ip sta_port num_tests num_chan (Some freq) (Some factor))
  else mret (Msg hd intf_name sta_ip sta_port num_tests num_chan None None)).

(** ** Codec *)

Definition array_ok (ok : Z → bool) (k : Z) (p : option (list Z)) : bool :=
  match p with
  | None => k =? 0
  | Some l => (Z.of_nat (length l) =? k) && forallb ok l
  end.

Definition wf (h : msg_acs) : bool :=
  header_ok (hd h) && strs_ok [p_version (hd h); intf_name h; sta_ip h] &&
  i32_ok (sta_port h) && i32_ok (num_tests h) &&
  (0 <=? num_chan h) && (num_chan h <? 2 ^ 26) &&
  array_ok i32_ok (num_chan h) (freq h) && array_ok i64_ok (num_chan h) (factor h).

Definition normal (h : msg_acs) : msg_acs :=
  Msg (normal_header (hd h)) (canon (intf_name h)) (canon (sta_ip h)) (sta_port h)
    (num_tests h) (num_chan h)
    (if 0 <? num_chan h then freq h else None)
    (if 0 <? num_chan h then factor h else None).

#[global] Instance msg_acs_message : Message msg_acs := {|
  msg_head := hd; msg_resize := resize; msg_size := size_msg_acs;
  msg_encode := encode_msg_acs; msg_decode := decode_msg_acs;
  msg_normal := normal; msg_wf := wf
|}.

(** The array behind a pointer that is used [k] times. *)
Definition elems (p : option (list Z)) : list Z := match p with Some l => l | None => [] end.

Lemma elems_len ok k p : array_ok ok k p = true →
  Z.of_nat (length (elems p)) = k ∧ Forall (λ z, ok z = true) (elems p).
Proof.
  destruct p as [l|]; simpl; intros; split_andb; to_prop; [|by subst].
  split; [done|]. rewrite Forall_forall. intros x Hx.
  rewrite (forallb_forall ok l) in *. by apply H1, list_elem_of_In.
Qed.

Lemma array_writes ok k p n (f : Z → encoder) :
  array_ok ok k p = true → (∀ x, writes (f x) (cells (le n x))) →
  writes (for_upto k (λ i, x ← lift (at_ p i); f x)) (concat ((λ x, cells (le n x)) <$> elems p)).
Proof.
  intros Hok Hf. destruct p as [l|]; simpl in *; split_andb; to_prop; subst.
  - apply writes_array. auto.
  - apply writes_nil.
Qed.

Lemma array_reads ok k p n (d : decoder Z) :
  array_ok ok k p = true → (∀ x, ok x = true → reads d (cells (le n x)) x) →
  reads (collect (Z.to_nat k) d) (concat ((λ x, cells (le n x)) <$> elems p)) (elems p).
Proof.
  intros [<- Hall]%elems_len Hd. rewrite Nat2Z.id.
  rewrite <- (list_fmap_id (elems p)) at 3. apply reads_collect.
  intros x Hx. rewrite Forall_forall in Hall. auto.
Qed.

Lemma array_wire_len n l : 0 ≤ n →
  Z.of_nat (length (concat ((λ x, cells (le n x)) <$> l))) = n * Z.of_nat (length l).
Proof.
  intros. induction l as [|x l IH]; [simpl; lia|]. rewrite fmap_cons. cbn [concat length].
  rewrite length_app, length_cells, Nat2Z.inj_add, length_le, IH by lia. lia.
Qed.

Lemma array_normal ok k p : 0 < k → array_ok ok k p = true → p = Some (elems p).
Proof. destruct p; simpl; intros; [done|]. to_prop. lia. Qed.

Lemma msg_acs_codec h : wf h = true → codec_ok h.
Proof.
  unfold wf. intros Hwf. split_andb.
  destruct (elems_len _ _ (freq h) ltac:(eassumption)) as [Lf _].
  destruct (elems_len _ _ (factor h) ltac:(eassumption)) as [La _].
  wf_facts.
  eapply codec_intro with
    (cs := wire_str (text (intf_name h)) ++ wire_str (text (sta_ip h)) ++ cells (le 4 (sta_port h)) ++
           cells (le 4 (num_tests h)) ++ cells (le 4 (num_chan h)) ++
           concat ((λ x, cells (le 4 x)) <$> elems (freq h)) ++
           concat ((λ x, cells (le 8 x)) <$> elems (factor h))).
  - reflexivity.
  - reflexivity.
  - change (msg_size h) with (size_msg_acs h). unfold size_msg_acs. solve_size.
  - lia.
  - cbn -[mbind mret]. repeat first [writes_leaf | apply writes_seq];
      eapply array_writes; eauto; intros; apply writes_store.
  - cbn -[mbind mret]. do 6 (eapply reads_bind; [reads_leaf|]). cbv beta. unfold normal. cbn.
    destruct (Z.ltb_spec 0 (num_chan h)).
    + eapply reads_bind; [eapply array_reads; eauto using reads_int|].
      eapply reads_eq; [eapply reads_map, array_reads; eauto using reads_2long|].
      cbv beta. by erewrite <- (array_normal _ _ (freq h)), <- (array_normal _ _ (factor h)) by eassumption.
    + assert (elems (freq h) = [] ∧ elems (factor h) = []) as [-> ->].
      { split; apply length_zero_iff_nil; lia. }
      apply reads_ret.
  - rewrite !length_app, !Nat2Z.inj_add, !array_wire_len by lia. solve_wire_length.
Qed.

#[global] Instance msg_acs_ok : MessageOk msg_acs.
Proof.
  split; [apply msg_acs_codec| |intros []; reflexivity..].
  intros h Hwf. change (wf h = true) in Hwf. unfold wf in Hwf. by split_andb.
Qed.
End codec.

Section agent.
Context {W : Type} `{Net W, Device W, Allocator}.

Definition ACS_SCALE_FACTOR : Z := 1000000000000000000.

(** The number of tests is sent without having been assigned
    ([junk_num_tests]). *)
Definition send_msg_get_acs (junk_num_tests : Z) (hostname : charp) (portnum id : Z)
    (intf_name sta_ip : charp) (sta_port : Z) : ST W (option msg_acs * Z) :=
  with_ssl hostname portnum (None, id) (
    id' ← lift (incr_int id);
    version ← lift (copy_string ETHANOL_VERSION);
    intf ← lift (copy_string intf_name);
    ip ← lift (copy_string sta_ip);
    h1 ← exchange (Msg (Header MSG_GET_ACS id version 0) intf ip sta_port junk_num_tests 0 None None)
                  (λ t, t =? MSG_GET_ACS);
    mret (h1, id')).

(** [trunc(idx->factor[i] * ACS_SCALE_FACTOR)]: a [long double] product,
    converted to [double] for [trunc], then to [long long]. *)
Definition scale_factor (f : spec_float) : res Z :=
  sf_to_int 64 (to_f64 (f80_mul f (f80_of_Z ACS_SCALE_FACTOR))).

Fixpoint scale_factors (l : list spec_float) (k i : nat) : res (list Z) :=
  match k with
  | O => Ok []
  | S k' =>
      f ← index l i;
      z ← scale_factor f;
      r ← scale_factors l k' (S i);
      Ok (z :: r)
  end.

Definition process_msg_acs (junk_num_tests : Z) (input : list cell) :
    ST W (option (list cell)) :=
  h ← lift (decode_msg_acs input);
  h ← (if nonnull (intf_name h) then
         let h := if num_tests h <=? 0 then set_num_tests h 1 else h in
         if nonnull (sta_ip h) then
           '(h1, id) ← send_msg_get_acs junk_num_tests (sta_ip h) (sta_port h) (m_id (hd h))
                         (intf_name h) None 0;
           let h := with_id h id in
           match h1 with
           | Some h1 => mret (set_index h (num_chan h1) (freq h1) (factor h1))
           | None => mret h
           end
         else
           idx ← get_acs (intf_name h) (num_tests h);
           idx ← lift (deref idx);
           factor ← (if 0 <? ii_num_chan idx then
                       l ← lift (scale_factors (ii_factor idx) (Z.to_nat (ii_num_chan idx)) 0);
                       mret (Some l)
                     else mret None);
           mret (set_index h (ii_num_chan idx) (ii_freq idx) factor)
       else mret h);
  '(_, output) ← lift (encode_msg_acs h);
  mret (Some output).
End agent.
End Acs.
