(* ===== verification/MsgTos.v ===== *)
(** Type-of-service rules: [msg_tos.c].  The handlers build [iptables] command
    lines in fixed-size local arrays and run them. *)
From stdpp Require Import prelude list strings pretty.
From S2P Require Import Prelude CMem MsgCommon BufferHandler World Rpc.

(** ** Local arrays *)

(** [sprintf(buffer, ...)] of the text [s] into an array of [n] bytes. *)
Definition sprintf (n : Z) (s : list Z) : res (list Z) :=
  if Z.of_nat (length s) + 1 <=? n then Ok s else Err StackOverflow.

(** [strcat(dst, s)] on an array of [n] bytes that holds the string [dst]. *)
Definition strcat (n : Z) (dst s : list Z) : res (list Z) :=
  if Z.of_nat (length dst) + Z.of_nat (length s) + 1 <=? n
  then Ok (dst ++ s) else Err StackOverflow.

(** ["%d"]. *)
Definition decimal (z : Z) : list Z := lit_bytes (pretty z).

Module TosClean.

(** [struct msg_tos_cleanall] (msg_tos.h): the common header, then
    its own fields. *)
Record msg_tos_cleanall := Msg {
  hd : msg_header
}.

Definition resize (h : msg_tos_cleanall) (n : Z) : msg_tos_cleanall :=
  Msg (set_m_size (hd h) n).

Section codec.
Context `{Allocator}.

Definition size_msg_tos_cleanall (h : msg_tos_cleanall) : res Z :=
  v ← strlen_ethanol (p_version (hd h));
  Ok (to_i32 (4 + 4 + v + 4)).

Definition encode_msg_tos_cleanall : msg_tos_cleanall → res (msg_tos_cleanall * list cell) :=
  encode_with size_msg_tos_cleanall resize (λ h,
    encode_header (m_type (hd h)) (m_id (hd h)) (m_size (hd h))).

Definition decode_msg_tos_cleanall : list cell → res msg_tos_cleanall := decode_buffer (
  hd ← decode_header;
  mret (Msg hd)).

Definition wf (h : msg_tos_cleanall) : bool :=
  header_ok (hd h) && strs_ok [p_version (hd h)].

Definition normal (h : msg_tos_cleanall) : msg_tos_cleanall :=
  Msg (normal_header (hd h)).

#[global] Instance msg_tos_cleanall_message : Message msg_tos_cleanall := {|
  msg_head := hd; msg_resize := resize; msg_size := size_msg_tos_cleanall;
  msg_encode := encode_msg_tos_cleanall; msg_decode := decode_msg_tos_cleanall;
  msg_normal := normal; msg_wf := wf
|}.

#[global] Instance msg_tos_cleanall_ok : MessageOk msg_tos_cleanall.
Proof. solve_codec wf size_msg_tos_cleanall. Qed.
End codec.

Section agent.
Context {W : Type} `{Net W, Device W, Build, Allocator}.

Definition send_msg_tos_cleanall (hostname : charp) (portnum id : Z) : ST W Z :=
  with_ssl hostname portnum id (
    id' ← lift (incr_int id);
    version ← lift (copy_string ETHANOL_VERSION);
    notify_nosize (Msg (Header MSG_TOS_CLEANALL id version 0));;
    mret id').

(** [CMD_TOS_CLEAN] with the path of [iptables]. *)
Definition clean_command (iptables : list Z) : list Z :=
  lit_bytes "sudo " ++ iptables ++ lit_bytes " -t mangle -F".

Definition process_msg_tos_cleanall (input : list cell) : ST W (option (list cell)) :=
  lift (decode_msg_tos_cleanall input);;
  iptables ← which_path (lit "iptables");
  path ← lift (chars iptables);
  cmd ← lift (sprintf 1024 (clean_command path));
  run_system cmd;;
  mret None.
End agent.

End TosClean.

Module Tos.

(** [struct msg_tos] (msg_tos.h): the common header, then
    its own fields. *)
Record msg_tos := Msg {
  hd : msg_header;
  rule_id : Z;
  intf_name : charp;
  proto : charp;
  sip : charp;
  sport : charp;
  dip : charp;
  dport : charp;
  wmm_class : Z
}.

Definition resize (h : msg_tos) (n : Z) : msg_tos :=
  Msg (set_m_size (hd h) n) (rule_id h) (intf_name h) (proto h) (sip h)
  (sport h) (dip h) (dport h) (wmm_class h).

Section codec.
Context `{Allocator}.

Definition size_msg_send_tos (h : msg_tos) : res Z :=
  v ← strlen_ethanol (p_version (hd h));
  n1 ← strlen_ethanol (intf_name h);
  n2 ← strlen_ethanol (proto h);
  n3 ← strlen_ethanol (sip h);
  n4 ← strlen_ethanol (sport h);
  n5 ← strlen_ethanol (dip h);
  n6 ← strlen_ethanol (dport h);
  Ok (to_i32 (4 + 4 + v + 4 + 4 + n1 + n2 + n3 + n4 + n5 + n6 + 4)).

Definition encode_msg_send_tos : msg_tos → res (msg_tos * list cell) :=
  encode_with size_msg_send_tos resize (λ h,
    encode_header (m_type (hd h)) (m_id (hd h)) (m_size (hd h));;
    encode_int (rule_id h);;
    encode_char (intf_name h);;
    encode_char (proto h);;
    encode_char (sip h);;
    encode_char (sport h);;
    encode_char (dip h);;
    encode_char (dport h);;
    encode_int (wmm_class h)).

Definition decode_msg_send_tos : list cell → res msg_tos := decode_buffer (
  hd ← decode_header;
  rule_id ← decode_int;
  intf_name ← decode_char;
  proto ← decode_char;
  sip ← decode_char;
  sport ← decode_char;
  dip ← decode_char;
  dport ← decode_char;
  wmm_class ← decode_int;
  mret (Msg hd rule_id intf_name proto sip sport dip dport wmm_class)).

Definition wf (h : msg_tos) : bool :=
  header_ok (hd h) &&
  strs_ok [p_version (hd h); intf_name h; proto h; sip h; sport h; dip h; dport h] &&
  i32_ok (rule_id h) && i32_ok (wmm_class h).

Definition normal (h : msg_tos) : msg_tos :=
  Msg (normal_header (hd h)) (rule_id h) (canon (intf_name h))
  (canon (proto h)) (canon (sip h)) (canon (sport h)) (canon (dip h))
  (canon (dport h)) (wmm_class h).

#[global] Instance msg_tos_message : Message msg_tos := {|
  msg_head := hd; msg_resize := resize; msg_size := size_msg_send_tos;
  msg_encode := encode_msg_send_tos; msg_decode := decode_msg_send_tos;
  msg_normal := normal; msg_wf := wf
|}.

#[global] Instance msg_tos_ok : MessageOk msg_tos.
Proof. solve_codec wf size_msg_send_tos. Qed.
End codec.

Section agent.
Context {W : Type} `{Net W, Device W, Build, Allocator}.

Definition AC_BK : Z := 32.
Definition AC_BE : Z := 96.
Definition AC_VI : Z := 128.
Definition AC_VO : Z := 224.

(** The [switch] of [issue_command_tos]. *)
Definition tos_of_class (wmm_class : Z) : Z :=
  match wmm_class with
  | 0 | 3 => AC_BE
  | 1 | 2 => AC_BK
  | 4 | 5 => AC_VI
  | 6 | 7 => AC_VO
  | _ => AC_BE
  end.

Definition MATCH_SIZE : Z := 512.

(** [if (p) { sprintf(buffer, "<option> %s", p); strcat(match, buffer); }]. *)
Definition add_match (option : string) (p : charp) (matched : list Z) : res (list Z) :=
  if nonnull p then
    s ← chars p;
    buffer ← sprintf (2 * MATCH_SIZE) (lit_bytes option ++ s);
    strcat MATCH_SIZE matched buffer
  else Ok matched.

(** [FMT_CMD_TOS] with its six arguments. *)
Definition tos_command (iptables action intf proto matched : list Z) (tos : Z) : list Z :=
  lit_bytes "sudo " ++ iptables ++ lit_bytes " -t mangle " ++ action ++ lit_bytes " " ++
  intf ++ lit_bytes " -p " ++ proto ++ lit_bytes " " ++ matched ++
  lit_bytes " -j TOS --set-tos " ++ decimal tos.

(** The text of the command; the format is always [FMT_CMD_TOS]. *)
Definition compose_tos (action : list Z) (iptables : charp) (h : msg_tos) : res (list Z) :=
  let tos := tos_of_class (wmm_class h) in
  matched ← add_match "-d " (dip h) [];
  matched ← add_match "--dport " (dport h) matched;
  matched ← add_match "-s " (sip h) matched;
  matched ← add_match "--sport " (sport h) matched;
  path ← chars iptables;
  intf ← chars (intf_name h);
  pr ← chars (proto h);
  sprintf (2 * MATCH_SIZE) (tos_command path action intf pr matched tos).

Definition issue_command_tos (action : list Z) (iptables : charp) (h : msg_tos) : ST W unit :=
  cmd ← lift (compose_tos action iptables h);
  run_system cmd.

Definition process_msg_tos_add (input : list cell) : ST W (option (list cell)) :=
  h ← lift (decode_msg_send_tos input);
  iptables ← which_path (lit "iptables");
  (if nonnull (intf_name h) && nonnull (proto h) then
     issue_command_tos (lit_bytes "-A OUTPUT -o") iptables h;;
     issue_command_tos (lit_bytes "-A PREROUTING -i") iptables h
   else mret tt);;
  mret None.

(** [char rule_id[50]]. *)
Definition process_msg_tos_replace (input : list cell) : ST W (option (list cell)) :=
  h ← lift (decode_msg_send_tos input);
  iptables ← which_path (lit "iptables");
  (if nonnull (intf_name h) && nonnull (proto h) then
     a1 ← lift (sprintf 50 (lit_bytes "-R OUTPUT " ++ decimal (rule_id h) ++ lit_bytes " -o"));
     issue_command_tos a1 iptables h;;
     a2 ← lift (sprintf 50 (lit_bytes "-R PREROUTING " ++ decimal (rule_id h) ++ lit_bytes " -i"));
     issue_command_tos a2 iptables h
   else mret tt);;
  mret None.

Definition sent_tos (hostname : charp) (portnum id : Z) (adding : bool) (rule_id : Z)
    (intf_name proto sip sport dip dport : charp) (wmm_class : Z) : ST W Z :=
  with_ssl hostname portnum id (
    let m_type := if adding then MSG_TOS_ADD else MSG_TOS_REPLACE in
    id' ← lift (incr_int id);
    version ← lift (copy_string ETHANOL_VERSION);
    intf ← lift (copy_string intf_name);
    pr ← lift (copy_string proto);
    si ← lift (copy_string sip);
    sp ← lift (copy_string sport);
    di ← lift (copy_string dip);
    dp ← lift (copy_string dport);
    notify_nosize (Msg (Header m_type id version 0) rule_id intf pr si sp di dp wmm_class);;
    mret id').

Definition send_msg_tos_add (hostname : charp) (portnum id : Z)
    (intf_name proto sip sport dip dport : charp) (wmm_class : Z) : ST W Z :=
  sent_tos hostname portnum id true (-1) intf_name proto sip sport dip dport wmm_class.

Definition send_msg_tos_replace (hostname : charp) (portnum id rule_id : Z)
    (intf_name proto sip sport dip dport : charp) (wmm_class : Z) : ST W Z :=
  sent_tos hostname portnum id false rule_id intf_name proto sip sport dip dport wmm_class.
End agent.

End Tos.

(** ** The command *)

Section command.
Import Tos.

(** The part of the rule an optional field contributes. *)
Definition part (option : string) (p : charp) : list Z :=
  if nonnull p then lit_bytes option ++ text p else [].

(** The four parts, in the order they are appended. *)
Definition match_of (h : msg_tos) : list Z :=
  part "-d " (dip h) ++ part "--dport " (dport h) ++ part "-s " (sip h) ++ part "--sport " (sport h).

Lemma add_match_spec option p m : cstr_ok p = true → Z.of_nat (length m) < 512 →
  add_match option p m =
    if Z.of_nat (length (m ++ part option p)) <? 512 then Ok (m ++ part option p) else Err StackOverflow.
Proof.
  intros Hp Hm. unfold add_match, part. destruct (nonnull p) eqn:E; cycle 1.
  { rewrite app_nil_r. by rewrite (proj2 (Z.ltb_lt _ _) Hm). }
  rewrite chars_named by (unfold named; by rewrite E, Hp). cbn [mbind res_bind].
  unfold sprintf, strcat, MATCH_SIZE. rewrite (length_app m).
  set (k := length (lit_bytes option ++ text p)).
  destruct (Z.leb_spec (Z.of_nat k + 1) (2 * 512)), (Z.ltb_spec (Z.of_nat (length m + k)) 512);
    cbn [mbind res_bind]; try done; try lia; fold k;
    destruct (Z.leb_spec (Z.of_nat (length m) + Z.of_nat k + 1) 512); done || lia.
Qed.

(** The parts of a list of fields, appended one after the other. *)
Fixpoint add_all (l : list (string * charp)) (m : list Z) : res (list Z) :=
  match l with
  | [] => Ok m
  | (option, p) :: l' => m' ← add_match option p m; add_all l' m'
  end.

Lemma add_all_spec l m : forallb (λ e, cstr_ok e.2) l = true → Z.of_nat (length m) < 512 →
  let r := m ++ concat ((λ e, part e.1 e.2) <$> l) in
  add_all l m = if Z.of_nat (length r) <? 512 then Ok r else Err StackOverflow.
Proof.
  revert m. induction l as [|[o p] l IH]; intros m Hl Hm; cbn [add_all].
  { rewrite fmap_nil. cbn. rewrite app_nil_r. by rewrite (proj2 (Z.ltb_lt _ _) Hm). }
  rewrite fmap_cons. cbn [concat fst snd forallb] in *. split_andb.
  rewrite add_match_spec by done. rewrite app_assoc.
  destruct (Z.ltb_spec (Z.of_nat (length (m ++ part o p))) 512); cbn [mbind res_bind].
  - by apply IH.
  - rewrite (length_app (m ++ part o p)).
    by destruct (Z.ltb_spec (Z.of_nat (length (m ++ part o p) +
      length (concat ((λ e, part e.1 e.2) <$> l)))) 512); [lia|].
Qed.

Definition fields (h : msg_tos) : list (string * charp) :=
  [("-d ", dip h); ("--dport ", dport h); ("-s ", sip h); ("--sport ", sport h)].

Lemma compose_tos_all action iptables h :
  compose_tos action iptables h =
    (matched ← add_all (fields h) [];
     path ← chars iptables;
     intf ← chars (intf_name h);
     pr ← chars (proto h);
     sprintf (2 * MATCH_SIZE) (tos_command path action intf pr matched (tos_of_class (wmm_class h)))).
Proof.
  unfold compose_tos, fields. cbv zeta. cbn [add_all].
  destruct (add_match "-d " _ _) as [m1|]; [cbn [mbind res_bind]|done].
  destruct (add_match "--dport " _ _) as [m2|]; [cbn [mbind res_bind]|done].
  destruct (add_match "-s " _ _) as [m3|]; [cbn [mbind res_bind]|done].
  by destruct (add_match "--sport " _ _) as [m4|].
Qed.

(** The command line a rule stands for. *)
Definition rule_command (action : list Z) (iptables : charp) (h : msg_tos) : list Z :=
  tos_command (text iptables) action (text (intf_name h)) (text (proto h)) (match_of h)
    (tos_of_class (wmm_class h)).

(** [issue_command_tos] on usable strings builds the command made of the
    path, the action, the interface, the protocol, the match of the fields
    that are not NULL and the TOS value of the traffic class, when the match
    is shorter than 512 bytes and the command than 1024; otherwise it writes
    past the end of a local array.  The controller that sends the rule
    chooses all these lengths. *)
Theorem compose_tos_spec (action : list Z) (iptables : charp) (h : msg_tos) :
  named iptables = true → named (intf_name h) = true → named (proto h) = true →
  cstr_ok (dip h) = true → cstr_ok (dport h) = true → cstr_ok (sip h) = true →
  cstr_ok (sport h) = true →
  compose_tos action iptables h =
    let cmd := rule_command action iptables h in
    if (Z.of_nat (length (match_of h)) <? 512) && (Z.of_nat (length cmd) <? 1024)
    then Ok cmd else Err StackOverflow.
Proof.
  intros Hi Hn Hp Hd Hdp Hs Hsp. rewrite compose_tos_all, add_all_spec; cycle 1.
  { unfold fields. cbn. by rewrite Hd, Hdp, Hs, Hsp. } { done. }
  assert ([] ++ concat ((λ e, part e.1 e.2) <$> fields h) = match_of h) as ->.
  { unfold fields, match_of. cbn. by rewrite app_nil_r. }
  cbv zeta. destruct (Z.ltb_spec (Z.of_nat (length (match_of h))) 512); cbn [mbind res_bind andb]; [|done].
  rewrite !chars_named by done. cbn [mbind res_bind]. unfold sprintf, MATCH_SIZE, rule_command.
  set (cmd := tos_command _ _ _ _ _ _).
  destruct (Z.leb_spec (Z.of_nat (length cmd) + 1) (2 * 512)), (Z.ltb_spec (Z.of_nat (length cmd)) 1024);
    done || lia.
Qed.

Definition sample_rule : msg_tos :=
  Msg (Header MSG_TOS_ADD 7 ETHANOL_VERSION 0) (-1) (lit "eth0") (lit "tcp") None None
    (lit "10.0.0.3") (lit "5001") 6.

Lemma compose_tos_spec_witness :
  compose_tos (lit_bytes "-A OUTPUT -o") (lit "/sbin/iptables") sample_rule =
    let cmd := rule_command (lit_bytes "-A OUTPUT -o") (lit "/sbin/iptables") sample_rule in
    if (Z.of_nat (length (match_of sample_rule)) <? 512) && (Z.of_nat (length cmd) <? 1024)
    then Ok cmd else Err StackOverflow.
Proof.
  apply (compose_tos_spec (lit_bytes "-A OUTPUT -o") (lit "/sbin/iptables") sample_rule); reflexivity.
Defined.

(** The options of a rule with a destination address and a destination
    port run together: there is no space between the address and ["--dport"]
    in the command. *)
Theorem tos_match_runs_together (action : list Z) (iptables : charp) (h : msg_tos) (cmd : list Z) :
  named iptables = true → named (intf_name h) = true → named (proto h) = true →
  named (dip h) = true → named (dport h) = true → cstr_ok (sip h) = true →
  cstr_ok (sport h) = true → compose_tos action iptables h = Ok cmd →
  ∃ before after,
    cmd = before ++ lit_bytes "-d " ++ text (dip h) ++ lit_bytes "--dport " ++ text (dport h) ++ after.
Proof.
  unfold named at 4 5. intros Hi Hn Hp [Hd1 Hd2]%andb_prop [Hq1 Hq2]%andb_prop Hs Hsp Hc.
  rewrite compose_tos_all, add_all_spec in Hc; cycle 1.
  { unfold fields. cbn. by rewrite Hd2, Hq2, Hs, Hsp. } { done. }
  cbv zeta in Hc. destruct (Z.ltb _ 512); [|done]. cbn [mbind res_bind] in Hc.
  rewrite !chars_named in Hc by done. cbn [mbind res_bind] in Hc. unfold sprintf in Hc.
  destruct (_ <=? _); [|done]. injection Hc as <-. unfold tos_command, fields. cbn [fmap list_fmap concat fst snd].
  unfold part at 1 2. rewrite Hd1, Hq1.
  exists (lit_bytes "sudo " ++ text iptables ++ lit_bytes " -t mangle " ++ action ++ lit_bytes " " ++
    text (intf_name h) ++ lit_bytes " -p " ++ text (proto h) ++ lit_bytes " ").
  eexists. rewrite <- !app_assoc. reflexivity.
Qed.

Lemma tos_match_runs_together_witness : ∃ cmd before after,
  compose_tos (lit_bytes "-A OUTPUT -o") (lit "/sbin/iptables") sample_rule = Ok cmd ∧
  cmd = before ++ lit_bytes "-d " ++ lit_bytes "10.0.0.3" ++ lit_bytes "--dport " ++
    lit_bytes "5001" ++ after.
Proof.
  assert (∃ cmd, compose_tos (lit_bytes "-A OUTPUT -o") (lit "/sbin/iptables") sample_rule = Ok cmd)
    as [cmd Hc] by (eexists; vm_compute; reflexivity).
  destruct (tos_match_runs_together (lit_bytes "-A OUTPUT -o") (lit "/sbin/iptables") sample_rule cmd
    eq_refl eq_refl eq_refl eq_refl eq_refl eq_refl eq_refl Hc) as (b & a & E).
  exists cmd, b, a. split; [exact Hc|exact E].
Defined.
End command.

(** ** The handlers *)

Section handlers.
Context {W : Type} `{Device W, Allocator}.
Import Tos.

Lemma received_fields h : msg_wf h = true → ∃ k,
  received h = Msg (Header (m_type (hd h)) (m_id (hd h)) ETHANOL_VERSION k) (rule_id h)
    (canon (intf_name h)) (canon (proto h)) (canon (sip h)) (canon (sport h))
    (canon (dip h)) (canon (dport h)) (wmm_class h).
Proof. intros (n & Hs & _)%encode_wf. exists n. unfold received. by rewrite Hs. Qed.

Lemma wf_strings h : msg_wf h = true →
  cstr_ok (intf_name h) = true ∧ cstr_ok (proto h) = true ∧ cstr_ok (sip h) = true ∧
  cstr_ok (sport h) = true ∧ cstr_ok (dip h) = true ∧ cstr_ok (dport h) = true.
Proof. intros Hwf. change (wf h = true) in Hwf. unfold wf in Hwf. wf_facts. done. Qed.

Lemma named_canon p : cstr_ok p = true → text p ≠ [] → named (canon p) = true.
Proof.
  intros Hp Hne. unfold named. rewrite (cstr_ok_canon p Hp), andb_true_r.
  unfold canon. by destruct (text p).
Qed.

(** The strings of a received rule that names an interface and a protocol. *)
Lemma issue_received action iptables h w w' :
  msg_wf h = true → text (intf_name h) ≠ [] → text (proto h) ≠ [] → named iptables = true →
  let cmd := rule_command action iptables (received h) in
  Z.of_nat (length (match_of (received h))) < 512 → Z.of_nat (length cmd) < 1024 →
  run_system cmd w = Ok (tt, w') →
  issue_command_tos action iptables (received h) w = Ok (tt, w').
Proof.
  intros Hwf Hi Hp Hn cmd Hm Hc Hrun. destruct (wf_strings h Hwf) as (H1 & H2 & H3 & H4 & H5 & H6).
  unfold issue_command_tos. destruct (received_fields h Hwf) as [k E].
  rewrite compose_tos_spec; cbv zeta; rewrite ?(proj2 (Z.ltb_lt _ _) Hm); fold cmd.
  - rewrite (proj2 (Z.ltb_lt _ _) Hc). cbn [andb]. by rewrite (st_bind_Ok _ _ w cmd w eq_refl).
  - done.
  - rewrite E. by apply named_canon.
  - rewrite E. by apply named_canon.
  - rewrite E. by apply cstr_ok_canon.
  - rewrite E. by apply cstr_ok_canon.
  - rewrite E. by apply cstr_ok_canon.
  - rewrite E. by apply cstr_ok_canon.
Qed.

(** Adding a rule with an interface and a protocol runs exactly two
    commands, the OUTPUT rule and then the PREROUTING rule of the received
    message, and sends no reply. *)
Theorem tos_add_runs_two_rules (h : msg_tos) (path : charp) (w w1 w2 w3 : W) :
  msg_wf h = true → text (intf_name h) ≠ [] → text (proto h) ≠ [] →
  which_path (lit "iptables") w = Ok (path, w1) → named path = true →
  let out := rule_command (lit_bytes "-A OUTPUT -o") path (received h) in
  let pre := rule_command (lit_bytes "-A PREROUTING -i") path (received h) in
  Z.of_nat (length (match_of (received h))) < 512 →
  Z.of_nat (length out) < 1024 → Z.of_nat (length pre) < 1024 →
  run_system out w1 = Ok (tt, w2) → run_system pre w2 = Ok (tt, w3) →
  process_msg_tos_add (wire_of h) w = Ok (None, w3).
Proof.
  intros Hwf Hi Hp Hw Hn out pre Hm Ho Hpr Hr1 Hr2. unfold process_msg_tos_add.
  pose proof (wire_received h Hwf) as Hd. cbn [msg_decode msg_tos_message] in Hd. rewrite Hd.
  rewrite (st_bind_Ok _ _ w _ w eq_refl). rewrite (st_bind_Ok _ _ _ _ _ Hw).
  destruct (received_fields h Hwf) as [k E].
  assert (nonnull (intf_name (received h)) && nonnull (proto (received h)) = true) as ->.
  { rewrite E. cbn. unfold canon. by destruct (text (intf_name h)), (text (proto h)). }
  assert (∀ A (k : ST W A), ((issue_command_tos (lit_bytes "-A OUTPUT -o") path (received h);;
    issue_command_tos (lit_bytes "-A PREROUTING -i") path (received h));; k) w1 = k w3) as ->; [|done].
  intros A c. unfold mbind, ST_bind. by rewrite (issue_received _ _ _ _ w2), (issue_received _ _ _ _ w3).
Qed.
End handlers.
