(* ===== verification/MsgAp.v ===== *)
(** Settings of an access point: [msg_ap_broadcastssid.c],
    [msg_ap_ctsprotection_enabled.c], [msg_ap_dtiminterval.c],
    [msg_ap_frameburstenabled.c], [msg_ap_guardinterval.c],
    [msg_ap_rtsthreshold.c] and [msg_beacon_interval.c]: codecs, senders and
    handlers.  The handlers have no local function yet: a GET is answered with
    a constant or not at all and a SET changes nothing. *)
From stdpp Require Import prelude list strings.
From S2P Require Import Prelude CMem MsgCommon BufferHandler World Rpc.

Module BroadcastSsid.

(** [struct msg_ap_broadcastssid] (msg_ap_broadcastssid.h): the common header, then
    its own fields.  No function assigns [intf_name] or sends it: [None]. *)
Record msg_ap_broadcastssid := Msg {
  hd : msg_header;
  intf_name : option charp;
  enabled : bool;
  ssid : charp
}.

Definition resize (h : msg_ap_broadcastssid) (n : Z) : msg_ap_broadcastssid :=
  Msg (set_m_size (hd h) n) (intf_name h) (enabled h) (ssid h).
Definition set_enabled (h : msg_ap_broadcastssid) (x : bool) : msg_ap_broadcastssid :=
  Msg (hd h) (intf_name h) x (ssid h).

Section codec.
Context `{Allocator}.

Definition size_msg_ap_broadcastssid (h : msg_ap_broadcastssid) : res Z :=
  v ← strlen_ethanol (p_version (hd h));
  n1 ← strlen_ethanol (ssid h);
  Ok (to_u64 (v + 4 + 4 + 4 + bool_len_ethanol + n1)).

Definition encode_msg_ap_broadcastssid : msg_ap_broadcastssid → res (msg_ap_broadcastssid * list cell) :=
  encode_with size_msg_ap_broadcastssid resize (λ h,
    encode_header (m_type (hd h)) (m_id (hd h)) (m_size (hd h));;
    encode_bool (enabled h);;
    encode_char (ssid h)).

Definition decode_msg_ap_broadcastssid : list cell → res msg_ap_broadcastssid := decode_buffer (
  hd ← decode_header;
  enabled ← decode_bool;
  ssid ← decode_char;
  mret (Msg hd None enabled ssid)).

Definition wf (h : msg_ap_broadcastssid) : bool :=
  header_ok (hd h) && strs_ok [p_version (hd h); ssid h].

Definition normal (h : msg_ap_broadcastssid) : msg_ap_broadcastssid :=
  Msg (normal_header (hd h)) None (enabled h) (canon (ssid h)).

#[global] Instance msg_ap_broadcastssid_message : Message msg_ap_broadcastssid := {|
  msg_head := hd; msg_resize := resize; msg_size := size_msg_ap_broadcastssid;
  msg_encode := encode_msg_ap_broadcastssid; msg_decode := decode_msg_ap_broadcastssid;
  msg_normal := normal; msg_wf := wf
|}.

#[global] Instance msg_ap_broadcastssid_ok : MessageOk msg_ap_broadcastssid.
Proof. solve_codec wf size_msg_ap_broadcastssid. Qed.
End codec.

Section agent.
Context {W : Type} `{Net W, Allocator}.

Definition send_msg_get_ap_broadcastssid (hostname : charp) (portnum id : Z)
    (ssid : charp) : ST W (option msg_ap_broadcastssid * Z) :=
  with_ssl hostname portnum (None, id) (
    id' ← lift (incr_int id);
    version ← lift (copy_string ETHANOL_VERSION);
    s ← lift (copy_string ssid);
    h1 ← exchange (Msg (Header MSG_GET_AP_BROADCASTSSID id version 0) None false s)
                  (λ t, t =? MSG_GET_AP_BROADCASTSSID);
    mret (h1, id')).

Definition send_msg_set_ap_broadcastssid (hostname : charp) (portnum id : Z)
    (ssid : charp) (enable : bool) : ST W Z :=
  with_ssl_noerr hostname portnum id (
    id' ← lift (incr_int id);
    version ← lift (copy_string ETHANOL_VERSION);
    s ← lift (copy_string ssid);
    notify (Msg (Header MSG_SET_AP_BROADCASTSSID id version 0) None enable s);;
    mret id').

Definition process_msg_ap_broadcastssid (input : list cell) : ST W (option (list cell)) :=
  h ← lift (decode_msg_ap_broadcastssid input);
  if m_type (hd h) =? MSG_GET_AP_BROADCASTSSID then
    '(_, output) ← lift (encode_msg_ap_broadcastssid (set_enabled h false));
    mret (Some output)
  else mret None.
End agent.

End BroadcastSsid.

Module CtsProtection.

(** [struct msg_ap_ctsprotection_enabled] (msg_ap_ctsprotection_enabled.h): the common header, then
    its own fields. *)
Record msg_ap_ctsprotection_enabled := Msg {
  hd : msg_header;
  intf_name : charp;
  enabled : bool
}.

Definition resize (h : msg_ap_ctsprotection_enabled) (n : Z) : msg_ap_ctsprotection_enabled :=
  Msg (set_m_size (hd h) n) (intf_name h) (enabled h).
Definition set_enabled (h : msg_ap_ctsprotection_enabled) (x : bool) : msg_ap_ctsprotection_enabled :=
  Msg (hd h) (intf_name h) x.

Section codec.
Context `{Allocator}.

Definition size_msg_ap_ctsprotection_enabled (h : msg_ap_ctsprotection_enabled) : res Z :=
  v ← strlen_ethanol (p_version (hd h));
  n1 ← strlen_ethanol (intf_name h);
  Ok (to_u64 (v + 4 + 4 + 4 + n1 + bool_len_ethanol)).

Definition encode_msg_ap_ctsprotection_enabled : msg_ap_ctsprotection_enabled → res (msg_ap_ctsprotection_enabled * list cell) :=
  encode_with size_msg_ap_ctsprotection_enabled resize (λ h,
    encode_header (m_type (hd h)) (m_id (hd h)) (m_size (hd h));;
    encode_char (intf_name h);;
    encode_bool (enabled h)).

Definition decode_msg_ap_ctsprotection_enabled : list cell → res msg_ap_ctsprotection_enabled := decode_buffer (
  hd ← decode_header;
  intf_name ← decode_char;
  enabled ← decode_bool;
  mret (Msg hd intf_name enabled)).

Definition wf (h : msg_ap_ctsprotection_enabled) : bool :=
  header_ok (hd h) && strs_ok [p_version (hd h); intf_name h].

Definition normal (h : msg_ap_ctsprotection_enabled) : msg_ap_ctsprotection_enabled :=
  Msg (normal_header (hd h)) (canon (intf_name h)) (enabled h).

#[global] Instance msg_ap_ctsprotection_enabled_message : Message msg_ap_ctsprotection_enabled := {|
  msg_head := hd; msg_resize := resize; msg_size := size_msg_ap_ctsprotection_enabled;
  msg_encode := encode_msg_ap_ctsprotection_enabled; msg_decode := decode_msg_ap_ctsprotection_enabled;
  msg_normal := normal; msg_wf := wf
|}.

#[global] Instance msg_ap_ctsprotection_enabled_ok : MessageOk msg_ap_ctsprotection_enabled.
Proof. solve_codec wf size_msg_ap_ctsprotection_enabled. Qed.
End codec.

Section agent.
Context {W : Type} `{Net W, Allocator}.

Definition send_msg_ap_ctsprotection_enabled (hostname : charp) (portnum id : Z)
    (intf_name : charp) : ST W (option msg_ap_ctsprotection_enabled * Z) :=
  with_ssl hostname portnum (None, id) (
    id' ← lift (incr_int id);
    version ← lift (copy_string ETHANOL_VERSION);
    s ← lift (copy_string intf_name);
    h1 ← exchange (Msg (Header MSG_GET_AP_CTSPROTECTION_ENABLED id version 0) s false)
                  (λ t, t =? MSG_GET_AP_CTSPROTECTION_ENABLED);
    mret (h1, id')).

(** [m_size] is computed before the name is copied, with NULL in its place. *)
Definition send_msg_ap_set_ctsprotection_enabled (hostname : charp) (portnum id : Z)
    (intf_name : charp) (enable : bool) : ST W Z :=
  with_ssl_noerr hostname portnum id (
    id' ← lift (incr_int id);
    version ← lift (copy_string ETHANOL_VERSION);
    s ← lift (copy_string intf_name);
    notify_sized (Msg (Header MSG_SET_AP_CTSPROTECTION_ENABLED id version 0) None enable)
                 (Msg (Header MSG_SET_AP_CTSPROTECTION_ENABLED id version 0) s enable);;
    mret id').

Definition process_msg_ap_ctsprotection_enabled (input : list cell) : ST W (option (list cell)) :=
  h ← lift (decode_msg_ap_ctsprotection_enabled input);
  if m_type (hd h) =? MSG_GET_AP_CTSPROTECTION_ENABLED then
    '(_, output) ← lift (encode_msg_ap_ctsprotection_enabled (set_enabled h false));
    mret (Some output)
  else mret None.
End agent.

End CtsProtection.

Module FrameBurst.

(** [struct msg_ap_frameburstenabled] (msg_ap_frameburstenabled.h): the common header, then
    its own fields. *)
Record msg_ap_frameburstenabled := Msg {
  hd : msg_header;
  intf_name : charp;
  enabled : bool
}.

Definition resize (h : msg_ap_frameburstenabled) (n : Z) : msg_ap_frameburstenabled :=
  Msg (set_m_size (hd h) n) (intf_name h) (enabled h).
Definition set_enabled (h : msg_ap_frameburstenabled) (x : bool) : msg_ap_frameburstenabled :=
  Msg (hd h) (intf_name h) x.

Section codec.
Context `{Allocator}.

Definition size_msg_ap_frameburstenabled (h : msg_ap_frameburstenabled) : res Z :=
  v ← strlen_ethanol (p_version (hd h));
  n1 ← strlen_ethanol (intf_name h);
  Ok (to_u64 (v + 4 + 4 + 4 + n1 + bool_len_ethanol)).

Definition encode_msg_ap_frameburstenabled : msg_ap_frameburstenabled → res (msg_ap_frameburstenabled * list cell) :=
  encode_with size_msg_ap_frameburstenabled resize (λ h,
    encode_header (m_type (hd h)) (m_id (hd h)) (m_size (hd h));;
    encode_char (intf_name h);;
    encode_bool (enabled h)).

Definition decode_msg_ap_frameburstenabled : list cell → res msg_ap_frameburstenabled := decode_buffer (
  hd ← decode_header;
  intf_name ← decode_char;
  enabled ← decode_bool;
  mret (Msg hd intf_name enabled)).

Definition wf (h : msg_ap_frameburstenabled) : bool :=
  header_ok (hd h) && strs_ok [p_version (hd h); intf_name h].

Definition normal (h : msg_ap_frameburstenabled) : msg_ap_frameburstenabled :=
  Msg (normal_header (hd h)) (canon (intf_name h)) (enabled h).

#[global] Instance msg_ap_frameburstenabled_message : Message msg_ap_frameburstenabled := {|
  msg_head := hd; msg_resize := resize; msg_size := size_msg_ap_frameburstenabled;
  msg_encode := encode_msg_ap_frameburstenabled; msg_decode := decode_msg_ap_frameburstenabled;
  msg_normal := normal; msg_wf := wf
|}.

#[global] Instance msg_ap_frameburstenabled_ok : MessageOk msg_ap_frameburstenabled.
Proof. solve_codec wf size_msg_ap_frameburstenabled. Qed.
End codec.

Section agent.
Context {W : Type} `{Net W, Allocator}.

Definition send_msg_ap_get_frameburstenabled (hostname : charp) (portnum id : Z)
    (intf_name : charp) : ST W (option msg_ap_frameburstenabled * Z) :=
  with_ssl hostname portnum (None, id) (
    id' ← lift (incr_int id);
    version ← lift (copy_string ETHANOL_VERSION);
    s ← lift (copy_string intf_name);
    h1 ← exchange (Msg (Header MSG_GET_AP_FRAMEBURSTENABLED id version 0) s false)
                  (λ t, t =? MSG_GET_AP_FRAMEBURSTENABLED);
    mret (h1, id')).

Definition send_msg_ap_set_frameburstenabled (hostname : charp) (portnum id : Z)
    (intf_name : charp) (enable : bool) : ST W Z :=
  with_ssl_noerr hostname portnum id (
    id' ← lift (incr_int id);
    version ← lift (copy_string ETHANOL_VERSION);
    s ← lift (copy_string intf_name);
    notify (Msg (Header MSG_SET_AP_FRAMEBURSTENABLED id version 0) s enable);;
    mret id').

Definition process_msg_ap_frameburstenabled (input : list cell) : ST W (option (list cell)) :=
  h ← lift (decode_msg_ap_frameburstenabled input);
  if m_type (hd h) =? MSG_GET_AP_FRAMEBURSTENABLED then
    '(_, output) ← lift (encode_msg_ap_frameburstenabled (set_enabled h false));
    mret (Some output)
  else mret None.
End agent.

End FrameBurst.

Module DtimInterval.

(** [struct msg_ap_dtiminterval] (msg_ap_dtiminterval.h): the common header, then
    its own fields. *)
Record msg_ap_dtiminterval := Msg {
  hd : msg_header;
  intf_name : charp;
  dtim_interval : Z
}.

Definition resize (h : msg_ap_dtiminterval) (n : Z) : msg_ap_dtiminterval :=
  Msg (set_m_size (hd h) n) (intf_name h) (dtim_interval h).

Section codec.
Context `{Allocator}.

Definition size_msg_ap_dtiminterval (h : msg_ap_dtiminterval) : res Z :=
  v ← strlen_ethanol (p_version (hd h));
  n1 ← strlen_ethanol (intf_name h);
  Ok (to_u64 (v + 4 + 4 + 4 + n1 + 8)).

Definition encode_msg_ap_dtiminterval : msg_ap_dtiminterval → res (msg_ap_dtiminterval * list cell) :=
  encode_with size_msg_ap_dtiminterval resize (λ h,
    encode_header (m_type (hd h)) (m_id (hd h)) (m_size (hd h));;
    encode_char (intf_name h);;
    encode_long (dtim_interval h)).

Definition decode_msg_ap_dtiminterval : list cell → res msg_ap_dtiminterval := decode_buffer (
  hd ← decode_header;
  intf_name ← decode_char;
  dtim_interval ← decode_long;
  mret (Msg hd intf_name dtim_interval)).

Definition wf (h : msg_ap_dtiminterval) : bool :=
  header_ok (hd h) && strs_ok [p_version (hd h); intf_name h] &&
  i64_ok (dtim_interval h).

Definition normal (h : msg_ap_dtiminterval) : msg_ap_dtiminterval :=
  Msg (normal_header (hd h)) (canon (intf_name h)) (dtim_interval h).

#[global] Instance msg_ap_dtiminterval_message : Message msg_ap_dtiminterval := {|
  msg_head := hd; msg_resize := resize; msg_size := size_msg_ap_dtiminterval;
  msg_encode := encode_msg_ap_dtiminterval; msg_decode := decode_msg_ap_dtiminterval;
  msg_normal := normal; msg_wf := wf
|}.

#[global] Instance msg_ap_dtiminterval_ok : MessageOk msg_ap_dtiminterval.
Proof. solve_codec wf size_msg_ap_dtiminterval. Qed.
End codec.

Section agent.
Context {W : Type} `{Net W, Allocator}.

Definition send_msg_get_ap_dtiminterval (hostname : charp) (portnum id : Z)
    (intf_name : charp) : ST W (option msg_ap_dtiminterval * Z) :=
  with_ssl hostname portnum (None, id) (
    id' ← lift (incr_int id);
    version ← lift (copy_string ETHANOL_VERSION);
    s ← lift (copy_string intf_name);
    h1 ← exchange (Msg (Header MSG_GET_AP_DTIMINTERVAL id version 0) s 0)
                  (λ t, t =? MSG_GET_AP_DTIMINTERVAL);
    mret (h1, id')).

Definition send_msg_set_ap_dtiminterval (hostname : charp) (portnum id : Z)
    (intf_name : charp) (dtim_interval : Z) : ST W Z :=
  with_ssl_noerr hostname portnum id (
    id' ← lift (incr_int id);
    version ← lift (copy_string ETHANOL_VERSION);
    s ← lift (copy_string intf_name);
    notify (Msg (Header MSG_SET_AP_DTIMINTERVAL id version 0) s dtim_interval);;
    mret id').

(** The message is decoded and released: neither request is answered. *)
Definition process_msg_ap_dtiminterval (input : list cell) : ST W (option (list cell)) :=
  lift (decode_msg_ap_dtiminterval input);;
  mret None.
End agent.

End DtimInterval.

Module GuardInterval.

(** [struct msg_ap_guardinterval] (msg_ap_guardinterval.h): the common header, then
    its own fields. *)
Record msg_ap_guardinterval := Msg {
  hd : msg_header;
  intf_name : charp;
  guard_interval : Z
}.

Definition resize (h : msg_ap_guardinterval) (n : Z) : msg_ap_guardinterval :=
  Msg (set_m_size (hd h) n) (intf_name h) (guard_interval h).

Section codec.
Context `{Allocator}.

Definition size_msg_ap_guardinterval (h : msg_ap_guardinterval) : res Z :=
  v ← strlen_ethanol (p_version (hd h));
  n1 ← strlen_ethanol (intf_name h);
  Ok (to_u64 (v + 4 + 4 + 4 + n1 + 8)).

Definition encode_msg_ap_guardinterval : msg_ap_guardinterval → res (msg_ap_guardinterval * list cell) :=
  encode_with size_msg_ap_guardinterval resize (λ h,
    encode_header (m_type (hd h)) (m_id (hd h)) (m_size (hd h));;
    encode_char (intf_name h);;
    encode_2long (guard_interval h)).

Definition decode_msg_ap_guardinterval : list cell → res msg_ap_guardinterval := decode_buffer (
  hd ← decode_header;
  intf_name ← decode_char;
  guard_interval ← decode_2long;
  mret (Msg hd intf_name guard_interval)).

Definition wf (h : msg_ap_guardinterval) : bool :=
  header_ok (hd h) && strs_ok [p_version (hd h); intf_name h] &&
  i64_ok (guard_interval h).

Definition normal (h : msg_ap_guardinterval) : msg_ap_guardinterval :=
  Msg (normal_header (hd h)) (canon (intf_name h)) (guard_interval h).

#[global] Instance msg_ap_guardinterval_message : Message msg_ap_guardinterval := {|
  msg_head := hd; msg_resize := resize; msg_size := size_msg_ap_guardinterval;
  msg_encode := encode_msg_ap_guardinterval; msg_decode := decode_msg_ap_guardinterval;
  msg_normal := normal; msg_wf := wf
|}.

#[global] Instance msg_ap_guardinterval_ok : MessageOk msg_ap_guardinterval.
Proof. solve_codec wf size_msg_ap_guardinterval. Qed.
End codec.

Section agent.
Context {W : Type} `{Net W, Allocator}.

Definition send_msg_get_ap_guardinterval (hostname : charp) (portnum id : Z)
    (intf_name : charp) : ST W (option msg_ap_guardinterval * Z) :=
  with_ssl hostname portnum (None, id) (
    id' ← lift (incr_int id);
    version ← lift (copy_string ETHANOL_VERSION);
    s ← lift (copy_string intf_name);
    h1 ← exchange (Msg (Header MSG_GET_AP_GUARDINTERVAL id version 0) s 0)
                  (λ t, t =? MSG_GET_AP_GUARDINTERVAL);
    mret (h1, id')).

Definition send_msg_set_ap_guardinterval (hostname : charp) (portnum id : Z)
    (intf_name : charp) (guard_interval : Z) : ST W Z :=
  with_ssl_noerr hostname portnum id (
    id' ← lift (incr_int id);
    version ← lift (copy_string ETHANOL_VERSION);
    s ← lift (copy_string intf_name);
    notify (Msg (Header MSG_SET_AP_GUARDINTERVAL id version 0) s guard_interval);;
    mret id').

(** The request is sent back. *)
Definition process_msg_ap_guardinterval (input : list cell) : ST W (option (list cell)) :=
  h ← lift (decode_msg_ap_guardinterval input);
  '(_, output) ← lift (encode_msg_ap_guardinterval h);
  mret (Some output).
End agent.

End GuardInterval.

Module RtsThreshold.

(** [struct msg_ap_rtsthreshold] (msg_ap_rtsthreshold.h): the common header, then
    its own fields. *)
Record msg_ap_rtsthreshold := Msg {
  hd : msg_header;
  intf_name : charp;
  rts_threshold : Z
}.

Definition resize (h : msg_ap_rtsthreshold) (n : Z) : msg_ap_rtsthreshold :=
  Msg (set_m_size (hd h) n) (intf_name h) (rts_threshold h).
Definition set_rts_threshold (h : msg_ap_rtsthreshold) (x : Z) : msg_ap_rtsthreshold :=
  Msg (hd h) (intf_name h) x.

Section codec.
Context `{Allocator}.

Definition size_msg_ap_rtsthreshold (h : msg_ap_rtsthreshold) : res Z :=
  v ← strlen_ethanol (p_version (hd h));
  n1 ← strlen_ethanol (intf_name h);
  Ok (to_u64 (v + 4 + 4 + 4 + n1 + 4)).

Definition encode_msg_ap_rtsthreshold : msg_ap_rtsthreshold → res (msg_ap_rtsthreshold * list cell) :=
  encode_with size_msg_ap_rtsthreshold resize (λ h,
    encode_header (m_type (hd h)) (m_id (hd h)) (m_size (hd h));;
    encode_char (intf_name h);;
    encode_uint (rts_threshold h)).

Definition decode_msg_ap_rtsthreshold : list cell → res msg_ap_rtsthreshold := decode_buffer (
  hd ← decode_header;
  intf_name ← decode_char;
  rts_threshold ← decode_uint;
  mret (Msg hd intf_name rts_threshold)).

Definition wf (h : msg_ap_rtsthreshold) : bool :=
  header_ok (hd h) && strs_ok [p_version (hd h); intf_name h] &&
  u32_ok (rts_threshold h).

Definition normal (h : msg_ap_rtsthreshold) : msg_ap_rtsthreshold :=
  Msg (normal_header (hd h)) (canon (intf_name h)) (rts_threshold h).

#[global] Instance msg_ap_rtsthreshold_message : Message msg_ap_rtsthreshold := {|
  msg_head := hd; msg_resize := resize; msg_size := size_msg_ap_rtsthreshold;
  msg_encode := encode_msg_ap_rtsthreshold; msg_decode := decode_msg_ap_rtsthreshold;
  msg_normal := normal; msg_wf := wf
|}.

#[global] Instance msg_ap_rtsthreshold_ok : MessageOk msg_ap_rtsthreshold.
Proof. solve_codec wf size_msg_ap_rtsthreshold. Qed.
End codec.

Section agent.
Context {W : Type} `{Net W, Allocator}.

(** [size_msg_ap_rtsthreshold] is called before [h.intf_name] is assigned. *)
Definition send_msg_ap_get_rtsthreshold (hostname : charp) (portnum id : Z)
    (intf_name : charp) : ST W (option msg_ap_rtsthreshold * Z) :=
  with_ssl hostname portnum (None, id) (
    id' ← lift (incr_int id);
    version ← lift (copy_string ETHANOL_VERSION);
    unset ← lift unassigned;
    n ← lift (size_msg_ap_rtsthreshold (Msg (Header MSG_GET_AP_RTSTHRESHOLD id version 0) unset 0));
    s ← lift (copy_string intf_name);
    h1 ← exchange_nosize (Msg (Header MSG_GET_AP_RTSTHRESHOLD id version (to_i32 n)) s 0)
                         (λ t, t =? MSG_GET_AP_RTSTHRESHOLD);
    mret (h1, id')).

(** [m_size] is computed before the name is copied, with NULL in its place. *)
Definition send_msg_ap_set_rtsthreshold (hostname : charp) (portnum id : Z)
    (intf_name : charp) (new_rts_threshold : Z) : ST W Z :=
  with_ssl_noerr hostname portnum id (
    id' ← lift (incr_int id);
    version ← lift (copy_string ETHANOL_VERSION);
    s ← lift (copy_string intf_name);
    notify_sized (Msg (Header MSG_SET_AP_RTSTHRESHOLD id version 0) None new_rts_threshold)
                 (Msg (Header MSG_SET_AP_RTSTHRESHOLD id version 0) s new_rts_threshold);;
    mret id').

Definition process_msg_ap_rtsthreshold (input : list cell) : ST W (option (list cell)) :=
  h ← lift (decode_msg_ap_rtsthreshold input);
  if m_type (hd h) =? MSG_GET_AP_RTSTHRESHOLD then
    '(_, output) ← lift (encode_msg_ap_rtsthreshold (set_rts_threshold h 0));
    mret (Some output)
  else mret None.
End agent.

End RtsThreshold.

Module BeaconInterval.

(** [struct msg_beacon_interval] (msg_beacon_interval.h): the common header, then
    its own fields. *)
Record msg_beacon_interval := Msg {
  hd : msg_header;
  intf_name : charp;
  beacon_interval : Z
}.

Definition resize (h : msg_beacon_interval) (n : Z) : msg_beacon_interval :=
  Msg (set_m_size (hd h) n) (intf_name h) (beacon_interval h).
Definition set_beacon_interval (h : msg_beacon_interval) (x : Z) : msg_beacon_interval :=
  Msg (hd h) (intf_name h) x.

Section codec.
Context `{Allocator}.

Definition size_msg_beacon_interval (h : msg_beacon_interval) : res Z :=
  v ← strlen_ethanol (p_version (hd h));
  n1 ← strlen_ethanol (intf_name h);
  Ok (to_u64 (v + 4 + 4 + 4 + n1 + 8)).

Definition encode_msg_beacon_interval : msg_beacon_interval → res (msg_beacon_interval * list cell) :=
  encode_with size_msg_beacon_interval resize (λ h,
    encode_header (m_type (hd h)) (m_id (hd h)) (m_size (hd h));;
    encode_char (intf_name h);;
    encode_2long (beacon_interval h)).

Definition decode_msg_beacon_interval : list cell → res msg_beacon_interval := decode_buffer (
  hd ← decode_header;
  intf_name ← decode_char;
  beacon_interval ← decode_2long;
  mret (Msg hd intf_name beacon_interval)).

Definition wf (h : msg_beacon_interval) : bool :=
  header_ok (hd h) && strs_ok [p_version (hd h); intf_name h] &&
  i64_ok (beacon_interval h).

Definition normal (h : msg_beacon_interval) : msg_beacon_interval :=
  Msg (normal_header (hd h)) (canon (intf_name h)) (beacon_interval h).

#[global] Instance msg_beacon_interval_message : Message msg_beacon_interval := {|
  msg_head := hd; msg_resize := resize; msg_size := size_msg_beacon_interval;
  msg_encode := encode_msg_beacon_interval; msg_decode := decode_msg_beacon_interval;
  msg_normal := normal; msg_wf := wf
|}.

#[global] Instance msg_beacon_interval_ok : MessageOk msg_beacon_interval.
Proof. solve_codec wf size_msg_beacon_interval. Qed.
End codec.

Section agent.
Context {W : Type} `{Net W, Allocator}.

Definition send_msg_get_beacon_interval (hostname : charp) (portnum id : Z)
    (intf_name : charp) : ST W (option msg_beacon_interval * Z) :=
  with_ssl hostname portnum (None, id) (
    id' ← lift (incr_int id);
    version ← lift (copy_string ETHANOL_VERSION);
    s ← lift (copy_string intf_name);
    h1 ← exchange (Msg (Header MSG_GET_BEACON_INTERVAL id version 0) s 0)
                  (λ t, t =? MSG_GET_BEACON_INTERVAL);
    mret (h1, id')).

(** [size_msg_beacon_interval] is called before [h.intf_name] is assigned. *)
Definition send_msg_set_beacon_interval (hostname : charp) (portnum id : Z)
    (intf_name : charp) (beacon_interval : Z) : ST W Z :=
  with_ssl_noerr hostname portnum id (
    id' ← lift (incr_int id);
    version ← lift (copy_string ETHANOL_VERSION);
    unset ← lift unassigned;
    n ← lift (size_msg_beacon_interval (Msg (Header MSG_SET_BEACON_INTERVAL id version 0) unset 0));
    s ← lift (copy_string intf_name);
    notify_nosize (Msg (Header MSG_SET_BEACON_INTERVAL id version (to_i32 n)) s beacon_interval);;
    mret id').

Definition process_msg_beacon_interval (input : list cell) : ST W (option (list cell)) :=
  h ← lift (decode_msg_beacon_interval input);
  if m_type (hd h) =? MSG_GET_BEACON_INTERVAL then
    '(_, output) ← lift (encode_msg_beacon_interval (set_beacon_interval h 0));
    mret (Some output)
  else mret None.
End agent.

End BeaconInterval.
