(* ===== verification/MsgWiphy.v ===== *)
(** Properties of a radio and of the networks on it:
    [msg_channelbandwitdh.c], [msg_fragmentationthreshold.c],
    [msg_supportedinterface.c], [msg_vap_create.c], [msg_conf_ssid_radio.c],
    [msg_location.c], [msg_request_begin_association.c] and
    [msg_fastbsstransition_compatible.c].  The handlers answer with constants
    where the local function is still to be written.

    An argument named [junk_...] is the indeterminate content of a structure
    field that the C function sends without having assigned it. *)
From stdpp Require Import prelude list strings.
From S2P Require Import Prelude CMem MsgCommon BufferHandler World Rpc.

Module ChannelBandwidth.

(** [struct msg_channelbandwitdh] (msg_channelbandwitdh.h): the common header, then
    its own fields. *)
Record msg_channelbandwitdh := Msg {
  hd : msg_header;
  wiphy : Z;
  channel_bandwitdh : Z;
  ht : Z
}.

Definition resize (h : msg_channelbandwitdh) (n : Z) : msg_channelbandwitdh :=
  Msg (set_m_size (hd h) n) (wiphy h) (channel_bandwitdh h) (ht h).

Section codec.
Context `{Allocator}.

Definition message_size_channelbandwitdh (h : msg_channelbandwitdh) : res Z :=
  v ← strlen_ethanol (p_version (hd h));
  Ok (to_i32 (4 + 4 + v + 4 + 8 + 4 + 4)).

Definition encode_msg_channelbandwitdh : msg_channelbandwitdh → res (msg_channelbandwitdh * list cell) :=
  encode_with message_size_channelbandwitdh resize (λ h,
    encode_header (m_type (hd h)) (m_id (hd h)) (m_size (hd h));;
    encode_2long (wiphy h);;
    encode_uint (channel_bandwitdh h);;
    encode_uint (ht h)).

Definition decode_msg_channelbandwitdh : list cell → res msg_channelbandwitdh := decode_buffer (
  hd ← decode_header;
  wiphy ← decode_2long;
  channel_bandwitdh ← decode_uint;
  ht ← decode_uint;
  mret (Msg hd wiphy channel_bandwitdh ht)).

Definition wf (h : msg_channelbandwitdh) : bool :=
  header_ok (hd h) && strs_ok [p_version (hd h)] && i64_ok (wiphy h) &&
  u32_ok (channel_bandwitdh h) && u32_ok (ht h).

Definition normal (h : msg_channelbandwitdh) : msg_channelbandwitdh :=
  Msg (normal_header (hd h)) (wiphy h) (channel_bandwitdh h) (ht h).

#[global] Instance msg_channelbandwitdh_message : Message msg_channelbandwitdh := {|
  msg_head := hd; msg_resize := resize; msg_size := message_size_channelbandwitdh;
  msg_encode := encode_msg_channelbandwitdh; msg_decode := decode_msg_channelbandwitdh;
  msg_normal := normal; msg_wf := wf
|}.

#[global] Instance msg_channelbandwitdh_ok : MessageOk msg_channelbandwitdh.
Proof. solve_codec wf message_size_channelbandwitdh. Qed.
End codec.

Section agent.
Context {W : Type} `{Net W, Allocator}.

Definition send_msg_get_channelbandwitdh (junk_bandwidth junk_ht : Z) (hostname : charp) (portnum id wiphy : Z) :
    ST W (option msg_channelbandwitdh * Z) :=
  with_ssl hostname portnum (None, id) (
    id' ← lift (incr_int id);
    version ← lift (copy_string ETHANOL_VERSION);
    h1 ← exchange (Msg (Header MSG_GET_CHANNELBANDWITDH id version 0) wiphy junk_bandwidth junk_ht)
                  (λ t, t =? MSG_GET_CHANNELBANDWITDH);
    mret (h1, id')).

Definition send_msg_set_channelbandwitdh (hostname : charp)
    (portnum id wiphy channel_bandwitdh ht : Z) : ST W Z :=
  with_ssl hostname portnum id (
    id' ← lift (incr_int id);
    version ← lift (copy_string ETHANOL_VERSION);
    notify (Msg (Header MSG_SET_CHANNELBANDWITDH id version 0) wiphy channel_bandwitdh ht);;
    mret id').

Definition process_msg_channelbandwitdh (input : list cell) : ST W (option (list cell)) :=
  h ← lift (decode_msg_channelbandwitdh input);
  let h := if m_type (hd h) =? MSG_GET_CHANNELBANDWITDH then Msg (hd h) 10 15 40 else h in
  '(_, output) ← lift (encode_msg_channelbandwitdh h);
  mret (Some output).
End agent.

End ChannelBandwidth.

Module Fragmentation.

(** [struct msg_fragmentationthreshold] (msg_fragmentationthreshold.h): the common header, then
    its own fields. *)
Record msg_fragmentationthreshold := Msg {
  hd : msg_header;
  wiphy : Z;
  fragmentation_threshold : Z
}.

Definition resize (h : msg_fragmentationthreshold) (n : Z) : msg_fragmentationthreshold :=
  Msg (set_m_size (hd h) n) (wiphy h) (fragmentation_threshold h).

Section codec.
Context `{Allocator}.

Definition message_size_fragmentationthreshold (h : msg_fragmentationthreshold) : res Z :=
  v ← strlen_ethanol (p_version (hd h));
  Ok (to_i32 (4 + 4 + v + 4 + 8 + 4)).

Definition encode_msg_fragmentationthreshold : msg_fragmentationthreshold → res (msg_fragmentationthreshold * list cell) :=
  encode_with message_size_fragmentationthreshold resize (λ h,
    encode_header (m_type (hd h)) (m_id (hd h)) (m_size (hd h));;
    encode_2long (wiphy h);;
    encode_uint (fragmentation_threshold h)).

Definition decode_msg_fragmentationthreshold : list cell → res msg_fragmentationthreshold := decode_buffer (
  hd ← decode_header;
  wiphy ← decode_2long;
  fragmentation_threshold ← decode_uint;
  mret (Msg hd wiphy fragmentation_threshold)).

Definition wf (h : msg_fragmentationthreshold) : bool :=
  header_ok (hd h) && strs_ok [p_version (hd h)] && i64_ok (wiphy h) &&
  u32_ok (fragmentation_threshold h).

Definition normal (h : msg_fragmentationthreshold) : msg_fragmentationthreshold :=
  Msg (normal_header (hd h)) (wiphy h) (fragmentation_threshold h).

#[global] Instance msg_fragmentationthreshold_message : Message msg_fragmentationthreshold := {|
  msg_head := hd; msg_resize := resize; msg_size := message_size_fragmentationthreshold;
  msg_encode := encode_msg_fragmentationthreshold; msg_decode := decode_msg_fragmentationthreshold;
  msg_normal := normal; msg_wf := wf
|}.

#[global] Instance msg_fragmentationthreshold_ok : MessageOk msg_fragmentationthreshold.
Proof. solve_codec wf message_size_fragmentationthreshold. Qed.
End codec.

Section agent.
Context {W : Type} `{Net W, Allocator}.

Definition send_msg_ap_get_fragmentationthreshold (junk_threshold : Z) (hostname : charp) (portnum id wiphy : Z) :
    ST W (option msg_fragmentationthreshold * Z) :=
  with_ssl hostname portnum (None, id) (
    id' ← lift (incr_int id);
    version ← lift (copy_string ETHANOL_VERSION);
    h1 ← exchange (Msg (Header MSG_GET_FRAGMENTATIONTHRESHOLD id version 0) wiphy junk_threshold)
                  (λ t, t =? MSG_GET_FRAGMENTATIONTHRESHOLD);
    mret (h1, id')).

Definition send_msg_ap_set_fragmentationthreshold (hostname : charp)
    (portnum id wiphy fragmentation_threshold : Z) : ST W Z :=
  with_ssl_noerr hostname portnum id (
    id' ← lift (incr_int id);
    version ← lift (copy_string ETHANOL_VERSION);
    notify (Msg (Header MSG_SET_FRAGMENTATIONTHRESHOLD id version 0) wiphy fragmentation_threshold);;
    mret id').

Definition process_msg_fragmentationthreshold (input : list cell) : ST W (option (list cell)) :=
  h ← lift (decode_msg_fragmentationthreshold input);
  let h := if m_type (hd h) =? MSG_GET_FRAGMENTATIONTHRESHOLD then Msg (hd h) 10 15 else h in
  '(_, output) ← lift (encode_msg_fragmentationthreshold h);
  mret (Some output).
End agent.

End Fragmentation.

Module SupportedInterface.

(** [struct msg_supportedinterface] (msg_supportedinterface.h): the common header, then
    its own fields. *)
Record msg_supportedinterface := Msg {
  hd : msg_header;
  wiphy : Z;
  mode : Z
}.

Definition resize (h : msg_supportedinterface) (n : Z) : msg_supportedinterface :=
  Msg (set_m_size (hd h) n) (wiphy h) (mode h).

Section codec.
Context `{Allocator}.

Definition message_size_supportedinterface (h : msg_supportedinterface) : res Z :=
  v ← strlen_ethanol (p_version (hd h));
  Ok (to_i32 (4 + 4 + v + 4 + 8 + 4)).

Definition encode_msg_supportedinterface : msg_supportedinterface → res (msg_supportedinterface * list cell) :=
  encode_with message_size_supportedinterface resize (λ h,
    encode_header (m_type (hd h)) (m_id (hd h)) (m_size (hd h));;
    encode_2long (wiphy h);;
    encode_int (mode h)).

Definition decode_msg_supportedinterface : list cell → res msg_supportedinterface := decode_buffer (
  hd ← decode_header;
  wiphy ← decode_2long;
  mode ← decode_int;
  mret (Msg hd wiphy mode)).

Definition wf (h : msg_supportedinterface) : bool :=
  header_ok (hd h) && strs_ok [p_version (hd h)] && i64_ok (wiphy h) &&
  i32_ok (mode h).

Definition normal (h : msg_supportedinterface) : msg_supportedinterface :=
  Msg (normal_header (hd h)) (wiphy h) (mode h).

#[global] Instance msg_supportedinterface_message : Message msg_supportedinterface := {|
  msg_head := hd; msg_resize := resize; msg_size := message_size_supportedinterface;
  msg_encode := encode_msg_supportedinterface; msg_decode := decode_msg_supportedinterface;
  msg_normal := normal; msg_wf := wf
|}.

#[global] Instance msg_supportedinterface_ok : MessageOk msg_supportedinterface.
Proof. solve_codec wf message_size_supportedinterface. Qed.
End codec.

Section agent.
Context {W : Type} `{Net W, Allocator}.

Definition send_msg_supportedinterface (junk_mode : Z) (hostname : charp) (portnum id wiphy : Z) :
    ST W (option msg_supportedinterface * Z) :=
  with_ssl hostname portnum (None, id) (
    id' ← lift (incr_int id);
    version ← lift (copy_string ETHANOL_VERSION);
    h1 ← exchange (Msg (Header MSG_GET_SUPPORTEDINTERFACE id version 0) wiphy junk_mode)
                  (λ t, t =? MSG_GET_SUPPORTEDINTERFACE);
    mret (h1, id')).

Definition process_msg_supportedinterface (input : list cell) : ST W (option (list cell)) :=
  h ← lift (decode_msg_supportedinterface input);
  let h := if m_type (hd h) =? MSG_GET_SUPPORTEDINTERFACE then Msg (hd h) 10 15 else h in
  '(_, output) ← lift (encode_msg_supportedinterface h);
  mret (Some output).
End agent.

End SupportedInterface.

Module VapCreate.

(** [struct msg_vap_create] (msg_vap_create.h, with the fields of its [vap]): the common header, then
    its own fields. *)
Record msg_vap_create := Msg {
  hd : msg_header;
  wiphy : Z;
  ssid : charp;
  channel : Z;
  wireless_mode : Z;
  channel_bandwidth : Z;
  protected_mode : bool;
  nomecomproblema : bool
}.

Definition resize (h : msg_vap_create) (n : Z) : msg_vap_create :=
  Msg (set_m_size (hd h) n) (wiphy h) (ssid h) (channel h) (wireless_mode h)
  (channel_bandwidth h) (protected_mode h) (nomecomproblema h).

Section codec.
Context `{Allocator}.

Definition message_size_vap (h : msg_vap_create) : res Z :=
  v ← strlen_ethanol (p_version (hd h));
  n1 ← strlen_ethanol (ssid h);
  Ok (to_i32 (4 + 4 + v + 4 + 4 + n1 + 4 + 4 + 4 + 1 + 1)).

Definition encode_msg_vap : msg_vap_create → res (msg_vap_create * list cell) :=
  encode_with message_size_vap resize (λ h,
    encode_header (m_type (hd h)) (m_id (hd h)) (m_size (hd h));;
    encode_int (wiphy h);;
    encode_char (ssid h);;
    encode_int (channel h);;
    encode_int (wireless_mode h);;
    encode_int (channel_bandwidth h);;
    encode_bool (protected_mode h);;
    encode_bool (nomecomproblema h)).

Definition decode_msg_vap : list cell → res msg_vap_create := decode_buffer (
  hd ← decode_header;
  wiphy ← decode_int;
  ssid ← decode_char;
  channel ← decode_int;
  wireless_mode ← decode_int;
  channel_bandwidth ← decode_int;
  protected_mode ← decode_bool;
  nomecomproblema ← decode_bool;
  mret (Msg hd wiphy ssid channel wireless_mode channel_bandwidth protected_mode nomecomproblema)).

Definition wf (h : msg_vap_create) : bool :=
  header_ok (hd h) && strs_ok [p_version (hd h); ssid h] &&
  i32_ok (wiphy h) && i32_ok (channel h) && i32_ok (wireless_mode h) &&
  i32_ok (channel_bandwidth h).

Definition normal (h : msg_vap_create) : msg_vap_create :=
  Msg (normal_header (hd h)) (wiphy h) (canon (ssid h)) (channel h)
  (wireless_mode h) (channel_bandwidth h) (protected_mode h)
  (nomecomproblema h).

#[global] Instance msg_vap_create_message : Message msg_vap_create := {|
  msg_head := hd; msg_resize := resize; msg_size := message_size_vap;
  msg_encode := encode_msg_vap; msg_decode := decode_msg_vap;
  msg_normal := normal; msg_wf := wf
|}.

#[global] Instance msg_vap_create_ok : MessageOk msg_vap_create.
Proof. solve_codec wf message_size_vap. Qed.
End codec.

Section agent.
Context {W : Type} `{Net W, Allocator}.

(** The argument [vap] is not used: the structure is sent with its [vap]
    unassigned, whose [ssid] is read for the size. *)
Definition send_msg_vap_create (hostname : charp) (portnum id : Z) : ST W (bool * Z) :=
  with_ssl hostname portnum (false, id) (
    id' ← lift (incr_int id);
    version ← lift (copy_string ETHANOL_VERSION);
    unset ← lift unassigned;
    h1 ← exchange (unset (Header MSG_VAP_CREATE id version 0) : msg_vap_create)
                  (λ t, t =? MSG_VAP_CREATE);
    mret (bool_decide (is_Some h1), id')).

(** The [ssid] of the request is replaced. *)
Definition process_msg_vap_create (input : list cell) : ST W (option (list cell)) :=
  h ← lift (decode_msg_vap input);
  s ← lift (copy_string (lit "ssid"));
  '(_, output) ← lift (encode_msg_vap (Msg (hd h) 1 s 5 6 12 true true));
  mret (Some output).
End agent.

End VapCreate.

Module ConfSsidRadio.

(** [struct msg_conf_ssid_radio] (msg_conf_ssid_radio.h, with the fields of its [config]): the common header, then
    its own fields. *)
Record msg_conf_ssid_radio := Msg {
  hd : msg_header;
  wiphy : Z;
  ssid : charp;
  channel : Z;
  wireless_mode : Z;
  bandwidth : Z;
  broadcast_ssid : bool;
  protected_mode : bool;
  wmm_qos : bool
}.

Definition resize (h : msg_conf_ssid_radio) (n : Z) : msg_conf_ssid_radio :=
  Msg (set_m_size (hd h) n) (wiphy h) (ssid h) (channel h) (wireless_mode h)
  (bandwidth h) (broadcast_ssid h) (protected_mode h) (wmm_qos h).

(** [enum wireless_mode_type] and its values; the message carries the value. *)
Inductive wireless_mode_type := A | AN | B | BG | BGN | GN | AC.

Definition mode_code (m : wireless_mode_type) : Z :=
  match m with A => 0 | AN => 1 | B => 2 | BG => 3 | BGN => 4 | GN => 5 | AC => 6 end.

(** [struct ssid_basic_config]. *)
Record ssid_basic_config := Config {
  c_wiphy : Z;
  c_ssid : charp;
  c_channel : Z;
  c_wireless_mode : wireless_mode_type;
  c_bandwidth : Z;
  c_broadcast_ssid : bool;
  c_protected_mode : bool;
  c_wmm_qos : bool
}.

Section codec.
Context `{Allocator}.

Definition message_size_conf_ssid_radio (h : msg_conf_ssid_radio) : res Z :=
  v ← strlen_ethanol (p_version (hd h));
  n1 ← strlen_ethanol (ssid h);
  Ok (to_i32 (4 + 4 + v + 4 + 8 + n1 + 4 + 4 + 4 + 1 + 1 + 1)).

Definition encode_msg_conf_ssid_radio : msg_conf_ssid_radio → res (msg_conf_ssid_radio * list cell) :=
  encode_with message_size_conf_ssid_radio resize (λ h,
    encode_header (m_type (hd h)) (m_id (hd h)) (m_size (hd h));;
    encode_2long (wiphy h);;
    encode_char (ssid h);;
    encode_uint (channel h);;
    encode_int (wireless_mode h);;
    encode_uint (bandwidth h);;
    encode_bool (broadcast_ssid h);;
    encode_bool (protected_mode h);;
    encode_bool (wmm_qos h)).

Definition decode_msg_conf_ssid_radio : list cell → res msg_conf_ssid_radio := decode_buffer (
  hd ← decode_header;
  wiphy ← decode_2long;
  ssid ← decode_char;
  channel ← decode_uint;
  wireless_mode ← decode_int;
  bandwidth ← decode_uint;
  broadcast_ssid ← decode_bool;
  protected_mode ← decode_bool;
  wmm_qos ← decode_bool;
  mret (Msg hd wiphy ssid channel wireless_mode bandwidth broadcast_ssid protected_mode wmm_qos)).

Definition wf (h : msg_conf_ssid_radio) : bool :=
  header_ok (hd h) && strs_ok [p_version (hd h); ssid h] &&
  i64_ok (wiphy h) && u32_ok (channel h) && i32_ok (wireless_mode h) &&
  u32_ok (bandwidth h).

Definition normal (h : msg_conf_ssid_radio) : msg_conf_ssid_radio :=
  Msg (normal_header (hd h)) (wiphy h) (canon (ssid h)) (channel h)
  (wireless_mode h) (bandwidth h) (broadcast_ssid h) (protected_mode h)
  (wmm_qos h).

#[global] Instance msg_conf_ssid_radio_message : Message msg_conf_ssid_radio := {|
  msg_head := hd; msg_resize := resize; msg_size := message_size_conf_ssid_radio;
  msg_encode := encode_msg_conf_ssid_radio; msg_decode := decode_msg_conf_ssid_radio;
  msg_normal := normal; msg_wf := wf
|}.

#[global] Instance msg_conf_ssid_radio_ok : MessageOk msg_conf_ssid_radio.
Proof. solve_codec wf message_size_conf_ssid_radio. Qed.
End codec.

Section agent.
Context {W : Type} `{Net W, Allocator}.

(** [config] is the configuration to send; the reply is decoded and dropped. *)
Definition send_msg_conf_ssid_radio (hostname : charp) (portnum id : Z)
    (config : ssid_basic_config) : ST W Z :=
  with_ssl hostname portnum id (
    id' ← lift (incr_int id);
    version ← lift (copy_string ETHANOL_VERSION);
    s ← lift (copy_string (c_ssid config));
    exchange (Msg (Header MSG_SET_CONF_SSID_RADIO id version 0) (c_wiphy config) s
                  (c_channel config) (mode_code (c_wireless_mode config)) (c_bandwidth config)
                  (c_broadcast_ssid config) (c_protected_mode config) (c_wmm_qos config))
             (λ t, t =? MSG_SET_CONF_SSID_RADIO);;
    mret id').

Definition process_msg_conf_ssid_radio (input : list cell) : ST W (option (list cell)) :=
  h ← lift (decode_msg_conf_ssid_radio input);
  h ← (if m_type (hd h) =? MSG_SET_CONF_SSID_RADIO then
         s ← lift (copy_string (lit "ssid"));
         let h1 := Msg (hd h) 1 s 15 (mode_code B) 255 true true true in
         n ← lift (message_size_conf_ssid_radio h1);
         mret (resize h1 n)
       else mret h);
  '(_, output) ← lift (encode_msg_conf_ssid_radio h);
  mret (Some output).
End agent.

End ConfSsidRadio.

Module Location.

(** [struct msg_location] (msg_location.h): the common header, then
    its own fields. *)
Record msg_location := Msg {
  hd : msg_header;
  mac_sta : charp;
  latitude_resolution : Z;
  latitute_fraction : Z;
  latitute_integer : Z;
  longitude_resolution : Z;
  longitute_fraction : Z;
  longitute_integer : Z;
  altitude_type : Z;
  altitude_resolution : Z;
  altitute_fraction : Z;
  altitute_integer : Z
}.

Definition resize (h : msg_location) (n : Z) : msg_location :=
  Msg (set_m_size (hd h) n) (mac_sta h) (latitude_resolution h)
  (latitute_fraction h) (latitute_integer h) (longitude_resolution h)
  (longitute_fraction h) (longitute_integer h) (altitude_type h)
  (altitude_resolution h) (altitute_fraction h) (altitute_integer h).
Definition set_mac_sta (h : msg_location) (x : charp) : msg_location :=
  Msg (hd h) x (latitude_resolution h) (latitute_fraction h)
  (latitute_integer h) (longitude_resolution h) (longitute_fraction h)
  (longitute_integer h) (altitude_type h) (altitude_resolution h)
  (altitute_fraction h) (altitute_integer h).

Section codec.
Context `{Allocator}.

Definition message_size_location (h : msg_location) : res Z :=
  v ← strlen_ethanol (p_version (hd h));
  n1 ← strlen_ethanol (mac_sta h);
  Ok (to_i32 (4 + 4 + v + 4 + n1 + 2 + 8 + 4 + 2 + 8 + 4 + 2 + 2 + 2 + 8)).

Definition encode_msg_location : msg_location → res (msg_location * list cell) :=
  encode_with message_size_location resize (λ h,
    encode_header (m_type (hd h)) (m_id (hd h)) (m_size (hd h));;
    encode_char (mac_sta h);;
    encode_ushort (latitude_resolution h);;
    encode_ulong (latitute_fraction h);;
    encode_int (latitute_integer h);;
    encode_ushort (longitude_resolution h);;
    encode_ulong (longitute_fraction h);;
    encode_int (longitute_integer h);;
    encode_ushort (altitude_type h);;
    encode_ushort (altitude_resolution h);;
    encode_ushort (altitute_fraction h);;
    encode_ulong (altitute_integer h)).

(** The fields are decoded into local variables; the address is then copied. *)
Definition decode_location_fields : decoder msg_location :=
  hd ← decode_header;
  mac_sta ← decode_char;
  latitude_resolution ← decode_ushort;
  latitute_fraction ← decode_ulong;
  latitute_integer ← decode_uint;
  longitude_resolution ← decode_ushort;
  longitute_fraction ← decode_ulong;
  longitute_integer ← decode_uint;
  altitude_type ← decode_ushort;
  altitude_resolution ← decode_ushort;
  altitute_fraction ← decode_ushort;
  altitute_integer ← decode_ulong;
  mret (Msg hd mac_sta latitude_resolution latitute_fraction latitute_integer
            longitude_resolution longitute_fraction longitute_integer
            altitude_type altitude_resolution altitute_fraction altitute_integer).

Definition decode_msg_location : list cell → res msg_location := decode_buffer (
  h ← decode_location_fields;
  mac ← lift (copy_string (mac_sta h));
  mret (set_mac_sta h mac)).

Definition wf (h : msg_location) : bool :=
  copyable (canon (mac_sta h)) &&
  header_ok (hd h) && strs_ok [p_version (hd h); mac_sta h] &&
  u_ok 16 (latitude_resolution h) && u_ok 64 (latitute_fraction h) &&
  u32_ok (latitute_integer h) && u_ok 16 (longitude_resolution h) &&
  u_ok 64 (longitute_fraction h) && u32_ok (longitute_integer h) &&
  u_ok 16 (altitude_type h) && u_ok 16 (altitude_resolution h) &&
  u_ok 16 (altitute_fraction h) && u_ok 64 (altitute_integer h).

Definition normal (h : msg_location) : msg_location :=
  Msg (normal_header (hd h)) (canon (mac_sta h)) (latitude_resolution h)
  (latitute_fraction h) (latitute_integer h) (longitude_resolution h)
  (longitute_fraction h) (longitute_integer h) (altitude_type h)
  (altitude_resolution h) (altitute_fraction h) (altitute_integer h).

#[global] Instance msg_location_message : Message msg_location := {|
  msg_head := hd; msg_resize := resize; msg_size := message_size_location;
  msg_encode := encode_msg_location; msg_decode := decode_msg_location;
  msg_normal := normal; msg_wf := wf
|}.

#[global] Instance msg_location_ok : MessageOk msg_location.
Proof.
  split; [|intros h Hwf; change (wf h = true) in Hwf; unfold wf in Hwf; split_andb; assumption
          |intros []; reflexivity..].
  intros h Hwf. change (wf h = true) in Hwf. unfold wf in Hwf. wf_facts. eapply codec_intro.
  - reflexivity.
  - reflexivity.
  - change (msg_size h) with (message_size_location h). unfold message_size_location. solve_size.
  - lia.
  - cbn -[mbind mret]. solve_writes.
  - eapply reads_finish.
    + unfold decode_location_fields. eapply reads_eq; [solve_reads|reflexivity].
    + intros rest. cbn [mac_sta].
      rewrite copy_string_canon, canon_idemp by assumption. reflexivity.
  - solve_wire_length.
Qed.
End codec.

Section agent.
Context {W : Type} `{Net W, Allocator}.

(** Only the address is assigned; [junk] is the rest of the structure. *)
Definition send_msg_location (junk : msg_header → charp → msg_location) (hostname : charp)
    (portnum id : Z) (mac_sta : charp) : ST W (option msg_location * Z) :=
  with_ssl hostname portnum (None, id) (
    id' ← lift (incr_int id);
    version ← lift (copy_string ETHANOL_VERSION);
    mac ← lift (copy_string mac_sta);
    h1 ← exchange (junk (Header MSG_GET_LOCATION id version 0) mac)
                  (λ t, t =? MSG_GET_LOCATION);
    mret (h1, id')).

Definition process_msg_location (input : list cell) : ST W (option (list cell)) :=
  h ← lift (decode_msg_location input);
  h ← (if m_type (hd h) =? MSG_GET_LOCATION then
         mac ← lift (copy_string (lit " 8c:dc:d4:9f:77:7d"));
         let h1 := Msg (hd h) mac 15 20 25 16 21 26 17 22 27 32 in
         n ← lift (message_size_location h1);
         mret (resize h1 n)
       else mret h);
  '(_, output) ← lift (encode_msg_location h);
  mret (Some output).
End agent.

End Location.

Module BeginAssociation.

(** [struct msg_request_begin_association] (msg_request_begin_association.h): the common header, then
    its own fields. *)
Record msg_request_begin_association := Msg {
  hd : msg_header;
  mac_new_ap : charp;
  mac_sta : charp
}.

Definition resize (h : msg_request_begin_association) (n : Z) : msg_request_begin_association :=
  Msg (set_m_size (hd h) n) (mac_new_ap h) (mac_sta h).

Section codec.
Context `{Allocator}.

Definition size_request_begin_association (h : msg_request_begin_association) : res Z :=
  v ← strlen_ethanol (p_version (hd h));
  n1 ← strlen_ethanol (mac_new_ap h);
  n2 ← strlen_ethanol (mac_sta h);
  Ok (to_u64 (4 + 4 + v + 4 + n1 + n2)).

Definition encode_msg_request_begin_association : msg_request_begin_association → res (msg_request_begin_association * list cell) :=
  encode_with size_request_begin_association resize (λ h,
    encode_header (m_type (hd h)) (m_id (hd h)) (m_size (hd h));;
    encode_char (mac_new_ap h);;
    encode_char (mac_sta h)).

Definition decode_msg_request_begin_association : list cell → res msg_request_begin_association := decode_buffer (
  hd ← decode_header;
  mac_new_ap ← decode_char;
  mac_sta ← decode_char;
  mret (Msg hd mac_new_ap mac_sta)).

Definition wf (h : msg_request_begin_association) : bool :=
  header_ok (hd h) && strs_ok [p_version (hd h); mac_new_ap h; mac_sta h].

Definition normal (h : msg_request_begin_association) : msg_request_begin_association :=
  Msg (normal_header (hd h)) (canon (mac_new_ap h)) (canon (mac_sta h)).

#[global] Instance msg_request_begin_association_message : Message msg_request_begin_association := {|
  msg_head := hd; msg_resize := resize; msg_size := size_request_begin_association;
  msg_encode := encode_msg_request_begin_association; msg_decode := decode_msg_request_begin_association;
  msg_normal := normal; msg_wf := wf
|}.

#[global] Instance msg_request_begin_association_ok : MessageOk msg_request_begin_association.
Proof. solve_codec wf size_request_begin_association. Qed.
End codec.

Section agent.
Context {W : Type} `{Net W, Allocator}.

(** [malloc(strlen(src) + 1); strcpy]: reads through a NULL argument.  The
    reply is decoded and dropped. *)
Definition send_msg_request_begin_association (hostname : charp) (portnum id : Z)
    (mac_new_ap mac_sta : charp) : ST W Z :=
  with_ssl hostname portnum id (
    id' ← lift (incr_int id);
    version ← lift (copy_string ETHANOL_VERSION);
    ap ← lift (n ← strlen mac_new_ap; malloc_strcpy (n + 1) mac_new_ap);
    sta ← lift (n ← strlen mac_sta; malloc_strcpy (n + 1) mac_sta);
    exchange (Msg (Header MSG_REQUEST_BEGIN_ASSOCIATION id version 0) ap sta)
             (λ t, t =? MSG_REQUEST_BEGIN_ASSOCIATION);;
    mret id').

Definition process_msg_request_begin_association (input : list cell) :
    ST W (option (list cell)) :=
  h ← lift (decode_msg_request_begin_association input);
  h ← (if m_type (hd h) =? MSG_REQUEST_BEGIN_ASSOCIATION then
         ap ← lift (malloc_strcpy 18 (lit "9c:dc:d4:9f:77:7d"));
         sta ← lift (malloc_strcpy 18 (lit "8c:dc:d4:9f:77:7d"));
         mret (Msg (hd h) ap sta)
       else mret h);
  '(_, output) ← lift (encode_msg_request_begin_association h);
  mret (Some output).
End agent.

End BeginAssociation.

Module FastBss.

(** [struct msg_fastbsstransition_compatible] (msg_fastbsstransition_compatible.h): the common header, then
    its own fields. *)
Record msg_fastbsstransition_compatible := Msg {
  hd : msg_header;
  intf_name : charp;
  sta_ip : charp;
  sta_port : Z;
  compatible : bool
}.

Definition resize (h : msg_fastbsstransition_compatible) (n : Z) : msg_fastbsstransition_compatible :=
  Msg (set_m_size (hd h) n) (intf_name h) (sta_ip h) (sta_port h)
  (compatible h).
Definition with_id (h : msg_fastbsstransition_compatible) (i : Z) : msg_fastbsstransition_compatible :=
  Msg (set_m_id (hd h) i) (intf_name h) (sta_ip h) (sta_port h)
  (compatible h).
Definition set_compatible (h : msg_fastbsstransition_compatible) (x : bool) : msg_fastbsstransition_compatible :=
  Msg (hd h) (intf_name h) (sta_ip h) (sta_port h) x.

Section codec.
Context `{Allocator}.

Definition message_size_fastbsstransition_compatible (h : msg_fastbsstransition_compatible) : res Z :=
  v ← strlen_ethanol (p_version (hd h));
  n1 ← strlen_ethanol (intf_name h);
  n2 ← strlen_ethanol (sta_ip h);
  Ok (to_u64 (v + 4 + 4 + 4 + n1 + n2 + 4 + bool_len_ethanol)).

Definition encode_msg_fastbsstransition_compatible : msg_fastbsstransition_compatible → res (msg_fastbsstransition_compatible * list cell) :=
  encode_with message_size_fastbsstransition_compatible resize (λ h,
    encode_header (m_type (hd h)) (m_id (hd h)) (m_size (hd h));;
    encode_char (intf_name h);;
    encode_char (sta_ip h);;
    encode_int (sta_port h);;
    encode_bool (compatible h)).

Definition decode_msg_fastbsstransition_compatible : list cell → res msg_fastbsstransition_compatible := decode_buffer (
  hd ← decode_header;
  intf_name ← decode_char;
  sta_ip ← decode_char;
  sta_port ← decode_int;
  compatible ← decode_bool;
  mret (Msg hd intf_name sta_ip sta_port compatible)).

Definition wf (h : msg_fastbsstransition_compatible) : bool :=
  header_ok (hd h) && strs_ok [p_version (hd h); intf_name h; sta_ip h] &&
  i32_ok (sta_port h).

Definition normal (h : msg_fastbsstransition_compatible) : msg_fastbsstransition_compatible :=
  Msg (normal_header (hd h)) (canon (intf_name h)) (canon (sta_ip h))
  (sta_port h) (compatible h).

#[global] Instance msg_fastbsstransition_compatible_message : Message msg_fastbsstransition_compatible := {|
  msg_head := hd; msg_resize := resize; msg_size := message_size_fastbsstransition_compatible;
  msg_encode := encode_msg_fastbsstransition_compatible; msg_decode := decode_msg_fastbsstransition_compatible;
  msg_normal := normal; msg_wf := wf
|}.

#[global] Instance msg_fastbsstransition_compatible_ok : MessageOk msg_fastbsstransition_compatible.
Proof. solve_codec wf message_size_fastbsstransition_compatible. Qed.
End codec.

Section agent.
Context {W : Type} `{Net W, Allocator}.

Definition send_msg_fastbsstransition_compatible (hostname : charp) (portnum id : Z)
    (intf_name sta_ip : charp) (sta_port : Z) :
    ST W (option msg_fastbsstransition_compatible * Z) :=
  with_ssl hostname portnum (None, id) (
    id' ← lift (incr_int id);
    version ← lift (copy_string ETHANOL_VERSION);
    intf ← lift (copy_string intf_name);
    ip ← lift (copy_string sta_ip);
    h1 ← exchange (Msg (Header MSG_GET_FASTBSSTRANSITION_COMPATIBLE id version 0) intf ip
                       sta_port false)
                  (λ t, t =? MSG_GET_FASTBSSTRANSITION_COMPATIBLE);
    mret (h1, id')).

(** The relay takes [&h->m_id]; the local answer is always false. *)
Definition process_msg_fastbsstransition_compatible (input : list cell) :
    ST W (option (list cell)) :=
  h ← lift (decode_msg_fastbsstransition_compatible input);
  h ← (if nonnull (sta_ip h) then
         '(h1, id') ← send_msg_fastbsstransition_compatible (sta_ip h) (sta_port h)
                        (m_id (hd h)) (intf_name h) None 0;
         let h := with_id h id' in
         match h1 with
         | Some h1 => mret (set_compatible h (compatible h1))
         | None => mret h
         end
       else mret (set_compatible h false));
  '(_, output) ← lift (encode_msg_fastbsstransition_compatible h);
  mret (Some output).
End agent.

End FastBss.
