(* ===== verification/MsgChannel.v ===== *)
(** Channels, frequencies and links: [msg_frequency.c],
    [msg_currentchannel.c], [msg_sta_link_information.c], [msg_channels.c],
    [msg_channelinfo.c] and [msg_interferencemap.c].  On an access point the
    channel and the frequency are read and set through the functions that
    hostapd registers (the [f_] operations of [Device]); on a station through
    the wireless extensions.

    An argument named [junk_...] is the indeterminate content of a structure
    field that the C function sends without having assigned it. *)
From stdpp Require Import prelude list strings.
From Stdlib Require Import SpecFloat.
From S2P Require Import Prelude CMem MsgCommon BufferHandler CFloat World Rpc.

(** [w = return_func_get_wiphy(); w(intf_name)]: the call goes through NULL
    when hostapd has not registered the function. *)
Definition wiphy_of {W} `{Device W} (intf_name : charp) : ST W Z :=
  w ← lift (match f_get_wiphy with Some w => Ok w | None => Err NullDeref end);
  w intf_name.

(** [(f == NULL) ? 0 : f(wiphy)]. *)
Definition call_or_zero {W} (f : option (Z → ST W Z)) (wiphy : Z) : ST W Z :=
  match f with None => mret 0 | Some f => f wiphy end.

Module Frequency.

(** [struct msg_frequency] (msg_frequency.h): the common header, then
    its own fields. *)
Record msg_frequency := Msg {
  hd : msg_header;
  ssid : charp;
  intf_name : charp;
  sta_ip : charp;
  sta_port : Z;
  frequency : Z
}.

Definition resize (h : msg_frequency) (n : Z) : msg_frequency :=
  Msg (set_m_size (hd h) n) (ssid h) (intf_name h) (sta_ip h) (sta_port h)
  (frequency h).
Definition set_ssid (h : msg_frequency) (x : charp) : msg_frequency :=
  Msg (hd h) x (intf_name h) (sta_ip h) (sta_port h) (frequency h).
Definition set_frequency (h : msg_frequency) (x : Z) : msg_frequency :=
  Msg (hd h) (ssid h) (intf_name h) (sta_ip h) (sta_port h) x.

Section codec.
Context `{Allocator}.

Definition message_size_frequency (h : msg_frequency) : res Z :=
  v ← strlen_ethanol (p_version (hd h));
  n1 ← strlen_ethanol (ssid h);
  n2 ← strlen_ethanol (intf_name h);
  n3 ← strlen_ethanol (sta_ip h);
  Ok (to_u64 (v + 4 + 4 + 4 + n1 + n2 + 4 + n3 + 4)).

Definition encode_msg_frequency : msg_frequency → res (msg_frequency * list cell) :=
  encode_with message_size_frequency resize (λ h,
    encode_header (m_type (hd h)) (m_id (hd h)) (m_size (hd h));;
    encode_char (ssid h);;
    encode_char (intf_name h);;
    encode_char (sta_ip h);;
    encode_int (sta_port h);;
    encode_uint (frequency h)).

Definition decode_msg_frequency : list cell → res msg_frequency := decode_buffer (
  hd ← decode_header;
  ssid ← decode_char;
  intf_name ← decode_char;
  sta_ip ← decode_char;
  sta_port ← decode_int;
  frequency ← decode_uint;
  mret (Msg hd ssid intf_name sta_ip sta_port frequency)).

Definition wf (h : msg_frequency) : bool :=
  header_ok (hd h) &&
  strs_ok [p_version (hd h); ssid h; intf_name h; sta_ip h] &&
  i32_ok (sta_port h) && u32_ok (frequency h).

Definition normal (h : msg_frequency) : msg_frequency :=
  Msg (normal_header (hd h)) (canon (ssid h)) (canon (intf_name h))
  (canon (sta_ip h)) (sta_port h) (frequency h).

#[global] Instance msg_frequency_message : Message msg_frequency := {|
  msg_head := hd; msg_resize := resize; msg_size := message_size_frequency;
  msg_encode := encode_msg_frequency; msg_decode := decode_msg_frequency;
  msg_normal := normal; msg_wf := wf
|}.

#[global] Instance msg_frequency_ok : MessageOk msg_frequency.
Proof. solve_codec wf message_size_frequency. Qed.
End codec.

Section agent.
Context {W : Type} `{Net W, Device W, Build, Allocator}.

Definition send_msg_get_frequency (junk_port junk_frequency : Z) (hostname : charp)
    (portnum id : Z) (intf_name sta_ip : charp) (sta_port : Z) :
    ST W (option msg_frequency * Z) :=
  with_ssl hostname portnum (None, id) (
    id' ← lift (incr_int id);
    version ← lift (copy_string ETHANOL_VERSION);
    intf ← lift (copy_string intf_name);
    ip ← lift (copy_string sta_ip);
    h1 ← exchange (Msg (Header MSG_GET_FREQUENCY id version 0) None intf ip junk_port
                       junk_frequency)
                  (λ t, t =? MSG_GET_FREQUENCY);
    mret (h1, id')).

(** [copy_string(&h.intf_name, intf_name)] tests [h.intf_name] before it is
    assigned.  The reply is decoded and dropped. *)
Definition send_msg_set_frequency (hostname : charp) (portnum id : Z) (intf_name : charp)
    (frequency : Z) (sta_ip : charp) (sta_port : Z) : ST W Z :=
  with_ssl_noerr hostname portnum id (
    id' ← lift (incr_int id);
    version ← lift (copy_string ETHANOL_VERSION);
    lift (unassigned : res charp);;
    intf ← lift (copy_string intf_name);
    ip ← lift (copy_string sta_ip);
    exchange (Msg (Header MSG_SET_FREQUENCY id version 0) None intf ip sta_port frequency)
             (λ t, t =? MSG_SET_FREQUENCY);;
    mret id').

(** [trunc(freq / (1024 * 1024))] on a station, 0 when it cannot be read; the
    answer of hostapd, an [int], on an access point. *)
Definition frequency_get_local (intf_name : charp) : ST W Z :=
  if process_station then
    if nonnull intf_name then
      freq ← wapi_get_freq intf_name;
      match freq with
      | Some d => lift (sf_to_uint 32 (f64_div d (f64_of_Z (1024 * 1024))))
      | None => mret 0
      end
    else mret 0
  else
    wiphy ← wiphy_of intf_name;
    z ← call_or_zero f_get_current_frequency wiphy;
    mret (to_u32 z).

Definition frequency_set_local (intf_name : charp) (frequency : Z) : ST W unit :=
  if process_station then
    if nonnull intf_name then wapi_set_freq intf_name (f64_of_Z frequency) 0 else mret tt
  else
    wiphy ← wiphy_of intf_name;
    match f_set_current_frequency with
    | Some f => f wiphy (to_i32 frequency);; mret tt
    | None => mret tt
    end.

(** The received [ssid] is dropped; a request to set the frequency of a
    station is not relayed. *)
Definition process_msg_frequency (junk_port junk_frequency : Z) (input : list cell) :
    ST W (option (list cell)) :=
  h ← lift (decode_msg_frequency input);
  let h := set_ssid h None in
  h ← (if negb (nonnull (sta_ip h)) then
         if m_type (hd h) =? MSG_GET_FREQUENCY then
           x ← frequency_get_local (intf_name h);
           mret (set_frequency h x)
         else
           frequency_set_local (intf_name h) (frequency h);;
           mret h
       else
         if m_type (hd h) =? MSG_GET_FREQUENCY then
           if nonnull (intf_name h) then
             '(h1, _) ← send_msg_get_frequency junk_port junk_frequency (sta_ip h) (sta_port h)
                          (m_id (hd h)) (intf_name h) None 0;
             match h1 with
             | Some h1 => mret (set_frequency h (frequency h1))
             | None => mret h
             end
           else mret (set_frequency h 0)
         else mret h);
  '(_, output) ← lift (encode_msg_frequency h);
  mret (Some output).
End agent.

End Frequency.

Module CurrentChannel.

(** [struct msg_currentchannel] (msg_currentchannel.h): the common header, then
    its own fields. *)
Record msg_currentchannel := Msg {
  hd : msg_header;
  intf_name : charp;
  sta_ip : charp;
  sta_port : Z;
  channel : Z;
  frequency : Z;
  autochannel : bool
}.

Definition resize (h : msg_currentchannel) (n : Z) : msg_currentchannel :=
  Msg (set_m_size (hd h) n) (intf_name h) (sta_ip h) (sta_port h) (channel h)
  (frequency h) (autochannel h).
Definition with_id (h : msg_currentchannel) (i : Z) : msg_currentchannel :=
  Msg (set_m_id (hd h) i) (intf_name h) (sta_ip h) (sta_port h) (channel h)
  (frequency h) (autochannel h).
Definition set_channel (h : msg_currentchannel) (x : Z) : msg_currentchannel :=
  Msg (hd h) (intf_name h) (sta_ip h) (sta_port h) x (frequency h)
  (autochannel h).
Definition set_frequency (h : msg_currentchannel) (x : Z) : msg_currentchannel :=
  Msg (hd h) (intf_name h) (sta_ip h) (sta_port h) (channel h) x
  (autochannel h).
Definition set_autochannel (h : msg_currentchannel) (x : bool) : msg_currentchannel :=
  Msg (hd h) (intf_name h) (sta_ip h) (sta_port h) (channel h) (frequency h)
  x.

Section codec.
Context `{Allocator}.

Definition message_size_currentchannel (h : msg_currentchannel) : res Z :=
  v ← strlen_ethanol (p_version (hd h));
  n1 ← strlen_ethanol (intf_name h);
  n2 ← strlen_ethanol (sta_ip h);
  Ok (to_u64 (4 + 4 + v + 4 + n1 + n2 + 4 + 4 + 4 + bool_len_ethanol)).

Definition encode_msg_currentchannel : msg_currentchannel → res (msg_currentchannel * list cell) :=
  encode_with message_size_currentchannel resize (λ h,
    encode_header (m_type (hd h)) (m_id (hd h)) (m_size (hd h));;
    encode_char (intf_name h);;
    encode_char (sta_ip h);;
    encode_int (sta_port h);;
    encode_int (channel h);;
    encode_int (frequency h);;
    encode_bool (autochannel h)).

Definition decode_msg_currentchannel : list cell → res msg_currentchannel := decode_buffer (
  hd ← decode_header;
  intf_name ← decode_char;
  sta_ip ← decode_char;
  sta_port ← decode_int;
  channel ← decode_int;
  frequency ← decode_int;
  autochannel ← decode_bool;
  mret (Msg hd intf_name sta_ip sta_port channel frequency autochannel)).

Definition wf (h : msg_currentchannel) : bool :=
  header_ok (hd h) && strs_ok [p_version (hd h); intf_name h; sta_ip h] &&
  i32_ok (sta_port h) && i32_ok (channel h) && i32_ok (frequency h).

Definition normal (h : msg_currentchannel) : msg_currentchannel :=
  Msg (normal_header (hd h)) (canon (intf_name h)) (canon (sta_ip h))
  (sta_port h) (channel h) (frequency h) (autochannel h).

#[global] Instance msg_currentchannel_message : Message msg_currentchannel := {|
  msg_head := hd; msg_resize := resize; msg_size := message_size_currentchannel;
  msg_encode := encode_msg_currentchannel; msg_decode := decode_msg_currentchannel;
  msg_normal := normal; msg_wf := wf
|}.

#[global] Instance msg_currentchannel_ok : MessageOk msg_currentchannel.
Proof. solve_codec wf message_size_currentchannel. Qed.
End codec.

Section agent.
Context {W : Type} `{Net W, Device W, Build, Allocator}.

Definition WAPI_FREQ_AUTO : Z := 0.
Definition WAPI_FREQ_FIXED : Z := 1.

Definition send_msg_set_currentchannel (junk_frequency : Z) (hostname : charp)
    (portnum id : Z) (intf_name : charp) (channel : Z) (sta_ip : charp) (sta_port : Z) : ST W Z :=
  with_ssl hostname portnum id (
    id' ← lift (incr_int id);
    version ← lift (copy_string ETHANOL_VERSION);
    intf ← lift (copy_string intf_name);
    ip ← lift (copy_string sta_ip);
    notify (Msg (Header MSG_SET_CURRENTCHANNEL id version 0) intf ip sta_port channel
                junk_frequency (channel <? 0));;
    mret id').

Definition send_msg_get_currentchannel (junk_channel junk_frequency : Z) (junk_auto : bool)
    (hostname : charp) (portnum id : Z) (intf_name sta_ip : charp) (sta_port : Z) :
    ST W (option msg_currentchannel * Z) :=
  with_ssl_noerr hostname portnum (None, id) (
    id' ← lift (incr_int id);
    version ← lift (copy_string ETHANOL_VERSION);
    intf ← lift (copy_string intf_name);
    ip ← lift (copy_string sta_ip);
    h1 ← exchange (Msg (Header MSG_GET_CURRENTCHANNEL id version 0) intf ip sta_port
                       junk_channel junk_frequency junk_auto)
                  (λ t, t =? MSG_GET_CURRENTCHANNEL);
    mret (h1, id')).

(** [get_wlan_frequency] assigns nothing when its socket cannot be opened, and
    the channel only with a name. *)
Definition channel_get_local (h : msg_currentchannel) : ST W msg_currentchannel :=
  if process_station then
    r ← get_wlan_frequency (intf_name h);
    match r with
    | Some (f, c, a) =>
        let h := match c with Some c => set_channel h c | None => h end in
        mret (set_autochannel (set_frequency h f) a)
    | None => mret h
    end
  else
    wiphy ← wiphy_of (intf_name h);
    c ← call_or_zero f_get_current_channel wiphy;
    f ← call_or_zero f_get_current_frequency wiphy;
    mret (set_frequency (set_channel h c) f).

Definition channel_set_local (h : msg_currentchannel) : ST W unit :=
  if process_station then
    r ← wapi_chan2freq (intf_name h) (channel h);
    f ← lift (match r with Some f => Ok f | None => unassigned end);
    wapi_set_freq (intf_name h) f (if autochannel h then WAPI_FREQ_AUTO else WAPI_FREQ_FIXED)
  else
    wiphy ← wiphy_of (intf_name h);
    match f_set_current_channel with
    | Some f => f wiphy (channel h);; mret tt
    | None => mret tt
    end.

(** Both relays take [&h->m_id].  Every request is answered. *)
Definition process_msg_currentchannel (junk_channel junk_frequency : Z) (junk_auto : bool)
    (input : list cell) : ST W (option (list cell)) :=
  h ← lift (decode_msg_currentchannel input);
  h ← (if negb (nonnull (sta_ip h)) then
         if m_type (hd h) =? MSG_GET_CURRENTCHANNEL then channel_get_local h
         else channel_set_local h;; mret h
       else
         if m_type (hd h) =? MSG_GET_CURRENTCHANNEL then
           '(h1, id') ← send_msg_get_currentchannel junk_channel junk_frequency junk_auto
                          (sta_ip h) (sta_port h) (m_id (hd h)) (intf_name h) None 0;
           let h := with_id h id' in
           match h1 with
           | Some h1 => mret (set_channel h (channel h1))
           | None => mret (set_channel h 0)
           end
         else
           id' ← send_msg_set_currentchannel junk_frequency (sta_ip h) (sta_port h) (m_id (hd h))
                   (intf_name h) (channel h) None 0;
           mret (with_id h id'));
  '(_, output) ← lift (encode_msg_currentchannel h);
  mret (Some output).
End agent.

End CurrentChannel.

Module StaLink.

(** [struct msg_sta_link_information] (msg_sta_link_information.h): the common header, then
    its own fields. *)
Record msg_sta_link_information := Msg {
  hd : msg_header;
  intf_name : charp;
  sta_ip : charp;
  sta_port : Z;
  mac_address : charp;
  ssid : charp;
  freq : Z
}.

Definition resize (h : msg_sta_link_information) (n : Z) : msg_sta_link_information :=
  Msg (set_m_size (hd h) n) (intf_name h) (sta_ip h) (sta_port h)
  (mac_address h) (ssid h) (freq h).
Definition with_id (h : msg_sta_link_information) (i : Z) : msg_sta_link_information :=
  Msg (set_m_id (hd h) i) (intf_name h) (sta_ip h) (sta_port h)
  (mac_address h) (ssid h) (freq h).

Section codec.
Context `{Allocator}.

Definition message_size_sta_link_info (h : msg_sta_link_information) : res Z :=
  v ← strlen_ethanol (p_version (hd h));
  n1 ← strlen_ethanol (intf_name h);
  n2 ← strlen_ethanol (sta_ip h);
  n3 ← strlen_ethanol (mac_address h);
  n4 ← strlen_ethanol (ssid h);
  Ok (to_u64 (4 + 4 + v + 4 + n1 + n2 + 4 + n3 + n4 + 4)).

Definition encode_msg_sta_link_information : msg_sta_link_information → res (msg_sta_link_information * list cell) :=
  encode_with message_size_sta_link_info resize (λ h,
    encode_header (m_type (hd h)) (m_id (hd h)) (m_size (hd h));;
    encode_char (intf_name h);;
    encode_char (sta_ip h);;
    encode_int (sta_port h);;
    encode_char (mac_address h);;
    encode_char (ssid h);;
    encode_int (freq h)).

Definition decode_msg_sta_link_information : list cell → res msg_sta_link_information := decode_buffer (
  hd ← decode_header;
  intf_name ← decode_char;
  sta_ip ← decode_char;
  sta_port ← decode_int;
  mac_address ← decode_char;
  ssid ← decode_char;
  freq ← decode_int;
  mret (Msg hd intf_name sta_ip sta_port mac_address ssid freq)).

Definition wf (h : msg_sta_link_information) : bool :=
  header_ok (hd h) &&
  strs_ok [p_version (hd h); intf_name h; sta_ip h; mac_address h; ssid h] &&
  i32_ok (sta_port h) && i32_ok (freq h).

Definition normal (h : msg_sta_link_information) : msg_sta_link_information :=
  Msg (normal_header (hd h)) (canon (intf_name h)) (canon (sta_ip h))
  (sta_port h) (canon (mac_address h)) (canon (ssid h)) (freq h).

#[global] Instance msg_sta_link_information_message : Message msg_sta_link_information := {|
  msg_head := hd; msg_resize := resize; msg_size := message_size_sta_link_info;
  msg_encode := encode_msg_sta_link_information; msg_decode := decode_msg_sta_link_information;
  msg_normal := normal; msg_wf := wf
|}.

#[global] Instance msg_sta_link_information_ok : MessageOk msg_sta_link_information.
Proof. solve_codec wf message_size_sta_link_info. Qed.
End codec.

Section agent.
Context {W : Type} `{Net W, Device W, Build, Allocator}.

Definition set_link (h : msg_sta_link_information) (mac ssid : charp) (freq : Z) :
    msg_sta_link_information :=
  Msg (hd h) (intf_name h) (sta_ip h) (sta_port h) mac ssid freq.

(** Without an interface nothing is sent. *)
Definition get_msg_sta_link_information (hostname : charp) (portnum id : Z)
    (intf_name sta_ip : charp) (sta_port : Z) : ST W (option msg_sta_link_information * Z) :=
  if negb (nonnull intf_name) then mret (None, id) else
  with_ssl hostname portnum (None, id) (
    id' ← lift (incr_int id);
    version ← lift (copy_string ETHANOL_VERSION);
    intf ← lift (copy_string intf_name);
    ip ← lift (copy_string sta_ip);
    h1 ← exchange (Msg (Header MSG_GET_LINK_INFO id version 0) intf ip sta_port None None 0)
                  (λ t, t =? MSG_GET_LINK_INFO);
    mret (h1, id')).

Definition sta_link_local (h : msg_sta_link_information) : ST W msg_sta_link_information :=
  if nonnull (intf_name h) then
    ret ← get_sta_link_information (intf_name h);
    match ret with
    | Some r => mret (set_link h (sl_mac_address r) (sl_ssid r) (sl_freq r))
    | None => mret (set_link h None None (-1))
    end
  else mret (set_link h None None (-1)).

(** Only an access point relays; a station always answers itself. *)
Definition process_msg_sta_link_information (input : list cell) : ST W (option (list cell)) :=
  h ← lift (decode_msg_sta_link_information input);
  h ← (if negb process_station && nonnull (sta_ip h) then
         '(h1, id') ← get_msg_sta_link_information (sta_ip h) (sta_port h) (m_id (hd h))
                        (intf_name h) None 0;
         let h := with_id h id' in
         match h1 with
         | Some h1 => mret (set_link h (mac_address h1) (ssid h1) (freq h1))
         | None => mret h
         end
       else sta_link_local h);
  '(_, output) ← lift (encode_msg_sta_link_information h);
  mret (Some output).
End agent.

End StaLink.

Module Channels.

(** [struct valid_channel]: a frequency, as a [double] pattern, and a channel. *)
Record valid_channel := ValidChannel {
  frequency : Z;
  channel : Z
}.

#[global] Instance valid_channel_entry : Entry valid_channel := {|
  e_size e :=
    Ok (8 + 4);
  e_encode e :=
    encode_double (frequency e);;
    encode_uint (channel e);
  e_decode :=
    frequency ← decode_double;
    channel ← decode_uint;
    mret (ValidChannel frequency channel);
  e_ok e := u_ok 64 (frequency e) && u32_ok (channel e);
  e_normal e := ValidChannel (frequency e) (channel e);
  e_len e := 8 + 4;
  e_wire e :=
    cells (le 8 (frequency e)) ++
    cells (le 4 (channel e))
|}.

#[global] Instance valid_channel_entry_ok : EntryOk valid_channel.
Proof. solve_entry valid_channel_entry. Qed.

(** [struct msg_channels] (msg_channels.h): the common header, then
    its own fields. *)
Record msg_channels := Msg {
  hd : msg_header;
  intf_name : charp;
  num_channels : Z;
  c : option (list valid_channel)
}.

Definition resize (h : msg_channels) (n : Z) : msg_channels :=
  Msg (set_m_size (hd h) n) (intf_name h) (num_channels h) (c h).

Section codec.
Context `{Allocator}.

Definition message_size_channels (h : msg_channels) : res Z :=
  v ← strlen_ethanol (p_version (hd h));
  n1 ← strlen_ethanol (intf_name h);
  a ← array_size (c h) (num_channels h);
  Ok (to_u64 (4 + 4 + v + 4 + n1 + 4 + a)).

Definition encode_msg_channels : msg_channels → res (msg_channels * list cell) :=
  encode_with message_size_channels resize (λ h,
    encode_header (m_type (hd h)) (m_id (hd h)) (m_size (hd h));;
    encode_char (intf_name h);;
    encode_uint (num_channels h);;
    array_encode (c h) (num_channels h)).

Definition decode_msg_channels : list cell → res msg_channels := decode_buffer (
  hd ← decode_header;
  intf_name ← decode_char;
  num_channels ← decode_uint;
  c ← array_decode num_channels;
  mret (Msg hd intf_name num_channels c)).

Definition wf (h : msg_channels) : bool :=
  header_ok (hd h) && strs_ok [p_version (hd h); intf_name h] &&
  u32_ok (num_channels h) && array_wf (num_channels h) (c h).

Definition normal (h : msg_channels) : msg_channels :=
  Msg (normal_header (hd h)) (canon (intf_name h)) (num_channels h)
  (normal_array (c h)).

#[global] Instance msg_channels_message : Message msg_channels := {|
  msg_head := hd; msg_resize := resize; msg_size := message_size_channels;
  msg_encode := encode_msg_channels; msg_decode := decode_msg_channels;
  msg_normal := normal; msg_wf := wf
|}.

#[global] Instance msg_channels_ok : MessageOk msg_channels.
Proof. solve_codec wf message_size_channels. Qed.
End codec.

Section agent.
Context {W : Type} `{Net W, Device W, Build, Allocator}.

(** Without an interface nothing is sent. *)
Definition send_msg_get_valid_channels (hostname : charp) (portnum id : Z)
    (intf_name : charp) : ST W (option msg_channels * Z) :=
  if negb (nonnull intf_name) then mret (None, id) else
  with_ssl hostname portnum (None, id) (
    id' ← lift (incr_int id);
    version ← lift (copy_string ETHANOL_VERSION);
    intf ← lift (copy_string intf_name);
    h1 ← exchange (Msg (Header MSG_GET_VALIDCHANNELS id version 0) intf 0 None)
                  (λ t, t =? MSG_GET_VALIDCHANNELS);
    mret (h1, id')).

Definition process_msg_channels (input : list cell) : ST W (option (list cell)) :=
  h ← lift (decode_msg_channels input);
  h ← (if nonnull (intf_name h) then
         channels ← get_channels (intf_name h);
         match channels with
         | Some l => mret (Msg (hd h) (intf_name h) (Z.of_nat (length l))
                               (Some ((λ '(f, n), ValidChannel f n) <$> l)))
         | None => mret h
         end
       else mret h);
  '(_, output) ← lift (encode_msg_channels h);
  mret (Some output).
End agent.

End Channels.

Module ChannelInfo.

(** [struct channel_info] of msg_channelinfo.h. *)
Record channel_info := Info {
  frequency : Z;
  in_use : bool;
  noise : Z;
  receive_time : Z;
  transmit_time : Z;
  active_time : Z;
  busy_time : Z;
  channel_type : Z;
  extension_channel_busy_time : Z
}.

#[global] Instance channel_info_entry : Entry channel_info := {|
  e_size e :=
    Ok (4 + 4 + 8 + 8 + 8 + 8 + 8 + 8 + 8);
  e_encode e :=
    encode_uint (frequency e);;
    encode_bool (in_use e);;
    encode_long (noise e);;
    encode_2long (receive_time e);;
    encode_2long (transmit_time e);;
    encode_2long (active_time e);;
    encode_2long (busy_time e);;
    encode_2long (channel_type e);;
    encode_2long (extension_channel_busy_time e);
  e_decode :=
    frequency ← decode_uint;
    in_use ← decode_bool;
    noise ← decode_long;
    receive_time ← decode_2long;
    transmit_time ← decode_2long;
    active_time ← decode_2long;
    busy_time ← decode_2long;
    channel_type ← decode_2long;
    extension_channel_busy_time ← decode_2long;
    mret (Info frequency in_use noise receive_time transmit_time active_time busy_time channel_type extension_channel_busy_time);
  e_ok e := u32_ok (frequency e) && i64_ok (noise e) &&
    i64_ok (receive_time e) && i64_ok (transmit_time e) &&
    i64_ok (active_time e) && i64_ok (busy_time e) &&
    i64_ok (channel_type e) && i64_ok (extension_channel_busy_time e);
  e_normal e := Info (frequency e) (in_use e) (noise e) (receive_time e)
    (transmit_time e) (active_time e) (busy_time e) (channel_type e)
    (extension_channel_busy_time e);
  e_len e := 4 + 4 + 8 + 8 + 8 + 8 + 8 + 8 + 8;
  e_wire e :=
    cells (le 4 (frequency e)) ++
    cells [if in_use e then 1 else 0] ++
    cells (le 8 (noise e)) ++
    cells (le 8 (receive_time e)) ++
    cells (le 8 (transmit_time e)) ++
    cells (le 8 (active_time e)) ++
    cells (le 8 (busy_time e)) ++
    cells (le 8 (channel_type e)) ++
    cells (le 8 (extension_channel_busy_time e))
|}.

#[global] Instance channel_info_entry_ok : EntryOk channel_info.
Proof. solve_entry channel_info_entry. Qed.

(** [struct msg_channelinfo] (msg_channelinfo.h): the common header, then
    its own fields. *)
Record msg_channelinfo := Msg {
  hd : msg_header;
  intf_name : charp;
  channel : Z;
  num_freqs : Z;
  info : option (list channel_info)
}.

Definition resize (h : msg_channelinfo) (n : Z) : msg_channelinfo :=
  Msg (set_m_size (hd h) n) (intf_name h) (channel h) (num_freqs h) (info h).

Section codec.
Context `{Allocator}.

Definition message_size_channelinfo (h : msg_channelinfo) : res Z :=
  v ← strlen_ethanol (p_version (hd h));
  n1 ← strlen_ethanol (intf_name h);
  a ← array_size (info h) (num_freqs h);
  Ok (to_u64 (4 + 4 + v + 4 + n1 + 4 + 4 + a)).

Definition encode_msg_channelinfo : msg_channelinfo → res (msg_channelinfo * list cell) :=
  encode_with message_size_channelinfo resize (λ h,
    encode_header (m_type (hd h)) (m_id (hd h)) (m_size (hd h));;
    encode_char (intf_name h);;
    encode_int (channel h);;
    encode_int (num_freqs h);;
    array_encode (info h) (num_freqs h)).

Definition decode_msg_channelinfo : list cell → res msg_channelinfo := decode_buffer (
  hd ← decode_header;
  intf_name ← decode_char;
  channel ← decode_int;
  num_freqs ← decode_uint;
  info ← array_decode num_freqs;
  mret (Msg hd intf_name channel num_freqs info)).

Definition wf (h : msg_channelinfo) : bool :=
  header_ok (hd h) && strs_ok [p_version (hd h); intf_name h] &&
  i32_ok (channel h) && i32_ok (num_freqs h) &&
  array_wf (num_freqs h) (info h).

Definition normal (h : msg_channelinfo) : msg_channelinfo :=
  Msg (normal_header (hd h)) (canon (intf_name h)) (channel h) (num_freqs h)
  (normal_array (info h)).

#[global] Instance msg_channelinfo_message : Message msg_channelinfo := {|
  msg_head := hd; msg_resize := resize; msg_size := message_size_channelinfo;
  msg_encode := encode_msg_channelinfo; msg_decode := decode_msg_channelinfo;
  msg_normal := normal; msg_wf := wf
|}.

#[global] Instance msg_channelinfo_ok : MessageOk msg_channelinfo.
Proof. solve_codec wf message_size_channelinfo. Qed.
End codec.

Section agent.
Context {W : Type} `{Net W, Device W, Build, Allocator}.

(** One entry is sent with the content of a fresh block. *)
Definition send_msg_channelinfo (junk_info : channel_info) (hostname : charp)
    (portnum id : Z) (intf_name : charp) : ST W (option msg_channelinfo * Z) :=
  with_ssl hostname portnum (None, id) (
    id' ← lift (incr_int id);
    version ← lift (copy_string ETHANOL_VERSION);
    intf ← lift (copy_string intf_name);
    h1 ← exchange (Msg (Header MSG_GET_CHANNELINFO id version 0) intf 0 1 (Some [junk_info]))
                  (λ t, t =? MSG_GET_CHANNELINFO);
    mret (h1, id')).

Definition info_of (s : survey_info) : channel_info :=
  Info (to_u32 (si_freq s)) (negb (si_in_use s =? 0)) (si_noise s) (to_i64 (si_chan_t_rx s))
       (to_i64 (si_chan_t_tx s)) (to_i64 (si_chan_active_t s)) (to_i64 (si_chan_busy_t s)) (-1)
       (to_i64 (si_chan_ext_busy_t s)).

(** The array of the request is dropped. *)
Definition process_msg_channelinfo (input : list cell) : ST W (option (list cell)) :=
  h ← lift (decode_msg_channelinfo input);
  let none := Msg (hd h) (intf_name h) (channel h) 0 None in
  h ← (if nonnull (intf_name h) then
         s ← get_survey_info (intf_name h);
         match s with
         | Some (i :: l) => mret (Msg (hd h) (intf_name h) (channel h)
                                      (Z.of_nat (length (i :: l))) (Some (info_of <$> i :: l)))
         | _ => mret none
         end
       else mret none);
  '(_, output) ← lift (encode_msg_channelinfo h);
  mret (Some output).
End agent.

End ChannelInfo.

Module InterferenceMap.

(** [struct interference]; the [snr] is a [float] pattern. *)
Record interference := Interference {
  mac_address : charp;
  channel : Z;
  power : Z;
  snr : Z
}.

#[global] Instance interference_entry : Entry interference := {|
  e_size e :=
    n1 ← strlen_ethanol (mac_address e);
    Ok (n1 + 4 + 8 + 4);
  e_encode e :=
    encode_char (mac_address e);;
    encode_uint (channel e);;
    encode_long (power e);;
    encode_float (snr e);
  e_decode :=
    mac_address ← decode_char;
    channel ← decode_uint;
    power ← decode_long;
    snr ← decode_float;
    mret (Interference mac_address channel power snr);
  e_ok e := cstr_ok (mac_address e) && u32_ok (channel e) &&
    i64_ok (power e) && u32_ok (snr e);
  e_normal e := Interference (canon (mac_address e)) (channel e) (power e)
    (snr e);
  e_len e := 5 + Z.of_nat (length (text (mac_address e))) + 4 + 8 + 4;
  e_wire e :=
    wire_str (text (mac_address e)) ++
    cells (le 4 (channel e)) ++
    cells (le 8 (power e)) ++
    cells (le 4 (snr e))
|}.

#[global] Instance interference_entry_ok : EntryOk interference.
Proof. solve_entry interference_entry. Qed.

(** [struct msg_interferencemap] (msg_interferencemap.h): the common header, then
    its own fields. *)
Record msg_interferencemap := Msg {
  hd : msg_header;
  sta_ip : charp;
  sta_port : Z;
  num_devices : Z;
  inter : option (list interference)
}.

Definition resize (h : msg_interferencemap) (n : Z) : msg_interferencemap :=
  Msg (set_m_size (hd h) n) (sta_ip h) (sta_port h) (num_devices h)
  (inter h).

Section codec.
Context `{Allocator}.

Definition size_msg_interferencemap (h : msg_interferencemap) : res Z :=
  v ← strlen_ethanol (p_version (hd h));
  n1 ← strlen_ethanol (sta_ip h);
  a ← array_size (inter h) (num_devices h);
  Ok (to_i32 (4 + 4 + v + 4 + n1 + 4 + 4 + a)).

Definition encode_msg_interferencemap : msg_interferencemap → res (msg_interferencemap * list cell) :=
  encode_with size_msg_interferencemap resize (λ h,
    encode_header (m_type (hd h)) (m_id (hd h)) (m_size (hd h));;
    encode_char (sta_ip h);;
    encode_int (sta_port h);;
    encode_uint (num_devices h);;
    array_encode (inter h) (num_devices h)).

Definition decode_msg_interferencemap : list cell → res msg_interferencemap := decode_buffer (
  hd ← decode_header;
  sta_ip ← decode_char;
  sta_port ← decode_int;
  num_devices ← decode_uint;
  inter ← array_decode num_devices;
  mret (Msg hd sta_ip sta_port num_devices inter)).

Definition wf (h : msg_interferencemap) : bool :=
  header_ok (hd h) && strs_ok [p_version (hd h); sta_ip h] &&
  i32_ok (sta_port h) && u32_ok (num_devices h) &&
  array_wf (num_devices h) (inter h).

Definition normal (h : msg_interferencemap) : msg_interferencemap :=
  Msg (normal_header (hd h)) (canon (sta_ip h)) (sta_port h) (num_devices h)
  (normal_array (inter h)).

#[global] Instance msg_interferencemap_message : Message msg_interferencemap := {|
  msg_head := hd; msg_resize := resize; msg_size := size_msg_interferencemap;
  msg_encode := encode_msg_interferencemap; msg_decode := decode_msg_interferencemap;
  msg_normal := normal; msg_wf := wf
|}.

#[global] Instance msg_interferencemap_ok : MessageOk msg_interferencemap.
Proof. solve_codec wf size_msg_interferencemap. Qed.
End codec.

Section agent.
Context {W : Type} `{Net W, Device W, Build, Allocator}.

(** One entry is sent, of which only the address is assigned. *)
Definition send_msg_interferencemap (junk_channel junk_power junk_snr : Z) (hostname : charp)
    (portnum id : Z) (sta_ip : charp) (sta_port : Z) : ST W (option msg_interferencemap * Z) :=
  with_ssl hostname portnum (None, id) (
    id' ← lift (incr_int id);
    version ← lift (copy_string ETHANOL_VERSION);
    ip ← lift (copy_string sta_ip);
    h1 ← exchange (Msg (Header MSG_GET_INTERFERENCEMAP id version 0) ip sta_port 1
                       (Some [Interference None junk_channel junk_power junk_snr]))
                  (λ t, t =? MSG_GET_INTERFERENCEMAP);
    mret (h1, id')).

(** The answer is always the same device. *)
Definition process_msg_interferencemap (input : list cell) : ST W (option (list cell)) :=
  h ← lift (decode_msg_interferencemap input);
  mac ← lift (malloc_strcpy 18 (lit "8c:dc:d4:9f:77:7d"));
  '(_, output) ← lift (encode_msg_interferencemap
    (Msg (hd h) None 0 1 (Some [Interference mac 11 75 (f32_bits (f32_of_Z 25))])));
  mret (Some output).
End agent.

End InterferenceMap.
