(* ===== verification/MsgBitrate.v ===== *)
(** Transmission rates and noise: [msg_tx_bitrate.c], [msg_tx_bitrates.c] and
    [msg_noiseinfo.c].

    An argument named [junk_...] is the indeterminate content of a structure
    field that the C function sends without having assigned it. *)
From stdpp Require Import prelude list strings.
From S2P Require Import Prelude CMem MsgCommon BufferHandler CFloat World Rpc MsgChannel.

Module TxBitrate.

(** [struct msg_tx_bitrate] (msg_tx_bitrate.h; the bit rate is a [float] pattern): the common header, then
    its own fields. *)
Record msg_tx_bitrate := Msg {
  hd : msg_header;
  intf_name : charp;
  sta_ip : charp;
  sta_port : Z;
  mac_sta : charp;
  bitrate : Z
}.

Definition resize (h : msg_tx_bitrate) (k : Z) : msg_tx_bitrate :=
  Msg (set_m_size (hd h) k) (intf_name h) (sta_ip h) (sta_port h) (mac_sta h)
  (bitrate h).
Definition with_id (h : msg_tx_bitrate) (i : Z) : msg_tx_bitrate :=
  Msg (set_m_id (hd h) i) (intf_name h) (sta_ip h) (sta_port h) (mac_sta h)
  (bitrate h).
Definition set_bitrate (h : msg_tx_bitrate) (x : Z) : msg_tx_bitrate :=
  Msg (hd h) (intf_name h) (sta_ip h) (sta_port h) (mac_sta h) x.

Section codec.
Context `{Allocator}.

Definition message_size_tx_bitrate (h : msg_tx_bitrate) : res Z :=
  v ← strlen_ethanol (p_version (hd h));
  n1 ← strlen_ethanol (intf_name h);
  n2 ← strlen_ethanol (sta_ip h);
  n3 ← strlen_ethanol (mac_sta h);
  Ok (to_u64 (4 + 4 + v + 4 + n1 + n2 + 4 + n3 + 4)).

Definition encode_msg_tx_bitrate : msg_tx_bitrate → res (msg_tx_bitrate * list cell) :=
  encode_with message_size_tx_bitrate resize (λ h,
    encode_header (m_type (hd h)) (m_id (hd h)) (m_size (hd h));;
    encode_char (intf_name h);;
    encode_char (sta_ip h);;
    encode_int (sta_port h);;
    encode_char (mac_sta h);;
    encode_float (bitrate h)).

Definition decode_msg_tx_bitrate : list cell → res msg_tx_bitrate := decode_buffer (
  hd ← decode_header;
  intf_name ← decode_char;
  sta_ip ← decode_char;
  sta_port ← decode_int;
  mac_sta ← decode_char;
  bitrate ← decode_float;
  mret (Msg hd intf_name sta_ip sta_port mac_sta bitrate)).

Definition wf (h : msg_tx_bitrate) : bool :=
  header_ok (hd h) &&
  strs_ok [p_version (hd h); intf_name h; sta_ip h; mac_sta h] &&
  i32_ok (sta_port h) && u32_ok (bitrate h).

Definition normal (h : msg_tx_bitrate) : msg_tx_bitrate :=
  Msg (normal_header (hd h)) (canon (intf_name h)) (canon (sta_ip h))
  (sta_port h) (canon (mac_sta h)) (bitrate h).

#[global] Instance msg_tx_bitrate_message : Message msg_tx_bitrate := {|
  msg_head := hd; msg_resize := resize; msg_size := message_size_tx_bitrate;
  msg_encode := encode_msg_tx_bitrate; msg_decode := decode_msg_tx_bitrate;
  msg_normal := normal; msg_wf := wf
|}.

#[global] Instance msg_tx_bitrate_ok : MessageOk msg_tx_bitrate.
Proof. solve_codec wf message_size_tx_bitrate. Qed.
End codec.

Section agent.
Context {W : Type} `{Net W, Device W, Build, Allocator}.

(** Without an interface nothing is sent. *)
Definition get_msg_tx_bitrate (junk_bitrate : Z) (hostname : charp) (portnum id : Z)
    (intf_name sta_ip : charp) (sta_port : Z) (mac_sta : charp) :
    ST W (option msg_tx_bitrate * Z) :=
  if negb (nonnull intf_name) then mret (None, id) else
  with_ssl hostname portnum (None, id) (
    id' ← lift (incr_int id);
    version ← lift (copy_string ETHANOL_VERSION);
    intf ← lift (copy_string intf_name);
    ip ← lift (copy_string sta_ip);
    mac ← lift (copy_string mac_sta);
    h1 ← exchange (Msg (Header MSG_GET_TX_BITRATE id version 0) intf ip sta_port mac junk_bitrate)
                  (λ t, t =? MSG_GET_TX_BITRATE);
    mret (h1, id')).

Definition process_msg_get_tx_bitrate (junk_bitrate : Z) (input : list cell) :
    ST W (option (list cell)) :=
  h ← lift (decode_msg_tx_bitrate input);
  h ← (if negb (nonnull (sta_ip h)) then
         b ← get_bitrate (intf_name h) (mac_sta h);
         mret (set_bitrate h b)
       else
         '(h1, id') ← get_msg_tx_bitrate junk_bitrate (sta_ip h) (sta_port h) (m_id (hd h))
                        (intf_name h) None 0 (mac_sta h);
         let h := with_id h id' in
         match h1 with
         | Some h1 => mret (set_bitrate h (bitrate h1))
         | None => mret h
         end);
  '(_, output) ← lift (encode_msg_tx_bitrate h);
  mret (Some output).
End agent.

End TxBitrate.

Module SetTxBitrates.

(** The array of [int] bit rates. *)
#[global] Instance rate_entry : Entry Z := {|
  e_size _ := Ok 4;
  e_encode := encode_int;
  e_decode := decode_int;
  e_ok := i32_ok;
  e_normal e := e;
  e_len _ := 4;
  e_wire e := cells (le 4 e)
|}.

#[global] Instance rate_entry_ok : EntryOk Z.
Proof.
  split; intros e He; [done|apply writes_store|by apply reads_int|].
  cbn [rate_entry e_wire e_len]. solve_wire_length.
Qed.

(** [struct t_set_bitrates] of iw_bitrates.h. *)
Record t_set_bitrates := SetBitrates { s_band : Z; s_n : Z; s_bitrates : option (list Z) }.

(** [struct msg_set_tx_bitrates] (msg_tx_bitrate.h, with the fields of its [b]): the common header, then
    its own fields. *)
Record msg_set_tx_bitrates := Msg {
  hd : msg_header;
  intf_name : charp;
  sta_ip : charp;
  sta_port : Z;
  band : Z;
  n : Z;
  bitrates : option (list Z)
}.

Definition resize (h : msg_set_tx_bitrates) (k : Z) : msg_set_tx_bitrates :=
  Msg (set_m_size (hd h) k) (intf_name h) (sta_ip h) (sta_port h) (band h)
  (n h) (bitrates h).

Section codec.
Context `{Allocator}.

Definition message_size_set_tx_bitrate (h : msg_set_tx_bitrates) : res Z :=
  v ← strlen_ethanol (p_version (hd h));
  n1 ← strlen_ethanol (intf_name h);
  n2 ← strlen_ethanol (sta_ip h);
  Ok (to_u64 (4 + 4 + v + 4 + n1 + n2 + 4 + 4 + 4 + n h * 4)).

Definition encode_msg_set_tx_bitrate : msg_set_tx_bitrates → res (msg_set_tx_bitrates * list cell) :=
  encode_with message_size_set_tx_bitrate resize (λ h,
    encode_header (m_type (hd h)) (m_id (hd h)) (m_size (hd h));;
    encode_char (intf_name h);;
    encode_char (sta_ip h);;
    encode_int (sta_port h);;
    encode_int (band h);;
    let count := if 0 <? n h then n h else 0 in
    encode_int count;;
    array_encode (bitrates h) count).

Definition decode_msg_set_tx_bitrates : list cell → res msg_set_tx_bitrates := decode_buffer (
  hd ← decode_header;
  intf_name ← decode_char;
  sta_ip ← decode_char;
  sta_port ← decode_int;
  band ← decode_int;
  n ← decode_int;
  bitrates ← array_decode n;
  mret (Msg hd intf_name sta_ip sta_port band n bitrates)).

Definition wf (h : msg_set_tx_bitrates) : bool :=
  header_ok (hd h) && strs_ok [p_version (hd h); intf_name h; sta_ip h] &&
  i32_ok (sta_port h) && i32_ok (band h) && i32_ok (n h) &&
  array_wf (n h) (bitrates h).

Definition normal (h : msg_set_tx_bitrates) : msg_set_tx_bitrates :=
  Msg (normal_header (hd h)) (canon (intf_name h)) (canon (sta_ip h))
  (sta_port h) (band h) (n h) (normal_array (bitrates h)).

#[global] Instance msg_set_tx_bitrates_message : Message msg_set_tx_bitrates := {|
  msg_head := hd; msg_resize := resize; msg_size := message_size_set_tx_bitrate;
  msg_encode := encode_msg_set_tx_bitrate; msg_decode := decode_msg_set_tx_bitrates;
  msg_normal := normal; msg_wf := wf
|}.

(** The bytes of the rates: four for each. *)
Lemma rates_length k p : array_wf k p = true → Z.of_nat (length (array_wire (E:=Z) p)) = 4 * k.
Proof.
  intros (-> & _)%array_wf_facts. unfold array_wire.
  induction (elems p) as [|x l IH]; [done|]. rewrite fmap_cons. cbn [concat length].
  rewrite length_app, Nat2Z.inj_add, IH. cbn [e_wire rate_entry]. rewrite length_cells, length_le; lia.
Qed.

Lemma clip_count x : 0 ≤ x → (if 0 <? x then x else 0) = x.
Proof. intros Hx. destruct (Z.ltb_spec 0 x); lia. Qed.

#[global] Instance msg_set_tx_bitrates_ok : MessageOk msg_set_tx_bitrates.
Proof.
  split; [|intros h Hwf; change (wf h = true) in Hwf; unfold wf in Hwf; split_andb; assumption
          |intros []; reflexivity..].
  intros h Hwf. change (wf h = true) in Hwf. unfold wf in Hwf. wf_facts. eapply codec_intro.
  - reflexivity.
  - reflexivity.
  - change (msg_size h) with (message_size_set_tx_bitrate h). unfold message_size_set_tx_bitrate.
    solve_size.
  - lia.
  - cbn -[mbind mret]. rewrite clip_count by lia. solve_writes.
  - eapply reads_eq; [cbn -[mbind mret]; solve_reads | reflexivity].
  - pose proof (rates_length _ _ ltac:(eassumption)). solve_wire_length.
Qed.
End codec.

Section agent.
Context {W : Type} `{Net W, Device W, Build, Allocator}.

(** Without an interface or rates nothing is sent. *)
Definition set_msg_tx_bitrates (hostname : charp) (portnum id : Z) (intf_name sta_ip : charp)
    (sta_port : Z) (b : option t_set_bitrates) : ST W Z :=
  match b with
  | Some b =>
      if negb (nonnull intf_name) then mret id else
      with_ssl hostname portnum id (
        id' ← lift (incr_int id);
        version ← lift (copy_string ETHANOL_VERSION);
        intf ← lift (copy_string intf_name);
        ip ← lift (copy_string sta_ip);
        notify (Msg (Header MSG_SET_TX_BITRATES id version 0) intf ip sta_port (s_band b) (s_n b)
                    (s_bitrates b));;
        mret id')
  | None => mret id
  end.

(** [free_msg_set_tx_bitrate] frees [h->p_version] twice. *)
Definition free_msg_set_tx_bitrate (h : msg_set_tx_bitrates) : res unit :=
  ensure (negb (nonnull (p_version (hd h)))) DoubleFree.

Definition process_msg_set_tx_bitrate (input : list cell) : ST W (option (list cell)) :=
  h ← lift (decode_msg_set_tx_bitrates input);
  (if nonnull (intf_name h) then set_iw_bitrates (intf_name h) (band h) (elems (bitrates h))
   else mret tt);;
  lift (free_msg_set_tx_bitrate h);;
  mret None.
End agent.

End SetTxBitrates.

Module TxBitrates.

(** [bitrate_entry] of iw_bitrates.h; the bit rate is a [float] pattern. *)
Record bitrate_entry := BitrateEntry {
  bitrate : Z;
  is_short : bool
}.

#[global] Instance bitrate_entry_entry : Entry bitrate_entry := {|
  e_size e :=
    Ok (4 + 1);
  e_encode e :=
    encode_float (bitrate e);;
    encode_bool (is_short e);
  e_decode :=
    bitrate ← decode_float;
    is_short ← decode_bool;
    mret (BitrateEntry bitrate is_short);
  e_ok e := u32_ok (bitrate e);
  e_normal e := BitrateEntry (bitrate e) (is_short e);
  e_len e := 4 + 1;
  e_wire e :=
    cells (le 4 (bitrate e)) ++
    cells [if is_short e then 1 else 0]
|}.

#[global] Instance bitrate_entry_entry_ok : EntryOk bitrate_entry.
Proof. solve_entry bitrate_entry_entry. Qed.

(** [iw_bitrates]: the rates of a band. *)
Record iw_bitrates := Band {
  wiphy : charp;
  band : Z;
  n_rates : Z;
  b_rates : option (list bitrate_entry)
}.

Lemma rates_len p : array_len (E:=bitrate_entry) p = 5 * Z.of_nat (length (elems p)).
Proof.
  unfold array_len. induction (elems p) as [|x l IH]; [done|]. cbn [foldr length].
  rewrite IH. cbn [e_len bitrate_entry_entry]. lia.
Qed.

#[global] Instance iw_bitrates_entry : Entry iw_bitrates := {|
  e_size e :=
    n1 ← strlen_ethanol (wiphy e);
    Ok (n1 + 4 + 4 + (if 0 <? n_rates e then n_rates e * (4 + 1) else 0));
  e_encode e :=
    encode_char (wiphy e);;
    encode_int (band e);;
    encode_int (n_rates e);;
    array_encode (b_rates e) (n_rates e);
  e_decode :=
    wiphy ← decode_char;
    band ← decode_int;
    n ← decode_int;
    b ← array_decode n;
    mret (Band wiphy band n b);
  e_ok e := cstr_ok (wiphy e) && i32_ok (band e) && array_wf (n_rates e) (b_rates e);
  e_normal e := Band (canon (wiphy e)) (band e) (n_rates e) (normal_array (b_rates e));
  e_len e := 5 + Z.of_nat (length (text (wiphy e))) + 4 + 4 + array_len (b_rates e);
  e_wire e :=
    wire_str (text (wiphy e)) ++ cells (le 4 (band e)) ++ cells (le 4 (n_rates e)) ++
    array_wire (b_rates e)
|}.

#[global] Instance iw_bitrates_entry_ok : EntryOk iw_bitrates.
Proof.
  split; intros e He; cbn [iw_bitrates_entry e_ok e_size e_len e_encode e_decode e_wire e_normal] in *;
    wf_facts.
  - rewrite strlen_ethanol_ok by assumption. cbn [mbind res_bind]. f_equal.
    destruct (array_wf_facts _ _ ltac:(eassumption)) as (Hn & _). rewrite rates_len, <- Hn.
    destruct (Z.ltb_spec 0 (n_rates e)); lia.
  - solve_writes.
  - eapply reads_eq; [solve_reads|reflexivity].
  - solve_wire_length.
Qed.

(** [struct msg_tx_bitrates] (msg_tx_bitrates.h, with the fields of its [bitr]): the common header, then
    its own fields. *)
Record msg_tx_bitrates := Msg {
  hd : msg_header;
  intf_name : charp;
  sta_ip : charp;
  sta_port : Z;
  n : Z;
  b : option (list iw_bitrates)
}.

Definition resize (h : msg_tx_bitrates) (k : Z) : msg_tx_bitrates :=
  Msg (set_m_size (hd h) k) (intf_name h) (sta_ip h) (sta_port h) (n h)
  (b h).
Definition with_id (h : msg_tx_bitrates) (i : Z) : msg_tx_bitrates :=
  Msg (set_m_id (hd h) i) (intf_name h) (sta_ip h) (sta_port h) (n h) (b h).

Section codec.
Context `{Allocator}.

Definition message_size_tx_bitrates (h : msg_tx_bitrates) : res Z :=
  v ← strlen_ethanol (p_version (hd h));
  n1 ← strlen_ethanol (intf_name h);
  n2 ← strlen_ethanol (sta_ip h);
  a ← array_size (b h) (n h);
  Ok (to_u64 (4 + 4 + v + 4 + n1 + n2 + 4 + 4 + a)).

Definition encode_msg_tx_bitrates : msg_tx_bitrates → res (msg_tx_bitrates * list cell) :=
  encode_with message_size_tx_bitrates resize (λ h,
    encode_header (m_type (hd h)) (m_id (hd h)) (m_size (hd h));;
    encode_char (intf_name h);;
    encode_char (sta_ip h);;
    encode_int (sta_port h);;
    encode_int (n h);;
    array_encode (b h) (n h)).

Definition decode_msg_tx_bitrates : list cell → res msg_tx_bitrates := decode_buffer (
  hd ← decode_header;
  intf_name ← decode_char;
  sta_ip ← decode_char;
  sta_port ← decode_int;
  n ← decode_int;
  b ← array_decode n;
  mret (Msg hd intf_name sta_ip sta_port n b)).

Definition wf (h : msg_tx_bitrates) : bool :=
  header_ok (hd h) && strs_ok [p_version (hd h); intf_name h; sta_ip h] &&
  i32_ok (sta_port h) && i32_ok (n h) && array_wf (n h) (b h).

Definition normal (h : msg_tx_bitrates) : msg_tx_bitrates :=
  Msg (normal_header (hd h)) (canon (intf_name h)) (canon (sta_ip h))
  (sta_port h) (n h) (normal_array (b h)).

#[global] Instance msg_tx_bitrates_message : Message msg_tx_bitrates := {|
  msg_head := hd; msg_resize := resize; msg_size := message_size_tx_bitrates;
  msg_encode := encode_msg_tx_bitrates; msg_decode := decode_msg_tx_bitrates;
  msg_normal := normal; msg_wf := wf
|}.

#[global] Instance msg_tx_bitrates_ok : MessageOk msg_tx_bitrates.
Proof. solve_codec wf message_size_tx_bitrates. Qed.
End codec.

Section agent.
Context {W : Type} `{Net W, Device W, Build, Allocator}.

Definition set_bitr (h : msg_tx_bitrates) (n : Z) (b : option (list iw_bitrates)) : msg_tx_bitrates :=
  Msg (hd h) (intf_name h) (sta_ip h) (sta_port h) n b.

(** [h.bitr] is not assigned: with a positive count, the array is read through
    an unassigned pointer. *)
Definition get_msg_tx_bitrates (junk_n : Z) (hostname : charp) (portnum id : Z)
    (intf_name sta_ip : charp) (sta_port : Z) : ST W (option msg_tx_bitrates * Z) :=
  with_ssl hostname portnum (None, id) (
    id' ← lift (incr_int id);
    version ← lift (copy_string ETHANOL_VERSION);
    intf ← lift (copy_string intf_name);
    ip ← lift (copy_string sta_ip);
    b ← lift (if 0 <? junk_n then unassigned else Ok None);
    h1 ← exchange (Msg (Header MSG_GET_TX_BITRATES id version 0) intf ip sta_port junk_n b)
                  (λ t, t =? MSG_GET_TX_BITRATES);
    mret (h1, id')).

Definition band_of (w : World.iw_bitrates) : iw_bitrates :=
  Band (iw_wiphy w) (iw_band w) (Z.of_nat (length (iw_rates w)))
       (Some ((λ '(r, s), BitrateEntry r s) <$> iw_rates w)).

(** The result of [get_bitrates] is used without a test. *)
Definition process_msg_tx_bitrates (junk_n : Z) (input : list cell) : ST W (option (list cell)) :=
  h ← lift (decode_msg_tx_bitrates input);
  h ← (if negb (nonnull (sta_ip h)) then
         phy ← return_phy_from_intf_name (intf_name h);
         w ← get_bitrates phy;
         match w with
         | Some l => mret (set_bitr h (Z.of_nat (length l)) (Some (band_of <$> l)))
         | None => lift (Err NullDeref)
         end
       else
         '(h1, id') ← get_msg_tx_bitrates junk_n (sta_ip h) (sta_port h) (m_id (hd h))
                        (intf_name h) None 0;
         let h := with_id h id' in
         match h1 with
         | Some h1 => mret (set_bitr h (n h1) (b h1))
         | None => mret h
         end);
  '(_, output) ← lift (encode_msg_tx_bitrates h);
  mret (Some output).
End agent.

End TxBitrates.

Module NoiseInfo.

(** [struct noise_field]; [size_msg_noiseinfo] leaves out [channel_time_busy]. *)
Record noise_field := Noise {
  chan : Z;
  freq : Z;
  nf : Z;
  channel_time : Z;
  channel_time_busy : Z;
  channel_time_rx : Z;
  channel_time_tx : Z
}.

#[global] Instance noise_field_entry : Entry noise_field := {|
  e_size e :=
    Ok (4 + 4 + 2 + 8 + 8 + 8 + 8);
  e_encode e :=
    encode_uint (chan e);;
    encode_uint (freq e);;
    encode_short (nf e);;
    encode_long (channel_time e);;
    encode_long (channel_time_busy e);;
    encode_long (channel_time_rx e);;
    encode_long (channel_time_tx e);
  e_decode :=
    chan ← decode_uint;
    freq ← decode_uint;
    nf ← decode_short;
    channel_time ← decode_long;
    channel_time_busy ← decode_long;
    channel_time_rx ← decode_long;
    channel_time_tx ← decode_long;
    mret (Noise chan freq nf channel_time channel_time_busy channel_time_rx channel_time_tx);
  e_ok e := u32_ok (chan e) && u32_ok (freq e) && s_ok 16 (nf e) &&
    i64_ok (channel_time e) && i64_ok (channel_time_busy e) &&
    i64_ok (channel_time_rx e) && i64_ok (channel_time_tx e);
  e_normal e := Noise (chan e) (freq e) (nf e) (channel_time e)
    (channel_time_busy e) (channel_time_rx e) (channel_time_tx e);
  e_len e := 4 + 4 + 2 + 8 + 8 + 8 + 8;
  e_wire e :=
    cells (le 4 (chan e)) ++
    cells (le 4 (freq e)) ++
    cells (le 2 (nf e)) ++
    cells (le 8 (channel_time e)) ++
    cells (le 8 (channel_time_busy e)) ++
    cells (le 8 (channel_time_rx e)) ++
    cells (le 8 (channel_time_tx e))
|}.

#[global] Instance noise_field_entry_ok : EntryOk noise_field.
Proof. solve_entry noise_field_entry. Qed.

(** [struct msg_noiseinfo] (msg_noiseinfo.h): the common header, then
    its own fields. *)
Record msg_noiseinfo := Msg {
  hd : msg_header;
  sta_ip : charp;
  sta_port : Z;
  intf_name : charp;
  n : Z;
  noise : option (list noise_field)
}.

Definition resize (h : msg_noiseinfo) (k : Z) : msg_noiseinfo :=
  Msg (set_m_size (hd h) k) (sta_ip h) (sta_port h) (intf_name h) (n h)
  (noise h).

Section codec.
Context `{Allocator}.

Definition size_msg_noiseinfo (h : msg_noiseinfo) : res Z :=
  v ← strlen_ethanol (p_version (hd h));
  n1 ← strlen_ethanol (intf_name h);
  n2 ← strlen_ethanol (sta_ip h);
  Ok (to_i32 (4 + 4 + v + 4 + n1 + n2 + 4 + 4 +
              (if 0 <? n h then n h * (4 + 4 + 2 + 8 + 8 + 8) else 0))).

Definition encode_msg_noiseinfo : msg_noiseinfo → res (msg_noiseinfo * list cell) :=
  encode_with size_msg_noiseinfo resize (λ h,
    encode_header (m_type (hd h)) (m_id (hd h)) (m_size (hd h));;
    encode_char (intf_name h);;
    encode_char (sta_ip h);;
    encode_int (sta_port h);;
    encode_uint (n h);;
    array_encode (noise h) (n h)).

Definition decode_msg_noiseinfo : list cell → res msg_noiseinfo := decode_buffer (
  hd ← decode_header;
  intf_name ← decode_char;
  sta_ip ← decode_char;
  sta_port ← decode_int;
  n ← decode_uint;
  noise ← array_decode n;
  mret (Msg hd sta_ip sta_port intf_name n noise)).

Definition wf (h : msg_noiseinfo) : bool :=
  header_ok (hd h) && strs_ok [p_version (hd h); sta_ip h; intf_name h] &&
  i32_ok (sta_port h) && u32_ok (n h) && array_wf (n h) (noise h).

Definition normal (h : msg_noiseinfo) : msg_noiseinfo :=
  Msg (normal_header (hd h)) (canon (sta_ip h)) (sta_port h)
  (canon (intf_name h)) (n h) (normal_array (noise h)).

#[global] Instance msg_noiseinfo_message : Message msg_noiseinfo := {|
  msg_head := hd; msg_resize := resize; msg_size := size_msg_noiseinfo;
  msg_encode := encode_msg_noiseinfo; msg_decode := decode_msg_noiseinfo;
  msg_normal := normal; msg_wf := wf
|}.
End codec.

Section agent.
Context {W : Type} `{Net W, Device W, Build, Allocator}.

(** Without an interface nothing is sent.  [h.n] and [h.noise] are not
    assigned: with a count that is not zero, the array is read through an
    unassigned pointer. *)
Definition send_msg_get_noiseinfo (junk_n : Z) (hostname : charp) (portnum id : Z)
    (intf_name sta_ip : charp) (sta_port : Z) : ST W (option msg_noiseinfo * Z) :=
  if negb (nonnull intf_name) then mret (None, id) else
  with_ssl hostname portnum (None, id) (
    id' ← lift (incr_int id);
    version ← lift (copy_string ETHANOL_VERSION);
    intf ← lift (copy_string intf_name);
    ip ← lift (copy_string sta_ip);
    noise ← lift (if 0 <? junk_n then unassigned else Ok None);
    h1 ← exchange_nosize (Msg (Header MSG_GET_NOISEINFO id version 0) ip sta_port intf junk_n noise)
                         (λ t, t =? MSG_GET_NOISEINFO);
    mret (h1, id')).

(** The structure is filled from the list of hostapd. *)
Definition noise_of (c : channel_noise) : noise_field :=
  Noise (cn_chan c) (cn_freq c) (cn_nf c) (cn_channel_time c) (cn_channel_time_busy c)
        (cn_channel_time_rx c) (cn_channel_time_tx c).

(** What a station sends has only its channel and its noise floor assigned;
    [junk_noise] is the block it lies in. *)
Definition noise_local (junk_noise : noise_field) (intf_name : charp) : ST W (list noise_field) :=
  if process_station then
    mret [Noise 0 (freq junk_noise) 0 (channel_time junk_noise) (channel_time_busy junk_noise)
                (channel_time_rx junk_noise) (channel_time_tx junk_noise)]
  else
    wiphy ← wiphy_of intf_name;
    l ← (match f_get_noise with Some f => f wiphy | None => mret [] end);
    mret (noise_of <$> l).

(** A request for a station is not relayed but sent back.  The decoder leaves
    [h->noise] unassigned when the count is zero, and [free_msg_noiseinfo]
    reads it. *)
Definition process_msg_noiseinfo (junk_noise : noise_field) (input : list cell) :
    ST W (option (list cell)) :=
  h ← lift (decode_msg_noiseinfo input);
  if negb (nonnull (sta_ip h)) then
    l ← noise_local junk_noise (intf_name h);
    '(_, output) ← lift (encode_msg_noiseinfo
      (Msg (hd h) (sta_ip h) (sta_port h) (intf_name h) (Z.of_nat (length l))
           (match l with [] => None | _ => Some l end)));
    mret (Some output)
  else
    '(_, output) ← lift (encode_msg_noiseinfo h);
    lift (ensure (0 <? n h) ReadIndeterminate);;
    mret (Some output).
End agent.

End NoiseInfo.
