(* ===== verification/MsgStats.v ===== *)
(** Interfaces, routes and statistics: [msg_radio_wlans.c], [msg_routes.c],
    [msg_intf.c], [msg_statistics.c], [msg_sta_statistics.c] and
    [msg_radio_linkstatistics.c].

    An argument named [junk_...] is the indeterminate content of the numeric
    fields that the C function sends without having assigned them, by
    position. *)
From stdpp Require Import prelude list strings.
From S2P Require Import Prelude CMem MsgCommon BufferHandler World TimeStamp Rpc.

Module RadioWlans.

(** [struct list_of_radio_wlans]. *)
Record list_of_radio_wlans := Wlan {
  intf_name : charp;
  mac_addr : charp;
  wiphy : Z
}.

#[global] Instance list_of_radio_wlans_entry : Entry list_of_radio_wlans := {|
  e_size e :=
    n1 ← strlen_ethanol (intf_name e);
    n2 ← strlen_ethanol (mac_addr e);
    Ok (n1 + n2 + 4);
  e_encode e :=
    encode_char (intf_name e);;
    encode_char (mac_addr e);;
    encode_int (wiphy e);
  e_decode :=
    intf_name ← decode_char;
    mac_addr ← decode_char;
    wiphy ← decode_int;
    mret (Wlan intf_name mac_addr wiphy);
  e_ok e := cstr_ok (intf_name e) && cstr_ok (mac_addr e) &&
    i32_ok (wiphy e);
  e_normal e := Wlan (canon (intf_name e)) (canon (mac_addr e)) (wiphy e);
  e_len e := 5 + Z.of_nat (length (text (intf_name e))) + 5 + Z.of_nat (length (text (mac_addr e))) + 4;
  e_wire e :=
    wire_str (text (intf_name e)) ++
    wire_str (text (mac_addr e)) ++
    cells (le 4 (wiphy e))
|}.

#[global] Instance list_of_radio_wlans_entry_ok : EntryOk list_of_radio_wlans.
Proof. solve_entry list_of_radio_wlans_entry. Qed.

(** [struct msg_radio_wlans] (msg_radio_wlans.h): the common header, then
    its own fields. *)
Record msg_radio_wlans := Msg {
  hd : msg_header;
  sta_ip : charp;
  sta_port : Z;
  num_wlans : Z;
  w : option (list list_of_radio_wlans)
}.

Definition resize (h : msg_radio_wlans) (n : Z) : msg_radio_wlans :=
  Msg (set_m_size (hd h) n) (sta_ip h) (sta_port h) (num_wlans h) (w h).
Definition with_id (h : msg_radio_wlans) (i : Z) : msg_radio_wlans :=
  Msg (set_m_id (hd h) i) (sta_ip h) (sta_port h) (num_wlans h) (w h).

Section codec.
Context `{Allocator}.

Definition message_size_radio_wlans (h : msg_radio_wlans) : res Z :=
  v ← strlen_ethanol (p_version (hd h));
  n1 ← strlen_ethanol (sta_ip h);
  a ← array_size (w h) (num_wlans h);
  Ok (to_u64 (4 + 4 + v + 4 + n1 + 4 + 4 + a)).

Definition encode_msg_radio_wlans : msg_radio_wlans → res (msg_radio_wlans * list cell) :=
  encode_with message_size_radio_wlans resize (λ h,
    encode_header (m_type (hd h)) (m_id (hd h)) (m_size (hd h));;
    encode_char (sta_ip h);;
    encode_int (sta_port h);;
    encode_int (num_wlans h);;
    array_encode (w h) (num_wlans h)).

Definition decode_msg_radio_wlans : list cell → res msg_radio_wlans := decode_buffer (
  hd ← decode_header;
  sta_ip ← decode_char;
  sta_port ← decode_int;
  num_wlans ← decode_int;
  w ← array_decode num_wlans;
  mret (Msg hd sta_ip sta_port num_wlans w)).

Definition wf (h : msg_radio_wlans) : bool :=
  header_ok (hd h) && strs_ok [p_version (hd h); sta_ip h] &&
  i32_ok (sta_port h) && i32_ok (num_wlans h) &&
  array_wf (num_wlans h) (w h).

Definition normal (h : msg_radio_wlans) : msg_radio_wlans :=
  Msg (normal_header (hd h)) (canon (sta_ip h)) (sta_port h) (num_wlans h)
  (normal_array (w h)).

#[global] Instance msg_radio_wlans_message : Message msg_radio_wlans := {|
  msg_head := hd; msg_resize := resize; msg_size := message_size_radio_wlans;
  msg_encode := encode_msg_radio_wlans; msg_decode := decode_msg_radio_wlans;
  msg_normal := normal; msg_wf := wf
|}.

#[global] Instance msg_radio_wlans_ok : MessageOk msg_radio_wlans.
Proof. solve_codec wf message_size_radio_wlans. Qed.
End codec.

Section agent.
Context {W : Type} `{Net W, Device W, Build, Allocator}.

Definition set_wlans (h : msg_radio_wlans) (n : Z) (l : option (list list_of_radio_wlans)) :
    msg_radio_wlans := Msg (hd h) (sta_ip h) (sta_port h) n l.

Definition send_msg_radio_wlans (hostname : charp) (portnum id : Z) (sta_ip : charp)
    (sta_port : Z) : ST W (option msg_radio_wlans * Z) :=
  with_ssl hostname portnum (None, id) (
    id' ← lift (incr_int id);
    version ← lift (copy_string ETHANOL_VERSION);
    ip ← lift (copy_string sta_ip);
    h1 ← exchange (Msg (Header MSG_GET_RADIO_WLANS id version 0) ip sta_port 0 None)
                  (λ t, t =? MSG_GET_RADIO_WLANS);
    mret (h1, id')).

(** The interfaces that are wireless, with the index of the interface as its
    radio; NULL when there is none. *)
Definition local_wlans (intfs : list interface_fields) : Z * option (list list_of_radio_wlans) :=
  let l := (λ d, Wlan (if_name d) (if_mac d) (if_ifindex d)) <$> filter (λ d, if_is_wifi d = true) intfs in
  (to_i32 (Z.of_nat (length l)), match l with [] => None | _ => Some l end).

(** The relay takes [&h->m_id]. *)
Definition process_msg_radio_wlans (input : list cell) : ST W (option (list cell)) :=
  h ← lift (decode_msg_radio_wlans input);
  h ← (if nonnull (sta_ip h) then
         '(h1, id') ← send_msg_radio_wlans (sta_ip h) (sta_port h) (m_id (hd h)) None 0;
         let h := with_id h id' in
         match h1 with
         | Some h1 => mret (set_wlans h (num_wlans h1) (w h1))
         | None => mret h
         end
       else
         intfs ← get_all_interfaces;
         match intfs with
         | Some d => let '(n, l) := local_wlans d in mret (set_wlans h n l)
         | None => mret (set_wlans h 0 None)
         end);
  '(_, output) ← lift (encode_msg_radio_wlans h);
  mret (Some output).
End agent.

End RadioWlans.

Module Routes.

#[global] Instance entrada_rotas_entry : Entry entrada_rotas := {|
  e_size e :=
    n1 ← strlen_ethanol (rt_ifname e);
    n2 ← strlen_ethanol (rt_dest e);
    n3 ← strlen_ethanol (rt_gw e);
    n4 ← strlen_ethanol (rt_mask e);
    Ok (n1 + n2 + n3 + n4 + 8 + 4 + 4 + 4 + 4 + 4 + 4);
  e_encode e :=
    encode_char (rt_ifname e);;
    encode_char (rt_dest e);;
    encode_char (rt_gw e);;
    encode_char (rt_mask e);;
    encode_long (rt_flags e);;
    encode_int (rt_refcnt e);;
    encode_int (rt_use e);;
    encode_int (rt_metric e);;
    encode_int (rt_mtu e);;
    encode_int (rt_window e);;
    encode_int (rt_irtt e);
  e_decode :=
    rt_ifname_ ← decode_char;
    rt_dest_ ← decode_char;
    rt_gw_ ← decode_char;
    rt_mask_ ← decode_char;
    rt_flags_ ← decode_long;
    rt_refcnt_ ← decode_int;
    rt_use_ ← decode_int;
    rt_metric_ ← decode_int;
    rt_mtu_ ← decode_int;
    rt_window_ ← decode_int;
    rt_irtt_ ← decode_int;
    mret (Rota rt_ifname_ rt_dest_ rt_gw_ rt_mask_ rt_flags_ rt_refcnt_
      rt_use_ rt_metric_ rt_mtu_ rt_window_ rt_irtt_);
  e_ok e := cstr_ok (rt_ifname e) && cstr_ok (rt_dest e) &&
    cstr_ok (rt_gw e) && cstr_ok (rt_mask e) && i64_ok (rt_flags e) &&
    i32_ok (rt_refcnt e) && i32_ok (rt_use e) && i32_ok (rt_metric e) &&
    i32_ok (rt_mtu e) && i32_ok (rt_window e) && i32_ok (rt_irtt e);
  e_normal e := Rota (canon (rt_ifname e)) (canon (rt_dest e))
    (canon (rt_gw e)) (canon (rt_mask e)) (rt_flags e) (rt_refcnt e)
    (rt_use e) (rt_metric e) (rt_mtu e) (rt_window e) (rt_irtt e);
  e_len e := (5 + Z.of_nat (length (text (rt_ifname e)))) +
    (5 + Z.of_nat (length (text (rt_dest e)))) +
    (5 + Z.of_nat (length (text (rt_gw e)))) +
    (5 + Z.of_nat (length (text (rt_mask e)))) + 8 + 4 + 4 + 4 + 4 + 4 + 4;
  e_wire e :=
    wire_str (text (rt_ifname e)) ++
    wire_str (text (rt_dest e)) ++
    wire_str (text (rt_gw e)) ++
    wire_str (text (rt_mask e)) ++
    cells (le 8 (rt_flags e)) ++
    cells (le 4 (rt_refcnt e)) ++
    cells (le 4 (rt_use e)) ++
    cells (le 4 (rt_metric e)) ++
    cells (le 4 (rt_mtu e)) ++
    cells (le 4 (rt_window e)) ++
    cells (le 4 (rt_irtt e))
|}.

#[global] Instance entrada_rotas_entry_ok : EntryOk entrada_rotas.
Proof. solve_entry entrada_rotas_entry. Qed.

(** [struct msg_ap_routes] (msg_routes.h): the common header, then
    its own fields. *)
Record msg_ap_routes := Msg {
  hd : msg_header;
  sta_ip : charp;
  sta_port : Z;
  num_routes : Z;
  r : option (list entrada_rotas)
}.

Definition resize (h : msg_ap_routes) (n : Z) : msg_ap_routes :=
  Msg (set_m_size (hd h) n) (sta_ip h) (sta_port h) (num_routes h) (r h).
Definition with_id (h : msg_ap_routes) (i : Z) : msg_ap_routes :=
  Msg (set_m_id (hd h) i) (sta_ip h) (sta_port h) (num_routes h) (r h).

Section codec.
Context `{Allocator}.

Definition message_size_routes (h : msg_ap_routes) : res Z :=
  v ← strlen_ethanol (p_version (hd h));
  n1 ← strlen_ethanol (sta_ip h);
  a ← array_size (r h) (num_routes h);
  Ok (to_u64 (4 + 4 + v + 4 + n1 + 4 + 4 + a)).

Definition encode_msg_ap_routes : msg_ap_routes → res (msg_ap_routes * list cell) :=
  encode_with message_size_routes resize (λ h,
    encode_header (m_type (hd h)) (m_id (hd h)) (m_size (hd h));;
    encode_char (sta_ip h);;
    encode_int (sta_port h);;
    encode_int (num_routes h);;
    array_encode (r h) (num_routes h)).

Definition decode_msg_ap_routes : list cell → res msg_ap_routes := decode_buffer (
  hd ← decode_header;
  sta_ip ← decode_char;
  sta_port ← decode_int;
  num_routes ← decode_int;
  r ← array_decode num_routes;
  mret (Msg hd sta_ip sta_port num_routes r)).

Definition wf (h : msg_ap_routes) : bool :=
  header_ok (hd h) && strs_ok [p_version (hd h); sta_ip h] &&
  i32_ok (sta_port h) && i32_ok (num_routes h) &&
  array_wf (num_routes h) (r h).

Definition normal (h : msg_ap_routes) : msg_ap_routes :=
  Msg (normal_header (hd h)) (canon (sta_ip h)) (sta_port h) (num_routes h)
  (normal_array (r h)).

#[global] Instance msg_ap_routes_message : Message msg_ap_routes := {|
  msg_head := hd; msg_resize := resize; msg_size := message_size_routes;
  msg_encode := encode_msg_ap_routes; msg_decode := decode_msg_ap_routes;
  msg_normal := normal; msg_wf := wf
|}.

#[global] Instance msg_ap_routes_ok : MessageOk msg_ap_routes.
Proof. solve_codec wf message_size_routes. Qed.
End codec.

Section agent.
Context {W : Type} `{Net W, Device W, Build, Allocator}.
Context `{Host W}.

Definition set_routes (h : msg_ap_routes) (n : Z) (l : option (list entrada_rotas)) :
    msg_ap_routes := Msg (hd h) (sta_ip h) (sta_port h) n l.

(** [copy_string(&h.sta_ip, sta_ip)] tests [h.sta_ip] before it is
    assigned. *)
Definition send_msg_ap_get_routes (hostname : charp) (portnum id : Z) (sta_ip : charp)
    (sta_port : Z) : ST W (option msg_ap_routes * Z) :=
  with_ssl hostname portnum (None, id) (
    id' ← lift (incr_int id);
    version ← lift (copy_string ETHANOL_VERSION);
    lift (unassigned : res charp);;
    ip ← lift (copy_string sta_ip);
    h1 ← exchange (Msg (Header MSG_GET_ROUTES id version 0) ip sta_port 0 None)
                  (λ t, t =? MSG_GET_ROUTES);
    mret (h1, id')).

(** The loop that copies the routes into a fresh array: the four
    [copy_string(&h->r[i].ifname, ...)] of an entry all go to its first field,
    which the first of them tests before it is assigned. *)
Definition copy_routes (l : list entrada_rotas) : res (option (list entrada_rotas)) :=
  match l with [] => Ok (Some []) | _ => unassigned end.

(** The relay takes [&h->m_id] and reads its result without testing it. *)
Definition process_msg_ap_routes (input : list cell) : ST W (option (list cell)) :=
  h ← lift (decode_msg_ap_routes input);
  h ← (if nonnull (sta_ip h) then
         '(h1, id') ← send_msg_ap_get_routes (sta_ip h) (sta_port h) (m_id (hd h)) None 0;
         h1 ← lift (deref h1);
         mret (set_routes (with_id h id') (num_routes h1) (r h1))
       else
         lista ← get_routes;
         match lista with
         | Some l => r ← lift (copy_routes l); mret (set_routes h (to_i32 (Z.of_nat (length l))) r)
         | None => mret h
         end);
  '(_, output) ← lift (encode_msg_ap_routes h);
  mret (Some output).
End agent.

End Routes.

Module Intf.

(** [struct interface]. *)
Record interface := Interface {
  ifindex : Z;
  intf_name : charp;
  intf_type : Z;
  mac_address : charp;
  is_wifi : bool
}.

#[global] Instance interface_entry : Entry interface := {|
  e_size e :=
    n1 ← strlen_ethanol (intf_name e);
    n2 ← strlen_ethanol (mac_address e);
    Ok (n1 + n2 + 8 + 4 + 4);
  e_encode e :=
    encode_2long (ifindex e);;
    encode_char (intf_name e);;
    encode_uint (intf_type e);;
    encode_char (mac_address e);;
    encode_bool (is_wifi e);
  e_decode :=
    ifindex ← decode_2long;
    intf_name ← decode_char;
    intf_type ← decode_uint;
    mac_address ← decode_char;
    is_wifi ← decode_bool;
    mret (Interface ifindex intf_name intf_type mac_address is_wifi);
  e_ok e := cstr_ok (intf_name e) && cstr_ok (mac_address e) &&
    i64_ok (ifindex e) && u32_ok (intf_type e);
  e_normal e := Interface (ifindex e) (canon (intf_name e)) (intf_type e)
    (canon (mac_address e)) (is_wifi e);
  e_len e := 5 + Z.of_nat (length (text (intf_name e))) + 5 + Z.of_nat (length (text (mac_address e))) + 8 + 4 + 4;
  e_wire e :=
    cells (le 8 (ifindex e)) ++
    wire_str (text (intf_name e)) ++
    cells (le 4 (intf_type e)) ++
    wire_str (text (mac_address e)) ++
    cells [if is_wifi e then 1 else 0]
|}.

#[global] Instance interface_entry_ok : EntryOk interface.
Proof. solve_entry interface_entry. Qed.

(** [struct msg_intf] (msg_intf.h): the common header, then
    its own fields. *)
Record msg_intf := Msg {
  hd : msg_header;
  sta_ip : charp;
  sta_port : Z;
  num_intf : Z;
  intf : option (list interface)
}.

Definition resize (h : msg_intf) (n : Z) : msg_intf :=
  Msg (set_m_size (hd h) n) (sta_ip h) (sta_port h) (num_intf h) (intf h).
Definition with_id (h : msg_intf) (i : Z) : msg_intf :=
  Msg (set_m_id (hd h) i) (sta_ip h) (sta_port h) (num_intf h) (intf h).

Section codec.
Context `{Allocator}.

Definition size_msg_intf (h : msg_intf) : res Z :=
  v ← strlen_ethanol (p_version (hd h));
  n1 ← strlen_ethanol (sta_ip h);
  a ← array_size (intf h) (num_intf h);
  Ok (to_i32 (4 + 4 + v + 4 + n1 + 8 + 4 + a)).

Definition encode_msg_intf : msg_intf → res (msg_intf * list cell) :=
  encode_with size_msg_intf resize (λ h,
    encode_header (m_type (hd h)) (m_id (hd h)) (m_size (hd h));;
    encode_char (sta_ip h);;
    encode_int (sta_port h);;
    encode_uint (num_intf h);;
    array_encode (intf h) (num_intf h)).

Definition decode_msg_intf : list cell → res msg_intf := decode_buffer (
  hd ← decode_header;
  sta_ip ← decode_char;
  sta_port ← decode_int;
  num_intf ← decode_uint;
  intf ← array_decode num_intf;
  mret (Msg hd sta_ip sta_port num_intf intf)).

Definition wf (h : msg_intf) : bool :=
  header_ok (hd h) && strs_ok [p_version (hd h); sta_ip h] &&
  i32_ok (sta_port h) && u32_ok (num_intf h) &&
  array_wf (num_intf h) (intf h).

Definition normal (h : msg_intf) : msg_intf :=
  Msg (normal_header (hd h)) (canon (sta_ip h)) (sta_port h) (num_intf h)
  (normal_array (intf h)).

#[global] Instance msg_intf_message : Message msg_intf := {|
  msg_head := hd; msg_resize := resize; msg_size := size_msg_intf;
  msg_encode := encode_msg_intf; msg_decode := decode_msg_intf;
  msg_normal := normal; msg_wf := wf
|}.

#[global] Instance msg_intf_ok : MessageOk msg_intf.
Proof. solve_codec wf size_msg_intf. Qed.
End codec.

Section agent.
Context {W : Type} `{Net W, Device W, Build, Allocator}.

Definition set_intf (h : msg_intf) (n : Z) (l : option (list interface)) : msg_intf :=
  Msg (hd h) (sta_ip h) (sta_port h) n l.

(** The type and the wireless flag of the one interface asked for are not
    assigned.  [returned_type = MSG_GET_ONE_INTF] is an assignment, so every
    reply is decoded. *)
Definition generic_get_intf_msg (junk_type : Z) (junk_wifi : bool) (m_type : Z) (hostname : charp)
    (portnum id : Z) (intf_name sta_ip : charp) (sta_port : Z) : ST W (option msg_intf * Z) :=
  if negb ((m_type =? MSG_GET_ALL_INTF) || (m_type =? MSG_GET_ONE_INTF)) then mret (None, id) else
  with_ssl hostname portnum (None, id) (
    id' ← lift (incr_int id);
    version ← lift (copy_string ETHANOL_VERSION);
    ip ← lift (copy_string sta_ip);
    '(n, l) ← (if negb (nonnull intf_name) then mret (0, None)
               else name ← lift (copy_string intf_name);
                    mret (1, Some [Interface 0 name junk_type None junk_wifi]));
    h1 ← exchange (Msg (Header m_type id version 0) ip sta_port n l) (λ _, true);
    mret (h1, id')).

Definition send_msg_get_interfaces (hostname : charp) (portnum id : Z) (sta_ip : charp)
    (sta_port : Z) : ST W (option msg_intf * Z) :=
  generic_get_intf_msg 0 false MSG_GET_ALL_INTF hostname portnum id None sta_ip sta_port.

Definition send_msg_get_one_intf (junk_type : Z) (junk_wifi : bool) (hostname : charp)
    (portnum id : Z) (intf_name sta_ip : charp) (sta_port : Z) : ST W (option msg_intf * Z) :=
  generic_get_intf_msg junk_type junk_wifi MSG_GET_ONE_INTF hostname portnum id intf_name sta_ip sta_port.

Definition of_fields (d : interface_fields) : interface :=
  Interface (if_ifindex d) (if_name d) (to_u32 (if_type d)) (if_mac d) (if_is_wifi d).

(** The interfaces asked for, one query each; an unknown one is left as it
    came. *)
Fixpoint fill_interfaces (l : list interface) : ST W (list interface) :=
  match l with
  | [] => mret []
  | i :: l =>
      f ← get_interface (intf_name i);
      let i := match f with
               | Some d => Interface (if_ifindex d) (intf_name i) (to_u32 (if_type d)) (if_mac d)
                             (if_is_wifi d)
               | None => i
               end in
      l ← fill_interfaces l;
      mret (i :: l)
  end.

Definition intf_local (h : msg_intf) : ST W msg_intf :=
  if m_type (hd h) =? MSG_GET_ALL_INTF then
    p ← get_all_interfaces;
    match p with
    | Some d => mret (set_intf h (Z.of_nat (length d)) (Some (of_fields <$> d)))
    | None => mret (set_intf h 0 None)
    end
  else
    l ← fill_interfaces (elems (intf h));
    mret (set_intf h (num_intf h) (match intf h with Some _ => Some l | None => None end)).

(** The relay takes [&h->m_id]; only the first interface is asked for. *)
Definition intf_relay (junk_type : Z) (junk_wifi : bool) (h : msg_intf) : ST W msg_intf :=
  '(h1, id') ← (if m_type (hd h) =? MSG_GET_ALL_INTF
                then send_msg_get_interfaces (sta_ip h) (sta_port h) (m_id (hd h)) None 0
                else send_msg_get_one_intf junk_type junk_wifi (sta_ip h) (sta_port h) (m_id (hd h))
                       (match elems (intf h) with i :: _ => intf_name i | [] => None end) None 0);
  let h := with_id h id' in
  match h1 with
  | Some h1 => mret (set_intf h (num_intf h1) (intf h1))
  | None => mret h
  end.

Definition process_msg_intf (junk_type : Z) (junk_wifi : bool) (input : list cell) :
    ST W (option (list cell)) :=
  h ← lift (decode_msg_intf input);
  h ← (if negb (nonnull (sta_ip h)) then intf_local h else intf_relay junk_type junk_wifi h);
  '(_, output) ← lift (encode_msg_intf h);
  mret (Some output).
End agent.

End Intf.

Module Statistics.

(** [struct msg_radio_linkstatitics] (msg_statistics.h): the common header, then
    its own fields. *)
Record msg_radio_linkstatitics := Msg {
  hd : msg_header;
  intf_name : charp;
  sta_ip : charp;
  sta_port : Z;
  rx_packets : Z;
  rx_bytes : Z;
  rx_dropped : Z;
  rx_errors : Z;
  tx_packets : Z;
  tx_bytes : Z;
  tx_dropped : Z;
  tx_errors : Z;
  time_stamp_ : charp
}.

Definition resize (h : msg_radio_linkstatitics) (n : Z) : msg_radio_linkstatitics :=
  Msg (set_m_size (hd h) n) (intf_name h) (sta_ip h) (sta_port h)
  (rx_packets h) (rx_bytes h) (rx_dropped h) (rx_errors h) (tx_packets h)
  (tx_bytes h) (tx_dropped h) (tx_errors h) (time_stamp_ h).

Section codec.
Context `{Allocator}.

Definition message_size_radio_linkstatitics (h : msg_radio_linkstatitics) : res Z :=
  v ← strlen_ethanol (p_version (hd h));
  n1 ← strlen_ethanol (intf_name h);
  n2 ← strlen_ethanol (sta_ip h);
  n3 ← strlen_ethanol (time_stamp_ h);
  Ok (to_u64 (v + 4 + 4 + 4 + n1 + n2 + 4 + 8 + 8 + 8 + 8 + 8 + 8 + 8 + 8 + n3)).

Definition encode_msg_radio_linkstatitics : msg_radio_linkstatitics → res (msg_radio_linkstatitics * list cell) :=
  encode_with message_size_radio_linkstatitics resize (λ h,
    encode_header (m_type (hd h)) (m_id (hd h)) (m_size (hd h));;
    encode_char (intf_name h);;
    encode_char (sta_ip h);;
    encode_int (sta_port h);;
    encode_2long (rx_packets h);;
    encode_2long (rx_bytes h);;
    encode_2long (rx_dropped h);;
    encode_2long (rx_errors h);;
    encode_2long (tx_packets h);;
    encode_2long (tx_bytes h);;
    encode_2long (tx_dropped h);;
    encode_2long (tx_errors h);;
    encode_char (time_stamp_ h)).

Definition decode_msg_radio_linkstatitics : list cell → res msg_radio_linkstatitics := decode_buffer (
  hd ← decode_header;
  intf_name ← decode_char;
  sta_ip ← decode_char;
  sta_port ← decode_int;
  rx_packets ← decode_2long;
  rx_bytes ← decode_2long;
  rx_dropped ← decode_2long;
  rx_errors ← decode_2long;
  tx_packets ← decode_2long;
  tx_bytes ← decode_2long;
  tx_dropped ← decode_2long;
  tx_errors ← decode_2long;
  time_stamp_ ← decode_char;
  mret (Msg hd intf_name sta_ip sta_port rx_packets rx_bytes rx_dropped rx_errors tx_packets tx_bytes tx_dropped tx_errors time_stamp_)).

Definition wf (h : msg_radio_linkstatitics) : bool :=
  header_ok (hd h) &&
  strs_ok [p_version (hd h); intf_name h; sta_ip h; time_stamp_ h] &&
  i32_ok (sta_port h) && i64_ok (rx_packets h) && i64_ok (rx_bytes h) &&
  i64_ok (rx_dropped h) && i64_ok (rx_errors h) && i64_ok (tx_packets h) &&
  i64_ok (tx_bytes h) && i64_ok (tx_dropped h) && i64_ok (tx_errors h).

Definition normal (h : msg_radio_linkstatitics) : msg_radio_linkstatitics :=
  Msg (normal_header (hd h)) (canon (intf_name h)) (canon (sta_ip h))
  (sta_port h) (rx_packets h) (rx_bytes h) (rx_dropped h) (rx_errors h)
  (tx_packets h) (tx_bytes h) (tx_dropped h) (tx_errors h)
  (canon (time_stamp_ h)).

#[global] Instance msg_radio_linkstatitics_message : Message msg_radio_linkstatitics := {|
  msg_head := hd; msg_resize := resize; msg_size := message_size_radio_linkstatitics;
  msg_encode := encode_msg_radio_linkstatitics; msg_decode := decode_msg_radio_linkstatitics;
  msg_normal := normal; msg_wf := wf
|}.

#[global] Instance msg_radio_linkstatitics_ok : MessageOk msg_radio_linkstatitics.
Proof. solve_codec wf message_size_radio_linkstatitics. Qed.
End codec.

Section agent.
Context {W : Type} `{Net W, Device W, Build, Allocator}.

Definition set_statistics (h : msg_radio_linkstatitics) (rp rb rd re tp tb td te : Z) (t : charp) :
    msg_radio_linkstatitics :=
  Msg (hd h) (intf_name h) (sta_ip h) (sta_port h) rp rb rd re tp tb td te t.

(** The counters of the request are not assigned. *)
Definition send_msg_get_statistics (junk : nat → Z) (hostname : charp) (portnum id : Z)
    (intf_name sta_ip : charp) (sta_port : Z) : ST W (option msg_radio_linkstatitics * Z) :=
  if negb (nonnull intf_name) then mret (None, id) else
  with_ssl hostname portnum (None, id) (
    id' ← lift (incr_int id);
    version ← lift (copy_string ETHANOL_VERSION);
    intf ← lift (copy_string intf_name);
    ip ← lift (copy_string sta_ip);
    h1 ← exchange (Msg (Header MSG_GET_STATISTICS id version 0) intf ip sta_port
                       (junk 0%nat) (junk 1%nat) (junk 2%nat) (junk 3%nat)
                       (junk 4%nat) (junk 5%nat) (junk 6%nat) (junk 7%nat) None)
                  (λ t, t =? MSG_GET_STATISTICS);
    mret (h1, id')).

Definition statistics_local (h : msg_radio_linkstatitics) : ST W msg_radio_linkstatitics :=
  if process_station then
    stats ← get_interface_stats (intf_name h);
    t ← time_stamp;
    match stats with
    | Some s => mret (set_statistics h (nl_rx_packets s) (nl_rx_bytes s) (nl_rx_dropped s)
                        (nl_rx_errors s) (nl_tx_packets s) (nl_tx_bytes s) (nl_tx_dropped s)
                        (nl_tx_errors s) t)
    | None => mret (set_statistics h 0 0 0 0 0 0 0 0 t)
    end
  else
    s ← get_statistics (intf_name h);
    t ← time_stamp;
    mret (set_statistics h (ns_rx_packets s) (ns_rx_bytes s) (ns_rx_dropped s) (ns_rx_errors s)
            (ns_tx_packets s) (ns_tx_bytes s) (ns_tx_dropped s) (ns_tx_errors s) t).

(** [h->time_stamp = h1->time_stamp; free_msg_radio_linkstatitics(h1)]: the
    text is released before it is encoded. *)
Definition statistics_relay (junk : nat → Z) (h : msg_radio_linkstatitics) :
    ST W msg_radio_linkstatitics :=
  '(h1, _) ← send_msg_get_statistics junk (sta_ip h) (sta_port h) (m_id (hd h)) (intf_name h) None 0;
  match h1 with
  | Some h1 =>
      lift (ensure (negb (nonnull (time_stamp_ h1))) UseAfterFree);;
      mret (set_statistics h (rx_packets h1) (rx_bytes h1) (rx_dropped h1) (rx_errors h1)
              (tx_packets h1) (tx_bytes h1) (tx_dropped h1) (tx_errors h1) None)
  | None => mret h
  end.

Definition process_msg_statistics (junk : nat → Z) (input : list cell) : ST W (option (list cell)) :=
  h ← lift (decode_msg_radio_linkstatitics input);
  h ← (if negb process_station && nonnull (sta_ip h) then statistics_relay junk h
       else statistics_local h);
  '(_, output) ← lift (encode_msg_radio_linkstatitics h);
  mret (Some output).
End agent.

End Statistics.

Module StaStatistics.

#[global] Instance sta_stat_data_entry : Entry sta_stat_data := {|
  e_size e :=
    n1 ← strlen_ethanol (sd_mac_addr e);
    n2 ← strlen_ethanol (sd_intf_name e);
    Ok (n1 + n2 + 8 + 8 + 8 + 8 + 8 + 8 + 8 + 8 + 8 + 8 + 8 + 4 + 4 + 4 + 8 +
        8);
  e_encode e :=
    encode_char (sd_mac_addr e);;
    encode_char (sd_intf_name e);;
    encode_long (sd_inactive_time e);;
    encode_2long (sd_rx_bytes e);;
    encode_2long (sd_tx_bytes e);;
    encode_2long (sd_rx_packets e);;
    encode_2long (sd_rx_duration e);;
    encode_2long (sd_tx_packets e);;
    encode_2long (sd_tx_retries e);;
    encode_2long (sd_tx_failed e);;
    encode_2long (sd_beacon_loss e);;
    encode_2long (sd_beacon_rx e);;
    encode_2long (sd_rx_drop_misc e);;
    encode_int (sd_signal e);;
    encode_int (sd_signal_avg e);;
    encode_int (sd_beacon_signal_avg e);;
    encode_2long (sd_time_offset e);;
    encode_2long (sd_connected_time e);
  e_decode :=
    sd_mac_addr_ ← decode_char;
    sd_intf_name_ ← decode_char;
    sd_inactive_time_ ← decode_long;
    sd_rx_bytes_ ← decode_2long;
    sd_tx_bytes_ ← decode_2long;
    sd_rx_packets_ ← decode_2long;
    sd_rx_duration_ ← decode_2long;
    sd_tx_packets_ ← decode_2long;
    sd_tx_retries_ ← decode_2long;
    sd_tx_failed_ ← decode_2long;
    sd_beacon_loss_ ← decode_2long;
    sd_beacon_rx_ ← decode_2long;
    sd_rx_drop_misc_ ← decode_2long;
    sd_signal_ ← decode_int;
    sd_signal_avg_ ← decode_int;
    sd_beacon_signal_avg_ ← decode_int;
    sd_time_offset_ ← decode_2long;
    sd_connected_time_ ← decode_2long;
    mret (StaStat sd_mac_addr_ sd_intf_name_ sd_inactive_time_ sd_rx_bytes_
      sd_tx_bytes_ sd_rx_packets_ sd_rx_duration_ sd_tx_packets_
      sd_tx_retries_ sd_tx_failed_ sd_beacon_loss_ sd_beacon_rx_
      sd_rx_drop_misc_ sd_signal_ sd_signal_avg_ sd_beacon_signal_avg_
      sd_time_offset_ sd_connected_time_ None);
  e_ok e := cstr_ok (sd_mac_addr e) && cstr_ok (sd_intf_name e) &&
    i64_ok (sd_inactive_time e) && i64_ok (sd_rx_bytes e) &&
    i64_ok (sd_tx_bytes e) && i64_ok (sd_rx_packets e) &&
    i64_ok (sd_rx_duration e) && i64_ok (sd_tx_packets e) &&
    i64_ok (sd_tx_retries e) && i64_ok (sd_tx_failed e) &&
    i64_ok (sd_beacon_loss e) && i64_ok (sd_beacon_rx e) &&
    i64_ok (sd_rx_drop_misc e) && i32_ok (sd_signal e) &&
    i32_ok (sd_signal_avg e) && i32_ok (sd_beacon_signal_avg e) &&
    i64_ok (sd_time_offset e) && i64_ok (sd_connected_time e);
  e_normal e := StaStat (canon (sd_mac_addr e)) (canon (sd_intf_name e))
    (sd_inactive_time e) (sd_rx_bytes e) (sd_tx_bytes e) (sd_rx_packets e)
    (sd_rx_duration e) (sd_tx_packets e) (sd_tx_retries e) (sd_tx_failed e)
    (sd_beacon_loss e) (sd_beacon_rx e) (sd_rx_drop_misc e) (sd_signal e)
    (sd_signal_avg e) (sd_beacon_signal_avg e) (sd_time_offset e)
    (sd_connected_time e) None;
  e_len e := (5 + Z.of_nat (length (text (sd_mac_addr e)))) +
    (5 + Z.of_nat (length (text (sd_intf_name e)))) + 8 + 8 + 8 + 8 + 8 + 8 +
    8 + 8 + 8 + 8 + 8 + 4 + 4 + 4 + 8 + 8;
  e_wire e :=
    wire_str (text (sd_mac_addr e)) ++
    wire_str (text (sd_intf_name e)) ++
    cells (le 8 (sd_inactive_time e)) ++
    cells (le 8 (sd_rx_bytes e)) ++
    cells (le 8 (sd_tx_bytes e)) ++
    cells (le 8 (sd_rx_packets e)) ++
    cells (le 8 (sd_rx_duration e)) ++
    cells (le 8 (sd_tx_packets e)) ++
    cells (le 8 (sd_tx_retries e)) ++
    cells (le 8 (sd_tx_failed e)) ++
    cells (le 8 (sd_beacon_loss e)) ++
    cells (le 8 (sd_beacon_rx e)) ++
    cells (le 8 (sd_rx_drop_misc e)) ++
    cells (le 4 (sd_signal e)) ++
    cells (le 4 (sd_signal_avg e)) ++
    cells (le 4 (sd_beacon_signal_avg e)) ++
    cells (le 8 (sd_time_offset e)) ++
    cells (le 8 (sd_connected_time e))
|}.

#[global] Instance sta_stat_data_entry_ok : EntryOk sta_stat_data.
Proof. solve_entry sta_stat_data_entry. Qed.

(** [sta_statistics] of sta_statistics.h: a count and the stations. *)
Record sta_statistics := Stations { st_n : Z; st_data : option (list sta_stat_data) }.

(** [h->stat]: a count, zero when it is NULL, and the entries; a count that is
    not positive is read back as NULL. *)
#[global] Instance sta_statistics_entry : Entry (option sta_statistics) := {|
  e_size s :=
    match s with
    | Some s => a ← array_size (st_data s) (st_n s); Ok (8 + a)
    | None => Ok 8
    end;
  e_encode s :=
    encode_long (match s with Some s => st_n s | None => 0 end);;
    match s with Some s => array_encode (st_data s) (st_n s) | None => mret tt end;
  e_decode :=
    n ← decode_long;
    d ← array_decode n;
    mret (if n <=? 0 then None else Some (Stations n d));
  e_ok s := match s with Some s => array_wf (st_n s) (st_data s) | None => true end;
  e_normal s :=
    match s with
    | Some s => if st_n s <=? 0 then None else Some (Stations (st_n s) (normal_array (st_data s)))
    | None => None
    end;
  e_len s := 8 + match s with Some s => array_len (st_data s) | None => 0 end;
  e_wire s :=
    match s with
    | Some s => cells (le 8 (st_n s)) ++ array_wire (st_data s)
    | None => cells (le 8 0) ++ []
    end
|}.

#[global] Instance sta_statistics_entry_ok : EntryOk (option sta_statistics).
Proof.
  split; intros s He; cbn [sta_statistics_entry e_ok e_size e_len e_encode e_decode e_wire e_normal] in *;
    destruct s as [s|]; wf_facts.
  - by rewrite array_size_ok.
  - done.
  - solve_writes.
  - apply writes_seq; [apply writes_store|apply writes_nil].
  - eapply reads_eq; [solve_reads|reflexivity].
  - by intros rest.
  - solve_wire_length.
  - solve_wire_length.
Qed.

(** [struct msg_sta_statitics] (msg_sta_statistics.h): the common header, then
    its own fields. *)
Record msg_sta_statitics := Msg {
  hd : msg_header;
  intf_name : charp;
  sta_ip : charp;
  sta_port : Z;
  stat : (option sta_statistics);
  time_stamp_ : charp
}.

Definition resize (h : msg_sta_statitics) (n : Z) : msg_sta_statitics :=
  Msg (set_m_size (hd h) n) (intf_name h) (sta_ip h) (sta_port h) (stat h)
  (time_stamp_ h).

Section codec.
Context `{Allocator}.

Definition size_msg_sta_statistics (h : msg_sta_statitics) : res Z :=
  v ← strlen_ethanol (p_version (hd h));
  n1 ← strlen_ethanol (intf_name h);
  n2 ← strlen_ethanol (sta_ip h);
  pstat ← part_size (stat h);
  n3 ← strlen_ethanol (time_stamp_ h);
  Ok (to_u64 (v + 4 + 4 + 4 + n1 + n2 + 4 + pstat + n3)).

Definition encode_msg_sta_statistics : msg_sta_statitics → res (msg_sta_statitics * list cell) :=
  encode_with size_msg_sta_statistics resize (λ h,
    encode_header (m_type (hd h)) (m_id (hd h)) (m_size (hd h));;
    encode_char (intf_name h);;
    encode_char (sta_ip h);;
    encode_int (sta_port h);;
    part_encode (stat h);;
    encode_char (time_stamp_ h)).

Definition decode_msg_sta_statistics : list cell → res msg_sta_statitics := decode_buffer (
  hd ← decode_header;
  intf_name ← decode_char;
  sta_ip ← decode_char;
  sta_port ← decode_int;
  stat ← part_decode;
  time_stamp_ ← decode_char;
  mret (Msg hd intf_name sta_ip sta_port stat time_stamp_)).

Definition wf (h : msg_sta_statitics) : bool :=
  header_ok (hd h) &&
  strs_ok [p_version (hd h); intf_name h; sta_ip h; time_stamp_ h] &&
  i32_ok (sta_port h) && part_wf (stat h).

Definition normal (h : msg_sta_statitics) : msg_sta_statitics :=
  Msg (normal_header (hd h)) (canon (intf_name h)) (canon (sta_ip h))
  (sta_port h) (part_normal (stat h)) (canon (time_stamp_ h)).

#[global] Instance msg_sta_statitics_message : Message msg_sta_statitics := {|
  msg_head := hd; msg_resize := resize; msg_size := size_msg_sta_statistics;
  msg_encode := encode_msg_sta_statistics; msg_decode := decode_msg_sta_statistics;
  msg_normal := normal; msg_wf := wf
|}.

#[global] Instance msg_sta_statitics_ok : MessageOk msg_sta_statitics.
Proof. solve_codec wf size_msg_sta_statistics. Qed.
End codec.

Section agent.
Context {W : Type} `{Net W, Device W, Build, Allocator}.
Context `{Host W}.

Definition set_stat (h : msg_sta_statitics) (s : option sta_statistics) (t : charp) :
    msg_sta_statitics := Msg (hd h) (intf_name h) (sta_ip h) (sta_port h) s t.

(** Without an interface nothing is sent. *)
Definition send_msg_get_sta_statistics (hostname : charp) (portnum id : Z)
    (intf_name sta_ip : charp) (sta_port : Z) : ST W (option msg_sta_statitics * Z) :=
  if negb (nonnull intf_name) then mret (None, id) else
  with_ssl hostname portnum (None, id) (
    id' ← lift (incr_int id);
    version ← lift (copy_string ETHANOL_VERSION);
    intf ← lift (copy_string intf_name);
    ip ← lift (copy_string sta_ip);
    h1 ← exchange (Msg (Header MSG_GET_STA_STATISTICS id version 0) intf ip sta_port None None)
                  (λ t, t =? MSG_GET_STA_STATISTICS);
    mret (h1, id')).

(** A station has no stations; an access point asks another one or its own
    device. *)
Definition process_msg_sta_statistics (input : list cell) : ST W (option (list cell)) :=
  h ← lift (decode_msg_sta_statistics input);
  h ← (if process_station then mret (set_stat h None (time_stamp_ h))
       else if nonnull (sta_ip h) then
         '(h1, _) ← send_msg_get_sta_statistics (sta_ip h) (sta_port h) (m_id (hd h))
                      (intf_name h) None 0;
         match h1 with
         | Some h1 => mret (set_stat h (stat h1) (time_stamp_ h1))
         | None => mret h
         end
       else
         l ← get_sta_statistics (intf_name h);
         t ← time_stamp;
         mret (set_stat h (Some (Stations (Z.of_nat (length l))
                 (match l with [] => None | _ => Some l end))) t));
  '(_, output) ← lift (encode_msg_sta_statistics h);
  mret (Some output).
End agent.

End StaStatistics.

Module LinkStatistics.

(** [struct UP_Interface_Statistics]. *)
Record UP_Interface_Statistics := UP {
  QosTransmittedFragmentCount : Z;
  QosFailedCount : Z;
  QosRetryCount : Z;
  QosMultipleRetryCount : Z;
  QosFrameDuplicateCount : Z;
  QosRTSSuccessCount : Z;
  QosRTSFailureCount : Z;
  QosACKFailureCount : Z;
  QosReceivedFragmentCount : Z;
  QosTransmittedFrameCount : Z;
  QosDiscardedFrameCount : Z;
  QosMPDUsReceivedCount : Z;
  QosRetriesReceivedCount : Z
}.

#[global] Instance UP_Interface_Statistics_entry : Entry UP_Interface_Statistics := {|
  e_size e :=
    Ok (8 + 8 + 8 + 8 + 8 + 8 + 8 + 8 + 8 + 8 + 8 + 8 + 8);
  e_encode e :=
    encode_2long (QosTransmittedFragmentCount e);;
    encode_2long (QosFailedCount e);;
    encode_2long (QosRetryCount e);;
    encode_2long (QosMultipleRetryCount e);;
    encode_2long (QosFrameDuplicateCount e);;
    encode_2long (QosRTSSuccessCount e);;
    encode_2long (QosRTSFailureCount e);;
    encode_2long (QosACKFailureCount e);;
    encode_2long (QosReceivedFragmentCount e);;
    encode_2long (QosTransmittedFrameCount e);;
    encode_2long (QosDiscardedFrameCount e);;
    encode_2long (QosMPDUsReceivedCount e);;
    encode_2long (QosRetriesReceivedCount e);
  e_decode :=
    QosTransmittedFragmentCount ← decode_2long;
    QosFailedCount ← decode_2long;
    QosRetryCount ← decode_2long;
    QosMultipleRetryCount ← decode_2long;
    QosFrameDuplicateCount ← decode_2long;
    QosRTSSuccessCount ← decode_2long;
    QosRTSFailureCount ← decode_2long;
    QosACKFailureCount ← decode_2long;
    QosReceivedFragmentCount ← decode_2long;
    QosTransmittedFrameCount ← decode_2long;
    QosDiscardedFrameCount ← decode_2long;
    QosMPDUsReceivedCount ← decode_2long;
    QosRetriesReceivedCount ← decode_2long;
    mret (UP QosTransmittedFragmentCount QosFailedCount QosRetryCount QosMultipleRetryCount QosFrameDuplicateCount QosRTSSuccessCount QosRTSFailureCount QosACKFailureCount QosReceivedFragmentCount QosTransmittedFrameCount QosDiscardedFrameCount QosMPDUsReceivedCount QosRetriesReceivedCount);
  e_ok e := i64_ok (QosTransmittedFragmentCount e) &&
    i64_ok (QosFailedCount e) && i64_ok (QosRetryCount e) &&
    i64_ok (QosMultipleRetryCount e) && i64_ok (QosFrameDuplicateCount e) &&
    i64_ok (QosRTSSuccessCount e) && i64_ok (QosRTSFailureCount e) &&
    i64_ok (QosACKFailureCount e) && i64_ok (QosReceivedFragmentCount e) &&
    i64_ok (QosTransmittedFrameCount e) &&
    i64_ok (QosDiscardedFrameCount e) && i64_ok (QosMPDUsReceivedCount e) &&
    i64_ok (QosRetriesReceivedCount e);
  e_normal e := UP (QosTransmittedFragmentCount e) (QosFailedCount e)
    (QosRetryCount e) (QosMultipleRetryCount e) (QosFrameDuplicateCount e)
    (QosRTSSuccessCount e) (QosRTSFailureCount e) (QosACKFailureCount e)
    (QosReceivedFragmentCount e) (QosTransmittedFrameCount e)
    (QosDiscardedFrameCount e) (QosMPDUsReceivedCount e)
    (QosRetriesReceivedCount e);
  e_len e := 8 + 8 + 8 + 8 + 8 + 8 + 8 + 8 + 8 + 8 + 8 + 8 + 8;
  e_wire e :=
    cells (le 8 (QosTransmittedFragmentCount e)) ++
    cells (le 8 (QosFailedCount e)) ++
    cells (le 8 (QosRetryCount e)) ++
    cells (le 8 (QosMultipleRetryCount e)) ++
    cells (le 8 (QosFrameDuplicateCount e)) ++
    cells (le 8 (QosRTSSuccessCount e)) ++
    cells (le 8 (QosRTSFailureCount e)) ++
    cells (le 8 (QosACKFailureCount e)) ++
    cells (le 8 (QosReceivedFragmentCount e)) ++
    cells (le 8 (QosTransmittedFrameCount e)) ++
    cells (le 8 (QosDiscardedFrameCount e)) ++
    cells (le 8 (QosMPDUsReceivedCount e)) ++
    cells (le 8 (QosRetriesReceivedCount e))
|}.

#[global] Instance UP_Interface_Statistics_entry_ok : EntryOk UP_Interface_Statistics.
Proof. solve_entry UP_Interface_Statistics_entry. Qed.

(** [struct msg_radio_linkstatistics] (msg_radio_linkstatistics.h): the common header, then
    its own fields. *)
Record msg_radio_linkstatistics := Msg {
  hd : msg_header;
  intf_name : charp;
  wiphy : Z;
  transmitted_fragment_counts : Z;
  multicast_transmitted_frame_counts : Z;
  failed_counts : Z;
  retry_counts : Z;
  multiple_retry_counts : Z;
  frame_duplicate_counts : Z;
  RetryCount : Z;
  MultipleRetryCount : Z;
  FrameDuplicateCount : Z;
  RTSSuccessCount : Z;
  RTSFailureCount : Z;
  ACKFailureCount : Z;
  num_up : Z;
  up : option (list UP_Interface_Statistics);
  BSSAverageAccessDelay : Z;
  STAStatisticsAPAverageAccessDelay : Z;
  STAStatisticsAverageAccessDelayBestEffort : Z;
  STAStatisticsAverageAccessDelayBackGround : Z;
  STAStatisticsAverageAccessDelayVideo : Z;
  STAStatisticsAverageAccessDelayVoice : Z;
  STAStatisticsStationCount : Z;
  STAStatisticsChannelUtilization : Z
}.

Definition resize (h : msg_radio_linkstatistics) (n : Z) : msg_radio_linkstatistics :=
  Msg (set_m_size (hd h) n) (intf_name h) (wiphy h)
  (transmitted_fragment_counts h) (multicast_transmitted_frame_counts h)
  (failed_counts h) (retry_counts h) (multiple_retry_counts h)
  (frame_duplicate_counts h) (RetryCount h) (MultipleRetryCount h)
  (FrameDuplicateCount h) (RTSSuccessCount h) (RTSFailureCount h)
  (ACKFailureCount h) (num_up h) (up h) (BSSAverageAccessDelay h)
  (STAStatisticsAPAverageAccessDelay h)
  (STAStatisticsAverageAccessDelayBestEffort h)
  (STAStatisticsAverageAccessDelayBackGround h)
  (STAStatisticsAverageAccessDelayVideo h)
  (STAStatisticsAverageAccessDelayVoice h) (STAStatisticsStationCount h)
  (STAStatisticsChannelUtilization h).

Section codec.
Context `{Allocator}.

Definition message_size_msg_radio_linkstatistics (h : msg_radio_linkstatistics) : res Z :=
  v ← strlen_ethanol (p_version (hd h));
  n1 ← strlen_ethanol (intf_name h);
  a ← array_size (up h) (num_up h);
  Ok (to_u64 (4 + 4 + v + 4 + n1 + 8 + 8 + 8 + 8 + 8 + 8 + 8 + 8 + 8 + 8 + 8 + 8 + 8 + 4 + a + 8 + 4 + 4 + 4 + 4 + 4 + 4 + 4)).

Definition encode_msg_radio_linkstatistics : msg_radio_linkstatistics → res (msg_radio_linkstatistics * list cell) :=
  encode_with message_size_msg_radio_linkstatistics resize (λ h,
    encode_header (m_type (hd h)) (m_id (hd h)) (m_size (hd h));;
    encode_char (intf_name h);;
    encode_2long (wiphy h);;
    encode_2long (transmitted_fragment_counts h);;
    encode_2long (multicast_transmitted_frame_counts h);;
    encode_2long (failed_counts h);;
    encode_2long (retry_counts h);;
    encode_2long (multiple_retry_counts h);;
    encode_2long (frame_duplicate_counts h);;
    encode_2long (RetryCount h);;
    encode_2long (MultipleRetryCount h);;
    encode_2long (FrameDuplicateCount h);;
    encode_2long (RTSSuccessCount h);;
    encode_2long (RTSFailureCount h);;
    encode_2long (ACKFailureCount h);;
    encode_int (num_up h);;
    array_encode (up h) (num_up h);;
    encode_2long (BSSAverageAccessDelay h);;
    encode_int (STAStatisticsAPAverageAccessDelay h);;
    encode_int (STAStatisticsAverageAccessDelayBestEffort h);;
    encode_int (STAStatisticsAverageAccessDelayBackGround h);;
    encode_int (STAStatisticsAverageAccessDelayVideo h);;
    encode_int (STAStatisticsAverageAccessDelayVoice h);;
    encode_int (STAStatisticsStationCount h);;
    encode_int (STAStatisticsChannelUtilization h)).

Definition decode_msg_radio_linkstatistics : list cell → res msg_radio_linkstatistics := decode_buffer (
  hd ← decode_header;
  intf_name ← decode_char;
  wiphy ← decode_2long;
  transmitted_fragment_counts ← decode_2long;
  multicast_transmitted_frame_counts ← decode_2long;
  failed_counts ← decode_2long;
  retry_counts ← decode_2long;
  multiple_retry_counts ← decode_2long;
  frame_duplicate_counts ← decode_2long;
  RetryCount ← decode_2long;
  MultipleRetryCount ← decode_2long;
  FrameDuplicateCount ← decode_2long;
  RTSSuccessCount ← decode_2long;
  RTSFailureCount ← decode_2long;
  ACKFailureCount ← decode_2long;
  num_up ← decode_int;
  up ← array_decode num_up;
  BSSAverageAccessDelay ← decode_2long;
  STAStatisticsAPAverageAccessDelay ← decode_int;
  STAStatisticsAverageAccessDelayBestEffort ← decode_int;
  STAStatisticsAverageAccessDelayBackGround ← decode_int;
  STAStatisticsAverageAccessDelayVideo ← decode_int;
  STAStatisticsAverageAccessDelayVoice ← decode_int;
  STAStatisticsStationCount ← decode_int;
  STAStatisticsChannelUtilization ← decode_int;
  mret (Msg hd intf_name wiphy transmitted_fragment_counts multicast_transmitted_frame_counts failed_counts retry_counts multiple_retry_counts frame_duplicate_counts RetryCount MultipleRetryCount FrameDuplicateCount RTSSuccessCount RTSFailureCount ACKFailureCount num_up up BSSAverageAccessDelay STAStatisticsAPAverageAccessDelay STAStatisticsAverageAccessDelayBestEffort STAStatisticsAverageAccessDelayBackGround STAStatisticsAverageAccessDelayVideo STAStatisticsAverageAccessDelayVoice STAStatisticsStationCount STAStatisticsChannelUtilization)).

Definition wf (h : msg_radio_linkstatistics) : bool :=
  header_ok (hd h) && strs_ok [p_version (hd h); intf_name h] &&
  i64_ok (wiphy h) && i64_ok (transmitted_fragment_counts h) &&
  i64_ok (multicast_transmitted_frame_counts h) &&
  i64_ok (failed_counts h) && i64_ok (retry_counts h) &&
  i64_ok (multiple_retry_counts h) && i64_ok (frame_duplicate_counts h) &&
  i64_ok (RetryCount h) && i64_ok (MultipleRetryCount h) &&
  i64_ok (FrameDuplicateCount h) && i64_ok (RTSSuccessCount h) &&
  i64_ok (RTSFailureCount h) && i64_ok (ACKFailureCount h) &&
  i32_ok (num_up h) && i64_ok (BSSAverageAccessDelay h) &&
  i32_ok (STAStatisticsAPAverageAccessDelay h) &&
  i32_ok (STAStatisticsAverageAccessDelayBestEffort h) &&
  i32_ok (STAStatisticsAverageAccessDelayBackGround h) &&
  i32_ok (STAStatisticsAverageAccessDelayVideo h) &&
  i32_ok (STAStatisticsAverageAccessDelayVoice h) &&
  i32_ok (STAStatisticsStationCount h) &&
  i32_ok (STAStatisticsChannelUtilization h) && array_wf (num_up h) (up h).

Definition normal (h : msg_radio_linkstatistics) : msg_radio_linkstatistics :=
  Msg (normal_header (hd h)) (canon (intf_name h)) (wiphy h)
  (transmitted_fragment_counts h) (multicast_transmitted_frame_counts h)
  (failed_counts h) (retry_counts h) (multiple_retry_counts h)
  (frame_duplicate_counts h) (RetryCount h) (MultipleRetryCount h)
  (FrameDuplicateCount h) (RTSSuccessCount h) (RTSFailureCount h)
  (ACKFailureCount h) (num_up h) (normal_array (up h))
  (BSSAverageAccessDelay h) (STAStatisticsAPAverageAccessDelay h)
  (STAStatisticsAverageAccessDelayBestEffort h)
  (STAStatisticsAverageAccessDelayBackGround h)
  (STAStatisticsAverageAccessDelayVideo h)
  (STAStatisticsAverageAccessDelayVoice h) (STAStatisticsStationCount h)
  (STAStatisticsChannelUtilization h).

#[global] Instance msg_radio_linkstatistics_message : Message msg_radio_linkstatistics := {|
  msg_head := hd; msg_resize := resize; msg_size := message_size_msg_radio_linkstatistics;
  msg_encode := encode_msg_radio_linkstatistics; msg_decode := decode_msg_radio_linkstatistics;
  msg_normal := normal; msg_wf := wf
|}.

#[global] Instance msg_radio_linkstatistics_ok : MessageOk msg_radio_linkstatistics.
Proof. solve_codec wf message_size_msg_radio_linkstatistics. Qed.
End codec.

Section agent.
Context {W : Type} `{Net W, Device W, Build, Allocator}.

(** Only the interface and the empty array of the request are assigned. *)
Definition send_msg_radio_linkstatistics (junk : nat → Z) (hostname : charp) (portnum id : Z)
    (intf_name : charp) : ST W (option msg_radio_linkstatistics * Z) :=
  with_ssl hostname portnum (None, id) (
    id' ← lift (incr_int id);
    version ← lift (copy_string ETHANOL_VERSION);
    intf ← lift (copy_string intf_name);
    h1 ← exchange (Msg (Header MSG_GET_RADIO_LINKSTATISTICS id version 0) intf
                       (junk 0%nat) (junk 1%nat) (junk 2%nat) (junk 3%nat) (junk 4%nat) (junk 5%nat)
                       (junk 6%nat) (junk 7%nat) (junk 8%nat) (junk 9%nat) (junk 10%nat) (junk 11%nat) (junk 12%nat)
                       0 None
                       (junk 13%nat) (junk 14%nat) (junk 15%nat) (junk 16%nat)
                       (junk 17%nat) (junk 18%nat) (junk 19%nat) (junk 20%nat))
                  (λ t, t =? MSG_GET_RADIO_LINKSTATISTICS);
    mret (h1, id')).

(** The handler answers fixed numbers. *)
Definition process_msg_radio_linkstatistics (input : list cell) : ST W (option (list cell)) :=
  h ← lift (decode_msg_radio_linkstatistics input);
  let h := Msg (hd h) (intf_name h) (wiphy h) 1 2 3 4 5 6 7 8 9 1 2 3
             1 (Some [UP 4 5 6 7 8 9 1 2 3 4 5 6 7]) 8 9 1 2 3 4 5 6 in
  '(_, output) ← lift (encode_msg_radio_linkstatistics h);
  mret (Some output).
End agent.

End LinkStatistics.

