(* ===== verification/MsgHost.v ===== *)
(** The configuration of interfaces: [msg_ssid.c], [msg_ipv4_address.c] (which
    also holds the IPv6 messages) and [msg_wlan_info.c].

    An argument named [junk_...] is the indeterminate content of the numeric
    fields that the C function sends without having assigned them, by
    position.  [msg_ipv4_address.c] holds unresolved conflict markers; the two
    sides differ only in blanks and in a function that one of them repeats. *)
From stdpp Require Import prelude list strings.
From S2P Require Import Prelude CMem Connect MsgCommon BufferHandler World Rpc MsgChannel.

(** [malloc(strlen(s) + 1); strcpy]. *)
Definition strdup `{Allocator} (s : charp) : res charp := n ← strlen s; malloc_strcpy (n + 1) s.

Module Ssid.

(** [struct ssid_info]. *)
Record ssid_info := SsidInfo {
  intf_name : charp;
  ssid : charp;
  channel : Z;
  frequency : Z
}.

#[global] Instance ssid_info_entry : Entry ssid_info := {|
  e_size e :=
    n1 ← strlen_ethanol (intf_name e);
    n2 ← strlen_ethanol (ssid e);
    Ok (n1 + n2 + 4 + 4);
  e_encode e :=
    encode_char (intf_name e);;
    encode_char (ssid e);;
    encode_uint (channel e);;
    encode_uint (frequency e);
  e_decode :=
    intf_name ← decode_char;
    ssid ← decode_char;
    channel ← decode_uint;
    frequency ← decode_uint;
    mret (SsidInfo intf_name ssid channel frequency);
  e_ok e := cstr_ok (intf_name e) && cstr_ok (ssid e) &&
    u32_ok (channel e) && u32_ok (frequency e);
  e_normal e := SsidInfo (canon (intf_name e)) (canon (ssid e)) (channel e)
    (frequency e);
  e_len e := 5 + Z.of_nat (length (text (intf_name e))) + 5 + Z.of_nat (length (text (ssid e))) + 4 + 4;
  e_wire e :=
    wire_str (text (intf_name e)) ++
    wire_str (text (ssid e)) ++
    cells (le 4 (channel e)) ++
    cells (le 4 (frequency e))
|}.

#[global] Instance ssid_info_entry_ok : EntryOk ssid_info.
Proof. solve_entry ssid_info_entry. Qed.

(** [struct msg_ap_ssid] (msg_ssid.h): the common header, then
    its own fields. *)
Record msg_ap_ssid := Msg {
  hd : msg_header;
  sta_ip : charp;
  sta_port : Z;
  num_ssids : Z;
  info : option (list ssid_info)
}.

Definition resize (h : msg_ap_ssid) (n : Z) : msg_ap_ssid :=
  Msg (set_m_size (hd h) n) (sta_ip h) (sta_port h) (num_ssids h) (info h).
Definition with_id (h : msg_ap_ssid) (i : Z) : msg_ap_ssid :=
  Msg (set_m_id (hd h) i) (sta_ip h) (sta_port h) (num_ssids h) (info h).

Section codec.
Context `{Allocator}.

Definition message_size_ap_ssid (h : msg_ap_ssid) : res Z :=
  v ← strlen_ethanol (p_version (hd h));
  n1 ← strlen_ethanol (sta_ip h);
  a ← array_size (info h) (num_ssids h);
  Ok (to_i32 (4 + 4 + v + 4 + n1 + 4 + 4 + a)).

Definition encode_msg_ap_ssid : msg_ap_ssid → res (msg_ap_ssid * list cell) :=
  encode_with message_size_ap_ssid resize (λ h,
    encode_header (m_type (hd h)) (m_id (hd h)) (m_size (hd h));;
    encode_char (sta_ip h);;
    encode_int (sta_port h);;
    encode_uint (num_ssids h);;
    array_encode (info h) (num_ssids h)).

Definition decode_msg_ap_ssid : list cell → res msg_ap_ssid := decode_buffer (
  hd ← decode_header;
  sta_ip ← decode_char;
  sta_port ← decode_int;
  num_ssids ← decode_uint;
  info ← array_decode num_ssids;
  mret (Msg hd sta_ip sta_port num_ssids info)).

Definition wf (h : msg_ap_ssid) : bool :=
  header_ok (hd h) && strs_ok [p_version (hd h); sta_ip h] &&
  i32_ok (sta_port h) && u32_ok (num_ssids h) &&
  array_wf (num_ssids h) (info h).

Definition normal (h : msg_ap_ssid) : msg_ap_ssid :=
  Msg (normal_header (hd h)) (canon (sta_ip h)) (sta_port h) (num_ssids h)
  (normal_array (info h)).

#[global] Instance msg_ap_ssid_message : Message msg_ap_ssid := {|
  msg_head := hd; msg_resize := resize; msg_size := message_size_ap_ssid;
  msg_encode := encode_msg_ap_ssid; msg_decode := decode_msg_ap_ssid;
  msg_normal := normal; msg_wf := wf
|}.

#[global] Instance msg_ap_ssid_ok : MessageOk msg_ap_ssid.
Proof. solve_codec wf message_size_ap_ssid. Qed.
End codec.

Section agent.
Context {W : Type} `{Net W, Device W, Build, Allocator}.
Context `{Host W}.

Definition set_info (h : msg_ap_ssid) (n : Z) (l : option (list ssid_info)) : msg_ap_ssid :=
  Msg (hd h) (sta_ip h) (sta_port h) n l.

(** The channel and the frequency of the request are not assigned. *)
Definition send_msg_ap_get_ssid (junk : nat → Z) (hostname : charp) (portnum id : Z)
    (intf_name sta_ip : charp) (sta_port : Z) : ST W (option msg_ap_ssid * Z) :=
  with_ssl hostname portnum (None, id) (
    id' ← lift (incr_int id);
    version ← lift (copy_string ETHANOL_VERSION);
    ip ← lift (copy_string sta_ip);
    '(n, l) ← (if negb (nonnull intf_name) then mret (0, None)
               else name ← lift (copy_string intf_name);
                    mret (1, Some [SsidInfo name None (junk 0%nat) (junk 1%nat)]));
    h1 ← exchange (Msg (Header MSG_GET_AP_SSID id version 0) ip sta_port n l)
                  (λ t, t =? MSG_GET_AP_SSID);
    mret (h1, id')).

(** An entry being filled: a fresh one has only its name. *)
Record slot := Slot { s_name : charp; s_ssid : option charp; s_numbers : option (Z * Z) }.

Definition of_info (e : ssid_info) : slot :=
  Slot (intf_name e) (Some (ssid e)) (Some (channel e, frequency e)).

(** Reading the entry [i]: an unassigned pointer cannot be followed, an
    unassigned number is some number. *)
Definition to_info (junk : nat → Z) (i : nat) (s : slot) : res ssid_info :=
  p ← match s_ssid s with Some p => Ok p | None => unassigned end;
  let '(c, f) := default (junk (2 * i)%nat, junk (2 * i + 1)%nat) (s_numbers s) in
  Ok (SsidInfo (s_name s) p c f).

Fixpoint to_infos (junk : nat → Z) (i : nat) (l : list slot) : res (list ssid_info) :=
  match l with
  | [] => Ok []
  | s :: l => e ← to_info junk i s; l ← to_infos junk (S i) l; Ok (e :: l)
  end.

Definition fill_slot (s : slot) : ST W slot :=
  if process_station then
    r ← get_wlan_ssid (s_name s);
    match r with
    | Some w => mret (Slot (ws_intf_name w) (Some (ws_ssid w)) (Some (ws_channel w, ws_frequency w)))
    | None => mret s
    end
  else
    wiphy ← wiphy_of (s_name s);
    p ← match f_get_ssid with Some f => f wiphy 0 | None => mret (lit "") end;
    if nonnull p then
      q ← lift (strdup p);
      c ← call_or_zero f_get_current_channel wiphy;
      f ← call_or_zero f_get_current_frequency wiphy;
      mret (Slot (s_name s) (Some q) (Some (to_u32 c, to_u32 f)))
    else mret (Slot (s_name s) (Some None) (s_numbers s)).

Fixpoint fill_slots (l : list slot) : ST W (list slot) :=
  match l with [] => mret [] | s :: l => s ← fill_slot s; l ← fill_slots l; mret (s :: l) end.

(** Without a list the wireless interfaces of the device are taken. *)
Definition ssid_local (junk : nat → Z) (h : msg_ap_ssid) : ST W msg_ap_ssid :=
  '(n, p) ← (if num_ssids h =? 0 then
               intfs ← get_all_interfaces;
               match intfs with
               | Some d =>
                   let l := filter (λ d, if_is_wifi d = true) d in
                   mret (Z.of_nat (length l), Some ((λ d, Slot (if_name d) None None) <$> l))
               | None => mret (0, None)
               end
             else mret (num_ssids h, (λ l : list ssid_info, of_info <$> l) <$> info h));
  l ← fill_slots (elems p);
  l ← lift (to_infos junk 0 l);
  mret (set_info h n (match p with Some _ => Some l | None => None end)).

(** The relay takes [&h->m_id] and asks for all the interfaces. *)
Definition process_msg_ap_ssid (junk : nat → Z) (input : list cell) : ST W (option (list cell)) :=
  h ← lift (decode_msg_ap_ssid input);
  h ← (if nonnull (sta_ip h) then
         '(h1, id') ← send_msg_ap_get_ssid junk (sta_ip h) (sta_port h) (m_id (hd h)) None None 0;
         let h := with_id h id' in
         match h1 with
         | Some h1 => mret (set_info h (num_ssids h1) (info h1))
         | None => mret h
         end
       else ssid_local junk h);
  '(_, output) ← lift (encode_msg_ap_ssid h);
  mret (Some output).
End agent.

End Ssid.

Module IpAddress.

(** [struc_ip_config]. *)
Record struc_ip_config := IpConfig {
  c_intf_name : charp; c_ip : charp; c_netmask : charp; c_gateway : charp; c_n_dns : Z;
  c_dns : option (list charp)
}.

(** [struct msg_ip_address] (msg_ipv4_address.h, with the fields of its [config]): the common header, then
    its own fields. *)
Record msg_ip_address := Msg {
  hd : msg_header;
  sta_ip : charp;
  sta_port : Z;
  intf_name : charp;
  ip : charp;
  netmask : charp;
  gateway : charp;
  n_dns : Z;
  dns : option (list charp)
}.

Definition resize (h : msg_ip_address) (n : Z) : msg_ip_address :=
  Msg (set_m_size (hd h) n) (sta_ip h) (sta_port h) (intf_name h) (ip h)
  (netmask h) (gateway h) (n_dns h) (dns h).
Definition with_id (h : msg_ip_address) (i : Z) : msg_ip_address :=
  Msg (set_m_id (hd h) i) (sta_ip h) (sta_port h) (intf_name h) (ip h)
  (netmask h) (gateway h) (n_dns h) (dns h).

Section codec.
Context `{Allocator}.

Definition message_size_ip_address (h : msg_ip_address) : res Z :=
  v ← strlen_ethanol (p_version (hd h));
  n1 ← strlen_ethanol (sta_ip h);
  n2 ← strlen_ethanol (intf_name h);
  n3 ← strlen_ethanol (ip h);
  n4 ← strlen_ethanol (netmask h);
  n5 ← strlen_ethanol (gateway h);
  a ← array_size (dns h) (n_dns h);
  Ok (to_u64 (4 + 4 + v + 4 + n1 + 4 + n2 + n3 + n4 + n5 + 4 + a)).

Definition encode_msg_ip_address : msg_ip_address → res (msg_ip_address * list cell) :=
  encode_with message_size_ip_address resize (λ h,
    encode_header (m_type (hd h)) (m_id (hd h)) (m_size (hd h));;
    encode_char (sta_ip h);;
    encode_int (sta_port h);;
    encode_char (intf_name h);;
    encode_char (ip h);;
    encode_char (netmask h);;
    encode_char (gateway h);;
    encode_uint (n_dns h);;
    array_encode (dns h) (n_dns h)).

Definition decode_msg_ip_address : list cell → res msg_ip_address := decode_buffer (
  hd ← decode_header;
  sta_ip ← decode_char;
  sta_port ← decode_int;
  intf_name ← decode_char;
  ip ← decode_char;
  netmask ← decode_char;
  gateway ← decode_char;
  n_dns ← decode_uint;
  dns ← array_decode n_dns;
  mret (Msg hd sta_ip sta_port intf_name ip netmask gateway n_dns dns)).

Definition wf (h : msg_ip_address) : bool :=
  header_ok (hd h) &&
  strs_ok [p_version (hd h); sta_ip h; intf_name h; ip h; netmask h; gateway h] &&
  i32_ok (sta_port h) && u32_ok (n_dns h) && array_wf (n_dns h) (dns h).

Definition normal (h : msg_ip_address) : msg_ip_address :=
  Msg (normal_header (hd h)) (canon (sta_ip h)) (sta_port h)
  (canon (intf_name h)) (canon (ip h)) (canon (netmask h))
  (canon (gateway h)) (n_dns h) (normal_array (dns h)).

#[global] Instance msg_ip_address_message : Message msg_ip_address := {|
  msg_head := hd; msg_resize := resize; msg_size := message_size_ip_address;
  msg_encode := encode_msg_ip_address; msg_decode := decode_msg_ip_address;
  msg_normal := normal; msg_wf := wf
|}.

#[global] Instance msg_ip_address_ok : MessageOk msg_ip_address.
Proof. solve_codec wf message_size_ip_address. Qed.
End codec.

Section agent.
Context {W : Type} `{Net W, Device W, Build, Allocator}.
Context `{Host W}.

Definition set_config (h : msg_ip_address) (ip netmask gateway : charp) (n : Z)
    (dns : option (list charp)) : msg_ip_address :=
  Msg (hd h) (sta_ip h) (sta_port h) (intf_name h) ip netmask gateway n dns.

(** The reply is accepted when its type is [MSG_GET_IPV4_ADDRESS], whatever was
    asked. *)
Definition send_msg_get_ip_address (m_type : Z) (hostname : charp) (portnum id : Z)
    (intf_name sta_ip : charp) (sta_port : Z) : ST W (option msg_ip_address * Z) :=
  with_ssl hostname portnum (None, id) (
    id' ← lift (incr_int id);
    version ← lift (copy_string ETHANOL_VERSION);
    ip ← lift (copy_string sta_ip);
    intf ← lift (copy_string intf_name);
    h1 ← exchange (Msg (Header m_type id version 0) ip sta_port intf None None None 0 None)
                  (λ t, t =? MSG_GET_IPV4_ADDRESS);
    mret (h1, id')).

Definition send_msg_get_ipv4_address (hostname : charp) (portnum id : Z) (intf_name sta_ip : charp)
    (sta_port : Z) : ST W (option msg_ip_address * Z) :=
  send_msg_get_ip_address MSG_GET_IPV4_ADDRESS hostname portnum id intf_name sta_ip sta_port.

Definition send_msg_get_ipv6_address (hostname : charp) (portnum id : Z) (intf_name sta_ip : charp)
    (sta_port : Z) : ST W (option msg_ip_address * Z) :=
  send_msg_get_ip_address MSG_GET_IPV6_ADDRESS hostname portnum id intf_name sta_ip sta_port.

(** The copies of the [k] name servers from the [i]-th on. *)
Fixpoint copy_dns (p : option (list charp)) (k i : nat) : res (list charp) :=
  match k with
  | O => Ok []
  | S k => d ← array_at p i; d ← copy_string d; l ← copy_dns p k (S i); Ok (d :: l)
  end.

(** The reply is decoded and dropped. *)
Definition send_msg_set_ip_address (m_type : Z) (hostname : charp) (portnum id : Z)
    (config : struc_ip_config) (sta_ip : charp) (sta_port : Z) : ST W Z :=
  with_ssl_noerr hostname portnum id (
    id' ← lift (incr_int id);
    version ← lift (copy_string ETHANOL_VERSION);
    ip ← lift (copy_string sta_ip);
    dns ← lift (copy_dns (c_dns config) (Z.to_nat (c_n_dns config)) 0);
    exchange (Msg (Header m_type id version 0) ip sta_port (c_intf_name config) (c_ip config)
                  (c_netmask config) (c_gateway config) (c_n_dns config) (Some dns))
             (λ t, t =? m_type);;
    mret id').

Definition send_msg_set_ipv4_address (hostname : charp) (portnum id : Z) (config : struc_ip_config)
    (sta_ip : charp) (sta_port : Z) : ST W Z :=
  send_msg_set_ip_address MSG_SET_IPV4_ADDRESS hostname portnum id config sta_ip sta_port.

Definition send_msg_set_ipv6_address (hostname : charp) (portnum id : Z) (config : struc_ip_config)
    (sta_ip : charp) (sta_port : Z) : ST W Z :=
  send_msg_set_ip_address MSG_SET_IPV6_ADDRESS hostname portnum id config sta_ip sta_port.

(** [address/netmask] in a local array of 1024 bytes. *)
Definition with_mask (address netmask : charp) : res charp :=
  a ← chars address;
  m ← (if nonnull netmask then m ← chars netmask; Ok (lit_bytes "/" ++ m) else Ok []);
  t ← sprintf_local 1024 (a ++ m);
  Ok (mk_str t).

Definition set_address (h : msg_ip_address) : ST W unit :=
  dhcp ← lift (streq (ip h) (lit "DHCP"));
  if (dhcp : bool) then start_dhcp (intf_name h)
  else
    a ← lift (with_mask (ip h) (netmask h));
    set_ip (intf_name h) a;;
    if nonnull (gateway h) then
      net ← lift (with_mask (gateway h) (netmask h));
      add_route (intf_name h) net
    else mret tt.

(** Takes the configuration of the reply to a relayed request. *)
Definition take_config (h : msg_ip_address) (h1 : option msg_ip_address) : msg_ip_address :=
  match h1 with
  | Some h1 => set_config h (ip h1) (netmask h1) (gateway h1) (n_dns h1) (dns h1)
  | None => h
  end.

Definition ipv4_get (h : msg_ip_address) : ST W msg_ip_address :=
  if nonnull (sta_ip h) then
    '(h1, id') ← send_msg_get_ipv4_address (sta_ip h) (sta_port h) (m_id (hd h)) (intf_name h) None 0;
    mret (take_config (with_id h id') h1)
  else
    intf ← get_interface_info (intf_name h);
    match intf with
    | Some (ip4, netmask4) =>
        a ← lift (copy_string ip4);
        gw ← get_default_gateway;
        g ← lift (copy_string gw);
        d ← find_dns;
        d ← lift (deref d);
        mret (set_config h a netmask4 g (Z.of_nat (length d)) (Some d))
    | None => mret h
    end.

(** A request to set the address is not relayed and has no reply. *)
Definition process_msg_ipv4_address (input : list cell) : ST W (option (list cell)) :=
  h ← lift (decode_msg_ip_address input);
  if m_type (hd h) =? MSG_GET_IPV4_ADDRESS then
    h ← ipv4_get h;
    '(_, output) ← lift (encode_msg_ip_address h);
    mret (Some output)
  else if m_type (hd h) =? MSG_SET_IPV4_ADDRESS then set_address h;; mret None
  else mret None.

(** The IPv6 address of the device itself is not looked up. *)
Definition process_msg_ipv6_address (input : list cell) : ST W (option (list cell)) :=
  h ← lift (decode_msg_ip_address input);
  if m_type (hd h) =? MSG_GET_IPV6_ADDRESS then
    h ← (if nonnull (sta_ip h) then
           '(h1, id') ← send_msg_get_ipv6_address (sta_ip h) (sta_port h) (m_id (hd h))
                          (intf_name h) None 0;
           mret (take_config (with_id h id') h1)
         else mret h);
    '(_, output) ← lift (encode_msg_ip_address h);
    mret (Some output)
  else if m_type (hd h) =? MSG_SET_IPV6_ADDRESS then set_address h;; mret None
  else mret None.
End agent.

End IpAddress.

Module WlanInfo.

#[global] Instance wlan_entry_entry : Entry wlan_entry := {|
  e_size e :=
    n1 ← strlen_ethanol (we_intf_name e);
    n2 ← strlen_ethanol (we_mac_addr e);
    n3 ← strlen_ethanol (we_ssid e);
    Ok (4 + n1 + 4 + 4 + 8 + n2 + n3 + 4 + 4 + 4 + 4 + 4 + 4);
  e_encode e :=
    encode_int (we_ifindex e);;
    encode_char (we_intf_name e);;
    encode_uint (we_wlan_indx e);;
    encode_uint (we_phy_indx e);;
    encode_u2long (we_dev e);;
    encode_char (we_mac_addr e);;
    encode_char (we_ssid e);;
    encode_int (we_channel_type e);;
    encode_int (we_width e);;
    encode_uint (we_freq e);;
    encode_uint (we_freq1 e);;
    encode_uint (we_freq2 e);;
    encode_int (we_iftype e);
  e_decode :=
    we_ifindex_ ← decode_int;
    we_intf_name_ ← decode_char;
    we_wlan_indx_ ← decode_uint;
    we_phy_indx_ ← decode_uint;
    we_dev_ ← decode_u2long;
    we_mac_addr_ ← decode_char;
    we_ssid_ ← decode_char;
    we_channel_type_ ← decode_int;
    we_width_ ← decode_int;
    we_freq_ ← decode_uint;
    we_freq1_ ← decode_uint;
    we_freq2_ ← decode_uint;
    we_iftype_ ← decode_int;
    mret (WlanEntry we_ifindex_ we_intf_name_ we_wlan_indx_ we_phy_indx_
      we_dev_ we_mac_addr_ we_ssid_ we_channel_type_ we_width_ we_freq_
      we_freq1_ we_freq2_ we_iftype_);
  e_ok e := i32_ok (we_ifindex e) && cstr_ok (we_intf_name e) &&
    u32_ok (we_wlan_indx e) && u32_ok (we_phy_indx e) &&
    u_ok 64 (we_dev e) && cstr_ok (we_mac_addr e) && cstr_ok (we_ssid e) &&
    i32_ok (we_channel_type e) && i32_ok (we_width e) &&
    u32_ok (we_freq e) && u32_ok (we_freq1 e) && u32_ok (we_freq2 e) &&
    i32_ok (we_iftype e);
  e_normal e := WlanEntry (we_ifindex e) (canon (we_intf_name e))
    (we_wlan_indx e) (we_phy_indx e) (we_dev e) (canon (we_mac_addr e))
    (canon (we_ssid e)) (we_channel_type e) (we_width e) (we_freq e)
    (we_freq1 e) (we_freq2 e) (we_iftype e);
  e_len e := 4 + (5 + Z.of_nat (length (text (we_intf_name e)))) + 4 + 4 +
    8 + (5 + Z.of_nat (length (text (we_mac_addr e)))) +
    (5 + Z.of_nat (length (text (we_ssid e)))) + 4 + 4 + 4 + 4 + 4 + 4;
  e_wire e :=
    cells (le 4 (we_ifindex e)) ++
    wire_str (text (we_intf_name e)) ++
    cells (le 4 (we_wlan_indx e)) ++
    cells (le 4 (we_phy_indx e)) ++
    cells (le 8 (we_dev e)) ++
    wire_str (text (we_mac_addr e)) ++
    wire_str (text (we_ssid e)) ++
    cells (le 4 (we_channel_type e)) ++
    cells (le 4 (we_width e)) ++
    cells (le 4 (we_freq e)) ++
    cells (le 4 (we_freq1 e)) ++
    cells (le 4 (we_freq2 e)) ++
    cells (le 4 (we_iftype e))
|}.

#[global] Instance wlan_entry_entry_ok : EntryOk wlan_entry.
Proof. solve_entry wlan_entry_entry. Qed.

(** The indeterminate channel type and width of the entries of a fresh
    array. *)
Class WlanJunk := { wlan_junk : nat → Z * Z }.

Definition set_width (e : wlan_entry) (x : Z * Z) : wlan_entry :=
  WlanEntry (we_ifindex e) (we_intf_name e) (we_wlan_indx e) (we_phy_indx e) (we_dev e)
    (we_mac_addr e) (we_ssid e) x.1 x.2 (we_freq e) (we_freq1 e) (we_freq2 e) (we_iftype e).

Definition width_of (e : wlan_entry) : Z * Z := (we_channel_type e, we_width e).

(** [( *h)->entry->channel_type = ...]: the type and the width of every entry
    received go to the first one. *)
Definition misplace `{WlanJunk} (l : list wlan_entry) : list wlan_entry :=
  match l with
  | [] => []
  | e :: r => set_width e (width_of (List.last l e)) :: imap (λ i e, set_width e (wlan_junk (S i))) r
  end.

(** [struct msg_wlan_info] (msg_wlan_info.h): the common header, then
    its own fields. *)
Record msg_wlan_info := Msg {
  hd : msg_header;
  sta_ip : charp;
  sta_port : Z;
  num_entries : Z;
  entry : option (list wlan_entry)
}.

Definition resize (h : msg_wlan_info) (n : Z) : msg_wlan_info :=
  Msg (set_m_size (hd h) n) (sta_ip h) (sta_port h) (num_entries h)
  (entry h).
Definition with_id (h : msg_wlan_info) (i : Z) : msg_wlan_info :=
  Msg (set_m_id (hd h) i) (sta_ip h) (sta_port h) (num_entries h) (entry h).

Section codec.
Context `{Allocator, WlanJunk}.

Definition message_size_wlan_info (h : msg_wlan_info) : res Z :=
  v ← strlen_ethanol (p_version (hd h));
  n1 ← strlen_ethanol (sta_ip h);
  a ← array_size (entry h) (num_entries h);
  Ok (to_i32 (4 + 4 + v + 4 + n1 + 4 + 4 + a)).

Definition encode_msg_wlan_info : msg_wlan_info → res (msg_wlan_info * list cell) :=
  encode_with message_size_wlan_info resize (λ h,
    encode_header (m_type (hd h)) (m_id (hd h)) (m_size (hd h));;
    encode_char (sta_ip h);;
    encode_int (sta_port h);;
    encode_uint (num_entries h);;
    array_encode (entry h) (num_entries h)).

Definition decode_msg_wlan_info : list cell → res msg_wlan_info := decode_buffer (
  hd ← decode_header;
  sta_ip ← decode_char;
  sta_port ← decode_int;
  num_entries ← decode_uint;
  entry ← array_decode num_entries;
  mret (Msg hd sta_ip sta_port num_entries (misplace <$> entry))).

(** At most one entry: the decoder stores the channel type and the width of every
    entry into the first one (line 104 of [msg_wlan_info.c]), so that a list of two
    entries is not rebuilt. *)
Definition wf (h : msg_wlan_info) : bool :=
  header_ok (hd h) && strs_ok [p_version (hd h); sta_ip h] &&
  i32_ok (sta_port h) && u32_ok (num_entries h) &&
  array_wf (num_entries h) (entry h) && (num_entries h <=? 1).

Definition normal (h : msg_wlan_info) : msg_wlan_info :=
  Msg (normal_header (hd h)) (canon (sta_ip h)) (sta_port h) (num_entries h)
  (normal_array (entry h)).

#[global] Instance msg_wlan_info_message : Message msg_wlan_info := {|
  msg_head := hd; msg_resize := resize; msg_size := message_size_wlan_info;
  msg_encode := encode_msg_wlan_info; msg_decode := decode_msg_wlan_info;
  msg_normal := normal; msg_wf := wf
|}.

(** One entry keeps its own type and width. *)
Lemma misplace_short n p : array_wf n p = true → n ≤ 1 →
  misplace <$> normal_array p = normal_array p.
Proof.
  intros (-> & _)%array_wf_facts Hn. destruct p as [[|e [|e' l]]|]; [done| |cbn in Hn; lia|done].
  by destruct e.
Qed.

#[global] Instance msg_wlan_info_ok : MessageOk msg_wlan_info.
Proof.
  split; [|intros h Hwf; change (wf h = true) in Hwf; unfold wf in Hwf; split_andb; assumption
          |intros []; reflexivity..].
  intros h Hwf. change (wf h = true) in Hwf. unfold wf in Hwf. wf_facts. eapply codec_intro.
  - reflexivity.
  - reflexivity.
  - change (msg_size h) with (message_size_wlan_info h). unfold message_size_wlan_info. solve_size.
  - lia.
  - cbn -[mbind mret]. solve_writes.
  - eapply reads_eq; [cbn -[mbind mret]; solve_reads|].
    by erewrite misplace_short by (eassumption || done).
  - solve_wire_length.
Qed.
End codec.

Section agent.
Context {W : Type} `{Net W, Device W, Build, Allocator}.
Context `{Host W, WlanJunk}.

Definition set_entry (h : msg_wlan_info) (n : Z) (l : option (list wlan_entry)) : msg_wlan_info :=
  Msg (hd h) (sta_ip h) (sta_port h) n l.

(** Only the name, the address and the SSID of the entry asked for are
    assigned.  Between the request and the reply [h.entry[0]] is read, which is
    NULL when all the interfaces are asked for. *)
Definition send_msg_get_wlan_info (junk : nat → Z) (hostname : charp) (portnum id : Z)
    (intf_name sta_ip : charp) (sta_port : Z) : ST W (option msg_wlan_info * Z) :=
  with_ssl hostname portnum (None, id) (
    id' ← lift (incr_int id);
    version ← lift (copy_string ETHANOL_VERSION);
    ip ← lift (copy_string sta_ip);
    '(n, l) ← (if negb (nonnull intf_name) then mret (0, None)
               else name ← lift (copy_string intf_name);
                    mret (1, Some [WlanEntry (junk 0%nat) name (junk 1%nat) (junk 2%nat) (junk 3%nat)
                                     None None (junk 4%nat) (junk 5%nat) (junk 6%nat) (junk 7%nat)
                                     (junk 8%nat) (junk 9%nat)]));
    notify (Msg (Header MSG_WLAN_INFO id version 0) ip sta_port n l);;
    lift (array_at l 0);;
    buf ← ssl_read SSL_BUFFER_SIZE;
    h1 ← lift (reply_of (λ t, t =? MSG_WLAN_INFO) buf);
    mret (h1, id')).

Definition NL80211_IFTYPE_AP : Z := 3.

(** [f ? f(i) : -1] as an unsigned number. *)
Definition call_or_minus (f : option (Z → ST W Z)) (i : Z) : ST W Z :=
  match f with Some f => z ← f i; mret (to_u32 z) | None => mret (to_u32 (-1)) end.

(** [f && (s = f(i))]: a copy of the text, or NULL. *)
Definition call_text (f : option (Z → ST W charp)) (i : Z) : ST W charp :=
  match f with
  | Some f => s ← f i; if nonnull s then lift (strdup s) else mret None
  | None => mret None
  end.

(** On an access point the entry comes from the hooks of hostapd; its
    [ifindex] is not assigned.  The name of the requested entry stays. *)
Definition get_entry (junk_ifindex : Z) (name : charp) : ST W wlan_entry :=
  if process_station then
    e ← get_wlan_info name;
    lift (e ← deref e;
          Ok (WlanEntry (we_ifindex e) name (we_wlan_indx e) (we_phy_indx e) (we_dev e)
                (we_mac_addr e) (we_ssid e) (we_channel_type e) (we_width e) (we_freq e)
                (we_freq1 e) (we_freq2 e) (we_iftype e)))
  else
    w ← wiphy_of name;
    let i := to_i32 (to_u32 w) in
    phy ← call_or_minus f_get_phy i;
    lift (strdup name);;
    ssid ← call_text ((λ f i, f i 0) <$> f_get_ssid) i;
    freq ← call_or_minus f_get_current_frequency i;
    freq2 ← call_or_minus f_get_secondary_ch i;
    mac ← call_text f_get_mac i;
    width ← call_or_minus f_get_vht_channel_width i;
    mret (WlanEntry junk_ifindex name (to_u32 w) phy (2 ^ 64 - 1) mac ssid (-1) (to_i32 width)
            freq freq freq2 NL80211_IFTYPE_AP).

Fixpoint get_entries (junk : nat → Z) (i : nat) (l : list wlan_entry) : ST W (list wlan_entry) :=
  match l with
  | [] => mret []
  | e :: l =>
      e ← get_entry (junk i) (we_intf_name e);
      l ← get_entries junk (S i) l;
      mret (e :: l)
  end.

(** Without entries an array for the interfaces of the device is allocated, but
    the loop that fills it starts at the end of the list. *)
Definition wlan_local (junk : nat → Z) (h : msg_wlan_info) : ST W msg_wlan_info :=
  if 0 <? num_entries h then
    l ← get_entries junk 0 (elems (entry h));
    mret (set_entry h (num_entries h) (Some l))
  else
    names ← get_list_wlans;
    lift (match names with [] => Ok tt | _ => unassigned end);;
    mret (set_entry h 0 (Some [])).

(** The relay takes [&h->m_id]. *)
Definition process_msg_wlan_info (junk : nat → Z) (input : list cell) : ST W (option (list cell)) :=
  h ← lift (decode_msg_wlan_info input);
  h ← (if negb (nonnull (sta_ip h)) then wlan_local junk h
       else
         let name := match elems (entry h) with e :: _ => we_intf_name e | [] => None end in
         '(h1, id') ← send_msg_get_wlan_info junk (sta_ip h) (sta_port h) (m_id (hd h)) name None 0;
         let h := with_id h id' in
         match h1 with
         | Some h1 => mret (set_entry h (num_entries h1) (entry h1))
         | None => mret (set_entry h 0 None)
         end);
  '(_, output) ← lift (encode_msg_wlan_info h);
  mret (Some output).
End agent.

End WlanInfo.

