(* ===== verification/MsgScan.v ===== *)
(** Scans and beacons: [msg_ap_in_range.c], [msg_scan.c], [msg_beaconinfo.c] and
    [msg_inform_beacon.c]. *)
From stdpp Require Import prelude list strings.
From S2P Require Import Prelude CMem MsgCommon BufferHandler World Rpc MsgChannel MsgBitrate.

Module ApInRange.

(** [struct ap_in_range], in the order of the wire; the signal is a [float] pattern. *)
Record ap_in_range := ApRange {
  ap_intf_name : charp;
  mac_ap : charp;
  SSID : charp;
  status : Z;
  frequency : Z;
  channel : Z;
  signal : Z;
  powerconstraint : Z;
  tx_power : Z;
  link_margin : Z;
  age : Z;
  is_dBm : bool
}.

#[global] Instance ap_in_range_entry : Entry ap_in_range := {|
  e_size e :=
    n1 ← strlen_ethanol (ap_intf_name e);
    n2 ← strlen_ethanol (mac_ap e);
    n3 ← strlen_ethanol (SSID e);
    Ok (n1 + n2 + n3 + 4 + 8 + 4 + 4 + 4 + 4 + 4 + 4 + 4);
  e_encode e :=
    encode_char (ap_intf_name e);;
    encode_char (mac_ap e);;
    encode_char (SSID e);;
    encode_int (status e);;
    encode_long (frequency e);;
    encode_int (channel e);;
    encode_float (signal e);;
    encode_int (powerconstraint e);;
    encode_int (tx_power e);;
    encode_int (link_margin e);;
    encode_int (age e);;
    encode_bool (is_dBm e);
  e_decode :=
    ap_intf_name ← decode_char;
    mac_ap ← decode_char;
    SSID ← decode_char;
    status ← decode_int;
    frequency ← decode_long;
    channel ← decode_int;
    signal ← decode_float;
    powerconstraint ← decode_int;
    tx_power ← decode_int;
    link_margin ← decode_int;
    age ← decode_int;
    is_dBm ← decode_bool;
    mret (ApRange ap_intf_name mac_ap SSID status frequency channel signal powerconstraint tx_power link_margin age is_dBm);
  e_ok e := cstr_ok (ap_intf_name e) && cstr_ok (mac_ap e) &&
    cstr_ok (SSID e) && i32_ok (status e) && i64_ok (frequency e) &&
    i32_ok (channel e) && u32_ok (signal e) && i32_ok (powerconstraint e) &&
    i32_ok (tx_power e) && i32_ok (link_margin e) && i32_ok (age e);
  e_normal e := ApRange (canon (ap_intf_name e)) (canon (mac_ap e))
    (canon (SSID e)) (status e) (frequency e) (channel e) (signal e)
    (powerconstraint e) (tx_power e) (link_margin e) (age e) (is_dBm e);
  e_len e := 5 + Z.of_nat (length (text (ap_intf_name e))) + 5 + Z.of_nat (length (text (mac_ap e))) + 5 + Z.of_nat (length (text (SSID e))) + 4 + 8 + 4 + 4 + 4 + 4 + 4 + 4 + 4;
  e_wire e :=
    wire_str (text (ap_intf_name e)) ++
    wire_str (text (mac_ap e)) ++
    wire_str (text (SSID e)) ++
    cells (le 4 (status e)) ++
    cells (le 8 (frequency e)) ++
    cells (le 4 (channel e)) ++
    cells (le 4 (signal e)) ++
    cells (le 4 (powerconstraint e)) ++
    cells (le 4 (tx_power e)) ++
    cells (le 4 (link_margin e)) ++
    cells (le 4 (age e)) ++
    cells [if is_dBm e then 1 else 0]
|}.

#[global] Instance ap_in_range_entry_ok : EntryOk ap_in_range.
Proof. solve_entry ap_in_range_entry. Qed.

(** [struct msg_ap_in_range] (msg_ap_in_range.h): the common header, then
    its own fields. *)
Record msg_ap_in_range := Msg {
  hd : msg_header;
  intf_name : charp;
  sta_ip : charp;
  sta_port : Z;
  num_aps : Z;
  aps : option (list ap_in_range)
}.

Definition resize (h : msg_ap_in_range) (n : Z) : msg_ap_in_range :=
  Msg (set_m_size (hd h) n) (intf_name h) (sta_ip h) (sta_port h) (num_aps h)
  (aps h).
Definition with_id (h : msg_ap_in_range) (i : Z) : msg_ap_in_range :=
  Msg (set_m_id (hd h) i) (intf_name h) (sta_ip h) (sta_port h) (num_aps h)
  (aps h).

Section codec.
Context `{Allocator}.

Definition message_size_ap_in_range (h : msg_ap_in_range) : res Z :=
  v ← strlen_ethanol (p_version (hd h));
  n1 ← strlen_ethanol (intf_name h);
  n2 ← strlen_ethanol (sta_ip h);
  a ← array_size (aps h) (num_aps h);
  Ok (to_i32 (4 + 4 + v + 4 + n1 + n2 + 4 + 4 + a)).

Definition encode_msg_ap_in_range : msg_ap_in_range → res (msg_ap_in_range * list cell) :=
  encode_with message_size_ap_in_range resize (λ h,
    encode_header (m_type (hd h)) (m_id (hd h)) (m_size (hd h));;
    encode_char (intf_name h);;
    encode_char (sta_ip h);;
    encode_int (sta_port h);;
    encode_uint (num_aps h);;
    array_encode (aps h) (num_aps h)).

Definition decode_msg_ap_in_range : list cell → res msg_ap_in_range := decode_buffer (
  hd ← decode_header;
  intf_name ← decode_char;
  sta_ip ← decode_char;
  sta_port ← decode_int;
  num_aps ← decode_uint;
  aps ← array_decode num_aps;
  mret (Msg hd intf_name sta_ip sta_port num_aps aps)).

Definition wf (h : msg_ap_in_range) : bool :=
  header_ok (hd h) && strs_ok [p_version (hd h); intf_name h; sta_ip h] &&
  i32_ok (sta_port h) && u32_ok (num_aps h) && array_wf (num_aps h) (aps h).

Definition normal (h : msg_ap_in_range) : msg_ap_in_range :=
  Msg (normal_header (hd h)) (canon (intf_name h)) (canon (sta_ip h))
  (sta_port h) (num_aps h) (normal_array (aps h)).

#[global] Instance msg_ap_in_range_message : Message msg_ap_in_range := {|
  msg_head := hd; msg_resize := resize; msg_size := message_size_ap_in_range;
  msg_encode := encode_msg_ap_in_range; msg_decode := decode_msg_ap_in_range;
  msg_normal := normal; msg_wf := wf
|}.

#[global] Instance msg_ap_in_range_ok : MessageOk msg_ap_in_range.
Proof. solve_codec wf message_size_ap_in_range. Qed.
End codec.

Section agent.
Context {W : Type} `{Net W, Device W, Build, Allocator}.
Context `{Host W}.

Definition set_aps (h : msg_ap_in_range) (n : Z) (l : option (list ap_in_range)) : msg_ap_in_range :=
  Msg (hd h) (intf_name h) (sta_ip h) (sta_port h) n l.

(** An empty record is not decoded. *)
Definition send_msg_get_ap_in_range (hostname : charp) (portnum id : Z) (intf_name sta_ip : charp)
    (sta_port : Z) : ST W (option msg_ap_in_range * Z) :=
  with_ssl hostname portnum (None, id) (
    id' ← lift (incr_int id);
    version ← lift (copy_string ETHANOL_VERSION);
    intf ← lift (copy_string intf_name);
    ip ← lift (copy_string sta_ip);
    notify (Msg (Header MSG_GET_AP_IN_RANGE_TYPE id version 0) intf ip sta_port 0 None);;
    buf ← ssl_read SSL_BUFFER_SIZE;
    h1 ← match buf with
         | [] => mret None
         | _ => lift (reply_of (λ t, t =? MSG_GET_AP_IN_RANGE_TYPE) buf)
         end;
    mret (h1, id')).

(** The [long] age becomes an [int]. *)
Definition of_scan (p : scan_info_t) : ap_in_range :=
  ApRange (sc_intf_name p) (sc_mac_addr p) (sc_SSID p) (sc_status p) (sc_frequency p) (sc_channel p)
    (sc_signal p) (sc_powerconstraint p) (sc_tx_power p) (sc_link_margin p) (to_i32 (sc_age p))
    (sc_is_dBm p).

Definition scan_interface (name : charp) : ST W (list scan_info_t) :=
  if process_station then trigger_scann name;; get_scanning_info name
  else trigger_scan_intf name;; return_ap_in_range name.

(** The wireless interfaces are scanned in order; each result goes in front of
    the earlier ones.  The name kept with a result is copied and not used. *)
Fixpoint scan_all (d : list interface_fields) (all : list scan_info_t) : ST W (list scan_info_t) :=
  match d with
  | [] => mret all
  | i :: d =>
      if if_is_wifi i then
        scan ← scan_interface (if_name i);
        lift (copy_string (if_name i));;
        scan_all d (scan ++ all)
      else scan_all d all
  end.

Definition aps_local (h : msg_ap_in_range) : ST W msg_ap_in_range :=
  if negb (nonnull (intf_name h)) then
    intfs ← get_all_interfaces;
    match intfs with
    | Some d => l ← scan_all d []; mret (set_aps h (Z.of_nat (length l)) (Some (of_scan <$> l)))
    | None => mret (set_aps h 0 None)
    end
  else
    l ← scan_interface (intf_name h);
    mret (set_aps h (Z.of_nat (length l)) (match l with [] => None | _ => Some (of_scan <$> l) end)).

(** The relay takes [&h->m_id]. *)
Definition process_msg_ap_in_range (input : list cell) : ST W (option (list cell)) :=
  h ← lift (decode_msg_ap_in_range input);
  h ← (if negb (nonnull (sta_ip h)) then aps_local h
       else
         '(h1, id') ← send_msg_get_ap_in_range (sta_ip h) (sta_port h) (m_id (hd h)) (intf_name h)
                        None 0;
         let h := with_id h id' in
         match h1 with
         | Some h1 => mret (set_aps h (num_aps h1) (aps h1))
         | None => mret (set_aps h 0 None)
         end);
  '(_, output) ← lift (encode_msg_ap_in_range h);
  mret (Some output).
End agent.

End ApInRange.

Module Scan.

(** The rates of a network, [float] patterns. *)
#[local] Instance float_entry : Entry Z := {|
  e_size _ := Ok 4; e_encode := encode_float; e_decode := decode_float; e_ok := u32_ok;
  e_normal e := e; e_len _ := 4; e_wire e := cells (le 4 e)
|}.

#[local] Instance float_entry_ok : EntryOk Z.
Proof.
  split; intros e He; [done|apply writes_store|by apply reads_float|].
  cbn [float_entry e_wire e_len]. solve_wire_length.
Qed.

#[local] Instance float_fixed : FixedEntry Z 4.
Proof. done. Qed.

(** A country triplet: [sizeof(country_type)] is 24, of which 12 are written;
    the receiver does not assign [ext]. *)
#[global] Instance country_type_entry : Entry country_type := {|
  e_size e :=
    Ok (24);
  e_encode e :=
    encode_int (starting_channel e);;
    encode_int (number_of_channels e);;
    encode_int (max_tx_power e);
  e_decode :=
    starting_channel_ ← decode_int;
    number_of_channels_ ← decode_int;
    max_tx_power_ ← decode_int;
    mret (Country starting_channel_ number_of_channels_ max_tx_power_ None);
  e_ok e := i32_ok (starting_channel e) && i32_ok (number_of_channels e) &&
    i32_ok (max_tx_power e);
  e_normal e := Country (starting_channel e) (number_of_channels e)
    (max_tx_power e) None;
  e_len e := 24;
  e_wire e :=
    cells (le 4 (starting_channel e)) ++
    cells (le 4 (number_of_channels e)) ++
    cells (le 4 (max_tx_power e))
|}.

#[global] Instance country_type_entry_ok : EntryOk country_type.
Proof. solve_entry country_type_entry. Qed.

#[global] Instance country_fixed : FixedEntry country_type 24.
Proof. done. Qed.

(** A network of a scan.  The size leaves out [rsn_version], four bytes; the
    flags, of one byte each, are counted with four. *)
#[global] Instance scan_info_t_entry : Entry scan_info_t := {|
  e_size e :=
    n1 ← strlen_ethanol (sc_intf_name e);
    n2 ← strlen_ethanol (sc_mac_addr e);
    n3 ← strlen_ethanol (sc_SSID e);
    n4 ← part_size (sc_country_code e);
    n5 ← part_size (sc_rsn_group_cipher_oui e);
    Ok (4 + 4 + n1 + n2 + n3 + 4 + 8 + 8 + 4 + 8 + 4 + 4 + 4 + 4 + 4 + 4 +
        8 + 4 + sc_num_rates e * 4 + 4 + 4 + 4 + 4 + 4 + 4 + n4 + 1 + 4 +
        sc_num_country_triplets e * 24 + 4 + n5 + 4 + 4 +
        sc_pairwise_cipher_count e * 4 + 4 + sc_authkey_mngmt_count e * 4 +
        4 + 4 + 4 + 4 + 4 + 4 + 4 + 4 + 4 + 4 + 4);
  e_encode e :=
    encode_int (sc_ap_num e);;
    encode_int (sc_wiphy e);;
    encode_char (sc_intf_name e);;
    encode_char (sc_mac_addr e);;
    encode_char (sc_SSID e);;
    encode_int (sc_status e);;
    encode_long (sc_beacon_interval e);;
    encode_u2long (sc_tsf e);;
    encode_uint (sc_capability e);;
    encode_long (sc_frequency e);;
    encode_int (sc_channel e);;
    encode_bool (sc_is_dBm e);;
    encode_float (sc_signal e);;
    encode_int (sc_powerconstraint e);;
    encode_int (sc_tx_power e);;
    encode_int (sc_link_margin e);;
    encode_long (sc_age e);;
    encode_int (sc_num_rates e);;
    array_encode (sc_rates e) (sc_num_rates e);;
    encode_bool (sc_is_ht e);;
    encode_bool (sc_is_vht e);;
    encode_bool (sc_has_dtim e);;
    encode_int (sc_dtim_count e);;
    encode_int (sc_dtim_period e);;
    encode_bool (sc_has_country e);;
    part_encode (sc_country_code e);;
    encode_byte (sc_country_environment e);;
    encode_int (sc_num_country_triplets e);;
    array_encode (sc_country_triplets e) (sc_num_country_triplets e);;
    encode_bool (sc_has_rsn e);;
    encode_int (sc_rsn_version e);;
    part_encode (sc_rsn_group_cipher_oui e);;
    encode_int (sc_rsn_group_cipher_type e);;
    encode_int (sc_pairwise_cipher_count e);;
    array_encode (sc_pairwise_cipher e) (sc_pairwise_cipher_count e);;
    encode_int (sc_authkey_mngmt_count e);;
    array_encode (sc_authkey_mngmt e) (sc_authkey_mngmt_count e);;
    encode_int (sc_rsn_capabilities e);;
    encode_bool (sc_has_erp e);;
    encode_bool (sc_nonERP_Present e);;
    encode_bool (sc_use_Protection e);;
    encode_bool (sc_barker_Preamble_Mode e);;
    encode_bool (sc_has_bss_load e);;
    encode_int (sc_station_count e);;
    encode_int (sc_channel_utilization e);;
    encode_int (sc_avail_admission_capacity e);;
    encode_bool (sc_ibss_ps e);;
    encode_int (sc_ATIM_Window e);
  e_decode :=
    sc_ap_num_ ← decode_int;
    sc_wiphy_ ← decode_int;
    sc_intf_name_ ← decode_char;
    sc_mac_addr_ ← decode_char;
    sc_SSID_ ← decode_char;
    sc_status_ ← decode_int;
    sc_beacon_interval_ ← decode_long;
    sc_tsf_ ← decode_u2long;
    sc_capability_ ← decode_uint;
    sc_frequency_ ← decode_long;
    sc_channel_ ← decode_int;
    sc_is_dBm_ ← decode_bool;
    sc_signal_ ← decode_float;
    sc_powerconstraint_ ← decode_int;
    sc_tx_power_ ← decode_int;
    sc_link_margin_ ← decode_int;
    sc_age_ ← decode_long;
    sc_num_rates_ ← decode_int;
    sc_rates_ ← array_decode sc_num_rates_;
    sc_is_ht_ ← decode_bool;
    sc_is_vht_ ← decode_bool;
    sc_has_dtim_ ← decode_bool;
    sc_dtim_count_ ← decode_int;
    sc_dtim_period_ ← decode_int;
    sc_has_country_ ← decode_bool;
    sc_country_code_ ← part_decode;
    sc_country_environment_ ← decode_byte;
    sc_num_country_triplets_ ← decode_int;
    sc_country_triplets_ ← array_decode sc_num_country_triplets_;
    sc_has_rsn_ ← decode_bool;
    sc_rsn_version_ ← decode_int;
    sc_rsn_group_cipher_oui_ ← part_decode;
    sc_rsn_group_cipher_type_ ← decode_int;
    sc_pairwise_cipher_count_ ← decode_int;
    sc_pairwise_cipher_ ← array_decode sc_pairwise_cipher_count_;
    sc_authkey_mngmt_count_ ← decode_int;
    sc_authkey_mngmt_ ← array_decode sc_authkey_mngmt_count_;
    sc_rsn_capabilities_ ← decode_int;
    sc_has_erp_ ← decode_bool;
    sc_nonERP_Present_ ← decode_bool;
    sc_use_Protection_ ← decode_bool;
    sc_barker_Preamble_Mode_ ← decode_bool;
    sc_has_bss_load_ ← decode_bool;
    sc_station_count_ ← decode_int;
    sc_channel_utilization_ ← decode_int;
    sc_avail_admission_capacity_ ← decode_int;
    sc_ibss_ps_ ← decode_bool;
    sc_ATIM_Window_ ← decode_int;
    mret (ScanInfo sc_ap_num_ sc_wiphy_ sc_intf_name_ sc_mac_addr_ sc_SSID_
      sc_status_ sc_beacon_interval_ sc_tsf_ sc_capability_ sc_frequency_
      sc_channel_ sc_is_dBm_ sc_signal_ sc_powerconstraint_ sc_tx_power_
      sc_link_margin_ None None sc_age_ sc_num_rates_ sc_rates_ sc_is_ht_ sc_is_vht_
      sc_has_dtim_ sc_dtim_count_ sc_dtim_period_ sc_has_country_
      sc_country_code_ sc_country_environment_ sc_num_country_triplets_
      sc_country_triplets_ sc_has_rsn_ sc_rsn_version_
      sc_rsn_group_cipher_oui_ sc_rsn_group_cipher_type_
      sc_pairwise_cipher_count_ sc_pairwise_cipher_ sc_authkey_mngmt_count_
      sc_authkey_mngmt_ sc_rsn_capabilities_ sc_has_erp_ sc_nonERP_Present_
      sc_use_Protection_ sc_barker_Preamble_Mode_ sc_has_bss_load_
      sc_station_count_ sc_channel_utilization_ sc_avail_admission_capacity_
      sc_ibss_ps_ sc_ATIM_Window_);
  e_ok e := i32_ok (sc_ap_num e) && i32_ok (sc_wiphy e) &&
    cstr_ok (sc_intf_name e) && cstr_ok (sc_mac_addr e) &&
    cstr_ok (sc_SSID e) && i32_ok (sc_status e) &&
    i64_ok (sc_beacon_interval e) && u_ok 64 (sc_tsf e) &&
    u32_ok (sc_capability e) && i64_ok (sc_frequency e) &&
    i32_ok (sc_channel e) && u32_ok (sc_signal e) &&
    i32_ok (sc_powerconstraint e) && i32_ok (sc_tx_power e) &&
    i32_ok (sc_link_margin e) && i64_ok (sc_age e) &&
    i32_ok (sc_num_rates e) && array_wf (sc_num_rates e) (sc_rates e) &&
    i32_ok (sc_dtim_count e) && i32_ok (sc_dtim_period e) &&
    part_wf (sc_country_code e) && u_ok 8 (sc_country_environment e) &&
    i32_ok (sc_num_country_triplets e) &&
    array_wf (sc_num_country_triplets e) (sc_country_triplets e) &&
    i32_ok (sc_rsn_version e) && part_wf (sc_rsn_group_cipher_oui e) &&
    i32_ok (sc_rsn_group_cipher_type e) &&
    i32_ok (sc_pairwise_cipher_count e) &&
    array_wf (sc_pairwise_cipher_count e) (sc_pairwise_cipher e) &&
    i32_ok (sc_authkey_mngmt_count e) &&
    array_wf (sc_authkey_mngmt_count e) (sc_authkey_mngmt e) &&
    i32_ok (sc_rsn_capabilities e) && i32_ok (sc_station_count e) &&
    i32_ok (sc_channel_utilization e) &&
    i32_ok (sc_avail_admission_capacity e) && i32_ok (sc_ATIM_Window e);
  e_normal e := ScanInfo (sc_ap_num e) (sc_wiphy e) (canon (sc_intf_name e))
    (canon (sc_mac_addr e)) (canon (sc_SSID e)) (sc_status e)
    (sc_beacon_interval e) (sc_tsf e) (sc_capability e) (sc_frequency e)
    (sc_channel e) (sc_is_dBm e) (sc_signal e) (sc_powerconstraint e)
    (sc_tx_power e) (sc_link_margin e) None None (sc_age e) (sc_num_rates e)
    (normal_array (sc_rates e)) (sc_is_ht e) (sc_is_vht e) (sc_has_dtim e)
    (sc_dtim_count e) (sc_dtim_period e) (sc_has_country e)
    (part_normal (sc_country_code e)) (sc_country_environment e)
    (sc_num_country_triplets e) (normal_array (sc_country_triplets e))
    (sc_has_rsn e) (sc_rsn_version e)
    (part_normal (sc_rsn_group_cipher_oui e)) (sc_rsn_group_cipher_type e)
    (sc_pairwise_cipher_count e) (normal_array (sc_pairwise_cipher e))
    (sc_authkey_mngmt_count e) (normal_array (sc_authkey_mngmt e))
    (sc_rsn_capabilities e) (sc_has_erp e) (sc_nonERP_Present e)
    (sc_use_Protection e) (sc_barker_Preamble_Mode e) (sc_has_bss_load e)
    (sc_station_count e) (sc_channel_utilization e)
    (sc_avail_admission_capacity e) (sc_ibss_ps e) (sc_ATIM_Window e);
  e_len e := 4 + 4 + (5 + Z.of_nat (length (text (sc_intf_name e)))) +
    (5 + Z.of_nat (length (text (sc_mac_addr e)))) +
    (5 + Z.of_nat (length (text (sc_SSID e)))) + 4 + 8 + 8 + 4 + 8 + 4 + 4 +
    4 + 4 + 4 + 4 + 8 + 4 + array_len (sc_rates e) + 4 + 4 + 4 + 4 + 4 + 4 +
    part_len (sc_country_code e) + 1 + 4 +
    array_len (sc_country_triplets e) + 4 +
    part_len (sc_rsn_group_cipher_oui e) + 4 + 4 +
    array_len (sc_pairwise_cipher e) + 4 + array_len (sc_authkey_mngmt e) +
    4 + 4 + 4 + 4 + 4 + 4 + 4 + 4 + 4 + 4 + 4;
  e_wire e :=
    cells (le 4 (sc_ap_num e)) ++
    cells (le 4 (sc_wiphy e)) ++
    wire_str (text (sc_intf_name e)) ++
    wire_str (text (sc_mac_addr e)) ++
    wire_str (text (sc_SSID e)) ++
    cells (le 4 (sc_status e)) ++
    cells (le 8 (sc_beacon_interval e)) ++
    cells (le 8 (sc_tsf e)) ++
    cells (le 4 (sc_capability e)) ++
    cells (le 8 (sc_frequency e)) ++
    cells (le 4 (sc_channel e)) ++
    cells [if sc_is_dBm e then 1 else 0] ++
    cells (le 4 (sc_signal e)) ++
    cells (le 4 (sc_powerconstraint e)) ++
    cells (le 4 (sc_tx_power e)) ++
    cells (le 4 (sc_link_margin e)) ++
    cells (le 8 (sc_age e)) ++
    cells (le 4 (sc_num_rates e)) ++
    array_wire (sc_rates e) ++
    cells [if sc_is_ht e then 1 else 0] ++
    cells [if sc_is_vht e then 1 else 0] ++
    cells [if sc_has_dtim e then 1 else 0] ++
    cells (le 4 (sc_dtim_count e)) ++
    cells (le 4 (sc_dtim_period e)) ++
    cells [if sc_has_country e then 1 else 0] ++
    part_wire (sc_country_code e) ++
    cells (le 1 (sc_country_environment e)) ++
    cells (le 4 (sc_num_country_triplets e)) ++
    array_wire (sc_country_triplets e) ++
    cells [if sc_has_rsn e then 1 else 0] ++
    cells (le 4 (sc_rsn_version e)) ++
    part_wire (sc_rsn_group_cipher_oui e) ++
    cells (le 4 (sc_rsn_group_cipher_type e)) ++
    cells (le 4 (sc_pairwise_cipher_count e)) ++
    array_wire (sc_pairwise_cipher e) ++
    cells (le 4 (sc_authkey_mngmt_count e)) ++
    array_wire (sc_authkey_mngmt e) ++
    cells (le 4 (sc_rsn_capabilities e)) ++
    cells [if sc_has_erp e then 1 else 0] ++
    cells [if sc_nonERP_Present e then 1 else 0] ++
    cells [if sc_use_Protection e then 1 else 0] ++
    cells [if sc_barker_Preamble_Mode e then 1 else 0] ++
    cells [if sc_has_bss_load e then 1 else 0] ++
    cells (le 4 (sc_station_count e)) ++
    cells (le 4 (sc_channel_utilization e)) ++
    cells (le 4 (sc_avail_admission_capacity e)) ++
    cells [if sc_ibss_ps e then 1 else 0] ++
    cells (le 4 (sc_ATIM_Window e))
|}.

#[global] Instance scan_info_t_entry_ok : EntryOk scan_info_t.
Proof. solve_entry scan_info_t_entry. Qed.

(** [struct msg_scan_received] (msg_scan.h, with the fields of its [scan]): the common header, then
    its own fields. *)
Record msg_scan_received := Msg {
  hd : msg_header;
  intf_name : charp;
  sta_ip : charp;
  sta_port : Z;
  num_scan : Z;
  scans : option (list scan_info_t)
}.

Definition resize (h : msg_scan_received) (n : Z) : msg_scan_received :=
  Msg (set_m_size (hd h) n) (intf_name h) (sta_ip h) (sta_port h)
  (num_scan h) (scans h).

Section codec.
Context `{Allocator}.

Definition message_size_scan_received (h : msg_scan_received) : res Z :=
  v ← strlen_ethanol (p_version (hd h));
  n1 ← strlen_ethanol (intf_name h);
  n2 ← strlen_ethanol (sta_ip h);
  a ← array_size (scans h) (num_scan h);
  Ok (to_i32 (4 + 4 + v + 4 + n1 + n2 + 4 + 4 + a)).

Definition encode_msg_scan_received : msg_scan_received → res (msg_scan_received * list cell) :=
  encode_with message_size_scan_received resize (λ h,
    encode_header (m_type (hd h)) (m_id (hd h)) (m_size (hd h));;
    encode_char (intf_name h);;
    encode_char (sta_ip h);;
    encode_int (sta_port h);;
    encode_int (num_scan h);;
    array_encode (scans h) (num_scan h)).

Definition decode_msg_scan_received : list cell → res msg_scan_received := decode_buffer (
  hd ← decode_header;
  intf_name ← decode_char;
  sta_ip ← decode_char;
  sta_port ← decode_int;
  num_scan ← decode_int;
  scans ← array_decode num_scan;
  mret (Msg hd intf_name sta_ip sta_port num_scan scans)).

Definition wf (h : msg_scan_received) : bool :=
  header_ok (hd h) && strs_ok [p_version (hd h); intf_name h; sta_ip h] &&
  i32_ok (sta_port h) && i32_ok (num_scan h) &&
  array_wf (num_scan h) (scans h).

Definition normal (h : msg_scan_received) : msg_scan_received :=
  Msg (normal_header (hd h)) (canon (intf_name h)) (canon (sta_ip h))
  (sta_port h) (num_scan h) (normal_array (scans h)).

#[global] Instance msg_scan_received_message : Message msg_scan_received := {|
  msg_head := hd; msg_resize := resize; msg_size := message_size_scan_received;
  msg_encode := encode_msg_scan_received; msg_decode := decode_msg_scan_received;
  msg_normal := normal; msg_wf := wf
|}.

#[global] Instance msg_scan_received_ok : MessageOk msg_scan_received.
Proof. solve_codec wf message_size_scan_received. Qed.
End codec.

Section agent.
Context {W : Type} `{Net W, Device W, Build, Allocator}.
Context `{Host W}.

Definition set_scan (h : msg_scan_received) (n : Z) (l : option (list scan_info_t)) :
    msg_scan_received := Msg (hd h) (intf_name h) (sta_ip h) (sta_port h) n l.

(** The version is the literal itself, not a copy. *)
Definition send_msg_get_scan (hostname : charp) (portnum id : Z) (intf_name sta_ip : charp)
    (sta_port : Z) : ST W (option msg_scan_received * Z) :=
  with_ssl hostname portnum (None, id) (
    id' ← lift (incr_int id);
    intf ← lift (copy_string intf_name);
    ip ← lift (copy_string sta_ip);
    h1 ← exchange (Msg (Header MSG_SCAN id ETHANOL_VERSION 0) intf ip sta_port 0 None)
                  (λ t, t =? MSG_SCAN);
    mret (h1, id')).

Definition scan_local (name : charp) : ST W (list scan_info_t) :=
  if process_station then get_scanning_info name
  else
    wiphy ← wiphy_of name;
    match f_survey with Some f => f wiphy | None => mret [] end.

(** [free_msg_scan] on a decoded message: [free_scan_info_t] follows the
    [next] of an entry, which the decoder does not assign. *)
Definition free_msg_scan (h : msg_scan_received) : res unit :=
  if 0 <? num_scan h then unassigned else Ok tt.

(** A relayed request reads its result without testing it, and releases it. *)
Definition process_msg_scan_received (input : list cell) : ST W (option (list cell)) :=
  h ← lift (decode_msg_scan_received input);
  if negb (nonnull (sta_ip h)) then
    l ← scan_local (intf_name h);
    '(_, output) ← lift (encode_msg_scan_received (set_scan h (to_i32 (Z.of_nat (length l))) (Some l)));
    mret (Some output)
  else
    '(h1, _) ← send_msg_get_scan (sta_ip h) (sta_port h) (m_id (hd h)) (intf_name h) None 0;
    h1 ← lift (deref h1);
    '(_, output) ← lift (encode_msg_scan_received (set_scan h (num_scan h1) (scans h1)));
    lift (free_msg_scan h1);;
    mret (Some output).
End agent.

End Scan.

Module BeaconInfo.

(** The [long long] identifiers of a security element. *)
#[local] Instance oui_entry : Entry Z := {|
  e_size _ := Ok 8; e_encode := encode_2long; e_decode := decode_2long; e_ok := i64_ok;
  e_normal e := e; e_len _ := 8; e_wire e := cells (le 8 e)
|}.

#[local] Instance oui_entry_ok : EntryOk Z.
Proof.
  split; intros e He; [done|apply writes_store|by apply reads_2long|].
  cbn [oui_entry e_wire e_len]. solve_wire_length.
Qed.

#[local] Instance oui_fixed : FixedEntry Z 8.
Proof. done. Qed.

(** [struct supported_rates]. *)
Record supported_rates := Rate {
  id : Z;
  rate : Z;
  basic_rate : bool
}.

#[global] Instance supported_rates_entry : Entry supported_rates := {|
  e_size e :=
    Ok (4 + 4 + 4);
  e_encode e :=
    encode_uint (id e);;
    encode_uint (rate e);;
    encode_bool (basic_rate e);
  e_decode :=
    id_ ← decode_uint;
    rate_ ← decode_uint;
    basic_rate_ ← decode_bool;
    mret (Rate id_ rate_ basic_rate_);
  e_ok e := u32_ok (id e) && u32_ok (rate e);
  e_normal e := Rate (id e) (rate e) (basic_rate e);
  e_len e := 4 + 4 + 4;
  e_wire e :=
    cells (le 4 (id e)) ++
    cells (le 4 (rate e)) ++
    cells [if basic_rate e then 1 else 0]
|}.

#[global] Instance supported_rates_entry_ok : EntryOk supported_rates.
Proof. solve_entry supported_rates_entry. Qed.

#[global] Instance supported_rates_fixed : FixedEntry supported_rates 12.
Proof. done. Qed.

(** [struct beacon_channels]. *)
Record beacon_channels := Channels {
  b_starting_channel : Z;
  b_num_channels : Z;
  b_max_tx_power : Z
}.

#[global] Instance beacon_channels_entry : Entry beacon_channels := {|
  e_size e :=
    Ok (4 + 4 + 4);
  e_encode e :=
    encode_uint (b_starting_channel e);;
    encode_uint (b_num_channels e);;
    encode_uint (b_max_tx_power e);
  e_decode :=
    b_starting_channel_ ← decode_uint;
    b_num_channels_ ← decode_uint;
    b_max_tx_power_ ← decode_uint;
    mret (Channels b_starting_channel_ b_num_channels_ b_max_tx_power_);
  e_ok e := u32_ok (b_starting_channel e) && u32_ok (b_num_channels e) &&
    u32_ok (b_max_tx_power e);
  e_normal e := Channels (b_starting_channel e) (b_num_channels e)
    (b_max_tx_power e);
  e_len e := 4 + 4 + 4;
  e_wire e :=
    cells (le 4 (b_starting_channel e)) ++
    cells (le 4 (b_num_channels e)) ++
    cells (le 4 (b_max_tx_power e))
|}.

#[global] Instance beacon_channels_entry_ok : EntryOk beacon_channels.
Proof. solve_entry beacon_channels_entry. Qed.

#[global] Instance beacon_channels_fixed : FixedEntry beacon_channels 12.
Proof. done. Qed.

(** [struct beacon_country]. *)
Record beacon_country := BeaconCountry {
  country_code : Z;
  environment : Z;
  num_beacon_channels : Z;
  c : option (list beacon_channels)
}.

#[global] Instance beacon_country_entry : Entry beacon_country := {|
  e_size e :=
    Ok (4 + 4 + 4 + num_beacon_channels e * 12);
  e_encode e :=
    encode_uint (country_code e);;
    encode_int (environment e);;
    encode_int (num_beacon_channels e);;
    array_encode (c e) (num_beacon_channels e);
  e_decode :=
    country_code_ ← decode_uint;
    environment_ ← decode_int;
    num_beacon_channels_ ← decode_int;
    c_ ← array_decode num_beacon_channels_;
    mret (BeaconCountry country_code_ environment_ num_beacon_channels_ c_);
  e_ok e := u32_ok (country_code e) && i32_ok (environment e) &&
    i32_ok (num_beacon_channels e) && array_wf (num_beacon_channels e) (c e);
  e_normal e := BeaconCountry (country_code e) (environment e)
    (num_beacon_channels e) (normal_array (c e));
  e_len e := 4 + 4 + 4 + array_len (c e);
  e_wire e :=
    cells (le 4 (country_code e)) ++
    cells (le 4 (environment e)) ++
    cells (le 4 (num_beacon_channels e)) ++
    array_wire (c e)
|}.

#[global] Instance beacon_country_entry_ok : EntryOk beacon_country.
Proof. solve_entry beacon_country_entry. Qed.

(** [struct robust_secure_network] of msg_common.h. *)
Record robust_secure_network := Rsn {
  rsn_version : Z;
  rsn_group_cipher_oui : Z;
  rsn_group_cipher_type : Z;
  rsn_pairwise_cipher_count : Z;
  rsn_pairwise_cipher_oui : option (list Z);
  rsn_authkey_count : Z;
  rsn_akmp_suite_oui : option (list Z);
  rsn_capabilities : Z;
  rsn_pmkid_count : Z;
  rsn_pmkid : option (list Z)
}.

#[global] Instance robust_secure_network_entry : Entry robust_secure_network := {|
  e_size e :=
    Ok (4 + 8 + 4 + 4 + rsn_pairwise_cipher_count e * 8 + 4 +
        rsn_authkey_count e * 8 + 4 + 4 + rsn_pmkid_count e * 8);
  e_encode e :=
    encode_uint (rsn_version e);;
    encode_2long (rsn_group_cipher_oui e);;
    encode_uint (rsn_group_cipher_type e);;
    encode_uint (rsn_pairwise_cipher_count e);;
    array_encode (rsn_pairwise_cipher_oui e) (rsn_pairwise_cipher_count e);;
    encode_uint (rsn_authkey_count e);;
    array_encode (rsn_akmp_suite_oui e) (rsn_authkey_count e);;
    encode_uint (rsn_capabilities e);;
    encode_uint (rsn_pmkid_count e);;
    array_encode (rsn_pmkid e) (rsn_pmkid_count e);
  e_decode :=
    rsn_version_ ← decode_uint;
    rsn_group_cipher_oui_ ← decode_2long;
    rsn_group_cipher_type_ ← decode_uint;
    rsn_pairwise_cipher_count_ ← decode_uint;
    rsn_pairwise_cipher_oui_ ← array_decode rsn_pairwise_cipher_count_;
    rsn_authkey_count_ ← decode_uint;
    rsn_akmp_suite_oui_ ← array_decode rsn_authkey_count_;
    rsn_capabilities_ ← decode_uint;
    rsn_pmkid_count_ ← decode_uint;
    rsn_pmkid_ ← array_decode rsn_pmkid_count_;
    mret (Rsn rsn_version_ rsn_group_cipher_oui_ rsn_group_cipher_type_
      rsn_pairwise_cipher_count_ rsn_pairwise_cipher_oui_ rsn_authkey_count_
      rsn_akmp_suite_oui_ rsn_capabilities_ rsn_pmkid_count_ rsn_pmkid_);
  e_ok e := u32_ok (rsn_version e) && i64_ok (rsn_group_cipher_oui e) &&
    u32_ok (rsn_group_cipher_type e) &&
    u32_ok (rsn_pairwise_cipher_count e) &&
    array_wf (rsn_pairwise_cipher_count e) (rsn_pairwise_cipher_oui e) &&
    u32_ok (rsn_authkey_count e) &&
    array_wf (rsn_authkey_count e) (rsn_akmp_suite_oui e) &&
    u32_ok (rsn_capabilities e) && u32_ok (rsn_pmkid_count e) &&
    array_wf (rsn_pmkid_count e) (rsn_pmkid e);
  e_normal e := Rsn (rsn_version e) (rsn_group_cipher_oui e)
    (rsn_group_cipher_type e) (rsn_pairwise_cipher_count e)
    (normal_array (rsn_pairwise_cipher_oui e)) (rsn_authkey_count e)
    (normal_array (rsn_akmp_suite_oui e)) (rsn_capabilities e)
    (rsn_pmkid_count e) (normal_array (rsn_pmkid e));
  e_len e := 4 + 8 + 4 + 4 + array_len (rsn_pairwise_cipher_oui e) + 4 +
    array_len (rsn_akmp_suite_oui e) + 4 + 4 + array_len (rsn_pmkid e);
  e_wire e :=
    cells (le 4 (rsn_version e)) ++
    cells (le 8 (rsn_group_cipher_oui e)) ++
    cells (le 4 (rsn_group_cipher_type e)) ++
    cells (le 4 (rsn_pairwise_cipher_count e)) ++
    array_wire (rsn_pairwise_cipher_oui e) ++
    cells (le 4 (rsn_authkey_count e)) ++
    array_wire (rsn_akmp_suite_oui e) ++
    cells (le 4 (rsn_capabilities e)) ++
    cells (le 4 (rsn_pmkid_count e)) ++
    array_wire (rsn_pmkid e)
|}.

#[global] Instance robust_secure_network_entry_ok : EntryOk robust_secure_network.
Proof. solve_entry robust_secure_network_entry. Qed.

(** [struct ht_capability]. *)
Record ht_capability := Ht {
  ht_support : bool;
  ht_capability_info : Z;
  ht_a_mpdu_parameters : Z;
  ht_supported_mcs_set_spatial_stream : bytes 16;
  ht_extended_capability : Z;
  ht_tx_beam_forming_capability : Z;
  ht_asel : Z
}.

#[global] Instance ht_capability_entry : Entry ht_capability := {|
  e_size e :=
    n1 ← part_size (ht_supported_mcs_set_spatial_stream e);
    Ok (4 + 8 + 4 + n1 + 8 + 8 + 4);
  e_encode e :=
    encode_bool (ht_support e);;
    encode_long (ht_capability_info e);;
    encode_uint (ht_a_mpdu_parameters e);;
    part_encode (ht_supported_mcs_set_spatial_stream e);;
    encode_long (ht_extended_capability e);;
    encode_2long (ht_tx_beam_forming_capability e);;
    encode_uint (ht_asel e);
  e_decode :=
    ht_support_ ← decode_bool;
    ht_capability_info_ ← decode_long;
    ht_a_mpdu_parameters_ ← decode_uint;
    ht_supported_mcs_set_spatial_stream_ ← part_decode;
    ht_extended_capability_ ← decode_long;
    ht_tx_beam_forming_capability_ ← decode_2long;
    ht_asel_ ← decode_uint;
    mret (Ht ht_support_ ht_capability_info_ ht_a_mpdu_parameters_
      ht_supported_mcs_set_spatial_stream_ ht_extended_capability_
      ht_tx_beam_forming_capability_ ht_asel_);
  e_ok e := i64_ok (ht_capability_info e) &&
    u32_ok (ht_a_mpdu_parameters e) &&
    part_wf (ht_supported_mcs_set_spatial_stream e) &&
    i64_ok (ht_extended_capability e) &&
    i64_ok (ht_tx_beam_forming_capability e) && u32_ok (ht_asel e);
  e_normal e := Ht (ht_support e) (ht_capability_info e)
    (ht_a_mpdu_parameters e)
    (part_normal (ht_supported_mcs_set_spatial_stream e))
    (ht_extended_capability e) (ht_tx_beam_forming_capability e) (ht_asel e);
  e_len e := 4 + 8 + 4 + part_len (ht_supported_mcs_set_spatial_stream e) +
    8 + 8 + 4;
  e_wire e :=
    cells [if ht_support e then 1 else 0] ++
    cells (le 8 (ht_capability_info e)) ++
    cells (le 4 (ht_a_mpdu_parameters e)) ++
    part_wire (ht_supported_mcs_set_spatial_stream e) ++
    cells (le 8 (ht_extended_capability e)) ++
    cells (le 8 (ht_tx_beam_forming_capability e)) ++
    cells (le 4 (ht_asel e))
|}.

#[global] Instance ht_capability_entry_ok : EntryOk ht_capability.
Proof. solve_entry ht_capability_entry. Qed.

(** [beacon_received]. *)
Record beacon_received := Beacon {
  beacon_interval : Z;
  capabilities : Z;
  ssid : charp;
  addr : bytes 6;
  channel : Z;
  num_rates : Z;
  rates : option (list supported_rates);
  fh_parameter : Z;
  fh_parameters : Z;
  fh_pattern_table : Z;
  ds_parameter : bytes 3;
  cf_parameter : Z;
  ibss_parameter : bytes 4;
  country : beacon_country;
  power_constraint : Z;
  channel_switch : Z;
  quite_time : Z;
  ibss_dfs : Z;
  transmit_power : Z;
  link_margin : Z;
  erp_information : Z;
  rsn : robust_secure_network;
  station_count : Z;
  channel_utilization : Z;
  avail_admission_capacity : Z;
  EDCA_Parameter_Set : Z;
  qos_capability : Z;
  mobility_domain : Z;
  ht : ht_capability
}.

#[global] Instance beacon_received_entry : Entry beacon_received := {|
  e_size e :=
    n1 ← strlen_ethanol (ssid e);
    n2 ← part_size (addr e);
    n3 ← part_size (ds_parameter e);
    n4 ← part_size (ibss_parameter e);
    n5 ← part_size (country e);
    n6 ← part_size (rsn e);
    n7 ← part_size (ht e);
    Ok (8 + 8 + n1 + n2 + 4 + 4 + num_rates e * 12 + 4 + 4 + 4 + n3 + 8 +
        n4 + n5 + 8 + 8 + 8 + 4 + 4 + 4 + 8 + n6 + 4 + 4 + 4 + 4 + 4 + 8 +
        n7);
  e_encode e :=
    encode_2long (beacon_interval e);;
    encode_long (capabilities e);;
    encode_char (ssid e);;
    part_encode (addr e);;
    encode_int (channel e);;
    encode_uint (num_rates e);;
    array_encode (rates e) (num_rates e);;
    encode_uint (fh_parameter e);;
    encode_uint (fh_parameters e);;
    encode_uint (fh_pattern_table e);;
    part_encode (ds_parameter e);;
    encode_2long (cf_parameter e);;
    part_encode (ibss_parameter e);;
    part_encode (country e);;
    encode_long (power_constraint e);;
    encode_2long (channel_switch e);;
    encode_2long (quite_time e);;
    encode_uint (ibss_dfs e);;
    encode_uint (transmit_power e);;
    encode_uint (link_margin e);;
    encode_2long (erp_information e);;
    part_encode (rsn e);;
    encode_uint (station_count e);;
    encode_uint (channel_utilization e);;
    encode_uint (avail_admission_capacity e);;
    encode_uint (EDCA_Parameter_Set e);;
    encode_uint (qos_capability e);;
    encode_2long (mobility_domain e);;
    part_encode (ht e);
  e_decode :=
    beacon_interval_ ← decode_2long;
    capabilities_ ← decode_long;
    ssid_ ← decode_char;
    addr_ ← part_decode;
    channel_ ← decode_int;
    num_rates_ ← decode_uint;
    rates_ ← array_decode num_rates_;
    fh_parameter_ ← decode_uint;
    fh_parameters_ ← decode_uint;
    fh_pattern_table_ ← decode_uint;
    ds_parameter_ ← part_decode;
    cf_parameter_ ← decode_2long;
    ibss_parameter_ ← part_decode;
    country_ ← part_decode;
    power_constraint_ ← decode_long;
    channel_switch_ ← decode_2long;
    quite_time_ ← decode_2long;
    ibss_dfs_ ← decode_uint;
    transmit_power_ ← decode_uint;
    link_margin_ ← decode_uint;
    erp_information_ ← decode_2long;
    rsn_ ← part_decode;
    station_count_ ← decode_uint;
    channel_utilization_ ← decode_uint;
    avail_admission_capacity_ ← decode_uint;
    EDCA_Parameter_Set_ ← decode_uint;
    qos_capability_ ← decode_uint;
    mobility_domain_ ← decode_2long;
    ht_ ← part_decode;
    mret (Beacon beacon_interval_ capabilities_ ssid_ addr_ channel_
      num_rates_ rates_ fh_parameter_ fh_parameters_ fh_pattern_table_
      ds_parameter_ cf_parameter_ ibss_parameter_ country_ power_constraint_
      channel_switch_ quite_time_ ibss_dfs_ transmit_power_ link_margin_
      erp_information_ rsn_ station_count_ channel_utilization_
      avail_admission_capacity_ EDCA_Parameter_Set_ qos_capability_
      mobility_domain_ ht_);
  e_ok e := i64_ok (beacon_interval e) && i64_ok (capabilities e) &&
    cstr_ok (ssid e) && part_wf (addr e) && i32_ok (channel e) &&
    u32_ok (num_rates e) && array_wf (num_rates e) (rates e) &&
    u32_ok (fh_parameter e) && u32_ok (fh_parameters e) &&
    u32_ok (fh_pattern_table e) && part_wf (ds_parameter e) &&
    i64_ok (cf_parameter e) && part_wf (ibss_parameter e) &&
    part_wf (country e) && i64_ok (power_constraint e) &&
    i64_ok (channel_switch e) && i64_ok (quite_time e) &&
    u32_ok (ibss_dfs e) && u32_ok (transmit_power e) &&
    u32_ok (link_margin e) && i64_ok (erp_information e) &&
    part_wf (rsn e) && u32_ok (station_count e) &&
    u32_ok (channel_utilization e) && u32_ok (avail_admission_capacity e) &&
    u32_ok (EDCA_Parameter_Set e) && u32_ok (qos_capability e) &&
    i64_ok (mobility_domain e) && part_wf (ht e);
  e_normal e := Beacon (beacon_interval e) (capabilities e) (canon (ssid e))
    (part_normal (addr e)) (channel e) (num_rates e) (normal_array (rates e))
    (fh_parameter e) (fh_parameters e) (fh_pattern_table e)
    (part_normal (ds_parameter e)) (cf_parameter e)
    (part_normal (ibss_parameter e)) (part_normal (country e))
    (power_constraint e) (channel_switch e) (quite_time e) (ibss_dfs e)
    (transmit_power e) (link_margin e) (erp_information e)
    (part_normal (rsn e)) (station_count e) (channel_utilization e)
    (avail_admission_capacity e) (EDCA_Parameter_Set e) (qos_capability e)
    (mobility_domain e) (part_normal (ht e));
  e_len e := 8 + 8 + (5 + Z.of_nat (length (text (ssid e)))) +
    part_len (addr e) + 4 + 4 + array_len (rates e) + 4 + 4 + 4 +
    part_len (ds_parameter e) + 8 + part_len (ibss_parameter e) +
    part_len (country e) + 8 + 8 + 8 + 4 + 4 + 4 + 8 + part_len (rsn e) + 4 +
    4 + 4 + 4 + 4 + 8 + part_len (ht e);
  e_wire e :=
    cells (le 8 (beacon_interval e)) ++
    cells (le 8 (capabilities e)) ++
    wire_str (text (ssid e)) ++
    part_wire (addr e) ++
    cells (le 4 (channel e)) ++
    cells (le 4 (num_rates e)) ++
    array_wire (rates e) ++
    cells (le 4 (fh_parameter e)) ++
    cells (le 4 (fh_parameters e)) ++
    cells (le 4 (fh_pattern_table e)) ++
    part_wire (ds_parameter e) ++
    cells (le 8 (cf_parameter e)) ++
    part_wire (ibss_parameter e) ++
    part_wire (country e) ++
    cells (le 8 (power_constraint e)) ++
    cells (le 8 (channel_switch e)) ++
    cells (le 8 (quite_time e)) ++
    cells (le 4 (ibss_dfs e)) ++
    cells (le 4 (transmit_power e)) ++
    cells (le 4 (link_margin e)) ++
    cells (le 8 (erp_information e)) ++
    part_wire (rsn e) ++
    cells (le 4 (station_count e)) ++
    cells (le 4 (channel_utilization e)) ++
    cells (le 4 (avail_admission_capacity e)) ++
    cells (le 4 (EDCA_Parameter_Set e)) ++
    cells (le 4 (qos_capability e)) ++
    cells (le 8 (mobility_domain e)) ++
    part_wire (ht e)
|}.

#[global] Instance beacon_received_entry_ok : EntryOk beacon_received.
Proof. solve_entry beacon_received_entry. Qed.

(** [struct msg_beaconinfo] (msg_beaconinfo.h): the common header, then
    its own fields. *)
Record msg_beaconinfo := Msg {
  hd : msg_header;
  num_beacons : Z;
  b : option (list beacon_received)
}.

Definition resize (h : msg_beaconinfo) (n : Z) : msg_beaconinfo :=
  Msg (set_m_size (hd h) n) (num_beacons h) (b h).

Section codec.
Context `{Allocator}.

Definition message_size_beaconinfo (h : msg_beaconinfo) : res Z :=
  v ← strlen_ethanol (p_version (hd h));
  a ← array_size (b h) (num_beacons h);
  Ok (to_u64 (v + 4 + 4 + 4 + 4 + a)).

Definition encode_msg_beaconinfo : msg_beaconinfo → res (msg_beaconinfo * list cell) :=
  encode_with message_size_beaconinfo resize (λ h,
    encode_header (m_type (hd h)) (m_id (hd h)) (m_size (hd h));;
    encode_uint (num_beacons h);;
    array_encode (b h) (num_beacons h)).

Definition decode_msg_beaconinfo : list cell → res msg_beaconinfo := decode_buffer (
  hd ← decode_header;
  num_beacons ← decode_uint;
  b ← array_decode num_beacons;
  mret (Msg hd num_beacons b)).

Definition wf (h : msg_beaconinfo) : bool :=
  header_ok (hd h) && strs_ok [p_version (hd h)] && u32_ok (num_beacons h) &&
  array_wf (num_beacons h) (b h).

Definition normal (h : msg_beaconinfo) : msg_beaconinfo :=
  Msg (normal_header (hd h)) (num_beacons h) (normal_array (b h)).

#[global] Instance msg_beaconinfo_message : Message msg_beaconinfo := {|
  msg_head := hd; msg_resize := resize; msg_size := message_size_beaconinfo;
  msg_encode := encode_msg_beaconinfo; msg_decode := decode_msg_beaconinfo;
  msg_normal := normal; msg_wf := wf
|}.

#[global] Instance msg_beaconinfo_ok : MessageOk msg_beaconinfo.
Proof. solve_codec wf message_size_beaconinfo. Qed.
End codec.

Section agent.
Context {W : Type} `{Net W, Device W, Build, Allocator}.

(** The caller's message is sent with a new header; the result is -1 when the
    connection fails. *)
Definition send_msg_beaconinfo (hostname : charp) (portnum id : Z) (bi : msg_beaconinfo) :
    ST W (Z * Z) :=
  with_ssl hostname portnum (-1, id) (
    id' ← lift (incr_int id);
    version ← lift (copy_string ETHANOL_VERSION);
    notify (Msg (Header MSG_INFORM_BEACON id version (m_size (hd bi))) (num_beacons bi) (b bi));;
    mret (0, id')).

(** The beacons are decoded and dropped. *)
Definition process_msg_beaconinfo (input : list cell) : ST W (option (list cell)) :=
  lift (decode_msg_beaconinfo input);;
  mret None.
End agent.

End BeaconInfo.

Module RequestBeacon.

(** [struct msg_req_beaconinfo] of msg_inform_beacon.h. *)
Record msg_req_beaconinfo := Msg { hd : msg_header; period : Z }.

(** The decoder fills the structure its caller points to. *)
Definition decode_msg_request_beacon (h : res unit) (buf : list cell) : res msg_req_beaconinfo :=
  h;;
  decode_buffer (hd ← decode_header; period ← decode_long; mret (Msg hd period)) buf.

(** The encoder writes through the pointer and the length its caller gives. *)
Definition encode_msg_request_beacon (h : msg_req_beaconinfo) (room : res Z) : res (list cell) :=
  n ← room;
  '(_, b) ← (encode_header (m_type (hd h)) (m_id (hd h)) n;; encode_long (period h)) (WBuf [] n);
  Ok (wb_done b).

(** [struct msg_req_beaconinfo * h] is not assigned before it is used. *)
Definition process_msg_request_beacon {W} (input : list cell) : ST W (option (list cell)) :=
  h ← lift (decode_msg_request_beacon unassigned input);
  output ← lift (encode_msg_request_beacon (Msg (hd h) 7) unassigned);
  mret (Some output).

(** Nor are the buffer and the length of the request. *)
Definition send_msg_request_beacon {W} `{Net W, Allocator} (hostname : charp) (portnum id period : Z) :
    ST W Z :=
  with_ssl hostname portnum id (
    id' ← lift (incr_int id);
    version ← lift (copy_string ETHANOL_VERSION);
    n ← lift (strlen_ethanol version);
    output ← lift (encode_msg_request_beacon
                     (Msg (Header MSG_REQUEST_BEACON id version (to_i32 (4 + 4 + n + 4 + 8))) period)
                     unassigned);
    net_ssl_write output;;
    buf ← ssl_read SSL_BUFFER_SIZE;
    t ← lift (return_message_type buf);
    (if t =? MSG_REQUEST_BEACON then lift (decode_msg_request_beacon unassigned buf);; mret tt
     else mret tt);;
    mret id').

End RequestBeacon.
