(* ===== verification/MsgMean.v ===== *)
(** The means of the statistics: [msg_mean_sta_stats.c], five messages with
    one handler over the operations of [net_statistics.c].

    The means are [long double]s, which a message holds as their 80-bit
    patterns. *)
From stdpp Require Import prelude list strings gmap.
From Stdlib Require Import SpecFloat.
From S2P Require Import Prelude CMem HostapdConf CFloat MsgCommon BufferHandler World.
From S2P Require Import NetStatistics Rpc.

Module Mean.

(** [mean_net_statistics], with the patterns of its values. *)
#[global] Instance means_entry : Entry (stats Z) := {|
  e_size _ := Ok 368;
  e_encode e :=
    encode_longdouble (ns_collisions e);;
    encode_longdouble (ns_multicast e);;
    encode_longdouble (ns_rx_bytes e);;
    encode_longdouble (ns_rx_compressed e);;
    encode_longdouble (ns_rx_crc_errors e);;
    encode_longdouble (ns_rx_dropped e);;
    encode_longdouble (ns_rx_errors e);;
    encode_longdouble (ns_rx_fifo_errors e);;
    encode_longdouble (ns_rx_frame_errors e);;
    encode_longdouble (ns_rx_length_errors e);;
    encode_longdouble (ns_rx_missed_errors e);;
    encode_longdouble (ns_rx_over_errors e);;
    encode_longdouble (ns_rx_packets e);;
    encode_longdouble (ns_tx_aborted_errors e);;
    encode_longdouble (ns_tx_bytes e);;
    encode_longdouble (ns_tx_carrier_errors e);;
    encode_longdouble (ns_tx_compressed e);;
    encode_longdouble (ns_tx_dropped e);;
    encode_longdouble (ns_tx_errors e);;
    encode_longdouble (ns_tx_fifo_errors e);;
    encode_longdouble (ns_tx_heartbeat_errors e);;
    encode_longdouble (ns_tx_packets e);;
    encode_longdouble (ns_tx_window_errors e);
  e_decode :=
    ns_collisions_ ← decode_longdouble;
    ns_multicast_ ← decode_longdouble;
    ns_rx_bytes_ ← decode_longdouble;
    ns_rx_compressed_ ← decode_longdouble;
    ns_rx_crc_errors_ ← decode_longdouble;
    ns_rx_dropped_ ← decode_longdouble;
    ns_rx_errors_ ← decode_longdouble;
    ns_rx_fifo_errors_ ← decode_longdouble;
    ns_rx_frame_errors_ ← decode_longdouble;
    ns_rx_length_errors_ ← decode_longdouble;
    ns_rx_missed_errors_ ← decode_longdouble;
    ns_rx_over_errors_ ← decode_longdouble;
    ns_rx_packets_ ← decode_longdouble;
    ns_tx_aborted_errors_ ← decode_longdouble;
    ns_tx_bytes_ ← decode_longdouble;
    ns_tx_carrier_errors_ ← decode_longdouble;
    ns_tx_compressed_ ← decode_longdouble;
    ns_tx_dropped_ ← decode_longdouble;
    ns_tx_errors_ ← decode_longdouble;
    ns_tx_fifo_errors_ ← decode_longdouble;
    ns_tx_heartbeat_errors_ ← decode_longdouble;
    ns_tx_packets_ ← decode_longdouble;
    ns_tx_window_errors_ ← decode_longdouble;
    mret (Stats ns_collisions_ ns_multicast_ ns_rx_bytes_ ns_rx_compressed_
      ns_rx_crc_errors_ ns_rx_dropped_ ns_rx_errors_ ns_rx_fifo_errors_
      ns_rx_frame_errors_ ns_rx_length_errors_ ns_rx_missed_errors_
      ns_rx_over_errors_ ns_rx_packets_ ns_tx_aborted_errors_ ns_tx_bytes_
      ns_tx_carrier_errors_ ns_tx_compressed_ ns_tx_dropped_ ns_tx_errors_
      ns_tx_fifo_errors_ ns_tx_heartbeat_errors_ ns_tx_packets_
      ns_tx_window_errors_);
  e_ok e := u_ok 80 (ns_collisions e) && u_ok 80 (ns_multicast e) &&
    u_ok 80 (ns_rx_bytes e) && u_ok 80 (ns_rx_compressed e) &&
    u_ok 80 (ns_rx_crc_errors e) && u_ok 80 (ns_rx_dropped e) &&
    u_ok 80 (ns_rx_errors e) && u_ok 80 (ns_rx_fifo_errors e) &&
    u_ok 80 (ns_rx_frame_errors e) && u_ok 80 (ns_rx_length_errors e) &&
    u_ok 80 (ns_rx_missed_errors e) && u_ok 80 (ns_rx_over_errors e) &&
    u_ok 80 (ns_rx_packets e) && u_ok 80 (ns_tx_aborted_errors e) &&
    u_ok 80 (ns_tx_bytes e) && u_ok 80 (ns_tx_carrier_errors e) &&
    u_ok 80 (ns_tx_compressed e) && u_ok 80 (ns_tx_dropped e) &&
    u_ok 80 (ns_tx_errors e) && u_ok 80 (ns_tx_fifo_errors e) &&
    u_ok 80 (ns_tx_heartbeat_errors e) && u_ok 80 (ns_tx_packets e) &&
    u_ok 80 (ns_tx_window_errors e);
  e_normal e := Stats (ns_collisions e) (ns_multicast e) (ns_rx_bytes e)
    (ns_rx_compressed e) (ns_rx_crc_errors e) (ns_rx_dropped e)
    (ns_rx_errors e) (ns_rx_fifo_errors e) (ns_rx_frame_errors e)
    (ns_rx_length_errors e) (ns_rx_missed_errors e) (ns_rx_over_errors e)
    (ns_rx_packets e) (ns_tx_aborted_errors e) (ns_tx_bytes e)
    (ns_tx_carrier_errors e) (ns_tx_compressed e) (ns_tx_dropped e)
    (ns_tx_errors e) (ns_tx_fifo_errors e) (ns_tx_heartbeat_errors e)
    (ns_tx_packets e) (ns_tx_window_errors e);
  e_len _ := 368;
  e_wire e :=
    (cells (le 10 (ns_collisions e)) ++ replicate 6 None) ++
    (cells (le 10 (ns_multicast e)) ++ replicate 6 None) ++
    (cells (le 10 (ns_rx_bytes e)) ++ replicate 6 None) ++
    (cells (le 10 (ns_rx_compressed e)) ++ replicate 6 None) ++
    (cells (le 10 (ns_rx_crc_errors e)) ++ replicate 6 None) ++
    (cells (le 10 (ns_rx_dropped e)) ++ replicate 6 None) ++
    (cells (le 10 (ns_rx_errors e)) ++ replicate 6 None) ++
    (cells (le 10 (ns_rx_fifo_errors e)) ++ replicate 6 None) ++
    (cells (le 10 (ns_rx_frame_errors e)) ++ replicate 6 None) ++
    (cells (le 10 (ns_rx_length_errors e)) ++ replicate 6 None) ++
    (cells (le 10 (ns_rx_missed_errors e)) ++ replicate 6 None) ++
    (cells (le 10 (ns_rx_over_errors e)) ++ replicate 6 None) ++
    (cells (le 10 (ns_rx_packets e)) ++ replicate 6 None) ++
    (cells (le 10 (ns_tx_aborted_errors e)) ++ replicate 6 None) ++
    (cells (le 10 (ns_tx_bytes e)) ++ replicate 6 None) ++
    (cells (le 10 (ns_tx_carrier_errors e)) ++ replicate 6 None) ++
    (cells (le 10 (ns_tx_compressed e)) ++ replicate 6 None) ++
    (cells (le 10 (ns_tx_dropped e)) ++ replicate 6 None) ++
    (cells (le 10 (ns_tx_errors e)) ++ replicate 6 None) ++
    (cells (le 10 (ns_tx_fifo_errors e)) ++ replicate 6 None) ++
    (cells (le 10 (ns_tx_heartbeat_errors e)) ++ replicate 6 None) ++
    (cells (le 10 (ns_tx_packets e)) ++ replicate 6 None) ++
    (cells (le 10 (ns_tx_window_errors e)) ++ replicate 6 None)
|}.

#[global] Instance means_entry_ok : EntryOk (stats Z).
Proof. solve_entry means_entry. Qed.

#[global] Instance means_fixed : FixedEntry (stats Z) 368.
Proof. done. Qed.

(** [all_mean_net_statistics], with the patterns. *)
Record mean_report := Report {
  mr_num : Z; mr_intfs : option (list charp); mr_ns : option (list (stats Z))
}.

(** [h->v]: a count, zero when it is NULL, the names and the means; a count of
    zero is read back as NULL. *)
#[global] Instance mean_report_entry : Entry (option mean_report) := {|
  e_size v :=
    match v with
    | Some v => a ← array_size (mr_intfs v) (mr_num v); Ok (4 + a + mr_num v * 368)
    | None => Ok 4
    end;
  e_encode v :=
    match v with
    | Some v =>
        encode_int (mr_num v);;
        array_encode (mr_intfs v) (mr_num v);;
        array_encode (mr_ns v) (mr_num v)
    | None => encode_int 0
    end;
  e_decode :=
    n ← decode_int;
    if n =? 0 then mret None
    else intfs ← array_decode n; ns ← array_decode n; mret (Some (Report n intfs ns));
  e_ok v :=
    match v with
    | Some v => array_wf (mr_num v) (mr_intfs v) && array_wf (mr_num v) (mr_ns v)
    | None => true
    end;
  e_normal v :=
    match v with
    | Some v => if mr_num v =? 0 then None
                else Some (Report (mr_num v) (normal_array (mr_intfs v)) (normal_array (mr_ns v)))
    | None => None
    end;
  e_len v := 4 + match v with Some v => array_len (mr_intfs v) + array_len (mr_ns v) | None => 0 end;
  e_wire v :=
    match v with
    | Some v => cells (le 4 (mr_num v)) ++ array_wire (mr_intfs v) ++ array_wire (mr_ns v)
    | None => cells (le 4 0)
    end
|}.

#[global] Instance mean_report_entry_ok : EntryOk (option mean_report).
Proof.
  split; intros v He; cbn [mean_report_entry e_ok e_size e_len e_encode e_decode e_wire e_normal] in *;
    destruct v as [v|]; wf_facts.
  - rewrite array_size_ok by done. cbn [mbind res_bind]. array_counts. f_equal. lia.
  - done.
  - solve_writes.
  - apply writes_store.
  - eapply reads_bind; [apply reads_int; in_range|].
    destruct (Z.eqb_spec (mr_num v) 0) as [E|E]; [|eapply reads_eq; [solve_reads|reflexivity]].
    rewrite E in *. rewrite !array_wire_zero by done. apply reads_ret.
  - by intros rest.
  - solve_wire_length.
  - solve_wire_length.
Qed.

(** [struct msg_mean_sta_statistics] (msg_mean_sta_stats.h): the common header, then
    its own fields. *)
Record msg_mean_sta_statistics := Msg {
  hd : msg_header;
  sta_ip : charp;
  sta_port : Z;
  means : (option mean_report)
}.

Definition resize (h : msg_mean_sta_statistics) (n : Z) : msg_mean_sta_statistics :=
  Msg (set_m_size (hd h) n) (sta_ip h) (sta_port h) (means h).

Section codec.
Context `{Allocator}.

Definition size_msg_mean_sta_statistics (h : msg_mean_sta_statistics) : res Z :=
  v ← strlen_ethanol (p_version (hd h));
  n1 ← strlen_ethanol (sta_ip h);
  pmeans ← part_size (means h);
  Ok (to_i32 (4 + 4 + v + 4 + n1 + 4 + pmeans)).

Definition encode_msg_mean_sta_statistics : msg_mean_sta_statistics → res (msg_mean_sta_statistics * list cell) :=
  encode_with size_msg_mean_sta_statistics resize (λ h,
    encode_header (m_type (hd h)) (m_id (hd h)) (m_size (hd h));;
    encode_char (sta_ip h);;
    encode_int (sta_port h);;
    part_encode (means h)).

Definition decode_msg_mean_sta_statistics : list cell → res msg_mean_sta_statistics := decode_buffer (
  hd ← decode_header;
  sta_ip ← decode_char;
  sta_port ← decode_int;
  means ← part_decode;
  mret (Msg hd sta_ip sta_port means)).

Definition wf (h : msg_mean_sta_statistics) : bool :=
  header_ok (hd h) && strs_ok [p_version (hd h); sta_ip h] &&
  i32_ok (sta_port h) && part_wf (means h).

Definition normal (h : msg_mean_sta_statistics) : msg_mean_sta_statistics :=
  Msg (normal_header (hd h)) (canon (sta_ip h)) (sta_port h)
  (part_normal (means h)).

#[global] Instance msg_mean_sta_statistics_message : Message msg_mean_sta_statistics := {|
  msg_head := hd; msg_resize := resize; msg_size := size_msg_mean_sta_statistics;
  msg_encode := encode_msg_mean_sta_statistics; msg_decode := decode_msg_mean_sta_statistics;
  msg_normal := normal; msg_wf := wf
|}.

#[global] Instance msg_mean_sta_statistics_ok : MessageOk msg_mean_sta_statistics.
Proof. solve_codec wf size_msg_mean_sta_statistics. Qed.
End codec.

Section agent.
Context {W : Type} `{Net W, Device W, Build, Allocator}.

(** [h.v] is read by the encoder without having been assigned. *)
Definition send_msg_mean_sta_statistics (hostname : charp) (portnum id : Z) (sta_ip : charp)
    (sta_port : Z) : ST W (option msg_mean_sta_statistics * Z) :=
  with_ssl hostname portnum (None, id) (
    id' ← lift (incr_int id);
    ip ← lift (copy_string sta_ip);
    means ← lift (unassigned : res (option mean_report));
    h1 ← exchange (Msg (Header MSG_MEAN_STA_STATISTICS_GET id ETHANOL_VERSION 0) ip sta_port means)
                  (λ t, t =? MSG_MEAN_STA_STATISTICS_GET);
    mret (h1, id')).
End agent.

End Mean.

Module MeanIntf.

(** [struct msg_mean_sta_statistics_interface] (msg_mean_sta_stats.h): the common header, then
    its own fields. *)
Record msg_mean_sta_statistics_interface := Msg {
  hd : msg_header;
  sta_ip : charp;
  sta_port : Z;
  intf_name : charp
}.

Definition resize (h : msg_mean_sta_statistics_interface) (n : Z) : msg_mean_sta_statistics_interface :=
  Msg (set_m_size (hd h) n) (sta_ip h) (sta_port h) (intf_name h).

Section codec.
Context `{Allocator}.

Definition size_msg_mean_sta_statistics_interface (h : msg_mean_sta_statistics_interface) : res Z :=
  v ← strlen_ethanol (p_version (hd h));
  n1 ← strlen_ethanol (sta_ip h);
  n2 ← strlen_ethanol (intf_name h);
  Ok (to_i32 (4 + 4 + v + 4 + n1 + 4 + n2)).

Definition encode_msg_mean_sta_statistics_interface : msg_mean_sta_statistics_interface → res (msg_mean_sta_statistics_interface * list cell) :=
  encode_with size_msg_mean_sta_statistics_interface resize (λ h,
    encode_header (m_type (hd h)) (m_id (hd h)) (m_size (hd h));;
    encode_char (sta_ip h);;
    encode_int (sta_port h);;
    encode_char (intf_name h)).

Definition decode_msg_mean_sta_statistics_interface : list cell → res msg_mean_sta_statistics_interface := decode_buffer (
  hd ← decode_header;
  sta_ip ← decode_char;
  sta_port ← decode_int;
  intf_name ← decode_char;
  mret (Msg hd sta_ip sta_port intf_name)).

Definition wf (h : msg_mean_sta_statistics_interface) : bool :=
  header_ok (hd h) && strs_ok [p_version (hd h); sta_ip h; intf_name h] &&
  i32_ok (sta_port h).

Definition normal (h : msg_mean_sta_statistics_interface) : msg_mean_sta_statistics_interface :=
  Msg (normal_header (hd h)) (canon (sta_ip h)) (sta_port h)
  (canon (intf_name h)).

#[global] Instance msg_mean_sta_statistics_interface_message : Message msg_mean_sta_statistics_interface := {|
  msg_head := hd; msg_resize := resize; msg_size := size_msg_mean_sta_statistics_interface;
  msg_encode := encode_msg_mean_sta_statistics_interface; msg_decode := decode_msg_mean_sta_statistics_interface;
  msg_normal := normal; msg_wf := wf
|}.

#[global] Instance msg_mean_sta_statistics_interface_ok : MessageOk msg_mean_sta_statistics_interface.
Proof. solve_codec wf size_msg_mean_sta_statistics_interface. Qed.
End codec.

Section agent.
Context {W : Type} `{Net W, Device W, Build, Allocator}.

Definition send_msg_mean_sta_statistics_interface (hostname : charp) (portnum id : Z)
    (sta_ip : charp) (sta_port : Z) (intf_name : charp) (add : bool) : ST W Z :=
  with_ssl hostname portnum id (
    id' ← lift (incr_int id);
    ip ← lift (copy_string sta_ip);
    name ← lift (copy_string intf_name);
    notify (Msg (Header (if add then MSG_MEAN_STA_STATISTICS_SET_INTERFACE
                         else MSG_MEAN_STA_STATISTICS_REMOVE_INTERFACE) id ETHANOL_VERSION 0)
                ip sta_port name);;
    mret id').

Definition send_msg_mean_sta_statistics_interface_add (hostname : charp) (portnum id : Z)
    (sta_ip : charp) (sta_port : Z) (intf_name : charp) : ST W Z :=
  send_msg_mean_sta_statistics_interface hostname portnum id sta_ip sta_port intf_name true.
Definition send_msg_mean_sta_statistics_interface_remove (hostname : charp) (portnum id : Z)
    (sta_ip : charp) (sta_port : Z) (intf_name : charp) : ST W Z :=
  send_msg_mean_sta_statistics_interface hostname portnum id sta_ip sta_port intf_name false.
End agent.

End MeanIntf.

Module MeanAlpha.

(** [struct msg_mean_sta_statistics_alpha] (msg_mean_sta_stats.h): the common header, then
    its own fields. *)
Record msg_mean_sta_statistics_alpha := Msg {
  hd : msg_header;
  sta_ip : charp;
  sta_port : Z;
  alpha : Z
}.

Definition resize (h : msg_mean_sta_statistics_alpha) (n : Z) : msg_mean_sta_statistics_alpha :=
  Msg (set_m_size (hd h) n) (sta_ip h) (sta_port h) (alpha h).

Section codec.
Context `{Allocator}.

Definition size_msg_mean_sta_statistics_alpha (h : msg_mean_sta_statistics_alpha) : res Z :=
  v ← strlen_ethanol (p_version (hd h));
  n1 ← strlen_ethanol (sta_ip h);
  Ok (to_i32 (4 + 4 + v + 4 + n1 + 4 + 16)).

Definition encode_msg_mean_sta_statistics_alpha : msg_mean_sta_statistics_alpha → res (msg_mean_sta_statistics_alpha * list cell) :=
  encode_with size_msg_mean_sta_statistics_alpha resize (λ h,
    encode_header (m_type (hd h)) (m_id (hd h)) (m_size (hd h));;
    encode_char (sta_ip h);;
    encode_int (sta_port h);;
    encode_longdouble (alpha h)).

Definition decode_msg_mean_sta_statistics_alpha : list cell → res msg_mean_sta_statistics_alpha := decode_buffer (
  hd ← decode_header;
  sta_ip ← decode_char;
  sta_port ← decode_int;
  alpha ← decode_longdouble;
  mret (Msg hd sta_ip sta_port alpha)).

Definition wf (h : msg_mean_sta_statistics_alpha) : bool :=
  header_ok (hd h) && strs_ok [p_version (hd h); sta_ip h] &&
  i32_ok (sta_port h) && u_ok 80 (alpha h).

Definition normal (h : msg_mean_sta_statistics_alpha) : msg_mean_sta_statistics_alpha :=
  Msg (normal_header (hd h)) (canon (sta_ip h)) (sta_port h) (alpha h).

#[global] Instance msg_mean_sta_statistics_alpha_message : Message msg_mean_sta_statistics_alpha := {|
  msg_head := hd; msg_resize := resize; msg_size := size_msg_mean_sta_statistics_alpha;
  msg_encode := encode_msg_mean_sta_statistics_alpha; msg_decode := decode_msg_mean_sta_statistics_alpha;
  msg_normal := normal; msg_wf := wf
|}.

#[global] Instance msg_mean_sta_statistics_alpha_ok : MessageOk msg_mean_sta_statistics_alpha.
Proof. solve_codec wf size_msg_mean_sta_statistics_alpha. Qed.
End codec.

Section agent.
Context {W : Type} `{Net W, Device W, Build, Allocator}.

Definition send_msg_mean_sta_statistics_alpha (hostname : charp) (portnum id : Z) (sta_ip : charp)
    (sta_port : Z) (alpha : spec_float) : ST W Z :=
  if SFltb alpha (f80_of_Z 0) || SFltb (f80_of_Z 1) alpha then mret id else
  with_ssl hostname portnum id (
    id' ← lift (incr_int id);
    ip ← lift (copy_string sta_ip);
    notify (Msg (Header MSG_MEAN_STA_STATISTICS_SET_ALPHA id ETHANOL_VERSION 0)
                ip sta_port (f80_bits alpha));;
    mret id').
End agent.

End MeanAlpha.

Module MeanTime.

(** [struct msg_mean_sta_statistics_time] (msg_mean_sta_stats.h): the common header, then
    its own fields. *)
Record msg_mean_sta_statistics_time := Msg {
  hd : msg_header;
  sta_ip : charp;
  sta_port : Z;
  msec : Z
}.

Definition resize (h : msg_mean_sta_statistics_time) (n : Z) : msg_mean_sta_statistics_time :=
  Msg (set_m_size (hd h) n) (sta_ip h) (sta_port h) (msec h).

Section codec.
Context `{Allocator}.

Definition size_msg_mean_sta_statistics_time (h : msg_mean_sta_statistics_time) : res Z :=
  v ← strlen_ethanol (p_version (hd h));
  n1 ← strlen_ethanol (sta_ip h);
  Ok (to_i32 (4 + 4 + v + 4 + n1 + 4 + 4)).

Definition encode_msg_mean_sta_statistics_time : msg_mean_sta_statistics_time → res (msg_mean_sta_statistics_time * list cell) :=
  encode_with size_msg_mean_sta_statistics_time resize (λ h,
    encode_header (m_type (hd h)) (m_id (hd h)) (m_size (hd h));;
    encode_char (sta_ip h);;
    encode_int (sta_port h);;
    encode_int (msec h)).

Definition decode_msg_mean_sta_statistics_time : list cell → res msg_mean_sta_statistics_time := decode_buffer (
  hd ← decode_header;
  sta_ip ← decode_char;
  sta_port ← decode_int;
  msec ← decode_int;
  mret (Msg hd sta_ip sta_port msec)).

Definition wf (h : msg_mean_sta_statistics_time) : bool :=
  header_ok (hd h) && strs_ok [p_version (hd h); sta_ip h] &&
  i32_ok (sta_port h) && i32_ok (msec h).

Definition normal (h : msg_mean_sta_statistics_time) : msg_mean_sta_statistics_time :=
  Msg (normal_header (hd h)) (canon (sta_ip h)) (sta_port h) (msec h).

#[global] Instance msg_mean_sta_statistics_time_message : Message msg_mean_sta_statistics_time := {|
  msg_head := hd; msg_resize := resize; msg_size := size_msg_mean_sta_statistics_time;
  msg_encode := encode_msg_mean_sta_statistics_time; msg_decode := decode_msg_mean_sta_statistics_time;
  msg_normal := normal; msg_wf := wf
|}.

#[global] Instance msg_mean_sta_statistics_time_ok : MessageOk msg_mean_sta_statistics_time.
Proof. solve_codec wf size_msg_mean_sta_statistics_time. Qed.
End codec.

Section agent.
Context {W : Type} `{Net W, Device W, Build, Allocator}.

Definition send_msg_mean_sta_statistics_time (hostname : charp) (portnum id : Z) (sta_ip : charp)
    (sta_port msec : Z) : ST W Z :=
  with_ssl hostname portnum id (
    id' ← lift (incr_int id);
    ip ← lift (copy_string sta_ip);
    notify (Msg (Header MSG_MEAN_STA_STATISTICS_SET_TIME id ETHANOL_VERSION 0) ip sta_port msec);;
    mret id').
End agent.

End MeanTime.

Section process.
Context {W : Type} `{Files W, Clock W, NetGlobals W, Allocator}.

(** A function on each of the values. *)
Definition map_stats {A B} (f : A → B) (s : stats A) : stats B :=
  Stats (f (ns_collisions s)) (f (ns_multicast s)) (f (ns_rx_bytes s))
  (f (ns_rx_compressed s)) (f (ns_rx_crc_errors s)) (f (ns_rx_dropped s))
  (f (ns_rx_errors s)) (f (ns_rx_fifo_errors s)) (f (ns_rx_frame_errors s))
  (f (ns_rx_length_errors s)) (f (ns_rx_missed_errors s))
  (f (ns_rx_over_errors s)) (f (ns_rx_packets s))
  (f (ns_tx_aborted_errors s)) (f (ns_tx_bytes s))
  (f (ns_tx_carrier_errors s)) (f (ns_tx_compressed s)) (f (ns_tx_dropped s))
  (f (ns_tx_errors s)) (f (ns_tx_fifo_errors s))
  (f (ns_tx_heartbeat_errors s)) (f (ns_tx_packets s))
  (f (ns_tx_window_errors s)).

(** The means as they are sent. *)
Definition report_of (m : all_mean_net_statistics) : Mean.mean_report :=
  Mean.Report (am_num m) (am_intfs m) 
    (match am_ns m with Some l => Some (map_stats f80_bits <$> l) | None => None end).

(** The handler of the five messages; only the first is answered. *)
Definition process_msg_mean_sta_statistics (input : list cell) : ST W (option (list cell)) :=
  hd ← lift (decode_buffer decode_header input);
  let t := m_type hd in
  if t =? MSG_MEAN_STA_STATISTICS_GET then
    h1 ← lift (Mean.decode_msg_mean_sta_statistics input);
    m ← get_all_mean_net_statistics;
    '(_, output) ← lift (Mean.encode_msg_mean_sta_statistics
                           (Mean.Msg (Mean.hd h1) (Mean.sta_ip h1) (Mean.sta_port h1) (report_of <$> m)));
    mret (Some output)
  else if t =? MSG_MEAN_STA_STATISTICS_SET_INTERFACE then
    h2 ← lift (MeanIntf.decode_msg_mean_sta_statistics_interface input);
    add_intf_net_statistics (MeanIntf.intf_name h2);;
    mret None
  else if t =? MSG_MEAN_STA_STATISTICS_REMOVE_INTERFACE then
    h3 ← lift (MeanIntf.decode_msg_mean_sta_statistics_interface input);
    remove_intf_net_statistics (MeanIntf.intf_name h3);;
    mret None
  else if t =? MSG_MEAN_STA_STATISTICS_SET_ALPHA then
    h4 ← lift (MeanAlpha.decode_msg_mean_sta_statistics_alpha input);
    set_ewma_alpha (f80_of_bits (MeanAlpha.alpha h4));;
    mret None
  else if t =? MSG_MEAN_STA_STATISTICS_SET_TIME then
    h5 ← lift (MeanTime.decode_msg_mean_sta_statistics_time input);
    lift (ensure (i32_ok (MeanTime.msec h5 * 1000)) SignedOverflow);;
    set_timed_net_statistics (MeanTime.msec h5 * 1000);;
    mret None
  else mret None.
End process.
