(* ===== verification/MeanService.v ===== *)
(** The means of the statistics as a service: the messages of [MsgMean] drive
    the list of [NetStatistics], whose contents the reply reports. *)
From stdpp Require Import prelude list strings gmap.
From Stdlib Require Import SpecFloat.
From S2P Require Import Prelude CMem HostapdConf CFloat MsgCommon BufferHandler World.
From S2P Require Import NetStatistics Rpc MsgMean.

(** What reaches the agent: the requests of its peers, and the turns of its
    own collecting thread. *)
Inductive mean_event :=
| EvAdd (i : charp)
| EvRemove (i : charp)
| EvAlpha (bits : Z)
| EvTime (msec : Z)
| EvCollect.

(** The operation an event stands for. *)
Definition op_of (ev : mean_event) : net_op :=
  match ev with
  | EvAdd i => OpAdd (canon i)
  | EvRemove i => OpRemove (canon i)
  | EvAlpha b => OpAlpha (f80_of_bits b)
  | EvTime ms => OpTime (ms * 1000)
  | EvCollect => OpUpdate
  end.

Definition name_ok (i : charp) : bool :=
  cstr_ok i && negb (Z.of_nat (length (text i)) =? 0) && short_name (text i).

Definition event_ok (ev : mean_event) : bool :=
  match ev with
  | EvAdd i | EvRemove i => name_ok i
  | EvAlpha b => u_ok 80 b
  | EvTime ms => i32_ok (ms * 1000)
  | EvCollect => true
  end.

Lemma name_ok_op i : name_ok i = true → named (canon i) && short_name (text (canon i)) = true.
Proof.
  unfold name_ok. intros Hi. split_andb; to_prop; [|by rewrite text_canon].
  unfold named. rewrite cstr_ok_canon, andb_true_r by done. unfold canon, norm. by destruct (text i).
Qed.

Lemma event_op_ok ev : event_ok ev = true → op_ok (op_of ev) = true.
Proof. destruct ev; simpl; try done; apply name_ok_op. Qed.

Section service.
Context {W : Type} `{NetWorld W, Allocator}.
Context (id : Z) (ip : charp) (port : Z).

(** The header of a request, and the requests as their senders build them. *)
Definition request_header (t : Z) : msg_header := Header t id ETHANOL_VERSION 0.
Definition intf_request (t : Z) (i : charp) : MeanIntf.msg_mean_sta_statistics_interface :=
  MeanIntf.Msg (request_header t) ip port i.
Definition alpha_request (b : Z) : MeanAlpha.msg_mean_sta_statistics_alpha :=
  MeanAlpha.Msg (request_header MSG_MEAN_STA_STATISTICS_SET_ALPHA) ip port b.
Definition time_request (ms : Z) : MeanTime.msg_mean_sta_statistics_time :=
  MeanTime.Msg (request_header MSG_MEAN_STA_STATISTICS_SET_TIME) ip port ms.
Definition get_request : Mean.msg_mean_sta_statistics :=
  Mean.Msg (request_header MSG_MEAN_STA_STATISTICS_GET) ip port None.

(** The bytes of an event that is a request. *)
Definition event_wire (ev : mean_event) : option (list cell) :=
  match ev with
  | EvAdd i => Some (wire_of (intf_request MSG_MEAN_STA_STATISTICS_SET_INTERFACE i))
  | EvRemove i => Some (wire_of (intf_request MSG_MEAN_STA_STATISTICS_REMOVE_INTERFACE i))
  | EvAlpha b => Some (wire_of (alpha_request b))
  | EvTime ms => Some (wire_of (time_request ms))
  | EvCollect => None
  end.

Definition handle_event (ev : mean_event) : ST W unit :=
  match event_wire ev with
  | Some request => process_msg_mean_sta_statistics request;; mret tt
  | None => update_means
  end.

Fixpoint handle_events (evs : list mean_event) : ST W unit :=
  match evs with [] => mret tt | ev :: evs => handle_event ev;; handle_events evs end.

(** The sender's own fields. *)
Definition sender_ok : bool :=
  i32_ok id && i32_ok port && cstr_ok ip && (Z.of_nat (length (text ip)) <? 1000).

Hypothesis Hsender : sender_ok = true.

Lemma request_header_ok t : i32_ok t = true → header_ok (request_header t) = true.
Proof.
  intros Ht. unfold header_ok, sender_ok in *. cbn [request_header m_type m_id p_version].
  split_andb; first [assumption|reflexivity].
Qed.

(** The conjuncts of the well-formedness of a request. *)
Ltac request_conjuncts :=
  unfold sender_ok, name_ok, short_name, strs_ok in *;
  cbn [MeanIntf.hd MeanIntf.sta_ip MeanIntf.sta_port MeanIntf.intf_name MeanAlpha.hd MeanAlpha.sta_ip
       MeanAlpha.sta_port MeanAlpha.alpha MeanTime.hd MeanTime.sta_ip MeanTime.sta_port MeanTime.msec
       Mean.hd Mean.sta_ip Mean.sta_port Mean.means p_version request_header forallb foldr];
  split_andb; to_prop; first [assumption|reflexivity|in_range|simpl; lia].

Lemma intf_request_wf t i : i32_ok t = true → name_ok i = true → msg_wf (intf_request t i) = true.
Proof.
  intros Ht Hi. pose proof (request_header_ok t Ht). change (MeanIntf.wf (intf_request t i) = true).
  unfold MeanIntf.wf, intf_request. request_conjuncts.
Qed.

Lemma alpha_request_wf b : u_ok 80 b = true → msg_wf (alpha_request b) = true.
Proof.
  intros Hb. pose proof (request_header_ok MSG_MEAN_STA_STATISTICS_SET_ALPHA eq_refl).
  change (MeanAlpha.wf (alpha_request b) = true). unfold MeanAlpha.wf, alpha_request. request_conjuncts.
Qed.

Lemma time_request_wf ms : i32_ok (ms * 1000) = true → msg_wf (time_request ms) = true.
Proof.
  intros Hm. pose proof (request_header_ok MSG_MEAN_STA_STATISTICS_SET_TIME eq_refl).
  change (MeanTime.wf (time_request ms) = true). unfold MeanTime.wf, time_request. request_conjuncts.
Qed.

Lemma get_request_wf : msg_wf get_request = true.
Proof.
  pose proof (request_header_ok MSG_MEAN_STA_STATISTICS_GET eq_refl).
  change (Mean.wf get_request = true). unfold Mean.wf, get_request. request_conjuncts.
Qed.

(** Reads the header and the message of a request, and takes its case. *)
Ltac take_request Hwf :=
  let hd := fresh "hd" in let Eh := fresh "Eh" in let Et := fresh "Et" in let n := fresh "n" in
  let Es := fresh "Es" in let Er := fresh "Er" in
  destruct (wire_type _ Hwf) as (hd & Eh & Et); pose proof (wire_received _ Hwf) as Er;
  destruct (encode_wf _ Hwf) as (n & Es & _); unfold received in Er; rewrite Es in Er;
  unfold process_msg_mean_sta_statistics;
  rewrite (st_bind_Ok _ _ _ _ _ (lift_Ok _ _ _ Eh)); cbv zeta; rewrite Et; cbn [msg_head];
  cbn -[wire_of run_op msg_normal msg_resize]; rewrite (st_bind_Ok _ _ _ _ _ (lift_Ok _ _ _ Er)).

Lemma process_event ev request w : event_ok ev = true → event_wire ev = Some request →
  process_msg_mean_sta_statistics request w = (run_op (op_of ev);; mret None) w.
Proof.
  destruct ev as [i|i|b|ms|]; cbn [event_ok event_wire op_of run_op]; intros Hok [= <-].
  - pose proof (intf_request_wf MSG_MEAN_STA_STATISTICS_SET_INTERFACE i eq_refl Hok) as Hwf.
    take_request Hwf. reflexivity.
  - pose proof (intf_request_wf MSG_MEAN_STA_STATISTICS_REMOVE_INTERFACE i eq_refl Hok) as Hwf.
    take_request Hwf. reflexivity.
  - pose proof (alpha_request_wf b Hok) as Hwf. take_request Hwf. reflexivity.
  - pose proof (time_request_wf ms Hok) as Hwf. take_request Hwf.
    rewrite (st_bind_Ok _ _ w tt w); [reflexivity|].
    apply (lift_Ok (ensure (i32_ok (ms * 1000)) SignedOverflow) w tt), (ensure_Ok _ _ Hok).
Qed.

Lemma handle_event_op ev w : event_ok ev = true → handle_event ev w = run_op (op_of ev) w.
Proof.
  intros Hok. unfold handle_event. destruct (event_wire ev) as [r|] eqn:Er; [|by destruct ev].
  unfold mbind at 1, ST_bind at 1. rewrite (process_event ev r w Hok Er).
  unfold mbind at 1, ST_bind at 1. by destruct (run_op (op_of ev) w) as [[[] w']|].
Qed.

Lemma handle_events_ops evs w : forallb event_ok evs = true →
  handle_events evs w = run_ops (op_of <$> evs) w.
Proof.
  revert w. induction evs as [|ev evs IH]; intros w; [done|]. cbn [forallb handle_events]. intros Hok.
  split_andb. rewrite fmap_cons. cbn [run_ops]. unfold mbind, ST_bind. rewrite handle_event_op by done.
  destruct (run_op (op_of ev) w) as [[[] w']|]; [|done]. by apply IH.
Qed.

(** ** The report *)

Lemma report_len l : Forall entry_ok l →
  foldr (λ p k, (5 + Z.of_nat (length (text p))) + k) 0 ((λ p, mk_str (n_intf_name p)) <$> l)
    ≤ 140 * Z.of_nat (length l) ∧
  forallb cstr_ok ((λ p, mk_str (n_intf_name p)) <$> l) = true.
Proof.
  induction 1 as [|p l Hp Hl [IHn IHs]]; [done|]. rewrite fmap_cons. cbn [foldr forallb length].
  destruct Hp as (Hs & _). unfold short_name in Hs. split_andb. to_prop. rewrite text_mk by done.
  rewrite IHs, andb_true_r. split; [lia|]. apply cstr_ok_mk; [done|lia].
Qed.

Definition report (l : list net_entry) : Mean.mean_report :=
  Mean.Report (Z.of_nat (length l)) (Some ((λ p, mk_str (n_intf_name p)) <$> l))
    (Some (map_stats f80_bits <$> (mean <$> l))).

Lemma means_ok m : e_ok (map_stats f80_bits m) = true.
Proof. cbn [e_ok Mean.means_entry map_stats]. cbn. by rewrite !f80_bits_ok. Qed.

Lemma report_wf l : Forall entry_ok l → Z.of_nat (length l) < 2 ^ 20 → part_wf (Some (report l)) = true.
Proof.
  intros Hl Hn. destruct (report_len l Hl) as [Hlen Hs].
  assert (array_wf (Z.of_nat (length l)) (Some ((λ p, mk_str (n_intf_name p)) <$> l)) = true) as H1'.
  { unfold array_wf, array_len. cbn [elems]. rewrite length_fmap. split_andb; to_prop; [done|lia|done|].
    cbn [e_len charp_entry]. lia. }
  assert (array_wf (Z.of_nat (length l)) (Some (map_stats f80_bits <$> (mean <$> l))) = true) as H2'.
  { unfold array_wf. rewrite array_len_fixed. cbn [elems]. rewrite !length_fmap.
    split_andb; to_prop; [done|lia| |lia]. apply forallb_forall. intros m Hm%list_elem_of_In.
    apply list_elem_of_fmap in Hm as (m' & -> & _). apply means_ok. }
  unfold part_wf, part_len. cbn [e_ok e_len Mean.mean_report_entry report Mean.mr_num Mean.mr_intfs Mean.mr_ns].
  rewrite H1', H2'. rewrite (array_len_count _ _ H2'). unfold array_len at 1. cbn [elems e_len charp_entry].
  to_prop. simpl andb. apply Z.ltb_lt. lia.
Qed.

Definition reported (l : list net_entry) : option Mean.mean_report :=
  match l with [] => None | _ => Some (report l) end.

Lemma get_all_report w : ∃ m, get_all_mean_net_statistics w = Ok (m, w) ∧
  report_of <$> m = reported (list_net_statistics (net_of w)).
Proof.
  unfold get_all_mean_net_statistics. run (eq_refl : get_net w = Ok (net_of w, w)).
  destruct (list_net_statistics (net_of w)) as [|p l]; by eexists.
Qed.

Lemma reply_wf h l : Forall entry_ok l → Z.of_nat (length l) < 2 ^ 20 → msg_wf h = true →
  msg_wf (Mean.Msg (Mean.hd h) (Mean.sta_ip h) (Mean.sta_port h) (reported l)) = true.
Proof.
  intros Hl Hn Hh. assert (part_wf (reported l) = true) as Hr by (destruct l; [done|by apply report_wf]).
  change (Mean.wf h = true) in Hh. match goal with |- msg_wf ?h1 = true => change (Mean.wf h1 = true) end.
  unfold Mean.wf in *. cbn [Mean.means Mean.hd Mean.sta_ip Mean.sta_port] in *. by split_andb.
Qed.

(** What the reply to the last request carries. *)
Lemma process_get w : let l := list_net_statistics (net_of w) in
  Forall entry_ok l → Z.of_nat (length l) < 2 ^ 20 →
  ∃ rep h, process_msg_mean_sta_statistics (wire_of get_request) w = Ok (Some rep, w) ∧
    Mean.decode_msg_mean_sta_statistics rep = Ok h ∧ Mean.means h = part_normal (reported l).
Proof.
  intros l Hok Hn. pose proof get_request_wf as Hwf. take_request Hwf.
  destruct (get_all_report w) as (m & Em & Er'). run Em. rewrite Er'. fold l.
  set (h0 := msg_normal _). assert (msg_wf h0 = true) as Hwf0.
  { unfold sender_ok in Hsender. split_andb. to_prop. change (Mean.wf h0 = true).
    unfold Mean.wf, strs_ok, header_ok, h0. cbn -[Z.add Z.ltb]. rewrite text_canon, cstr_ok_canon by done.
    split_andb; to_prop; first [done|in_range|simpl; lia]. }
  pose proof (reply_wf h0 l Hok Hn Hwf0) as Hwf1. destruct (wire_encode _ Hwf1) as [h' Eh'].
  pose proof (wire_received _ Hwf1) as Erep. destruct (encode_wf _ Hwf1) as (k & Ek & _).
  unfold received in Erep. rewrite Ek in Erep. rewrite (st_bind_Ok _ _ _ _ _ (lift_Ok _ w _ Eh')).
  eexists _, _. split; [reflexivity|]. split; [exact Erep|]. reflexivity.
Qed.

Lemma report_names p l : Forall entry_ok (p :: l) → ∃ r names ns,
  part_normal (reported (p :: l)) = Some r ∧ Mean.mr_intfs r = Some names ∧ Mean.mr_ns r = Some ns ∧
  length ns = length names ∧ text <$> names = n_intf_name <$> p :: l.
Proof.
  intros Hl. exists (Mean.Report (Z.of_nat (length (p :: l)))
    (Some (canon <$> ((λ p, mk_str (n_intf_name p)) <$> p :: l)))
    (Some (e_normal <$> (map_stats f80_bits <$> (mean <$> p :: l))))).
  eexists _, _. split_and!; [reflexivity..| |].
  - by rewrite !length_fmap.
  - induction Hl as [|q l' (Hs & _) _ IH]; [done|]. rewrite !fmap_cons. f_equal; [|exact IH].
    unfold short_name in Hs. split_andb. to_prop. rewrite text_canon, text_mk; [done..|].
    apply cstr_ok_mk; [done|lia].
Qed.

(** ** The service *)

Lemma abs_op_size m op : (size (abs_op m op) ≤ S (size m))%nat.
Proof.
  destruct op as [i|i| | |]; cbn [abs_op]; try lia.
  - rewrite size_union_alt, size_singleton. pose proof (subseteq_size (m ∖ {[text i]}) m). set_solver by lia.
  - pose proof (subseteq_size (m ∖ {[text i]}) m). set_solver by lia.
Qed.

Lemma abs_ops_size ops m : (size (foldl abs_op m ops) ≤ length ops + size m)%nat.
Proof.
  revert m. induction ops as [|op ops IH]; intros m; [done|]. cbn [foldl length].
  pose proof (IH (abs_op m op)). pose proof (abs_op_size m op). lia.
Qed.

(** C10: the messages implement a set of interfaces: after any sequence of
    requests to add and remove interfaces and to set the weight and the
    interval, interleaved with collections, the reply to the request for the
    means decodes to a report that names each interface of the resulting set
    once, with its means, and to none when the set is empty. *)
Theorem mean_service_refines_set evs w :
  net_of w = net_init → forallb event_ok evs = true → Z.of_nat (length evs) < 2 ^ 20 →
  let m := foldl abs_op ∅ (op_of <$> evs) in
  ∃ w' rep h, handle_events evs w = Ok (tt, w') ∧
    process_msg_mean_sta_statistics (wire_of get_request) w' = Ok (Some rep, w') ∧
    Mean.decode_msg_mean_sta_statistics rep = Ok h ∧
    match Mean.means h with
    | None => m = ∅
    | Some r => ∃ names ns, Mean.mr_intfs r = Some names ∧ Mean.mr_ns r = Some ns ∧
        length ns = length names ∧ NoDup (text <$> names) ∧ list_to_set (text <$> names) = m
    end.
Proof.
  intros Hw Hok Hlen m.
  destruct (ops_refine (op_of <$> evs) w) as (w' & E & [Hl Hnd] & Hm).
  { rewrite forallb_forall in *. intros op (ev & -> & Hev)%list_elem_of_In%list_elem_of_fmap.
    by apply event_op_ok, Hok, list_elem_of_In. }
  { rewrite Hw. split; constructor. }
  rewrite Hw in Hm. change (monitored net_init) with (∅ : gset (list Z)) in Hm. fold m in Hm.
  set (l := list_net_statistics (net_of w')) in *.
  assert (Z.of_nat (length l) < 2 ^ 20) as Hn.
  { pose proof (abs_ops_size (op_of <$> evs) ∅) as Hs. fold m in Hs. rewrite <- Hm in Hs.
    unfold monitored in Hs. rewrite size_list_to_set, !length_fmap, size_empty in Hs by done. fold l in Hs. lia. }
  destruct (process_get w' Hl Hn) as (rep & h & Ep & Ed & Eh). fold l in Eh.
  exists w', rep, h. rewrite handle_events_ops by done. split_and!; [done..|]. rewrite Eh.
  assert (list_to_set (n_intf_name <$> l) = m) as Hset by exact Hm. clearbody l. clear Hm E.
  destruct l as [|p l]; [by rewrite <- Hset|].
  destruct (report_names p l Hl) as (r & names & ns & -> & Hi & Hns & Hlens & Ht).
  exists names, ns. by rewrite Ht.
Qed.
End service.

#[local] Existing Instances meter_files meter_clock meter_globals meter_world.

Definition meter_events : list mean_event :=
  [EvAdd (lit "eth0"); EvTime 500; EvAdd (lit "wlan0"); EvCollect; EvAdd (lit "eth0");
   EvAlpha 0; EvCollect; EvRemove (lit "wlan0")].

Lemma mean_service_refines_set_witness :
  let m := foldl abs_op ∅ (op_of <$> meter_events) in
  ∃ w' rep h, @handle_events meter _ _ _ exact_alloc 7 None 0 meter_events (Meter net_init 100) = Ok (tt, w') ∧
    @process_msg_mean_sta_statistics meter _ _ _ exact_alloc
      (@wire_of _ (@Mean.msg_mean_sta_statistics_message exact_alloc) (get_request 7 None 0)) w' = Ok (Some rep, w') ∧
    Mean.decode_msg_mean_sta_statistics rep = Ok h ∧
    match Mean.means h with
    | None => m = ∅
    | Some r => ∃ names ns, Mean.mr_intfs r = Some names ∧ Mean.mr_ns r = Some ns ∧
        length ns = length names ∧ NoDup (text <$> names) ∧ list_to_set (text <$> names) = m
    end.
Proof.
  apply (@mean_service_refines_set meter _ _ _ _ exact_alloc 7 None 0);
    [reflexivity|reflexivity|vm_compute; reflexivity|vm_compute; reflexivity].
Defined.
