(* ===== verification/Handover.v ===== *)
(** The handover decision: [msg_snr_threshold_reached.c] with its HANDOVER
    build, and the controller of [run-server.c].

    A station whose signal is too weak asks the controller for another access
    point.  The controller asks the station which access points are in range,
    keeps those it knows, asks each for its traffic and takes the one with the
    least.  Its lists of devices are those of [Devices]. *)
From stdpp Require Import prelude list strings gmap.
From Stdlib Require Import SpecFloat.
From S2P Require Import Prelude CMem CFloat MsgCommon BufferHandler World Rpc Devices.
From S2P Require Import MsgConfig MsgStats MsgScan MsgMean.

(** ** The controller's variables *)

(** The lists of devices, the static [m_id] of the handler, [signal_threshold],
    and the [id], [snr_interval] and [snr_threshold] of [run-server.c]. *)
Record controller := Controller {
  ctl_devices : devices;
  ctl_m_id : Z;
  ctl_signal_threshold : Z;
  ctl_hello_id : Z;
  ctl_snr_interval : Z;
  ctl_snr_threshold : Z
}.

Definition DEFAULT_SIGNAL_THRESHOLD : Z := -90.

Class Controlled (W : Type) := {
  controller_of : W → controller;
  put_controller : controller → W → W
}.

Section variables.
Context {W : Type} `{Controlled W}.

Definition get_controller : ST W controller := λ w, Ok (controller_of w, w).
Definition change_controller (f : controller → controller) : ST W unit := λ w,
  Ok (tt, put_controller (f (controller_of w)) w).

Definition on_devices {A} (m : ST devices A) : ST W A := λ w,
  '(a, d) ← m (ctl_devices (controller_of w));
  let c := controller_of w in
  Ok (a, put_controller (Controller d (ctl_m_id c) (ctl_signal_threshold c) (ctl_hello_id c)
                                    (ctl_snr_interval c) (ctl_snr_threshold c)) w).

Definition set_m_id_static (i : Z) : ST W unit := change_controller (λ c,
  Controller (ctl_devices c) i (ctl_signal_threshold c) (ctl_hello_id c) (ctl_snr_interval c)
             (ctl_snr_threshold c)).
Definition set_hello_id (i : Z) : ST W unit := change_controller (λ c,
  Controller (ctl_devices c) (ctl_m_id c) (ctl_signal_threshold c) i (ctl_snr_interval c)
             (ctl_snr_threshold c)).
Definition set_signal_threshold (new_threshold : Z) : ST W unit := change_controller (λ c,
  Controller (ctl_devices c) (ctl_m_id c) new_threshold (ctl_hello_id c) (ctl_snr_interval c)
             (ctl_snr_threshold c)).

(** [p->hostname] and the other fields of a device. *)
Definition device_at (p : loc) : ST W list_devices_t := λ w,
  nd ← node_at (nodes (ctl_devices (controller_of w))) p; Ok (nd, w).
End variables.

(** ** The message *)

Module SnrReached.

(** [struct msg_snr_threshold_reached] (msg_snr_threshold_reached.h): the common header, then
    its own fields. *)
Record msg_snr_threshold_reached := Msg {
  hd : msg_header;
  sta_ip : charp;
  sta_port : Z;
  sta_mac : charp;
  intf_name : charp;
  mac_ap : charp;
  snr : Z
}.

Definition resize (h : msg_snr_threshold_reached) (n : Z) : msg_snr_threshold_reached :=
  Msg (set_m_size (hd h) n) (sta_ip h) (sta_port h) (sta_mac h) (intf_name h)
  (mac_ap h) (snr h).
Definition with_id (h : msg_snr_threshold_reached) (i : Z) : msg_snr_threshold_reached :=
  Msg (set_m_id (hd h) i) (sta_ip h) (sta_port h) (sta_mac h) (intf_name h)
  (mac_ap h) (snr h).
Definition set_mac_ap (h : msg_snr_threshold_reached) (x : charp) : msg_snr_threshold_reached :=
  Msg (hd h) (sta_ip h) (sta_port h) (sta_mac h) (intf_name h) x (snr h).

Section codec.
Context `{Allocator}.

Definition size_msg_snr_threshold_reached (h : msg_snr_threshold_reached) : res Z :=
  v ← strlen_ethanol (p_version (hd h));
  n1 ← strlen_ethanol (sta_ip h);
  n2 ← strlen_ethanol (sta_mac h);
  n3 ← strlen_ethanol (intf_name h);
  n4 ← strlen_ethanol (mac_ap h);
  Ok (to_u64 (v + 4 + 4 + 4 + n1 + 4 + n2 + n3 + n4 + 8)).

Definition encode_msg_snr_threshold_reached : msg_snr_threshold_reached → res (msg_snr_threshold_reached * list cell) :=
  encode_with size_msg_snr_threshold_reached resize (λ h,
    encode_header (m_type (hd h)) (m_id (hd h)) (m_size (hd h));;
    encode_char (sta_ip h);;
    encode_int (sta_port h);;
    encode_char (sta_mac h);;
    encode_char (intf_name h);;
    encode_char (mac_ap h);;
    encode_2long (snr h)).

Definition decode_msg_snr_threshold_reached : list cell → res msg_snr_threshold_reached := decode_buffer (
  hd ← decode_header;
  sta_ip ← decode_char;
  sta_port ← decode_int;
  sta_mac ← decode_char;
  intf_name ← decode_char;
  mac_ap ← decode_char;
  snr ← decode_2long;
  mret (Msg hd sta_ip sta_port sta_mac intf_name mac_ap snr)).

Definition wf (h : msg_snr_threshold_reached) : bool :=
  header_ok (hd h) &&
  strs_ok [p_version (hd h); sta_ip h; sta_mac h; intf_name h; mac_ap h] &&
  i32_ok (sta_port h) && i64_ok (snr h).

Definition normal (h : msg_snr_threshold_reached) : msg_snr_threshold_reached :=
  Msg (normal_header (hd h)) (canon (sta_ip h)) (sta_port h)
  (canon (sta_mac h)) (canon (intf_name h)) (canon (mac_ap h)) (snr h).

#[global] Instance msg_snr_threshold_reached_message : Message msg_snr_threshold_reached := {|
  msg_head := hd; msg_resize := resize; msg_size := size_msg_snr_threshold_reached;
  msg_encode := encode_msg_snr_threshold_reached; msg_decode := decode_msg_snr_threshold_reached;
  msg_normal := normal; msg_wf := wf
|}.

#[global] Instance msg_snr_threshold_reached_ok : MessageOk msg_snr_threshold_reached.
Proof. solve_codec wf size_msg_snr_threshold_reached. Qed.
End codec.

Section agent.
Context {W : Type} `{Net W, Device W, Build, Allocator}.

Definition send_msg_snr_threshold_reached (hostname : charp) (port_num id : Z) (sta_ip : charp)
    (sta_port : Z) (sta_mac intf_name mac_current_ap : charp) (snr : Z) :
    ST W (option msg_snr_threshold_reached * Z) :=
  with_ssl hostname port_num (None, id) (
    id' ← lift (incr_int id);
    version ← lift (copy_string ETHANOL_VERSION);
    intf ← lift (copy_string intf_name);
    ap ← lift (copy_string mac_current_ap);
    ip ← lift (copy_string sta_ip);
    mac ← lift (copy_string sta_mac);
    h1 ← exchange (Msg (Header MSG_SET_SNR_THRESHOLD_REACHED id version 0) ip sta_port mac intf ap snr)
                  (λ t, t =? MSG_SET_SNR_THRESHOLD_REACHED);
    mret (h1, id')).
End agent.

End SnrReached.

(** ** The decision *)

(** [list_aps_range_t]; the list is a list of them. *)
Record list_aps_range_t := ApsRange {
  r_index : nat; r_tx : spec_float; r_rx : spec_float; r_ap : loc
}.

Definition minus_one : spec_float := f80_of_Z (-1).

(** [insert_ap_range]: at the head, without traffic. *)
Definition insert_ap_range (index : nat) (ap : loc) (aps_range : list list_aps_range_t) :
    list list_aps_range_t :=
  ApsRange index (f80_of_Z 0) (f80_of_Z 0) ap :: aps_range.

(** [(p->tx != -1) && (traffic > (p->tx + p->rx) || traffic == -1)]. *)
Definition better (traffic : spec_float) (p : list_aps_range_t) : bool :=
  negb (SFeqb (r_tx p) minus_one) &&
  (SFltb (f80_add (r_tx p) (r_rx p)) traffic || SFeqb traffic minus_one).

(** The loop that keeps the least traffic and its index, -1 at first. *)
Fixpoint least_traffic (l : list list_aps_range_t) (traffic : spec_float) (i : option nat) :
    option nat :=
  match l with
  | [] => i
  | p :: l =>
      if better traffic p then least_traffic l (f80_add (r_tx p) (r_rx p)) (Some (r_index p))
      else least_traffic l traffic i
  end.

Section agent.
Context {W : Type} `{Net W, Device W, Build, Allocator, Controlled W}.

(** The access points in range that are known, are not the current one and
    are strong enough: [k] entries from the [i]-th on. *)
Fixpoint keep_known (l_aps : option (list ApInRange.ap_in_range)) (current : charp) (k i : nat)
    (aps_range : list list_aps_range_t) : ST W (list list_aps_range_t) :=
  match k with
  | O => mret aps_range
  | S k =>
      e ← lift (array_at l_aps i);
      ap ← on_devices (find_ap (ApInRange.mac_ap e));
      aps_range ←
        match ap with
        | None => mret aps_range
        | Some _ =>
            same ← lift (streq (ApInRange.mac_ap e) current);
            if (same : bool) then mret aps_range else
            ap ← on_devices (find_ap (ApInRange.mac_ap e));
            match ap with
            | None => mret aps_range
            | Some ap =>
                s ← lift (sf_to_int 64 (f32_of_bits (ApInRange.signal e)));
                c ← get_controller;
                mret (if ctl_signal_threshold c <? s then insert_ap_range i ap aps_range
                      else aps_range)
            end
        end;
      keep_known l_aps current k (S i) aps_range
  end.

(** The traffic of an access point: that of its first interface, or -1 when it
    does not answer. *)
Definition ask_traffic (p : list_aps_range_t) : ST W list_aps_range_t :=
  nd ← device_at (r_ap p);
  c ← get_controller;
  '(m, id) ← Mean.send_msg_mean_sta_statistics (hostname nd) (port_num nd) (ctl_m_id c) None 0;
  set_m_id_static id;;
  match m with
  | Some m =>
      v ← lift (deref (Mean.means m));
      ns ← lift (array_at (Mean.mr_ns v) 0);
      mret (ApsRange (r_index p) (f80_of_bits (ns_tx_bytes ns)) (f80_of_bits (ns_rx_bytes ns)) (r_ap p))
  | None => mret (ApsRange (r_index p) minus_one (r_rx p) (r_ap p))
  end.

Fixpoint ask_all (l : list list_aps_range_t) : ST W (list list_aps_range_t) :=
  match l with
  | [] => mret []
  | p :: l => p ← ask_traffic p; l ← ask_all l; mret (p :: l)
  end.

(** The new access point; [h->mac_ap] is freed before it is known whether there
    is one, and the reply reads it. *)
Definition choose_ap (l_aps : option (list ApInRange.ap_in_range)) (aps_range : list list_aps_range_t) :
    ST W charp :=
  l ← ask_all aps_range;
  match least_traffic l minus_one None with
  | Some i => e ← lift (array_at l_aps i); mret (ApInRange.mac_ap e)
  | None => λ _, Err UseAfterFree
  end.

Definition decide_ap (h : SnrReached.msg_snr_threshold_reached) : ST W charp :=
  sta ← on_devices (find_station (SnrReached.sta_mac h));
  match sta with
  | None => mret (SnrReached.mac_ap h)
  | Some sta =>
      nd ← device_at sta;
      c ← get_controller;
      '(l_aps, id) ← ApInRange.send_msg_get_ap_in_range (hostname nd) (port_num nd) (ctl_m_id c)
                       (SnrReached.intf_name h) None 0;
      set_m_id_static id;;
      l_aps ← lift (deref l_aps);
      aps_range ← keep_known (ApInRange.aps l_aps) (SnrReached.mac_ap h)
                    (Z.to_nat (ApInRange.num_aps l_aps)) 0 [];
      match aps_range with
      | [] => mret (SnrReached.mac_ap h)
      | _ => choose_ap (ApInRange.aps l_aps) aps_range
      end
  end.

(** The relay takes [&h->m_id]. *)
Definition process_msg_snr_threshold_reached (input : list cell) : ST W (option (list cell)) :=
  h ← lift (SnrReached.decode_msg_snr_threshold_reached input);
  h ← (if negb (nonnull (SnrReached.sta_ip h)) then
         if handover then ap ← decide_ap h; mret (SnrReached.set_mac_ap h ap) else mret h
       else
         '(h1, id') ← SnrReached.send_msg_snr_threshold_reached (SnrReached.sta_ip h)
                        (SnrReached.sta_port h) (m_id (SnrReached.hd h)) None 0 (SnrReached.sta_mac h)
                        (SnrReached.intf_name h) (SnrReached.mac_ap h) (SnrReached.snr h);
         let h := SnrReached.with_id h id' in
         match h1 with
         | Some h1 => mret (SnrReached.set_mac_ap h (SnrReached.mac_ap h1))
         | None => mret h
         end);
  '(_, output) ← lift (SnrReached.encode_msg_snr_threshold_reached h);
  mret (Some output).

(** ** The hello event of the controller *)

Definition WIRELESS_INTERFACE : charp := lit "wlan0".
Definition ETHERNET_INTERFACE : charp := lit "eth1".

(** The loop over the wireless interfaces of a station. *)
Fixpoint configure_snr (host : charp) (port : Z) (intf : option (list Intf.interface)) (k i : nat) :
    ST W unit :=
  match k with
  | O => mret tt
  | S k =>
      e ← lift (array_at intf i);
      (if Intf.is_wifi e then
         c ← get_controller;
         id ← SnrInterval.send_msg_set_snr_interval host port (ctl_hello_id c) (Intf.intf_name e) None 0
                (ctl_snr_interval c);
         set_hello_id id;;
         id ← SnrThreshold.send_msg_set_snr_threshold host port id (Intf.intf_name e) None 0
                (ctl_snr_threshold c);
         set_hello_id id
       else mret tt);;
      configure_snr host port intf k (S i)
  end.

(** The list the new device goes to, with the address of its interface. *)
Definition register_device (junk_type : Z) (junk_wifi : bool) (device_type : Z) (host : charp)
    (port : Z) : ST W unit :=
  c ← get_controller;
  '(m, id) ← Intf.send_msg_get_one_intf junk_type junk_wifi host port (ctl_hello_id c)
               WIRELESS_INTERFACE None 0;
  set_hello_id id;;
  match m with
  | Some m =>
      if 0 <? Intf.num_intf m then
        e ← lift (array_at (Intf.intf m) 0);
        on_devices (if device_type =? 1 then insert_ap (Intf.mac_address e) host port
                    else insert_station (Intf.mac_address e) host port);;
        mret tt
      else mret tt
  | None => mret tt
  end.

Definition configure_experiment (junk_type : Z) (junk_wifi : bool) (device_type : Z) (host : charp)
    (port : Z) : ST W Z :=
  if negb (device_type =? 1) && negb (device_type =? 2) then mret (-1) else
  register_device junk_type junk_wifi device_type host port;;
  (if device_type =? 2 then
     c ← get_controller;
     '(r, id) ← Intf.send_msg_get_interfaces host port (ctl_hello_id c) None 0;
     set_hello_id id;;
     r ← lift (deref r);
     configure_snr host port (Intf.intf r) (Z.to_nat (Intf.num_intf r)) 0
   else mret tt);;
  (if device_type =? 1 then
     c ← get_controller;
     id ← MeanIntf.send_msg_mean_sta_statistics_interface_add host port (ctl_hello_id c) None 0
            ETHERNET_INTERFACE;
     id ← MeanAlpha.send_msg_mean_sta_statistics_alpha host port id None 0
            (to_f80 (f64_div (f64_of_Z 1) (f64_of_Z 10)));
     id ← MeanTime.send_msg_mean_sta_statistics_time host port id None 0 100;
     set_hello_id id
   else mret tt);;
  mret 0.
End agent.
