(* ===== verification/Decoding.v ===== *)
(** What the decoders make of arbitrary bytes: the messages of [messaging/]
    decoded from a record that no encoder of this program produced. *)
From stdpp Require Import prelude list strings.
From S2P Require Import Prelude CMem MsgCommon BufferHandler MsgConfig MsgTraffic MsgRadio.
From S2P Require Import MsgSystem MsgAssoc MsgSession MsgTos MsgAp MsgWiphy MsgChannel MsgBitrate.
From S2P Require Import MsgStats MsgMean Handover.

(** What [SSL_read] stored: bytes. *)
Definition record_bytes (l : list cell) : Prop := Forall (λ c, ∃ b, c = Some b ∧ 0 ≤ b < 256) l.

(** A string as [decode_char] leaves it: NULL, a string shorter than [n], or a
    block without a NUL. *)
Definition str_block (n : nat) (p : charp) : Prop :=
  (cstr_ok p = true ∧ (length (text p) ≤ n)%nat) ∨ strlen_ethanol p = Err ReadOutOfBounds.

(** [d] reads a value with [ok] and moves forward. *)
Definition yields {A} (d : decoder A) (ok : nat → A → Prop) : Prop := ∀ n l x l',
  record_bytes l → (length l ≤ n)%nat → d l = Ok (x, l') →
  ok n x ∧ record_bytes l' ∧ (length l' ≤ n)%nat.

Lemma load_inv n l bs l' : record_bytes l → load n l = Ok (bs, l') →
  length bs = n ∧ Forall (λ b, 0 ≤ b < 256) bs ∧ l = cells bs ++ l'.
Proof.
  revert l bs. induction n as [|n IH]; intros l bs Hl E.
  { destruct l; injection E as <- <-; by repeat constructor. }
  destruct Hl as [|c l (b & -> & Hb) Hl]; [done|]. cbn [load] in E.
  destruct (load n l) as [[r l'']|] eqn:E'; [|done]. injection E as <- <-.
  destruct (IH l r Hl E') as (Hn & Hr & ->). split_and!; [simpl; lia|by constructor|done].
Qed.

Lemma of_le_bound n bs : length bs = n → Forall (λ b, 0 ≤ b < 256) bs → 0 ≤ of_le bs < 2 ^ (8 * Z.of_nat n).
Proof.
  intros <- Hbs. unfold of_le. rewrite (Z.mul_comm 8). apply little_endian_to_Z_bound; [lia|]. exact Hbs.
Qed.

Lemma record_suffix bs l' n : record_bytes (cells bs ++ l') → (length (cells bs ++ l') ≤ n)%nat →
  record_bytes l' ∧ (length l' ≤ n)%nat.
Proof. intros [_ Hl]%Forall_app Hn. rewrite length_app in Hn. split; [done|lia]. Qed.

Lemma yields_load {A} (n : nat) (f : list Z → A) (ok : A → Prop) :
  (∀ bs, 0 ≤ of_le bs < 2 ^ (8 * Z.of_nat n) → ok (f bs)) →
  yields (bs ← load n; mret (f bs)) (λ _, ok).
Proof.
  intros Hf m l x l' Hl Hm E. run_inv E. injection E as <- <-.
  destruct (load_inv n l a s Hl E0) as (Hn & Ha & ->). split; [by apply Hf, of_le_bound|].
  by apply record_suffix in Hm.
Qed.

Lemma yields_unsigned (n : nat) : yields (bs ← load n; mret (of_le bs)) (λ _ x, u_ok (8 * Z.of_nat n) x = true).
Proof. apply yields_load. intros bs Hb. unfold u_ok. split_andb; to_prop; lia. Qed.

Lemma yields_signed (n : nat) w : w = 8 * Z.of_nat n → 0 < w →
  yields (bs ← load n; mret (to_s w (of_le bs))) (λ _ x, s_ok w x = true).
Proof. intros -> Hw. apply yields_load. intros bs _. by apply to_s_range. Qed.

Lemma yields_byte : yields decode_byte (λ _ x, u_ok 8 x = true). Proof. apply (yields_unsigned 1). Qed.
Lemma yields_int : yields decode_int (λ _ x, i32_ok x = true). Proof. by apply (yields_signed 4). Qed.
Lemma yields_uint : yields decode_uint (λ _ x, u32_ok x = true). Proof. apply (yields_unsigned 4). Qed.
Lemma yields_short : yields decode_short (λ _ x, s_ok 16 x = true). Proof. by apply (yields_signed 2). Qed.
Lemma yields_ushort : yields decode_ushort (λ _ x, u_ok 16 x = true). Proof. apply (yields_unsigned 2). Qed.
Lemma yields_long : yields decode_long (λ _ x, i64_ok x = true). Proof. by apply (yields_signed 8). Qed.
Lemma yields_2long : yields decode_2long (λ _ x, i64_ok x = true). Proof. by apply (yields_signed 8). Qed.
Lemma yields_ulong : yields decode_ulong (λ _ x, u_ok 64 x = true). Proof. apply (yields_unsigned 8). Qed.
Lemma yields_u2long : yields decode_u2long (λ _ x, u_ok 64 x = true). Proof. apply (yields_unsigned 8). Qed.
Lemma yields_float : yields decode_float (λ _ x, u32_ok x = true). Proof. apply (yields_unsigned 4). Qed.
Lemma yields_double : yields decode_double (λ _ x, u_ok 64 x = true). Proof. apply (yields_unsigned 8). Qed.

Lemma yields_bool : yields decode_bool (λ _ _, True).
Proof.
  intros n l x l' Hl Hn E. unfold decode_bool in E. run_inv E.
  destruct (load_inv 1 l a s Hl E0) as (_ & _ & ->). apply record_suffix in Hn; [|done].
  destruct (of_le a =? 0); [by injection E as _ <-|]. destruct (of_le a =? 1); [by injection E as _ <-|done].
Qed.

Lemma yields_longdouble : yields decode_longdouble (λ _ x, u_ok 80 x = true).
Proof.
  intros n l x l' Hl Hn E. unfold decode_longdouble in E. run_inv E.
  destruct (load_inv 10 l a s Hl E0) as (Ha & Hb & ->). apply record_suffix in Hn as [Hs Hn]; [|done].
  run_inv E. injection E as <- <-. pose proof (of_le_bound 10 a Ha Hb) as Hr.
  unfold skip in E1. destruct (6 <=? length s)%nat; [|done]. injection E1 as _ <-.
  split_and!; [unfold u_ok; split_andb; to_prop; lia|by apply Forall_drop|rewrite length_drop; lia].
Qed.

(** ** Strings *)

Lemma record_advance l n : record_bytes l → record_bytes (advance l n) ∧ (length (advance l n) ≤ length l)%nat.
Proof.
  intros Hl. revert n. induction Hl as [|c l Hc Hl IH]; intros n; cbn [advance].
  { destruct (n <=? 0); by repeat constructor. }
  destruct (n <=? 0); [split; [by constructor|done]|]. destruct (IH (n - 1)). split; [done|simpl; lia].
Qed.

(** What [strncpy] copies is a string of the record, or a block without NUL. *)
Lemma strncpy_record l n blk : record_bytes l → strncpy l n = Ok blk →
  chars_of blk = Err ReadOutOfBounds ∨
  ∃ s, chars_of blk = Ok s ∧ (length s ≤ length l)%nat ∧ forallb is_char s = true.
Proof.
  intros Hl. revert n blk. induction Hl as [|c l (b & -> & Hb) Hl IH]; intros n blk; cbn [strncpy].
  { destruct (n <=? 0); [|done]. intros [= <-]. by left. }
  destruct (n <=? 0) eqn:Hn; [intros [= <-]; by left|]. to_prop. destruct (b =? 0) eqn:E0.
  - intros [= <-]. right. exists []. destruct (Z.to_nat n) eqn:En; [lia|]. split_and!; [done|simpl; lia|done].
  - destruct (strncpy l (n - 1)) as [r|] eqn:Er; [|done]. intros [= <-]. cbn [chars_of]. rewrite E0.
    destruct (IH _ _ Er) as [->|(s & -> & Hs & Hc)]; [by left|right]. exists (b :: s).
    split_and!; [done|simpl; lia|]. cbn [forallb]. rewrite Hc, andb_true_r. unfold is_char.
    to_prop. split_andb; to_prop; lia.
Qed.

Lemma yields_char : yields decode_char (λ n p, (n ≤ 2048)%nat → str_block n p).
Proof.
  intros n l x l' Hl Hn E. unfold decode_char in E. run_inv E. rename a into s_len.
  destruct (yields_uint n l s_len s Hl Hn E0) as (_ & Hs & Hsn). destruct (s_len =? 0).
  { injection E as <- <-. split_and!; [|done..]. intros _. left. split; [done|simpl; lia]. }
  destruct (strncpy s (to_u32 (s_len + 1))) as [blk|] eqn:Eb; [|done]. injection E as <- <-.
  destruct (record_advance s (to_u32 (s_len + 1)) Hs) as [? ?]. split_and!; [|done|lia].
  intros Hmax. destruct (strncpy_record _ _ _ Hs Eb) as [Hc|(t & Hc & Hlen & Hok)]; [right|left].
  - unfold strlen_ethanol, strlen. cbn [deref mbind res_bind]. by rewrite strlen_chars, Hc.
  - unfold cstr_ok, text. rewrite Hc, Hok. cbn [andb]. split; [to_prop; lia|lia].
Qed.

Lemma yields_header : yields decode_header (λ n h,
  i32_ok (m_type h) = true ∧ i32_ok (m_id h) = true ∧ ((n ≤ 2048)%nat → str_block n (p_version h))).
Proof.
  intros n l x l' Hl Hn E. unfold decode_header in E.
  run_inv E. destruct (yields_int _ _ _ _ Hl Hn E0) as (? & ? & ?).
  run_inv E. destruct (yields_int n _ _ _ ltac:(eassumption) ltac:(eassumption) E1) as (? & ? & ?).
  run_inv E. destruct (yields_char n _ _ _ ltac:(eassumption) ltac:(eassumption) E2) as (? & ? & ?).
  run_inv E. destruct (yields_int n _ _ _ ltac:(eassumption) ltac:(eassumption) E3) as (? & ? & ?).
  injection E as <- <-. by split_and!.
Qed.

(** ** Messages *)

(** Whatever bytes a record of the servlet's buffer holds: a message that is
    decoded from it and has a version is well formed, or computing the size of
    a reply reads past an unterminated string. *)
Definition decodes_typed {T} (decode : list cell → res T) (head : T → msg_header) (size : T → res Z)
    (wf : T → bool) : Prop := ∀ buf h,
  record_bytes buf → (length buf ≤ 2048)%nat → decode buf = Ok h →
  5 ≤ Z.of_nat (length (text (p_version (head h)))) → wf h = true ∨ size h = Err ReadOutOfBounds.

Create HintDb typed.
#[export] Hint Resolve yields_byte yields_int yields_uint yields_short yields_ushort yields_long
  yields_2long yields_ulong yields_u2long yields_float yields_double yields_bool yields_longdouble
  yields_char yields_header : typed.

(** One field: the value read and what is left. *)
Lemma decode_field {A B} (d : decoder A) (ok : nat → A → Prop) (k : A → decoder B) n l r l' :
  yields d ok → record_bytes l → (length l ≤ n)%nat → (a ← d; k a) l = Ok (r, l') →
  ∃ a l1, ok n a ∧ record_bytes l1 ∧ (length l1 ≤ n)%nat ∧ k a l1 = Ok (r, l').
Proof.
  intros Hd Hl Hn E. apply st_bind_inv in E as (a & l1 & E0 & E). exists a, l1.
  destruct (Hd n l a l1 Hl Hn E0) as (? & ? & ?). by split_and!.
Qed.

Ltac decode_fields E :=
  repeat (let a := fresh "a" in let l := fresh "l" in
    let H1 := fresh in let H2 := fresh in let H3 := fresh in
    eapply decode_field in E as (a & l & H1 & H2 & H3 & E); [|solve [eauto with typed]|eassumption|eassumption]; cbv beta in H1);
  injection E as <- _.

Ltac typed_strings :=
  repeat match goal with
  | H : (2048 ≤ 2048)%nat → str_block _ _ |- _ => specialize (H (le_n _))
  | H : _ ∧ _ |- _ => destruct H
  end.

Ltac size_fails :=
  repeat match goal with
  | H : strlen_ethanol ?p = Err _ |- context [strlen_ethanol ?p] => rewrite H; cbn [mbind res_bind]
  | H : cstr_ok ?p = true |- context [strlen_ethanol ?p] => rewrite (strlen_ethanol_ok p H); cbn [mbind res_bind]
  | H : str_block _ ?p |- context [strlen_ethanol ?p] => destruct H as [[? ?]|?]
  end; reflexivity.

Ltac typed_all_strings :=
  lazymatch goal with
  | H : str_block _ ?p |- _ =>
      let Hb := fresh in
      destruct H as [[? ?]|Hb]; [typed_all_strings|right; size_fails]
  | _ => left
  end.

Lemma decode_buffer_inv {A} (d : decoder A) buf x : decode_buffer d buf = Ok x → ∃ l, d buf = Ok (x, l).
Proof. unfold decode_buffer. destruct (d buf) as [[y l]|]; [|done]. intros [= ->]. by exists l. Qed.

Ltac solve_typed :=
  lazymatch goal with |- decodes_typed _ _ ?size ?wf =>
  let buf := fresh in let h := fresh in let Hb := fresh in let Hl := fresh in let E := fresh in
  let Hv := fresh in
  intros buf h Hb Hl E Hv; apply decode_buffer_inv in E as [? E];
  decode_fields E; cbn in Hv; typed_strings;
  unfold size, wf; cbn -[Z.add Z.ltb Z.leb Z.mul strlen_ethanol];
  typed_all_strings; unfold header_ok, strs_ok; cbn -[Z.add Z.ltb Z.leb];
  split_andb; to_prop; first [done|lia|in_range] end.

(** Whatever bytes arrive, decoding a request is typed: when a record that
    fits the servlet's buffer decodes to a message of one of these types with a
    version of at least the length of the program's own, every number of the
    message is in the range of its C type and every string is NULL or
    terminated, so that the message is well formed and can be encoded again --
    or a string came without its NUL, and computing the size of the reply
    reads past its block. *)
Theorem requests_typed :
  decodes_typed Mtu.decode_msg_set_mtu Mtu.hd Mtu.size_msg_set_mtu Mtu.wf ∧
  decodes_typed Txqueuelen.decode_msg_set_txqueuelen Txqueuelen.hd Txqueuelen.size_msg_set_txqueuelen Txqueuelen.wf ∧
  decodes_typed SnrThreshold.decode_msg_snr_threshold SnrThreshold.hd SnrThreshold.message_size_snr_threshold SnrThreshold.wf ∧
  decodes_typed SnrInterval.decode_msg_snr_interval SnrInterval.hd SnrInterval.message_size_snr_interval SnrInterval.wf ∧
  decodes_typed BytesReceived.decode_msg_bytesreceived BytesReceived.hd BytesReceived.message_size_bytesreceived BytesReceived.wf ∧
  decodes_typed BytesSent.decode_msg_bytessent BytesSent.hd BytesSent.message_size_bytessent BytesSent.wf ∧
  decodes_typed PacketsReceived.decode_msg_packetsreceived PacketsReceived.hd PacketsReceived.message_size_packetsreceived PacketsReceived.wf ∧
  decodes_typed PacketsSent.decode_msg_packetssent PacketsSent.hd PacketsSent.message_size_packetssent PacketsSent.wf ∧
  decodes_typed PacketsLost.decode_msg_packetslost PacketsLost.hd PacketsLost.message_size_packetslost PacketsLost.wf ∧
  decodes_typed Snr.decode_msg_snr Snr.hd Snr.message_size_snr Snr.wf ∧
  decodes_typed Txpower.decode_msg_txpower Txpower.hd Txpower.size_msg_txpower Txpower.wf ∧
  decodes_typed Powersave.decode_msg_powersavemode Powersave.hd Powersave.message_size_powersavemode Powersave.wf ∧
  decodes_typed Wmm80211e.decode_msg_802_11e_enabled Wmm80211e.hd Wmm80211e.size_msg_802_11e_enabled Wmm80211e.wf ∧
  decodes_typed Cpu.decode_msg_cpu Cpu.hd Cpu.message_size_cpu Cpu.wf ∧
  decodes_typed Memory.decode_msg_memory Memory.hd Memory.message_size_memory Memory.wf ∧
  decodes_typed Uptime.decode_msg_uptime Uptime.hd Uptime.message_size_uptime Uptime.wf ∧
  decodes_typed Retries.decode_msg_retries Retries.hd Retries.message_size_retries Retries.wf ∧
  decodes_typed Failed.decode_msg_failed Failed.hd Failed.message_size_failed Failed.wf ∧
  decodes_typed Jitter.decode_msg_jitter Jitter.hd Jitter.message_size_jitter Jitter.wf ∧
  decodes_typed Delay.decode_msg_delay Delay.hd Delay.message_size_delay Delay.wf ∧
  decodes_typed Association.decode_msg_association_process Association.hd Association.message_size_association_process Association.wf ∧
  decodes_typed Disconnect.decode_msg_disconnect_user Disconnect.hd Disconnect.message_size_disconnect_user Disconnect.wf ∧
  decodes_typed Deauthenticate.decode_msg_deauthenticate_user Deauthenticate.hd Deauthenticate.message_size_deauthenticate_user Deauthenticate.wf ∧
  decodes_typed ChangedAp.decode_msg_changed_ap ChangedAp.hd ChangedAp.size_msg_changed_ap ChangedAp.wf ∧
  decodes_typed TriggerTransition.decode_msg_station_trigger_transition TriggerTransition.hd TriggerTransition.size_msg_station_trigger_transition TriggerTransition.wf ∧
  decodes_typed Hello.decode_msg_hello Hello.hd Hello.message_size_hello Hello.wf ∧
  decodes_typed Bye.decode_msg_bye Bye.hd Bye.message_size_bye Bye.wf ∧
  decodes_typed Ping.decode_msg_ping Ping.hd Ping.message_size_ping Ping.wf ∧
  decodes_typed Pong.decode_msg_pong Pong.hd Pong.message_size_pong Pong.wf ∧
  decodes_typed TosClean.decode_msg_tos_cleanall TosClean.hd TosClean.size_msg_tos_cleanall TosClean.wf ∧
  decodes_typed Tos.decode_msg_send_tos Tos.hd Tos.size_msg_send_tos Tos.wf ∧
  decodes_typed BroadcastSsid.decode_msg_ap_broadcastssid BroadcastSsid.hd BroadcastSsid.size_msg_ap_broadcastssid BroadcastSsid.wf ∧
  decodes_typed CtsProtection.decode_msg_ap_ctsprotection_enabled CtsProtection.hd CtsProtection.size_msg_ap_ctsprotection_enabled CtsProtection.wf ∧
  decodes_typed FrameBurst.decode_msg_ap_frameburstenabled FrameBurst.hd FrameBurst.size_msg_ap_frameburstenabled FrameBurst.wf ∧
  decodes_typed DtimInterval.decode_msg_ap_dtiminterval DtimInterval.hd DtimInterval.size_msg_ap_dtiminterval DtimInterval.wf ∧
  decodes_typed GuardInterval.decode_msg_ap_guardinterval GuardInterval.hd GuardInterval.size_msg_ap_guardinterval GuardInterval.wf ∧
  decodes_typed RtsThreshold.decode_msg_ap_rtsthreshold RtsThreshold.hd RtsThreshold.size_msg_ap_rtsthreshold RtsThreshold.wf ∧
  decodes_typed BeaconInterval.decode_msg_beacon_interval BeaconInterval.hd BeaconInterval.size_msg_beacon_interval BeaconInterval.wf ∧
  decodes_typed ChannelBandwidth.decode_msg_channelbandwitdh ChannelBandwidth.hd ChannelBandwidth.message_size_channelbandwitdh ChannelBandwidth.wf ∧
  decodes_typed Fragmentation.decode_msg_fragmentationthreshold Fragmentation.hd Fragmentation.message_size_fragmentationthreshold Fragmentation.wf ∧
  decodes_typed SupportedInterface.decode_msg_supportedinterface SupportedInterface.hd SupportedInterface.message_size_supportedinterface SupportedInterface.wf ∧
  decodes_typed VapCreate.decode_msg_vap VapCreate.hd VapCreate.message_size_vap VapCreate.wf ∧
  decodes_typed ConfSsidRadio.decode_msg_conf_ssid_radio ConfSsidRadio.hd ConfSsidRadio.message_size_conf_ssid_radio ConfSsidRadio.wf ∧
  decodes_typed BeginAssociation.decode_msg_request_begin_association BeginAssociation.hd BeginAssociation.size_request_begin_association BeginAssociation.wf ∧
  decodes_typed FastBss.decode_msg_fastbsstransition_compatible FastBss.hd FastBss.message_size_fastbsstransition_compatible FastBss.wf ∧
  decodes_typed Frequency.decode_msg_frequency Frequency.hd Frequency.message_size_frequency Frequency.wf ∧
  decodes_typed CurrentChannel.decode_msg_currentchannel CurrentChannel.hd CurrentChannel.message_size_currentchannel CurrentChannel.wf ∧
  decodes_typed StaLink.decode_msg_sta_link_information StaLink.hd StaLink.message_size_sta_link_info StaLink.wf ∧
  decodes_typed TxBitrate.decode_msg_tx_bitrate TxBitrate.hd TxBitrate.message_size_tx_bitrate TxBitrate.wf ∧
  decodes_typed Statistics.decode_msg_radio_linkstatitics Statistics.hd Statistics.message_size_radio_linkstatitics Statistics.wf ∧
  decodes_typed MeanIntf.decode_msg_mean_sta_statistics_interface MeanIntf.hd MeanIntf.size_msg_mean_sta_statistics_interface MeanIntf.wf ∧
  decodes_typed MeanAlpha.decode_msg_mean_sta_statistics_alpha MeanAlpha.hd MeanAlpha.size_msg_mean_sta_statistics_alpha MeanAlpha.wf ∧
  decodes_typed MeanTime.decode_msg_mean_sta_statistics_time MeanTime.hd MeanTime.size_msg_mean_sta_statistics_time MeanTime.wf ∧
  decodes_typed SnrReached.decode_msg_snr_threshold_reached SnrReached.hd SnrReached.size_msg_snr_threshold_reached SnrReached.wf.
Proof. split_and!; solve_typed. Qed.

(** A request for the MTU whose address has length 2 and no NUL. *)
Definition unterminated : list cell := cells (
  le 4 46 ++ le 4 7 ++ le 4 5 ++ lit_bytes "1.0.3" ++ [0] ++ le 4 0 ++
  le 4 2 ++ lit_bytes "10." ++ le 4 22223 ++ le 4 0 ++ le 4 1400).

Lemma requests_typed_witness : ∃ h, Mtu.decode_msg_set_mtu unterminated = Ok h ∧
  Mtu.mtu h = 1400 ∧ (Mtu.wf h = true ∨ Mtu.size_msg_set_mtu h = Err ReadOutOfBounds).
Proof.
  eexists. split; [vm_compute; reflexivity|]. split; [reflexivity|].
  apply (proj1 requests_typed unterminated).
  - unfold record_bytes. vm_compute. repeat constructor; eexists; split; try reflexivity; done.
  - vm_compute. lia.
  - vm_compute. reflexivity.
  - vm_compute. done.
Defined.
