(* ===== verification/RoundTrips.v ===== *)
(** Round trips: what a receiver decodes from an encoded message, for the
    buffer primitives, the strings, the header and every modelled message. *)
From stdpp Require Import prelude list strings.
From S2P Require Import Prelude CMem MsgCommon BufferHandler MsgConfig MsgTraffic MsgRadio.
From S2P Require Import MsgSystem MsgAssoc MsgSession MsgLists MsgTos.
From S2P Require Import MsgAp MsgWiphy MsgChannel MsgBitrate MsgStats MsgHost MsgScan MsgMean Handover.

(** Encoding a well-formed value fills a block of the size it announces in
    [m_size], without leaving it, and decoding the block gives the value back,
    up to the normal form of its strings and version. *)
Definition roundtrips {T} (encode : T → res (T * list cell)) (decode : list cell → res T)
    (resize : T → Z → T) (normal : T → T) (wf : T → bool) : Prop :=
  ∀ h, wf h = true → ∃ n buf,
    encode h = Ok (resize h n, buf) ∧ Z.of_nat (length buf) = n ∧
    decode buf = Ok (normal (resize h n)).

Lemma roundtrips_intro {T} `{MessageOk T} :
  roundtrips msg_encode msg_decode msg_resize msg_normal msg_wf.
Proof.
  intros h Hwf. destruct (msg_codec h Hwf) as (n & body & _ & _ & He & Hl & Hd). eauto.
Qed.

Ltac message_roundtrip :=
  lazymatch goal with |- @roundtrips ?T _ _ _ _ _ => exact (roundtrips_intro (T:=T)) end.

Section messages.
Context `{Allocator}.

(** C25: the messages about the host and its traffic (MTU, queue length, SNR
    threshold and interval, traffic counters, CPU, memory, uptime, retries,
    failures, jitter, delay, type of service) round trip: encoding a well-
    formed message fills exactly the block it allocates, with the length
    stored in [m_size], and decoding those bytes rebuilds the message, with an
    empty string read back as NULL and the version as the current one. *)
Theorem host_roundtrip :
  roundtrips Mtu.encode_msg_set_mtu Mtu.decode_msg_set_mtu
    Mtu.resize Mtu.normal Mtu.wf ∧
  roundtrips Txqueuelen.encode_msg_set_txqueuelen Txqueuelen.decode_msg_set_txqueuelen
    Txqueuelen.resize Txqueuelen.normal Txqueuelen.wf ∧
  roundtrips SnrThreshold.encode_msg_snr_threshold SnrThreshold.decode_msg_snr_threshold
    SnrThreshold.resize SnrThreshold.normal SnrThreshold.wf ∧
  roundtrips SnrInterval.encode_msg_snr_interval SnrInterval.decode_msg_snr_interval
    SnrInterval.resize SnrInterval.normal SnrInterval.wf ∧
  roundtrips BytesReceived.encode_msg_bytesreceived BytesReceived.decode_msg_bytesreceived
    BytesReceived.resize BytesReceived.normal BytesReceived.wf ∧
  roundtrips BytesSent.encode_msg_bytessent BytesSent.decode_msg_bytessent
    BytesSent.resize BytesSent.normal BytesSent.wf ∧
  roundtrips PacketsReceived.encode_msg_packetsreceived PacketsReceived.decode_msg_packetsreceived
    PacketsReceived.resize PacketsReceived.normal PacketsReceived.wf ∧
  roundtrips PacketsSent.encode_msg_packetssent PacketsSent.decode_msg_packetssent
    PacketsSent.resize PacketsSent.normal PacketsSent.wf ∧
  roundtrips PacketsLost.encode_msg_packetslost PacketsLost.decode_msg_packetslost
    PacketsLost.resize PacketsLost.normal PacketsLost.wf ∧
  roundtrips Cpu.encode_msg_cpu Cpu.decode_msg_cpu
    Cpu.resize Cpu.normal Cpu.wf ∧
  roundtrips Memory.encode_msg_memory Memory.decode_msg_memory
    Memory.resize Memory.normal Memory.wf ∧
  roundtrips Uptime.encode_msg_uptime Uptime.decode_msg_uptime
    Uptime.resize Uptime.normal Uptime.wf ∧
  roundtrips Retries.encode_msg_retries Retries.decode_msg_retries
    Retries.resize Retries.normal Retries.wf ∧
  roundtrips Failed.encode_msg_failed Failed.decode_msg_failed
    Failed.resize Failed.normal Failed.wf ∧
  roundtrips Jitter.encode_msg_jitter Jitter.decode_msg_jitter
    Jitter.resize Jitter.normal Jitter.wf ∧
  roundtrips Delay.encode_msg_delay Delay.decode_msg_delay
    Delay.resize Delay.normal Delay.wf ∧
  roundtrips TosClean.encode_msg_tos_cleanall TosClean.decode_msg_tos_cleanall
    TosClean.resize TosClean.normal TosClean.wf ∧
  roundtrips Tos.encode_msg_send_tos Tos.decode_msg_send_tos
    Tos.resize Tos.normal Tos.wf.
Proof. split_and!; message_roundtrip. Qed.

(** C26: the messages about radios and access points (SNR, transmission power,
    power saving, 802.11e, the settings of an access point, the properties of
    a radio, frequency, channel, link and bit rate) round trip: encoding a
    well-formed message fills exactly the block it allocates, with the length
    stored in [m_size], and decoding those bytes rebuilds every field that is
    carried, with an empty string read back as NULL and the version as the
    current one.  The interface name of a message about the broadcast of the SSID
    is not carried: the receiver's field is left unassigned. *)
Theorem radio_roundtrip :
  roundtrips Snr.encode_msg_snr Snr.decode_msg_snr
    Snr.resize Snr.normal Snr.wf ∧
  roundtrips Txpower.encode_msg_txpower Txpower.decode_msg_txpower
    Txpower.resize Txpower.normal Txpower.wf ∧
  roundtrips Powersave.encode_msg_powersavemode Powersave.decode_msg_powersavemode
    Powersave.resize Powersave.normal Powersave.wf ∧
  roundtrips Wmm80211e.encode_msg_802_11e_enabled Wmm80211e.decode_msg_802_11e_enabled
    Wmm80211e.resize Wmm80211e.normal Wmm80211e.wf ∧
  roundtrips BroadcastSsid.encode_msg_ap_broadcastssid BroadcastSsid.decode_msg_ap_broadcastssid
    BroadcastSsid.resize BroadcastSsid.normal BroadcastSsid.wf ∧
  roundtrips CtsProtection.encode_msg_ap_ctsprotection_enabled CtsProtection.decode_msg_ap_ctsprotection_enabled
    CtsProtection.resize CtsProtection.normal CtsProtection.wf ∧
  roundtrips FrameBurst.encode_msg_ap_frameburstenabled FrameBurst.decode_msg_ap_frameburstenabled
    FrameBurst.resize FrameBurst.normal FrameBurst.wf ∧
  roundtrips DtimInterval.encode_msg_ap_dtiminterval DtimInterval.decode_msg_ap_dtiminterval
    DtimInterval.resize DtimInterval.normal DtimInterval.wf ∧
  roundtrips GuardInterval.encode_msg_ap_guardinterval GuardInterval.decode_msg_ap_guardinterval
    GuardInterval.resize GuardInterval.normal GuardInterval.wf ∧
  roundtrips RtsThreshold.encode_msg_ap_rtsthreshold RtsThreshold.decode_msg_ap_rtsthreshold
    RtsThreshold.resize RtsThreshold.normal RtsThreshold.wf ∧
  roundtrips BeaconInterval.encode_msg_beacon_interval BeaconInterval.decode_msg_beacon_interval
    BeaconInterval.resize BeaconInterval.normal BeaconInterval.wf ∧
  roundtrips ChannelBandwidth.encode_msg_channelbandwitdh ChannelBandwidth.decode_msg_channelbandwitdh
    ChannelBandwidth.resize ChannelBandwidth.normal ChannelBandwidth.wf ∧
  roundtrips Fragmentation.encode_msg_fragmentationthreshold Fragmentation.decode_msg_fragmentationthreshold
    Fragmentation.resize Fragmentation.normal Fragmentation.wf ∧
  roundtrips SupportedInterface.encode_msg_supportedinterface SupportedInterface.decode_msg_supportedinterface
    SupportedInterface.resize SupportedInterface.normal SupportedInterface.wf ∧
  roundtrips VapCreate.encode_msg_vap VapCreate.decode_msg_vap
    VapCreate.resize VapCreate.normal VapCreate.wf ∧
  roundtrips ConfSsidRadio.encode_msg_conf_ssid_radio ConfSsidRadio.decode_msg_conf_ssid_radio
    ConfSsidRadio.resize ConfSsidRadio.normal ConfSsidRadio.wf ∧
  roundtrips Location.encode_msg_location Location.decode_msg_location
    Location.resize Location.normal Location.wf ∧
  roundtrips FastBss.encode_msg_fastbsstransition_compatible FastBss.decode_msg_fastbsstransition_compatible
    FastBss.resize FastBss.normal FastBss.wf ∧
  roundtrips Frequency.encode_msg_frequency Frequency.decode_msg_frequency
    Frequency.resize Frequency.normal Frequency.wf ∧
  roundtrips CurrentChannel.encode_msg_currentchannel CurrentChannel.decode_msg_currentchannel
    CurrentChannel.resize CurrentChannel.normal CurrentChannel.wf ∧
  roundtrips StaLink.encode_msg_sta_link_information StaLink.decode_msg_sta_link_information
    StaLink.resize StaLink.normal StaLink.wf ∧
  roundtrips TxBitrate.encode_msg_tx_bitrate TxBitrate.decode_msg_tx_bitrate
    TxBitrate.resize TxBitrate.normal TxBitrate.wf.
Proof. split_and!; message_roundtrip. Qed.

(** C27: the messages of a session and of associations (hello, bye, ping, pong,
    association events, disconnect, deauthenticate, changed AP, trigger
    transition, begin association) round trip: encoding a well-formed message
    fills exactly the block it allocates, with the length stored in [m_size],
    and decoding those bytes rebuilds the message, with an empty string read
    back as NULL and the version as the current one. *)
Theorem session_roundtrip :
  roundtrips Hello.encode_msg_hello Hello.decode_msg_hello
    Hello.resize Hello.normal Hello.wf ∧
  roundtrips Bye.encode_msg_bye Bye.decode_msg_bye
    Bye.resize Bye.normal Bye.wf ∧
  roundtrips Ping.encode_msg_ping Ping.decode_msg_ping
    Ping.resize Ping.normal Ping.wf ∧
  roundtrips Pong.encode_msg_pong Pong.decode_msg_pong
    Pong.resize Pong.normal Pong.wf ∧
  roundtrips Association.encode_msg_association_process Association.decode_msg_association_process
    Association.resize Association.normal Association.wf ∧
  roundtrips Disconnect.encode_msg_disconnect_user Disconnect.decode_msg_disconnect_user
    Disconnect.resize Disconnect.normal Disconnect.wf ∧
  roundtrips Deauthenticate.encode_msg_deauthenticate_user Deauthenticate.decode_msg_deauthenticate_user
    Deauthenticate.resize Deauthenticate.normal Deauthenticate.wf ∧
  roundtrips ChangedAp.encode_msg_changed_ap ChangedAp.decode_msg_changed_ap
    ChangedAp.resize ChangedAp.normal ChangedAp.wf ∧
  roundtrips TriggerTransition.encode_msg_station_trigger_transition TriggerTransition.decode_msg_station_trigger_transition
    TriggerTransition.resize TriggerTransition.normal TriggerTransition.wf ∧
  roundtrips BeginAssociation.encode_msg_request_begin_association BeginAssociation.decode_msg_request_begin_association
    BeginAssociation.resize BeginAssociation.normal BeginAssociation.wf.
Proof. split_and!; message_roundtrip. Qed.

(** C28: the messages with arrays (interfaces and their MAC addresses,
    interference per channel, valid channels, channel surveys, interfering
    devices, bit rates to set, bit rates per band, which is an array of
    arrays), whose entries come back in number and order round trip: encoding
    a well-formed message fills exactly the block it allocates, with the
    length stored in [m_size], and decoding those bytes rebuilds the message,
    with an empty string read back as NULL and the version as the current one. *)
Theorem arrays_roundtrip :
  roundtrips Mac.encode_msg_mac Mac.decode_msg_mac
    Mac.resize Mac.normal Mac.wf ∧
  roundtrips Acs.encode_msg_acs Acs.decode_msg_acs
    Acs.resize Acs.normal Acs.wf ∧
  roundtrips Channels.encode_msg_channels Channels.decode_msg_channels
    Channels.resize Channels.normal Channels.wf ∧
  roundtrips ChannelInfo.encode_msg_channelinfo ChannelInfo.decode_msg_channelinfo
    ChannelInfo.resize ChannelInfo.normal ChannelInfo.wf ∧
  roundtrips InterferenceMap.encode_msg_interferencemap InterferenceMap.decode_msg_interferencemap
    InterferenceMap.resize InterferenceMap.normal InterferenceMap.wf ∧
  roundtrips SetTxBitrates.encode_msg_set_tx_bitrate SetTxBitrates.decode_msg_set_tx_bitrates
    SetTxBitrates.resize SetTxBitrates.normal SetTxBitrates.wf ∧
  roundtrips TxBitrates.encode_msg_tx_bitrates TxBitrates.decode_msg_tx_bitrates
    TxBitrates.resize TxBitrates.normal TxBitrates.wf.
Proof. split_and!; message_roundtrip. Qed.

(** C29: the reports (radios and their interfaces, routes, interfaces,
    statistics of links and stations, SSIDs, addresses, wireless interfaces,
    access points in range, scans, beacons, means of the counters and the SNR
    alarm) round trip: encoding a well-formed message fills exactly the block
    it allocates, with the length stored in [m_size], and decoding those bytes
    rebuilds every field that is carried, with an empty string read back as NULL
    and the version as the current one.  Not carried, and left unassigned by the
    receiver, are the noise and the time of the last beacon of a scan result, the
    environment of a country and the transmit bit rate of a station.  A list of
    wireless interfaces is well formed with up to one entry. *)
Theorem reports_roundtrip `{!WlanInfo.WlanJunk} :
  roundtrips RadioWlans.encode_msg_radio_wlans RadioWlans.decode_msg_radio_wlans
    RadioWlans.resize RadioWlans.normal RadioWlans.wf ∧
  roundtrips Routes.encode_msg_ap_routes Routes.decode_msg_ap_routes
    Routes.resize Routes.normal Routes.wf ∧
  roundtrips Intf.encode_msg_intf Intf.decode_msg_intf
    Intf.resize Intf.normal Intf.wf ∧
  roundtrips Statistics.encode_msg_radio_linkstatitics Statistics.decode_msg_radio_linkstatitics
    Statistics.resize Statistics.normal Statistics.wf ∧
  roundtrips StaStatistics.encode_msg_sta_statistics StaStatistics.decode_msg_sta_statistics
    StaStatistics.resize StaStatistics.normal StaStatistics.wf ∧
  roundtrips LinkStatistics.encode_msg_radio_linkstatistics LinkStatistics.decode_msg_radio_linkstatistics
    LinkStatistics.resize LinkStatistics.normal LinkStatistics.wf ∧
  roundtrips Ssid.encode_msg_ap_ssid Ssid.decode_msg_ap_ssid
    Ssid.resize Ssid.normal Ssid.wf ∧
  roundtrips IpAddress.encode_msg_ip_address IpAddress.decode_msg_ip_address
    IpAddress.resize IpAddress.normal IpAddress.wf ∧
  roundtrips WlanInfo.encode_msg_wlan_info WlanInfo.decode_msg_wlan_info
    WlanInfo.resize WlanInfo.normal WlanInfo.wf ∧
  roundtrips ApInRange.encode_msg_ap_in_range ApInRange.decode_msg_ap_in_range
    ApInRange.resize ApInRange.normal ApInRange.wf ∧
  roundtrips Scan.encode_msg_scan_received Scan.decode_msg_scan_received
    Scan.resize Scan.normal Scan.wf ∧
  roundtrips BeaconInfo.encode_msg_beaconinfo BeaconInfo.decode_msg_beaconinfo
    BeaconInfo.resize BeaconInfo.normal BeaconInfo.wf ∧
  roundtrips Mean.encode_msg_mean_sta_statistics Mean.decode_msg_mean_sta_statistics
    Mean.resize Mean.normal Mean.wf ∧
  roundtrips MeanIntf.encode_msg_mean_sta_statistics_interface MeanIntf.decode_msg_mean_sta_statistics_interface
    MeanIntf.resize MeanIntf.normal MeanIntf.wf ∧
  roundtrips MeanAlpha.encode_msg_mean_sta_statistics_alpha MeanAlpha.decode_msg_mean_sta_statistics_alpha
    MeanAlpha.resize MeanAlpha.normal MeanAlpha.wf ∧
  roundtrips MeanTime.encode_msg_mean_sta_statistics_time MeanTime.decode_msg_mean_sta_statistics_time
    MeanTime.resize MeanTime.normal MeanTime.wf ∧
  roundtrips SnrReached.encode_msg_snr_threshold_reached SnrReached.decode_msg_snr_threshold_reached
    SnrReached.resize SnrReached.normal SnrReached.wf.
Proof. split_and!; message_roundtrip. Qed.

End messages.

(** ** Primitives *)

(** A primitive encoder and its decoder on a block of exactly [n] bytes. *)
Definition primitive_ok {A} (alloc : Allocator) (n : Z) (encode : A → encoder) (decode : decoder A)
    (ok : A → bool) : Prop :=
  ∀ x, ok x = true → ∃ buf,
    fill_buffer n (encode x) = Ok buf ∧ Z.of_nat (length buf) = n ∧ decode_buffer decode buf = Ok x.

Lemma primitive_intro {A} alloc n (encode : A → encoder) (decode : decoder A) (ok : A → bool)
    (wire : A → list cell) :
  (∀ x, Z.of_nat (length (wire x)) = n) → (∀ x, writes (encode x) (wire x)) →
  (∀ x, ok x = true → reads decode (wire x) x) →
  primitive_ok alloc n encode decode ok.
Proof.
  intros Hl Hw Hr x Hx. exists (wire x). rewrite (fill_buffer_ok n _ _ (Hw x)) by (rewrite Hl; done).
  rewrite <- (Hl x). rewrite Nat2Z.id, Nat.sub_diag, app_nil_r. split_and!; try done.
  unfold decode_buffer. pose proof (Hr x Hx []) as E. rewrite app_nil_r in E. by rewrite E.
Qed.

Ltac primitive n :=
  apply (primitive_intro _ _ _ _ _ (λ x, cells (le n x)));
  [ intros; rewrite length_cells; by apply length_le
  | intros; apply writes_store | ].

(** C24: every primitive of [buffer_handler_fun.c] reads back the value that was
    written, on a block of exactly the size of its C type and for the whole
    range of that type: [int], [unsigned int], [short], [unsigned short],
    [long], [unsigned long], [long long], [unsigned long long], the bit
    patterns of [float], [double] and [long double], and [bool], which takes
    one byte on the wire. *)
Theorem primitives_roundtrip (alloc : Allocator) :
  primitive_ok alloc 1 encode_byte decode_byte (u_ok 8) ∧
  primitive_ok alloc 4 encode_int decode_int i32_ok ∧
  primitive_ok alloc 4 encode_uint decode_uint u32_ok ∧
  primitive_ok alloc 2 encode_short decode_short (s_ok 16) ∧
  primitive_ok alloc 2 encode_ushort decode_ushort (u_ok 16) ∧
  primitive_ok alloc 8 encode_long decode_long i64_ok ∧
  primitive_ok alloc 8 encode_ulong decode_ulong (u_ok 64) ∧
  primitive_ok alloc 8 encode_2long decode_2long i64_ok ∧
  primitive_ok alloc 8 encode_u2long decode_u2long (u_ok 64) ∧
  primitive_ok alloc 4 encode_float decode_float u32_ok ∧
  primitive_ok alloc 8 encode_double decode_double (u_ok 64) ∧
  primitive_ok alloc 16 encode_longdouble decode_longdouble (u_ok 80) ∧
  primitive_ok alloc 1 encode_bool decode_bool (λ _, true).
Proof.
  split_and!.
  - primitive 1. apply (reads_unsigned 1).
  - primitive 4. apply reads_int.
  - primitive 4. apply reads_uint.
  - primitive 2. apply reads_short.
  - primitive 2. apply (reads_unsigned 2).
  - primitive 8. apply reads_long.
  - primitive 8. apply (reads_unsigned 8).
  - primitive 8. apply reads_2long.
  - primitive 8. apply (reads_unsigned 8).
  - primitive 4. apply reads_float.
  - primitive 8. apply reads_double.
  - apply (primitive_intro _ _ _ _ _ (λ x, cells (le 10 x) ++ replicate 6 None)).
    + intros. rewrite length_app, length_cells, length_replicate, Nat2Z.inj_add, length_le by lia. done.
    + intros. apply writes_store.
    + apply reads_longdouble.
  - apply (primitive_intro _ _ _ _ _ (λ b : bool, cells [if b then 1 else 0])); try done.
    intros. apply reads_bool.
Qed.

(** A string survives [encode_char] and [decode_char] in a block of
    [strlen_ethanol] bytes: the receiver gets a NUL-terminated copy of its
    characters, and NULL for both NULL and the empty string. *)
Theorem string_roundtrip `{Allocator} (p : charp) : cstr_ok p = true → ∃ n buf,
  strlen_ethanol p = Ok n ∧ fill_buffer n (encode_char p) = Ok buf ∧
  Z.of_nat (length buf) = n ∧ decode_buffer decode_char buf = Ok (canon p) ∧
  (canon p = None ↔ text p = []) ∧ text (canon p) = text p.
Proof.
  intros Hp. exists (5 + Z.of_nat (length (text p))).
  pose proof (length_wire_str (text p)) as Hl. eexists.
  split_and!; [by apply strlen_ethanol_ok| | | | |by apply text_canon].
  - apply fill_buffer_ok; [by apply writes_char|done].
  - rewrite length_app, length_replicate. lia.
  - unfold decode_buffer. by rewrite (reads_str p Hp).
  - unfold canon. destruct (text p); [done|]. split; [discriminate|done].
Qed.

Lemma string_roundtrip_witness : ∃ n buf,
  strlen_ethanol (lit "wlan0") = Ok n ∧
  @fill_buffer exact_alloc n (encode_char (lit "wlan0")) = Ok buf ∧
  Z.of_nat (length buf) = n ∧ decode_buffer decode_char buf = Ok (canon (lit "wlan0")) ∧
  (canon (lit "wlan0") = None ↔ text (lit "wlan0") = []) ∧ text (canon (lit "wlan0")) = text (lit "wlan0").
Proof. apply (@string_roundtrip exact_alloc (lit "wlan0")). reflexivity. Defined.

(** The size of a message is computed from the structure's [p_version],
    but the header always carries the current version.  With a NULL version
    the block is five bytes short, and on an allocator that gives no more
    than it is asked for, encoding even the simplest message overruns it. *)
Theorem null_version_overflows (t i : Z) :
  @TosClean.encode_msg_tos_cleanall exact_alloc (TosClean.Msg (Header t i None 0)) = Err HeapOverflow.
Proof.
  unfold TosClean.encode_msg_tos_cleanall, encode_with. cbn.
  unfold fill_buffer. cbn. unfold encode_header, encode_int, mbind, ST_bind, store. cbn.
  reflexivity.
Qed.

(** ** The round trips at sample messages *)

Lemma host_roundtrip_witness : let h := Mtu.Msg (Header MSG_SET_MTU 7 ETHANOL_VERSION 0) None 0 (lit "wlan0") 1400 in
  ∃ n buf, @Mtu.encode_msg_set_mtu glibc_alloc h = Ok (Mtu.resize h n, buf) ∧ Z.of_nat (length buf) = n ∧
    Mtu.decode_msg_set_mtu buf = Ok (Mtu.normal (Mtu.resize h n)).
Proof. apply (proj1 (@host_roundtrip glibc_alloc)). reflexivity. Defined.

Lemma radio_roundtrip_witness : let h := Snr.Msg (Header MSG_GET_SNR 7 ETHANOL_VERSION 0) (lit "wlan0") (lit "10.0.0.3") 22223 (-60) in
  ∃ n buf, @Snr.encode_msg_snr glibc_alloc h = Ok (Snr.resize h n, buf) ∧ Z.of_nat (length buf) = n ∧
    Snr.decode_msg_snr buf = Ok (Snr.normal (Snr.resize h n)).
Proof. apply (proj1 (@radio_roundtrip glibc_alloc)). reflexivity. Defined.

Lemma session_roundtrip_witness : let h := Hello.Msg (Header MSG_HELLO_TYPE 7 ETHANOL_VERSION 0) 1 22223 0 in
  ∃ n buf, @Hello.encode_msg_hello glibc_alloc h = Ok (Hello.resize h n, buf) ∧ Z.of_nat (length buf) = n ∧
    Hello.decode_msg_hello buf = Ok (Hello.normal (Hello.resize h n)).
Proof. apply (proj1 (@session_roundtrip glibc_alloc)). reflexivity. Defined.

Lemma arrays_roundtrip_witness : let h := Mac.Msg (Header MSG_GET_MAC 7 ETHANOL_VERSION 0) 2
     (Some [Mac.Imac 1 (lit "lo") None; Mac.Imac 3 (lit "wlan0") (lit "00:11:22:33:44:55")]) in
  ∃ n buf, @Mac.encode_msg_mac glibc_alloc h = Ok (Mac.resize h n, buf) ∧ Z.of_nat (length buf) = n ∧
    Mac.decode_msg_mac buf = Ok (Mac.normal (Mac.resize h n)).
Proof. apply (proj1 (@arrays_roundtrip glibc_alloc)). reflexivity. Defined.

Lemma reports_roundtrip_witness : let h := RadioWlans.Msg (Header MSG_GET_RADIO_WLANS 7 ETHANOL_VERSION 0) None 0 1
     (Some [RadioWlans.Wlan (lit "wlan0") (lit "00:11:22:33:44:55") 0]) in
  ∃ n buf, @RadioWlans.encode_msg_radio_wlans glibc_alloc h = Ok (RadioWlans.resize h n, buf) ∧ Z.of_nat (length buf) = n ∧
    RadioWlans.decode_msg_radio_wlans buf = Ok (RadioWlans.normal (RadioWlans.resize h n)).
Proof.
  apply (proj1 (@reports_roundtrip glibc_alloc {| WlanInfo.wlan_junk _ := (0, 0) |})). reflexivity.
Defined.
