(* ===== verification/Ledger.v ===== *)
(** Connection handles: the frame of the [send_] functions returns the context,
    socket and SSL handles it took, whatever fails on the way; [SendLedger] has
    the functions themselves.  And what happens when no reply arrives. *)
From stdpp Require Import prelude list strings.
From S2P Require Import Prelude CMem MsgCommon BufferHandler World Rpc MsgSession.

(** The handles a process holds. *)
Record handles := Handles { h_ctx : Z; h_fd : Z; h_ssl : Z }.

Definition take_ctx (h : handles) (k : Z) : handles := Handles (h_ctx h + k) (h_fd h) (h_ssl h).
Definition take_fd (h : handles) (k : Z) : handles := Handles (h_ctx h) (h_fd h + k) (h_ssl h).
Definition take_ssl (h : handles) (k : Z) : handles := Handles (h_ctx h) (h_fd h) (h_ssl h + k).

(** The documented effect of the library calls on the handles: a constructor
    that succeeds takes one handle, its destructor returns one, the others
    take none; [connect] and [close] do nothing to the descriptor -1, on which
    [connect] fails. *)
Class Ledger (W : Type) `{Net W} := {
  held : W → handles;
  led_ctx_new w b w' : net_ctx_new w = Ok (b, w') →
    held w' = if b then take_ctx (held w) 1 else held w;
  led_gethostbyname h w o w' : net_gethostbyname h w = Ok (o, w') → held w' = held w;
  led_socket w fd w' : net_socket w = Ok (fd, w') →
    held w' = if fd =? FAIL then held w else take_fd (held w) 1;
  led_connect fd a p w b w' : net_connect fd a p w = Ok (b, w') →
    held w' = held w ∧ (fd = FAIL → b = false);
  led_ssl_new w b w' : net_ssl_new w = Ok (b, w') →
    held w' = if b then take_ssl (held w) 1 else held w;
  led_ssl_connect w b w' : net_ssl_connect w = Ok (b, w') → held w' = held w;
  led_ssl_write buf w w' : net_ssl_write buf w = Ok (tt, w') → held w' = held w;
  led_ssl_read w l w' : net_ssl_read w = Ok (l, w') → held w' = held w;
  led_ssl_free w w' : net_ssl_free w = Ok (tt, w') → held w' = take_ssl (held w) (-1);
  led_close fd w w' : net_close fd w = Ok (tt, w') →
    held w' = if fd =? FAIL then held w else take_fd (held w) (-1);
  led_ctx_free w w' : net_ctx_free w = Ok (tt, w') → held w' = take_ctx (held w) (-1)
}.

(** A computation that ends with the handles it started with. *)
Definition neutral {W A} `{Ledger W} (m : ST W A) : Prop :=
  ∀ w a w', m w = Ok (a, w') → held w' = held w.

(** The handles recorded in a connection structure. *)
Definition conn_handles (c : ssl_connection) (h : handles) : handles :=
  Handles (h_ctx h + if c_ctx c then 1 else 0)
    (h_fd h + if c_server c =? FAIL then 0 else 1)
    (h_ssl h + if c_ssl c then 1 else 0).

Section ledger.
Context {W : Type} `{Ledger W}.

Ltac step H := match type of H with
  | match ?m ?w with _ => _ end = Ok _ =>
      let E := fresh "E" in destruct (m w) as [[? ?]|] eqn:E; [|discriminate H]
  end.

Lemma neutral_ret {A} (a : A) : neutral (mret a).
Proof. intros w b w' E. by injection E as <- <-. Qed.

Lemma neutral_lift {A} (r : res A) : neutral (lift r).
Proof. intros w b w' E. unfold lift in E. destruct r; [|done]. by injection E as <- <-. Qed.

Lemma neutral_bind {A B} (m : ST W A) (k : A → ST W B) :
  neutral m → (∀ a, neutral (k a)) → neutral (m ≫= k).
Proof.
  intros Hm Hk w b w' E. unfold mbind, ST_bind in E. step E.
  by rewrite (Hk _ _ _ _ E), (Hm _ _ _ E0).
Qed.

Lemma neutral_write buf : neutral (net_ssl_write buf).
Proof. intros w [] w'. apply led_ssl_write. Qed.

Lemma neutral_read n : neutral (ssl_read n).
Proof. apply neutral_bind; [intros w l w'; apply led_ssl_read|intros; apply neutral_ret]. Qed.

Lemma neutral_exchange {T} `{Message T} (h : T) accept : neutral (exchange h accept).
Proof.
  unfold exchange. apply neutral_bind; [apply neutral_lift|]. intros n.
  apply neutral_bind; [apply neutral_lift|]. intros [_ buf].
  apply neutral_bind; [apply neutral_write|]. intros _.
  apply neutral_bind; [apply neutral_read|]. intros l. apply neutral_lift.
Qed.

Lemma get_ssl_connection_handles host port w err c w' :
  get_ssl_connection host port w = Ok ((err, c), w') → held w' = conn_handles c (held w).
Proof.
  unfold get_ssl_connection, InitCTX, OpenConnection, mbind, ST_bind, mret, ST_ret, lift. intros E.
  step E. apply led_ctx_new in E0. destruct b; simpl in E.
  2: { simplify_eq. rewrite E0. unfold conn_handles. simpl. rewrite !Z.add_0_r. by destruct (held w). }
  destruct (net_gethostbyname host w0) as [[o w1]|] eqn:E1; [|done].
  apply led_gethostbyname in E1. destruct o as [addr|]; simpl in E.
  2: { simplify_eq. rewrite E1, E0. unfold conn_handles, take_ctx. simpl. f_equal; lia. }
  destruct (net_socket w1) as [[fd w1']|] eqn:E2; [|done]. apply led_socket in E2.
  destruct (net_connect fd addr (to_u 16 port) w1') as [[b w2]|] eqn:Ec; [|done].
  apply led_connect in Ec as [Ec Hc]. destruct b; simpl in E.
  2: { destruct (net_close fd w2) as [[[] w3]|] eqn:Ed; [|done]. apply led_close in Ed. cbn in E. simplify_eq.
       rewrite Ed, Ec, E2, E1, E0. unfold conn_handles, take_ctx, take_fd. destruct (fd =? FAIL); simpl; f_equal; lia. }
  assert (fd ≠ FAIL) as Hfd by (intros ->; by specialize (Hc eq_refl)).
  rewrite (proj2 (Z.eqb_neq _ _) Hfd) in E2, E. rewrite <- Ec in E2. clear Ec.
  destruct (net_ssl_new w2) as [[b w3]|] eqn:E3; [|done]. apply led_ssl_new in E3.
  destruct b; simpl in E; [|done].
  destruct (net_ssl_connect w3) as [[b w4]|] eqn:E4; [|done]. apply led_ssl_connect in E4.
  simplify_eq. rewrite E4, E3, E2, E1, E0. unfold conn_handles, take_ctx, take_fd, take_ssl. simpl.
  by rewrite (proj2 (Z.eqb_neq _ _) Hfd).
Qed.

Lemma close_ssl_connection_handles c w w' :
  close_ssl_connection c w = Ok (tt, w') → held w = conn_handles c (held w').
Proof.
  destruct c as [s x fd]. unfold close_ssl_connection, mbind, ST_bind, mret, ST_ret, conn_handles. simpl.
  intros E. step E. assert (held w0 = if s then take_ssl (held w) (-1) else held w) as E1.
  { destruct s; [destruct u; by apply led_ssl_free|by injection E0 as _ <-]. }
  step E. assert (held w1 = if fd =? FAIL then held w0 else take_fd (held w0) (-1)) as E3.
  { destruct (fd =? FAIL) eqn:Ef; simpl in E2; [by injection E2 as _ <-|]. destruct u0. apply led_close in E2. by rewrite Ef in E2. }
  assert (held w' = if x then take_ctx (held w1) (-1) else held w1) as ->.
  { destruct x; [by apply led_ctx_free|by injection E as <-]. }
  rewrite E3, E1. destruct (held w), s, x, (fd =? FAIL); cbn; f_equal; lia.
Qed.
(** The frame of a [send_] function: whether the context could not be created,
    the name not resolved, the connection refused, the handshake failed, or the
    exchange ran. *)
Lemma neutral_frame {A} host port (none : A) body (go : Z → ssl_connection → bool) : neutral body →
  neutral ('(err, c) ← get_ssl_connection host port;
           a ← (if go err c then body else mret none);
           close_ssl_connection c;;
           mret a).
Proof.
  intros Hb w a w' E. unfold mbind, ST_bind, mret, ST_ret in E.
  destruct (get_ssl_connection host port w) as [[[err c] w1]|] eqn:E1; [|done].
  apply get_ssl_connection_handles in E1.
  destruct ((if go err c then body else λ s, Ok (none, s)) w1) as [[b w2]|] eqn:E2; [|done].
  assert (held w2 = held w1) as E3.
  { destruct (go err c); [by eapply Hb|by injection E2 as _ <-]. }
  destruct (close_ssl_connection c w2) as [[[] w3]|] eqn:E4; [|done]. injection E as _ <-.
  apply close_ssl_connection_handles in E4. rewrite E3, E1 in E4.
  destruct (held w), (held w3), c as [s x fd]. unfold conn_handles in E4. simpl in E4.
  injection E4 as ? ? ?. f_equal; lia.
Qed.

Lemma neutral_with_ssl {A} host port (none : A) body : neutral body → neutral (with_ssl host port none body).
Proof. apply (neutral_frame host port none body (λ err c, (err =? 0) && c_ssl c)). Qed.
Lemma neutral_with_ssl_noerr {A} host port (none : A) body : neutral body →
  neutral (with_ssl_noerr host port none body).
Proof. apply (neutral_frame host port none body (λ _ c, c_ssl c)). Qed.

Lemma neutral_fail {A} e : neutral (@fail W A e).
Proof. by intros w a w' E. Qed.

Lemma neutral_exchange_nosize {T} `{Message T} (h : T) accept : neutral (exchange_nosize h accept).
Proof.
  apply neutral_bind; [apply neutral_lift|]. intros [_ buf].
  apply neutral_bind; [apply neutral_write|]. intros _.
  apply neutral_bind; [apply neutral_read|]. intros l. apply neutral_lift.
Qed.
Lemma neutral_notify_sized {T} `{Message T} (h0 h : T) : neutral (notify_sized h0 h).
Proof.
  apply neutral_bind; [apply neutral_lift|]. intros n.
  apply neutral_bind; [apply neutral_lift|]. intros [_ buf]. apply neutral_write.
Qed.
Lemma neutral_notify {T} `{Message T} (h : T) : neutral (notify h).
Proof. apply (neutral_notify_sized h h). Qed.
Lemma neutral_notify_nosize {T} `{Message T} (h : T) : neutral (notify_nosize h).
Proof. apply neutral_bind; [apply neutral_lift|]. intros [_ buf]. apply neutral_write. Qed.
End ledger.

(** ** A process that counts *)

(** A process whose library calls all succeed; the peer never answers. *)
Definition counting_net : Net handles := {|
  net_ctx_new h := Ok (true, take_ctx h 1);
  net_gethostbyname _ h := Ok (Some 0, h);
  net_socket h := Ok (3, take_fd h 1);
  net_connect fd _ _ h := Ok (negb (fd =? FAIL), h);
  net_ssl_new h := Ok (true, take_ssl h 1);
  net_ssl_connect h := Ok (true, h);
  net_ssl_write _ h := Ok (tt, h);
  net_ssl_read h := Ok ([], h);
  net_ssl_free h := Ok (tt, take_ssl h (-1));
  net_close fd h := Ok (tt, if fd =? FAIL then h else take_fd h (-1));
  net_ctx_free h := Ok (tt, take_ctx h (-1))
|}.

Definition counting_ledger : @Ledger handles counting_net.
Proof.
  refine (@Build_Ledger handles counting_net id _ _ _ _ _ _ _ _ _ _ _); intros *; cbn;
    intros; simplify_eq; try done; split; [done|by intros ->].
Defined.

(** The result of [SSL_read] is not checked: when nothing was received (the
    handshake failed, or the peer closed or did not answer) a [send_] function
    that waits for a reply reads its type from bytes that were never
    received. *)
Theorem no_reply_reads_unreceived {W} `{Net W} {T} `{MessageOk T} (h : T) (accept : Z → bool)
    (w w1 w2 : W) :
  msg_wf h = true → net_ssl_write (wire_of h) w = Ok (tt, w1) → net_ssl_read w1 = Ok ([], w2) →
  exchange h accept w = Err ReadOutOfBounds.
Proof.
  intros Hwf Hw Hr. rewrite exchange_wf by done. run Hw.
  assert (ssl_read SSL_BUFFER_SIZE w1 = Ok ([], w2)) as Hs.
  { unfold ssl_read. by run Hr. }
  by run Hs.
Qed.

Lemma no_reply_reads_unreceived_witness :
  let _ := counting_net in let _ := glibc_alloc in
  exchange (W:=handles) (Hello.Msg (Header MSG_HELLO_TYPE 5 ETHANOL_VERSION 0) 1 22223 0)
    (λ t, t =? MSG_HELLO_TYPE) (Handles 1 1 1) = Err ReadOutOfBounds.
Proof.
  intros N A. apply (@no_reply_reads_unreceived handles counting_net Hello.msg_hello _ _
    (Hello.Msg (Header MSG_HELLO_TYPE 5 ETHANOL_VERSION 0) 1 22223 0) (λ t, t =? MSG_HELLO_TYPE)
    (Handles 1 1 1) (Handles 1 1 1) (Handles 1 1 1)); reflexivity.
Defined.
