(* ===== verification/Servlet.v ===== *)
(** The server side: [servlet] of [messaging/ssl-server.c], which reads one
    request, checks its version, dispatches it on its type and writes the
    reply.

    The connection a servlet serves is the [Connection] interface; the junk
    arguments are the indeterminate fields that the handlers may send. *)
From stdpp Require Import prelude list strings.
From S2P Require Import Prelude CMem MsgCommon BufferHandler World Rpc MsgConfig MsgTraffic.
From S2P Require Import MsgRadio MsgSystem MsgAssoc MsgSession MsgLists MsgTos.
From S2P Require Import MsgAp MsgWiphy MsgChannel MsgBitrate MsgStats MsgHost MsgScan.
From S2P Require Import HostapdConf NetStatistics MsgMean Handover.

(** The accepted connection: [SSL_accept != FAIL], the bytes of the request
    record (none when [SSL_read] fails), [SSL_write], [SSL_free], [close]. *)
Class Connection (W : Type) := {
  srv_accept : ST W bool;
  srv_read : ST W (list cell);
  srv_write : list cell → ST W unit;
  srv_free : ST W unit;
  srv_close : ST W unit
}.

(** The [process_] functions called by the [switch]. *)
Inductive handler :=
| H_msg_hello
| H_msg_bye
| H_msg_ping
| H_msg_802_11e_enabled
| H_msg_ap_ctsprotection_enabled
| H_msg_ap_broadcastssid
| H_msg_ap_frameburstenabled
| H_msg_ap_guardinterval
| H_msg_ap_dtiminterval
| H_msg_ap_rtsthreshold
| H_msg_beacon_interval
| H_msg_bytesreceived
| H_msg_bytessent
| H_msg_packetsreceived
| H_msg_packetslost
| H_msg_packetssent
| H_msg_deauthenticate_user
| H_msg_disconnect_user
| H_msg_powersavemode
| H_msg_delay
| H_msg_failed
| H_msg_jitter
| H_msg_fastbsstransition_compatible
| H_msg_frequency
| H_msg_association_process
| H_msg_snr
| H_msg_mac
| H_msg_radio_wlans
| H_msg_channels
| H_msg_intf
| H_msg_radio_linkstatistics
| H_msg_currentchannel
| H_msg_wlan_info
| H_msg_beaconinfo
| H_msg_channelbandwitdh
| H_msg_txpower
| H_msg_snr_threshold
| H_msg_snr_interval
| H_msg_ap_in_range
| H_msg_ipv4_address
| H_msg_ipv6_address
| H_msg_retries
| H_msg_uptime
| H_msg_ap_routes
| H_msg_ap_ssid
| H_msg_memory
| H_msg_cpu
| H_msg_channelinfo
| H_msg_request_beacon
| H_msg_interferencemap
| H_msg_request_begin_association
| H_msg_scan_received
| H_msg_fragmentationthreshold
| H_msg_noiseinfo
| H_msg_vap_create
| H_msg_tx_bitrates
| H_msg_get_tx_bitrate
| H_msg_set_tx_bitrate
| H_msg_sta_link_information
| H_msg_supportedinterface
| H_msg_location
| H_msg_conf_ssid_radio
| H_msg_statistics
| H_msg_acs
| H_msg_sta_statistics
| H_msg_snr_threshold_reached
| H_msg_changed_ap
| H_msg_mean_sta_statistics
| H_msg_station_trigger_transition
| H_msg_tos_cleanall
| H_msg_tos_add
| H_msg_tos_replace
| H_msg_set_mtu
| H_msg_set_txqueuelen.

#[global] Instance handler_eq_dec : EqDecision handler.
Proof. solve_decision. Defined.

(** The [switch] on the message type; [None] is the [default] case. *)
Definition dispatch (msg_type : Enum_msg_type) : option handler :=
  match msg_type with
  | MSG_HELLO_TYPE => Some H_msg_hello
  | MSG_BYE_TYPE => Some H_msg_bye
  | MSG_PING => Some H_msg_ping
  | MSG_GET_802_11E_ENABLED => Some H_msg_802_11e_enabled
  | MSG_GET_AP_CTSPROTECTION_ENABLED => Some H_msg_ap_ctsprotection_enabled
  | MSG_SET_AP_CTSPROTECTION_ENABLED => Some H_msg_ap_ctsprotection_enabled
  | MSG_GET_AP_BROADCASTSSID => Some H_msg_ap_broadcastssid
  | MSG_SET_AP_BROADCASTSSID => Some H_msg_ap_broadcastssid
  | MSG_GET_AP_FRAMEBURSTENABLED => Some H_msg_ap_frameburstenabled
  | MSG_SET_AP_FRAMEBURSTENABLED => Some H_msg_ap_frameburstenabled
  | MSG_GET_AP_GUARDINTERVAL => Some H_msg_ap_guardinterval
  | MSG_SET_AP_GUARDINTERVAL => Some H_msg_ap_guardinterval
  | MSG_GET_AP_DTIMINTERVAL => Some H_msg_ap_dtiminterval
  | MSG_SET_AP_DTIMINTERVAL => Some H_msg_ap_dtiminterval
  | MSG_GET_AP_RTSTHRESHOLD => Some H_msg_ap_rtsthreshold
  | MSG_SET_AP_RTSTHRESHOLD => Some H_msg_ap_rtsthreshold
  | MSG_GET_BEACON_INTERVAL => Some H_msg_beacon_interval
  | MSG_SET_BEACON_INTERVAL => Some H_msg_beacon_interval
  | MSG_GET_BYTESRECEIVED => Some H_msg_bytesreceived
  | MSG_GET_BYTESSENT => Some H_msg_bytessent
  | MSG_GET_PACKETSRECEIVED => Some H_msg_packetsreceived
  | MSG_GET_PACKETSLOST => Some H_msg_packetslost
  | MSG_GET_PACKETSSENT => Some H_msg_packetssent
  | MSG_DEAUTHENTICATE_USER => Some H_msg_deauthenticate_user
  | MSG_DISCONNECT_USER => Some H_msg_disconnect_user
  | MSG_GET_POWERSAVEMODE => Some H_msg_powersavemode
  | MSG_SET_POWERSAVEMODE => Some H_msg_powersavemode
  | MSG_GET_DELAY => Some H_msg_delay
  | MSG_GET_FAILED => Some H_msg_failed
  | MSG_GET_JITTER => Some H_msg_jitter
  | MSG_GET_FASTBSSTRANSITION_COMPATIBLE => Some H_msg_fastbsstransition_compatible
  | MSG_GET_FREQUENCY => Some H_msg_frequency
  | MSG_SET_FREQUENCY => Some H_msg_frequency
  | MSG_ASSOCIATION
  | MSG_DISASSOCIATION
  | MSG_REASSOCIATION
  | MSG_AUTHORIZATION
  | MSG_USER_DISCONNECTING
  | MSG_USER_CONNECTING => Some H_msg_association_process
  | MSG_GET_SNR => Some H_msg_snr
  | MSG_GET_MAC => Some H_msg_mac
  | MSG_GET_RADIO_WLANS => Some H_msg_radio_wlans
  | MSG_GET_VALIDCHANNELS => Some H_msg_channels
  | MSG_GET_ALL_INTF | MSG_GET_ONE_INTF => Some H_msg_intf
  | MSG_GET_RADIO_LINKSTATISTICS => Some H_msg_radio_linkstatistics
  | MSG_GET_CURRENTCHANNEL => Some H_msg_currentchannel
  | MSG_SET_CURRENTCHANNEL => Some H_msg_currentchannel
  | MSG_WLAN_INFO => Some H_msg_wlan_info
  | MSG_INFORM_BEACON => Some H_msg_beaconinfo
  | MSG_GET_CHANNELBANDWITDH => Some H_msg_channelbandwitdh
  | MSG_SET_CHANNELBANDWITDH => Some H_msg_channelbandwitdh
  | MSG_GET_TXPOWER | MSG_SET_TXPOWER => Some H_msg_txpower
  | MSG_SET_SNR_THRESHOLD => Some H_msg_snr_threshold
  | MSG_SET_SNR_INTERVAL => Some H_msg_snr_interval
  | MSG_GET_AP_IN_RANGE_TYPE => Some H_msg_ap_in_range
  | MSG_GET_IPV4_ADDRESS => Some H_msg_ipv4_address
  | MSG_SET_IPV4_ADDRESS => Some H_msg_ipv4_address
  | MSG_GET_IPV6_ADDRESS => Some H_msg_ipv6_address
  | MSG_SET_IPV6_ADDRESS => Some H_msg_ipv6_address
  | MSG_GET_RETRIES => Some H_msg_retries
  | MSG_GET_UPTIME => Some H_msg_uptime
  | MSG_GET_ROUTES => Some H_msg_ap_routes
  | MSG_GET_AP_SSID => Some H_msg_ap_ssid
  | MSG_GET_MEMORY => Some H_msg_memory
  | MSG_GET_CPU => Some H_msg_cpu
  | MSG_GET_CHANNELINFO => Some H_msg_channelinfo
  | MSG_REQUEST_BEACON => Some H_msg_request_beacon
  | MSG_GET_INTERFERENCEMAP => Some H_msg_interferencemap
  | MSG_REQUEST_BEGIN_ASSOCIATION => Some H_msg_request_begin_association
  | MSG_SCAN => Some H_msg_scan_received
  | MSG_GET_FRAGMENTATIONTHRESHOLD => Some H_msg_fragmentationthreshold
  | MSG_GET_NOISEINFO => Some H_msg_noiseinfo
  | MSG_SET_FRAGMENTATIONTHRESHOLD => Some H_msg_fragmentationthreshold
  | MSG_VAP_CREATE => Some H_msg_vap_create
  | MSG_GET_TX_BITRATES => Some H_msg_tx_bitrates
  | MSG_GET_TX_BITRATE => Some H_msg_get_tx_bitrate
  | MSG_SET_TX_BITRATES => Some H_msg_set_tx_bitrate
  | MSG_GET_LINK_INFO => Some H_msg_sta_link_information
  | MSG_GET_SUPPORTEDINTERFACE => Some H_msg_supportedinterface
  | MSG_GET_LOCATION => Some H_msg_location
  | MSG_SET_CONF_SSID_RADIO => Some H_msg_conf_ssid_radio
  | MSG_GET_STATISTICS => Some H_msg_statistics
  | MSG_GET_ACS => Some H_msg_acs
  | MSG_GET_STA_STATISTICS => Some H_msg_sta_statistics
  | MSG_SET_SNR_THRESHOLD_REACHED => Some H_msg_snr_threshold_reached
  | MSG_CHANGED_AP => Some H_msg_changed_ap
  | MSG_MEAN_STA_STATISTICS_GET
  | MSG_MEAN_STA_STATISTICS_SET_INTERFACE
  | MSG_MEAN_STA_STATISTICS_REMOVE_INTERFACE
  | MSG_MEAN_STA_STATISTICS_SET_ALPHA
  | MSG_MEAN_STA_STATISTICS_SET_TIME => Some H_msg_mean_sta_statistics
  | MSG_TRIGGER_TRANSITION => Some H_msg_station_trigger_transition
  | MSG_TOS_CLEANALL => Some H_msg_tos_cleanall
  | MSG_TOS_ADD => Some H_msg_tos_add
  | MSG_TOS_REPLACE => Some H_msg_tos_replace
  | MSG_SET_MTU => Some H_msg_set_mtu
  | MSG_SET_TXQUEUELEN => Some H_msg_set_txqueuelen
  | _ => None
  end.

(** What the handlers run on beside the device: the functions of the host, its
    files, the collected statistics and the variables of a controller. *)
Class Services (W : Type) := {
  services_host :: Host W;
  services_files :: Files W;
  services_net :: NetGlobals W;
  services_controlled :: Controlled W
}.

(** The values that uninitialised structure fields happen to have. *)
Class Junk := {
  junk_snr : Z;
  junk_txpower : Z;
  junk_auto : bool;
  junk_num_tests : Z;
  junk_port : Z;
  junk_frequency : Z;
  junk_channel : Z;
  junk_bitrate : Z;
  junk_bands : Z;
  junk_noise : NoiseInfo.noise_field;
  junk_type : Z;
  junk_wifi : bool;
  junk_values : nat → Z;
  junk_wlan :: WlanInfo.WlanJunk
}.

Section servlet.
Context {W : Type} `{Net W, Device W, Globals W, Events W, Services W}.
Context `{Build, Allocator, Junk}.

Definition run_handler (h : handler) (client_addr : charp) (input : list cell) :
    ST W (option (list cell)) :=
  match h with
  | H_msg_hello => Hello.process_msg_hello client_addr input
  | H_msg_bye => Bye.process_msg_bye client_addr input
  | H_msg_ping => process_msg_ping input
  | H_msg_802_11e_enabled => Wmm80211e.process_msg_802_11e_enabled input
  | H_msg_bytesreceived => BytesReceived.process_msg_bytesreceived input
  | H_msg_bytessent => BytesSent.process_msg_bytessent input
  | H_msg_packetsreceived => PacketsReceived.process_msg_packetsreceived input
  | H_msg_packetslost => PacketsLost.process_msg_packetslost input
  | H_msg_packetssent => PacketsSent.process_msg_packetssent input
  | H_msg_deauthenticate_user => Deauthenticate.process_msg_deauthenticate_user input
  | H_msg_disconnect_user => Disconnect.process_msg_disconnect_user input
  | H_msg_powersavemode => Powersave.process_msg_powersavemode input
  | H_msg_delay => Delay.process_msg_delay input
  | H_msg_failed => Failed.process_msg_failed input
  | H_msg_jitter => Jitter.process_msg_jitter input
  | H_msg_association_process => Association.process_msg_association_process input
  | H_msg_snr => Snr.process_msg_snr junk_snr input
  | H_msg_mac => Mac.process_msg_mac input
  | H_msg_txpower => Txpower.process_msg_txpower junk_txpower junk_auto input
  | H_msg_snr_threshold => SnrThreshold.process_msg_snr_threshold input
  | H_msg_snr_interval => SnrInterval.process_msg_snr_interval input
  | H_msg_retries => Retries.process_msg_retries input
  | H_msg_uptime => Uptime.process_msg_uptime input
  | H_msg_memory => Memory.process_msg_memory input
  | H_msg_cpu => Cpu.process_msg_cpu input
  | H_msg_acs => Acs.process_msg_acs junk_num_tests input
  | H_msg_changed_ap => ChangedAp.process_msg_changed_ap input
  | H_msg_station_trigger_transition => TriggerTransition.process_msg_station_trigger_transition input
  | H_msg_tos_cleanall => TosClean.process_msg_tos_cleanall input
  | H_msg_tos_add => Tos.process_msg_tos_add input
  | H_msg_tos_replace => Tos.process_msg_tos_replace input
  | H_msg_set_mtu => Mtu.process_msg_set_mtu input
  | H_msg_set_txqueuelen => Txqueuelen.process_msg_set_txqueuelen input
  | H_msg_ap_ctsprotection_enabled => CtsProtection.process_msg_ap_ctsprotection_enabled input
  | H_msg_ap_broadcastssid => BroadcastSsid.process_msg_ap_broadcastssid input
  | H_msg_ap_frameburstenabled => FrameBurst.process_msg_ap_frameburstenabled input
  | H_msg_ap_guardinterval => GuardInterval.process_msg_ap_guardinterval input
  | H_msg_ap_dtiminterval => DtimInterval.process_msg_ap_dtiminterval input
  | H_msg_ap_rtsthreshold => RtsThreshold.process_msg_ap_rtsthreshold input
  | H_msg_beacon_interval => BeaconInterval.process_msg_beacon_interval input
  | H_msg_fastbsstransition_compatible => FastBss.process_msg_fastbsstransition_compatible input
  | H_msg_frequency => Frequency.process_msg_frequency junk_port junk_frequency input
  | H_msg_channels => Channels.process_msg_channels input
  | H_msg_currentchannel => CurrentChannel.process_msg_currentchannel junk_channel junk_frequency junk_auto input
  | H_msg_channelbandwitdh => ChannelBandwidth.process_msg_channelbandwitdh input
  | H_msg_channelinfo => ChannelInfo.process_msg_channelinfo input
  | H_msg_interferencemap => InterferenceMap.process_msg_interferencemap input
  | H_msg_request_begin_association => BeginAssociation.process_msg_request_begin_association input
  | H_msg_fragmentationthreshold => Fragmentation.process_msg_fragmentationthreshold input
  | H_msg_noiseinfo => NoiseInfo.process_msg_noiseinfo junk_noise input
  | H_msg_vap_create => VapCreate.process_msg_vap_create input
  | H_msg_tx_bitrates => TxBitrates.process_msg_tx_bitrates junk_bands input
  | H_msg_get_tx_bitrate => TxBitrate.process_msg_get_tx_bitrate junk_bitrate input
  | H_msg_set_tx_bitrate => SetTxBitrates.process_msg_set_tx_bitrate input
  | H_msg_sta_link_information => StaLink.process_msg_sta_link_information input
  | H_msg_supportedinterface => SupportedInterface.process_msg_supportedinterface input
  | H_msg_location => Location.process_msg_location input
  | H_msg_conf_ssid_radio => ConfSsidRadio.process_msg_conf_ssid_radio input
  | H_msg_radio_wlans => RadioWlans.process_msg_radio_wlans input
  | H_msg_intf => Intf.process_msg_intf junk_type junk_wifi input
  | H_msg_radio_linkstatistics => LinkStatistics.process_msg_radio_linkstatistics input
  | H_msg_wlan_info => WlanInfo.process_msg_wlan_info junk_values input
  | H_msg_beaconinfo => BeaconInfo.process_msg_beaconinfo input
  | H_msg_ap_in_range => ApInRange.process_msg_ap_in_range input
  | H_msg_ipv4_address => IpAddress.process_msg_ipv4_address input
  | H_msg_ipv6_address => IpAddress.process_msg_ipv6_address input
  | H_msg_ap_routes => Routes.process_msg_ap_routes input
  | H_msg_ap_ssid => Ssid.process_msg_ap_ssid junk_values input
  | H_msg_request_beacon => RequestBeacon.process_msg_request_beacon input
  | H_msg_scan_received => Scan.process_msg_scan_received input
  | H_msg_statistics => Statistics.process_msg_statistics junk_values input
  | H_msg_sta_statistics => StaStatistics.process_msg_sta_statistics input
  | H_msg_snr_threshold_reached => process_msg_snr_threshold_reached input
  | H_msg_mean_sta_statistics => process_msg_mean_sta_statistics input
  end.

(** [if (strcmp(p_version, ETHANOL_VERSION)) msg_type = MSG_ERR_TYPE]. *)
Definition checked_type (same_version : bool) (hd : msg_header) : Z :=
  if same_version then m_type hd else MSG_ERR_TYPE.

(** From the received bytes to the reply: the header is decoded to find the
    type, which selects the handler. *)
Definition answer (client_addr : charp) (buf : list cell) : ST W (option (list cell)) :=
  hd ← lift (decode_buffer decode_header buf);
  same ← lift (streq (p_version hd) ETHANOL_VERSION);
  let msg_type := checked_type same hd in
  match msg_of_code msg_type ≫= dispatch with
  | Some h => run_handler h client_addr buf
  | None =>
      reply ← lift (return_error_msg_struct msg_type ERROR_UNKNOWN (m_id hd));
      mret (Some reply)
  end.

(** [char buf[2048]]. *)
Definition SERVLET_BUFFER : nat := 2048.

Context `{Connection W}.

(** The request is read, answered and the reply, if any, written. *)
Definition serve_request (client_addr : charp) : ST W unit :=
  request ← srv_read;
  let buf := take SERVLET_BUFFER request in
  match buf with
  | [] => mret tt
  | _ =>
      reply ← answer client_addr buf;
      match reply with Some r => srv_write r | None => mret tt end
  end.

Definition servlet (client_addr : charp) : ST W unit :=
  accepted ← srv_accept;
  (if (accepted : bool) then serve_request client_addr else mret tt);;
  srv_free;;
  srv_close.
End servlet.

(** ** Dispatch *)

Section dispatching.
Context {W : Type} `{Net W, Device W, Globals W, Events W, Services W}.
Context `{Build, Allocator, Junk}.

Lemma decode_header_id buf hd rest : decode_header buf = Ok (hd, rest) → i32_ok (m_id hd) = true.
Proof.
  unfold decode_header, decode_int, mbind, ST_bind, mret, ST_ret. intros E.
  repeat case_match; simplify_eq; simpl. by apply to_s_range.
Qed.

Lemma answer_default addr buf w hd same :
  decode_buffer decode_header buf = Ok hd → streq (p_version hd) ETHANOL_VERSION = Ok same →
  msg_of_code (checked_type same hd) ≫= dispatch = None →
  answer addr buf w = Ok (Some (wire_error ERROR_UNKNOWN (m_id hd)), w) ∧
  decode_buffer decode_error (wire_error ERROR_UNKNOWN (m_id hd)) =
    Ok (Header MSG_ERR_TYPE (m_id hd) ETHANOL_VERSION ERROR_SIZE, error_code ERROR_UNKNOWN).
Proof.
  intros Hd Hs Hn. split.
  - unfold answer. run (lift_Ok _ w _ Hd). run (lift_Ok _ w _ Hs). cbv zeta. rewrite Hn.
    by rewrite error_reply.
  - unfold decode_buffer in Hd. destruct (decode_header buf) as [[hd' rest]|] eqn:E; [|done].
    simplify_eq/=. eapply error_decode, decode_header_id, E.
Qed.

(** A message of a known type built by this program reaches its handler. *)
Lemma answer_routes {T} `{MessageOk T} (h : T) t k addr w :
  msg_wf h = true → m_type (msg_head h) = msg_code t → dispatch t = Some k →
  answer addr (wire_of h) w = run_handler k addr (wire_of h) w.
Proof.
  intros Hwf Ht Hk. destruct (encode_wf h Hwf) as (n & _ & _ & [body ->] & Hn & _).
  pose proof (msg_wf_header h Hwf) as Hh. unfold header_ok in Hh. split_andb.
  unfold answer. rewrite header_decode by (done || in_range).
  rewrite (st_bind_Ok _ _ w _ w eq_refl).
  rewrite (st_bind_Ok _ _ w true w eq_refl). cbv zeta. unfold checked_type.
  cbn [m_type]. by rewrite Ht, msg_of_code_spec; cbn; rewrite Hk.
Qed.
End dispatching.
