(* ===== verification/Agent.v ===== *)
(** A complete agent: everything [servlet] runs on, and sample agents on which
    the theorems are evaluated. *)
From stdpp Require Import prelude list strings gmap.
From S2P Require Import HostapdConf NetStatistics Prelude CMem MsgCommon BufferHandler World Rpc.
From S2P Require Import Linked MsgConfig MsgSession MsgBitrate MsgHost Devices Handover Servlet.

(** What an agent runs on: its device, its global lists, its event callbacks,
    the functions of its host, its build and its stray memory. *)
Class Agent (W : Type) := {
  agent_device :: Device W;
  agent_globals :: Globals W;
  agent_events :: Events W;
  agent_services :: Services W;
  agent_build :: Build;
  agent_junk :: Junk
}.

(** The handlers with the agent's own build and memory. *)
Definition agent_handler {W} `{Agent W, Net W, Allocator} (k : handler) (client_addr : charp)
    (input : list cell) : ST W (option (list cell)) :=
  run_handler k client_addr input.

(** The agent as a peer: what it answers to one record. *)
Definition serve_agent {W} `{Agent W, Net W, Allocator} (client_addr : charp) (buf : list cell) :
    ST W (option (list cell)) :=
  answer client_addr (take SERVLET_BUFFER buf).

(** A message of this program that fits the buffer reaches its handler. *)
Lemma serve_routes {W} `{Agent W, Net W, Allocator} {T} `{MessageOk T} (h : T) t k n addr w :
  msg_wf h = true → m_type (msg_head h) = msg_code t → dispatch t = Some k →
  msg_size h = Ok n → n ≤ 2048 →
  serve_agent addr (wire_of h) w = agent_handler k addr (wire_of h) w.
Proof.
  intros Hwf Ht Hk Hs Hn. unfold serve_agent.
  pose proof (wire_length h n Hwf Hs). rewrite take_ge by (unfold SERVLET_BUFFER; lia).
  by apply answer_routes with (t := t).
Qed.

(** ** A sample agent *)

(** A device whose counters are all [box_count], which records the MTU it is
    given and the commands it runs. *)
Record box := Box {
  box_count : Z;
  box_mtu : list (charp * Z);
  box_commands : list (list Z);
  box_settings : list snr_entry * list snr_entry
}.

Definition box_statistics (b : box) : net_statistics :=
  all_stats (box_count b).
Definition box_netlink (b : box) : netlink_stats :=
  let x := box_count b in NetlinkStats x x x x x x x x x x x.

Definition box_wlan : interface_fields :=
  InterfaceFields 3 (lit "wlan0") (lit "00:11:22:33:44:55") 1 true.

#[local] Instance box_device : Device box := {|
  get_statistics _ b := Ok (box_statistics b, b);
  get_interface_stats _ b := Ok (Some (box_netlink b), b);
  get_snr_ap _ := mret (SpecFloat.S754_zero false);
  get_cpu_info := mret (SpecFloat.S754_zero false);
  get_mem_porcentage := mret (SpecFloat.S754_zero false);
  get_tx_power_iwconfig _ := mret (SpecFloat.S754_zero false);
  ap_set_txpower _ _ _ := mret tt;
  system_set_txpower _ _ := mret tt;
  wapi_get_txpower _ := mret None;
  get_powersave_mode _ := mret false;
  set_powersave_mode _ _ := mret tt;
  is_80211e_enabled _ := mret false;
  set_mtu i x b := Ok (tt, Box (box_count b) ((i, x) :: box_mtu b) (box_commands b) (box_settings b));
  set_txqueuelen _ _ := mret tt;
  read_proc_uptime := mret (None, None);
  roam_change_ap _ _ := mret 0;
  get_all_interfaces := mret (Some [box_wlan]);
  get_interface i := mret (if bool_decide (text i = lit_bytes "wlan0") then Some box_wlan else None);
  get_acs _ _ := mret None;
  which_path _ := mret (lit "/sbin/iptables");
  run_system c b := Ok (tt, Box (box_count b) (box_mtu b) (c :: box_commands b) (box_settings b));
  device_clock := {| gettimeofday := mret (0, 0) |};
  f_get_wiphy := None; f_get_current_frequency := None; f_set_current_frequency := None;
  f_get_current_channel := None; f_set_current_channel := None; f_get_noise := None;
  wapi_get_freq _ := mret None; wapi_set_freq _ _ _ := mret tt; wapi_chan2freq _ _ := mret None;
  get_wlan_frequency _ := mret None; get_sta_link_information _ := mret None;
  get_survey_info _ := mret None; get_channels _ := mret None; get_bitrate _ _ := mret 0;
  return_phy_from_intf_name _ := mret None; get_bitrates _ := mret None;
  set_iw_bitrates _ _ _ := mret tt
|}.

#[local] Instance box_globals : Globals box := {|
  list_threshold b := (box_settings b).1;
  put_threshold l b := Box (box_count b) (box_mtu b) (box_commands b) (l, (box_settings b).2);
  list_snr_interval b := (box_settings b).2;
  put_snr_interval l b := Box (box_count b) (box_mtu b) (box_commands b) ((box_settings b).1, l)
|}.

Definition no_events {W} : Events W := {| p_hello_event := None; p_bye_event := None |}.

(** A host that knows nothing, without files. *)
Definition no_host {W} : Host W := {|
  get_routes := mret None; get_sta_statistics _ := mret []; get_wlan_ssid _ := mret None;
  get_wlan_info _ := mret None; get_list_wlans := mret []; trigger_scann _ := mret tt;
  get_scanning_info _ := mret []; trigger_scan_intf _ := mret tt; return_ap_in_range _ := mret [];
  get_interface_info _ := mret None; get_default_gateway := mret None; find_dns := mret None;
  start_dhcp _ := mret tt; set_ip _ _ := mret tt; add_route _ _ := mret tt;
  f_get_ssid := None; f_get_phy := None; f_get_secondary_ch := None; f_get_mac := None;
  f_get_vht_channel_width := None; f_survey := None
|}.
Definition no_files {W} : Files W := {|
  fread _ := mret None; fopen_w _ := mret false; fwrite _ _ := mret tt
|}.
Definition no_controller : controller := Controller (Devices ∅ None None) 0 DEFAULT_SIGNAL_THRESHOLD 0 0 0.
Definition no_services {W} : Services W := {|
  services_host := no_host; services_files := no_files;
  services_net := {| net_of _ := net_init; put_net _ w := w; start_thread := mret tt |};
  services_controlled := {| controller_of _ := no_controller; put_controller _ w := w |}
|}.
Definition no_junk : Junk :=
  {| junk_snr := 0; junk_txpower := 0; junk_auto := false; junk_num_tests := 0;
     junk_port := 0; junk_frequency := 0; junk_channel := 0; junk_bitrate := 0; junk_bands := 0;
     junk_noise := NoiseInfo.Noise 0 0 0 0 0 0 0;
     junk_type := 0; junk_wifi := false; junk_values _ := 0;
     junk_wlan := {| WlanInfo.wlan_junk _ := (0, 0) |} |}.

Definition box_agent (station : bool) : Agent box := {|
  agent_device := box_device; agent_globals := box_globals;
  agent_events := no_events; agent_services := no_services;
  agent_build := {| process_station := station; handover := false |}; agent_junk := no_junk
|}.

(** A network with nobody on it. *)
Definition no_net {W} : Net W := {|
  net_ctx_new := mret true; net_gethostbyname _ := mret None;
  net_socket := mret FAIL; net_connect _ _ _ := mret false; net_ssl_new := mret true; net_ssl_connect := mret true;
  net_ssl_write _ := mret tt; net_ssl_read := mret []; net_ssl_free := mret tt;
  net_close _ := mret tt; net_ctx_free := mret tt
|}.

(** An access point whose own device is a box and whose peer is a station. *)
Definition linked_globals : Globals (link box box) := {|
  list_threshold s := list_threshold (here s);
  put_threshold l s := Link (put_threshold l (here s)) (peer s) (inbox s);
  list_snr_interval s := list_snr_interval (here s);
  put_snr_interval l s := Link (put_snr_interval l (here s)) (peer s) (inbox s)
|}.

Definition ap_agent : Agent (link box box) := {|
  agent_device := linked_device; agent_globals := linked_globals;
  agent_events := no_events; agent_services := no_services;
  agent_build := {| process_station := false; handover := false |}; agent_junk := no_junk
|}.

Definition fresh_box (count : Z) : box := Box count [] [] ([], []).
