(* ===== verification/SendLedger.v ===== *)
(** Every [send_] function of the messages gives back the handles it takes. *)
From stdpp Require Import prelude list strings.
From S2P Require Import Prelude CMem MsgCommon BufferHandler World Rpc MsgConfig MsgTraffic.
From S2P Require Import MsgRadio MsgSystem MsgAssoc MsgSession MsgLists MsgTos.
From S2P Require Import MsgAp MsgWiphy MsgChannel MsgBitrate MsgStats MsgHost MsgScan.
From S2P Require Import NetStatistics MsgMean Handover Linked Agent Ledger.

(** One case of a body at a time. *)
Ltac returns_handles :=
  intros; repeat first
    [ assumption
    | apply neutral_ret | apply neutral_lift | apply neutral_fail | apply neutral_write | apply neutral_read
    | apply neutral_exchange | apply neutral_exchange_nosize
    | apply neutral_notify | apply neutral_notify_nosize | apply neutral_notify_sized
    | apply neutral_with_ssl | apply neutral_with_ssl_noerr
    | apply neutral_bind; [|intros ?]
    | match goal with
      | |- neutral (if ?b then _ else _) => destruct b
      | |- neutral (match ?x with _ => _ end) => destruct x
      end
    | progress cbv zeta ].

Section senders.
Context {W : Type} `{Ledger W, Device W, Build, Allocator, !WlanInfo.WlanJunk}.
Context (Hclock : neutral gettimeofday).

Lemma neutral_ping_loop host port n ping : neutral (ping_loop host port n ping).
Proof. revert ping. induction n as [|n IH]; intros ping; cbn [ping_loop]; unfold ping_once; returns_handles; apply IH. Qed.

(** C30: every [send_] function gives back the handles it took: when it returns,
    the process holds the contexts, sockets and SSL states it held before,
    whatever its arguments and wherever it failed -- the context, the name, the
    socket, the connection, the handshake or the exchange.  These are the
    functions of all the messages but six, which read fields that they never
    assign; reading the clock takes no handle. *)
Theorem send_functions_return_handles :
  (∀ a b c d e f g, neutral (Mtu.send_msg_set_mtu a b c d e f g)) ∧
  (∀ a b c d e f g, neutral (Txqueuelen.send_msg_set_txqueuelen a b c d e f g)) ∧
  (∀ a b c d e f g, neutral (SnrThreshold.send_msg_set_snr_threshold a b c d e f g)) ∧
  (∀ a b c d e f g, neutral (SnrInterval.send_msg_set_snr_interval a b c d e f g)) ∧
  (∀ a b c d e f, neutral (BytesReceived.send_msg_bytesreceived a b c d e f)) ∧
  (∀ a b c d e f, neutral (BytesSent.send_msg_bytessent a b c d e f)) ∧
  (∀ a b c d e f, neutral (PacketsReceived.send_msg_get_packetsreceived a b c d e f)) ∧
  (∀ a b c d e f, neutral (PacketsSent.send_msg_get_packetssent a b c d e f)) ∧
  (∀ a b c d e f, neutral (PacketsLost.send_msg_get_packetslost a b c d e f)) ∧
  (∀ a b c d e f g, neutral (Snr.send_msg_snr a b c d e f g)) ∧
  (∀ a b c d e f g h, neutral (Txpower.send_msg_set_txpower a b c d e f g h)) ∧
  (∀ a b c d e f g h, neutral (Txpower.send_msg_get_txpower a b c d e f g h)) ∧
  (∀ a b c d e f, neutral (Powersave.send_msg_get_powersavemode a b c d e f)) ∧
  (∀ a b c d e f g, neutral (Powersave.send_msg_set_powersavemode a b c d e f g)) ∧
  (∀ a b c d e f, neutral (Wmm80211e.send_msg_802_11e_enabled a b c d e f)) ∧
  (∀ a b c d e, neutral (Cpu.send_msg_get_cpu a b c d e)) ∧
  (∀ a b c d e, neutral (Memory.send_msg_get_memory a b c d e)) ∧
  (∀ a b c, neutral (Uptime.send_msg_uptime a b c)) ∧
  (∀ a b c d e, neutral (Retries.send_msg_retries a b c d e)) ∧
  (∀ a b c d, neutral (Failed.send_msg_failed a b c d)) ∧
  (∀ a b c d, neutral (Jitter.send_msg_jitter a b c d)) ∧
  (∀ a b c d e f g h i, neutral (Delay.send_msg_delay a b c d e f g h i)) ∧
  (∀ a b c d e f g, neutral (Association.send_msg_association_process a b c d e f g)) ∧
  (∀ a b c d, neutral (Disconnect.send_msg_disconnect_user a b c d)) ∧
  (∀ a b c d e, neutral (Deauthenticate.send_msg_deauthenticate_user a b c d e)) ∧
  (∀ a b c d e f, neutral (ChangedAp.send_msg_changed_ap a b c d e f)) ∧
  (∀ a b c d e f g h, neutral (TriggerTransition.send_msg_station_trigger_transition a b c d e f g h)) ∧
  (∀ a b c d, neutral (Hello.send_msg_hello a b c d)) ∧
  (∀ a b c d, neutral (Bye.send_msg_bye a b c d)) ∧
  (∀ a b c d e, neutral (send_msg_ping a b c d e)) ∧
  (∀ a b c d, neutral (Mac.send_msg_get_mac a b c d)) ∧
  (∀ a b c d e f g, neutral (Acs.send_msg_get_acs a b c d e f g)) ∧
  (∀ a b c, neutral (TosClean.send_msg_tos_cleanall a b c)) ∧
  (∀ a b c d e f g h i j k l, neutral (Tos.sent_tos a b c d e f g h i j k l)) ∧
  (∀ a b c d e f g h i j, neutral (Tos.send_msg_tos_add a b c d e f g h i j)) ∧
  (∀ a b c d e f g h i j k, neutral (Tos.send_msg_tos_replace a b c d e f g h i j k)) ∧
  (∀ a b c d, neutral (BroadcastSsid.send_msg_get_ap_broadcastssid a b c d)) ∧
  (∀ a b c d e, neutral (BroadcastSsid.send_msg_set_ap_broadcastssid a b c d e)) ∧
  (∀ a b c d, neutral (CtsProtection.send_msg_ap_ctsprotection_enabled a b c d)) ∧
  (∀ a b c d e, neutral (CtsProtection.send_msg_ap_set_ctsprotection_enabled a b c d e)) ∧
  (∀ a b c d, neutral (FrameBurst.send_msg_ap_get_frameburstenabled a b c d)) ∧
  (∀ a b c d e, neutral (FrameBurst.send_msg_ap_set_frameburstenabled a b c d e)) ∧
  (∀ a b c d, neutral (DtimInterval.send_msg_get_ap_dtiminterval a b c d)) ∧
  (∀ a b c d e, neutral (DtimInterval.send_msg_set_ap_dtiminterval a b c d e)) ∧
  (∀ a b c d, neutral (GuardInterval.send_msg_get_ap_guardinterval a b c d)) ∧
  (∀ a b c d e, neutral (GuardInterval.send_msg_set_ap_guardinterval a b c d e)) ∧
  (∀ a b c d e, neutral (RtsThreshold.send_msg_ap_set_rtsthreshold a b c d e)) ∧
  (∀ a b c d, neutral (BeaconInterval.send_msg_get_beacon_interval a b c d)) ∧
  (∀ a b c d e f, neutral (ChannelBandwidth.send_msg_get_channelbandwitdh a b c d e f)) ∧
  (∀ a b c d e f, neutral (ChannelBandwidth.send_msg_set_channelbandwitdh a b c d e f)) ∧
  (∀ a b c d e, neutral (Fragmentation.send_msg_ap_get_fragmentationthreshold a b c d e)) ∧
  (∀ a b c d e, neutral (Fragmentation.send_msg_ap_set_fragmentationthreshold a b c d e)) ∧
  (∀ a b c d e, neutral (SupportedInterface.send_msg_supportedinterface a b c d e)) ∧
  (∀ a b c d, neutral (ConfSsidRadio.send_msg_conf_ssid_radio a b c d)) ∧
  (∀ a b c d e, neutral (Location.send_msg_location a b c d e)) ∧
  (∀ a b c d e, neutral (BeginAssociation.send_msg_request_begin_association a b c d e)) ∧
  (∀ a b c d e f, neutral (FastBss.send_msg_fastbsstransition_compatible a b c d e f)) ∧
  (∀ a b c d e f g h, neutral (Frequency.send_msg_get_frequency a b c d e f g h)) ∧
  (∀ a b c d e f g h, neutral (CurrentChannel.send_msg_set_currentchannel a b c d e f g h)) ∧
  (∀ a b c d e f g h i, neutral (CurrentChannel.send_msg_get_currentchannel a b c d e f g h i)) ∧
  (∀ a b c d e f, neutral (StaLink.get_msg_sta_link_information a b c d e f)) ∧
  (∀ a b c d, neutral (Channels.send_msg_get_valid_channels a b c d)) ∧
  (∀ a b c d e, neutral (ChannelInfo.send_msg_channelinfo a b c d e)) ∧
  (∀ a b c d e f g h, neutral (InterferenceMap.send_msg_interferencemap a b c d e f g h)) ∧
  (∀ a b c d e f g h, neutral (TxBitrate.get_msg_tx_bitrate a b c d e f g h)) ∧
  (∀ a b c d e f g, neutral (SetTxBitrates.set_msg_tx_bitrates a b c d e f g)) ∧
  (∀ a b c d e f g, neutral (NoiseInfo.send_msg_get_noiseinfo a b c d e f g)) ∧
  (∀ a b c d e, neutral (RadioWlans.send_msg_radio_wlans a b c d e)) ∧
  (∀ a b c d e, neutral (Routes.send_msg_ap_get_routes a b c d e)) ∧
  (∀ a b c d e, neutral (Intf.send_msg_get_interfaces a b c d e)) ∧
  (∀ a b c d e f g h, neutral (Intf.send_msg_get_one_intf a b c d e f g h)) ∧
  (∀ a b c d e f g, neutral (Statistics.send_msg_get_statistics a b c d e f g)) ∧
  (∀ a b c d e f, neutral (StaStatistics.send_msg_get_sta_statistics a b c d e f)) ∧
  (∀ a b c d e, neutral (LinkStatistics.send_msg_radio_linkstatistics a b c d e)) ∧
  (∀ a b c d e f g, neutral (Ssid.send_msg_ap_get_ssid a b c d e f g)) ∧
  (∀ a b c d e f g, neutral (IpAddress.send_msg_get_ip_address a b c d e f g)) ∧
  (∀ a b c d e f, neutral (IpAddress.send_msg_get_ipv4_address a b c d e f)) ∧
  (∀ a b c d e f, neutral (IpAddress.send_msg_get_ipv6_address a b c d e f)) ∧
  (∀ a b c d e f g, neutral (IpAddress.send_msg_set_ip_address a b c d e f g)) ∧
  (∀ a b c d e f, neutral (IpAddress.send_msg_set_ipv4_address a b c d e f)) ∧
  (∀ a b c d e f, neutral (IpAddress.send_msg_set_ipv6_address a b c d e f)) ∧
  (∀ a b c d e f g, neutral (WlanInfo.send_msg_get_wlan_info a b c d e f g)) ∧
  (∀ a b c d e f, neutral (ApInRange.send_msg_get_ap_in_range a b c d e f)) ∧
  (∀ a b c d e f, neutral (Scan.send_msg_get_scan a b c d e f)) ∧
  (∀ a b c d, neutral (BeaconInfo.send_msg_beaconinfo a b c d)) ∧
  (∀ a b c d, neutral (RequestBeacon.send_msg_request_beacon a b c d)) ∧
  (∀ a b c d e f g, neutral (MeanIntf.send_msg_mean_sta_statistics_interface a b c d e f g)) ∧
  (∀ a b c d e f, neutral (MeanIntf.send_msg_mean_sta_statistics_interface_add a b c d e f)) ∧
  (∀ a b c d e f, neutral (MeanIntf.send_msg_mean_sta_statistics_interface_remove a b c d e f)) ∧
  (∀ a b c d e f, neutral (MeanAlpha.send_msg_mean_sta_statistics_alpha a b c d e f)) ∧
  (∀ a b c d e f, neutral (MeanTime.send_msg_mean_sta_statistics_time a b c d e f)) ∧
  (∀ a b c d e f g h i, neutral (SnrReached.send_msg_snr_threshold_reached a b c d e f g h i)).
Proof.
  split_and!; intros; cbv beta delta [
    Mtu.send_msg_set_mtu
    Txqueuelen.send_msg_set_txqueuelen
    SnrThreshold.send_msg_set_snr_threshold
    SnrInterval.send_msg_set_snr_interval
    BytesReceived.send_msg_bytesreceived
    BytesSent.send_msg_bytessent
    PacketsReceived.send_msg_get_packetsreceived
    PacketsSent.send_msg_get_packetssent
    PacketsLost.send_msg_get_packetslost
    Snr.send_msg_snr
    Txpower.send_msg_set_txpower
    Txpower.send_msg_get_txpower
    Powersave.send_msg_get_powersavemode
    Powersave.send_msg_set_powersavemode
    Wmm80211e.send_msg_802_11e_enabled
    Cpu.send_msg_get_cpu
    Memory.send_msg_get_memory
    Uptime.send_msg_uptime
    Retries.send_msg_retries
    Failed.send_msg_failed
    Jitter.send_msg_jitter
    Delay.send_msg_delay
    Association.send_msg_association_process
    Disconnect.send_msg_disconnect_user
    Deauthenticate.send_msg_deauthenticate_user
    ChangedAp.send_msg_changed_ap
    TriggerTransition.send_msg_station_trigger_transition
    Hello.send_msg_hello
    Bye.send_msg_bye
    send_msg_ping
    Mac.send_msg_get_mac
    Acs.send_msg_get_acs
    TosClean.send_msg_tos_cleanall
    Tos.sent_tos
    Tos.send_msg_tos_add
    Tos.send_msg_tos_replace
    BroadcastSsid.send_msg_get_ap_broadcastssid
    BroadcastSsid.send_msg_set_ap_broadcastssid
    CtsProtection.send_msg_ap_ctsprotection_enabled
    CtsProtection.send_msg_ap_set_ctsprotection_enabled
    FrameBurst.send_msg_ap_get_frameburstenabled
    FrameBurst.send_msg_ap_set_frameburstenabled
    DtimInterval.send_msg_get_ap_dtiminterval
    DtimInterval.send_msg_set_ap_dtiminterval
    GuardInterval.send_msg_get_ap_guardinterval
    GuardInterval.send_msg_set_ap_guardinterval
    RtsThreshold.send_msg_ap_set_rtsthreshold
    BeaconInterval.send_msg_get_beacon_interval
    ChannelBandwidth.send_msg_get_channelbandwitdh
    ChannelBandwidth.send_msg_set_channelbandwitdh
    Fragmentation.send_msg_ap_get_fragmentationthreshold
    Fragmentation.send_msg_ap_set_fragmentationthreshold
    SupportedInterface.send_msg_supportedinterface
    ConfSsidRadio.send_msg_conf_ssid_radio
    Location.send_msg_location
    BeginAssociation.send_msg_request_begin_association
    FastBss.send_msg_fastbsstransition_compatible
    Frequency.send_msg_get_frequency
    CurrentChannel.send_msg_set_currentchannel
    CurrentChannel.send_msg_get_currentchannel
    StaLink.get_msg_sta_link_information
    Channels.send_msg_get_valid_channels
    ChannelInfo.send_msg_channelinfo
    InterferenceMap.send_msg_interferencemap
    TxBitrate.get_msg_tx_bitrate
    SetTxBitrates.set_msg_tx_bitrates
    NoiseInfo.send_msg_get_noiseinfo
    RadioWlans.send_msg_radio_wlans
    Routes.send_msg_ap_get_routes
    Intf.send_msg_get_interfaces
    Intf.send_msg_get_one_intf
    Statistics.send_msg_get_statistics
    StaStatistics.send_msg_get_sta_statistics
    LinkStatistics.send_msg_radio_linkstatistics
    Ssid.send_msg_ap_get_ssid
    IpAddress.send_msg_get_ip_address
    IpAddress.send_msg_get_ipv4_address
    IpAddress.send_msg_get_ipv6_address
    IpAddress.send_msg_set_ip_address
    IpAddress.send_msg_set_ipv4_address
    IpAddress.send_msg_set_ipv6_address
    WlanInfo.send_msg_get_wlan_info
    ApInRange.send_msg_get_ap_in_range
    Scan.send_msg_get_scan
    BeaconInfo.send_msg_beaconinfo
    RequestBeacon.send_msg_request_beacon
    MeanIntf.send_msg_mean_sta_statistics_interface
    MeanIntf.send_msg_mean_sta_statistics_interface_add
    MeanIntf.send_msg_mean_sta_statistics_interface_remove
    MeanAlpha.send_msg_mean_sta_statistics_alpha
    MeanTime.send_msg_mean_sta_statistics_time
    SnrReached.send_msg_snr_threshold_reached]; returns_handles; apply neutral_ping_loop.
Qed.
End senders.

(** ** A sample process *)

(** The counting process of [Ledger] beside a device. *)
Abbreviation process := (link box handles).
Definition process_net : Net process :=
  let _ := counting_net in {|
  net_ctx_new := on_peer net_ctx_new; net_gethostbyname h := on_peer (net_gethostbyname h);
  net_socket := on_peer net_socket; net_connect fd a p := on_peer (net_connect fd a p);
  net_ssl_new := on_peer net_ssl_new; net_ssl_connect := on_peer net_ssl_connect;
  net_ssl_write b := on_peer (net_ssl_write b); net_ssl_read := on_peer net_ssl_read;
  net_ssl_free := on_peer net_ssl_free; net_close fd := on_peer (net_close fd);
  net_ctx_free := on_peer net_ctx_free
|}.

Definition process_ledger : @Ledger process process_net.
Proof.
  refine (@Build_Ledger process process_net peer _ _ _ _ _ _ _ _ _ _ _); intros *; cbn;
    intros; simplify_eq; cbn; try done; split; [done|by intros ->].
Defined.

Lemma send_functions_return_handles_witness :
  let _ := process_net in let _ := glibc_alloc in
  let w := Link (fresh_box 0) (Handles 0 5 0) [] in
  ∃ id' w', Bye.send_msg_bye (W:=process) (lit "10.0.0.1") 22222 7 22223 w = Ok (id', w') ∧ peer w' = peer w.
Proof.
  intros N A w.
  pose proof (@send_functions_return_handles process N process_ledger (@linked_device box handles box_device)
    {| process_station := false; handover := false |} A {| WlanInfo.wlan_junk _ := (0, 0) |}) as T.
  specialize (T ltac:(intros ? ? ?; cbn; by intros [= _ <-])).
  assert (∀ a b c d, @neutral process Z N process_ledger (Bye.send_msg_bye a b c d)) as Hb.
  { repeat match type of T with _ ∧ _ => destruct T as [? T] end. assumption. }
  destruct (Bye.send_msg_bye (lit "10.0.0.1") 22222 7 22223 w) as [[id' w']|e] eqn:E; [|vm_compute in E; discriminate].
  exists id', w'. split; [reflexivity|]. exact (Hb _ _ _ _ w id' w' E).
Defined.
