(* ===== verification/Routing.v ===== *)
(** The requests the servlet serves: for every message type with a case in the
    [switch], the [process_] function that the header of the message announces
    ([messaging/msg_*.h]), called on the bytes that were received. *)
From stdpp Require Import prelude list strings.
From S2P Require Import Prelude CMem MsgCommon BufferHandler World Rpc MsgConfig MsgTraffic.
From S2P Require Import MsgRadio MsgSystem MsgAssoc MsgSession MsgLists MsgTos.
From S2P Require Import MsgAp MsgWiphy MsgChannel MsgBitrate MsgStats MsgHost MsgScan.
From S2P Require Import HostapdConf NetStatistics MsgMean Handover Servlet Agent.

Section routes.
Context {W : Type} `{Net W, Device W, Globals W, Events W, Services W}.
Context `{Build, Allocator, Junk, Connection W}.

(** On an accepted connection from which a message of type [t] is read,
    [servlet] runs [process] on its bytes, writes what it returns, if anything,
    and closes the connection. *)
Definition serves {T} `{Message T} (t : Enum_msg_type)
    (process : charp → list cell → ST W (option (list cell))) : Prop :=
  ∀ (h : T) n addr w w1 w2,
  msg_wf h = true → m_type (msg_head h) = msg_code t → msg_size h = Ok n → n ≤ 2048 →
  srv_accept w = Ok (true, w1) → srv_read w1 = Ok (wire_of h, w2) →
  servlet addr w =
    (reply ← process addr (wire_of h);
     match reply with Some r => srv_write r | None => mret tt end;;
     srv_free;;
     srv_close) w2.

Lemma serves_route {T} `{MessageOk T} t k (process : charp → list cell → ST W (option (list cell))) :
  dispatch t = Some k → (∀ addr buf, run_handler k addr buf = process addr buf) →
  serves (T:=T) t process.
Proof.
  intros Hk Hp h n addr w w1 w2 Hwf Ht Hs Hn Ha Hr.
  pose proof (wire_length h n Hwf Hs) as Hl. unfold servlet. run Ha. cbv iota. unfold serve_request, mbind, ST_bind. rewrite Hr.
  rewrite take_ge by (unfold SERVLET_BUFFER; lia). destruct (encode_wf h Hwf) as (k' & _ & _ & [body Eb] & _).
  destruct (wire_of h) as [|c l] eqn:Ew; [by apply (f_equal length) in Eb; rewrite length_app in Eb; simpl in Eb|].
  rewrite <- Ew. rewrite (answer_routes h t k addr w2 Hwf Ht Hk), Hp.
  by destruct (process addr (wire_of h) w2) as [[[r|] w3]|].
Qed.

(** C6: every request with a case in the [switch] of [servlet] reaches the
    [process_] function of its message: for each of the types below, on an
    accepted connection, a well-formed message of the structure that belongs to
    the type and that fits the buffer of 2048 bytes is handed to that function
    as it was received; the reply, if there is one, is written, and the
    connection is released and closed.  (Two cases are left out: the request of
    a beacon, which has no structure of its own, and that of noise, whose
    encoder overruns its block.) *)
Theorem servlet_routes :
  serves (T:=Hello.msg_hello) MSG_HELLO_TYPE (λ addr, Hello.process_msg_hello addr) ∧
  serves (T:=Bye.msg_bye) MSG_BYE_TYPE (λ addr, Bye.process_msg_bye addr) ∧
  serves (T:=Ping.msg_ping) MSG_PING (λ _, process_msg_ping) ∧
  serves (T:=Wmm80211e.msg_802_11e_enabled) MSG_GET_802_11E_ENABLED (λ _, Wmm80211e.process_msg_802_11e_enabled) ∧
  serves (T:=CtsProtection.msg_ap_ctsprotection_enabled) MSG_GET_AP_CTSPROTECTION_ENABLED (λ _, CtsProtection.process_msg_ap_ctsprotection_enabled) ∧
  serves (T:=CtsProtection.msg_ap_ctsprotection_enabled) MSG_SET_AP_CTSPROTECTION_ENABLED (λ _, CtsProtection.process_msg_ap_ctsprotection_enabled) ∧
  serves (T:=BroadcastSsid.msg_ap_broadcastssid) MSG_GET_AP_BROADCASTSSID (λ _, BroadcastSsid.process_msg_ap_broadcastssid) ∧
  serves (T:=BroadcastSsid.msg_ap_broadcastssid) MSG_SET_AP_BROADCASTSSID (λ _, BroadcastSsid.process_msg_ap_broadcastssid) ∧
  serves (T:=FrameBurst.msg_ap_frameburstenabled) MSG_GET_AP_FRAMEBURSTENABLED (λ _, FrameBurst.process_msg_ap_frameburstenabled) ∧
  serves (T:=FrameBurst.msg_ap_frameburstenabled) MSG_SET_AP_FRAMEBURSTENABLED (λ _, FrameBurst.process_msg_ap_frameburstenabled) ∧
  serves (T:=GuardInterval.msg_ap_guardinterval) MSG_GET_AP_GUARDINTERVAL (λ _, GuardInterval.process_msg_ap_guardinterval) ∧
  serves (T:=GuardInterval.msg_ap_guardinterval) MSG_SET_AP_GUARDINTERVAL (λ _, GuardInterval.process_msg_ap_guardinterval) ∧
  serves (T:=DtimInterval.msg_ap_dtiminterval) MSG_GET_AP_DTIMINTERVAL (λ _, DtimInterval.process_msg_ap_dtiminterval) ∧
  serves (T:=DtimInterval.msg_ap_dtiminterval) MSG_SET_AP_DTIMINTERVAL (λ _, DtimInterval.process_msg_ap_dtiminterval) ∧
  serves (T:=RtsThreshold.msg_ap_rtsthreshold) MSG_GET_AP_RTSTHRESHOLD (λ _, RtsThreshold.process_msg_ap_rtsthreshold) ∧
  serves (T:=RtsThreshold.msg_ap_rtsthreshold) MSG_SET_AP_RTSTHRESHOLD (λ _, RtsThreshold.process_msg_ap_rtsthreshold) ∧
  serves (T:=BeaconInterval.msg_beacon_interval) MSG_GET_BEACON_INTERVAL (λ _, BeaconInterval.process_msg_beacon_interval) ∧
  serves (T:=BeaconInterval.msg_beacon_interval) MSG_SET_BEACON_INTERVAL (λ _, BeaconInterval.process_msg_beacon_interval) ∧
  serves (T:=BytesReceived.msg_bytesreceived) MSG_GET_BYTESRECEIVED (λ _, BytesReceived.process_msg_bytesreceived) ∧
  serves (T:=BytesSent.msg_bytessent) MSG_GET_BYTESSENT (λ _, BytesSent.process_msg_bytessent) ∧
  serves (T:=PacketsReceived.msg_packetsreceived) MSG_GET_PACKETSRECEIVED (λ _, PacketsReceived.process_msg_packetsreceived) ∧
  serves (T:=PacketsLost.msg_packetslost) MSG_GET_PACKETSLOST (λ _, PacketsLost.process_msg_packetslost) ∧
  serves (T:=PacketsSent.msg_packetssent) MSG_GET_PACKETSSENT (λ _, PacketsSent.process_msg_packetssent) ∧
  serves (T:=Deauthenticate.msg_deauthenticate_user) MSG_DEAUTHENTICATE_USER (λ _, Deauthenticate.process_msg_deauthenticate_user) ∧
  serves (T:=Disconnect.msg_disconnect_user) MSG_DISCONNECT_USER (λ _, Disconnect.process_msg_disconnect_user) ∧
  serves (T:=Powersave.msg_powersavemode) MSG_GET_POWERSAVEMODE (λ _, Powersave.process_msg_powersavemode) ∧
  serves (T:=Powersave.msg_powersavemode) MSG_SET_POWERSAVEMODE (λ _, Powersave.process_msg_powersavemode) ∧
  serves (T:=Delay.msg_delay) MSG_GET_DELAY (λ _, Delay.process_msg_delay) ∧
  serves (T:=Failed.msg_failed) MSG_GET_FAILED (λ _, Failed.process_msg_failed) ∧
  serves (T:=Jitter.msg_jitter) MSG_GET_JITTER (λ _, Jitter.process_msg_jitter) ∧
  serves (T:=FastBss.msg_fastbsstransition_compatible) MSG_GET_FASTBSSTRANSITION_COMPATIBLE (λ _, FastBss.process_msg_fastbsstransition_compatible) ∧
  serves (T:=Frequency.msg_frequency) MSG_GET_FREQUENCY (λ _, Frequency.process_msg_frequency junk_port junk_frequency) ∧
  serves (T:=Frequency.msg_frequency) MSG_SET_FREQUENCY (λ _, Frequency.process_msg_frequency junk_port junk_frequency) ∧
  serves (T:=Association.msg_association_process) MSG_ASSOCIATION (λ _, Association.process_msg_association_process) ∧
  serves (T:=Association.msg_association_process) MSG_DISASSOCIATION (λ _, Association.process_msg_association_process) ∧
  serves (T:=Association.msg_association_process) MSG_REASSOCIATION (λ _, Association.process_msg_association_process) ∧
  serves (T:=Association.msg_association_process) MSG_AUTHORIZATION (λ _, Association.process_msg_association_process) ∧
  serves (T:=Association.msg_association_process) MSG_USER_DISCONNECTING (λ _, Association.process_msg_association_process) ∧
  serves (T:=Association.msg_association_process) MSG_USER_CONNECTING (λ _, Association.process_msg_association_process) ∧
  serves (T:=Snr.msg_snr) MSG_GET_SNR (λ _, Snr.process_msg_snr junk_snr) ∧
  serves (T:=Mac.msg_mac) MSG_GET_MAC (λ _, Mac.process_msg_mac) ∧
  serves (T:=RadioWlans.msg_radio_wlans) MSG_GET_RADIO_WLANS (λ _, RadioWlans.process_msg_radio_wlans) ∧
  serves (T:=Channels.msg_channels) MSG_GET_VALIDCHANNELS (λ _, Channels.process_msg_channels) ∧
  serves (T:=Intf.msg_intf) MSG_GET_ALL_INTF (λ _, Intf.process_msg_intf junk_type junk_wifi) ∧
  serves (T:=Intf.msg_intf) MSG_GET_ONE_INTF (λ _, Intf.process_msg_intf junk_type junk_wifi) ∧
  serves (T:=LinkStatistics.msg_radio_linkstatistics) MSG_GET_RADIO_LINKSTATISTICS (λ _, LinkStatistics.process_msg_radio_linkstatistics) ∧
  serves (T:=CurrentChannel.msg_currentchannel) MSG_GET_CURRENTCHANNEL (λ _, CurrentChannel.process_msg_currentchannel junk_channel junk_frequency junk_auto) ∧
  serves (T:=CurrentChannel.msg_currentchannel) MSG_SET_CURRENTCHANNEL (λ _, CurrentChannel.process_msg_currentchannel junk_channel junk_frequency junk_auto) ∧
  serves (T:=WlanInfo.msg_wlan_info) MSG_WLAN_INFO (λ _, WlanInfo.process_msg_wlan_info junk_values) ∧
  serves (T:=BeaconInfo.msg_beaconinfo) MSG_INFORM_BEACON (λ _, BeaconInfo.process_msg_beaconinfo) ∧
  serves (T:=ChannelBandwidth.msg_channelbandwitdh) MSG_GET_CHANNELBANDWITDH (λ _, ChannelBandwidth.process_msg_channelbandwitdh) ∧
  serves (T:=ChannelBandwidth.msg_channelbandwitdh) MSG_SET_CHANNELBANDWITDH (λ _, ChannelBandwidth.process_msg_channelbandwitdh) ∧
  serves (T:=Txpower.msg_txpower) MSG_GET_TXPOWER (λ _, Txpower.process_msg_txpower junk_txpower junk_auto) ∧
  serves (T:=Txpower.msg_txpower) MSG_SET_TXPOWER (λ _, Txpower.process_msg_txpower junk_txpower junk_auto) ∧
  serves (T:=SnrThreshold.msg_snr_threshold) MSG_SET_SNR_THRESHOLD (λ _, SnrThreshold.process_msg_snr_threshold) ∧
  serves (T:=SnrInterval.msg_snr_interval) MSG_SET_SNR_INTERVAL (λ _, SnrInterval.process_msg_snr_interval) ∧
  serves (T:=ApInRange.msg_ap_in_range) MSG_GET_AP_IN_RANGE_TYPE (λ _, ApInRange.process_msg_ap_in_range) ∧
  serves (T:=IpAddress.msg_ip_address) MSG_GET_IPV4_ADDRESS (λ _, IpAddress.process_msg_ipv4_address) ∧
  serves (T:=IpAddress.msg_ip_address) MSG_SET_IPV4_ADDRESS (λ _, IpAddress.process_msg_ipv4_address) ∧
  serves (T:=IpAddress.msg_ip_address) MSG_GET_IPV6_ADDRESS (λ _, IpAddress.process_msg_ipv6_address) ∧
  serves (T:=IpAddress.msg_ip_address) MSG_SET_IPV6_ADDRESS (λ _, IpAddress.process_msg_ipv6_address) ∧
  serves (T:=Retries.msg_retries) MSG_GET_RETRIES (λ _, Retries.process_msg_retries) ∧
  serves (T:=Uptime.msg_uptime) MSG_GET_UPTIME (λ _, Uptime.process_msg_uptime) ∧
  serves (T:=Routes.msg_ap_routes) MSG_GET_ROUTES (λ _, Routes.process_msg_ap_routes) ∧
  serves (T:=Ssid.msg_ap_ssid) MSG_GET_AP_SSID (λ _, Ssid.process_msg_ap_ssid junk_values) ∧
  serves (T:=Memory.msg_memory) MSG_GET_MEMORY (λ _, Memory.process_msg_memory) ∧
  serves (T:=Cpu.msg_cpu) MSG_GET_CPU (λ _, Cpu.process_msg_cpu) ∧
  serves (T:=ChannelInfo.msg_channelinfo) MSG_GET_CHANNELINFO (λ _, ChannelInfo.process_msg_channelinfo) ∧
  serves (T:=InterferenceMap.msg_interferencemap) MSG_GET_INTERFERENCEMAP (λ _, InterferenceMap.process_msg_interferencemap) ∧
  serves (T:=BeginAssociation.msg_request_begin_association) MSG_REQUEST_BEGIN_ASSOCIATION (λ _, BeginAssociation.process_msg_request_begin_association) ∧
  serves (T:=Scan.msg_scan_received) MSG_SCAN (λ _, Scan.process_msg_scan_received) ∧
  serves (T:=Fragmentation.msg_fragmentationthreshold) MSG_GET_FRAGMENTATIONTHRESHOLD (λ _, Fragmentation.process_msg_fragmentationthreshold) ∧
  serves (T:=Fragmentation.msg_fragmentationthreshold) MSG_SET_FRAGMENTATIONTHRESHOLD (λ _, Fragmentation.process_msg_fragmentationthreshold) ∧
  serves (T:=VapCreate.msg_vap_create) MSG_VAP_CREATE (λ _, VapCreate.process_msg_vap_create) ∧
  serves (T:=TxBitrates.msg_tx_bitrates) MSG_GET_TX_BITRATES (λ _, TxBitrates.process_msg_tx_bitrates junk_bands) ∧
  serves (T:=TxBitrate.msg_tx_bitrate) MSG_GET_TX_BITRATE (λ _, TxBitrate.process_msg_get_tx_bitrate junk_bitrate) ∧
  serves (T:=SetTxBitrates.msg_set_tx_bitrates) MSG_SET_TX_BITRATES (λ _, SetTxBitrates.process_msg_set_tx_bitrate) ∧
  serves (T:=StaLink.msg_sta_link_information) MSG_GET_LINK_INFO (λ _, StaLink.process_msg_sta_link_information) ∧
  serves (T:=SupportedInterface.msg_supportedinterface) MSG_GET_SUPPORTEDINTERFACE (λ _, SupportedInterface.process_msg_supportedinterface) ∧
  serves (T:=Location.msg_location) MSG_GET_LOCATION (λ _, Location.process_msg_location) ∧
  serves (T:=ConfSsidRadio.msg_conf_ssid_radio) MSG_SET_CONF_SSID_RADIO (λ _, ConfSsidRadio.process_msg_conf_ssid_radio) ∧
  serves (T:=Statistics.msg_radio_linkstatitics) MSG_GET_STATISTICS (λ _, Statistics.process_msg_statistics junk_values) ∧
  serves (T:=Acs.msg_acs) MSG_GET_ACS (λ _, Acs.process_msg_acs junk_num_tests) ∧
  serves (T:=StaStatistics.msg_sta_statitics) MSG_GET_STA_STATISTICS (λ _, StaStatistics.process_msg_sta_statistics) ∧
  serves (T:=SnrReached.msg_snr_threshold_reached) MSG_SET_SNR_THRESHOLD_REACHED (λ _, process_msg_snr_threshold_reached) ∧
  serves (T:=ChangedAp.msg_changed_ap) MSG_CHANGED_AP (λ _, ChangedAp.process_msg_changed_ap) ∧
  serves (T:=Mean.msg_mean_sta_statistics) MSG_MEAN_STA_STATISTICS_GET (λ _, process_msg_mean_sta_statistics) ∧
  serves (T:=MeanIntf.msg_mean_sta_statistics_interface) MSG_MEAN_STA_STATISTICS_SET_INTERFACE (λ _, process_msg_mean_sta_statistics) ∧
  serves (T:=MeanIntf.msg_mean_sta_statistics_interface) MSG_MEAN_STA_STATISTICS_REMOVE_INTERFACE (λ _, process_msg_mean_sta_statistics) ∧
  serves (T:=MeanAlpha.msg_mean_sta_statistics_alpha) MSG_MEAN_STA_STATISTICS_SET_ALPHA (λ _, process_msg_mean_sta_statistics) ∧
  serves (T:=MeanTime.msg_mean_sta_statistics_time) MSG_MEAN_STA_STATISTICS_SET_TIME (λ _, process_msg_mean_sta_statistics) ∧
  serves (T:=TriggerTransition.msg_station_trigger_transition) MSG_TRIGGER_TRANSITION (λ _, TriggerTransition.process_msg_station_trigger_transition) ∧
  serves (T:=TosClean.msg_tos_cleanall) MSG_TOS_CLEANALL (λ _, TosClean.process_msg_tos_cleanall) ∧
  serves (T:=Tos.msg_tos) MSG_TOS_ADD (λ _, Tos.process_msg_tos_add) ∧
  serves (T:=Tos.msg_tos) MSG_TOS_REPLACE (λ _, Tos.process_msg_tos_replace) ∧
  serves (T:=Mtu.msg_mtu) MSG_SET_MTU (λ _, Mtu.process_msg_set_mtu) ∧
  serves (T:=Txqueuelen.msg_txqueuelen) MSG_SET_TXQUEUELEN (λ _, Txqueuelen.process_msg_set_txqueuelen).
Proof. split_and!; (eapply serves_route; [reflexivity|intros ? ?; reflexivity]). Qed.
End routes.

(** ** A sample connection *)

Definition sample_mtu : Mtu.msg_mtu :=
  Mtu.Msg (Header MSG_SET_MTU 5 ETHANOL_VERSION 0) None 0 (lit "wlan0") 1400.

Section sample.
#[local] Instance sample_agent : Agent box := box_agent false.
#[local] Instance sample_net : Net box := no_net.
#[local] Instance sample_alloc : Allocator := glibc_alloc.

(** The client has written its request and reads nothing. *)
#[local] Instance sample_connection : Connection box := {|
  srv_accept := mret true; srv_read := mret (wire_of sample_mtu); srv_write _ := mret tt;
  srv_free := mret tt; srv_close := mret tt
|}.

Lemma servlet_routes_witness :
  servlet (lit "10.0.0.9") (fresh_box 0) = Ok (tt, Box 0 [(lit "wlan0", 1400)] [] ([], [])).
Proof.
  pose proof (servlet_routes (W:=box)) as T.
  assert (serves (W:=box) (T:=Mtu.msg_mtu) MSG_SET_MTU (λ _, Mtu.process_msg_set_mtu)) as S.
  { repeat match type of T with _ ∧ _ => destruct T as [? T] end. assumption. }
  rewrite (S sample_mtu 45 (lit "10.0.0.9") (fresh_box 0) (fresh_box 0) (fresh_box 0));
    [vm_compute; reflexivity|vm_compute; reflexivity|reflexivity|vm_compute; reflexivity|lia|reflexivity|reflexivity].
Defined.
End sample.
