(* ===== verification/HandoverProps.v ===== *)
(** What the handover decision of [Handover] does: the choice among access
    points whose traffic is known, and why the controller never gets there. *)
From stdpp Require Import prelude list strings gmap.
From Stdlib Require Import SpecFloat.
From S2P Require Import Prelude CMem CFloat MsgCommon BufferHandler World Rpc Devices.
From S2P Require Import MsgScan MsgMean Handover Servlet Agent.

(** ** The order of values that are not negative *)

Definition nonneg (x : spec_float) : bool := SFleb (S754_zero false) x.

Lemma nonneg_cases x : nonneg x = true →
  (∃ s, x = S754_zero s) ∨ x = S754_infinity false ∨ ∃ m e, x = S754_finite false m e.
Proof. destruct x as [s|[]| |[] m e]; try done; eauto. Qed.

Lemma nonneg_not_minus_one x : nonneg x = true → SFeqb x minus_one = false.
Proof. by intros [[s ->]|[->|(m & e & ->)]]%nonneg_cases. Qed.

Lemma SFltb_finite m1 e1 m2 e2 :
  SFltb (S754_finite false m1 e1) (S754_finite false m2 e2) = true ↔
  e1 < e2 ∨ (e1 = e2 ∧ Z.pos m1 < Z.pos m2).
Proof.
  unfold SFltb, SFcompare. destruct (Z.compare_spec e1 e2) as [->|He|He].
  - change (Pcompare m1 m2 Eq) with (Pos.compare m1 m2). destruct (Pos.compare_spec m1 m2); naive_solver lia.
  - naive_solver lia.
  - naive_solver lia.
Qed.

Lemma SFltb_irrefl x : nonneg x = true → SFltb x x = false.
Proof.
  intros [[s ->]|[->|(m & e & ->)]]%nonneg_cases; [done..|].
  apply not_true_is_false. rewrite SFltb_finite. lia.
Qed.

Lemma SFltb_trans x y z : nonneg x = true → nonneg y = true → nonneg z = true →
  SFltb x y = true → SFltb y z = true → SFltb x z = true.
Proof.
  intros [[s ->]|[->|(m & e & ->)]]%nonneg_cases [[s' ->]|[->|(m' & e' & ->)]]%nonneg_cases
    [[s'' ->]|[->|(m'' & e'' & ->)]]%nonneg_cases; try done.
  rewrite !SFltb_finite. lia.
Qed.

(** ** The least traffic *)

Definition traffic_of (p : list_aps_range_t) : spec_float := f80_add (r_tx p) (r_rx p).
Definition answered (p : list_aps_range_t) : bool := negb (SFeqb (r_tx p) minus_one).

(** The candidates whose traffic was read have one that is not negative. *)
Definition counted (l : list list_aps_range_t) : Prop :=
  ∀ p, p ∈ l → answered p = true → nonneg (traffic_of p) = true.

(** [p] has the least traffic of the candidates of [l] that answered. *)
Definition least_of (l : list list_aps_range_t) (p : list_aps_range_t) : Prop :=
  ∀ q, q ∈ l → answered q = true → SFltb (traffic_of q) (traffic_of p) = false.

Lemma least_after l p : counted (p :: l) → answered p = true →
  ∃ q, q ∈ p :: l ∧ answered q = true ∧ least_of (p :: l) q ∧
    least_traffic l (traffic_of p) (Some (r_index p)) = Some (r_index q) ∧
    (q = p ∨ SFltb (traffic_of q) (traffic_of p) = true).
Proof.
  revert p. induction l as [|p' l IH]; intros p Hc Hp.
  { exists p. split_and!; [by left|done| |done|by left]. intros q Hq _.
    apply list_elem_of_singleton in Hq as ->. apply SFltb_irrefl, Hc; [by left|done]. }
  assert (nonneg (traffic_of p) = true) as Hnp by (apply Hc; [by left|done]).
  cbn [least_traffic]. unfold better. fold (answered p') (traffic_of p').
  rewrite (nonneg_not_minus_one _ Hnp), orb_false_r.
  destruct (answered p' && SFltb (traffic_of p') (traffic_of p)) eqn:E.
  - apply andb_prop in E as [Hp' Hlt].
    destruct (IH p') as (q & Hq & Hqa & Hmin & -> & Hqp); [intros r Hr; apply Hc; by right|done|].
    assert (SFltb (traffic_of q) (traffic_of p) = true) as Hqlt.
    { destruct Hqp as [->|Hqp]; [done|]. eapply SFltb_trans; [..|exact Hqp|exact Hlt]; [|by apply Hc; [right; left|]|done].
      apply Hc; [by right|done]. }
    exists q. split_and!; [by right|done| |done|by right].
    intros r [->|Hr]%elem_of_cons Hra; [|by apply Hmin]. apply not_true_is_false. intros Hrq.
    assert (nonneg (traffic_of q) = true) by (apply Hc; [by right|done]).
    pose proof (SFltb_irrefl _ Hnp) as Hi.
    by rewrite (SFltb_trans (traffic_of p) (traffic_of q) (traffic_of p)) in Hi.
  - destruct (IH p) as (q & Hq & Hqa & Hmin & -> & Hqp).
    { intros r [->|Hr]%elem_of_cons; apply Hc; [by left|by right; right]. }
    { done. }
    exists q. split_and!; [set_solver|done| |done|done].
    intros r Hr Hra. apply elem_of_cons in Hr as [->|[->|Hr]%elem_of_cons].
    + apply Hmin; [by left|done].
    + rewrite Hra in E. cbn [andb] in E. apply not_true_is_false. intros Hrq.
      destruct Hqp as [->|Hqp]; [congruence|].
      rewrite (SFltb_trans (traffic_of p') (traffic_of q) (traffic_of p)) in E; [done| | |done..].
      * apply Hc; [by right; left|done].
      * apply Hc; [set_solver|done].
    + apply Hmin; [by right|done].
Qed.

(** Among the access points that answered, the controller's loop returns the
    index of one with the least traffic, and no index exactly when none
    answered. *)
Theorem least_traffic_is_least l : counted l →
  match least_traffic l minus_one None with
  | Some i => ∃ p, p ∈ l ∧ r_index p = i ∧ answered p = true ∧ least_of l p
  | None => ∀ p, p ∈ l → answered p = false
  end.
Proof.
  induction l as [|p l IH]; intros Hc; [by intros p ?%not_elem_of_nil|].
  cbn [least_traffic]. unfold better. fold (answered p) (traffic_of p).
  replace (SFeqb minus_one minus_one) with true by reflexivity. rewrite orb_true_r, andb_true_r.
  destruct (answered p) eqn:Hp.
  - destruct (least_after l p Hc Hp) as (q & Hq & Ha & Hmin & -> & _). by exists q.
  - specialize (IH ltac:(intros r Hr; apply Hc; by right)).
    destruct (least_traffic l minus_one None) as [i|].
    + destruct IH as (q & Hq & Hi & Ha & Hmin). exists q. split_and!; [by right|done..|].
      intros r [->|Hr]%elem_of_cons; [congruence|by apply Hmin].
    + intros r [->|Hr]%elem_of_cons; [done|by apply IH].
Qed.

Definition three_candidates : list list_aps_range_t :=
  [ApsRange 4 (f80_of_Z 900) (f80_of_Z 10) 1; ApsRange 2 minus_one (f80_of_Z 0) 2;
   ApsRange 1 (f80_of_Z 100) (f80_of_Z 10) 3].

Lemma least_traffic_is_least_witness :
  least_traffic three_candidates minus_one None = Some 1%nat ∧
  ∃ p, p ∈ three_candidates ∧ r_index p = 1%nat ∧ answered p = true ∧ least_of three_candidates p.
Proof.
  assert (counted three_candidates) as Hc.
  { intros p Hp. unfold three_candidates in Hp. rewrite !elem_of_cons in Hp.
    destruct Hp as [->|[->|[->|[]%not_elem_of_nil]]]; vm_compute; done. }
  split; [vm_compute; reflexivity|].
  exact (least_traffic_is_least three_candidates Hc).
Defined.

(** ** The decision is never reached *)

Lemma least_traffic_none l : (∀ p, p ∈ l → answered p = false) → least_traffic l minus_one None = None.
Proof.
  induction l as [|p l IH]; intros Hl; [done|]. cbn [least_traffic]. unfold better.
  fold (answered p). rewrite (Hl p) by (by left). apply IH. intros q Hq. apply Hl. by right.
Qed.

Section decision.
Context {W : Type} `{Net W, Device W, Build, Allocator, Controlled W}.

(** The request for the means reads a pointer that was not assigned, so the
    only result it ever gives is that of a connection that failed. *)
Lemma traffic_request_none host port id ip sport w m id' w' :
  Mean.send_msg_mean_sta_statistics host port id ip sport w = Ok ((m, id'), w') → m = None.
Proof.
  unfold Mean.send_msg_mean_sta_statistics, with_ssl. intros E. run_inv E. destruct a as [err h].
  run_inv E. run_inv E. injection E as -> _. destruct ((err =? 0) && c_ssl h); [|by injection E1].
  by do 3 run_inv E1.
Qed.

Lemma ask_traffic_none p w p' w' : ask_traffic p w = Ok (p', w') → answered p' = false.
Proof.
  unfold ask_traffic. intros E. do 3 run_inv E. destruct a1 as [m id]. run_inv E.
  apply traffic_request_none in E2 as ->. by injection E as <- <-.
Qed.

Lemma ask_all_none l w l' w' : ask_all l w = Ok (l', w') → ∀ p, p ∈ l' → answered p = false.
Proof.
  revert w l'. induction l as [|p l IH]; intros w l' E; cbn [ask_all] in E.
  { injection E as <- _. by intros p ?%not_elem_of_nil. }
  do 2 run_inv E. injection E as <- <-. intros q [->|Hq]%elem_of_cons.
  - by eapply ask_traffic_none.
  - by eapply IH.
Qed.

(** Without an answer there is no index, and the reply would read the address
    that was freed. *)
Lemma choose_ap_fails l_aps aps_range w r : choose_ap l_aps aps_range w ≠ Ok r.
Proof.
  unfold choose_ap. intros E. run_inv E.
  pose proof (least_traffic_none a (ask_all_none _ _ _ _ E0)) as Hn. by rewrite Hn in E.
Qed.

Lemma decide_ap_same h w ap w' : decide_ap h w = Ok (ap, w') → ap = SnrReached.mac_ap h.
Proof.
  unfold decide_ap. intros E. run_inv E. destruct a as [sta|]; [|by injection E].
  do 3 run_inv E. destruct a1 as [l_aps id]. do 3 run_inv E.
  destruct a3; [by injection E|]. by apply choose_ap_fails in E.
Qed.

Lemma handover_answer h w rep w' :
  msg_wf h = true → text (SnrReached.sta_ip h) = [] →
  process_msg_snr_threshold_reached (wire_of h) w = Ok (rep, w') →
  rep = Some (wire_of (received h)).
Proof.
  intros Hwf Hip E. unfold process_msg_snr_threshold_reached in E. run_inv E.
  apply lift_inv in E0 as [E0 ->]. change (msg_decode (wire_of h) = Ok a) in E0.
  rewrite (wire_received h Hwf) in E0. injection E0 as <-.
  destruct (encode_wf h Hwf) as (n & Hn & _).
  assert (SnrReached.sta_ip (received h) = None) as Hnone.
  { unfold received. rewrite Hn. cbn. unfold canon. by rewrite Hip. }
  rewrite Hnone in E. cbn [nonnull negb] in E. run_inv E.
  assert (a = received h) as ->.
  { destruct handover; [|by injection E0 as <- _]. run_inv E0. injection E0 as <- _.
    apply decide_ap_same in E1 as ->. by destruct (received h). }
  run_inv E. apply lift_inv in E1 as [E1 ->]. destruct a as [h' out]. injection E as <- _.
  unfold wire_of. change (msg_encode (received h) = Ok (h', out)) in E1. by rewrite E1.
Qed.

(** The controller never names another access point.  Whatever it knows and
    whatever its peers answer, a request that is not relayed is either answered
    with the access point it came with, or does not return: the traffic of a
    candidate is asked with a message whose list pointer was never assigned,
    and when no candidate answers, the address in the reply has been freed. *)
Theorem handover_keeps_ap h w rep w' :
  msg_wf h = true → text (SnrReached.sta_ip h) = [] →
  process_msg_snr_threshold_reached (wire_of h) w = Ok (rep, w') →
  rep = Some (wire_of (received h)).
Proof. apply handover_answer. Qed.
End decision.

(** A controller that knows nobody. *)
Definition weak_signal : SnrReached.msg_snr_threshold_reached :=
  SnrReached.Msg (Header MSG_SET_SNR_THRESHOLD_REACHED 7 ETHANOL_VERSION 0) None 0
    (lit "00:11:22:33:44:55") (lit "wlan0") (lit "66:77:88:99:aa:bb") (-85).

Lemma handover_keeps_ap_witness :
  let B := {| process_station := false; handover := true |} in
  let M := @SnrReached.msg_snr_threshold_reached_message exact_alloc in
  let C := @services_controlled box no_services in
  ∃ rep w', @process_msg_snr_threshold_reached box no_net B exact_alloc C
    (@wire_of _ M weak_signal) (fresh_box 0) = Ok (rep, w') ∧
  rep = Some (@wire_of _ M (@received _ M weak_signal)).
Proof.
  intros B M C. exists (Some (@wire_of _ M (@received _ M weak_signal))), (fresh_box 0).
  split; [vm_compute; reflexivity|].
  apply (@handover_keeps_ap box no_net B exact_alloc C weak_signal (fresh_box 0) _ (fresh_box 0));
    vm_compute; reflexivity.
Defined.
