(* ===== verification/Registration.v ===== *)
(** How the controller of the handover experiment learns about a device: the
    hello event [configure_experiment] asks the device for its wireless
    interface, over the network and the device's own servlet, and stores the
    address in the list of access points or of stations. *)
From stdpp Require Import prelude list strings gmap.
From Stdlib Require Import SpecFloat.
From S2P Require Import Prelude CMem CFloat MsgCommon BufferHandler World Rpc Linked MsgStats.
From S2P Require Import NetStatistics MsgConfig MsgMean MeanService MsgSession Devices Handover.
From S2P Require Import Servlet Agent.

(** ** A message about one interface *)

Definition one_intf (id n : Z) (e : Intf.interface) : Intf.msg_intf :=
  Intf.Msg (Header MSG_GET_ONE_INTF id ETHANOL_VERSION n) None 0 1 (Some [e]).

Section one.
Context `{AL : !Allocator}.

Lemma one_intf_wf id n e : i32_ok id = true → i64_ok (Intf.ifindex e) = true →
  u32_ok (Intf.intf_type e) = true → brief (Intf.intf_name e) = true → brief (Intf.mac_address e) = true →
  msg_wf (one_intf id n e) = true ∧ ∃ k, msg_size (one_intf id n e) = Ok k ∧ k ≤ 2048 ∧
    received (one_intf id n e) = one_intf id k (e_normal e).
Proof.
  intros Hid Hx Ht Hn Hm. pose proof Hn as Hn'. pose proof Hm as Hm'. unfold brief in Hn', Hm'. split_andb. to_prop.
  assert (e_ok e = true) as He by (cbn; by split_andb).
  assert (msg_wf (one_intf id n e) = true) as Hwf.
  { change (Intf.wf (one_intf id n e) = true). unfold Intf.wf, header_ok, one_intf.
    cbn [Intf.hd Intf.sta_ip Intf.sta_port Intf.num_intf Intf.intf m_type m_id p_version].
    split_andb; try done. unfold array_wf. cbn [elems length forallb]. rewrite He. split_andb; try done.
    to_prop. unfold array_len. cbn -[Z.add]. lia. }
  split; [done|]. unfold received. cbn [msg_size Intf.msg_intf_message].
  assert (Intf.size_msg_intf (one_intf id n e) =
    Ok (to_i32 (65 + Z.of_nat (length (text (Intf.intf_name e))) + Z.of_nat (length (text (Intf.mac_address e)))))) as ->.
  { unfold Intf.size_msg_intf, one_intf. cbn [Intf.hd Intf.sta_ip Intf.num_intf Intf.intf p_version].
    rewrite !strlen_ethanol_ok by done. cbn [mbind res_bind].
    change (array_size (Some [e]) 1) with (a ← e_size e; r ← Ok 0; Ok (a + r)).
    rewrite (e_size_ok e He). cbn [mbind res_bind e_len Intf.interface_entry].
    change (length (text ETHANOL_VERSION)) with 5%nat. change (length (text None)) with 0%nat. do 2 f_equal. lia. }
  eexists. split_and!; [reflexivity| |done].
  rewrite to_s_id; [lia|lia|in_range].
Qed.
End one.

(** ** The exchange with the device *)

Section registration.
Context {L P : Type} `{AG : !Agent P, NP : !Net P, AL : !Allocator, CL : !Controlled L}.
Context (addr : charp) (host : list Z) (port : Z).

#[local] Instance here_controlled : Controlled (link L P) := {|
  controller_of s := controller_of (here s);
  put_controller c s := Link (put_controller c (here s)) (peer s) (inbox s)
|}.
#[local] Instance registration_net : Net (link L P) := linked_net host port (serve_agent addr).

(** The interface as the device's own functions describe it. *)
Definition described (d : interface_fields) (name : charp) : Intf.interface :=
  Intf.Interface (if_ifindex d) name (to_u32 (if_type d)) (if_mac d) (if_is_wifi d).

(** A device answers a request about one interface with its description. *)
Lemma serve_one_intf id jt jw name d p p' :
  i32_ok id = true → u32_ok jt = true → brief name = true →
  get_interface (canon name) p = Ok (Some d, p') →
  i64_ok (if_ifindex d) = true → brief (if_mac d) = true →
  ∃ k, serve_agent addr (wire_of (one_intf id 0 (Intf.Interface 0 name jt None jw))) p =
    Ok (Some (wire_of (one_intf id k (described d (canon name)))), p').
Proof.
  intros Hid Hj Hn Hg Hi Hm.
  destruct (one_intf_wf id 0 (Intf.Interface 0 name jt None jw)) as (Hwf & k & Hk & Hle & Hrec); try done.
  exists k. rewrite (serve_routes _ MSG_GET_ONE_INTF H_msg_intf k) by done.
  unfold agent_handler, run_handler, Intf.process_msg_intf.
  run (lift_Ok _ p _ (wire_received _ Hwf)). rewrite Hrec. cbn [one_intf Intf.sta_ip nonnull negb].
  assert (Intf.intf_local (one_intf id k (e_normal (Intf.Interface 0 name jt None jw))) p =
    Ok (one_intf id k (described d (canon name)), p')) as El.
  { unfold Intf.intf_local. cbn [one_intf Intf.hd Intf.intf m_type elems].
    change (MSG_GET_ONE_INTF =? MSG_GET_ALL_INTF) with false. cbn [Intf.fill_interfaces e_normal Intf.interface_entry Intf.intf_name].
    unfold mbind, ST_bind, mret, ST_ret. by rewrite Hg. }
  run El.
  destruct (one_intf_wf id k (described d (canon name))) as (Hwf' & _); try done.
  { cbn. pose proof (Z.mod_pos_bound (if_type d) (2 ^ 32) ltac:(lia)). unfold to_u. in_range. }
  { by apply brief_canon. }
  destruct (wire_encode _ Hwf') as [h' He]. cbn [msg_encode Intf.msg_intf_message] in He.
  by run (lift_Ok _ p' _ He).
Qed.

Lemma one_intf_rpc hostname portnum id jt jw d s p' :
  reachable host port hostname portnum = true → i32_ok id = true → id ≠ 2 ^ 31 - 1 → u32_ok jt = true →
  copyable ETHANOL_VERSION = true → copyable WIRELESS_INTERFACE = true →
  get_interface WIRELESS_INTERFACE (peer s) = Ok (Some d, p') →
  i64_ok (if_ifindex d) = true → brief (if_mac d) = true →
  ∃ n, Intf.send_msg_get_one_intf jt jw hostname portnum id WIRELESS_INTERFACE None 0 s =
    Ok ((Some (one_intf id n (e_normal (described d WIRELESS_INTERFACE))), id + 1), Link (here s) p' []).
Proof.
  intros Hr Hid Hmax Hj Hv Hc Hg Hi Hm.
  destruct (serve_one_intf id jt jw WIRELESS_INTERFACE d (peer s) p') as [k Hs]; try done.
  change (canon WIRELESS_INTERFACE) with WIRELESS_INTERFACE in Hs.
  destruct (one_intf_wf id 0 (Intf.Interface 0 WIRELESS_INTERFACE jt None jw)) as (Hwf & _); try done.
  destruct (one_intf_wf id k (described d WIRELESS_INTERFACE)) as (Hwf' & n & Hn & Hle & Hrec); try done.
  { cbn. pose proof (Z.mod_pos_bound (if_type d) (2 ^ 32) ltac:(lia)). unfold to_u. in_range. }
  exists n. unfold Intf.send_msg_get_one_intf, Intf.generic_get_intf_msg.
  change (negb ((MSG_GET_ONE_INTF =? MSG_GET_ALL_INTF) || (MSG_GET_ONE_INTF =? MSG_GET_ONE_INTF))) with false.
  change registration_net with (linked_net (L:=L) host port (serve_agent addr)).
  cbv iota. rewrite (linked_with_ssl host port (serve_agent addr)) by done.
  assert (incr_int id = Ok (id + 1)) as Hinc by (unfold incr_int; by rewrite (proj2 (Z.eqb_neq _ _) Hmax)).
  run (lift_Ok _ s _ Hinc). run (lift_Ok _ s _ (copy_string_canon _ Hv)).
  run (lift_Ok _ s _ (copy_string_canon None eq_refl)). cbv beta.
  assert ((if negb (nonnull WIRELESS_INTERFACE) then mret (0, None)
     else name ← lift (copy_string WIRELESS_INTERFACE);
          mret (1, Some [Intf.Interface 0 name jt None jw])) s =
    Ok ((1, Some [Intf.Interface 0 WIRELESS_INTERFACE jt None jw]), s)) as En.
  { change (negb (nonnull WIRELESS_INTERFACE)) with false. cbv iota.
    by run (lift_Ok _ s _ (copy_string_canon _ Hc)). }
  run En. cbv beta iota. fold (one_intf id 0 (Intf.Interface 0 WIRELESS_INTERFACE jt None jw)).
  change (Intf.Msg _ _ _ _ _) with (one_intf id 0 (Intf.Interface 0 WIRELESS_INTERFACE jt None jw)).
  assert (Z.of_nat (length (wire_of (one_intf id k (described d WIRELESS_INTERFACE)))) ≤ SSL_BUFFER_SIZE) as Hlen
    by (rewrite (wire_length _ n Hwf' Hn); unfold SSL_BUFFER_SIZE; lia).
  pose proof (linked_exchange host port (serve_agent addr) _ (λ _, true) s _ p' Hwf Hs Hlen) as Ex.
  rewrite reply_received in Ex by done. cbn [mbind res_bind] in Ex. rewrite Hrec in Ex. by run Ex.
Qed.

(** The list a device goes to: type 1 is an access point, type 2 a station. *)
Definition device_side (device_type : Z) : side := if device_type =? 1 then Aps else Stations.

Lemma insert_represents x mac hostn portn d ab : op_ok (Insert x mac hostn portn) = true → represents d ab →
  ∃ l d', (match x with Aps => insert_ap mac hostn portn | Stations => insert_station mac hostn portn end) d = Ok (l, d') ∧
    represents d' (spec_op (Insert x mac hostn portn) ab).2.
Proof.
  intros Hop Hr. destruct (observe_refines _ d ab Hop Hr) as (d' & Ho & Hr').
  unfold observe in Ho. cbn [run_op] in Ho.
  assert (∃ l, (match x with Aps => insert_ap mac hostn portn | Stations => insert_station mac hostn portn end) d = Ok (l, d'))
    as [l E].
  { destruct x; [destruct (insert_ap mac hostn portn d) as [[l d1]|] eqn:E
                |destruct (insert_station mac hostn portn d) as [[l d1]|] eqn:E];
      unfold mbind, ST_bind, mret, ST_ret in Ho; cbn in Ho; rewrite E in Ho; [|done| |done];
      exists l; cbn in Ho; destruct (node_at _ l); try done; by injection Ho as _ <-. }
  by exists l, d'.
Qed.

Context (Hlaw : ∀ c (l : L), controller_of (put_controller c l) = c).

Definition with_hello (id : Z) (c : controller) : controller :=
  Controller (ctl_devices c) (ctl_m_id c) (ctl_signal_threshold c) id (ctl_snr_interval c) (ctl_snr_threshold c).
Definition wireless (l : list interface_fields) : Z := Z.of_nat (length (filter (λ d, if_is_wifi d = true) l)).

(** The controller with the identifier of its next message, and the peer. *)
Definition in_state (c : controller) (id : Z) (p : P) (s : link L P) : Prop :=
  controller_of (here s) = with_hello id c ∧ peer s = p.

Lemma set_hello_in_state c id id' p (s : link L P) : in_state c id p s →
  ∃ s', set_hello_id id' s = Ok (tt, s') ∧ in_state c id' p s'.
Proof.
  intros [Hc Hp]. eexists. split; [reflexivity|]. split; [|done]. cbn. by rewrite Hlaw, Hc.
Qed.

(** Asking the device for its interface [wlan0] enters its address in one of the
    lists, with the host and the port it can be called back at, unless the
    address was known already. *)
Lemma device_registered jt jw device_type hostname portnum d ab (s : link L P) p' :
  let c := controller_of (here s) in
  reachable host port hostname portnum = true →
  i32_ok (ctl_hello_id c) = true → ctl_hello_id c ≠ 2 ^ 31 - 1 → u32_ok jt = true →
  copyable ETHANOL_VERSION = true → copyable WIRELESS_INTERFACE = true → copyable hostname = true →
  get_interface WIRELESS_INTERFACE (peer s) = Ok (Some d, p') →
  i64_ok (if_ifindex d) = true → brief (if_mac d) = true →
  named (canon (if_mac d)) = true → copyable (canon (if_mac d)) = true →
  represents (ctl_devices c) ab →
  ∃ s' c', register_device jt jw device_type hostname portnum s = Ok (tt, s') ∧ in_state c' (ctl_hello_id c + 1) p' s' ∧
    ctl_snr_interval c' = ctl_snr_interval c ∧ ctl_snr_threshold c' = ctl_snr_threshold c ∧
    represents (ctl_devices c')
      (spec_op (Insert (device_side device_type) (canon (if_mac d)) hostname portnum) ab).2.
Proof.
  intros c Hr Hid Hmax Hj Hv Hc Hch Hg Hi Hm Hnm Hcm Hrep.
  destruct (one_intf_rpc hostname portnum (ctl_hello_id c) jt jw d s p') as [n Hrpc]; try done.
  destruct (insert_represents (device_side device_type) (canon (if_mac d)) hostname portnum (ctl_devices c) ab)
    as (l & d' & Hins & Hrep'); [by cbn; rewrite Hnm, Hcm, Hch|done|].
  unfold register_device. assert (get_controller s = Ok (c, s)) as Hget by done. run Hget. run Hrpc.
  set (c1 := Controller (ctl_devices c) (ctl_m_id c) (ctl_signal_threshold c) (ctl_hello_id c + 1)
               (ctl_snr_interval c) (ctl_snr_threshold c)).
  set (s1 := Link (put_controller c1 (here s)) p' [] : link L P).
  assert (set_hello_id (ctl_hello_id c + 1) (Link (here s) p' []) = Ok (tt, s1)) as Hset by done. run Hset.
  cbn [one_intf Intf.num_intf]. change (0 <? 1) with true. cbv iota.
  assert (lift (array_at (Intf.intf (one_intf (ctl_hello_id c) n (e_normal (described d WIRELESS_INTERFACE)))) 0) s1 =
    Ok (e_normal (described d WIRELESS_INTERFACE), s1)) as Hat by done. run Hat.
  set (c2 := Controller d' (ctl_m_id c1) (ctl_signal_threshold c1) (ctl_hello_id c1) (ctl_snr_interval c1)
               (ctl_snr_threshold c1)).
  set (s2 := Link (put_controller c2 (here s1)) p' [] : link L P).
  assert (on_devices (if device_type =? 1 then insert_ap (canon (if_mac d)) hostname portnum
                      else insert_station (canon (if_mac d)) hostname portnum) s1 = Ok (l, s2)) as Hon.
  { assert (controller_of s1 = c1) as Hc1 by apply Hlaw. unfold on_devices. rewrite Hc1.
    unfold device_side in Hins. change (ctl_devices c1) with (ctl_devices c). by destruct (device_type =? 1); rewrite Hins. }
  run Hon. exists s2, c2. assert (controller_of (here s2) = c2) as Hc2 by apply Hlaw. split_and!; try done.
Qed.

(** ** The requests that follow *)

(** A message without reply that the device's servlet handles. *)
Lemma notify_served {T} `{MessageOk T} (h : T) t k n hostname portnum id (s : link L P) p' :
  reachable host port hostname portnum = true → msg_wf h = true → m_type (msg_head h) = msg_code t → dispatch t = Some k →
  msg_size h = Ok n → n ≤ 2048 → agent_handler k addr (wire_of h) (peer s) = Ok (None, p') →
  with_ssl hostname portnum id (notify h;; mret (id + 1)) s = Ok (id + 1, Link (here s) p' []).
Proof.
  intros Hr Hwf Ht Hk Hs Hn Hh. apply (linked_notify host port (serve_agent addr) h _ _ _ _ _ None p' Hwf Hr).
  by rewrite (serve_routes h t k n).
Qed.

Lemma incr_below id : id < 2 ^ 31 - 1 → incr_int id = Ok (id + 1).
Proof. intros Hid. unfold incr_int. by rewrite (proj2 (Z.eqb_neq _ _)) by lia. Qed.

(** *** Access points: what they shall measure *)

Lemma mean_event_served {T} `{MessageOk T} (h : T) ev t n hostname portnum id (s : link L P) p' :
  reachable host port hostname portnum = true → i32_ok id = true → event_ok ev = true → event_wire id None 0 ev = Some (wire_of h) →
  msg_wf h = true → m_type (msg_head h) = msg_code t → dispatch t = Some H_msg_mean_sta_statistics → msg_size h = Ok n → n ≤ 2048 →
  NetStatistics.run_op (op_of ev) (peer s) = Ok (tt, p') →
  with_ssl hostname portnum id (notify h;; mret (id + 1)) s = Ok (id + 1, Link (here s) p' []).
Proof.
  intros Hr Hid Hev He Hwf Ht Hk Hs Hn Hop. apply (notify_served h t H_msg_mean_sta_statistics n); try done.
  change (agent_handler H_msg_mean_sta_statistics addr ?b ?p) with (process_msg_mean_sta_statistics b p).
  rewrite (process_event id None 0 ltac:(unfold sender_ok; by rewrite Hid) ev _ _ Hev He). by run Hop.
Qed.

(** The events of an access point: the interface, the weight and the interval
    of the means. *)
Definition EWMA_WEIGHT : spec_float := to_f80 (f64_div (f64_of_Z 1) (f64_of_Z 10)).
Definition ap_setup : list mean_event := [EvAdd ETHERNET_INTERFACE; EvAlpha (f80_bits EWMA_WEIGHT); EvTime 100].

Lemma ap_measures hostname portnum id (s : link L P) p1 p2 p3 :
  reachable host port hostname portnum = true → - 2 ^ 31 ≤ id → id + 3 < 2 ^ 31 → copyable ETHERNET_INTERFACE = true →
  NetStatistics.run_op (op_of (EvAdd ETHERNET_INTERFACE)) (peer s) = Ok (tt, p1) →
  NetStatistics.run_op (op_of (EvAlpha (f80_bits EWMA_WEIGHT))) p1 = Ok (tt, p2) → NetStatistics.run_op (op_of (EvTime 100)) p2 = Ok (tt, p3) →
  (id ← MeanIntf.send_msg_mean_sta_statistics_interface_add hostname portnum id None 0 ETHERNET_INTERFACE;
   id ← MeanAlpha.send_msg_mean_sta_statistics_alpha hostname portnum id None 0 EWMA_WEIGHT;
   MeanTime.send_msg_mean_sta_statistics_time hostname portnum id None 0 100) s = Ok (id + 3, Link (here s) p3 []).
Proof.
  intros Hr Hlo Hhi Hc E1 E2 E3.
  assert (∀ k, 0 ≤ k ≤ 2 → sender_ok (id + k) None 0 = true) as Hid.
  { intros k Hk. unfold sender_ok. replace (i32_ok (id + k)) with true by (symmetry; in_range). done. }
  assert (∀ k, 0 ≤ k ≤ 2 → i32_ok (id + k) = true) as Hi by (intros; in_range).
  assert (sender_ok id None 0 = true) as H0 by (rewrite <- (Hid 0) by lia; f_equal; lia).
  assert (MeanIntf.send_msg_mean_sta_statistics_interface_add hostname portnum id None 0 ETHERNET_INTERFACE s =
    Ok (id + 1, Link (here s) p1 [])) as S1.
  { unfold MeanIntf.send_msg_mean_sta_statistics_interface_add, MeanIntf.send_msg_mean_sta_statistics_interface.
    rewrite (with_ssl_ext _ _ _ _ (notify (intf_request id None 0 MSG_MEAN_STA_STATISTICS_SET_INTERFACE ETHERNET_INTERFACE);; mret (id + 1))).
    - eapply (mean_event_served _ (EvAdd ETHERNET_INTERFACE) MSG_MEAN_STA_STATISTICS_SET_INTERFACE); try done; [in_range|].
      apply intf_request_wf; [done|done|done].
    - intros w. rewrite incr_below by lia. by rewrite (copy_string_canon None), (copy_string_canon _ Hc). }
  assert (MeanAlpha.send_msg_mean_sta_statistics_alpha hostname portnum (id + 1) None 0 EWMA_WEIGHT (Link (here s) p1 []) =
    Ok (id + 2, Link (here s) p2 [])) as S2.
  { unfold MeanAlpha.send_msg_mean_sta_statistics_alpha.
    replace (SFltb EWMA_WEIGHT (f80_of_Z 0) || SFltb (f80_of_Z 1) EWMA_WEIGHT) with false by (vm_compute; reflexivity).
    replace (id + 2) with (id + 1 + 1) by lia.
    rewrite (with_ssl_ext _ _ _ _ (notify (alpha_request (id + 1) None 0 (f80_bits EWMA_WEIGHT));; mret (id + 1 + 1))).
    - eapply (mean_event_served _ (EvAlpha (f80_bits EWMA_WEIGHT)) MSG_MEAN_STA_STATISTICS_SET_ALPHA _ _ _ _ (Link (here s) p1 [])); try done; [by apply Hi|].
      apply alpha_request_wf; [by apply Hid|apply f80_bits_ok].
    - intros w. rewrite incr_below by lia. by rewrite (copy_string_canon None). }
  assert (MeanTime.send_msg_mean_sta_statistics_time hostname portnum (id + 2) None 0 100 (Link (here s) p2 []) =
    Ok (id + 3, Link (here s) p3 [])) as S3.
  { unfold MeanTime.send_msg_mean_sta_statistics_time. replace (id + 3) with (id + 2 + 1) by lia.
    rewrite (with_ssl_ext _ _ _ _ (notify (time_request (id + 2) None 0 100);; mret (id + 2 + 1))).
    - eapply (mean_event_served _ (EvTime 100) MSG_MEAN_STA_STATISTICS_SET_TIME _ _ _ _ (Link (here s) p2 [])); try done; [by apply Hi|].
      apply time_request_wf; [by apply Hid|done].
    - intros w. rewrite incr_below by lia. by rewrite (copy_string_canon None). }
  run S1. run S2. exact S3.
Qed.

(** *** Stations: how often they shall look at their signal *)

(** A message about all the interfaces. *)
Definition all_intf (id n num : Z) (l : option (list Intf.interface)) : Intf.msg_intf :=
  Intf.Msg (Header MSG_GET_ALL_INTF id ETHANOL_VERSION n) None 0 num l.

(** The interfaces of a device, as its reply carries them. *)
Definition reported_intfs (o : option (list interface_fields)) : option (list Intf.interface) :=
  match o with Some l => Some (Intf.of_fields <$> l) | None => None end.
Definition intfs_ok (o : option (list interface_fields)) : bool :=
  array_wf (Z.of_nat (length (default [] o))) (reported_intfs o) && (array_len (reported_intfs o) <? 2 ^ 20) &&
  forallb (λ d, brief (if_name d) && copyable (canon (if_name d))) (default [] o).

Lemma all_intf_wf id n num l : i32_ok id = true → array_wf num l = true → array_len l < 2 ^ 20 →
  msg_wf (all_intf id n num l) = true ∧ ∃ k, msg_size (all_intf id n num l) = Ok k ∧ k < 2 ^ 20 + 2048 ∧
    received (all_intf id n num l) = all_intf id k num (normal_array l) ∧ (l = None → k ≤ 2048).
Proof.
  intros Hid Hl Hlen. assert (msg_wf (all_intf id n num l) = true) as Hwf.
  { change (Intf.wf (all_intf id n num l) = true). unfold Intf.wf, header_ok, all_intf.
    cbn [Intf.hd Intf.sta_ip Intf.sta_port Intf.num_intf Intf.intf m_type m_id p_version].
    rewrite Hl. destruct (array_wf_facts _ _ Hl) as (_ & Hn & _). split_andb; try done. in_range. }
  split; [done|]. unfold received. cbn [msg_size Intf.msg_intf_message].
  assert (Intf.size_msg_intf (all_intf id n num l) = Ok (to_i32 (39 + array_len l))) as ->.
  { unfold Intf.size_msg_intf, all_intf. cbn [Intf.hd Intf.sta_ip Intf.num_intf Intf.intf p_version].
    rewrite !strlen_ethanol_ok by done. cbn [mbind res_bind]. rewrite (array_size_ok _ _ Hl). cbn [mbind res_bind].
    change (length (text ETHANOL_VERSION)) with 5%nat. change (length (text None)) with 0%nat. do 2 f_equal. }
  destruct (array_wf_facts _ _ Hl) as (_ & _ & _ & Ha). rewrite to_s_id by (lia || in_range).
  eexists. split_and!; [reflexivity|lia|done|]. intros ->. done.
Qed.

Lemma serve_all_intf id o p p' : i32_ok id = true → intfs_ok o = true → get_all_interfaces p = Ok (o, p') →
  ∃ k, serve_agent addr (wire_of (all_intf id 0 0 None)) p =
    Ok (Some (wire_of (all_intf id k (Z.of_nat (length (default [] o))) (reported_intfs o))), p').
Proof.
  intros Hid Ho Hg. unfold intfs_ok in Ho. split_andb. to_prop.
  destruct (all_intf_wf id 0 0 None) as (Hwf & k & Hk & _ & Hrec & Hle); [done..|]. exists k. specialize (Hle eq_refl).
  rewrite (serve_routes _ MSG_GET_ALL_INTF H_msg_intf k) by done.
  unfold agent_handler, run_handler, Intf.process_msg_intf.
  run (lift_Ok _ p _ (wire_received _ Hwf)). rewrite Hrec. cbn [all_intf Intf.sta_ip nonnull negb].
  assert (Intf.intf_local (all_intf id k 0 (normal_array None)) p =
    Ok (all_intf id k (Z.of_nat (length (default [] o))) (reported_intfs o), p')) as El.
  { unfold Intf.intf_local. cbn [all_intf Intf.hd m_type]. change (MSG_GET_ALL_INTF =? MSG_GET_ALL_INTF) with true. cbv iota.
    run Hg. by destruct o. }
  run El. destruct (all_intf_wf id k (Z.of_nat (length (default [] o))) (reported_intfs o)) as (Hwf' & _); [done..|].
  destruct (wire_encode _ Hwf') as [h' He]. cbn [msg_encode Intf.msg_intf_message] in He.
  by run (lift_Ok _ p' _ He).
Qed.

Lemma all_intf_rpc hostname portnum id o (s : link L P) p' :
  reachable host port hostname portnum = true → i32_ok id = true → id < 2 ^ 31 - 1 →
  copyable ETHANOL_VERSION = true → intfs_ok o = true → get_all_interfaces (peer s) = Ok (o, p') →
  ∃ n, Intf.send_msg_get_interfaces hostname portnum id None 0 s =
    Ok ((Some (all_intf id n (Z.of_nat (length (default [] o))) (normal_array (reported_intfs o))), id + 1), Link (here s) p' []).
Proof.
  intros Hr Hid Hmax Hv Ho Hg. destruct (serve_all_intf id o (peer s) p' Hid Ho Hg) as [k Hs].
  unfold intfs_ok in Ho. split_andb. to_prop. destruct (all_intf_wf id 0 0 None) as (Hwf & _); [done..|].
  destruct (all_intf_wf id k (Z.of_nat (length (default [] o))) (reported_intfs o)) as (Hwf' & n & Hn & Hle & Hrec & _); [done..|].
  exists n. unfold Intf.send_msg_get_interfaces, Intf.generic_get_intf_msg.
  change (negb ((MSG_GET_ALL_INTF =? MSG_GET_ALL_INTF) || (MSG_GET_ALL_INTF =? MSG_GET_ONE_INTF))) with false.
  change registration_net with (linked_net (L:=L) host port (serve_agent addr)).
  cbv iota. rewrite (linked_with_ssl host port (serve_agent addr)) by done.
  run (lift_Ok _ s _ (incr_below id Hmax)). run (lift_Ok _ s _ (copy_string_canon _ Hv)).
  run (lift_Ok _ s _ (copy_string_canon None eq_refl)). cbn [nonnull negb].
  rewrite (st_bind_Ok _ _ s (0, None) s) by done.
  change (Intf.Msg _ _ _ _ _) with (all_intf id 0 0 None).
  assert (Z.of_nat (length (wire_of (all_intf id k (Z.of_nat (length (default [] o))) (reported_intfs o)))) ≤ SSL_BUFFER_SIZE) as Hlen
    by (rewrite (wire_length _ n Hwf' Hn); unfold SSL_BUFFER_SIZE; lia).
  pose proof (linked_exchange host port (serve_agent addr) _ (λ _, true) s _ p' Hwf Hs Hlen) as Ex.
  rewrite reply_received in Ex by done. cbn [mbind res_bind] in Ex. rewrite Hrec in Ex. by run Ex.
Qed.

(** What a station is told: the interval and the threshold of each of its
    wireless interfaces. *)
Fixpoint station_setup (interval threshold : Z) (l : list interface_fields) : ST P unit :=
  match l with
  | [] => mret tt
  | d :: l =>
      (if if_is_wifi d then
         SnrInterval.set_snr_interval (canon (if_name d)) interval;; SnrThreshold.set_snr_threshold (canon (if_name d)) threshold
       else mret tt);;
      station_setup interval threshold l
  end.

Lemma snr_interval_rpc hostname portnum id name v (s : link L P) p' :
  reachable host port hostname portnum = true → i32_ok id = true → id < 2 ^ 31 - 1 → i64_ok v = true →
  copyable ETHANOL_VERSION = true → brief name = true → copyable (canon name) = true →
  SnrInterval.set_snr_interval (canon name) v (peer s) = Ok (tt, p') →
  SnrInterval.send_msg_set_snr_interval hostname portnum id (canon name) None 0 v s = Ok (id + 1, Link (here s) p' []).
Proof.
  intros Hr Hid Hmax Hi Hv Hb Hc Hset. assert (canon (canon name) = canon name) as Ecc by (unfold brief in Hb; split_andb; by apply canon_idemp).
  pose (h := SnrInterval.Msg (Header MSG_SET_SNR_INTERVAL id ETHANOL_VERSION 0) (canon name) None 0 v).
  assert (msg_wf h = true) as Hwf.
  { cbn [msg_wf SnrInterval.msg_snr_interval_message]. unfold SnrInterval.wf, h.
    cbn [SnrInterval.hd SnrInterval.sta_ip SnrInterval.intf_name SnrInterval.sta_port SnrInterval.interval p_version].
    rewrite header_current, strs_ok_brief by all_brief. by rewrite Hi. }
  destruct (encode_wf h Hwf) as (n & Hn & _). assert (n ≤ 2048) as Hle.
  { pose proof (brief_canon _ Hb) as Hb'. unfold brief in Hb'. split_andb. to_prop. cbn [msg_size SnrInterval.msg_snr_interval_message] in Hn.
    unfold SnrInterval.message_size_snr_interval, h in Hn. cbn [SnrInterval.hd SnrInterval.sta_ip SnrInterval.intf_name p_version] in Hn.
    rewrite (strlen_ethanol_ok ETHANOL_VERSION), (strlen_ethanol_ok None), strlen_ethanol_ok in Hn by done. cbn [mbind res_bind] in Hn.
    change (length (text ETHANOL_VERSION)) with 5%nat in Hn. change (length (text None)) with 0%nat in Hn.
    rewrite to_u_id in Hn by (lia || in_range). injection Hn as <-. lia. }
  unfold SnrInterval.send_msg_set_snr_interval. rewrite (with_ssl_ext _ _ _ _ (notify h;; mret (id + 1))).
  - apply (notify_served h MSG_SET_SNR_INTERVAL H_msg_snr_interval n); try done.
    change (SnrInterval.process_msg_snr_interval (wire_of h) (peer s) = Ok (None, p')).
    unfold SnrInterval.process_msg_snr_interval. pose proof (wire_received h Hwf) as Hd. unfold received in Hd. rewrite Hn in Hd.
    run (lift_Ok _ (peer s) _ Hd). cbn [msg_normal SnrInterval.msg_snr_interval_message msg_resize SnrInterval.resize SnrInterval.normal h
      SnrInterval.sta_ip SnrInterval.intf_name SnrInterval.interval nonnull canon]. rewrite Ecc. by run Hset.
  - intros w. rewrite incr_below by lia. by rewrite (copy_string_canon _ Hv), (copy_string_canon _ Hc), (copy_string_canon None), Ecc.
Qed.

Lemma snr_threshold_rpc hostname portnum id name v (s : link L P) p' :
  reachable host port hostname portnum = true → i32_ok id = true → id < 2 ^ 31 - 1 → i64_ok v = true →
  copyable ETHANOL_VERSION = true → brief name = true → copyable (canon name) = true →
  SnrThreshold.set_snr_threshold (canon name) v (peer s) = Ok (tt, p') →
  SnrThreshold.send_msg_set_snr_threshold hostname portnum id (canon name) None 0 v s = Ok (id + 1, Link (here s) p' []).
Proof.
  intros Hr Hid Hmax Hi Hv Hb Hc Hset. assert (canon (canon name) = canon name) as Ecc by (unfold brief in Hb; split_andb; by apply canon_idemp).
  pose (h := SnrThreshold.Msg (Header MSG_SET_SNR_THRESHOLD id ETHANOL_VERSION 0) (canon name) None 0 v).
  assert (msg_wf h = true) as Hwf.
  { cbn [msg_wf SnrThreshold.msg_snr_threshold_message]. unfold SnrThreshold.wf, h.
    cbn [SnrThreshold.hd SnrThreshold.sta_ip SnrThreshold.intf_name SnrThreshold.sta_port SnrThreshold.threshold p_version].
    rewrite header_current, strs_ok_brief by all_brief. by rewrite Hi. }
  destruct (encode_wf h Hwf) as (n & Hn & _). assert (n ≤ 2048) as Hle.
  { pose proof (brief_canon _ Hb) as Hb'. unfold brief in Hb'. split_andb. to_prop. cbn [msg_size SnrThreshold.msg_snr_threshold_message] in Hn.
    unfold SnrThreshold.message_size_snr_threshold, h in Hn. cbn [SnrThreshold.hd SnrThreshold.sta_ip SnrThreshold.intf_name p_version] in Hn.
    rewrite (strlen_ethanol_ok ETHANOL_VERSION), (strlen_ethanol_ok None), strlen_ethanol_ok in Hn by done. cbn [mbind res_bind] in Hn.
    change (length (text ETHANOL_VERSION)) with 5%nat in Hn. change (length (text None)) with 0%nat in Hn.
    rewrite to_u_id in Hn by (lia || in_range). injection Hn as <-. lia. }
  unfold SnrThreshold.send_msg_set_snr_threshold. rewrite (with_ssl_ext _ _ _ _ (notify h;; mret (id + 1))).
  - apply (notify_served h MSG_SET_SNR_THRESHOLD H_msg_snr_threshold n); try done.
    change (SnrThreshold.process_msg_snr_threshold (wire_of h) (peer s) = Ok (None, p')).
    unfold SnrThreshold.process_msg_snr_threshold. pose proof (wire_received h Hwf) as Hd. unfold received in Hd. rewrite Hn in Hd.
    run (lift_Ok _ (peer s) _ Hd). cbn [msg_normal SnrThreshold.msg_snr_threshold_message msg_resize SnrThreshold.resize SnrThreshold.normal h
      SnrThreshold.sta_ip SnrThreshold.intf_name SnrThreshold.threshold nonnull canon]. rewrite Ecc. by run Hset.
  - intros w. rewrite incr_below by lia. by rewrite (copy_string_canon _ Hv), (copy_string_canon _ Hc), (copy_string_canon None), Ecc.
Qed.

Lemma snr_loop hostname portnum c l1 l2 id (s : link L P) p p' :
  reachable host port hostname portnum = true → copyable ETHANOL_VERSION = true →
  i64_ok (ctl_snr_interval c) = true → i64_ok (ctl_snr_threshold c) = true →
  forallb (λ d, brief (if_name d) && copyable (canon (if_name d))) l2 = true →
  - 2 ^ 31 ≤ id → id + 2 * Z.of_nat (length l2) < 2 ^ 31 → in_state c id p s →
  station_setup (ctl_snr_interval c) (ctl_snr_threshold c) l2 p = Ok (tt, p') →
  ∃ s', configure_snr hostname portnum (Some (e_normal <$> (Intf.of_fields <$> l1 ++ l2))) (length l2) (length l1) s = Ok (tt, s') ∧
    in_state c (id + 2 * wireless l2) p' s'.
Proof.
  intros Hr Hv Hi Ht. revert l1 id s p. induction l2 as [|d l2 IH]; intros l1 id s p Hn Hlo Hhi Hs Hset.
  { exists s. cbn in Hset. injection Hset as <-. split; [done|]. unfold wireless. cbn. by rewrite Z.add_0_r. }
  cbn [forallb] in Hn. split_andb. cbn [length] in Hhi. cbn [length configure_snr].
  assert (lift (array_at (Some (e_normal <$> (Intf.of_fields <$> l1 ++ d :: l2))) (length l1)) s =
    Ok (e_normal (Intf.of_fields d), s)) as Hat.
  { apply lift_Ok. unfold array_at, index. cbn. rewrite !list_lookup_fmap, list_lookup_middle by done. done. }
  run Hat. clear Hat. change (Intf.is_wifi (e_normal (Intf.of_fields d))) with (if_is_wifi d).
  change (Intf.intf_name (e_normal (Intf.of_fields d))) with (canon (if_name d)).
  cbn [station_setup] in Hset. run_inv Hset. rename s0 into p1. destruct a.
  assert (∃ s1 id1, (if if_is_wifi d then
       c ← get_controller;
       id ← SnrInterval.send_msg_set_snr_interval hostname portnum (ctl_hello_id c) (canon (if_name d)) None 0 (ctl_snr_interval c);
       set_hello_id id;;
       id ← SnrThreshold.send_msg_set_snr_threshold hostname portnum id (canon (if_name d)) None 0 (ctl_snr_threshold c);
       set_hello_id id
     else mret tt) s = Ok (tt, s1) ∧ in_state c id1 p1 s1 ∧ id ≤ id1 ≤ id + 2 ∧ id1 + 2 * wireless l2 = id + 2 * wireless (d :: l2))
    as (s1 & id1 & E1 & Hs1 & Hid1 & Ew).
  { destruct (if_is_wifi d) eqn:Ewifi.
    2: { exists s, id. injection E as <-. split_and!; [done|done|lia|lia|]. unfold wireless. rewrite filter_cons_False by congruence. done. }
    destruct Hs as [Hc Hp]. run_inv E. destruct a. rename s0 into q.
    assert (get_controller s = Ok (with_hello id c, s)) as Hget by (unfold get_controller; cbn; by rewrite Hc). run Hget. cbn [with_hello ctl_hello_id ctl_snr_interval ctl_snr_threshold].
    rewrite <- Hp in E0. run (snr_interval_rpc hostname portnum id (if_name d) (ctl_snr_interval c) s q Hr ltac:(in_range) ltac:(lia) Hi Hv ltac:(done) ltac:(done) E0).
    destruct (set_hello_in_state c id (id + 1) q (Link (here s) q [])) as (s2 & E2 & Hs2); [by split|]. run E2. destruct Hs2 as [Hc2 Hp2].
    rewrite <- Hp2 in E. run (snr_threshold_rpc hostname portnum (id + 1) (if_name d) (ctl_snr_threshold c) s2 p1 Hr ltac:(in_range) ltac:(lia) Ht Hv ltac:(done) ltac:(done) E).
    destruct (set_hello_in_state c (id + 1) (id + 1 + 1) p1 (Link (here s2) p1 [])) as (s3 & E3 & Hs3); [by split|].
    exists s3, (id + 1 + 1). split_and!; [done|done|lia|lia|]. unfold wireless. rewrite filter_cons_True by done. cbn [length]. lia. }
  run E1. rewrite <- Ew. destruct (IH (l1 ++ [d]) id1 s1 p1) as (s' & E' & Hs'); [done|lia|lia|done|done|].
  exists s'. split; [|done]. rewrite <- app_assoc, length_app, Nat.add_1_r in E'. exact E'.
Qed.

(** ** The hello event *)

(** The event is registered with [set_hello_event]. *)
Definition experiment_events (jt : Z) (jw : bool) : Events (link L P) :=
  {| p_hello_event := Some (configure_experiment jt jw); p_bye_event := None |}.

Lemma hello_event_runs jt jw hello hostname (s : link L P) :
  msg_wf hello = true →
  Hello.process_msg_hello (H3 := experiment_events jt jw) hostname (wire_of hello) s =
    (configure_experiment jt jw (Hello.device_type hello) hostname (Hello.tcp_port hello);; mret (Some (wire_of hello))) s.
Proof.
  intros Hwf. destruct (encode_wf hello Hwf) as (n & Hn & _). pose proof (wire_received hello Hwf) as Hd.
  unfold received in Hd. rewrite Hn in Hd. unfold Hello.process_msg_hello. run (lift_Ok _ s _ Hd).
  cbn [p_hello_event experiment_events]. unfold mbind, ST_bind.
  cbn [msg_normal msg_resize Hello.msg_hello_message Hello.resize Hello.normal Hello.device_type Hello.tcp_port].
  by destruct (configure_experiment _ _ _ _ _ s) as [[]|].
Qed.

(** What the first request needs of the two sides: the device can be called
    back, and its interface [wlan0] has an address that can be entered. *)
Record introduced (jt : Z) (hostname : charp) (portnum : Z) (d : interface_fields) (s : link L P) (p' : P) : Prop := {
  in_reached : reachable host port hostname portnum = true;
  in_id : - 2 ^ 31 ≤ ctl_hello_id (controller_of (here s));
  in_junk : u32_ok jt = true;
  in_version : copyable ETHANOL_VERSION = true;
  in_wlan : copyable WIRELESS_INTERFACE = true;
  in_host : copyable hostname = true;
  in_device : get_interface WIRELESS_INTERFACE (peer s) = Ok (Some d, p');
  in_index : i64_ok (if_ifindex d) = true;
  in_brief : brief (if_mac d) = true;
  in_named : named (canon (if_mac d)) = true;
  in_mac : copyable (canon (if_mac d)) = true
}.

Lemma introduced_registered jt jw device_type hostname portnum d ab (s : link L P) p' :
  introduced jt hostname portnum d s p' → ctl_hello_id (controller_of (here s)) < 2 ^ 31 - 1 →
  represents (ctl_devices (controller_of (here s))) ab →
  ∃ s' c', register_device jt jw device_type hostname portnum s = Ok (tt, s') ∧
    in_state c' (ctl_hello_id (controller_of (here s)) + 1) p' s' ∧
    ctl_snr_interval c' = ctl_snr_interval (controller_of (here s)) ∧ ctl_snr_threshold c' = ctl_snr_threshold (controller_of (here s)) ∧
    represents (ctl_devices c') (spec_op (Insert (device_side device_type) (canon (if_mac d)) hostname portnum) ab).2.
Proof. intros [] Hhi Hrep. apply device_registered; try done; [in_range|lia]. Qed.

Lemma get_in_state c id p (s : link L P) : in_state c id p s → get_controller s = Ok (with_hello id c, s).
Proof. intros [Hc _]. unfold get_controller. cbn. by rewrite Hc. Qed.

Lemma ap_configured jt jw hostname portnum d ab (s : link L P) p1 p2 :
  let id := ctl_hello_id (controller_of (here s)) in
  introduced jt hostname portnum d s p1 → represents (ctl_devices (controller_of (here s))) ab →
  id + 4 < 2 ^ 31 → copyable ETHERNET_INTERFACE = true → NetStatistics.run_ops (op_of <$> ap_setup) p1 = Ok (tt, p2) →
  ∃ s', configure_experiment jt jw 1 hostname portnum s = Ok (0, s') ∧ peer s' = p2 ∧
    ctl_hello_id (controller_of (here s')) = id + 4 ∧
    represents (ctl_devices (controller_of (here s'))) (spec_op (Insert Aps (canon (if_mac d)) hostname portnum) ab).2.
Proof.
  intros id Hin Hrep Hhi Hc Hops.
  destruct (introduced_registered jt jw 1 hostname portnum d ab s p1 Hin) as (s1 & c1 & E1 & Hs1 & _ & _ & Hrep1); [fold id; lia|done|].
  fold id in Hs1. cbn [ap_setup fmap list_fmap NetStatistics.run_ops] in Hops.
  run_inv Hops. destruct a. rename s0 into q1. run_inv Hops. destruct a. rename s0 into q2. run_inv Hops. destruct a. rename s0 into q3.
  injection Hops as <-.
  pose proof Hs1 as [_ Hp1]. rewrite <- Hp1 in E. pose proof (in_id _ _ _ _ _ _ Hin) as Hlo. fold id in Hlo.
  pose proof (ap_measures hostname portnum (id + 1) s1 q1 q2 q3 (in_reached _ _ _ _ _ _ Hin) ltac:(lia) ltac:(lia) Hc E E0 E2) as Em.
  destruct (set_hello_in_state c1 (id + 1) (id + 1 + 3) q3 (Link (here s1) q3 [])) as (s2 & E3 & [Hc2 Hp2]); [by destruct Hs1|].
  exists s2. split_and!; [|done|rewrite Hc2; cbn; lia|by rewrite Hc2].
  unfold configure_experiment. cbn [Z.eqb Pos.eqb negb andb]. run E1. rewrite (st_bind_Ok _ _ s1 tt s1) by done.
  run_inv Em. rename E4 into Ea. run_inv Em. rename E4 into Eb.
  erewrite st_bind_Ok; [reflexivity|]. run (get_in_state _ _ _ _ Hs1). cbn [with_hello ctl_hello_id]. run Ea. run Eb. run Em. exact E3.
Qed.

Lemma station_configured jt jw hostname portnum d ab (s : link L P) p1 o p2 p3 :
  let c := controller_of (here s) in let id := ctl_hello_id c in
  introduced jt hostname portnum d s p1 → represents (ctl_devices c) ab →
  i64_ok (ctl_snr_interval c) = true → i64_ok (ctl_snr_threshold c) = true →
  get_all_interfaces p1 = Ok (o, p2) → intfs_ok o = true → id + 2 + 2 * Z.of_nat (length (default [] o)) < 2 ^ 31 →
  station_setup (ctl_snr_interval c) (ctl_snr_threshold c) (default [] o) p2 = Ok (tt, p3) →
  ∃ s', configure_experiment jt jw 2 hostname portnum s = Ok (0, s') ∧ peer s' = p3 ∧
    ctl_hello_id (controller_of (here s')) = id + 2 + 2 * wireless (default [] o) ∧
    represents (ctl_devices (controller_of (here s'))) (spec_op (Insert Stations (canon (if_mac d)) hostname portnum) ab).2.
Proof.
  intros c id Hin Hrep Hi Ht Hg Ho Hhi Hset.
  destruct (introduced_registered jt jw 2 hostname portnum d ab s p1 Hin) as (s1 & c1 & E1 & Hs1 & Ei & Eth & Hrep1); [fold c id; lia|done|].
  fold c in Ei, Eth. fold c id in Hs1. pose proof (in_id _ _ _ _ _ _ Hin) as Hlo. fold c id in Hlo. pose proof Hs1 as [Hc1 Hp1].
  rewrite <- Hp1 in Hg.
  destruct (all_intf_rpc hostname portnum (id + 1) o s1 p2) as [n Hrpc];
    [apply Hin|in_range|lia|apply Hin|done|done|].
  destruct (set_hello_in_state c1 (id + 1) (id + 1 + 1) p2 (Link (here s1) p2 [])) as (s2 & E2 & Hs2); [by destruct Hs1|].
  rewrite <- Ei, <- Eth in Hset. rewrite <- Ei in Hi. rewrite <- Eth in Ht.
  assert (∃ s3, configure_snr hostname portnum (normal_array (reported_intfs o)) (length (default [] o)) 0 s2 = Ok (tt, s3) ∧
    in_state c1 (id + 1 + 1 + 2 * wireless (default [] o)) p3 s3) as (s3 & E3 & Hc3 & Hp3).
  { unfold intfs_ok in Ho. split_andb.
    destruct (snr_loop hostname portnum c1 [] (default [] o) (id + 1 + 1) s2 p2 p3 (in_reached _ _ _ _ _ _ Hin) (in_version _ _ _ _ _ _ Hin) Hi Ht) as (s3 & E3 & Hs3); [done|lia|lia|done|done|].
    exists s3. split; [|done]. destruct o as [[|i l]|]; [done|done|done]. }
  exists s3. split_and!; [|done|rewrite Hc3; cbn; lia|by rewrite Hc3].
  unfold configure_experiment. cbn [Z.eqb Pos.eqb negb andb]. run E1.
  erewrite (st_bind_Ok _ _ s1 tt s3); [done|]. run (get_in_state _ _ _ _ Hs1). cbn [with_hello ctl_hello_id]. run Hrpc. run E2.
  rewrite (st_bind_Ok _ _ s2 (all_intf (id + 1) n (Z.of_nat (length (default [] o))) (normal_array (reported_intfs o))) s2) by done.
  cbn [all_intf Intf.intf Intf.num_intf]. by rewrite Nat2Z.id.
Qed.

End registration.

(** ** A sample *)

Definition own_controller : Controlled controller := {| controller_of c := c; put_controller c _ := c |}.

(** A box at 10.0.0.3, and the hello of an access point, of a station and of
    neither. *)
Definition experiment_hello (device_type : Z) : Hello.msg_hello :=
  Hello.Msg (Header MSG_HELLO_TYPE 5 ETHANOL_VERSION 0) device_type 22223 0.
Definition experiment_start : link controller box :=
  Link (Controller (Devices ∅ None None) 0 DEFAULT_SIGNAL_THRESHOLD 0 500 (-70)) (fresh_box 0) [].
Definition experiment (device_type : Z) : res (option (list cell) * link controller box) :=
  let hello := experiment_hello device_type in
  @Hello.process_msg_hello _ (@experiment_events _ _ (box_agent true) no_net glibc_alloc own_controller
    (lit "10.0.0.1") (lit_bytes "10.0.0.3") 22223 0 false) (lit "10.0.0.3")
    (@wire_of _ (@Hello.msg_hello_message glibc_alloc) hello) experiment_start.

