(* ===== verification/StationRound.v ===== *)
(** The loop of a station in the handover experiment ([run-station.c]) and the
    experiment as a whole: the station's request, the controller's decision
    and what follows from it. *)
From stdpp Require Import prelude list strings gmap.
From Stdlib Require Import SpecFloat.
From S2P Require Import Prelude CMem CFloat MsgCommon BufferHandler World TimeStamp Rpc Linked.
From S2P Require Import MsgConfig MsgAssoc StationLink Devices Handover Servlet Agent HandoverProps.

(** What the loop calls beside the device: the link, the address of the
    interface, and the waits. *)
Class StationTools (W : Type) := {
  tool_iw_link : charp → ST W (option iw_link_info_t);
  tool_macaddress : charp → ST W (option (charp * charp));
  tool_sleep : Z → ST W unit;
  tool_nanosleep : Z * Z → ST W unit
}.

Section round.
Context {W : Type} `{Net W, Device W, Globals W, StationTools W, Allocator}.
Context (roam : charp → charp → ST W Z).

(** [5000000] when the interface has no statistics; [int] arithmetic. *)
Definition measured_snr (ns : option netlink_stats) : res Z :=
  match ns with
  | Some ns =>
      ensure (i32_ok (nl_signal ns - nl_noise ns)) SignedOverflow;;
      ensure (i32_ok (-1 * (nl_signal ns - nl_noise ns))) SignedOverflow;;
      Ok (-1 * (nl_signal ns - nl_noise ns))
  | None => Ok 5000000
  end.

(** What is done with the answer [m] of the controller; the result is the next
    message number. *)
Definition follow_answer (server_addr : charp) (server_port : Z) (intf : charp) (current : charp)
    (m : option SnrReached.msg_snr_threshold_reached) (id : Z) : ST W Z :=
  match m with
  | None => mret id
  | Some m =>
      tool_sleep 5;;
      same ← lift (streq (SnrReached.mac_ap m) current);
      if (same : bool) then mret id else
      status ← roam intf (SnrReached.mac_ap m);
      id ← ChangedAp.send_msg_changed_ap server_addr server_port id status
             (if status =? 0 then SnrReached.mac_ap m else current) intf;
      tool_sleep 15;;
      mret id
  end.

Definition ask_controller (server_addr : charp) (server_port : Z) (intf : charp) (id snr : Z) : ST W Z :=
  iwl ← tool_iw_link intf;
  maclist ← tool_macaddress intf;
  match iwl with
  | None => mret id
  | Some iwl =>
      mac ← lift (deref maclist);
      '(m, id) ← SnrReached.send_msg_snr_threshold_reached server_addr server_port id None 0 mac.2 intf
                   (il_mac_address iwl) snr;
      follow_answer server_addr server_port intf (il_mac_address iwl) m id
  end.

(** One turn of [while (true)]. *)
Definition station_round (server_addr : charp) (server_port : Z) (intf : charp) (id : Z) : ST W Z :=
  t_now ← gettimeofday;
  ns ← get_interface_stats intf;
  snr ← lift (measured_snr ns);
  snr_t ← SnrThreshold.get_snr_threshold intf;
  id ← (if snr <=? snr_t then ask_controller server_addr server_port intf id snr else mret id);
  v ← SnrInterval.get_snr_interval intf;
  t_interval ← lift (sf_to_int 64 (f64_div (f64_of_Z v) (f64_of_Z 1000)));
  t_then ← gettimeofday;
  let t_sleep := f80_sub (f80_of_Z t_interval) (diff_timeofday t_then t_now) in
  (if SFltb (f80_of_Z 0) t_sleep then
     tim ← lift (convert_double_to_timeofday t_sleep);
     tool_nanosleep tim
   else mret tt);;
  mret id.
End round.

(** ** The experiment *)

(** A string that fits a message: NULL, or some characters but less than
    100. *)
Definition short_str (p : charp) : bool :=
  cstr_ok p && (Z.of_nat (length (text p)) <? 100) && (negb (nonnull p) || (0 <? Z.of_nat (length (text p)))).

Lemma short_str_facts p : short_str p = true →
  cstr_ok p = true ∧ (p = None ∨ text p ≠ []) ∧ Z.of_nat (length (text p)) < 100.
Proof.
  unfold short_str. intros Hp. split_andb. to_prop. split_and!; [done| |done].
  destruct p as [l|]; [|by left]. right. cbn [nonnull negb orb] in *. to_prop.
  destruct (text (Some l)); [simpl in *; lia|done].
Qed.

Section experiment.
Context {L P : Type} `{AG : !Agent P, NP : !Net P, AL : !Allocator}.
Context (addr : charp) (host : list Z) (port : Z).
Context `{D : !Device (link L P), G : !Globals (link L P), T : !StationTools (link L P)}.

#[local] Instance experiment_net : Net (link L P) := linked_net host port (serve_agent addr).

(** What the tools of the station return fits a message. *)
Definition tools_ok : Prop :=
  (∀ i w l w', tool_iw_link i w = Ok (Some l, w') → short_str (il_mac_address l) = true) ∧
  (∀ i w m w', tool_macaddress i w = Ok (Some m, w') → short_str m.2 = true).

(** A request with short strings. *)
Lemma request_wf id mac intf ap snr :
  i32_ok id = true → short_str mac = true → short_str intf = true → short_str ap = true →
  i64_ok snr = true →
  let h := SnrReached.Msg (Header MSG_SET_SNR_THRESHOLD_REACHED id ETHANOL_VERSION 0) None 0
             (canon mac) (canon intf) (canon ap) snr in
  msg_wf h = true ∧ ∃ n, msg_size h = Ok n ∧ n ≤ 2048.
Proof.
  intros Hid (Hm & _ & Hml)%short_str_facts (Hi & _ & Hil)%short_str_facts (Ha & _ & Hal)%short_str_facts Hs h.
  assert (msg_wf h = true) as Hwf.
  { change (SnrReached.wf h = true). unfold SnrReached.wf, strs_ok, header_ok, h. cbn -[Z.add Z.ltb].
    rewrite !text_canon, !cstr_ok_canon by done. split_andb; to_prop; first [done|in_range|simpl; lia]. }
  split; [done|]. cbn [msg_size SnrReached.msg_snr_threshold_reached_message].
  unfold SnrReached.size_msg_snr_threshold_reached, h.
  cbn [SnrReached.hd SnrReached.sta_ip SnrReached.sta_mac SnrReached.intf_name SnrReached.mac_ap p_version].
  rewrite !strlen_ethanol_ok by (done || by apply cstr_ok_canon). cbn [mbind res_bind].
  eexists. split; [reflexivity|]. rewrite !text_canon by done.
  change (length (text ETHANOL_VERSION)) with 5%nat. change (length (text None)) with 0%nat.
  rewrite to_u_id; [lia|lia|in_range].
Qed.

(** The controller answers with the access point of the request. *)
Lemma answer_keeps_ap id mac intf ap snr (s : link L P) m s' :
  i32_ok id = true → short_str mac = true → short_str intf = true → short_str ap = true →
  i64_ok snr = true →
  exchange (SnrReached.Msg (Header MSG_SET_SNR_THRESHOLD_REACHED id ETHANOL_VERSION 0) None 0
              (canon mac) (canon intf) (canon ap) snr)
           (λ t, t =? MSG_SET_SNR_THRESHOLD_REACHED) s = Ok (Some m, s') →
  SnrReached.mac_ap m = canon ap.
Proof.
  intros Hid Hm Hi Ha Hs. set (h := SnrReached.Msg _ _ _ _ _ _ _).
  destruct (request_wf id mac intf ap snr Hid Hm Hi Ha Hs) as [Hwf (n & Hn & Hle)]. fold h in Hwf, Hn.
  destruct (serve_agent addr (wire_of h) (peer s)) as [[rep p']|] eqn:Es.
  - pose proof Es as Ep.
    rewrite (serve_routes h MSG_SET_SNR_THRESHOLD_REACHED H_msg_snr_threshold_reached n) in Ep by done.
    pose proof (handover_answer h (peer s) rep p' Hwf eq_refl Ep) as ->.
    destruct (short_str_facts mac Hm) as (Hm' & _). destruct (short_str_facts intf Hi) as (Hi' & _).
    destruct (short_str_facts ap Ha) as (Ha' & _).
    assert (received h = msg_resize h n) as Hrec.
    { unfold received. rewrite Hn. unfold h. cbn. unfold SnrReached.normal. cbn. by rewrite !canon_idemp. }
    assert (msg_wf (received h) = true) as Hwf1 by (by rewrite Hrec, msg_resize_wf).
    rewrite (linked_exchange host port (serve_agent addr) h _ s _ _ Hwf Es).
    + rewrite reply_received by (done || by rewrite Hrec). intros [= <- _]. unfold received at 1.
      rewrite Hrec, msg_resize_size, Hn. cbn. by rewrite !canon_idemp.
    + rewrite (wire_length _ n Hwf1) by (by rewrite Hrec, msg_resize_size). unfold SSL_BUFFER_SIZE. lia.
  - rewrite exchange_wf by done. unfold mbind at 1, ST_bind at 1.
    cbn [net_ssl_write experiment_net linked_net]. unfold deliver, on_peer, mbind, ST_bind. by rewrite Es.
Qed.

(** Short strings are copied faithfully, or the copy overflows. *)
Lemma copy_short p q (s s' : link L P) : short_str p = true → lift (copy_string p) s = Ok (q, s') →
  q = canon p ∧ s' = s.
Proof.
  intros (Hp & Hne & _)%short_str_facts [E ->]%lift_inv. split; [|done]. by apply copy_string_inv.
Qed.

Lemma send_keeps_ap server_addr server_port id mac intf ap snr (s : link L P) m id' s' :
  i32_ok id = true → short_str mac = true → short_str intf = true → short_str ap = true →
  i64_ok snr = true →
  SnrReached.send_msg_snr_threshold_reached server_addr server_port id None 0 mac intf ap snr s =
    Ok ((Some m, id'), s') →
  SnrReached.mac_ap m = canon ap.
Proof.
  intros Hid Hm Hi Ha Hs. unfold SnrReached.send_msg_snr_threshold_reached.
  change experiment_net with (linked_net (L:=L) host port (serve_agent addr)).
  destruct (reachable host port server_addr server_port) eqn:Hr.
  - rewrite (linked_with_ssl host port (serve_agent addr)) by done. intros E. run_inv E. apply lift_inv in E0 as [_ ->].
    run_inv E. apply copy_short in E0 as [-> ->]; [|done]. run_inv E. apply copy_short in E0 as [-> ->]; [|done].
    run_inv E. apply copy_short in E0 as [-> ->]; [|done]. run_inv E. apply lift_inv in E0 as [[= <-] ->].
    run_inv E. apply copy_short in E0 as [-> ->]; [|done]. run_inv E. injection E as -> _ _.
    by eapply answer_keeps_ap in E0.
  - by rewrite (linked_refused host port (serve_agent addr)).
Qed.

Lemma streq_same p : short_str p = true → streq (canon p) p = Ok true ∨ ∃ e, streq (canon p) p = Err e.
Proof.
  intros (Hp & [->|Hne] & _)%short_str_facts; [right; by eexists|left].
  assert (named p = true) as Hn by (destruct p; [exact Hp|done]).
  assert (named (canon p) = true) as Hc.
  { unfold named. rewrite cstr_ok_canon, andb_true_r by done. unfold canon. by destruct (text p). }
  rewrite streq_spec by done. by rewrite text_canon, bool_decide_true.
Qed.

Lemma follow_answer_same roam roam' server_addr server_port intf ap m id (s : link L P) :
  short_str ap = true → (∀ h, m = Some h → SnrReached.mac_ap h = canon ap) →
  follow_answer roam server_addr server_port intf ap m id s =
  follow_answer roam' server_addr server_port intf ap m id s.
Proof.
  intros Ha Hm. destruct m as [h|]; [|done]. unfold follow_answer. rewrite (Hm h eq_refl).
  apply st_bind_ext; [done|]. intros _ s1 _. apply st_bind_ext; [done|]. intros b s2 [E ->]%lift_inv.
  destruct (streq_same ap Ha) as [E'|[e E']]; rewrite E' in E; [by injection E as <-|done].
Qed.

(** In the handover experiment the station never changes its access point:
    whatever its link, its device and the controller's knowledge are, a turn of
    the station's loop does the same whatever roaming would do, because the
    controller's answer always names the station's own access point. *)
Theorem experiment_never_roams roam roam' server_addr server_port intf id (s : link L P) :
  tools_ok → i32_ok id = true → short_str intf = true →
  station_round roam server_addr server_port intf id s =
  station_round roam' server_addr server_port intf id s.
Proof.
  intros [Hlink Hmac] Hid Hi. unfold station_round.
  apply st_bind_ext; [done|]. intros t1 s1 _. apply st_bind_ext; [done|]. intros ns s2 _.
  apply st_bind_ext; [done|]. intros snr s3 [Es ->]%lift_inv. apply st_bind_ext; [done|]. intros v s4 _.
  apply st_bind_ext; [|done]. destruct (snr <=? v); [|done]. unfold ask_controller.
  apply st_bind_ext; [done|]. intros iwl s5 El. apply st_bind_ext; [done|]. intros ml s6 Em.
  destruct iwl as [iwl|]; [|done]. apply st_bind_ext; [done|]. intros mac s7 [Ed ->]%lift_inv.
  destruct ml as [mac'|]; [|done]. injection Ed as ->.
  apply st_bind_ext; [done|]. intros [m id'] s8 Esend. apply follow_answer_same; [by eapply Hlink|].
  intros h ->. eapply send_keeps_ap; [exact Hid|by eapply Hmac|exact Hi|by eapply Hlink| |exact Esend].
  unfold measured_snr in Es. destruct ns as [ns|]; [|by injection Es as <-].
  destruct (i32_ok (nl_signal ns - nl_noise ns)); [|done]. cbn [ensure mbind res_bind] in Es.
  destruct (i32_ok (-1 * (nl_signal ns - nl_noise ns))) eqn:E; [|done]. injection Es as <-. in_range.
Qed.
End experiment.

(** ** A station with a weak signal *)

(** The signal of [fresh_box] is its noise, the interface has the threshold 5,
    so every turn asks the controller. *)
Definition weak_link : iw_link_info_t :=
  IwLink true (lit "wlan0") (lit "lab") (lit "66:77:88:99:aa:bb") 2412 0 0 0 0 (-85) 2 100.
Definition weak_tools : StationTools (link box box) := {|
  tool_iw_link _ := mret (Some weak_link);
  tool_macaddress _ := mret (Some (lit "wlan0", lit "00:11:22:33:44:55"));
  tool_sleep _ := mret tt;
  tool_nanosleep _ := mret tt
|}.
Definition weak_station : box := Box 3 [] [] ([(lit "wlan0", 5)], []).
Definition handover_agent : Agent box := {|
  agent_device := @agent_device _ (box_agent true); agent_globals := @agent_globals _ (box_agent true);
  agent_events := no_events; agent_services := no_services;
  agent_build := {| process_station := false; handover := true |}; agent_junk := no_junk
|}.

Lemma weak_tools_ok : @tools_ok box box weak_tools.
Proof.
  split; intros i w l w' E; cbn in E; injection E as <- _; vm_compute; reflexivity.
Qed.

Definition weak_round (roam : charp → charp → ST (link box box) Z) : res (Z * link box box) :=
  @station_round _ (@experiment_net box box handover_agent no_net glibc_alloc None (lit_bytes "10.0.0.1") 22222)
    (@agent_device _ ap_agent) linked_globals weak_tools glibc_alloc roam
    (lit "10.0.0.1") 22222 (lit "wlan0") 7 (Link weak_station (fresh_box 0) []).

Lemma experiment_never_roams_witness :
  (∃ w, weak_round (λ _ _, mret 0) = Ok (8, w)) ∧
  weak_round (λ _ _, mret 0) = weak_round (λ _ _ _, Err NullDeref).
Proof.
  split; [eexists; vm_compute; reflexivity|].
  unfold weak_round.
  refine (@experiment_never_roams box box handover_agent no_net glibc_alloc None (lit_bytes "10.0.0.1") 22222
    (@agent_device _ ap_agent) linked_globals weak_tools (λ _ _, mret 0) (λ _ _ _, Err NullDeref)
    (lit "10.0.0.1") 22222 (lit "wlan0") 7 (Link weak_station (fresh_box 0) []) weak_tools_ok _ _);
    vm_compute; reflexivity.
Defined.
