(* ===== verification/ServletProps.v ===== *)
(** What [servlet] does with a request: the version check, unknown types, and the
    requests that crash it. *)
From stdpp Require Import prelude list strings.
From S2P Require Import Prelude CMem MsgCommon BufferHandler World Rpc MsgConfig MsgSystem.
From S2P Require Import MsgSession MsgTos Servlet Agent.

Section properties.
Context {W : Type} `{Net W, Device W, Globals W, Events W, Services W}.
Context `{Build, Allocator, Junk}.

(** C7: a request whose version differs from ours, whatever its type, is
    answered by an error reply with the request's identifier, and no handler
    runs. *)
Theorem servlet_version_mismatch (addr : charp) (buf : list cell) (w : W) (hd : msg_header) :
  decode_buffer decode_header buf = Ok hd → streq (p_version hd) ETHANOL_VERSION = Ok false →
  ∃ reply, answer addr buf w = Ok (Some reply, w) ∧
    decode_buffer decode_error reply =
      Ok (Header MSG_ERR_TYPE (m_id hd) ETHANOL_VERSION 26, error_code ERROR_UNKNOWN).
Proof. intros Hd Hs. exists (wire_error ERROR_UNKNOWN (m_id hd)). by eapply answer_default. Qed.

(** A request with our version and a type that is no enumerator, or an
    enumerator without a case in the [switch], gets the same error reply. *)
Theorem servlet_unknown_type (addr : charp) (buf : list cell) (w : W) (hd : msg_header) :
  decode_buffer decode_header buf = Ok hd → streq (p_version hd) ETHANOL_VERSION = Ok true →
  msg_of_code (m_type hd) ≫= dispatch = None →
  ∃ reply, answer addr buf w = Ok (Some reply, w) ∧
    decode_buffer decode_error reply =
      Ok (Header MSG_ERR_TYPE (m_id hd) ETHANOL_VERSION 26, error_code ERROR_UNKNOWN).
Proof. intros Hd Hs Hn. exists (wire_error ERROR_UNKNOWN (m_id hd)). by eapply answer_default. Qed.

(** A request whose version field is the empty string is decoded with a
    NULL version, and the version check reads through it. *)
Theorem servlet_empty_version (addr : charp) (t i n : Z) (rest : list cell) (w : W) :
  i32_ok t = true → i32_ok i = true → i32_ok n = true →
  answer addr (cells (le 4 t) ++ cells (le 4 i) ++ cells (le 4 0) ++ cells (le 4 n) ++ rest) w =
    Err NullDeref.
Proof.
  intros Ht Hi Hn. unfold answer, decode_buffer, decode_header.
  rewrite (st_bind_Ok _ _ _ _ _ (reads_int t Ht _)), (st_bind_Ok _ _ _ _ _ (reads_int i Hi _)).
  rewrite (st_bind_Ok _ _ _ _ _ (reads_char [] eq_refl eq_refl (cells (le 4 n) ++ rest))).
  by rewrite (st_bind_Ok _ _ _ _ _ (reads_int n Hn rest)).
Qed.

(** A [MSG_BYE_TYPE] message crashes the agent that receives it:
    [process_msg_bye] clears [*output] and decodes the message from it, so it
    reads through NULL for every well-formed message, callback registered or
    not. *)
Theorem bye_crashes_server (addr : charp) (h : Bye.msg_bye) (w : W) :
  msg_wf h = true → m_type (msg_head h) = msg_code MSG_BYE_TYPE →
  answer addr (wire_of h) w = Err NullDeref.
Proof. intros Hwf Ht. by rewrite (answer_routes h MSG_BYE_TYPE H_msg_bye). Qed.

(** Every well-formed [MSG_GET_DELAY] request makes the agent release two
    strings twice, once in [process_msg_delay] and once in
    [free_msg_delay]. *)
Theorem delay_double_free (addr : charp) (h : Delay.msg_delay) (w : W) :
  msg_wf h = true → m_type (msg_head h) = msg_code MSG_GET_DELAY →
  copyable (lit "wlan0") = true → copyable (lit "192.168.10.15") = true →
  answer addr (wire_of h) w = Err DoubleFree.
Proof.
  intros Hwf Ht Hc1 Hc2. rewrite (answer_routes h MSG_GET_DELAY H_msg_delay) by done.
  cbn [run_handler]. unfold Delay.process_msg_delay.
  pose proof (wire_received h Hwf) as Hr. cbn [msg_decode Delay.msg_delay_message] in Hr.
  rewrite Hr, !copy_string_canon by done. rewrite (st_bind_Ok _ _ w _ w eq_refl).
  rewrite (st_bind_Ok _ _ w _ w eq_refl), (st_bind_Ok _ _ w _ w eq_refl). cbv zeta.
  destruct (encode_wf h Hwf) as (n & Hs & _). unfold received. rewrite Hs.
  set (h' := Delay.Msg _ _ _ _ _ _).
  assert (msg_wf h' = true) as Hwf'.
  { change (Delay.wf h = true) in Hwf. unfold Delay.wf in Hwf. split_andb.
    change (Delay.wf h' = true). unfold Delay.wf, h'. cbn. cbn in Ht. unfold header_ok, normal_header in *.
    cbn in *. split_andb; done. }
  destruct (encode_wf h' Hwf') as (m & _ & He & _). rewrite msg_resize_encode in He.
  cbn [msg_encode msg_resize Delay.msg_delay_message] in He. by rewrite He.
Qed.
End properties.

(** ** The properties on a sample agent *)

Section sample.
#[local] Instance sample_agent : Agent box := box_agent false.
#[local] Instance sample_net : Net box := no_net.
#[local] Instance sample_alloc : Allocator := glibc_alloc.

(** A ping from a program of another version. *)
Definition old_ping : list cell :=
  cells (le 4 MSG_PING) ++ cells (le 4 5) ++ wire_str (lit_bytes "1.0.2") ++ cells (le 4 40).

Lemma servlet_version_mismatch_witness : ∃ reply,
  answer (lit "10.0.0.9") old_ping (fresh_box 0) = Ok (Some reply, fresh_box 0) ∧
  decode_buffer decode_error reply =
    Ok (Header MSG_ERR_TYPE 5 ETHANOL_VERSION 26, error_code ERROR_UNKNOWN).
Proof.
  apply (servlet_version_mismatch (lit "10.0.0.9") old_ping (fresh_box 0)
    (Header MSG_PING 5 (lit "1.0.2") 40)); vm_compute; reflexivity.
Defined.

Lemma servlet_unknown_type_witness : ∃ reply,
  answer (lit "10.0.0.9") (wire_header MSG_QUEUE_CREATE 5 22) (fresh_box 0) = Ok (Some reply, fresh_box 0) ∧
  decode_buffer decode_error reply =
    Ok (Header MSG_ERR_TYPE 5 ETHANOL_VERSION 26, error_code ERROR_UNKNOWN).
Proof.
  apply (servlet_unknown_type (lit "10.0.0.9") (wire_header MSG_QUEUE_CREATE 5 22) (fresh_box 0)
    (Header MSG_QUEUE_CREATE 5 ETHANOL_VERSION 22)); vm_compute; reflexivity.
Defined.

Lemma servlet_empty_version_witness :
  answer (lit "10.0.0.9")
    (cells (le 4 MSG_PING) ++ cells (le 4 5) ++ cells (le 4 0) ++ cells (le 4 16) ++ []) (fresh_box 0) =
  Err NullDeref.
Proof. apply (servlet_empty_version (lit "10.0.0.9") MSG_PING 5 16 []); reflexivity. Defined.

Definition sample_bye : Bye.msg_bye := Bye.Msg (Header MSG_BYE_TYPE 5 ETHANOL_VERSION 0) 22223.

Lemma bye_crashes_server_witness :
  answer (lit "10.0.0.9") (wire_of sample_bye) (fresh_box 0) = Err NullDeref.
Proof. apply (bye_crashes_server (lit "10.0.0.9") sample_bye); reflexivity. Defined.

Definition sample_delay : Delay.msg_delay :=
  Delay.Msg (Header MSG_GET_DELAY 5 ETHANOL_VERSION 0) (lit "wlan0") None 0 0 0.

Lemma delay_double_free_witness :
  answer (lit "10.0.0.9") (wire_of sample_delay) (fresh_box 0) = Err DoubleFree.
Proof. apply (delay_double_free (lit "10.0.0.9") sample_delay); reflexivity. Defined.

Definition sample_commands : list (list Z) :=
  [rule_command (lit_bytes "-A PREROUTING -i") (lit "/sbin/iptables") (received sample_rule);
   rule_command (lit_bytes "-A OUTPUT -o") (lit "/sbin/iptables") (received sample_rule)].

Lemma tos_add_runs_two_rules_witness :
  @Tos.process_msg_tos_add box box_device (wire_of sample_rule) (fresh_box 0) =
    Ok (None, Box 0 [] sample_commands ([], [])).
Proof.
  apply (@tos_add_runs_two_rules box box_device sample_alloc sample_rule (lit "/sbin/iptables") (fresh_box 0)
    (fresh_box 0) (Box 0 [] (tail sample_commands) ([], []))); try reflexivity; discriminate.
Defined.
End sample.
