(* ===== verification/EndToEnd.v ===== *)
(** Whole exchanges: a [send_] function on one side, the network, [servlet]'s
    [answer] and the handler on the other side, and the relay of a request
    through an access point to a station. *)
From stdpp Require Import prelude list strings.
From S2P Require Import Prelude CMem MsgCommon BufferHandler World Rpc Linked MsgConfig.
From S2P Require Import MsgTraffic Counters MsgSession MsgLists Servlet Agent.

Section agent.
Context {L P : Type} {AG : Agent P} {NP : Net P} {AL : Allocator} (addr : charp).
Context {T : Type} `{CounterOk T}.
Context (host : list Z) (port : Z).
Let N : Net (link L P) := linked_net host port (serve_agent addr).

(** The agent's answer to a counter request is its handler's. *)
Lemma serve_counter k send local id n i s p v w :
  dispatch ctr_type = Some k →
  (∀ a b, agent_handler k a b = counter_process (T:=T) send local b) →
  i32_ok id = true → brief i = true → brief s = true → i32_ok p = true → i64_ok v = true →
  let req := ctr_make (Header ctr_type id ETHANOL_VERSION n) i s p v in
  serve_agent addr (wire_of req) w = counter_process (T:=T) send local (wire_of req) w.
Proof.
  intros Hk Hrun Hid Hi Hs Hp Hv req.
  destruct (current_received id n i s p v Hi Hs) as (m & Hm & _ & Hsz & _).
  rewrite (serve_routes req ctr_type k m); [by rewrite Hrun|by apply current_wf| |done|done|lia].
  unfold req. by rewrite (proj1 (ctr_proj _ _ _ _ _)).
Qed.

(** The reply to a counter request is accepted by the client and carries the
    value. *)
Lemma counter_reply_ok id k i s p x :
  i32_ok id = true → brief i = true → brief s = true → i32_ok p = true → i64_ok x = true →
  let rep := ctr_make (Header ctr_type id ETHANOL_VERSION k) i s p x : T in
  msg_wf rep = true ∧ m_type (msg_head rep) = ctr_type ∧
  Z.of_nat (length (wire_of rep)) ≤ SSL_BUFFER_SIZE ∧
  ctr_value (received rep) = x ∧ ctr_intf (received rep) = canon i ∧ ctr_sta (received rep) = canon s.
Proof.
  intros Hid Hi Hs Hp Hx rep. assert (msg_wf rep = true) as Hwf by (by apply current_wf).
  destruct (current_received id k i s p x Hi Hs) as (m & Hm & _ & Hsz & Hrec).
  unfold rep at 4 5 6. rewrite Hrec.
  destruct (ctr_proj (T:=T) (Header ctr_type id ETHANOL_VERSION m) (canon i) (canon s) p x)
    as (_ & -> & -> & _ & ->).
  rewrite (wire_length rep m Hwf Hsz). split_and!; try done.
  - unfold rep. by rewrite (proj1 (ctr_proj _ _ _ _ _)).
  - unfold SSL_BUFFER_SIZE. lia.
Qed.

(** A request served by the agent's own counter. *)
Lemma counter_rpc k send local hostname portnum id intf sta_port s x p' :
  dispatch ctr_type = Some k →
  (∀ a b, agent_handler k a b = counter_process (T:=T) send local b) →
  reachable host port hostname portnum = true →
  i32_ok id = true → id ≠ 2 ^ 31 - 1 → i32_ok sta_port = true →
  copyable ETHANOL_VERSION = true → copyable intf = true → brief intf = true →
  local (canon intf) (peer s) = Ok (x, p') → i64_ok x = true →
  ∃ h1 : T, @counter_send _ N _ T _ _ hostname portnum id intf None sta_port s =
      Ok ((Some h1, id + 1), Link (here s) p' []) ∧
    ctr_value h1 = x ∧ ctr_intf h1 = canon intf ∧ ctr_sta h1 = None.
Proof.
  intros Hk Hrun Hr Hid Hmax Hp Hv Hc Hi Hl Hx.
  pose proof (brief_canon _ Hi) as Hi'. pose proof (canon_idemp intf (copyable_ok _ Hc)) as Hci.
  destruct (counter_process_local send local id 0 (canon intf) sta_port 0 (peer s) x p')
    as (m & Hm & Hproc); try done; [by rewrite Hci|].
  rewrite Hci in Hproc.
  destruct (counter_reply_ok id m (canon intf) None sta_port x) as (Hwf & Ht & Hlen & Ev & Ei & Es); try done.
  eexists. split; [eapply counter_call; try done|by rewrite Ev, Ei, Es, Hci].
  by rewrite (serve_counter k send local) by done.
Qed.
End agent.

(** A controller, an access point and a station.  The access point's world
    holds the station as its peer. *)
Section relay.
Context {L LA S : Type} `{!Agent S, !Net S, !Agent (link LA S), !Allocator}.
Context (addr addr' : charp) (host host' : list Z) (port port' : Z).

(** The access point reaches the station at [host']:[port']. *)
Definition ap_net : Net (link LA S) := linked_net host' port' (serve_agent addr').
(** The controller reaches the access point at [host]:[port]. *)
Definition controller_net : Net (link L (link LA S)) :=
  linked_net host port (@serve_agent _ _ ap_net _ addr).

Context {T : Type} `{CounterOk T}.

Lemma counter_relay k send_s local_s local_ap (s : link L (link LA S))
    hostname portnum id intf sta sta_port x s' :
  dispatch ctr_type = Some k →
  (∀ a b, agent_handler (W:=S) k a b = counter_process (T:=T) send_s local_s b) →
  (∀ a b, @agent_handler _ _ ap_net _ k a b =
     counter_process (T:=T) (@counter_send _ ap_net _ T _ _) local_ap b) →
  reachable host port hostname portnum = true →
  reachable host' port' (canon sta) sta_port = true →
  i32_ok id = true → id ≠ 2 ^ 31 - 1 → i32_ok sta_port = true →
  copyable ETHANOL_VERSION = true → copyable intf = true → brief intf = true →
  copyable (canon intf) = true → copyable sta = true → brief sta = true → text sta ≠ [] →
  local_s (canon intf) (peer (peer s)) = Ok (x, s') → i64_ok x = true →
  ∃ h1 : T, @counter_send _ controller_net _ T _ _ hostname portnum id intf sta sta_port s =
      Ok ((Some h1, id + 1), Link (here s) (Link (here (peer s)) s' []) []) ∧
    ctr_value h1 = x ∧ ctr_intf h1 = canon intf ∧ ctr_sta h1 = canon sta.
Proof.
  intros Hk Hrs Hra Hr Hr' Hid Hmax Hp Hv Hc Hi Hcc Hcs Hs Hne Hl Hx.
  pose proof (brief_canon _ Hi) as Hi'. pose proof (brief_canon _ Hs) as Hs'.
  pose proof (canon_idemp intf (copyable_ok _ Hc)) as Hci.
  pose proof (canon_idemp sta (copyable_ok _ Hcs)) as Hcis.
  destruct (counter_rpc (L:=LA) addr' host' port' k send_s local_s (canon sta) sta_port id
    (canon intf) 0 (peer s) x s') as (h2 & Hcall & Ev2 & _); try done; [by rewrite Hci|].
  destruct (counter_process_station (@counter_send _ ap_net _ T _ _) local_ap id 0
    (canon intf) (canon sta) sta_port 0 (peer s) (Some h2) (id + 1) (Link (here (peer s)) s' []) x)
    as (m & Hm & Hproc); try done.
  { by rewrite text_canon by (by apply copyable_ok). }
  { by rewrite Hci, Hcis. }
  rewrite Hci, Hcis in Hproc.
  destruct (counter_reply_ok (T:=T) id m (canon intf) (canon sta) sta_port x)
    as (Hwf & Ht & Hlen & Ev & Ei & Es); try done.
  eexists. split; [eapply counter_call; try done|by rewrite Ev, Ei, Es, Hci, Hcis].
  by rewrite (serve_counter (NP:=ap_net) addr k (@counter_send _ ap_net _ T _ _) local_ap) by done.
Qed.

(** The station cannot be reached: the request's own value comes back. *)
Lemma counter_unreachable k local_ap (s : link L (link LA S)) hostname portnum id intf sta sta_port :
  dispatch ctr_type = Some k →
  (∀ a b, @agent_handler _ _ ap_net _ k a b =
     counter_process (T:=T) (@counter_send _ ap_net _ T _ _) local_ap b) →
  reachable host port hostname portnum = true →
  reachable host' port' (canon sta) sta_port = false →
  i32_ok id = true → id ≠ 2 ^ 31 - 1 → i32_ok sta_port = true →
  copyable ETHANOL_VERSION = true → copyable intf = true → brief intf = true →
  copyable sta = true → brief sta = true → text sta ≠ [] →
  ∃ h1 : T, @counter_send _ controller_net _ T _ _ hostname portnum id intf sta sta_port s =
      Ok ((Some h1, id + 1), Link (here s) (peer s) []) ∧ ctr_value h1 = 0.
Proof.
  intros Hk Hra Hr Hr' Hid Hmax Hp Hv Hc Hi Hcs Hs Hne.
  pose proof (brief_canon _ Hi) as Hi'. pose proof (brief_canon _ Hs) as Hs'.
  pose proof (canon_idemp intf (copyable_ok _ Hc)) as Hci.
  pose proof (canon_idemp sta (copyable_ok _ Hcs)) as Hcis.
  destruct (counter_process_station (@counter_send _ ap_net _ T _ _) local_ap id 0
    (canon intf) (canon sta) sta_port 0 (peer s) None id (peer s) 0)
    as (m & Hm & Hproc); try done.
  { by rewrite text_canon by (by apply copyable_ok). }
  { rewrite Hcis. by apply linked_refused. }
  rewrite Hci, Hcis in Hproc.
  destruct (counter_reply_ok (T:=T) id m (canon intf) (canon sta) sta_port 0)
    as (Hwf & Ht & Hlen & Ev & Ei & Es); try done.
  eexists. split; [eapply counter_call; try done|by rewrite Ev].
  by rewrite (serve_counter (NP:=ap_net) addr k (@counter_send _ ap_net _ T _ _) local_ap) by done.
Qed.
End relay.

(** ** Exchanges *)

(** C1: asking an agent for the bytes received on one of its interfaces, with
    [send_msg_bytesreceived] over the network, the dispatch of [servlet] and
    [process_msg_bytesreceived], returns the counter the agent's own device
    reports, and changes the agent only as that reading does. *)
Theorem bytes_received_rpc {L P} `{!Agent P, !Net P, !Allocator} (addr : charp)
    (host : list Z) (port : Z) (hostname : charp) (portnum id : Z) (intf : charp)
    (s : link L P) (x : Z) (p' : P) :
  reachable host port hostname portnum = true →
  i32_ok id = true → id ≠ 2 ^ 31 - 1 →
  copyable ETHANOL_VERSION = true → copyable intf = true → brief intf = true →
  BytesReceived.bytes_received_local (canon intf) (peer s) = Ok (x, p') → i64_ok x = true →
  ∃ h1, @BytesReceived.send_msg_bytesreceived _ (linked_net host port (serve_agent addr)) _
          hostname portnum id intf None 0 s =
      Ok ((Some h1, id + 1), Link (here s) p' []) ∧
    BytesReceived.bytes_received h1 = x ∧ BytesReceived.intf_name h1 = canon intf.
Proof.
  intros. destruct (counter_rpc (T:=BytesReceived.msg_bytesreceived) (L:=L) addr host port
    H_msg_bytesreceived counter_send BytesReceived.bytes_received_local hostname portnum id intf 0 s x p')
    as (h1 & Hc & Hv & Hi & _); try done. by exists h1.
Qed.

Lemma bytes_received_rpc_witness : let A := box_agent false in let N := @no_net box in
  ∃ h1, @BytesReceived.send_msg_bytesreceived (link unit box)
          (linked_net (lit_bytes "10.0.0.2") 22223
             (@serve_agent box A N glibc_alloc (lit "10.0.0.1"))) glibc_alloc
          (lit "10.0.0.2") 22223 7 (lit "wlan0") None 0 (Link tt (fresh_box 1500) []) =
      Ok ((Some h1, 8), Link tt (fresh_box 1500) []) ∧
    BytesReceived.bytes_received h1 = 1500 ∧ BytesReceived.intf_name h1 = lit "wlan0".
Proof.
  intros A N.
  apply (@bytes_received_rpc unit box A N glibc_alloc (lit "10.0.0.1") (lit_bytes "10.0.0.2") 22223
    (lit "10.0.0.2") 22223 7 (lit "wlan0") (Link tt (fresh_box 1500) []) 1500 (fresh_box 1500));
    reflexivity || done.
Defined.

(** C2: a controller that asks an access point for the bytes sent by a station
    gets the counter of the station: the access point finds the station's
    address and port in the request, asks the station with the same message
    and copies the answer; its own device is not read. *)
Theorem bytes_sent_relay {L LA S} {AS : Agent S} {NS : Net S} {AP : Agent (link LA S)} {AL : Allocator}
    (addr addr' : charp) (host host' : list Z) (port port' : Z)
    (hostname : charp) (portnum id : Z) (intf sta : charp) (sta_port : Z)
    (s : link L (link LA S)) (x : Z) (s' : S) :
  reachable host port hostname portnum = true →
  reachable host' port' (canon sta) sta_port = true →
  i32_ok id = true → id ≠ 2 ^ 31 - 1 → i32_ok sta_port = true →
  copyable ETHANOL_VERSION = true → copyable intf = true → brief intf = true →
  copyable (canon intf) = true → copyable sta = true → brief sta = true → text sta ≠ [] →
  @BytesSent.bytes_sent_local S _ (@agent_build S _) (canon intf) (peer (peer s)) = Ok (x, s') →
  i64_ok x = true →
  ∃ h1, @BytesSent.send_msg_bytessent _ (controller_net addr addr' host host' port port') _
          hostname portnum id intf sta sta_port s =
      Ok ((Some h1, id + 1), Link (here s) (Link (here (peer s)) s' []) []) ∧
    BytesSent.bytes_sent h1 = x ∧ BytesSent.intf_name h1 = canon intf ∧
    BytesSent.sta_ip h1 = canon sta.
Proof.
  intros. pose (N := ap_net (LA:=LA) addr' host' port').
  destruct (counter_relay (T:=BytesSent.msg_bytessent) (L:=L) addr addr' host host' port port'
    H_msg_bytessent (@counter_send S NS AL BytesSent.msg_bytessent _ _)
    (@BytesSent.bytes_sent_local S _ (@agent_build S _))
    (@BytesSent.bytes_sent_local (link LA S) _ (@agent_build (link LA S) _))
    s hostname portnum id intf sta sta_port x s') as (h1 & Hc & Hv & Hi & Hs); try done.
  by exists h1.
Qed.

Lemma bytes_sent_relay_witness :
  let s := Link tt (Link (fresh_box 1) (fresh_box 987654321) []) [] in
  ∃ h1, @BytesSent.send_msg_bytessent (link unit (link box box))
      (@controller_net unit box box (box_agent true) no_net ap_agent glibc_alloc
         (lit "10.0.0.1") (lit "10.0.0.2") (lit_bytes "10.0.0.2") (lit_bytes "10.0.0.3") 22223 22224)
      glibc_alloc (lit "10.0.0.2") 22223 7 (lit "wlan0") (lit "10.0.0.3") 22224 s =
      Ok ((Some h1, 8), s) ∧
    BytesSent.bytes_sent h1 = 987654321 ∧ BytesSent.intf_name h1 = lit "wlan0" ∧
    BytesSent.sta_ip h1 = lit "10.0.0.3".
Proof.
  intros s.
  apply (@bytes_sent_relay unit box box (box_agent true) no_net ap_agent glibc_alloc
    (lit "10.0.0.1") (lit "10.0.0.2") (lit_bytes "10.0.0.2") (lit_bytes "10.0.0.3") 22223 22224
    (lit "10.0.0.2") 22223 7 (lit "wlan0") (lit "10.0.0.3") 22224 s 987654321 (fresh_box 987654321));
    reflexivity || done.
Defined.

(** When the access point cannot connect to the station, it still answers:
    the controller receives a reply of the requested type whose counter is 0,
    the value its own request carried, so the failure is not reported. *)
Theorem bytes_sent_unreachable {L LA S} {AS : Agent S} {NS : Net S} {AP : Agent (link LA S)}
    {AL : Allocator} (addr addr' : charp) (host host' : list Z) (port port' : Z)
    (hostname : charp) (portnum id : Z) (intf sta : charp) (sta_port : Z) (s : link L (link LA S)) :
  reachable host port hostname portnum = true →
  reachable host' port' (canon sta) sta_port = false →
  i32_ok id = true → id ≠ 2 ^ 31 - 1 → i32_ok sta_port = true →
  copyable ETHANOL_VERSION = true → copyable intf = true → brief intf = true →
  copyable sta = true → brief sta = true → text sta ≠ [] →
  ∃ h1, @BytesSent.send_msg_bytessent _ (controller_net addr addr' host host' port port') _
          hostname portnum id intf sta sta_port s =
      Ok ((Some h1, id + 1), Link (here s) (peer s) []) ∧ BytesSent.bytes_sent h1 = 0.
Proof.
  intros. pose (N := ap_net (LA:=LA) addr' host' port').
  destruct (counter_unreachable (T:=BytesSent.msg_bytessent) (L:=L) addr addr' host host' port port'
    H_msg_bytessent (@BytesSent.bytes_sent_local (link LA S) _ (@agent_build (link LA S) _))
    s hostname portnum id intf sta sta_port) as (h1 & Hc & Hv); try done.
  by exists h1.
Qed.

Lemma bytes_sent_unreachable_witness :
  let s := Link tt (Link (fresh_box 1) (fresh_box 987654321) []) [] in
  ∃ h1, @BytesSent.send_msg_bytessent (link unit (link box box))
      (@controller_net unit box box (box_agent true) no_net ap_agent glibc_alloc
         (lit "10.0.0.1") (lit "10.0.0.2") (lit_bytes "10.0.0.2") (lit_bytes "10.0.0.3") 22223 22224)
      glibc_alloc (lit "10.0.0.2") 22223 7 (lit "wlan0") (lit "10.0.0.9") 22224 s =
      Ok ((Some h1, 8), s) ∧ BytesSent.bytes_sent h1 = 0.
Proof.
  intros s.
  apply (@bytes_sent_unreachable unit box box (box_agent true) no_net ap_agent glibc_alloc
    (lit "10.0.0.1") (lit "10.0.0.2") (lit_bytes "10.0.0.2") (lit_bytes "10.0.0.3") 22223 22224
    (lit "10.0.0.2") 22223 7 (lit "wlan0") (lit "10.0.0.9") 22224 s); reflexivity || done.
Defined.

(** Setting the MTU of an agent's interface over the network applies
    exactly the device operation with the requested interface and value, and
    the request has no reply. *)
Theorem set_mtu_rpc {L P} `{!Agent P, !Net P, !Allocator} (addr : charp)
    (host : list Z) (port : Z) (hostname : charp) (portnum id : Z) (intf : charp) (mtu : Z)
    (s : link L P) (p' : P) :
  reachable host port hostname portnum = true →
  i32_ok id = true → id ≠ 2 ^ 31 - 1 → i32_ok mtu = true →
  copyable ETHANOL_VERSION = true → copyable intf = true → brief intf = true →
  set_mtu (canon intf) mtu (peer s) = Ok (tt, p') →
  @Mtu.send_msg_set_mtu _ (linked_net host port (serve_agent addr)) _
     hostname portnum id intf None 0 mtu s = Ok (id + 1, Link (here s) p' []).
Proof.
  intros Hr Hid Hmax Hm Hv Hc Hi Hset.
  pose (N := linked_net (L:=L) host port (serve_agent addr)).
  pose (h := Mtu.Msg (Header MSG_SET_MTU id ETHANOL_VERSION 0) None 0 (canon intf) mtu).
  assert (msg_wf h = true) as Hwf.
  { cbn [msg_wf Mtu.msg_mtu_message]. unfold Mtu.wf, h. cbn [Mtu.hd Mtu.sta_ip Mtu.intf_name Mtu.sta_port Mtu.mtu p_version].
    rewrite header_current, strs_ok_brief by all_brief. done. }
  unfold Mtu.send_msg_set_mtu. fold N.
  rewrite (with_ssl_ext _ _ _ _ (notify h;; mret (id + 1))).
  - apply (linked_notify host port (serve_agent addr) h hostname portnum id (id + 1) s None p' Hwf Hr).
    unfold brief in Hi. split_andb. to_prop.
    pose proof (text_canon intf ltac:(done)) as Et. pose proof (cstr_ok_canon intf ltac:(done)).
    assert (msg_size h = Ok (40 + Z.of_nat (length (text intf)))) as Hsz.
    { cbn [msg_size Mtu.msg_mtu_message]. unfold Mtu.size_msg_set_mtu, h.
      cbn [Mtu.hd Mtu.sta_ip Mtu.intf_name p_version].
      rewrite (strlen_ethanol_ok ETHANOL_VERSION), (strlen_ethanol_ok None), strlen_ethanol_ok by done.
      cbn [mbind res_bind]. rewrite Et. change (length (text ETHANOL_VERSION)) with 5%nat.
      change (length (text None)) with 0%nat. rewrite to_u_id by (lia || in_range). f_equal. lia. }
    rewrite (serve_routes h MSG_SET_MTU H_msg_set_mtu _ addr _ Hwf eq_refl eq_refl Hsz) by lia.
    change (Mtu.process_msg_set_mtu (wire_of h) (peer s) = Ok (None, p')).
    unfold Mtu.process_msg_set_mtu.
    pose proof (wire_received h Hwf) as Hd. cbn [msg_decode Mtu.msg_mtu_message] in Hd. rewrite Hd.
    rewrite (st_bind_Ok _ _ (peer s) _ (peer s) eq_refl).
    unfold received. rewrite Hsz. cbn. change (canon None) with (@None (list cell)).
    cbn [nonnull]. rewrite canon_idemp by done. by run Hset.
  - intros w. unfold incr_int. rewrite (proj2 (Z.eqb_neq _ _) Hmax).
    by rewrite !copy_string_canon by done.
Qed.

Lemma set_mtu_rpc_witness : let A := box_agent false in let N := @no_net box in
  @Mtu.send_msg_set_mtu (link unit box)
     (linked_net (lit_bytes "10.0.0.2") 22223
        (@serve_agent box A N glibc_alloc (lit "10.0.0.1"))) glibc_alloc
     (lit "10.0.0.2") 22223 7 (lit "wlan0") None 0 1400 (Link tt (fresh_box 0) []) =
  Ok (8, Link tt (Box 0 [(lit "wlan0", 1400)] [] ([], [])) []).
Proof.
  intros A N.
  apply (@set_mtu_rpc unit box A N glibc_alloc (lit "10.0.0.1") (lit_bytes "10.0.0.2") 22223
    (lit "10.0.0.2") 22223 7 (lit "wlan0") 1400 (Link tt (fresh_box 0) [])); reflexivity || done.
Defined.

(** ** Interfaces *)

(** A device with two interfaces and no statistics. *)
Definition blind_device : Device box := {|
  get_statistics _ := mret (all_stats (-1));
  get_interface_stats _ := mret None;
  get_snr_ap := @get_snr_ap box box_device; get_cpu_info := @get_cpu_info box box_device;
  get_mem_porcentage := @get_mem_porcentage box box_device;
  get_tx_power_iwconfig := @get_tx_power_iwconfig box box_device;
  ap_set_txpower := @ap_set_txpower box box_device;
  system_set_txpower := @system_set_txpower box box_device;
  wapi_get_txpower := @wapi_get_txpower box box_device;
  get_powersave_mode := @get_powersave_mode box box_device;
  set_powersave_mode := @set_powersave_mode box box_device;
  is_80211e_enabled := @is_80211e_enabled box box_device; set_mtu := @set_mtu box box_device;
  set_txqueuelen := @set_txqueuelen box box_device;
  read_proc_uptime := @read_proc_uptime box box_device;
  roam_change_ap := @roam_change_ap box box_device;
  get_all_interfaces := mret (Some [InterfaceFields 1 (lit "lo") None 0 false;
    InterfaceFields 3 (lit "wlan0") (lit "00:11:22:33:44:55") 0 true]);
  get_interface := @get_interface box box_device; get_acs := @get_acs box box_device;
  which_path := @which_path box box_device; run_system := @run_system box box_device;
  device_clock := @device_clock box box_device;
  f_get_wiphy := None; f_get_current_frequency := None; f_set_current_frequency := None;
  f_get_current_channel := None; f_set_current_channel := None; f_get_noise := None;
  wapi_get_freq := @wapi_get_freq box box_device; wapi_set_freq := @wapi_set_freq box box_device;
  wapi_chan2freq := @wapi_chan2freq box box_device;
  get_wlan_frequency := @get_wlan_frequency box box_device;
  get_sta_link_information := @get_sta_link_information box box_device;
  get_survey_info := @get_survey_info box box_device; get_channels := @get_channels box box_device;
  get_bitrate := @get_bitrate box box_device;
  return_phy_from_intf_name := @return_phy_from_intf_name box box_device;
  get_bitrates := @get_bitrates box box_device; set_iw_bitrates := @set_iw_bitrates box box_device
|}.

Definition blind_agent : Agent box := {|
  agent_device := blind_device; agent_globals := box_globals;
  agent_events := no_events; agent_services := no_services;
  agent_build := {| process_station := false; handover := false |}; agent_junk := no_junk
|}.

(** Asking for all the interfaces ([n == 0]) returns the device's
    interfaces with their index, name and address, in the device's order. *)
Theorem mac_lists_all_interfaces {W} `{Device W, Allocator} (h : Mac.msg_mac) (w w' : W)
    (d : list interface_fields) :
  msg_wf h = true → Mac.n h = 0 → get_all_interfaces w = Ok (Some d, w') →
  let reply k := Mac.Msg (Header (m_type (Mac.hd h)) (m_id (Mac.hd h)) ETHANOL_VERSION k)
    (Z.of_nat (length d)) (Some (map Mac.entry_of d)) in
  Mac.wf (reply 0) = true →
  ∃ k, Mac.process_msg_mac (wire_of h) w = Ok (Some (wire_of (reply k)), w').
Proof.
  intros Hwf Hn Hd reply Hr. unfold Mac.process_msg_mac.
  pose proof (wire_received h Hwf) as Hdec. cbn [msg_decode Mac.msg_mac_message] in Hdec. rewrite Hdec.
  rewrite (st_bind_Ok _ _ w _ w eq_refl).
  destruct (encode_wf h Hwf) as (k & Hs & _). unfold received. rewrite Hs.
  assert (Mac.n (msg_normal (msg_resize h k)) = 0) as -> by done. cbn [Z.eqb].
  exists k. assert (msg_wf (reply k) = true) as Hwfk by exact Hr.
  destruct (wire_encode (reply k) Hwfk) as [h' He]. cbn [msg_encode Mac.msg_mac_message] in He.
  unfold mbind at 1, ST_bind at 1. unfold mbind at 1, ST_bind at 1. rewrite Hd.
  cbn [mret ST_ret]. rewrite to_u_id; [|lia|].
  - unfold mbind, ST_bind, lift. change (Mac.hd (msg_normal (msg_resize h k))) with
      (Header (m_type (Mac.hd h)) (m_id (Mac.hd h)) ETHANOL_VERSION k). fold (reply k). by rewrite He.
  - unfold Mac.wf, reply in Hr. cbn [Mac.m Mac.n] in Hr. split_andb. to_prop.
    pose proof (Mac.entries_len_nonneg (map Mac.entry_of d)) as Hl. rewrite length_map in Hl. in_range.
Qed.

Lemma mac_lists_all_interfaces_witness :
  let h := Mac.Msg (Header MSG_GET_MAC 7 ETHANOL_VERSION 0) 0 None in
  ∃ k, @Mac.process_msg_mac box blind_device glibc_alloc
      (@wire_of _ (@Mac.msg_mac_message glibc_alloc) h) (fresh_box 0) =
    Ok (Some (@wire_of _ (@Mac.msg_mac_message glibc_alloc)
      (Mac.Msg (Header MSG_GET_MAC 7 ETHANOL_VERSION k) 2
        (Some [Mac.Imac 1 (lit "lo") None; Mac.Imac 3 (lit "wlan0") (lit "00:11:22:33:44:55")]))), fresh_box 0).
Proof.
  intros h. apply (@mac_lists_all_interfaces box blind_device glibc_alloc h (fresh_box 0) (fresh_box 0)
    [InterfaceFields 1 (lit "lo") None 0 false; InterfaceFields 3 (lit "wlan0") (lit "00:11:22:33:44:55") 0 true]);
    reflexivity.
Defined.

(** Asking a peer for all its interfaces, with a NULL interface name, ends
    in a NULL dereference once the reply has been decoded: the clean-up reads
    [h.m[0].intf_name] although [h.m] is NULL. *)
Theorem get_mac_all_crash {L P} `{!Allocator} (serve : list cell → ST P (option (list cell)))
    (host : list Z) (port : Z) (hostname : charp) (portnum id : Z) (s : link L P)
    (rep : list cell) (p' : P) (r : option Mac.msg_mac) :
  reachable host port hostname portnum = true →
  i32_ok id = true → id ≠ 2 ^ 31 - 1 → copyable ETHANOL_VERSION = true →
  serve (wire_of (Mac.Msg (Header MSG_GET_MAC id ETHANOL_VERSION 0) 0 None)) (peer s) =
    Ok (Some rep, p') →
  Z.of_nat (length rep) ≤ SSL_BUFFER_SIZE → reply_of (λ t, t =? MSG_GET_MAC) rep = Ok r →
  @Mac.send_msg_get_mac _ (linked_net host port serve) _ hostname portnum id None s = Err NullDeref.
Proof.
  intros Hr Hid Hmax Hv Hs Hl Hrep. unfold Mac.send_msg_get_mac.
  rewrite linked_with_ssl by done. unfold incr_int. rewrite (proj2 (Z.eqb_neq _ _) Hmax).
  rewrite (copy_string_canon ETHANOL_VERSION) by done. cbn [nonnull].
  unfold mbind, ST_bind, lift, mret, ST_ret.
  assert (msg_wf (Mac.Msg (Header MSG_GET_MAC id ETHANOL_VERSION 0) 0 None) = true) as Hwf.
  { change (Mac.wf (Mac.Msg (Header MSG_GET_MAC id ETHANOL_VERSION 0) 0 None) = true).
    unfold Mac.wf. cbn [Mac.hd Mac.m Mac.n p_version]. by rewrite header_current. }
  pose proof (linked_exchange (L:=L) host port serve _ (λ t, t =? MSG_GET_MAC) s rep p' Hwf Hs Hl) as He.
  rewrite Hrep in He. cbn [mbind res_bind] in He. change (canon ETHANOL_VERSION) with ETHANOL_VERSION. by rewrite He.
Qed.

(** The reply of [blind_agent] and what its reader decodes. *)
Definition sample_mac_reply : list cell :=
  match @serve_agent box blind_agent no_net glibc_alloc (lit "10.0.0.1")
          (@wire_of _ (@Mac.msg_mac_message glibc_alloc)
             (Mac.Msg (Header MSG_GET_MAC 7 ETHANOL_VERSION 0) 0 None)) (fresh_box 0) with
  | Ok (Some rep, _) => rep
  | _ => []
  end.
Definition sample_mac_decoded : option Mac.msg_mac :=
  match @reply_of _ (@Mac.msg_mac_message glibc_alloc) (λ t, t =? MSG_GET_MAC) sample_mac_reply with
  | Ok r => r
  | Err _ => None
  end.

Lemma get_mac_all_crash_witness :
  @Mac.send_msg_get_mac (link unit box)
    (linked_net (lit_bytes "10.0.0.2") 22223
      (@serve_agent box blind_agent no_net glibc_alloc (lit "10.0.0.1"))) glibc_alloc
    (lit "10.0.0.2") 22223 7 None (Link tt (fresh_box 0) []) = Err NullDeref.
Proof.
  apply (@get_mac_all_crash unit box glibc_alloc
    (@serve_agent box blind_agent no_net glibc_alloc (lit "10.0.0.1"))
    (lit_bytes "10.0.0.2") 22223 (lit "10.0.0.2") 22223 7 (Link tt (fresh_box 0) [])
    sample_mac_reply (fresh_box 0) sample_mac_decoded).
  - reflexivity.
  - reflexivity.
  - discriminate.
  - reflexivity.
  - vm_compute. reflexivity.
  - vm_compute. discriminate.
  - vm_compute. reflexivity.
Defined.

(** ** Ping *)

(** The caller's clock works and its times fit a [long] in microseconds. *)
Definition clock_ok (L : Type) `{Device L} : Prop :=
  ∀ l : L, ∃ t l', gettimeofday l = Ok (t, l') ∧ 0 ≤ t.1 < 2 ^ 40 ∧ 0 ≤ t.2 < 1000000.

Lemma timeval_subtract_ok (b e : Z * Z) :
  0 ≤ b.1 < 2 ^ 40 → 0 ≤ b.2 < 1000000 → 0 ≤ e.1 < 2 ^ 40 → 0 ≤ e.2 < 1000000 →
  ∃ x, timeval_subtract e b = Ok x.
Proof.
  intros. unfold timeval_subtract. rewrite ensure_Ok; [by eexists|].
  unfold s_ok. split_andb; to_prop; lia.
Qed.

Section ping.
Context {L P : Type} `{!Device L, !Agent P, !Net P, !Allocator}.
Context (addr : charp) (host : list Z) (port : Z).
Let N : Net (link L P) := linked_net host port (serve_agent addr).
Let D : Device (link L P) := linked_device.

(** A pong that reports the payload of the ping as intact. *)
Definition intact (r : option (option Pong.msg_pong)) : Prop :=
  ∃ pong, r = Some (Some pong) ∧ Pong.verify_data pong = true.

Lemma serve_ping id n p_size data w :
  i32_ok id = true → 2 ≤ p_size → generate_ping_data p_size = Ok data →
  serve_agent addr (wire_of (Ping.Msg (Header MSG_PING id ETHANOL_VERSION n) data)) w =
    Ok (Some (wire_of (pong_reply id true)), w).
Proof.
  intros Hid Hp Hg. destruct (ping_size id n p_size data ltac:(lia) Hg) as (k & Hk & Hle).
  assert (Ping.Msg (Header MSG_PING id ETHANOL_VERSION n) data = msg_resize (ping_request id data) n)
    as E by done.
  assert (msg_wf (ping_request id data) = true) as Hwf by (apply (generated_ping_wf id _ p_size); [done|lia|done]).
  assert (wire_of (Ping.Msg (Header MSG_PING id ETHANOL_VERSION n) data) = wire_of (ping_request id data))
    as Ew by (unfold wire_of; rewrite E; by rewrite msg_resize_encode).
  rewrite (serve_routes _ MSG_PING H_msg_ping k); try done.
  rewrite Ew. by apply (process_ping_generated w id p_size data).
Qed.

(** One iteration: the pong is read, and only the clock has moved. *)
Lemma ping_once_ok hostname portnum id n p_size data (s : link L P) :
  clock_ok L → reachable host port hostname portnum = true →
  i32_ok id = true → 2 ≤ p_size → generate_ping_data p_size = Ok data →
  ∃ r l, @ping_once _ N D _ hostname portnum (Ping.Msg (Header MSG_PING id ETHANOL_VERSION n) data) s =
    Ok (r, Link l (peer s) []) ∧ intact r.
Proof.
  intros Hclk Hr Hid Hp Hg. unfold ping_once, N. rewrite linked_with_ssl by done. fold N.
  set (ping := Ping.Msg _ data).
  assert (msg_wf ping = true) as Hwf by (apply (generated_ping_wf id _ p_size); [done|lia|done]).
  destruct (wire_encode ping Hwf) as [h' He]. cbn [msg_encode Ping.msg_ping_message] in He. rewrite He.
  destruct (Hclk (here s)) as (b & l1 & Hb & Hb1 & Hb2).
  destruct (Hclk l1) as (e & l2 & He' & He1 & He2).
  destruct (timeval_subtract_ok b e) as [x Hx]; try done.
  pose proof (serve_ping id n p_size data (peer s) Hid Hp Hg) as Hs. fold ping in Hs.
  pose proof (pong_wf id true Hid) as Hpw.
  destruct (encode_wf _ Hpw) as (k & Hk & _ & [body Hbody] & _ & Hlen & Hdec).
  assert (k = 30) as -> by (vm_compute in Hk; by injection Hk as <-).
  do 2 eexists. split; [|].
  - unfold mbind at 1, ST_bind at 1. cbn [lift].
    unfold mbind at 1, ST_bind at 1. cbn [gettimeofday device_clock D linked_device]. unfold on_here at 1. rewrite Hb.
    run (linked_write host port (serve_agent addr) (wire_of ping) (Link l1 (peer s) (inbox s)) _ _ Hs).
    run (linked_read host port (serve_agent addr) SSL_BUFFER_SIZE
      (Link l1 (peer s) (wire_of (pong_reply id true)))
      ltac:(cbn [inbox]; rewrite Hlen; unfold SSL_BUFFER_SIZE; lia)). cbn [here peer inbox].
    unfold mbind at 1, ST_bind at 1. unfold on_here. cbn [here peer inbox]. rewrite He'.
    rewrite Hbody at 1. rewrite header_type by done.
    unfold mbind at 1, ST_bind at 1. cbn [lift]. rewrite Z.eqb_refl.
    cbn [msg_decode Pong.msg_pong_message] in Hdec. rewrite Hdec, Hx. reflexivity.
  - eexists. split; [reflexivity|]. done.
Qed.

(** All the iterations. *)
Lemma ping_loop_ok hostname portnum k id n p_size data (s : link L P) :
  clock_ok L → reachable host port hostname portnum = true →
  0 ≤ id → id + Z.of_nat k < 2 ^ 31 → 2 ≤ p_size → generate_ping_data p_size = Ok data →
  inbox s = [] →
  ∃ rs l, @ping_loop _ N D _ hostname portnum k (Ping.Msg (Header MSG_PING id ETHANOL_VERSION n) data) s =
    Ok ((rs, id + Z.of_nat k), Link l (peer s) []) ∧ length rs = k ∧ Forall intact rs.
Proof.
  intros Hclk Hr. revert id s. induction k as [|k IH]; intros id s Hid0 Hid Hp Hg Hin; cbn [ping_loop].
  { exists [], (here s). rewrite Z.add_0_r. destruct s as [l p i]. simpl in *. by subst. }
  destruct (ping_once_ok hostname portnum id n p_size data s) as (r & l & Ho & Hi); try done; [in_range|].
  destruct (IH (id + 1) (Link l (peer s) [])) as (rs & l' & Hl & Hn & Hf); try done; [lia..|].
  exists (r :: rs), l'. split_and!; [|simpl; by rewrite Hn|by constructor].
  rewrite (st_bind_Ok _ _ _ _ _ Ho). cbn [Ping.hd m_id].
  unfold incr_int. destruct (Z.eqb_spec id (2 ^ 31 - 1)); [lia|].
  unfold mbind at 1, ST_bind at 1. cbn [lift].
  unfold mbind at 1, ST_bind at 1. cbn [peer] in Hl.
  change (Ping.with_id (Ping.Msg (Header MSG_PING id ETHANOL_VERSION n) data) (id + 1)) with
    (Ping.Msg (Header MSG_PING (id + 1) ETHANOL_VERSION n) data).
  rewrite Hl. by replace (id + Z.of_nat (S k)) with (id + 1 + Z.of_nat k) by lia.
Qed.
End ping.


Lemma box_clock : @clock_ok box box_device.
Proof. intros l. exists (0, 0), l. cbn. split_and!; lia || done. Qed.

