(* ===== verification/ChannelControl.v ===== *)
(** The channel of an access point, from a controller's request down to
    hostapd's structures: the functions that [hostapd/main.c] registers as
    hooks ([HostapdHooks]), the message [msg_currentchannel.c] that calls them
    and the whole exchange over the network. *)
From stdpp Require Import prelude list strings.
From S2P Require Import Prelude CMem MsgCommon BufferHandler World Rpc Linked GlobalVar.
From S2P Require Import MsgChannel Servlet Agent.

(** ** The hooks *)

(** What [main] promises to the agent ([assign_func_...] and [load_ethanol]):
    the agent's world holds hostapd's interfaces, and the hooks are the
    functions of [ap/global_var.c] on them. *)
Class HostapdHooks (W D : Type) `{Device W, Hostapd D} := {
  hapd : W → option hapd_interfaces * D;
  put_hapd : option hapd_interfaces * D → W → W;
  hapd_put : ∀ x w, hapd (put_hapd x w) = x;
  hook_get_wiphy :
    f_get_wiphy = Some (λ p w, lift (get_wiphy (hapd w).1 p) w);
  hook_get_current_frequency :
    f_get_current_frequency = Some (λ i w, lift (get_current_frequency (hapd w).1 i) w);
  hook_get_current_channel :
    f_get_current_channel = Some (λ i w, lift (get_current_channel (hapd w).1 i) w);
  hook_set_current_channel :
    f_set_current_channel = Some (λ i c w,
      '(r, x) ← set_current_channel i c (hapd w); Ok (r, put_hapd x w))
}.

(** ** What hostapd promises about a name *)

(** The channel and the frequency of the first interface with a name; -1
    without one. *)
Definition channel_view (h : hapd_interfaces) (n : list Z) : Z * Z :=
  match ifaces h !! Z.to_nat (first_named n (ifaces h) 0) with
  | Some x => if first_named n (ifaces h) 0 <? 0 then (-1, -1) else (GlobalVar.channel (conf x), if_freq x)
  | None => (-1, -1)
  end.

Lemma channel_view_spec h p : had_ok h = true → named_ifaces h = true → named p = true → ∃ k,
  get_wiphy (Some h) p = Ok k ∧
  get_current_channel (Some h) k = Ok (channel_view h (text p)).1 ∧
  get_current_frequency (Some h) k = Ok (channel_view h (text p)).2.
Proof.
  intros Hh Hn Hp. eexists. split; [by apply get_wiphy_spec|]. unfold channel_view.
  destruct (first_named_cases (text p) (ifaces h) 0) as [[-> _]|(j & x & -> & Hj & _)]; [lia| |].
  - unfold get_current_channel, get_current_frequency.
    rewrite !with_iface_out by lia. by destruct (ifaces h !! _).
  - rewrite Z.add_0_l, Nat2Z.id, Hj. unfold get_current_channel, get_current_frequency.
    rewrite !(with_iface_in h (Z.of_nat j) _ _ x) by (rewrite ?Nat2Z.id; done || lia).
    destruct (Z.ltb_spec (Z.of_nat j) 0); [lia|done].
Qed.

(** The view after one interface of the array is replaced. *)
Lemma first_named_insert n l j y k : 0 ≤ k → first_named n l k = k + Z.of_nat j →
  (j < length l)%nat → n ∈ names y → first_named n (<[j := y]> l) k = k + Z.of_nat j.
Proof.
  revert k j. induction l as [|x l IH]; intros k j Hk Hf Hj Hy; [simpl in Hj; lia|].
  cbn [first_named] in Hf. destruct j as [|j].
  - cbn. rewrite bool_decide_true by done. lia.
  - change (<[S j := y]> (x :: l)) with (x :: <[j := y]> l). cbn [first_named].
    case_bool_decide; [lia|].
    rewrite (IH (k + 1) j); try done; try lia. simpl in Hj. lia.
Qed.

Lemma named_ifaces_put h j x : named_ifaces h = true →
  forallb (λ b, named (iface b)) (bss (conf x)) = true → named_ifaces (put_iface h (Z.of_nat j) x) = true.
Proof.
  unfold named_ifaces, put_iface. cbn [ifaces]. rewrite Nat2Z.id. intros Hn Hx.
  apply forallb_forall. intros y Hy. rewrite <- list_elem_of_In in Hy.
  apply list_elem_of_lookup_1 in Hy as [k Hy].
  apply list_lookup_insert_Some in Hy as [(_ & <- & _)|(_ & Hy)]; [done|].
  rewrite forallb_forall in Hn. apply Hn. apply list_elem_of_In. by eapply list_elem_of_lookup_2.
Qed.

Lemma channel_view_put h j x n : (j < length (ifaces h))%nat →
  first_named n (ifaces h) 0 = Z.of_nat j → n ∈ names x →
  channel_view (put_iface h (Z.of_nat j) x) n = (GlobalVar.channel (conf x), if_freq x).
Proof.
  intros Hlt Hf Hx. unfold channel_view, put_iface. cbn [ifaces]. rewrite Nat2Z.id.
  rewrite (first_named_insert _ _ j) by (done || by rewrite ?Z.add_0_l).
  rewrite Z.add_0_l, Nat2Z.id, list_lookup_insert_eq by done.
  destruct (Z.ltb_spec (Z.of_nat j) 0); [lia|done].
Qed.

(** ** The request and its answer *)

Section message.
Context `{Allocator}.
Import CurrentChannel.

(** A message about the agent's own interface. *)
Definition own (t id : Z) (intf : charp) (port c f : Z) (a : bool) (n : Z) : msg_currentchannel :=
  Msg (Header t id ETHANOL_VERSION n) intf None port c f a.

Lemma own_wf (t : Enum_msg_type) id intf port c f a n : i32_ok id = true → brief intf = true →
  i32_ok port = true → i32_ok c = true → i32_ok f = true →
  msg_wf (own t id intf port c f a n) = true.
Proof.
  intros. cbn [msg_wf msg_currentchannel_message]. unfold wf, own.
  cbn [hd intf_name sta_ip sta_port channel frequency p_version].
  rewrite header_current, strs_ok_brief by all_brief. split_andb; done.
Qed.

Lemma own_received t id intf port c f a n : brief intf = true → ∃ k, 0 ≤ k ≤ 2000 ∧
  msg_size (own t id intf port c f a n) = Ok k ∧
  received (own t id intf port c f a n) = own t id (canon intf) port c f a k.
Proof.
  unfold brief. intros [Hc Hl]%andb_prop. to_prop.
  assert (msg_size (own t id intf port c f a n) = Ok (48 + Z.of_nat (length (text intf)))) as Hs.
  { cbn [msg_size msg_currentchannel_message]. unfold message_size_currentchannel, own.
    cbn [hd intf_name sta_ip p_version]. unfold bool_len_ethanol.
    rewrite (strlen_ethanol_ok ETHANOL_VERSION), (strlen_ethanol_ok None), strlen_ethanol_ok by done.
    cbn [mbind res_bind]. change (length (text ETHANOL_VERSION)) with 5%nat.
    change (length (text None)) with 0%nat. rewrite to_u_id by (lia || in_range). f_equal. lia. }
  eexists. split; [|split; [exact Hs|]]; [lia|]. unfold received. rewrite Hs. done.
Qed.
End message.

(** ** The agent's side *)

Section hostapd.
Context {W D : Type} `{AG : !Agent W, !Net W, AL : !Allocator}.
Context `{HD : !Hostapd D, HK : !HostapdHooks W D}.
Context (Hap : process_station = false).
Import CurrentChannel.

(** Asked about an interface, the agent looks it up in hostapd. *)
Lemma get_local m w h d : hapd w = (Some h, d) → had_ok h = true → named_ifaces h = true →
  named (intf_name m) = true →
  channel_get_local m w =
    Ok (set_frequency (set_channel m (channel_view h (text (intf_name m))).1)
                      (channel_view h (text (intf_name m))).2, w).
Proof.
  intros Hw Hh Hn Hp. destruct (channel_view_spec h _ Hh Hn Hp) as (k & Hk & Hc & Hf).
  unfold channel_get_local, wiphy_of, call_or_zero. rewrite Hap.
  rewrite hook_get_wiphy, hook_get_current_channel, hook_get_current_frequency.
  unfold mbind, ST_bind, lift, mret, ST_ret. rewrite Hw. cbn [fst]. rewrite Hk, Hw. cbn [fst]. rewrite Hc, Hw. cbn [fst]. by rewrite Hf.
Qed.

Lemma set_local m w h d k r x : hapd w = (Some h, d) →
  get_wiphy (Some h) (intf_name m) = Ok k →
  set_current_channel k (channel m) (Some h, d) = Ok (r, x) →
  channel_set_local m w = Ok (tt, put_hapd x w).
Proof.
  intros Hw Hk Hs. unfold channel_set_local, wiphy_of. rewrite Hap.
  rewrite hook_get_wiphy, hook_set_current_channel.
  unfold mbind, ST_bind, lift, mret, ST_ret. rewrite Hw. cbn [fst]. rewrite Hk, Hw. cbn [res_bind].
  rewrite Hs. done.
Qed.

(** The handler on a request for the agent's own interface: the local function
    on the received message, and its result sent back. *)
Lemma process_own (t : Enum_msg_type) jc jf ja id intf port c f a n w w' c' f' :
  i32_ok id = true → brief intf = true → canon intf = intf → i32_ok port = true →
  i32_ok c = true → i32_ok f = true → i32_ok c' = true → i32_ok f' = true →
  (∀ k, (if msg_code t =? MSG_GET_CURRENTCHANNEL then channel_get_local (own t id intf port c f a k)
         else channel_set_local (own t id intf port c f a k);; mret (own t id intf port c f a k)) w =
        Ok (own t id intf port c' f' a k, w')) →
  process_msg_currentchannel jc jf ja (wire_of (own t id intf port c f a n)) w =
    Ok (Some (wire_of (own t id intf port c' f' a 0)), w').
Proof.
  intros Hid Hi Hci Hp Hc Hf Hc' Hf' Hl. unfold process_msg_currentchannel.
  destruct (own_received t id intf port c f a n Hi) as (k & _ & _ & Hr). rewrite Hci in Hr.
  pose proof (wire_received _ (own_wf t id intf port c f a n Hid Hi Hp Hc Hf)) as Hd.
  rewrite Hr in Hd. cbn [msg_decode msg_currentchannel_message] in Hd.
  rewrite Hd. rewrite (st_bind_Ok _ _ w _ w eq_refl). cbv beta.
  specialize (Hl k). unfold own in Hl. unfold own at 1 2 3 4 5 6.
  cbn [sta_ip nonnull negb hd m_type] in *. rewrite (st_bind_Ok _ _ _ _ _ Hl).
  destruct (wire_encode _ (own_wf t id intf port c' f' a k Hid Hi Hp Hc' Hf')) as [h' He].
  pose proof (msg_resize_encode (own t id intf port c' f' a 0) k) as E.
  unfold wire_of. change (msg_resize _ k) with (own t id intf port c' f' a k) in E.
  rewrite <- E. cbn [msg_encode msg_currentchannel_message] in *. unfold own in He.
  rewrite He. unfold own. by rewrite He.
Qed.
End hostapd.

(** ** Over the network *)

Section network.
Context {L P D : Type} `{AG : !Agent P, !Net P, AL : !Allocator}.
Context `{HD : !Hostapd D, HK : !HostapdHooks P D}.
Context (addr : charp) (host : list Z) (port : Z) (hostname : charp) (portnum : Z).
Context (Hap : process_station = false) (Hr : reachable host port hostname portnum = true).
Context (intf : charp) (sport : Z) (Hp : i32_ok sport = true).
Context (Hv : copyable ETHANOL_VERSION = true) (Hc : copyable intf = true)
  (Hi : brief intf = true) (Hne : text intf ≠ []).
Let N : Net (link L P) := linked_net host port (serve_agent addr).
Import CurrentChannel.

Lemma intf_canon : brief (canon intf) = true ∧ canon (canon intf) = canon intf ∧
  named (canon intf) = true ∧ text (canon intf) = text intf.
Proof.
  pose proof (copyable_ok _ Hc) as Hok. pose proof (cstr_ok_canon _ Hok).
  split_and!; [by apply brief_canon|by apply canon_idemp| |by apply text_canon].
  unfold named. split_andb; [|done]. unfold canon, norm. by destruct (text intf).
Qed.

Lemma serve_own (t : Enum_msg_type) id c f a n w : dispatch t = Some H_msg_currentchannel →
  i32_ok id = true → i32_ok c = true → i32_ok f = true →
  serve_agent addr (wire_of (own t id (canon intf) sport c f a n)) w =
    process_msg_currentchannel junk_channel junk_frequency junk_auto
      (wire_of (own t id (canon intf) sport c f a n)) w.
Proof.
  intros Ht Hid Hc0 Hf. destruct intf_canon as (Hb & _).
  destruct (own_received t id _ sport c f a n Hb) as (k & Hk & Hs & _).
  rewrite (serve_routes _ t H_msg_currentchannel k addr w (own_wf t id _ sport c f a n Hid Hb Hp Hc0 Hf) eq_refl Ht Hs)
    by lia. done.
Qed.

Lemma get_rpc id jc jf ja (s : link L P) h (d : D) :
  i32_ok id = true → id ≠ 2 ^ 31 - 1 → i32_ok jc = true → i32_ok jf = true →
  hapd (peer s) = (Some h, d) → had_ok h = true → named_ifaces h = true →
  i32_ok (channel_view h (text intf)).1 = true → i32_ok (channel_view h (text intf)).2 = true →
  ∃ h1, @send_msg_get_currentchannel _ N _ jc jf ja hostname portnum id intf None sport s =
      Ok ((Some h1, id + 1), Link (here s) (peer s) []) ∧
    channel h1 = (channel_view h (text intf)).1 ∧ frequency h1 = (channel_view h (text intf)).2.
Proof.
  intros Hid Hmax Hjc Hjf Hw Hh Hn Hvc Hvf. destruct intf_canon as (Hb & Hci & Hnm & Ht).
  set (c := (channel_view h (text intf)).1) in *. set (f := (channel_view h (text intf)).2) in *.
  pose (req := own MSG_GET_CURRENTCHANNEL id (canon intf) sport jc jf ja 0).
  pose (rep := own MSG_GET_CURRENTCHANNEL id (canon intf) sport c f ja 0).
  assert (msg_wf rep = true) as Hwf by by apply own_wf.
  destruct (own_received MSG_GET_CURRENTCHANNEL id _ sport c f ja 0 Hb) as (k & Hk & Hs & Hrec).
  assert (serve_agent addr (wire_of req) (peer s) = Ok (Some (wire_of rep), peer s)) as Hserve.
  { unfold req. rewrite serve_own by done. apply process_own; try done. intros k'.
    change (msg_code MSG_GET_CURRENTCHANNEL =? MSG_GET_CURRENTCHANNEL) with true. cbn iota.
    rewrite (get_local Hap _ _ h d) by done. cbn [own intf_name]. rewrite Ht. done. }
  unfold send_msg_get_currentchannel, N. exists (received rep). split.
  - rewrite (linked_with_ssl_noerr host port (serve_agent addr)) by done.
    unfold incr_int. rewrite (proj2 (Z.eqb_neq _ _) Hmax). rewrite !copy_string_canon by done.
    change (canon None) with (@None (list cell)). unfold mbind at 1, ST_bind at 1. cbn [lift].
    unfold mbind at 1 2 3, ST_bind at 1 2 3. cbn [lift].
    change (Msg _ _ None _ _ _ _) with req.
    unfold mbind at 1, ST_bind at 1.
    rewrite (linked_exchange host port (serve_agent addr) req _ s (wire_of rep) (peer s));
      [|by apply own_wf|exact Hserve|rewrite (wire_length rep k Hwf Hs); unfold SSL_BUFFER_SIZE; lia].
    rewrite (reply_received _ rep Hwf) by done. done.
  - unfold rep. rewrite Hrec. done.
Qed.

Lemma set_rpc id jf ch (s : link L P) h (d : D) k r x :
  i32_ok id = true → id ≠ 2 ^ 31 - 1 → i32_ok jf = true → i32_ok ch = true →
  hapd (peer s) = (Some h, d) → get_wiphy (Some h) (canon intf) = Ok k →
  set_current_channel k ch (Some h, d) = Ok (r, x) →
  @send_msg_set_currentchannel _ N _ jf hostname portnum id intf ch None sport s =
    Ok (id + 1, Link (here s) (put_hapd x (peer s))
          (wire_of (own MSG_SET_CURRENTCHANNEL id (canon intf) sport ch jf (ch <? 0) 0))).
Proof.
  intros Hid Hmax Hjf Hch Hw Hk Hset. destruct intf_canon as (Hb & Hci & Hnm & Ht).
  pose (req := own MSG_SET_CURRENTCHANNEL id (canon intf) sport ch jf (ch <? 0) 0).
  assert (serve_agent addr (wire_of req) (peer s) = Ok (Some (wire_of req), put_hapd x (peer s)))
    as Hserve.
  { unfold req. rewrite serve_own by done. apply process_own; try done. intros k'.
    change (msg_code MSG_SET_CURRENTCHANNEL =? MSG_GET_CURRENTCHANNEL) with false. cbn iota.
    rewrite (st_bind_Ok _ _ _ _ _ (set_local Hap
      (own MSG_SET_CURRENTCHANNEL id (canon intf) sport ch jf (ch <? 0) k') _ h d k r x Hw Hk Hset)).
    done. }
  unfold send_msg_set_currentchannel.
  rewrite (with_ssl_ext (H:=N) _ _ _ _ (notify (H:=N) req;; mret (id + 1))).
  - unfold N. rewrite (linked_notify host port (serve_agent addr) req hostname portnum id (id + 1) s
      (Some (wire_of req)) (put_hapd x (peer s))); [done|by apply own_wf|exact Hr|exact Hserve].
  - intros w. unfold incr_int. rewrite (proj2 (Z.eqb_neq _ _) Hmax).
    by rewrite !copy_string_canon by done.
Qed.
End network.

(** C3: a controller that asks an access point for the channel of an interface
    gets hostapd's answer: over the network, the servlet, the handler and the
    hooks, [send_msg_get_currentchannel] returns the channel and the frequency
    of the first interface that carries the name -- both -1 when none does --
    and nothing changes on the access point. *)
Theorem current_channel_rpc {L P D : Type}
    `{!Agent P, !Net P, !Allocator, !Hostapd D, !HostapdHooks P D} (addr : charp)
    (host : list Z) (port : Z) (hostname : charp) (portnum id : Z) (intf : charp)
    (sta_port jc jf : Z) (ja : bool) (s : link L P) (h : hapd_interfaces) (d : D) :
  process_station = false → reachable host port hostname portnum = true →
  i32_ok id = true → id ≠ 2 ^ 31 - 1 → i32_ok sta_port = true →
  i32_ok jc = true → i32_ok jf = true →
  copyable ETHANOL_VERSION = true → copyable intf = true → brief intf = true → text intf ≠ [] →
  hapd (peer s) = (Some h, d) → had_ok h = true → named_ifaces h = true →
  i32_ok (channel_view h (text intf)).1 = true → i32_ok (channel_view h (text intf)).2 = true →
  ∃ h1, @CurrentChannel.send_msg_get_currentchannel _ (linked_net host port (serve_agent addr)) _
          jc jf ja hostname portnum id intf None sta_port s =
        Ok ((Some h1, id + 1), Link (here s) (peer s) []) ∧
    CurrentChannel.channel h1 = (channel_view h (text intf)).1 ∧
    CurrentChannel.frequency h1 = (channel_view h (text intf)).2.
Proof. intros. by eapply get_rpc. Qed.

(** C4: setting a channel over the network and asking for it: on an access
    point whose driver refuses to announce the switch, after
    [send_msg_set_currentchannel] with a channel of the interface's table,
    [send_msg_get_currentchannel] returns that channel -- its low eight bits,
    which are the width of [conf->channel] -- as long as the reload returns and
    the reloaded configuration keeps the interface's name. *)
Theorem set_channel_then_get {L P D : Type}
    `{!Agent P, !Net P, !Allocator, !Hostapd D, !HostapdHooks P D} (addr : charp)
    (host : list Z) (port : Z) (hostname : charp) (portnum id id' : Z) (intf : charp)
    (sta_port jc jf : Z) (ja : bool) (s : link L P) (h : hapd_interfaces) (d d1 d2 : D)
    (j : nat) (i x : hostapd_iface) (m : list hostapd_channel_data) (c : hostapd_channel_data)
    (b : hostapd_data) (l : list hostapd_data) (ret r : Z) :
  process_station = false → reachable host port hostname portnum = true →
  i32_ok id = true → id ≠ 2 ^ 31 - 1 → i32_ok id' = true → id' ≠ 2 ^ 31 - 1 →
  i32_ok sta_port = true → i32_ok jc = true → i32_ok jf = true →
  copyable ETHANOL_VERSION = true → copyable intf = true → brief intf = true → text intf ≠ [] →
  hapd (peer s) = (Some h, d) → had_ok h = true → named_ifaces h = true →
  first_named (text intf) (ifaces h) 0 = Z.of_nat j → ifaces h !! j = Some i →
  current_mode i = Some m → table_ok m → c ∈ m → i32_ok (chan c) = true → if_bss i = b :: l →
  hostapd_switch_channel i (freq c) d = Ok (ret, d1) → ret < 0 →
  hostapd_reload_config (has_read_cb h) (set_conf i (GlobalVar.set_channel (conf i) (chan c))) d1 =
    Ok ((r, x), d2) →
  text intf ∈ names x → forallb (λ b, named (iface b)) (bss (conf x)) = true →
  i32_ok (if_freq x) = true →
  let N := linked_net host port (serve_agent addr) in
  ∃ s' s'' h1,
    @CurrentChannel.send_msg_set_currentchannel _ N _ jf hostname portnum id intf (chan c) None
      sta_port s = Ok (id + 1, s') ∧
    @CurrentChannel.send_msg_get_currentchannel _ N _ jc jf ja hostname portnum id' intf None
      sta_port s' = Ok ((Some h1, id' + 1), s'') ∧
    CurrentChannel.channel h1 = to_u 8 (chan c).
Proof.
  intros Hap Hr Hid Hm Hid' Hm' Hp Hjc Hjf Hv Hc Hi Hne Hw Hh Hn Hf Hj Hmd Ht Hin Hcc Hb Hs Hret
    Hrl Hnx Hbx Hfx N.
  destruct (intf_canon intf Hc Hi Hne) as (_ & _ & Hnm & Htc).
  assert (get_wiphy (Some h) (canon intf) = Ok (Z.of_nat j)) as Hk.
  { by rewrite get_wiphy_spec, Htc, Hf. }
  assert (ifaces h !! Z.to_nat (Z.of_nat j) = Some i) as Hj' by by rewrite Nat2Z.id.
  pose proof (lookup_lt_Some _ _ _ Hj) as Hlt.
  pose proof (set_frequency_fallback h i m (Z.of_nat j) Hh (Nat2Z.is_nonneg j) Hj' Hmd Ht
    c d ret d1 r x d2 b l Hin Hb Hs Hret Hrl) as Hset.
  rewrite <- (set_channel_frequency h i m (Z.of_nat j) Hh (Nat2Z.is_nonneg j) Hj' Hmd Ht) in Hset by done.
  set (h' := put_iface h (Z.of_nat j) x) in *.
  assert (channel_view h' (text intf) = (to_u 8 (chan c), if_freq x)) as Hview.
  { unfold h'. by rewrite channel_view_put, (reload_channel _ _ _ _ _ _ Hrl). }
  pose proof (set_rpc addr host port hostname portnum Hap Hr intf sta_port Hp Hv Hc Hi Hne
    id jf (chan c) s h d _ r _ Hid Hm Hjf Hcc Hw Hk Hset) as E1.
  eexists. edestruct (get_rpc addr host port hostname portnum Hap Hr intf sta_port Hp Hv Hc Hi Hne
    id' jc jf ja (Link (here s) (put_hapd (Some h', d2) (peer s))
      (wire_of (own MSG_SET_CURRENTCHANNEL id (canon intf) sta_port (chan c) jf (chan c <? 0) 0)))
    h' d2) as (h1 & E2 & E3 & _); try done.
  { cbn [peer]. apply hapd_put. }
  { unfold h'. by eapply put_iface_ok. }
  { by apply named_ifaces_put. }
  { rewrite Hview. cbn [fst]. pose proof (Z.mod_pos_bound (chan c) (2 ^ 8) ltac:(lia)). unfold to_u. in_range. }
  { by rewrite Hview. }
  eexists. exists h1. split_and!; [exact E1|exact E2|by rewrite E3, Hview].
Qed.

(** ** A sample access point *)

(** A hostapd whose driver knows no channel switch, and a device that offers
    the hooks and nothing else. *)
Abbreviation ap_world := (option hapd_interfaces * unit)%type.

Definition hooked_device : Device ap_world := {|
  get_statistics _ := mret (all_stats (-1));
  get_interface_stats _ := mret None;
  get_snr_ap _ := mret (SpecFloat.S754_zero false);
  get_cpu_info := mret (SpecFloat.S754_zero false);
  World.get_mem_porcentage := mret (SpecFloat.S754_zero false);
  get_tx_power_iwconfig _ := mret (SpecFloat.S754_zero false);
  ap_set_txpower _ _ _ := mret tt;
  system_set_txpower _ _ := mret tt;
  wapi_get_txpower _ := mret None;
  get_powersave_mode _ := mret false;
  set_powersave_mode _ _ := mret tt;
  is_80211e_enabled _ := mret false;
  set_mtu _ _ := mret tt;
  set_txqueuelen _ _ := mret tt;
  read_proc_uptime := mret (None, None);
  roam_change_ap _ _ := mret 0;
  get_all_interfaces := mret None;
  get_interface _ := mret None;
  get_acs _ _ := mret None;
  World.which_path _ := mret None;
  run_system _ := mret tt;
  device_clock := {| gettimeofday := mret (0, 0) |};
  f_get_wiphy := Some (λ p w, lift (get_wiphy w.1 p) w);
  f_get_current_frequency := Some (λ i w, lift (get_current_frequency w.1 i) w);
  f_set_current_frequency := Some (@set_current_frequency unit no_csa);
  f_get_current_channel := Some (λ i w, lift (get_current_channel w.1 i) w);
  f_set_current_channel := Some (λ i c w,
    '(r, x) ← @set_current_channel unit no_csa i c w; Ok (r, x));
  f_get_noise := None;
  wapi_get_freq _ := mret None; wapi_set_freq _ _ _ := mret tt; wapi_chan2freq _ _ := mret None;
  get_wlan_frequency _ := mret None; get_sta_link_information _ := mret None;
  get_survey_info _ := mret None; get_channels _ := mret None; get_bitrate _ _ := mret 0;
  return_phy_from_intf_name _ := mret None; get_bitrates _ := mret None;
  set_iw_bitrates _ _ _ := mret tt
|}.

Definition hooked_agent : Agent ap_world := {|
  agent_device := hooked_device;
  agent_globals := {| MsgConfig.list_threshold _ := []; MsgConfig.put_threshold _ w := w;
                      MsgConfig.list_snr_interval _ := []; MsgConfig.put_snr_interval _ w := w |};
  agent_events := no_events; agent_services := no_services;
  agent_build := {| process_station := false; handover := false |}; agent_junk := no_junk
|}.

Definition sample_hooks : @HostapdHooks ap_world unit hooked_device no_csa.
Proof. by refine {| hapd w := w; put_hapd x _ := x |}. Defined.

Definition sample_serve : list cell → ST ap_world (option (list cell)) :=
  @serve_agent ap_world hooked_agent no_net glibc_alloc (lit "10.0.0.1").

Lemma current_channel_rpc_witness : ∃ h1,
  @CurrentChannel.send_msg_get_currentchannel (link unit ap_world)
    (linked_net (lit_bytes "10.0.0.2") 22223 sample_serve) glibc_alloc 0 0 false (lit "10.0.0.2")
    22223 7 (lit "wlan1") None 0 (Link tt (Some sample_had, tt) []) =
    Ok ((Some h1, 8), Link tt (Some sample_had, tt) []) ∧
  CurrentChannel.channel h1 = 36 ∧ CurrentChannel.frequency h1 = 5180.
Proof.
  apply (@current_channel_rpc unit ap_world unit hooked_agent no_net glibc_alloc no_csa sample_hooks
    (lit "10.0.0.1") (lit_bytes "10.0.0.2") 22223 (lit "10.0.0.2") 22223 7 (lit "wlan1") 0 0 0 false
    (Link tt (Some sample_had, tt) []) sample_had tt); reflexivity || done.
Defined.

Lemma set_channel_then_get_witness :
  let N := linked_net (lit_bytes "10.0.0.2") 22223 sample_serve in
  ∃ s' s'' h1,
  @CurrentChannel.send_msg_set_currentchannel (link unit ap_world) N glibc_alloc 0
    (lit "10.0.0.2") 22223 7 (lit "wlan0") 6 None 0 (Link tt (Some sample_had, tt) []) = Ok (8, s') ∧
  @CurrentChannel.send_msg_get_currentchannel (link unit ap_world) N glibc_alloc 0 0 false
    (lit "10.0.0.2") 22223 8 (lit "wlan0") None 0 s' = Ok ((Some h1, 9), s'') ∧
  CurrentChannel.channel h1 = 6.
Proof.
  assert (Ht : table_ok [Chan 1 2412 20; Chan 6 2437 20]).
  { split_and!; [apply (bool_decide_unpack _); reflexivity..|]. repeat constructor. }
  apply (@set_channel_then_get unit ap_world unit hooked_agent no_net glibc_alloc no_csa sample_hooks
    (lit "10.0.0.1") (lit_bytes "10.0.0.2") 22223 (lit "10.0.0.2") 22223 7 8 (lit "wlan0") 0 0 0 false
    (Link tt (Some sample_had, tt) []) sample_had tt tt tt 0
    (sample_iface "wlan0" 1 2412 (lit_bytes "winet") [Chan 1 2412 20; Chan 6 2437 20])
    (sample_iface "wlan0" 6 2412 (lit_bytes "winet") [Chan 1 2412 20; Chan 6 2437 20])
    [Chan 1 2412 20; Chan 6 2437 20] (Chan 6 2437 20)
    (HData [2; 0; 0; 0; 0; 255] 1 [[2; 0; 0; 0; 0; 7]]) [] (-1) 0);
    try (reflexivity || done).
  - right. left.
  - left.
Defined.
