(* ===== verification/MessageFaults.v ===== *)
(** What the messages without a finished local function do: handlers that
    answer a constant and change nothing, senders that read a field before it
    is assigned, and codecs whose block is too small for what they write. *)
From stdpp Require Import prelude list strings.
From S2P Require Import Prelude CMem MsgCommon BufferHandler World Rpc Linked.
From S2P Require Import MsgAp MsgWiphy MsgChannel MsgBitrate Servlet Agent.

(** ** Handlers that change nothing *)

(** A computation that leaves the state alone, whatever it returns. *)
Definition inert {S A} (m : ST S A) : Prop := ∀ s a s', m s = Ok (a, s') → s' = s.

Section inert.
Context {S A B : Type}.
Lemma inert_lift (r : res A) : inert (S:=S) (lift r).
Proof. unfold inert, lift. intros s a s'. destruct r; naive_solver. Qed.
Lemma inert_ret (a : A) : inert (S:=S) (mret a).
Proof. unfold inert, mret, ST_ret. naive_solver. Qed.
Lemma inert_bind (m : ST S A) (k : A → ST S B) : inert m → (∀ a, inert (k a)) → inert (m ≫= k).
Proof.
  intros Hm Hk s b s'. unfold mbind, ST_bind. destruct (m s) as [[a s1]|] eqn:E; [|done].
  apply Hm in E as ->. apply Hk.
Qed.
End inert.

Create HintDb inert.
#[export] Hint Resolve inert_lift inert_ret inert_bind : inert.
Ltac solve_inert :=
  repeat first [ progress intros | apply inert_lift | apply inert_ret | apply inert_bind
               | match goal with |- inert (match ?x with _ => _ end) => destruct x end ].

(** The settings whose local function is still to be written. *)
Definition unwritten (k : handler) : bool :=
  bool_decide (k ∈ [H_msg_ap_ctsprotection_enabled; H_msg_ap_broadcastssid;
    H_msg_ap_frameburstenabled; H_msg_ap_guardinterval; H_msg_ap_dtiminterval;
    H_msg_ap_rtsthreshold; H_msg_beacon_interval; H_msg_channelbandwitdh;
    H_msg_fragmentationthreshold; H_msg_supportedinterface; H_msg_vap_create;
    H_msg_conf_ssid_radio; H_msg_location; H_msg_request_begin_association;
    H_msg_interferencemap]).

Lemma unwritten_inert {W} `{Agent W, Net W, Allocator} k addr buf :
  unwritten k = true → inert (agent_handler k addr buf).
Proof.
  intros Hk. destruct k; try discriminate Hk;
    unfold agent_handler, run_handler, CtsProtection.process_msg_ap_ctsprotection_enabled,
      BroadcastSsid.process_msg_ap_broadcastssid, FrameBurst.process_msg_ap_frameburstenabled,
      GuardInterval.process_msg_ap_guardinterval, DtimInterval.process_msg_ap_dtiminterval,
      RtsThreshold.process_msg_ap_rtsthreshold, BeaconInterval.process_msg_beacon_interval,
      ChannelBandwidth.process_msg_channelbandwitdh,
      Fragmentation.process_msg_fragmentationthreshold,
      SupportedInterface.process_msg_supportedinterface, VapCreate.process_msg_vap_create,
      ConfSsidRadio.process_msg_conf_ssid_radio, Location.process_msg_location,
      BeginAssociation.process_msg_request_begin_association,
      InterferenceMap.process_msg_interferencemap; solve_inert.
Qed.

Section rts.
Context {W : Type} `{!Agent W, !Net W, !Allocator}.
Import RtsThreshold.

(** A request about the RTS threshold of this version. *)
Definition rts (t : Enum_msg_type) (id : Z) (intf : charp) (x : Z) : msg_ap_rtsthreshold :=
  Msg (Header t id ETHANOL_VERSION 0) intf x.

Lemma rts_wf t id intf x : i32_ok id = true → brief intf = true → u32_ok x = true →
  msg_wf (rts t id intf x) = true.
Proof.
  intros. cbn [msg_wf msg_ap_rtsthreshold_message]. unfold wf, rts.
  cbn [hd intf_name rts_threshold p_version].
  rewrite header_current, strs_ok_brief by all_brief. split_andb; done.
Qed.

Lemma rts_received t id intf x : brief intf = true → ∃ k, 0 ≤ k ≤ 2000 ∧
  msg_size (rts t id intf x) = Ok k ∧
  received (rts t id intf x) = Msg (Header t id ETHANOL_VERSION k) (canon intf) x.
Proof.
  unfold brief. intros [Hc Hl]%andb_prop. to_prop.
  assert (msg_size (rts t id intf x) = Ok (31 + Z.of_nat (length (text intf)))) as Hs.
  { cbn [msg_size msg_ap_rtsthreshold_message]. unfold size_msg_ap_rtsthreshold, rts.
    cbn [hd intf_name p_version].
    rewrite (strlen_ethanol_ok ETHANOL_VERSION), strlen_ethanol_ok by done.
    cbn [mbind res_bind]. change (length (text ETHANOL_VERSION)) with 5%nat.
    rewrite to_u_id by (lia || in_range). f_equal. lia. }
  eexists. split; [|split; [exact Hs|]]; [lia|]. unfold received. rewrite Hs. done.
Qed.

Lemma serve_rts (t : Enum_msg_type) id intf x addr w : dispatch t = Some H_msg_ap_rtsthreshold →
  i32_ok id = true → brief intf = true → u32_ok x = true →
  serve_agent addr (wire_of (rts t id intf x)) w =
    process_msg_ap_rtsthreshold (W:=W) (wire_of (rts t id intf x)) w.
Proof.
  intros Ht Hid Hb Hx. destruct (rts_received t id intf x Hb) as (k & Hk & Hs & _).
  rewrite (serve_routes _ t H_msg_ap_rtsthreshold k addr w (rts_wf t id intf x Hid Hb Hx) eq_refl Ht Hs)
    by lia. done.
Qed.

Lemma process_rts_set id intf x w : i32_ok id = true → brief intf = true → u32_ok x = true →
  process_msg_ap_rtsthreshold (W:=W) (wire_of (rts MSG_SET_AP_RTSTHRESHOLD id intf x)) w = Ok (None, w).
Proof.
  intros Hid Hb Hx. unfold process_msg_ap_rtsthreshold.
  destruct (rts_received MSG_SET_AP_RTSTHRESHOLD id intf x Hb) as (k & _ & _ & Hr).
  pose proof (wire_received _ (rts_wf MSG_SET_AP_RTSTHRESHOLD id intf x Hid Hb Hx)) as Hd.
  rewrite Hr in Hd. cbn [msg_decode msg_ap_rtsthreshold_message] in Hd. by rewrite Hd.
Qed.

Lemma process_rts_get id intf x w : i32_ok id = true → brief intf = true → u32_ok x = true →
  process_msg_ap_rtsthreshold (W:=W) (wire_of (rts MSG_GET_AP_RTSTHRESHOLD id intf x)) w =
    Ok (Some (wire_of (rts MSG_GET_AP_RTSTHRESHOLD id (canon intf) 0)), w).
Proof.
  intros Hid Hb Hx. unfold process_msg_ap_rtsthreshold.
  destruct (rts_received MSG_GET_AP_RTSTHRESHOLD id intf x Hb) as (k & _ & _ & Hr).
  pose proof (wire_received _ (rts_wf MSG_GET_AP_RTSTHRESHOLD id intf x Hid Hb Hx)) as Hd.
  rewrite Hr in Hd. cbn [msg_decode msg_ap_rtsthreshold_message] in Hd. rewrite Hd.
  rewrite (st_bind_Ok _ _ w _ w eq_refl). cbn [hd m_type].
  rewrite Z.eqb_refl.
  destruct (wire_encode (rts MSG_GET_AP_RTSTHRESHOLD id (canon intf) 0)) as [h' He].
  { apply rts_wf; auto using brief_canon. }
  rewrite <- (msg_resize_encode _ k) in He.
  cbn [msg_encode msg_resize msg_ap_rtsthreshold_message] in He.
  unfold set_rts_threshold. cbn [hd intf_name]. unfold resize, rts, set_m_size in He.
  cbn [hd intf_name rts_threshold m_type m_id p_version] in He.
  by rewrite He.
Qed.
End rts.

(** The requests to change a setting of an access point or a radio have
    no effect: the handlers of fifteen messages -- broadcast SSID, CTS
    protection, frame burst, guard and DTIM interval, RTS threshold, beacon
    interval, channel bandwidth, fragmentation threshold, supported interface,
    virtual access point, SSID configuration, location, begin association,
    interference map -- leave the agent's world as it was, whatever bytes they
    get; and the RTS threshold is reported as 0 whatever was set before. *)
Theorem settings_ignored {W} `{!Agent W, !Net W, !Allocator} (addr : charp) :
  (∀ k buf w reply w', unwritten k = true →
    agent_handler k addr buf w = Ok (reply, w') → w' = w) ∧
  (∀ id intf x w, i32_ok id = true → brief intf = true → u32_ok x = true →
    serve_agent addr (wire_of (rts MSG_SET_AP_RTSTHRESHOLD id intf x)) w = Ok (None, w) ∧
    ∃ buf h1, serve_agent addr (wire_of (rts MSG_GET_AP_RTSTHRESHOLD id intf x)) w = Ok (Some buf, w) ∧
      RtsThreshold.decode_msg_ap_rtsthreshold buf = Ok h1 ∧ RtsThreshold.rts_threshold h1 = 0).
Proof.
  split; [intros k buf w reply w' Hk; by apply unwritten_inert|].
  intros id intf x w Hid Hb Hx. split; [by rewrite serve_rts, process_rts_set|].
  pose proof (brief_canon _ Hb) as Hb'.
  exists (wire_of (rts MSG_GET_AP_RTSTHRESHOLD id (canon intf) 0)). eexists.
  split; [by rewrite serve_rts, process_rts_get|].
  split; [exact (wire_received _ (rts_wf MSG_GET_AP_RTSTHRESHOLD id (canon intf) 0 Hid Hb' eq_refl))|].
  by destruct (rts_received MSG_GET_AP_RTSTHRESHOLD id (canon intf) 0 Hb') as (k & _ & _ & ->).
Qed.

Lemma settings_ignored_witness : let A := box_agent false in let N := @no_net box in
  @serve_agent box A N glibc_alloc (lit "10.0.0.1")
    (@wire_of _ (@RtsThreshold.msg_ap_rtsthreshold_message glibc_alloc)
      (rts MSG_SET_AP_RTSTHRESHOLD 7 (lit "wlan0") 500)) (fresh_box 0) = Ok (None, fresh_box 0).
Proof.
  intros A N.
  apply (proj2 (@settings_ignored box A N glibc_alloc (lit "10.0.0.1")) 7 (lit "wlan0") 500);
    reflexivity.
Defined.

(** ** Fields that are read before they are assigned *)

(** Four [send_] functions cannot send anything: once connected, the GET
    of the RTS threshold, the SET of the beacon interval, the SET of the
    frequency and the creation of a virtual access point read a pointer of
    their structure that was never assigned, whatever their arguments. *)
Theorem senders_read_unassigned {L P} `{!Allocator} (host : list Z) (port : Z)
    (serve : list cell → ST P (option (list cell))) (hostname : charp) (portnum id : Z)
    (intf sta : charp) (x sta_port : Z) (s : link L P) :
  reachable host port hostname portnum = true → id ≠ 2 ^ 31 - 1 →
  copyable ETHANOL_VERSION = true →
  let N := linked_net host port serve in
  @RtsThreshold.send_msg_ap_get_rtsthreshold _ N _ hostname portnum id intf s =
    Err ReadIndeterminate ∧
  @BeaconInterval.send_msg_set_beacon_interval _ N _ hostname portnum id intf x s =
    Err ReadIndeterminate ∧
  @Frequency.send_msg_set_frequency _ N _ hostname portnum id intf x sta sta_port s =
    Err ReadIndeterminate ∧
  @VapCreate.send_msg_vap_create _ N _ hostname portnum id s = Err ReadIndeterminate.
Proof.
  intros Hr Hmax Hv N.
  assert (incr_int id = Ok (id + 1)) as Hid.
  { unfold incr_int. by rewrite (proj2 (Z.eqb_neq _ _) Hmax). }
  split_and!; unfold RtsThreshold.send_msg_ap_get_rtsthreshold,
    BeaconInterval.send_msg_set_beacon_interval, Frequency.send_msg_set_frequency,
    VapCreate.send_msg_vap_create, N;
    first [ rewrite (linked_with_ssl host port serve) by done
          | rewrite (linked_with_ssl_noerr host port serve) by done ];
    by rewrite Hid, (copy_string_canon ETHANOL_VERSION Hv).
Qed.

Lemma senders_read_unassigned_witness :
  @VapCreate.send_msg_vap_create (link unit unit)
    (linked_net (lit_bytes "10.0.0.2") 22223 (λ _, mret None)) glibc_alloc (lit "10.0.0.2") 22223 7
    (Link tt tt []) = Err ReadIndeterminate.
Proof.
  apply (@senders_read_unassigned unit unit glibc_alloc (lit_bytes "10.0.0.2") 22223
    (λ _, mret None) (lit "10.0.0.2") 22223 7 None None 0 0 (Link tt tt []));
    (reflexivity || discriminate).
Defined.

(** ** Blocks that are too small *)

Section noise.
Import NoiseInfo.

(** The bytes of a noise message. *)
Definition noise_wire (h : msg_noiseinfo) (n : Z) : list cell :=
  wire_header (m_type (hd h)) (m_id (hd h)) n ++ wire_str (text (intf_name h)) ++
  wire_str (text (sta_ip h)) ++ cells (le 4 (sta_port h)) ++ cells (le 4 (NoiseInfo.n h)) ++
  array_wire (noise h).

Lemma noise_array_length k p : array_wf k p = true →
  Z.of_nat (length (array_wire (E:=noise_field) p)) = 42 * k.
Proof.
  intros (-> & _)%array_wf_facts. unfold array_wire.
  induction (elems p) as [|e l IH]; [done|]. rewrite fmap_cons. cbn [concat length].
  rewrite length_app, Nat2Z.inj_add, IH. cbn [e_wire noise_field_entry].
  rewrite !length_app, !length_cells, !Nat2Z.inj_add, !length_le; lia.
Qed.

Lemma length_wire_str_ge s : 4 + Z.of_nat (length s) ≤ Z.of_nat (length (wire_str s)).
Proof.
  unfold wire_str. destruct s as [|c s]; [done|].
  rewrite length_cells, !length_app, !Nat2Z.inj_add, length_le by lia. simpl. lia.
Qed.

Lemma noise_size `{Allocator} h : wf h = true → text (p_version (hd h)) = lit_bytes "1.0.3" →
  ∃ k, size_msg_noiseinfo h = Ok k ∧ 0 ≤ k < 2 ^ 31 ∧ 40 ≤ k ∧
    k + 8 * NoiseInfo.n h - 2 ≤ Z.of_nat (length (noise_wire h k)) ∧
    encode_msg_noiseinfo h = (buf ← fill_buffer k
      (encode_header (m_type (hd h)) (m_id (hd h)) k;; encode_char (intf_name h);;
       encode_char (sta_ip h);; encode_int (sta_port h);; encode_uint (NoiseInfo.n h);;
       array_encode (noise h) (NoiseInfo.n h)); Ok (resize h k, buf)).
Proof.
  intros Hwf Hv. unfold wf in Hwf. wf_facts.
  pose proof (noise_array_length _ _ ltac:(eassumption)) as Hw.
  set (k := 40 + Z.of_nat (length (text (intf_name h))) + Z.of_nat (length (text (sta_ip h))) +
            34 * NoiseInfo.n h).
  assert (size_msg_noiseinfo h = Ok k) as Hs.
  { unfold size_msg_noiseinfo. rewrite !strlen_ethanol_ok by assumption. cbn [mbind res_bind].
    rewrite Hv. change (length (lit_bytes "1.0.3")) with 5%nat. rewrite to_s_id.
    - f_equal. unfold k. destruct (Z.ltb_spec 0 (NoiseInfo.n h)); lia.
    - lia.
    - destruct (Z.ltb_spec 0 (NoiseInfo.n h)); in_range. }
  exists k. split_and!; [done|unfold k; lia|unfold k; lia|unfold k; lia| |].
  - unfold noise_wire. rewrite !length_app, !length_cells, !Nat2Z.inj_add, Hw, length_wire_header.
    rewrite !length_le by lia.
    pose proof (length_wire_str_ge (text (intf_name h))).
    pose proof (length_wire_str_ge (text (sta_ip h))). unfold k. lia.
  - unfold encode_msg_noiseinfo, encode_with. rewrite Hs. cbn [mbind res_bind]. cbv zeta.
    rewrite to_s_id; [done|lia|unfold k; in_range].
Qed.

Lemma noise_overflow `{Allocator} h k : wf h = true →
  size_msg_noiseinfo h = Ok k → 0 ≤ k → usable k < Z.of_nat (length (noise_wire h k)) →
  fill_buffer k
      (encode_header (m_type (hd h)) (m_id (hd h)) k;; encode_char (intf_name h);;
       encode_char (sta_ip h);; encode_int (sta_port h);; encode_uint (NoiseInfo.n h);;
       array_encode (noise h) (NoiseInfo.n h)) = Err HeapOverflow.
Proof.
  intros Hwf Hs Hk Hl. eapply (fill_buffer_overflow k _ (noise_wire h k)); [done| |done].
  unfold wf in Hwf. wf_facts. unfold noise_wire. solve_writes.
Qed.
End noise.

(** The size of a noise message leaves out one field of each entry, and so
    its block is too small by eight bytes per entry: on an allocator that gives
    what it is asked for every message with an entry overruns its block, with
    glibc every message with three or more. *)
Theorem noiseinfo_overflows (h : NoiseInfo.msg_noiseinfo) :
  NoiseInfo.wf h = true → text (p_version (NoiseInfo.hd h)) = lit_bytes "1.0.3" →
  (1 ≤ NoiseInfo.n h → @NoiseInfo.encode_msg_noiseinfo exact_alloc h = Err HeapOverflow) ∧
  (3 ≤ NoiseInfo.n h → @NoiseInfo.encode_msg_noiseinfo glibc_alloc h = Err HeapOverflow).
Proof.
  intros Hwf Hv. split; intros Hn.
  - destruct (@noise_size exact_alloc h Hwf Hv) as (k & Hs & Hk & Hk' & Hl & ->).
    rewrite (@noise_overflow exact_alloc h k); [done|done|done|lia|].
    cbn [usable exact_alloc]. lia.
  - destruct (@noise_size glibc_alloc h Hwf Hv) as (k & Hs & Hk & Hk' & Hl & ->).
    rewrite (@noise_overflow glibc_alloc h k); [done|done|done|lia|].
    cbn [usable glibc_alloc]. pose proof (Z_div_mod_eq_full (k + 8 + 15) 16).
    pose proof (Z.mod_pos_bound (k + 8 + 15) 16). lia.
Qed.

Definition sample_noise : NoiseInfo.msg_noiseinfo :=
  NoiseInfo.Msg (Header MSG_GET_NOISEINFO 7 ETHANOL_VERSION 0) None 0 (lit "wlan0") 3
    (Some [NoiseInfo.Noise 1 2412 (-95) 0 0 0 0; NoiseInfo.Noise 6 2437 (-95) 0 0 0 0;
           NoiseInfo.Noise 11 2462 (-95) 0 0 0 0]).

Lemma noiseinfo_overflows_witness :
  @NoiseInfo.encode_msg_noiseinfo glibc_alloc sample_noise = Err HeapOverflow.
Proof. by apply (noiseinfo_overflows sample_noise eq_refl eq_refl). Defined.

(** ** A block released twice *)

(** Every well-formed request to set the bit rates makes the agent free
    the version string twice: the rates are passed to the driver first, then
    [free_msg_set_tx_bitrate] releases [p_version] at both of its ends. *)
Theorem set_tx_bitrates_double_free {W} `{!Agent W, !Net W, !Allocator} (addr : charp)
    (h : SetTxBitrates.msg_set_tx_bitrates) (k : Z) (w w' : W) :
  SetTxBitrates.wf h = true → m_type (SetTxBitrates.hd h) = MSG_SET_TX_BITRATES →
  SetTxBitrates.message_size_set_tx_bitrate h = Ok k → k ≤ 2048 →
  set_iw_bitrates (canon (SetTxBitrates.intf_name h)) (SetTxBitrates.band h)
    (elems (normal_array (SetTxBitrates.bitrates h))) w = Ok (tt, w') →
  serve_agent addr (wire_of h) w = Err DoubleFree.
Proof.
  intros Hwf Ht Hs Hk Hset. change (msg_wf h = true) in Hwf.
  rewrite (serve_routes h MSG_SET_TX_BITRATES H_msg_set_tx_bitrate k addr w Hwf Ht eq_refl Hs Hk).
  change (SetTxBitrates.process_msg_set_tx_bitrate (wire_of h) w = Err DoubleFree).
  unfold SetTxBitrates.process_msg_set_tx_bitrate.
  pose proof (wire_received h Hwf) as Hd.
  cbn [msg_decode SetTxBitrates.msg_set_tx_bitrates_message] in Hd. rewrite Hd.
  rewrite (st_bind_Ok _ _ w _ w eq_refl). unfold received.
  change (msg_size h) with (SetTxBitrates.message_size_set_tx_bitrate h). rewrite Hs.
  cbn [msg_normal msg_resize SetTxBitrates.msg_set_tx_bitrates_message].
  unfold SetTxBitrates.normal, SetTxBitrates.resize.
  cbn [SetTxBitrates.hd SetTxBitrates.intf_name SetTxBitrates.band SetTxBitrates.bitrates].
  destruct (nonnull (canon (SetTxBitrates.intf_name h))); [by run Hset|reflexivity].
Qed.

Lemma set_tx_bitrates_double_free_witness : let A := box_agent true in let N := @no_net box in
  @serve_agent box A N glibc_alloc (lit "10.0.0.1")
    (@wire_of _ (@SetTxBitrates.msg_set_tx_bitrates_message glibc_alloc)
      (SetTxBitrates.Msg (Header MSG_SET_TX_BITRATES 7 ETHANOL_VERSION 0) (lit "wlan0") None 0 1 2
         (Some [6; 12]))) (fresh_box 0) = Err DoubleFree.
Proof.
  intros A N. apply (@set_tx_bitrates_double_free box A N glibc_alloc (lit "10.0.0.1")
    (SetTxBitrates.Msg (Header MSG_SET_TX_BITRATES 7 ETHANOL_VERSION 0) (lit "wlan0") None 0 1 2
         (Some [6; 12])) 57 (fresh_box 0) (fresh_box 0)); (reflexivity || done).
Defined.
