(* ===== verification/Acceptor.v ===== *)
(** The accept loop of [run_ethanol_server] and the threads it creates
    ([messaging/ssl-server.c]).

    Each iteration accepts a connection, formats the client's address in the
    static buffer of [inet_ntoa], fills the loop's local [params] and creates
    a thread with the address of [params].  The thread copies the structure
    when it starts ([call_servlet]) and serves the connection.  The loop does
    not wait for the thread: the steps of all of them interleave. *)
From stdpp Require Import prelude list relations sets.
From S2P Require Import Prelude.

(** [struct servlet_params] without [client_addr], which always points to the
    same static buffer. *)
Record servlet_params := Params { ssl : Z; client_port : Z }.

(** A connection as [accept] gave it, or as a thread served it: handle,
    address and port of the client. *)
Record session := Session { s_ssl : Z; s_addr : Z; s_port : Z }.

#[global] Instance session_eq_dec : EqDecision session.
Proof. solve_decision. Defined.

Record server := Server {
  params : option servlet_params;   (* the loop's local variable *)
  ntoa : Z;                         (* the address in [inet_ntoa]'s buffer *)
  next_ssl : Z;                     (* the next handle [SSL_new] returns *)
  accepted : list session;          (* one entry for each turn of the loop *)
  connected : list Z;               (* handles on which [accept] gave a connection *)
  waiting : nat;                    (* threads created and not started *)
  lost : nat;                       (* threads that could not be created *)
  running : list servlet_params;    (* what the started threads copied *)
  served : list session             (* the calls of [servlet] that ended *)
}.

Definition initial : server := Server None 0 1 [] [] 0 0 [] [].

(** One iteration of the loop for a client at [addr]:[port].  Neither the
    result of [accept] nor that of [pthread_create] is looked at: when [accept]
    fails the handle has no connection and the address is what the local
    variable happens to hold; without a thread the handle is never released. *)
Definition accept_client (conn created : bool) (addr port : Z) (s : server) : server :=
  Server (Some (Params (next_ssl s) port)) addr (next_ssl s + 1)
    (Session (next_ssl s) addr port :: accepted s)
    (if conn then next_ssl s :: connected s else connected s)
    (if created then S (waiting s) else waiting s) (if created then lost s else S (lost s)) (running s) (served s).

(** [call_servlet]: a waiting thread copies the parameters. *)
Definition start_thread (s : server) : option server :=
  match waiting s, params s with
  | S n, Some p => Some (Server (params s) (ntoa s) (next_ssl s) (accepted s) (connected s) n (lost s) (p :: running s) (served s))
  | _, _ => None
  end.

(** [servlet] runs to its end in the [i]-th started thread: it names the
    client by what the buffer holds, and releases the handle. *)
Definition run_servlet (i : nat) (s : server) : option server :=
  match running s !! i with
  | Some p => Some (Server (params s) (ntoa s) (next_ssl s) (accepted s) (connected s) (waiting s) (lost s)
                      (delete i (running s)) (Session (ssl p) (ntoa s) (client_port p) :: served s))
  | None => None
  end.

Inductive step : server → server → Prop :=
| step_accept conn created addr port s : step s (accept_client conn created addr port s)
| step_start s s' : start_thread s = Some s' → step s s'
| step_servlet i s s' : run_servlet i s = Some s' → step s s'.

(** The schedules in which every call succeeds and the loop finds all its
    threads finished each time it accepts. *)
Definition idle (s : server) : Prop := waiting s = 0%nat ∧ running s = [].

Inductive step_quiet : server → server → Prop :=
| quiet_accept addr port s : idle s → step_quiet s (accept_client true true addr port s)
| quiet_start s s' : start_thread s = Some s' → step_quiet s s'
| quiet_servlet i s s' : run_servlet i s = Some s' → step_quiet s s'.

(** ** Invariants *)

(** In every schedule: each thread serves a handle of some turn of the loop, and
    there are as many threads, with those that could not be created, as turns. *)
Definition sound (s : server) : Prop :=
  length (accepted s) = (waiting s + lost s + length (running s) + length (served s))%nat ∧
  (∀ h, h ∈ connected s → h ∈ s_ssl <$> accepted s) ∧
  (∀ c, c ∈ accepted s → s_ssl c < next_ssl s) ∧
  NoDup (s_ssl <$> accepted s) ∧
  (∀ p, params s = Some p → ssl p ∈ s_ssl <$> accepted s) ∧
  (waiting s ≠ 0%nat → params s ≠ None) ∧
  (∀ p, p ∈ running s → ssl p ∈ s_ssl <$> accepted s) ∧
  (∀ c, c ∈ served s → s_ssl c ∈ s_ssl <$> accepted s).


Lemma rtc_invariant (R : relation server) (I : server → Prop) s s' :
  (∀ s s', R s s' → I s → I s') → rtc R s s' → I s → I s'.
Proof. intros HI. induction 1; eauto. Qed.

Lemma sound_initial : sound initial.
Proof. unfold sound, initial. simpl. split_and!; try done; try (by intros ? ?%not_elem_of_nil). constructor. Qed.

Lemma sound_step s s' : step s s' → sound s → sound s'.
Proof.
  intros Hstep (Hlen & Hcn & Hlt & Hnd & Hp & Hw & Hr & Hs).
  destruct Hstep as [conn created addr port s|s s' Hst|i s s' Hst].
  - unfold sound, accept_client. simpl. split_and!.
    + destruct created; lia.
    + intros h. destruct conn; [intros [->|Hh]%elem_of_cons; [by left|]|intros Hh]; right; by apply Hcn.
    + intros c [->|Hc]%elem_of_cons; simpl; [lia|]. specialize (Hlt c Hc). lia.
    + constructor; [|done]. intros (c & Hc & Hin)%list_elem_of_fmap. specialize (Hlt c Hin). lia.
    + intros p [= <-]. by left.
    + done.
    + intros p Hin. right. by apply Hr.
    + intros c Hin. right. by apply Hs.
  - unfold start_thread in Hst. destruct (waiting s) as [|n] eqn:Ew, (params s) as [p|] eqn:Ep; simplify_eq.
    unfold sound. simpl. split_and!; try done; [lia|].
    intros q [->|Hq]%elem_of_cons; [by apply Hp|by apply Hr].
  - unfold run_servlet in Hst. destruct (running s !! i) as [p|] eqn:Er; simplify_eq.
    pose proof (list_elem_of_lookup_2 _ _ _ Er) as Hin.
    pose proof (Permutation_length (delete_Permutation _ _ _ Er)) as Hdl.
    unfold sound. simpl in *. split_and!; try done; [lia| |].
    + intros q Hq%list_elem_of_delete_inv. by apply Hr.
    + intros c [->|Hc]%elem_of_cons; [by apply Hr|by apply Hs].
Qed.

(** When the loop is quiet there is at most one connection under way, and it
    is the last one accepted. *)
Definition one_at_a_time (s : server) : Prop :=
  (idle s ∧ served s = accepted s) ∨
  ∃ c, accepted s = c :: served s ∧ ntoa s = s_addr c ∧
    ((waiting s = 1%nat ∧ running s = [] ∧ params s = Some (Params (s_ssl c) (s_port c))) ∨
     (waiting s = 0%nat ∧ running s = [Params (s_ssl c) (s_port c)])).

Lemma quiet_invariant s s' : step_quiet s s' → one_at_a_time s → one_at_a_time s'.
Proof.
  intros Hstep Hinv. destruct Hstep as [addr port s [Hw Hr]|s s' Hst|i s s' Hst].
  - right. destruct Hinv as [[_ Hs]|(c & _ & _ & [(Hw' & _)|(_ & Hr')])]; [|congruence..].
    exists (Session (next_ssl s) addr port). simpl. rewrite Hs, Hw, Hr. split_and!; auto.
  - unfold start_thread in Hst.
    destruct Hinv as [[[Hw Hr] _]|(c & Ha & Hn & [(Hw & Hr & Hp)|(Hw & Hr)])];
      rewrite Hw in Hst; [done| |done].
    rewrite Hp in Hst. simplify_eq. right. exists c. simpl. rewrite Hr. auto.
  - unfold run_servlet in Hst.
    destruct Hinv as [[[Hw Hr] _]|(c & Ha & Hn & [(Hw & Hr & _)|(Hw & Hr)])];
      rewrite Hr in Hst; [done..|].
    destruct i as [|i]; [|done]. simplify_eq/=. left. unfold idle. simpl.
    rewrite Hn, Ha. destruct c. auto.
Qed.

(** ** Properties *)

(** In every interleaving of the accept loop and its threads, whatever fails,
    there is at most one thread per turn of the loop, the handles are distinct,
    and a thread only serves a handle of some turn. *)
Theorem acceptor_sound (s : server) : rtc step initial s → sound s.
Proof.
  intros H. by apply (rtc_invariant step sound initial s sound_step H), sound_initial.
Qed.

(** If no call fails and the loop finds the previous connection finished whenever it
    accepts, every connection is served once, by a thread that has its own
    handle, address and port: when the server is idle again, what was served
    is what was accepted. *)
Theorem acceptor_quiet_serves_all (s : server) :
  rtc step_quiet initial s → idle s → served s = accepted s.
Proof.
  intros H [Hw Hr].
  assert (one_at_a_time s) as [[_ Hs]|(c & _ & _ & [(Hw' & _)|(_ & Hr')])]; [|done|congruence..].
  apply (rtc_invariant step_quiet one_at_a_time initial s quiet_invariant H). by left.
Qed.

(** Without that, a thread that starts after the next [accept] copies the
    parameters of the later connection: with two clients there is an
    interleaving that ends with the second connection served, and its handle
    released, twice, and the first never. *)
Theorem acceptor_race (a1 p1 a2 p2 : Z) : ∃ s,
  rtc step initial s ∧ idle s ∧
  accepted s = [Session 2 a2 p2; Session 1 a1 p1] ∧
  served s = [Session 2 a2 p2; Session 2 a2 p2].
Proof.
  eexists. split; [|].
  - eapply rtc_l; [apply (step_accept true true a1 p1)|]. eapply rtc_l; [apply (step_accept true true a2 p2)|].
    do 2 (eapply rtc_l; [by apply step_start|]).
    do 2 (eapply rtc_l; [by apply (step_servlet 0)|]). apply rtc_refl.
  - done.
Qed.

(** A thread that copied the right parameters still names the client by
    the shared buffer of [inet_ntoa]: if the next client is accepted before
    [servlet] uses the address, the first connection is handled under the
    second client's address. *)
Theorem acceptor_wrong_address (a1 p1 a2 p2 : Z) : ∃ s,
  rtc step initial s ∧ accepted s = [Session 2 a2 p2; Session 1 a1 p1] ∧
  served s = [Session 1 a2 p1].
Proof.
  eexists. split; [|].
  - eapply rtc_l; [apply (step_accept true true a1 p1)|]. eapply rtc_l; [by apply step_start|].
    eapply rtc_l; [apply (step_accept true true a2 p2)|].
    eapply rtc_l; [by apply (step_servlet 0)|]. apply rtc_refl.
  - done.
Qed.

Lemma acceptor_sound_witness : sound (accept_client false true 7 80 initial).
Proof. apply acceptor_sound. eapply rtc_l; [apply (step_accept false true 7 80)|apply rtc_refl]. Defined.

Lemma acceptor_quiet_serves_all_witness : ∃ s,
  accepted s = [Session 1 7 80] ∧ served s = accepted s.
Proof.
  eexists (Server _ _ _ _ _ _ _ _ _). split; [|apply acceptor_quiet_serves_all].
  2: { eapply rtc_l; [apply (quiet_accept 7 80); by split|].
       eapply rtc_l; [by apply quiet_start|]. eapply rtc_l; [by apply (quiet_servlet 0)|]. apply rtc_refl. }
  - reflexivity.
  - by split.
Defined.
