(* ===== verification/Elements.v ===== *)
(** Information elements of a management frame: [ieee802_11_parse_elems] of
    [common/ieee802_11_common.c] with [ieee802_11_parse_vendor_specific], and
    [merge_byte_arrays] of [utils/common.c].

    A pointer into the frame is its offset there.  [struct ieee802_11_elems]
    has a pointer for each element and, for most of them, its length; both are
    kept for all of them. *)
From stdpp Require Import prelude list.
From S2P Require Import Prelude CMem.

(** ** struct ieee802_11_elems *)

Inductive elem :=
| E_ssid | E_supp_rates | E_ds_params | E_challenge | E_erp_info | E_ext_supp_rates | E_wpa_ie
| E_rsn_ie | E_wmm | E_wmm_tspec | E_wps_ie | E_supp_channels | E_mdie | E_ftie | E_timeout_int
| E_ht_capabilities | E_ht_operation | E_mesh_config | E_mesh_id | E_peer_mgmt | E_vht_capabilities
| E_vht_operation | E_vht_opmode_notif | E_vendor_ht_cap | E_vendor_vht | E_p2p | E_wfd | E_link_id
| E_interworking | E_qos_map_set | E_hs20 | E_ext_capab | E_bss_max_idle_period | E_ssid_list
| E_osen | E_mbo | E_ampe | E_mic | E_pref_freq_list | E_supp_op_classes | E_rrm_enabled.

#[global] Instance elem_eq_dec : EqDecision elem.
Proof. solve_decision. Defined.

Record ieee802_11_elems := Elems {
  elem_at : elem → option (nat * nat);   (* offset and length *)
  mb_ies : list (nat * nat)
}.

(** [os_memset] to zero. *)
Definition no_elems : ieee802_11_elems := Elems (λ _, None) [].

Definition set_elem (e : elem) (pos elen : nat) (s : ieee802_11_elems) : ieee802_11_elems :=
  Elems (λ e', if decide (e' = e) then Some (pos, elen) else elem_at s e') (mb_ies s).

Inductive ParseRes := ParseOK | ParseUnknown | ParseFailed.

#[global] Instance ParseRes_eq_dec : EqDecision ParseRes.
Proof. solve_decision. Defined.

(** ** ieee802_11_parse_vendor_specific *)

Definition OUI_MICROSOFT : Z := 20722.    (* 0x0050f2 *)
Definition OUI_WFA : Z := 5271450.        (* 0x506f9a *)
Definition OUI_BROADCOM : Z := 36940.     (* 0x00904c *)
Definition OUI_QCA : Z := 4980.           (* 0x001374 *)

Definition WPA_GET_BE24 (a b c : Z) : Z := a * 65536 + b * 256 + c.

(** The field an element of a vendor is stored in; [None] is the result -1. *)
Definition ieee802_11_parse_vendor_specific (data : list Z) : option elem :=
  match data with
  | a :: b :: c :: t :: rest =>
      let oui := WPA_GET_BE24 a b c in
      if oui =? OUI_MICROSOFT then
        if t =? 1 then Some E_wpa_ie
        else if t =? 2 then
          match rest with
          | [] => None
          | s :: _ => if (s =? 0) || (s =? 1) then Some E_wmm else if s =? 2 then Some E_wmm_tspec else None
          end
        else if t =? 4 then Some E_wps_ie else None
      else if oui =? OUI_WFA then
        if t =? 9 then Some E_p2p else if t =? 10 then Some E_wfd else if t =? 16 then Some E_hs20
        else if t =? 18 then Some E_osen else if t =? 22 then Some E_mbo else None
      else if oui =? OUI_BROADCOM then
        if t =? 51 then Some E_vendor_ht_cap
        else if t =? 4 then
          match rest with
          | s :: _ => if (s =? 8) || (s =? 0) then Some E_vendor_vht else None
          | [] => None
          end
        else None
      else if oui =? OUI_QCA then if t =? 0 then Some E_pref_freq_list else None
      else None
  | _ => None
  end.

(** ** ieee802_11_parse_elems *)

(** What the switch does with an element: it is stored in a field, ignored,
    stored among the multi-band elements, or counted as unknown. *)
Inductive slot := Stored (e : elem) | Ignored | MultiBand | Unknown.

Definition at_least (n : nat) (e : elem) (elen : nat) : slot :=
  if bool_decide (n ≤ elen)%nat then Stored e else Ignored.
Definition exactly (n : nat) (e : elem) (elen : nat) : slot :=
  if bool_decide (elen = n) then Stored e else Ignored.

Definition element_slot (id : Z) (data : list Z) : slot :=
  let elen := length data in
  match id with
  | 0 => if bool_decide (elen ≤ 32)%nat then Stored E_ssid else Ignored
  | 1 => Stored E_supp_rates
  | 3 => at_least 1 E_ds_params elen
  | 4 | 5 => Ignored
  | 16 => Stored E_challenge
  | 42 => at_least 1 E_erp_info elen
  | 50 => Stored E_ext_supp_rates
  | 221 => match ieee802_11_parse_vendor_specific data with Some e => Stored e | None => Unknown end
  | 48 => Stored E_rsn_ie
  | 33 => Ignored
  | 36 => Stored E_supp_channels
  | 54 => at_least 3 E_mdie elen            (* struct rsn_mdie *)
  | 55 => at_least 82 E_ftie elen           (* struct rsn_ftie *)
  | 56 => exactly 5 E_timeout_int elen
  | 45 => at_least 26 E_ht_capabilities elen
  | 61 => at_least 22 E_ht_operation elen
  | 113 => Stored E_mesh_config
  | 114 => Stored E_mesh_id
  | 117 => Stored E_peer_mgmt
  | 191 => at_least 12 E_vht_capabilities elen
  | 192 => at_least 5 E_vht_operation elen
  | 199 => exactly 1 E_vht_opmode_notif elen
  | 101 => at_least 18 E_link_id elen
  | 107 => Stored E_interworking
  | 110 => at_least 16 E_qos_map_set elen
  | 127 => Stored E_ext_capab
  | 90 => at_least 3 E_bss_max_idle_period elen
  | 84 => Stored E_ssid_list
  | 139 => Stored E_ampe
  | 140 => Stored E_mic
  | 158 => MultiBand
  | 59 => Stored E_supp_op_classes
  | 70 => Stored E_rrm_enabled
  | _ => Unknown
  end.

Definition MAX_NOF_MB_IES_SUPPORTED : nat := 5.

(** The assignments of one turn, and the count of unknown elements. *)
Definition store_element (id : Z) (pos : nat) (data : list Z) (s : ieee802_11_elems) (unknown : nat) :
    ieee802_11_elems * nat :=
  match element_slot id data with
  | Stored e => (set_elem e pos (length data) s, unknown)
  | Ignored => (s, unknown)
  | MultiBand =>
      if bool_decide (MAX_NOF_MB_IES_SUPPORTED ≤ length (mb_ies s))%nat then (s, unknown)
      else (Elems (elem_at s) (mb_ies s ++ [(pos, length data)]), unknown)
  | Unknown => (s, S unknown)
  end.

(** [while (left >= 2)]: [bytes] are the [left] bytes at [pos].  After a MIC
    the loop ends.  Each turn takes two bytes or more. *)
Fixpoint parse_loop (fuel : nat) (pos : nat) (bytes : list Z) (s : ieee802_11_elems) (unknown : nat) :
    ParseRes * ieee802_11_elems :=
  match fuel, bytes with
  | S fuel, id :: elen :: rest =>
      let elen := Z.to_nat elen in
      if bool_decide (length rest < elen)%nat then (ParseFailed, s)
      else
        let data := take elen rest in
        let '(s, unknown) := store_element id (2 + pos) data s unknown in
        let rest := if id =? 140 then [] else drop elen rest in
        parse_loop fuel (2 + pos + elen) rest s unknown
  | _, [] => (match unknown with O => ParseOK | S _ => ParseUnknown end, s)
  | _, _ => (ParseFailed, s)
  end.

Definition ieee802_11_parse_elems (start : list Z) : ParseRes * ieee802_11_elems :=
  parse_loop (length start) 0 start no_elems 0.

(** ** merge_byte_arrays *)

(** The contents of [res] and the number of bytes; [None] is a NULL source. *)
Definition merge_byte_arrays (res_len : nat) (src1 src2 : option (list Z)) : list Z * nat :=
  let pad (l : list Z) := l ++ replicate (res_len - length l) 0 in
  let step (l : list Z) (src : option (list Z)) :=
    match src with Some s => take res_len (l ++ s) | None => l end in
  match src1 with
  | Some s1 =>
      if bool_decide (res_len ≤ length s1)%nat then (take res_len s1, res_len)
      else let l := step s1 src2 in (pad l, length l)
  | None => let l := step [] src2 in (pad l, length l)
  end.

(** ** Properties of the parser *)

(** An element lies in the frame, behind its identifier and its length. *)
Definition in_frame (n : nat) (p : nat * nat) : Prop := (2 ≤ p.1)%nat ∧ (p.1 + p.2 ≤ n)%nat.

(** The number of bytes the parser requires of an element before it stores it:
    for those without a length field of their own, what the rest of the program
    can rely on. For the DS parameters it is one byte. *)
Definition least_length (e : elem) : nat :=
  match e with
  | E_ds_params | E_erp_info | E_vht_opmode_notif => 1
  | E_mdie | E_bss_max_idle_period => 3
  | E_timeout_int | E_vht_operation => 5
  | E_ftie => 82 | E_ht_capabilities => 26 | E_ht_operation => 22 | E_vht_capabilities => 12
  | E_link_id => 18 | E_qos_map_set => 16
  | E_wpa_ie | E_wmm | E_wmm_tspec | E_wps_ie | E_p2p | E_wfd | E_hs20 | E_osen | E_mbo
  | E_vendor_ht_cap | E_vendor_vht | E_pref_freq_list => 4
  | _ => 0
  end.

Definition elems_ok (n : nat) (s : ieee802_11_elems) : Prop :=
  (∀ e p, elem_at s e = Some p → in_frame n p ∧ (least_length e ≤ p.2)%nat) ∧
  Forall (in_frame n) (mb_ies s) ∧ (length (mb_ies s) ≤ MAX_NOF_MB_IES_SUPPORTED)%nat.

Lemma vendor_length data e : ieee802_11_parse_vendor_specific data = Some e →
  (4 ≤ length data)%nat ∧ least_length e = 4%nat.
Proof.
  destruct data as [|a [|b [|c [|t rest]]]]; [done..|]. cbn [ieee802_11_parse_vendor_specific]. intros E.
  split; [simpl; lia|]. repeat case_match; by simplify_eq/=.
Qed.

Lemma slot_length id data e : element_slot id data = Stored e → (least_length e ≤ length data)%nat.
Proof.
  unfold element_slot, at_least, exactly. intros E. repeat case_match; simplify_eq/=; try lia;
    repeat match goal with H : bool_decide _ = true |- _ => apply bool_decide_eq_true in H end; try lia.
  match goal with H : _ = Some _ |- _ => apply vendor_length in H as [? ->] end. lia.
Qed.

Lemma in_frame_mono n m p : (n ≤ m)%nat → in_frame n p → in_frame m p.
Proof. intros ? []. split; lia. Qed.

Lemma store_element_ok n id pos data s u s' u' : elems_ok n s → (2 ≤ pos)%nat →
  (pos + length data ≤ n)%nat → store_element id pos data s u = (s', u') → elems_ok n s'.
Proof.
  intros (He & Hm & Hl) Hp Hn. unfold store_element. destruct (element_slot id data) as [e| | |] eqn:E;
    [intros [= <- _]|intros [= <- _]; done| |intros [= <- _]; done].
  - split; [|done]. intros e' p. cbn [set_elem elem_at]. case_decide as Hd; [|apply He].
    intros [= <-]. subst e'. split; [split; cbn; lia|]. by apply slot_length in E.
  - case_bool_decide as Hb; intros [= <- _]; [done|]. split; [done|]. split.
    + apply Forall_app_2; [done|]. constructor; [split; cbn; lia|done].
    + cbn [mb_ies]. rewrite length_app. cbn. lia.
Qed.

Lemma parse_loop_ok fuel n pos bytes s u : elems_ok n s → (pos + length bytes ≤ n)%nat →
  elems_ok n (parse_loop fuel pos bytes s u).2.
Proof.
  revert pos bytes s u. induction fuel as [|fuel IH]; intros pos bytes s u Hs Hp.
  { by destruct bytes. }
  destruct bytes as [|id [|z rest]]; [done..|]. cbn [parse_loop length] in *.
  case_bool_decide as Hlt; [done|]. set (elen := Z.to_nat z) in *.
  assert (length (take elen rest) = elen) as Hl by (rewrite length_take; lia).
  destruct (store_element _ _ _ _ _) as [s' u'] eqn:E. apply IH.
  - eapply store_element_ok; [exact Hs| | |exact E]; lia.
  - destruct (id =? 140); [cbn; lia|]. rewrite length_drop. lia.
Qed.

Lemma parse_elems_ok bytes : elems_ok (length bytes) (ieee802_11_parse_elems bytes).2.
Proof. apply parse_loop_ok; [|cbn; lia]. split; [done|]. split; [constructor|cbn; lia]. Qed.

(** ** The parser against its specification *)

(** Elements one after the other. *)
Definition element : Type := Z * list Z.
Definition element_ok (x : element) : bool := (Z.of_nat (length x.2) <? 256).
Definition render_element (x : element) : list Z := x.1 :: Z.of_nat (length x.2) :: x.2.
Definition render_elements (l : list element) : list Z := concat (render_element <$> l).

(** Nothing is read behind a MIC. *)
Fixpoint readable (l : list element) : list element :=
  match l with [] => [] | x :: l => if x.1 =? 140 then [x] else x :: readable l end.

(** The elements with the offsets of their contents. *)
Fixpoint placed (pos : nat) (l : list element) : list (nat * element) :=
  match l with [] => [] | x :: l => (2 + pos, x)%nat :: placed (2 + pos + length x.2) l end.

(** Each field is the last element that is stored there. *)
Definition stored_in (e : elem) (x : nat * element) : bool :=
  match element_slot x.2.1 x.2.2 with Stored e' => bool_decide (e' = e) | _ => false end.
Definition spec_elem (l : list (nat * element)) (e : elem) : option (nat * nat) :=
  (λ x, (x.1, length x.2.2)) <$> last (filter (λ x, stored_in e x = true) l).
Definition is_slot (k : slot) (x : nat * element) : bool :=
  match k, element_slot x.2.1 x.2.2 with MultiBand, MultiBand | Unknown, Unknown => true | _, _ => false end.
Definition spec_mb (l : list (nat * element)) : list (nat * nat) :=
  take MAX_NOF_MB_IES_SUPPORTED ((λ x, (x.1, length x.2.2)) <$> filter (λ x, is_slot MultiBand x = true) l).

(** What the loop has after the elements [l]. *)
Definition represents (l : list (nat * element)) (s : ieee802_11_elems) (u : nat) : Prop :=
  (∀ e, elem_at s e = spec_elem l e) ∧ mb_ies s = spec_mb l ∧
  u = length (filter (λ x, is_slot Unknown x = true) l).

Lemma filter_snoc {A} (f : A → bool) (l : list A) x :
  filter (λ x, f x = true) (l ++ [x]) = filter (λ x, f x = true) l ++ (if f x then [x] else []).
Proof.
  rewrite filter_app. f_equal. destruct (f x) eqn:E;
    [by rewrite filter_cons_True|by rewrite filter_cons_False by congruence].
Qed.

Lemma represents_step l s u pos x : represents l s u →
  represents (l ++ [(pos, x)]) (store_element x.1 pos x.2 s u).1 (store_element x.1 pos x.2 s u).2.
Proof.
  intros (He & Hm & Hu). unfold store_element, represents, spec_elem, spec_mb.
  assert (∀ e, stored_in e (pos, x) = match element_slot x.1 x.2 with Stored e' => bool_decide (e' = e) | _ => false end) as Hst by done.
  assert (∀ k, is_slot k (pos, x) = match k, element_slot x.1 x.2 with MultiBand, MultiBand | Unknown, Unknown => true | _, _ => false end) as Hsl by done.
  split_and!.
  - intros e. rewrite filter_snoc, Hst. destruct (element_slot x.1 x.2) as [e'| | |]; cbn [fst].
    + cbn [set_elem elem_at]. destruct (decide (e = e')) as [->|Hne].
      * by rewrite bool_decide_true, last_snoc by done.
      * rewrite bool_decide_false, app_nil_r by congruence. apply He.
    + rewrite app_nil_r. apply He.
    + rewrite app_nil_r. case_bool_decide; apply He.
    + rewrite app_nil_r. apply He.
  - rewrite filter_snoc, Hsl. destruct (element_slot x.1 x.2) as [e'| | |]; cbn [fst];
      rewrite ?app_nil_r; try apply Hm.
    rewrite fmap_app. cbn [fmap list_fmap]. unfold spec_mb in Hm. case_bool_decide as Hb.
    + rewrite take_app_le; [done|]. rewrite Hm, length_take in Hb. lia.
    + cbn [mb_ies]. rewrite Hm in Hb. rewrite length_take in Hb. rewrite take_app_ge by lia.
      rewrite Hm, take_ge by lia.
      rewrite (take_ge [_]); [done|]. cbn [length]. lia.
  - rewrite filter_snoc, Hsl, length_app, <- Hu. destruct (element_slot x.1 x.2) as [e'| | |]; cbn [snd length]; try lia.
    case_bool_decide; cbn [snd length]; lia.
Qed.

Lemma represents_nil : represents [] no_elems 0.
Proof. by split_and!. Qed.

(** What the parser answers for elements that are all complete. *)
Definition spec_result (l : list (nat * element)) : ParseRes :=
  if existsb (is_slot Unknown) l then ParseUnknown else ParseOK.

Lemma unknown_result l s u : represents l s u →
  (match u with O => ParseOK | S _ => ParseUnknown end) = spec_result l.
Proof.
  intros (_ & _ & ->). unfold spec_result. induction l as [|x l IH]; [done|]. cbn [existsb].
  destruct (is_slot Unknown x) eqn:E; [by rewrite filter_cons_True|].
  by rewrite filter_cons_False by congruence.
Qed.

(** The loop, started behind the elements [done]. *)
Lemma parse_loop_represents fuel l : ∀ pos before s u, Forall (λ x, element_ok x = true) l →
  represents before s u → (length (render_elements l) ≤ fuel)%nat →
  ∃ s' u', represents (before ++ placed pos (readable l)) s' u' ∧
    parse_loop fuel pos (render_elements l) s u = (spec_result (before ++ placed pos (readable l)), s').
Proof.
  revert fuel. induction l as [|x l IH]; intros fuel pos before s u Hok Hr Hf.
  { exists s, u. cbn [readable placed]. rewrite app_nil_r. split; [done|].
    rewrite <- (unknown_result _ _ _ Hr). by destruct fuel. }
  apply Forall_cons in Hok as [Hx Hl]. unfold element_ok in Hx.
  unfold render_elements in *. cbn [fmap list_fmap concat] in *. fold (render_elements l) in *.
  unfold render_element in Hf. rewrite length_app in Hf. cbn [length] in Hf.
  destruct fuel as [|fuel]; [lia|]. unfold render_element. cbn [app parse_loop].
  rewrite Nat2Z.id, length_app, bool_decide_false by lia. rewrite take_app_length, drop_app_length.
  pose proof (represents_step before s u (2 + pos) x Hr) as Hstep.
  destruct (store_element _ _ _ _ _) as [s1 u1]. cbn [fst snd readable] in *.
  destruct (x.1 =? 140) eqn:Em; cbn [placed].
  - exists s1, u1. split; [done|]. rewrite <- (unknown_result _ _ _ Hstep). by destruct fuel.
  - destruct (IH fuel (2 + pos + length x.2)%nat _ s1 u1 Hl Hstep) as (s' & u' & Hr' & E); [lia|].
    rewrite <- app_assoc in *. cbn [app] in *. by exists s', u'.
Qed.


(** An access point on channel 6 with a vendor element that is not known. *)
Definition demo_elements : list element :=
  [(0, [97; 112]); (1, [130; 132]); (3, [6]); (221, [0; 80; 242; 2; 1; 1]); (221, [1; 2; 3; 4])].


(** C22: whatever bytes arrive, every pointer the parser stores is inside the
    frame, behind an identifier and a length, with all the bytes of its element;
    every stored element has at least the number of bytes the parser requires
    for it ([least_length]: 26 for the HT capabilities, one for the DS
    parameters, ...); and the array of multi-band elements holds at most five. *)
Theorem parse_elems_in_bounds bytes : elems_ok (length bytes) (ieee802_11_parse_elems bytes).2.
Proof. apply parse_elems_ok. Qed.
