(* ===== verification/ApTable.v ===== *)
(** The table of access points: the data structure of [ap/ap_list.c].

    The entries are nodes of a store.  They are linked twice: in a doubly linked
    list with the entry heard last in front, whose head points back to its tail,
    and in singly linked chains, one for each value of the last byte of the
    address.  [shape] says that both structures hold the same entries; the
    operations keep it.  [Beacons] uses them. *)
From stdpp Require Import prelude list gmap.
From S2P Require Import Prelude.

(** ** The data *)

Abbreviation loc := positive.

(** [struct ap_info]. *)
Record ap_info := ApInfo {
  next : option loc;
  prev : option loc;
  hnext : option loc;
  addr : list Z;
  supported_rates : list Z;
  erp : Z;
  channel : Z;
  ht_support : bool;
  last_beacon : Z * Z
}.

Definition set_next (q : option loc) (n : ap_info) : ap_info :=
  ApInfo q (prev n) (hnext n) (addr n) (supported_rates n) (erp n) (channel n) (ht_support n) (last_beacon n).
Definition set_prev (q : option loc) (n : ap_info) : ap_info :=
  ApInfo (next n) q (hnext n) (addr n) (supported_rates n) (erp n) (channel n) (ht_support n) (last_beacon n).
Definition set_hnext (q : option loc) (n : ap_info) : ap_info :=
  ApInfo (next n) (prev n) q (addr n) (supported_rates n) (erp n) (channel n) (ht_support n) (last_beacon n).

(** The members of [struct hostapd_iface] the table uses.  A bucket of
    [ap_hash] that is not in the map is NULL. *)
Record aps := Aps {
  ap_nodes : gmap loc ap_info;
  ap_list : option loc;
  ap_hash : gmap Z loc;
  num_ap : Z;
  olbc : bool;
  olbc_ht : bool
}.

Definition put_nodes (h : gmap loc ap_info) (s : aps) : aps :=
  Aps h (ap_list s) (ap_hash s) (num_ap s) (olbc s) (olbc_ht s).
Definition put_list (p : option loc) (s : aps) : aps :=
  Aps (ap_nodes s) p (ap_hash s) (num_ap s) (olbc s) (olbc_ht s).
Definition put_hash (b : Z) (p : option loc) (s : aps) : aps :=
  Aps (ap_nodes s) (ap_list s) (partial_alter (λ _, p) b (ap_hash s)) (num_ap s) (olbc s) (olbc_ht s).
Definition put_num (z : Z) (s : aps) : aps :=
  Aps (ap_nodes s) (ap_list s) (ap_hash s) z (olbc s) (olbc_ht s).

(** The interface as [os_zalloc] leaves it. *)
Definition no_aps : aps := Aps ∅ None ∅ 0 false false.

(** ** The operations *)

Definition get_aps : ST aps aps := λ s, Ok (s, s).
Definition modify_aps (f : aps → aps) : ST aps unit := λ s, Ok (tt, f s).

(** [*l] is read or changed. *)
Definition node (l : loc) : ST aps ap_info := λ s,
  match ap_nodes s !! l with Some n => Ok (n, s) | None => Err UseAfterFree end.
Definition upd (l : loc) (f : ap_info → ap_info) : ST aps unit := λ s,
  match ap_nodes s !! l with
  | Some n => Ok (tt, put_nodes (<[l := f n]> (ap_nodes s)) s)
  | None => Err UseAfterFree
  end.

(** [#define STA_HASH(sta) (sta[5])] *)
Definition STA_HASH (sta : list Z) : Z := nth 5 sta 0.

(** [while (s != NULL && os_memcmp(s->addr, ap, ETH_ALEN) != 0) s = s->hnext]:
    more turns than there are entries are an endless loop. *)
Fixpoint get_loop (fuel : nat) (p : option loc) (ap : list Z) : ST aps (option loc) :=
  match p with
  | None => mret None
  | Some l =>
      match fuel with
      | O => fail Diverges
      | S fuel =>
          n ← node l;
          if decide (addr n = ap) then mret (Some l) else get_loop fuel (hnext n) ap
      end
  end.
Definition ap_get_ap (ap : list Z) : ST aps (option loc) :=
  s ← get_aps; get_loop (size (ap_nodes s)) (ap_hash s !! STA_HASH ap) ap.

Definition ap_ap_list_add (ap : loc) : ST aps unit :=
  s ← get_aps;
  match ap_list s with
  | Some hd =>
      n ← node hd;
      upd ap (set_prev (prev n));;
      upd hd (set_prev (Some ap))
  | None => upd ap (set_prev (Some ap))
  end;;
  upd ap (set_next (ap_list s));;
  modify_aps (put_list (Some ap)).

(** The first [if] of [ap_ap_list_del], then the whole function. *)
Definition list_del_forward (ap : loc) : ST aps unit :=
  s ← get_aps;
  n ← node ap;
  if decide (ap_list s = Some ap) then modify_aps (put_list (next n))
  else p ← lift (deref (prev n)); upd p (set_next (next n)).
Definition ap_ap_list_del (ap : loc) : ST aps unit :=
  list_del_forward ap;;
  n ← node ap;
  match next n with
  | Some q => upd q (set_prev (prev n))
  | None =>
      s ← get_aps;
      match ap_list s with Some hd => upd hd (set_prev (prev n)) | None => mret tt end
  end.

Definition ap_ap_hash_add (ap : loc) : ST aps unit :=
  s ← get_aps;
  n ← node ap;
  upd ap (set_hnext (ap_hash s !! STA_HASH (addr n)));;
  modify_aps (put_hash (STA_HASH (addr n)) (Some ap)).

(** The loop of [ap_ap_hash_del] and the assignment behind it. *)
Fixpoint hash_del_loop (fuel : nat) (s : loc) (ap : list Z) : ST aps unit :=
  match fuel with
  | O => fail Diverges
  | S fuel =>
      n ← node s;
      match hnext n with
      | None => mret tt
      | Some t =>
          nt ← node t;
          if decide (addr nt = ap) then upd s (set_hnext (hnext nt)) else hash_del_loop fuel t ap
      end
  end.
Definition ap_ap_hash_del (ap : loc) : ST aps unit :=
  t ← get_aps;
  n ← node ap;
  match ap_hash t !! STA_HASH (addr n) with
  | None => mret tt
  | Some s =>
      ns ← node s;
      if decide (addr ns = addr n) then modify_aps (put_hash (STA_HASH (addr n)) (hnext ns))
      else hash_del_loop (size (ap_nodes t)) s (addr n)
  end.

Definition ap_free_ap (ap : loc) : ST aps unit :=
  ap_ap_hash_del ap;;
  ap_ap_list_del ap;;
  modify_aps (λ s, put_num (num_ap s - 1) s);;
  modify_aps (λ s, put_nodes (delete ap (ap_nodes s)) s).

(** [while (ap) { prev = ap; ap = ap->next; ap_free_ap(iface, prev); }] *)
Fixpoint free_loop (fuel : nat) (p : option loc) : ST aps unit :=
  match p with
  | None => mret tt
  | Some ap =>
      match fuel with
      | O => fail Diverges
      | S fuel => n ← node ap; ap_free_ap ap;; free_loop fuel (next n)
      end
  end.
Definition hostapd_free_aps : ST aps unit :=
  s ← get_aps;
  free_loop (size (ap_nodes s)) (ap_list s);;
  modify_aps (put_list None).

(** [ap_list_deinit]. *)
Definition ap_list_deinit : ST aps unit := hostapd_free_aps.

(** The entry [os_zalloc] gives, with its address. *)
Definition new_ap (a : list Z) : ap_info :=
  ApInfo None None None a (replicate 32 0) 0 0 false (0, 0).

(** [ap_ap_list_add], [num_ap++] and [ap_ap_hash_add] for the new node [a]. *)
Definition link_new (a : loc) : ST aps unit :=
  ap_ap_list_add a;;
  s ← get_aps;
  lift (ensure (i32_ok (num_ap s + 1)) SignedOverflow);;
  modify_aps (λ s, put_num (num_ap s + 1) s);;
  ap_ap_hash_add a.

(** [ap_ap_add] behind the check that there is memory. *)
Definition ap_ap_add (ap_table_max_size : Z) (a : list Z) : ST aps loc :=
  s ← get_aps;
  let ap := fresh (dom (ap_nodes s)) in
  modify_aps (λ s, put_nodes (<[ap := new_ap a]> (ap_nodes s)) s);;
  link_new ap;;
  s ← get_aps;
  n ← node ap;
  (if (ap_table_max_size <? num_ap s) && negb (bool_decide (prev n = Some ap)) then
     p ← lift (deref (prev n)); ap_free_ap p
   else mret tt);;
  mret ap.

(** ** Linked lists through a field *)

(** The values of a field of the nodes. *)
Definition fld {A} (g : ap_info → A) (h : gmap loc ap_info) (l : loc) : option A := g <$> h !! l.

Definition head_or (L : list loc) (e : option loc) : option loc :=
  match L with [] => e | l :: _ => Some l end.
Definition last_or (L : list loc) (p : option loc) : option loc :=
  match last L with Some l => Some l | None => p end.

(** Each node of [L] has the field of the next one, the last one [e]. *)
Fixpoint nexts (f : loc → option (option loc)) (L : list loc) (e : option loc) : Prop :=
  match L with [] => True | l :: L => f l = Some (head_or L e) ∧ nexts f L e end.

(** Each node of [L] has the field of the one before it, the first one [p]. *)
Fixpoint prevs (f : loc → option (option loc)) (p : option loc) (L : list loc) : Prop :=
  match L with [] => True | l :: L => f l = Some p ∧ prevs f (Some l) L end.

Lemma head_or_app L1 L2 e : head_or (L1 ++ L2) e = head_or L1 (head_or L2 e).
Proof. by destruct L1. Qed.

Lemma last_or_cons l L p : last_or (l :: L) p = last_or L (Some l).
Proof. unfold last_or. rewrite last_cons. by destruct (last L). Qed.

Lemma last_or_snoc L l p : last_or (L ++ [l]) p = Some l.
Proof. unfold last_or. by rewrite last_snoc. Qed.

Lemma last_or_last l L p : last_or (l :: L) p = last (l :: L).
Proof. unfold last_or. destruct (last (l :: L)) eqn:E; [done|by apply last_None in E]. Qed.

Lemma nexts_app f L1 L2 e : nexts f (L1 ++ L2) e ↔ nexts f L1 (head_or L2 e) ∧ nexts f L2 e.
Proof.
  induction L1 as [|l L1 IH]; cbn [nexts app]; [tauto|]. rewrite IH, head_or_app. tauto.
Qed.

Lemma prevs_app f p L1 L2 : prevs f p (L1 ++ L2) ↔ prevs f p L1 ∧ prevs f (last_or L1 p) L2.
Proof.
  revert p. induction L1 as [|l L1 IH]; intros p; cbn [prevs app]; [by intuition|].
  rewrite IH, last_or_cons. tauto.
Qed.

Lemma nexts_ext f g L e : (∀ l, l ∈ L → f l = g l) → nexts f L e → nexts g L e.
Proof.
  induction L as [|l L IH]; [done|]. intros Hfg [Hl HL]. split.
  - rewrite <- Hfg; [done|]. left.
  - apply IH; [|done]. intros; apply Hfg; by right.
Qed.

Lemma prevs_ext f g p L : (∀ l, l ∈ L → f l = g l) → prevs f p L → prevs g p L.
Proof.
  revert p. induction L as [|l L IH]; [done|]. intros p Hfg [Hl HL]. split.
  - rewrite <- Hfg; [done|]. left.
  - apply IH; [|done]. intros; apply Hfg; by right.
Qed.

Section fields.
Context {A : Type} (g : ap_info → A).

Lemma fld_eq l n h : fld g (<[l := n]> h) l = Some (g n).
Proof. unfold fld. by rewrite lookup_insert_eq. Qed.

Lemma fld_ne l n h l' : l ≠ l' → fld g (<[l := n]> h) l' = fld g h l'.
Proof. intros. unfold fld. by rewrite lookup_insert_ne. Qed.

Lemma fld_same l n m h l' : h !! l = Some n → g m = g n → fld g (<[l := m]> h) l' = fld g h l'.
Proof.
  intros Hl Hg. unfold fld. destruct (decide (l = l')) as [<-|]; [|by rewrite lookup_insert_ne].
  rewrite lookup_insert_eq, Hl. cbn. by rewrite Hg.
Qed.

Lemma fld_delete l h l' : l ≠ l' → fld g (delete l h) l' = fld g h l'.
Proof. intros. unfold fld. by rewrite lookup_delete_ne. Qed.
End fields.

(** ** The doubly linked list *)

(** What an entry says of its access point. *)
Record entry := ApEntry {
  e_addr : list Z; e_rates : list Z; e_erp : Z; e_channel : Z; e_ht : bool; e_last : Z * Z
}.
Definition entry_of (n : ap_info) : entry :=
  ApEntry (addr n) (supported_rates n) (erp n) (channel n) (ht_support n) (last_beacon n).

(** A field is the same in two stores. *)
Definition agree {A} (g : ap_info → A) (s s' : aps) : Prop :=
  ∀ l, fld g (ap_nodes s') l = fld g (ap_nodes s) l.

Definition linked (s : aps) (L : list loc) : Prop :=
  nexts (fld next (ap_nodes s)) L None ∧ prevs (fld prev (ap_nodes s)) (last L) L ∧ ap_list s = head L.

(** Only the links of the list differ. *)
Definition list_frame (s s' : aps) : Prop :=
  agree hnext s s' ∧ agree entry_of s s' ∧ ap_hash s' = ap_hash s ∧ num_ap s' = num_ap s ∧
  olbc s' = olbc s ∧ olbc_ht s' = olbc_ht s.

Lemma fld_lookup {A} (g : ap_info → A) h l x : fld g h l = Some x → ∃ n, h !! l = Some n ∧ g n = x.
Proof. unfold fld. intros (n & ? & ?)%fmap_Some. eauto. Qed.

Lemma node_Ok s l n : ap_nodes s !! l = Some n → node l s = Ok (n, s).
Proof. unfold node. by intros ->. Qed.

Lemma upd_Ok s l f n : ap_nodes s !! l = Some n →
  upd l f s = Ok (tt, put_nodes (<[l := f n]> (ap_nodes s)) s).
Proof. unfold upd. by intros ->. Qed.

(** Reads a field through the updates of a store. *)
Ltac see :=
  repeat (cbn [ap_nodes put_nodes put_list put_hash put_num];
    first [ rewrite lookup_insert_eq | rewrite lookup_insert_ne by congruence ]); try done.
Ltac view :=
  cbn [ap_nodes put_nodes put_list put_hash put_num];
  repeat first [ rewrite fld_eq | rewrite fld_ne by congruence
               | erewrite fld_same; [|see; reflexivity|reflexivity] ]; try done.

Lemma list_add_empty s a n : linked s [] → ap_nodes s !! a = Some n →
  ∃ s', ap_ap_list_add a s = Ok (tt, s') ∧ linked s' [a] ∧ list_frame s s'.
Proof.
  intros (_ & _ & Hh) Ha. unfold ap_ap_list_add. rewrite (st_bind_Ok _ _ _ s s) by done. rewrite Hh. cbn [head].
  rewrite (st_bind_Ok _ _ _ tt _ (upd_Ok _ _ _ _ Ha)).
  erewrite st_bind_Ok; [|apply upd_Ok; see].
  eexists. split; [reflexivity|]. cbn. rewrite insert_insert_eq. split.
  - split_and!; cbn; view.
  - split_and!; try done; intros l; cbn; by apply (fld_same _ _ n).
Qed.

Lemma list_add_cons s hd L a n : linked s (hd :: L) → NoDup (a :: hd :: L) → ap_nodes s !! a = Some n →
  ∃ s', ap_ap_list_add a s = Ok (tt, s') ∧ linked s' (a :: hd :: L) ∧ list_frame s s'.
Proof.
  intros (Hn & (Hph & Hp) & Hh) Hnd Ha. apply NoDup_cons in Hnd as [Hni Hnd]. apply NoDup_cons in Hnd as [Hnh _].
  apply not_elem_of_cons in Hni as [Hne Hni]. destruct (fld_lookup _ _ _ _ Hph) as (nh & Hhd & Epv).
  unfold ap_ap_list_add. rewrite (st_bind_Ok _ _ _ s s) by done. rewrite Hh. cbn [head].
  erewrite (st_bind_Ok _ _ s tt).
  2:{ rewrite (st_bind_Ok _ _ _ nh s) by by apply node_Ok.
      rewrite (st_bind_Ok _ _ _ tt _ (upd_Ok _ _ _ _ Ha)). apply upd_Ok. see. }
  erewrite st_bind_Ok; [|apply upd_Ok; see].
  eexists. split; [reflexivity|]. cbn [ap_nodes put_nodes modify_aps put_list].
  split; [split; [|split; [|done]]|].
  - split; [view|]. eapply nexts_ext; [|exact Hn]. intros l Hl. symmetry.
    assert (l ≠ a) by set_solver. view.
  - split; [view; cbn; by rewrite Epv|]. split; [view|].
    eapply prevs_ext; [|exact Hp]. intros l Hl. symmetry.
    assert (l ≠ a) by set_solver. assert (l ≠ hd) by set_solver. view.
  - split_and!; try done; intros l; cbn; view.
Qed.

Lemma list_add_ok s L a n : linked s L → NoDup (a :: L) → ap_nodes s !! a = Some n →
  ∃ s', ap_ap_list_add a s = Ok (tt, s') ∧ linked s' (a :: L) ∧ list_frame s s'.
Proof. destruct L; [eauto using list_add_empty|apply list_add_cons]. Qed.

Lemma prevs_last_or f p L a L2 : prevs f p (L ++ a :: L2) → f a = Some (last_or L p).
Proof. rewrite prevs_app. by intros [_ [-> _]]. Qed.

(** Behind the first assignment the list lacks [a] in the forward direction. *)
Lemma list_del_next s L1 a L2 : linked s (L1 ++ a :: L2) → NoDup (L1 ++ a :: L2) →
  ∃ s' n, list_del_forward a s = Ok (tt, s') ∧
    nexts (fld next (ap_nodes s')) (L1 ++ L2) None ∧ agree prev s s' ∧ ap_list s' = head (L1 ++ L2) ∧
    ap_nodes s' !! a = Some n ∧ next n = head L2 ∧ prev n = last_or L1 (last (L1 ++ a :: L2)) ∧
    list_frame s s'.
Proof.
  intros (Hn & Hp & Hh) Hnd. pose proof (prevs_last_or _ _ _ _ _ Hp) as Epa.
  apply nexts_app in Hn as [Hn1 [Ena Hn2]]. destruct (fld_lookup _ _ _ _ Epa) as (n & Ha & Epn).
  unfold fld in Ena. rewrite Ha in Ena. injection Ena as Enn.
  assert (head_or L2 None = head L2) as Eh by by destruct L2. rewrite Eh in Enn.
  unfold list_del_forward. rewrite (st_bind_Ok _ _ _ s s) by done.
  rewrite (st_bind_Ok _ _ _ n s) by by apply node_Ok. destruct L1 as [|k L1 _] using rev_ind.
  - cbn [app head] in *. rewrite decide_True by done. exists (put_list (next n) s), n.
    split; [done|]. cbn. rewrite Enn. by split_and!.
  - rewrite last_or_snoc in Epn. rewrite <- app_assoc in *. cbn [app] in *.
    assert (k ≠ a) as Hka. { apply NoDup_app in Hnd as (_ & _ & Hnd). apply NoDup_cons in Hnd. set_solver. }
    rewrite decide_False.
    2:{ rewrite Hh. destruct L1 as [|x L1]; cbn; [congruence|]. intros [= ->].
        apply NoDup_cons in Hnd as [Hx _]. set_solver. }
    rewrite Epn. rewrite (st_bind_Ok _ _ s k s) by done.
    apply nexts_app in Hn1 as [Hn1 [Enk _]]. destruct (fld_lookup _ _ _ _ Enk) as (nk & Hk & _).
    erewrite upd_Ok by exact Hk. eexists _, n. split; [reflexivity|]. cbn [ap_nodes put_nodes ap_list].
    assert (∀ l, l ≠ k → fld next (<[k:=set_next (next n) nk]> (ap_nodes s)) l = fld next (ap_nodes s) l) as Fn
      by (intros; view).
    assert ((k ∉ L1) ∧ (k ∉ L2)) as [Hk1 Hk2].
    { apply NoDup_app in Hnd as (_ & Hd & Hnd). apply NoDup_cons in Hnd. set_solver. }
    split_and!; try done.
    + apply nexts_app. split; [eapply nexts_ext; [|exact Hn1]|split].
      * intros l Hl. symmetry. apply Fn. set_solver.
      * view. cbn. by rewrite Enn, Eh.
      * eapply nexts_ext; [|exact Hn2]. intros l Hl. symmetry. apply Fn. set_solver.
    + intros l. view.
    + rewrite Hh. by destruct L1.
    + see.
    + by rewrite last_or_snoc.
    + split_and!; try done; intros l; view.
Qed.

Lemma agree_ext {A} (g : ap_info → A) s s' : agree g s s' → ∀ l, fld g (ap_nodes s) l = fld g (ap_nodes s') l.
Proof. by intros H l. Qed.

Lemma list_frame_trans s1 s2 s3 : list_frame s1 s2 → list_frame s2 s3 → list_frame s1 s3.
Proof.
  intros (Hh & He & ? & ? & ? & ?) (Hh' & He' & ? & ? & ? & ?).
  split_and!; try congruence; intros l; by rewrite ?Hh', ?He'.
Qed.

(** An update of [prev] alone. *)
Lemma set_prev_frame s l n q : ap_nodes s !! l = Some n →
  let s' := put_nodes (<[l := set_prev q n]> (ap_nodes s)) s in
  agree next s s' ∧ list_frame s s'.
Proof. intros Hl. split; [|split_and!]; try done; intros l'; view. Qed.

Lemma list_del_ok s L1 a L2 : linked s (L1 ++ a :: L2) → NoDup (L1 ++ a :: L2) →
  ∃ s', ap_ap_list_del a s = Ok (tt, s') ∧ linked s' (L1 ++ L2) ∧ list_frame s s'.
Proof.
  intros Hlk Hnd. destruct (list_del_next s L1 a L2 Hlk Hnd) as (s1 & n & E1 & Hn & Hag & Hh & Ha & Enn & Epn & Hfr).
  destruct Hlk as (_ & Hp & _). apply (prevs_ext _ _ _ _ (λ l _, agree_ext _ _ _ Hag l)) in Hp.
  apply prevs_app in Hp as [Hp1 [_ Hp2]]. unfold ap_ap_list_del. run E1. run (node_Ok _ _ _ Ha). rewrite Enn.
  destruct L2 as [|m M]; cbn [head].
  - rewrite (st_bind_Ok _ _ s1 s1 s1) by done. rewrite app_nil_r in *. rewrite Hh.
    destruct L1 as [|f K]; cbn [head]; [exists s1; by split_and!|].
    destruct Hp1 as [Epf HpK]. destruct (fld_lookup _ _ _ _ Epf) as (nf & Hf & _).
    rewrite (upd_Ok _ _ _ _ Hf). destruct (set_prev_frame s1 f nf (prev n) Hf) as [Hag' Hfr'].
    eexists. split; [reflexivity|]. split; [split; [|split; [|done]]|by eapply list_frame_trans].
    + eapply nexts_ext; [|exact Hn]. intros l _. by apply agree_ext.
    + split; [view; cbn; by rewrite Epn, last_or_last|].
      apply NoDup_app in Hnd as (Hnd & _). apply NoDup_cons in Hnd as [HfK _].
      eapply prevs_ext; [|exact HpK]. intros l Hl. symmetry. assert (l ≠ f) by (intros ->; done). view.
  - destruct Hp2 as [Epm HpM]. destruct (fld_lookup _ _ _ _ Epm) as (nm & Hm & _).
    rewrite (upd_Ok _ _ _ _ Hm). destruct (set_prev_frame s1 m nm (prev n) Hm) as [Hag' Hfr'].
    assert (last (L1 ++ m :: M) = last (L1 ++ a :: m :: M)) as El by (by rewrite !last_app).
    assert ((m ∉ L1) ∧ (m ∉ M)) as [Hm1 HmM].
    { apply NoDup_app in Hnd as (_ & Hd & Hnd). rewrite !NoDup_cons in Hnd. set_solver. }
    assert (∀ l, l ≠ m → fld prev (ap_nodes s1) l = fld prev (<[m:=set_prev (prev n) nm]> (ap_nodes s1)) l) as Fp
      by (intros; view).
    eexists. split; [reflexivity|]. split; [split; [|split; [|done]]|by eapply list_frame_trans].
    + eapply nexts_ext; [|exact Hn]. intros l _. by apply agree_ext.
    + rewrite El. apply prevs_app. split; [|split].
      * eapply prevs_ext; [|exact Hp1]. intros l Hl. apply Fp. set_solver.
      * view. cbn. by rewrite Epn.
      * eapply prevs_ext; [|exact HpM]. intros l Hl. apply Fp. set_solver.
Qed.

(** ** The hash chains *)

Definition bucket (n : ap_info) : Z := STA_HASH (addr n).

Definition chained (s : aps) (C : Z → list loc) : Prop :=
  ∀ b, nexts (fld hnext (ap_nodes s)) (C b) None ∧ ap_hash s !! b = head (C b).

(** Only the links of the chains differ. *)
Definition hash_frame (s s' : aps) : Prop :=
  agree next s s' ∧ agree prev s s' ∧ agree entry_of s s' ∧ ap_list s' = ap_list s ∧
  num_ap s' = num_ap s ∧ olbc s' = olbc s ∧ olbc_ht s' = olbc_ht s.

Definition set_chain (b : Z) (L : list loc) (C : Z → list loc) (b' : Z) : list loc :=
  if decide (b' = b) then L else C b'.

Lemma set_chain_eq b L C : set_chain b L C b = L.
Proof. unfold set_chain. by rewrite decide_True. Qed.

Lemma set_chain_ne b L C b' : b' ≠ b → set_chain b L C b' = C b'.
Proof. intros. unfold set_chain. by rewrite decide_False. Qed.

Lemma lookup_put_hash b p (m : gmap Z loc) b' :
  partial_alter (λ _, p) b m !! b' = if decide (b' = b) then p else m !! b'.
Proof. case_decide as Hd; [subst; apply lookup_partial_alter_eq|by apply lookup_partial_alter_ne]. Qed.

(** Each chain holds nodes of its bucket only. *)
Definition sorted_in (s : aps) (C : Z → list loc) : Prop :=
  ∀ b l, l ∈ C b → fld bucket (ap_nodes s) l = Some b.

Lemma hash_add_ok s C a n : chained s C → (∀ b, a ∉ C b) → ap_nodes s !! a = Some n →
  ∃ s', ap_ap_hash_add a s = Ok (tt, s') ∧ chained s' (set_chain (bucket n) (a :: C (bucket n)) C) ∧
    hash_frame s s'.
Proof.
  intros Hc Hni Ha. unfold ap_ap_hash_add. rewrite (st_bind_Ok _ _ _ s s) by done.
  run (node_Ok _ _ _ Ha). rewrite (st_bind_Ok _ _ _ tt _ (upd_Ok _ _ _ _ Ha)).
  eexists. split; [reflexivity|]. split; [|by split_and!; try done; intros l; view].
  intros b. cbn [ap_hash put_hash modify_aps]. rewrite lookup_put_hash. unfold set_chain.
  assert (∀ L, a ∉ L → nexts (fld hnext (ap_nodes s)) L None →
    nexts (fld hnext (<[a:=set_hnext (ap_hash s !! STA_HASH (addr n)) n]> (ap_nodes s))) L None) as Hext.
  { intros L HL. apply nexts_ext. intros l Hl. assert (l ≠ a) by set_solver. view. }
  unfold bucket. case_decide as Hd; [subst b|by split; [apply Hext; [|apply Hc]|apply Hc]].
  split; [|done]. cbn [ap_nodes put_hash put_nodes]. split; [|by apply Hext; [|apply Hc]].
  view. cbn. destruct (Hc (STA_HASH (addr n))) as [_ ->]. by destruct (C _).
Qed.

(** The loop finds [a] behind [C1]. *)
Lemma hash_del_loop_ok x a n C2 : ∀ C1 fuel s k,
  nexts (fld hnext (ap_nodes s)) (k :: C1 ++ a :: C2) None → NoDup (k :: C1 ++ a :: C2) →
  (∀ l, l ∈ C1 → fld addr (ap_nodes s) l ≠ Some x) → ap_nodes s !! a = Some n → addr n = x →
  (length C1 < fuel)%nat →
  ∃ j nj, (j ∈ k :: C1) ∧ ap_nodes s !! j = Some nj ∧
    hash_del_loop fuel k x s = Ok (tt, put_nodes (<[j := set_hnext (head C2) nj]> (ap_nodes s)) s) ∧
    nexts (fld hnext (<[j := set_hnext (head C2) nj]> (ap_nodes s))) (k :: C1 ++ C2) None.
Proof.
  induction C1 as [|c C1 IH]; intros fuel s k Hn Hnd Hx Ha Ex Hf; (destruct fuel as [|fuel]; [cbn in Hf; lia|]);
    destruct Hn as [Ek Hn]; destruct (fld_lookup _ _ _ _ Ek) as (nk & Hk & Enk); cbn [hash_del_loop];
    run (node_Ok _ _ _ Hk); rewrite Enk; cbn [app head_or].
  - run (node_Ok _ _ _ Ha). rewrite decide_True by done. exists k, nk. cbn [app] in *.
    destruct Hn as [Ea Hn]. unfold fld in Ea. rewrite Ha in Ea. injection Ea as Ea.
    assert (hnext n = head C2) as Eh by (rewrite Ea; by destruct C2).
    rewrite (upd_Ok _ _ _ _ Hk), Eh. split; [left|]. split; [done|]. split; [done|]. split.
    + view.
    + eapply nexts_ext; [|exact Hn]. intros l Hl. rewrite !NoDup_cons in Hnd. assert (l ≠ k) by set_solver. view.
  - destruct (fld_lookup _ _ _ _ (proj1 Hn)) as (nc & Hc & _). run (node_Ok _ _ _ Hc).
    rewrite decide_False.
    2:{ intros E. apply (Hx c); [left|]. unfold fld. rewrite Hc. cbn. by rewrite E. }
    cbn [app] in Hnd. apply NoDup_cons in Hnd as [Hkn Hnd].
    destruct (IH fuel s c Hn Hnd) as (j & nj & Hj & Hnj & E & Hr); [|done|done|cbn in Hf; lia|].
    { intros l Hl. apply Hx. by right. }
    exists j, nj. split; [by right|]. split; [done|]. split; [done|]. split; [|exact Hr].
    rewrite fld_ne; [done|]. intros ->. apply Hkn. set_solver.
Qed.

Lemma set_hnext_frame s l n q : ap_nodes s !! l = Some n →
  hash_frame s (put_nodes (<[l := set_hnext q n]> (ap_nodes s)) s).
Proof. intros Hl. split_and!; try done; intros l'; view. Qed.

(** The addresses on a chain in front of [a] are others. *)
Definition first_with (s : aps) (C1 : list loc) (x : list Z) : Prop :=
  ∀ l, l ∈ C1 → fld addr (ap_nodes s) l ≠ Some x.

Lemma nexts_length_le h L e : nexts (fld hnext h) L e → NoDup L → (length L ≤ size h)%nat.
Proof.
  intros Hn Hnd. rewrite <- size_dom. rewrite <- (size_list_to_set (C := gset loc)) by done.
  apply subseteq_size. intros l. rewrite elem_of_list_to_set, elem_of_dom. revert Hn. clear Hnd.
  induction L as [|k L IH]; [by intros _ ?%elem_of_nil|]. intros [Hk Hn] [->|Hl]%elem_of_cons; [|by apply IH].
  destruct (fld_lookup _ _ _ _ Hk) as (? & ? & _). eauto.
Qed.

Lemma hash_del_ok s C a n C1 C2 : chained s C → sorted_in s C → ap_nodes s !! a = Some n →
  C (bucket n) = C1 ++ a :: C2 → NoDup (C1 ++ a :: C2) → first_with s C1 (addr n) →
  ∃ s', ap_ap_hash_del a s = Ok (tt, s') ∧ chained s' (set_chain (bucket n) (C1 ++ C2) C) ∧ hash_frame s s'.
Proof.
  intros Hc Hso Ha EC Hnd Hx. unfold ap_ap_hash_del. rewrite (st_bind_Ok _ _ _ s s) by done.
  run (node_Ok _ _ _ Ha). fold (bucket n). destruct (Hc (bucket n)) as [Hn ->]. rewrite EC in Hn |- *.
  destruct C1 as [|k C1]; cbn [app head].
  - run (node_Ok _ _ _ Ha). rewrite decide_True by done. eexists. split; [reflexivity|].
    split; [|by split_and!; try done; intros l; view]. destruct Hn as [Ea Hn].
    intros b. cbn [ap_hash put_hash modify_aps]. rewrite lookup_put_hash. unfold set_chain.
    case_decide; [subst b|by apply Hc]. split; [done|]. unfold fld in Ea. rewrite Ha in Ea.
    injection Ea as Ea. rewrite Ea. by destruct C2.
  - destruct (fld_lookup _ _ _ _ (proj1 Hn)) as (nk & Hk & _). run (node_Ok _ _ _ Hk).
    rewrite decide_False.
    2:{ intros E. apply (Hx k); [left|]. unfold fld. rewrite Hk. cbn. by rewrite E. }
    pose proof (nexts_length_le _ _ _ Hn Hnd) as Hlen. cbn [app length] in Hlen. rewrite length_app in Hlen.
    destruct (hash_del_loop_ok (addr n) a n C2 C1 (size (ap_nodes s)) s k Hn Hnd) as (j & nj & Hj & Hnj & E & Hr);
      [|done|done|cbn in Hlen; lia|].
    { intros l Hl. apply Hx. by right. }
    rewrite E. eexists. split; [reflexivity|]. split; [|by apply set_hnext_frame].
    intros b. cbn [ap_hash put_nodes ap_nodes]. unfold set_chain. case_decide as Hb.
    { subst b. split; [exact Hr|]. destruct (Hc (bucket n)) as [_ ->]. by rewrite EC. }
    split; [|apply Hc]. eapply nexts_ext; [|apply Hc]. intros l Hl. symmetry.
    rewrite fld_ne; [done|]. intros <-. apply Hb.
    assert (j ∈ C (bucket n)) as Hj'%Hso by (rewrite EC; set_solver). apply Hso in Hl. congruence.
Qed.

Lemma get_loop_ok x a n C2 : ∀ C1 fuel s,
  nexts (fld hnext (ap_nodes s)) (C1 ++ a :: C2) None → first_with s C1 x →
  ap_nodes s !! a = Some n → addr n = x → (length C1 < fuel)%nat →
  get_loop fuel (head (C1 ++ a :: C2)) x s = Ok (Some a, s).
Proof.
  induction C1 as [|c C1 IH]; intros fuel s Hn Hx Ha Ex Hf; (destruct fuel as [|fuel]; [cbn in Hf; lia|]);
    cbn [app head get_loop].
  - run (node_Ok _ _ _ Ha). by rewrite decide_True.
  - destruct Hn as [Ec Hn]. destruct (fld_lookup _ _ _ _ Ec) as (nc & Hc & Enc). run (node_Ok _ _ _ Hc).
    rewrite decide_False.
    2:{ intros E. apply (Hx c); [left|]. unfold fld. rewrite Hc. cbn. by rewrite E. }
    rewrite Enc, head_or_app. assert (head_or C1 (head_or (a :: C2) None) = head (C1 ++ a :: C2)) as ->
      by by destruct C1.
    apply IH; [done| |done|done|cbn in Hf; lia]. intros l Hl. apply Hx. by right.
Qed.

Lemma get_loop_none x : ∀ C fuel s, nexts (fld hnext (ap_nodes s)) C None → first_with s C x →
  (length C ≤ fuel)%nat → get_loop fuel (head C) x s = Ok (None, s).
Proof.
  induction C as [|c C IH]; intros fuel s Hn Hx Hf; [by destruct fuel|].
  destruct fuel as [|fuel]; [cbn in Hf; lia|]. cbn [head get_loop]. destruct Hn as [Ec Hn].
  destruct (fld_lookup _ _ _ _ Ec) as (nc & Hc & Enc). run (node_Ok _ _ _ Hc). rewrite decide_False.
  2:{ intros E. apply (Hx c); [left|]. unfold fld. rewrite Hc. cbn. by rewrite E. }
  rewrite Enc. assert (head_or C None = head C) as -> by by destruct C.
  apply IH; [done| |cbn in Hf; lia]. intros l Hl. apply Hx. by right.
Qed.

(** ** The whole table *)

Record shape (s : aps) (L : list loc) (C : Z → list loc) : Prop := Shape {
  sh_linked : linked s L;
  sh_chained : chained s C;
  sh_nodup : NoDup L;
  sh_dom l : l ∈ L ↔ is_Some (ap_nodes s !! l);
  sh_bucket b l : l ∈ C b ↔ fld bucket (ap_nodes s) l = Some b;
  sh_chain_nodup b : NoDup (C b);
  sh_addr l m x : fld addr (ap_nodes s) l = Some x → fld addr (ap_nodes s) m = Some x → l = m;
  sh_num : num_ap s = Z.of_nat (length L)
}.

Lemma shape_empty : shape no_aps [] (λ _, []).
Proof.
  split; try done; try by (intros; constructor).
  - intros l. rewrite elem_of_nil. split; [done|]. by intros [].
  - intros b l. by rewrite elem_of_nil.
Qed.

Lemma fld_entry {A} (g : entry → A) h l : fld (λ n, g (entry_of n)) h l = g <$> fld entry_of h l.
Proof. unfold fld. by destruct (h !! l). Qed.

Lemma agree_addr s s' l : agree entry_of s s' → fld addr (ap_nodes s') l = fld addr (ap_nodes s) l.
Proof. intros H. rewrite (fld_entry e_addr _ l : fld addr _ l = _), H. symmetry. apply (fld_entry e_addr). Qed.

Lemma agree_bucket s s' l : agree entry_of s s' → fld bucket (ap_nodes s') l = fld bucket (ap_nodes s) l.
Proof.
  intros H. rewrite (fld_entry (λ e, STA_HASH (e_addr e)) _ l : fld bucket _ l = _), H. symmetry.
  apply (fld_entry (λ e, STA_HASH (e_addr e))).
Qed.

Lemma agree_dom {A} (g : ap_info → A) s s' l : agree g s s' → is_Some (ap_nodes s' !! l) ↔ is_Some (ap_nodes s !! l).
Proof. intros H. specialize (H l). unfold fld in H. rewrite <- (fmap_is_Some g), H. apply fmap_is_Some. Qed.

(** The entry with an address is on the chain of its bucket, and no other
    entry there has the address. *)
Lemma shape_chain s L C a n : shape s L C → ap_nodes s !! a = Some n →
  ∃ C1 C2, C (bucket n) = C1 ++ a :: C2 ∧ NoDup (C1 ++ a :: C2) ∧ first_with s C1 (addr n).
Proof.
  intros [] Ha. assert (a ∈ C (bucket n)) as Hin by (apply sh_bucket0; unfold fld; by rewrite Ha).
  apply list_elem_of_split in Hin as (C1 & C2 & E). exists C1, C2.
  pose proof (sh_chain_nodup0 (bucket n)) as Hnd. rewrite E in Hnd. split_and!; [done|done|].
  intros l Hl Hx. assert (l = a) as -> by (eapply sh_addr0; [exact Hx|unfold fld; by rewrite Ha]).
  apply NoDup_app in Hnd as (_ & Hd & _). apply (Hd a Hl). left.
Qed.

Lemma shape_size s L C b : shape s L C → (length (C b) ≤ size (ap_nodes s))%nat.
Proof. intros []. destruct (sh_chained0 b). by eapply nexts_length_le. Qed.

(** [ap_get_ap] finds the entry with the address, if there is one. *)
Lemma get_ap_ok s L C x : shape s L C →
  ∃ r, ap_get_ap x s = Ok (r, s) ∧
    match r with Some a => fld addr (ap_nodes s) a = Some x | None => ∀ l, fld addr (ap_nodes s) l ≠ Some x end.
Proof.
  intros Hs. unfold ap_get_ap. rewrite (st_bind_Ok _ _ _ s s) by done.
  destruct (sh_chained _ _ _ Hs (STA_HASH x)) as [Hn ->]. pose proof (shape_size s L C (STA_HASH x) Hs) as Hsz.
  assert (∀ l, fld addr (ap_nodes s) l = Some x → l ∈ C (STA_HASH x)) as Hin.
  { intros l (n & Hl & <-)%fld_lookup. apply (sh_bucket _ _ _ Hs). unfold fld. by rewrite Hl. }
  destruct (decide (Exists (λ l, fld addr (ap_nodes s) l = Some x) (C (STA_HASH x)))) as [Hex|Hex].
  - apply Exists_exists in Hex as (a & _ & Hax). exists (Some a). split; [|done].
    destruct (fld_lookup _ _ _ _ Hax) as (n & Ha & <-).
    destruct (shape_chain _ _ _ _ _ Hs Ha) as (C1 & C2 & E & _ & Hf). unfold bucket in E. rewrite E in *.
    rewrite length_app in Hsz. cbn in Hsz. apply (get_loop_ok _ a n); [done..|lia].
  - rewrite <- Forall_Exists_neg, Forall_forall in Hex. exists None. split; [by apply get_loop_none|].
    intros l Hl. by apply (Hex l); [apply Hin|].
Qed.

Lemma chained_frame s s' C : chained s C → agree hnext s s' → ap_hash s' = ap_hash s → chained s' C.
Proof.
  intros Hc Ha E b. destruct (Hc b) as [Hn Hb]. rewrite E. split; [|done].
  eapply nexts_ext; [|exact Hn]. intros l _. by apply agree_ext.
Qed.

Lemma linked_frame s s' L : linked s L → agree next s s' → agree prev s s' → ap_list s' = ap_list s → linked s' L.
Proof.
  intros (Hn & Hp & Hh) Ha Hb E. split; [|split; [|by rewrite E]].
  - eapply nexts_ext; [|exact Hn]. intros l _. by apply agree_ext.
  - eapply prevs_ext; [|exact Hp]. intros l _. by apply agree_ext.
Qed.

(** A new order of the same entries. *)
Lemma shape_relink s s' L L' C : shape s L C → linked s' L' → list_frame s s' → L' ≡ₚ L → shape s' L' C.
Proof.
  intros [] Hl (Hh & He & Eh & En & _) HL. split.
  - done.
  - by eapply chained_frame.
  - by rewrite HL.
  - intros l. rewrite HL, sh_dom0. symmetry. by apply (agree_dom entry_of).
  - intros b l. rewrite (agree_bucket s s') by done. apply sh_bucket0.
  - done.
  - intros l m x. rewrite !(agree_addr s s') by done. apply sh_addr0.
  - by rewrite En, HL.
Qed.

(** [ap_ap_list_del] and [ap_ap_list_add]: the entry goes to the front. *)
Lemma move_front_ok s L1 a L2 C : shape s (L1 ++ a :: L2) C →
  ∃ s', (ap_ap_list_del a;; ap_ap_list_add a) s = Ok (tt, s') ∧ shape s' (a :: L1 ++ L2) C ∧ list_frame s s'.
Proof.
  intros Hs. pose proof (sh_nodup _ _ _ Hs) as Hnd.
  destruct (list_del_ok s L1 a L2 (sh_linked _ _ _ Hs) Hnd) as (s1 & E1 & Hl1 & Hf1). run E1.
  assert (is_Some (ap_nodes s1 !! a)) as [n Ha].
  { apply (agree_dom entry_of s s1); [apply Hf1|]. apply (sh_dom _ _ _ Hs). set_solver. }
  destruct (list_add_ok s1 (L1 ++ L2) a n Hl1) as (s2 & E2 & Hl2 & Hf2); [|done|].
  { by rewrite Permutation_middle. }
  exists s2. split; [done|]. pose proof (list_frame_trans _ _ _ Hf1 Hf2) as Hf.
  split; [|done]. eapply shape_relink; [done..|]. apply Permutation_middle.
Qed.

Lemma nodup_without (L1 : list loc) a L2 : NoDup (L1 ++ a :: L2) → NoDup (L1 ++ L2) ∧ (a ∉ L1 ++ L2).
Proof. rewrite <- Permutation_middle. by intros [? ?]%NoDup_cons. Qed.

(** What is left when an entry that is in neither structure is released. *)
Lemma shape_delete s s2 L1 a L2 C n C1 C2 : shape s (L1 ++ a :: L2) C → ap_nodes s !! a = Some n →
  C (bucket n) = C1 ++ a :: C2 → linked s2 (L1 ++ L2) → chained s2 (set_chain (bucket n) (C1 ++ C2) C) →
  agree entry_of s s2 → num_ap s2 = num_ap s →
  shape (put_nodes (delete a (ap_nodes s2)) (put_num (num_ap s2 - 1) s2)) (L1 ++ L2)
    (set_chain (bucket n) (C1 ++ C2) C).
Proof.
  intros Hs Ha EC Hl2 Hc2 He En. destruct (nodup_without _ _ _ (sh_nodup _ _ _ Hs)) as [Hnd HaL].
  pose proof (sh_chain_nodup _ _ _ Hs (bucket n)) as HndC. rewrite EC in HndC.
  apply nodup_without in HndC as [HndC HaC0].
  assert (∀ b, a ∉ set_chain (bucket n) (C1 ++ C2) C b) as HaC.
  { intros b. unfold set_chain. case_decide as Hb; [done|].
    rewrite (sh_bucket _ _ _ Hs). unfold fld. rewrite Ha. cbn. congruence. }
  set (s3 := put_nodes _ _). assert (∀ {A} (g : ap_info → A) l, l ≠ a → fld g (ap_nodes s2) l = fld g (ap_nodes s3) l) as Hd.
  { intros A g l Hl. subst s3. cbn. by rewrite fld_delete. }
  assert (∀ {A} (g : ap_info → A), fld g (ap_nodes s3) a = None) as Hda.
  { intros A g. subst s3. unfold fld. cbn. by rewrite lookup_delete_eq. }
  split; [| |done| | | | |].
  - destruct Hl2 as (Hn & Hp & Hh). split; [|split; [|done]].
    + eapply nexts_ext; [|exact Hn]. intros l Hl. apply Hd. set_solver.
    + eapply prevs_ext; [|exact Hp]. intros l Hl. apply Hd. set_solver.
  - intros b. destruct (Hc2 b) as [Hn Hb]. split; [|done].
    eapply nexts_ext; [|exact Hn]. intros l Hl. apply Hd. intros ->. by apply (HaC b).
  - intros l. subst s3. cbn. rewrite lookup_delete_is_Some, (agree_dom entry_of s s2) by done.
    rewrite <- (sh_dom _ _ _ Hs). set_solver.
  - intros b l. destruct (decide (l = a)) as [->|Hl]; [rewrite Hda; split; [by intros ?%HaC|done]|].
    rewrite <- Hd, (agree_bucket s s2), <- (sh_bucket _ _ _ Hs) by done. unfold set_chain.
    case_decide; [subst b|done]. rewrite EC. set_solver.
  - intros b. unfold set_chain. case_decide; [done|apply (sh_chain_nodup _ _ _ Hs)].
  - intros l m x. destruct (decide (l = a)) as [->|]; [by rewrite Hda|].
    destruct (decide (m = a)) as [->|]; [by rewrite Hda|].
    rewrite <- !Hd, !(agree_addr s s2) by done. apply (sh_addr _ _ _ Hs).
  - subst s3. cbn. rewrite En, (sh_num _ _ _ Hs), !length_app. cbn. lia.
Qed.

(** The entry is taken from both structures and released. *)
Lemma free_ap_ok s L1 a L2 C : shape s (L1 ++ a :: L2) C →
  ∃ s' C', ap_free_ap a s = Ok (tt, s') ∧ shape s' (L1 ++ L2) C' ∧
    (∀ l, l ≠ a → fld entry_of (ap_nodes s') l = fld entry_of (ap_nodes s) l) ∧
    olbc s' = olbc s ∧ olbc_ht s' = olbc_ht s.
Proof.
  intros Hs. pose proof (sh_nodup _ _ _ Hs) as Hnd.
  assert (is_Some (ap_nodes s !! a)) as [n Ha] by (apply (sh_dom _ _ _ Hs); set_solver).
  destruct (shape_chain _ _ _ _ _ Hs Ha) as (C1 & C2 & EC & HndC & Hfw).
  destruct (hash_del_ok s C a n C1 C2 (sh_chained _ _ _ Hs) (λ b l, proj1 (sh_bucket _ _ _ Hs b l)) Ha EC HndC Hfw)
    as (s1 & E1 & Hc1 & Hx1 & Hp1 & He1 & El1 & En1 & Eo1 & Eh1).
  destruct (list_del_ok s1 L1 a L2) as (s2 & E2 & Hl2 & Hh2 & He2 & Eh2 & En2 & Eo2 & Eoh2); [|done|].
  { by eapply linked_frame; [apply (sh_linked _ _ _ Hs)|..]. }
  apply (chained_frame s1 s2) in Hc1; [|done..].
  assert (agree entry_of s s2) as He by (intros l; by rewrite He2).
  unfold ap_free_ap. run E1. run E2. eexists _, _. split; [reflexivity|].
  split; [exact (shape_delete s s2 L1 a L2 C n C1 C2 Hs Ha EC Hl2 Hc1 He (eq_trans En2 En1))|].
  split; [intros; cbn; by rewrite fld_delete, He|split; cbn; congruence].
Qed.

(** A change of what an entry says, but for its address. *)
Lemma shape_update s L C a n m : shape s L C → ap_nodes s !! a = Some n →
  next m = next n → prev m = prev n → hnext m = hnext n → addr m = addr n →
  shape (put_nodes (<[a := m]> (ap_nodes s)) s) L C.
Proof.
  intros Hs Ha En Ep Eh Ea. set (s' := put_nodes _ _).
  assert (∀ {A} (g : ap_info → A), g m = g n → agree g s s') as Hag by (intros A g E l; by apply (fld_same _ _ n)).
  split.
  - eapply linked_frame; [apply (sh_linked _ _ _ Hs)|auto..].
  - eapply chained_frame; [apply (sh_chained _ _ _ Hs)|auto..].
  - apply (sh_nodup _ _ _ Hs).
  - intros l. rewrite (sh_dom _ _ _ Hs). symmetry. by apply (agree_dom next), Hag.
  - intros b l. rewrite (Hag _ bucket) by (unfold bucket; by rewrite Ea). apply (sh_bucket _ _ _ Hs).
  - apply (sh_chain_nodup _ _ _ Hs).
  - intros l k x. rewrite !(Hag _ addr) by done. apply (sh_addr _ _ _ Hs).
  - apply (sh_num _ _ _ Hs).
Qed.

(** A new entry in both structures. *)
Lemma shape_insert s s4 L C a n : shape s L C → ap_nodes s !! a = None → (∀ l, fld addr (ap_nodes s) l ≠ Some (addr n)) →
  linked s4 (a :: L) → chained s4 (set_chain (bucket n) (a :: C (bucket n)) C) →
  (∀ l, fld entry_of (ap_nodes s4) l = fld entry_of (<[a := n]> (ap_nodes s)) l) → num_ap s4 = num_ap s + 1 →
  shape s4 (a :: L) (set_chain (bucket n) (a :: C (bucket n)) C).
Proof.
  intros Hs Ha Hx Hl Hc He En. set (s0 := put_nodes (<[a := n]> (ap_nodes s)) s).
  assert (agree entry_of s0 s4) as Hag by done.
  assert (a ∉ L) as HaL by (rewrite (sh_dom _ _ _ Hs), Ha; by intros []).
  assert (∀ b, a ∉ C b) as HaC by (intros b; rewrite (sh_bucket _ _ _ Hs); unfold fld; by rewrite Ha).
  assert (fld bucket (ap_nodes s0) a = Some (bucket n)) as Eb by apply fld_eq.
  split; [done|done| | | | | |].
  - constructor; [done|apply (sh_nodup _ _ _ Hs)].
  - intros l. rewrite (agree_dom entry_of s0 s4), elem_of_cons, (sh_dom _ _ _ Hs) by done. cbn.
    rewrite lookup_insert_is_Some. split; [intros [->|?]; [by left|]|intros [->|[_ ?]]; [by left|by right]].
    destruct (decide (a = l)) as [->|]; [by left|by right].
  - intros b l. rewrite (agree_bucket s0 s4) by done. destruct (decide (l = a)) as [->|Hla].
    + rewrite Eb. unfold set_chain. case_decide as Hb; [subst b; split; [done|by left]|].
      split; [by intros ?%HaC|congruence].
    + subst s0. cbn. rewrite fld_ne, <- (sh_bucket _ _ _ Hs) by done. unfold set_chain.
      case_decide; [subst b|done]. set_solver.
  - intros b. unfold set_chain. case_decide; [constructor; [done|]|]; apply (sh_chain_nodup _ _ _ Hs).
  - intros l m x. rewrite !(agree_addr s0 s4) by done. subst s0. cbn.
    destruct (decide (l = a)) as [->|]; destruct (decide (m = a)) as [->|]; rewrite ?fld_eq, ?fld_ne by done;
      [done|intros [= <-] ?; by edestruct Hx|intros ? [= <-]; by edestruct Hx|apply (sh_addr _ _ _ Hs)].
  - rewrite En, (sh_num _ _ _ Hs). cbn. lia.
Qed.

(** The new node is in neither structure yet. *)
Lemma shape_alloc s L C a n : shape s L C → ap_nodes s !! a = None →
  let s0 := put_nodes (<[a := n]> (ap_nodes s)) s in
  linked s0 L ∧ chained s0 C ∧ NoDup (a :: L) ∧ ∀ b, a ∉ C b.
Proof.
  intros Hs Ha s0. assert (a ∉ L) as HaL by (rewrite (sh_dom _ _ _ Hs), Ha; by intros []).
  assert (∀ b, a ∉ C b) as HaC by (intros b; rewrite (sh_bucket _ _ _ Hs); unfold fld; by rewrite Ha).
  destruct (sh_linked _ _ _ Hs) as (Hn & Hp & Hh).
  split; [split; [|split; [|done]]|split; [|split; [|done]]].
  - eapply nexts_ext; [|exact Hn]. intros l Hl. symmetry. subst s0. assert (l ≠ a) by set_solver. view.
  - eapply prevs_ext; [|exact Hp]. intros l Hl. symmetry. subst s0. assert (l ≠ a) by set_solver. view.
  - intros b. destruct (sh_chained _ _ _ Hs b) as [Hb E]. split; [|done].
    eapply nexts_ext; [|exact Hb]. intros l Hl. symmetry. subst s0.
    assert (l ≠ a) by (intros ->; by apply (HaC b)). view.
  - constructor; [done|apply (sh_nodup _ _ _ Hs)].
Qed.

Lemma link_new_ok s L C a x : shape s L C → ap_nodes s !! a = None → (∀ l, fld addr (ap_nodes s) l ≠ Some x) →
  Z.of_nat (length L) < 2 ^ 31 - 1 →
  ∃ s' C', link_new a (put_nodes (<[a := new_ap x]> (ap_nodes s)) s) = Ok (tt, s') ∧ shape s' (a :: L) C' ∧
    (∀ l, fld entry_of (ap_nodes s') l = fld entry_of (<[a := new_ap x]> (ap_nodes s)) l) ∧
    olbc s' = olbc s ∧ olbc_ht s' = olbc_ht s.
Proof.
  intros Hs Ha Hx HL. set (s0 := put_nodes _ _).
  destruct (shape_alloc s L C a (new_ap x) Hs Ha) as (Hl0 & Hc0 & Hnd & HaC). fold s0 in Hl0, Hc0.
  destruct (list_add_ok s0 L a (new_ap x) Hl0 Hnd) as (s1 & E1 & Hl1 & Hh1 & He1 & Eh1 & En1 & Eo1 & Eoh1);
    [apply lookup_insert_eq|].
  unfold link_new. run E1. rewrite (st_bind_Ok _ _ _ s1 s1) by done.
  assert (num_ap s1 = Z.of_nat (length L)) as En by (rewrite En1; apply (sh_num _ _ _ Hs)).
  rewrite (st_bind_Ok _ _ _ tt s1) by (apply lift_Ok, ensure_Ok; rewrite En; in_range).
  set (s2 := put_num (num_ap s1 + 1) s1). rewrite (st_bind_Ok _ _ _ tt s2) by done.
  assert (fld entry_of (ap_nodes s2) a = Some (entry_of (new_ap x))) as (n2 & Ha2 & En2)%fld_lookup
    by (etransitivity; [apply He1|apply fld_eq]).
  assert (bucket n2 = bucket (new_ap x)) as Eb by (unfold bucket; by injection En2 as -> _).
  destruct (hash_add_ok s2 C a n2) as (s3 & E3 & Hc3 & Hx3 & Hp3 & He3 & El3 & En3 & Eo3 & Eoh3);
    [by apply (chained_frame s0)|done|done|].
  rewrite Eb in Hc3. exists s3, (set_chain (bucket (new_ap x)) (a :: C (bucket (new_ap x))) C).
  assert (∀ l, fld entry_of (ap_nodes s3) l = fld entry_of (<[a := new_ap x]> (ap_nodes s)) l) as He
    by (intros l; rewrite He3; apply He1).
  split; [done|]. split; [|split; [done|split; [by rewrite Eo3|by rewrite Eoh3]]].
  apply (shape_insert s); [done..| |done|done|].
  - by apply (linked_frame s2).
  - rewrite En3. subst s2. cbn. by rewrite En, (sh_num _ _ _ Hs).
Qed.

(** The new entry is in front, and the last one makes room for it when the
    table is full. *)
Lemma ap_add_ok s L C max x : shape s L C → (∀ l, fld addr (ap_nodes s) l ≠ Some x) →
  1 ≤ max < 2 ^ 31 - 1 → Z.of_nat (length L) ≤ max →
  ∃ a s' C', ap_ap_add max x s = Ok (a, s') ∧ (a ∉ L) ∧ shape s' (take (Z.to_nat max) (a :: L)) C' ∧
    fld entry_of (ap_nodes s') a = Some (entry_of (new_ap x)) ∧
    (∀ l, l ∈ take (Z.to_nat max) (a :: L) → l ≠ a → fld entry_of (ap_nodes s') l = fld entry_of (ap_nodes s) l) ∧
    olbc s' = olbc s ∧ olbc_ht s' = olbc_ht s.
Proof.
  intros Hs Hx Hmax HL. unfold ap_ap_add. rewrite (st_bind_Ok _ _ _ s s) by done.
  set (a := fresh (dom (ap_nodes s))). assert (ap_nodes s !! a = None) as Ha by apply not_elem_of_dom, is_fresh.
  assert (a ∉ L) as HaL by (rewrite (sh_dom _ _ _ Hs), Ha; by intros []).
  rewrite (st_bind_Ok _ _ _ tt (put_nodes (<[a := new_ap x]> (ap_nodes s)) s)) by done.
  destruct (link_new_ok s L C a x Hs Ha Hx ltac:(lia)) as (s1 & C1 & E1 & Hs1 & He1 & Eo1 & Eh1).
  run E1. rewrite (st_bind_Ok _ _ _ s1 s1) by done.
  destruct (sh_linked _ _ _ Hs1) as (_ & (Hp & _) & _). destruct (fld_lookup _ _ _ _ Hp) as (n & Hn & Epn).
  run (node_Ok _ _ _ Hn). rewrite Epn, (sh_num _ _ _ Hs1). cbn [length].
  assert (∀ l, l ≠ a → fld entry_of (ap_nodes s1) l = fld entry_of (ap_nodes s) l) as He
    by (intros l Hl; rewrite He1; view).
  assert (fld entry_of (ap_nodes s1) a = Some (entry_of (new_ap x))) as Hea by (rewrite He1; view).
  destruct (Z.ltb_spec max (Z.of_nat (S (length L)))) as [Hfull|Hroom]; cbn [andb].
  - destruct L as [|p K _] using rev_ind; [cbn in Hfull; lia|].
    rewrite app_comm_cons, last_snoc in *. rewrite bool_decide_false by (intros [= ->]; set_solver). cbn [negb].
    destruct (free_ap_ok s1 (a :: K) p [] C1 Hs1) as (s2 & C2 & E2 & Hs2 & He2 & Eo2 & Eh2).
    rewrite app_nil_r in Hs2. rewrite length_app in Hfull, HL. cbn in Hfull, HL.
    assert (take (Z.to_nat max) (a :: K ++ [p]) = a :: K) as Et
      by (rewrite app_comm_cons; apply take_app_length'; cbn; lia).
    rewrite (st_bind_Ok _ _ s1 tt s2) by exact E2. exists a, s2, C2. rewrite Et.
    assert (p ∉ a :: K) as HpK by (destruct (nodup_without (a :: K) p [] (sh_nodup _ _ _ Hs1)); by rewrite app_nil_r in *).
    assert (∀ l, l ∈ a :: K → fld entry_of (ap_nodes s2) l = fld entry_of (ap_nodes s1) l) as He12
      by (intros l Hl; apply He2; intros ->; done).
    split_and!; try done; [rewrite He12 by left; done| |congruence..].
    intros l Hl Hla. rewrite He12 by done. by apply He.
  - rewrite (st_bind_Ok _ _ _ tt s1) by done. exists a, s1, C1. rewrite take_ge by (cbn; lia).
    split_and!; try done. intros l _. apply He.
Qed.

(** The loop of [hostapd_free_aps] releases everything. *)
Lemma free_loop_ok : ∀ L fuel s C, shape s L C → (length L ≤ fuel)%nat →
  ∃ s', free_loop fuel (head L) s = Ok (tt, s') ∧ ap_nodes s' = ∅ ∧ num_ap s' = 0 ∧ ∀ b, ap_hash s' !! b = None.
Proof.
  induction L as [|a L IH]; intros fuel s C Hs Hf.
  - exists s. split; [by destruct fuel|]. split_and!.
    + apply map_eq. intros l. rewrite lookup_empty. apply eq_None_not_Some. rewrite <- (sh_dom _ _ _ Hs).
      apply not_elem_of_nil.
    + apply (sh_num _ _ _ Hs).
    + intros b. destruct (sh_chained _ _ _ Hs b) as [_ ->]. destruct (C b) as [|l K] eqn:E; [done|].
      assert (l ∈ C b) as Hl by (rewrite E; left). apply (sh_bucket _ _ _ Hs) in Hl as (n & Hl & _)%fld_lookup.
      assert (l ∈ []) as []%elem_of_nil by (apply (sh_dom _ _ _ Hs); eauto).
  - destruct fuel as [|fuel]; [cbn in Hf; lia|]. cbn [head free_loop].
    destruct (sh_linked _ _ _ Hs) as ([Hn _] & _). destruct (fld_lookup _ _ _ _ Hn) as (n & Ha & En).
    run (node_Ok _ _ _ Ha). destruct (free_ap_ok s [] a L C Hs) as (s1 & C1 & E1 & Hs1 & _). run E1.
    rewrite En. assert (head_or L None = head L) as -> by by destruct L. cbn in Hf. apply (IH fuel s1 C1 Hs1). lia.
Qed.

Lemma shape_length s L C : shape s L C → (length L ≤ size (ap_nodes s))%nat.
Proof.
  intros Hs. rewrite <- size_dom, <- (size_list_to_set (C := gset loc)) by apply (sh_nodup _ _ _ Hs).
  apply subseteq_size. intros l. by rewrite elem_of_list_to_set, elem_of_dom, (sh_dom _ _ _ Hs).
Qed.

(** Nothing of the table is left, neither an entry nor a pointer to one. *)
Lemma deinit_ok s L C : shape s L C →
  ∃ s', ap_list_deinit s = Ok (tt, s') ∧ ap_nodes s' = ∅ ∧ ap_list s' = None ∧ num_ap s' = 0 ∧
    ∀ b, ap_hash s' !! b = None.
Proof.
  intros Hs. unfold ap_list_deinit, hostapd_free_aps. rewrite (st_bind_Ok _ _ _ s s) by done.
  destruct (sh_linked _ _ _ Hs) as (_ & _ & ->).
  destruct (free_loop_ok L (size (ap_nodes s)) s C Hs (shape_length _ _ _ Hs)) as (s1 & E1 & ? & ? & ?).
  run E1. eexists. split; [reflexivity|]. by split_and!.
Qed.
