(* ===== verification/Beacons.v ===== *)
(** Beacons of other access points: [handle_beacon] of [ap/ieee802_11.c], and
    [ap_list_process_beacon] and [ap_list_timer] of [ap/ap_list.c].

    A beacon is parsed ([Elements]) and noted in the table of access points
    ([ApTable]); a timer removes the entries that have not been heard for a
    while.  Over any history of beacons and timers the table refines [lru], a
    list of entries with the one heard last in front. *)
From stdpp Require Import prelude list gmap sorting.
From S2P Require Import Prelude CMem MsgCommon BufferHandler World Rpc ConfigFile MsgScan.
From S2P Require Import Elements ApTable.

(** ** Time *)

(** [os_reltime_sub]; [os_time_t] is [long]. *)
Definition os_reltime_sub (a b : Z * Z) : res (Z * Z) :=
  ensure (i64_ok (a.1 - b.1)) SignedOverflow;;
  ensure (i64_ok (a.2 - b.2)) SignedOverflow;;
  let sec := a.1 - b.1 in
  let usec := a.2 - b.2 in
  if usec <? 0 then ensure (i64_ok (sec - 1)) SignedOverflow;; Ok (sec - 1, usec + 1000000) else Ok (sec, usec).

Definition os_reltime_expired (now ts : Z * Z) (timeout_secs : Z) : res bool :=
  age ← os_reltime_sub now ts;
  Ok ((timeout_secs <? age.1) || ((age.1 =? timeout_secs) && (0 <? age.2))).

(** ** The code *)

(** What is used of [struct hostapd_config] and of [current_mode]. *)
Record ap_conf := ApConf {
  conf_channel : Z;
  secondary_channel : Z;              (* -1, 0 or 1 *)
  ap_table_max_size : Z;
  ap_table_expiration_time : Z;
  current_mode : option Z             (* [current_mode->mode] *)
}.

Definition HOSTAPD_MODE_IEEE80211G : Z := 1.
Definition WLAN_SUPP_RATES_MAX : nat := 32.

Definition ap_list_beacon_olbc (c : ap_conf) (ap : entry) : bool :=
  if negb (bool_decide (current_mode c = Some HOSTAPD_MODE_IEEE80211G)) || negb (conf_channel c =? e_channel ap)
  then false
  else if negb (e_erp ap =? -1) && Z.testbit (e_erp ap) 0 then true
  else forallb (λ r, let rate := Z.land r 127 * 5 in
                     negb ((rate =? 60) || (rate =? 90) || (110 <? rate))) (e_rates ap).

(** The condition on [ap->channel] for [olbc_ht]. *)
Definition near_channel (c : ap_conf) (channel : Z) : bool :=
  (channel =? 0) || (channel =? conf_channel c) || (channel =? conf_channel c + secondary_channel c * 4).

(** The bytes of an element of the frame, and its first byte. *)
Definition elem_bytes (frame : list Z) (p : option (nat * nat)) : res (option (list Z)) :=
  match p with
  | None => Ok None
  | Some (off, len) =>
      ensure (bool_decide (off + len ≤ length frame)%nat) ReadOutOfBounds;;
      Ok (Some (take len (drop off frame)))
  end.
Definition elem_first (frame : list Z) (p : option (nat * nat)) (none : Z) : res Z :=
  match p with Some (off, _) => index frame off | None => Ok none end.

Definition set_last_beacon (t : Z * Z) (n : ap_info) : ap_info :=
  ApInfo (next n) (prev n) (hnext n) (addr n) (supported_rates n) (erp n) (channel n) (ht_support n) t.

(** The assignments from the elements of the beacon. *)
Definition fill_ap (frame : list Z) (elems : ieee802_11_elems) (fi : option Z) (n : ap_info) : res ap_info :=
  supp ← elem_bytes frame (elem_at elems E_supp_rates);
  ext ← elem_bytes frame (elem_at elems E_ext_supp_rates);
  erp ← elem_first frame (elem_at elems E_erp_info) (-1);
  channel ← match elem_at elems E_ds_params, elem_at elems E_ht_operation with
            | Some p, _ => elem_first frame (Some p) 0
            | None, Some p => elem_first frame (Some p) 0
            | None, None => Ok (match fi with Some ch => ch | None => channel n end)
            end;
  Ok (ApInfo (next n) (prev n) (hnext n) (addr n) (merge_byte_arrays WLAN_SUPP_RATES_MAX supp ext).1 erp channel
        (match elem_at elems E_ht_capabilities with Some _ => true | None => false end) (last_beacon n)).

(** What the table needs of hostapd: where the interface is, whether
    [os_zalloc] has memory, the clock, and the functions that renew the
    beacons of this access point. *)
Class ApWorld (W : Type) := {
  aps_of : W → aps;
  put_aps : aps → W → W;
  os_zalloc : ST W bool;
  os_get_reltime : ST W (Z * Z);
  hostapd_ht_operation_update : ST W unit;
  ieee802_11_update_beacons : ST W unit;
  beacon_m_id : W → Z;                 (* static m_id *)
  put_beacon_m_id : Z → W → W
}.

Section code.
Context {W : Type} `{ApWorld W, Net W, Device W, Build, Allocator}.

Definition on_aps {A} (m : ST aps A) : ST W A := λ w,
  match m (aps_of w) with Ok (a, s) => Ok (a, put_aps s w) | Err e => Err e end.

Definition put_olbc (b : bool) (s : aps) : aps :=
  Aps (ap_nodes s) (ap_list s) (ap_hash s) (num_ap s) b (olbc_ht s).
Definition put_olbc_ht (b : bool) (s : aps) : aps :=
  Aps (ap_nodes s) (ap_list s) (ap_hash s) (num_ap s) (olbc s) b.

(** The entry of the sender, [None] without memory, and whether it is new. *)
Definition find_or_add (c : ap_conf) (bssid : list Z) : ST W (option (loc * bool)) :=
  r ← on_aps (ap_get_ap bssid);
  match r with
  | Some ap => mret (Some (ap, false))
  | None =>
      b ← os_zalloc;
      if (b : bool) then ap ← on_aps (ap_ap_add (ap_table_max_size c) bssid); mret (Some (ap, true))
      else mret None
  end.

(** The entry is filled in and dated, and moved to the front. *)
Definition note_beacon (ap : loc) (frame : list Z) (elems : ieee802_11_elems) (fi : option Z) : ST W unit :=
  n ← on_aps (node ap);
  n ← lift (fill_ap frame elems fi n);
  on_aps (upd ap (λ _, n));;
  now ← os_get_reltime;
  on_aps (upd ap (set_last_beacon now)).
Definition to_front (ap : loc) (new_ap : bool) : ST W unit :=
  s ← on_aps get_aps;
  if negb new_ap && negb (bool_decide (ap_list s = Some ap)) then
    on_aps (ap_ap_list_del ap;; ap_ap_list_add ap)
  else mret tt.

(** The protection the sender asks for. *)
Definition update_olbc (c : ap_conf) (ap : loc) : ST W unit :=
  n ← on_aps (node ap);
  s ← on_aps get_aps;
  let b1 := negb (olbc s) && ap_list_beacon_olbc c (entry_of n) in
  (if b1 then on_aps (modify_aps (put_olbc true)) else mret tt);;
  s ← on_aps get_aps;
  let b2 := negb (olbc_ht s) && negb (ht_support n) && near_channel c (channel n) in
  (if b2 then on_aps (modify_aps (put_olbc_ht true));; hostapd_ht_operation_update else mret tt);;
  if b1 || b2 then ieee802_11_update_beacons else mret tt.

(** *** The message to the controller *)

Definition le_value (l : list Z) : Z := foldr (λ b v, b + 256 * v) 0 l.

Definition no_ht_capability (b : bool) : BeaconInfo.ht_capability :=
  BeaconInfo.Ht b 0 0 (Bytes (replicate 16 0)) 0 0 0.

(** [struct ieee80211_ht_capabilities] at the element. *)
Definition ht_of (b : bool) (l : list Z) : BeaconInfo.ht_capability :=
  BeaconInfo.Ht b (le_value (take 2 l)) (nth 2 l 0) (Bytes (take 16 (drop 3 l))) (le_value (take 2 (drop 19 l)))
    (le_value (take 4 (drop 21 l))) (nth 25 l 0).

(** Three bytes of the element with one byte are copied. *)
Definition beacon_message (frame : list Z) (elems : ieee802_11_elems) (n : ap_info) :
    res BeaconInfo.msg_beaconinfo :=
  ssid ← elem_bytes frame (elem_at elems E_ssid);
  ds ← match elem_at elems E_ds_params with
       | Some (off, _) => d0 ← index frame off; d1 ← index frame (off + 1); d2 ← index frame (off + 2); Ok [d0; d1; d2]
       | None => Ok [0; 0; 0]
       end;
  ht ← elem_bytes frame (elem_at elems E_ht_capabilities);
  let b := BeaconInfo.Beacon 0 0 (match ssid with Some l => mk_str l | None => None end) (Bytes (addr n))
    (channel n) (Z.of_nat WLAN_SUPP_RATES_MAX)
    (Some (imap (λ i r, BeaconInfo.Rate (Z.of_nat i) (Z.land r 127 * 5) false) (supported_rates n)))
    0 0 0 (Bytes ds) 0 (Bytes [0; 0; 0; 0]) (BeaconInfo.BeaconCountry 0 0 0 None) 0 0 0 0 0 0 (erp n)
    (BeaconInfo.Rsn 0 0 0 0 None 0 None 0 0 None) 0 0 0 0 0 0
    (match ht with Some l => ht_of (ht_support n) l | None => no_ht_capability (ht_support n) end) in
  Ok (BeaconInfo.Msg (Header 0 0 None 0) 1 (Some [b])).

Definition get_m_id : ST W Z := λ w, Ok (beacon_m_id w, w).
Definition set_m_id (id : Z) : ST W unit := λ w, Ok (tt, put_beacon_m_id id w).

(** [bi->p_version] is never assigned: it is tested, and released, by
    [send_msg_beaconinfo] or by [free_msg_beaconinfo].  [zeroed] says that the
    block [malloc] gave for [bi] happens to hold zeros. *)
Definition forward_to_controller (zeroed : bool) (config : ethanol_configuration) (frame : list Z)
    (elems : ieee802_11_elems) (ap : loc) : ST W unit :=
  n ← on_aps (node ap);
  bi ← lift (beacon_message frame elems n);
  lift (ensure zeroed ReadIndeterminate);;
  id ← get_m_id;
  '(_, id) ← BeaconInfo.send_msg_beaconinfo (server_addr config) (remote_server_port config) id bi;
  set_m_id id.

Definition ap_list_process_beacon (zeroed : bool) (config : ethanol_configuration) (c : ap_conf) (bssid frame : list Z)
    (elems : ieee802_11_elems) (fi : option Z) : ST W unit :=
  if ap_table_max_size c <? 1 then mret tt
  else
    r ← find_or_add c bssid;
    match r with
    | None => mret tt
    | Some (ap, new_ap) =>
        note_beacon ap frame elems fi;;
        to_front ap new_ap;;
        update_olbc c ap;;
        if forward_beacon config =? 1 then mret tt
        else forward_to_controller zeroed config frame elems ap
    end.

(** The header has 24 bytes, the fixed part of a beacon 12.  What the parser
    answers is not used. *)
Definition handle_beacon (zeroed : bool) (config : ethanol_configuration) (c : ap_conf) (mgmt : list Z)
    (fi : option Z) : ST W unit :=
  if bool_decide (length mgmt < 24 + 12)%nat then mret tt
  else
    let variable := drop 36 mgmt in
    ap_list_process_beacon zeroed config c (take 6 (drop 16 mgmt)) variable (ieee802_11_parse_elems variable).2 fi.

(** *** The timer *)

(** The first loop of [ap_list_timer]. *)
Fixpoint expire_loop (fuel : nat) (c : ap_conf) (now : Z * Z) : ST aps unit :=
  s ← get_aps;
  match ap_list s with
  | None => mret tt
  | Some hd =>
      match fuel with
      | O => fail Diverges
      | S fuel =>
          nh ← node hd;
          ap ← lift (deref (prev nh));
          n ← node ap;
          b ← lift (os_reltime_expired now (last_beacon n) (ap_table_expiration_time c));
          if (b : bool) then ap_free_ap ap;; expire_loop fuel c now else mret tt
      end
  end.

(** The second loop: whether an entry asks for protection. *)
Fixpoint olbc_loop (fuel : nat) (c : ap_conf) (p : option loc) (olbc olbc_ht : bool) : ST aps (bool * bool) :=
  match p with
  | None => mret (olbc, olbc_ht)
  | Some ap =>
      if olbc && olbc_ht then mret (olbc, olbc_ht)
      else
        match fuel with
        | O => fail Diverges
        | S fuel =>
            n ← node ap;
            olbc_loop fuel c (next n) (if ap_list_beacon_olbc c (entry_of n) then true else olbc)
              (if ht_support n then olbc_ht else true)
        end
  end.

Definition renew_olbc (c : ap_conf) : ST W unit :=
  s ← on_aps get_aps;
  if olbc s || olbc_ht s then
    '(o, oh) ← on_aps (olbc_loop (size (ap_nodes s)) c (ap_list s) false false);
    let b1 := negb o && olbc s in
    (if b1 then on_aps (modify_aps (put_olbc false)) else mret tt);;
    let b2 := negb oh && olbc_ht s in
    (if b2 then on_aps (modify_aps (put_olbc_ht false));; hostapd_ht_operation_update else mret tt);;
    if b1 || b2 then ieee802_11_update_beacons else mret tt
  else mret tt.

Definition ap_list_timer (c : ap_conf) : ST W unit :=
  s ← on_aps get_aps;
  match ap_list s with
  | None => mret tt
  | Some _ =>
      now ← os_get_reltime;
      on_aps (expire_loop (S (size (ap_nodes s))) c now);;
      renew_olbc c
  end.
End code.

(** ** The table as a list *)

Definition micros (t : Z * Z) : Z := t.1 * 1000000 + t.2.
Definition time_ok (t : Z * Z) : Prop := 0 ≤ t.1 < 2 ^ 62 ∧ 0 ≤ t.2 < 1000000.

(** An entry is too old at a time. *)
Definition too_old (c : ap_conf) (now : Z * Z) (e : entry) : bool :=
  ap_table_expiration_time c * 1000000 <? micros now - micros (e_last e).

(** What a beacon says of its sender. *)
Record heard := Heard { h_addr : list Z; h_rates : list Z; h_erp : Z; h_channel : option Z; h_ht : bool }.

Definition value_of (frame : list Z) (p : nat * nat) : list Z := take p.2 (drop p.1 frame).
Definition first_of (frame : list Z) (p : nat * nat) : Z := nth p.1 frame 0.
Definition heard_of (bssid frame : list Z) (elems : ieee802_11_elems) (fi : option Z) : heard :=
  Heard bssid
    (merge_byte_arrays WLAN_SUPP_RATES_MAX (value_of frame <$> elem_at elems E_supp_rates)
       (value_of frame <$> elem_at elems E_ext_supp_rates)).1
    (default (-1) (first_of frame <$> elem_at elems E_erp_info))
    (match elem_at elems E_ds_params, elem_at elems E_ht_operation with
     | Some p, _ | None, Some p => Some (first_of frame p)
     | None, None => fi
     end)
    (bool_decide (is_Some (elem_at elems E_ht_capabilities))).

Definition entry_heard (h : heard) (now : Z * Z) (old_channel : Z) : entry :=
  ApEntry (h_addr h) (h_rates h) (h_erp h) (default old_channel (h_channel h)) (h_ht h) now.

Record lru := Lru { entries : list entry; l_olbc : bool; l_olbc_ht : bool }.

Definition others (x : list Z) (es : list entry) : list entry := filter (λ e, e_addr e ≠ x) es.
Definition old_channel (x : list Z) (es : list entry) : Z :=
  default 0 (e_channel <$> head (filter (λ e, e_addr e = x) es)).

(** A beacon puts its sender in front; the table never has more than
    [ap_table_max_size] entries. *)
Definition lru_beacon (c : ap_conf) (h : heard) (now : Z * Z) (t : lru) : lru :=
  let e := entry_heard h now (old_channel (h_addr h) (entries t)) in
  Lru (take (Z.to_nat (ap_table_max_size c)) (e :: others (h_addr h) (entries t)))
    (l_olbc t || ap_list_beacon_olbc c e)
    (l_olbc_ht t || (negb (e_ht e) && near_channel c (e_channel e))).

(** The timer keeps the entries that are not too old. *)
Definition lru_timer (c : ap_conf) (now : Z * Z) (t : lru) : lru :=
  let es := filter (λ e, too_old c now e = false) (entries t) in
  Lru es (l_olbc t && existsb (ap_list_beacon_olbc c) es) (l_olbc_ht t && existsb (λ e, negb (e_ht e)) es).

(** ** Reading the frame *)

Lemma expired_ok now ts T : time_ok now → time_ok ts →
  os_reltime_expired now ts T = Ok (T * 1000000 <? micros now - micros ts).
Proof.
  destruct now as [a b], ts as [x y]. unfold time_ok, os_reltime_expired, os_reltime_sub, micros. cbn.
  intros [Ha Hb] [Hx Hy]. rewrite !ensure_Ok by in_range. cbn. destruct (Z.ltb_spec (b - y) 0); cbn; f_equal; lia.
Qed.

Section frame.
Context (frame : list Z) (elems : ieee802_11_elems) (Hok : elems_ok (length frame) elems).

Lemma elem_bytes_ok e : elem_bytes frame (elem_at elems e) = Ok (value_of frame <$> elem_at elems e).
Proof.
  destruct (elem_at elems e) as [[off len]|] eqn:E; [|done]. destruct Hok as [H _].
  destruct (H _ _ E) as [[_ Hin] _]. cbn in *. by rewrite bool_decide_true by done.
Qed.

Lemma elem_first_ok e p z : elem_at elems e = Some p → (1 ≤ least_length e)%nat →
  elem_first frame (Some p) z = Ok (first_of frame p).
Proof.
  destruct p as [off len]. intros E He. destruct Hok as [H _]. destruct (H _ _ E) as [[_ Hin] Hl]. cbn in *.
  unfold index, first_of. cbn. destruct (lookup_lt_is_Some_2 frame off) as [b Hb]; [lia|].
  rewrite Hb. by erewrite nth_lookup_Some.
Qed.

Lemma fill_ap_ok fi n : ∃ m, fill_ap frame elems fi n = Ok m ∧
  next m = next n ∧ prev m = prev n ∧ hnext m = hnext n ∧ addr m = addr n ∧
  ∀ now, entry_of (set_last_beacon now m) = entry_heard (heard_of (addr n) frame elems fi) now (channel n).
Proof.
  unfold fill_ap, entry_heard, heard_of. rewrite !elem_bytes_ok. cbn [mbind res_bind h_addr h_rates h_erp h_channel h_ht].
  assert (∀ k : Z → res ap_info, (elem_first frame (elem_at elems E_erp_info) (-1) ≫= k) =
    k (default (-1) (first_of frame <$> elem_at elems E_erp_info))) as ->.
  { intros k. destruct (elem_at elems E_erp_info) eqn:E; [|done].
    by rewrite (elem_first_ok E_erp_info) by (done || cbn; lia). }
  assert (∀ A (x : option A), (match x with Some _ => true | None => false end) = bool_decide (is_Some x)) as Hb
    by (by intros A []).
  destruct (elem_at elems E_ds_params) eqn:Ed; [|destruct (elem_at elems E_ht_operation) eqn:Eh].
  - rewrite (elem_first_ok E_ds_params) by (done || cbn; lia). eexists. split; [reflexivity|].
    split_and!; try done. intros now. unfold entry_of. cbn. by rewrite Hb.
  - rewrite (elem_first_ok E_ht_operation) by (done || cbn; lia). eexists. split; [reflexivity|].
    split_and!; try done. intros now. unfold entry_of. cbn. by rewrite Hb.
  - eexists. split; [reflexivity|]. split_and!; try done. intros now. unfold entry_of. cbn. rewrite Hb. by destruct fi.
Qed.
End frame.

(** ** What the world promises *)

(** The interface is one object, [os_zalloc] gives a block when there is memory,
    the clock does not run backwards, and renewing the beacons leaves the table
    as it is. *)
Class ApWorldOk (W : Type) `{ApWorld W} := {
  now_of : W → Z * Z;                     (* the last reading of the clock *)
  memory_of : W → bool;                   (* what the next [os_zalloc] answers *)
  aps_put : ∀ s w, aps_of (put_aps s w) = s;
  now_put : ∀ s w, now_of (put_aps s w) = now_of w;
  memory_put : ∀ s w, memory_of (put_aps s w) = memory_of w;
  m_id_put : ∀ i w, aps_of (put_beacon_m_id i w) = aps_of w ∧ now_of (put_beacon_m_id i w) = now_of w;
  zalloc_ok : ∀ w, ∃ w', os_zalloc w = Ok (memory_of w, w') ∧ aps_of w' = aps_of w ∧ now_of w' = now_of w;
  reltime_ok : ∀ w, ∃ w', os_get_reltime w = Ok (now_of w', w') ∧ aps_of w' = aps_of w ∧
    time_ok (now_of w') ∧ micros (now_of w) ≤ micros (now_of w');
  ht_update_ok : ∀ w, ∃ w', hostapd_ht_operation_update w = Ok (tt, w') ∧ aps_of w' = aps_of w ∧ now_of w' = now_of w;
  update_beacons_ok : ∀ w, ∃ w', ieee802_11_update_beacons w = Ok (tt, w') ∧ aps_of w' = aps_of w ∧ now_of w' = now_of w
}.

Definition in_order : relation entry := λ e e', micros (e_last e') ≤ micros (e_last e).

(** The entries of the nodes [L]. *)
Definition holds (s : aps) (L : list loc) (es : list entry) : Prop :=
  Forall2 (λ l e, fld entry_of (ap_nodes s) l = Some e) L es.

(** The table [s] is the list [t], at a time. *)
Record refines (c : ap_conf) (now : Z * Z) (s : aps) (t : lru) : Prop := Refines {
  rf_shape : ∃ L C, shape s L C ∧ holds s L (entries t);
  rf_olbc : olbc s = l_olbc t;
  rf_olbc_ht : olbc_ht s = l_olbc_ht t;
  rf_size : Z.of_nat (length (entries t)) ≤ ap_table_max_size c;
  rf_order : StronglySorted in_order (entries t);
  rf_time : Forall (λ e, time_ok (e_last e) ∧ micros (e_last e) ≤ micros now) (entries t);
  rf_quiet : entries t = [] → l_olbc t = false ∧ l_olbc_ht t = false
}.

Lemma holds_agree s s' L es : holds s L es → (∀ l, l ∈ L → fld entry_of (ap_nodes s') l = fld entry_of (ap_nodes s) l) →
  holds s' L es.
Proof.
  unfold holds. intros H Hag. induction H as [|l e L es Hl HL IH]; constructor.
  - rewrite Hag; [done|left].
  - apply IH. intros. apply Hag. by right.
Qed.

(** Distinct addresses. *)
Lemma holds_nodup s L C es : shape s L C → holds s L es → NoDup (e_addr <$> es).
Proof.
  intros Hs Hh. apply NoDup_alt. intros i j x. rewrite !list_lookup_fmap.
  intros (e & Ei & ->)%fmap_Some_1 (e' & Ej & E)%fmap_Some_1.
  destruct (Forall2_lookup_r _ _ _ _ _ Hh Ei) as (l & Hl & Fl).
  destruct (Forall2_lookup_r _ _ _ _ _ Hh Ej) as (m & Hm & Fm).
  assert (l = m) as ->.
  { apply (sh_addr _ _ _ Hs l m (e_addr e)); rewrite (fld_entry e_addr _ _ : fld addr _ _ = _), ?Fl, ?Fm; cbn; congruence. }
  eapply NoDup_lookup; [apply (sh_nodup _ _ _ Hs)|done..].
Qed.

Section operations.
Context {W : Type} `{ApWorldOk W}.

Lemma on_aps_Ok {A} (m : ST aps A) w a s' : m (aps_of w) = Ok (a, s') → on_aps m w = Ok (a, put_aps s' w).
Proof. unfold on_aps. by intros ->. Qed.

(** The entry of the sender is there when there is memory for it, with what
    was known of it, and the others are those that stay. *)
Definition prepared (c : ap_conf) (x : list Z) (es : list entry) (ap : loc) (new_ap : bool) (s : aps) (L1 L2 : list loc) : Prop :=
  (∃ C, shape s (L1 ++ ap :: L2) C) ∧ (new_ap = true → L1 = []) ∧
  (∃ e, fld entry_of (ap_nodes s) ap = Some e ∧ e_addr e = x ∧ e_channel e = old_channel x es) ∧
  holds s (L1 ++ L2) (take (Z.to_nat (ap_table_max_size c) - 1) (others x es)).

Lemma filter_none {A} (P : A → Prop) `{∀ x, Decision (P x)} (l : list A) :
  (∀ x, x ∈ l → ¬ P x) → filter P l = [].
Proof. induction l as [|x l IH]; [done|]. intros Hl. rewrite filter_cons_False by (apply Hl; left). apply IH. set_solver. Qed.

Lemma filter_every {A} (P : A → Prop) `{∀ x, Decision (P x)} (l : list A) :
  (∀ x, x ∈ l → P x) → filter P l = l.
Proof.
  induction l as [|x l IH]; [done|]. intros Hl. rewrite filter_cons_True by (apply Hl; left). f_equal. apply IH. set_solver.
Qed.

(** The sender is known. *)
Lemma found_listed s L C es ap x : shape s L C → holds s L es → fld addr (ap_nodes s) ap = Some x → x ∈ e_addr <$> es.
Proof.
  intros Hs Hh Ha. destruct (fld_lookup _ _ _ _ Ha) as (n & Hn & <-).
  assert (ap ∈ L) as (i & Hi)%list_elem_of_lookup by (apply (sh_dom _ _ _ Hs); eauto).
  destruct (Forall2_lookup_l _ _ _ _ _ Hh Hi) as (e & He & Fe). apply list_elem_of_fmap. exists e.
  split; [|by eapply list_elem_of_lookup_2]. unfold fld in Fe. rewrite Hn in Fe. by injection Fe as <-.
Qed.

Lemma prepared_old c x es s L C ap : shape s L C → holds s L es → fld addr (ap_nodes s) ap = Some x →
  Z.of_nat (length es) ≤ ap_table_max_size c → ∃ L1 L2, prepared c x es ap false s L1 L2.
Proof.
  intros Hs Hh Ha Hsz. destruct (fld_lookup _ _ _ _ Ha) as (n & Hn & En).
  assert (ap ∈ L) as (L1 & L2 & ->)%list_elem_of_split by (apply (sh_dom _ _ _ Hs); eauto).
  exists L1, L2. pose proof (holds_nodup _ _ _ _ Hs Hh) as Hnd. unfold holds in Hh.
  apply Forall2_app_inv_l in Hh as (es1 & es2' & H1 & H2 & ->). inversion H2 as [|? e ? es2 He H3]; subst.
  assert (e_addr e = addr n) as Ex.
  { rewrite (fld_entry e_addr _ _ : fld addr _ _ = _), He in Ha. cbn in Ha. congruence. }
  assert (∀ y, y ∈ es1 ++ es2 → e_addr y ≠ addr n) as Hne.
  { intros y Hy E. rewrite fmap_app, fmap_cons, <- Permutation_middle, <- fmap_app in Hnd.
    apply NoDup_cons in Hnd as [Hnd _]. apply Hnd. rewrite Ex, <- E. by apply list_elem_of_fmap_2. }
  split; [by exists C|]. split; [done|]. split; [exists e; split; [done|split; [done|]]|].
  - unfold old_channel. rewrite filter_app, (filter_none _ es1), filter_cons_True by (done || set_solver). done.
  - unfold others. rewrite filter_app, filter_cons_False by (intros ?; done).
    rewrite <- filter_app, filter_every by done. rewrite length_app in Hsz. cbn in Hsz.
    rewrite take_ge by (rewrite length_app; lia). by apply Forall2_app.
Qed.

(** The sender is new. *)
Lemma prepared_new c x es s L C : shape s L C → holds s L es → (∀ l, fld addr (ap_nodes s) l ≠ Some x) →
  1 ≤ ap_table_max_size c < 2 ^ 31 - 1 → Z.of_nat (length es) ≤ ap_table_max_size c →
  ∃ ap s' L2, ap_ap_add (ap_table_max_size c) x s = Ok (ap, s') ∧ prepared c x es ap true s' [] L2 ∧
    olbc s' = olbc s ∧ olbc_ht s' = olbc_ht s.
Proof.
  intros Hs Hh Hx Hmax Hsz. unfold holds in Hh. pose proof (Forall2_length _ _ _ Hh) as Hlen.
  destruct (ap_add_ok s L C (ap_table_max_size c) x Hs Hx Hmax ltac:(lia)) as (a & s' & C' & E & HaL & Hs' & Ha & He & Eo & Eh).
  destruct (Z.to_nat (ap_table_max_size c)) as [|k] eqn:Ek; [lia|]. cbn [take] in *.
  exists a, s', (take k L). split; [done|]. split; [|done].
  assert (∀ y, y ∈ es → e_addr y ≠ x) as Hne.
  { intros y (i & Hy)%list_elem_of_lookup Exy. destruct (Forall2_lookup_r _ _ _ _ _ Hh Hy) as (l & Hl & Fl).
    apply (Hx l). rewrite (fld_entry e_addr _ _ : fld addr _ _ = _), Fl. cbn. by rewrite Exy. }
  split; [by exists C'|]. split; [done|]. split; [eexists; split; [exact Ha|split; [done|]]|].
  - unfold old_channel. by rewrite filter_none by done.
  - unfold others. rewrite filter_every, Ek by done. cbn [app]. replace (S k - 1)%nat with k by lia.
    eapply holds_agree; [by apply Forall2_take|]. intros l Hl. apply He; [by right|].
    intros ->. apply HaL. apply list_elem_of_lookup in Hl as (i & Hi). apply lookup_take_Some in Hi as [Hi _].
    by eapply list_elem_of_lookup_2.
Qed.

Lemma find_or_add_ok c x now t w : 1 ≤ ap_table_max_size c < 2 ^ 31 - 1 → refines c now (aps_of w) t →
  ∃ r w', find_or_add c x w = Ok (r, w') ∧ now_of w' = now_of w ∧
    olbc (aps_of w') = l_olbc t ∧ olbc_ht (aps_of w') = l_olbc_ht t ∧
    match r with
    | None => aps_of w' = aps_of w ∧ memory_of w = false ∧ (x ∉ e_addr <$> entries t)
    | Some (ap, new_ap) => (memory_of w = true ∨ x ∈ e_addr <$> entries t) ∧ ∃ L1 L2, prepared c x (entries t) ap new_ap (aps_of w') L1 L2
    end.
Proof.
  intros Hmax [(L & C & Hs & Hh) Ho Hoh Hsz _ _ _]. unfold find_or_add.
  destruct (get_ap_ok _ _ _ x Hs) as (r & E & Hr). run (on_aps_Ok _ _ _ _ E).
  assert (aps_of (put_aps (aps_of w) w) = aps_of w) as Ea by apply aps_put.
  destruct r as [ap|].
  - exists (Some (ap, false)), (put_aps (aps_of w) w). rewrite Ea, now_put. split_and!; try done.
    + right. by eapply found_listed.
    + by apply (prepared_old _ _ _ _ L C).
  - destruct (zalloc_ok (put_aps (aps_of w) w)) as (w1 & E1 & Ea1 & En1). run E1. rewrite memory_put.
    rewrite Ea in Ea1. rewrite now_put in En1. destruct (memory_of w).
    + destruct (prepared_new c x (entries t) _ L C Hs Hh Hr Hmax Hsz) as (ap & s' & L2 & E2 & Hp & Eo & Eh).
      rewrite <- Ea1 in E2. run (on_aps_Ok _ _ _ _ E2).
      exists (Some (ap, true)), (put_aps s' w1). rewrite aps_put, now_put.
      split_and!; try congruence; try done; [by left|]. by exists [], L2.
    + exists None, w1. rewrite Ea1. split_and!; try done. unfold holds in Hh.
      intros (e & -> & He)%list_elem_of_fmap_1. apply list_elem_of_lookup in He as (i & He).
      destruct (Forall2_lookup_r _ _ _ _ _ Hh He) as (l & Hl & Fl).
      apply (Hr l). by rewrite (fld_entry e_addr _ _ : fld addr _ _ = _), Fl.
Qed.

(** The entry after the assignments of a beacon. *)
Lemma note_beacon_ok ap n L C frame elems fi w : shape (aps_of w) L C → ap_nodes (aps_of w) !! ap = Some n →
  elems_ok (length frame) elems →
  ∃ w', note_beacon ap frame elems fi w = Ok (tt, w') ∧
    time_ok (now_of w') ∧ micros (now_of w) ≤ micros (now_of w') ∧ shape (aps_of w') L C ∧
    fld entry_of (ap_nodes (aps_of w')) ap = Some (entry_heard (heard_of (addr n) frame elems fi) (now_of w') (channel n)) ∧
    (∀ l, l ≠ ap → fld entry_of (ap_nodes (aps_of w')) l = fld entry_of (ap_nodes (aps_of w)) l) ∧
    olbc (aps_of w') = olbc (aps_of w) ∧ olbc_ht (aps_of w') = olbc_ht (aps_of w).
Proof.
  intros Hs Hn Hok. unfold note_beacon. run (on_aps_Ok _ _ _ _ (node_Ok _ _ _ Hn)).
  destruct (fill_ap_ok frame elems Hok fi n) as (m & Em & Hm1 & Hm2 & Hm3 & Hm4 & Hme).
  rewrite (st_bind_Ok _ _ _ m _ (lift_Ok _ _ _ Em)).
  set (w1 := put_aps (aps_of w) w). assert (ap_nodes (aps_of w1) !! ap = Some n) as Hn1 by (unfold w1; by rewrite aps_put).
  run (on_aps_Ok _ _ _ _ (upd_Ok (aps_of w1) ap (λ _, m) n Hn1)).
  destruct (reltime_ok (put_aps (put_nodes (<[ap:=m]> (ap_nodes (aps_of w1))) (aps_of w1)) w1)) as (w2 & E2 & Ea2 & Ht & Hle).
  run E2. rewrite aps_put in Ea2. subst w1. rewrite aps_put in Ea2. rewrite !now_put in Hle.
  assert (ap_nodes (aps_of w2) !! ap = Some m) as Hn2 by (rewrite Ea2; cbn; by rewrite lookup_insert_eq).
  rewrite (on_aps_Ok _ _ _ _ (upd_Ok (aps_of w2) ap (set_last_beacon (now_of w2)) m Hn2)).
  eexists. split; [reflexivity|]. rewrite now_put, aps_put. split; [done|]. split; [done|]. split; [|split; [|split]].
  - apply (shape_update (aps_of w2) _ _ _ m); try done. rewrite Ea2. by apply (shape_update (aps_of w) _ _ _ n).
  - cbn. by rewrite fld_eq, Hme.
  - intros l Hl. rewrite Ea2. cbn. view.
  - by rewrite Ea2.
Qed.

Lemma to_front_ok ap new_ap L1 L2 C w : shape (aps_of w) (L1 ++ ap :: L2) C → (new_ap = true → L1 = []) →
  ∃ w', to_front ap new_ap w = Ok (tt, w') ∧ now_of w' = now_of w ∧ shape (aps_of w') (ap :: L1 ++ L2) C ∧
    agree entry_of (aps_of w) (aps_of w') ∧
    olbc (aps_of w') = olbc (aps_of w) ∧ olbc_ht (aps_of w') = olbc_ht (aps_of w).
Proof.
  intros Hs Hnew. unfold to_front. run (on_aps_Ok get_aps w _ _ eq_refl). destruct (sh_linked _ _ _ Hs) as (_ & _ & Hh).
  set (w1 := put_aps (aps_of w) w). assert (aps_of w1 = aps_of w) as E1 by apply aps_put.
  assert (now_of w1 = now_of w) as En1 by apply now_put.
  destruct (negb new_ap && negb (bool_decide (ap_list (aps_of w) = Some ap))) eqn:Eb.
  - destruct (move_front_ok _ _ _ _ _ Hs) as (s' & Em & Hs' & _ & He & _ & _ & Eo & Eh). rewrite <- E1 in Em.
    rewrite (on_aps_Ok _ _ _ _ Em). eexists. split; [reflexivity|]. rewrite now_put, aps_put. by split_and!.
  - assert (L1 = []) as ->.
    { apply andb_false_iff in Eb as [Eb|Eb]; apply negb_false_iff in Eb; [by apply Hnew|].
      apply bool_decide_eq_true in Eb. destruct L1 as [|k L1]; [done|]. rewrite Eb in Hh. injection Hh as <-.
      pose proof (sh_nodup _ _ _ Hs) as [Hk _]%NoDup_cons. set_solver. }
    exists w1. rewrite E1. by split_and!.
Qed.

(** A conditional assignment, and a conditional call of hostapd behind it. *)
Lemma flag_ok (b : bool) (f : aps → aps) w : ∃ w', (if b then on_aps (modify_aps f) else mret tt) w = Ok (tt, w') ∧
  aps_of w' = (if b then f (aps_of w) else aps_of w) ∧ now_of w' = now_of w.
Proof.
  destruct b; [|by exists w]. rewrite (on_aps_Ok (modify_aps f) w tt (f (aps_of w)) eq_refl).
  eexists. split; [reflexivity|]. by rewrite aps_put, now_put.
Qed.

Lemma flag_ht_ok (b : bool) (f : aps → aps) w :
  ∃ w', (if b then on_aps (modify_aps f);; hostapd_ht_operation_update else mret tt) w = Ok (tt, w') ∧
  aps_of w' = (if b then f (aps_of w) else aps_of w) ∧ now_of w' = now_of w.
Proof.
  destruct b; [|by exists w]. destruct (flag_ok true f w) as (w1 & E1 & Ea1 & En1). run E1.
  destruct (ht_update_ok w1) as (w2 & E2 & Ea2 & En2). exists w2. split_and!; congruence.
Qed.

Lemma renew_ok (b : bool) w : ∃ w', (if b then ieee802_11_update_beacons else mret tt) w = Ok (tt, w') ∧
  aps_of w' = aps_of w ∧ now_of w' = now_of w.
Proof. destruct b; [apply update_beacons_ok|by exists w]. Qed.

Lemma get_ok w : ∃ w', on_aps get_aps w = Ok (aps_of w, w') ∧ aps_of w' = aps_of w ∧ now_of w' = now_of w.
Proof. eexists. split; [by apply on_aps_Ok|]. by rewrite aps_put, now_put. Qed.

Lemma update_olbc_ok c ap e w : fld entry_of (ap_nodes (aps_of w)) ap = Some e →
  ∃ w', update_olbc c ap w = Ok (tt, w') ∧ now_of w' = now_of w ∧
    aps_of w' = put_olbc_ht (olbc_ht (aps_of w) || (negb (e_ht e) && near_channel c (e_channel e)))
      (put_olbc (olbc (aps_of w) || ap_list_beacon_olbc c e) (aps_of w)).
Proof.
  intros (n & Hn & <-)%fld_lookup. unfold update_olbc. run (on_aps_Ok _ _ _ _ (node_Ok _ _ _ Hn)).
  destruct (get_ok (put_aps (aps_of w) w)) as (w1 & E1 & Ea1 & En1). run E1. rewrite aps_put in *. rewrite now_put in En1.
  edestruct (flag_ok (negb (olbc (aps_of w)) && ap_list_beacon_olbc c (entry_of n)) (put_olbc true)) as (w2 & E2 & Ea2 & En2).
  run E2. destruct (get_ok w2) as (w3 & E3 & Ea3 & En3). run E3. clear E1 E2 E3.
  edestruct (flag_ht_ok (negb (olbc_ht (aps_of w2)) && negb (ht_support n) && near_channel c (channel n)) (put_olbc_ht true))
    as (w4 & E4 & Ea4 & En4). run E4. edestruct renew_ok as (w5 & E5 & Ea5 & En5). rewrite E5. exists w5.
  split; [done|]. split; [congruence|]. rewrite Ea5, Ea4, Ea3, Ea2, Ea1. clear. destruct (aps_of w) as [h p hh k o oh].
  cbn. destruct o, oh, (ap_list_beacon_olbc _ _), (ht_support n), (near_channel _ _); done.
Qed.

(** *** The loops of the timer *)

Lemma expire_loop_ok c now : time_ok now → ∀ L es fuel s C, shape s L C → holds s L es → (length L ≤ fuel)%nat →
  StronglySorted in_order es → Forall (λ e, time_ok (e_last e)) es →
  ∃ s' L' C', expire_loop fuel c now s = Ok (tt, s') ∧ shape s' L' C' ∧
    holds s' L' (filter (λ e, too_old c now e = false) es) ∧ olbc s' = olbc s ∧ olbc_ht s' = olbc_ht s.
Proof.
  intros Hnow L. induction L as [|a L IH] using rev_ind; intros es fuel s C Hs Hh Hf Hso Ht.
  - unfold holds in Hh. apply Forall2_nil_inv_l in Hh as ->. exists s, [], C.
    split; [|split; [done|split; [constructor|done]]]. destruct (sh_linked _ _ _ Hs) as (_ & _ & E).
    destruct fuel; cbn [expire_loop]; rewrite (st_bind_Ok _ _ _ s s) by done; by rewrite E.
  - unfold holds in Hh. apply Forall2_app_inv_l in Hh as (es1 & es2 & H1 & H2 & ->).
    inversion H2 as [|? e ? es2' He H3]; subst. apply Forall2_nil_inv_l in H3 as ->.
    rewrite length_app in Hf. cbn in Hf. destruct fuel as [|fuel]; [lia|]. cbn [expire_loop].
    rewrite (st_bind_Ok _ _ _ s s) by done.
    destruct (sh_linked _ _ _ Hs) as (_ & Hp & E). rewrite E.
    destruct (fld_lookup _ _ _ _ He) as (n & Hn & En). apply Forall_app in Ht as [Ht1 Ht2].
    rewrite Forall_singleton in Ht2.
    assert (∃ hd nh, head (L ++ [a]) = Some hd ∧ ap_nodes s !! hd = Some nh ∧ prev nh = Some a) as (hd & nh & -> & Hhd & Epr).
    { destruct (L ++ [a]) as [|hd K] eqn:EL; [by destruct L|]. destruct Hp as [Hp _].
      destruct (fld_lookup _ _ _ _ Hp) as (nh & ? & Ep). exists hd, nh. rewrite <- EL, last_snoc in Ep. done. }
    run (node_Ok _ _ _ Hhd). rewrite (st_bind_Ok _ _ _ a s) by by rewrite Epr. run (node_Ok _ _ _ Hn).
    assert (last_beacon n = e_last e) as -> by by rewrite <- En.
    rewrite (st_bind_Ok _ _ _ _ _ (lift_Ok _ _ _ (expired_ok now (e_last e) _ Hnow Ht2))).
    fold (too_old c now e). rewrite filter_app. destruct (too_old c now e) eqn:Eold.
    + destruct (free_ap_ok s L a [] C Hs) as (s1 & C1 & E1 & Hs1 & He1 & Eo1 & Eh1). run E1. rewrite app_nil_r in Hs1.
      destruct (nodup_without L a [] (sh_nodup _ _ _ Hs)) as [_ HaL]. rewrite app_nil_r in HaL.
      destruct (IH es1 fuel s1 C1 Hs1) as (s' & L' & C' & E' & Hs' & Hh' & Eo' & Eh'); [|lia| |done|].
      * eapply holds_agree; [exact H1|]. intros l Hl. apply He1. intros ->. done.
      * by eapply StronglySorted_app_1_l.
      * exists s', L', C'. rewrite (filter_none _ [e]), app_nil_r by (intros y ->%list_elem_of_singleton; congruence).
        split_and!; congruence || done.
    + exists s, (L ++ [a]), C. split; [done|]. split; [done|]. split; [|done]. rewrite <- filter_app, filter_every.
      * by apply Forall2_app.
      * intros y Hy. unfold too_old in *. apply Z.ltb_ge in Eold.
        apply Z.ltb_ge. apply elem_of_app in Hy as [Hy| ->%list_elem_of_singleton]; [|done].
        pose proof (StronglySorted_app_1_elem_of _ _ _ _ _ Hso Hy (proj2 (list_elem_of_singleton e e) eq_refl)) as Ho. unfold in_order in Ho. lia.
Qed.

(** Whether some entry asks for protection. *)
Lemma olbc_loop_ok c s : ∀ L es fuel o oh, nexts (fld next (ap_nodes s)) L None → holds s L es → (length L ≤ fuel)%nat →
  ∃ o' oh', olbc_loop fuel c (head L) o oh s = Ok ((o', oh'), s) ∧
    o' = o || existsb (ap_list_beacon_olbc c) es ∧ oh' = oh || existsb (λ e, negb (e_ht e)) es.
Proof.
  induction L as [|a L IH]; intros es fuel o oh Hn Hh Hf; unfold holds in Hh.
  - apply Forall2_nil_inv_l in Hh as ->. exists o, oh. cbn. rewrite !orb_false_r. by destruct fuel.
  - inversion Hh as [|? e ? es' He Hh']; subst. destruct fuel as [|fuel]; [cbn in Hf; lia|]. cbn [head olbc_loop].
    destruct (o && oh) eqn:Eb; [apply andb_prop in Eb as [-> ->]; by exists true, true|].
    destruct Hn as [Hna Hn]. destruct (fld_lookup _ _ _ _ He) as (n & Ha & <-). run (node_Ok _ _ _ Ha).
    unfold fld in Hna. rewrite Ha in Hna. injection Hna as ->. assert (head_or L None = head L) as -> by by destruct L.
    edestruct (IH es' fuel) as (o' & oh' & -> & Eo & Eoh); [done|done|cbn in Hf; lia|].
    eexists _, _. split; [reflexivity|]. cbn. rewrite Eo, Eoh.
    destruct (ap_list_beacon_olbc c (entry_of n)), (ht_support n), o, oh; done.
Qed.

(** *** One event *)

Lemma filter_keeps {A} (P Q : A → Prop) `{∀ x, Decision (P x)} (l : list A) : Forall Q l → Forall Q (filter P l).
Proof. rewrite !Forall_forall. intros Hl x [_ Hx]%list_elem_of_filter. by apply Hl. Qed.

Lemma filter_sorted (P : entry → Prop) `{∀ x, Decision (P x)} es :
  StronglySorted in_order es → StronglySorted in_order (filter P es).
Proof.
  intros Hs. induction Hs as [|e es Hs IH He]; [constructor|]. rewrite filter_cons. case_decide; [|done].
  constructor; [done|]. by apply filter_keeps.
Qed.

Lemma refines_later c now now' s t : micros now ≤ micros now' → refines c now s t → refines c now' s t.
Proof.
  intros Hle []. split; try done. eapply Forall_impl; [done|]. intros e [? ?]. split; [done|lia].
Qed.

(** A beacon puts its sender in front of what stays of the others. *)
Lemma refines_beacon c h now now' s t L C : 1 ≤ ap_table_max_size c → refines c now s t →
  time_ok now' → micros now ≤ micros now' → ∀ s', shape s' L C →
  holds s' L (entry_heard h now' (old_channel (h_addr h) (entries t)) ::
    take (Z.to_nat (ap_table_max_size c) - 1) (others (h_addr h) (entries t))) →
  olbc s' = l_olbc (lru_beacon c h now' t) → olbc_ht s' = l_olbc_ht (lru_beacon c h now' t) →
  refines c now' s' (lru_beacon c h now' t).
Proof.
  intros Hmax [] Ht Hle s' Hs Hh Eo Eh. unfold lru_beacon in *. cbn zeta in *.
  destruct (Z.to_nat (ap_table_max_size c)) as [|k] eqn:Ek; [lia|]. cbn [take entries l_olbc l_olbc_ht] in *.
  replace (S k - 1)%nat with k in Hh by lia.
  assert (Forall (λ e, time_ok (e_last e) ∧ micros (e_last e) ≤ micros now) (take k (others (h_addr h) (entries t)))) as Hf
    by (by apply Forall_take, filter_keeps).
  split; [by exists L, C|done|done| | | |done]; cbn [entries].
  - cbn. rewrite length_take. lia.
  - constructor.
    + pose proof (filter_sorted (λ e, e_addr e ≠ h_addr h) (entries t) rf_order0) as Hso. unfold others. rewrite <- (take_drop k) in Hso. by eapply StronglySorted_app_1_l.
    + eapply Forall_impl; [exact Hf|]. intros e [_ ?]. unfold in_order, entry_heard. cbn. lia.
  - constructor; [cbn; split; [done|lia]|]. eapply Forall_impl; [exact Hf|]. intros e [? ?]. split; [done|lia].
Qed.

Context `{Net W, Device W, Build, Allocator}.

(** The end of [ap_list_process_beacon], for the entry of the sender. *)
Definition after_beacon (zeroed : bool) (config : ethanol_configuration) (frame : list Z) (elems : ieee802_11_elems)
    (r : option loc) : ST W unit :=
  match r with
  | None => mret tt
  | Some ap => if forward_beacon config =? 1 then mret tt else forward_to_controller zeroed config frame elems ap
  end.

(** What a beacon does to the table, whatever happens to it afterwards; it is
    refused only when its sender is new and there is no memory. *)
Lemma process_beacon_ok zeroed config c x frame elems fi t w :
  1 ≤ ap_table_max_size c < 2 ^ 31 - 1 → elems_ok (length frame) elems →
  refines c (now_of w) (aps_of w) t →
  ∃ w' r, ap_list_process_beacon zeroed config c x frame elems fi w = after_beacon zeroed config frame elems r w' ∧
    micros (now_of w) ≤ micros (now_of w') ∧
    (memory_of w = true ∨ x ∈ e_addr <$> entries t →
       refines c (now_of w') (aps_of w') (lru_beacon c (heard_of x frame elems fi) (now_of w') t)) ∧
    (memory_of w = false → x ∉ e_addr <$> entries t → refines c (now_of w') (aps_of w') t).
Proof.
  intros Hmax Hok Hr. unfold ap_list_process_beacon. rewrite (proj2 (Z.ltb_ge _ _)) by lia.
  destruct (find_or_add_ok c x (now_of w) t w Hmax Hr) as (r & w1 & E1 & En1 & Eo1 & Eh1 & Hp). run E1.
  destruct r as [[ap new_ap]|].
  2:{ destruct Hp as (Ea & Em & Hx). exists w1, None. rewrite Ea, En1. split; [done|]. split; [lia|]. split; [|done].
      intros [E|?]; [by rewrite E in Em|done]. }
  destruct Hp as (Hm & L1 & L2 & (C & Hs) & Hnew & (e & He & Ex & Ech) & Hh).
  destruct (fld_lookup _ _ _ _ He) as (n & Hn & En).
  destruct (note_beacon_ok ap n _ C frame elems fi w1 Hs Hn Hok) as (w2 & E2 & Ht2 & Hle2 & Hs2 & He2 & Hag2 & Eo2 & Eh2). run E2.
  destruct (to_front_ok ap new_ap L1 L2 C w2 Hs2 Hnew) as (w3 & E3 & En3 & Hs3 & He3 & Eo3 & Eh3). run E3.
  assert (addr n = x) as Ean by (rewrite <- Ex, <- En; done).
  assert (channel n = old_channel x (entries t)) as Ecn by (rewrite <- Ech, <- En; done).
  rewrite Ean, Ecn, <- He3 in He2.
  destruct (update_olbc_ok c ap _ w3 He2) as (w4 & E4 & En4 & Ea4). run E4.
  exists w4, (Some ap). split; [done|]. rewrite En4, En3. rewrite En1 in Hle2.
  split; [done|]. split; [intros _|intros Ef Hx; destruct Hm as [Et|?]; [by rewrite Et in Ef|done]].
  destruct (nodup_without _ _ _ (sh_nodup _ _ _ Hs)) as [_ Hap].
  eapply (refines_beacon c _ (now_of w) _ (aps_of w) t (ap :: L1 ++ L2) C); [lia|done|done|done|..]; rewrite Ea4.
  - destruct Hs3. split; done.
  - constructor; [done|]. eapply holds_agree; [exact Hh|]. intros l Hl. cbn. rewrite He3. apply Hag2.
    intros ->. done.
  - cbn. by rewrite Eo3, Eo2, Eo1.
  - cbn. by rewrite Eh3, Eh2, Eh1.
Qed.

Lemma renew_olbc_ok c s L C es w : aps_of w = s → shape s L C → holds s L es →
  ∃ w', renew_olbc c w = Ok (tt, w') ∧ now_of w' = now_of w ∧
    aps_of w' = put_olbc_ht (olbc_ht s && existsb (λ e, negb (e_ht e)) es)
      (put_olbc (olbc s && existsb (ap_list_beacon_olbc c) es) s).
Proof.
  intros Ea Hs Hh. unfold renew_olbc. destruct (get_ok w) as (w1 & E1 & Ea1 & En1). run E1. rewrite Ea in *.
  destruct (olbc s || olbc_ht s) eqn:Eb.
  2:{ exists w1. split; [done|]. split; [done|]. rewrite Ea1. apply orb_false_iff in Eb as [Eo Eh].
      destruct s. cbn in *. by subst. }
  destruct (sh_linked _ _ _ Hs) as (Hn & _ & Ehd).
  destruct (olbc_loop_ok c s L es (size (ap_nodes s)) false false Hn Hh (shape_length _ _ _ Hs)) as (o & oh & El & Eo & Eoh).
  rewrite <- Ehd in El. rewrite <- Ea1 in El at 3. run (on_aps_Ok _ _ _ _ El). clear El.
  edestruct (flag_ok (negb o && olbc s) (put_olbc false)) as (w2 & E2 & Ea2 & En2). run E2.
  edestruct (flag_ht_ok (negb oh && olbc_ht s) (put_olbc_ht false)) as (w3 & E3 & Ea3 & En3). run E3.
  edestruct renew_ok as (w4 & E4 & Ea4 & En4). rewrite E4. exists w4. split; [done|].
  split; [rewrite En4, En3, En2, now_put; done|]. rewrite Ea4, Ea3, Ea2, aps_put. cbn in Eo, Eoh. subst o oh.
  clear. destruct s as [h p hh k o oh]. cbn. by destruct o, oh, (existsb (ap_list_beacon_olbc c) es), (existsb _ es).
Qed.

Lemma timer_ok c t w : 1 ≤ ap_table_max_size c → refines c (now_of w) (aps_of w) t →
  ∃ w', ap_list_timer c w = Ok (tt, w') ∧ micros (now_of w) ≤ micros (now_of w') ∧
    refines c (now_of w') (aps_of w') (lru_timer c (now_of w') t).
Proof.
  intros Hmax Hr. pose proof Hr as [(L & C & Hs & Hh) Ho Hoh Hsz Hso Ht Hq]. unfold ap_list_timer.
  destruct (get_ok w) as (w1 & E1 & Ea1 & En1). run E1. destruct (sh_linked _ _ _ Hs) as (_ & _ & Ehd).
  destruct L as [|a L]; cbn [head] in Ehd; rewrite Ehd.
  - exists w1. rewrite Ea1, En1. split; [done|]. split; [lia|]. unfold holds in Hh. apply Forall2_nil_inv_l in Hh as Ee.
    destruct (Hq Ee) as [Eo Eh]. assert (lru_timer c (now_of w) t = t) as ->; [|done].
    unfold lru_timer. clear -Ee Eo Eh. destruct t as [es o oh]. cbn in Ee, Eo, Eh. by subst.
  - destruct (reltime_ok w1) as (w2 & E2 & Ea2 & Htn & Hle). run E2. rewrite En1 in Hle. rewrite Ea1 in Ea2.
    destruct (expire_loop_ok c (now_of w2) Htn (a :: L) (entries t) (S (size (ap_nodes (aps_of w)))) (aps_of w) C Hs Hh)
      as (s3 & L3 & C3 & E3 & Hs3 & Hh3 & Eo3 & Eh3).
    { pose proof (shape_length _ _ _ Hs). lia. } { done. } { eapply Forall_impl; [exact Ht|]. by intros e []. }
    rewrite <- Ea2 in E3 at 2. run (on_aps_Ok _ _ _ _ E3).
    edestruct (renew_olbc_ok c s3 L3 C3) as (w4 & E4 & En4 & Ea4); [|exact Hs3|exact Hh3|]; [apply aps_put|].
    rewrite E4. exists w4. rewrite En4, now_put. split; [done|]. split; [done|]. rewrite Ea4.
    split; cbn [lru_timer entries l_olbc l_olbc_ht].
    + exists L3, C3. split; [|done]. destruct Hs3. by split.
    + cbn. by rewrite Eo3, Ho.
    + cbn. by rewrite Eh3, Hoh.
    + etransitivity; [|exact Hsz]. apply inj_le. apply length_filter.
    + by apply filter_sorted.
    + apply filter_keeps. eapply Forall_impl; [exact Ht|]. intros e [? ?]. split; [done|lia].
    + intros ->. cbn. by rewrite !andb_false_r.
Qed.
End operations.

(** ** Histories *)

Inductive ap_event := EvBeacon (mgmt : list Z) (fi : option Z) | EvTimer.

Definition beacon_heard (mgmt : list Z) (fi : option Z) : heard :=
  heard_of (take 6 (drop 16 mgmt)) (drop 36 mgmt) (ieee802_11_parse_elems (drop 36 mgmt)).2 fi.

(** What an event does to the list, when [os_zalloc] would answer [memory]: a
    short frame changes nothing, and neither does a beacon of a new sender
    without memory for it; the clock goes on. *)
Inductive lru_step (c : ap_conf) : (Z * Z) * lru → ap_event → bool → (Z * Z) * lru → Prop :=
| lru_short now t mgmt fi memory : (length mgmt < 36)%nat → lru_step c (now, t) (EvBeacon mgmt fi) memory (now, t)
| lru_heard now now' t mgmt fi memory : (36 ≤ length mgmt)%nat → micros now ≤ micros now' →
    memory = true ∨ h_addr (beacon_heard mgmt fi) ∈ e_addr <$> entries t →
    lru_step c (now, t) (EvBeacon mgmt fi) memory (now', lru_beacon c (beacon_heard mgmt fi) now' t)
| lru_no_memory now now' t mgmt fi : (36 ≤ length mgmt)%nat → micros now ≤ micros now' →
    h_addr (beacon_heard mgmt fi) ∉ e_addr <$> entries t → lru_step c (now, t) (EvBeacon mgmt fi) false (now', t)
| lru_tick now now' t memory : micros now ≤ micros now' → lru_step c (now, t) EvTimer memory (now', lru_timer c now' t).

Inductive lru_run (c : ap_conf) : (Z * Z) * lru → list ap_event → list bool → (Z * Z) * lru → Prop :=
| lru_done st : lru_run c st [] [] st
| lru_more st st' st'' ev evs memory ms : lru_step c st ev memory st' → lru_run c st' evs ms st'' →
    lru_run c st (ev :: evs) (memory :: ms) st''.

(** The connections to the controller are apart from the table and its clock. *)
Definition apart {W A} `{ApWorldOk W} (m : ST W A) : Prop :=
  ∀ w a w', m w = Ok (a, w') → aps_of w' = aps_of w ∧ now_of w' = now_of w.

Class NetApart (W : Type) `{ApWorldOk W, Net W} := {
  apart_ctx_new : apart net_ctx_new;
  apart_gethostbyname h : apart (net_gethostbyname h);
  apart_socket : apart net_socket;
  apart_connect fd a p : apart (net_connect fd a p);
  apart_ssl_new : apart net_ssl_new;
  apart_ssl_connect : apart net_ssl_connect;
  apart_ssl_write buf : apart (net_ssl_write buf);
  apart_ssl_free : apart net_ssl_free;
  apart_close fd : apart (net_close fd);
  apart_ctx_free : apart net_ctx_free
}.

Section forwarding.
Context {W : Type} `{NetApart W, Device W, Build, Allocator}.

Lemma apart_ret {A} (a : A) : apart (mret a).
Proof. intros w b w' E. by injection E as <- <-. Qed.
Lemma apart_lift {A} (r : res A) : apart (lift r).
Proof. intros w b w' E. unfold lift in E. destruct r; [|done]. by injection E as <- <-. Qed.
Lemma apart_bind {A B} (m : ST W A) (k : A → ST W B) : apart m → (∀ a, apart (k a)) → apart (m ≫= k).
Proof.
  intros Hm Hk w b w' E. unfold mbind, ST_bind in E. destruct (m w) as [[a w1]|] eqn:E1; [|done].
  destruct (Hm _ _ _ E1) as [Ea En], (Hk _ _ _ _ E) as [Ea' En']. split; congruence.
Qed.
Lemma apart_node ap : apart (on_aps (node ap)).
Proof.
  intros w n w' E. unfold on_aps in E. destruct (node ap (aps_of w)) as [[n' s]|] eqn:En; [|done]. injection E as <- <-.
  rewrite aps_put, now_put. split; [|done]. unfold node in En. destruct (ap_nodes (aps_of w) !! ap); [by injection En as _ <-|done].
Qed.
Lemma apart_get_m_id : apart get_m_id.
Proof. intros w b w' E. by injection E as <- <-. Qed.
Lemma apart_set_m_id i : apart (set_m_id i).
Proof. intros w b w' E. injection E as <- <-. apply m_id_put. Qed.

Ltac apart_step := first
  [ apply apart_ret | apply apart_lift | apply apart_node | apply apart_get_m_id | apply apart_set_m_id
  | apply apart_ctx_new | apply apart_gethostbyname | apply apart_socket | apply apart_connect | apply apart_ssl_new
  | apply apart_ssl_connect | apply apart_ssl_write | apply apart_ssl_free | apply apart_close | apply apart_ctx_free
  | apply apart_bind; [|intros ?] | case_match ].

(** Forwarding a beacon, when it returns, leaves the table as it is. *)
Lemma apart_forward zeroed config frame elems ap : apart (forward_to_controller zeroed config frame elems ap).
Proof.
  unfold forward_to_controller, BeaconInfo.send_msg_beaconinfo, with_ssl, get_ssl_connection, InitCTX, OpenConnection,
    close_ssl_connection, notify. repeat apart_step.
Qed.
End forwarding.

Section histories.
Context {W : Type} `{NetApart W, Allocator} (zeroed : bool) (config : ethanol_configuration) (c : ap_conf).

Definition ap_event_step (ev : ap_event) : ST W unit :=
  match ev with
  | EvBeacon mgmt fi => handle_beacon zeroed config c mgmt fi
  | EvTimer => ap_list_timer c
  end.
Fixpoint ap_events (evs : list ap_event) : ST W unit :=
  match evs with [] => mret tt | ev :: evs => ap_event_step ev;; ap_events evs end.

(** What [os_zalloc] answers when each of the events arrives. *)
Fixpoint memories (evs : list ap_event) (w : W) : list bool :=
  match evs with
  | [] => []
  | ev :: evs => memory_of w :: match ap_event_step ev w with Ok (_, w') => memories evs w' | Err _ => [] end
  end.

Context (Hmax : 1 ≤ ap_table_max_size c < 2 ^ 31 - 1).

(** An event is a step of the list, when it returns, and it returns when
    nothing is forwarded. *)
Lemma event_ok ev t w : refines c (now_of w) (aps_of w) t →
  (forward_beacon config = 1 → ∃ w', ap_event_step ev w = Ok (tt, w')) ∧
  ∀ w', ap_event_step ev w = Ok (tt, w') → ∃ t',
    lru_step c (now_of w, t) ev (memory_of w) (now_of w', t') ∧ refines c (now_of w') (aps_of w') t'.
Proof.
  intros Hr. destruct ev as [mgmt fi|]; cbn [ap_event_step].
  - unfold handle_beacon. case_bool_decide as Hlen.
    { split; [intros _; by exists w|]. intros w' [= <-]. exists t. split; [by constructor|done]. }
    destruct (process_beacon_ok zeroed config c (take 6 (drop 16 mgmt)) (drop 36 mgmt)
      (ieee802_11_parse_elems (drop 36 mgmt)).2 fi t w Hmax) as (w1 & r & -> & Hle & Hheard & Hno);
      [apply parse_elems_ok|done|].
    split; [intros Ef; exists w1; unfold after_beacon; rewrite (proj2 (Z.eqb_eq _ _) Ef); by destruct r|].
    intros w' E. assert (aps_of w' = aps_of w1 ∧ now_of w' = now_of w1) as [-> ->].
    { revert E. unfold after_beacon. destruct r as [ap|]; [|by intros [= <-]].
      destruct (forward_beacon config =? 1); [by intros [= <-]|]. apply apart_forward. }
    destruct (decide (take 6 (drop 16 mgmt) ∈ e_addr <$> entries t)) as [Hx|Hx], (memory_of w) eqn:Em;
      try (eexists; split; [apply lru_heard; [lia|done|by auto]|by apply Hheard; auto]).
    exists t. split; [by apply lru_no_memory; [lia|..]|by apply Hno].
  - destruct (timer_ok c t w ltac:(lia) Hr) as (w1 & E & Hle & Hr'). split; [by exists w1|].
    intros w' E'. rewrite E in E'. injection E' as <-. exists (lru_timer c (now_of w1) t). split; [by constructor|done].
Qed.

Lemma events_ok evs : ∀ t w, refines c (now_of w) (aps_of w) t →
  (forward_beacon config = 1 → ∃ w', ap_events evs w = Ok (tt, w')) ∧
  ∀ w', ap_events evs w = Ok (tt, w') → ∃ t',
    lru_run c (now_of w, t) evs (memories evs w) (now_of w', t') ∧ refines c (now_of w') (aps_of w') t'.
Proof.
  induction evs as [|ev evs IH]; intros t w Hr.
  { split; [intros _; by exists w|]. intros w' [= <-]. exists t. split; [constructor|done]. }
  destruct (event_ok ev t w Hr) as [Hrun Hstep]. cbn [ap_events memories]. split.
  - intros Ef. destruct (Hrun Ef) as (w1 & E1). run E1. destruct (Hstep w1 E1) as (t1 & _ & Hr1). by apply (IH t1 w1).
  - intros w' E. unfold mbind, ST_bind in E. destruct (ap_event_step ev w) as [[[] w1]|] eqn:E1; [|done].
    destruct (Hstep w1 eq_refl) as (t1 & Hs1 & Hr1). destruct (IH t1 w1 Hr1) as [_ IH'].
    destruct (IH' w' E) as (t2 & Hs2 & Hr2). exists t2. split; [by econstructor|done].
Qed.
End histories.

Lemma refines_empty c now : 0 ≤ ap_table_max_size c → refines c now no_aps (Lru [] false false).
Proof.
  intros. split; try done; cbn; try lia.
  - exists [], (λ _, []). split; [apply shape_empty|constructor].
  - constructor.
Qed.

(** C13: the table of access points refines a list in the order of the last
    beacon: after any beacons -- any bytes -- and timers, its doubly linked list
    and its hash chains hold exactly the entries of that list, with the sender
    of a beacon in front, at most [ap_table_max_size] of them, and after a timer
    only those that are not too old; the two flags for overlapping networks
    follow.  A sender is left out only when it is new and [os_zalloc] has no
    memory at that beacon, and [ap_list_deinit] releases every entry.  When
    beacons are not forwarded ([forward_beacon] is 1) no pointer goes wrong and
    every loop ends; with any other value, the default -1 among them, this
    holds of every history that returns, since the code that forwards a beacon
    ([ap_list.c], line 259) leaves the table alone but reads bytes behind an
    element and a member that was never assigned. *)
Theorem ap_table_refines_lru {W} `{NetApart W, Allocator} zeroed config c evs w :
  1 ≤ ap_table_max_size c < 2 ^ 31 - 1 → aps_of w = no_aps →
  (forward_beacon config = 1 → ∃ w', ap_events zeroed config c evs w = Ok (tt, w')) ∧
  ∀ w', ap_events zeroed config c evs w = Ok (tt, w') →
  ∃ t, lru_run c (now_of w, Lru [] false false) evs (memories zeroed config c evs w) (now_of w', t) ∧
    refines c (now_of w') (aps_of w') t ∧
    ∃ s, ap_list_deinit (aps_of w') = Ok (tt, s) ∧ ap_nodes s = ∅ ∧ ap_list s = None ∧ num_ap s = 0.
Proof.
  intros Hmax Ew. destruct (events_ok zeroed config c Hmax evs (Lru [] false false) w) as [Hrun Hres].
  { rewrite Ew. apply refines_empty. lia. }
  split; [done|]. intros w' E. destruct (Hres w' E) as (t & Hs & Hr).
  exists t. split; [done|]. split; [done|]. destruct (rf_shape _ _ _ _ Hr) as (L & C & Hsh & _).
  destruct (deinit_ok _ _ _ Hsh) as (s & Ed & ? & ? & ? & _). by exists s.
Qed.

(** A clock that goes on by forty seconds with each reading. *)
Record demo_world := DemoWorld { dw_aps : aps; dw_now : Z }.

#[local] Instance demo_ap_world : ApWorld demo_world := {|
  aps_of := dw_aps; put_aps s w := DemoWorld s (dw_now w);
  os_zalloc w := Ok (true, w);
  os_get_reltime w := let n := dw_now w + 40 in Ok ((Z.max 0 (Z.min n (2 ^ 61)), 0), DemoWorld (dw_aps w) n);
  hostapd_ht_operation_update w := Ok (tt, w); ieee802_11_update_beacons w := Ok (tt, w);
  beacon_m_id _ := 0; put_beacon_m_id _ w := w
|}.

#[local] Instance demo_ap_world_ok : ApWorldOk demo_world.
Proof.
  refine {| now_of := λ w, (Z.max 0 (Z.min (dw_now w) (2 ^ 61)), 0); memory_of _ := true |}; try done; intros w.
  - by exists w.
  - eexists (DemoWorld (dw_aps w) (dw_now w + 40)). unfold time_ok, micros. cbn. split; [done|]. split; [done|]. lia.
  - by exists w.
  - by exists w.
Defined.

(** No controller can be reached. *)
#[local] Instance demo_no_net : Net demo_world := {|
  net_ctx_new w := Ok (false, w); net_gethostbyname _ w := Ok (None, w); net_socket w := Ok (FAIL, w); net_connect _ _ _ w := Ok (false, w);
  net_ssl_new w := Ok (false, w); net_ssl_connect w := Ok (false, w); net_ssl_write _ w := Ok (tt, w);
  net_ssl_read w := Ok ([], w); net_ssl_free w := Ok (tt, w); net_close _ w := Ok (tt, w); net_ctx_free w := Ok (tt, w)
|}.

#[local] Instance demo_net_apart : NetApart demo_world.
Proof. split; unfold apart; intros; cbn in *; by simplify_eq. Defined.

Definition demo_ap_conf : ap_conf := ApConf 6 0 2 60 (Some HOSTAPD_MODE_IEEE80211G).
Definition demo_config (forward : Z) : ethanol_configuration := Config 1 None 0 0 None forward 0 false false false false false false.

(** A beacon of an access point with a name and a channel. *)
Definition demo_beacon (last ch : Z) : list Z :=
  replicate 21 0 ++ [last] ++ replicate 14 0 ++ [3; 1; ch; 0; 1; 97].

Definition seen (r : res (unit * demo_world)) : option (list (list Z * Z) * bool) :=
  match r with
  | Ok (_, w) => Some ((λ n, (addr n, channel n)) <$> (map_to_list (ap_nodes (dw_aps w))).*2, olbc (dw_aps w))
  | Err _ => None
  end.

(** Three access points come, the first makes room for the third; then the
    second is heard again, and forty seconds later the timer finds it alone;
    the same when beacons are forwarded, from a block that holds zeros. *)
Lemma ap_table_refines_lru_witness :
  let evs := [EvBeacon (demo_beacon 1 6) None; EvBeacon (demo_beacon 2 6) None; EvBeacon (demo_beacon 3 11) None;
              EvBeacon (demo_beacon 2 6) None; EvTimer] in
  let w := DemoWorld no_aps 0 in
  let run forward zeroed := @ap_events _ _ _ glibc_alloc zeroed (demo_config forward) demo_ap_conf evs w in
  seen (run 1 false) = Some ([([0; 0; 0; 0; 0; 2], 6)], true) ∧ seen (run (-1) true) = seen (run 1 false) ∧
  (∃ w', run 1 false = Ok (tt, w')) ∧
  ∀ w', run (-1) true = Ok (tt, w') → ∃ t, lru_run demo_ap_conf ((0, 0), Lru [] false false) evs (replicate 5 true) (now_of w', t) ∧
    refines demo_ap_conf (now_of w') (aps_of w') t.
Proof.
  intros evs w run. split; [vm_compute; reflexivity|]. split; [vm_compute; reflexivity|]. split.
  - apply (ap_table_refines_lru (H3 := glibc_alloc) false (demo_config 1) demo_ap_conf evs w); [cbn; lia|done|done].
  - intros w' E. destruct (ap_table_refines_lru (H3 := glibc_alloc) true (demo_config (-1)) demo_ap_conf evs w) as [_ Hres]; [cbn; lia|done|].
    destruct (Hres w' E) as (t & Hs & Hr & _). exists t. split; [exact Hs|exact Hr].
Defined.
