(* ===== verification/Admission.v ===== *)
(** Admission of stations: [ieee802_11_mgmt] of [ap/ieee802_11.c], with the
    parts of [handle_auth] and [handle_assoc] up to the refusal by the
    controller, and [send_auth_reply] and [send_deauth].

    When a station authenticates or associates, the controller is asked, and
    its answer decides whether hostapd goes on with the station or refuses it.
    What hostapd does on its own behind that decision is the class [Mlme]. *)
From stdpp Require Import prelude list strings.
From S2P Require Import Prelude CMem MsgCommon BufferHandler World Rpc Linked ConfigFile MsgAssoc Utils.
From S2P Require Import Servlet Agent ApTable Beacons.

(** ** Frames *)

(** [struct ieee80211_mgmt]: the addresses and the 16-bit fields of the header. *)
Definition mgmt_da (m : list Z) : list Z := take 6 (drop 4 m).
Definition mgmt_sa (m : list Z) : list Z := take 6 (drop 10 m).
Definition mgmt_bssid (m : list Z) : list Z := take 6 (drop 16 m).
Definition le16_at (i : nat) (m : list Z) : Z := nth i m 0 + 256 * nth (S i) m 0.
Definition frame_control (m : list Z) : Z := le16_at 0 m.
Definition seq_ctrl (m : list Z) : Z := le16_at 22 m.

Definition WLAN_FC_GET_STYPE (fc : Z) : Z := Z.shiftr (Z.land fc 240) 4.
Definition WLAN_FC_RETRY (fc : Z) : bool := Z.testbit fc 11.

Definition le16 (z : Z) : list Z := [z `mod` 256; (z / 256) `mod` 256].

(** The header of a frame of this access point; [IEEE80211_FC(WLAN_FC_TYPE_MGMT, stype)]. *)
Definition mgmt_header (stype : Z) (da sa bssid : list Z) : list Z :=
  le16 (Z.shiftl stype 4) ++ [0; 0] ++ da ++ sa ++ bssid ++ [0; 0].

Definition WLAN_REASON_UNSPECIFIED : Z := 1.
Definition WLAN_REASON_CLASS2_FRAME_FROM_NONAUTH_STA : Z := 6.
Definition WLAN_STATUS_SUCCESS : Z := 0.
Definition WLAN_STATUS_UNSPECIFIED_FAILURE : Z := 1.
Definition WLAN_INVALID_MGMT_SEQ : Z := 65535.
Definition WLAN_AUTH_FT : Z := 2.

(** ** The rest of hostapd *)

(** What is used of [struct sta_info]. *)
Record sta_info := Sta {
  auth_alg : Z;
  sta_auth : bool;             (* flags & WLAN_STA_AUTH *)
  last_seq_ctrl : Z;
  last_subtype : Z;
  added_unassoc : bool
}.

Class Mlme (W : Type) := {
  mgmt_m_id : W → Z;                              (* static m_id *)
  put_mgmt_m_id : Z → W → W;
  track_sta_max_num : W → Z;                      (* hapd->iconf->track_sta_max_num *)
  sta_track_add : list Z → ST W unit;
  ap_get_sta : list Z → ST W (option sta_info);
  put_sta : list Z → sta_info → ST W unit;
  mlme_zalloc : ST W bool;
  hostapd_drv_send_mlme : list Z → ST W bool;     (* the result is not negative *)
  hostapd_drv_sta_remove : list Z → ST W unit;
  send_assoc_resp : list Z → Z → bool → ST W Z;   (* station, status, reassoc *)
  authenticate : list Z → ST W unit;              (* handle_auth from its line 1052 *)
  associate : list Z → bool → ST W unit;          (* handle_assoc from its line 2192 *)
  handle_probe_req : list Z → Z → ST W unit;
  handle_disassoc : list Z → ST W unit;
  handle_deauth : list Z → ST W unit;
  handle_action : list Z → ST W Z
}.

Section code.
Context {W : Type} `{Mlme W, ApWorld W, Net W, Allocator} (config : ethanol_configuration) (own_addr : list Z).

(** The two-byte fields take the arguments modulo 2^16. *)
Definition auth_frame (dst bssid : list Z) (alg trans resp : Z) (ies : list Z) : list Z :=
  mgmt_header 11 dst own_addr bssid ++ le16 alg ++ le16 trans ++ le16 resp ++ ies.

Definition send_auth_reply (dst bssid : list Z) (alg trans resp : Z) (ies : list Z) : ST W Z :=
  b ← mlme_zalloc;
  if (b : bool) then
    ok ← hostapd_drv_send_mlme (auth_frame dst bssid alg trans resp ies);
    mret (if (ok : bool) then WLAN_STATUS_SUCCESS else WLAN_STATUS_UNSPECIFIED_FAILURE)
  else mret (-1).

Definition send_deauth (addr : list Z) (reason_code : Z) : ST W unit :=
  hostapd_drv_send_mlme (mgmt_header 12 addr own_addr own_addr ++ le16 reason_code);; mret tt.

(** [sizeof(mgmt->u.auth)] is 6.  A refused station gets the reply with the
    next transaction number and no elements; [sta] is NULL there. *)
Definition handle_auth (mgmt : list Z) (dont_auth : bool) : ST W unit :=
  if bool_decide (length mgmt < 24 + 6)%nat then mret tt
  else if dont_auth then
    send_auth_reply (mgmt_sa mgmt) (mgmt_bssid mgmt) (le16_at 24 mgmt) (le16_at 26 mgmt + 1)
      WLAN_REASON_UNSPECIFIED [];;
    mret tt
  else authenticate mgmt.

(** The condition under which a repeated request is dropped: [a && b && c &&
    sta->last_subtype == reassoc ? 2 : 0]. *)
Definition repeated (fc seq : Z) (reassoc : bool) (s : sta_info) : bool :=
  WLAN_FC_RETRY fc && negb (last_seq_ctrl s =? WLAN_INVALID_MGMT_SEQ) && (last_seq_ctrl s =? seq) &&
  (last_subtype s =? (if reassoc then 1 else 0)).
Definition drop_repeated (fc seq : Z) (reassoc : bool) (s : sta_info) : bool :=
  negb ((if repeated fc seq reassoc s then 2 else 0) =? 0).

(** [sizeof(mgmt->u.reassoc_req)] is 10, of [assoc_req] 4. *)
Definition handle_assoc (mgmt : list Z) (reassoc dont_auth : bool) : ST W unit :=
  if bool_decide (length mgmt < 24 + (if reassoc then 10 else 4))%nat then mret tt
  else
    let sa := mgmt_sa mgmt in
    let fc := frame_control mgmt in
    let seq := seq_ctrl mgmt in
    r ← ap_get_sta sa;
    match r with
    | None => send_deauth sa WLAN_REASON_CLASS2_FRAME_FROM_NONAUTH_STA
    | Some s =>
        let ft := (auth_alg s =? WLAN_AUTH_FT) && negb (sta_auth s) in
        if negb ft && negb (sta_auth s) then send_deauth sa WLAN_REASON_CLASS2_FRAME_FROM_NONAUTH_STA
        else
          let s := if ft then Sta (auth_alg s) true (last_seq_ctrl s) (last_subtype s) (added_unassoc s) else s in
          if drop_repeated fc seq reassoc s then (if ft then put_sta sa s else mret tt)
          else
            let s := Sta (auth_alg s) (sta_auth s) seq (if reassoc then 2 else 0) (added_unassoc s) in
            put_sta sa s;;
            if dont_auth then
              send_assoc_resp sa WLAN_REASON_UNSPECIFIED reassoc;;
              if added_unassoc s then
                hostapd_drv_sta_remove sa;;
                put_sta sa (Sta (auth_alg s) (sta_auth s) (last_seq_ctrl s) (last_subtype s) false)
              else mret tt
            else associate mgmt reassoc
    end.

(** ** Asking the controller *)

(** [MACSTR] and [MAC2STR]: at most 18 of the 20 bytes are used. *)
Definition mac_text (a : list Z) : charp := mk_str (colon_hex a).

Definition get_mgmt_m_id : ST W Z := λ w, Ok (mgmt_m_id w, w).
Definition set_mgmt_m_id (id : Z) : ST W unit := λ w, Ok (tt, put_mgmt_m_id id w).

(** [denied_by_controller] after the request, when the message is enabled. *)
Definition ask_controller (junk_response : Z) (enabled : bool) (mgmt : list Z) (state : type_association) :
    ST W bool :=
  if enabled then
    id ← get_mgmt_m_id;
    '(m, id) ← Association.send_msg_association_process junk_response (server_addr config)
      (remote_server_port config) id (mac_text own_addr) (mac_text (mgmt_sa mgmt)) state;
    set_mgmt_m_id id;;
    mret (match m with Some m => negb (Association.allowed m) | None => false end)
  else mret false.

Definition broadcast : list Z := replicate 6 255.

Definition ieee802_11_mgmt (zeroed : bool) (junk_response : Z) (c : ap_conf) (buf : list Z) (fi : option (Z * Z)) :
    ST W Z :=
  if bool_decide (length buf < 24)%nat then mret 0
  else
    let stype := WLAN_FC_GET_STYPE (frame_control buf) in
    if stype =? 8 then handle_beacon zeroed config c buf (fst <$> fi);; mret 1
    else if negb (bool_decide (mgmt_bssid buf = broadcast)) && negb (bool_decide (mgmt_bssid buf = own_addr)) then mret 0
    else if stype =? 4 then f ← lift (deref fi); handle_probe_req buf f.2;; mret 1
    else if negb (bool_decide (mgmt_da buf = own_addr)) then mret 0
    else
      n ← (λ w, Ok (track_sta_max_num w, w)) : ST W Z;
      (if n =? 0 then mret tt else sta_track_add (mgmt_sa buf));;
      match stype with
      | 11 =>
          denied ← ask_controller junk_response (enabled_msg_authorization config) buf AUTHORIZATION;
          handle_auth buf denied;; mret 1
      | 0 =>
          denied ← ask_controller junk_response (enabled_msg_association config) buf ASSOCIATION;
          handle_assoc buf false denied;; mret 1
      | 2 =>
          denied ← ask_controller junk_response (enabled_msg_reassociation config) buf REASSOCIATION;
          handle_assoc buf true denied;; mret 1
      | 10 =>
          ask_controller junk_response (enabled_msg_reassociation config) buf DISASSOCIATION;;
          handle_disassoc buf;; mret 1
      | 12 => handle_deauth buf;; mret 1
      | 13 => handle_action buf
      | _ => mret 0
      end.
End code.

(** ** What the controller decides *)

(** The requests that can be refused, the subtypes of their frames, and whether
    they are enabled. *)
Definition subtype_of (state : type_association) : option Z :=
  match state with AUTHORIZATION => Some 11 | ASSOCIATION => Some 0 | REASSOCIATION => Some 2 | _ => None end.
Definition enabled (config : ethanol_configuration) (state : type_association) : bool :=
  match state with
  | AUTHORIZATION => enabled_msg_authorization config
  | ASSOCIATION => enabled_msg_association config
  | REASSOCIATION => enabled_msg_reassociation config
  | _ => false
  end.

(** hostapd goes on with the station, or refuses it. *)
Definition treat {W} `{Mlme W} (own_addr : list Z) (state : type_association) (mgmt : list Z) (denied : bool) : ST W Z :=
  match state with
  | AUTHORIZATION => handle_auth own_addr mgmt denied;; mret 1
  | ASSOCIATION => handle_assoc own_addr mgmt false denied;; mret 1
  | _ => handle_assoc own_addr mgmt true denied;; mret 1
  end.

(** The request of an access point and the answer to it. *)
Definition request (junk : Z) (state : type_association) (id : Z) (ap sta : charp) : Association.msg_association_process :=
  Association.Msg (Header (Association.association_type state) id ETHANOL_VERSION 0) ap sta false junk.
Definition decision (state : type_association) (id k : Z) (ap sta : charp) (ok : bool) : Association.msg_association_process :=
  Association.Msg (Header (Association.association_type state) id ETHANOL_VERSION k) ap sta ok 0.

(** A controller with a policy: it may depend on the kind of the request, on the
    two addresses and on the controller's state. *)
Definition decides `{Allocator} {P} (serve : list cell → ST P (option (list cell)))
    (policy : type_association → list Z → list Z → P → bool * P) : Prop :=
  ∀ junk state id ap sta p, i32_ok junk = true → i32_ok id = true → brief ap = true → brief sta = true →
  canon ap = ap → canon sta = sta → nonnull ap = true → nonnull sta = true →
  ∃ k, serve (wire_of (request junk state id ap sta)) p =
    Ok (Some (wire_of (decision state id k ap sta (policy state (text ap) (text sta) p).1)),
        (policy state (text ap) (text sta) p).2).

Definition mac_ok (a : list Z) : bool := bool_decide (length a = 6%nat) && forallb is_byte a.

Section policy.
Context `{Allocator}.

Lemma colon_hex_is_char a : forallb is_byte a = true → forallb is_char (colon_hex a) = true.
Proof.
  intros Ha. induction a as [|b [|c l] IH]; [done|..]; cbn [forallb] in Ha; split_andb;
    match goal with Hb : is_byte b = true |- _ => destruct (byte_digits b Hb) as [Hq Hr] end;
    apply hexdigit_char in Hq as [? _]; apply hexdigit_char in Hr as [? _].
  - cbn. unfold is_char. lia.
  - rewrite colon_hex_cons. cbn [hex2 app forallb]. rewrite IH by (cbn [forallb]; by apply andb_true_intro).
    unfold is_char. cbn. lia.
Qed.

Lemma mac_text_ok a : mac_ok a = true → 18 ≤ usable 16 →
  copyable (mac_text a) = true ∧ brief (mac_text a) = true ∧ canon (mac_text a) = mac_text a ∧
  text (mac_text a) = colon_hex a.
Proof.
  unfold mac_ok. intros [Hl%bool_decide_eq_true Hb]%andb_prop Hu. pose proof (colon_hex_is_char a Hb) as Hc.
  assert (length (colon_hex a) = 17%nat) as Hlen.
  { do 6 (destruct a as [|? a]; [done|]). by destruct a. }
  pose proof (text_mk _ Hc) as Ht. unfold mac_text.
  assert (cstr_ok (mk_str (colon_hex a)) = true) as Hok.
  { apply cstr_ok_mk; [done|]. rewrite Hlen. lia. }
  split_and!.
  - unfold copyable, mk_str. fold (mk_str (colon_hex a)). rewrite Hok, Ht, Hlen, bool_decide_true; [apply Z.leb_le; exact Hu|].
    by intros E; rewrite E in Hlen.
  - unfold brief. by rewrite Hok, Ht, Hlen.
  - unfold canon. rewrite Ht. by destruct (colon_hex a).
  - done.
Qed.

Lemma admission_request_wf junk state id ap sta : i32_ok junk = true → i32_ok id = true → brief ap = true → brief sta = true →
  msg_wf (request junk state id ap sta) = true.
Proof.
  intros. cbn [msg_wf Association.msg_association_process_message]. unfold Association.wf, request.
  cbn [Association.hd Association.mac_ap Association.mac_sta Association.response p_version].
  rewrite header_current, strs_ok_brief by all_brief. done.
Qed.

Lemma decision_received state id k ap sta ok : i32_ok id = true → brief ap = true → brief sta = true →
  ∃ n, 0 ≤ n ≤ 2000 ∧ msg_wf (decision state id k ap sta ok) = true ∧
    msg_size (decision state id k ap sta ok) = Ok n ∧
    received (decision state id k ap sta ok) =
      Association.Msg (Header (Association.association_type state) id ETHANOL_VERSION n) (canon ap) (canon sta) ok 0.
Proof.
  intros Hid Ha Hs. assert (msg_wf (decision state id k ap sta ok) = true) as Hwf.
  { cbn [msg_wf Association.msg_association_process_message]. unfold Association.wf, decision.
    cbn [Association.hd Association.mac_ap Association.mac_sta Association.response p_version].
    rewrite header_current, strs_ok_brief by all_brief. done. }
  unfold brief in Ha, Hs. split_andb. to_prop.
  assert (msg_size (decision state id k ap sta ok) =
    Ok (40 + Z.of_nat (length (text ap)) + Z.of_nat (length (text sta)))) as Hsz.
  { cbn [msg_size Association.msg_association_process_message]. unfold Association.message_size_association_process, decision.
    cbn [Association.hd Association.mac_ap Association.mac_sta p_version].
    rewrite (strlen_ethanol_ok ETHANOL_VERSION), !strlen_ethanol_ok by done. cbn [mbind res_bind].
    change (length (text ETHANOL_VERSION)) with 5%nat. unfold bool_len_ethanol.
    rewrite to_u_id by (lia || in_range). f_equal. lia. }
  eexists. split; [|split; [exact Hwf|split; [exact Hsz|]]]; [lia|]. unfold received. rewrite Hsz. done.
Qed.
End policy.

Section admission.
Context {L P : Type} `{!Allocator} (host : list Z) (port : Z) (serve : list cell → ST P (option (list cell)))
  (policy : type_association → list Z → list Z → P → bool * P).
Let N : Net (link L P) := linked_net host port serve.
#[local] Existing Instance N.
Context `{!Mlme (link L P)} (config : ethanol_configuration) (own_addr : list Z).

(** The exchange with the controller. *)
Lemma send_association_ok junk state id ap sta k ok (s : link L P) p' :
  i32_ok junk = true → i32_ok id = true → id ≠ 2 ^ 31 - 1 → copyable ETHANOL_VERSION = true →
  copyable (mac_text ap) = true → brief (mac_text ap) = true → canon (mac_text ap) = mac_text ap →
  copyable (mac_text sta) = true → brief (mac_text sta) = true → canon (mac_text sta) = mac_text sta →
  reachable host port (server_addr config) (remote_server_port config) = true →
  serve (wire_of (request junk state id (mac_text ap) (mac_text sta))) (peer s) =
    Ok (Some (wire_of (decision state id k (mac_text ap) (mac_text sta) ok)), p') →
  Association.send_msg_association_process junk (server_addr config) (remote_server_port config) id
    (mac_text ap) (mac_text sta) state s =
  Ok ((Some (received (decision state id k (mac_text ap) (mac_text sta) ok)), id + 1), Link (here s) p' []).
Proof.
  intros Hj Hid Hmax Hv Hc1 Hb1 Hk1 Hc2 Hb2 Hk2 Hr Hs.
  destruct (decision_received state id k (mac_text ap) (mac_text sta) ok) as (n & Hn & Hwf & Hsz & Hrec); try done.
  unfold Association.send_msg_association_process. change (nonnull (mac_text sta)) with true.
  change (nonnull (mac_text ap)) with true. cbn [negb orb].
  rewrite (with_ssl_ext _ _ _ _ (r ← exchange (request junk state id (mac_text ap) (mac_text sta)) Association.is_association_type;
    mret (r, id + 1))).
  - rewrite (linked_rpc host port serve _ _ _ _ _ (λ r, (r, id + 1)) s _ p' (admission_request_wf _ _ _ _ _ Hj Hid Hb1 Hb2) Hr Hs).
    + rewrite reply_received; [done|done|]. by destruct state.
    + rewrite (wire_length _ _ Hwf Hsz). unfold SSL_BUFFER_SIZE. lia.
  - intros w. unfold incr_int. rewrite (proj2 (Z.eqb_neq _ _) Hmax).
    by rewrite (copy_string_canon _ Hv), (copy_string_canon _ Hc1), (copy_string_canon _ Hc2), Hk1, Hk2.
Qed.

(** The controller's answer reaches the access point. *)
Lemma ask_controller_ok junk mgmt state (s : link L P) :
  decides serve policy → mac_ok own_addr = true → mac_ok (mgmt_sa mgmt) = true → 18 ≤ usable 16 →
  copyable ETHANOL_VERSION = true → i32_ok junk = true → i32_ok (mgmt_m_id s) = true → mgmt_m_id s ≠ 2 ^ 31 - 1 →
  reachable host port (server_addr config) (remote_server_port config) = true →
  let d := policy state (colon_hex own_addr) (colon_hex (mgmt_sa mgmt)) (peer s) in
  ask_controller config own_addr junk true mgmt state s =
    Ok (negb d.1, put_mgmt_m_id (mgmt_m_id s + 1) (Link (here s) d.2 [])).
Proof.
  intros Hd Hown Hsa Hu Hv Hj Hid Hmax Hr d.
  destruct (mac_text_ok _ Hown Hu) as (Hc1 & Hb1 & Hk1 & Ht1). destruct (mac_text_ok _ Hsa Hu) as (Hc2 & Hb2 & Hk2 & Ht2).
  destruct (Hd junk state (mgmt_m_id s) (mac_text own_addr) (mac_text (mgmt_sa mgmt)) (peer s)) as (k & Hs); try done.
  rewrite Ht1, Ht2 in Hs. fold d in Hs.
  unfold ask_controller. rewrite (st_bind_Ok _ _ _ (mgmt_m_id s) s) by done.
  rewrite (st_bind_Ok _ _ _ _ _ (send_association_ok junk state (mgmt_m_id s) own_addr (mgmt_sa mgmt) k d.1 s d.2
    Hj Hid Hmax Hv Hc1 Hb1 Hk1 Hc2 Hb2 Hk2 Hr Hs)).
  rewrite (st_bind_Ok _ _ _ tt (put_mgmt_m_id (mgmt_m_id s + 1) (Link (here s) d.2 []))) by done.
  destruct (decision_received state (mgmt_m_id s) k (mac_text own_addr) (mac_text (mgmt_sa mgmt)) d.1)
    as (n & _ & _ & _ & ->); done.
Qed.

(** Without a connection nobody is refused. *)
Lemma ask_controller_unreachable junk mgmt state (s : link L P) :
  reachable host port (server_addr config) (remote_server_port config) = false →
  ask_controller config own_addr junk true mgmt state s = Ok (false, put_mgmt_m_id (mgmt_m_id s) s).
Proof.
  intros Hr. unfold ask_controller. rewrite (st_bind_Ok _ _ _ (mgmt_m_id s) s) by done.
  unfold Association.send_msg_association_process. change (nonnull (mac_text (mgmt_sa mgmt))) with true.
  change (nonnull (mac_text own_addr)) with true. cbn [negb orb].
  by rewrite (st_bind_Ok _ _ _ _ _ (linked_refused host port serve _ _ s (None, mgmt_m_id s) _ Hr)).
Qed.

Context `{!ApWorld (link L P)}.

(** A frame for this access point that asks for admission. *)
Definition asks (state : type_association) (buf : list Z) : Prop :=
  (24 ≤ length buf)%nat ∧ subtype_of state = Some (WLAN_FC_GET_STYPE (frame_control buf)) ∧
  mgmt_bssid buf = own_addr ∧ mgmt_da buf = own_addr.

Lemma mgmt_asks zeroed junk c buf fi state (s : link L P) denied s' : asks state buf → track_sta_max_num s = 0 →
  ask_controller config own_addr junk (enabled config state) buf state s = Ok (denied, s') →
  ieee802_11_mgmt config own_addr zeroed junk c buf fi s = treat own_addr state buf denied s'.
Proof.
  intros (Hlen & Hst & Hb & Hda) Htr Ha. unfold ieee802_11_mgmt. rewrite bool_decide_false by lia.
  rewrite (bool_decide_true (mgmt_bssid buf = own_addr)) by done.
  rewrite (bool_decide_true (mgmt_da buf = own_addr)) by done. rewrite andb_false_r.
  set (st := WLAN_FC_GET_STYPE _) in *. clearbody st.
  assert (∀ m : ST (link L P) Z, (n ← (λ w, Ok (track_sta_max_num w, w)) : ST (link L P) Z;
    (if n =? 0 then mret tt else sta_track_add (mgmt_sa buf));; m) s = m s) as Htrack.
  { intros m. unfold mbind, ST_bind. by rewrite Htr. }
  destruct state; try done; injection Hst as <-; cbn [Z.eqb negb Pos.eqb enabled treat] in *; rewrite Htrack; by run Ha.
Qed.
End admission.

(** ** Controllers *)

(** What a controller reads from a request, and the bytes of its answer. *)
Lemma request_read `{!Allocator} junk state id ap sta ok : i32_ok junk = true → i32_ok id = true →
  brief ap = true → brief sta = true → canon ap = ap → canon sta = sta →
  ∃ n h', msg_size (request junk state id ap sta) = Ok n ∧ n ≤ 2048 ∧
    Association.decode_msg_association_process (wire_of (request junk state id ap sta)) =
      Ok (Association.Msg (Header (Association.association_type state) id ETHANOL_VERSION n) ap sta false junk) ∧
    Association.encode_msg_association_process
      (Association.Msg (Header (Association.association_type state) id ETHANOL_VERSION n) ap sta ok 0) =
      Ok (h', wire_of (decision state id n ap sta ok)).
Proof.
  intros Hj Hid Ha Hs Ka Ks. destruct (decision_received state id 0 ap sta ok Hid Ha Hs) as (n & Hb & _ & Hsz & _).
  assert (msg_size (request junk state id ap sta) = Ok n) as Hn by done.
  destruct (wire_encode (decision state id n ap sta ok)) as [h' He].
  { by destruct (decision_received state id n ap sta ok Hid Ha Hs) as (? & _ & ? & _). }
  exists n, h'. split; [done|]. split; [lia|]. split; [|exact He].
  pose proof (wire_received _ (admission_request_wf junk state id ap sta Hj Hid Ha Hs)) as Hd.
  unfold received in Hd. rewrite Hn in Hd. cbn [msg_decode Association.msg_association_process_message] in Hd.
  rewrite Hd. cbn [msg_normal msg_resize Association.msg_association_process_message].
  unfold Association.normal, Association.resize, request, set_m_size, normal_header.
  cbn [Association.hd Association.mac_ap Association.mac_sta Association.allowed Association.response m_type m_id p_version m_size].
  by rewrite Ka, Ks.
Qed.

(** A controller that refuses the stations it has a list of. *)
Definition blocking_controller `{!Allocator} (input : list cell) : ST (list (list Z)) (option (list cell)) := λ blocked,
  h ← Association.decode_msg_association_process input;
  let ok := negb (existsb (λ a, bool_decide (a = text (Association.mac_sta h))) blocked) in
  '(_, output) ← Association.encode_msg_association_process
    (Association.Msg (Association.hd h) (Association.mac_ap h) (Association.mac_sta h) ok 0);
  Ok (Some output, blocked).

Lemma blocking_decides `{!Allocator} : decides blocking_controller
  (λ _ _ sta blocked, (negb (existsb (λ a, bool_decide (a = sta)) blocked), blocked)).
Proof.
  intros junk state id ap sta p Hj Hid Ha Hs Ka Ks _ _. cbn [fst snd].
  destruct (request_read junk state id ap sta (negb (existsb (λ a, bool_decide (a = text sta)) p)) Hj Hid Ha Hs Ka Ks)
    as (n & h' & _ & _ & Hd & He).
  exists n. unfold blocking_controller. run Hd. cbn [Association.hd Association.mac_ap Association.mac_sta]. by run He.
Qed.

(** The server of this repository as the controller. *)
Lemma server_decides {P} `{!Agent P, !Net P, !Allocator} (addr : charp) :
  decides (serve_agent (W := P) addr) (λ _ _ _ p, (true, p)).
Proof.
  intros junk state id ap sta p Hj Hid Ha Hs Ka Ks _ _.
  destruct (request_read junk state id ap sta true Hj Hid Ha Hs Ka Ks) as (n & h' & Hn & Hle & Hd & He).
  rewrite (serve_routes _ (Association.association_type state) H_msg_association_process n addr p
    (admission_request_wf junk state id ap sta Hj Hid Ha Hs)) by (done || by destruct state).
  exists n. change (agent_handler H_msg_association_process addr ?buf p)
    with (Association.process_msg_association_process (W := P) buf p).
  unfold Association.process_msg_association_process. rewrite Hd, (st_bind_Ok _ _ p _ p eq_refl).
  cbn [Association.hd Association.mac_ap Association.mac_sta fst snd]. by rewrite He.
Qed.


(** With the server of this repository as the controller nobody is ever
    refused: every authentication, association and reassociation request goes
    on to hostapd's own checks, and the server's state does not change. *)
Theorem server_admits_everybody {L P} `{!Allocator, !Agent P, !Net P, !Mlme (link L P), !ApWorld (link L P)}
    (addr : charp) (host : list Z) (port : Z) (config : ethanol_configuration) (own_addr : list Z) (zeroed : bool)
    (junk : Z) (c : ap_conf) (state : type_association) (buf : list Z) (fi : option (Z * Z)) (s : link L P) :
  asks own_addr state buf → track_sta_max_num s = 0 → enabled config state = true →
  mac_ok own_addr = true → mac_ok (mgmt_sa buf) = true → 18 ≤ usable 16 → copyable ETHANOL_VERSION = true →
  i32_ok junk = true → i32_ok (mgmt_m_id s) = true → mgmt_m_id s ≠ 2 ^ 31 - 1 →
  reachable host port (server_addr config) (remote_server_port config) = true →
  @ieee802_11_mgmt _ _ _ (linked_net host port (serve_agent (W := P) addr)) _ config own_addr zeroed junk c buf fi s =
    treat own_addr state buf false (put_mgmt_m_id (mgmt_m_id s + 1) (Link (here s) (peer s) [])).
Proof.
  intros Ha Htr En Hown Hsa Hu Hv Hj Hid Hmax Hr.
  apply (mgmt_asks host port (serve_agent addr) config own_addr); try done. rewrite En.
  by apply (ask_controller_ok host port (serve_agent addr) (λ _ _ _ p, (true, p))); [apply server_decides|..].
Qed.

(** ** An access point *)

(** The frames sent and the stations hostapd goes on with. *)
Record ap_log := ApLog { log_sent : list (list Z); log_admitted : list (list Z); log_id : Z }.

Section demo.
Context {P : Type}.

#[local] Instance demo_mlme : Mlme (link ap_log P) := {|
  mgmt_m_id s := log_id (here s);
  put_mgmt_m_id id s := Link (ApLog (log_sent (here s)) (log_admitted (here s)) id) (peer s) (inbox s);
  track_sta_max_num _ := 0;
  sta_track_add _ := mret tt;
  ap_get_sta _ := mret None;
  put_sta _ _ := mret tt;
  mlme_zalloc := mret true;
  hostapd_drv_send_mlme f := λ s,
    Ok (true, Link (ApLog (log_sent (here s) ++ [f]) (log_admitted (here s)) (log_id (here s))) (peer s) (inbox s));
  hostapd_drv_sta_remove _ := mret tt;
  send_assoc_resp _ _ _ := mret 0;
  authenticate m := λ s,
    Ok (tt, Link (ApLog (log_sent (here s)) (log_admitted (here s) ++ [mgmt_sa m]) (log_id (here s))) (peer s) (inbox s));
  associate _ _ := mret tt;
  handle_probe_req _ _ := mret tt;
  handle_disassoc _ := mret tt;
  handle_deauth _ := mret tt;
  handle_action _ := mret 0
|}.

#[local] Instance demo_quiet : ApWorld (link ap_log P) := {|
  aps_of _ := no_aps; put_aps _ s := s; os_zalloc := mret true; os_get_reltime := mret (0, 0);
  hostapd_ht_operation_update := mret tt; ieee802_11_update_beacons := mret tt;
  beacon_m_id _ := 0; put_beacon_m_id _ s := s
|}.
End demo.

Definition demo_own : list Z := [2; 0; 0; 0; 0; 1].
Definition demo_sta (n : Z) : list Z := [2; 0; 0; 0; 1; n].
Definition demo_auth (n : Z) : list Z :=
  [176; 0; 0; 0] ++ demo_own ++ demo_sta n ++ demo_own ++ [0; 0] ++ [0; 0; 1; 0; 0; 0].
Definition demo_ethanol : ethanol_configuration :=
  Config 1 (lit "10.0.0.1") 22223 22223 None 1 0 true true true true true true.
Definition demo_ap_config : ap_conf := ApConf 6 0 255 60 None.

Definition demo_blocked : link ap_log (list (list Z)) := Link (ApLog [] [] 5) [colon_hex (demo_sta 7)] [].


Lemma server_admits_everybody_witness :
  let A := box_agent false in let N := @no_net box in
  @ieee802_11_mgmt _ demo_mlme demo_quiet
    (linked_net (lit_bytes "10.0.0.1") 22223 (@serve_agent box A N glibc_alloc (lit "10.0.0.9"))) glibc_alloc
    demo_ethanol demo_own false 0 demo_ap_config (demo_auth 7) None (Link (ApLog [] [] 5) (fresh_box 0) []) =
  Ok (1, Link (ApLog [] [demo_sta 7] 6) (fresh_box 0) []).
Proof.
  intros A N. rewrite (@server_admits_everybody ap_log box glibc_alloc A N demo_mlme demo_quiet (lit "10.0.0.9")
    (lit_bytes "10.0.0.1") 22223 demo_ethanol demo_own false 0 demo_ap_config AUTHORIZATION (demo_auth 7) None
    (Link (ApLog [] [] 5) (fresh_box 0) [])
    ltac:(split_and!; cbn; done || lia) eq_refl eq_refl eq_refl eq_refl ltac:(cbn; lia) eq_refl eq_refl eq_refl ltac:(done) eq_refl).
  reflexivity.
Defined.
