(* ===== verification/ServerStart.v ===== *)
(** Start and end of the agent: the start-up of [run_ethanol_server], the hello
    thread and [run_threaded_server] of [messaging/ssl-server.c], and
    [load_ethanol] and [unload_ethanol] of [hostapd/main.c].

    Behind the start-up the accept loop of [Acceptor] runs; next to it, a thread
    greets the controller for ever. *)
From stdpp Require Import prelude list strings.
From S2P Require Import Prelude CMem MsgCommon BufferHandler World Rpc Linked ConfigFile MsgSession.
From S2P Require Import Servlet Agent EndToEnd.

(** ** The host *)

(** A call that returns, or that ends the program with [exit(0)] or [abort()]. *)
Inductive outcome (A : Type) := Running (a : A) | Exited | Aborted.
Arguments Running {A} a.
Arguments Exited {A}.
Arguments Aborted {A}.

(** The operating system and the server side of OpenSSL, by the functions that
    are called. *)
Class ServerHost (W : Type) := {
  getuid : ST W Z;
  SSL_CTX_new : ST W (option Z);
  SSL_CTX_use_certificate_file : Z → charp → ST W Z;
  SSL_CTX_use_PrivateKey_file : Z → charp → ST W Z;
  SSL_CTX_check_private_key : Z → ST W bool;
  socket : ST W Z;
  bind : Z → Z → ST W Z;                              (* descriptor, port *)
  listen : Z → Z → ST W Z;
  create_hello_thread : ethanol_configuration → ST W unit;
  create_server_thread : ethanol_configuration → ST W Z;
  join_server_thread : ST W unit;
  set_conffile_hostapd : charp → ST W unit;
  sleep : Z → ST W unit
}.

Section start.
Context {W : Type} `{ServerHost W}.

Definition bind_outcome {A B} (m : ST W (outcome A)) (k : A → ST W (outcome B)) : ST W (outcome B) :=
  r ← m;
  match r with Running a => k a | Exited => mret Exited | Aborted => mret Aborted end.

(** The result of [socket] is not checked; the port is stored in 16 bits. *)
Definition OpenListener (port : Z) : ST W (outcome Z) :=
  sd ← socket;
  b ← bind sd (to_u 16 port);
  if b =? 0 then
    l ← listen sd 10;
    if l =? 0 then mret (Running sd) else mret Aborted
  else mret Aborted.

Definition isRoot : ST W bool := u ← getuid; mret (u =? 0).

Definition InitServerCTX : ST W (outcome Z) :=
  ctx ← SSL_CTX_new;
  mret (match ctx with Some c => Running c | None => Aborted end).

Definition LoadCertificates (ctx : Z) (CertFile KeyFile : charp) : ST W (outcome unit) :=
  c ← SSL_CTX_use_certificate_file ctx CertFile;
  if c <=? 0 then mret Aborted
  else
    k ← SSL_CTX_use_PrivateKey_file ctx KeyFile;
    if k <=? 0 then mret Aborted
    else
      v ← SSL_CTX_check_private_key ctx;
      mret (if (v : bool) then Running tt else Aborted).

Definition CONFFILE_HOSTAPD : charp := lit "/etc/hostapd/hostapd.conf".

(** [run_ethanol_server] up to its loop: the context and the socket. *)
Definition run_ethanol_server (config : ethanol_configuration) : ST W (outcome (Z * Z)) :=
  root ← isRoot;
  if negb root then mret Exited
  else
    bind_outcome InitServerCTX (λ ctx,
    bind_outcome (LoadCertificates ctx (lit "mycert.pem") (lit "mycert.pem")) (λ _,
    bind_outcome (OpenListener (local_server_port config)) (λ server,
      (if (ethanol_enable config =? 1) && nonnull (server_addr config) then create_hello_thread config else mret tt);;
      set_conffile_hostapd CONFFILE_HOSTAPD;;
      mret (Running (ctx, server))))).

(** The error of [pthread_create]; with [join] the call waits for the thread. *)
Definition run_threaded_server (config : ethanol_configuration) (join : bool) : ST W Z :=
  err ← create_server_thread config;
  (if join && (err =? 0) then join_server_thread else mret tt);;
  mret err.

(** [file] is what [config_filename] holds; the configuration is returned. *)
Definition load_ethanol (file : option (list Z)) (config : ethanol_configuration) : ST W ethanol_configuration :=
  '(_, config) ← lift (read_configfile file config);
  if ethanol_enable config =? 1 then
    err ← run_threaded_server config false;
    mret (if err =? 0 then config else set_ethanol_enable config 0)
  else mret config.

Context `{Net W, Device W, Build, Allocator}.

Definition unload_ethanol (config : ethanol_configuration) : ST W unit :=
  if ethanol_enable config =? 1 then
    Bye.send_msg_bye (server_addr config) (remote_server_port config) 0 (local_server_port config);; mret tt
  else mret tt.

(** One turn of the loop of [send_hello_to_controller], and [n] of them. *)
Definition hello_round (config : ethanol_configuration) (id : Z) : ST W Z :=
  sleep 1;;
  '(_, id) ← Hello.send_msg_hello (server_addr config) (remote_server_port config) id (local_server_port config);
  sleep (hello_frequency config);;
  mret id.
Fixpoint send_hello_to_controller (n : nat) (config : ethanol_configuration) (id : Z) : ST W Z :=
  match n with
  | O => mret id
  | S n => id ← hello_round config id; send_hello_to_controller n config id
  end.
End start.

(** ** The greetings *)

Section hello.
Context {L P : Type} `{!Device L, !Agent P, !Net P, !Allocator, !Build, !ServerHost (link L P)}.
Context (addr : charp) (host : list Z) (port : Z) (config : ethanol_configuration).
Let N : Net (link L P) := linked_net host port (serve_agent addr).
Let D : Device (link L P) := linked_device.

(** What this device is to the controller. *)
Definition own_type : Z := if process_station then 2 else 1.

Definition greeting (id n : Z) : Hello.msg_hello :=
  Hello.Msg (Header MSG_HELLO_TYPE id ETHANOL_VERSION n) own_type (local_server_port config) 0.

Lemma greeting_wf id n : i32_ok id = true → i32_ok (local_server_port config) = true →
  msg_wf (greeting id n) = true.
Proof.
  intros Hid Hp. cbn [msg_wf Hello.msg_hello_message]. unfold Hello.wf, greeting.
  cbn [Hello.hd Hello.device_type Hello.tcp_port Hello.rtt p_version].
  rewrite header_current, strs_ok_brief by all_brief. rewrite Hp. unfold own_type. by destruct process_station.
Qed.

Lemma greeting_size id n : msg_size (greeting id n) = Ok 34.
Proof. done. Qed.

(** What the controller's event does once. *)
Definition event_step (p p' : P) : Prop :=
  match p_hello_event (W := P) with
  | Some f => ∃ r, f own_type addr (local_server_port config) p = Ok (r, p')
  | None => p' = p
  end.

(** The controller echoes the greeting. *)
Lemma serve_greeting id n p p' : i32_ok id = true → i32_ok (local_server_port config) = true → event_step p p' →
  serve_agent addr (wire_of (greeting id n)) p = Ok (Some (wire_of (greeting id n)), p').
Proof.
  intros Hid Hp Hev. pose proof (greeting_wf id n Hid Hp) as Hwf.
  rewrite (serve_routes _ MSG_HELLO_TYPE H_msg_hello 34) by done.
  change (agent_handler H_msg_hello addr ?buf p) with (Hello.process_msg_hello (W := P) addr buf p).
  unfold Hello.process_msg_hello. pose proof (wire_received _ Hwf) as Hd. unfold received in Hd. rewrite greeting_size in Hd.
  cbn [msg_decode Hello.msg_hello_message] in Hd. run (lift_Ok _ p _ Hd). unfold event_step in Hev.
  destruct p_hello_event as [f|]; [|by rewrite Hev].
  destruct Hev as [r Hf]. cbn [msg_normal msg_resize Hello.msg_hello_message].
  assert ((f (Hello.device_type (Hello.normal (Hello.resize (greeting id n) 34))) addr
    (Hello.tcp_port (Hello.normal (Hello.resize (greeting id n) 34)));; mret tt) p = Ok (tt, p')) as E by (by run Hf).
  by run E.
Qed.

Hypothesis (Hclk : clock_ok L) (Hr : reachable host port (server_addr config) (remote_server_port config) = true)
  (Hv : copyable ETHANOL_VERSION = true) (Hport : i32_ok (local_server_port config) = true).

Lemma hello_once_ok id p' (s : link L P) : i32_ok id = true → id ≠ 2 ^ 31 - 1 → event_step (peer s) p' →
  ∃ m l, @Hello.send_msg_hello _ N D _ _ (server_addr config) (remote_server_port config) id (local_server_port config) s =
    Ok ((Some m, id + 1), Link l p' []).
Proof.
  intros Hid Hmax Hev. unfold Hello.send_msg_hello, N. rewrite linked_with_ssl by done. fold N.
  assert (incr_int id = Ok (id + 1)) as Hi by (unfold incr_int; by rewrite (proj2 (Z.eqb_neq _ _) Hmax)).
  run (lift_Ok _ s _ Hi). run (lift_Ok _ s _ (copy_string_canon _ Hv)). cbv zeta.
  change (canon ETHANOL_VERSION) with ETHANOL_VERSION. fold own_type. fold (greeting id 0).
  pose proof (greeting_wf id 0 Hid Hport) as Hwf.
  destruct (encode_wf _ Hwf) as (k & Hk & He & [body Hbody] & _ & Hlen & Hdec).
  rewrite greeting_size in Hk. injection Hk as <-. cbn [msg_encode msg_decode msg_size msg_resize Hello.msg_hello_message] in He, Hdec.
  change (Hello.message_size_hello (greeting id 0)) with (Ok 34). run (lift_Ok (Ok 34) s _ eq_refl).
  run (lift_Ok _ s _ He). destruct (Hclk (here s)) as (b & l1 & Hb & Hb1 & Hb2).
  destruct (Hclk l1) as (e & l2 & He' & He1 & He2). destruct (timeval_subtract_ok b e) as [x Hx]; try done.
  unfold mbind at 1, ST_bind at 1. cbn [gettimeofday device_clock D linked_device]. unfold on_here at 1. rewrite Hb.
  run (linked_write host port (serve_agent addr) (wire_of (greeting id 0)) (Link l1 (peer s) (inbox s)) _ _
    (serve_greeting id 0 (peer s) p' Hid Hport Hev)).
  run (linked_read host port (serve_agent addr) SSL_BUFFER_SIZE (Link l1 p' (wire_of (greeting id 0)))
    ltac:(cbn [inbox]; rewrite Hlen; unfold SSL_BUFFER_SIZE; lia)). cbn [here peer inbox].
  unfold mbind at 1, ST_bind at 1. unfold on_here. cbn [here peer inbox]. rewrite He'.
  assert (return_message_type (wire_of (greeting id 0)) = Ok (msg_code MSG_HELLO_TYPE)) as Ht
    by (rewrite Hbody; by apply header_type).
  rewrite Ht, Hdec, Hx. by do 2 eexists.
Qed.

Hypothesis (Hsleep : ∀ t (s : link L P), ∃ l, sleep t s = Ok (tt, Link l (peer s) (inbox s))).

Lemma hello_round_ok id p' (s : link L P) : i32_ok id = true → id ≠ 2 ^ 31 - 1 → event_step (peer s) p' →
  ∃ l, @hello_round _ _ N D _ _ config id s = Ok (id + 1, Link l p' []).
Proof.
  intros Hid Hmax Hev. unfold hello_round. destruct (Hsleep 1 s) as [l1 E1]. run E1.
  destruct (hello_once_ok id p' (Link l1 (peer s) (inbox s)) Hid Hmax Hev) as (m & l2 & E2). run E2.
  destruct (Hsleep (hello_frequency config) (Link l2 p' [])) as [l3 E3]. run E3. by exists l3.
Qed.
End hello.

(** The event of the controller, once for each of [n] greetings. *)
Fixpoint greeted {P} `{!Agent P, !Build} (addr : charp) (config : ethanol_configuration) (n : nat) (p p' : P) : Prop :=
  match n with
  | O => p' = p
  | S n => ∃ p1, event_step addr config p p1 ∧ greeted addr config n p1 p'
  end.


(** A controller that records the ports of the devices that greet it. *)
Definition greeted_box (b : box) (port : Z) : box :=
  Box (box_count b + 1) ((lit "hello", port) :: box_mtu b) (box_commands b) (box_settings b).
Definition greeting_agent : Agent box := {|
  agent_device := box_device; agent_globals := box_globals;
  agent_events := {| p_hello_event := Some (λ _ _ port b, Ok (0, greeted_box b port)); p_bye_event := None |};
  agent_services := no_services;
  agent_build := {| process_station := false; handover := false |}; agent_junk := no_junk
|}.

(** A host on which everything succeeds, and one without rights. *)
Definition kind_host {W} (uid : Z) : ServerHost W := {|
  getuid := mret uid; SSL_CTX_new := mret (Some 1); SSL_CTX_use_certificate_file _ _ := mret 1;
  SSL_CTX_use_PrivateKey_file _ _ := mret 1; SSL_CTX_check_private_key _ := mret true; socket := mret 3;
  bind _ _ := mret 0; listen _ _ := mret 0; create_hello_thread _ := mret tt; create_server_thread _ := mret 0;
  join_server_thread := mret tt; set_conffile_hostapd _ := mret tt; sleep _ := mret tt
|}.

Definition hello_config : ethanol_configuration :=
  Config 1 (lit "10.0.0.1") 22223 22224 None 1 10 false false false false false false.

