(* ===== verification/LinkDump.v ===== *)
(** The report on a station's link: [iw-4.9/link.c], [print_ies] and
    [print_ssid] of [iw-4.9/scan.c], [print_ssid_escaped] of [iw-4.9/util.c] and
    [parse_bitrate] of [iw-4.9/station.c] print it; [get_iw_link] of
    [ethanol_functions/iw_link.c] and [get_sta_link_information] of
    [ethanol_functions/sta_link_information.c] read it.

    The name of the network comes from the beacon of the access point: it is
    the one part of the report that a stranger chooses. *)
From stdpp Require Import prelude list strings.
From S2P Require Import Prelude CMem Strlib Lines IniFile ConfigFile Connect Utils GlobalVar MemInfo Scanf.
From S2P Require Import CFloat BufferHandler World IwDump StationLink Elements.

(** ** The elements of the beacon *)

(** [" %.02x"] for each byte. *)
Definition hex_list (data : list Z) : list Z := concat ((λ b, 32 :: hex2 b) <$> data).

Definition print_ssid_escaped (data : list Z) : list Z := escaped_from (length data) 0 data.
Definition print_ssid (data : list Z) : list Z := 32 :: print_ssid_escaped data ++ [10].

(** [print_ie] for the entries "SSID" and "MESH ID" of the table: lengths from 0
    to 32. *)
Definition print_ie (name : string) (data : list Z) : list Z :=
  9 :: lit_bytes name ++ [58] ++
  (if bool_decide (length data ≤ 32)%nat then print_ssid data
   else lit_bytes " <invalid: " ++ dec (Z.of_nat (length data)) ++ lit_bytes " bytes:" ++ hex_list data ++
        lit_bytes ">" ++ [10]).

(** No entry of the vendor tables is printed for a link. *)
Definition print_vendor (len : nat) (data : list Z) : list Z :=
  if bool_decide (len < 3)%nat then
    9 :: lit_bytes "Vendor specific: <too short> data:" ++ hex_list data ++ [10]
  else [].

(** How many bytes of a vendor element are looked at: the two tables are for the
    prefixes [ms_oui] and [wfa_oui]. *)
Definition vendor_reads (n : nat) (rest : list Z) : nat :=
  if bool_decide (n < 3)%nat then n
  else if bool_decide (n = 3)%nat then O
  else if bool_decide (take 3 rest = [0; 80; 242]) || bool_decide (take 3 rest = [80; 111; 154]) then 4%nat
  else 3%nat.

(** [print_ies(ie, ielen, false, PRINT_LINK)].  The last element is entered when
    its length is at most [ielen], two bytes more than there are behind it. *)
Fixpoint print_ies_loop (fuel : nat) (ie : list Z) : res (list Z) :=
  match fuel, ie with
  | S fuel, t :: l :: rest =>
      let n := Z.to_nat l in
      if bool_decide (length ie < n)%nat then Ok []
      else
        let reads := if (t =? 0) || (t =? 114) then n else if t =? 221 then vendor_reads n rest else O in
        ensure (bool_decide (reads ≤ length rest)%nat) ReadOutOfBounds;;
        let data := take n rest in
        let out := if t =? 0 then print_ie "SSID" data
                   else if t =? 114 then print_ie "MESH ID" data
                   else if t =? 221 then print_vendor n data else [] in
        more ← print_ies_loop fuel (drop n rest);
        Ok (out ++ more)
  | _, _ => Ok []
  end.
Definition print_ies (ie : list Z) : res (list Z) := print_ies_loop (length ie) ie.

(** ** link.c *)

(** The attributes of a scan result that are read, and the name of the
    interface. *)
Record bss_msg := BssMsg {
  bm_bssid : option (list Z);
  bm_status : option Z;
  bm_ies : option (list Z);
  bm_frequency : option Z;      (* 32 bits *)
  bm_dev : list Z
}.
Definition NL80211_BSS_STATUS_AUTHENTICATED : Z := 0.
Definition NL80211_BSS_STATUS_ASSOCIATED : Z := 1.
Definition NL80211_BSS_STATUS_IBSS_JOINED : Z := 2.

Record link_result := LinkResult { lr_bssid : list Z; link_found : bool; anything_found : bool }.
Definition lr_init : link_result := LinkResult [] false false.

(** A message without usable BSS attributes is skipped. *)
Definition link_bss_handler (msg : option bss_msg) (lr : link_result) : res (list Z * link_result) :=
  match msg with
  | Some (BssMsg (Some bssid) (Some status) ies freq dev) =>
      let mac := colon_hex (take 6 bssid) in
      let more (hd : list Z) : res (list Z * link_result) :=
        es ← (match ies with Some ie => print_ies ie | None => Ok [] end);
        let f := match freq with Some f => 9 :: lit_bytes "Freq: " ++ number (to_i32 f) ++ [10] | None => [] end in
        Ok (hd ++ es ++ f,
            if status =? NL80211_BSS_STATUS_ASSOCIATED then LinkResult (take 6 bssid) true true
            else LinkResult (lr_bssid lr) (link_found lr) true) in
      if status =? NL80211_BSS_STATUS_ASSOCIATED then
        more (lit_bytes "Connected " ++ mac ++ [32] ++ dev ++ [10])
      else if status =? NL80211_BSS_STATUS_AUTHENTICATED then
        Ok (lit_bytes "Authenticated with " ++ mac ++ lit_bytes " (on " ++ dev ++ lit_bytes ")" ++ [10], lr)
      else if status =? NL80211_BSS_STATUS_IBSS_JOINED then
        more (lit_bytes "Connected " ++ mac ++ [32] ++ dev ++ lit_bytes " - Joined IBSS" ++ [10])
      else Ok ([], lr)
  | _ => Ok ([], lr)
  end.

Fixpoint link_bss_messages (msgs : list (option bss_msg)) (lr : link_result) : res (list Z * link_result) :=
  match msgs with
  | [] => Ok ([], lr)
  | m :: msgs =>
      '(out, lr) ← link_bss_handler m lr;
      '(more, lr) ← link_bss_messages msgs lr;
      Ok (out ++ more, lr)
  end.

(** The attributes of a bit rate, [None] when they cannot be parsed. *)
Record rate_info := RateInfo {
  ri_bitrate32 : option Z; ri_bitrate : option Z; ri_mcs : option Z; ri_vht_mcs : option Z;
  ri_40 : bool; ri_80 : bool; ri_80p80 : bool; ri_160 : bool; ri_short_gi : bool; ri_vht_nss : option Z
}.

Definition rate_value (r : rate_info) : Z :=
  match ri_bitrate32 r, ri_bitrate r with Some z, _ => to_i32 z | None, Some z => z | None, None => 0 end.
Definition rate_text (rate : Z) : list Z :=
  if 0 <? rate then number (rate / 10) ++ [46] ++ number (rate `mod` 10) ++ lit_bytes " MBit/s" else [].
Definition when (b : bool) (s : string) : list Z := if b then lit_bytes s else [].
Definition labelled (s : string) (o : option Z) : list Z :=
  match o with Some z => lit_bytes s ++ number z | None => [] end.

(** At most 87 of the 100 bytes of the buffer are used; without any attribute
    nothing is written, and the buffer is printed as it is. *)
Definition parse_bitrate (r : option rate_info) : res (list Z) :=
  match r with
  | None => Ok (lit_bytes "failed to parse nested rate attributes!")
  | Some r =>
      let text :=
        rate_text (rate_value r) ++
        labelled " MCS " (ri_mcs r) ++ labelled " VHT-MCS " (ri_vht_mcs r) ++ when (ri_40 r) " 40MHz" ++
        when (ri_80 r) " 80MHz" ++ when (ri_80p80 r) " 80P80MHz" ++ when (ri_160 r) " 160MHz" ++
        when (ri_short_gi r) " short GI" ++ labelled " VHT-NSS " (ri_vht_nss r) in
      match text with [] => Err ReadIndeterminate | _ => Ok text end
  end.

(** The attributes of the station; the last one is [None] when it is missing,
    [Some None] when it cannot be parsed. *)
Record bss_param := BssParam {
  bp_cts : bool; bp_preamble : bool; bp_slot : bool;
  bp_dtim : Z;      (* 8 bits *)
  bp_beacon : Z     (* 16 bits *)
}.
Record sta_msg := StaMsg {
  sm_rx_bytes : option Z; sm_rx_packets : option Z; sm_tx_bytes : option Z; sm_tx_packets : option Z;
  sm_signal : option Z;                       (* 8 bits, the others 32 *)
  sm_bitrate : option (option rate_info);
  sm_bss : option (option bss_param)
}.

Definition counters_body (key : string) (b p : Z) : list Z :=
  lit_bytes key ++ lit_bytes " " ++ number b ++ lit_bytes " bytes " ++ number p ++ lit_bytes " packets".
Definition flags_body (p : bss_param) : list Z :=
  lit_bytes "bss flags: " ++ when (bp_cts p) "CTS-protection" ++
  (if bp_preamble p then when (bp_cts p) " " ++ lit_bytes "short-preamble" else []) ++
  (if bp_slot p then when (bp_cts p || bp_preamble p) " " ++ lit_bytes "short-slot-time" else []).
Definition dtim_body (p : bss_param) : list Z :=
  lit_bytes "dtim period: " ++ number (bp_dtim p) ++ lit_bytes " beacon int:" ++ number (bp_beacon p) ++ lit_bytes " ".

(** A message without usable station attributes is skipped. *)
Definition print_link_sta (msg : option sta_msg) : res (list Z) :=
  match msg with
  | None => Ok []
  | Some m =>
      rate ← (match sm_bitrate m with
              | Some r => t ← parse_bitrate r; Ok (lit_bytes "Tx bitrate: " ++ t ++ [10])
              | None => Ok []
              end);
      Ok ((match sm_rx_bytes m, sm_rx_packets m with
           | Some b, Some p => counters_body "RX:" b p ++ [10] | _, _ => [] end) ++
          (match sm_tx_bytes m, sm_tx_packets m with
           | Some b, Some p => counters_body "TX:" b p ++ [10] | _, _ => [] end) ++
          (match sm_signal m with
           | Some s => lit_bytes "Signal: " ++ number (to_s 8 s) ++ lit_bytes " dBm" ++ [10] | None => [] end) ++
          rate ++
          (match sm_bss m with
           | Some (Some p) => flags_body p ++ [10] ++ dtim_body p ++ [10]
           | Some None => [10]
           | None => []
           end))
  end.

(** [handle_link]: the scan results, then the station with the address found;
    the kernel answers with one message. *)
Definition handle_link (msgs : list (option bss_msg)) (station : list Z → option sta_msg) : res (list Z) :=
  '(out, lr) ← link_bss_messages msgs lr_init;
  if link_found lr then s ← print_link_sta (station (lr_bssid lr)); Ok (out ++ s)
  else if anything_found lr then Ok out
  else Ok (out ++ lit_bytes "Not connected." ++ [10]).

(** ** sta_link_information.c *)

Section agent.
Context {W : Type} `{Shell W, Allocator}.

Definition sta_link_line (l : sta_link_information) (buf : list Z) : res sta_link_information :=
  let line := upto_nul buf in
  let on (key : string) (fmt : list item) (k : list value → sta_link_information → res sta_link_information)
      (l : sta_link_information) : res sta_link_information :=
    match strstr_at line (lit_bytes key) with
    | Some p => vs ← sscanf (fmt_text key ++ fmt) p; k vs l
    | None => Ok l
    end in
  l ← on "Connected"%string [Blank; Conv (Word 50)] (λ vs l,
        mac ← assigned (str_at vs 0); mac ← copy_string (mk_str mac);
        Ok (World.StaLink mac (sl_ssid l) (sl_freq l))) l;
  l ← on "SSID:"%string [Blank; Conv (Word 50)] (λ vs l,
        ssid ← assigned (str_at vs 0); ssid ← copy_string (mk_str ssid);
        Ok (World.StaLink (sl_mac_address l) ssid (sl_freq l))) l;
  on "Freq:"%string [Blank; Conv (Dec 32)] (λ vs l,
        Ok (World.StaLink (sl_mac_address l) (sl_ssid l) (num_at vs 0 (sl_freq l)))) l.

Fixpoint sta_link_lines (l : sta_link_information) (lines : list (list Z)) : res sta_link_information :=
  match lines with [] => Ok l | buf :: lines => l ← sta_link_line l buf; sta_link_lines l lines end.

Definition get_sta_link_information (iw_path intf_name : charp) : ST W (option sta_link_information) :=
  if negb (nonnull intf_name) then mret None else
  iw ← lift (chars iw_path);
  intf ← lift (chars intf_name);
  cmd ← lift (sprintf_local 2000 (lit_bytes "sudo " ++ iw ++ lit_bytes " dev " ++ intf ++ lit_bytes " link"));
  pp ← popen cmd;
  match pp with
  | None => mret None
  | Some out => l ← lift (sta_link_lines (World.StaLink None None 0) (lines_of 999 out)); mret (Some l)
  end.
End agent.

(** ** Texts without keywords *)

(** The keywords the two readers look for. *)
Definition link_keys : list string :=
  ["Connected"; "SSID:"; "Freq:"; "RX:"; "TX:"; "Signal:"; "dtim period:"]%string.

(** None of the keywords but [own] occurs in the line. *)
Definition silent (own : string) (line : list Z) : bool :=
  forallb (λ k, bool_decide (k = own) || negb (strstr line (lit_bytes k))) link_keys.

Lemma strstr_at_none s t : strstr s t = false → strstr_at s t = None.
Proof.
  induction s as [|c s IH]; cbn [strstr strstr_at]; intros [H1 H2]%orb_false_iff; rewrite bool_decide_eq_false in H1;
    rewrite bool_decide_false by done; [done|auto].
Qed.

Lemma silent_none own line k : silent own line = true → k ∈ link_keys → k ≠ own →
  strstr_at line (lit_bytes k) = None.
Proof.
  unfold silent. rewrite forallb_forall. intros Hs Hk Hne. apply strstr_at_none.
  specialize (Hs k (proj1 (list_elem_of_In _ _) Hk)). rewrite bool_decide_false in Hs by done.
  by apply negb_true_iff.
Qed.

(** A text cannot contain a keyword with a character it does not have. *)
Lemma strstr_missing c s t : c ∈ t → c ∉ s → strstr s t = false.
Proof.
  intros Hc. induction s as [|x s IH]; cbn [strstr]; intros Hs.
  - rewrite bool_decide_false; [done|]. rewrite take_nil. intros <-. by apply not_elem_of_nil in Hc.
  - rewrite bool_decide_false; [apply IH; set_solver|]. intros E. rewrite <- E in Hc.
    apply Hs.
    apply elem_of_take in Hc as (i & Hi & _). by eapply list_elem_of_lookup_2.
Qed.

Lemma silent_alphabet own line (A : list Z) : Forall (λ x, x ∈ A) line →
  forallb (λ k, bool_decide (k = own) || existsb (λ c, negb (bool_decide (c ∈ A))) (lit_bytes k)) link_keys = true →
  silent own line = true.
Proof.
  intros HA. unfold silent. rewrite !forallb_forall. intros H k Hk. specialize (H k Hk).
  destruct (bool_decide (k = own)); [done|]. cbn [orb] in *.
  apply existsb_exists in H as (c & Hc%list_elem_of_In & Hn). apply negb_true_iff, bool_decide_eq_false in Hn.
  rewrite (strstr_missing c); [done|done|]. intros Hl. apply Hn. exact (proj1 (Forall_forall _ _) HA c Hl).
Qed.

(** The digits of a number. *)
Definition numeral : list Z := lit_bytes "-0123456789".

(** A decidable statement about concrete texts. *)
Ltac literal := apply (bool_decide_unpack _); vm_compute; exact I.

Lemma digit_numeral x : isdigit x = true → x ∈ numeral.
Proof.
  unfold isdigit. intros Hx.
  assert (x = 48 ∨ x = 49 ∨ x = 50 ∨ x = 51 ∨ x = 52 ∨ x = 53 ∨ x = 54 ∨ x = 55 ∨ x = 56 ∨ x = 57) by lia.
  destruct_or!; subst; literal.
Qed.

Lemma number_numeral z : s_ok 64 z = true → Forall (λ x, x ∈ numeral) (number z).
Proof.
  intros Hz. unfold s_ok in Hz. split_andb. to_prop.
  assert (∀ n, 0 ≤ n < 10 ^ 20 → Forall (λ x, x ∈ numeral) (dec_nat 20 n)) as Hd.
  { intros n Hn. destruct (dec_nat_spec 20 n Hn) as (_ & Hs & _). eapply Forall_impl; [exact Hs|]. apply digit_numeral. }
  unfold decimal. case_match; [constructor; [literal|]|]; apply Hd; lia.
Qed.

(** ** Reading a keyword *)

(** A format without two blanks in a row, or a blank at its end, reads itself. *)
Fixpoint tidy (bs : list Z) : bool :=
  match bs with
  | [] => true
  | c :: bs => (if isspace c then match bs with d :: _ => negb (isspace d) | [] => false end else true) && tidy bs
  end.

Lemma sscanf_text key fmt r : tidy (lit_bytes key) = true →
  sscanf (fmt_text key ++ fmt) (lit_bytes key ++ r) = sscanf fmt r.
Proof.
  unfold fmt_text. generalize (lit_bytes key). intros bs. induction bs as [|c bs IH]; [done|].
  cbn [tidy]. intros [Hc Ht]%andb_prop. rewrite fmap_cons. cbn [app]. destruct (isspace c) eqn:Ec.
  - destruct bs as [|d bs]; [done|]. apply negb_true_iff in Hc. cbn [sscanf].
    assert (lskip (c :: (d :: bs) ++ r) = (d :: bs) ++ r) as ->; [|by apply IH].
    unfold lskip. cbn [drop_while app]. by rewrite Ec, Hc.
  - cbn [sscanf]. rewrite Z.eqb_refl. by apply IH.
Qed.

Lemma strstr_at_head t r : strstr_at (t ++ r) t = Some (t ++ r).
Proof.
  assert (take (length t) (t ++ r) = t) as E by apply take_app_length.
  destruct (t ++ r) eqn:Et; cbn [strstr_at]; by rewrite bool_decide_true.
Qed.
Lemma strstr_at_tab c t r : c ≠ 9 → strstr_at (9 :: (c :: t) ++ r) (c :: t) = Some ((c :: t) ++ r).
Proof.
  intros Hc. pose proof (strstr_at_head (c :: t) r) as E. cbn [strstr_at]. rewrite bool_decide_false; [done|].
  cbn. congruence.
Qed.

(** One conversion behind any blanks. *)
Lemma sscanf_conv c t v fmt r : field_of c t v → ends_number r →
  sscanf (Conv c :: fmt) (t ++ r) = (vs ← sscanf fmt r; Ok (v :: vs)).
Proof. intros Hf Hr. cbn [sscanf]. by rewrite (Hf r Hr). Qed.
Lemma sscanf_blank c fmt s : sscanf (Blank :: Conv c :: fmt) s = sscanf (Conv c :: fmt) s.
Proof. apply (sscanf_lskip c fmt s). Qed.
Lemma sscanf_space c fmt s : sscanf (Conv c :: fmt) (32 :: s) = sscanf (Conv c :: fmt) s.
Proof. cbn [sscanf]. by rewrite convert_blank. Qed.

(** The characters of a line made of texts and numbers. *)
Lemma spell_number (A : list Z) z : s_ok 64 z = true → Forall (λ x, x ∈ numeral ++ A) (number z).
Proof. intros Hz. eapply Forall_impl; [by apply number_numeral|]. intros x Hx. apply elem_of_app. by left. Qed.

Ltac spell :=
  repeat match goal with
  | |- Forall _ (_ ++ _) => apply Forall_app_2
  | |- Forall _ (_ :: _) => apply Forall_cons_2; [literal|]
  | |- Forall _ (number _) => apply spell_number; first [done|in_range]
  | |- Forall _ _ => literal
  end.

(** A line, without its newline, that [fgets] reads at once and in which no
    keyword occurs but [own]. *)
Definition plain (own : string) (b : list Z) : Prop :=
  silent own (b ++ [10]) = true ∧ Forall (λ c, c ≠ 0 ∧ c ≠ 10) b ∧ (length b < 999)%nat.

Lemma plain_letters own (b A : list Z) : Forall (λ x, x ∈ A) b →
  forallb (λ k, bool_decide (k = own) || existsb (λ c, negb (bool_decide (c ∈ A ++ [10]))) (lit_bytes k)) link_keys = true →
  forallb (λ c, negb (c =? 0) && negb (c =? 10)) A = true → (length b < 999)%nat → plain own b.
Proof.
  intros Hb Hk HA Hl. split; [|split; [|done]].
  - eapply silent_alphabet; [|exact Hk]. apply Forall_app_2; [|apply Forall_singleton; apply elem_of_app; right; by left].
    eapply Forall_impl; [exact Hb|]. intros x Hx. apply elem_of_app. by left.
  - eapply Forall_impl; [exact Hb|]. intros c Hc. rewrite forallb_forall in HA.
    specialize (HA c (proj1 (list_elem_of_In _ _) Hc)). lia.
Qed.

Lemma plain_nonzero own b : plain own b → upto_nul (b ++ [10]) = b ++ [10].
Proof.
  intros (_ & Hb & _). apply upto_nul_id, Forall_app_2; [|by constructor].
  eapply Forall_impl; [exact Hb|]. by intros c [].
Qed.

Lemma length_number z : s_ok 64 z = true → (length (number z) ≤ 21)%nat.
Proof. intros Hz. by destruct (number_chars z Hz). Qed.

(** The length of a line of texts and numbers. *)
Ltac short :=
  repeat first [rewrite length_app | progress (cbn [length])];
  repeat match goal with
  | |- context [length (lit_bytes ?k)] => let n := eval vm_compute in (length (lit_bytes k)) in change (length (lit_bytes k)) with n
  end;
  repeat match goal with
  | |- context [length (number ?z)] =>
      let H := fresh in pose proof (length_number z ltac:(in_range)) as H;
      let n := fresh "n" in set (n := length (number z)) in *; clearbody n
  end; lia.

(** ** The lines *)

Lemma plain_freq f : s_ok 32 f = true → plain "Freq:" (9 :: lit_bytes "Freq:" ++ 32 :: number f).
Proof. intros Hf. apply (plain_letters _ _ (numeral ++ 9 :: lit_bytes "Freq: ")); [spell|done|done|short]. Qed.
Lemma plain_counters key b p : key = "RX:"%string ∨ key = "TX:"%string → s_ok 64 b = true → s_ok 64 p = true →
  plain key (counters_body key b p).
Proof.
  intros [-> | ->] Hb Hp; unfold counters_body;
    [apply (plain_letters _ _ (numeral ++ lit_bytes "RX: bytes packets"))
    |apply (plain_letters _ _ (numeral ++ lit_bytes "TX: bytes packets"))]; first [done|spell; done|short].
Qed.
Lemma plain_signal z : s_ok 64 z = true → plain "Signal:" (lit_bytes "Signal:" ++ 32 :: number z ++ lit_bytes " dBm").
Proof. intros Hz. apply (plain_letters _ _ (numeral ++ lit_bytes "Signal: dBm")); [spell|done|done|short]. Qed.
Lemma plain_dtim p : s_ok 64 (bp_dtim p) = true → s_ok 64 (bp_beacon p) = true → plain "dtim period:" (dtim_body p).
Proof.
  intros Hd Hb. unfold dtim_body.
  apply (plain_letters _ _ (numeral ++ lit_bytes "dtim period: beacon int:")); [spell|done|done|short].
Qed.
Lemma plain_flags p : plain "" (flags_body p).
Proof. destruct p as [[] [] [] d b]; (split; [by vm_compute|split; [literal|vm_compute; lia]]). Qed.
Lemma plain_empty : plain "" [].
Proof. split; [by vm_compute|split; [literal|vm_compute; lia]]. Qed.

Section lines.
Context `{Allocator}.

(** The first word of a text. *)
Definition word_ok (room : nat) (w : list Z) : bool :=
  forallb (λ c, negb (isspace c) && is_char c) w && negb (bool_decide (w = [])) && bool_decide (length w < room)%nat.

Lemma word_field room w : word_ok room w = true → field_of (Word room) w (Str w).
Proof.
  intros [[Hw He%negb_true_iff%bool_decide_eq_false]%andb_prop Hl%bool_decide_eq_true]%andb_prop.
  apply field_word; [|done|done]. eapply Forall_impl; [by apply forallb_Forall|].
  intros c [Hc%negb_true_iff _]%andb_prop. done.
Qed.

(** The tests of a line whose only keyword is [own]. *)
Ltac tests own Hp :=
  rewrite (plain_nonzero own _ Hp); cbn zeta;
  repeat match goal with
  | |- context [strstr_at ?l (lit_bytes ?k)] =>
      assert_fails (unify k own); rewrite (silent_none own l k (proj1 Hp)) by (done || literal)
  end; cbn [mbind res_bind].

Lemma link_line_none b l : plain "" b → link_line l (b ++ [10]) = Ok l.
Proof. intros Hp. unfold link_line. by tests ""%string Hp. Qed.

Lemma link_line_connected mac dev l :
  let b := lit_bytes "Connected" ++ 32 :: mac ++ 32 :: dev in
  plain "Connected" b → word_ok 50 mac = true → word_ok 50 dev = true →
  copyable (mk_str mac) = true → copyable (mk_str dev) = true →
  link_line l (b ++ [10]) =
    Ok (IwLink true (canon (mk_str dev)) (il_SSID l) (canon (mk_str mac)) (il_freq l) (il_rx_bytes l)
          (il_rx_packets l) (il_tx_bytes l) (il_tx_packets l) (il_signal l) (il_dtim_period l) (il_beacon_interval l)).
Proof.
  intros b Hp Hm Hd Hc1 Hc2. unfold link_line. tests "Connected"%string Hp.
  unfold b. rewrite <- app_assoc, strstr_at_head, sscanf_text by done. cbn [app].
  rewrite <- app_assoc, sscanf_blank, sscanf_space, (sscanf_conv _ _ _ _ _ (word_field 50 mac Hm)) by apply ends_blank.
  cbn [app]. rewrite sscanf_blank, sscanf_space, (sscanf_conv _ _ _ _ _ (word_field 50 dev Hd)) by by apply ends_sep.
  cbn [sscanf mbind res_bind str_at lookup list_lookup assigned].
  by rewrite (copy_string_canon _ Hc2), (copy_string_canon _ Hc1).
Qed.

Lemma link_line_ssid name rest l :
  let b := 9 :: lit_bytes "SSID:" ++ 32 :: name ++ rest in
  plain "SSID:" b → word_ok 50 name = true → ends_number (rest ++ [10]) → copyable (mk_str name) = true →
  link_line l (b ++ [10]) =
    Ok (IwLink (il_connected l) (il_intf_name l) (canon (mk_str name)) (il_mac_address l) (il_freq l) (il_rx_bytes l)
          (il_rx_packets l) (il_tx_bytes l) (il_tx_packets l) (il_signal l) (il_dtim_period l) (il_beacon_interval l)).
Proof.
  intros b Hp Hn Hr Hc. unfold link_line. tests "SSID:"%string Hp. unfold b. cbn [app].
  rewrite <- app_assoc, (strstr_at_tab 83 (lit_bytes "SID:")) by done.
  change (83 :: lit_bytes "SID:") with (lit_bytes "SSID:"). rewrite sscanf_text by done. cbn [app].
  rewrite <- app_assoc, sscanf_blank, sscanf_space, (sscanf_conv _ _ _ _ _ (word_field 50 name Hn)) by done.
  cbn [sscanf mbind res_bind str_at lookup list_lookup assigned]. by rewrite (copy_string_canon _ Hc).
Qed.

(** A name that does not fit the array. *)
Lemma link_line_long_ssid name rest l :
  let b := 9 :: lit_bytes "SSID:" ++ 32 :: name ++ rest in
  plain "SSID:" b → Forall (λ c, isspace c = false) name → (50 ≤ length name)%nat → ends_number (rest ++ [10]) →
  link_line l (b ++ [10]) = Err StackOverflow.
Proof.
  intros b Hp Hn Hl Hr. unfold link_line. tests "SSID:"%string Hp. unfold b. cbn [app].
  rewrite <- app_assoc, (strstr_at_tab 83 (lit_bytes "SID:")) by done.
  change (83 :: lit_bytes "SID:") with (lit_bytes "SSID:"). rewrite sscanf_text by done. cbn [app].
  rewrite <- app_assoc, sscanf_blank, sscanf_space. cbn [sscanf]. unfold convert.
  rewrite scan_word_app by first [done|intros ->; cbn in Hl; lia]. by rewrite bool_decide_false by lia.
Qed.

Lemma link_line_freq f l : s_ok 32 f = true →
  link_line l ((9 :: lit_bytes "Freq:" ++ 32 :: number f) ++ [10]) =
    Ok (IwLink (il_connected l) (il_intf_name l) (il_SSID l) (il_mac_address l) f (il_rx_bytes l)
          (il_rx_packets l) (il_tx_bytes l) (il_tx_packets l) (il_signal l) (il_dtim_period l) (il_beacon_interval l)).
Proof.
  intros Hf. pose proof (plain_freq f Hf) as Hp. unfold link_line. tests "Freq:"%string Hp. cbn [app].
  rewrite <- app_assoc, (strstr_at_tab 70 (lit_bytes "req:")) by done.
  change (70 :: lit_bytes "req:") with (lit_bytes "Freq:"). rewrite sscanf_text by done. cbn [app].
  rewrite sscanf_blank, sscanf_space, (sscanf_conv _ _ _ _ _ (number_field 32 f ltac:(lia) Hf)) by by apply ends_sep.
  done.
Qed.

(** [RX: b bytes p packets]. *)
Lemma sscanf_counters key b p : tidy (lit_bytes key) = true → s_ok 64 b = true → s_ok 64 p = true →
  sscanf (fmt_text key ++ [Blank; Conv (Dec 64)] ++ fmt_text " bytes " ++ [Conv (Dec 64)] ++ fmt_text " packets")
    (counters_body key b p ++ [10]) = Ok [Num b; Num p].
Proof.
  intros Hk Hb Hp. unfold counters_body. rewrite <- !app_assoc, sscanf_text by done.
  change (lit_bytes " " ++ ?x) with (32 :: x). cbn [app]. rewrite sscanf_blank, sscanf_space.
  rewrite (sscanf_conv _ _ _ _ _ (number_field 64 b ltac:(lia) Hb)) by apply ends_blank.
  change (fmt_text " bytes " ++ ?x) with (fmt_text " bytes" ++ Blank :: x).
  change (lit_bytes " bytes " ++ ?x) with (lit_bytes " bytes" ++ 32 :: x).
  rewrite sscanf_text by done. cbn [app].
  rewrite sscanf_blank, sscanf_space, (sscanf_conv _ _ _ _ _ (number_field 64 p ltac:(lia) Hp)) by apply ends_blank.
  done.
Qed.
Lemma strstr_counters key b p : strstr_at (counters_body key b p ++ [10]) (lit_bytes key) = Some (counters_body key b p ++ [10]).
Proof. unfold counters_body. rewrite <- !app_assoc. apply strstr_at_head. Qed.

Lemma link_line_rx b p l : s_ok 64 b = true → s_ok 64 p = true →
  link_line l (counters_body "RX:" b p ++ [10]) =
    Ok (IwLink (il_connected l) (il_intf_name l) (il_SSID l) (il_mac_address l) (il_freq l) b p
          (il_tx_bytes l) (il_tx_packets l) (il_signal l) (il_dtim_period l) (il_beacon_interval l)).
Proof.
  intros Hb Hp. pose proof (plain_counters "RX:" b p (or_introl eq_refl) Hb Hp) as Hpl.
  unfold link_line. tests "RX:"%string Hpl. rewrite strstr_counters. by rewrite sscanf_counters.
Qed.
Lemma link_line_tx b p l : s_ok 64 b = true → s_ok 64 p = true →
  link_line l (counters_body "TX:" b p ++ [10]) =
    Ok (IwLink (il_connected l) (il_intf_name l) (il_SSID l) (il_mac_address l) (il_freq l) (il_rx_bytes l)
          (il_rx_packets l) b p (il_signal l) (il_dtim_period l) (il_beacon_interval l)).
Proof.
  intros Hb Hp. pose proof (plain_counters "TX:" b p (or_intror eq_refl) Hb Hp) as Hpl.
  unfold link_line. tests "TX:"%string Hpl. rewrite strstr_counters. by rewrite sscanf_counters.
Qed.

Lemma link_line_signal z l : s_ok 64 z = true →
  link_line l ((lit_bytes "Signal:" ++ 32 :: number z ++ lit_bytes " dBm") ++ [10]) =
    Ok (IwLink (il_connected l) (il_intf_name l) (il_SSID l) (il_mac_address l) (il_freq l) (il_rx_bytes l)
          (il_rx_packets l) (il_tx_bytes l) (il_tx_packets l) z (il_dtim_period l) (il_beacon_interval l)).
Proof.
  intros Hz. pose proof (plain_signal z Hz) as Hp. unfold link_line. tests "Signal:"%string Hp.
  rewrite <- app_assoc, strstr_at_head, sscanf_text by done. cbn [app].
  rewrite <- app_assoc, sscanf_blank, sscanf_space, (sscanf_conv _ _ _ _ _ (number_field 64 z ltac:(lia) Hz)) by apply ends_blank.
  done.
Qed.

Lemma link_line_dtim p l : s_ok 32 (bp_dtim p) = true → s_ok 32 (bp_beacon p) = true →
  link_line l (dtim_body p ++ [10]) =
    Ok (IwLink (il_connected l) (il_intf_name l) (il_SSID l) (il_mac_address l) (il_freq l) (il_rx_bytes l)
          (il_rx_packets l) (il_tx_bytes l) (il_tx_packets l) (il_signal l) (bp_dtim p) (bp_beacon p)).
Proof.
  intros Hd Hb. pose proof (plain_dtim p ltac:(in_range) ltac:(in_range)) as Hp.
  unfold link_line. tests "dtim period:"%string Hp. unfold dtim_body. rewrite <- !app_assoc.
  change (lit_bytes "dtim period: " ++ ?x) with (lit_bytes "dtim period:" ++ 32 :: x).
  rewrite strstr_at_head, sscanf_text by done. cbn [app].
  rewrite sscanf_blank, sscanf_space, (sscanf_conv _ _ _ _ _ (number_field 32 _ ltac:(lia) Hd)) by apply ends_blank.
  change (fmt_text " beacon int: " ++ ?x) with (fmt_text " beacon int:" ++ Blank :: x).
  rewrite sscanf_text by done. cbn [app].
  rewrite sscanf_blank, (sscanf_conv _ _ _ _ _ (number_field 32 _ ltac:(lia) Hb)) by apply ends_blank.
  done.
Qed.
End lines.

(** ** The whole report *)

(** What the kernel reports fits the types of the attributes. *)
Definition u32_opt (o : option Z) : bool := match o with Some z => u_ok 32 z | None => true end.
Definition rate_ok (r : option rate_info) : bool :=
  match r with
  | Some r => forallb u32_opt [ri_bitrate32 r; ri_bitrate r; ri_mcs r; ri_vht_mcs r; ri_vht_nss r]
  | None => true
  end &&
  match parse_bitrate r with Ok _ => true | Err _ => false end.
Definition param_ok (p : bss_param) : bool := u_ok 8 (bp_dtim p) && u_ok 16 (bp_beacon p).
Definition sta_ok (m : sta_msg) : bool :=
  forallb u32_opt [sm_rx_bytes m; sm_rx_packets m; sm_tx_bytes m; sm_tx_packets m] &&
  match sm_signal m with Some z => u_ok 8 z | None => true end &&
  match sm_bitrate m with Some r => rate_ok r | None => true end &&
  match sm_bss m with Some (Some p) => param_ok p | _ => true end.

(** The lines without their newlines, by their parts. *)
Definition freq_part (freq : option Z) : list (list Z) :=
  match freq with Some f => [9 :: lit_bytes "Freq:" ++ 32 :: number (to_i32 f)] | None => [] end.
Definition counters_part (key : string) (b p : option Z) : list (list Z) :=
  match b, p with Some b, Some p => [counters_body key b p] | _, _ => [] end.
Definition signal_part (z : option Z) : list (list Z) :=
  match z with Some z => [lit_bytes "Signal:" ++ 32 :: number (to_s 8 z) ++ lit_bytes " dBm"] | None => [] end.
Definition rate_part (r : option (option rate_info)) : list (list Z) :=
  match r with
  | Some r => match parse_bitrate r with Ok t => [lit_bytes "Tx bitrate: " ++ t] | Err _ => [] end
  | None => []
  end.
Definition param_part (p : option (option bss_param)) : list (list Z) :=
  match p with Some (Some p) => [flags_body p; dtim_body p] | Some None => [[]] | None => [] end.
Definition sta_parts (m : sta_msg) : list (list Z) :=
  counters_part "RX:" (sm_rx_bytes m) (sm_rx_packets m) ++ counters_part "TX:" (sm_tx_bytes m) (sm_tx_packets m) ++
  signal_part (sm_signal m) ++ rate_part (sm_bitrate m) ++ param_part (sm_bss m).

Definition printed (bodies : list (list Z)) : list Z := concat ((λ b, b ++ [10]) <$> bodies).

Lemma printed_app a b : printed (a ++ b) = printed a ++ printed b.
Proof. unfold printed. by rewrite fmap_app, concat_app. Qed.
Lemma printed_one b : printed [b] = b ++ [10].
Proof. unfold printed. cbn. by rewrite app_nil_r. Qed.

Lemma print_link_sta_parts m : sta_ok m = true → print_link_sta (Some m) = Ok (printed (sta_parts m)).
Proof.
  unfold sta_ok. intros Hm. split_andb. unfold print_link_sta, sta_parts. rewrite !printed_app.
  assert (match sm_bitrate m with
          | Some r => t ← parse_bitrate r; Ok (lit_bytes "Tx bitrate: " ++ t ++ [10]) | None => Ok [] end =
          Ok (printed (rate_part (sm_bitrate m)))) as ->.
  { unfold rate_part. destruct (sm_bitrate m) as [r|]; [|done]. unfold rate_ok in *. split_andb.
    destruct (parse_bitrate r); [|done]. by rewrite printed_one, <- app_assoc. }
  cbn [mbind res_bind]. do 2 f_equal; [|f_equal; [|f_equal; [|f_equal]]].
  - unfold counters_part. destruct (sm_rx_bytes m), (sm_rx_packets m); try done. by rewrite printed_one.
  - unfold counters_part. destruct (sm_tx_bytes m), (sm_tx_packets m); try done. by rewrite printed_one.
  - unfold signal_part. destruct (sm_signal m); [|done]. rewrite printed_one, <- app_assoc.
    change (lit_bytes "Signal: ") with (lit_bytes "Signal:" ++ [32]). rewrite <- app_assoc.
    f_equal. cbn [app]. by rewrite <- app_assoc.
  - unfold param_part. destruct (sm_bss m) as [[p|]|]; try done.
    change [?a; ?b] with ([a] ++ [b]). by rewrite printed_app, !printed_one, <- app_assoc.
Qed.

(** ** Every part is read *)

Section parts.
Context `{Allocator}.

Lemma link_lines_app l a b : link_lines l (a ++ b) = (l ← link_lines l a; link_lines l b).
Proof.
  revert l. induction a as [|x a IH]; intros l; [done|]. cbn [app link_lines].
  destruct (link_line l x); [|done]. apply IH.
Qed.

Definition ended (bodies : list (list Z)) : list (list Z) := (λ b, b ++ [10]) <$> bodies.

Lemma ended_app a b : ended (a ++ b) = ended a ++ ended b.
Proof. apply fmap_app. Qed.

Lemma link_one l b l' : link_line l (b ++ [10]) = Ok l' → link_lines l (ended [b]) = Ok l'.
Proof. intros E. cbn [ended fmap list_fmap link_lines]. by rewrite E. Qed.

Lemma read_freq freq l : link_lines l (ended (freq_part freq)) =
  Ok (IwLink (il_connected l) (il_intf_name l) (il_SSID l) (il_mac_address l) (from_option to_i32 (il_freq l) freq)
        (il_rx_bytes l) (il_rx_packets l) (il_tx_bytes l) (il_tx_packets l) (il_signal l) (il_dtim_period l)
        (il_beacon_interval l)).
Proof.
  destruct freq as [f|]; [|by destruct l]. apply link_one, (link_line_freq (to_i32 f)), to_s_range. lia.
Qed.

Lemma read_rx b p l : u32_opt b = true → u32_opt p = true →
  let both := match b, p with Some b, Some p => (b, p) | _, _ => (il_rx_bytes l, il_rx_packets l) end in
  link_lines l (ended (counters_part "RX:" b p)) =
  Ok (IwLink (il_connected l) (il_intf_name l) (il_SSID l) (il_mac_address l) (il_freq l) both.1 both.2
        (il_tx_bytes l) (il_tx_packets l) (il_signal l) (il_dtim_period l) (il_beacon_interval l)).
Proof.
  intros Hb Hp. destruct b as [b|], p as [p|]; try by destruct l. cbn [u32_opt] in *. apply link_one.
  apply (link_line_rx b p l); in_range.
Qed.

Lemma read_tx b p l : u32_opt b = true → u32_opt p = true →
  let both := match b, p with Some b, Some p => (b, p) | _, _ => (il_tx_bytes l, il_tx_packets l) end in
  link_lines l (ended (counters_part "TX:" b p)) =
  Ok (IwLink (il_connected l) (il_intf_name l) (il_SSID l) (il_mac_address l) (il_freq l) (il_rx_bytes l)
        (il_rx_packets l) both.1 both.2 (il_signal l) (il_dtim_period l) (il_beacon_interval l)).
Proof.
  intros Hb Hp. destruct b as [b|], p as [p|]; try by destruct l. cbn [u32_opt] in *. apply link_one.
  apply (link_line_tx b p l); in_range.
Qed.

Lemma read_signal z l : link_lines l (ended (signal_part z)) =
  Ok (IwLink (il_connected l) (il_intf_name l) (il_SSID l) (il_mac_address l) (il_freq l) (il_rx_bytes l)
        (il_rx_packets l) (il_tx_bytes l) (il_tx_packets l) (from_option (to_s 8) (il_signal l) z) (il_dtim_period l)
        (il_beacon_interval l)).
Proof.
  destruct z as [z|]; [|by destruct l]. apply link_one, (link_line_signal (to_s 8 z)). pose proof (to_s_range 8 z ltac:(lia)). in_range.
Qed.

Definition rate_letters : list Z :=
  lit_bytes "Tx bitrate: MBit/s. VHT-MCS NSS MHz P short GI failed to parse nested rate attributes!".

Lemma labelled_letters key o : u32_opt o = true → Forall (λ x, x ∈ numeral ++ rate_letters) (lit_bytes key) →
  Forall (λ x, x ∈ numeral ++ rate_letters) (labelled key o).
Proof.
  intros Hz Hs. destruct o as [z|]; [|constructor]. cbn [labelled u32_opt] in *.
  apply Forall_app_2; [done|]. apply spell_number. in_range.
Qed.
Lemma when_letters b key (A : list Z) : Forall (λ x, x ∈ A) (lit_bytes key) → Forall (λ x, x ∈ A) (when b key).
Proof. intros Hs. destruct b; [done|constructor]. Qed.

Lemma rate_value_small r : u32_opt (ri_bitrate32 r) = true → u32_opt (ri_bitrate r) = true → rate_value r < 2 ^ 33.
Proof.
  intros H1 H2. unfold rate_value. destruct (ri_bitrate32 r) as [z|]; [|destruct (ri_bitrate r); cbn [u32_opt] in *; [in_range|lia]].
  pose proof (to_s_range 32 z ltac:(lia)). in_range.
Qed.

Lemma rate_line_letters r t : rate_ok r = true → parse_bitrate r = Ok t →
  Forall (λ x, x ∈ numeral ++ rate_letters) (lit_bytes "Tx bitrate: " ++ t).
Proof.
  unfold rate_ok. intros [Hr _]%andb_prop Ht. apply Forall_app_2; [spell|].
  destruct r as [r|]; cbn [parse_bitrate] in Ht; [|injection Ht as <-; spell]. cbn [forallb] in Hr. split_andb.
  match type of Ht with match ?x with _ => _ end = _ => assert (t = x) as -> by (by destruct x; simplify_eq) end.
  pose proof (rate_value_small r ltac:(done) ltac:(done)).
  repeat match goal with
  | |- Forall _ (_ ++ _) => apply Forall_app_2
  | |- Forall _ (labelled _ _) => apply labelled_letters; [done|literal]
  | |- Forall _ (when _ _) => apply when_letters; literal
  end.
  unfold rate_text. destruct (Z.ltb_spec 0 (rate_value r)) as [Hp|]; [|constructor].
  pose proof (Z.mod_pos_bound (rate_value r) 10). pose proof (Z.div_pos (rate_value r) 10).
  pose proof (Z.div_le_upper_bound (rate_value r) 10 (2 ^ 33)). spell.
Qed.

Lemma rate_length r t : rate_ok r = true → parse_bitrate r = Ok t → (length t < 900)%nat.
Proof.
  unfold rate_ok. intros [Hr _]%andb_prop Ht.
  destruct r as [r|]; cbn [parse_bitrate] in Ht; [|injection Ht as <-; vm_compute; lia]. cbn [forallb] in Hr. split_andb.
  match type of Ht with match ?x with _ => _ end = _ => assert (t = x) as -> by (by destruct x; simplify_eq) end.
  pose proof (rate_value_small r ltac:(done) ltac:(done)).
  assert (∀ k o, u32_opt o = true → (length (labelled k o) ≤ length (lit_bytes k) + 21)%nat) as Hl.
  { intros k [z|] Hz; cbn [labelled u32_opt length] in *; [short|lia]. }
  assert (∀ b k, (length (when b k) ≤ length (lit_bytes k))%nat) as Hw by (intros []; cbn; lia).
  assert (length (rate_text (rate_value r)) ≤ 60)%nat as Hv.
  { unfold rate_text. destruct (Z.ltb_spec 0 (rate_value r)); [|cbn; lia].
    pose proof (Z.mod_pos_bound (rate_value r) 10). pose proof (Z.div_pos (rate_value r) 10).
    pose proof (Z.div_le_upper_bound (rate_value r) 10 (2 ^ 33)). short. }
  rewrite !length_app.
  repeat match goal with
  | |- context [length (labelled ?k ?o)] => 
      let H := fresh in pose proof (Hl k o ltac:(done)) as H; cbn [length lit_bytes] in H;
      let n := fresh in set (n := length (labelled k o)) in *; clearbody n
  | |- context [length (when ?b ?k)] =>
      let H := fresh in pose proof (Hw b k) as H;
      let n := fresh in set (n := length (when b k)) in *; clearbody n
  end.
  repeat match goal with
  | H : context [length (lit_bytes ?k)] |- _ => let n := eval vm_compute in (length (lit_bytes k)) in change (length (lit_bytes k)) with n in H
  end. lia.
Qed.

Lemma plain_rate r t : rate_ok r = true → parse_bitrate r = Ok t → plain "" (lit_bytes "Tx bitrate: " ++ t).
Proof.
  intros Hr Ht. apply (plain_letters _ _ (numeral ++ rate_letters)); [by apply rate_line_letters with r|done|done|].
  pose proof (rate_length r t Hr Ht). rewrite length_app. change (length (lit_bytes "Tx bitrate: ")) with 12%nat. lia.
Qed.

Lemma read_rate r l : match r with Some r => rate_ok r | None => true end = true →
  link_lines l (ended (rate_part r)) = Ok l.
Proof.
  destruct r as [r|]; [|done]. intros Hr. cbn [rate_part]. destruct (parse_bitrate r) as [t|] eqn:Et; [|done].
  by apply link_one, link_line_none, plain_rate with r.
Qed.

Lemma read_param p l : match p with Some (Some p) => param_ok p | _ => true end = true →
  let both := match p with Some (Some p) => (bp_dtim p, bp_beacon p) | _ => (il_dtim_period l, il_beacon_interval l) end in
  link_lines l (ended (param_part p)) =
  Ok (IwLink (il_connected l) (il_intf_name l) (il_SSID l) (il_mac_address l) (il_freq l) (il_rx_bytes l)
        (il_rx_packets l) (il_tx_bytes l) (il_tx_packets l) (il_signal l) both.1 both.2).
Proof.
  intros Hp both. destruct p as [[p|]|]; [| |by destruct l].
  2: { cbn [param_part ended fmap list_fmap link_lines]. rewrite (link_line_none [] l plain_empty). by destruct l. } unfold param_ok in Hp. split_andb.
  cbn [param_part ended fmap list_fmap link_lines]. rewrite link_line_none by apply plain_flags. cbn [mbind res_bind]. by rewrite (link_line_dtim p l) by in_range.
Qed.

(** What the agent finds behind the line with the name. *)
Lemma read_station freq m l : sta_ok m = true →
  let rx := match sm_rx_bytes m, sm_rx_packets m with Some b, Some p => (b, p) | _, _ => (il_rx_bytes l, il_rx_packets l) end in
  let tx := match sm_tx_bytes m, sm_tx_packets m with Some b, Some p => (b, p) | _, _ => (il_tx_bytes l, il_tx_packets l) end in
  let bss := match sm_bss m with Some (Some p) => (bp_dtim p, bp_beacon p) | _ => (il_dtim_period l, il_beacon_interval l) end in
  link_lines l (ended (freq_part freq ++ sta_parts m)) =
  Ok (IwLink (il_connected l) (il_intf_name l) (il_SSID l) (il_mac_address l) (from_option to_i32 (il_freq l) freq)
        rx.1 rx.2 tx.1 tx.2 (from_option (to_s 8) (il_signal l) (sm_signal m)) bss.1 bss.2).
Proof.
  unfold sta_ok. cbn [forallb]. intros Hm. split_andb. unfold sta_parts. rewrite !ended_app.
  rewrite link_lines_app, read_freq. cbn [mbind res_bind].
  rewrite link_lines_app, read_rx by done. cbn [mbind res_bind].
  rewrite link_lines_app, read_tx by done. cbn [mbind res_bind].
  rewrite link_lines_app, read_signal. cbn [mbind res_bind].
  rewrite link_lines_app, read_rate by done. cbn [mbind res_bind]. by rewrite read_param by done.
Qed.
End parts.

(** ** The other reader *)

Section sta_link.
Context `{Allocator}.

Ltac sta_tests own Hp :=
  unfold sta_link_line; rewrite (plain_nonzero own _ Hp); cbn zeta;
  repeat match goal with
  | |- context [strstr_at ?l (lit_bytes ?k)] =>
      assert_fails (unify k own); rewrite (silent_none own l k (proj1 Hp)) by first [done|literal|set_solver]
  end; cbn [mbind res_bind].

Definition sta_keys : list string := ["Connected"; "SSID:"; "Freq:"]%string.

Lemma sta_line_none own b l : plain own b → own ∉ sta_keys → sta_link_line l (b ++ [10]) = Ok l.
Proof. unfold sta_keys. intros Hp Ho. by sta_tests own Hp. Qed.

Lemma sta_line_connected mac dev l :
  let b := lit_bytes "Connected" ++ 32 :: mac ++ 32 :: dev in
  plain "Connected" b → word_ok 50 mac = true → copyable (mk_str mac) = true →
  sta_link_line l (b ++ [10]) = Ok (World.StaLink (canon (mk_str mac)) (sl_ssid l) (sl_freq l)).
Proof.
  intros b Hp Hm Hc. sta_tests "Connected"%string Hp.
  unfold b. rewrite <- app_assoc, strstr_at_head, sscanf_text by done. cbn [app].
  rewrite <- app_assoc, sscanf_blank, sscanf_space, (sscanf_conv _ _ _ _ _ (word_field 50 mac Hm)) by apply ends_blank.
  cbn [sscanf mbind res_bind str_at lookup list_lookup assigned]. by rewrite (copy_string_canon _ Hc).
Qed.

Lemma sta_line_ssid name rest l :
  let b := 9 :: lit_bytes "SSID:" ++ 32 :: name ++ rest in
  plain "SSID:" b → word_ok 50 name = true → ends_number (rest ++ [10]) → copyable (mk_str name) = true →
  sta_link_line l (b ++ [10]) = Ok (World.StaLink (sl_mac_address l) (canon (mk_str name)) (sl_freq l)).
Proof.
  intros b Hp Hn Hr Hc. sta_tests "SSID:"%string Hp. unfold b. cbn [app].
  rewrite <- app_assoc, (strstr_at_tab 83 (lit_bytes "SID:")) by done.
  change (83 :: lit_bytes "SID:") with (lit_bytes "SSID:"). rewrite sscanf_text by done. cbn [app].
  rewrite <- app_assoc, sscanf_blank, sscanf_space, (sscanf_conv _ _ _ _ _ (word_field 50 name Hn)) by done.
  cbn [sscanf mbind res_bind str_at lookup list_lookup assigned]. by rewrite (copy_string_canon _ Hc).
Qed.

Lemma sta_line_long_ssid name rest l :
  let b := 9 :: lit_bytes "SSID:" ++ 32 :: name ++ rest in
  plain "SSID:" b → Forall (λ c, isspace c = false) name → (50 ≤ length name)%nat → ends_number (rest ++ [10]) →
  sta_link_line l (b ++ [10]) = Err StackOverflow.
Proof.
  intros b Hp Hn Hl Hr. sta_tests "SSID:"%string Hp. unfold b. cbn [app].
  rewrite <- app_assoc, (strstr_at_tab 83 (lit_bytes "SID:")) by done.
  change (83 :: lit_bytes "SID:") with (lit_bytes "SSID:"). rewrite sscanf_text by done. cbn [app].
  rewrite <- app_assoc, sscanf_blank, sscanf_space. cbn [sscanf]. unfold convert.
  rewrite scan_word_app by first [done|intros ->; cbn in Hl; lia]. by rewrite bool_decide_false by lia.
Qed.

Lemma sta_line_freq f l : s_ok 32 f = true →
  sta_link_line l ((9 :: lit_bytes "Freq:" ++ 32 :: number f) ++ [10]) =
    Ok (World.StaLink (sl_mac_address l) (sl_ssid l) f).
Proof.
  intros Hf. pose proof (plain_freq f Hf) as Hp. sta_tests "Freq:"%string Hp. cbn [app].
  rewrite <- app_assoc, (strstr_at_tab 70 (lit_bytes "req:")) by done.
  change (70 :: lit_bytes "req:") with (lit_bytes "Freq:"). rewrite sscanf_text by done. cbn [app].
  rewrite sscanf_blank, sscanf_space, (sscanf_conv _ _ _ _ _ (number_field 32 f ltac:(lia) Hf)) by by apply ends_sep.
  done.
Qed.

(** Every line about the station. *)
Lemma sta_parts_plain m : sta_ok m = true → Forall (λ b, ∃ own, plain own b ∧ own ∉ sta_keys) (sta_parts m).
Proof.
  unfold sta_ok. cbn [forallb]. intros Hm. split_andb. unfold sta_parts. repeat apply Forall_app_2.
  - destruct (sm_rx_bytes m), (sm_rx_packets m); try constructor; [|constructor]. cbn [u32_opt] in *.
    exists "RX:"%string. split; [apply plain_counters; [by left|in_range..]|literal].
  - destruct (sm_tx_bytes m), (sm_tx_packets m); try constructor; [|constructor]. cbn [u32_opt] in *.
    exists "TX:"%string. split; [apply plain_counters; [by right|in_range..]|literal].
  - destruct (sm_signal m) as [z|]; repeat constructor. exists "Signal:"%string. split; [|literal]. apply plain_signal.
    pose proof (to_s_range 8 z ltac:(lia)). in_range.
  - unfold rate_part. destruct (sm_bitrate m) as [r|]; [|constructor]. destruct (parse_bitrate r) as [t|] eqn:Et; repeat constructor.
    exists ""%string. split; [by apply plain_rate with r|literal].
  - destruct (sm_bss m) as [[p|]|]; repeat constructor; unfold param_ok in *; split_andb.
    + exists ""%string. split; [apply plain_flags|literal].
    + exists "dtim period:"%string. split; [apply plain_dtim; in_range|literal].
    + exists ""%string. split; [apply plain_empty|literal].
Qed.

Lemma sta_lines_none bs l : Forall (λ b, ∃ own, plain own b ∧ own ∉ sta_keys) bs → sta_link_lines l (ended bs) = Ok l.
Proof.
  induction 1 as [|b bs (own & Hp & Ho) _ IH]; [done|]. cbn [ended fmap list_fmap sta_link_lines].
  by rewrite (sta_line_none own).
Qed.

Lemma sta_freq freq bs l : sta_link_lines l (ended (freq_part freq ++ bs)) =
  sta_link_lines (World.StaLink (sl_mac_address l) (sl_ssid l) (from_option to_i32 (sl_freq l) freq)) (ended bs).
Proof.
  destruct freq as [f|]; [|by destruct l]. cbn [freq_part app ended fmap list_fmap sta_link_lines from_option].
  assert (s_ok 32 (to_i32 f) = true) as Hf by (apply to_s_range; lia).
  pose proof (sta_line_freq (to_i32 f) l Hf) as E. cbn [app] in E. by rewrite E.
Qed.
End sta_link.

(** The agent gets the lines that were printed. *)
Lemma printed_lines bs : Forall (λ b, ∃ own, plain own b) bs → lines_of 999 (printed bs) = ended bs.
Proof.
  intros Hb. apply read_lines_cut; [|apply concat_lines_length].
  eapply Forall_impl; [exact Hb|]. intros b (own & _ & Hc & Hl). split; [|done].
  eapply Forall_impl; [exact Hc|]. by intros c [].
Qed.

Lemma parts_plain freq m : sta_ok m = true → Forall (λ b, ∃ own, plain own b) (freq_part freq ++ sta_parts m).
Proof.
  intros Hm. apply Forall_app_2.
  - destruct freq as [f|]; repeat constructor. eexists. apply plain_freq, to_s_range. lia.
  - eapply Forall_impl; [by apply sta_parts_plain|]. intros b (own & Hp & _). by exists own.
Qed.

(** ** What iw prints for a station that is connected *)

(** Elements that are not printed. *)
Definition unprinted (x : element) : bool :=
  negb (x.1 =? 0) && negb (x.1 =? 114) && (negb (x.1 =? 221) || bool_decide (3 ≤ length x.2)%nat).

Lemma print_ies_step fuel x l : element_ok x = true → print_ies_loop (S fuel) (render_elements (x :: l)) =
  (more ← print_ies_loop fuel (render_elements l);
   Ok ((if x.1 =? 0 then print_ie "SSID" x.2 else if x.1 =? 114 then print_ie "MESH ID" x.2
        else if x.1 =? 221 then print_vendor (length x.2) x.2 else []) ++ more)).
Proof.
  intros Hx. unfold render_elements. cbn [fmap list_fmap concat]. fold (render_elements l). unfold render_element.
  cbn [app print_ies_loop]. rewrite Nat2Z.id, take_app_length, drop_app_length.
  rewrite bool_decide_false by (cbn [length]; rewrite length_app; lia).
  rewrite ensure_Ok; [done|]. apply bool_decide_eq_true. rewrite length_app. unfold vendor_reads. repeat case_match; to_prop;
    repeat match goal with H : bool_decide _ = false |- _ => apply bool_decide_eq_false in H
                         | H : bool_decide _ = true |- _ => apply bool_decide_eq_true in H end; lia.
Qed.

Lemma print_ies_unprinted fuel l : forallb (λ x, element_ok x && unprinted x) l = true →
  (length l ≤ fuel)%nat → print_ies_loop fuel (render_elements l) = Ok [].
Proof.
  revert fuel. induction l as [|x l IH]; intros fuel Hl Hf; [by destruct fuel|]. cbn [forallb] in Hl. unfold unprinted in Hl.
  split_andb. cbn [length] in Hf. destruct fuel as [|fuel]; [lia|]. rewrite print_ies_step by done. rewrite IH by (done || lia).
  cbn [mbind res_bind]. rewrite app_nil_r. destruct (x.1 =? 0); [done|]. destruct (x.1 =? 114); [done|].
  destruct (x.1 =? 221); [|done]. cbn [negb orb] in *. to_prop. unfold print_vendor.
  match goal with H : bool_decide _ = true |- _ => apply bool_decide_eq_true in H end. by rewrite bool_decide_false by lia.
Qed.

Lemma length_render l : (length l ≤ length (render_elements l))%nat.
Proof.
  induction l as [|x l IH]; [done|]. unfold render_elements in *. cbn [fmap list_fmap concat]. rewrite length_app. cbn. lia.
Qed.

Lemma print_ies_ssid ssid l : (length ssid ≤ 32)%nat → forallb (λ x, element_ok x && unprinted x) l = true →
  print_ies (render_elements ((0, ssid) :: l)) = Ok (print_ie "SSID" ssid).
Proof.
  intros Hs Hl. unfold print_ies. pose proof (length_render ((0, ssid) :: l)) as Hf. cbn [length] in Hf.
  destruct (length (render_elements ((0, ssid) :: l))) as [|fuel]; [lia|].
  rewrite print_ies_step by (unfold element_ok; cbn; lia). rewrite print_ies_unprinted by (done || lia).
  cbn [mbind res_bind fst snd]. by rewrite app_nil_r.
Qed.

(** A result of a scan that is not about a connection. *)
Definition idle (m : option bss_msg) : bool :=
  match m with Some (BssMsg (Some _) (Some _) _ _ _) => false | _ => true end.

Lemma idle_messages ms lr : forallb idle ms = true → link_bss_messages ms lr = Ok ([], lr).
Proof.
  revert lr. induction ms as [|m ms IH]; intros lr; [done|]. cbn [forallb]. intros [Hm Hms]%andb_prop.
  cbn [link_bss_messages].
  assert (link_bss_handler m lr = Ok ([], lr)) as -> by (by destruct m as [[[] [] ?? ?]|]).
  cbn [mbind res_bind]. by rewrite IH.
Qed.

Lemma messages_app a b lr : link_bss_messages (a ++ b) lr =
  ('(out, lr) ← link_bss_messages a lr; '(more, lr) ← link_bss_messages b lr; Ok (out ++ more, lr)).
Proof.
  revert lr. induction a as [|m a IH]; intros lr; cbn [app link_bss_messages mbind res_bind].
  - by destruct (link_bss_messages b lr) as [[? ?]|].
  - destruct (link_bss_handler m lr) as [[out lr1]|]; [|done]. cbn [mbind res_bind]. rewrite IH.
    destruct (link_bss_messages a lr1) as [[o2 lr2]|]; [|done]. cbn [mbind res_bind].
    destruct (link_bss_messages b lr2) as [[o3 lr3]|]; [|done]. cbn [mbind res_bind]. by rewrite app_assoc.
Qed.

(** The two lines about the access point. *)
Definition connected_body (bssid dev : list Z) : list Z := lit_bytes "Connected" ++ 32 :: colon_hex bssid ++ 32 :: dev.
Definition ssid_body (ssid : list Z) : list Z := 9 :: lit_bytes "SSID:" ++ 32 :: print_ssid_escaped ssid.

Definition associated (bssid ssid : list Z) (es : list element) (freq : option Z) (dev : list Z) : option bss_msg :=
  Some (BssMsg (Some bssid) (Some NL80211_BSS_STATUS_ASSOCIATED) (Some (render_elements ((0, ssid) :: es))) freq dev).

Lemma handle_link_connected before bssid ssid es freq dev after station m :
  forallb idle before = true → forallb idle after = true → length bssid = 6%nat → (length ssid ≤ 32)%nat →
  forallb (λ x, element_ok x && unprinted x) es = true → station bssid = Some m → sta_ok m = true →
  handle_link (before ++ associated bssid ssid es freq dev :: after) station =
  Ok (printed ([connected_body bssid dev; ssid_body ssid] ++ freq_part freq ++ sta_parts m)).
Proof.
  intros Hb Ha Hl Hs He Est Hm. unfold handle_link. rewrite messages_app, idle_messages by done.
  cbn [mbind res_bind link_bss_messages]. unfold associated. cbn [link_bss_handler].
  rewrite Z.eqb_refl, print_ies_ssid by done. cbn [mbind res_bind]. rewrite idle_messages by done. cbn [mbind res_bind app].
  rewrite app_nil_r. cbn [link_found lr_bssid]. rewrite take_ge by lia. rewrite Est, print_link_sta_parts by done.
  cbn [mbind res_bind]. change (connected_body bssid dev :: ssid_body ssid :: ?x) with ([connected_body bssid dev] ++ [ssid_body ssid] ++ x).
  rewrite !printed_app, !printed_one. f_equal. unfold connected_body, ssid_body, print_ie, print_ssid.
  rewrite bool_decide_true by done. change (lit_bytes "Connected ") with (lit_bytes "Connected" ++ [32]).
  rewrite <- !app_assoc. f_equal. cbn [app]. f_equal. rewrite <- !app_assoc. f_equal. cbn [app]. rewrite <- !app_assoc.
  do 2 f_equal. cbn [app]. do 2 f_equal. change (lit_bytes "SSID:" ++ ?x) with (lit_bytes "SSID" ++ 58 :: x).
  do 5 f_equal. destruct freq as [f|]; [|done]. cbn [freq_part]. by rewrite printed_one.
Qed.

(** ** The round trip *)

(** The conditions on the names: the name of the interface and the first word of
    the network's name fit the arrays of the agent, and no keyword occurs in the
    two lines but their own. *)
Definition network_ok (bssid ssid : list Z) (es : list element) (dev : list Z) : Prop :=
  length bssid = 6%nat ∧ forallb is_byte bssid = true ∧ (length ssid ≤ 32)%nat ∧ forallb is_byte ssid = true ∧
  forallb (λ x, element_ok x && unprinted x) es = true ∧ word_ok 50 dev = true ∧
  silent "Connected" (connected_body bssid dev ++ [10]) = true ∧ silent "SSID:" (ssid_body ssid ++ [10]) = true.
Definition first_word (ssid : list Z) : list Z := (word_split (print_ssid_escaped ssid)).1.

Lemma word_split_spec s w r : word_split s = (w, r) →
  s = w ++ r ∧ Forall (λ c, isspace c = false) w ∧ ends_number (r ++ [10]).
Proof.
  revert w r. induction s as [|c s IH]; intros w r; cbn [word_split].
  - intros [= <- <-]. split; [done|]. split; [constructor|]. by apply ends_sep.
  - destruct (isspace c) eqn:Ec; [intros [= <- <-]|destruct (word_split s) as [w' r'] eqn:E; intros [= <- <-]].
    + split; [done|]. split; [constructor|]. by apply ends_sep.
    + destruct (IH _ _ eq_refl) as (-> & Hw & Hr). split; [done|]. split; [by constructor|done].
Qed.

Lemma escaped_length ssid : (length ssid ≤ 32)%nat → (length (print_ssid_escaped ssid) ≤ 128)%nat.
Proof. intros Hl. pose proof (length_escaped (length ssid) 0 ssid). unfold print_ssid_escaped. lia. Qed.

Lemma colon_hex_range a : forallb is_byte a = true → Forall (λ c, 48 ≤ c ≤ 102) (colon_hex a).
Proof.
  induction a as [|b [|c l] IH]; intros Ha; [constructor|..]; cbn [forallb] in Ha; split_andb;
    match goal with Hb : is_byte b = true |- _ => destruct (byte_digits b Hb) as [Hq Hr] end;
    apply hexdigit_char in Hq as [? _]; apply hexdigit_char in Hr as [? _].
  - cbn. repeat constructor; lia.
  - rewrite colon_hex_cons. apply Forall_app_2; [cbn; repeat constructor; lia|]. constructor; [lia|].
    apply IH. cbn [forallb]. by split_andb.
Qed.

Lemma colon_hex_length a : length a = 6%nat → length (colon_hex a) = 17%nat.
Proof. intros Hl. do 6 (destruct a as [|? a]; [done|]). by destruct a. Qed.

Section names.
Context (bssid ssid : list Z) (es : list element) (dev : list Z) (Hn : network_ok bssid ssid es dev).

Lemma mac_length : length (colon_hex bssid) = 17%nat.
Proof. destruct Hn as (Hl & _). by apply colon_hex_length. Qed.

Lemma mac_word : word_ok 50 (colon_hex bssid) = true.
Proof.
  pose proof mac_length as Hl. destruct Hn as (_ & Hb & _). unfold word_ok. rewrite Hl.
  assert (colon_hex bssid ≠ []) as Hne by (intros E; by rewrite E in Hl). rewrite bool_decide_false by done.
  cbn [negb]. rewrite !andb_true_r. apply forallb_forall. intros c Hc%list_elem_of_In.
  pose proof (proj1 (Forall_forall _ _) (colon_hex_range bssid Hb) c Hc) as Hr. unfold isspace, is_char. cbn in Hr. lia.
Qed.

Lemma word_chars room w : word_ok room w = true → Forall (λ c, c ≠ 0 ∧ c ≠ 10) w ∧ (length w < room)%nat.
Proof.
  intros [[Hw _]%andb_prop Hl%bool_decide_eq_true]%andb_prop. split; [|done].
  eapply Forall_impl; [by apply forallb_Forall|]. cbn. unfold isspace, is_char. intros c Hc. lia.
Qed.

Lemma plain_connected : plain "Connected" (connected_body bssid dev).
Proof.
  pose proof mac_length as Hlm. destruct (word_chars _ _ mac_word) as [Hm _].
  destruct Hn as (_ & _ & _ & _ & _ & Hd & Hs & _). destruct (word_chars _ _ Hd) as [Hdc Hdl].
  split; [done|]. unfold connected_body. split.
  - apply Forall_app_2; [literal|]. constructor; [lia|]. apply Forall_app_2; [done|]. by constructor.
  - rewrite length_app. cbn [length]. rewrite length_app. cbn [length]. rewrite Hlm.
    change (length (lit_bytes "Connected")) with 9%nat. lia.
Qed.

Lemma plain_ssid : plain "SSID:" (ssid_body ssid).
Proof.
  destruct Hn as (_ & _ & Hl & Hb & _ & _ & _ & Hs). split; [done|]. unfold ssid_body. split.
  - constructor; [lia|]. apply Forall_app_2; [literal|]. constructor; [lia|].
    eapply Forall_impl; [by apply escaped_printable|]. cbn. lia.
  - pose proof (escaped_length ssid Hl). short.
Qed.
End names.

(** What the two readers should report. *)
Definition link_of (bssid ssid : list Z) (freq : option Z) (dev : list Z) (m : sta_msg) : iw_link_info_t :=
  let rx := match sm_rx_bytes m, sm_rx_packets m with Some b, Some p => (b, p) | _, _ => (0, 0) end in
  let tx := match sm_tx_bytes m, sm_tx_packets m with Some b, Some p => (b, p) | _, _ => (0, 0) end in
  let bss := match sm_bss m with Some (Some p) => (bp_dtim p, bp_beacon p) | _ => (0, 0) end in
  IwLink true (mk_str dev) (mk_str (first_word ssid)) (mk_str (colon_hex bssid)) (from_option to_i32 0 freq)
    rx.1 rx.2 tx.1 tx.2 (from_option (to_s 8) 0 (sm_signal m)) bss.1 bss.2.

Lemma canon_word room w : word_ok room w = true → canon (mk_str w) = mk_str w.
Proof.
  intros [[Hw He%negb_true_iff%bool_decide_eq_false]%andb_prop _]%andb_prop. unfold canon.
  rewrite text_mk; [by destruct w|]. apply forallb_forall. intros c Hc. rewrite forallb_forall in Hw.
  by apply Hw, andb_prop in Hc as [_ ?].
Qed.

Section roundtrip.
Context {W : Type} `{Shell W, Allocator}.

Definition link_command (iw intf : list Z) : list Z :=
  lit_bytes "sudo " ++ iw ++ lit_bytes " dev " ++ intf ++ lit_bytes " link".

(** Both readers run the same command. *)
Lemma get_iw_link_lines iw intf out w w' : named iw = true → named intf = true →
  dumps (link_command (text iw) (text intf)) out w w' →
  get_iw_link iw intf w = (l ← link_lines iw_link_init (lines_of 999 out); Ok (Some l, w')).
Proof.
  intros Hiw Hintf [Hc Hp]. unfold get_iw_link. assert (nonnull intf = true) as -> by (by destruct intf). cbn [negb].
  run (lift_Ok _ w _ (chars_named iw Hiw)). run (lift_Ok _ w _ (chars_named intf Hintf)).
  fold (link_command (text iw) (text intf)). rewrite sprintf_local_Ok by done.
  run (lift_Ok (Ok (link_command (text iw) (text intf))) w _ eq_refl). run Hp.
  unfold lift, mbind, ST_bind. by destruct (link_lines _ _).
Qed.
Lemma get_sta_link_lines iw intf out w w' : named iw = true → named intf = true →
  dumps (link_command (text iw) (text intf)) out w w' →
  get_sta_link_information iw intf w =
    (l ← sta_link_lines (World.StaLink None None 0) (lines_of 999 out); Ok (Some l, w')).
Proof.
  intros Hiw Hintf [Hc Hp]. unfold get_sta_link_information. assert (nonnull intf = true) as -> by (by destruct intf).
  cbn [negb]. run (lift_Ok _ w _ (chars_named iw Hiw)). run (lift_Ok _ w _ (chars_named intf Hintf)).
  fold (link_command (text iw) (text intf)). rewrite sprintf_local_Ok by done.
  run (lift_Ok (Ok (link_command (text iw) (text intf))) w _ eq_refl). run Hp.
  unfold lift, mbind, ST_bind. by destruct (sta_link_lines _ _).
Qed.

Lemma report_plain bssid ssid es dev freq m : network_ok bssid ssid es dev → sta_ok m = true →
  lines_of 999 (printed ([connected_body bssid dev; ssid_body ssid] ++ freq_part freq ++ sta_parts m)) =
  (connected_body bssid dev ++ [10]) :: (ssid_body ssid ++ [10]) :: ended (freq_part freq ++ sta_parts m).
Proof.
  intros Hn Hm. rewrite printed_lines; [done|]. cbn [app].
  constructor; [eexists; by eapply plain_connected|]. constructor; [eexists; by eapply plain_ssid|]. by apply parts_plain.
Qed.


(** A name whose escaped first word is longer than 49 characters -- 13 bytes
    that are not printable are enough, and a name may have 32 -- overflows the
    local array of both readers: an access point can write behind the arrays of
    a station that is connected to it. *)
Theorem long_ssid_overflows iw intf before bssid ssid es freq dev after station m w w' :
  named iw = true → named intf = true → forallb idle before = true → forallb idle after = true →
  network_ok bssid ssid es dev → (50 ≤ length (first_word ssid))%nat → station bssid = Some m → sta_ok m = true →
  copyable (mk_str dev) = true → copyable (mk_str (colon_hex bssid)) = true →
  (∀ out, handle_link (before ++ associated bssid ssid es freq dev :: after) station = Ok out →
    dumps (link_command (text iw) (text intf)) out w w') →
  get_iw_link iw intf w = Err StackOverflow ∧ get_sta_link_information iw intf w = Err StackOverflow.
Proof.
  intros Hiw Hintf Hb Ha Hn Hw Est Hm Hc1 Hc3 Hd. pose proof Hn as (Hl & _ & Hs & _ & He & Hdev & _).
  specialize (Hd _ (handle_link_connected before bssid ssid es freq dev after station m Hb Ha Hl Hs He Est Hm)).
  pose proof (mac_word _ _ _ _ Hn) as Hmac. unfold first_word in Hw.
  destruct (word_split (print_ssid_escaped ssid)) as [name rest] eqn:Ew. cbn [fst] in Hw.
  destruct (word_split_spec _ _ _ Ew) as (Es & Hname & Hr).
  assert (ssid_body ssid = 9 :: lit_bytes "SSID:" ++ 32 :: name ++ rest) as Eb by (unfold ssid_body; by rewrite Es).
  pose proof (plain_ssid _ _ _ _ Hn) as Hps. rewrite Eb in Hps. split.
  - rewrite (get_iw_link_lines _ _ _ _ _ Hiw Hintf Hd), report_plain with (es := es) by done. cbn [link_lines].
    unfold connected_body. rewrite link_line_connected by (done || by eapply plain_connected). cbn [mbind res_bind].
    by rewrite Eb, link_line_long_ssid by done.
  - rewrite (get_sta_link_lines _ _ _ _ _ Hiw Hintf Hd), report_plain with (es := es) by done. cbn [sta_link_lines].
    unfold connected_body. rewrite sta_line_connected by (done || by eapply plain_connected). cbn [mbind res_bind].
    by rewrite Eb, sta_line_long_ssid by done.
Qed.
End roundtrip.

(** ** A station *)

(** A shell that prints the same text for every command. *)
#[local] Instance report_shell : Shell (list Z) := {|
  popen _ w := Ok (Some w, w); system _ := mret 0; time := mret 0
|}.

Definition sample_bssid : list Z := [184; 163; 134; 80; 103; 46].
Definition sample_sta : sta_msg :=
  StaMsg (Some 6290) (Some 53) (Some 471) (Some 5) (Some 220)
    (Some (Some (RateInfo None (Some 10) None None false false false false false None)))
    (Some (Some (BssParam false true true 2 100))).
Definition sample_msgs (ssid : list Z) : list (option bss_msg) :=
  [Some (BssMsg (Some [0; 1; 2; 3; 4; 5]) None None (Some 2412) (lit_bytes "wlan0"));
   associated sample_bssid ssid [(1, [130; 132]); (221, [0; 80; 242; 2; 1])] (Some 2417) (lit_bytes "wlan0")].
Definition sample_report (ssid : list Z) : list Z :=
  match handle_link (sample_msgs ssid) (λ _, Some sample_sta) with Ok out => out | Err _ => [] end.


Lemma long_ssid_overflows_witness :
  let w := sample_report (replicate 13 1) in
  @get_iw_link _ report_shell glibc_alloc (lit "./iw") (lit "wlan0") w = Err StackOverflow ∧
  @get_sta_link_information _ report_shell glibc_alloc (lit "./iw") (lit "wlan0") w = Err StackOverflow.
Proof.
  intros w. apply (@long_ssid_overflows _ report_shell glibc_alloc (lit "./iw") (lit "wlan0")
    [Some (BssMsg (Some [0; 1; 2; 3; 4; 5]) None None (Some 2412) (lit_bytes "wlan0"))] sample_bssid
    (replicate 13 1) [(1, [130; 132]); (221, [0; 80; 242; 2; 1])] (Some 2417) (lit_bytes "wlan0") []
    (λ _, Some sample_sta) sample_sta w w); try (vm_compute; reflexivity).
  - split_and!; first [vm_compute; lia|vm_compute; reflexivity].
  - vm_compute. lia.
  - intros out E. split; [vm_compute; lia|]. unfold w, sample_report, sample_msgs. cbn [app] in E. by rewrite E.
Defined.
