(* ===== verification/RadioTools.v ===== *)
(** Settings of a radio: [80211e.c], [iw_powersave.c], [ap_txpower.c],
    [get_snr_ap.c] and [wapi_txpower.c] of [ethanol_functions/], with
    [iw-4.9/ps.c] and [handle_txpower] of [iw-4.9/phy.c] on the other side of
    the shell. *)
From stdpp Require Import prelude list gmap strings.
From Stdlib Require Import SpecFloat.
From S2P Require Import Prelude CMem Strlib Lines IniFile ConfigFile Connect Utils MemInfo Scanf CFloat.
From S2P Require Import BufferHandler World IwDump IwBitrates StationLink MsgConfig SnrLists LinkDump.

(** ** 80211e.c *)

(** [struct hostapd_is_80211e_enabled]: a name and a flag, from the head of the
    list on. *)
Definition wmm_entry : Type := charp * bool.

Fixpoint wmm_change (h : list wmm_entry) (intf_name : charp) (value : bool) : res (option (list wmm_entry)) :=
  match h with
  | [] => Ok None
  | (n, v) :: h' =>
      b ← streq n intf_name;
      if b : bool then Ok (Some ((n, value) :: h'))
      else r ← wmm_change h' intf_name value; Ok (option_map (cons (n, v)) r)
  end.

Definition set_if_hostapd_is_80211e_enabled (intf_name : charp) (value : bool) (h : list wmm_entry) : res (list wmm_entry) :=
  r ← wmm_change h intf_name value;
  match r with
  | Some h' => Ok h'
  | None => s ← chars intf_name; Ok ((mk_str s, value) :: h)
  end.

(** Every node is released, and the head is NULL. *)
Definition free_hostapd_is_80211e_enabled (h : list wmm_entry) : list wmm_entry := [].

Fixpoint is_80211e_enabled (intf_name : charp) (h : list wmm_entry) : res bool :=
  match h with
  | [] => Ok false
  | (n, v) :: h' => b ← streq n intf_name; if b : bool then Ok v else is_80211e_enabled intf_name h'
  end.

(** ** Power save *)

(** ps.c: the state that a list of arguments asks for, or the result of the
    command. *)
Definition NL80211_PS_DISABLED : Z := 0.
Definition NL80211_PS_ENABLED : Z := 1.

Definition set_power_save (argv : list (list Z)) : Z + Z :=
  match argv with
  | [a] =>
      if bool_decide (a = lit_bytes "on") then inl NL80211_PS_ENABLED
      else if bool_decide (a = lit_bytes "off") then inl NL80211_PS_DISABLED
      else inr 2
  | _ => inr 1
  end.

(** The attribute of the answer, when it is there. *)
Definition print_power_save_handler (state : option Z) : list Z :=
  match state with
  | Some s => lit_bytes "Power save: " ++ lit_bytes (if s =? NL80211_PS_ENABLED then "on" else "off") ++ [10]
  | None => []
  end.

Section tools.
Context {W : Type} `{Shell W, Allocator}.

Definition power_save_command (iw intf : list Z) (what : string) : list Z :=
  lit_bytes "sudo " ++ iw ++ lit_bytes " dev " ++ intf ++ lit_bytes what.

Definition set_powersave_mode (iw_path intf_name : charp) (enable : bool) : ST W Z :=
  iw ← lift (chars iw_path);
  intf ← lift (chars intf_name);
  cmd ← lift (sprintf_local 2000
    (power_save_command iw intf " set power_save " ++ lit_bytes (if enable then "on" else "off")));
  system cmd.

(** The first line that contains the keyword decides. *)
Fixpoint power_save_lines (lines : list (list Z)) : bool :=
  match lines with
  | [] => false
  | buf :: lines =>
      let line := upto_nul buf in
      if strstr line (lit_bytes "Power save:") then negb (strstr line (lit_bytes "off")) else power_save_lines lines
  end.

Definition get_powersave_mode (iw_path intf_name : charp) : ST W bool :=
  iw ← lift (chars iw_path);
  intf ← lift (chars intf_name);
  cmd ← lift (sprintf_local 2000 (power_save_command iw intf " get power_save"));
  pp ← popen cmd;
  match pp with Some out => mret (power_save_lines (lines_of 999 out)) | None => mret false end.

(** ** Transmission power *)

(** ap_txpower.c: [txpower * 100] is computed as [float]. *)
Definition ap_set_txpower (iw_path intf_name : charp) (txpower : spec_float) (type : Z) : ST W Z :=
  new_power ← lift (sf_to_int 32 (SFmul 24 128 txpower (f32_of_Z 100)));
  if negb (nonnull iw_path) then mret (-1) else
  iw ← lift (chars iw_path);
  intf ← lift (chars intf_name);
  cmd ← lift (sprintf_local 2000
    (power_save_command iw intf " set txpower " ++
     (if (type =? 1) || (type =? 2) then lit_bytes (if type =? 1 then "fixed " else "limit ") ++ number new_power
      else lit_bytes "auto")));
  system cmd.

(** The first line that contains the keyword: what [txpower] is assigned, and 0;
    or -1. *)
Fixpoint txpower_lines (lines : list (list Z)) (old : spec_float) : res (spec_float * Z) :=
  match lines with
  | [] => Ok (old, -1)
  | buf :: lines =>
      match strstr_at (upto_nul buf) (lit_bytes "txpower") with
      | Some p =>
          match scan_word p with
          | Some (w, r) =>
              ensure (bool_decide (length w < 200)%nat) StackOverflow;;
              Ok (default old (scan_float r), 0)
          | None => Ok (old, 0)
          end
      | None => txpower_lines lines old
      end
  end.
Definition ap_get_txpower (iw_path intf_name : charp) (old : spec_float) : ST W (spec_float * Z) :=
  iw ← lift (chars iw_path);
  intf ← lift (chars intf_name);
  cmd ← lift (sprintf_local 2000 (power_save_command iw intf " info"));
  pp ← popen cmd;
  match pp with Some out => lift (txpower_lines (lines_of 999 out) old) | None => mret (old, -1) end.

(** wapi_txpower.c: [iwconfig] composed in 128 bytes. *)
Definition system_set_txpower (intf_name : charp) (new_txpower : Z) : ST W Z :=
  intf ← lift (chars intf_name);
  cmd ← lift (sprintf_local 128 (lit_bytes "iwconfig " ++ intf ++ lit_bytes " txpower " ++ number new_txpower));
  r ← system cmd;
  mret (if 0 <=? r then 0 else -1).

(** ** get_snr_ap.c *)

(** The number behind the first [Tx-Power=]; [junk] is what [txp] holds when none
    is read. *)
Fixpoint iwconfig_lines (junk : spec_float) (lines : list (list Z)) (tx_power : spec_float) : spec_float :=
  match lines with
  | [] => tx_power
  | buf :: lines =>
      match strstr_at (upto_nul buf) (lit_bytes "Tx-Power") with
      | Some p => if bool_decide (take 9 p = lit_bytes "Tx-Power=") then default junk (scan_float (drop 9 p)) else junk
      | None => iwconfig_lines junk lines tx_power
      end
  end.

Definition minus_one : spec_float := f32_of_Z (-1).

Definition get_tx_power_iwconfig (junk : spec_float) (iwconfig_path intf_name : charp) : ST W spec_float :=
  path ← (if nonnull iwconfig_path then mret iwconfig_path else Connect.which_path (lit "iwconfig"));
  if negb (nonnull path) then mret minus_one else
  p ← lift (chars path);
  intf ← lift (chars intf_name);
  cmd ← lift (sprintf_local 2000 (p ++ [32] ++ intf));
  pp ← popen cmd;
  match pp with Some out => mret (iwconfig_lines junk (lines_of 999 out) minus_one) | None => mret minus_one end.

(** The loop over the lines: [v] is overwritten by every line, up to the one that
    is looked for. *)
Definition survey_field (v : survey_info) (i : nat) : Z :=
  nth i [si_freq v; si_in_use v; si_noise v; si_chan_active_t v; si_chan_busy_t v; si_chan_ext_busy_t v;
         si_chan_t_rx v; si_chan_t_tx v] 0.
Fixpoint active_lines (frequency : Z) (lines : list (list Z)) (v : survey_info) : res survey_info :=
  match lines with
  | [] => Ok v
  | line :: lines =>
      v ← scan_survey (survey_field v) line;
      if ((0 <? frequency) && (si_freq v =? frequency)) || ((frequency <? 0) && (si_in_use v =? 1)) then Ok v
      else active_lines frequency lines v
  end.

(** [v] holds anything but for the frequency, which is set to -1. *)
Definition get_survey_dump_active (iw_path intf_name : charp) (frequency : Z) (v : survey_info) : ST W survey_info :=
  let v := SurveyInfo (-1) (si_in_use v) (si_noise v) (si_chan_active_t v) (si_chan_busy_t v) (si_chan_ext_busy_t v)
             (si_chan_t_rx v) (si_chan_t_tx v) in
  iw ← lift (chars iw_path);
  intf ← lift (chars intf_name);
  cmd ← lift (sprintf_local 2000 (survey_command iw intf));
  pp ← popen cmd;
  match pp with Some out => lift (active_lines frequency (lines_of 999 out) v) | None => mret v end.

(** [tx_power - survey.noise] is computed as [float]. *)
Definition get_snr_ap (iw_path iwconfig_path intf_name : charp) (junk : spec_float) (v : survey_info) : ST W spec_float :=
  survey ← get_survey_dump_active iw_path intf_name (-1) v;
  if 0 <? si_freq survey then
    tx_power ← get_tx_power_iwconfig junk iwconfig_path intf_name;
    mret (if SFltb (f32_of_Z 0) tx_power then to_f64 (SFsub 24 128 tx_power (f32_of_Z (si_noise survey)))
          else f64_of_Z (-1))
  else mret (f64_of_Z (-1)).
End tools.

(** [strtol] stops at the ends of [long]. *)
Definition strtol_range (z : Z) : Z := Z.max (- 2 ^ 63) (Z.min (2 ^ 63 - 1) z).

(** phy.c: the setting and the power that a list of arguments asks for. *)
Inductive tx_power_setting := NL80211_TX_POWER_AUTOMATIC | NL80211_TX_POWER_LIMITED | NL80211_TX_POWER_FIXED.
Definition handle_txpower (argv : list (list Z)) : (tx_power_setting * option Z) + Z :=
  match argv with
  | [] => inr 1
  | a :: rest =>
      if bool_decide (2 ≤ length rest)%nat then inr 1
      else
        let level (t : tx_power_setting) :=
          match rest with
          | [b] => match scan_number false false (lskip b) with
                   | Some (z, []) => inl (t, Some (to_i32 (strtol_range z)))
                   | Some (_, _ :: _) => inr 2
                   | None => if bool_decide (b = []) then inl (t, Some 0) else inr 2
                   end
          | _ => inr 2
          end in
        if bool_decide (a = lit_bytes "auto") then match rest with [] => inl (NL80211_TX_POWER_AUTOMATIC, None) | _ => inr 1 end
        else if bool_decide (a = lit_bytes "fixed") then level NL80211_TX_POWER_FIXED
        else if bool_decide (a = lit_bytes "limit") then level NL80211_TX_POWER_LIMITED
        else inr 2
  end.

(** ** The list of 802.11e settings is a map *)

(** The list as one of numbers, as the lists of [MsgConfig]. *)
Definition numbers (h : list wmm_entry) : list snr_entry := (λ e, (e.1, Z.b2z e.2)) <$> h.

Lemma wmm_change_numbers h p v : snr_update (numbers h) p (Z.b2z v) =
  (r ← wmm_change h p v; Ok (option_map numbers r)).
Proof.
  induction h as [|[n b] h IH]; [done|]. cbn [numbers fmap list_fmap snr_update wmm_change fst snd]. fold (numbers h).
  destruct (streq n p) as [[]|]; cbn [mbind res_bind]; [done| |done]. rewrite IH.
  destruct (wmm_change h p v) as [[r|]|]; done.
Qed.
Lemma set_numbers h p v : snr_set (numbers h) p (Z.b2z v) =
  (r ← set_if_hostapd_is_80211e_enabled p v h; Ok (numbers r)).
Proof.
  unfold snr_set, set_if_hostapd_is_80211e_enabled. rewrite wmm_change_numbers.
  destruct (wmm_change h p v) as [[r|]|]; cbn [mbind res_bind option_map]; [done| |done]. by destruct (chars p).
Qed.
Lemma get_numbers h p : snr_get (numbers h) p 0 = (b ← is_80211e_enabled p h; Ok (Z.b2z b)).
Proof.
  induction h as [|[n b] h IH]; [done|]. cbn [numbers fmap list_fmap snr_get is_80211e_enabled fst snd]. fold (numbers h).
  destruct (streq n p) as [[]|]; cbn [mbind res_bind]; [done|exact IH|done].
Qed.

Inductive wmm_op := WmmSet (intf_name : charp) (value : bool) | WmmFree.
Fixpoint wmm_run (ops : list wmm_op) (h : list wmm_entry) : res (list wmm_entry) :=
  match ops with
  | [] => Ok h
  | WmmSet n v :: ops => h ← set_if_hostapd_is_80211e_enabled n v h; wmm_run ops h
  | WmmFree :: ops => wmm_run ops (free_hostapd_is_80211e_enabled h)
  end.
Fixpoint wmm_map (ops : list wmm_op) (m : gmap (list Z) bool) : gmap (list Z) bool :=
  match ops with
  | [] => m
  | WmmSet n v :: ops => wmm_map ops (<[text n := v]> m)
  | WmmFree :: ops => wmm_map ops ∅
  end.
Definition wmm_named (op : wmm_op) : bool := match op with WmmSet n _ => named n | WmmFree => true end.

Lemma wmm_run_map ops h m : forallb wmm_named ops = true → snr_inv (numbers h) → snr_map (numbers h) = Z.b2z <$> m →
  ∃ h', wmm_run ops h = Ok h' ∧ snr_inv (numbers h') ∧ snr_map (numbers h') = Z.b2z <$> wmm_map ops m.
Proof.
  revert h m. induction ops as [|[n v|] ops IH]; intros h m Hops Hi Hm; [by exists h| |]; cbn [forallb] in Hops;
    apply andb_prop in Hops as [Hn Hops]; cbn [wmm_run wmm_map].
  - destruct (snr_set_spec (numbers h) n (Z.b2z v) Hi Hn) as (l & E & Hi' & Hm'). rewrite set_numbers in E.
    destruct (set_if_hostapd_is_80211e_enabled n v h) as [h1|] eqn:E1; [|done]. cbn [mbind res_bind] in *.
    injection E as <-. apply IH; [done|done|]. by rewrite Hm', Hm, fmap_insert.
  - apply IH; [done|split; constructor|]. by rewrite fmap_empty.
Qed.

(** C40: the list behind [is_80211e_enabled] implements a map from interface names
    to flags: whatever was set and released before, an interface is reported as
    enabled exactly when it was last set so, and an interface that was never
    set is not. *)
Theorem wmm_list_refines_map ops q : forallb wmm_named ops = true → named q = true →
  ∃ h, wmm_run ops [] = Ok h ∧ is_80211e_enabled q h = Ok (default false (wmm_map ops ∅ !! text q)).
Proof.
  intros Hops Hq. destruct (wmm_run_map ops [] ∅ Hops) as (h & E & Hi & Hm); [split; constructor|by rewrite fmap_empty|].
  exists h. split; [done|]. pose proof (snr_get_spec (numbers h) q 0 Hi Hq) as Hg. rewrite get_numbers, Hm, lookup_fmap in Hg.
  destruct (is_80211e_enabled q h) as [b|]; [|done]. cbn [mbind res_bind] in Hg. injection Hg as Hb. f_equal.
  destruct (wmm_map ops ∅ !! text q) as [c|]; cbn in *; [by destruct b, c|by destruct b].
Qed.

Lemma wmm_list_refines_map_witness :
  ∃ h, wmm_run [WmmSet (lit "wlan0") true; WmmSet (lit "wlan1") true; WmmSet (lit "wlan0") false] [] = Ok h ∧
    is_80211e_enabled (lit "wlan0") h = Ok false.
Proof.
  destruct (wmm_list_refines_map [WmmSet (lit "wlan0") true; WmmSet (lit "wlan1") true; WmmSet (lit "wlan0") false]
    (lit "wlan0")) as (h & E & Hq); [reflexivity|reflexivity|]. exists h. split; [exact E|].
  rewrite Hq. vm_compute. reflexivity.
Defined.

(** ** Power save and power settings *)

Section iw.
Context {W : Type} `{Shell W, Allocator} (ps_of : W → option Z) (put_ps : Z → W → W).

(** A host whose shell runs [iw] on a radio with a power save state. *)
Definition runs_power_save (iw intf : list Z) : Prop :=
  (∀ arg w, system (power_save_command iw intf " set power_save " ++ arg) w =
     match set_power_save [arg] with inl z => Ok (0, put_ps z w) | inr e => Ok (e, w) end) ∧
  (∀ w, popen (power_save_command iw intf " get power_save") w = Ok (Some (print_power_save_handler (ps_of w)), w)).

Lemma power_save_lines_printed z : z = NL80211_PS_ENABLED ∨ z = NL80211_PS_DISABLED →
  power_save_lines (lines_of 999 (print_power_save_handler (Some z))) = (z =? NL80211_PS_ENABLED).
Proof. by intros [-> | ->]; vm_compute. Qed.

(** The power save mode that the agent sets with [iw] is the one it reads
    back: [set_powersave_mode] gives [iw] an argument it understands, and
    [get_powersave_mode] finds the answer in what [iw] prints; a radio that
    reports no state is taken as not saving power. *)
Theorem power_save_roundtrip iw_path intf_name enable w :
  named iw_path = true → named intf_name = true → (length (text iw_path) + length (text intf_name) < 1900)%nat →
  (∀ z w, ps_of (put_ps z w) = Some z) → runs_power_save (text iw_path) (text intf_name) →
  let w' := put_ps (Z.b2z enable) w in
  set_powersave_mode iw_path intf_name enable w = Ok (0, w') ∧
  get_powersave_mode iw_path intf_name w' = Ok (enable, w') ∧
  (ps_of w = None → get_powersave_mode iw_path intf_name w = Ok (false, w)).
Proof.
  intros Hiw Hintf Hl Hps [Hset Hget] w'.
  assert (∀ k, (length (lit_bytes k) < 50)%nat →
    (length (power_save_command (text iw_path) (text intf_name) k) < 1980)%nat) as Hlen.
  { intros k Hk. unfold power_save_command. rewrite !length_app.
    change (length (lit_bytes "sudo ")) with 5%nat. change (length (lit_bytes " dev ")) with 5%nat. lia. }
  assert (∀ w1, get_powersave_mode iw_path intf_name w1 =
    Ok (power_save_lines (lines_of 999 (print_power_save_handler (ps_of w1))), w1)) as Eg.
  { intros w1. unfold get_powersave_mode. run (lift_Ok _ w1 _ (chars_named _ Hiw)). run (lift_Ok _ w1 _ (chars_named _ Hintf)).
    specialize (Hlen " get power_save"%string ltac:(vm_compute; lia)). rewrite sprintf_local_Ok by lia.
    run (lift_Ok (Ok (power_save_command (text iw_path) (text intf_name) " get power_save")) w1 _ eq_refl). by run (Hget w1). }
  split; [|split].
  - unfold set_powersave_mode. run (lift_Ok _ w _ (chars_named _ Hiw)). run (lift_Ok _ w _ (chars_named _ Hintf)).
    specialize (Hlen " set power_save "%string ltac:(vm_compute; lia)).
    assert (length (lit_bytes (if enable then "on" else "off")) ≤ 3)%nat by (destruct enable; vm_compute; lia).
    rewrite sprintf_local_Ok by (rewrite length_app; lia).
    match goal with |- context [lift (Ok ?c)] => run (lift_Ok (Ok c) w _ eq_refl) end. rewrite Hset. by destruct enable.
  - rewrite Eg. unfold w'. rewrite Hps, power_save_lines_printed by (destruct enable; [by left|by right]). by destruct enable.
  - intros En. by rewrite Eg, En.
Qed.
End iw.

(** A host with one radio. *)
Definition set_prefix : list Z := power_save_command (lit_bytes "./iw") (lit_bytes "wlan0") " set power_save ".
#[local] Instance radio_shell : Shell (option Z) := {|
  popen _ w := Ok (Some (print_power_save_handler w), w);
  system cmd w := match set_power_save [drop (length set_prefix) cmd] with inl z => Ok (0, Some z) | inr e => Ok (e, w) end;
  time := mret 0
|}.

Lemma power_save_roundtrip_witness :
  set_powersave_mode (lit "./iw") (lit "wlan0") true None = Ok (0, Some 1) ∧
  get_powersave_mode (lit "./iw") (lit "wlan0") (Some 1) = Ok (true, Some 1) ∧
  ((None : option Z) = None → get_powersave_mode (lit "./iw") (lit "wlan0") None = Ok (false, None)).
Proof.
  apply (power_save_roundtrip (λ w : option Z, w) (λ z _, Some z) (lit "./iw") (lit "wlan0") true None);
    [reflexivity|reflexivity|vm_compute; lia|reflexivity|].
  split; [|intros w; reflexivity]. intros arg w. cbn [system radio_shell].
  change (power_save_command _ _ _) with set_prefix. rewrite drop_app_length. reflexivity.
Defined.

(** The arguments that [ap_set_txpower] gives to [iw]. *)
Definition txpower_args (type mbm : Z) : list (list Z) :=
  if type =? 1 then [lit_bytes "fixed"; number mbm]
  else if type =? 2 then [lit_bytes "limit"; number mbm] else [lit_bytes "auto"].
Definition txpower_meant (type mbm : Z) : tx_power_setting * option Z :=
  if type =? 1 then (NL80211_TX_POWER_FIXED, Some mbm)
  else if type =? 2 then (NL80211_TX_POWER_LIMITED, Some mbm) else (NL80211_TX_POWER_AUTOMATIC, None).

Lemma handle_txpower_args type mbm : s_ok 32 mbm = true →
  handle_txpower (txpower_args type mbm) = inl (txpower_meant type mbm).
Proof.
  intros Hm. assert (Z.abs mbm < 10 ^ Z.of_nat 20) as Hz.
  { unfold s_ok in Hm. split_andb. to_prop. change (10 ^ Z.of_nat 20) with (10 ^ 20). lia. }
  assert (scan_number false false (lskip (number mbm)) = Some (mbm, [])) as E.
  { destruct (decimal_head 19 mbm Hz) as (c & l & Ed & Hc). rewrite Ed, (lskip_head _ _ Hc), <- Ed.
    rewrite <- (app_nil_r (number mbm)). by apply (scan_decimal 19). }
  assert (to_i32 (strtol_range mbm) = mbm) as Es.
  { unfold s_ok in Hm. split_andb. to_prop. unfold strtol_range. rewrite Z.min_r, Z.max_r by lia. apply to_s_id; [lia|in_range]. }
  unfold txpower_args, txpower_meant. destruct (type =? 1); [|destruct (type =? 2)]; cbn [handle_txpower length];
    rewrite ?E, ?Es; by vm_compute.
Qed.

Section power.
Context {W : Type} `{Shell W, Allocator}.

(** [iw] understands the command that [ap_set_txpower] composes: the shell is
    given the words of the command, and the last of them are arguments from
    which [iw] takes the setting that was meant, with the power in hundredths
    of a dBm, truncated. *)
Theorem set_txpower_understood iw_path intf_name p type mbm (w : W) :
  named iw_path = true → named intf_name = true → (length (text iw_path) + length (text intf_name) < 1900)%nat →
  sf_to_int 32 (SFmul 24 128 p (f32_of_Z 100)) = Ok mbm →
  ap_set_txpower iw_path intf_name p type w =
    system (power_save_command (text iw_path) (text intf_name) " set txpower " ++ join_blank (txpower_args type mbm)) w ∧
  handle_txpower (txpower_args type mbm) = inl (txpower_meant type mbm).
Proof.
  intros Hiw Hintf Hl Hp. assert (s_ok 32 mbm = true) as Hm.
  { unfold sf_to_int in Hp. destruct (sf_trunc _); [|done]. destruct (s_ok 32 z) eqn:E; [|done]. by injection Hp as <-. }
  split; [|by apply handle_txpower_args]. unfold ap_set_txpower. run (lift_Ok _ w _ Hp).
  assert (nonnull iw_path = true) as -> by (by destruct iw_path). cbn [negb].
  run (lift_Ok _ w _ (chars_named _ Hiw)). run (lift_Ok _ w _ (chars_named _ Hintf)).
  assert ((if (type =? 1) || (type =? 2) then lit_bytes (if type =? 1 then "fixed " else "limit ") ++ number mbm
           else lit_bytes "auto") = join_blank (txpower_args type mbm)) as ->.
  { unfold txpower_args. destruct (type =? 1); [done|]. by destruct (type =? 2). }
  assert (length (join_blank (txpower_args type mbm)) ≤ 27)%nat as Hj.
  { pose proof (length_number mbm ltac:(in_range)). unfold txpower_args.
    destruct (type =? 1); [|destruct (type =? 2)]; cbn [join_sep]; rewrite ?length_app; cbn [length];
      repeat match goal with |- context [length (lit_bytes ?k)] =>
        let n := eval vm_compute in (length (lit_bytes k)) in change (length (lit_bytes k)) with n end; lia. }
  rewrite sprintf_local_Ok.
  - by match goal with |- context [lift (Ok ?c)] => run (lift_Ok (Ok c) w _ eq_refl) end.
  - unfold power_save_command. rewrite !length_app. change (length (lit_bytes "sudo ")) with 5%nat.
    change (length (lit_bytes " dev ")) with 5%nat. change (length (lit_bytes " set txpower ")) with 13%nat. lia.
Qed.
End power.

Lemma set_txpower_understood_witness :
  ap_set_txpower (lit "./iw") (lit "wlan0") (f32_of_Z 20) 1 None =
    system (power_save_command (lit_bytes "./iw") (lit_bytes "wlan0") " set txpower " ++ lit_bytes "fixed 2000") None ∧
  handle_txpower [lit_bytes "fixed"; lit_bytes "2000"] = inl (NL80211_TX_POWER_FIXED, Some 2000).
Proof.
  apply (set_txpower_understood (lit "./iw") (lit "wlan0") (f32_of_Z 20) 1 2000 (None : option Z));
    [reflexivity|reflexivity|vm_compute; lia|vm_compute; reflexivity].
Defined.

(** ** The signal-to-noise ratio of an access point *)

(** The channel whose noise is used: the first that is in use, or the last one
    of the list. *)
Fixpoint noise_channel (l : list survey_attrs) (v : survey_info) : survey_info :=
  match l with
  | [] => v
  | a :: l => let v := survey_of (survey_values a) in if si_in_use v =? 1 then v else noise_channel l v
  end.

Lemma active_lines_survey l v : forallb survey_ok l = true →
  active_lines (-1) (print_survey_handler <$> l) v = Ok (noise_channel l v).
Proof.
  revert v. induction l as [|a l IH]; intros v; [done|]. cbn [forallb]. intros [Ha Hl]%andb_prop.
  rewrite fmap_cons. cbn [active_lines noise_channel]. rewrite scan_survey_line by done. cbn [mbind res_bind].
  change (0 <? -1) with false. change (-1 <? 0) with true. cbn [andb orb]. destruct (si_in_use _ =? 1); [done|]. by apply IH.
Qed.

Section snr.
Context {W : Type} `{Shell W, Allocator}.

Definition iwconfig_command (path intf : list Z) : list Z := path ++ [32] ++ intf.

Lemma survey_dump_active iw intf v l (w w' : W) : named iw = true → named intf = true → forallb survey_ok l = true →
  dumps (survey_command (text iw) (text intf)) (concat (print_survey_handler <$> l)) w w' → ∃ v0, si_freq v0 = -1 ∧
  get_survey_dump_active iw intf (-1) v w = Ok (noise_channel l v0, w').
Proof.
  intros Hiw Hintf Hl [Hc Hp]. unfold get_survey_dump_active. set (v0 := SurveyInfo (-1) _ _ _ _ _ _ _). exists v0.
  split; [done|]. run (lift_Ok _ w _ (chars_named iw Hiw)). run (lift_Ok _ w _ (chars_named intf Hintf)).
  rewrite sprintf_local_Ok by done. run (lift_Ok (Ok (survey_command (text iw) (text intf))) w _ eq_refl). run Hp.
  by rewrite survey_lines, active_lines_survey by done.
Qed.

Lemma tx_power_printed junk path intf out (w w' : W) : named path = true → named intf = true →
  dumps (iwconfig_command (text path) (text intf)) out w w' →
  get_tx_power_iwconfig junk path intf w = Ok (iwconfig_lines junk (lines_of 999 out) minus_one, w').
Proof.
  intros Hpa Hintf [Hc Hp]. unfold get_tx_power_iwconfig. assert (nonnull path = true) as Hn by (by destruct path).
  rewrite Hn. rewrite (st_bind_Ok _ _ _ path w) by done. rewrite Hn. cbn [negb].
  run (lift_Ok _ w _ (chars_named path Hpa)). run (lift_Ok _ w _ (chars_named intf Hintf)).
  fold (iwconfig_command (text path) (text intf)). rewrite sprintf_local_Ok by done.
  run (lift_Ok (Ok (iwconfig_command (text path) (text intf))) w _ eq_refl). by run Hp.
Qed.

(** [get_snr_ap] answers the power that [iwconfig] prints less the noise that
    [iw survey dump] prints for the channel in use, computed as [float]; it
    answers -1 when there is no channel or no positive power.  When no channel
    is in use it takes the noise of the last one of the list, instead of
    reporting the error. *)
Theorem snr_is_power_less_noise iw path intf junk v l out (w w1 w2 : W) :
  named iw = true → named path = true → named intf = true → forallb survey_ok l = true →
  dumps (survey_command (text iw) (text intf)) (concat (print_survey_handler <$> l)) w w1 →
  dumps (iwconfig_command (text path) (text intf)) out w1 w2 → ∃ v0, si_freq v0 = -1 ∧
  let c := noise_channel l v0 in
  let tx := iwconfig_lines junk (lines_of 999 out) minus_one in
  get_snr_ap iw path intf junk v w =
    Ok (if 0 <? si_freq c then
          (if SFltb (f32_of_Z 0) tx then to_f64 (SFsub 24 128 tx (f32_of_Z (si_noise c))) else f64_of_Z (-1), w2)
        else (f64_of_Z (-1), w1)) ∧
  (∀ l1 a l2, l = l1 ++ a :: l2 → forallb (λ b, negb (sv_in_use b)) l1 = true →
     sv_in_use a = true → is_Some (sv_frequency a) → c = survey_of (survey_values a)) ∧
  (∀ l1 a, l = l1 ++ [a] → forallb (λ b, negb (sv_in_use b)) l = true → c = survey_of (survey_values a)).
Proof.
  intros Hiw Hpa Hintf Hl Hs Ht. destruct (survey_dump_active iw intf v l w w1 Hiw Hintf Hl Hs) as (v0 & Hv & E).
  exists v0. split; [done|]. intros c tx. split; [|split].
  - unfold get_snr_ap. run E. fold c. destruct (0 <? si_freq c); [|done].
    by run (tx_power_printed junk path intf out w1 w2 Hpa Hintf Ht).
  - intros l1 a l2 -> Hu Ha [f Hf]. subst c. clear -Hu Ha Hf. revert v0. induction l1 as [|b l1 IH]; intros v0.
    + cbn [app noise_channel]. unfold survey_of, survey_values. cbn [nth si_in_use]. by rewrite Hf, Ha.
    + cbn [forallb] in Hu. apply andb_prop in Hu as [Hb%negb_true_iff Hu]. cbn [app noise_channel].
      assert (si_in_use (survey_of (survey_values b)) = 0) as ->.
      { unfold survey_of, survey_values. cbn [nth si_in_use]. by destruct (sv_frequency b); rewrite ?Hb. }
      by apply IH.
  - intros l1 a -> Hu. subst c. clear -Hu. revert v0. induction l1 as [|b l1 IH]; intros v0; cbn [app forallb] in Hu;
      apply andb_prop in Hu as [Hb%negb_true_iff Hu]; cbn [app noise_channel].
    + by case_match.
    + assert (si_in_use (survey_of (survey_values b)) = 0) as ->.
      { unfold survey_of, survey_values. cbn [nth si_in_use]. by destruct (sv_frequency b); rewrite ?Hb. }
      by apply IH.
Qed.
End snr.

(** A host whose [iwconfig] and [iw] print two texts. *)
#[local] Instance two_tools : Shell (list Z * list Z) := {|
  popen cmd w := Ok (Some (if strstr cmd (lit_bytes "survey") then w.1 else w.2), w); system _ := mret 0; time := mret 0
|}.
Definition two_texts : list Z * list Z :=
  (concat (print_survey_handler <$> [idle_channel; busy_channel]),
   lit_bytes "wlan0  IEEE 802.11  Mode:Master  Tx-Power=20 dBm" ++ [10]).

(** 20 dBm over -95 dBm. *)
Lemma snr_is_power_less_noise_witness :
  get_snr_ap (lit "./iw") (lit "iwconfig") (lit "wlan0") minus_one (survey_of []) two_texts = Ok (f64_of_Z 115, two_texts).
Proof.
  destruct (snr_is_power_less_noise (lit "./iw") (lit "iwconfig") (lit "wlan0") minus_one (survey_of [])
    [idle_channel; busy_channel] two_texts.2 two_texts two_texts two_texts) as (v0 & _ & E & Hc & _);
    [reflexivity..|split; [vm_compute; lia|reflexivity]|split; [vm_compute; lia|reflexivity]|].
  rewrite E. rewrite (Hc [idle_channel] busy_channel []); [vm_compute; reflexivity|reflexivity|reflexivity|reflexivity|].
  by eexists.
Defined.
