(* ===== verification/Interfaces.v ===== *)
(** The network interfaces of the host: [ethanol_functions/get_interfaces.c] and
    [is_wireless.c].

    The kernel reports one entry per address, with [getifaddrs]; the agent
    gathers the entries of an interface in one record.  The kernel's answers are
    the class [IfHost]: a state is read, and not changed. *)
From stdpp Require Import prelude list strings.
From S2P Require Import Prelude CMem Utils CFloat BufferHandler World.

(** ** The kernel *)

(** An address of an entry: the texts that [getnameinfo] writes for the address
    and the mask, [None] when it fails; or the hardware address; or an address
    of another family. *)
Inductive if_addr :=
| AF_INET (ip mask : option (list Z))
| AF_INET6 (ip mask : option (list Z))
| AF_PACKET (mac : list Z)
| AF_OTHER.

(** [struct ifaddrs]; the address may be NULL. *)
Record ifaddrs := IfAddrs { ifa_name : list Z; ifa_addr : option if_addr }.

(** The results of [ioctl] on an interface, [None] for an error. *)
Class IfHost (W : Type) := {
  getifaddrs : W → option (list ifaddrs);
  dgram_socket : W → bool;                (* socket(AF_INET, SOCK_DGRAM, 0) succeeds *)
  stream_socket : W → bool;               (* socket(AF_INET, SOCK_STREAM, 0) succeeds *)
  SIOCGIFINDEX : list Z → W → option Z;
  SIOCGIFFLAGS : list Z → W → option Z;
  SIOCGIFMETRIC : list Z → W → option Z;
  SIOCGIFMTU : list Z → W → option Z;
  SIOCGIWNAME : list Z → W → option (list Z)
}.

Definition IFNAMSIZ : nat := 16.

(** ** The flags of an interface *)

Definition is_up (intf_type : Z) : bool := negb (Z.land intf_type 1 =? 0).
Definition is_loopback (intf_type : Z) : bool := negb (Z.land intf_type 8 =? 0).
Definition is_point_to_point (intf_type : Z) : bool := negb (Z.land intf_type 16 =? 0).
Definition is_promiscuous (intf_type : Z) : bool := negb (Z.land intf_type 256 =? 0).
Definition is_multicast (intf_type : Z) : bool := negb (Z.land intf_type 4096 =? 0).
Definition is_dynamic (intf_type : Z) : bool := negb (Z.land intf_type 32768 =? 0).

(** ** The list of interfaces *)

(** A node, by the fields that are assigned. *)
Record if_node := IfNode {
  in_name : charp; in_mac : charp; in_ip4 : charp; in_mask4 : charp; in_ip6 : charp; in_mask6 : charp
}.

(** [struct interface_fields]. *)
Record full_fields := FullFields {
  ff_node : if_node; ff_ifindex : Z; ff_type : Z; ff_metric : Z; ff_mtu : Z; ff_is_wifi : bool
}.

Section interfaces.
Context {W : Type} `{IfHost W, Allocator}.

Definition copy_string_interface (orig : charp) : res charp :=
  match orig with
  | None => Ok None
  | Some _ => n ← strlen orig; malloc_strcpy (n + 1) orig
  end.

(** The block for the name has no room for its NUL. *)
Definition init_fields (name : list Z) : res if_node :=
  n ← malloc_strcpy (Z.of_nat (length name)) (mk_str name);
  Ok (IfNode n None None None None None).

(** [__string] after a call of [getnameinfo]. *)
Definition host_name (name : option (list Z)) (old : option (list Z)) : option (list Z) :=
  match name with Some s => Some s | None => old end.
Definition copy_host (buf : option (list Z)) : res charp :=
  match buf with Some s => copy_string_interface (mk_str s) | None => Err ReadIndeterminate end.

Definition process_ifa (ifa : ifaddrs) (l : if_node) : res if_node :=
  match ifa_addr ifa with
  | None => Ok l
  | Some (AF_INET ip mask) =>
      i ← copy_host (host_name ip None);
      m ← copy_host (host_name mask (host_name ip None));
      Ok (IfNode (in_name l) (in_mac l) i m (in_ip6 l) (in_mask6 l))
  | Some (AF_INET6 ip mask) =>
      i ← copy_host (host_name ip None);
      m ← copy_host (host_name mask (host_name ip None));
      Ok (IfNode (in_name l) (in_mac l) (in_ip4 l) (in_mask4 l) i m)
  | Some (AF_PACKET mac) =>
      s ← format_mac mac;
      Ok (IfNode (in_name l) s (in_ip4 l) (in_mask4 l) (in_ip6 l) (in_mask6 l))
  | Some AF_OTHER => Ok l
  end.

(** The search for the name, and the node it stops at changed; [None] when the
    search runs off the list. *)
Fixpoint merge_ifa (ifa : ifaddrs) (l : list if_node) : res (option (list if_node)) :=
  match l with
  | [] => Ok None
  | f :: l =>
      b ← streq (in_name f) (mk_str (ifa_name ifa));
      if (b : bool) then f ← process_ifa ifa f; Ok (Some (f :: l))
      else r ← merge_ifa ifa l; Ok (option_map (cons f) r)
  end.

(** One turn of the loop: an interface that is not in the list is put at its
    head. *)
Definition add_ifa (ifa : ifaddrs) (l : list if_node) : res (list if_node) :=
  r ← merge_ifa ifa l;
  match r with
  | Some l => Ok l
  | None => f ← init_fields (ifa_name ifa); f ← process_ifa ifa f; Ok (f :: l)
  end.
Fixpoint add_ifas (addrs : list ifaddrs) (l : list if_node) : res (list if_node) :=
  match addrs with [] => Ok l | ifa :: addrs => l ← add_ifa ifa l; add_ifas addrs l end.

(** NULL is the empty list. *)
Definition get_interfaces (w : W) : res (list if_node) :=
  match getifaddrs w with None => Ok [] | Some addrs => add_ifas addrs [] end.

(** ** The questions about one interface *)

(** The first [IFNAMSIZ] bytes of the name. *)
Definition ifr_name (intf_name : charp) : res (list Z) := s ← chars intf_name; Ok (take IFNAMSIZ s).

Definition ask_ifr (ioctl : list Z → W → option Z) (failed : Z) (intf_name : charp) (w : W) : res Z :=
  n ← ifr_name intf_name;
  Ok (if dgram_socket w then default failed (ioctl n w) else -1).

Definition get_ifindex : charp → W → res Z := ask_ifr SIOCGIFINDEX (-1).
Definition get_intf_type : charp → W → res Z := ask_ifr SIOCGIFFLAGS 0.
Definition get_metric : charp → W → res Z := ask_ifr SIOCGIFMETRIC (-1).
Definition get_mtu : charp → W → res Z := ask_ifr SIOCGIFMTU (-1).

Definition is_wireless (ifname : charp) (w : W) : res bool :=
  n ← ifr_name ifname;
  Ok (if stream_socket w then match SIOCGIWNAME n w with Some _ => true | None => false end else false).

(** The pointers move to the new record, which is completed. *)
Definition copy_and_desallocate_fields (s : if_node) (w : W) : res full_fields :=
  i ← get_ifindex (in_name s) w;
  t ← get_intf_type (in_name s) w;
  m ← get_metric (in_name s) w;
  u ← get_mtu (in_name s) w;
  r ← is_wireless (in_name s) w;
  Ok (FullFields s i t m u r).

Fixpoint copy_all (l : list if_node) (w : W) : res (list full_fields) :=
  match l with
  | [] => Ok []
  | f :: l => d ← copy_and_desallocate_fields f w; ds ← copy_all l w; Ok (d :: ds)
  end.

Definition get_all_interfaces (w : W) : res (option (list full_fields)) :=
  l ← get_interfaces w;
  match l with
  | [] => Ok None
  | _ => ds ← copy_all l w; Ok (Some ds)
  end.

Fixpoint find_intf (intf_name : charp) (l : list if_node) : res (option if_node) :=
  match l with
  | [] => Ok None
  | f :: l => b ← streq intf_name (in_name f); if (b : bool) then Ok (Some f) else find_intf intf_name l
  end.
Definition get_interface (intf_name : charp) (w : W) : res (option full_fields) :=
  l ← get_interfaces w;
  r ← find_intf intf_name l;
  match r with Some f => d ← copy_and_desallocate_fields f w; Ok (Some d) | None => Ok None end.

(** The index of a node of the list is never assigned. *)
Definition get_interface_name_by_index (ifindex : Z) (w : W) : res charp :=
  l ← get_interfaces w;
  match l with [] => Ok None | _ :: _ => Err ReadIndeterminate end.

Fixpoint find_mac (mac_addr : charp) (l : list if_node) : res (option if_node) :=
  match l with
  | [] => Ok None
  | f :: l =>
      b ← (if nonnull (in_mac f) then streq mac_addr (in_mac f) else Ok false);
      if (b : bool) then Ok (Some f) else find_mac mac_addr l
  end.
Definition get_interface_name_by_mac (mac_addr : charp) (w : W) : res charp :=
  l ← get_interfaces w;
  r ← find_mac mac_addr l;
  Ok (match r with Some f => in_name f | None => None end).
End interfaces.

(** ** What is gathered *)

(** The names in the order in which they first appear. *)
Definition note_name (ns : list (list Z)) (a : ifaddrs) : list (list Z) :=
  if bool_decide (ifa_name a ∈ ns) then ns else ns ++ [ifa_name a].
Definition firsts (addrs : list ifaddrs) : list (list Z) := foldl note_name [] addrs.

(** The addresses of one entry, by family. *)
Definition mac_of (a : ifaddrs) : option (list Z) :=
  match ifa_addr a with Some (AF_PACKET m) => Some m | _ => None end.
Definition inet_of (a : ifaddrs) : option (list Z * list Z) :=
  match ifa_addr a with Some (AF_INET (Some i) (Some m)) => Some (i, m) | _ => None end.
Definition inet6_of (a : ifaddrs) : option (list Z * list Z) :=
  match ifa_addr a with Some (AF_INET6 (Some i) (Some m)) => Some (i, m) | _ => None end.

(** The last address of each family that the kernel lists for an interface. *)
Definition last_of {A} (f : ifaddrs → option A) (n : list Z) (addrs : list ifaddrs) : option A :=
  last (omap f (filter (λ a, ifa_name a = n) addrs)).
Definition node_of (addrs : list ifaddrs) (n : list Z) : if_node :=
  IfNode (mk_str n)
    (match last_of mac_of n addrs with Some m => mk_str (colon_hex m) | None => None end)
    (match last_of inet_of n addrs with Some (i, _) => mk_str i | None => None end)
    (match last_of inet_of n addrs with Some (_, m) => mk_str m | None => None end)
    (match last_of inet6_of n addrs with Some (i, _) => mk_str i | None => None end)
    (match last_of inet6_of n addrs with Some (_, m) => mk_str m | None => None end).

(** An entry as the kernel reports it. *)
Definition text_ok (s : list Z) : bool := forallb is_char s && bool_decide (length s < 1025)%nat.
Definition name_ok (n : list Z) : bool := forallb is_char n && bool_decide (length n < IFNAMSIZ)%nat.
Definition entry_ok (a : ifaddrs) : bool :=
  name_ok (ifa_name a) &&
  match ifa_addr a with
  | Some (AF_INET (Some i) (Some m)) | Some (AF_INET6 (Some i) (Some m)) => text_ok i && text_ok m
  | Some (AF_INET _ _) | Some (AF_INET6 _ _) => false
  | Some (AF_PACKET mac) => bool_decide (length mac = 6%nat) && forallb is_byte mac
  | _ => true
  end.

Lemma firsts_snoc addrs a : firsts (addrs ++ [a]) = note_name (firsts addrs) a.
Proof. unfold firsts. by rewrite foldl_app. Qed.

Lemma elem_of_firsts addrs n : n ∈ firsts addrs ↔ n ∈ ifa_name <$> addrs.
Proof.
  induction addrs as [|a addrs IH] using rev_ind; [done|]. rewrite firsts_snoc, fmap_app. unfold note_name. cbn [fmap list_fmap].
  case_bool_decide; set_solver.
Qed.
Lemma NoDup_firsts addrs : NoDup (firsts addrs).
Proof.
  induction addrs as [|a addrs IH] using rev_ind; [constructor|]. rewrite firsts_snoc. unfold note_name.
  case_bool_decide; [done|]. apply NoDup_app. split; [done|]. split; [set_solver|apply NoDup_singleton].
Qed.

Lemma NoDup_reverse_firsts addrs : NoDup (reverse (firsts addrs)).
Proof. rewrite reverse_Permutation. apply NoDup_firsts. Qed.

Lemma last_of_snoc {A} (f : ifaddrs → option A) n addrs a :
  last_of f n (addrs ++ [a]) =
  if bool_decide (ifa_name a = n) then match f a with Some x => Some x | None => last_of f n addrs end else last_of f n addrs.
Proof.
  unfold last_of. rewrite filter_app. case_bool_decide as E.
  - rewrite filter_cons_True by done. rewrite omap_app. cbn. destruct (f a) as [x|]; [apply last_snoc|by rewrite app_nil_r].
  - rewrite filter_cons_False by done. by rewrite app_nil_r.
Qed.
Lemma node_of_other addrs a n : ifa_name a ≠ n → node_of (addrs ++ [a]) n = node_of addrs n.
Proof. intros Hn. unfold node_of. by rewrite !last_of_snoc, !bool_decide_false by done. Qed.
Lemma node_of_new addrs n : n ∉ firsts addrs → node_of addrs n = IfNode (mk_str n) None None None None None.
Proof.
  rewrite elem_of_firsts. intros Hn. unfold node_of, last_of.
  assert (filter (λ a, ifa_name a = n) addrs = []) as ->; [|done].
  induction addrs as [|a addrs IH]; [done|]. rewrite filter_cons_False; [apply IH|]; set_solver.
Qed.

Section gathered.
Context `{Allocator} (roomy : ∀ n, 0 ≤ n < 16 → n + 1 ≤ usable n) (room_mac : 18 ≤ usable 17).

Lemma copy_text s : text_ok s = true → copy_string_interface (mk_str s) = Ok (mk_str s).
Proof.
  intros [Hs%is_char_nonzero _]%andb_prop. unfold copy_string_interface, mk_str. fold (mk_str s).
  rewrite strlen_mk by done. cbn [mbind res_bind]. by apply malloc_strcpy_mk.
Qed.

Lemma init_fields_ok n : name_ok n = true → init_fields n = Ok (IfNode (mk_str n) None None None None None).
Proof.
  intros [Hs%is_char_nonzero Hl%bool_decide_eq_true]%andb_prop. unfold init_fields, malloc_strcpy. rewrite chars_of_mk by done.
  cbn [mbind res_bind]. unfold IFNAMSIZ in Hl. rewrite ensure_Ok; [done|]. apply Z.leb_le, roomy. lia.
Qed.

Lemma process_ifa_ok addrs a : entry_ok a = true →
  process_ifa a (node_of addrs (ifa_name a)) = Ok (node_of (addrs ++ [a]) (ifa_name a)).
Proof.
  intros [_ Ha]%andb_prop. unfold process_ifa, node_of. rewrite !last_of_snoc, !bool_decide_true by done.
  unfold mac_of, inet_of, inet6_of.
  destruct (ifa_addr a) as [[[i|] [m|]|[i|] [m|]|mac|]|]; try done; cbn [host_name copy_host].
  - apply andb_prop in Ha as [Hi Hm]. by rewrite !copy_text.
  - apply andb_prop in Ha as [Hi Hm]. by rewrite !copy_text.
  - apply andb_prop in Ha as [Hl%bool_decide_eq_true Hb].
    destruct mac as [|x1 [|x2 [|x3 [|x4 [|x5 [|x6 [|? ?]]]]]]]; try done.
    unfold format_mac. rewrite mac_addr_n2a_text. cbn [mbind res_bind]. unfold sprintf_heap.
    rewrite ensure_Ok; [done|]. apply Z.leb_le. exact room_mac.
Qed.

Lemma name_streq n m : name_ok n = true → name_ok m = true → streq (mk_str n) (mk_str m) = Ok (bool_decide (n = m)).
Proof.
  intros [Hn Hl%bool_decide_eq_true]%andb_prop [Hm Hl'%bool_decide_eq_true]%andb_prop. unfold IFNAMSIZ in *.
  rewrite streq_spec; [by rewrite !text_mk by done|..]; unfold named; rewrite cstr_ok_mk by (done || lia); done.
Qed.

Lemma merge_ifa_ok addrs a ns : entry_ok a = true → Forall (λ n, name_ok n = true) ns → NoDup ns →
  merge_ifa a (node_of addrs <$> ns) =
  Ok (if bool_decide (ifa_name a ∈ ns) then Some (node_of (addrs ++ [a]) <$> ns) else None).
Proof.
  intros Ha Hns. pose proof Ha as [Hna _]%andb_prop. induction Hns as [|n ns Hn _ IH]; intros Hnd; [done|].
  apply NoDup_cons in Hnd as [Hni Hnd]. rewrite fmap_cons. cbn [merge_ifa]. cbn [node_of in_name].
  rewrite name_streq by done. cbn [mbind res_bind]. destruct (bool_decide_reflect (n = ifa_name a)) as [E|E].
  - subst n. rewrite process_ifa_ok by done. cbn [mbind res_bind]. rewrite bool_decide_true by by left.
    rewrite fmap_cons. do 3 f_equal. apply list_fmap_ext. intros i m Hm. symmetry. apply node_of_other.
    intros <-. apply Hni. by eapply list_elem_of_lookup_2.
  - rewrite IH by done. cbn [mbind res_bind]. case_bool_decide as Ei.
    + rewrite bool_decide_true by by right. rewrite fmap_cons. by rewrite node_of_other.
    + rewrite bool_decide_false by set_solver. done.
Qed.

Lemma add_ifas_app a b l : add_ifas (a ++ b) l = (l ← add_ifas a l; add_ifas b l).
Proof.
  revert l. induction a as [|x a IH]; intros l; [done|]. cbn [app add_ifas]. destruct (add_ifa x l); [|done]. apply IH.
Qed.

Lemma firsts_named addrs : Forall (λ a, entry_ok a = true) addrs → Forall (λ n, name_ok n = true) (firsts addrs).
Proof.
  intros Ha. apply Forall_forall. intros n Hn%elem_of_firsts%list_elem_of_fmap. destruct Hn as (a & -> & Hin).
  by pose proof (proj1 (Forall_forall _ _) Ha a Hin) as [? _]%andb_prop.
Qed.

Lemma gathered addrs : Forall (λ a, entry_ok a = true) addrs →
  add_ifas addrs [] = Ok (node_of addrs <$> reverse (firsts addrs)).
Proof.
  induction addrs as [|a addrs IH] using rev_ind; intros Hok; [done|]. apply Forall_app in Hok as [Hok Ha%Forall_inv]. cbn beta in Ha.
  rewrite add_ifas_app, IH by done. cbn [mbind res_bind add_ifas]. unfold add_ifa.
  rewrite merge_ifa_ok; [|exact Ha|by apply Forall_reverse, firsts_named|by apply NoDup_reverse_firsts].
  cbn [mbind res_bind]. rewrite firsts_snoc. unfold note_name. rewrite (bool_decide_ext _ _ (elem_of_reverse _ _)).
  case_bool_decide as E; [done|]. pose proof Ha as [Hn _]%andb_prop.
  rewrite init_fields_ok by done. cbn [mbind res_bind]. rewrite <- (node_of_new addrs) by done. rewrite process_ifa_ok by done.
  cbn [mbind res_bind]. rewrite reverse_snoc, fmap_cons. do 2 f_equal. apply list_fmap_ext. intros i m Hm.
  symmetry. apply node_of_other. intros <-. apply E, elem_of_reverse. by eapply list_elem_of_lookup_2.
Qed.
End gathered.

(** ** The reports *)

Section reports.
Context {W : Type} `{IfHost W, Allocator}.

(** What is reported of the interface [n]. *)
Definition report (addrs : list ifaddrs) (w : W) (n : list Z) : full_fields :=
  let wifi := stream_socket w && match SIOCGIWNAME n w with Some _ => true | None => false end in
  if dgram_socket w then
    FullFields (node_of addrs n) (default (-1) (SIOCGIFINDEX n w)) (default 0 (SIOCGIFFLAGS n w))
      (default (-1) (SIOCGIFMETRIC n w)) (default (-1) (SIOCGIFMTU n w)) wifi
  else FullFields (node_of addrs n) (-1) (-1) (-1) (-1) wifi.

Lemma copy_fields_ok addrs w n : name_ok n = true → copy_and_desallocate_fields (node_of addrs n) w = Ok (report addrs w n).
Proof.
  intros [Hn%is_char_nonzero Hl%bool_decide_eq_true]%andb_prop.
  unfold copy_and_desallocate_fields, get_ifindex, get_intf_type, get_metric, get_mtu, is_wireless, ask_ifr, ifr_name.
  cbn [node_of in_name]. rewrite !chars_of_mk by done. cbn [mbind res_bind]. rewrite !take_ge by lia.
  unfold report. by destruct (dgram_socket w), (stream_socket w).
Qed.

Lemma copy_all_ok addrs w ns : Forall (λ n, name_ok n = true) ns → copy_all (node_of addrs <$> ns) w = Ok (report addrs w <$> ns).
Proof.
  induction 1 as [|n ns Hn _ IH]; [done|]. rewrite !fmap_cons. cbn [copy_all]. rewrite copy_fields_ok by done.
  cbn [mbind res_bind]. by rewrite IH.
Qed.

Lemma find_intf_ok addrs n ns : name_ok n = true → Forall (λ n, name_ok n = true) ns →
  find_intf (mk_str n) (node_of addrs <$> ns) = Ok (if bool_decide (n ∈ ns) then Some (node_of addrs n) else None).
Proof.
  intros Hn. induction 1 as [|m ns Hm _ IH]; [done|]. rewrite fmap_cons. cbn [find_intf node_of in_name].
  rewrite name_streq by done. cbn [mbind res_bind]. destruct (bool_decide_reflect (n = m)) as [<-|E].
  - by rewrite bool_decide_true by by left.
  - fold (node_of addrs). rewrite IH. rewrite (bool_decide_ext (n ∈ m :: ns) (n ∈ ns)) by set_solver. done.
Qed.

(** C33: the agent's list of interfaces gathers the kernel's addresses: every
    interface is listed once, the one that appears last in the kernel's list
    first; its record has the last hardware, IPv4 and IPv6 address the kernel
    lists for it and the answers of the kernel about it.  [get_interface] finds
    exactly the interfaces there are. *)
Theorem interfaces_gathered addrs (w : W) :
  (∀ n, 0 ≤ n < 16 → n + 1 ≤ usable n) → 18 ≤ usable 17 →
  getifaddrs w = Some addrs → Forall (λ a, entry_ok a = true) addrs →
  get_all_interfaces w =
    Ok (match addrs with [] => None | _ => Some (report addrs w <$> reverse (firsts addrs)) end) ∧
  NoDup (firsts addrs) ∧ (∀ n, n ∈ firsts addrs ↔ n ∈ ifa_name <$> addrs) ∧
  ∀ n, name_ok n = true → get_interface (mk_str n) w =
    Ok (if bool_decide (n ∈ ifa_name <$> addrs) then Some (report addrs w n) else None).
Proof.
  intros Hu Hm Hg Ha. pose proof (firsts_named addrs Ha) as Hf.
  assert (get_interfaces w = Ok (node_of addrs <$> reverse (firsts addrs))) as E.
  { unfold get_interfaces. rewrite Hg. by apply gathered. }
  split; [|split; [apply NoDup_firsts|split; [apply elem_of_firsts|]]].
  - unfold get_all_interfaces. rewrite E. cbn [mbind res_bind].
    rewrite copy_all_ok by by apply Forall_reverse. cbn [mbind res_bind].
    destruct addrs as [|a addrs]; [done|].
    destruct (node_of (a :: addrs) <$> reverse (firsts (a :: addrs))) eqn:En; [|done].
    apply fmap_nil_inv in En. exfalso. apply (not_elem_of_nil (ifa_name a)). rewrite <- En.
    apply elem_of_reverse, elem_of_firsts. by left.
  - intros n Hn. unfold get_interface. rewrite E. cbn [mbind res_bind]. rewrite find_intf_ok by (done || by apply Forall_reverse).
    cbn [mbind res_bind]. rewrite (bool_decide_ext _ _ (elem_of_reverse _ _)), (bool_decide_ext _ _ (elem_of_firsts _ _)).
    case_bool_decide; [|done]. by rewrite copy_fields_ok by done.
Qed.

(** The block for a name is one byte too small: with nothing beyond the request
    the first interface overflows the heap. *)
Lemma interface_name_overflows addrs a (w : W) : getifaddrs w = Some (a :: addrs) → name_ok (ifa_name a) = true →
  @get_all_interfaces W _ exact_alloc w = Err HeapOverflow.
Proof.
  intros Hg [Hn%is_char_nonzero _]%andb_prop. unfold get_all_interfaces, get_interfaces. rewrite Hg.
  cbn [add_ifas]. unfold add_ifa. cbn [merge_ifa mbind res_bind]. unfold init_fields, malloc_strcpy.
  rewrite chars_of_mk by done. cbn [mbind res_bind usable exact_alloc].
  destruct (Z.leb_spec (Z.of_nat (length (ifa_name a)) + 1) (Z.of_nat (length (ifa_name a)))); [lia|done].
Qed.
End reports.

(** ** A host *)

Definition sample_addrs : list ifaddrs :=
  [IfAddrs (lit_bytes "lo") (Some (AF_PACKET [0; 0; 0; 0; 0; 0]));
   IfAddrs (lit_bytes "wlan0") (Some (AF_PACKET [2; 0; 0; 0; 1; 0]));
   IfAddrs (lit_bytes "lo") (Some (AF_INET (Some (lit_bytes "127.0.0.1")) (Some (lit_bytes "255.0.0.0"))))].
#[local] Instance sample_host : IfHost unit := {|
  getifaddrs _ := Some sample_addrs; dgram_socket _ := true; stream_socket _ := true;
  SIOCGIFINDEX n _ := if bool_decide (n = lit_bytes "lo") then Some 1 else Some 2;
  SIOCGIFFLAGS n _ := if bool_decide (n = lit_bytes "lo") then Some 73 else Some 4099;
  SIOCGIFMETRIC _ _ := Some 0; SIOCGIFMTU _ _ := None;
  SIOCGIWNAME n _ := if bool_decide (n = lit_bytes "lo") then None else Some (lit_bytes "IEEE 802.11")
|}.

Lemma interfaces_gathered_witness :
  @get_all_interfaces unit sample_host glibc_alloc tt =
    Ok (Some [FullFields (IfNode (lit "wlan0") (lit "02:00:00:00:01:00") None None None None) 2 4099 0 (-1) true;
              FullFields (IfNode (lit "lo") (lit "00:00:00:00:00:00") (lit "127.0.0.1") (lit "255.0.0.0") None None)
                1 73 0 (-1) false]) ∧
  @get_interface unit sample_host glibc_alloc (lit "eth0") tt = Ok None.
Proof.
  destruct (@interfaces_gathered unit sample_host glibc_alloc sample_addrs tt) as (E & _ & _ & Hf).
  - intros n Hn. cbn [usable glibc_alloc]. lia.
  - vm_compute. discriminate.
  - reflexivity.
  - repeat constructor.
  - split; [rewrite E; vm_compute; reflexivity|]. change (lit "eth0") with (mk_str (lit_bytes "eth0")).
    rewrite Hf by reflexivity. vm_compute. reflexivity.
Defined.
