(* ===== verification/Ethtool.v ===== *)
(** The counters of an interface: [get_interface_stats] and [trim2] of
    [ethanol_functions/getnetlink.c], which read the output of
    [ethtool -S]; and [get_interface_names]. *)
From stdpp Require Import prelude list strings.
From S2P Require Import Prelude CMem Strlib Lines IniFile ConfigFile Connect MemInfo Scanf CFloat.
From S2P Require Import BufferHandler World IwDump LinkDump Interfaces.

(** ** The counters *)

(** [struct netlink_stats]: a number for each field. *)
Inductive stat_field :=
| F_tx_packets | F_rx_packets | F_tx_bytes | F_rx_bytes | F_tx_errors | F_rx_errors | F_rx_dropped | F_tx_dropped
| F_collisions | F_tx_retries | F_rx_duplicates | F_rx_fragments | F_tx_filtered | F_tx_retry_failed | F_sta_state
| F_txrate | F_rxrate | F_signal | F_channel | F_noise | F_ch_time | F_ch_time_busy | F_ch_time_ext_busy
| F_ch_time_rx | F_ch_time_tx.
#[global] Instance stat_field_eq_dec : EqDecision stat_field.
Proof. solve_decision. Defined.

Definition stats : Type := stat_field → Z.
Definition no_stats : stats := λ _, 0.
Definition set_stat (f : stat_field) (v : Z) (s : stats) : stats := λ g, if decide (g = f) then v else s g.

(** The table [parameters], with the field that the switch assigns for each
    index; the name [tx_retries] is there twice. *)
Definition parameters : list (string * stat_field) :=
  [("tx_packets", F_tx_packets); ("rx_packets", F_rx_packets); ("tx_bytes", F_tx_bytes); ("rx_bytes", F_rx_bytes);
   ("tx_errors", F_tx_errors); ("rx_errors", F_rx_errors); ("rx_dropped", F_rx_dropped); ("tx_dropped", F_tx_dropped);
   ("collisions", F_collisions); ("tx_retries", F_tx_retries); ("rx_duplicates", F_rx_duplicates);
   ("rx_fragments", F_rx_fragments); ("tx_filtered", F_tx_filtered); ("tx_retry_failed", F_tx_retry_failed);
   ("tx_retries", F_tx_retries); ("sta_state", F_sta_state); ("txrate", F_txrate); ("rxrate", F_rxrate);
   ("signal", F_signal); ("channel", F_channel); ("noise", F_noise); ("ch_time", F_ch_time);
   ("ch_time_busy", F_ch_time_busy); ("ch_time_ext_busy", F_ch_time_ext_busy); ("ch_time_rx", F_ch_time_rx);
   ("ch_time_tx", F_ch_time_tx)]%string.

Fixpoint find_parameter (token : list Z) (ps : list (string * stat_field)) : option stat_field :=
  match ps with
  | [] => None
  | (k, f) :: ps => if bool_decide (lit_bytes k = token) then Some f else find_parameter token ps
  end.

(** The value that a field is assigned; three of the fields are [int]. *)
Definition stat_value (f : stat_field) (v : Z) : res Z :=
  match f with
  | F_signal => ensure (s_ok 32 (256 - to_i32 v)) SignedOverflow;; Ok (256 - to_i32 v)
  | F_noise => ensure (s_ok 64 (256 - v)) SignedOverflow;; Ok (to_i32 (256 - v))
  | F_channel => Ok (to_i32 v)
  | _ => Ok v
  end.

(** ** The functions of the C library *)

Definition MAX_COMMAND_SIZE : nat := 255.
Definition MAX_ETHTOOL_LINE : nat := 2048.

(** [strtok(_, ":")]: a token and what follows its delimiter. *)
Fixpoint upto_colon (s : list Z) : list Z * list Z :=
  match s with
  | [] => ([], [])
  | c :: s => if c =? 58 then ([], s) else let '(t, r) := upto_colon s in (c :: t, r)
  end.
Definition strtok_colon (s : list Z) : option (list Z * list Z) :=
  match drop_while (λ c, c =? 58) s with [] => None | s => Some (upto_colon s) end.

(** [strcpy] of a token, which may be NULL, into an array of [n] bytes. *)
Definition strcpy_array (n : nat) (t : option (list Z * list Z)) : res (list Z * list Z) :=
  '(s, r) ← deref t;
  ensure (bool_decide (length s < n)%nat) StackOverflow;; Ok (s, r).

Definition atoll (s : list Z) : res Z :=
  let s := lskip s in
  let z := if first s =? 45 then - digits 0 (tail s)
           else if first s =? 43 then digits 0 (tail s) else digits 0 s in
  ensure (i64_ok z) SignedOverflow;; Ok z.

(** The number of blanks at the start of a text. *)
Fixpoint blanks (s : list Z) : nat :=
  match s with c :: s => if c =? 32 then S (blanks s) else O | [] => O end.

(** [trim2] on a text in an array of [room] bytes.  The second loop goes on to
    the NUL when the last character is a blank; then the bytes from [i] to [j]
    are moved to the front and a NUL is put behind them. *)
Definition trim2 (room : nat) (s : list Z) : res (list Z) :=
  let n := length s in
  let i := blanks s in
  let j := if bool_decide (1 < n)%nat && (List.last s 0 =? 32) then n else (n - 1)%nat in
  let moved := if bool_decide (n = 0)%nat then [] else take (S j - i) (drop i (s ++ [0])) in
  ensure (bool_decide (length moved < room)%nat) StackOverflow;;
  Ok (upto_nul (moved ++ [0])).

(** ** get_interface_stats *)

(** The text of a line before its newline. *)
Fixpoint upto_nl (s : list Z) : list Z := match s with [] => [] | c :: s => if c =? 10 then [] else c :: upto_nl s end.

(** The body of the loop. *)
Definition stat_line (buf : list Z) (s : stats) : res stats :=
  '(token, rest) ← strcpy_array (MAX_ETHTOOL_LINE / 2) (strtok_colon (upto_nl (upto_nul buf)));
  token ← trim2 (MAX_ETHTOOL_LINE / 2) token;
  match find_parameter token parameters with
  | None => Ok s
  | Some f =>
      '(value, _) ← strcpy_array (MAX_ETHTOOL_LINE / 2) (strtok_colon rest);
      value ← trim2 (MAX_ETHTOOL_LINE / 2) value;
      match value with
      | [] => Ok s
      | _ => v ← atoll value; x ← stat_value f v; Ok (set_stat f x s)
      end
  end.
Fixpoint stat_lines (lines : list (list Z)) (s : stats) : res stats :=
  match lines with [] => Ok s | buf :: lines => s ← stat_line buf s; stat_lines lines s end.

Section ethtool.
Context {W : Type} `{Shell W}.

Definition ethtool_command (intf : list Z) : list Z := lit_bytes "ethtool -S " ++ intf ++ lit_bytes " 2>/dev/null".

Definition get_interface_stats (intf_name : charp) : ST W (option stats) :=
  intf ← lift (chars intf_name);
  cmd ← lift (sprintf_local MAX_COMMAND_SIZE (ethtool_command intf));
  pp ← popen cmd;
  match pp with
  | None => mret None
  | Some out => s ← lift (stat_lines (lines_of (MAX_ETHTOOL_LINE - 1) out) no_stats); mret (Some s)
  end.
End ethtool.

(** ** get_interface_names *)

(** The names of the entries with a hardware address, the last one first; an
    entry without an address is read through NULL. *)
Fixpoint packet_names (addrs : list ifaddrs) (lista : list charp) : res (list charp) :=
  match addrs with
  | [] => Ok lista
  | a :: addrs =>
      d ← deref (ifa_addr a);
      packet_names addrs (match d with AF_PACKET _ => mk_str (ifa_name a) :: lista | _ => lista end)
  end.
Definition get_interface_names {W} `{IfHost W} (w : W) : res (option (list charp)) :=
  match getifaddrs w with
  | None => Ok None
  | Some addrs => l ← packet_names addrs []; Ok (Some l)
  end.

(** ** What [ethtool] prints *)

(** A counter with its name, and the line for it. *)
Definition stat_entry : Type := list Z * Z.
Definition stat_body (e : stat_entry) : list Z := lit_bytes "     " ++ e.1 ++ 58 :: 32 :: number e.2.
Definition print_stats (es : list stat_entry) : list Z := printed (lit_bytes "NIC statistics:" :: (stat_body <$> es)).

(** The last value printed for a field, and what the agent makes of it. *)
Definition printed_value (f : stat_field) (es : list stat_entry) : option Z :=
  snd <$> last (filter (λ e, find_parameter e.1 parameters = Some f) es).
Definition shown (f : stat_field) (v : Z) : Z :=
  match f with F_signal | F_noise => 256 - v | _ => v end.

Definition int_field (f : stat_field) : bool := match f with F_signal | F_noise | F_channel => true | _ => false end.
Definition name_char (c : Z) : bool := negb (bool_decide (c ∈ [0; 10; 32; 58])).
Definition stat_entry_ok (e : stat_entry) : bool :=
  bool_decide (e.1 ≠ []) && forallb name_char e.1 && bool_decide (length e.1 < 900)%nat && (0 <=? e.2) && (e.2 <? 2 ^ 63) &&
  match find_parameter e.1 parameters with Some f => negb (int_field f) || (e.2 <? 2 ^ 31) | None => true end.

Lemma upto_nl_id s r : Forall (λ c, c ≠ 10) s → upto_nl (s ++ 10 :: r) = s.
Proof. induction 1 as [|c s Hc _ IH]; [done|]. cbn. by rewrite (proj2 (Z.eqb_neq _ _) Hc), IH. Qed.

Lemma upto_colon_app s r : Forall (λ c, c ≠ 58) s → upto_colon (s ++ 58 :: r) = (s, r).
Proof. induction 1 as [|c s Hc _ IH]; [done|]. cbn. by rewrite (proj2 (Z.eqb_neq _ _) Hc), IH. Qed.

Lemma upto_colon_end s : Forall (λ c, c ≠ 58) s → upto_colon s = (s, []).
Proof. induction 1 as [|c s Hc _ IH]; [done|]. cbn. by rewrite (proj2 (Z.eqb_neq _ _) Hc), IH. Qed.

Lemma strtok_colon_head c s : c ≠ 58 → strtok_colon (c :: s) = Some (upto_colon (c :: s)).
Proof. intros Hc. unfold strtok_colon. cbn [drop_while]. by rewrite (proj2 (Z.eqb_neq _ _) Hc). Qed.

Lemma strcpy_array_Ok n s r : (length s < n)%nat → strcpy_array n (Some (s, r)) = Ok (s, r).
Proof. intros Hs. unfold strcpy_array. cbn [deref mbind res_bind]. by rewrite bool_decide_true. Qed.

Lemma blanks_replicate n s : first s ≠ 32 → blanks (replicate n 32 ++ s) = n.
Proof.
  intros Hs. induction n as [|n IH]; cbn; [|by rewrite IH].
  destruct s as [|c s]; [done|]. cbn in *. by rewrite (proj2 (Z.eqb_neq _ _) Hs).
Qed.

(** [trim2] drops the blanks in front of a text without blanks at its end. *)
Lemma trim2_lead room n s : Forall (λ c, c ≠ 0 ∧ c ≠ 32) s → s ≠ [] → (length s < room)%nat →
  trim2 room (replicate n 32 ++ s) = Ok s.
Proof.
  intros Hs Hne Hl. unfold trim2. cbv zeta.
  assert (first s ≠ 32) as Hf by (destruct Hs as [|c s []]; done). rewrite blanks_replicate by done.
  assert ((List.last (replicate n 32 ++ s) 0 =? 32) = false) as ->.
  { apply Z.eqb_neq. destruct (exists_last Hne) as (s' & c & ->). rewrite app_assoc, List.last_last.
    by apply Forall_app in Hs as [_ [[] _]%Forall_cons_1]. }
  rewrite andb_false_r, length_app, length_replicate. rewrite bool_decide_false by (destruct s; [done|simpl; lia]).
  rewrite <- app_assoc, drop_app_length' by (by rewrite length_replicate).
  rewrite take_app_length' by (destruct s; [done|simpl; lia]). rewrite bool_decide_true by done. cbn [ensure mbind res_bind].
  f_equal. clear -Hs. induction Hs as [|c s [Hc _] _ IH]; [done|]. cbn. by rewrite (proj2 (Z.eqb_neq _ _) Hc), IH.
Qed.

(** The digits of a counter. *)
Lemma number_digits v : 0 ≤ v < 2 ^ 63 → number v = dec_nat 20 v.
Proof. intros Hv. unfold decimal. by rewrite (proj2 (Z.ltb_ge _ _)) by lia. Qed.

Lemma atoll_number v : 0 ≤ v < 2 ^ 63 → atoll (number v) = Ok v.
Proof.
  intros Hv. rewrite number_digits by done. destruct (dec_nat_spec 20 v) as (Hd & Hdig & _); [lia|].
  assert (lskip (dec_nat 20 v) = dec_nat 20 v ∧ (first (dec_nat 20 v) =? 45) = false ∧ (first (dec_nat 20 v) =? 43) = false) as (E & E1 & E2).
  { destruct (dec_nat 20 v) as [|x l]; [done|]. inversion Hdig as [|? ? Hx _]; subst. unfold isdigit in Hx. split_andb. to_prop.
    split; [|by split; apply Z.eqb_neq; simpl; lia]. cbn.
    assert (isspace x = false) as ->; [unfold isspace; lia|done]. }
  unfold atoll. rewrite E. cbv zeta. rewrite E1, E2, Hd. assert (s_ok 64 v = true) as ->; [in_range|done].
Qed.

(** ** Reading it back *)

Lemma name_chars k : forallb name_char k = true → Forall (λ c, c ≠ 0 ∧ c ≠ 10 ∧ c ≠ 32 ∧ c ≠ 58) k.
Proof.
  rewrite forallb_forall, Forall_forall. intros Hk c Hc%list_elem_of_In. specialize (Hk c Hc). unfold name_char in Hk.
  apply negb_true_iff, bool_decide_eq_false in Hk. set_solver.
Qed.

Lemma number_chars_spec v : 0 ≤ v < 2 ^ 63 →
  Forall (λ c, 48 ≤ c ≤ 57) (number v) ∧ number v ≠ [] ∧ (length (number v) ≤ 21)%nat.
Proof.
  intros Hv. split; [|split; [|apply length_number; in_range]]; rewrite number_digits by done.
  - destruct (dec_nat_spec 20 v) as (_ & Hdig & _); [lia|]. eapply Forall_impl; [exact Hdig|]. unfold isdigit. intros c Hc. lia.
  - cbn. case_match; [done|]. intros E%(f_equal length). rewrite length_app in E. simpl in E. lia.
Qed.

Lemma stat_entry_spec k v : stat_entry_ok (k, v) = true → k ≠ [] ∧ (length k < 900)%nat ∧ 0 ≤ v < 2 ^ 63 ∧
  Forall (λ c, c ≠ 0 ∧ c ≠ 10 ∧ c ≠ 32 ∧ c ≠ 58) k ∧
  ∀ f, find_parameter k parameters = Some f → int_field f = true → v < 2 ^ 31.
Proof.
  unfold stat_entry_ok. cbn [fst snd]. intros Hok. split_andb. to_prop.
  repeat match goal with H : bool_decide _ = true |- _ => apply bool_decide_eq_true in H end.
  split_and!; [done..|by apply name_chars|]. intros f Hf Hi. rewrite Hf, Hi in *. simpl in *. lia.
Qed.

Lemma stat_body_chars k v : stat_entry_ok (k, v) = true → Forall (λ c, c ≠ 0 ∧ c ≠ 10) (stat_body (k, v)).
Proof.
  intros (_ & _ & Hv & Hk & _)%stat_entry_spec. destruct (number_chars_spec v Hv) as (Hn & _).
  unfold stat_body. cbn [fst snd]. apply Forall_app; split; [literal|].
  apply Forall_app; split; [eapply Forall_impl; [exact Hk|]; naive_solver|].
  do 2 (constructor; [done|]). eapply Forall_impl; [exact Hn|]. simpl; lia.
Qed.

(** What a line does to the counters. *)
Definition record_stat (s : stats) (e : stat_entry) : stats :=
  match find_parameter e.1 parameters with Some f => set_stat f (shown f e.2) s | None => s end.

Lemma stat_value_shown f v : 0 ≤ v < 2 ^ 63 → (int_field f = true → v < 2 ^ 31) → stat_value f v = Ok (shown f v).
Proof.
  intros Hv Hi. assert (int_field f = true → to_i32 v = v ∧ to_i32 (256 - v) = 256 - v) as Ht.
  { intros Hf. specialize (Hi Hf). split; apply to_s_id; in_range. }
  destruct f; try done; destruct (Ht eq_refl) as [E1 E2]; specialize (Hi eq_refl); unfold stat_value; rewrite ?E1, ?E2; try done;
    (assert (s_ok 32 (256 - v) = true ∧ s_ok 64 (256 - v) = true) as [Ea Eb] by (split; in_range)); by rewrite ?Ea, ?Eb.
Qed.

Lemma stat_line_printed e s : stat_entry_ok e = true → stat_line (stat_body e ++ [10]) s = Ok (record_stat s e).
Proof.
  destruct e as [k v]. intros Hok. pose proof (stat_body_chars k v Hok) as Hall.
  apply stat_entry_spec in Hok as (Hke & Hkl & Hv & Hk & Hi).
  destruct (number_chars_spec v Hv) as (Hn & Hne & Hnl). unfold stat_line, stat_body in *. cbn [fst snd] in *.
  rewrite upto_nul_id by (apply Forall_app; split; [eapply Forall_impl; [exact Hall|]; naive_solver|by constructor]).
  rewrite upto_nl_id by (eapply Forall_impl; [exact Hall|]; naive_solver).
  change (lit_bytes "     " ++ k ++ 58 :: 32 :: number v) with (32 :: (replicate 4 32 ++ k ++ 58 :: 32 :: number v)).
  rewrite strtok_colon_head by done.
  change (32 :: (replicate 4 32 ++ k ++ 58 :: 32 :: number v)) with (replicate 5 32 ++ k ++ 58 :: 32 :: number v).
  rewrite app_assoc, upto_colon_app; [|apply Forall_app; split; [literal|eapply Forall_impl; [exact Hk|]; naive_solver]].
  change (MAX_ETHTOOL_LINE / 2)%nat with 1024%nat.
  rewrite strcpy_array_Ok by (rewrite length_app, length_replicate; lia). cbn [mbind res_bind].
  rewrite trim2_lead; [|eapply Forall_impl; [exact Hk|]; naive_solver|done|lia]. cbn [mbind res_bind]. unfold record_stat. cbn [fst snd].
  destruct (find_parameter k parameters) as [f|]; [|done]. specialize (Hi f eq_refl). rewrite strtok_colon_head by done.
  rewrite upto_colon_end by (constructor; [done|]; eapply Forall_impl; [exact Hn|]; simpl; lia).
  rewrite strcpy_array_Ok by (cbn [length]; lia). cbn [mbind res_bind].
  change (32 :: number v) with (replicate 1 32 ++ number v).
  rewrite trim2_lead; [|eapply Forall_impl; [exact Hn|]; simpl; lia|done|lia]. cbn [mbind res_bind].
  destruct (number v) as [|d n] eqn:En; [done|]. rewrite <- En, atoll_number by lia. cbn [mbind res_bind].
  by rewrite stat_value_shown.
Qed.

Lemma stat_lines_printed es s : forallb stat_entry_ok es = true →
  stat_lines (ended (stat_body <$> es)) s = Ok (foldl record_stat s es).
Proof.
  revert s. induction es as [|e es IH]; intros s; [done|]. cbn [forallb]. intros He. split_andb.
  unfold ended in *. rewrite !fmap_cons. cbn [stat_lines]. rewrite stat_line_printed by done. cbn [mbind res_bind]. by rewrite IH.
Qed.

Lemma recorded es s f : foldl record_stat s es f = default (s f) (shown f <$> printed_value f es).
Proof.
  unfold printed_value. induction es as [|e es IH] using rev_ind; [done|]. rewrite foldl_app, filter_app. cbn [foldl].
  unfold record_stat at 1. rewrite filter_cons, filter_nil. destruct (find_parameter e.1 parameters) as [g|] eqn:E.
  - unfold set_stat. destruct (decide (f = g)) as [->|Hn].
    + rewrite decide_True by done. by rewrite last_snoc.
    + rewrite decide_False by congruence. by rewrite app_nil_r.
  - rewrite decide_False by done. by rewrite app_nil_r.
Qed.

Lemma stats_lines es : forallb stat_entry_ok es = true →
  lines_of 2047 (print_stats es) = ended (lit_bytes "NIC statistics:" :: (stat_body <$> es)).
Proof.
  intros Hes. apply read_lines_cut; [|apply concat_lines_length]. constructor; [split; [literal|vm_compute; lia]|].
  apply Forall_fmap, Forall_forall. intros [k v] He%list_elem_of_In. rewrite forallb_forall in Hes. specialize (Hes _ He).
  split; [eapply Forall_impl; [exact (stat_body_chars k v Hes)|]; naive_solver|].
  apply stat_entry_spec in Hes as (_ & Hl & Hv & _). destruct (number_chars_spec v Hv) as (_ & _ & Hnl).
  unfold stat_body. cbn [compose fst snd]. rewrite !length_app. cbn [length]. change (length (lit_bytes "     ")) with 5%nat. lia.
Qed.

Section reading.
Context {W : Type} `{Shell W}.

End reading.

#[local] Existing Instance echo_shell.
Definition sample_stats : list stat_entry :=
  [(lit_bytes "tx_bytes", 1234567); (lit_bytes "queue_0", 3); (lit_bytes "noise", 161); (lit_bytes "tx_bytes", 99)].

