(* ===== verification/DlList.v ===== *)
(** Doubly linked circular lists: [utils/list.h] of hostapd, which the event
    loop and other parts of hostapd keep their entries in.

    A list is a ring of [struct dl_list] through a head that carries no entry.
    The theorem at the end says that the operations on pointers compute the
    operations on sequences that [Eloop] uses. *)
From stdpp Require Import prelude list gmap.
From S2P Require Import Prelude.

(** ** Nodes *)

(** The fields [next] and [prev] of the nodes, by the address of the node; a
    field that is not in the map is NULL or not assigned. *)
Definition dl_loc : Type := positive.
Record dl_heap := DlHeap { dl_next : gmap dl_loc dl_loc; dl_prev : gmap dl_loc dl_loc }.

Definition get_next (l : dl_loc) : ST dl_heap dl_loc := λ h, p ← deref (dl_next h !! l); Ok (p, h).
Definition get_prev (l : dl_loc) : ST dl_heap dl_loc := λ h, p ← deref (dl_prev h !! l); Ok (p, h).
Definition put_next (l p : dl_loc) : ST dl_heap unit := λ h, Ok (tt, DlHeap (<[l := p]> (dl_next h)) (dl_prev h)).
Definition put_prev (l p : dl_loc) : ST dl_heap unit := λ h, Ok (tt, DlHeap (dl_next h) (<[l := p]> (dl_prev h))).
Definition null_links (l : dl_loc) : ST dl_heap unit := λ h, Ok (tt, DlHeap (delete l (dl_next h)) (delete l (dl_prev h))).

(** ** The operations *)

Definition dl_list_init (head : dl_loc) : ST dl_heap unit := put_next head head;; put_prev head head.

Definition dl_list_add (head item : dl_loc) : ST dl_heap unit :=
  n ← get_next head;
  put_next item n;;
  put_prev item head;;
  n ← get_next head;
  put_prev n item;;
  put_next head item.

Definition dl_list_add_tail (head item : dl_loc) : ST dl_heap unit := p ← get_prev head; dl_list_add p item.

Definition dl_list_del (item : dl_loc) : ST dl_heap unit :=
  n ← get_next item;
  p ← get_prev item;
  put_prev n p;;
  p ← get_prev item;
  n ← get_next item;
  put_next p n;;
  null_links item.

Definition dl_list_empty (head : dl_loc) : ST dl_heap bool := n ← get_next head; mret (bool_decide (n = head)).

(** [dl_list_for_each]: the items in the order of the loop; [fuel] bounds the
    number of turns. *)
Fixpoint items_from (fuel : nat) (item head : dl_loc) : ST dl_heap (list dl_loc) :=
  match fuel with
  | O => fail Diverges
  | S fuel =>
      if bool_decide (item = head) then mret []
      else n ← get_next item; l ← items_from fuel n head; mret (item :: l)
  end.
Definition dl_list_for_each (head : dl_loc) : ST dl_heap (list dl_loc) := λ h,
  (n ← get_next head; items_from (S (size (dl_next h))) n head) h.

Definition dl_list_len (head : dl_loc) : ST dl_heap Z := l ← dl_list_for_each head; mret (to_u32 (Z.of_nat (length l))).

Definition dl_list_first (head : dl_loc) : ST dl_heap (option dl_loc) :=
  e ← dl_list_empty head;
  if e : bool then mret None else n ← get_next head; mret (Some n).
Definition dl_list_last (head : dl_loc) : ST dl_heap (option dl_loc) :=
  e ← dl_list_empty head;
  if e : bool then mret None else p ← get_prev head; mret (Some p).

(** ** Rings *)

(** From [a] on, neighbours of a sequence point to each other. *)
Fixpoint path (N P : gmap dl_loc dl_loc) (a : dl_loc) (l : list dl_loc) : Prop :=
  match l with
  | [] => True
  | b :: l => N !! a = Some b ∧ P !! b = Some a ∧ path N P b l
  end.

(** The list with head [head] holds [xs]. *)
Definition ring (h : dl_heap) (head : dl_loc) (xs : list dl_loc) : Prop :=
  NoDup (head :: xs) ∧ path (dl_next h) (dl_prev h) head (xs ++ [head]).

Lemma path_app N P a l1 m l2 : path N P a (l1 ++ m :: l2) ↔ path N P a (l1 ++ [m]) ∧ path N P m l2.
Proof. revert a. induction l1 as [|b l1 IH]; intros a; cbn; [naive_solver|]. rewrite IH. naive_solver. Qed.

(** A node is left by one pointer [next] and entered by one pointer [prev]. *)
Lemma path_next N P k v a l z : k ∉ a :: l → path N P a (l ++ [z]) → path (<[k := v]> N) P a (l ++ [z]).
Proof.
  revert a. induction l as [|b l IH]; intros a; cbn; intros Hk (H1 & H2 & H3).
  - rewrite lookup_insert_ne by set_solver. done.
  - rewrite lookup_insert_ne by set_solver. split_and!; [done..|]. apply IH; [set_solver|done].
Qed.
Lemma path_prev N P k v a l : k ∉ l → path N P a l → path N (<[k := v]> P) a l.
Proof.
  revert a. induction l as [|b l IH]; intros a; cbn; [done|]. intros Hk (H1 & H2 & H3).
  rewrite lookup_insert_ne by set_solver. split_and!; [done..|]. apply IH; [set_solver|done].
Qed.
Lemma path_delete N P k a l z : k ∉ a :: l ++ [z] → path N P a (l ++ [z]) → path (delete k N) (delete k P) a (l ++ [z]).
Proof.
  revert a. induction l as [|b l IH]; intros a; cbn; intros Hk (H1 & H2 & H3).
  - by rewrite !lookup_delete_ne by set_solver.
  - rewrite !lookup_delete_ne by set_solver. split_and!; [done..|]. apply IH; [set_solver|done].
Qed.

(** The neighbours of a place in the list. *)
Lemma ring_split h head l1 l2 : ring h head (l1 ++ l2) → let p := List.last (head :: l1) head in let q := hd head l2 in
  dl_next h !! p = Some q ∧ dl_prev h !! q = Some p.
Proof.
  intros [_ H]. cbv zeta. destruct (exists_last (l := head :: l1)) as (l0 & p & E); [done|].
  rewrite E, List.last_last. assert (∃ r, (l1 ++ l2) ++ [head] = l1 ++ hd head l2 :: r) as [r Er].
  { rewrite <- app_assoc. destruct l2; simpl; eauto. }
  rewrite Er in H. destruct l0 as [|b l0]; simplify_eq/=.
  - by destruct H as (? & ? & _).
  - rewrite <- app_assoc in H. apply (path_app _ _ _ _ p) in H as [_ (? & ? & _)]. done.
Qed.

Lemma last_cons_snoc (x : dl_loc) l y : List.last (x :: l ++ [y]) x = y.
Proof. by rewrite app_comm_cons, List.last_last. Qed.

(** The fields, read and written. *)
Definition next_put (l p : dl_loc) (h : dl_heap) : dl_heap := DlHeap (<[l := p]> (dl_next h)) (dl_prev h).
Definition prev_put (l p : dl_loc) (h : dl_heap) : dl_heap := DlHeap (dl_next h) (<[l := p]> (dl_prev h)).
Lemma get_next_Ok l p h : dl_next h !! l = Some p → get_next l h = Ok (p, h).
Proof. intros E. unfold get_next. by rewrite E. Qed.
Lemma get_prev_Ok l p h : dl_prev h !! l = Some p → get_prev l h = Ok (p, h).
Proof. intros E. unfold get_prev. by rewrite E. Qed.
Lemma put_next_Ok l p h : put_next l p h = Ok (tt, next_put l p h).
Proof. done. Qed.
Lemma put_prev_Ok l p h : put_prev l p h = Ok (tt, prev_put l p h).
Proof. done. Qed.

(** [dl_list_add] behind [l1] enters the item there. *)
Lemma dl_list_add_spec h head l1 l2 item : ring h head (l1 ++ l2) → item ∉ head :: l1 ++ l2 → ∃ h',
  dl_list_add (List.last (head :: l1) head) item h = Ok (tt, h') ∧ ring h' head (l1 ++ item :: l2).
Proof.
  intros Hr Hi. destruct (ring_split h head l1 l2 Hr) as [Hn Hp]. destruct Hr as [Hd Hr].
  set (p := List.last (head :: l1) head) in *. set (q := hd head l2) in *.
  assert (p ∈ head :: l1 ∧ q ∈ head :: l2) as [Hpin Hqin].
  { split; [|unfold q; destruct l2; set_solver]. destruct (exists_last (l := head :: l1)) as (l0 & y & E); [done|].
    unfold p. rewrite E, List.last_last. set_solver. }
  assert (p ≠ item ∧ q ≠ item) as [Hpi Hqi] by set_solver.
  exists (DlHeap (<[p := item]> (<[item := q]> (dl_next h))) (<[q := item]> (<[item := p]> (dl_prev h)))).
  split.
  { unfold dl_list_add. run (get_next_Ok p q h Hn). run (put_next_Ok item q h). run (put_prev_Ok item p (next_put item q h)).
    rewrite (st_bind_Ok _ _ _ q (prev_put item p (next_put item q h))) by (apply get_next_Ok; cbn; by rewrite lookup_insert_ne).
    run (put_prev_Ok q item (prev_put item p (next_put item q h))). done. }
  apply NoDup_cons in Hd as [Hh Hd].
  split.
  { rewrite <- Permutation_middle. constructor; [set_solver|]. constructor; [set_solver|done]. }
  cbn [dl_next dl_prev]. rewrite <- app_assoc. cbn [app]. apply NoDup_app in Hd as (Hd1 & Hd12 & Hd2).
  rewrite <- app_assoc in Hr. apply path_app. split.
  - destruct (decide (l1 = [])) as [->|Hne].
    { cbn. unfold p. cbn. by rewrite lookup_insert_eq, lookup_insert_ne, lookup_insert_eq by done. }
    destruct (exists_last Hne) as (l0 & y & ->). unfold p in *. rewrite last_cons_snoc in *.
    rewrite <- app_assoc in Hr |- *. cbn [app] in Hr |- *. apply path_app in Hr as [Hr _]. apply path_app.
    split; [|cbn; by rewrite lookup_insert_eq, lookup_insert_ne, lookup_insert_eq by done].
    apply NoDup_app in Hd1 as (_ & Hd1 & _).
    clearbody q. assert ((y ∉ head :: l0) ∧ (item ∉ head :: l0) ∧ (q ∉ l0 ++ [y]) ∧ (item ∉ l0 ++ [y])) as (N1 & N2 & N3 & N4).
    { clear -Hqin Hd12 Hh Hi Hd1. set_solver. }
    by apply path_next, path_next, path_prev, path_prev.
  - clearbody p. unfold q in *. destruct l2 as [|c l2]; cbn in *.
    { by rewrite lookup_insert_ne, !lookup_insert_eq by done. }
    rewrite lookup_insert_ne, !lookup_insert_eq by done. split_and!; [done..|].
    apply path_app in Hr as [_ Hr]. apply NoDup_cons in Hd2 as [Hc _].
    assert ((p ∉ c :: l2) ∧ (item ∉ c :: l2) ∧ (c ∉ l2 ++ [head]) ∧ (item ∉ l2 ++ [head])) as (N1 & N2 & N3 & N4).
    { clear -Hpin Hd12 Hh Hi Hc. set_solver. }
    by apply path_next, path_next, path_prev, path_prev.
Qed.

(** [dl_list_del] takes the item out. *)
Lemma dl_list_del_spec h head l1 l2 item : ring h head (l1 ++ item :: l2) → ∃ h',
  dl_list_del item h = Ok (tt, h') ∧ ring h' head (l1 ++ l2).
Proof.
  intros Hr. destruct (ring_split h head l1 (item :: l2) Hr) as [Hpn Hpp].
  destruct (ring_split h head (l1 ++ [item]) l2) as [Hqn Hqp]; [by rewrite <- app_assoc|].
  rewrite last_cons_snoc in *. cbn [hd] in *. destruct Hr as [Hd Hr].
  set (p := List.last (head :: l1) head) in *. set (q := hd head l2) in *.
  assert (p ∈ head :: l1 ∧ q ∈ head :: l2) as [Hpin Hqin].
  { split; [|unfold q; destruct l2; set_solver]. destruct (exists_last (l := head :: l1)) as (l0 & y & E); [done|].
    unfold p. rewrite E, List.last_last. set_solver. }
  assert (NoDup (item :: head :: l1 ++ l2)) as Hd'.
  { rewrite <- Permutation_middle in Hd. by rewrite Permutation_swap. }
  apply NoDup_cons in Hd' as [Hi Hd']. apply NoDup_cons in Hd' as [Hh Hd']. apply NoDup_app in Hd' as (Hd1 & Hd12 & Hd2).
  assert (q ≠ item) as Hqi by (clear -Hi Hqin; set_solver).
  exists (DlHeap (delete item (<[p := q]> (dl_next h))) (delete item (<[q := p]> (dl_prev h)))). split.
  { unfold dl_list_del. run (get_next_Ok item q h Hqn). run (get_prev_Ok item p h Hpp). run (put_prev_Ok q p h).
    rewrite (st_bind_Ok _ _ _ p (prev_put q p h)) by (apply get_prev_Ok; cbn; by rewrite lookup_insert_ne).
    run (get_next_Ok item q (prev_put q p h) Hqn). run (put_next_Ok p q (prev_put q p h)). done. }
  split; [constructor; [done|]; apply NoDup_app; split_and!; done|]. cbn [dl_next dl_prev].
  assert (path (<[p := q]> (dl_next h)) (<[q := p]> (dl_prev h)) head ((l1 ++ l2) ++ [head])) as H.
  2:{ apply path_delete; [clear -Hi; set_solver|done]. }
  rewrite <- app_assoc in Hr |- *. cbn [app] in Hr. apply path_app in Hr as [Hr1 Hr2].
  assert (path (<[p := q]> (dl_next h)) (<[q := p]> (dl_prev h)) head (l1 ++ [q])) as Hfront.
  { clear Hr2. clearbody q. destruct (decide (l1 = [])) as [->|Hne].
    { cbn. unfold p. cbn. by rewrite !lookup_insert_eq. }
    destruct (exists_last Hne) as (l0 & y & ->). unfold p in *. rewrite last_cons_snoc in *.
    rewrite <- app_assoc in Hr1 |- *. cbn [app] in Hr1 |- *. apply path_app in Hr1 as [Hr1 _]. apply path_app.
    split; [|cbn; by rewrite !lookup_insert_eq]. apply NoDup_app in Hd1 as (_ & Hd1 & _).
    assert ((y ∉ head :: l0) ∧ (q ∉ l0 ++ [y])) as (N1 & N2) by (clear -Hqin Hd12 Hh Hd1; set_solver).
    by apply path_next, path_prev. }
  clearbody p. unfold q in *. destruct l2 as [|c l2]; cbn in *; [done|]. apply path_app. split; [done|].
  destruct Hr2 as (_ & _ & Hr2). apply NoDup_cons in Hd2 as [Hc _].
  assert ((p ∉ c :: l2) ∧ (c ∉ l2 ++ [head])) as (N1 & N2) by (clear -Hpin Hd12 Hh Hc; set_solver).
  by apply path_next, path_prev.
Qed.

(** ** Reading a ring *)

Lemma path_dom N P a l z x : path N P a (l ++ [z]) → x ∈ a :: l → is_Some (N !! x).
Proof.
  revert a. induction l as [|b l IH]; intros a; cbn; intros (H1 & _ & H) Hx.
  - apply list_elem_of_singleton in Hx as ->. by rewrite H1.
  - apply elem_of_cons in Hx as [->|Hx]; [by rewrite H1|eauto].
Qed.

Lemma ring_length h head xs : ring h head xs → (length xs < size (dl_next h))%nat.
Proof.
  intros [Hd Hr]. apply (Nat.lt_le_trans _ (length (head :: xs))); [simpl; lia|].
  rewrite <- (size_list_to_set (C := gset dl_loc)), <- size_dom by done. apply subseteq_size.
  intros x Hx%elem_of_list_to_set. apply elem_of_dom. eauto using path_dom.
Qed.

Lemma items_from_path fuel h head x ys : (length ys + 1 < fuel)%nat → head ∉ x :: ys →
  path (dl_next h) (dl_prev h) x (ys ++ [head]) → items_from fuel x head h = Ok (x :: ys, h).
Proof.
  revert x fuel. induction ys as [|y ys IH]; intros x [|fuel] Hf Hh Hp; simpl in Hf; [lia| |lia|];
    cbn [items_from]; rewrite bool_decide_false by set_solver; cbn in Hp; destruct Hp as (Hn & _ & Hp);
    run (get_next_Ok _ _ _ Hn).
  - destruct fuel as [|fuel]; [lia|]. cbn [items_from]. by rewrite bool_decide_true.
  - assert (items_from fuel y head h = Ok (y :: ys, h)) as E; [|by run E].
    apply IH; [lia|set_solver|done].
Qed.

Lemma for_each_ring h head xs : ring h head xs → dl_list_for_each head h = Ok (xs, h).
Proof.
  intros Hr. pose proof (ring_length h head xs Hr) as Hl. destruct Hr as [Hd Hr]. apply NoDup_cons in Hd as [Hh _].
  unfold dl_list_for_each. destruct xs as [|x xs]; cbn in Hr; destruct Hr as (Hn & _ & Hr); run (get_next_Ok _ _ _ Hn).
  - cbn [items_from]. by rewrite bool_decide_true.
  - apply items_from_path; [simpl in Hl; lia|done..].
Qed.

(** ** Operations on sequences *)

Inductive dl_op := DlAddAfter (x item : dl_loc) | DlAddBefore (x item : dl_loc) | DlAddTail (item : dl_loc) | DlDel (item : dl_loc).

(** As the callers write them: before [x] is behind its predecessor. *)
Definition dl_do (head : dl_loc) (o : dl_op) : ST dl_heap unit :=
  match o with
  | DlAddAfter x item => dl_list_add x item
  | DlAddBefore x item => p ← get_prev x; dl_list_add p item
  | DlAddTail item => dl_list_add_tail head item
  | DlDel item => dl_list_del item
  end.
Fixpoint dl_run (head : dl_loc) (ops : list dl_op) : ST dl_heap unit :=
  match ops with [] => mret tt | o :: ops => dl_do head o;; dl_run head ops end.

(** The sequence cut at its entry [x]. *)
Fixpoint cut_at (x : dl_loc) (l : list dl_loc) : option (list dl_loc * list dl_loc) :=
  match l with
  | [] => None
  | y :: l => if bool_decide (x = y) then Some ([], l) else '(a, b) ← cut_at x l; Some (y :: a, b)
  end.

(** The operations on sequences; [None] for an item that is in the list already
    or a place that is not. *)
Definition seq_do (head : dl_loc) (o : dl_op) (l : list dl_loc) : option (list dl_loc) :=
  match o with
  | DlAddAfter x item =>
      if bool_decide (item ∈ head :: l) then None
      else if bool_decide (x = head) then Some (item :: l) else '(a, b) ← cut_at x l; Some (a ++ x :: item :: b)
  | DlAddBefore x item =>
      if bool_decide (item ∈ head :: l) then None else '(a, b) ← cut_at x l; Some (a ++ item :: x :: b)
  | DlAddTail item => if bool_decide (item ∈ head :: l) then None else Some (l ++ [item])
  | DlDel item => '(a, b) ← cut_at item l; Some (a ++ b)
  end.
Fixpoint seq_run (head : dl_loc) (ops : list dl_op) (l : list dl_loc) : option (list dl_loc) :=
  match ops with [] => Some l | o :: ops => l ← seq_do head o l; seq_run head ops l end.

Lemma cut_at_spec x l a b : cut_at x l = Some (a, b) → l = a ++ x :: b.
Proof.
  revert a. induction l as [|y l IH]; intros a; cbn; [done|]. case_bool_decide as Hx; [by intros [= <- <-]; subst|].
  destruct (cut_at x l) as [[a' b']|]; [|done]. intros [= <- <-]. cbn. f_equal. by apply IH.
Qed.

Lemma ring_prev h head l1 l2 : ring h head (l1 ++ l2) → get_prev (hd head l2) h = Ok (List.last (head :: l1) head, h).
Proof. intros Hr. by apply get_prev_Ok, (ring_split h head l1 l2). Qed.

Lemma dl_do_seq head o l l' h : ring h head l → seq_do head o l = Some l' → ∃ h',
  dl_do head o h = Ok (tt, h') ∧ ring h' head l'.
Proof.
  intros Hr. destruct o as [x item|x item|item|item]; cbn; repeat case_bool_decide; try done.
  - subst. intros [= <-]. by apply (dl_list_add_spec h head [] l).
  - destruct (cut_at x l) as [[a b]|] eqn:E; [|done]. intros [= <-]. apply cut_at_spec in E as ->.
    destruct (dl_list_add_spec h head (a ++ [x]) b item) as (h' & E & Hr'); [by rewrite <- app_assoc..|].
    rewrite last_cons_snoc in E. rewrite <- app_assoc in Hr'. eauto.
  - destruct (cut_at x l) as [[a b]|] eqn:E; [|done]. intros [= <-]. apply cut_at_spec in E as ->.
    rewrite (st_bind_Ok _ _ _ _ _ (ring_prev h head a (x :: b) Hr)). by apply dl_list_add_spec.
  - intros [= <-]. unfold dl_list_add_tail. rewrite <- (app_nil_r l) in Hr.
    rewrite (st_bind_Ok _ _ _ _ _ (ring_prev h head l [] Hr)). apply dl_list_add_spec; [done|by rewrite app_nil_r].
  - destruct (cut_at item l) as [[a b]|] eqn:E; [|done]. intros [= <-]. apply cut_at_spec in E as ->. by apply dl_list_del_spec.
Qed.

Lemma dl_run_seq head ops l l' h : ring h head l → seq_run head ops l = Some l' → ∃ h',
  dl_run head ops h = Ok (tt, h') ∧ ring h' head l'.
Proof.
  revert l h. induction ops as [|o ops IH]; intros l h Hr; cbn; [intros [= <-]; eauto|].
  destruct (seq_do head o l) as [l1|] eqn:E; [|done]. cbn. intros E'.
  destruct (dl_do_seq head o l l1 h Hr E) as (h1 & E1 & Hr1). run E1. eauto.
Qed.

(** C17: a circular list with pointers in both directions is a sequence: whatever
    entries are added, in front of or behind others or at the end, and taken out
    again, every walk ends, and the loop over the list, its length, its first
    and its last entry are those of the sequence. *)
Theorem dl_list_refines_sequence head ops l h : seq_run head ops [] = Some l → ∃ h',
  (dl_list_init head;; dl_run head ops) h = Ok (tt, h') ∧
  dl_list_for_each head h' = Ok (l, h') ∧ dl_list_len head h' = Ok (to_u32 (Z.of_nat (length l)), h') ∧
  dl_list_empty head h' = Ok (bool_decide (l = []), h') ∧
  dl_list_first head h' = Ok (List.head l, h') ∧ dl_list_last head h' = Ok (last l, h').
Proof.
  intros Hs. set (h0 := prev_put head head (next_put head head h)).
  assert (dl_list_init head h = Ok (tt, h0)) as E0 by done.
  assert (ring h0 head []) as Hr0.
  { split; [apply NoDup_singleton|]. cbn. by rewrite !lookup_insert_eq. }
  destruct (dl_run_seq head ops [] l h0 Hr0 Hs) as (h' & E & Hr). exists h'. run E0. split; [done|].
  assert (dl_list_for_each head h' = Ok (l, h')) as El by (by apply for_each_ring).
  destruct (ring_split h' head [] l Hr) as [Hn _]. cbn in Hn.
  assert (dl_list_empty head h' = Ok (bool_decide (l = []), h')) as Ee.
  { unfold dl_list_empty. run (get_next_Ok _ _ _ Hn). unfold mret, ST_ret. do 2 f_equal. apply bool_decide_ext.
    destruct l as [|x l]; [done|]. destruct Hr as [Hd _]. apply NoDup_cons in Hd as [Hd _]. cbn. set_solver. }
  split; [done|]. split; [unfold dl_list_len; by run El|]. split; [done|].
  unfold dl_list_first, dl_list_last. rewrite !(st_bind_Ok _ _ _ _ _ Ee).
  destruct (decide (l = [])) as [->|Hne]; [done|]. rewrite bool_decide_false by done. split.
  - run (get_next_Ok _ _ _ Hn). by destruct l.
  - rewrite <- (app_nil_r l) in Hr. destruct (exists_last Hne) as (l0 & y & ->).
    pose proof (ring_prev h' head _ _ Hr) as Ep. rewrite last_cons_snoc in Ep. run Ep. by rewrite last_snoc.
Qed.

Lemma dl_list_refines_sequence_witness : ∃ h',
  (dl_list_init 1%positive;; dl_run 1%positive [DlAddTail 2; DlAddTail 3; DlAddBefore 3 4; DlDel 2; DlAddAfter 1 5]%positive)
    (DlHeap ∅ ∅) = Ok (tt, h') ∧ dl_list_for_each 1%positive h' = Ok ([5; 4; 3]%positive, h').
Proof.
  destruct (dl_list_refines_sequence 1%positive [DlAddTail 2; DlAddTail 3; DlAddBefore 3 4; DlDel 2; DlAddAfter 1 5]%positive
    [5; 4; 3]%positive (DlHeap ∅ ∅)) as (h' & E & El & _); [vm_compute; reflexivity|eauto].
Defined.
