(* ===== verification/Eloop.v ===== *)
(** The event loop of hostapd, in which the agent runs: [utils/eloop.c], built
    for [select], as hostapd's configuration has it.

    Sockets, timeouts and signals are registered with a handler; [eloop_run]
    waits for events and calls the handlers, which may register and cancel
    again.  The list of timeouts is a circular list, of which [DlList] proves
    that it is a sequence. *)
From stdpp Require Import prelude list sorting.
From S2P Require Import Prelude Beacons.

(** ** Data *)

(** Handlers and contexts are pointers, that is, numbers. *)
Record eloop_sock := EloopSock { es_sock : Z; es_data : Z; es_user : Z; es_handler : Z }.
Record eloop_timeout := EloopTimeout { et_time : Z * Z; et_data : Z; et_user : Z; et_handler : Z }.
Record eloop_signal := EloopSignal { sg_sig : Z; sg_user : Z; sg_handler : Z; sg_signaled : Z }.

(** The table holds [count] entries. *)
Record eloop_sock_table := SockTable { st_table : list eloop_sock; st_changed : bool }.
Inductive eloop_event_type := EVENT_TYPE_READ | EVENT_TYPE_WRITE | EVENT_TYPE_EXCEPTION.

Record eloop_data := Eloop {
  max_sock : Z;
  el_count : Z;
  readers : eloop_sock_table;
  writers : eloop_sock_table;
  exceptions : eloop_sock_table;
  timeouts : list eloop_timeout;
  signals : list eloop_signal;
  signaled : Z;
  pending_terminate : bool;
  terminate : bool
}.

Definition eloop_get_sock_table (type : eloop_event_type) (e : eloop_data) : eloop_sock_table :=
  match type with EVENT_TYPE_READ => readers e | EVENT_TYPE_WRITE => writers e | EVENT_TYPE_EXCEPTION => exceptions e end.
Definition put_table (type : eloop_event_type) (t : eloop_sock_table) (e : eloop_data) : eloop_data :=
  Eloop (max_sock e) (el_count e)
    (match type with EVENT_TYPE_READ => t | _ => readers e end)
    (match type with EVENT_TYPE_WRITE => t | _ => writers e end)
    (match type with EVENT_TYPE_EXCEPTION => t | _ => exceptions e end)
    (timeouts e) (signals e) (signaled e) (pending_terminate e) (terminate e).
Definition put_max_sock (z : Z) (e : eloop_data) : eloop_data :=
  Eloop z (el_count e) (readers e) (writers e) (exceptions e) (timeouts e) (signals e) (signaled e) (pending_terminate e) (terminate e).
Definition put_count (z : Z) (e : eloop_data) : eloop_data :=
  Eloop (max_sock e) z (readers e) (writers e) (exceptions e) (timeouts e) (signals e) (signaled e) (pending_terminate e) (terminate e).
Definition put_timeouts (l : list eloop_timeout) (e : eloop_data) : eloop_data :=
  Eloop (max_sock e) (el_count e) (readers e) (writers e) (exceptions e) l (signals e) (signaled e) (pending_terminate e) (terminate e).
Definition put_signals (l : list eloop_signal) (e : eloop_data) : eloop_data :=
  Eloop (max_sock e) (el_count e) (readers e) (writers e) (exceptions e) (timeouts e) l (signaled e) (pending_terminate e) (terminate e).
Definition put_signaled (z : Z) (e : eloop_data) : eloop_data :=
  Eloop (max_sock e) (el_count e) (readers e) (writers e) (exceptions e) (timeouts e) (signals e) z (pending_terminate e) (terminate e).
Definition put_pending (b : bool) (e : eloop_data) : eloop_data :=
  Eloop (max_sock e) (el_count e) (readers e) (writers e) (exceptions e) (timeouts e) (signals e) (signaled e) b (terminate e).
Definition put_terminate (b : bool) (e : eloop_data) : eloop_data :=
  Eloop (max_sock e) (el_count e) (readers e) (writers e) (exceptions e) (timeouts e) (signals e) (signaled e) (pending_terminate e) b.

Definition no_socks : eloop_sock_table := SockTable [] false.
Definition eloop_init : eloop_data := Eloop 0 0 no_socks no_socks no_socks [] [] 0 false false.

(** ** The kernel *)

(** What [select] returns, the sockets it leaves in the three sets, and the
    signals that were caught meanwhile. *)
Record select_result := SelectResult { sr_res : Z; sr_errno : Z; sr_read : list Z; sr_write : list Z; sr_except : list Z; sr_signals : list Z }.

(** [os_alloc] is a call of [os_malloc], [os_zalloc] or [os_realloc_array] that
    takes or enlarges a block, with whether there is memory for it;
    [os_get_reltime] gives [None] when it fails. *)
Class Kernel (W : Type) := {
  os_alloc : ST W bool;
  os_get_reltime : ST W (option (Z * Z));
  select : Z → list Z → list Z → list Z → option (Z * Z) → ST W select_result;
  alarm : Z → ST W unit
}.

(** ** Handlers *)

(** What a handler may do with the loop; a signal may arrive at any time. *)
Inductive eloop_op :=
| RegisterTimeout (secs usecs handler eloop_data user_data : Z)
| CancelTimeout (handler eloop_data user_data : Z)
| CancelTimeoutOne (handler eloop_data user_data : Z)
| IsTimeoutRegistered (handler eloop_data user_data : Z)
| DepleteTimeout (req_secs req_usecs handler eloop_data user_data : Z)
| ReplenishTimeout (req_secs req_usecs handler eloop_data user_data : Z)
| RegisterSock (sock : Z) (type : eloop_event_type) (handler eloop_data user_data : Z)
| UnregisterSock (sock : Z) (type : eloop_event_type)
| RegisterSignal (sig handler user_data : Z)
| Terminate
| Terminated
| SignalArrives (sig : Z).

(** A handler changes the world and calls the functions of the loop, any finite
    number of times, and goes on as their results say. *)
Inductive prog (W : Type) :=
| Return (w : W)
| Call (w : W) (o : eloop_op) (k : list Z → W → prog W).
Arguments Return {W} w.
Arguments Call {W} w o k.

Class Handlers (W : Type) := {
  on_sock : Z → Z → Z → Z → W → prog W;   (* handler, sock, eloop_data, user_data *)
  on_timeout : Z → Z → Z → W → prog W;    (* handler, eloop_data, user_data *)
  on_signal : Z → Z → Z → W → prog W      (* handler, sig, user_data *)
}.

(** ** Times *)

Definition os_reltime_before (a b : Z * Z) : bool := (a.1 <? b.1) || ((a.1 =? b.1) && (a.2 <? b.2)).

(** [while (usec >= 1000000)]: one turn for each million. *)
Fixpoint carry_usec (fuel : nat) (sec usec : Z) : res (Z * Z) :=
  match fuel with
  | O => Ok (sec, usec)
  | S fuel => if 1000000 <=? usec then s ← add_i64 sec 1; carry_usec fuel s (usec - 1000000) else Ok (sec, usec)
  end.

(** The list is kept in the order of the times. *)
Fixpoint insert_timeout (t : eloop_timeout) (l : list eloop_timeout) : list eloop_timeout :=
  match l with
  | [] => [t]
  | tmp :: l' => if os_reltime_before (et_time t) (et_time tmp) then t :: l else tmp :: insert_timeout t l'
  end.

(** The pointer -1. *)
Definition ELOOP_ALL_CTX : Z := 2 ^ 64 - 1.
Definition cancels (handler data user : Z) (t : eloop_timeout) : bool :=
  (et_handler t =? handler) && ((et_data t =? data) || (data =? ELOOP_ALL_CTX)) &&
  ((et_user t =? user) || (user =? ELOOP_ALL_CTX)).
Definition is_timeout (handler data user : Z) (t : eloop_timeout) : bool :=
  (et_handler t =? handler) && (et_data t =? data) && (et_user t =? user).

(** The first timeout that matches, and the list without it. *)
Fixpoint take_timeout (p : eloop_timeout → bool) (l : list eloop_timeout) : option (eloop_timeout * list eloop_timeout) :=
  match l with
  | [] => None
  | t :: l => if p t then Some (t, l) else '(x, l) ← take_timeout p l; Some (x, t :: l)
  end.

Section loop.
Context {W : Type} `{Kernel W, Handlers W}.

Abbreviation St := (eloop_data * W)%type.
Definition eloop : ST St eloop_data := λ s, Ok (s.1, s).
Definition modify (f : eloop_data → eloop_data) : ST St unit := λ s, Ok (tt, (f s.1, s.2)).
Definition world {A} (m : ST W A) : ST St A := λ s,
  match m s.2 with Ok (a, w) => Ok (a, (s.1, w)) | Err e => Err e end.

(** The clock where its result is not tested: nothing is assigned when it
    fails. *)
Definition now : ST St (Z * Z) :=
  t ← world os_get_reltime;
  match t with Some t => mret t | None => fail ReadIndeterminate end.

(** ** Timeouts *)

Definition eloop_register_timeout (secs usecs handler data user : Z) : ST St Z :=
  timeout ← world os_alloc;
  if negb timeout then mret (-1)
  else
    t ← world os_get_reltime;
    match t with
    | None => mret (-1)
    | Some (now_sec, now_usec) =>
        sec ← lift (add_i64 now_sec secs);
        if sec <? now_sec then mret 0
        else
          usec ← lift (add_i64 now_usec usecs);
          time ← lift (carry_usec (Z.to_nat (usec / 1000000)) sec usec);
          e ← eloop;
          modify (put_timeouts (insert_timeout (EloopTimeout time data user handler) (timeouts e)));;
          mret 0
    end.

Definition eloop_cancel_timeout (handler data user : Z) : ST St Z :=
  e ← eloop;
  let kept := filter (λ t, cancels handler data user t = false) (timeouts e) in
  modify (put_timeouts kept);;
  mret (Z.of_nat (length (timeouts e)) - Z.of_nat (length kept)).

(** The result and [remaining]. *)
Definition eloop_cancel_timeout_one (handler data user : Z) : ST St (Z * (Z * Z)) :=
  t0 ← world os_get_reltime;
  e ← eloop;
  match take_timeout (is_timeout handler data user) (timeouts e) with
  | None => mret (0, (0, 0))
  | Some (t, l) =>
      now ← (match t0 with Some t0 => mret t0 | None => fail ReadIndeterminate end);
      remaining ← (if os_reltime_before now (et_time t) then lift (os_reltime_sub (et_time t) now) else mret (0, 0));
      modify (put_timeouts l);;
      mret (1, remaining)
  end.

Definition eloop_is_timeout_registered (handler data user : Z) : ST St Z :=
  e ← eloop;
  mret (if existsb (is_timeout handler data user) (timeouts e) then 1 else 0).

Definition eloop_deplete_timeout (req_secs req_usecs handler data user : Z) : ST St Z :=
  e ← eloop;
  match take_timeout (is_timeout handler data user) (timeouts e) with
  | None => mret (-1)
  | Some (tmp, _) =>
      now ← now;
      remaining ← lift (os_reltime_sub (et_time tmp) now);
      if os_reltime_before (req_secs, req_usecs) remaining then
        eloop_cancel_timeout handler data user;;
        eloop_register_timeout req_secs req_usecs handler data user;;
        mret 1
      else mret 0
  end.

Definition eloop_replenish_timeout (req_secs req_usecs handler data user : Z) : ST St Z :=
  e ← eloop;
  match take_timeout (is_timeout handler data user) (timeouts e) with
  | None => mret (-1)
  | Some (tmp, _) =>
      now ← now;
      remaining ← lift (os_reltime_sub (et_time tmp) now);
      if os_reltime_before remaining (req_secs, req_usecs) then
        eloop_cancel_timeout handler data user;;
        eloop_register_timeout req_secs req_usecs handler data user;;
        mret 1
      else mret 0
  end.

(** ** Sockets *)

Definition eloop_sock_table_add_sock (type : eloop_event_type) (sock handler data user : Z) : ST St Z :=
  e ← eloop;
  let new_max_sock := if max_sock e <? sock then sock else max_sock e in
  tmp ← world os_alloc;
  if negb tmp then mret (-1)
  else
    let t := eloop_get_sock_table type e in
    modify (put_table type (SockTable (st_table t ++ [EloopSock sock data user handler]) true));;
    modify (put_max_sock new_max_sock);;
    modify (λ e, put_count (el_count e + 1) e);;
    mret 0.

(** The first entry of the socket is taken out, and those behind it move up. *)
Fixpoint remove_entry_of (sock : Z) (l : list eloop_sock) : option (list eloop_sock) :=
  match l with
  | [] => None
  | s :: l => if es_sock s =? sock then Some l else l ← remove_entry_of sock l; Some (s :: l)
  end.
Definition eloop_sock_table_remove_sock (type : eloop_event_type) (sock : Z) : ST St unit :=
  e ← eloop;
  match remove_entry_of sock (st_table (eloop_get_sock_table type e)) with
  | None => mret tt
  | Some l =>
      modify (put_table type (SockTable l true));;
      modify (λ e, put_count (el_count e - 1) e)
  end.

(** [assert] ends the program. *)
Definition eloop_register_sock (sock : Z) (type : eloop_event_type) (handler data user : Z) : ST St Z :=
  lift (ensure (0 <=? sock) Aborted);;
  eloop_sock_table_add_sock type sock handler data user.
Definition eloop_unregister_sock (sock : Z) (type : eloop_event_type) : ST St unit :=
  eloop_sock_table_remove_sock type sock.
Definition eloop_register_read_sock (sock handler data user : Z) : ST St Z :=
  eloop_register_sock sock EVENT_TYPE_READ handler data user.
Definition eloop_unregister_read_sock (sock : Z) : ST St unit := eloop_unregister_sock sock EVENT_TYPE_READ.

(** The numbers that an [fd_set] has room for. *)
Definition FD_SETSIZE : Z := 1024.
Fixpoint set_fds (l : list eloop_sock) : res (list Z) :=
  match l with
  | [] => Ok []
  | s :: l =>
      ensure (0 <=? es_sock s) Aborted;;
      ensure (es_sock s <? FD_SETSIZE) HeapOverflow;;
      fds ← set_fds l;
      Ok (es_sock s :: fds)
  end.
Definition eloop_sock_table_set_fds (type : eloop_event_type) : ST St (list Z) :=
  e ← eloop;
  lift (set_fds (st_table (eloop_get_sock_table type e))).
Definition FD_ISSET (sock : Z) (fds : list Z) : res bool :=
  ensure ((0 <=? sock) && (sock <? FD_SETSIZE)) ReadOutOfBounds;;
  Ok (bool_decide (sock ∈ fds)).

(** ** Signals *)

Definition SIGHUP : Z := 1.
Definition SIGINT : Z := 2.
Definition SIGTERM : Z := 15.

Fixpoint note_signal (sig : Z) (l : list eloop_signal) : list eloop_signal :=
  match l with
  | [] => []
  | s :: l =>
      if sg_sig s =? sig then EloopSignal (sg_sig s) (sg_user s) (sg_handler s) (sg_signaled s + 1) :: l
      else s :: note_signal sig l
  end.
Definition eloop_handle_signal (sig : Z) : ST St unit :=
  e ← eloop;
  (if ((sig =? SIGINT) || (sig =? SIGTERM)) && negb (pending_terminate e) then
     modify (put_pending true);; world (alarm 2)
   else mret tt);;
  modify (λ e, put_signaled (signaled e + 1) e);;
  modify (λ e, put_signals (note_signal sig (signals e)) e).

Definition eloop_register_signal (sig handler user : Z) : ST St Z :=
  tmp ← world os_alloc;
  if negb tmp then mret (-1)
  else
    modify (λ e, put_signals (signals e ++ [EloopSignal sig user handler 0]) e);;
    mret 0.
Definition eloop_register_signal_terminate (handler user : Z) : ST St Z :=
  ret ← eloop_register_signal SIGINT handler user;
  if ret =? 0 then eloop_register_signal SIGTERM handler user else mret ret.
Definition eloop_register_signal_reconfig (handler user : Z) : ST St Z := eloop_register_signal SIGHUP handler user.

Definition eloop_terminate : ST St unit := modify (put_terminate true).
Definition eloop_terminated : ST St Z := e ← eloop; mret (if terminate e || pending_terminate e then 1 else 0).

(** ** Calls of handlers *)

(** The times are [unsigned int] and the other numbers of the width of their
    type. *)
Definition do_op (o : eloop_op) : ST St (list Z) :=
  match o with
  | RegisterTimeout s u h d x => r ← eloop_register_timeout (to_u32 s) (to_u32 u) h d x; mret [r]
  | CancelTimeout h d x => r ← eloop_cancel_timeout h d x; mret [r]
  | CancelTimeoutOne h d x => '(r, (s, u)) ← eloop_cancel_timeout_one h d x; mret [r; s; u]
  | IsTimeoutRegistered h d x => r ← eloop_is_timeout_registered h d x; mret [r]
  | DepleteTimeout s u h d x => r ← eloop_deplete_timeout (to_u32 s) (to_u32 u) h d x; mret [r]
  | ReplenishTimeout s u h d x => r ← eloop_replenish_timeout (to_u32 s) (to_u32 u) h d x; mret [r]
  | RegisterSock s t h d x => r ← eloop_register_sock s t h d x; mret [r]
  | UnregisterSock s t => eloop_unregister_sock s t;; mret []
  | RegisterSignal s h x => r ← eloop_register_signal s h x; mret [r]
  | Terminate => eloop_terminate;; mret []
  | Terminated => r ← eloop_terminated; mret [r]
  | SignalArrives s => eloop_handle_signal s;; mret []
  end.

Fixpoint exec (p : prog W) (e : eloop_data) : res (eloop_data * W) :=
  match p with
  | Return w => Ok (e, w)
  | Call w o k => '(r, (e, w)) ← do_op o (e, w); exec (k r w) e
  end.
Definition call (p : W → prog W) : ST St unit := λ '(e, w), s ← exec (p w) e; Ok (tt, s).

(** The loop over the signals; handlers may register more of them, [fuel] bounds
    its turns. *)
Fixpoint signal_loop (fuel : nat) (i : nat) : ST St unit :=
  match fuel with
  | O => fail Diverges
  | S fuel =>
      e ← eloop;
      match signals e !! i with
      | None => mret tt
      | Some s =>
          (if negb (sg_signaled s =? 0) then
             modify (put_signals (<[i := EloopSignal (sg_sig s) (sg_user s) (sg_handler s) 0]> (signals e)));;
             call (on_signal (sg_handler s) (sg_sig s) (sg_user s))
           else mret tt);;
          signal_loop fuel (S i)
      end
  end.
Definition eloop_process_pending_signals (fuel : nat) : ST St unit :=
  e ← eloop;
  if signaled e =? 0 then mret tt
  else
    modify (put_signaled 0);;
    (if pending_terminate e then world (alarm 0);; modify (put_pending false) else mret tt);;
    signal_loop fuel 0.

(** The table does not change as long as [changed] is not set, so that its
    number of entries bounds the turns. *)
Fixpoint dispatch_loop (fuel : nat) (type : eloop_event_type) (i : nat) (fds : list Z) : ST St unit :=
  match fuel with
  | O => mret tt
  | S fuel =>
      e ← eloop;
      match st_table (eloop_get_sock_table type e) !! i with
      | None => mret tt
      | Some s =>
          b ← lift (FD_ISSET (es_sock s) fds);
          if b : bool then
            call (on_sock (es_handler s) (es_sock s) (es_data s) (es_user s));;
            e ← eloop;
            if st_changed (eloop_get_sock_table type e) then mret tt else dispatch_loop fuel type (S i) fds
          else dispatch_loop fuel type (S i) fds
      end
  end.
Definition put_changed (type : eloop_event_type) (b : bool) (e : eloop_data) : eloop_data :=
  put_table type (SockTable (st_table (eloop_get_sock_table type e)) b) e.
Definition eloop_sock_table_dispatch (type : eloop_event_type) (fds : list Z) : ST St unit :=
  modify (put_changed type false);;
  e ← eloop;
  dispatch_loop (length (st_table (eloop_get_sock_table type e))) type 0 fds.

(** ** eloop_run *)

Definition deliver (sigs : list Z) : ST St unit := foldr (λ s m, eloop_handle_signal s;; m) (mret tt) sigs.

(** At most one timeout is taken in each turn. *)
Definition expire_timeout : ST St unit :=
  e ← eloop;
  match timeouts e with
  | [] => mret tt
  | t :: l =>
      now ← now;
      if negb (os_reltime_before now (et_time t)) then
        modify (put_timeouts l);;
        call (on_timeout (et_handler t) (et_data t) (et_user t))
      else mret tt
  end.

(** The time until the first timeout. *)
Definition wait_time : ST St (option (Z * Z)) :=
  e ← eloop;
  match timeouts e with
  | [] => mret None
  | t :: _ =>
      now ← now;
      tv ← (if os_reltime_before now (et_time t) then lift (os_reltime_sub (et_time t) now) else mret (0, 0));
      mret (Some tv)
  end.

Definition EINTR : Z := 4.
Inductive turn := GoesOn | LoopEnds | Gives_up.

Definition nothing_registered (e : eloop_data) : bool :=
  bool_decide (timeouts e = []) && bool_decide (st_table (readers e) = []) &&
  bool_decide (st_table (writers e) = []) && bool_decide (st_table (exceptions e) = []).

Definition any_changed (e : eloop_data) : bool :=
  st_changed (readers e) || st_changed (writers e) || st_changed (exceptions e).
Definition clear_changed (e : eloop_data) : eloop_data :=
  put_changed EVENT_TYPE_EXCEPTION false (put_changed EVENT_TYPE_WRITE false (put_changed EVENT_TYPE_READ false e)).

(** From the computation of the timeout to the end of the body. *)
Definition wait_and_dispatch (fuel : nat) : ST St turn :=
  tv ← wait_time;
  rfds ← eloop_sock_table_set_fds EVENT_TYPE_READ;
  wfds ← eloop_sock_table_set_fds EVENT_TYPE_WRITE;
  efds ← eloop_sock_table_set_fds EVENT_TYPE_EXCEPTION;
  e ← eloop;
  s ← world (select (max_sock e + 1) rfds wfds efds tv);
  deliver (sr_signals s);;
  if (sr_res s <? 0) && negb (sr_errno s =? EINTR) && negb (sr_errno s =? 0) then mret Gives_up
  else
    modify clear_changed;;
    eloop_process_pending_signals fuel;;
    expire_timeout;;
    if sr_res s <=? 0 then mret GoesOn
    else
      e ← eloop;
      if any_changed e then mret GoesOn
      else
        eloop_sock_table_dispatch EVENT_TYPE_READ (sr_read s);;
        eloop_sock_table_dispatch EVENT_TYPE_WRITE (sr_write s);;
        eloop_sock_table_dispatch EVENT_TYPE_EXCEPTION (sr_except s);;
        mret GoesOn.

(** A turn of the loop, with its condition. *)
Definition eloop_turn (fuel : nat) : ST St turn :=
  e ← eloop;
  if terminate e || nothing_registered e then mret LoopEnds
  else if pending_terminate e then
    eloop_process_pending_signals fuel;;
    e ← eloop;
    if terminate e then mret LoopEnds else wait_and_dispatch fuel
  else wait_and_dispatch fuel.

(** The loop for at most [n] turns; the result tells whether it has returned. *)
Fixpoint eloop_turns (n fuel : nat) : ST St bool :=
  match n with
  | O => mret false
  | S n =>
      t ← eloop_turn fuel;
      match t with
      | GoesOn => eloop_turns n fuel
      | LoopEnds => modify (put_terminate false);; mret true
      | Gives_up => mret true
      end
  end.

(** The three sets for [select] are allocated first. *)
Definition eloop_run (n fuel : nat) : ST St bool :=
  rfds ← world os_alloc;
  wfds ← world os_alloc;
  efds ← world os_alloc;
  if negb rfds || negb wfds || negb efds then mret true
  else eloop_turns n fuel.
End loop.

(** ** The invariant *)

(** Not later than. *)
Definition not_after (t t' : eloop_timeout) : Prop := os_reltime_before (et_time t') (et_time t) = false.
Definition socks (e : eloop_data) : list eloop_sock := st_table (readers e) ++ st_table (writers e) ++ st_table (exceptions e).

(** The timeouts are in the order of their times, [count] is the number of
    sockets, and [max_sock] is not less than any of them. *)
Record eloop_ok (e : eloop_data) : Prop := {
  ok_sorted : StronglySorted not_after (timeouts e);
  ok_count : el_count e = Z.of_nat (length (socks e));
  ok_socks : Forall (λ s, 0 ≤ es_sock s ≤ max_sock e) (socks e)
}.

#[global] Instance not_after_trans : Transitive not_after.
Proof. intros [[a b]] [[c d]] [[e f]]. unfold not_after, os_reltime_before. cbn. lia. Qed.

Lemma before_not_after t t' : os_reltime_before (et_time t) (et_time t') = true → not_after t t'.
Proof. unfold not_after, os_reltime_before. lia. Qed.

(** A new timeout goes behind those that are not later, and before the others. *)
Lemma insert_timeout_split t l : ∃ l1 l2, l = l1 ++ l2 ∧ insert_timeout t l = l1 ++ t :: l2 ∧
  Forall (λ x, not_after x t) l1 ∧ match l2 with x :: _ => os_reltime_before (et_time t) (et_time x) = true | [] => True end.
Proof.
  induction l as [|x l (l1 & l2 & -> & E & Hl1 & Hl2)]; cbn; [by exists [], []|].
  destruct (os_reltime_before (et_time t) (et_time x)) eqn:Eb; [by exists [], (x :: l1 ++ l2)|].
  exists (x :: l1), l2. rewrite E. split_and!; [done..|by constructor|done].
Qed.

Lemma insert_timeout_sorted t l : StronglySorted not_after l → StronglySorted not_after (insert_timeout t l).
Proof.
  intros Hs. induction Hs as [|x l Hs IH Hx]; cbn; [repeat constructor|].
  destruct (os_reltime_before (et_time t) (et_time x)) eqn:E.
  - constructor; [by constructor|]. apply before_not_after in E. constructor; [done|].
    eapply Forall_impl; [exact Hx|]. intros y Hy. by etrans.
  - constructor; [done|]. destruct (insert_timeout_split t l) as (l1 & l2 & -> & -> & _).
    apply Forall_app in Hx as [H1 H2]. apply Forall_app. split; [done|]. by constructor.
Qed.

Lemma sorted_filter (P : eloop_timeout → Prop) `{∀ x, Decision (P x)} l : StronglySorted not_after l → StronglySorted not_after (filter P l).
Proof.
  induction 1 as [|x l Hs IH Hx]; [constructor|]. rewrite filter_cons. case_decide; [|done]. constructor; [done|].
  apply Forall_forall. intros y [_ Hy]%list_elem_of_filter. by apply (proj1 (Forall_forall _ _) Hx).
Qed.

Lemma take_timeout_split p l t l' : take_timeout p l = Some (t, l') →
  ∃ l1 l2, l = l1 ++ t :: l2 ∧ l' = l1 ++ l2 ∧ p t = true ∧ Forall (λ x, p x = false) l1.
Proof.
  revert l'. induction l as [|x l IH]; intros l'; cbn; [done|]. destruct (p x) eqn:E; [intros [= <- <-]; by exists [], l|].
  destruct (take_timeout p l) as [[y l1]|]; [|done]. intros [= <- <-].
  destruct (IH l1 eq_refl) as (a & b & -> & -> & Hp & Ha). exists (x :: a), b. split_and!; [done..|by constructor].
Qed.

Lemma sorted_delete (l1 l2 : list eloop_timeout) t : StronglySorted not_after (l1 ++ t :: l2) → StronglySorted not_after (l1 ++ l2).
Proof.
  induction l1 as [|x l1 IH]; cbn; intros Hs; apply StronglySorted_inv in Hs as [Hs Hx]; [done|].
  constructor; [by apply IH|]. apply Forall_app in Hx as [? Hx]. apply Forall_cons in Hx as [_ ?]. by apply Forall_app.
Qed.

Lemma ok_timeouts e l : eloop_ok e → StronglySorted not_after l → eloop_ok (put_timeouts l e).
Proof. by intros [_ ? ?] ?. Qed.

Lemma ok_init : eloop_ok eloop_init.
Proof. split; constructor. Qed.

(** ** Computations that keep the invariant *)

Section invariant.
Context {W : Type} `{Kernel W, Handlers W}.
Abbreviation St := (eloop_data * W)%type.

(** From the loop in state [e], and from any state. *)
Definition keeps_from {A} (e : eloop_data) (m : ST St A) : Prop :=
  ∀ w r e' w', eloop_ok e → m (e, w) = Ok (r, (e', w')) → eloop_ok e'.
Definition keeps {A} (m : ST St A) : Prop := ∀ e, keeps_from e m.
(** Computations that leave the loop alone. *)
Definition frame {A} (m : ST St A) : Prop := ∀ e w r e' w', m (e, w) = Ok (r, (e', w')) → e' = e.

Lemma keeps_bind {A B} (m : ST St A) (k : A → ST St B) : keeps m → (∀ a, keeps (k a)) → keeps (m ≫= k).
Proof. intros Hm Hk e w r e' w' He E. run_inv E. destruct s as [e1 w1]. eapply Hk; [|exact E]. eapply Hm; eauto. Qed.
Lemma keeps_from_bind {A B} e (m : ST St A) (k : A → ST St B) : frame m → (∀ a, keeps_from e (k a)) → keeps_from e (m ≫= k).
Proof. intros Hm Hk w r e' w' He E. run_inv E. destruct s as [e1 w1]. apply Hm in E0 as ->. eapply Hk; eauto. Qed.
Lemma keeps_get {B} (k : eloop_data → ST St B) : (∀ e, keeps_from e (k e)) → keeps (eloop ≫= k).
Proof. intros Hk e w r e' w' He E. run_inv E. injection E0 as <- <-. exact (Hk _ _ _ _ _ He E). Qed.
Lemma keeps_from_modify {B} e f (k : unit → ST St B) : (eloop_ok e → eloop_ok (f e)) → keeps (k tt) → keeps_from e (modify f ≫= k).
Proof. intros Hf Hk w r e' w' He E. run_inv E. injection E0 as <- <-. exact (Hk _ _ _ _ _ (Hf He) E). Qed.
Lemma keeps_modify f : (∀ e, eloop_ok e → eloop_ok (f e)) → keeps (modify f).
Proof. intros Hf e w r e' w' He [= <- <- <-]. by apply Hf. Qed.
Lemma frame_keeps {A} (m : ST St A) : frame m → keeps m.
Proof. intros Hm e w r e' w' He E. by apply Hm in E as ->. Qed.

Lemma keeps_any {A} e (m : ST St A) : keeps m → keeps_from e m.
Proof. auto. Qed.

Lemma frame_ret {A} (a : A) : frame (mret a).
Proof. by intros e w r e' w' [= <- <- <-]. Qed.
Lemma frame_fail {A} u : frame (fail u : ST St A).
Proof. done. Qed.
Lemma frame_lift {A} (r : res A) : frame (lift r).
Proof. intros e w a e' w' [_ [= -> _]]%lift_inv. done. Qed.
Lemma frame_world {A} (m : ST W A) : frame (world m).
Proof. intros e w a e' w'. unfold world. cbn. destruct (m w) as [[]|]; [by intros [= <- <- <-]|done]. Qed.
Lemma frame_bind {A B} (m : ST St A) (k : A → ST St B) : frame m → (∀ a, frame (k a)) → frame (m ≫= k).
Proof. intros Hm Hk e w r e' w' E. run_inv E. destruct s as [e1 w1]. apply Hm in E0 as ->. by eapply Hk. Qed.
Lemma frame_now : frame now.
Proof. apply frame_bind; [apply frame_world|]. intros []; [apply frame_ret|apply frame_fail]. Qed.
Lemma frame_get {B} (k : eloop_data → ST St B) : (∀ a, frame (k a)) → frame (eloop ≫= k).
Proof. intros Hk. apply frame_bind; [|done]. by intros e w r e' w' [= <- <- <-]. Qed.
End invariant.

Create HintDb keeps.
#[export] Hint Resolve keeps_bind keeps_get keeps_modify frame_keeps frame_ret frame_fail frame_lift frame_world frame_now frame_get : keeps.

(** Follows the structure of a computation. *)
Ltac keep :=
  repeat first
    [ progress intros
    | case_match
    | solve [eauto with keeps]
    | apply keeps_get; intros
    | apply keeps_from_bind; [solve [eauto with keeps]|]
    | apply keeps_from_modify
    | match goal with |- keeps_from _ _ => apply frame_keeps end
    | apply keeps_bind
    | apply keeps_modify ].

(** ** Every operation keeps the invariant *)

Lemma remove_entry_split sock l l' : remove_entry_of sock l = Some l' → ∃ l1 s l2, l = l1 ++ s :: l2 ∧ l' = l1 ++ l2.
Proof.
  revert l'. induction l as [|x l IH]; intros l'; cbn; [done|]. case_match; [intros [= <-]; by exists [], x, l|].
  destruct (remove_entry_of sock l) as [l1|]; [|done]. intros [= <-].
  destruct (IH l1 eq_refl) as (a & s & b & -> & ->). by exists (x :: a), s, b.
Qed.

Section operations.
Context {W : Type} `{Kernel W, Handlers W}.
Abbreviation St := (eloop_data * W)%type.

Lemma keeps_register s u h d x : keeps (eloop_register_timeout (W := W) s u h d x).
Proof.
  unfold eloop_register_timeout. keep. by apply ok_timeouts, insert_timeout_sorted, ok_sorted.
Qed.

Lemma keeps_cancel h d x : keeps (eloop_cancel_timeout (W := W) h d x).
Proof. unfold eloop_cancel_timeout. keep. by apply ok_timeouts, sorted_filter, ok_sorted. Qed.

Lemma keeps_cancel_one h d x : keeps (eloop_cancel_timeout_one (W := W) h d x).
Proof.
  unfold eloop_cancel_timeout_one. apply keeps_bind; [eauto with keeps|]. intros t0. apply keeps_get. intros e.
  destruct (take_timeout _ _) as [[t l]|] eqn:E; [|apply frame_keeps, frame_ret].
  apply keeps_from_bind; [keep|]. intros n. apply keeps_from_bind; [keep|]. intros r. keep.
  apply take_timeout_split in E as (l1 & l2 & El & -> & _). apply ok_timeouts; [done|]. eapply sorted_delete. rewrite <- El. by apply ok_sorted.
Qed.

Lemma keeps_deplete s u h d x : keeps (eloop_deplete_timeout (W := W) s u h d x).
Proof.
  unfold eloop_deplete_timeout. apply keeps_get. intros e. destruct (take_timeout _ _) as [[t l]|]; [|apply frame_keeps, frame_ret].
  apply keeps_any. repeat (apply keeps_bind; [eauto with keeps|]; intros). case_match; [|eauto with keeps].
  apply keeps_bind; [apply keeps_cancel|]. intros. apply keeps_bind; [apply keeps_register|]. eauto with keeps.
Qed.

Lemma keeps_replenish s u h d x : keeps (eloop_replenish_timeout (W := W) s u h d x).
Proof.
  unfold eloop_replenish_timeout. apply keeps_get. intros e. destruct (take_timeout _ _) as [[t l]|]; [|apply frame_keeps, frame_ret].
  apply keeps_any. repeat (apply keeps_bind; [eauto with keeps|]; intros). case_match; [|eauto with keeps].
  apply keeps_bind; [apply keeps_cancel|]. intros. apply keeps_bind; [apply keeps_register|]. eauto with keeps.
Qed.

Lemma keeps_register_sock s t h d x : keeps (eloop_register_sock (W := W) s t h d x).
Proof.
  intros e w r e' w' [Hs Hc Hf] E. unfold eloop_register_sock in E. run_inv E. apply lift_inv in E0 as [E0 ->].
  destruct (Z.leb_spec 0 s); [|done]. clear E0. unfold eloop_sock_table_add_sock in E. run_inv E. injection E0 as <- <-.
  run_inv E. destruct s0 as [e0 w0]. apply frame_world in E0 as ->. destruct a0; [|injection E as <- <- <-; by split].
  cbn in E. injection E as <- <- <-.
  assert (Forall (λ z, 0 ≤ es_sock z ≤ if max_sock e <? s then s else max_sock e)
    (socks e ++ [EloopSock s d x h])) as Hf'.
  { apply Forall_app. split; [|constructor; [cbn; case_match; lia|constructor]]. eapply Forall_impl; [exact Hf|].
    intros z Hz. cbn in Hz. case_match; lia. }
  destruct t; (split; [done|unfold socks in *; cbn; rewrite !length_app in *; cbn; lia|]); cbn;
    revert Hf'; apply Forall_Permutation; try done; unfold socks; cbn; solve_Permutation.
Qed.

Lemma keeps_unregister_sock s t : keeps (eloop_unregister_sock (W := W) s t).
Proof.
  intros e w r e' w' [Hs Hc Hf] E. unfold eloop_unregister_sock, eloop_sock_table_remove_sock in E. run_inv E.
  injection E0 as <- <-. cbn [fst] in E. destruct (remove_entry_of s (st_table _)) as [l|] eqn:El; [|injection E as <- <- <-; by split].
  cbn in E. injection E as <- <- <-. apply remove_entry_split in El as (l1 & y & l2 & El & ->).
  destruct t; cbn in El; unfold socks in *; cbn in *; rewrite El in *; (split; [done|unfold socks; cbn; rewrite !length_app in *; cbn in *; lia|]);
    unfold socks; cbn; rewrite !Forall_app in *; rewrite Forall_cons in Hf; naive_solver.
Qed.

(** The invariant does not mention the signals and the flags. *)
Lemma ok_signals l e : eloop_ok e → eloop_ok (put_signals l e).
Proof. by intros []. Qed.
Lemma ok_signaled z e : eloop_ok e → eloop_ok (put_signaled z e).
Proof. by intros []. Qed.
Lemma ok_pending b e : eloop_ok e → eloop_ok (put_pending b e).
Proof. by intros []. Qed.
Lemma ok_terminate b e : eloop_ok e → eloop_ok (put_terminate b e).
Proof. by intros []. Qed.
Lemma ok_changed t b e : eloop_ok e → eloop_ok (put_changed t b e).
Proof. by destruct t; intros []. Qed.
Hint Resolve ok_signals ok_signaled ok_pending ok_terminate ok_changed : keeps.

Lemma keeps_handle_signal s : keeps (eloop_handle_signal (W := W) s).
Proof. unfold eloop_handle_signal. apply keeps_get. intros e. apply keeps_any. keep. Qed.

Lemma keeps_register_signal s h x : keeps (eloop_register_signal (W := W) s h x).
Proof. unfold eloop_register_signal. keep. Qed.

Lemma keeps_op o : keeps (do_op (W := W) o).
Proof.
  destruct o; cbn; try (apply keeps_bind; [|eauto with keeps]);
    eauto using keeps_register, keeps_cancel, keeps_deplete, keeps_replenish, keeps_register_sock, keeps_unregister_sock, keeps_register_signal,
      keeps_handle_signal with keeps.
  - apply keeps_cancel_one.
  - intros (r & s & u). eauto with keeps.
Qed.

Lemma exec_ok p e e' w' : eloop_ok e → exec (W := W) p e = Ok (e', w') → eloop_ok e'.
Proof.
  revert e. induction p as [w|w o k IH]; intros e He; cbn; [by intros [= <- <-]|].
  destruct (do_op o (e, w)) as [[r [e1 w1]]|] eqn:E; [|done]. cbn. apply IH. by eapply keeps_op.
Qed.

Lemma keeps_call p : keeps (call (W := W) p).
Proof.
  intros e w r e' w' He. unfold call. destruct (exec (p w) e) as [[e1 w1]|] eqn:E; [|done].
  intros [= <- <- <-]. by eapply exec_ok.
Qed.

Lemma keeps_signal_loop fuel i : keeps (signal_loop (W := W) fuel i).
Proof.
  revert i. induction fuel as [|fuel IH]; intros i; cbn; [eauto with keeps|]. apply keeps_get. intros e. apply keeps_any.
  case_match; [|eauto with keeps]. apply keeps_bind; [|done].
  case_match; eauto using keeps_call with keeps.
Qed.

Lemma keeps_process fuel : keeps (eloop_process_pending_signals (W := W) fuel).
Proof.
  unfold eloop_process_pending_signals. apply keeps_get. intros e. apply keeps_any. case_match; [eauto with keeps|].
  apply keeps_bind; [eauto with keeps|]. intros _. apply keeps_bind; [case_match; eauto with keeps|]. intros _. apply keeps_signal_loop.
Qed.

Lemma keeps_dispatch_loop fuel t i fds : keeps (dispatch_loop (W := W) fuel t i fds).
Proof.
  revert i. induction fuel as [|fuel IH]; intros i; cbn; [eauto with keeps|]. apply keeps_get. intros e. apply keeps_any.
  case_match; [|eauto with keeps]. apply keeps_bind; [eauto with keeps|]. intros b. case_match; [|done].
  apply keeps_bind; [apply keeps_call|]. intros _. apply keeps_get. intros e'. apply keeps_any. case_match; eauto with keeps.
Qed.

Lemma keeps_dispatch t fds : keeps (eloop_sock_table_dispatch (W := W) t fds).
Proof.
  unfold eloop_sock_table_dispatch. apply keeps_bind; [eauto with keeps|]. intros _. apply keeps_get. intros e.
  apply keeps_any, keeps_dispatch_loop.
Qed.

Lemma keeps_deliver sigs : keeps (deliver (W := W) sigs).
Proof. induction sigs; cbn; eauto using keeps_handle_signal with keeps. Qed.

Lemma keeps_expire : keeps (expire_timeout (W := W)).
Proof.
  unfold expire_timeout. apply keeps_get. intros e. destruct (timeouts e) as [|t l] eqn:El; [apply keeps_any; eauto with keeps|].
  apply keeps_from_bind; [eauto with keeps|]. intros n. case_match; [|apply keeps_any; eauto with keeps].
  apply keeps_from_modify; [|apply keeps_call]. intros He. apply ok_timeouts; [done|].
  apply ok_sorted in He. rewrite El in He. by apply StronglySorted_inv in He as [].
Qed.

Lemma frame_wait_time : frame (wait_time (W := W)).
Proof.
  unfold wait_time. apply frame_get. intros e. case_match; [apply frame_ret|].
  repeat (apply frame_bind; [try case_match; eauto with keeps|]; intros). apply frame_ret.
Qed.

Lemma keeps_wait fuel : keeps (wait_and_dispatch (W := W) fuel).
Proof.
  unfold wait_and_dispatch, eloop_sock_table_set_fds.
  apply keeps_bind; [apply frame_keeps, frame_wait_time|]. intros tv.
  do 3 (apply keeps_bind; [eauto with keeps|]; intros ?). apply keeps_get. intros e. apply keeps_any.
  apply keeps_bind; [eauto with keeps|]. intros s. apply keeps_bind; [apply keeps_deliver|]. intros _. case_match; [eauto with keeps|].
  apply keeps_bind; [apply keeps_modify; unfold clear_changed; eauto with keeps|]. intros _.
  apply keeps_bind; [apply keeps_process|]. intros _. apply keeps_bind; [apply keeps_expire|]. intros _.
  case_match; [eauto with keeps|]. apply keeps_get. intros e'. apply keeps_any. case_match; [eauto with keeps|].
  do 3 (apply keeps_bind; [apply keeps_dispatch|]; intros _). eauto with keeps.
Qed.

Lemma keeps_turn fuel : keeps (eloop_turn (W := W) fuel).
Proof.
  unfold eloop_turn. apply keeps_get. intros e. apply keeps_any. case_match; [eauto with keeps|]. case_match; [|apply keeps_wait].
  apply keeps_bind; [apply keeps_process|]. intros _. apply keeps_get. intros e'. apply keeps_any.
  case_match; [eauto with keeps|apply keeps_wait].
Qed.
End operations.

(** ** Reachable states *)

(** Calls by the program itself, and turns of the loop with the handlers they
    run. *)
Inductive reachable {W} `{Kernel W, Handlers W} : eloop_data * W → Prop :=
| reach_init w : reachable (eloop_init, w)
| reach_call p s s' : reachable s → call p s = Ok (tt, s') → reachable s'
| reach_turn fuel t s s' : reachable s → eloop_turn fuel s = Ok (t, s') → reachable s'.


(** ** Timers *)

(** Microseconds. *)
Definition us (t : Z * Z) : Z := t.1 * 1000000 + t.2.
Definition of_us (z : Z) : Z * Z := (z / 1000000, z `mod` 1000000).
Definition time_limit : Z := 2 ^ 62 * 1000000.

Lemma us_of z : us (of_us z) = z.
Proof. unfold us, of_us. cbn. pose proof (Z.div_mod z 1000000). lia. Qed.

Lemma before_of_us a b : os_reltime_before (of_us a) (of_us b) = (a <? b).
Proof.
  unfold os_reltime_before, of_us. cbn.
  pose proof (Z.div_mod a 1000000 ltac:(lia)). pose proof (Z.div_mod b 1000000 ltac:(lia)).
  pose proof (Z.mod_pos_bound a 1000000 ltac:(lia)). pose proof (Z.mod_pos_bound b 1000000 ltac:(lia)).
  set (qa := a / 1000000) in *. set (qb := b / 1000000) in *. set (ra := a `mod` 1000000) in *. set (rb := b `mod` 1000000) in *.
  destruct (Z.ltb_spec a b); lia.
Qed.

Lemma of_us_range z : 0 ≤ z < time_limit → 0 ≤ (of_us z).1 < 2 ^ 62 ∧ 0 ≤ (of_us z).2 < 1000000.
Proof.
  unfold time_limit. intros Hz. split; [|apply Z.mod_pos_bound; lia]. cbn [of_us fst].
  split; [apply Z.div_pos; lia|apply Z.div_lt_upper_bound; lia].
Qed.

Lemma sub_of_us a b : 0 ≤ b ≤ a → a < time_limit → os_reltime_sub (of_us a) (of_us b) = Ok (of_us (a - b)).
Proof.
  intros Hab Ha. destruct (of_us_range a ltac:(lia)) as [Ha1 Ha2]. destruct (of_us_range b ltac:(lia)) as [Hb1 Hb2].
  pose proof (us_of a) as Ea. pose proof (us_of b) as Eb. unfold us in Ea, Eb. unfold os_reltime_sub. destruct (of_us a) as [s u], (of_us b) as [s' u'].
  cbn [fst snd] in *. rewrite !ensure_Ok by in_range. cbn [mbind res_bind].
  destruct (Z.ltb_spec (u - u') 0); cbn [mbind res_bind]; unfold of_us; do 2 f_equal.
  - apply (Z.div_unique _ _ _ (u - u' + 1000000)); lia.
  - apply (Z.mod_unique _ _ (s - s' - 1)); lia.
  - apply (Z.div_unique _ _ _ (u - u')); lia.
  - apply (Z.mod_unique _ _ (s - s')); lia.
Qed.

Lemma carry_usec_spec sec usec : 0 ≤ sec → 0 ≤ usec → sec + usec / 1000000 < 2 ^ 63 →
  carry_usec (Z.to_nat (usec / 1000000)) sec usec = Ok (sec + usec / 1000000, usec `mod` 1000000).
Proof.
  intros Hs Hu Hl. remember (Z.to_nat (usec / 1000000)) as n eqn:En. revert sec usec Hs Hu Hl En.
  induction n as [|n IH]; intros sec usec Hs Hu Hl En.
  - assert (usec / 1000000 = 0) as E0 by (pose proof (Z.div_pos usec 1000000); lia). cbn. rewrite E0, Z.add_0_r.
    pose proof (Z.div_mod usec 1000000 ltac:(lia)). do 2 f_equal. lia.
  - assert (usec / 1000000 = Z.of_nat (S n)) as Eq by lia. pose proof (Z.div_mod usec 1000000 ltac:(lia)).
    pose proof (Z.mod_pos_bound usec 1000000 ltac:(lia)). cbn [carry_usec].
    rewrite (proj2 (Z.leb_le 1000000 usec)) by lia. unfold add_i64. assert (s_ok 64 (sec + 1) = true) as -> by in_range. cbn [mbind res_bind].
    assert ((usec - 1000000) / 1000000 = Z.of_nat n) as Eq'.
    { symmetry. apply (Z.div_unique _ _ _ (usec `mod` 1000000)); lia. }
    rewrite IH by lia. do 2 f_equal; [lia|]. symmetry. apply (Z.mod_unique _ _ (Z.of_nat n)); [lia|].
    pose proof (Z.div_mod (usec - 1000000) 1000000 ltac:(lia)). lia.
Qed.

(** A world with timers: there is memory, time passes, also while the functions
    of the loop run, the clock works and does not go back, [select] without
    sockets waits at least for the time it is given, and the handlers of
    timeouts note that they were called, and when. *)
Class TimerWorld (W : Type) `{Kernel W, Handlers W} := {
  clock : W → Z;
  fired : W → list (Z * Z * Z * Z);
  clock_range w : 0 ≤ clock w < time_limit;
  memory_left w : ∃ w', os_alloc w = Ok (true, w') ∧ clock w ≤ clock w' ∧ fired w' = fired w;
  clock_read w : ∃ w', os_get_reltime w = Ok (Some (of_us (clock w')), w') ∧ clock w ≤ clock w' ∧ fired w' = fired w;
  select_waits n d w : 0 ≤ d → clock w + d < time_limit → ∃ w',
    select n [] [] [] (Some (of_us d)) w = Ok (SelectResult 0 0 [] [] [] [], w') ∧
    clock w + d ≤ clock w' ∧ fired w' = fired w;
  timer_notes h d x w : ∃ w', on_timeout h d x w = Return w' ∧ clock w ≤ clock w' ∧
    fired w' = fired w ++ [(h, d, x, clock w)]
}.

(** A request: its handler and contexts, and after how many seconds and
    microseconds. *)
Record request := Request { rq_secs : Z; rq_usecs : Z; rq_handler : Z; rq_data : Z; rq_user : Z }.
Definition delay (r : request) : Z := rq_secs r * 1000000 + rq_usecs r.
Definition request_ok (r : request) : bool := u_ok 32 (rq_secs r) && u_ok 32 (rq_usecs r).

(** Requests with the time at which they are due, in the order of these times. *)
Fixpoint insert_due (r : request * Z) (l : list (request * Z)) : list (request * Z) :=
  match l with
  | [] => [r]
  | x :: l' => if r.2 <? x.2 then r :: l else x :: insert_due r l'
  end.
Definition ordered (rs : list (request * Z)) : list (request * Z) := foldl (flip insert_due) [] rs.

Lemma insert_due_perm r l : insert_due r l ≡ₚ r :: l.
Proof. induction l as [|x l IH]; cbn; [done|]. case_match; [done|]. rewrite IH. by apply perm_swap. Qed.

Lemma insert_due_sorted r l : Sorted Z.le l.*2 → Sorted Z.le (insert_due r l).*2.
Proof.
  induction l as [|x l IH]; cbn; intros Hs; [repeat constructor|]. destruct (Z.ltb_spec r.2 x.2).
  - cbn. constructor; [done|]. constructor. lia.
  - cbn. apply Sorted_inv in Hs as [Hs Hx]. constructor; [by apply IH|].
    destruct l as [|y l]; cbn in *; [constructor; lia|]. case_match; constructor; [lia|]. by apply HdRel_inv in Hx.
Qed.

Lemma insert_due_stable r l d : Sorted Z.le l.*2 → filter (λ x, x.2 = d) (insert_due r l) = filter (λ x, x.2 = d) (l ++ [r]).
Proof.
  induction l as [|x l IH]; cbn [insert_due]; intros Hs; [done|]. destruct (Z.ltb_spec r.2 x.2) as [Hx|Hx].
  - rewrite filter_app. destruct (decide (r.2 = d)) as [Hd|Hd].
    + rewrite filter_cons_True by done. rewrite (filter_cons_True _ r []) by done.
      assert (filter (λ x0, x0.2 = d) (x :: l) = []) as ->; [|done].
      destruct (filter (λ x0, x0.2 = d) (x :: l)) as [|y l0] eqn:Ef; [done|].
      assert (y ∈ filter (λ x0, x0.2 = d) (x :: l)) as [Ey Hy]%list_elem_of_filter by (rewrite Ef; apply list_elem_of_here).
      apply Sorted_StronglySorted in Hs; [|intros ?; lia]. apply StronglySorted_inv in Hs as [_ Hs].
      apply elem_of_cons in Hy as [->|Hy]; [lia|].
      pose proof (proj1 (Forall_forall _ _) Hs y.2 (list_elem_of_fmap_2 snd l y Hy)). lia.
    + rewrite filter_cons_False, (filter_cons_False _ r []) by done. by rewrite filter_nil, app_nil_r.
  - cbn [app]. rewrite !filter_cons, IH by (by apply Sorted_inv in Hs as []). done.
Qed.

Lemma ordered_snoc rs r : ordered (rs ++ [r]) = insert_due r (ordered rs).
Proof. unfold ordered. by rewrite foldl_app. Qed.

Lemma ordered_spec rs : ordered rs ≡ₚ rs ∧ Sorted Z.le (ordered rs).*2 ∧
  ∀ d, filter (λ x, x.2 = d) (ordered rs) = filter (λ x, x.2 = d) rs.
Proof.
  induction rs as [|r rs (IH1 & IH2 & IH3)] using rev_ind; [by repeat constructor|]. rewrite ordered_snoc. split_and!.
  - rewrite insert_due_perm, IH1. by rewrite Permutation_app_comm.
  - by apply insert_due_sorted.
  - intros d. rewrite insert_due_stable by done. by rewrite !filter_app, IH3.
Qed.

Section timers.
Context {W : Type} `{TimerWorld W}.
Abbreviation St := (eloop_data * W)%type.

(** The timeout of a request and the time at which it is due. *)
Definition timeout_of (r : request * Z) : eloop_timeout :=
  EloopTimeout (of_us r.2) (rq_data r.1) (rq_user r.1) (rq_handler r.1).

Lemma insert_timeout_of r l : insert_timeout (timeout_of r) (timeout_of <$> l) = timeout_of <$> insert_due r l.
Proof. induction l as [|x l IH]; [done|]. cbn. rewrite before_of_us, IH. by case_match. Qed.

Lemma deadline_of c s u : (c / 1000000 + s + (c `mod` 1000000 + u) / 1000000, (c `mod` 1000000 + u) `mod` 1000000) =
  of_us (c + (s * 1000000 + u)).
Proof.
  pose proof (Z.div_mod c 1000000 ltac:(lia)). unfold of_us.
  replace (c + (s * 1000000 + u)) with ((c / 1000000 + s) * 1000000 + (c `mod` 1000000 + u)) by lia.
  by rewrite Z.div_add_l, (Z.add_comm (_ * 1000000)), Z_mod_plus_full by lia.
Qed.

Lemma world_Ok {A} (m : ST W A) e w a w' : m w = Ok (a, w') → world m (e, w) = Ok (a, (e, w')).
Proof. unfold world. cbn. by intros ->. Qed.

Definition register (r : request) : ST St Z :=
  eloop_register_timeout (rq_secs r) (rq_usecs r) (rq_handler r) (rq_data r) (rq_user r).

(** A request is due its delay after the clock was read. *)
Lemma register_spec r e w : request_ok r = true → ∃ w',
  register r (e, w) = Ok (0, (put_timeouts (insert_timeout (timeout_of (r, clock w' + delay r)) (timeouts e)) e, w')) ∧
  clock w ≤ clock w' ∧ fired w' = fired w.
Proof.
  intros Hr. destruct (memory_left w) as (w0 & Em & Hc0 & Hf0), (clock_read w0) as (w' & Er & Hc1 & Hf1).
  exists w'. split; [|split; [lia|congruence]].
  unfold request_ok in Hr. split_andb. pose proof (clock_range w') as Hc. destruct (of_us_range _ Hc) as [H1' H2'].
  unfold register, eloop_register_timeout. run (world_Ok _ e _ _ _ Em). cbn [negb]. run (world_Ok _ e _ _ _ Er).
  unfold of_us in *. cbn [fst snd] in *. unfold u_ok in *. split_andb. to_prop.
  assert (0 ≤ (clock w' `mod` 1000000 + rq_usecs r) / 1000000 < 2 ^ 32) as Hq.
  { split; [apply Z.div_pos; lia|apply Z.div_lt_upper_bound; lia]. }
  unfold add_i64. assert (s_ok 64 (clock w' / 1000000 + rq_secs r) = true) as -> by in_range.
  assert (s_ok 64 (clock w' `mod` 1000000 + rq_usecs r) = true) as -> by in_range.
  run (lift_Ok (Ok (clock w' / 1000000 + rq_secs r)) (e, w') _ eq_refl).
  rewrite (proj2 (Z.ltb_ge _ _)) by lia. run (lift_Ok (Ok (clock w' `mod` 1000000 + rq_usecs r)) (e, w') _ eq_refl).
  rewrite (st_bind_Ok _ _ (e, w') (of_us (clock w' + delay r)) (e, w')); [done|].
  apply lift_Ok. rewrite carry_usec_spec by lia. f_equal. apply deadline_of.
Qed.

Definition register_all (rs : list request) : ST St unit := foldr (λ r m, register r;; m) (mret tt) rs.

(** The time at which a request made between [w] and [w'] may be due. *)
Definition due_between (w w' : W) (r : request) (d : Z) : Prop := clock w + delay r ≤ d ≤ clock w' + delay r.

Lemma due_nonneg w w' rs ds : forallb request_ok rs = true → Forall2 (due_between w w') rs ds → Forall (λ d, 0 ≤ d) ds.
Proof.
  intros Hr. induction 1 as [|r d rs ds [Hd _] _ IH]; [constructor|]. cbn [forallb] in Hr. split_andb. constructor; [|by apply IH].
  pose proof (clock_range w). unfold request_ok, u_ok, delay in *. split_andb. to_prop. lia.
Qed.

Lemma register_all_spec rs l e w : forallb request_ok rs = true → timeouts e = timeout_of <$> l → ∃ ds w',
  register_all rs (e, w) = Ok (tt, (put_timeouts (timeout_of <$> foldl (flip insert_due) l (zip rs ds)) e, w')) ∧
  Forall2 (due_between w w') rs ds ∧ clock w ≤ clock w' ∧ fired w' = fired w.
Proof.
  revert l e w. induction rs as [|r rs IH]; intros l e w Hr He; cbn [register_all foldr].
  - exists [], w. split; [|split; [constructor|split; [lia|done]]]. cbn. rewrite <- He. by destruct e.
  - cbn [forallb] in Hr. split_andb. destruct (register_spec r e w) as (w1 & E1 & Hc1 & Hf1); [done|]. run E1.
    rewrite He, insert_timeout_of. unfold register_all in IH.
    destruct (IH (insert_due (r, clock w1 + delay r) l) (put_timeouts (timeout_of <$> insert_due (r, clock w1 + delay r) l) e) w1)
      as (ds & w' & E' & Hd & Hc & Hf); [done|done|].
    exists (clock w1 + delay r :: ds), w'. split_and!; [exact E'| |lia|congruence].
    constructor; [unfold due_between; lia|]. eapply Forall2_impl; [exact Hd|]. unfold due_between. intros; lia.
Qed.

(** Nothing but timeouts is registered, and no signal waits. *)
Record only_timers (e : eloop_data) : Prop := {
  ot_readers : st_table (readers e) = [];
  ot_writers : st_table (writers e) = [];
  ot_exceptions : st_table (exceptions e) = [];
  ot_signaled : signaled e = 0;
  ot_pending : pending_terminate e = false;
  ot_terminate : terminate e = false
}.

(** What a handler noted of a timeout: its contexts, not before its time. *)
Definition on_time (t : eloop_timeout) (f : Z * Z * Z * Z) : Prop :=
  f.1 = (et_handler t, et_data t, et_user t) ∧ us (et_time t) ≤ f.2.

Lemma now_Ok e w : ∃ w', now (e, w) = Ok (of_us (clock w'), (e, w')) ∧ clock w ≤ clock w' ∧ fired w' = fired w.
Proof.
  destruct (clock_read w) as (w' & E & Hc & Hf). exists w'. split; [|done]. unfold now. by run (world_Ok _ e _ _ _ E).
Qed.

Lemma expire_due t l e w D : timeouts e = t :: l → et_time t = of_us D → D ≤ clock w → ∃ w' c,
  expire_timeout (e, w) = Ok (tt, (put_timeouts l e, w')) ∧ D ≤ c ∧
  fired w' = fired w ++ [(et_handler t, et_data t, et_user t, c)].
Proof.
  intros Hl Ht HD. destruct (now_Ok e w) as (w1 & E1 & Hc1 & Hf1).
  destruct (timer_notes (et_handler t) (et_data t) (et_user t) w1) as (w' & E & Hc & Hf). exists w', (clock w1).
  split; [|split; [lia|congruence]].
  unfold expire_timeout. rewrite (st_bind_Ok _ _ (e, w) e (e, w)) by done. rewrite Hl. run E1.
  rewrite Ht, before_of_us, (proj2 (Z.ltb_ge _ _)) by lia. cbn [negb].
  rewrite (st_bind_Ok _ _ (e, w1) tt (put_timeouts l e, w1)) by done. unfold call. by rewrite E.
Qed.

Lemma wait_time_Ok t l e w D : timeouts e = t :: l → et_time t = of_us D → 0 ≤ D < time_limit → ∃ w',
  wait_time (e, w) = Ok (Some (of_us (Z.max 0 (D - clock w'))), (e, w')) ∧ fired w' = fired w.
Proof.
  intros Hl Ht HD. destruct (now_Ok e w) as (w' & E & Hc & Hf). exists w'. split; [|done]. pose proof (clock_range w').
  unfold wait_time. rewrite (st_bind_Ok _ _ (e, w) e (e, w)) by done. rewrite Hl.
  run E. rewrite Ht, before_of_us. destruct (Z.ltb_spec (clock w') D).
  - rewrite sub_of_us by lia. rewrite Z.max_r by lia. done.
  - rewrite Z.max_l by lia. done.
Qed.

Lemma timer_turn fuel t l e w D : only_timers e → timeouts e = t :: l → et_time t = of_us D → 0 ≤ D < time_limit → ∃ w' f,
  eloop_turn fuel (e, w) = Ok (GoesOn, (put_timeouts l (clear_changed e), w')) ∧
  fired w' = fired w ++ [f] ∧ on_time t f.
Proof.
  intros [Hr Hw Hx Hs Hp Ht] Hl Htm HD.
  destruct (wait_time_Ok t l e w D Hl Htm HD) as (w0 & Ew & Hf0). pose proof (clock_range w0).
  destruct (select_waits (max_sock e + 1) (Z.max 0 (D - clock w0)) w0) as (w1 & Es & Hc & Hf); [lia..|].
  destruct (expire_due t l (clear_changed e) w1 D) as (w2 & c & Ex & Hc2 & Hf2); [done|done|lia|].
  exists w2, (et_handler t, et_data t, et_user t, c). split; [|split].
  - unfold eloop_turn. rewrite (st_bind_Ok _ _ (e, w) e (e, w)) by done.
    unfold nothing_registered. rewrite Ht, Hp, Hl. cbn [orb]. rewrite bool_decide_false by done. cbn [andb].
    unfold wait_and_dispatch. run Ew. unfold eloop_sock_table_set_fds.
    do 3 (rewrite (st_bind_Ok _ _ (e, w0) [] (e, w0)) by (rewrite (st_bind_Ok _ _ (e, w0) e (e, w0)) by done; cbn; by rewrite ?Hr, ?Hw, ?Hx)).
    rewrite (st_bind_Ok _ _ (e, w0) e (e, w0)) by done. run (world_Ok _ e _ _ _ Es).
    cbn [sr_signals deliver foldr sr_res]. rewrite (st_bind_Ok _ _ (e, w1) tt (e, w1)) by done. cbn [Z.ltb andb Z.compare].
    rewrite (st_bind_Ok _ _ (e, w1) tt (clear_changed e, w1)) by done.
    rewrite (st_bind_Ok _ _ (clear_changed e, w1) tt (clear_changed e, w1)); [by run Ex|].
    unfold eloop_process_pending_signals. rewrite (st_bind_Ok _ _ (clear_changed e, w1) (clear_changed e) (clear_changed e, w1)) by done.
    change (signaled (clear_changed e)) with (signaled e). by rewrite Hs.
  - by rewrite Hf2, Hf, Hf0.
  - split; [done|]. rewrite Htm, us_of. cbn. lia.
Qed.

Lemma only_timers_next l e : only_timers e → only_timers (put_timeouts l (clear_changed e)).
Proof. by intros []. Qed.

(** The loop runs the timeouts of the list in their order, and returns. *)
Lemma timers_run fuel l e w : only_timers e → timeouts e = l →
  Forall (λ t, ∃ D, et_time t = of_us D ∧ 0 ≤ D < time_limit) l → ∃ e' w' fs,
  eloop_turns (S (length l)) fuel (e, w) = Ok (true, (e', w')) ∧ fired w' = fired w ++ fs ∧ Forall2 on_time l fs.
Proof.
  revert e w. induction l as [|t l IH]; intros e w Ho Hl HD.
  - exists (put_terminate false e), w, []. split_and!; [|by rewrite app_nil_r|constructor].
    cbn [length eloop_turns]. rewrite (st_bind_Ok _ _ (e, w) LoopEnds (e, w)); [done|].
    unfold eloop_turn. rewrite (st_bind_Ok _ _ (e, w) e (e, w)) by done. destruct Ho as [Hr Hw Hx _ _ Ht].
    unfold nothing_registered. rewrite Ht, Hl, Hr, Hw, Hx. done.
  - apply Forall_cons in HD as [(D & Et & HD) Hrest].
    destruct (timer_turn fuel t l e w D Ho Hl Et HD) as (w1 & f & E & Hf & Hot).
    destruct (IH (put_timeouts l (clear_changed e)) w1) as (e' & w' & fs & E' & Hf' & Hots); [by apply only_timers_next|done|done|].
    exists e', w', (f :: fs). split_and!; [|by rewrite Hf', Hf, <- app_assoc|by constructor].
    cbn [length]. change (eloop_turns (S (S (length l))) fuel) with
      (t ← eloop_turn fuel; match t with GoesOn => eloop_turns (S (length l)) fuel | LoopEnds => modify (put_terminate false);; mret true | Gives_up => mret true end : ST St bool).
    by run E.
Qed.

Lemma run_turns n fuel e w : ∃ w1, eloop_run n fuel (e, w) = eloop_turns n fuel (e, w1) ∧ fired w1 = fired w.
Proof.
  destruct (memory_left w) as (w1 & E1 & _ & F1), (memory_left w1) as (w2 & E2 & _ & F2), (memory_left w2) as (w3 & E3 & _ & F3).
  exists w3. split; [|congruence]. unfold eloop_run.
  run (world_Ok _ e _ _ _ E1). run (world_Ok _ e _ _ _ E2). by run (world_Ok _ e _ _ _ E3).
Qed.

(** What a handler noted of a request that is due at a time. *)
Definition serves (r : request * Z) (f : Z * Z * Z * Z) : Prop :=
  f.1 = (rq_handler r.1, rq_data r.1, rq_user r.1) ∧ r.2 ≤ f.2.

(** C15: on a fresh loop without sockets and signals, in a world with memory, a
    working clock that may go on at any time, and a [select] that waits for the
    time it is given, every timeout that is registered runs: each request is
    noted with the time at which it is due, its delay after a reading of the
    clock; when all of these can be represented, [eloop_run] calls the
    handlers -- which use nothing of the loop -- of all the requests once each,
    with their contexts, in the order in which they are due and for equal times
    in the order of the requests, none before its time, and then returns. *)
Theorem timers_served fuel rs w : forallb request_ok rs = true → ∃ e1 w1 ds,
  register_all rs (eloop_init, w) = Ok (tt, (e1, w1)) ∧ Forall2 (due_between w w1) rs ds ∧
  (Forall (λ d, d < time_limit) ds → ∃ e' w' order fs,
    eloop_run (S (length rs)) fuel (e1, w1) = Ok (true, (e', w')) ∧
    fired w' = fired w ++ fs ∧ Forall2 serves order fs ∧
    order ≡ₚ zip rs ds ∧ Sorted Z.le order.*2 ∧
    ∀ d, filter (λ r, r.2 = d) order = filter (λ r, r.2 = d) (zip rs ds)).
Proof.
  intros Hr. destruct (register_all_spec rs [] eloop_init w Hr eq_refl) as (ds & w1 & E1 & Hd & Hc & Hf1).
  exists (put_timeouts (timeout_of <$> ordered (zip rs ds)) eloop_init), w1, ds. split; [done|]. split; [done|]. intros HD.
  destruct (ordered_spec (zip rs ds)) as (Hp & Hs & Hst). pose proof (Forall2_length _ _ _ Hd) as Hl.
  set (e := put_timeouts (timeout_of <$> ordered (zip rs ds)) eloop_init).
  destruct (run_turns (S (length rs)) fuel e w1) as (w2 & -> & Hf2).
  destruct (timers_run fuel (timeout_of <$> ordered (zip rs ds)) e w2) as (e' & w' & fs & E & Hf & Hot); [done|done|..].
  { apply Forall_fmap, Forall_forall. intros [r d] Hin. exists d. split; [done|]. rewrite Hp in Hin. apply elem_of_zip_r in Hin.
    split; [by apply (proj1 (Forall_forall _ _) (due_nonneg _ _ _ _ Hr Hd))|by apply (proj1 (Forall_forall _ _) HD)]. }
  exists e', w', (ordered (zip rs ds)), fs. rewrite length_fmap, Hp, length_zip, <- Hl, Nat.min_id in E.
  split_and!; [done|congruence| |done..].
  apply (Forall2_fmap_l timeout_of) in Hot. eapply Forall2_impl; [exact Hot|]. intros r f [Hf1' Hf2']. cbn in *. split; [done|]. by rewrite us_of in Hf2'.
Qed.
End timers.

(** ** A sample world *)

(** The clock and the calls; the clock stops at the end of time. *)
Definition sample_world : Type := Z * list (Z * Z * Z * Z).
Definition sample_clock (w : sample_world) : Z := Z.max 0 (Z.min (time_limit - 1) w.1).
#[local] Instance sample_kernel : Kernel sample_world := {
  os_get_reltime := λ w, Ok (Some (of_us (sample_clock w)), w);
  os_alloc := λ w, Ok (true, w);
  select := λ _ _ _ _ tv w, Ok (SelectResult 0 0 [] [] [] [], (sample_clock w + match tv with Some t => us t | None => 0 end, w.2));
  alarm := λ _ w, Ok (tt, w)
}.
#[local] Instance sample_handlers : Handlers sample_world := {
  on_sock := λ _ _ _ _ w, Return w;
  on_timeout := λ h d x w, Return (w.1, w.2 ++ [(h, d, x, sample_clock w)]);
  on_signal := λ _ _ _ w, Return w
}.
#[local] Program Instance sample_timers : TimerWorld sample_world := { clock := sample_clock; fired := snd }.
Next Obligation. intros w. unfold sample_clock, time_limit. lia. Qed.
Next Obligation. intros w. by exists w. Qed.
Next Obligation. intros w. by exists w. Qed.
Next Obligation.
  intros n d w Hd Hl. eexists. split; [reflexivity|]. split; [|done]. rewrite us_of. unfold sample_clock at 2. cbn.
  assert (0 ≤ sample_clock w) by (unfold sample_clock; lia). lia.
Qed.
Next Obligation. intros h d x w. eexists. split; [reflexivity|]. split; [|done]. unfold sample_clock. cbn. lia. Qed.

Definition sample_requests : list request := [Request 30 0 7 1 2; Request 1 500000 8 3 4; Request 0 1500000 9 5 6].

Lemma timers_served_witness : ∃ (e1 e' : eloop_data) (w1 w' : sample_world),
  register_all sample_requests (eloop_init, (5000000, [])) = Ok (tt, (e1, w1)) ∧
  eloop_run 4 1 (e1, w1) = Ok (true, (e', w')) ∧ length (fired w') = 3%nat.
Proof.
  destruct (timers_served (W := sample_world) 1 sample_requests (5000000, [])) as (e1 & w1 & ds & E1 & Hd & Hrun); [reflexivity|].
  destruct Hrun as (e' & w' & order & fs & E & Hf & H2 & Hp & _).
  { assert (w1 = (5000000, [])) as -> by (vm_compute in E1; by injection E1 as _ <-).
    eapply Forall2_Forall_r; [exact Hd|]. repeat constructor; unfold due_between; cbn; intros d [_ Hb];
      eapply Z.le_lt_trans; [exact Hb|reflexivity| exact Hb|reflexivity|exact Hb|reflexivity]. }
  exists e1, e', w1, w'. split; [exact E1|]. split; [exact E|]. rewrite Hf. cbn. apply Forall2_length in H2. rewrite <- H2, Hp, length_zip.
  apply Forall2_length in Hd. by rewrite <- Hd.
Defined.

(** Two timeouts, the later one first, and a socket. *)
Definition sample_calls (w : sample_world) : prog sample_world :=
  Call w (RegisterTimeout 5 0 1 1 1) (λ _ w, Call w (RegisterTimeout 2 0 2 2 2) (λ _ w,
  Call w (RegisterSock 9 EVENT_TYPE_READ 3 3 3) (λ _, Return))).
Definition sample_loop : eloop_data :=
  Eloop 9 1 (SockTable [EloopSock 9 3 3 3] true) no_socks no_socks
    [EloopTimeout (2, 0) 2 2 2; EloopTimeout (5, 0) 1 1 1] [] 0 false false.

