(* ===== verification/Base64.v ===== *)
(** Base64: [utils/base64.c] of hostapd, encoder and decoder with the sizes of
    their blocks. *)
From stdpp Require Import prelude list list_numbers strings.
From S2P Require Import Prelude CMem Utils.

(** ** Tables *)

Definition base64_table : list Z := lit_bytes "ABCDEFGHIJKLMNOPQRSTUVWXYZabcdefghijklmnopqrstuvwxyz0123456789+/".

(** Every index is masked to six bits. *)
Definition sym (i : Z) : Z := nth (Z.to_nat i) base64_table 0.

(** [dtable]: the value of a symbol, 0 for the padding, 0x80 for the others. *)
Definition dtable : list Z :=
  <[61%nat := 0]> (foldl (λ d i, <[Z.to_nat (sym i) := i]> d) (replicate 256 128) (seqZ 0 64)).
Definition value_of (c : Z) : Z := nth (Z.to_nat c) dtable 128.

(** ** base64_encode *)

(** The symbols, with a line feed after 72 of them and after the last line. *)
Fixpoint encode_loop (src : list Z) (line_len : Z) : list Z :=
  match src with
  | a :: b :: c :: rest =>
      [sym (Z.land (Z.shiftr a 2) 63);
       sym (Z.land (Z.lor (Z.shiftl (Z.land a 3) 4) (Z.shiftr b 4)) 63);
       sym (Z.land (Z.lor (Z.shiftl (Z.land b 15) 2) (Z.shiftr c 6)) 63);
       sym (Z.land c 63)] ++
      (if 72 <=? line_len + 4 then 10 :: encode_loop rest 0 else encode_loop rest (line_len + 4))
  | [] => if line_len =? 0 then [] else [10]
  | [a] => [sym (Z.land (Z.shiftr a 2) 63); sym (Z.land (Z.shiftl (Z.land a 3) 4) 63); 61; 61; 10]
  | [a; b] =>
      [sym (Z.land (Z.shiftr a 2) 63); sym (Z.land (Z.lor (Z.shiftl (Z.land a 3) 4) (Z.shiftr b 4)) 63);
       sym (Z.land (Z.shiftl (Z.land b 15) 2) 63); 61; 10]
  end.

(** [size_t] arithmetic. *)
Definition encoded_size (len : Z) : Z :=
  let olen := to_u64 (to_u64 (len * 4) / 3 + 4) in
  let olen := to_u64 (olen + olen / 72) in
  to_u64 (olen + 1).

(** The text, which is followed by a NUL in its block; [None] for an overflow of
    the size. *)
Definition base64_encode (src : list Z) : res (option (list Z)) :=
  let len := Z.of_nat (length src) in
  let olen := encoded_size len in
  if olen <? len then Ok None
  else
    let out := encode_loop src 0 in
    ensure (Z.of_nat (length out) <? olen) HeapOverflow;;
    Ok (Some out).

(** ** base64_decode *)

Definition symbols (src : list Z) : nat := length (filter (λ c, value_of c ≠ 128) src).

(** [block] holds the values since the last three bytes, the first one first. *)
Fixpoint decode_loop (olen : nat) (src block : list Z) (pad : Z) (out : list Z) : res (option (list Z)) :=
  match src with
  | [] => Ok (Some out)
  | c :: src =>
      let tmp := value_of c in
      if tmp =? 128 then decode_loop olen src block pad out
      else
        let pad := if c =? 61 then pad + 1 else pad in
        match block ++ [tmp] with
        | [b0; b1; b2; b3] =>
            let out := out ++ [to_u 8 (Z.lor (Z.shiftl b0 2) (Z.shiftr b1 4));
                               to_u 8 (Z.lor (Z.shiftl b1 4) (Z.shiftr b2 2));
                               to_u 8 (Z.lor (Z.shiftl b2 6) b3)] in
            ensure (bool_decide (length out ≤ olen)%nat) HeapOverflow;;
            if pad =? 0 then decode_loop olen src [] pad out
            else if pad =? 1 then Ok (Some (take (length out - 1) out))
            else if pad =? 2 then Ok (Some (take (length out - 2) out))
            else Ok None
        | block => decode_loop olen src block pad out
        end
  end.

Definition base64_decode (src : list Z) : res (option (list Z)) :=
  let count := symbols src in
  if bool_decide (count = 0)%nat || negb (bool_decide (count mod 4 = 0)%nat) then Ok None
  else decode_loop (count / 4 * 3) src [] 0 [].

(** ** Symbols *)

Lemma sym_value i : 0 ≤ i < 64 → value_of (sym i) = i ∧ sym i ≠ 61 ∧ 0 ≤ sym i < 256.
Proof.
  intros Hi. assert (forallb (λ i, (value_of (sym i) =? i) && negb (sym i =? 61) && (0 <=? sym i) && (sym i <? 256)) (seqZ 0 64) = true) as Ha
    by (vm_compute; reflexivity).
  rewrite forallb_forall in Ha. specialize (Ha i). rewrite <- list_elem_of_In, elem_of_seqZ in Ha. specialize (Ha ltac:(lia)).
  split_andb. to_prop. apply negb_true_iff, Z.eqb_neq in H2. lia.
Qed.

Lemma lor_shift x k y : 0 ≤ k → 0 ≤ y < 2 ^ k → Z.lor (Z.shiftl x k) y = x * 2 ^ k + y.
Proof.
  intros Hk Hy. rewrite <- Z.shiftl_mul_pow2 by done. rewrite <- Z.add_lor_land.
  assert (Z.land (Z.shiftl x k) y = 0) as ->; [|lia]. apply Z.bits_inj'. intros n Hn. rewrite Z.land_spec, Z.bits_0.
  destruct (Z.lt_ge_cases n k); [by rewrite Z.shiftl_spec_low|].
  destruct (decide (y = 0)) as [->|]; [by rewrite Z.bits_0, andb_false_r|].
  assert (Z.log2 y < k) by (apply Z.log2_lt_pow2; lia). by rewrite (Z.bits_above_log2 y), andb_false_r by lia.
Qed.

(** The operations on bits as arithmetic. *)
Lemma land_mod x k : 0 ≤ k → Z.land x (2 ^ k - 1) = x `mod` 2 ^ k.
Proof. intros. rewrite <- Z.land_ones by done. by rewrite Z.ones_equiv, Z.sub_1_r. Qed.

Ltac arith_bits :=
  change 63 with (2 ^ 6 - 1); change 15 with (2 ^ 4 - 1); change 3 with (2 ^ 2 - 1);
  rewrite ?land_mod, ?Z.shiftr_div_pow2 by lia; change (2 ^ 6) with 64; change (2 ^ 4) with 16; change (2 ^ 2) with 4.

(** Three bytes and their four symbols. *)
Definition s0 (a : Z) : Z := Z.land (Z.shiftr a 2) 63.
Definition s1 (a b : Z) : Z := Z.land (Z.lor (Z.shiftl (Z.land a 3) 4) (Z.shiftr b 4)) 63.
Definition s2 (b c : Z) : Z := Z.land (Z.lor (Z.shiftl (Z.land b 15) 2) (Z.shiftr c 6)) 63.
Definition s3 (c : Z) : Z := Z.land c 63.

Lemma s0_arith a : 0 ≤ a < 256 → s0 a = a / 4.
Proof. intros. unfold s0. arith_bits. apply Z.mod_small. Z.to_euclidean_division_equations; lia. Qed.
Lemma s1_arith a b : 0 ≤ a < 256 → 0 ≤ b < 256 → s1 a b = a `mod` 4 * 16 + b / 16.
Proof.
  intros. unfold s1. arith_bits. rewrite lor_shift by (change (2 ^ 4) with 16; Z.to_euclidean_division_equations; lia).
  change (2 ^ 4) with 16. apply Z.mod_small. Z.to_euclidean_division_equations; lia.
Qed.
Lemma s2_arith b c : 0 ≤ b < 256 → 0 ≤ c < 256 → s2 b c = b `mod` 16 * 4 + c / 64.
Proof.
  intros. unfold s2. arith_bits. change (2 ^ 6) with 64 in *. rewrite lor_shift by (change (2 ^ 2) with 4; Z.to_euclidean_division_equations; lia).
  change (2 ^ 2) with 4. apply Z.mod_small. Z.to_euclidean_division_equations; lia.
Qed.
Lemma s3_arith c : s3 c = c `mod` 64.
Proof. unfold s3. by arith_bits. Qed.

Definition bytes_of (b0 b1 b2 b3 : Z) : list Z :=
  [to_u 8 (Z.lor (Z.shiftl b0 2) (Z.shiftr b1 4)); to_u 8 (Z.lor (Z.shiftl b1 4) (Z.shiftr b2 2)); to_u 8 (Z.lor (Z.shiftl b2 6) b3)].

Lemma bytes_of_symbols a b c : 0 ≤ a < 256 → 0 ≤ b < 256 → 0 ≤ c < 256 → bytes_of (s0 a) (s1 a b) (s2 b c) (s3 c) = [a; b; c].
Proof.
  intros Ha Hb Hc. unfold bytes_of. rewrite s0_arith, s1_arith, s2_arith, s3_arith by done. rewrite !Z.shiftr_div_pow2 by lia.
  rewrite !lor_shift by (try lia; cbn; Z.to_euclidean_division_equations; lia). unfold to_u.
  change (2 ^ 8) with 256. change (2 ^ 2) with 4. change (2 ^ 4) with 16. change (2 ^ 6) with 64.
  f_equal; [|f_equal; [|f_equal]]; Z.to_euclidean_division_equations; lia.
Qed.

Lemma s0_range a : 0 ≤ s0 a < 64.
Proof. unfold s0. change 63 with (2 ^ 6 - 1). rewrite land_mod by lia. apply Z.mod_pos_bound. lia. Qed.
Lemma s1_range a b : 0 ≤ s1 a b < 64.
Proof. unfold s1. change 63 with (2 ^ 6 - 1). rewrite land_mod by lia. apply Z.mod_pos_bound. lia. Qed.
Lemma s2_range b c : 0 ≤ s2 b c < 64.
Proof. unfold s2. change 63 with (2 ^ 6 - 1). rewrite land_mod by lia. apply Z.mod_pos_bound. lia. Qed.
Lemma s3_range c : 0 ≤ s3 c < 64.
Proof. unfold s3. change 63 with (2 ^ 6 - 1). rewrite land_mod by lia. apply Z.mod_pos_bound. lia. Qed.

(** A symbol is taken into the block. *)
Lemma decode_symbol olen i src block pad out : 0 ≤ i < 64 → (length block < 3)%nat →
  decode_loop olen (sym i :: src) block pad out = decode_loop olen src (block ++ [i]) pad out.
Proof.
  intros Hi Hb. destruct (sym_value i Hi) as (Hv & Hp & _). cbn [decode_loop]. rewrite Hv.
  rewrite (proj2 (Z.eqb_neq i 128)) by lia. rewrite (proj2 (Z.eqb_neq (sym i) 61)) by done.
  destruct block as [|? [|? [|? ?]]]; simpl in Hb; [done..|lia].
Qed.
Lemma decode_pad olen src block pad out : (length block < 3)%nat →
  decode_loop olen (61 :: src) block pad out = decode_loop olen src (block ++ [0]) (pad + 1) out.
Proof. intros Hb. destruct block as [|? [|? [|? ?]]]; simpl in Hb; [done..|lia]. Qed.

(** The last one of a block completes it. *)
Lemma decode_last olen i src b0 b1 b2 out : 0 ≤ i < 64 → (length out + 3 ≤ olen)%nat →
  decode_loop olen (sym i :: src) [b0; b1; b2] 0 out = decode_loop olen src [] 0 (out ++ bytes_of b0 b1 b2 i).
Proof.
  intros Hi Hl. destruct (sym_value i Hi) as (Hv & Hp & _). cbn [decode_loop]. rewrite Hv.
  rewrite (proj2 (Z.eqb_neq i 128)) by lia. rewrite (proj2 (Z.eqb_neq (sym i) 61)) by done.
  cbn [app]. rewrite bool_decide_true by (rewrite length_app; simpl; lia). done.
Qed.
Lemma decode_last_pad olen src b0 b1 b2 pad out : (length out + 3 ≤ olen)%nat → pad = 0 ∨ pad = 1 →
  decode_loop olen (61 :: src) [b0; b1; b2] pad out = Ok (Some (out ++ take (Z.to_nat (2 - pad)) (bytes_of b0 b1 b2 0))).
Proof.
  intros Hl Hpad. cbn [decode_loop]. change (value_of 61) with 0. cbn [Z.eqb app].
  fold (bytes_of b0 b1 b2 0). rewrite bool_decide_true by (rewrite length_app; simpl; lia). cbn [mbind res_bind ensure].
  assert (length (out ++ bytes_of b0 b1 b2 0) = length out + 3)%nat as -> by (by rewrite length_app).
  destruct Hpad as [-> | ->]; [change (0 + 1) with 1|change (1 + 1) with 2]; cbn [Z.eqb Pos.eqb]; rewrite take_app_ge by lia.
  - replace (length out + 3 - 1 - length out)%nat with 2%nat by lia. reflexivity.
  - replace (length out + 3 - 2 - length out)%nat with 1%nat by lia. reflexivity.
Qed.

(** Induction on the groups of three bytes. *)
Lemma triples_ind (P : list Z → Prop) : P [] → (∀ a, P [a]) → (∀ a b, P [a; b]) → (∀ a b c l, P l → P (a :: b :: c :: l)) → ∀ l, P l.
Proof.
  intros H0 H1 H2 H3 l. enough (P l ∧ (∀ a, P (a :: l)) ∧ (∀ a b, P (a :: b :: l))) by tauto.
  induction l as [|x l (IH0 & IH1 & IH2)]; split_and!; auto.
Qed.

Lemma encode_loop_step a b c rest ll : encode_loop (a :: b :: c :: rest) ll =
  [sym (s0 a); sym (s1 a b); sym (s2 b c); sym (s3 c)] ++
  (if 72 <=? ll + 4 then 10 :: encode_loop rest 0 else encode_loop rest (ll + 4)).
Proof. done. Qed.

Lemma s1_zero a : Z.land (Z.shiftl (Z.land a 3) 4) 63 = s1 a 0.
Proof. unfold s1. by rewrite Z.lor_0_r. Qed.
Lemma s2_zero b : Z.land (Z.shiftl (Z.land b 15) 2) 63 = s2 b 0.
Proof. unfold s2. by rewrite Z.lor_0_r. Qed.

Definition groups (n : nat) : nat := ((n + 2) / 3)%nat.

Lemma decode_encode src ll olen out : Forall (λ b, 0 ≤ b < 256) src → (length out + groups (length src) * 3 ≤ olen)%nat →
  decode_loop olen (encode_loop src ll) [] 0 out = Ok (Some (out ++ src)).
Proof.
  revert ll out. induction src as [|a|a b|a b c src IH] using triples_ind; intros ll out Hb Hl.
  - cbn. rewrite app_nil_r. by case_match.
  - apply Forall_cons in Hb as [Ha _]. change (groups (length [a])) with 1%nat in Hl. cbn [encode_loop]. rewrite s1_zero.
    change (Z.land (Z.shiftr a 2) 63) with (s0 a). rewrite !decode_symbol, decode_pad by (try apply s0_range; try apply s1_range; simpl; lia).
    cbn [app]. rewrite decode_last_pad by (simpl; lia). 
    assert (bytes_of (s0 a) (s1 a 0) 0 0 = [a; 0; 0]) as -> by (apply (bytes_of_symbols a 0 0); lia). done.
  - apply Forall_cons in Hb as [Ha [Hb _]%Forall_cons]. change (groups (length [a; b])) with 1%nat in Hl. cbn [encode_loop]. rewrite s2_zero.
    change (Z.land (Z.shiftr a 2) 63) with (s0 a). change (Z.land (Z.lor _ _) 63) with (s1 a b).
    rewrite !decode_symbol by (try apply s0_range; try apply s1_range; try apply s2_range; simpl; lia).
    cbn [app]. rewrite decode_last_pad by (simpl; lia). 
    assert (bytes_of (s0 a) (s1 a b) (s2 b 0) 0 = [a; b; 0]) as -> by (apply (bytes_of_symbols a b 0); lia). done.
  - rewrite !Forall_cons in Hb. destruct Hb as (Ha & Hb & Hc & Hs).
    assert (groups (length (a :: b :: c :: src)) = S (groups (length src))) as Eg.
    { unfold groups. cbn [length]. replace (S (S (S (length src))) + 2)%nat with (length src + 2 + 1 * 3)%nat by lia. rewrite Nat.div_add by lia. lia. }
    rewrite encode_loop_step. cbn [app]. rewrite !decode_symbol by (try apply s0_range; try apply s1_range; try apply s2_range; simpl; lia).
    cbn [app]. rewrite decode_last by (try apply s3_range; lia). rewrite bytes_of_symbols by done.
    assert (length (out ++ [a; b; c]) + groups (length src) * 3 ≤ olen)%nat as Hl' by (rewrite length_app; simpl; lia).
    assert (out ++ a :: b :: c :: src = (out ++ [a; b; c]) ++ src) as -> by (by rewrite <- app_assoc).
    case_match; [|by apply IH]. change (decode_loop olen (10 :: encode_loop src 0) [] 0 (out ++ [a; b; c])) with
      (decode_loop olen (encode_loop src 0) [] 0 (out ++ [a; b; c])). by apply IH.
Qed.

(** ** Sizes *)

Lemma groups_step n : groups (S (S (S n))) = S (groups n).
Proof. unfold groups. replace (S (S (S n)) + 2)%nat with (n + 2 + 1 * 3)%nat by lia. rewrite Nat.div_add by lia. lia. Qed.

Lemma symbols_app l l' : symbols (l ++ l') = (symbols l + symbols l')%nat.
Proof. unfold symbols. by rewrite filter_app, length_app. Qed.
Lemma symbols_sym i : 0 ≤ i < 64 → symbols [sym i] = 1%nat.
Proof.
  intros Hi. destruct (sym_value i Hi) as (Hv & _). unfold symbols. rewrite filter_cons_True; [done|]. rewrite Hv. lia.
Qed.
Lemma symbols_sym_cons i l : 0 ≤ i < 64 → symbols (sym i :: l) = S (symbols l).
Proof. intros Hi. change (sym i :: l) with ([sym i] ++ l). rewrite symbols_app, symbols_sym by done. done. Qed.
Lemma symbols_cons c l : symbols (c :: l) = (symbols [c] + symbols l)%nat.
Proof. apply (symbols_app [c] l). Qed.

Lemma symbols_encode src ll : symbols (encode_loop src ll) = (4 * groups (length src))%nat.
Proof.
  revert ll. induction src as [|a|a b|a b c src IH] using triples_ind; intros ll.
  - cbn. by case_match.
  - cbn [encode_loop]. rewrite s1_zero. change (Z.land (Z.shiftr a 2) 63) with (s0 a).
    rewrite !symbols_sym_cons by (apply s0_range || apply s1_range). done.
  - cbn [encode_loop]. rewrite s2_zero. change (Z.land (Z.shiftr a 2) 63) with (s0 a). change (Z.land (Z.lor _ _) 63) with (s1 a b).
    rewrite !symbols_sym_cons by (apply s0_range || apply s1_range || apply s2_range). done.
  - rewrite encode_loop_step. cbn [app length]. rewrite groups_step.
    rewrite !symbols_sym_cons by (apply s0_range || apply s1_range || apply s2_range || apply s3_range).
    assert (symbols (if 72 <=? ll + 4 then 10 :: encode_loop src 0 else encode_loop src (ll + 4)) = (4 * groups (length src))%nat) as ->; [|lia].
    case_match; [rewrite symbols_cons|]; apply IH.
Qed.

(** A line feed for each 72 symbols, and one more. *)
Lemma encode_length src ll : 0 ≤ ll < 72 → ∃ n, length (encode_loop src ll) = (4 * groups (length src) + n)%nat ∧
  72 * Z.of_nat n ≤ ll + 4 * Z.of_nat (groups (length src)) + 71.
Proof.
  revert ll. induction src as [|a|a b|a b c src IH] using triples_ind; intros ll Hll.
  - cbn. destruct (Z.eqb_spec ll 0); [exists 0%nat|exists 1%nat]; cbn; lia.
  - exists 1%nat. cbn. lia.
  - exists 1%nat. cbn. lia.
  - rewrite encode_loop_step. cbn [app length]. rewrite groups_step. destruct (Z.leb_spec 72 (ll + 4)).
    + destruct (IH 0 ltac:(lia)) as (n & E & Hn). exists (S n). cbn [length]. lia.
    + destruct (IH (ll + 4) ltac:(lia)) as (n & E & Hn). exists n. lia.
Qed.

Lemma encode_fits src : Z.of_nat (length src) < 2 ^ 61 →
  Z.of_nat (length src) ≤ encoded_size (Z.of_nat (length src)) ∧
  Z.of_nat (length (encode_loop src 0)) < encoded_size (Z.of_nat (length src)).
Proof.
  intros Hl. destruct (encode_length src 0 ltac:(lia)) as (n & E & Hn). rewrite E. set (len := Z.of_nat (length src)) in *.
  assert (0 ≤ len) by (unfold len; lia).
  assert (Z.of_nat (groups (length src)) = (len + 2) / 3) as Eg by (unfold groups, len; by rewrite Nat2Z.inj_div, Nat2Z.inj_add).
  assert (encoded_size len = (len * 4 / 3 + 4) + (len * 4 / 3 + 4) / 72 + 1) as ->.
  { assert (0 ≤ len * 4 / 3 ≤ 2 ^ 62) as Hq by (Z.to_euclidean_division_equations; lia).
    assert (0 ≤ (len * 4 / 3 + 4) / 72 ≤ 2 ^ 62) as Hq' by (clear Eg; Z.to_euclidean_division_equations; lia).
    unfold encoded_size. cbv zeta. rewrite (to_u_id 64 (len * 4)) by in_range. rewrite (to_u_id 64 (len * 4 / 3 + 4)) by in_range.
    rewrite (to_u_id 64 (_ + _ / 72)) by in_range. by rewrite to_u_id by in_range. }
  rewrite Nat2Z.inj_add, Nat2Z.inj_mul, Eg in *. Z.to_euclidean_division_equations; lia.
Qed.

(** The block that is decoded into has room for three bytes for each four
    symbols, whatever else the text holds. *)
Lemma decode_loop_total olen src block pad out : (length block ≤ 3)%nat →
  (length out + (length block + symbols src) / 4 * 3 ≤ olen)%nat → ∃ r, decode_loop olen src block pad out = Ok r.
Proof.
  revert block pad out. induction src as [|c src IH]; intros block pad out Hb Hl; cbn [decode_loop]; [eauto|]. cbv zeta.
  rewrite symbols_cons in Hl. destruct (Z.eqb_spec (value_of c) 128) as [Hv|Hv].
  - apply IH; [done|]. assert (symbols [c] = 0)%nat as Es by (unfold symbols; rewrite filter_cons_False by naive_solver; done).
    by rewrite Es in Hl.
  - assert (symbols [c] = 1)%nat as Es by (unfold symbols; by rewrite filter_cons_True). rewrite Es in Hl.
    destruct block as [|b0 [|b1 [|b2 [|? ?]]]]; simpl in Hb; [..|lia]; cbn [app];
      try (apply IH; cbn [length] in *; [lia|]; etrans; [|exact Hl]; apply Nat.eq_le_incl; do 3 f_equal; lia).
    cbn [length] in Hl. replace (3 + (1 + symbols src))%nat with (symbols src + 1 * 4)%nat in Hl by lia. rewrite Nat.div_add in Hl by lia.
    rewrite bool_decide_true by (rewrite length_app; cbn [length]; lia). cbn [ensure mbind res_bind].
    repeat case_match; eauto; (apply IH; [cbn; lia|]; rewrite length_app; cbn [length Nat.add]; lia).
Qed.

(** C39: Base64 is a round trip: the encoder fits its text into the block it
    allocates, line feeds and NUL included, and the decoder gives the bytes back
    in a block of the size it computes.  The decoder stays inside its block for
    every text. *)
Theorem base64_roundtrip src : Forall (λ b, 0 ≤ b < 256) src → src ≠ [] → Z.of_nat (length src) < 2 ^ 61 → ∃ text,
  base64_encode src = Ok (Some text) ∧ base64_decode text = Ok (Some src) ∧
  ∀ other, ∃ r, base64_decode other = Ok r.
Proof.
  intros Hb Hne Hl. destruct (encode_fits src Hl) as [Hlen Hout]. exists (encode_loop src 0). split_and!.
  - unfold base64_encode. cbv zeta. rewrite (proj2 (Z.ltb_ge _ _)) by lia. by rewrite (proj2 (Z.ltb_lt _ _)) by lia.
  - unfold base64_decode. rewrite symbols_encode. replace (4 * groups (length src))%nat with (groups (length src) * 4)%nat by lia.
    rewrite Nat.Div0.mod_mul, Nat.div_mul by lia. rewrite (bool_decide_true (0 = 0)%nat) by done.
    rewrite bool_decide_false.
    + cbn [orb negb]. by rewrite decode_encode by (done || (cbn [length]; lia)).
    + destruct src; [done|]. unfold groups. cbn [length]. intros E. assert (1 ≤ (S (length src) + 2) / 3)%nat by (apply Nat.div_le_lower_bound; lia). lia.
  - intros other. unfold base64_decode. case_match; [eauto|]. apply decode_loop_total; cbn [length Nat.add]; [lia|done].
Qed.

Lemma base64_roundtrip_witness : base64_encode (lit_bytes "ethanol!") = Ok (Some (lit_bytes "ZXRoYW5vbCE=" ++ [10])) ∧
  base64_decode (lit_bytes "ZXRoYW5vbCE=" ++ [10]) = Ok (Some (lit_bytes "ethanol!")).
Proof.
  destruct (base64_roundtrip (lit_bytes "ethanol!")) as (text & E & D & _);
    [apply (bool_decide_unpack _); vm_compute; exact I|discriminate|vm_compute; reflexivity|].
  assert (text = lit_bytes "ZXRoYW5vbCE=" ++ [10]) as -> by (vm_compute in E; by injection E as <-). split; [exact E|exact D].
Defined.
