(* ===== verification/Cipher.v ===== *)
(** The modes of operation that hostapd wraps keys and frames with:
    [aes-wrap.c], [aes-unwrap.c], [aes-cbc.c] and [aes-ctr.c] of [crypto/], and
    the stream cipher [rc4.c].

    The block cipher itself is OpenSSL's in hostapd's configuration: the class
    [Aes]; what the modes rely on is [ciphers]. *)
From stdpp Require Import prelude list list_numbers.
From S2P Require Import Prelude.

(** ** The block cipher *)

(** [aes_encrypt_init] gives [None] when it fails. *)
Class Aes := {
  aes_ctx : Type;
  aes_encrypt_init : list Z → option aes_ctx;
  aes_decrypt_init : list Z → option aes_ctx;
  aes_encrypt : aes_ctx → list Z → list Z;
  aes_decrypt : aes_ctx → list Z → list Z
}.

Definition bytes (l : list Z) : Prop := Forall (λ b, 0 ≤ b < 256) l.
Definition AES_BLOCK_SIZE : nat := 16.
Definition block (l : list Z) : Prop := length l = AES_BLOCK_SIZE ∧ bytes l.

(** The two contexts of a key: one undoes what the other does to a block. *)
Record ciphers `{Aes} (key : list Z) (enc dec : aes_ctx) : Prop := {
  enc_init : aes_encrypt_init key = Some enc;
  dec_init : aes_decrypt_init key = Some dec;
  enc_block b : block b → block (aes_encrypt enc b);
  dec_block b : block b → block (aes_decrypt dec b);
  dec_enc b : block b → aes_decrypt dec (aes_encrypt enc b) = b;
  enc_dec b : block b → aes_encrypt enc (aes_decrypt dec b) = b
}.

(** ** Key wrap *)

Section wrap.
Context `{Aes}.

(** [a[7] ^= t; a[6] ^= t >> 8; ...], on [u8]. *)
Definition xor_count (t : Z) (a : list Z) : list Z :=
  zip_with Z.lxor a ([0; 0; 0; 0] ++ [to_u 8 (Z.shiftr t 24); to_u 8 (Z.shiftr t 16); to_u 8 (Z.shiftr t 8); to_u 8 t]).

(** The body of the inner loop: the new [a] and the new block. *)
Definition wrap_step (ctx : aes_ctx) (t : Z) (a r : list Z) : list Z * list Z :=
  let b := aes_encrypt ctx (a ++ r) in (xor_count t (take 8 b), drop 8 b).

(** The blocks [i], [i] + 1, ... in the [j]-th round. *)
Fixpoint wrap_pass (ctx : aes_ctx) (n j i : Z) (a : list Z) (rs : list (list Z)) : list Z * list (list Z) :=
  match rs with
  | [] => (a, [])
  | r :: rs =>
      let '(a, r) := wrap_step ctx (to_u32 (n * j + i)) a r in
      let '(a, rs) := wrap_pass ctx n j (i + 1) a rs in
      (a, r :: rs)
  end.
Definition wrap_rounds (ctx : aes_ctx) (n : Z) (a : list Z) (rs : list (list Z)) : list Z * list (list Z) :=
  foldl (λ '(a, rs) j, wrap_pass ctx n j 1 a rs) (a, rs) [0; 1; 2; 3; 4; 5].

(** [n] blocks of eight bytes. *)
Fixpoint blocks8 (n : nat) (l : list Z) : list (list Z) :=
  match n with O => [] | S n => take 8 l :: blocks8 n (drop 8 l) end.

(** The cipher text; [None] when the cipher cannot be set up. [n] is an [int],
    and so are [8 * n], the bytes copied, and [n * j + i], at most [6 * n]. *)
Definition aes_wrap (kek : list Z) (n : nat) (plain : list Z) : res (option (list Z)) :=
  ensure (i32_ok (8 * Z.of_nat n)) SignedOverflow;;
  ensure (bool_decide (8 * n ≤ length plain)%nat) ReadOutOfBounds;;
  ensure (i32_ok (6 * Z.of_nat n)) SignedOverflow;;
  match aes_encrypt_init kek with
  | None => Ok None
  | Some ctx =>
      let '(a, rs) := wrap_rounds ctx (Z.of_nat n) (replicate 8 166) (blocks8 n plain) in
      Ok (Some (a ++ concat rs))
  end.

Definition unwrap_step (ctx : aes_ctx) (t : Z) (a r : list Z) : list Z * list Z :=
  let b := aes_decrypt ctx (xor_count t a ++ r) in (take 8 b, drop 8 b).

(** The blocks from the last one down to [i]. *)
Fixpoint unwrap_pass (ctx : aes_ctx) (n j i : Z) (a : list Z) (rs : list (list Z)) : list Z * list (list Z) :=
  match rs with
  | [] => (a, [])
  | r :: rs =>
      let '(a, rs) := unwrap_pass ctx n j (i + 1) a rs in
      let '(a, r) := unwrap_step ctx (to_u32 (n * j + i)) a r in
      (a, r :: rs)
  end.
Definition unwrap_rounds (ctx : aes_ctx) (n : Z) (a : list Z) (rs : list (list Z)) : list Z * list (list Z) :=
  foldl (λ '(a, rs) j, unwrap_pass ctx n j 1 a rs) (a, rs) [5; 4; 3; 2; 1; 0].

(** The plain text, when the check value is the expected one. *)
Definition aes_unwrap (kek : list Z) (n : nat) (cipher : list Z) : res (option (list Z)) :=
  ensure (i32_ok (8 * Z.of_nat n)) SignedOverflow;;
  ensure (bool_decide (8 * n + 8 ≤ length cipher)%nat) ReadOutOfBounds;;
  ensure (i32_ok (6 * Z.of_nat n)) SignedOverflow;;
  match aes_decrypt_init kek with
  | None => Ok None
  | Some ctx =>
      let '(a, rs) := unwrap_rounds ctx (Z.of_nat n) (take 8 cipher) (blocks8 n (drop 8 cipher)) in
      if forallb (λ x, x =? 166) a then Ok (Some (concat rs)) else Ok None
  end.

(** ** CBC, in place: the bytes behind the last whole block are left alone *)

(** [for (j = 0; j < AES_BLOCK_SIZE; j++) cbc[j] ^= pos[j]] *)
Definition xor_block (a b : list Z) : list Z := zip_with Z.lxor a b.

(** [int blocks = data_len / AES_BLOCK_SIZE]. *)
Definition cbc_blocks (data : list Z) : nat := Z.to_nat (to_s 32 (Z.of_nat (length data) / Z.of_nat AES_BLOCK_SIZE)).

Fixpoint cbc_encrypt (ctx : aes_ctx) (blocks : nat) (cbc data : list Z) : list Z :=
  match blocks with
  | O => data
  | S blocks =>
      let cbc := aes_encrypt ctx (xor_block cbc (take AES_BLOCK_SIZE data)) in
      cbc ++ cbc_encrypt ctx blocks cbc (drop AES_BLOCK_SIZE data)
  end.
Definition aes_128_cbc_encrypt (key iv data : list Z) : option (list Z) :=
  ctx ← aes_encrypt_init key;
  Some (cbc_encrypt ctx (cbc_blocks data) (take AES_BLOCK_SIZE iv) data).

Fixpoint cbc_decrypt (ctx : aes_ctx) (blocks : nat) (cbc data : list Z) : list Z :=
  match blocks with
  | O => data
  | S blocks =>
      let tmp := take AES_BLOCK_SIZE data in
      xor_block (aes_decrypt ctx tmp) cbc ++ cbc_decrypt ctx blocks tmp (drop AES_BLOCK_SIZE data)
  end.
Definition aes_128_cbc_decrypt (key iv data : list Z) : option (list Z) :=
  ctx ← aes_decrypt_init key;
  Some (cbc_decrypt ctx (cbc_blocks data) (take AES_BLOCK_SIZE iv) data).

(** ** CTR *)

(** From the last byte on: [counter[i]++; if (counter[i]) break]. *)
Fixpoint count_up (rev_counter : list Z) : list Z :=
  match rev_counter with
  | [] => []
  | c :: l => let c := to_u 8 (c + 1) in if c =? 0 then c :: count_up l else c :: l
  end.
Definition next_counter (counter : list Z) : list Z := reverse (count_up (reverse counter)).

(** Each turn takes at least a byte of the data. *)
Fixpoint ctr_loop (fuel : nat) (ctx : aes_ctx) (counter data : list Z) : list Z :=
  match fuel with
  | O => data
  | S fuel =>
      match data with
      | [] => []
      | _ => xor_block (take AES_BLOCK_SIZE data) (aes_encrypt ctx counter) ++
             ctr_loop fuel ctx (next_counter counter) (drop AES_BLOCK_SIZE data)
      end
  end.
Definition aes_128_ctr_encrypt (key nonce data : list Z) : option (list Z) :=
  ctx ← aes_encrypt_init key;
  Some (ctr_loop (length data) ctx (take AES_BLOCK_SIZE nonce) data).
End wrap.

(** ** RC4 *)

(** The array [S] and the two indices. *)
Record rc4_state := Rc4 { rc4_S : list Z; rc4_i : Z; rc4_j : Z }.
Definition S_SWAP (S : list Z) (a b : Z) : res (list Z) :=
  x ← index S (Z.to_nat a);
  y ← index S (Z.to_nat b);
  Ok (<[Z.to_nat b := x]> (<[Z.to_nat a := y]> S)).

Fixpoint rc4_setup (n : nat) (key : list Z) (S : list Z) (i j : Z) (kpos : nat) : res (list Z) :=
  match n with
  | O => Ok S
  | Datatypes.S n =>
      x ← index S (Z.to_nat i);
      k ← index key kpos;
      let j := Z.land (j + x + k) 255 in
      let kpos := if bool_decide (length key ≤ kpos + 1)%nat then O else (kpos + 1)%nat in
      S ← S_SWAP S i j;
      rc4_setup n key S (i + 1) j kpos
  end.

Definition rc4_next (s : rc4_state) : res rc4_state :=
  let i := Z.land (rc4_i s + 1) 255 in
  x ← index (rc4_S s) (Z.to_nat i);
  let j := Z.land (rc4_j s + x) 255 in
  S ← S_SWAP (rc4_S s) i j;
  Ok (Rc4 S i j).
Fixpoint rc4_steps (n : nat) (s : rc4_state) : res rc4_state :=
  match n with O => Ok s | S n => s ← rc4_next s; rc4_steps n s end.

Fixpoint rc4_apply (data : list Z) (s : rc4_state) : res (list Z) :=
  match data with
  | [] => Ok []
  | d :: data =>
      s ← rc4_next s;
      x ← index (rc4_S s) (Z.to_nat (rc4_i s));
      y ← index (rc4_S s) (Z.to_nat (rc4_j s));
      k ← index (rc4_S s) (Z.to_nat (Z.land (x + y) 255));
      r ← rc4_apply data s;
      Ok (Z.lxor d k :: r)
  end.

(** [k] is a [u32] that is compared with a [size_t]: from 2^32 on the loops do
    not end, the second one going on behind the data. *)
Definition rc4_skip (key : list Z) (skip : nat) (data : list Z) : res (list Z) :=
  S ← rc4_setup 256 key (seqZ 0 256) 0 0 0;
  ensure (Z.of_nat skip <? 2 ^ 32) Diverges;;
  s ← rc4_steps skip (Rc4 S 0 0);
  ensure (Z.of_nat (length data) <? 2 ^ 32) HeapOverflow;;
  rc4_apply data s.

(** ** Exclusive or *)

Lemma lxor_byte x y : 0 ≤ x < 256 → 0 ≤ y < 256 → 0 ≤ Z.lxor x y < 256.
Proof.
  intros Hx Hy. assert (Z.lxor x y = Z.lxor x y `mod` 2 ^ 8) as ->; [|apply Z.mod_pos_bound; lia].
  rewrite <- Z.land_ones by lia. apply Z.bits_inj'. intros n Hn. rewrite Z.land_spec, Z.lxor_spec.
  destruct (Z.lt_ge_cases n 8); [by rewrite Z.ones_spec_low, andb_true_r by lia|].
  assert (∀ z, 0 ≤ z < 256 → Z.testbit z n = false) as Hz.
  { intros z Hz. destruct (decide (z = 0)) as [->|]; [apply Z.bits_0|]. apply Z.bits_above_log2; [lia|].
    eapply Z.lt_le_trans; [apply (Z.log2_lt_pow2 z 8); lia|lia]. }
  by rewrite !Hz, andb_false_l by done.
Qed.

Lemma xor_twice a k : (length a ≤ length k)%nat → zip_with Z.lxor (zip_with Z.lxor a k) k = a.
Proof.
  revert k. induction a as [|x a IH]; intros [|y k] Hl; simpl in *; [done..|lia|].
  rewrite IH by lia. f_equal. by rewrite Z.lxor_assoc, Z.lxor_nilpotent, Z.lxor_0_r.
Qed.
Lemma xor_length a k : (length a ≤ length k)%nat → length (zip_with Z.lxor a k) = length a.
Proof. intros. rewrite length_zip_with. lia. Qed.
Lemma xor_bytes a k : bytes a → bytes k → bytes (zip_with Z.lxor a k).
Proof.
  intros Ha. revert k. induction Ha as [|x a Hx Ha IH]; intros k Hk; [constructor|]. destruct Hk as [|y k Hy Hk]; [constructor|].
  constructor; [by apply lxor_byte|by apply IH].
Qed.
Lemma xor_comm a k : zip_with Z.lxor a k = zip_with Z.lxor k a.
Proof. revert k. induction a as [|x a IH]; intros [|y k]; simpl; [done..|]. by rewrite IH, Z.lxor_comm. Qed.

(** ** Key wrap undone *)

Section key_wrap.
Context `{Aes} {kek : list Z} {enc dec : aes_ctx} (Hc : ciphers kek enc dec).

(** Eight bytes. *)
Definition half (l : list Z) : Prop := length l = 8%nat ∧ bytes l.

Lemma xor_count_twice t a : half a → xor_count t (xor_count t a) = a.
Proof. intros [Ha _]. apply xor_twice. simpl. lia. Qed.
Lemma xor_count_half t a : half a → half (xor_count t a).
Proof.
  intros [Ha Hb]. split; [unfold xor_count; rewrite xor_length; simpl; lia|]. apply xor_bytes; [done|].
  repeat constructor; unfold to_u; try lia; apply Z.mod_pos_bound; lia.
Qed.

Lemma halves_block a r : half a → half r → block (a ++ r).
Proof. intros [Ha Hba] [Hr Hbr]. split; [rewrite length_app; unfold AES_BLOCK_SIZE; lia|by apply Forall_app]. Qed.
Lemma block_halves b : block b → half (take 8 b) ∧ half (drop 8 b).
Proof.
  intros [Hl Hb]. unfold half, AES_BLOCK_SIZE in *. rewrite length_take, length_drop, Hl.
  split; (split; [done|]); [by apply Forall_take|by apply Forall_drop].
Qed.
Lemma halves_split a r : half a → take 8 (a ++ r) = a ∧ drop 8 (a ++ r) = r.
Proof. intros [Ha _]. by rewrite take_app_length', drop_app_length' by done. Qed.

Lemma wrap_step_half t a r : half a → half r → half (wrap_step enc t a r).1 ∧ half (wrap_step enc t a r).2.
Proof.
  intros Ha Hr. destruct (block_halves _ (enc_block _ _ _ Hc _ (halves_block a r Ha Hr))) as [H1 H2].
  split; [by apply xor_count_half|done].
Qed.
Lemma unwrap_step_half t a r : half a → half r → half (unwrap_step dec t a r).1 ∧ half (unwrap_step dec t a r).2.
Proof. intros Ha Hr. apply block_halves, (dec_block _ _ _ Hc), halves_block; [by apply xor_count_half|done]. Qed.

Lemma unwrap_wrap_step t a r : half a → half r →
  unwrap_step dec t (wrap_step enc t a r).1 (wrap_step enc t a r).2 = (a, r).
Proof.
  intros Ha Hr. pose proof (halves_block a r Ha Hr) as Hb. pose proof (enc_block _ _ _ Hc _ Hb) as He.
  unfold unwrap_step, wrap_step. cbn [fst snd]. rewrite xor_count_twice by (by apply block_halves).
  rewrite take_drop, (dec_enc _ _ _ Hc) by done. by destruct (halves_split a r Ha) as [-> ->].
Qed.
Lemma wrap_unwrap_step t a r : half a → half r →
  wrap_step enc t (unwrap_step dec t a r).1 (unwrap_step dec t a r).2 = (a, r).
Proof.
  intros Ha Hr. pose proof (halves_block (xor_count t a) r (xor_count_half t a Ha) Hr) as Hb.
  unfold unwrap_step, wrap_step. cbn [fst snd]. rewrite take_drop, (enc_dec _ _ _ Hc) by done.
  destruct (halves_split (xor_count t a) r (xor_count_half t a Ha)) as [-> ->]. by rewrite xor_count_twice.
Qed.

Definition halves (s : list Z * list (list Z)) (n : nat) : Prop := half s.1 ∧ Forall half s.2 ∧ length s.2 = n.

Lemma wrap_pass_spec n j i a rs : half a → Forall half rs →
  halves (wrap_pass enc n j i a rs) (length rs) ∧
  unwrap_pass dec n j i (wrap_pass enc n j i a rs).1 (wrap_pass enc n j i a rs).2 = (a, rs).
Proof.
  intros Ha Hrs. revert i a Ha. induction Hrs as [|r rs Hr Hrs IH]; intros i a Ha; [split; [split_and!; [done|constructor|done]|done]|]. cbn [wrap_pass].
  pose proof (wrap_step_half (to_u32 (n * j + i)) a r Ha Hr) as [H1 H2].
  pose proof (unwrap_wrap_step (to_u32 (n * j + i)) a r Ha Hr) as Eu.
  destruct (wrap_step enc (to_u32 (n * j + i)) a r) as [a1 r1]. cbn [fst snd] in *.
  destruct (IH (i + 1) a1 H1) as [(Hh & Hhs & Hl) E]. destruct (wrap_pass enc n j (i + 1) a1 rs) as [a2 rs2]. cbn [fst snd] in *.
  split; [split_and!; [done|by constructor|simpl; by rewrite Hl]|]. cbn [unwrap_pass]. by rewrite E, Eu.
Qed.

Lemma unwrap_pass_spec n j i a rs : half a → Forall half rs →
  halves (unwrap_pass dec n j i a rs) (length rs) ∧
  wrap_pass enc n j i (unwrap_pass dec n j i a rs).1 (unwrap_pass dec n j i a rs).2 = (a, rs).
Proof.
  intros Ha Hrs. revert i. induction Hrs as [|r rs Hr Hrs IH]; intros i; [split; [split_and!; [done|constructor|done]|done]|]. cbn [unwrap_pass].
  destruct (IH (i + 1)) as [(Hh & Hhs & Hl) E]. destruct (unwrap_pass dec n j (i + 1) a rs) as [a1 rs1]. cbn [fst snd] in *.
  pose proof (unwrap_step_half (to_u32 (n * j + i)) a1 r Hh Hr) as [H1 H2].
  pose proof (wrap_unwrap_step (to_u32 (n * j + i)) a1 r Hh Hr) as Eu.
  destruct (unwrap_step dec (to_u32 (n * j + i)) a1 r) as [a2 r2]. cbn [fst snd] in *.
  split; [split_and!; [done|by constructor|simpl; by rewrite Hl]|]. cbn [wrap_pass]. by rewrite Eu, E.
Qed.

(** The rounds of one function and those of the other, in the opposite order. *)
Lemma rounds_undone n js a rs : half a → Forall half rs →
  let s := foldl (λ '(a, rs) j, wrap_pass enc n j 1 a rs) (a, rs) js in
  halves s (length rs) ∧ foldl (λ '(a, rs) j, unwrap_pass dec n j 1 a rs) s (reverse js) = (a, rs).
Proof.
  revert a rs. induction js as [|j js IH]; intros a rs Ha Hrs; cbv zeta; cbn [foldl]; [done|].
  destruct (wrap_pass_spec n j 1 a rs Ha Hrs) as [(Hh & Hhs & Hl) E]. destruct (wrap_pass enc n j 1 a rs) as [a1 rs1].
  cbn [fst snd] in *. destruct (IH a1 rs1 Hh Hhs) as [Hn E']. rewrite Hl in Hn. split; [done|].
  rewrite reverse_cons, foldl_app, E'. done.
Qed.
Lemma rounds_redone n js a rs : half a → Forall half rs →
  let s := foldl (λ '(a, rs) j, unwrap_pass dec n j 1 a rs) (a, rs) js in
  halves s (length rs) ∧ foldl (λ '(a, rs) j, wrap_pass enc n j 1 a rs) s (reverse js) = (a, rs).
Proof.
  revert a rs. induction js as [|j js IH]; intros a rs Ha Hrs; cbv zeta; cbn [foldl]; [done|].
  destruct (unwrap_pass_spec n j 1 a rs Ha Hrs) as [(Hh & Hhs & Hl) E]. destruct (unwrap_pass dec n j 1 a rs) as [a1 rs1].
  cbn [fst snd] in *. destruct (IH a1 rs1 Hh Hhs) as [Hn E']. rewrite Hl in Hn. split; [done|].
  rewrite reverse_cons, foldl_app, E'. done.
Qed.

Lemma blocks8_halves n l : (8 * n ≤ length l)%nat → bytes l → Forall half (blocks8 n l) ∧ length (blocks8 n l) = n.
Proof.
  revert l. induction n as [|n IH]; intros l Hl Hb; [done|]. cbn [blocks8].
  destruct (IH (drop 8 l)) as [H1 H2]; [rewrite length_drop; lia|by apply Forall_drop|].
  split; [|simpl; by rewrite H2]. constructor; [|done]. split; [rewrite length_take; lia|by apply Forall_take].
Qed.
Lemma concat_blocks8 n l : length l = (8 * n)%nat → concat (blocks8 n l) = l.
Proof.
  revert l. induction n as [|n IH]; intros l Hl; [by destruct l|]. cbn [blocks8 concat]. rewrite IH by (rewrite length_drop; lia).
  apply take_drop.
Qed.
Lemma blocks8_concat rs : Forall half rs → blocks8 (length rs) (concat rs) = rs.
Proof.
  induction 1 as [|r rs [Hr _] Hrs IH]; [done|]. cbn [length blocks8 concat]. by rewrite take_app_length', drop_app_length', IH by done.
Qed.
Lemma concat_halves rs : Forall half rs → length (concat rs) = (8 * length rs)%nat ∧ bytes (concat rs).
Proof.
  induction 1 as [|r rs [Hr Hb] Hrs [IH1 IH2]]; [split; [done|constructor]|]. cbn [concat length]. rewrite length_app, Hr, IH1.
  split; [lia|by apply Forall_app].
Qed.

Lemma initial_value : half (replicate 8 166).
Proof. split; [done|]. repeat constructor; lia. Qed.
Lemma value_checked a : length a = 8%nat → forallb (λ x, x =? 166) a = true → a = replicate 8 166.
Proof.
  intros Hl Ha. rewrite <- Hl. clear Hl. induction a as [|x a IH]; [done|]. cbn in *. split_andb. to_prop. subst. f_equal. auto.
Qed.

(** C18: unwrapping accepts exactly the keys that were wrapped: what [aes_wrap]
    makes of a key of fewer than 2^28 blocks, the range in which the length
    [8 * n] is an [int], [aes_unwrap] turns back into the key; and a cipher text
    that [aes_unwrap] accepts is the one that [aes_wrap] makes of the result. *)
Theorem key_wrap_exact n : Z.of_nat n < 2 ^ 28 →
  (∀ plain, length plain = (8 * n)%nat → bytes plain → ∃ cipher,
     aes_wrap kek n plain = Ok (Some cipher) ∧ length cipher = (8 * n + 8)%nat ∧ aes_unwrap kek n cipher = Ok (Some plain)) ∧
  (∀ cipher plain, length cipher = (8 * n + 8)%nat → bytes cipher →
     aes_unwrap kek n cipher = Ok (Some plain) → aes_wrap kek n plain = Ok (Some cipher)).
Proof.
  intros Hn. assert (i32_ok (8 * Z.of_nat n) = true) as H8 by in_range. assert (i32_ok (6 * Z.of_nat n) = true) as Hi by in_range. split.
  - intros plain Hl Hb. destruct (blocks8_halves n plain) as [Hh Hlen]; [lia|done|].
    destruct (rounds_undone (Z.of_nat n) [0; 1; 2; 3; 4; 5] _ _ initial_value Hh) as [(Ha & Hrs & Hr) E].
    unfold aes_wrap, aes_unwrap. rewrite (enc_init _ _ _ Hc), (dec_init _ _ _ Hc), H8, Hi. unfold wrap_rounds, unwrap_rounds in *.
    destruct (foldl _ _ [0; 1; 2; 3; 4; 5]) as [a rs]. cbn [fst snd] in *. destruct (concat_halves rs Hrs) as [Hcl Hcb].
    exists (a ++ concat rs). rewrite !bool_decide_true by (rewrite ?length_app, ?Hcl; destruct Ha; lia). cbn [ensure mbind res_bind].
    split; [done|]. split; [rewrite length_app, Hcl; destruct Ha; lia|].
    destruct (halves_split a (concat rs) Ha) as [-> ->]. assert (blocks8 n (concat rs) = rs) as -> by (replace n with (length rs) by lia; by apply blocks8_concat).
    change [5; 4; 3; 2; 1; 0] with (reverse [0; 1; 2; 3; 4; 5]). rewrite E. cbn [forallb replicate]. by rewrite concat_blocks8.
  - intros cipher plain Hl Hb. destruct (blocks8_halves n (drop 8 cipher)) as [Hh Hlen]; [rewrite length_drop; lia|by apply Forall_drop|].
    assert (half (take 8 cipher)) as Ha by (split; [rewrite length_take; lia|by apply Forall_take]).
    destruct (rounds_redone (Z.of_nat n) [5; 4; 3; 2; 1; 0] _ _ Ha Hh) as [(Ha' & Hrs & Hr) E].
    unfold aes_wrap, aes_unwrap. rewrite (enc_init _ _ _ Hc), (dec_init _ _ _ Hc), H8, Hi. unfold wrap_rounds, unwrap_rounds in *.
    rewrite bool_decide_true by lia. cbn [ensure mbind res_bind].
    destruct (foldl _ _ [5; 4; 3; 2; 1; 0]) as [a rs]. cbn [fst snd] in *. destruct (concat_halves rs Hrs) as [Hcl Hcb].
    destruct (forallb _ a) eqn:Ef; [|done]. intros [= <-]. apply value_checked in Ef as ->; [|by destruct Ha'].
    rewrite bool_decide_true by lia. assert (blocks8 n (concat rs) = rs) as -> by (replace n with (length rs) by lia; by apply blocks8_concat).
    change (reverse [5; 4; 3; 2; 1; 0]) with [0; 1; 2; 3; 4; 5] in E. rewrite E.
    rewrite concat_blocks8 by (rewrite length_drop; lia). by rewrite take_drop.
Qed.
End key_wrap.

(** ** The other modes *)

Section modes.
Context `{Aes} {key : list Z} {enc dec : aes_ctx} (Hc : ciphers key enc dec).

Lemma cbc_undone n cbc data : block cbc → bytes data → (16 * n ≤ length data)%nat →
  cbc_decrypt dec n cbc (cbc_encrypt enc n cbc data) = data ∧ length (cbc_encrypt enc n cbc data) = length data.
Proof.
  revert cbc data. induction n as [|n IH]; intros cbc data Hb Hd Hl; [done|]. cbn [cbc_encrypt cbc_decrypt].
  unfold AES_BLOCK_SIZE in *. set (d := take 16 data).
  assert (block d) as Hbd by (split; [unfold d, AES_BLOCK_SIZE; rewrite length_take; lia|by apply Forall_take]).
  destruct Hb as [Hcl Hcb]. destruct Hbd as [Hdl Hdb]. unfold AES_BLOCK_SIZE in *.
  assert (block (xor_block cbc d)) as Hx.
  { split; [unfold xor_block, AES_BLOCK_SIZE; rewrite xor_length; lia|by apply xor_bytes]. }
  pose proof (enc_block _ _ _ Hc _ Hx) as He. destruct He as [Hel Heb]. unfold AES_BLOCK_SIZE in *.
  destruct (IH (aes_encrypt enc (xor_block cbc d)) (drop 16 data)) as [E1 E2]; [done|by apply Forall_drop|rewrite length_drop; lia|].
  rewrite take_app_length', drop_app_length' by done. rewrite (dec_enc _ _ _ Hc) by done. rewrite E1. split.
  - unfold xor_block. rewrite (xor_comm cbc), xor_twice by lia. apply take_drop.
  - rewrite length_app, E2, length_drop, Hel. lia.
Qed.

Lemma count_up_block l : length (count_up l) = length l ∧ (bytes l → bytes (count_up l)).
Proof.
  assert (∀ c, 0 ≤ to_u 8 c < 256) as Hr by (intros; unfold to_u; apply Z.mod_pos_bound; lia).
  induction l as [|c l [IH1 IH2]]; [done|]. cbn [count_up]. cbv zeta. case_match; (split; [simpl; by rewrite ?IH1|]);
    intros [Hc' Hl]%Forall_cons; (constructor; [apply Hr|]); [by apply IH2|done].
Qed.
Lemma next_counter_block l : block l → block (next_counter l).
Proof.
  intros [Hl Hb]. unfold next_counter. destruct (count_up_block (reverse l)) as [H1 H2].
  split; [by rewrite length_reverse, H1, length_reverse|]. apply Forall_reverse, H2. by apply Forall_reverse.
Qed.

Lemma ctr_twice fuel ctr data : block ctr → (length data ≤ fuel)%nat →
  ctr_loop fuel enc ctr (ctr_loop fuel enc ctr data) = data ∧ length (ctr_loop fuel enc ctr data) = length data.
Proof.
  revert ctr data. induction fuel as [|fuel IH]; intros ctr data Hb Hl; [done|]. destruct data as [|d0 data']; [done|].
  set (data := d0 :: data') in *. unfold AES_BLOCK_SIZE in *.
  destruct (enc_block _ _ _ Hc ctr Hb) as [Hkl _]. unfold AES_BLOCK_SIZE in Hkl. set (ks := aes_encrypt enc ctr) in *.
  assert (ctr_loop (S fuel) enc ctr data = xor_block (take 16 data) ks ++ ctr_loop fuel enc (next_counter ctr) (drop 16 data)) as E by done.
  destruct (IH (next_counter ctr) (drop 16 data)) as [E1 E2]; [by apply next_counter_block|rewrite length_drop; unfold data in *; simpl in *; lia|].
  set (rest := ctr_loop fuel enc (next_counter ctr) (drop 16 data)) in *.
  assert (length (xor_block (take 16 data) ks) = length (take 16 data)) as Hx by (unfold xor_block; rewrite xor_length; [done|rewrite length_take; lia]).
  assert (take 16 (xor_block (take 16 data) ks ++ rest) = xor_block (take 16 data) ks ∧ drop 16 (xor_block (take 16 data) ks ++ rest) = rest) as [Et Ed].
  { rewrite length_take in Hx. destruct (Nat.le_gt_cases 16 (length data)) as [Hge|Hlt].
    - by rewrite take_app_length', drop_app_length' by lia.
    - assert (rest = []) as -> by (apply nil_length_inv; rewrite E2, length_drop; lia). rewrite app_nil_r.
      rewrite take_ge, drop_ge by lia. done. }
  rewrite E. split; [|rewrite length_app, Hx, E2, length_take, length_drop; lia].
  cbn [ctr_loop]. destruct (xor_block (take 16 data) ks ++ rest) as [|y l] eqn:Ey.
  { apply (f_equal length) in Ey. rewrite length_app, Hx, length_take in Ey. unfold data in Ey. simpl in Ey. lia. }
  unfold AES_BLOCK_SIZE. fold ks. rewrite Et, Ed, E1. unfold xor_block. rewrite xor_twice by (rewrite length_take; lia). apply take_drop.
Qed.
End modes.

(** ** The stream cipher *)

Definition rc4_ok (s : rc4_state) : Prop := length (rc4_S s) = 256%nat.

Lemma land_255 z : 0 ≤ Z.land z 255 < 256.
Proof. change 255 with (Z.ones 8). rewrite Z.land_ones by lia. apply Z.mod_pos_bound. lia. Qed.

Lemma index_in {A} (l : list A) i : (i < length l)%nat → ∃ x, index l i = Ok x.
Proof. intros Hi. unfold index. destruct (lookup_lt_is_Some_2 l i Hi) as [x ->]. eauto. Qed.

Lemma S_SWAP_Ok S a b : length S = 256%nat → 0 ≤ a < 256 → 0 ≤ b < 256 → ∃ S', S_SWAP S a b = Ok S' ∧ length S' = 256%nat.
Proof.
  intros HS Ha Hb. unfold S_SWAP. destruct (index_in S (Z.to_nat a)) as [x ->]; [lia|]. cbn [mbind res_bind].
  destruct (index_in S (Z.to_nat b)) as [y ->]; [lia|]. cbn [mbind res_bind]. eexists. split; [done|]. by rewrite !length_insert.
Qed.

Lemma rc4_next_Ok s : rc4_ok s → ∃ s', rc4_next s = Ok s' ∧ rc4_ok s' ∧ 0 ≤ rc4_i s' < 256 ∧ 0 ≤ rc4_j s' < 256.
Proof.
  intros Hs. pose proof (land_255 (rc4_i s + 1)) as Hi. unfold rc4_next. cbv zeta.
  destruct (index_in (rc4_S s) (Z.to_nat (Z.land (rc4_i s + 1) 255))) as [x ->]; [rewrite Hs; lia|]. cbn [mbind res_bind].
  pose proof (land_255 (rc4_j s + x)) as Hj. destruct (S_SWAP_Ok (rc4_S s) _ _ Hs Hi Hj) as (S' & -> & HS'). cbn [mbind res_bind]. eauto.
Qed.

Lemma rc4_steps_Ok n s : rc4_ok s → ∃ s', rc4_steps n s = Ok s' ∧ rc4_ok s'.
Proof.
  revert s. induction n as [|n IH]; intros s Hs; [cbn; eauto|]. cbn [rc4_steps].
  destruct (rc4_next_Ok s Hs) as (s' & -> & Hs' & _). cbn [mbind res_bind]. auto.
Qed.

Lemma rc4_setup_Ok n key S i j kpos : length S = 256%nat → 0 ≤ i → i + Z.of_nat n ≤ 256 → (kpos < length key)%nat →
  ∃ S', rc4_setup n key S i j kpos = Ok S' ∧ length S' = 256%nat.
Proof.
  revert S i j kpos. induction n as [|n IH]; intros S i j kpos HS Hi Hn Hk; cbn [rc4_setup]; [eauto|]. cbv zeta.
  destruct (index_in S (Z.to_nat i)) as [x ->]; [lia|]. cbn [mbind res_bind].
  destruct (index_in key kpos) as [k ->]; [done|]. cbn [mbind res_bind].
  destruct (S_SWAP_Ok S i (Z.land (j + x + k) 255) HS) as (S' & -> & HS'); [lia|apply land_255|]. cbn [mbind res_bind].
  apply IH; [done|lia|lia|]. case_bool_decide; lia.
Qed.

(** The stream does not depend on the data. *)
Lemma rc4_apply_twice data s : rc4_ok s → ∃ out, rc4_apply data s = Ok out ∧ rc4_apply out s = Ok data ∧ length out = length data.
Proof.
  revert s. induction data as [|d data IH]; intros s Hs; [by exists []|]. cbn [rc4_apply].
  destruct (rc4_next_Ok s Hs) as (s' & E & Hs' & Hi & Hj). rewrite E. cbn [mbind res_bind].
  destruct (index_in (rc4_S s') (Z.to_nat (rc4_i s'))) as [x Ex]; [rewrite Hs'; lia|].
  destruct (index_in (rc4_S s') (Z.to_nat (rc4_j s'))) as [y Ey]; [rewrite Hs'; lia|].
  destruct (index_in (rc4_S s') (Z.to_nat (Z.land (x + y) 255))) as [k Ek]; [pose proof (land_255 (x + y)); rewrite Hs'; lia|].
  rewrite Ex, Ey. cbn [mbind res_bind]. rewrite Ek. cbn [mbind res_bind]. destruct (IH s' Hs') as (out & E1 & E2 & El). rewrite E1. cbn [mbind res_bind].
  exists (Z.lxor d k :: out). split; [done|]. split; [|by simpl; rewrite El]. cbn [rc4_apply]. rewrite E. cbn [mbind res_bind]. rewrite Ex, Ey. cbn [mbind res_bind].
  rewrite Ek. cbn [mbind res_bind]. rewrite E2. cbn [mbind res_bind]. by rewrite Z.lxor_assoc, Z.lxor_nilpotent, Z.lxor_0_r.
Qed.

Lemma cbc_blocks_div data : Z.of_nat (length data) < 2 ^ 32 → cbc_blocks data = (length data / 16)%nat.
Proof.
  intros Hl. unfold cbc_blocks, AES_BLOCK_SIZE. change (Z.of_nat 16) with 16.
  pose proof (Z.div_le_upper_bound (Z.of_nat (length data)) 16 (2 ^ 28)). pose proof (Z.div_pos (Z.of_nat (length data)) 16).
  rewrite to_s_id by in_range. by rewrite Z2Nat.inj_div, Nat2Z.id by lia.
Qed.

(** What is encrypted in CBC or CTR mode or with RC4 is decrypted again, for less
    than 2^32 bytes: CBC by its own inverse, for data of any number of blocks and
    whatever follows them, CTR and RC4 by doing the same once more; RC4 stays
    inside its arrays. *)
Theorem modes_roundtrip `{Aes} key enc dec iv data rc4_key skip : ciphers key enc dec → block iv → bytes data → rc4_key ≠ [] →
  Z.of_nat (length data) < 2 ^ 32 → Z.of_nat skip < 2 ^ 32 →
  (∃ out, aes_128_cbc_encrypt key iv data = Some out ∧ aes_128_cbc_decrypt key iv out = Some data) ∧
  (∃ out, aes_128_ctr_encrypt key iv data = Some out ∧ aes_128_ctr_encrypt key iv out = Some data) ∧
  (∃ out, rc4_skip rc4_key skip data = Ok out ∧ rc4_skip rc4_key skip out = Ok data).
Proof.
  intros Hc Hiv Hd Hk Hl Hs. assert (take AES_BLOCK_SIZE iv = iv) as Ei by (apply take_ge; destruct Hiv; lia). split_and!.
  - destruct (cbc_undone Hc (length data / 16) iv data Hiv Hd) as [E El]; [apply Nat.Div0.mul_div_le|].
    unfold aes_128_cbc_encrypt, aes_128_cbc_decrypt. rewrite (enc_init _ _ _ Hc), (dec_init _ _ _ Hc), Ei. cbn [mbind option_bind].
    eexists. split; [done|]. rewrite !cbc_blocks_div by (rewrite ?cbc_blocks_div by done; rewrite ?El; done). by rewrite El, E.
  - destruct (ctr_twice Hc (length data) iv data Hiv) as [E El]; [done|].
    unfold aes_128_ctr_encrypt. rewrite (enc_init _ _ _ Hc), Ei. cbn [mbind option_bind]. eexists. split; [done|]. by rewrite El, E.
  - unfold rc4_skip. destruct (rc4_setup_Ok 256 rc4_key (seqZ 0 256) 0 0 0) as (S & ES & HS);
      [by rewrite length_seqZ|lia|lia|destruct rc4_key; [done|simpl; lia]|].
    rewrite ES. cbn [mbind res_bind]. rewrite (proj2 (Z.ltb_lt _ _) Hs). cbn [ensure mbind res_bind].
    destruct (rc4_steps_Ok skip (Rc4 S 0 0) HS) as (s & E & Hs'). rewrite E. cbn [mbind res_bind].
    destruct (rc4_apply_twice data s Hs') as (out & E1 & E2 & El).
    exists out. rewrite El, (proj2 (Z.ltb_lt _ _) Hl). done.
Qed.

(** ** A sample cipher *)

(** Turning the block by one byte. *)
#[local] Instance turning : Aes := {
  aes_ctx := unit;
  aes_encrypt_init _ := Some tt;
  aes_decrypt_init _ := Some tt;
  aes_encrypt _ b := drop 1 b ++ take 1 b;
  aes_decrypt _ b := drop 15 b ++ take 15 b
}.

Lemma turning_ciphers key : ciphers key tt tt.
Proof.
  assert (∀ n b, block b → block (drop n b ++ take n b)) as Hb.
  { intros n b [Hl Hb]. split; [rewrite length_app, length_drop, length_take; lia|]. apply Forall_app. split; [by apply Forall_drop|by apply Forall_take]. }
  split; [done|done|by intros; apply Hb|by intros; apply Hb| |]; intros b [Hl _]; unfold AES_BLOCK_SIZE in Hl;
    do 16 (destruct b as [|? b]; [done|]); by destruct b.
Qed.

Lemma key_wrap_exact_witness : Z.of_nat 2 < 2 ^ 28 ∧ ∃ cipher,
  aes_wrap [1] 2 (seqZ 1 16) = Ok (Some cipher) ∧ length cipher = 24%nat ∧ aes_unwrap [1] 2 cipher = Ok (Some (seqZ 1 16)).
Proof.
  split; [reflexivity|]. destruct (key_wrap_exact (turning_ciphers [1]) 2) as [Hw _]; [reflexivity|].
  apply Hw; [reflexivity|]. repeat constructor; intros; discriminate.
Defined.

Lemma modes_roundtrip_witness : ∃ out,
  aes_128_cbc_encrypt [1] (replicate 16 7) (seqZ 0 40) = Some out ∧ aes_128_cbc_decrypt [1] (replicate 16 7) out = Some (seqZ 0 40).
Proof.
  apply (@modes_roundtrip turning [1] tt tt (replicate 16 7) (seqZ 0 40) [9] 3 (turning_ciphers [1])).
  - split; [reflexivity|]. repeat constructor; intros; discriminate.
  - repeat constructor; intros; discriminate.
  - discriminate.
  - reflexivity.
  - reflexivity.
Defined.
