(* ===== verification/TextCodec.v ===== *)
(** Texts for bytes: the conversions of [utils/common.c] of hostapd -- hardware
    addresses, hexadecimal strings, escaped strings, the strings of
    configuration files -- and its arrays of numbers that end with 0. *)
From stdpp Require Import prelude list list_numbers strings sorting.
From S2P Require Import Prelude CMem Strlib IniFile ConfigFile Utils GlobalVar Scanf IwDump Base64.

(** ** Reading hexadecimal digits *)

(** A string is the list of its characters; at its end there is a NUL, which is
    no digit, so that nothing behind it is read. *)
Definition char_at (s : list Z) (i : nat) : Z := nth i s 0.

Definition hex2num (c : Z) : Z :=
  if (48 <=? c) && (c <=? 57) then c - 48
  else if (97 <=? c) && (c <=? 102) then c - 97 + 10
  else if (65 <=? c) && (c <=? 70) then c - 65 + 10
  else -1.

Definition hex2byte (hex : list Z) : Z :=
  let a := hex2num (char_at hex 0) in
  if a <? 0 then -1
  else
    let b := hex2num (char_at hex 1) in
    if b <? 0 then -1 else Z.lor (Z.shiftl a 4) b.

(** The bytes from the [i]-th on, and the text behind them. *)
Fixpoint hwaddr_from (n : nat) (txt : list Z) : option (list Z * list Z) :=
  match n with
  | O => Some ([], txt)
  | S n =>
      let a := hex2byte txt in
      if a <? 0 then None
      else
        let txt := drop 2 txt in
        match n with
        | O => Some ([a], txt)
        | _ => if char_at txt 0 =? 58 then '(l, r) ← hwaddr_from n (drop 1 txt); Some (a :: l, r) else None
        end
  end.
Definition hwaddr_parse (txt : list Z) : option (list Z * list Z) := hwaddr_from ETH_ALEN txt.
Definition hwaddr_aton (txt : list Z) : option (list Z) := fst <$> hwaddr_parse txt.

(** The address and the mask. *)
Definition hwaddr_masked_aton (txt : list Z) (maskable : bool) : option (list Z * list Z) :=
  '(addr, r) ← hwaddr_parse txt;
  if (char_at r 0 =? 0) || isspace (char_at r 0) then Some (addr, replicate ETH_ALEN 255)
  else if maskable && (char_at r 0 =? 47) then '(mask, _) ← hwaddr_parse (drop 1 r); Some (addr, mask)
  else None.

(** [n] bytes of two digits each. *)
Fixpoint hexstr2bin (n : nat) (hex : list Z) : option (list Z) :=
  match n with
  | O => Some []
  | S n => let a := hex2byte hex in if a <? 0 then None else l ← hexstr2bin n (drop 2 hex); Some (a :: l)
  end.
Definition hwaddr_compact_aton (txt : list Z) : option (list Z) := hexstr2bin ETH_ALEN txt.

(** The bytes and the number of characters used. *)
Fixpoint aton2_from (n : nat) (pos : list Z) : option (list Z * list Z) :=
  match n with
  | O => Some ([], pos)
  | S n =>
      let pos := drop_while (λ c, (c =? 58) || (c =? 46) || (c =? 45)) pos in
      let a := hex2byte pos in
      if a <? 0 then None else '(l, r) ← aton2_from n (drop 2 pos); Some (a :: l, r)
  end.
Definition hwaddr_aton2 (txt : list Z) : option (list Z * Z) :=
  '(l, r) ← aton2_from ETH_ALEN txt; Some (l, Z.of_nat (length txt) - Z.of_nat (length r)).

(** [snprintf] of a text in [len] bytes; its result is the length. *)
Definition hwaddr_mask_txt (len : Z) (addr mask : list Z) : option (list Z) :=
  let txt := if forallb (λ m, m =? 255) mask then colon_hex addr else colon_hex addr ++ [47] ++ colon_hex mask in
  if len <=? Z.of_nat (length txt) then None else Some txt.

(** From the last byte on; [to_u 8] is the wrap-around of [u8]. *)
Fixpoint inc_from_last (rev_counter : list Z) : list Z :=
  match rev_counter with
  | [] => []
  | c :: l => let c := to_u 8 (c + 1) in if c =? 0 then c :: inc_from_last l else c :: l
  end.
Definition inc_byte_array (counter : list Z) : list Z := reverse (inc_from_last (reverse counter)).

(** ** Printing hexadecimal digits *)

Definition upper (c : Z) : Z := if (97 <=? c) && (c <=? 102) then c - 32 else c.
Definition hex_pair (uppercase : bool) (b : Z) : list Z := if uppercase then upper <$> hex2 b else hex2 b.

(** [os_snprintf] of two characters and a NUL into [room] bytes: it is given the
    difference [end - pos] as a [size_t] and writes at most that many; the bytes
    it writes must be inside the buffer. [os_snprintf_error] of its result. *)
Definition snprintf_pair (room : Z) : res bool :=
  ensure (Z.min (to_u 64 room) 3 <=? room) HeapOverflow;;
  Ok (to_u 64 room <=? 2).

(** Pairs as long as they fit, with their NUL, into [room] bytes: the characters
    the result counts. *)
Fixpoint hex_pairs (uppercase : bool) (room : Z) (data : list Z) : res (list Z) :=
  match data with
  | [] => Ok []
  | b :: data =>
      error ← snprintf_pair room;
      if error : bool then Ok []
      else l ← hex_pairs uppercase (room - 2) data; Ok (hex_pair uppercase b ++ l)
  end.
Definition wpa_snprintf_hex_ (buf_size : Z) (data : list Z) (uppercase : bool) : res (list Z) :=
  if buf_size =? 0 then Ok [] else hex_pairs uppercase buf_size data.
Definition wpa_snprintf_hex (buf_size : Z) (data : list Z) : res (list Z) := wpa_snprintf_hex_ buf_size data false.
Definition wpa_snprintf_hex_uppercase (buf_size : Z) (data : list Z) : res (list Z) := wpa_snprintf_hex_ buf_size data true.

(** ** Escaped strings *)

Definition escape_char (b : Z) : list Z :=
  if b =? 34 then [92; 34]
  else if b =? 92 then [92; 92]
  else if b =? 27 then [92; 101]
  else if b =? 10 then [92; 110]
  else if b =? 13 then [92; 114]
  else if b =? 9 then [92; 116]
  else if (32 <=? b) && (b <=? 126) then [b]
  else [92; 120] ++ hex2 b.

(** With [room] bytes left; the NUL behind the text needs one of them. *)
Fixpoint encode_chars (room : Z) (data : list Z) : list Z * Z :=
  match data with
  | [] => ([], room)
  | b :: data =>
      if room <=? 4 then ([], room)
      else
        let e := escape_char b in
        let '(t, r) := encode_chars (room - Z.of_nat (length e)) data in
        (e ++ t, r)
  end.
Definition printf_encode (maxlen : Z) (data : list Z) : res (list Z) :=
  let '(t, room) := encode_chars maxlen data in
  ensure (0 <? room) HeapOverflow;;
  Ok t.

Definition octal (c : Z) : bool := (48 <=? c) && (c <=? 55).

(** One turn of the loop: the byte that is stored, if any, and the text that is
    left. *)
Definition unescape_char (pos : list Z) : option Z * list Z :=
  if char_at pos 0 =? 92 then
    let pos := drop 1 pos in
    let c := char_at pos 0 in
    if c =? 92 then (Some 92, drop 1 pos)
    else if c =? 34 then (Some 34, drop 1 pos)
    else if c =? 110 then (Some 10, drop 1 pos)
    else if c =? 114 then (Some 13, drop 1 pos)
    else if c =? 116 then (Some 9, drop 1 pos)
    else if c =? 101 then (Some 27, drop 1 pos)
    else if c =? 120 then
      let pos := drop 1 pos in
      let val := hex2byte pos in
      if val <? 0 then
        let val := hex2num (char_at pos 0) in
        if val <? 0 then (None, pos) else (Some val, drop 1 pos)
      else (Some val, drop 2 pos)
    else if octal c then
      let val := c - 48 in
      let pos := drop 1 pos in
      let '(val, pos) := if octal (char_at pos 0) then (val * 8 + (char_at pos 0 - 48), drop 1 pos) else (val, pos) in
      let '(val, pos) := if octal (char_at pos 0) then (val * 8 + (char_at pos 0 - 48), drop 1 pos) else (val, pos) in
      (Some (to_u 8 val), pos)
    else (None, pos)
  else (Some (to_u 8 (char_at pos 0)), drop 1 pos).

(** Every turn takes a character of the text, whose length bounds the turns; the
    [len]-th byte is stored in a buffer of [maxlen] bytes, and so is the NUL, when
    there is room for it. *)
Fixpoint decode_text (fuel : nat) (maxlen len : Z) (pos : list Z) : res (list Z) :=
  match pos with
  | [] => Ok []
  | _ =>
      match fuel with
      | O => Err Diverges
      | S fuel =>
          if maxlen <=? len + 1 then Ok []
          else
            match unescape_char pos with
            | (Some b, pos) =>
                ensure (len <? maxlen) HeapOverflow;;
                l ← decode_text fuel maxlen (len + 1) pos;
                Ok (b :: l)
            | (None, pos) => decode_text fuel maxlen len pos
            end
      end
  end.
Definition printf_decode (maxlen : Z) (str : list Z) : res (list Z) := decode_text (length str) maxlen 0 str.

Definition wpa_ssid_txt (ssid : option (list Z)) : res (list Z) :=
  match ssid with None => Ok [] | Some s => printf_encode (SSID_MAX_LEN * 4 + 1) s end.

(** ** Strings of configuration files *)

(** What stands before a quotation mark at the end of the text. *)
Definition quoted (value : list Z) : option (list Z) :=
  match last value with Some c => if c =? 34 then Some (take (length value - 1) value) else None | None => None end.

Definition wpa_config_parse_string (value : list Z) : res (option (list Z)) :=
  if char_at value 0 =? 34 then Ok (quoted (drop 1 value))
  else if (char_at value 0 =? 80) && (char_at value 1 =? 34) then
    match quoted (drop 2 value) with
    | None => Ok None
    | Some tstr => str ← printf_decode (Z.of_nat (length tstr) + 1) tstr; Ok (Some str)
    end
  else if Nat.odd (length value) then Ok None
  else Ok (hexstr2bin (length value / 2) value).

(** The SSID, when it has between 1 and 32 bytes. *)
Fixpoint before (c : Z) (s : list Z) : option (list Z) :=
  match s with [] => None | x :: s => if x =? c then Some [] else l ← before c s; Some (x :: l) end.
Definition ssid_word (buf : list Z) : option (list Z) :=
  if char_at buf 0 =? 34 then l ← before 34 (drop 1 buf); Some ([34] ++ l ++ [34])
  else Some (default buf (before 32 buf)).
Definition ssid_parse (buf : list Z) : res (option (list Z)) :=
  match ssid_word buf with
  | None => Ok None
  | Some tmp =>
      r ← wpa_config_parse_string tmp;
      Ok (ssid ← r; if (Z.of_nat (length ssid) <=? SSID_MAX_LEN) && negb (bool_decide (ssid = [])) then Some ssid else None)
  end.

Definition is_hex (data : list Z) : bool := existsb (λ b, (b <? 32) || (127 <=? b)) data.
Definition has_ctrl_char (data : list Z) : bool := existsb (λ b, (b <? 32) || (b =? 127)) data.
Definition has_newline (str : list Z) : bool := existsb (λ b, (b =? 10) || (b =? 13)) str.
Definition str_starts (str start : list Z) : bool := bool_decide (take (length start) str = start).

(** ** Single quotation marks *)

(** [None] when the text does not fit, for which the functions return 0. *)
Fixpoint utf8_escape_from (inp : list Z) (res_size out_size : Z) : option (list Z) :=
  match inp with
  | [] => Some []
  | c :: inp =>
      if out_size <=? res_size then None
      else if (c =? 92) || (c =? 39) then
        if out_size <=? res_size + 1 then None
        else l ← utf8_escape_from inp (res_size + 2) out_size; Some (92 :: c :: l)
      else l ← utf8_escape_from inp (res_size + 1) out_size; Some (c :: l)
  end.
Definition utf8_escape (inp : list Z) (out_size : Z) : option (list Z) := utf8_escape_from inp 0 out_size.

Fixpoint utf8_unescape_from (inp : list Z) (res_size out_size : Z) : option (list Z) :=
  match inp with
  | [] => Some []
  | c :: inp' =>
      if out_size <=? res_size then None
      else if c =? 39 then Some []
      else if c =? 92 then
        match inp' with
        | [] => None
        | d :: inp' => l ← utf8_unescape_from inp' (res_size + 1) out_size; Some (d :: l)
        end
      else l ← utf8_unescape_from inp' (res_size + 1) out_size; Some (c :: l)
  end.
Definition utf8_unescape (inp : list Z) (out_size : Z) : option (list Z) :=
  utf8_unescape_from (if char_at inp 0 =? 39 then drop 1 inp else inp) 0 out_size.

(** ** Lists of frequencies *)

(** [struct wpa_freq_range]: two [unsigned int]. *)
Definition freq_range : Type := Z * Z.

(** The text behind the first [c], if there is one. *)
Fixpoint behind (c : Z) (s : list Z) : option (list Z) :=
  match s with [] => None | x :: s => if x =? c then Some s else behind c s end.

(** The comparison of the two pointers: the [-] stands before the comma. *)
Definition hyphen_first (pos : list Z) : option (list Z) :=
  match behind 45 pos, behind 44 pos with
  | Some p2, Some p3 => if bool_decide (length p3 < length p2)%nat then Some p2 else None
  | Some p2, None => Some p2
  | None, _ => None
  end.
Fixpoint freq_ranges (fuel : nat) (pos : list Z) : res (list freq_range) :=
  match fuel with
  | O => Ok []
  | S fuel =>
      match pos with
      | [] => Ok []
      | _ =>
          min ← atoi pos;
          max ← (match hyphen_first pos with Some p => atoi p | None => Ok min end);
          l ← (match behind 44 pos with Some p => freq_ranges fuel p | None => Ok [] end);
          Ok ((to_u32 min, to_u32 max) :: l)
      end
  end.
Definition freq_range_list_parse (value : list Z) : res (list freq_range) := freq_ranges (S (length value)) value.
Definition freq_range_list_includes (l : list freq_range) (freq : Z) : bool :=
  existsb (λ '(min, max), (min <=? freq) && (freq <=? max)) l.

Definition range_text (r : freq_range) : list Z :=
  if r.1 =? r.2 then number r.1 else number r.1 ++ [45] ++ number r.2.
Fixpoint ranges_text (first : bool) (room : Z) (l : list freq_range) : option (list Z) :=
  match l with
  | [] => Some []
  | r :: l =>
      let t := (if first then [] else [44]) ++ range_text r in
      if room <=? Z.of_nat (length t) then None
      else s ← ranges_text false (room - Z.of_nat (length t)) l; Some (t ++ s)
  end.
Definition freq_range_list_str (l : list freq_range) : option (list Z) :=
  match l with [] => None | _ => ranges_text true (to_u32 (Z.of_nat (length l) * 30)) l end.

(** ** Arrays of numbers *)

(** The entries before the 0. *)
Fixpoint zero_at (a : list Z) : res nat :=
  match a with
  | [] => Err ReadOutOfBounds
  | x :: a => if x =? 0 then Ok O else n ← zero_at a; Ok (S n)
  end.
Definition int_array_len (a : option (list Z)) : res nat := match a with Some a => zero_at a | None => Ok O end.

(** [None] is NULL; [a] is read up to its 0. *)
Definition int_array_concat (r a : option (list Z)) : res (list Z) :=
  reslen ← int_array_len r;
  alen ← int_array_len a;
  a ← deref a;
  Ok (take reslen (default [] r) ++ take (S alen) a).

Definition int_array_add_unique (r : option (list Z)) (a : Z) : res (option (list Z)) :=
  reslen ← int_array_len r;
  let l := take reslen (default [] r) in
  if existsb (λ x, x =? a) l then Ok r else Ok (Some (l ++ [a; 0])).

(** [freq_cmp] puts 0 last and compares the others by their difference, an
    [int]. *)
Definition freq_cmp (a b : Z) : res Z :=
  if a =? 0 then Ok 1 else if b =? 0 then Ok (-1) else ensure (s_ok 32 (a - b)) SignedOverflow;; Ok (a - b).

(** [qsort] with [freq_cmp]: a number may stand before another when the
    comparison of the two is not positive. The sort may compare any two numbers,
    so that every comparison must have a result. *)
Definition compares (a b : Z) : bool := match freq_cmp a b with Ok _ => true | Err _ => false end.
Definition freq_before (a b : Z) : Prop := match freq_cmp a b with Ok r => r ≤ 0 | Err _ => False end.
#[global] Instance freq_before_dec : RelDecision freq_before.
Proof. intros a b. unfold freq_before. destruct (freq_cmp a b); apply _. Defined.
Definition qsort_freq (l : list Z) : res (list Z) :=
  ensure (forallb (λ a, forallb (compares a) l) l) SignedOverflow;;
  Ok (merge_sort freq_before l).

(** The loop that moves each new number behind the last one. *)
Fixpoint unique_loop (fuel : nat) (a : list Z) (i j : nat) : res (list Z * nat) :=
  match fuel with
  | O => Err Diverges
  | S fuel =>
      x ← index a i;
      if x =? 0 then Ok (a, i)
      else
        y ← index a j;
        if y =? 0 then Ok (a, i)
        else if x =? y then unique_loop fuel a i (S j)
        else unique_loop fuel (<[S i := y]> a) (S i) (S j)
  end.
Definition int_array_sort_unique (a : list Z) : res (list Z) :=
  alen ← zero_at a;
  sorted ← qsort_freq (take alen a);
  let a := sorted ++ drop alen a in
  '(a, i) ← unique_loop (length a) a 0 1;
  x ← index a i;
  let i := if x =? 0 then i else S i in
  ensure (bool_decide (i < length a)%nat) HeapOverflow;;
  Ok (<[i := 0]> a).

(** ** Hexadecimal digits read back *)

Lemma hex2num_digit d : 0 ≤ d < 16 → hex2num (hexdigit d) = d ∧ hex2num (upper (hexdigit d)) = d.
Proof. intros Hd. unfold hex2num, upper, hexdigit. destruct (Z.ltb_spec d 10); split; repeat case_match; lia. Qed.

Lemma hex2byte_pair u b r : is_byte b = true → hex2byte (hex_pair u b ++ r) = b.
Proof.
  intros Hb. destruct (byte_digits b Hb) as [H1 H2]. destruct (hex2num_digit _ H1) as [E1 E1'], (hex2num_digit _ H2) as [E2 E2'].
  assert (hex2num (char_at (hex_pair u b ++ r) 0) = b / 16 ∧ hex2num (char_at (hex_pair u b ++ r) 1) = b `mod` 16) as [F1 F2]
    by (destruct u; done).
  unfold hex2byte. rewrite F1, F2. cbv zeta. rewrite !(proj2 (Z.ltb_ge _ 0)) by lia.
  rewrite lor_shift by (change (2 ^ 4) with 16; lia). change (2 ^ 4) with 16. pose proof (Z_div_mod_eq_full b 16). lia.
Qed.
Lemma hex2byte_hex2 b r : is_byte b = true → hex2byte (hex2 b ++ r) = b.
Proof. apply (hex2byte_pair false). Qed.

Lemma byte_nonneg b : is_byte b = true → (b <? 0) = false.
Proof. unfold is_byte. intros Hb. split_andb. to_prop. apply Z.ltb_ge. lia. Qed.

Lemma hexstr2bin_pairs u data : forallb is_byte data = true →
  hexstr2bin (length data) (concat (hex_pair u <$> data)) = Some data.
Proof.
  induction data as [|b data IH]; cbn [forallb]; [done|]. intros Hd. split_andb. rewrite fmap_cons. cbn [concat length hexstr2bin].
  rewrite hex2byte_pair, byte_nonneg by done. rewrite drop_app_length' by (by destruct u). by rewrite IH.
Qed.

Lemma snprintf_pair_room room : 0 ≤ room < 2 ^ 64 → snprintf_pair room = Ok (room <=? 2).
Proof.
  intros Hr. unfold snprintf_pair. rewrite to_u_id by (try lia; unfold u_ok; lia). by rewrite (proj2 (Z.leb_le (Z.min room 3) room)) by lia.
Qed.

Lemma hex_pairs_all u data room : 2 * Z.of_nat (length data) < room < 2 ^ 64 →
  hex_pairs u room data = Ok (concat (hex_pair u <$> data)).
Proof.
  revert room. induction data as [|b data IH]; intros room Hr; [done|]. cbn [length] in Hr. rewrite fmap_cons. cbn [hex_pairs concat].
  rewrite snprintf_pair_room by lia. cbn [mbind res_bind]. rewrite (proj2 (Z.leb_gt _ _)) by lia. by rewrite IH by lia.
Qed.

(** Whatever its size, the buffer is not overrun, and a NUL fits behind the text. *)
Lemma hex_pairs_bounds u data room : 0 < room < 2 ^ 64 → ∃ t, hex_pairs u room data = Ok t ∧ Z.of_nat (length t) < room.
Proof.
  revert room. induction data as [|b data IH]; intros room Hr; [exists []; split; [done|simpl; lia]|]. cbn [hex_pairs].
  rewrite snprintf_pair_room by lia. cbn [mbind res_bind]. destruct (Z.leb_spec room 2); [exists []; split; [done|simpl; lia]|].
  destruct (IH (room - 2)) as (t & -> & Ht); [lia|]. eexists. split; [reflexivity|]. rewrite length_app. destruct u; simpl in *; lia.
Qed.

(** ** Hardware addresses *)

Lemma drop_hex2 b r : drop 2 (hex2 b ++ r) = r.
Proof. done. Qed.

Lemma hwaddr_from_S n txt : hwaddr_from (S (S n)) txt =
  if hex2byte txt <? 0 then None
  else if char_at (drop 2 txt) 0 =? 58 then '(l, r) ← hwaddr_from (S n) (drop 1 (drop 2 txt)); Some (hex2byte txt :: l, r) else None.
Proof. done. Qed.

Lemma hwaddr_from_colon l r : forallb is_byte l = true → l ≠ [] → hwaddr_from (length l) (colon_hex l ++ r) = Some (l, r).
Proof.
  induction l as [|b l IH]; [done|]. cbn [forallb]. intros Hl _. split_andb. destruct l as [|c l].
  - cbn [colon_hex length hwaddr_from]. rewrite hex2byte_hex2, byte_nonneg by done. by rewrite drop_hex2.
  - rewrite colon_hex_cons. rewrite <- app_assoc. cbn [length]. rewrite hwaddr_from_S, hex2byte_hex2, byte_nonneg, drop_hex2 by done.
    change (char_at ((58 :: colon_hex (c :: l)) ++ r) 0 =? 58) with true. change (drop 1 ((58 :: colon_hex (c :: l)) ++ r)) with (colon_hex (c :: l) ++ r).
    cbn [length] in IH. by rewrite IH.
Qed.

Lemma aton2_colon l r : forallb is_byte l = true → aton2_from (length l) (colon_hex l ++ r) = Some (l, r).
Proof.
  assert (∀ b s, is_byte b = true → drop_while (λ c, (c =? 58) || (c =? 46) || (c =? 45)) (hex2 b ++ s) = hex2 b ++ s) as Hdw.
  { intros b s Hb. destruct (byte_digits b Hb) as [H1 _]. pose proof (hexdigit_char _ H1). cbn [hex2 app drop_while].
    destruct (_ || _) eqn:E; [|done]. lia. }
  assert (∀ l r, forallb is_byte l = true → aton2_from (length l) (colon_hex l ++ r) = Some (l, r) ∧
    (l ≠ [] → aton2_from (length l) (58 :: colon_hex l ++ r) = Some (l, r))) as Hall; [|by intros; apply Hall].
  clear l r. induction l as [|b l IH]; [done|]. intros r. cbn [forallb]. intros Hl. split_andb. destruct (IH r ltac:(done)) as [IH1 IH2].
  assert (aton2_from (S (length l)) (colon_hex (b :: l) ++ r) = Some (b :: l, r)) as E.
  { cbn [aton2_from]. destruct l as [|c l].
    - cbn [colon_hex]. rewrite Hdw, hex2byte_hex2, byte_nonneg by done. by rewrite drop_hex2.
    - rewrite colon_hex_cons, <- app_assoc, Hdw, hex2byte_hex2, byte_nonneg, drop_hex2 by done. cbn [app]. by rewrite IH2. }
  split; [done|]. intros _. cbn [length]. rewrite <- E. cbn [aton2_from]. done.
Qed.

(** C38: hostapd reads hardware addresses in each of its formats: with colons,
    without, and with a mask as [hwaddr_mask_txt] prints it (the mask is printed
    when it is not all ones); where no mask is allowed the text is accepted
    exactly when the mask is all ones. *)
Theorem hwaddr_roundtrip addr mask : forallb is_byte addr = true → forallb is_byte mask = true →
  length addr = ETH_ALEN → length mask = ETH_ALEN →
  hwaddr_aton (colon_hex addr) = Some addr ∧
  hwaddr_aton2 (colon_hex addr) = Some (addr, 17) ∧
  hwaddr_compact_aton (concat (hex2 <$> addr)) = Some addr ∧
  ∃ txt, hwaddr_mask_txt 36 addr mask = Some txt ∧ hwaddr_masked_aton txt true = Some (addr, mask) ∧
  hwaddr_masked_aton txt false = (if forallb (λ m, m =? 255) mask then Some (addr, mask) else None).
Proof.
  intros Ha Hm Hla Hlm. assert (addr ≠ []) as Hna by (by destruct addr). assert (mask ≠ []) as Hnm by (by destruct mask).
  assert (∀ r, hwaddr_parse (colon_hex addr ++ r) = Some (addr, r)) as Ep.
  { intros r. unfold hwaddr_parse. rewrite <- Hla. by apply hwaddr_from_colon. }
  assert (∀ l, length l = ETH_ALEN → length (colon_hex l) = 17%nat) as Hlen.
  { intros l Hl. do 6 (destruct l as [|? l]; [done|]). by destruct l. }
  split; [|split; [|split]].
  - unfold hwaddr_aton. specialize (Ep []). rewrite app_nil_r in Ep. by rewrite Ep.
  - unfold hwaddr_aton2. pose proof (aton2_colon addr [] Ha) as E. rewrite app_nil_r, Hla in E. rewrite E. cbn [mbind option_bind].
    by rewrite Hlen.
  - unfold hwaddr_compact_aton. rewrite <- Hla. by apply (hexstr2bin_pairs false).
  - unfold hwaddr_mask_txt. destruct (forallb (λ m, m =? 255) mask) eqn:Ef.
    + rewrite Hlen by done. exists (colon_hex addr). split; [done|]. unfold hwaddr_masked_aton. specialize (Ep []). rewrite app_nil_r in Ep. rewrite Ep.
      assert (mask = replicate ETH_ALEN 255) as ->; [|done]. rewrite <- Hlm. clear -Ef. induction mask as [|x l IH]; [done|]. cbn in *.
      split_andb. to_prop. subst. f_equal. by apply IH.
    + rewrite !length_app, !Hlen by done. exists (colon_hex addr ++ [47] ++ colon_hex mask). split; [done|]. unfold hwaddr_masked_aton.
      rewrite Ep. cbn [mbind option_bind]. change (char_at ([47] ++ colon_hex mask) 0) with 47.
      change (drop 1 ([47] ++ colon_hex mask)) with (colon_hex mask).
      pose proof (hwaddr_from_colon mask [] Hm Hnm) as E. rewrite app_nil_r, Hlm in E. unfold hwaddr_parse. by rewrite E.
Qed.

Lemma hwaddr_roundtrip_witness : let addr := [0; 17; 171; 51; 68; 255] in let mask := [255; 255; 255; 0; 0; 0] in
  hwaddr_aton (colon_hex addr) = Some addr ∧ ∃ txt, hwaddr_mask_txt 36 addr mask = Some txt ∧ hwaddr_masked_aton txt true = Some (addr, mask).
Proof.
  cbv zeta. destruct (hwaddr_roundtrip [0; 17; 171; 51; 68; 255] [255; 255; 255; 0; 0; 0]) as (E & _ & _ & txt & E1 & E2 & _);
    [reflexivity..|]. split; [exact E|]. exists txt. split; [exact E1|exact E2].
Defined.

(** ** Escaped strings read back *)

Definition escaped (data : list Z) : list Z := concat (escape_char <$> data).

Lemma escape_length b : (1 ≤ length (escape_char b) ≤ 4)%nat.
Proof. unfold escape_char. repeat case_match; simpl; lia. Qed.

Lemma to_byte b : is_byte b = true → to_u 8 b = b.
Proof. unfold is_byte. intros Hb. apply to_u_id; [lia|]. unfold u_ok. done. Qed.

Lemma decode_escape b r : is_byte b = true → unescape_char (escape_char b ++ r) = (Some b, r).
Proof.
  intros Hb. unfold escape_char.
  destruct (Z.eqb_spec b 34) as [->|]; [done|]. destruct (Z.eqb_spec b 92) as [->|]; [done|].
  destruct (Z.eqb_spec b 27) as [->|]; [done|]. destruct (Z.eqb_spec b 10) as [->|]; [done|].
  destruct (Z.eqb_spec b 13) as [->|]; [done|]. destruct (Z.eqb_spec b 9) as [->|]; [done|].
  destruct ((32 <=? b) && (b <=? 126)) eqn:E.
  - unfold unescape_char. cbn [app char_at nth]. rewrite (proj2 (Z.eqb_neq b 92)) by done. by rewrite to_byte.
  - assert (∀ s, unescape_char ([92; 120] ++ s) = if hex2byte s <? 0 then
      (if hex2num (char_at s 0) <? 0 then (None, s) else (Some (hex2num (char_at s 0)), drop 1 s)) else (Some (hex2byte s), drop 2 s)) as Ex by done.
    rewrite <- app_assoc, Ex, hex2byte_hex2, byte_nonneg by done. by rewrite drop_hex2.
Qed.

Lemma decode_text_escaped data fuel maxlen len : forallb is_byte data = true →
  (length (escaped data) ≤ fuel)%nat → len + Z.of_nat (length data) < maxlen →
  decode_text fuel maxlen len (escaped data) = Ok data.
Proof.
  revert fuel len. induction data as [|b data IH]; intros fuel len Hd Hf Hl; [by destruct fuel|]. cbn [forallb length] in *. split_andb.
  unfold escaped in *. rewrite fmap_cons in *. cbn [concat] in *. rewrite length_app in Hf. pose proof (escape_length b) as He.
  destruct fuel as [|fuel]; [lia|]. cbn [decode_text]. rewrite (proj2 (Z.leb_gt _ _)) by lia. rewrite decode_escape by done.
  destruct (escape_char b ++ concat (escape_char <$> data)) as [|x l] eqn:E.
  { apply (f_equal length) in E. rewrite length_app in E. simpl in E. lia. }
  rewrite (proj2 (Z.ltb_lt len maxlen)) by lia. cbn [ensure mbind res_bind]. rewrite IH; [done|done|lia|lia].
Qed.

(** Every turn of the decoder takes a character. *)
Lemma unescape_takes c pos : (length (unescape_char (c :: pos)).2 ≤ length pos)%nat.
Proof.
  unfold unescape_char. cbn [char_at nth drop].
  repeat (case_match; cbn [snd]; try (rewrite ?length_drop; cbn [length]; lia)); simplify_eq; cbn [snd];
    repeat case_match; simplify_eq; rewrite ?length_drop; cbn [length]; lia.
Qed.

(** Whatever the text and the size, the decoder stops inside its buffer. *)
Lemma decode_text_bounds fuel maxlen len pos : (length pos ≤ fuel)%nat → 0 ≤ len →
  ∃ out, decode_text fuel maxlen len pos = Ok out ∧ (out = [] ∨ len + Z.of_nat (length out) < maxlen).
Proof.
  revert len pos. induction fuel as [|fuel IH]; intros len pos Hf Hl; (destruct pos as [|c pos]; [exists []; split; [done|by left]|]);
    cbn [length] in Hf; [lia|]. cbn [decode_text]. destruct (Z.leb_spec maxlen (len + 1)); [exists []; split; [done|by left]|].
  pose proof (unescape_takes c pos) as Ht. destruct (unescape_char (c :: pos)) as [[b|] r]; cbn [snd] in Ht.
  - rewrite (proj2 (Z.ltb_lt _ _)) by lia. cbn [ensure mbind res_bind]. destruct (IH (len + 1) r) as (out & -> & Ho); [lia..|].
    exists (b :: out). split; [done|]. right. cbn [length]. destruct Ho as [->|]; cbn [length] in *; lia.
  - apply IH; lia.
Qed.

Lemma encode_chars_fits data room : 4 * Z.of_nat (length data) < room →
  encode_chars room data = (escaped data, room - Z.of_nat (length (escaped data))) ∧
  Z.of_nat (length (escaped data)) ≤ 4 * Z.of_nat (length data).
Proof.
  revert room. induction data as [|b data IH]; intros room Hr; [cbn; split; [f_equal; lia|lia]|]. cbn [length] in Hr.
  pose proof (escape_length b) as He. unfold escaped in *. rewrite fmap_cons. cbn [encode_chars concat length].
  rewrite (proj2 (Z.leb_gt _ _)) by lia. destruct (IH (room - Z.of_nat (length (escape_char b)))) as [-> Hlen]; [lia|].
  rewrite length_app. split; [f_equal; lia|lia].
Qed.

(** Whatever its size, the buffer is not overrun. *)
Lemma encode_chars_bounds data room : 0 < room → 0 < (encode_chars room data).2 ∧
  Z.of_nat (length (encode_chars room data).1) + (encode_chars room data).2 = room.
Proof.
  revert room. induction data as [|b data IH]; intros room Hr; [done|]. cbn [encode_chars]. destruct (Z.leb_spec room 4); [done|].
  pose proof (escape_length b) as He. destruct (IH (room - Z.of_nat (length (escape_char b)))) as [H1 H2]; [lia|].
  destruct (encode_chars (room - _) data) as [t r]. cbn [fst snd] in *. rewrite length_app. lia.
Qed.

Lemma quoted_snoc s : quoted (s ++ [34]) = Some s.
Proof. unfold quoted. rewrite last_snoc, length_app. cbn [length Z.eqb Pos.eqb]. rewrite take_app_length'; [done|lia]. Qed.

Lemma pair_head u b : is_byte b = true → hex2num (char_at (hex_pair u b) 0) ≠ -1 ∧ length (hex_pair u b) = 2%nat.
Proof. intros Hb. destruct (byte_digits b Hb) as [H1 _]. destruct (hex2num_digit _ H1) as [E1 E2]. destruct u; (split; [cbn; lia|done]). Qed.

Lemma pairs_length u data : length (concat (hex_pair u <$> data)) = (length data * 2)%nat.
Proof. induction data as [|b data IH]; [done|]. rewrite fmap_cons. cbn [concat length]. rewrite length_app, IH. by destruct u. Qed.

Lemma parse_digits u data : forallb is_byte data = true → wpa_config_parse_string (concat (hex_pair u <$> data)) = Ok (Some data).
Proof.
  intros Hd. assert (char_at (concat (hex_pair u <$> data)) 0 ≠ 34 ∧ char_at (concat (hex_pair u <$> data)) 0 ≠ 80) as [N1 N2].
  { destruct data as [|b data']; [done|]. cbn [forallb] in Hd. split_andb. destruct (pair_head u b ltac:(done)) as [Hh _].
    rewrite fmap_cons. cbn [concat]. assert (char_at (hex_pair u b ++ concat (hex_pair u <$> data')) 0 = char_at (hex_pair u b) 0) as -> by (by destruct u).
    split; intros Ec; rewrite Ec in Hh; done. }
  unfold wpa_config_parse_string. rewrite (proj2 (Z.eqb_neq _ _) N1), (proj2 (Z.eqb_neq _ _) N2). cbn [andb].
  rewrite pairs_length, Nat.odd_mul. cbn [Nat.odd Nat.even negb]. rewrite andb_false_r, Nat.div_mul by done. by rewrite hexstr2bin_pairs.
Qed.

(** C19: the three ways to write a string in a configuration file are read back:
    in quotation marks as it is, when there is no NUL in it, with [P] and escapes
    as hostapd prints it, and as hexadecimal digits of either case. The three
    routines that fill a buffer, [printf_encode], [printf_decode] and
    [wpa_snprintf_hex], stay inside it whatever the data and the size (one byte
    at least for [printf_encode], which always stores a NUL), and the buffer of
    [wpa_ssid_txt] holds every SSID. *)
Theorem config_string_roundtrip data maxlen u : forallb is_byte data = true → 4 * Z.of_nat (length data) < maxlen < 2 ^ 64 → ∃ text,
  printf_encode maxlen data = Ok text ∧
  (∀ m, Z.of_nat (length data) < m → printf_decode m text = Ok data) ∧
  wpa_config_parse_string ([80; 34] ++ text ++ [34]) = Ok (Some data) ∧
  (0 ∉ data → wpa_config_parse_string ([34] ++ data ++ [34]) = Ok (Some data)) ∧
  (∃ digits, wpa_snprintf_hex_ (2 * Z.of_nat (length data) + 1) data u = Ok digits ∧ wpa_config_parse_string digits = Ok (Some data)) ∧
  (Z.of_nat (length data) ≤ SSID_MAX_LEN → wpa_ssid_txt (Some data) = Ok text) ∧
  (∀ other n, 0 < n → ∃ t, printf_encode n other = Ok t ∧ Z.of_nat (length t) < n) ∧
  (∀ str n, ∃ t, printf_decode n str = Ok t ∧ (t = [] ∨ Z.of_nat (length t) < n)) ∧
  (∀ other n, 0 ≤ n < 2 ^ 64 → ∃ t, wpa_snprintf_hex_ n other u = Ok t ∧ (t = [] ∨ Z.of_nat (length t) < n)).
Proof.
  intros Hd Hl. destruct (encode_chars_fits data maxlen ltac:(lia)) as [E Hlen]. exists (escaped data).
  assert (∀ m, Z.of_nat (length data) < m → printf_decode m (escaped data) = Ok data) as Hdec by (intros; by apply decode_text_escaped).
  assert (Z.of_nat (length data) ≤ Z.of_nat (length (escaped data))) as Hge.
  { clear. unfold escaped. induction data as [|b data IH]; [done|]. rewrite fmap_cons. cbn [concat length]. rewrite length_app. pose proof (escape_length b). lia. }
  split_and!.
  - unfold printf_encode. rewrite E. by rewrite (proj2 (Z.ltb_lt _ _)) by lia.
  - done.
  - change (wpa_config_parse_string ([80; 34] ++ escaped data ++ [34])) with
      (match quoted (escaped data ++ [34]) with None => Ok None | Some tstr => str ← printf_decode (Z.of_nat (length tstr) + 1) tstr; Ok (Some str) end).
    rewrite quoted_snoc. by rewrite Hdec by lia.
  - intros _. change (wpa_config_parse_string ([34] ++ data ++ [34])) with (Ok (quoted (data ++ [34]))). by rewrite quoted_snoc.
  - exists (concat (hex_pair u <$> data)). unfold wpa_snprintf_hex_. rewrite (proj2 (Z.eqb_neq _ _)) by lia. split; [apply hex_pairs_all; lia|].
    by apply parse_digits.
  - intros Hs. unfold wpa_ssid_txt, printf_encode. destruct (encode_chars_fits data (SSID_MAX_LEN * 4 + 1)) as [E' _]; [lia|].
    rewrite E'. by rewrite (proj2 (Z.ltb_lt _ _)) by lia.
  - intros other n Hn. destruct (encode_chars_bounds other n Hn) as [H1 H2]. unfold printf_encode.
    destruct (encode_chars n other) as [t r]. cbn [fst snd] in *. rewrite (proj2 (Z.ltb_lt _ _)) by lia. exists t. split; [done|lia].
  - intros str n. destruct (decode_text_bounds (length str) n 0 str) as (t & E' & Ht); [lia..|]. by exists t.
  - intros other n Hn. unfold wpa_snprintf_hex_. destruct (Z.eqb_spec n 0); [exists []; split; [done|by left]|].
    destruct (hex_pairs_bounds u other n) as (t & E' & Ht); [lia|]. exists t. split; [done|by right].
Qed.

Lemma config_string_roundtrip_witness : let data := [101; 34; 0; 10; 200; 92] in ∃ text,
  printf_encode 25 data = Ok text ∧ wpa_config_parse_string ([80; 34] ++ text ++ [34]) = Ok (Some data).
Proof.
  cbv zeta. destruct (config_string_roundtrip [101; 34; 0; 10; 200; 92] 25 false) as (text & E1 & _ & E2 & _);
    [reflexivity|split; reflexivity|]. exists text. split; [exact E1|exact E2].
Defined.

(** ** Single quotation marks read back *)

Lemma unescape_escape inp r n t r' m : utf8_escape_from inp r n = Some t → r' + Z.of_nat (length inp) ≤ m →
  utf8_unescape_from t r' m = Some inp.
Proof.
  revert r t r'. induction inp as [|c inp IH]; intros r t r'; cbn [utf8_escape_from length]; [by intros [= <-]|].
  destruct (Z.leb_spec n r); [done|]. destruct ((c =? 92) || (c =? 39)) eqn:Ec.
  - destruct (Z.leb_spec n (r + 1)); [done|]. destruct (utf8_escape_from inp (r + 2) n) as [l|] eqn:E; [|done]. intros [= <-] Hm.
    cbn [utf8_unescape_from]. rewrite (proj2 (Z.leb_gt _ _)) by lia. cbn [Z.eqb Pos.eqb]. by rewrite (IH _ _ _ E) by lia.
  - destruct (utf8_escape_from inp (r + 1) n) as [l|] eqn:E; [|done]. intros [= <-] Hm. apply orb_false_iff in Ec as [E1 E2].
    cbn [utf8_unescape_from]. rewrite (proj2 (Z.leb_gt _ _)) by lia. rewrite E1, E2. by rewrite (IH _ _ _ E) by lia.
Qed.

Lemma escape_head inp r n t : utf8_escape_from inp r n = Some t → char_at t 0 ≠ 39.
Proof.
  destruct inp as [|c inp]; cbn [utf8_escape_from]; [by intros [= <-]|]. case_match; [done|]. destruct ((c =? 92) || (c =? 39)) eqn:Ec.
  - case_match; [done|]. destruct (utf8_escape_from inp _ n); [|done]. by intros [= <-].
  - destruct (utf8_escape_from inp _ n); [|done]. intros [= <-]. apply orb_false_iff in Ec as [_ Ec]. cbn. lia.
Qed.

(** What [utf8_escape] writes, [utf8_unescape] reads back, in a buffer that has
    room for the string. *)
Theorem utf8_roundtrip inp n t m : utf8_escape inp n = Some t → Z.of_nat (length inp) ≤ m → utf8_unescape t m = Some inp.
Proof.
  intros E Hm. unfold utf8_unescape. rewrite (proj2 (Z.eqb_neq _ _) (escape_head _ _ _ _ E)). by eapply unescape_escape.
Qed.

(** ** Numbers sorted and without repetitions *)

Fixpoint no_repeats (l : list Z) : list Z :=
  match l with
  | [] => []
  | x :: l' => match l' with [] => [x] | y :: _ => if x =? y then no_repeats l' else x :: no_repeats l' end
  end.

Lemma no_repeats_cons x y l : no_repeats (x :: y :: l) = if x =? y then no_repeats (y :: l) else x :: no_repeats (y :: l).
Proof. done. Qed.

Lemma no_repeats_elem x l : x ∈ no_repeats l ↔ x ∈ l.
Proof.
  induction l as [|y l IH]; [done|]. destruct l as [|z l]; [done|]. rewrite no_repeats_cons. destruct (Z.eqb_spec y z) as [->|].
  - rewrite IH. set_solver.
  - rewrite elem_of_cons, IH. set_solver.
Qed.

Lemma no_repeats_sorted l : StronglySorted Z.le l → StronglySorted Z.lt (no_repeats l).
Proof.
  induction l as [|y l IH]; intros Hs; [constructor|]. destruct l as [|z l]; [repeat constructor|].
  apply StronglySorted_inv in Hs as [Hs Hy]. rewrite no_repeats_cons. destruct (Z.eqb_spec y z); [by apply IH|].
  constructor; [by apply IH|]. apply Forall_forall. intros x Hx. rewrite no_repeats_elem in Hx. apply StronglySorted_inv in Hs as [_ Hz].
  rewrite Forall_forall in Hz. apply Forall_cons in Hy as [Hyz _]. apply elem_of_cons in Hx as [->|Hx]; [lia|]. specialize (Hz x Hx). lia.
Qed.

Lemma no_repeats_length l : (length (no_repeats l) ≤ length l)%nat.
Proof. induction l as [|y l IH]; [done|]. destruct l as [|z l]; [done|]. rewrite no_repeats_cons. case_match; simpl in *; lia. Qed.

Lemma index_at {A} (l1 l2 : list A) x i : i = length l1 → index (l1 ++ x :: l2) i = Ok x.
Proof. intros ->. unfold index. by rewrite list_lookup_middle. Qed.

(** The loop in place: numbers taken over, numbers left behind, and those still
    to come. *)
Lemma unique_loop_spec r fuel p x g tl : x ≠ 0 → Forall (λ y, y ≠ 0) r → (length r < fuel)%nat → ∃ rest,
  unique_loop fuel (p ++ x :: g ++ r ++ 0 :: tl) (length p) (length p + 1 + length g) =
    Ok ((p ++ no_repeats (x :: r)) ++ rest, (length p + length (no_repeats (x :: r)) - 1)%nat) ∧
  length ((p ++ no_repeats (x :: r)) ++ rest) = length (p ++ x :: g ++ r ++ 0 :: tl).
Proof.
  revert fuel p x g. induction r as [|y r IH]; intros fuel p x g Hx Hr Hf; (destruct fuel as [|fuel]; [simpl in Hf; lia|]);
    cbn [unique_loop]; rewrite (index_at p _ x (length p) eq_refl); cbn [mbind res_bind]; rewrite (proj2 (Z.eqb_neq x 0)) by done.
  - assert (index (p ++ x :: g ++ [] ++ 0 :: tl) (length p + 1 + length g) = Ok 0) as ->.
    { change (p ++ x :: g ++ [] ++ 0 :: tl) with (p ++ (x :: g) ++ 0 :: tl). rewrite app_assoc. apply index_at. rewrite length_app. simpl. lia. }
    cbn. exists (g ++ 0 :: tl). split; [|by rewrite <- app_assoc]. rewrite <- app_assoc. cbn. do 2 f_equal. lia.
  - apply Forall_cons in Hr as [Hy Hr]. simpl in Hf.
    assert (index (p ++ x :: g ++ (y :: r) ++ 0 :: tl) (length p + 1 + length g) = Ok y) as ->.
    { change (p ++ x :: g ++ (y :: r) ++ 0 :: tl) with (p ++ (x :: g) ++ y :: r ++ 0 :: tl). rewrite app_assoc. apply index_at. rewrite length_app. simpl. lia. }
    cbn [mbind res_bind]. rewrite (proj2 (Z.eqb_neq y 0)) by done. rewrite no_repeats_cons. destruct (Z.eqb_spec x y) as [->|Hxy].
    + destruct (IH fuel p y (g ++ [y]) Hy Hr ltac:(lia)) as (rest & E & El). exists rest.
      rewrite length_app in E. replace (length p + 1 + (length g + length [y]))%nat with (S (length p + 1 + length g)) in E by (simpl; lia).
      rewrite <- (app_assoc g) in E, El. cbn [app] in E, El. split; [exact E|exact El].
    + assert (∃ g', <[S (length p) := y]> (p ++ x :: g ++ (y :: r) ++ 0 :: tl) = (p ++ [x]) ++ y :: g' ++ r ++ 0 :: tl ∧ length g' = length g) as (g' & Eg & Hg).
      { assert (S (length p) = length (p ++ [x]) + 0)%nat as -> by (rewrite length_app; simpl; lia).
        assert (p ++ x :: g ++ (y :: r) ++ 0 :: tl = (p ++ [x]) ++ g ++ (y :: r) ++ 0 :: tl) as -> by (rewrite <- app_assoc; reflexivity).
        rewrite insert_app_r. destruct g as [|z g]; [by exists []|]. exists (g ++ [y]).
        split; [|rewrite length_app; simpl; lia]. rewrite <- (app_assoc g [y]). reflexivity. }
      rewrite Eg. destruct (IH fuel (p ++ [x]) y g' Hy Hr ltac:(lia)) as (rest & E & El). exists rest.
      rewrite !length_app in E. cbn [length] in E. rewrite Hg in E.
      replace (length p + 1)%nat with (S (length p)) in E by lia. replace (S (length p) + 1 + length g)%nat with (S (length p + 1 + length g)) in E by lia.
      rewrite E. rewrite <- !app_assoc. cbn [app length]. split; [do 2 f_equal; lia|].
      rewrite <- !app_assoc in El. cbn [app] in El. rewrite El. clear -Hg. repeat (rewrite length_app; cbn [length]). lia.
Qed.

Lemma zero_at_app l tl : Forall (λ y, y ≠ 0) l → zero_at (l ++ 0 :: tl) = Ok (length l).
Proof.
  induction 1 as [|x l Hx _ IH]; [done|]. cbn [app zero_at length]. rewrite (proj2 (Z.eqb_neq x 0)) by done. by rewrite IH.
Qed.

(** On frequencies, which are positive, [freq_cmp] gives the order of numbers. *)
Lemma freq_cmp_positive a b : 0 < a → 0 < b → s_ok 32 a = true → s_ok 32 b = true → freq_cmp a b = Ok (a - b).
Proof.
  intros Ha Hb Ha' Hb'. unfold freq_cmp. rewrite !(proj2 (Z.eqb_neq _ 0)) by lia.
  replace (s_ok 32 (a - b)) with true; [done|]. unfold s_ok in *. lia.
Qed.

Section same_sort.
Context {A} (R S : relation A) `{!RelDecision R, !RelDecision S} (P : A → Prop) (R_S : ∀ x y, P x → P y → R x y ↔ S x y).

(** Sorting by two relations that agree on the entries at hand. *)
Lemma list_merge_same l1 l2 : Forall P l1 → Forall P l2 → list_merge R l1 l2 = list_merge S l1 l2.
Proof.
  intros P1. revert l2. induction P1 as [|x l1 Px P1 IH1]; intros l2 P2; [by destruct l2|].
  induction P2 as [|y l2 Py P2 IH2]; [done|]. rewrite !list_merge_cons, IH2.
  rewrite (IH1 (y :: l2)) by (by constructor). specialize (R_S x y Px Py).
  destruct (decide (R x y)), (decide (S x y)); [done|tauto|tauto|done].
Qed.

Lemma merge_all_Forall l1 l2 : Forall P l1 → Forall P l2 → Forall P (list_merge R l1 l2).
Proof. intros. rewrite merge_Permutation. by apply Forall_app. Qed.

Lemma merge_list_to_stack_same st l : Forall (from_option (Forall P) True) st → Forall P l →
  merge_list_to_stack R st l = merge_list_to_stack S st l ∧ Forall (from_option (Forall P) True) (merge_list_to_stack R st l).
Proof.
  intros Hst. revert l. induction Hst as [|[l'|] st Hl Hst IH]; intros l Pl; cbn [merge_list_to_stack].
  - split; [done|by repeat constructor].
  - destruct (IH (list_merge R l' l)) as [E F]; [by apply merge_all_Forall|].
    rewrite <- list_merge_same by done. rewrite <- E. split; [done|by constructor].
  - split; [done|by constructor].
Qed.

Lemma merge_stack_same st : Forall (from_option (Forall P) True) st → merge_stack R st = merge_stack S st ∧ Forall P (merge_stack R st).
Proof.
  induction 1 as [|[l|] st Hl Hst [E F]]; cbn [merge_stack]; [done| |done].
  rewrite <- E. split; [by apply list_merge_same|by apply merge_all_Forall].
Qed.

Lemma merge_sort_same l : Forall P l → merge_sort R l = merge_sort S l.
Proof.
  unfold merge_sort. generalize (Forall_nil_2 (from_option (Forall P) True)). generalize (@nil (option (list A))). intros st Hst Hl.
  revert st Hst. induction Hl as [|x l Hx Hl IH]; intros st Hst; cbn [merge_sort_aux]; [by destruct (merge_stack_same st Hst)|].
  destruct (merge_list_to_stack_same st [x]) as [E F]; [done|by repeat constructor|]. rewrite <- E. by apply IH.
Qed.
End same_sort.

Lemma qsort_freq_positive l : Forall (λ x, 0 < x ∧ s_ok 32 x = true) l → qsort_freq l = Ok (merge_sort Z.le l).
Proof.
  intros Hl. unfold qsort_freq. rewrite (merge_sort_same freq_before Z.le (λ x, 0 < x ∧ s_ok 32 x = true)); [|  |done].
  2: { intros x y [H1 H2] [H3 H4]. unfold freq_before. rewrite freq_cmp_positive by done. lia. }
  rewrite Forall_forall in Hl. rewrite (proj2 (forallb_forall _ _)); [done|].
  intros a Ha. apply forallb_forall. intros b Hb. rewrite <- list_elem_of_In in Ha, Hb. destruct (Hl a Ha), (Hl b Hb).
  unfold compares. by rewrite freq_cmp_positive.
Qed.

(** C20: Sorting an array of frequencies, positive numbers of type [int], in place
    with [freq_cmp] gives the numbers in it in strictly increasing order, each
    once, ended by a 0 in the storage of the array. *)
Theorem int_array_sort_unique_spec xs tl : Forall (λ x, 0 < x ∧ s_ok 32 x = true) xs →
  ∃ out us, int_array_sort_unique (xs ++ 0 :: tl) = Ok out ∧ length out = length (xs ++ 0 :: tl) ∧
  int_array_len (Some out) = Ok (length us) ∧ take (length us) out = us ∧
  StronglySorted Z.lt us ∧ ∀ x, x ∈ us ↔ x ∈ xs.
Proof.
  intros Hp. assert (Forall (λ y, y ≠ 0) xs) as Hn by (eapply Forall_impl; [exact Hp|]; simpl; lia).
  pose proof (merge_sort_Permutation Z.le xs) as Pm. pose proof (StronglySorted_merge_sort Z.le xs) as Ss.
  unfold int_array_sort_unique. rewrite zero_at_app by done. cbn [mbind res_bind].
  rewrite take_app_length, drop_app_length, qsort_freq_positive by done. cbn [mbind res_bind].
  set (ss := merge_sort Z.le xs) in *. assert (Forall (λ y, y ≠ 0) ss) as Hs by (by rewrite Pm).
  assert (length ss = length xs) as Hl by (by rewrite Pm). destruct ss as [|x r] eqn:Es.
  - destruct xs; [|done]. exists (0 :: tl), []. repeat split; try done. constructor.
  - apply Forall_cons in Hs as [Hx Hr].
    destruct (unique_loop_spec r (length ((x :: r) ++ 0 :: tl)) [] x [] tl Hx Hr) as (rest & E & El).
    { rewrite length_app. simpl. lia. }
    change (unique_loop _ _ 0 1) with (unique_loop (length ((x :: r) ++ 0 :: tl)) ([] ++ x :: [] ++ r ++ 0 :: tl) (length (@nil Z)) (length (@nil Z) + 1 + length (@nil Z))).
    rewrite E. cbn [mbind res_bind].
    cbn [app length Nat.add] in *. rewrite !length_app in El. cbn [length] in El. pose proof (no_repeats_length (x :: r)) as Hlen.
    pose proof (no_repeats_sorted _ Ss) as Hsu. assert (∀ z, z ∈ no_repeats (x :: r) ↔ z ∈ xs) as Hin by (intros z; by rewrite no_repeats_elem, Pm).
    assert (no_repeats (x :: r) ≠ []) as Hne.
    { intros E0. assert (x ∈ no_repeats (x :: r)) as H by (rewrite no_repeats_elem; left). rewrite E0 in H. by apply not_elem_of_nil in H. }
    generalize dependent (no_repeats (x :: r)). intros us _ El Hlen Hsu Hin Hne. destruct rest as [|w rest]; [simpl in *; lia|].
    destruct (exists_last Hne) as (us0 & z & ->). rewrite length_app in *. cbn [length] in *. rewrite <- app_assoc. cbn [app].
    rewrite index_at by lia. cbn [mbind res_bind]. assert (z ≠ 0) as Hz.
    { rewrite Forall_forall in Hn. apply Hn, Hin, elem_of_app. right. left. }
    rewrite (proj2 (Z.eqb_neq z 0)) by done. rewrite bool_decide_true by (rewrite length_app; simpl; lia).
    replace (S (length us0 + 1 - 1)) with (length (us0 ++ [z]) + 0)%nat by (rewrite length_app; simpl; lia).
    rewrite (app_assoc us0 [z] (w :: rest) : us0 ++ z :: w :: rest = _), insert_app_r. cbn [insert list_insert].
    exists ((us0 ++ [z]) ++ 0 :: rest), (us0 ++ [z]). rewrite take_app_length. repeat split; try done; try apply Hin.
    + rewrite !length_app. simpl. lia.
    + cbn [int_array_len]. rewrite zero_at_app; [by rewrite length_app|]. rewrite Forall_forall. rewrite Forall_forall in Hn. intros y Hy. by apply Hn, Hin.
Qed.

Lemma int_array_sort_unique_spec_witness : ∃ out us, int_array_sort_unique [5180; 2412; 5180; 2437; 2412; 0; 7] = Ok out ∧
  length out = 7%nat ∧ int_array_len (Some out) = Ok (length us) ∧ take (length us) out = us ∧
  StronglySorted Z.lt us ∧ ∀ x, x ∈ us ↔ x ∈ [5180; 2412; 5180; 2437; 2412].
Proof.
  apply (int_array_sort_unique_spec [5180; 2412; 5180; 2437; 2412] [7]). repeat constructor; lia.
Defined.
